(* ===== verification/_CoqProject ===== *)
-Q . S2P
Prelude.v
PQueue.v
Line.v
Fifo.v
Lru.v
ChModel.v
Ssd.v
Geometry.v
Lines.v
Pages.v
Place.v
Cache.v
WorkQueue.v
Queues.v
Prp.v
Heap.v
Pairs.v
Append.v
Kv.v
Directory.v
Lookup.v
Opening.v
Storing.v
Device.v
Deleting.v
Overwriting.v
Sample.v
Gc.v
Relocate.v
Collect.v
Cleaning.v
Victim.v
Sweep.v
Rounds.v
Reclaim.v
System.v
SampleGc.v
Setup.v
Admin.v
