(* ===== verification/Prelude.v ===== *)
(** * virtkv: a verification library for a virtual key-value SSD

    virtkv ([src/nvmevirt/]) is a kernel module that shows the host a PCIe
    NVMe device which does not exist: a piece of reserved memory is the flash,
    and the module computes when each operation would have finished on the real
    device.  Its translation layer stores key-value pairs: a hash of the key
    leads to an entry of a mapping table, the table is cached by sections and
    written to flash, and the pairs are packed into flash pages in units of
    grains.

    ** The parts of the program and how they interact

    One kernel thread, the dispatcher, polls the registers and the doorbells
    ([main.c], [pci.c]).  A doorbell of the admin queue goes to [admin.c]; a
    doorbell of an I/O submission queue goes to [io.c], which hands each command
    to the translation layer ([demand_ftl.c]).  The translation layer asks the
    flash model ([ssd.c], over [channel_model.c]) when the operation is over.
    [io.c] then sorts the command by that time into the work queue of an I/O
    worker; the worker's thread moves the data, waits until the target time has
    come, posts the completion and raises the interrupt.

    ** Which file models which part

    - [Prelude.v]: machine integers, the result monad with its faults, memories
      as functions, tactics and the lemmas on lists and sequences that the other
      files share.
    - [PQueue.v]: [pqueue/pqueue.c], the heap of lines with invalid grains.  The
      callbacks given to [pqueue_init] are the class [PQOps] and what the heap
      needs of them the class [PQLaws]; [Line.v] is the instance that
      [demand_ftl.c] installs.
    - [Fifo.v], [Lru.v]: [fifo.c], the ring of mapping-table sections waiting for
      eviction, and [lru.c], the list of append buffers.
    - [ChModel.v], [Ssd.v]: [channel_model.c] and [ssd.c], the time a transfer
      takes on a channel with limited bandwidth, and the time an operation takes
      on the tree of channels, LUNs, planes and blocks.
    - [Geometry.v]: the part of [demand_ftl.c] that encodes page addresses and
      walks them in the writing order.
    - [Lines.v]: the part of [demand_ftl.c] that hands out pages, marks grains
      valid and invalid, and moves superblocks between the free list, the full
      list and the victim queue.
    - [Pages.v], [Place.v]: what the page operations of [Lines.v] leave unchanged,
      and the position of a write pointer in the middle of a page, which stores
      and the collector share.
    - [Cache.v]: [cache.c] and its users in [demand_ftl.c]: the sections of the
      mapping table in DRAM and on flash, the hash probes, the threads that choose
      and write out victims.
    - [WorkQueue.v]: the queue of an I/O worker in [io.c], an array threaded by
      two linked lists.
    - [Queues.v]: the submission and completion queues in [io.c].
    - [Prp.v]: the data transfer of [io.c], by memory copies and by DMA.
    - [Heap.v], [Pairs.v], [Append.v]: the blocks of kernel memory that hold the
      pairs, the pages they take on flash, and the append buffers.
    - [Kv.v]: the key-value commands of [demand_ftl.c], [kv_proc_nvme_io_cmd] with
      everything below it.
    - [Directory.v], [Lookup.v], [Opening.v], [Storing.v], [Device.v],
      [Deleting.v], [Overwriting.v]: the finite map that a state of the device
      stands for ([Device.holds]) and what retrieves, stores of new keys, deletes
      and stores over stored keys do to it, from the command to the worker's copy
      and the callback; [Opening.v] is the first use of a section of the table and
      of the line of the stores.
    - [Gc.v]: the collector, [do_gc] and the background thread.  [Relocate.v] is
      the copy of one pair, [Collect.v] the step from a pair on flash to the table,
      [Cleaning.v] one grain, [Victim.v] what a collection does to its victim,
      [Sweep.v] one flash page, [Rounds.v] all blocks of the line and [Reclaim.v]
      the whole, with the map.
    - [System.v]: sequences of commands and collections against the map.
    - [Setup.v]: [conv_init_namespace] and what it calls.
    - [Sample.v], [SampleGc.v]: concrete devices, on which the theorems of these
      files are applied.
    - [Admin.v]: [admin.c], [nvmev_proc_bars] of [pci.c] and the dispatcher of
      [main.c].

    The definitions carry the names of the C functions.  A part of a function
    that has a name of its own here (a loop, a branch) is a definition just
    before it.  A [struct] is a [Record] with its fields' names, an array is a
    function from its indices or a list, a pointer into an array is the index.
    A C integer is a [Z]; where the source computes at a width the model wraps at
    that width ([u8] ... [i32] below).  A function that can dereference [NULL],
    leave an array or reach [NVMEV_ASSERT] returns in the monad [M] below, and the
    theorems say when no fault occurs and, in some cases, when one does.  Locks:
    a function whose body is bracketed by a lock is one step of the model.  The
    work queue, on which dispatcher and worker race without a lock, and the
    posting of a completion, which reads before it locks, are split at the points
    where the other side can come in, and are step relations.

    ** What the theorems show

    - The heap refines a bag of elements with their priorities; the FIFO refines
      a bounded queue; the LRU list refines a list of keys with its evictions.
    - A request to a channel takes its credits from the first slots that have
      them, and the delay it returns is the number of slots it had to wait for.
      The flash model computes the times documented for reads, writes and
      erases, keeps the ledger of the write buffer.
    - The writing order visits every page of a line exactly once and comes back
      to the first page; the encodings of page addresses are inverse to each
      other.  The write pointer follows this order, a line leaves the free list
      when it is opened and enters the victim queue or the full list when it is
      closed; the counts of valid and invalid grains agree with the bitmap.
    - The work queue, under every interleaving of dispatcher and worker, keeps
      the two lists disjoint, complete and sorted by target time, and every
      request is completed after its target time and not twice; a pass of the
      worker completes all that are due.
    - A command of the host is dispatched once and in ring order; a completion
      appears in the next entry with the right phase tag; the transfers move
      exactly the bytes of the host's buffer.  Admin commands are answered in
      order, and four turns of the dispatcher bring a fresh controller up.
    - The mapping cache is transparent: whatever the dispatcher, the eviction
      thread and the workers do, only updates change the table.  The probes for a
      key end, and an eviction writes a section to the next page of the map line.
    - The device is a finite map ([Device.v], [Deleting.v], [Overwriting.v]): a
      store of a new key adds the host's bytes, a store of an old one replaces
      them and gives its grains up, a retrieve gives them back through whatever
      pages the host names, a delete removes the key and gives its block and grains
      back, and every other pair is as before; absent keys and small buffers are
      refused.  Each command states the time it may take.
    - Garbage collection keeps the map ([Reclaim.v]): it ends without a fault, the
      live pairs of the victim are elsewhere, the table leads to them, the victim
      is erased and the last of the free lines.
    - Sequences of stores, overwrites, retrieves, deletes and collections refine
      the finite map ([System.run_refines]); set-up leaves a device that holds the empty map
      ([Setup.conv_init_namespace_correct]), and the first store after it leaves
      one that holds its pair and nothing else ([Setup.first_store_correct]).
    - Several theorems show what goes wrong: two workers that complete at once
      lose a completion ([Queues.completion_race]), a command is dropped when the
      work queue is full, a lock is leaked on an early return, a stored key is
      hidden by the delete of another, and so on.

    ** The scope of the theorems on the map

    They are about commands during which no section of the table is evicted
    ([Directory.roomy]): the cache has room for the sections that the probes of
    the command load, or for the whole table; the table itself may exceed it, as
    it does with the parameters of the README ([Setup.v]).  The dispatcher evicts
    in [make_room], which is modelled and is the subject of [Cache.evict_one_correct]
    and [Cache.cache_transparent], but not yet part of the map.  The table has at
    most as many sections as the FIFO has places ([so_fifo] of [Directory.sound],
    599999 sections, a device of some 300 GB).  No foreground collection is due
    ([credits_left]; for stores, enough free lines), no append buffer has the key,
    and latencies and clocks stay below 2^62 ns.  The pair of a delete and the old
    pair of an overwrite lie in one flash page ([Deleting.removable]): over several
    pages the source's accounts go wrong ([Lines.full_line_queued_twice]).  The
    entry of a deleted pair must not be probed by another stored key
    ([Deleting.lonely]); what happens otherwise is [Deleting.delete_hides_keys].
    Retrieves stay where the source reads safely ([Directory.readable]).  A
    collection has a victim, a line of pairs, the live ones of which fit into the
    collector's line ([Reclaim.gc_ready]); the time [do_gc] returns is the one of the last erase
    and leaves out the write that closes the collector's page.

    ** Bounds and fuel

    Loops that are not structural run on fuel, and running out is the fault
    [HANG], which the theorems exclude: they state a result [Ok].  The walks of
    the work queue have [queue_fuel] = 16385 steps, one more than the entries of
    the array; the copy loop has [kv_fuel], one step more than the bytes to move,
    each step moving one at least; the completion accounting has [cq_fuel], two
    laps of the ring; a channel request has one step for each slot of the ring,
    [take_fuel]; a read of [n] bytes one step for each transfer, [read_fuel].  The
    loops over the heap have its size.

    In the translation layer, [probe_fuel] = 1030 covers the probes that are
    skipped because they fall on the first 1025 entries, two of which are at
    least two entries apart; [store_fuel] is the number of entries of the table
    and [retrieve_fuel] two more than the longest probe sequence so far; the loops
    that skip page 0 ([take_map_page], [__new_page], [__new_gc_ppa]) and
    [evict_loop] run twice, since page 0 is met once and one section is evicted for
    each that is loaded; a store makes at most three passes ([store_passes]): flush
    a buffer, take a new one, insert; loops over the pages of a pair have one step
    for each byte or grain that is left; the grains of a page are eight
    ([clean_grains], [clear_loop]).  These are not bounds of the source but of the
    model, and each is shown to be enough for the invariants the theorems assume.
    The batch loop has [batch_fuel] = 4097 rounds: past that many, an offset in its
    buffer of 4096 bytes has come a second time.

    ** What is not modelled, and why

    The kernel's own services (page mappings, ioremap, threads, the APIC, [/proc]
    files, the DMA engine behind [dma.c]) are calls out of the repository: where
    a modelled function uses one, it is a parameter; [kmalloc] is the class
    [Heap.Allocator] with the laws [AllocatorLaws].  The configuration space of the
    device ([pci.c]), module parameters, statistics and the teardown, which only
    frees memory, are left out, and so is the fast fill, a benchmark aid.  The NVMe
    driver under [drivers/] is a patched copy of the Linux one and runs on the
    host.  The programs under [examples/] are benchmarks.  [city.c] is a hash
    function, of which the translation layer needs no property: it is a parameter.
    [twolevel.c] belongs to a build this one excludes: the model is of the build
    with [ORIGINAL] and the configuration [SAMSUNG_970PRO_HASH_DFTL].

    A collection is one step between two commands.  The source takes a lock for
    each operation on the lines, the cache and the flash, and the dispatcher can
    run in between; the work queue, the completion queues and the cache are
    the parts whose interleavings are modelled.

    The append, batch and flush commands are modelled, without a theorem on what
    they do to the map.  A collection of a map line is modelled, without one on
    the whole of it. *)

From Stdlib Require Export ZArith Lia Bool.
From stdpp Require Export prelude list.
#[export] Set Default Goal Selector "!".
Open Scope Z_scope.

(** ** Machine integers

    C integers are [Z]; arithmetic that the source performs at a width is
    wrapped explicitly.  [u w] is conversion to an unsigned [w]-bit type and
    [s w] conversion to a signed one. *)

Definition uw (w : Z) (x : Z) : Z := x mod 2 ^ w.
Definition sw (w : Z) (x : Z) : Z := (x + 2 ^ (w - 1)) mod 2 ^ w - 2 ^ (w - 1).

Definition u8 : Z -> Z := uw 8.
Definition u16 : Z -> Z := uw 16.
Definition u32 : Z -> Z := uw 32.
Definition u64 : Z -> Z := uw 64.
Definition i32 : Z -> Z := sw 32.

Definition UINT_MAX : Z := 4294967295.
Definition U64_MAX : Z := 18446744073709551615.

(** The ranges of the unsigned types. *)
Definition is_uw (w x : Z) : Prop := 0 <= x < 2 ^ w.
Abbreviation is_u8 := (is_uw 8).
Abbreviation is_u16 := (is_uw 16).
Abbreviation is_u32 := (is_uw 32).
Abbreviation is_u64 := (is_uw 64).

Lemma uw_range w x : 0 <= w -> is_uw w (uw w x).
Proof. intros Hw. apply Z.mod_pos_bound. lia. Qed.

Lemma uw_small w x : is_uw w x -> uw w x = x.
Proof. intros H. apply Z.mod_small. exact H. Qed.

Lemma u32_small x : 0 <= x < 4294967296 -> u32 x = x.
Proof. intros H. apply uw_small. exact H. Qed.

Lemma u64_small x : 0 <= x < 18446744073709551616 -> u64 x = x.
Proof. intros H. apply uw_small. exact H. Qed.

Lemma i32_small x : -2147483648 <= x < 2147483648 -> i32 x = x.
Proof.
  intros H. unfold i32, sw. change (2 ^ (32 - 1)) with 2147483648.
  change (2 ^ 32) with 4294967296. rewrite Z.mod_small by lia. lia.
Qed.

Lemma u32_range x : 0 <= u32 x < 4294967296.
Proof. apply (uw_range 32). lia. Qed.

Lemma u64_range x : 0 <= u64 x < 18446744073709551616.
Proof. apply (uw_range 64). lia. Qed.

Lemma u8_range x : 0 <= u8 x < 256.
Proof. apply (uw_range 8). lia. Qed.

Lemma u8_small x : 0 <= x < 256 -> u8 x = x.
Proof. intros H. apply uw_small. exact H. Qed.

Lemma u16_small x : 0 <= x < 65536 -> u16 x = x.
Proof. intros H. apply uw_small. exact H. Qed.

(** Counting in base [k]: the digit and the carry. *)
Lemma succ_div n k : 0 < k -> (n + 1) / k = if n mod k =? k - 1 then n / k + 1 else n / k.
Proof.
  intros Hk. pose proof (Z.div_mod n k ltac:(lia)). pose proof (Z.mod_pos_bound n k Hk).
  destruct (Z.eqb_spec (n mod k) (k - 1)); symmetry.
  - apply Z.div_unique with 0; lia.
  - apply Z.div_unique with (n mod k + 1); lia.
Qed.

Lemma succ_mod n k : 0 < k -> (n + 1) mod k = if n mod k =? k - 1 then 0 else n mod k + 1.
Proof.
  intros Hk. pose proof (Z.div_mod n k ltac:(lia)). pose proof (Z.mod_pos_bound n k Hk).
  destruct (Z.eqb_spec (n mod k) (k - 1)); symmetry.
  - apply Z.mod_unique with (n / k + 1); lia.
  - apply Z.mod_unique with (n / k); lia.
Qed.

(** [DIV_ROUND_UP] of the kernel. *)
Definition DIV_ROUND_UP (n d : Z) : Z := (n + d - 1) / d.

(** ** Faults and the error monad

    A run of kernel code either returns or stops the machine: [BUG] is a failed
    [NVMEV_ASSERT]/[BUG_ON], [OOB] an access outside an allocation, [NULLPTR] a
    dereference of [NULL], [HANG] a loop whose exit condition never comes and
    [DIVZERO] an integer division by zero, [UNINIT] the use of a variable that was
    never assigned. *)

Variant fault := BUG | OOB | NULLPTR | HANG | DIVZERO | UNINIT.

#[export] Instance fault_eq_dec : EqDecision fault.
Proof. solve_decision. Defined.

Variant result (A : Type) := Ok (a : A) | Err (f : fault).
Arguments Ok {A} a.
Arguments Err {A} f.

Definition result_bind {A B} (k : A -> result B) (m : result A) : result B :=
  match m with Ok a => k a | Err f => Err f end.

#[export] Instance result_ret : MRet result := fun A a => Ok a.
#[export] Instance result_mbind : MBind result := fun A B k m => result_bind k m.

(** [assert_ c] is [NVMEV_ASSERT(c)]. *)
Definition assert_ (c : bool) : result unit := if c then Ok tt else Err BUG.

Lemma result_bind_ok {A B} (m : result A) (k : A -> result B) b :
  m ≫= k = Ok b <-> exists a, m = Ok a /\ k a = Ok b.
Proof.
  split.
  - destruct m as [a|f]; cbn; [|discriminate]. intros H. by exists a.
  - intros (a & -> & H). exact H.
Qed.

Lemma assert_ok c u : assert_ c = Ok u <-> c = true.
Proof. destruct c, u; cbn; split; intros; congruence. Qed.

(** ** C arrays as functions

    A fixed-size C array is a function on its index; the operations that use one
    check the index where the source may leave the array.  [upd a i v] is
    [a[i] = v] and [memset a i n v] fills [n] cells from [i]. *)

Definition upd {A} (a : Z -> A) (i : Z) (v : A) : Z -> A :=
  fun j => if j =? i then v else a j.

Definition memset {A} (a : Z -> A) (i n : Z) (v : A) : Z -> A :=
  fun j => if (i <=? j) && (j <? i + n) then v else a j.

(** [fill a n f] runs [for (i = 0; i < n; i++) a[i] = f(a[i])]. *)
Definition fill {A} (a : Z -> A) (n : Z) (f : A -> A) : Z -> A :=
  fun j => if (0 <=? j) && (j <? n) then f (a j) else a j.

(** [modify a n i f] applies [f] to cell [i] of an array of [n] cells. *)
Definition modify {A} (a : Z -> A) (n i : Z) (f : A -> result A) : result (Z -> A) :=
  if (0 <=? i) && (i <? n) then x ← f (a i); Ok (upd a i x) else Err OOB.

(** [cell a n i] reads cell [i] of an array of [n] cells. *)
Definition cell {A} (a : Z -> A) (n i : Z) : result A :=
  if (0 <=? i) && (i <? n) then Ok (a i) else Err OOB.

Lemma fill_in {A} (a : Z -> A) n f j : 0 <= j < n -> fill a n f j = f (a j).
Proof. intros H. unfold fill. rewrite (proj2 (Z.leb_le 0 j)), (proj2 (Z.ltb_lt j n)) by lia. done. Qed.

Lemma modify_in {A} (a : Z -> A) n i f : 0 <= i < n ->
  modify a n i f = (x ← f (a i); Ok (upd a i x)).
Proof. intros H. unfold modify. rewrite (proj2 (Z.leb_le 0 i)), (proj2 (Z.ltb_lt i n)) by lia. done. Qed.

Lemma cell_in {A} (a : Z -> A) n i : 0 <= i < n -> cell a n i = Ok (a i).
Proof. intros H. unfold cell. rewrite (proj2 (Z.leb_le 0 i)), (proj2 (Z.ltb_lt i n)) by lia. done. Qed.

Lemma upd_eq {A} (a : Z -> A) i v : upd a i v i = v.
Proof. unfold upd. by rewrite Z.eqb_refl. Qed.

Lemma upd_ne {A} (a : Z -> A) i j v : j <> i -> upd a i v j = a j.
Proof. intros H. unfold upd. by rewrite (proj2 (Z.eqb_neq j i) H). Qed.

Lemma upd_case {A} (a : Z -> A) i j v :
  upd a i v j = if j =? i then v else a j.
Proof. reflexivity. Qed.

Lemma memset_case {A} (a : Z -> A) i n j v :
  memset a i n v j = if (i <=? j) && (j <? i + n) then v else a j.
Proof. reflexivity. Qed.

(** ** Automation *)

Create HintDb virt discriminated.
#[export] Hint Resolve u32_range u64_range u8_range : virt.

(** Split every boolean test in the goal or hypotheses into its arithmetic
    meaning. *)
Ltac bool_to_prop :=
  repeat match goal with
  | H : _ && _ = true |- _ => apply andb_true_iff in H; destruct H
  | H : _ || _ = false |- _ => apply orb_false_iff in H; destruct H
  | H : negb _ = true |- _ => apply negb_true_iff in H
  | H : negb _ = false |- _ => apply negb_false_iff in H
  | H : (_ <? _) = true |- _ => apply Z.ltb_lt in H
  | H : (_ <? _) = false |- _ => apply Z.ltb_ge in H
  | H : (_ <=? _) = true |- _ => apply Z.leb_le in H
  | H : (_ <=? _) = false |- _ => apply Z.leb_gt in H
  | H : (_ =? _) = true |- _ => apply Z.eqb_eq in H
  | H : (_ =? _) = false |- _ => apply Z.eqb_neq in H
  | H : (_ >=? _) = true |- _ => rewrite Z.geb_leb in H
  | H : (_ >=? _) = false |- _ => rewrite Z.geb_leb in H
  | H : (_ >? _) = true |- _ => rewrite Z.gtb_ltb in H
  | H : (_ >? _) = false |- _ => rewrite Z.gtb_ltb in H
  end.

(** Case analysis on the innermost boolean comparison of the goal. *)
Ltac case_cmp :=
  match goal with
  | |- context [?a =? ?b] => destruct (Z.eqb_spec a b)
  | |- context [?a <? ?b] => destruct (Z.ltb_spec a b)
  | |- context [?a <=? ?b] => destruct (Z.leb_spec a b)
  end.

(** [lia] after the division and remainder equations are posed. *)
Ltac zlia := Z.to_euclidean_division_equations; lia.

(** Close a goal about array updates: case on every index comparison. *)
Ltac arr := unfold upd, memset; repeat case_cmp; cbn; try lia; try congruence; auto.

(** Evaluate the closed integer subterms of the goal, leaving variables alone. *)
Ltac is_pos_const p :=
  match p with xH => idtac | xO ?q => is_pos_const q | xI ?q => is_pos_const q end.
Ltac is_z_const z :=
  match z with Z0 => idtac | Zpos ?p => is_pos_const p | Zneg ?p => is_pos_const p end.
Ltac zconst_step :=
  match goal with
  | |- context [?f ?a ?b] =>
      is_z_const a; is_z_const b;
      first [constr_eq f Z.add | constr_eq f Z.sub | constr_eq f Z.mul | constr_eq f Z.div
            | constr_eq f Z.modulo | constr_eq f Z.eqb | constr_eq f Z.gtb | constr_eq f Z.leb
            | constr_eq f Z.ltb | constr_eq f Z.shiftl | constr_eq f Z.pow];
      let r := eval vm_compute in (f a b) in change (f a b) with r
  | |- context [u64 ?a] => is_z_const a; let r := eval vm_compute in (u64 a) in change (u64 a) with r
  | |- context [u32 ?a] => is_z_const a; let r := eval vm_compute in (u32 a) in change (u32 a) with r
  | |- context [i32 ?a] => is_z_const a; let r := eval vm_compute in (i32 a) in change (i32 a) with r
  end.
Ltac zconst := repeat zconst_step.

(** Name the value of the leading [let] of the left-hand side, so that a chain
    of assignments is followed without duplicating it. *)
Ltac let_step v H :=
  lazymatch goal with
  | |- (let x := ?e in @?k x) = ?rhs =>
      refine ((fun (X : forall v, v = e -> k v = rhs) => X e eq_refl) _); intros v H; cbv beta
  end.
