(* ===== verification/PQueue.v ===== *)
(** * The priority queue of [pqueue/pqueue.c]

    A binary heap over objects the queue does not own: it reaches their priority
    and their position through the callbacks given to [pqueue_init].  The
    callbacks are the class [PQOps]; what the queue needs of them is [PQLaws].
    [Lines.v] gives the instance the FTL installs (the [victim_line_*]
    functions).  The heap is 1-based, as in the source: cells [1 .. size-1] are
    in use and [size] counts the unused cell 0. *)

From stdpp Require Import gmap.
From S2P Require Import Prelude.

(** ** The callbacks *)

(** [getpri] ... [setpos] are the five callbacks, over a store [St] of all
    objects; an object is its identifier.  [cmppri next curr] is the C test
    "[next] must sink below [curr]".  [pri_ok] bounds the priorities that
    [setpri] stores without truncation, and [pos_frame] says two stores agree
    on everything except positions. *)
Class PQOps (St : Type) := {
  getpri : St -> Z -> Z;
  setpri : St -> Z -> Z -> St;
  getpos : St -> Z -> Z;
  setpos : St -> Z -> Z -> St;
  cmppri : Z -> Z -> bool;
  pri_ok : Z -> Prop;
  pos_frame : St -> St -> Prop
}.

Class PQLaws (St : Type) `{PQOps St} := {
  getpos_setpos s x p y :
    is_u64 p -> getpos (setpos s x p) y = if y =? x then p else getpos s y;
  getpri_setpos s x p y : getpri (setpos s x p) y = getpri s y;
  getpri_setpri s x p y :
    pri_ok p -> getpri (setpri s x p) y = if y =? x then p else getpri s y;
  getpos_setpri s x p y : getpos (setpri s x p) y = getpos s y;
  cmppri_asym a b : cmppri a b = true -> cmppri b a = false;
  cmppri_negtrans a b c :
    cmppri a b = false -> cmppri b c = false -> cmppri a c = false;
  pos_frame_preorder :: PreOrder pos_frame;
  pos_frame_setpos s x p : pos_frame s (setpos s x p)
}.

(** The queue handle, without the callbacks. *)
Record pqueue := mk_pqueue {
  size : Z;
  avail : Z;
  step : Z;
  d : Z -> Z
}.

Definition set_d (q : pqueue) (i x : Z) : pqueue :=
  mk_pqueue q.(size) q.(avail) q.(step) (upd q.(d) i x).

Definition set_size (q : pqueue) (n : Z) : pqueue :=
  mk_pqueue n q.(avail) q.(step) q.(d).

Definition left (i : Z) : Z := Z.shiftl i 1.
Definition right (i : Z) : Z := Z.shiftl i 1 + 1.
Definition parent (i : Z) : Z := Z.shiftr i 1.

(** [pqueue_init n ...]: [n + 1] cells, of which cell 0 stays unused.  The
    contents of fresh memory are the argument [mem]. *)
Definition pqueue_init (mem : Z -> Z) (n : Z) : pqueue :=
  mk_pqueue 1 (n + 1) (n + 1) mem.

Definition pqueue_size (q : pqueue) : Z := q.(size) - 1.

Section Queue.
Context {St : Type} `{PQOps St}.

Fixpoint bubble_loop (fuel : nat) (q : pqueue) (s : St) (moving_pri i : Z)
    : result (pqueue * St * Z) :=
  match fuel with
  | O => Err HANG
  | S fuel =>
      let parent_node := parent i in
      if (1 <? i) && cmppri (getpri s (q.(d) parent_node)) moving_pri then
        let q := set_d q i (q.(d) parent_node) in
        let s := setpos s (q.(d) i) i in
        bubble_loop fuel q s moving_pri parent_node
      else Ok (q, s, i)
  end.

Definition bubble_up (q : pqueue) (s : St) (i : Z) : result (pqueue * St) :=
  let moving_node := q.(d) i in
  let moving_pri := getpri s moving_node in
  '(q, s, i) ← bubble_loop (S (Z.to_nat i)) q s moving_pri i;
  Ok (set_d q i moving_node, setpos s moving_node i).

Definition maxchild (q : pqueue) (s : St) (i : Z) : Z :=
  let child_node := left i in
  if q.(size) <=? child_node then 0
  else if (child_node + 1 <? q.(size)) &&
          cmppri (getpri s (q.(d) child_node)) (getpri s (q.(d) (child_node + 1)))
  then child_node + 1 else child_node.

Fixpoint percolate_loop (fuel : nat) (q : pqueue) (s : St) (moving_pri i : Z)
    : result (pqueue * St * Z) :=
  match fuel with
  | O => Err HANG
  | S fuel =>
      let child_node := maxchild q s i in
      if negb (child_node =? 0) && cmppri moving_pri (getpri s (q.(d) child_node)) then
        let q := set_d q i (q.(d) child_node) in
        let s := setpos s (q.(d) i) i in
        percolate_loop fuel q s moving_pri child_node
      else Ok (q, s, i)
  end.

Definition percolate_down (q : pqueue) (s : St) (i : Z) : result (pqueue * St) :=
  let moving_node := q.(d) i in
  let moving_pri := getpri s moving_node in
  '(q, s, i) ← percolate_loop (S (Z.to_nat q.(size))) q s moving_pri i;
  Ok (set_d q i moving_node, setpos s moving_node i).

(** [pqueue_insert] only logs a full queue and then writes [d[size]], one past
    the allocation. *)
Definition pqueue_insert (q : pqueue) (s : St) (x : Z) : result (pqueue * St) :=
  if q.(avail) <=? q.(size) then Err OOB
  else
    let i := q.(size) in
    let q := set_d (set_size q (q.(size) + 1)) i x in
    bubble_up q s i.

Definition pqueue_change_priority (q : pqueue) (s : St) (new_pri x : Z)
    : result (pqueue * St) :=
  let old_pri := getpri s x in
  let s := setpri s x new_pri in
  let posn := getpos s x in
  if cmppri old_pri new_pri then bubble_up q s posn else percolate_down q s posn.

Definition pqueue_remove (q : pqueue) (s : St) (x : Z) : result (pqueue * St) :=
  let posn := getpos s x in
  let q := set_size q (q.(size) - 1) in
  let q := set_d q posn (q.(d) q.(size)) in
  if cmppri (getpri s x) (getpri s (q.(d) posn))
  then bubble_up q s posn else percolate_down q s posn.

(** [None] is the [NULL] of an empty queue. *)
Definition pqueue_pop (q : pqueue) (s : St) : result (option Z * pqueue * St) :=
  if q.(size) =? 1 then Ok (None, q, s)
  else
    let head := q.(d) 1 in
    let q := set_size q (q.(size) - 1) in
    let q := set_d q 1 (q.(d) q.(size)) in
    '(q, s) ← percolate_down q s 1;
    Ok (Some head, q, s).

Definition pqueue_peek (q : pqueue) : option Z :=
  if q.(size) =? 1 then None else Some (q.(d) 1).

(** [subtree_is_valid] recurses on indices below [size]. *)
Fixpoint subtree_is_valid (fuel : nat) (q : pqueue) (s : St) (pos : Z) : bool :=
  match fuel with
  | O => true
  | S fuel =>
      (if left pos <? q.(size) then
         negb (cmppri (getpri s (q.(d) pos)) (getpri s (q.(d) (left pos)))) &&
         subtree_is_valid fuel q s (left pos)
       else true) &&
      (if right pos <? q.(size) then
         negb (cmppri (getpri s (q.(d) pos)) (getpri s (q.(d) (right pos)))) &&
         subtree_is_valid fuel q s (right pos)
       else true)
  end.

Definition pqueue_is_valid (q : pqueue) (s : St) : bool :=
  subtree_is_valid (Z.to_nat q.(size)) q s 1.

End Queue.

(** ** Indices *)

Lemma parent_div i : parent i = i / 2.
Proof. unfold parent. rewrite Z.shiftr_div_pow2 by lia. reflexivity. Qed.

Lemma left_mul i : left i = 2 * i.
Proof. unfold left. rewrite Z.shiftl_mul_pow2 by lia. lia. Qed.

Lemma right_mul i : right i = 2 * i + 1.
Proof. unfold right. rewrite Z.shiftl_mul_pow2 by lia. lia. Qed.

(** The two cells whose parent is [i]. *)
Lemma child_cases i j : j / 2 = i -> j = 2 * i \/ j = 2 * i + 1.
Proof. intros. zlia. Qed.

Section Theory.
Context {St : Type} `{PQLaws St}.

(** [x] need not sink below [y]. *)
Definition above (s : St) (x y : Z) : Prop :=
  cmppri (getpri s x) (getpri s y) = false.

Lemma above_trans s x y z : above s x y -> above s y z -> above s x z.
Proof. apply cmppri_negtrans. Qed.

Lemma above_asym s x y : cmppri (getpri s x) (getpri s y) = true -> above s y x.
Proof. apply cmppri_asym. Qed.

Lemma above_refl s x : above s x x.
Proof.
  unfold above. destruct (cmppri _ _) eqn:E; [|done].
  pose proof (cmppri_asym _ _ E). congruence.
Qed.

(** Positions do not affect priorities. *)
Definition pri_frame (s s' : St) : Prop := forall x, getpri s' x = getpri s x.

Lemma above_frame s s' x y : pri_frame s s' -> above s x y -> above s' x y.
Proof. unfold above. intros F. by rewrite !F. Qed.

(** ** The heap predicates over an array [f] with [n - 1] elements *)

Definition heap (n : Z) (f : Z -> Z) (s : St) : Prop :=
  forall j, 2 <= j < n -> above s (f (j / 2)) (f j).

Definition positions (n : Z) (f : Z -> Z) (s : St) : Prop :=
  forall j, 1 <= j < n -> getpos s (f j) = j.

Definition holds (n : Z) (f : Z -> Z) (x : Z) : Prop :=
  exists j, 1 <= j < n /\ f j = x.

(** The loops move a hole; [f] is the array with the moving node put in the
    hole [i], whose recorded position is not yet right. *)
Definition hole (n : Z) (f : Z -> Z) (s : St) (i : Z) : Prop :=
  1 <= i < n /\
  forall j, 1 <= j < n -> j <> i -> getpos s (f j) = j /\ f j <> f i.

(** Parents of [i] and children of [i] are in order around the hole. *)
Definition around (n : Z) (f : Z -> Z) (s : St) (i : Z) : Prop :=
  forall j, 2 <= j < n -> j / 2 = i -> 2 <= i -> above s (f (i / 2)) (f j).

Definition heap_but_up (n : Z) (f : Z -> Z) (s : St) (i : Z) : Prop :=
  (forall j, 2 <= j < n -> j <> i -> above s (f (j / 2)) (f j)) /\ around n f s i.

Definition heap_but_down (n : Z) (f : Z -> Z) (s : St) (i : Z) : Prop :=
  (forall j, 2 <= j < n -> j / 2 <> i -> above s (f (j / 2)) (f j)) /\ around n f s i.

(** [g] is [f] with cells [i] and [p] exchanged. *)
Definition swapped (f g : Z -> Z) (i p : Z) : Prop :=
  g i = f p /\ g p = f i /\ forall k, k <> i -> k <> p -> g k = f k.

Lemma swapped_holds n f g i p x :
  1 <= i < n -> 1 <= p < n -> swapped f g i p -> holds n f x <-> holds n g x.
Proof.
  intros Hi Hp (Gi & Gp & Gk). unfold holds. split; intros (j & Hj & E).
  - destruct (Z.eq_dec j i) as [->|]; [exists p; split; [lia|congruence]|].
    destruct (Z.eq_dec j p) as [->|]; [exists i; split; [lia|congruence]|].
    exists j. by rewrite Gk.
  - destruct (Z.eq_dec j i) as [->|]; [exists p; split; [lia|congruence]|].
    destruct (Z.eq_dec j p) as [->|]; [exists i; split; [lia|congruence]|].
    exists j. by rewrite <- Gk.
Qed.

Lemma hole_swap n f g s i p :
  hole n f s i -> 1 <= p < n -> p <> i -> is_u64 i -> swapped f g i p ->
  hole n g (setpos s (f p) i) p.
Proof.
  intros [Hi Hh] Hp Hne Hw (Gi & Gp & Gk). split; [done|]. intros j Hj Hjp.
  rewrite getpos_setpos by done. rewrite Gp.
  destruct (Z.eq_dec j i) as [->|Hji].
  - rewrite Gi, Z.eqb_refl. split; [done|]. apply Hh; [done|lia].
  - rewrite (Gk j Hji Hjp). destruct (Hh j Hj Hji) as [P N].
    destruct (Z.eqb_spec (f j) (f p)) as [E|E]; [|done].
    exfalso. destruct (Hh p Hp Hne) as [Pp _]. rewrite <- E, P in Pp. done.
Qed.

(** Filling the hole gives back consistent positions. *)
Lemma hole_fill n f s i :
  hole n f s i -> is_u64 i -> positions n f (setpos s (f i) i).
Proof.
  intros [Hi Hh] Hw j Hj. rewrite getpos_setpos by done.
  destruct (Z.eq_dec j i) as [->|Hji]; [by rewrite Z.eqb_refl|].
  destruct (Hh j Hj Hji) as [P N]. by destruct (Z.eqb_spec (f j) (f i)).
Qed.

Lemma pri_frame_setpos s x p : pri_frame s (setpos s x p).
Proof. intros y. apply getpri_setpos. Qed.

(** One step of [bubble_up]'s loop. *)
Lemma up_step n f g s s' i :
  heap_but_up n f s i -> 2 <= i < n -> swapped f g i (i / 2) -> pri_frame s s' ->
  cmppri (getpri s (f (i / 2))) (getpri s (f i)) = true ->
  heap_but_up n g s' (i / 2).
Proof.
  intros [Hb Ha] Hi (Gi & Gp & Gk) F C.
  pose proof (above_asym _ _ _ C) as Hip.
  assert (Hp : 1 <= i / 2 < i) by zlia.
  split.
  - intros j Hj Hne. apply (above_frame s); [done|].
    destruct (Z.eq_dec j i) as [->|Hji]; [by rewrite Gp, Gi|].
    rewrite (Gk j) by lia.
    destruct (Z.eq_dec (j / 2) i) as [E|E].
    + rewrite E, Gi. apply Ha; lia.
    + destruct (Z.eq_dec (j / 2) (i / 2)) as [E2|E2].
      * rewrite E2, Gp. eapply above_trans; [exact Hip|]. rewrite <- E2. by apply Hb.
      * rewrite (Gk (j / 2)) by lia. by apply Hb.
  - intros j Hj Hjp Hp2. apply (above_frame s); [done|].
    assert (Hpp : 1 <= i / 2 / 2 < i / 2) by zlia.
    rewrite (Gk (i / 2 / 2)) by lia.
    assert (Hup : above s (f (i / 2 / 2)) (f (i / 2))) by (apply Hb; lia).
    destruct (Z.eq_dec j i) as [->|Hji]; [by rewrite Gi|].
    rewrite (Gk j) by zlia. eapply above_trans; [exact Hup|]. rewrite <- Hjp. by apply Hb.
Qed.

(** What both loops promise from a hole at [i] in [f]. *)
Definition loop_post (n : Z) (f : Z -> Z) (s : St) (q : pqueue) (mv : Z)
    (r : result (pqueue * St * Z)) : Prop :=
  exists q' s' i', r = Ok (q', s', i') /\
    q'.(size) = q.(size) /\ q'.(avail) = q.(avail) /\ q'.(step) = q.(step) /\
    let f' := upd q'.(d) i' mv in
    hole n f' s' i' /\ heap n f' s' /\
    (forall x, holds n f x <-> holds n f' x) /\
    pos_frame s s' /\ pri_frame s s' /\
    (forall y, ~ holds n f y -> getpos s' y = getpos s y).

(** One iteration composed with the rest of the loop. *)
Lemma loop_post_step n f s q mv i p r :
  hole n f s i -> 1 <= p < n -> p <> i -> n <= 2 ^ 64 ->
  f = upd q.(d) i mv ->
  loop_post n (upd (upd q.(d) i (q.(d) p)) p mv) (setpos s (q.(d) p) i)
    (set_d q i (q.(d) p)) mv r ->
  loop_post n f s q mv r.
Proof.
  intros Hh Hp Hne Hn -> (q' & s' & i' & -> & Sz & Av & Sp & Ho & He & Hm & Pf & Pr & Po).
  exists q', s', i'. repeat (split; [done|]).
  assert (Sw : swapped (upd q.(d) i mv) (upd (upd q.(d) i (q.(d) p)) p mv) i p)
    by (split; [|split]; intros; arr).
  assert (Hi : 1 <= i < n) by apply Hh.
  split; [|split; [|split]].
  - intros x. rewrite <- Hm. by apply swapped_holds with (i := i) (p := p).
  - etransitivity; [apply pos_frame_setpos|exact Pf].
  - intros x. rewrite Pr. apply getpri_setpos.
  - intros y Hy. rewrite Po.
    + rewrite getpos_setpos by (split; lia).
      destruct (Z.eqb_spec y (q.(d) p)) as [->|]; [|done].
      exfalso. apply Hy. exists p. split; [lia|]. by apply upd_ne.
    + rewrite <- (swapped_holds n _ _ i p y) by done. exact Hy.
Qed.

(** The loop stops here: the array is a heap already. *)
Lemma loop_post_stop n s q mv i :
  hole n (upd q.(d) i mv) s i -> heap n (upd q.(d) i mv) s ->
  loop_post n (upd q.(d) i mv) s q mv (Ok (q, s, i)).
Proof.
  intros Hh He. exists q, s, i. cbn. split_and!; try done.
Qed.

Lemma bubble_loop_spec fuel : forall q s mv i,
  let n := q.(size) in
  let f := upd q.(d) i mv in
  n <= 2 ^ 64 -> (Z.to_nat i < fuel)%nat ->
  hole n f s i -> heap_but_up n f s i ->
  loop_post n f s q mv (bubble_loop fuel q s (getpri s mv) i).
Proof.
  induction fuel as [|fuel IH]; intros q s mv i n f Hn Hf Hh Hb; [lia|].
  assert (Hi : 1 <= i < n) by apply Hh. cbn [bubble_loop]. rewrite parent_div.
  destruct (Z.ltb_spec 1 i) as [Hi1|Hi1]; cbn.
  - assert (Hp : 1 <= i / 2 < i) by zlia. rewrite upd_eq.
    assert (Fp : f (i / 2) = q.(d) (i / 2)) by (apply upd_ne; lia).
    assert (Fi : f i = mv) by apply upd_eq.
    destruct (cmppri _ _) eqn:C.
    + apply loop_post_step with (i := i) (p := i / 2); try done; try lia.
      assert (Sw : swapped f (upd (upd q.(d) i (q.(d) (i / 2))) (i / 2) mv) i (i / 2))
        by (unfold f; split; [|split]; intros; arr).
      rewrite <- (getpri_setpos s (q.(d) (i / 2)) i mv).
      apply (IH (set_d q i (q.(d) (i / 2)))); cbn; [done|lia| |].
      * rewrite <- Fp.
        apply hole_swap with (f := f); [done|lia|lia|split; lia|by rewrite Fp].
      * apply up_step with (f := f) (s := s); try done; [lia|apply pri_frame_setpos|].
        by rewrite Fp, Fi.
    + apply loop_post_stop; [done|]. intros j Hj.
      destruct (Z.eq_dec j i) as [->|]; [|by apply Hb].
      unfold above. fold f. by rewrite Fp, Fi.
  - apply loop_post_stop; [done|]. intros j Hj. apply Hb; lia.
Qed.

(** [maxchild] is 0 exactly when there is no child, and otherwise the child
    that must be above the other. *)
Lemma maxchild_spec (q : pqueue) (s : St) (i : Z) :
  1 <= i ->
  (maxchild q s i = 0 /\ q.(size) <= 2 * i) \/
  (1 <= i < maxchild q s i /\ maxchild q s i < q.(size) /\ maxchild q s i / 2 = i /\
   forall j, j < q.(size) -> j / 2 = i -> above s (q.(d) (maxchild q s i)) (q.(d) j)).
Proof.
  intros Hi. unfold maxchild. rewrite left_mul.
  destruct (Z.leb_spec q.(size) (2 * i)) as [L|L]; [by left|right].
  destruct (Z.ltb_spec (2 * i + 1) q.(size)) as [R|R]; cbn.
  - destruct (cmppri _ _) eqn:C; (split; [lia|split; [lia|split; [zlia|]]]); intros j Hj Hj2;
      destruct (child_cases _ _ Hj2) as [->| ->]; try apply above_refl; [|done].
    by apply above_asym.
  - split; [lia|split; [lia|split; [zlia|]]]. intros j Hj Hj2.
    destruct (child_cases _ _ Hj2) as [->| ->]; [apply above_refl|lia].
Qed.

Lemma down_step n f g s s' i c :
  heap_but_down n f s i -> 1 <= i < c -> c < n -> c / 2 = i -> swapped f g i c ->
  pri_frame s s' -> cmppri (getpri s (f i)) (getpri s (f c)) = true ->
  (forall j, j < n -> j / 2 = i -> above s (f c) (f j)) ->
  heap_but_down n g s' c.
Proof.
  intros [Hb Ha] Hi Hc Hci (Gi & Gc & Gk) F C Hmax. split.
  - intros j Hj Hne. apply (above_frame s); [done|].
    destruct (Z.eq_dec (j / 2) i) as [E|E].
    + rewrite E, Gi. destruct (Z.eq_dec j c) as [->|].
      * rewrite Gc. by apply above_asym.
      * rewrite (Gk j) by zlia. apply Hmax; [lia|done].
    + destruct (Z.eq_dec j i) as [->|].
      * rewrite Gi. rewrite (Gk (i / 2)) by zlia. apply Ha; lia.
      * rewrite (Gk (j / 2)) by lia. rewrite (Gk j) by (intros ->; lia). by apply Hb.
  - intros j Hj Hjc _. apply (above_frame s); [done|].
    rewrite Hci, Gi. rewrite (Gk j) by zlia. rewrite <- Hjc. apply Hb; lia.
Qed.

Lemma percolate_loop_spec fuel : forall q s mv i,
  let n := q.(size) in
  let f := upd q.(d) i mv in
  n <= 2 ^ 64 -> (Z.to_nat (n - i) < fuel)%nat ->
  hole n f s i -> heap_but_down n f s i ->
  loop_post n f s q mv (percolate_loop fuel q s (getpri s mv) i).
Proof.
  induction fuel as [|fuel IH]; intros q s mv i n f Hn Hf Hh Hb; [lia|].
  assert (Hi : 1 <= i < n) by apply Hh. cbn [percolate_loop].
  assert (Fi : f i = mv) by apply upd_eq.
  assert (Fk : forall k, k <> i -> f k = q.(d) k) by (intros; by apply upd_ne).
  destruct (maxchild_spec q s i) as [[-> Hl]|(Hc & Hcn & Hci & Hmax)]; [lia|..].
  - cbn. apply loop_post_stop; [done|]. intros j Hj. apply Hb; [done|]. zlia.
  - set (c := maxchild q s i) in *.
    rewrite (proj2 (Z.eqb_neq c 0)) by lia. cbn. rewrite upd_eq.
    destruct (cmppri _ _) eqn:C.
    + apply loop_post_step with (i := i) (p := c); try done; try lia.
      rewrite <- (getpri_setpos s (q.(d) c) i mv).
      apply (IH (set_d q i (q.(d) c))); cbn; [done|lia| |].
      * rewrite <- Fk by lia.
        apply hole_swap with (f := f); [done|lia|lia|split; lia|].
        unfold f; split; [|split]; intros; arr.
      * apply down_step with (f := f) (s := s) (i := i); try done; try lia.
        -- unfold f; split; [|split]; intros; arr.
        -- apply pri_frame_setpos.
        -- by rewrite Fi, Fk by lia.
        -- intros j Hj Hji. rewrite !Fk by (try lia; zlia). by apply Hmax.
    + apply loop_post_stop; [done|]. intros j Hj.
      destruct (Z.eq_dec (j / 2) i) as [E|E]; [|by apply Hb].
      fold f. rewrite E, Fi, Fk by zlia.
      apply above_trans with (q.(d) c); [exact C|]. apply Hmax; [lia|done].
Qed.

(** ** The queue invariant *)

Record wf (q : pqueue) (s : St) : Prop := {
  wf_size : 1 <= q.(size) <= q.(avail);
  wf_avail : q.(avail) <= 2 ^ 64;
  wf_pos : positions q.(size) q.(d) s;
  wf_heap : heap q.(size) q.(d) s
}.

(** The objects in the queue. *)
Definition mem (q : pqueue) (x : Z) : Prop := holds q.(size) q.(d) x.

Lemma mem_pos q s x : wf q s -> mem q x -> 1 <= getpos s x < q.(size) /\ q.(d) (getpos s x) = x.
Proof. intros W (j & Hj & <-). by rewrite (wf_pos _ _ W). Qed.

Lemma positions_inj n f s j k :
  positions n f s -> 1 <= j < n -> 1 <= k < n -> f j = f k -> j = k.
Proof. intros P Hj Hk E. by rewrite <- (P j Hj), <- (P k Hk), E. Qed.

(** The state change every successful operation makes: a well-formed queue
    over the same cells, [mem'] its members, priorities kept. *)
Definition updated (q : pqueue) (s : St) (mem' : Z -> Prop) (q' : pqueue) (s' : St) : Prop :=
  wf q' s' /\ q'.(avail) = q.(avail) /\ q'.(step) = q.(step) /\
  (forall x, mem q' x <-> mem' x) /\ pos_frame s s' /\ pri_frame s s' /\
  (forall y, ~ mem' y -> getpos s' y = getpos s y).

(** Both sifts end by filling the hole. *)
Lemma sift_finish q s i mv r (q0 := set_d q i mv) :
  1 <= q.(size) <= q.(avail) -> q.(avail) <= 2 ^ 64 -> q.(d) i = mv ->
  loop_post q.(size) (upd q.(d) i mv) s q mv r ->
  exists q' s', ('(q, s, i) ← r; Ok (set_d q i mv, setpos s mv i)) = Ok (q', s') /\
    q'.(size) = q.(size) /\ updated q s (mem q) q' s'.
Proof.
  intros Hs Ha Hmv (q' & s' & i' & -> & Sz & Av & Sp & Ho & He & Hm & Pf & Pr & Po).
  eexists _, _. split; [reflexivity|]. split; [done|].
  assert (Hi' : 1 <= i' < q.(size)) by apply Ho.
  assert (Hmem : forall x, holds q.(size) (upd q'.(d) i' mv) x <-> mem q x).
  { intros x. rewrite <- Hm. unfold mem, holds.
    split; intros (j & Hj & E); exists j; (split; [done|]); revert E; arr. }
  assert (Hw : is_u64 i') by (split; lia).
  split; [split; cbn; rewrite ?Sz, ?Av; try lia|].
  - rewrite <- (upd_eq q'.(d) i' mv) at 2. by apply hole_fill.
  - intros j Hj. apply (above_frame s'); [apply pri_frame_setpos|by apply He].
  - cbn. split_and!; try done.
    + intros x. unfold mem at 1. cbn. rewrite Sz. apply Hmem.
    + etransitivity; [exact Pf|apply pos_frame_setpos].
    + intros x. rewrite getpri_setpos. apply Pr.
    + intros y Hy. rewrite getpos_setpos by done.
      destruct (Z.eqb_spec y mv) as [->|].
      * exfalso. apply Hy, Hmem. exists i'. split; [done|apply upd_eq].
      * apply Po. by rewrite Hm, Hmem.
Qed.

Lemma upd_id_holds n f i mv x : f i = mv -> holds n (upd f i mv) x <-> holds n f x.
Proof. intros E. split; intros (j & Hj & Ex); exists j; (split; [done|]); revert Ex; arr. Qed.

(** The hole predicates only look at the values of the array. *)
Lemma hole_up_ext n f g s i :
  (forall k, g k = f k) -> hole n f s i /\ heap_but_up n f s i ->
  hole n g s i /\ heap_but_up n g s i.
Proof.
  intros E [[Hi Hh] [Hb Ha]]. split.
  - split; [done|]. intros j. rewrite !E. apply Hh.
  - split; intros j; rewrite !E; [apply Hb|apply Ha].
Qed.

Lemma hole_down_ext n f g s i :
  (forall k, g k = f k) -> hole n f s i /\ heap_but_down n f s i ->
  hole n g s i /\ heap_but_down n g s i.
Proof.
  intros E [[Hi Hh] [Hb Ha]]. split.
  - split; [done|]. intros j. rewrite !E. apply Hh.
  - split; intros j; rewrite !E; [apply Hb|apply Ha].
Qed.

Lemma upd_self (f : Z -> Z) i k : upd f i (f i) k = f k.
Proof. arr. Qed.

Lemma bubble_up_spec q s i :
  1 <= q.(size) <= q.(avail) -> q.(avail) <= 2 ^ 64 ->
  hole q.(size) q.(d) s i /\ heap_but_up q.(size) q.(d) s i ->
  exists q' s', bubble_up q s i = Ok (q', s') /\ q'.(size) = q.(size) /\
    updated q s (mem q) q' s'.
Proof.
  intros Hs Ha Hh. unfold bubble_up. eapply sift_finish; [done|done|done|].
  apply (hole_up_ext _ _ (upd q.(d) i (q.(d) i))) in Hh as [Hh Hb]; [|apply upd_self].
  apply bubble_loop_spec; [lia|lia|done|done].
Qed.

Lemma percolate_down_spec q s i :
  1 <= q.(size) <= q.(avail) -> q.(avail) <= 2 ^ 64 ->
  hole q.(size) q.(d) s i /\ heap_but_down q.(size) q.(d) s i ->
  exists q' s', percolate_down q s i = Ok (q', s') /\ q'.(size) = q.(size) /\
    updated q s (mem q) q' s'.
Proof.
  intros Hs Ha Hh. unfold percolate_down. eapply sift_finish; [done|done|done|].
  apply (hole_down_ext _ _ (upd q.(d) i (q.(d) i))) in Hh as [Hh Hb]; [|apply upd_self].
  assert (1 <= i < q.(size)) by apply Hh.
  apply percolate_loop_spec; [lia|lia|done|done].
Qed.

(** Percolating at an index outside the heap only records a position. *)
Lemma percolate_down_outside q s i :
  1 <= q.(size) <= i ->
  percolate_down q s i = Ok (set_d q i (q.(d) i), setpos s (q.(d) i) i).
Proof.
  intros Hi. unfold percolate_down. cbn [percolate_loop].
  destruct (maxchild_spec q s i) as [[-> _]|(? & ? & _)]; [lia| |lia]. done.
Qed.

(** A heap with a changed element at [i]: it is a heap but for [i]. *)
Lemma heap_but_up_lower n f s s' i x :
  heap n f s -> positions n f s -> 1 <= i < n -> f i = x ->
  (forall y, y <> x -> getpri s' y = getpri s y) ->
  cmppri (getpri s' x) (getpri s x) = false -> heap_but_up n f s' i.
Proof.
  intros Hh Hp Hi <- Hy Hx.
  assert (Hk : forall k, 1 <= k < n -> k <> i -> getpri s' (f k) = getpri s (f k)).
  { intros k Hkn Hk. apply Hy. intros E. apply Hk. by apply (positions_inj n f s). }
  split.
  - intros j Hj Hne. unfold above. rewrite (Hk j) by lia.
    destruct (Z.eq_dec (j / 2) i) as [E|E].
    + rewrite E. eapply cmppri_negtrans; [exact Hx|]. rewrite <- E. by apply Hh.
    + rewrite Hk by zlia. by apply Hh.
  - intros j Hj Hji Hi2. unfold above. rewrite !Hk by zlia.
    eapply cmppri_negtrans; [apply Hh; lia|]. rewrite <- Hji. by apply Hh.
Qed.

Lemma heap_but_down_raise n f s s' i x :
  heap n f s -> positions n f s -> 1 <= i < n -> f i = x ->
  (forall y, y <> x -> getpri s' y = getpri s y) ->
  cmppri (getpri s x) (getpri s' x) = false -> heap_but_down n f s' i.
Proof.
  intros Hh Hp Hi <- Hy Hx.
  assert (Hk : forall k, 1 <= k < n -> k <> i -> getpri s' (f k) = getpri s (f k)).
  { intros k Hkn Hk. apply Hy. intros E. apply Hk. by apply (positions_inj n f s). }
  split.
  - intros j Hj Hne. unfold above. rewrite (Hk (j / 2)) by zlia.
    destruct (Z.eq_dec j i) as [->|E].
    + eapply cmppri_negtrans; [|exact Hx]. apply Hh. lia.
    + rewrite Hk by lia. by apply Hh.
  - intros j Hj Hji Hi2. unfold above. rewrite !Hk by zlia.
    eapply cmppri_negtrans; [apply Hh; lia|]. rewrite <- Hji. by apply Hh.
Qed.

(** The array without its last element, which is put in cell [i]. *)
Lemma hole_last q s i :
  wf q s -> 1 <= i < q.(size) - 1 ->
  hole (q.(size) - 1) (upd q.(d) i (q.(d) (q.(size) - 1))) s i.
Proof.
  intros W Hi. split; [done|]. intros j Hj Hji. rewrite upd_eq, !upd_ne by done. split.
  - apply (wf_pos _ _ W). lia.
  - intros E. apply (positions_inj q.(size) q.(d) s) in E; [lia|apply W|lia|lia].
Qed.

(** Replacing the element of [i] by the last one, [g] being the new array. *)
Lemma heap_replace q s i (l := q.(size) - 1) (g := upd q.(d) i (q.(d) l)) :
  wf q s -> 1 <= i < l ->
  (above s (q.(d) l) (q.(d) i) -> heap_but_up l g s i) /\
  (above s (q.(d) i) (q.(d) l) -> heap_but_down l g s i).
Proof.
  intros W Hi.
  assert (Hg : forall k, k <> i -> g k = q.(d) k) by (intros; by apply upd_ne).
  assert (Gi : g i = q.(d) l) by apply upd_eq.
  assert (Hh : forall j, 2 <= j < l -> above s (q.(d) (j / 2)) (q.(d) j))
    by (intros; apply (wf_heap _ _ W); lia).
  assert (Ar : around l g s i).
  { intros j Hj Hji Hi2. rewrite !Hg by zlia.
    apply above_trans with (q.(d) i); [apply Hh; lia|]. rewrite <- Hji. by apply Hh. }
  split; intros Ab; (split; [|exact Ar]); intros j Hj Hne.
  - rewrite (Hg j) by done. destruct (Z.eq_dec (j / 2) i) as [E|E].
    + rewrite E, Gi. eapply above_trans; [exact Ab|]. rewrite <- E. by apply Hh.
    + rewrite Hg by done. by apply Hh.
  - rewrite (Hg (j / 2)) by done. destruct (Z.eq_dec j i) as [->|E].
    + rewrite Gi. eapply above_trans; [by apply Hh|exact Ab].
    + rewrite Hg by done. by apply Hh.
Qed.

(** The members once the element of [i] is dropped. *)
Lemma mem_drop q s i x (l := q.(size) - 1) :
  wf q s -> 1 <= i < l ->
  holds l (upd q.(d) i (q.(d) l)) x <-> mem q x /\ x <> q.(d) i.
Proof.
  intros W Hi. unfold mem, holds.
  assert (Inj := fun j k => positions_inj q.(size) q.(d) s j k (wf_pos _ _ W)).
  split.
  - intros (j & Hj & E). destruct (Z.eq_dec j i) as [->|Hji].
    + rewrite upd_eq in E. subst x. split; [exists l; lia|].
      intros E. apply Inj in E; lia.
    + rewrite upd_ne in E by done. subst x. split; [exists j; lia|].
      intros E. apply Inj in E; lia.
  - intros [(j & Hj & <-) Hne]. destruct (Z.eq_dec j l) as [->|Hjl].
    + exists i. split; [done|apply upd_eq].
    + exists j. split; [lia|]. apply upd_ne. congruence.
Qed.

Lemma heap_root n f s j : heap n f s -> 1 <= j < n -> above s (f 1) (f j).
Proof.
  intros Hh Hj. assert (H0j : 0 <= j) by lia. revert j H0j Hj.
  apply (Z_lt_induction (fun j => 1 <= j < n -> above s (f 1) (f j))).
  intros j IH Hj. destruct (Z.eq_dec j 1) as [->|]; [apply above_refl|].
  apply above_trans with (f (j / 2)); [apply IH; zlia|apply Hh; lia].
Qed.

(** Dropping the last element needs no sifting. *)
Lemma updated_drop_last q s q' s' (l := q.(size) - 1) :
  wf q s -> 1 < q.(size) -> q'.(size) = l -> q'.(avail) = q.(avail) ->
  q'.(step) = q.(step) -> (forall k, 1 <= k < l -> q'.(d) k = q.(d) k) ->
  (forall y, getpos s' y = getpos s y) -> pos_frame s s' -> pri_frame s s' ->
  updated q s (fun y => mem q y /\ y <> q.(d) l) q' s'.
Proof.
  intros W Hne Sz Av Sp D Hp Pf Pr. pose proof (wf_size _ _ W). pose proof (wf_avail _ _ W).
  split; [split; rewrite ?Sz, ?Av; try lia|].
  - intros j Hj. rewrite D, Hp by lia. apply (wf_pos _ _ W). lia.
  - intros j Hj. rewrite !D by zlia. apply (above_frame s); [done|].
    apply (wf_heap _ _ W). lia.
  - split_and!; try done. intros y. unfold mem, holds. rewrite Sz. split.
    + intros (j & Hj & <-). rewrite D by done. split; [exists j; lia|]. intros E.
      apply (positions_inj q.(size) q.(d) s) in E; [lia|apply W|lia|lia].
    + intros [(j & Hj & <-) Hy]. exists j. assert (j <> l) by (intros ->; done).
      rewrite D by lia. split; [lia|done].
Qed.

(** Re-recording a position changes nothing. *)
Lemma getpos_setpos_id s x i y : is_u64 i -> getpos s x = i -> getpos (setpos s x i) y = getpos s y.
Proof. intros Hi E. rewrite getpos_setpos by done. by destruct (Z.eqb_spec y x) as [->|]. Qed.

(** ** The operations *)

(** Inserting an object that is not in a queue with room never
    faults; the result is a well-formed heap that holds exactly one more
    object, and no priority and no other object's position changes. *)
Lemma insert_ok q s x :
  wf q s -> ~ mem q x -> q.(size) < q.(avail) ->
  exists q' s', pqueue_insert q s x = Ok (q', s') /\ q'.(size) = q.(size) + 1 /\
    updated q s (fun y => mem q y \/ y = x) q' s'.
Proof.
  intros W Hx Hroom. unfold pqueue_insert.
  destruct (Z.leb_spec q.(avail) q.(size)); [lia|].
  pose proof (wf_size _ _ W). pose proof (wf_avail _ _ W).
  set (q1 := set_d (set_size q (q.(size) + 1)) q.(size) x).
  assert (D : forall k, 1 <= k < q.(size) -> q1.(d) k = q.(d) k) by (intros; apply upd_ne; lia).
  assert (Dn : q1.(d) q.(size) = x) by apply upd_eq.
  assert (M : forall y, mem q1 y <-> mem q y \/ y = x).
  { intros y. unfold mem, holds. cbn [size q1 set_d set_size]. split.
    - intros (j & Hj & <-). destruct (Z.eq_dec j q.(size)) as [->|]; [by right|left].
      exists j. rewrite D by lia. split; [lia|done].
    - intros [(j & Hj & <-)| ->]; [exists j|exists q.(size)].
      + rewrite D by lia. split; [lia|done].
      + split; [lia|done]. }
  destruct (bubble_up_spec q1 s q.(size)) as (q' & s' & E & Sz & Wf & U);
    [cbn; lia|cbn; lia| |].
  - change q1.(size) with (q.(size) + 1). split; [split; [lia|]|split].
    + intros j Hj Hjx. rewrite D, Dn by lia. split; [apply (wf_pos _ _ W); lia|].
      intros E. apply Hx. exists j. split; [lia|done].
    + intros j Hj Hjx. rewrite !D by zlia. apply (wf_heap _ _ W). lia.
    + intros j Hj Hjs. zlia.
  - exists q', s'. split; [exact E|]. split; [exact Sz|]. split; [exact Wf|].
    destruct U as (Av & Sp & Mm & Pf & Pr & Po). split_and!; try done.
    + intros y. rewrite Mm. apply M.
    + intros y Hy. apply Po. by rewrite M.
Qed.

(** Popping a non-empty queue never faults and returns its topmost
    object: no object of the queue has to be above it.  The result is a
    well-formed heap of the other objects. *)
Lemma pop_ok q s :
  wf q s -> 1 < q.(size) ->
  exists x q' s', pqueue_pop q s = Ok (Some x, q', s') /\ q'.(size) = q.(size) - 1 /\
    mem q x /\ (forall y, mem q y -> above s x y) /\
    updated q s (fun y => mem q y /\ y <> x) q' s'.
Proof.
  intros W Hne. unfold pqueue_pop. rewrite (proj2 (Z.eqb_neq _ _)) by lia.
  pose proof (wf_size _ _ W). pose proof (wf_avail _ _ W).
  set (q1 := set_d _ 1 _). exists (q.(d) 1).
  assert (Top : mem q (q.(d) 1) /\ forall y, mem q y -> above s (q.(d) 1) y).
  { split; [by exists 1; split; [lia|]|]. intros y (j & Hj & <-).
    by apply (heap_root q.(size)); [apply W|]. }
  destruct (Z.eq_dec q.(size) 2) as [S2|S2].
  - rewrite (percolate_down_outside q1 s 1) by (cbn; lia). cbn.
    assert (D1 : q.(d) (q.(size) - 1) = q.(d) 1) by (by rewrite S2).
    eexists _, _. split; [done|]. split; [done|]. split; [apply Top|]. split; [apply Top|].
    rewrite <- D1. apply updated_drop_last; try done.
    + intros k Hk. lia.
    + intros y. apply getpos_setpos_id; [split; lia|]. rewrite D1.
      apply (wf_pos _ _ W). lia.
    + apply pos_frame_setpos.
    + apply pri_frame_setpos.
  - destruct (percolate_down_spec q1 s 1) as (q' & s' & E & Sz & Wf & U);
      [cbn; lia|cbn; lia| |].
    + split; [apply hole_last; [done|lia]|]. apply heap_replace; [done|lia|].
      apply Top. exists (q.(size) - 1). split; [lia|done].
    + rewrite E. exists q', s'. split; [done|]. split; [exact Sz|].
      split; [apply Top|]. split; [apply Top|]. split; [exact Wf|].
      assert (M : forall y, mem q1 y <-> mem q y /\ y <> q.(d) 1)
        by (intros y; apply (mem_drop q s 1 y); [done|lia]).
      destruct U as (Av & Sp & Mm & Pf & Pr & Po). split_and!; try done.
      * intros y. rewrite Mm. apply M.
      * intros y Hy. apply Po. by rewrite M.
Qed.

(** Changing the priority of a queued object never
    faults, keeps the heap well-formed with the same members, and gives the
    object its new priority and every other object its old one. *)
Lemma change_ok q s new x :
  wf q s -> mem q x -> pri_ok new ->
  exists q' s', pqueue_change_priority q s new x = Ok (q', s') /\ q'.(size) = q.(size) /\
    updated q (setpri s x new) (mem q) q' s' /\
    getpri s' x = new /\ (forall y, y <> x -> getpri s' y = getpri s y).
Proof.
  intros W Hx Hok. unfold pqueue_change_priority. rewrite getpos_setpri.
  destruct (mem_pos _ _ _ W Hx) as [Hi Hd]. set (i := getpos s x) in *.
  set (s1 := setpri s x new).
  assert (Gx : getpri s1 x = new) by (unfold s1; rewrite getpri_setpri, Z.eqb_refl; done).
  assert (Gy : forall y, y <> x -> getpri s1 y = getpri s y).
  { intros y Hy. unfold s1. rewrite getpri_setpri by done. by rewrite (proj2 (Z.eqb_neq y x)). }
  assert (Ho : hole q.(size) q.(d) s1 i).
  { split; [done|]. intros j Hj Hji. unfold s1. rewrite getpos_setpri. split.
    - by apply (wf_pos _ _ W).
    - intros E. apply Hji. apply (positions_inj q.(size) q.(d) s); [apply W|done|done|done]. }
  pose proof (wf_size _ _ W). pose proof (wf_avail _ _ W).
  assert (R : exists q' s', (if cmppri (getpri s x) new then bubble_up q s1 i
                             else percolate_down q s1 i) = Ok (q', s') /\
              q'.(size) = q.(size) /\ updated q s1 (mem q) q' s').
  { destruct (cmppri _ _) eqn:C.
    - apply bubble_up_spec; [done|done|]. split; [done|].
      apply (heap_but_up_lower _ _ s s1 i x); try done; [apply W|apply W|].
      rewrite Gx. by apply cmppri_asym.
    - apply percolate_down_spec; [done|done|]. split; [done|].
      apply (heap_but_down_raise _ _ s s1 i x); try done; [apply W|apply W|].
      by rewrite Gx. }
  destruct R as (q' & s' & E & Sz & U). exists q', s'.
  pose proof U as (_ & _ & _ & _ & _ & Pr & _).
  split_and!; [done|done|done|by rewrite Pr, Gx|]. intros y Hy. rewrite Pr. by apply Gy.
Qed.

(** Removing a queued object never faults and leaves a well-formed
    heap of exactly the other objects. *)
Lemma remove_ok q s x :
  wf q s -> mem q x ->
  exists q' s', pqueue_remove q s x = Ok (q', s') /\ q'.(size) = q.(size) - 1 /\
    updated q s (fun y => mem q y /\ y <> x) q' s'.
Proof.
  intros W Hx. unfold pqueue_remove.
  destruct (mem_pos _ _ _ W Hx) as [Hi Hd]. set (i := getpos s x) in *.
  pose proof (wf_size _ _ W). pose proof (wf_avail _ _ W).
  set (q1 := set_d _ i _).
  assert (Dl : q1.(d) i = q.(d) (q.(size) - 1)) by apply upd_eq.
  rewrite Dl.
  destruct (Z.eq_dec i (q.(size) - 1)) as [L|L].
  - rewrite <- L, Hd. pose proof (above_refl s x) as Rf. unfold above in Rf. rewrite Rf.
    rewrite percolate_down_outside by (cbn; lia). eexists _, _.
    split; [done|]. split; [done|]. rewrite <- Hd, L. apply updated_drop_last; try done; try lia.
    + intros k Hk. cbn -[upd]. rewrite upd_self. apply upd_ne. lia.
    + intros y. apply getpos_setpos_id; [split; lia|]. rewrite <- L, Dl. unfold i.
      by rewrite <- L, Hd.
    + apply pos_frame_setpos.
    + apply pri_frame_setpos.
  - assert (Hr := heap_replace q s i W ltac:(lia)). cbn zeta in Hr.
    assert (M : forall y, mem q1 y <-> mem q y /\ y <> x).
    { intros y. rewrite <- Hd. apply (mem_drop q s i y); [done|lia]. }
    assert (R : exists q' s', (if cmppri (getpri s x) (getpri s (q.(d) (q.(size) - 1)))
                 then bubble_up q1 s i else percolate_down q1 s i) = Ok (q', s') /\
              q'.(size) = q1.(size) /\ updated q1 s (mem q1) q' s').
    { destruct (cmppri _ _) eqn:C; [apply bubble_up_spec|apply percolate_down_spec];
        try (cbn; lia); (split; [apply hole_last; [done|lia]|]); apply Hr; rewrite Hd;
        [by apply above_asym|done]. }
    destruct R as (q' & s' & E & Sz & Wf & U). exists q', s'.
    split; [exact E|]. split; [exact Sz|]. split; [exact Wf|].
    destruct U as (Av & Sp & Mm & Pf & Pr & Po). split_and!; try done.
    + intros y. rewrite Mm. apply M.
    + intros y Hy. apply Po. by rewrite M.
Qed.

(** ** The validity test *)

(** [j] lies strictly below [pos] in the tree. *)
Definition below (pos j : Z) : Prop := exists k, 1 <= k /\ j / 2 ^ k = pos.

Lemma below_step pos j : 1 <= pos -> below pos j -> j / 2 = pos \/ below (2 * pos) j \/ below (2 * pos + 1) j.
Proof.
  intros Hp (k & Hk & E). destruct (Z.eq_dec k 1) as [->|]; [by left|right].
  assert (E2 : j / 2 ^ (k - 1) / 2 = pos).
  { rewrite Z.div_div by lia. replace (2 ^ (k - 1) * 2) with (2 ^ k); [done|].
    rewrite Z.mul_comm, <- Z.pow_succ_r by lia. f_equal. lia. }
  destruct (child_cases _ _ E2) as [C|C]; [left|right]; exists (k - 1); (split; [lia|done]).
Qed.

Lemma below_trans pos c j : 1 <= c -> c / 2 = pos -> below c j -> below pos j.
Proof.
  intros Hc Hcp (k & Hk & E). exists (k + 1). split; [lia|].
  rewrite Z.pow_add_r, <- Z.div_div, E by lia. exact Hcp.
Qed.

Lemma below_child pos c : c / 2 = pos -> below pos c.
Proof. intros E. exists 1. split; [lia|exact E]. Qed.

Lemma below_le pos j : 1 <= pos -> below pos j -> pos < j.
Proof.
  intros Hp (k & Hk & E). assert (2 ^ 1 <= 2 ^ k) by (apply Z.pow_le_mono_r; lia).
  assert (2 ^ k * (j / 2 ^ k) <= j) by (apply Z.mul_div_le; lia). nia.
Qed.

Lemma subtree_is_valid_iff fuel : forall q s pos,
  1 <= pos -> q.(size) <= pos + Z.of_nat fuel ->
  subtree_is_valid fuel q s pos = true <->
  (forall j, below pos j -> j < q.(size) -> above s (q.(d) (j / 2)) (q.(d) j)).
Proof.
  induction fuel as [|fuel IH]; intros q s pos Hp Hf.
  { split; [|done]. intros _ j Hj Hjs. apply below_le in Hj; lia. }
  cbn [subtree_is_valid]. rewrite left_mul, right_mul.
  assert (Side : forall c, c / 2 = pos -> 1 <= c ->
    (if c <? q.(size) then negb (cmppri (getpri s (q.(d) pos)) (getpri s (q.(d) c))) &&
       subtree_is_valid fuel q s c else true) = true <->
    (forall j, j = c \/ below c j -> j < q.(size) -> above s (q.(d) (j / 2)) (q.(d) j))).
  { intros c Hc Hc1. destruct (Z.ltb_spec c q.(size)) as [L|L].
    - rewrite andb_true_iff, negb_true_iff, IH by zlia. split.
      + intros [A B] j [->|Hj] Hjs; [by rewrite Hc|by apply B].
      + intros A. split; [|intros; apply A; [by right|done]].
        specialize (A c (or_introl eq_refl) L). by rewrite Hc in A.
    - split; [|done]. intros _ j [->|Hj] Hjs; [lia|]. apply below_le in Hj; lia. }
  rewrite andb_true_iff, !Side by zlia. split.
  - intros [A B] j Hj Hjs. apply below_step in Hj as [Hj|[Hj|Hj]]; [|by apply A; auto|by apply B; auto|done].
    apply child_cases in Hj as [->| ->]; [by apply A; [left|]|by apply B; [left|]].
  - intros A. split; intros j [->|Hj] Hjs; apply A; try done; try (apply below_child; zlia);
      eapply below_trans; try exact Hj; zlia.
Qed.

(** Validity test: [pqueue_is_valid] accepts exactly the arrays whose
    every element is not above its parent. *)
Theorem pqueue_is_valid_iff q s :
  1 <= q.(size) -> pqueue_is_valid q s = true <-> heap q.(size) q.(d) s.
Proof.
  intros Hs. unfold pqueue_is_valid. rewrite subtree_is_valid_iff by lia. split.
  - intros A j Hj. apply A; [|lia]. exists (Z.log2 j).
    pose proof (Z.log2_spec j ltac:(lia)). assert (1 <= Z.log2 j) by (apply (Z.log2_le_mono 2); lia).
    split; [done|]. symmetry. apply Z.div_unique with (j - 2 ^ Z.log2 j); [left|lia].
    rewrite Z.pow_succ_r in * by lia. lia.
  - intros A j Hj Hjs. apply below_le in Hj; [|lia]. apply A. lia.
Qed.

(** ** The queue as a bag of prioritised objects

    The abstract queue holds a finite set of objects, the priority of every
    object and a capacity.  [Pop] and [Peek] may answer any object that no other
    one beats. *)

Record bag := mk_bag { items : gset Z; pri : Z -> Z; cap : Z }.

Variant pq_op := Insert (x : Z) | Pop | Peek | Change (p x : Z) | Remove (x : Z).

Definition best (b : bag) (x : Z) : Prop :=
  x ∈ b.(items) /\ forall y, y ∈ b.(items) -> cmppri (b.(pri) x) (b.(pri) y) = false.

Definition count (b : bag) : Z := Z.of_nat (base.size b.(items)).

Inductive bag_step (b : bag) : pq_op -> option Z -> bag -> Prop :=
| step_insert x :
    x ∉ b.(items) -> count b < b.(cap) ->
    bag_step b (Insert x) None (mk_bag ({[x]} ∪ b.(items)) b.(pri) b.(cap))
| step_pop x :
    best b x -> bag_step b Pop (Some x) (mk_bag (b.(items) ∖ {[x]}) b.(pri) b.(cap))
| step_pop_empty : b.(items) = ∅ -> bag_step b Pop None b
| step_peek x : best b x -> bag_step b Peek (Some x) b
| step_peek_empty : b.(items) = ∅ -> bag_step b Peek None b
| step_change p x :
    x ∈ b.(items) -> pri_ok p ->
    bag_step b (Change p x) None (mk_bag b.(items) (fun y => if y =? x then p else b.(pri) y) b.(cap))
| step_remove x :
    x ∈ b.(items) -> bag_step b (Remove x) None (mk_bag (b.(items) ∖ {[x]}) b.(pri) b.(cap)).

(** What a caller must ensure. *)
Definition bag_enabled (b : bag) (o : pq_op) : Prop :=
  match o with
  | Insert x => (x ∉ b.(items)) /\ count b < b.(cap)
  | Pop | Peek => True
  | Change p x => x ∈ b.(items) /\ pri_ok p
  | Remove x => x ∈ b.(items)
  end.

(** Operations, and sequences of them, on the heap. *)
Definition pq_step (q : pqueue) (s : St) (o : pq_op) : result (option Z * pqueue * St) :=
  match o with
  | Insert x => '(q, s) ← pqueue_insert q s x; Ok (None, q, s)
  | Pop => pqueue_pop q s
  | Peek => Ok (pqueue_peek q, q, s)
  | Change p x => '(q, s) ← pqueue_change_priority q s p x; Ok (None, q, s)
  | Remove x => '(q, s) ← pqueue_remove q s x; Ok (None, q, s)
  end.

Fixpoint pq_run (q : pqueue) (s : St) (os : list pq_op) : result (list (option Z) * pqueue * St) :=
  match os with
  | [] => Ok ([], q, s)
  | o :: os =>
      '(r, q, s) ← pq_step q s o;
      '(rs, q, s) ← pq_run q s os;
      Ok (r :: rs, q, s)
  end.

Inductive bag_run : bag -> list pq_op -> list (option Z) -> bag -> Prop :=
| run_nil b : bag_run b [] [] b
| run_cons b o os r rs b' b'' :
    bag_step b o r b' -> bag_run b' os rs b'' -> bag_run b (o :: os) (r :: rs) b''.

(** Every operation is enabled whatever the abstract queue answered before it. *)
Fixpoint allowed (b : bag) (os : list pq_op) : Prop :=
  match os with
  | [] => True
  | o :: os => bag_enabled b o /\ forall r b', bag_step b o r b' -> allowed b' os
  end.

(** The heap [q] over the store [s] represents the bag [b]. *)
Record represents (q : pqueue) (s : St) (b : bag) : Prop := {
  rep_wf : wf q s;
  rep_items : forall x, mem q x <-> x ∈ b.(items);
  rep_pri : forall x, getpri s x = b.(pri) x;
  rep_count : count b = q.(size) - 1;
  rep_cap : b.(cap) = q.(avail) - 1
}.

Lemma represents_updated q s b (m : gset Z) q' s' :
  represents q s b -> updated q s (fun x => x ∈ m) q' s' ->
  Z.of_nat (base.size m) = q'.(size) - 1 -> represents q' s' (mk_bag m b.(pri) b.(cap)).
Proof.
  intros R (W & A & _ & M & _ & P & _) S. split; try done.
  - intros x. cbn. rewrite P. apply R.
  - cbn. rewrite A. apply R.
Qed.

Lemma updated_ext q s m m' q' s' :
  (forall x, m x <-> m' x) -> updated q s m q' s' -> updated q s m' q' s'.
Proof.
  intros E (W & A & B & M & F & P & O). split_and!; try done.
  - intros x. by rewrite M.
  - intros x Hx. apply O. by rewrite E.
Qed.

Lemma top_best q s b : represents q s b -> 1 < q.(size) -> best b (q.(d) 1).
Proof.
  intros R Hs. split; [apply R; by exists 1|]. intros y Hy.
  apply (rep_items _ _ _ R) in Hy as (j & Hj & <-). rewrite <- !(rep_pri _ _ _ R).
  by apply (heap_root q.(size)); [apply (rep_wf _ _ _ R)|].
Qed.

Lemma empty_items q s b : represents q s b -> q.(size) = 1 -> b.(items) = ∅.
Proof.
  intros R E. apply leibniz_equiv. intros x. rewrite <- (rep_items _ _ _ R).
  split; [|set_solver]. intros (j & Hj & _). lia.
Qed.

(** Removing one object, as [Pop] and [Remove] do. *)
Lemma represents_minus q s b x q' s' :
  represents q s b -> x ∈ b.(items) -> q'.(size) = q.(size) - 1 ->
  updated q s (fun y => mem q y /\ y <> x) q' s' ->
  represents q' s' (mk_bag (b.(items) ∖ {[x]}) b.(pri) b.(cap)).
Proof.
  intros R Hx Hs U. apply (represents_updated q s b).
  - done.
  - eapply updated_ext; [|exact U]. intros y. cbn. rewrite (rep_items _ _ _ R). set_solver.
  - rewrite Hs, <- (rep_count _ _ _ R). unfold count.
    rewrite size_difference by set_solver. rewrite size_singleton.
    assert (base.size b.(items) <> 0%nat) by (apply size_non_empty_iff; set_solver). lia.
Qed.

Lemma pq_step_refines q s b o :
  represents q s b -> bag_enabled b o ->
  exists r q' s' b', pq_step q s o = Ok (r, q', s') /\ bag_step b o r b' /\ represents q' s' b'.
Proof.
  intros R E. pose proof (rep_wf _ _ _ R) as W. pose proof (wf_size _ _ W) as Sz. destruct o as [x| | |p x|x].
  - destruct E as [Hx Hc]. rewrite <- (rep_items _ _ _ R) in Hx.
    rewrite (rep_count _ _ _ R), (rep_cap _ _ _ R) in Hc.
    destruct (insert_ok q s x W Hx) as (q' & s' & Eq & S & U); [lia|].
    cbn. rewrite Eq. eexists _, _, _, _. split; [done|].
    rewrite (rep_items _ _ _ R) in Hx. split.
    { apply step_insert; [done|]. rewrite (rep_count _ _ _ R), (rep_cap _ _ _ R). lia. }
    apply (represents_updated q s b); [done| |].
    + eapply updated_ext; [|exact U]. intros y. cbn. rewrite (rep_items _ _ _ R). set_solver.
    + rewrite S, size_union, size_singleton by set_solver. pose proof (rep_count _ _ _ R) as C.
      unfold count in C. lia.
  - destruct (Z.eq_dec q.(size) 1) as [E1|E1].
    + exists None, q, s, b. cbn. unfold pqueue_pop. rewrite (proj2 (Z.eqb_eq _ _) E1).
      split; [done|]. split; [apply step_pop_empty; by apply (empty_items q s)|done].
    + destruct (pop_ok q s W) as (x & q' & s' & Eq & S & Hx & Top & U); [lia|].
      cbn. rewrite Eq. eexists _, _, _, _. split; [done|]. apply (rep_items _ _ _ R) in Hx. split.
      * apply step_pop. split; [done|]. intros y Hy. rewrite <- !(rep_pri _ _ _ R).
        apply Top. by apply R.
      * by apply (represents_minus q s).
  - exists (pqueue_peek q), q, s, b. split; [done|]. split; [|done]. unfold pqueue_peek.
    destruct (Z.eqb_spec q.(size) 1) as [E1|E1].
    + apply step_peek_empty. by apply (empty_items q s).
    + apply step_peek. apply (top_best q s); [done|lia].
  - destruct E as [Hx Hp]. pose proof Hx as Hm. apply (rep_items _ _ _ R) in Hm.
    destruct (change_ok q s p x W Hm Hp) as (q' & s' & Eq & S & U & Gx & Gy).
    cbn. rewrite Eq. eexists _, _, _, _. split; [done|]. split; [by apply step_change|].
    destruct U as (W' & A & _ & M & _). split; cbn; try done.
    + intros y. rewrite M. apply R.
    + intros y. case_cmp; [by subst|]. rewrite Gy by done. apply R.
    + rewrite S. apply R.
    + rewrite A. apply R.
  - cbn in E. pose proof E as Hm. apply (rep_items _ _ _ R) in Hm.
    destruct (remove_ok q s x W Hm) as (q' & s' & Eq & S & U).
    cbn. rewrite Eq. eexists _, _, _, _. split; [done|]. split; [by apply step_remove|].
    by apply (represents_minus q s).
Qed.

(** C9 (queue refinement): on a heap that represents a bag, every sequence of insertions,
    pops, peeks, priority changes and removals that respects the bag's preconditions runs
    without fault, answers as the bag may, and ends in a heap that represents the bag's end. *)
Theorem pqueue_refines_bag os q s b :
  represents q s b -> allowed b os ->
  exists rs q' s' b', pq_run q s os = Ok (rs, q', s') /\ bag_run b os rs b' /\ represents q' s' b'.
Proof.
  revert q s b. induction os as [|o os IH]; intros q s b R A; cbn [pq_run].
  { eexists _, _, _, _. split; [done|]. split; [apply run_nil|done]. }
  destruct A as [E A]. destruct (pq_step_refines q s b o R E) as (r & q1 & s1 & b1 & -> & B1 & R1).
  destruct (IH q1 s1 b1 R1 (A r b1 B1)) as (rs & q2 & s2 & b2 & E2 & B2 & R2).
  cbn [mbind result_mbind result_bind]. rewrite E2. eexists _, _, _, _. split; [done|].
  split; [by eapply run_cons|done].
Qed.

End Theory.
