(* ===== verification/Line.v ===== *)
(** * Superblocks ([struct line]) and the queue callbacks over them

    [struct line] of [demand_ftl.h] and the [victim_line_*] callbacks of
    [demand_ftl.c], which make the line table the store of the victim queue:
    a line is named by its index in [lm->lines]. *)

From S2P Require Import Prelude PQueue.

(** The fields of [struct line]; [entry], its list link, is the membership in
    the lists of [Lines.v]. *)
Record line := mk_line {
  id : Z; ipc : Z; vpc : Z; vgc : Z; igc : Z; vbc : Z; ibc : Z;
  pos : Z; pos_b : Z; map : bool
}.

Definition set_vgc (l : line) (v : Z) : line :=
  mk_line l.(id) l.(ipc) l.(vpc) v l.(igc) l.(vbc) l.(ibc) l.(pos) l.(pos_b) l.(map).
Definition set_igc (l : line) (v : Z) : line :=
  mk_line l.(id) l.(ipc) l.(vpc) l.(vgc) v l.(vbc) l.(ibc) l.(pos) l.(pos_b) l.(map).
Definition set_pos (l : line) (p : Z) : line :=
  mk_line l.(id) l.(ipc) l.(vpc) l.(vgc) l.(igc) l.(vbc) l.(ibc) p l.(pos_b) l.(map).
Definition set_map (l : line) (b : bool) : line :=
  mk_line l.(id) l.(ipc) l.(vpc) l.(vgc) l.(igc) l.(vbc) l.(ibc) l.(pos) l.(pos_b) b.

(** [lm->lines], indexed by line id. *)
Definition line_table := Z -> line.

(** The comparison callback: fewer valid grains first. *)
Definition victim_line_cmp_pri (next curr : Z) : bool := curr <? next.

(** [vgc] is an [int]; the callback returns it as an [unsigned long long]. *)
Definition victim_line_get_pri (t : line_table) (a : Z) : Z := u64 (t a).(vgc).
Definition victim_line_set_pri (t : line_table) (a pri : Z) : line_table :=
  upd t a (set_vgc (t a) (i32 pri)).
Definition victim_line_get_pos (t : line_table) (a : Z) : Z := (t a).(pos).
Definition victim_line_set_pos (t : line_table) (a p : Z) : line_table :=
  upd t a (set_pos (t a) (u64 p)).

(** Two tables agree but for positions. *)
Definition same_but_pos (t t' : line_table) : Prop :=
  forall a, t' a = set_pos (t a) (t' a).(pos).

#[export] Instance line_pq_ops : PQOps line_table := {|
  getpri := victim_line_get_pri;
  setpri := victim_line_set_pri;
  getpos := victim_line_get_pos;
  setpos := victim_line_set_pos;
  cmppri := victim_line_cmp_pri;
  pri_ok p := 0 <= p < 2 ^ 31;
  pos_frame := same_but_pos
|}.

#[export] Instance same_but_pos_preorder : PreOrder same_but_pos.
Proof.
  split.
  - intros t a. by destruct (t a).
  - intros t t' t'' A B a. rewrite B, A. by destruct (t'' a).
Qed.

#[export] Instance line_pq_laws : PQLaws line_table.
Proof.
  split; cbn.
  - intros s x p y Hp. unfold victim_line_get_pos, victim_line_set_pos, upd.
    case_cmp; cbn; [by apply uw_small|done].
  - intros s x p y. unfold victim_line_get_pri, victim_line_set_pos, upd.
    case_cmp; [subst|]; done.
  - intros s x p y Hp. unfold victim_line_get_pri, victim_line_set_pri, upd.
    case_cmp; cbn; [|done]. rewrite i32_small by lia. apply u64_small. lia.
  - intros s x p y. unfold victim_line_get_pos, victim_line_set_pri, upd.
    case_cmp; [subst|]; done.
  - unfold victim_line_cmp_pri. intros a b H. bool_to_prop. by apply Z.ltb_ge; lia.
  - unfold victim_line_cmp_pri. intros a b c H1 H2. bool_to_prop. apply Z.ltb_ge. lia.
  - apply _.
  - intros s x p a. unfold victim_line_set_pos, upd. case_cmp; [subst|]; cbn; by destruct (s _).
Qed.

(** ** A two-line victim queue

    The input of the witnesses below: lines 1 and 2, with 5 and 7 valid grains,
    are queued; line 3 is not. *)

Definition ex_line (i v p : Z) : line := mk_line i 0 0 v 1 0 0 p 0 false.
Definition ex_table : line_table := fun a =>
  if a =? 1 then ex_line 1 5 1 else if a =? 2 then ex_line 2 7 2 else ex_line a 6 0.
Definition ex_queue : pqueue := mk_pqueue 3 5 5 (fun j => j).

Lemma ex_wf : wf ex_queue ex_table.
Proof.
  assert (C : forall j, 1 <= j < 3 -> j = 1 \/ j = 2) by (intros; lia).
  split; cbn; try lia.
  - intros j Hj. by destruct (C j Hj) as [->| ->].
  - intros j Hj. assert (j = 2) as -> by lia. reflexivity.
Qed.

Lemma ex_mem : mem ex_queue 1 /\ mem ex_queue 2 /\ ~ mem ex_queue 3.
Proof.
  split_and!; [exists 1|exists 2|]; [done|done|]. intros (j & Hj & E). cbn in *. lia.
Qed.

Definition ex_bag : bag := mk_bag {[1; 2]} (fun a => u64 (ex_table a).(vgc)) 4.

Lemma ex_represents : represents ex_queue ex_table ex_bag.
Proof.
  split; try done; [apply ex_wf|]. intros x. cbn. split.
  - intros (j & Hj & <-). cbn in *. assert (j = 1 \/ j = 2) as [->| ->] by lia; set_solver.
  - intros Hx. assert (x = 1 \/ x = 2) as [->| ->] by set_solver; [exists 1|exists 2]; done.
Qed.

(** Queue line 3, then take two lines. *)
Lemma pqueue_refines_bag_witness :
  exists rs q' s' b', pq_run ex_queue ex_table [Insert 3; Pop; Pop] = Ok (rs, q', s') /\
    bag_run ex_bag [Insert 3; Pop; Pop] rs b' /\ represents q' s' b'.
Proof.
  apply (pqueue_refines_bag [Insert 3; Pop; Pop]); [apply ex_represents|].
  split; [split; [set_solver|reflexivity]|]. done.
Defined.

Lemma pqueue_is_valid_iff_witness :
  pqueue_is_valid ex_queue ex_table = true <-> heap 3 (fun j => j) ex_table.
Proof. apply (pqueue_is_valid_iff ex_queue ex_table). discriminate. Defined.

(** The queue hands out the line with the fewest valid grains. *)
Example ex_pop : (fun r => match r with Ok (x, _, _) => x | Err _ => None end)
  (pqueue_pop ex_queue ex_table) = Some 1.
Proof. reflexivity. Qed.
