(* ===== verification/Fifo.v ===== *)
(** * The eviction FIFO ([fifo.c])

    A global ring buffer of hash table sections.  A section is named by its
    index; [None] is the [NULL] returned by an empty queue.  The spin lock
    around each operation makes the operations atomic; the abstract queue is a
    bounded list that drops what does not fit. *)

From S2P Require Import Prelude.

Definition RING_BUFFER_SIZE : Z := 600000.

(** [struct ring_buffer]. *)
Record ring_buffer := mk_rb { buffer : Z -> Z; head : Z; tail : Z }.

Definition rb_init (rb : ring_buffer) : ring_buffer := mk_rb rb.(buffer) 0 0.

Definition rb_is_full (rb : ring_buffer) : bool :=
  (rb.(head) + 1) mod RING_BUFFER_SIZE =? rb.(tail).

Definition rb_is_empty (rb : ring_buffer) : bool := rb.(head) =? rb.(tail).

(** The result is the C return code: -1 full, 0 success. *)
Definition rb_push (rb : ring_buffer) (data : Z) : Z * ring_buffer :=
  if rb_is_full rb then (-1, rb)
  else (0, mk_rb (upd rb.(buffer) rb.(head) data)
             ((rb.(head) + 1) mod RING_BUFFER_SIZE) rb.(tail)).

Definition rb_pop (rb : ring_buffer) : option Z * ring_buffer :=
  if rb_is_empty rb then (None, rb)
  else (Some (rb.(buffer) rb.(tail)),
        mk_rb rb.(buffer) rb.(head) ((rb.(tail) + 1) mod RING_BUFFER_SIZE)).

Definition fifo_init (rb : ring_buffer) : ring_buffer := rb_init rb.

(** [fifo_enqueue] discards [rb_push]'s return code and always answers [0xA]. *)
Definition fifo_enqueue (rb : ring_buffer) (data : Z) : Z * ring_buffer :=
  (10, snd (rb_push rb data)).

Definition fifo_dequeue (rb : ring_buffer) : option Z * ring_buffer :=
  if rb_is_empty rb then (None, rb) else rb_pop rb.

(** ** The abstract queue *)

Definition FIFO_CAPACITY : nat := Z.to_nat (RING_BUFFER_SIZE - 1).

Variant fifo_op := Enqueue (x : Z) | Dequeue.

(** What an operation shows its caller. *)
Definition fifo_step (rb : ring_buffer) (o : fifo_op) : option Z * ring_buffer :=
  match o with
  | Enqueue x => let '(r, rb) := fifo_enqueue rb x in (Some r, rb)
  | Dequeue => fifo_dequeue rb
  end.

Definition queue_step (q : list Z) (o : fifo_op) : option Z * list Z :=
  match o with
  | Enqueue x => (Some 10, if Nat.ltb (length q) FIFO_CAPACITY then q ++ [x] else q)
  | Dequeue => match q with [] => (None, []) | x :: q => (Some x, q) end
  end.

Fixpoint run {S} (stp : S -> fifo_op -> option Z * S) (s : S) (os : list fifo_op)
    : list (option Z) :=
  match os with
  | [] => []
  | o :: os => let '(r, s) := stp s o in r :: run stp s os
  end.

(** ** Representation *)

(** The [n] cells from [t] on, wrapping around. *)
Fixpoint cells (b : Z -> Z) (t : Z) (n : nat) : list Z :=
  match n with
  | O => []
  | S n => b t :: cells b ((t + 1) mod RING_BUFFER_SIZE) n
  end.

Definition in_ring (i : Z) : Prop := 0 <= i < RING_BUFFER_SIZE.

(** [rb] stores exactly [q]. *)
Definition represents (rb : ring_buffer) (q : list Z) : Prop :=
  in_ring rb.(head) /\ in_ring rb.(tail) /\
  Z.of_nat (length q) = (rb.(head) - rb.(tail)) mod RING_BUFFER_SIZE /\
  q = cells rb.(buffer) rb.(tail) (length q).

Lemma ring_pos : 0 < RING_BUFFER_SIZE.
Proof. reflexivity. Qed.

Lemma fifo_succ i : in_ring i ->
  (i + 1) mod RING_BUFFER_SIZE = if i =? RING_BUFFER_SIZE - 1 then 0 else i + 1.
Proof.
  unfold in_ring, RING_BUFFER_SIZE. intros H. case_cmp; [by subst|].
  apply Z.mod_small. lia.
Qed.

Lemma ring_diff h t : in_ring h -> in_ring t ->
  (h - t) mod RING_BUFFER_SIZE = if t <=? h then h - t else h - t + RING_BUFFER_SIZE.
Proof.
  unfold in_ring, RING_BUFFER_SIZE. intros Hh Ht. case_cmp; [apply Z.mod_small; lia|].
  symmetry. apply Z.mod_unique with (-1); lia.
Qed.

Lemma in_ring_mod x : in_ring (x mod RING_BUFFER_SIZE).
Proof. apply Z.mod_pos_bound, ring_pos. Qed.

(** Appending one cell at the end of the segment. *)
Lemma cells_snoc b t n :
  cells b t (S n) = cells b t n ++ [b ((t + Z.of_nat n) mod RING_BUFFER_SIZE)] \/ ~ in_ring t.
Proof.
  revert t. induction n as [|n IH]; intros t.
  { destruct (decide (0 <= t < RING_BUFFER_SIZE)) as [H|H]; [left|by right].
    cbn. rewrite Z.add_0_r, Z.mod_small by exact H. done. }
  destruct (IH ((t + 1) mod RING_BUFFER_SIZE)) as [E|E]; [left|by destruct E; apply in_ring_mod].
  change (cells b t (S (S n))) with (b t :: cells b ((t + 1) mod RING_BUFFER_SIZE) (S n)).
  rewrite E, app_comm_cons. f_equal. f_equal. f_equal.
  rewrite Zplus_mod_idemp_l. f_equal. lia.
Qed.

(** A cell outside the segment does not matter. *)
Lemma cells_upd b t n i x : in_ring t -> in_ring i ->
  Z.of_nat n <= (i - t) mod RING_BUFFER_SIZE ->
  cells (upd b i x) t n = cells b t n.
Proof.
  revert t. induction n as [|n IH]; intros t Ht Hi Hn; [done|]. cbn [cells].
  rewrite IH; [|apply in_ring_mod|done|].
  - f_equal. apply upd_ne. intros ->. rewrite Z.sub_diag, Z.mod_0_l in Hn by (intros ?; discriminate). lia.
  - rewrite fifo_succ by done. rewrite ring_diff in Hn by done.
    unfold in_ring, RING_BUFFER_SIZE in *.
    destruct (Z.eqb_spec t (600000 - 1)); rewrite ring_diff;
      unfold in_ring, RING_BUFFER_SIZE; try lia; revert Hn; repeat case_cmp; lia.
Qed.

(** Case analysis on where head and tail stand in the ring. *)
Ltac ring_cases rb :=
  unfold in_ring, RING_BUFFER_SIZE in *;
  destruct (Z.leb_spec rb.(tail) rb.(head)), (Z.eqb_spec rb.(head) (600000 - 1)),
    (Z.eqb_spec rb.(tail) (600000 - 1)); try lia.

Lemma enqueue_represents rb q x :
  represents rb q -> represents (snd (fifo_enqueue rb x)) (snd (queue_step q (Enqueue x))).
Proof.
  intros (Hh & Ht & Hl & Hq). unfold fifo_enqueue, queue_step, rb_push, rb_is_full.
  cbn [snd].
  rewrite fifo_succ, ring_diff in * by done.
  destruct (Nat.ltb_spec (length q) FIFO_CAPACITY) as [L|L];
    unfold FIFO_CAPACITY, RING_BUFFER_SIZE in L.
  - destruct (Z.eqb_spec (if rb.(head) =? RING_BUFFER_SIZE - 1 then 0 else rb.(head) + 1)
      rb.(tail)) as [F|F]; [exfalso; revert F; ring_cases rb|].
    unfold represents. cbn [snd head tail buffer].
    assert (length (q ++ [x]) = S (length q)) as -> by (rewrite length_app; cbn; lia).
    split; [revert F; ring_cases rb|]. split; [exact Ht|]. split.
    + rewrite ring_diff by (try done; revert F; ring_cases rb).
      revert F; ring_cases rb; intros F; case_cmp; lia.
    + destruct (cells_snoc (upd rb.(buffer) rb.(head) x) rb.(tail) (length q)) as [->|N];
        [|done].
      rewrite cells_upd; [|done|done|rewrite ring_diff by done; lia].
      rewrite <- Hq. do 2 f_equal.
      replace ((rb.(tail) + Z.of_nat (length q)) mod RING_BUFFER_SIZE) with rb.(head);
        [by rewrite upd_eq|].
      clear F. symmetry. revert Hl. unfold in_ring, RING_BUFFER_SIZE in *. case_cmp; intros ->.
      * rewrite Z.mod_small; lia.
      * symmetry. apply Z.mod_unique with 1; [left|]; lia.
  - rewrite (proj2 (Z.eqb_eq _ _)) by (ring_cases rb).
    split; [done|]. split; [done|]. split; [|done]. by rewrite ring_diff.
Qed.

Lemma dequeue_represents rb q :
  represents rb q ->
  fst (fifo_dequeue rb) = fst (queue_step q Dequeue) /\
  represents (snd (fifo_dequeue rb)) (snd (queue_step q Dequeue)).
Proof.
  intros (Hh & Ht & Hl & Hq). unfold fifo_dequeue, rb_pop, rb_is_empty.
  rewrite ring_diff in Hl by done.
  destruct (Z.eqb_spec rb.(head) rb.(tail)) as [E|E]; destruct q as [|y q]; cbn [length] in *.
  - cbn. split; [done|]. split; [done|]. split; [done|]. split; [|done].
    rewrite E, Z.sub_diag. done.
  - exfalso. ring_cases rb.
  - exfalso. ring_cases rb.
  - cbn [queue_step fst snd]. cbn [cells] in Hq. injection Hq as Hy Hq. split; [by rewrite Hy|].
    unfold represents. cbn [head tail buffer]. rewrite fifo_succ in * by done.
    split; [done|]. split; [ring_cases rb|]. split; [|done].
    rewrite ring_diff by (try done; ring_cases rb). ring_cases rb; case_cmp; lia.
Qed.

(** C28 (FIFO refinement): from an initialised ring, any sequence of enqueues and dequeues
    answers exactly as a list queue does that holds [RING_BUFFER_SIZE - 1]
    sections and silently drops what does not fit. *)
Theorem fifo_refines_queue rb os :
  run fifo_step (fifo_init rb) os = run queue_step [] os.
Proof.
  assert (R : represents (fifo_init rb) []) by (repeat split; done).
  revert R. generalize (fifo_init rb), (@nil Z). induction os as [|o os IH]; [done|].
  intros r q R. cbn [run]. destruct o as [x|].
  - pose proof (enqueue_represents r q x R) as R'. cbn in R' |- *.
    f_equal. by apply IH.
  - pose proof (dequeue_represents r q R) as [E R']. cbn [fifo_step].
    destruct (fifo_dequeue r), (queue_step q Dequeue). cbn in *. subst. f_equal. by apply IH.
Qed.

(** When the ring is full the enqueue still reports success. *)
Lemma fifo_enqueue_full rb x : rb_is_full rb = true -> fifo_enqueue rb x = (10, rb).
Proof. intros E. unfold fifo_enqueue, rb_push. by rewrite E. Qed.
