(* ===== verification/Lru.v ===== *)
(** * The LRU list of append buffers ([lru.c])

    A doubly linked list of caller-owned [struct item]s with an index by id.
    The items live in a memory [item_mem]; a pointer is the item's address and
    [None] is [NULL].  Dereferencing [NULL] is the fault [NULLPTR], indexing
    [items] outside its 128 cells the fault [OOB]. *)

From S2P Require Import Prelude.

Definition MAX_CAPACITY : Z := 128.

Record item := mk_item { id : Z; prev : option Z; next : option Z }.

Definition item_mem := Z -> item.

Definition set_prev (m : item_mem) (p : Z) (v : option Z) : item_mem :=
  upd m p (mk_item (m p).(id) v (m p).(next)).
Definition set_next (m : item_mem) (p : Z) (v : option Z) : item_mem :=
  upd m p (mk_item (m p).(id) (m p).(prev) v).

Record lru_cache := mk_lru {
  head : option Z; tail : option Z; capacity : Z; size : Z;
  items : Z -> option Z
}.

Definition set_head (c : lru_cache) (p : option Z) : lru_cache :=
  mk_lru p c.(tail) c.(capacity) c.(size) c.(items).
Definition set_tail (c : lru_cache) (p : option Z) : lru_cache :=
  mk_lru c.(head) p c.(capacity) c.(size) c.(items).
Definition set_size (c : lru_cache) (n : Z) : lru_cache :=
  mk_lru c.(head) c.(tail) c.(capacity) n c.(items).
Definition set_items (c : lru_cache) (i : Z) (p : option Z) : lru_cache :=
  mk_lru c.(head) c.(tail) c.(capacity) c.(size) (upd c.(items) i p).

(** [deref p] follows a pointer. *)
Definition deref (p : option Z) : result Z :=
  match p with Some a => Ok a | None => Err NULLPTR end.

(** [item_cell i] checks an index into [items]. *)
Definition item_cell (i : Z) : result unit :=
  if (0 <=? i) && (i <? MAX_CAPACITY) then Ok tt else Err OOB.

Definition lru_cache_init (c : lru_cache) (cap : Z) : lru_cache :=
  mk_lru None None cap 0 c.(items).

(** The statements [get] and [remove] share: an item that is not the head
    leaves the chain. *)
Definition unlink (c : lru_cache) (m : item_mem) (it : Z)
    : result (lru_cache * item_mem) :=
  if decide (Some it = c.(tail)) then
    let c := set_tail c (m it).(prev) in
    t ← deref c.(tail);
    Ok (c, set_next m t None)
  else
    p ← deref (m it).(prev);
    let m := set_next m p (m it).(next) in
    n ← deref (m it).(next);
    Ok (c, set_prev m n (m it).(prev)).

Definition lru_cache_get (c : lru_cache) (m : item_mem) (i : Z)
    : result (option Z * lru_cache * item_mem) :=
  if (c.(size) =? 0) || (MAX_CAPACITY <=? i) then Ok (None, c, m)
  else
    match c.(items) i with
    | None => Err BUG
    | Some it =>
        if decide (Some it <> c.(head)) then
          '(c, m) ← unlink c m it;
          let m := set_prev m it None in
          let m := set_next m it c.(head) in
          h ← deref c.(head);
          let m := set_prev m h (Some it) in
          Ok (Some it, set_head c (Some it), m)
        else Ok (Some it, c, m)
    end.

Definition lru_cache_set (c : lru_cache) (m : item_mem) (it : Z)
    : result (lru_cache * item_mem) :=
  let i := (m it).(id) in
  '(c, m) ← (if c.(size) =? c.(capacity) then
    lru ← deref c.(tail);
    let c := set_tail c (m lru).(prev) in
    t ← deref c.(tail);
    let m := set_next m t None in
    _ ← item_cell (m lru).(id);
    let c := set_items c (m lru).(id) None in
    Ok (set_size c (c.(size) - 1), m)
  else Ok (c, m));
  let m := set_prev m it None in
  let m := set_next m it c.(head) in
  let '(c, m) := match c.(head) with
    | Some h => (c, set_prev m h (Some it))
    | None => (set_tail c (Some it), m)
    end in
  let c := set_head c (Some it) in
  _ ← item_cell i;
  let c := set_items c i (Some it) in
  Ok (set_size c (c.(size) + 1), m).

Definition lru_cache_remove (c : lru_cache) (m : item_mem) (i : Z)
    : result (lru_cache * item_mem) :=
  if (c.(size) =? 0) || (MAX_CAPACITY <=? i) then Err BUG
  else
    match c.(items) i with
    | None => Err BUG
    | Some it =>
        '(c, m) ← (if decide (Some it = c.(head)) then
          let c := set_head c (m it).(next) in
          match c.(head) with
          | Some h => Ok (c, set_prev m h None)
          | None => Ok (set_tail c None, m)
          end
        else unlink c m it);
        let c := set_items c i None in
        Ok (set_size c (c.(size) - 1), m)
    end.

Definition lru_cache_get_oldest (c : lru_cache) (m : item_mem)
    : result (option Z * lru_cache * item_mem) :=
  if c.(size) =? 0 then Ok (None, c, m)
  else
    oldest ← deref c.(tail);
    '(c, m) ← (if decide (Some oldest = c.(head)) then
      Ok (set_tail (set_head c None) None, m)
    else
      let c := set_tail c (m oldest).(prev) in
      t ← deref c.(tail);
      Ok (c, set_next m t None));
    _ ← item_cell (m oldest).(id);
    let c := set_items c (m oldest).(id) None in
    Ok (Some oldest, set_size c (c.(size) - 1), m).

(** ** Doubly linked segments *)

(** First and last pointer of a segment, or what lies beyond it. *)
Definition first (l : list Z) (nx : option Z) : option Z :=
  match l with [] => nx | p :: _ => Some p end.

Fixpoint final (l : list Z) (pr : option Z) : option Z :=
  match l with [] => pr | p :: l => final l (Some p) end.

(** The items of [l], in order, linked between [pr] and [nx]. *)
Fixpoint dseg (m : item_mem) (pr : option Z) (l : list Z) (nx : option Z) : Prop :=
  match l with
  | [] => True
  | p :: l => (m p).(prev) = pr /\ (m p).(next) = first l nx /\ dseg m (Some p) l nx
  end.

Lemma first_app l1 l2 nx : first (l1 ++ l2) nx = first l1 (first l2 nx).
Proof. by destruct l1. Qed.

Lemma final_app l1 l2 pr : final (l1 ++ l2) pr = final l2 (final l1 pr).
Proof. revert pr. induction l1 as [|p l1 IH]; intros pr; cbn; [done|apply IH]. Qed.

Lemma final_snoc l p pr : final (l ++ [p]) pr = Some p.
Proof. by rewrite final_app. Qed.

Lemma dseg_app m pr l1 l2 nx :
  dseg m pr (l1 ++ l2) nx <-> dseg m pr l1 (first l2 nx) /\ dseg m (final l1 pr) l2 nx.
Proof.
  revert pr. induction l1 as [|p l1 IH]; intros pr; cbn; [tauto|].
  rewrite IH, first_app. tauto.
Qed.

(** Only the items of the segment matter. *)
Lemma dseg_frame m m' pr l nx :
  (forall p, p ∈ l -> m' p = m p) -> dseg m pr l nx -> dseg m' pr l nx.
Proof.
  revert pr. induction l as [|p l IH]; intros pr E; cbn; [done|].
  intros (A & B & C). rewrite E by constructor. split_and!; [done|done|].
  apply IH; [|done]. intros q Hq. apply E. by constructor.
Qed.

(** Retargeting the two ends of a segment. *)
Lemma dseg_set_first m pr pr' p l nx :
  p ∉ l -> dseg m pr (p :: l) nx -> dseg (set_prev m p pr') pr' (p :: l) nx.
Proof.
  intros Hp (A & B & C). cbn. unfold set_prev. rewrite upd_eq. cbn.
  split_and!; [done|done|]. apply (dseg_frame m); [|done].
  intros q Hq. apply upd_ne. by intros ->.
Qed.

Lemma dseg_set_final m pr l p nx nx' :
  p ∉ l -> dseg m pr (l ++ [p]) nx -> dseg (set_next m p nx') pr (l ++ [p]) nx'.
Proof.
  intros Hp. rewrite !dseg_app. cbn. intros (A & B & _ & _). split.
  - apply (dseg_frame m); [|done]. intros q Hq. apply upd_ne. by intros ->.
  - unfold set_next. rewrite upd_eq. cbn. done.
Qed.

Lemma dseg_other m pr l nx p f :
  p ∉ l -> dseg m pr l nx -> dseg (upd m p f) pr l nx.
Proof. intros Hp. apply dseg_frame. intros q Hq. apply upd_ne. by intros ->. Qed.

(** ** The cache invariant: [l] is the recency order, newest first *)

Record wf (c : lru_cache) (m : item_mem) (l : list Z) : Prop := {
  wf_nodup : NoDup l;
  wf_links : dseg m None l None;
  wf_head : c.(head) = first l None;
  wf_tail : c.(tail) = final l None;
  wf_size : c.(size) = Z.of_nat (length l);
  wf_ids : forall p, p ∈ l -> 0 <= (m p).(id) < MAX_CAPACITY /\ c.(items) (m p).(id) = Some p;
  wf_index : forall i p, 0 <= i < MAX_CAPACITY -> c.(items) i = Some p -> p ∈ l /\ (m p).(id) = i
}.

Definition same_ids (m m' : item_mem) : Prop := forall q, (m' q).(id) = (m q).(id).

Lemma same_ids_refl m : same_ids m m.
Proof. done. Qed.

Lemma same_ids_trans m m' m'' : same_ids m m' -> same_ids m' m'' -> same_ids m m''.
Proof. intros A B q. by rewrite B, A. Qed.

Lemma same_ids_prev m p v : same_ids m (set_prev m p v).
Proof. intros q. unfold set_prev, upd. by case_cmp; [subst|]. Qed.

Lemma same_ids_next m p v : same_ids m (set_next m p v).
Proof. intros q. unfold set_next, upd. by case_cmp; [subst|]. Qed.

#[local] Hint Resolve same_ids_refl same_ids_prev same_ids_next : virt.

(** The last element of a non-empty list. *)
Lemma snoc_cases (l : list Z) : l = [] \/ exists l' t, l = l' ++ [t].
Proof. induction l as [|t l' _] using rev_ind; eauto. Qed.

(** Unlinking the last item. *)
Lemma unlink_last m l t p :
  NoDup (l ++ [t] ++ [p]) -> dseg m None (l ++ [t] ++ [p]) None ->
  (m p).(prev) = Some t /\ dseg (set_next m t None) None (l ++ [t]) None.
Proof.
  rewrite app_assoc. intros Hn Hd. apply dseg_app in Hd as [A [B _]].
  rewrite final_snoc in B. split; [done|]. apply dseg_set_final with (nx := Some p); [|done].
  apply NoDup_app in Hn as (Hn & _). apply NoDup_app in Hn as (_ & Hn & _).
  intros Ht. apply (Hn t Ht). by constructor.
Qed.

(** Unlinking an inner item. *)
Lemma unlink_inner m l t p n l2 :
  NoDup (l ++ [t] ++ p :: n :: l2) -> dseg m None (l ++ [t] ++ p :: n :: l2) None ->
  (m p).(prev) = Some t /\ (m p).(next) = Some n /\
  dseg (set_prev (set_next m t (Some n)) n (Some t)) None (l ++ [t] ++ n :: l2) None.
Proof.
  rewrite !app_assoc. intros Hn Hd. apply dseg_app in Hd as [A B].
  cbn [dseg] in B. destruct B as (B1 & B2 & B3). rewrite final_snoc in B1.
  split; [done|]. split; [done|].
  apply NoDup_app in Hn as (Hn1 & Hd12 & Hn2).
  apply NoDup_cons in Hn2 as [Hp2 Hn2]. apply NoDup_app in Hn1 as (_ & Htl & _).
  assert (Ht : t ∉ n :: l2).
  { intros Ht. apply (Hd12 t); [apply elem_of_app; right; by constructor|by constructor]. }
  assert (Hnl : n ∉ l ++ [t]).
  { intros Hx. apply (Hd12 n Hx). do 2 constructor. }
  apply dseg_app. split.
  - apply dseg_other; [done|]. cbn [first]. apply dseg_set_final with (nx := Some p); [|done].
    intros Hx. apply (Htl t Hx). by constructor.
  - rewrite final_snoc. apply dseg_set_first with (pr := Some p).
    + by apply NoDup_cons in Hn2 as [? _].
    + by apply dseg_other.
Qed.

(** Linking a fresh item in front, as [get] and [set] do. *)
Definition link_front (m : item_mem) (p : Z) (h : option Z) : item_mem :=
  let m := set_next (set_prev m p None) p h in
  match h with Some q => set_prev m q (Some p) | None => m end.

Lemma link_front_ids m p h : same_ids m (link_front m p h).
Proof.
  unfold link_front. destruct h; [eapply same_ids_trans; [|apply same_ids_prev]|];
    (eapply same_ids_trans; [apply same_ids_prev|apply same_ids_next]).
Qed.

Lemma link_front_links m p l :
  p ∉ l -> NoDup l -> dseg m None l None ->
  dseg (link_front m p (first l None)) None (p :: l) None.
Proof.
  intros Hp Hn Hd. unfold link_front. destruct l as [|q l]; cbn [first].
  - cbn. unfold set_next, set_prev. by rewrite !upd_eq.
  - assert (p <> q) by (intros ->; apply Hp; constructor).
    split; [|split].
    + unfold set_prev at 1. rewrite upd_ne by done. unfold set_next. rewrite upd_eq. cbn.
      unfold set_prev. by rewrite upd_eq.
    + unfold set_prev at 1. rewrite upd_ne by done. unfold set_next. by rewrite upd_eq.
    + apply (dseg_set_first _ None); [by apply NoDup_cons in Hn as [? _]|].
      apply dseg_other; [done|]. by apply dseg_other.
Qed.

Lemma index_id c m l i p : wf c m l -> 0 <= i < MAX_CAPACITY ->
  c.(items) i = Some p -> exists l1 l2, l = l1 ++ p :: l2 /\ (m p).(id) = i.
Proof.
  intros W Hi E. destruct (wf_index _ _ _ W i p Hi E) as [Hp Hid].
  apply list_elem_of_split in Hp as (l1 & l2 & ->). eauto.
Qed.

(** The new order is a permutation of the old one: ids stay indexed. *)
Lemma wf_permute c m l c' m' l' :
  wf c m l -> l' ≡ₚ l -> same_ids m m' -> dseg m' None l' None ->
  c'.(head) = first l' None -> c'.(tail) = final l' None -> c'.(size) = c.(size) ->
  c'.(items) = c.(items) -> wf c' m' l'.
Proof.
  intros W P I D Hh Ht Hs Hi. split; try done.
  - rewrite P. apply W.
  - rewrite Hs, (wf_size _ _ _ W), P. done.
  - intros p Hp. rewrite P in Hp. rewrite Hi, I. by apply W.
  - intros i p Hr E. rewrite Hi in E. rewrite P, I. by apply W.
Qed.

(** The new order lacks one item, whose index cell is cleared. *)
Lemma wf_drop c m l1 l2 p c' m' :
  wf c m (l1 ++ p :: l2) -> same_ids m m' -> dseg m' None (l1 ++ l2) None ->
  c'.(head) = first (l1 ++ l2) None -> c'.(tail) = final (l1 ++ l2) None ->
  c'.(size) = c.(size) - 1 -> c'.(items) = upd c.(items) (m p).(id) None ->
  wf c' m' (l1 ++ l2).
Proof.
  intros W I D Hh Ht Hs Hi. pose proof (wf_nodup _ _ _ W) as Hn.
  apply NoDup_app in Hn as (N1 & N12 & N2). apply NoDup_cons in N2 as [Np N2].
  assert (Hp : p ∈ l1 ++ p :: l2) by (apply elem_of_app; right; constructor).
  assert (Sub : forall q, q ∈ l1 ++ l2 -> q ∈ l1 ++ p :: l2).
  { intros q. rewrite !elem_of_app, elem_of_cons. tauto. }
  assert (Npl : p ∉ l1 ++ l2).
  { rewrite elem_of_app. intros [Q|Q]; [|done]. apply (N12 p Q). constructor. }
  split; try done.
  - apply NoDup_app. split_and!; [done| |done]. intros q Q1 Q2. apply (N12 q Q1). by constructor.
  - rewrite Hs, (wf_size _ _ _ W), !length_app. cbn. lia.
  - intros q Hq. rewrite I. destruct (wf_ids _ _ _ W q (Sub q Hq)) as [A B].
    split; [done|]. rewrite Hi, upd_ne; [done|]. intros E. rewrite E in B.
    destruct (wf_ids _ _ _ W p Hp) as [_ C]. rewrite C in B. injection B as ->. done.
  - intros i q Hr E. rewrite Hi, upd_case in E. rewrite I.
    revert E. case_cmp; intros E; [done|].
    destruct (wf_index _ _ _ W i q Hr E) as [A B]. split; [|done].
    rewrite elem_of_app, elem_of_cons in A. rewrite elem_of_app.
    destruct A as [A|[->|A]]; [by left|done|by right].
Qed.

(** ** The operations *)

(** The index check of [get] and [remove]. *)
Lemma not_skipped c m l i p :
  wf c m l -> 0 <= i < MAX_CAPACITY -> c.(items) i = Some p ->
  (c.(size) =? 0) || (MAX_CAPACITY <=? i) = false.
Proof.
  intros W Hi E. destruct (index_id _ _ _ _ _ W Hi E) as (l1 & l2 & -> & _).
  rewrite (wf_size _ _ _ W), length_app. cbn. apply orb_false_iff. split.
  - apply Z.eqb_neq. lia.
  - apply Z.leb_gt. lia.
Qed.

(** Where the item [p] of [l1 ++ p :: l2] stands. *)
Lemma is_head c m l1 l2 p : wf c m (l1 ++ p :: l2) -> Some p = c.(head) <-> l1 = [].
Proof.
  intros W. rewrite (wf_head _ _ _ W). destruct l1 as [|q l1]; cbn; [done|].
  split; [|done]. intros [= ->]. pose proof (wf_nodup _ _ _ W) as N.
  apply NoDup_cons in N as [N _]. destruct N. apply elem_of_app. right. constructor.
Qed.

Lemma is_tail c m l1 l2 p : wf c m (l1 ++ p :: l2) -> Some p = c.(tail) <-> l2 = [].
Proof.
  intros W. rewrite (wf_tail _ _ _ W), final_app. cbn.
  destruct (snoc_cases l2) as [->|(l & t & ->)]; [done|]. rewrite final_snoc.
  split; [|by destruct l]. intros [= ->]. pose proof (wf_nodup _ _ _ W) as N.
  apply NoDup_app in N as (_ & _ & N). apply NoDup_cons in N as [N _].
  destruct N. apply elem_of_app. right. constructor.
Qed.

(** What the part common to [get] and [remove] does to an item that is not
    the head: the item leaves the chain. *)
Lemma unlink_spec c m l1 l2 p :
  wf c m (l1 ++ p :: l2) -> l1 <> [] ->
  exists t, unlink c m p = Ok (set_tail c (final (l1 ++ l2) None), t) /\
    same_ids m t /\ dseg t None (l1 ++ l2) None.
Proof.
  unfold unlink. intros W Hne. destruct (snoc_cases l1) as [->|(l & t & ->)]; [done|].
  pose proof (wf_links _ _ _ W) as D. pose proof (wf_nodup _ _ _ W) as N.
  rewrite <- app_assoc in D, N.
  destruct l2 as [|n l2].
  - destruct (unlink_last _ _ _ _ N D) as [E D']. exists (set_next m t None).
    rewrite decide_True by (by apply (is_tail _ _ _ _ _ W)).
    cbn. rewrite E. cbn. rewrite app_nil_r, final_snoc. auto with virt.
  - destruct (unlink_inner _ _ _ _ _ _ N D) as (E1 & E2 & D').
    rewrite decide_False by (rewrite (is_tail _ _ _ _ _ W); done).
    assert (Npt : p <> t).
    { intros ->. apply NoDup_app in N as (_ & _ & N). apply NoDup_cons in N as [N _].
      apply N. constructor. }
    assert (S : set_next m t (m p).(next) p = m p) by (apply upd_ne; done).
    rewrite E1. cbn [deref mbind result_mbind result_bind]. rewrite S, E2.
    cbn [deref mbind result_mbind result_bind]. rewrite E1.
    eexists. split; [f_equal; f_equal|split].
    + destruct c; unfold set_tail; cbn. f_equal.
      pose proof (wf_tail _ _ _ W) as T. cbn in T. by rewrite T, !final_app.
    + eapply same_ids_trans; [apply same_ids_next|apply same_ids_prev].
    + by rewrite <- app_assoc.
Qed.

(** Get: looking up the id of a cached item returns it and moves it to the front; the
    cache stays well-formed and nothing else changes. *)
Theorem lru_cache_get_correct c m l1 l2 p i :
  wf c m (l1 ++ p :: l2) -> (m p).(id) = i ->
  exists c' m', lru_cache_get c m i = Ok (Some p, c', m') /\ wf c' m' (p :: l1 ++ l2).
Proof.
  intros W Hid. assert (Hp : p ∈ l1 ++ p :: l2) by (apply elem_of_app; right; constructor).
  destruct (wf_ids _ _ _ W p Hp) as [Hi E]. rewrite Hid in Hi, E.
  unfold lru_cache_get. rewrite (not_skipped _ _ _ _ _ W Hi E), E.
  destruct (decide (l1 = [])) as [->|Hne].
  - rewrite decide_False by (intros X; apply X; by apply (is_head _ _ _ _ _ W)). eauto.
  - rewrite decide_True by (by rewrite (is_head _ _ _ _ _ W)).
    destruct (unlink_spec _ _ _ _ _ W Hne) as (m1 & -> & I1 & D1). cbn.
    pose proof (wf_nodup _ _ _ W) as N.
    assert (Hh : c.(head) = first (l1 ++ l2) None).
    { rewrite (wf_head _ _ _ W), !first_app. by destruct l1. }
    destruct l1 as [|h l1]; [done|]. rewrite Hh. cbn [first app deref mbind result_mbind result_bind].
    eexists _, _. split; [reflexivity|].
    change (set_prev _ h (Some p)) with (link_front m1 p (first ((h :: l1) ++ l2) None)).
    apply (wf_permute c m ((h :: l1) ++ p :: l2)); try done.
    + apply (Permutation_middle (h :: l1) l2 p).
    + eapply same_ids_trans; [exact I1|apply link_front_ids].
    + apply link_front_links; [| |done].
      * intros Q. apply (elem_of_app (h :: l1)) in Q. apply NoDup_app in N as (_ & N1 & N2).
        apply NoDup_cons in N2 as [N2 _]. destruct Q as [Q|Q]; [|done]. apply (N1 p Q). constructor.
      * apply NoDup_app in N as (Na & N1 & N2). apply NoDup_cons in N2 as [N2 N3].
        apply (NoDup_app (h :: l1)). split_and!; [done| |done]. intros q Q1 Q2. apply (N1 q Q1). by constructor.
Qed.

(** Remove: removing a cached id drops exactly that item. *)
Theorem lru_cache_remove_correct c m l1 l2 p i :
  wf c m (l1 ++ p :: l2) -> (m p).(id) = i ->
  exists c' m', lru_cache_remove c m i = Ok (c', m') /\ wf c' m' (l1 ++ l2).
Proof.
  intros W Hid. assert (Hp : p ∈ l1 ++ p :: l2) by (apply elem_of_app; right; constructor).
  destruct (wf_ids _ _ _ W p Hp) as [Hi E]. rewrite Hid in Hi, E.
  unfold lru_cache_remove. rewrite (not_skipped _ _ _ _ _ W Hi E), E.
  destruct (decide (l1 = [])) as [->|Hne].
  - rewrite decide_True by (by apply (is_head _ _ _ _ _ W)).
    pose proof (wf_links _ _ _ W) as (_ & Dn & D). rewrite Dn.
    pose proof (wf_nodup _ _ _ W) as N. apply NoDup_cons in N as [_ N].
    pose proof (wf_tail _ _ _ W) as T. cbn in T.
    destruct l2 as [|h l2]; cbn; eexists _, _; (split; [reflexivity|]);
      apply (wf_drop c m [] _ p); subst i; eauto with virt.
    apply NoDup_cons in N as [N _]. by apply (dseg_set_first m (Some p)).
  - rewrite decide_False by (by rewrite (is_head _ _ _ _ _ W)).
    destruct (unlink_spec _ _ _ _ _ W Hne) as (m1 & -> & I1 & D1). cbn.
    eexists _, _. split; [reflexivity|]. apply (wf_drop c m l1 l2 p); subst i; try done.
    cbn. rewrite (wf_head _ _ _ W), !first_app. by destruct l1.
Qed.

(** Get oldest: a non-empty cache gives up its least recently used item. *)
Theorem lru_cache_get_oldest_correct c m l p :
  wf c m (l ++ [p]) ->
  exists c' m', lru_cache_get_oldest c m = Ok (Some p, c', m') /\ wf c' m' l.
Proof.
  intros W. unfold lru_cache_get_oldest.
  rewrite (wf_size _ _ _ W), length_app, (proj2 (Z.eqb_neq _ _)) by (cbn; lia).
  assert (Ht : c.(tail) = Some p) by (by rewrite (wf_tail _ _ _ W), final_snoc).
  assert (Hp : p ∈ l ++ [p]) by (apply elem_of_app; right; constructor).
  destruct (wf_ids _ _ _ W p Hp) as [Hi E].
  assert (Hc : item_cell (m p).(id) = Ok tt).
  { unfold item_cell. rewrite (proj2 (Z.leb_le _ _)), (proj2 (Z.ltb_lt _ _)) by lia. done. }
  rewrite Ht. cbn. destruct (decide (l = [])) as [->|Hne].
  - rewrite decide_True by (by apply (is_head _ _ _ _ _ W)). cbn. rewrite Hc.
    eexists _, _. split; [reflexivity|]. by apply (wf_drop c m [] [] p).
  - rewrite decide_False by (by rewrite (is_head _ _ _ _ _ W)).
    destruct (unlink_spec _ _ _ _ _ W Hne) as (m1 & U & I1 & D1). revert U. unfold unlink.
    rewrite decide_True by done. cbn. rewrite app_nil_r in D1 |- *.
    destruct (deref (prev (m p))) as [t|]; [|done]. cbn. intros [= Ep <-]. rewrite I1, Hc.
    eexists _, _. split; [reflexivity|]. pose proof (wf_drop c m l [] p) as X.
    rewrite app_nil_r in X. apply X; try done. cbn.
    rewrite (wf_head _ _ _ W), first_app. by destruct l.
Qed.

(** A new item enters in front of the chain and in its index cell. *)
Lemma wf_insert c m l p :
  wf c m l -> p ∉ l -> 0 <= (m p).(id) < MAX_CAPACITY ->
  (forall q, q ∈ l -> (m q).(id) <> (m p).(id)) ->
  wf (mk_lru (Some p) (match c.(head) with Some _ => c.(tail) | None => Some p end) c.(capacity)
        (c.(size) + 1) (upd c.(items) (m p).(id) (Some p)))
     (link_front m p c.(head)) (p :: l).
Proof.
  intros W Hp Hi Hd. pose proof (link_front_ids m p c.(head)) as I.
  split; cbn [head tail size items].
  - apply NoDup_cons. split; [done|apply W].
  - rewrite (wf_head _ _ _ W). apply link_front_links; [done|apply W|apply W].
  - done.
  - rewrite (wf_head _ _ _ W), (wf_tail _ _ _ W). by destruct l.
  - rewrite (wf_size _ _ _ W). cbn [length]. lia.
  - intros q Hq. rewrite I. apply elem_of_cons in Hq as [->|Hq]; [by rewrite upd_eq|].
    rewrite upd_ne by (by apply Hd). by apply W.
  - intros i q Hr. rewrite upd_case, I. case_cmp.
    + intros [= <-]. split; [constructor|done].
    + intros E. destruct (wf_index _ _ _ W i q Hr E). split; [by constructor|done].
Qed.

(** The eviction at the start of [set]. *)
Lemma drop_last_wf c m l t q :
  wf c m (l ++ [t] ++ [q]) ->
  c.(tail) = Some q /\ (m q).(prev) = Some t /\ item_cell (m q).(id) = Ok tt /\
  wf (set_size (set_items (set_tail c (Some t)) (m q).(id) None) (c.(size) - 1))
     (set_next m t None) (l ++ [t]).
Proof.
  intros W. pose proof (wf_links _ _ _ W) as D. pose proof (wf_nodup _ _ _ W) as N.
  destruct (unlink_last _ _ _ _ N D) as [E D'].
  assert (Hq : q ∈ l ++ [t] ++ [q]) by (rewrite !elem_of_app; right; right; constructor).
  destruct (wf_ids _ _ _ W q Hq) as [Hi _].
  split; [by rewrite (wf_tail _ _ _ W), app_assoc, final_snoc|].
  split; [done|]. split.
  { unfold item_cell. by rewrite (proj2 (Z.leb_le _ _)), (proj2 (Z.ltb_lt _ _)) by lia. }
  rewrite app_assoc in W. pose proof (wf_drop c m (l ++ [t]) [] q) as X. rewrite app_nil_r in X.
  apply X; try done; cbn.
  - apply same_ids_next.
  - rewrite (wf_head _ _ _ W), !first_app. by destruct l.
  - by rewrite final_snoc.
Qed.

(** The second half of [set]. *)
Lemma set_inserts c m p :
  c.(size) <> c.(capacity) -> 0 <= (m p).(id) < MAX_CAPACITY ->
  lru_cache_set c m p =
  Ok (mk_lru (Some p) (match c.(head) with Some _ => c.(tail) | None => Some p end) c.(capacity)
        (c.(size) + 1) (upd c.(items) (m p).(id) (Some p)), link_front m p c.(head)).
Proof.
  intros Hc Hi. unfold lru_cache_set. rewrite (proj2 (Z.eqb_neq _ _) Hc).
  assert (E : item_cell (m p).(id) = Ok tt).
  { unfold item_cell. by rewrite (proj2 (Z.leb_le _ _)), (proj2 (Z.ltb_lt _ _)) by lia. }
  unfold link_front. cbn [mbind result_mbind result_bind]. rewrite E.
  destruct c as [h tl cap sz it]. cbn [head]. by destruct h.
Qed.

(** Set: a new item enters in front; when the cache is full its least
    recently used item leaves first.  The size never exceeds the capacity.  The capacity is at
    least two, as in the source (32 buffers). *)
Theorem lru_cache_set_correct c m l p :
  wf c m l -> 2 <= c.(capacity) -> c.(size) <= c.(capacity) -> p ∉ l ->
  0 <= (m p).(id) < MAX_CAPACITY -> (forall q, q ∈ l -> (m q).(id) <> (m p).(id)) ->
  exists c' m', lru_cache_set c m p = Ok (c', m') /\
    wf c' m' (p :: if c.(size) =? c.(capacity) then removelast l else l) /\
    c'.(capacity) = c.(capacity) /\ c'.(size) <= c'.(capacity).
Proof.
  intros W Hcap Hle Hp Hi Hd. destruct (Z.eqb_spec c.(size) c.(capacity)) as [E|E].
  - pose proof (wf_size _ _ _ W) as Hs.
    destruct (snoc_cases l) as [->|(l1 & q & ->)]; [cbn in Hs; lia|].
    destruct (snoc_cases l1) as [->|(l0 & t & ->)]; [cbn in Hs; lia|].
    rewrite removelast_last. rewrite <- app_assoc in W.
    destruct (drop_last_wf _ _ _ _ _ W) as (Et & Ep & Ec & W').
    set (c1 := set_size _ _) in W'. set (m1 := set_next m t None) in W'.
    assert (I : same_ids m m1) by apply same_ids_next.
    assert (Hp1 : p ∉ l0 ++ [t]) by (intros X; apply Hp; apply elem_of_app; by left).
    assert (Hstep : lru_cache_set c m p = lru_cache_set c1 m1 p).
    { unfold lru_cache_set at 1. rewrite (proj2 (Z.eqb_eq _ _) E), Et.
      cbn [deref mbind result_mbind result_bind]. rewrite Ep.
      assert (Em : m1 q = m q).
      { apply upd_ne. intros ->. pose proof (wf_nodup _ _ _ W) as N.
        apply NoDup_app in N as (_ & _ & N). apply NoDup_cons in N as [N _].
        apply N. constructor. }
      change (tail (set_tail c (Some t))) with (Some t).
      cbn [deref mbind result_mbind result_bind]. fold m1. rewrite Em, Ec.
      unfold lru_cache_set. rewrite I.
      by rewrite (proj2 (Z.eqb_neq c1.(size) c1.(capacity))) by (cbn; lia). }
    rewrite Hstep, set_inserts; [|cbn; lia|by rewrite I].
    eexists _, _. split; [reflexivity|]. split; [|cbn; lia].
    apply wf_insert; [done|done|by rewrite I|].
    intros r Hr. rewrite !I. apply Hd. apply elem_of_app. by left.
  - rewrite set_inserts by done. eexists _, _. split; [reflexivity|].
    split; [by apply wf_insert|cbn; lia].
Qed.

(** Capacity one: with one cell the eviction of [set] reads through the
    [prev] pointer of the only item, which is [NULL]. *)
Theorem lru_cache_set_capacity_one c m p q :
  wf c m [q] -> c.(capacity) = 1 -> lru_cache_set c m p = Err NULLPTR.
Proof.
  intros W E. unfold lru_cache_set. rewrite (wf_size _ _ _ W), E, (wf_tail _ _ _ W). cbn.
  destruct (wf_links _ _ _ W) as [-> _]. done.
Qed.

(** ** Witnesses *)

Definition ex_mem : item_mem := fun p =>
  if p =? 10 then mk_item 1 None (Some 11)
  else if p =? 11 then mk_item 5 (Some 10) (Some 12)
  else if p =? 12 then mk_item 3 (Some 11) None
  else if p =? 20 then mk_item 9 None None
  else mk_item 7 None None.

Definition ex_cache (cap : Z) : lru_cache :=
  mk_lru (Some 10) (Some 12) cap 3
    (upd (upd (upd (fun _ => None) 1 (Some 10)) 5 (Some 11)) 3 (Some 12)).

Definition ex_one : lru_cache :=
  mk_lru (Some 20) (Some 20) 1 1 (upd (fun _ => None) 9 (Some 20)).

Lemma ex_cache_wf cap : wf (ex_cache cap) ex_mem [10; 11; 12].
Proof.
  split; try done.
  - by apply (bool_decide_eq_true_1 (NoDup [10; 11; 12])).
  - intros p Hp. rewrite !elem_of_cons, elem_of_nil in Hp.
    destruct Hp as [->|[->|[->|[]]]]; cbn; split; try done; unfold MAX_CAPACITY; lia.
  - intros i p _. unfold ex_cache. cbn [items]. rewrite !upd_case.
    repeat case_cmp; intros [= <-]; subst; (split; [|done]); repeat constructor.
Qed.

Lemma ex_one_wf : wf ex_one ex_mem [20].
Proof.
  split; try done.
  - by apply (bool_decide_eq_true_1 (NoDup [20])).
  - intros p Hp. rewrite elem_of_cons, elem_of_nil in Hp. destruct Hp as [->|[]].
    cbn. split; [unfold MAX_CAPACITY; lia|done].
  - intros i p _. cbn. rewrite upd_case. case_cmp; intros [= <-]. subst. split; [constructor|done].
Qed.

Lemma lru_cache_get_correct_witness :
  exists c' m', lru_cache_get (ex_cache 32) ex_mem 5 = Ok (Some 11, c', m') /\
    wf c' m' [11; 10; 12].
Proof. apply (lru_cache_get_correct (ex_cache 32) ex_mem [10] [12] 11); [apply ex_cache_wf|reflexivity]. Defined.

Lemma lru_cache_remove_correct_witness :
  exists c' m', lru_cache_remove (ex_cache 32) ex_mem 5 = Ok (c', m') /\ wf c' m' [10; 12].
Proof. apply (lru_cache_remove_correct (ex_cache 32) ex_mem [10] [12] 11); [apply ex_cache_wf|reflexivity]. Defined.

Lemma lru_cache_get_oldest_correct_witness :
  exists c' m', lru_cache_get_oldest (ex_cache 32) ex_mem = Ok (Some 12, c', m') /\
    wf c' m' [10; 11].
Proof. apply (lru_cache_get_oldest_correct (ex_cache 32) ex_mem [10; 11] 12), ex_cache_wf. Defined.

Lemma lru_cache_set_correct_witness :
  exists c' m', lru_cache_set (ex_cache 3) ex_mem 20 = Ok (c', m') /\ wf c' m' [20; 10; 11] /\
    c'.(capacity) = 3 /\ c'.(size) <= c'.(capacity).
Proof.
  apply (lru_cache_set_correct (ex_cache 3) ex_mem [10; 11; 12] 20).
  - apply ex_cache_wf.
  - cbn. lia.
  - cbn. lia.
  - rewrite !elem_of_cons, elem_of_nil. lia.
  - cbn. unfold MAX_CAPACITY. lia.
  - intros q Hq. rewrite !elem_of_cons, elem_of_nil in Hq.
    destruct Hq as [->|[->|[->|[]]]]; cbn; lia.
Defined.

Lemma lru_cache_set_capacity_one_witness : lru_cache_set ex_one ex_mem 30 = Err NULLPTR.
Proof. apply (lru_cache_set_capacity_one ex_one ex_mem 30 20); [apply ex_one_wf|reflexivity]. Defined.
