(* ===== verification/ChModel.v ===== *)
(** * The channel performance model ([channel_model.c])

    A channel is a ring of time slots of 4000 ns, each with a number of transfer
    credits of 128 bytes.  A request takes credits from the slot of its start
    time on; the delay it sees follows from how many slots it needed.  The wall
    clock the source reads is the argument [cur_time]. *)

From S2P Require Import Prelude.

Definition NR_CREDIT_ENTRIES : Z := 1024 * 96 * 8.
Definition UNIT_TIME_INTERVAL : Z := 4000.
Definition UNIT_XFER_SIZE : Z := 128.
Definition UNIT_XFER_CREDITS : Z := 1.
Definition NS_PER_SEC (x : Z) : Z := x * 1000000000.
Definition MB (x : Z) : Z := u64 (Z.shiftl x 20).

Definition BANDWIDTH_TO_TX_TIME (mb_s : Z) : Z :=
  (UNIT_XFER_SIZE * NS_PER_SEC 1) / MB mb_s.
Definition BANDWIDTH_TO_MAX_CREDITS (mb_s : Z) : Z :=
  u64 (MB mb_s * UNIT_TIME_INTERVAL) / NS_PER_SEC 1 / UNIT_XFER_SIZE * UNIT_XFER_CREDITS.

(** [struct channel_model]; the debugging fields [last] are left out. *)
Record channel_model := mk_ch {
  cur_time : Z; head : Z; valid_len : Z; max_credits : Z;
  command_credits : Z; xfer_lat : Z; avail_credits : Z -> Z
}.

Definition set_avail (ch : channel_model) (a : Z -> Z) : channel_model :=
  mk_ch ch.(cur_time) ch.(head) ch.(valid_len) ch.(max_credits) ch.(command_credits)
    ch.(xfer_lat) a.
Definition set_valid (ch : channel_model) (n : Z) : channel_model :=
  mk_ch ch.(cur_time) ch.(head) n ch.(max_credits) ch.(command_credits)
    ch.(xfer_lat) ch.(avail_credits).

(** [MEMSET(&avail_credits[i], v, n)] on the array of bytes: the length is a
    [size_t] and the value is stored as a byte. *)
Definition MEMSET (a : Z -> Z) (i v n : Z) : result (Z -> Z) :=
  if (0 <=? i) && (0 <=? n) && (i + n <=? NR_CREDIT_ENTRIES) then Ok (memset a i n (u8 v))
  else Err OOB.

Definition chmodel_init (ch : channel_model) (bandwidth : Z) : result channel_model :=
  let max_credits := u32 (BANDWIDTH_TO_MAX_CREDITS bandwidth) in
  if MB bandwidth =? 0 then Err DIVZERO else
  let xfer_lat := u32 (BANDWIDTH_TO_TX_TIME bandwidth) in
  a ← MEMSET ch.(avail_credits) 0 max_credits NR_CREDIT_ENTRIES;
  Ok (mk_ch 0 0 0 max_credits 0 xfer_lat a).

(** Move the head to the slot of the current time, refilling what it passes. *)
Definition move_head (ch : channel_model) (cur_time : Z) : result channel_model :=
  let cur_time_offs :=
    u32 (cur_time / UNIT_TIME_INTERVAL - ch.(ChModel.cur_time) / UNIT_TIME_INTERVAL) in
  let cur_time_offs :=
    if cur_time_offs <? ch.(valid_len) then cur_time_offs else ch.(valid_len) in
  a ← (if u32 (ch.(head) + cur_time_offs) >=? NR_CREDIT_ENTRIES then
    a ← MEMSET ch.(avail_credits) ch.(head) ch.(max_credits) (NR_CREDIT_ENTRIES - ch.(head));
    MEMSET a 0 ch.(max_credits) (u32 (cur_time_offs - (NR_CREDIT_ENTRIES - ch.(head))))
  else MEMSET ch.(avail_credits) ch.(head) ch.(max_credits) cur_time_offs);
  Ok (mk_ch cur_time (u32 (ch.(head) + cur_time_offs) mod NR_CREDIT_ENTRIES)
        (u32 (ch.(valid_len) - cur_time_offs)) ch.(max_credits) ch.(command_credits)
        ch.(xfer_lat) a).

(** The loop that takes credits from slot [pos] on: array, position, delay and
    what could not be served. *)
Fixpoint take_credits (fuel : nat) (head : Z) (a : Z -> Z) (pos remaining delay : Z)
    : result ((Z -> Z) * Z * Z * Z) :=
  match fuel with
  | O => Err HANG
  | S fuel =>
      let consumed := if remaining <=? a pos then remaining else a pos in
      let a := upd a pos (u8 (a pos - consumed)) in
      let remaining := u32 (remaining - consumed) in
      if negb (remaining =? 0) then
        let next_pos := (pos + 1) mod NR_CREDIT_ENTRIES in
        if negb (next_pos =? head) then
          take_credits fuel head a next_pos remaining (u32 (delay + 1))
        else Ok (a, pos, delay, remaining)
      else Ok (a, pos, delay, remaining)
  end.

(** Every slot is visited at most once. *)
Definition take_fuel : nat := Z.to_nat NR_CREDIT_ENTRIES.

Definition chmodel_request (ch : channel_model) (cur_time request_time length : Z)
    : result (Z * channel_model) :=
  let units_to_xfer := u32 (u64 (length + UNIT_XFER_SIZE - 1) / UNIT_XFER_SIZE) in
  ch ← move_head ch cur_time;
  if ch.(valid_len) >? NR_CREDIT_ENTRIES then Ok (request_time, ch) else
  if request_time <? cur_time then Ok (request_time, ch) else
  let request_time_offs :=
    u32 (request_time / UNIT_TIME_INTERVAL - cur_time / UNIT_TIME_INTERVAL) in
  if request_time_offs >=? NR_CREDIT_ENTRIES then Ok (request_time, ch) else
  let pos := u32 (ch.(head) + request_time_offs) mod NR_CREDIT_ENTRIES in
  let remaining_credits := u32 (units_to_xfer * UNIT_XFER_CREDITS) in
  let remaining_credits := u32 (remaining_credits + ch.(command_credits)) in
  if ch.(max_credits) =? 0 then Err DIVZERO else
  let default_delay := remaining_credits / ch.(max_credits) in
  '(a, pos, delay, _) ← take_credits take_fuel ch.(head) ch.(avail_credits) pos
                          remaining_credits 0;
  let ch := set_avail ch a in
  let valid_length := if pos >=? ch.(head) then pos - ch.(head) + 1
                      else NR_CREDIT_ENTRIES - (ch.(head) - pos - 1) in
  let ch := if valid_length >? ch.(valid_len) then set_valid ch valid_length else ch in
  let delay := if delay >? default_delay then delay - default_delay else 0 in
  let total_latency := u64 (u32 (ch.(xfer_lat) * units_to_xfer) + delay * UNIT_TIME_INTERVAL) in
  Ok (u64 (request_time + total_latency), ch).

(** ** Slots: the ring read from its head *)

Definition ring (h j : Z) : Z := (h + j) mod NR_CREDIT_ENTRIES.

Definition slot (ch : channel_model) (j : Z) : Z := ch.(avail_credits) (ring ch.(head) j).

Lemma NR_val : NR_CREDIT_ENTRIES = 786432.
Proof. reflexivity. Qed.

#[local] Opaque NR_CREDIT_ENTRIES.

Lemma ring_range h j : 0 <= ring h j < NR_CREDIT_ENTRIES.
Proof. apply Z.mod_pos_bound. pose proof NR_val. lia. Qed.

Lemma ring_eq h j : 0 <= h < NR_CREDIT_ENTRIES -> 0 <= j <= NR_CREDIT_ENTRIES ->
  ring h j = if h + j <? NR_CREDIT_ENTRIES then h + j else h + j - NR_CREDIT_ENTRIES.
Proof.
  intros Hh Hj. unfold ring. case_cmp; [apply Z.mod_small; lia|].
  symmetry. apply Z.mod_unique with 1; lia.
Qed.

Lemma ring_inj h i j :
  0 <= h < NR_CREDIT_ENTRIES -> 0 <= i < NR_CREDIT_ENTRIES -> 0 <= j < NR_CREDIT_ENTRIES ->
  ring h i = ring h j -> i = j.
Proof. intros Hh Hi Hj. rewrite !ring_eq by lia. repeat case_cmp; lia. Qed.

Lemma ring_succ h j : ring h (j + 1) = (ring h j + 1) mod NR_CREDIT_ENTRIES.
Proof. unfold ring. rewrite Zplus_mod_idemp_l. f_equal. lia. Qed.

Lemma ring_ring h i j : ring (ring h i) j = ring h (i + j).
Proof. unfold ring. rewrite Zplus_mod_idemp_l. f_equal. lia. Qed.

Lemma ring_past h j : ring h j = ring h (j - NR_CREDIT_ENTRIES).
Proof.
  unfold ring. replace (h + j) with (h + (j - NR_CREDIT_ENTRIES) + 1 * NR_CREDIT_ENTRIES) by lia.
  apply Z_mod_plus_full.
Qed.

(** The last slot is the one before the head. *)
Lemma ring_back h j : 0 <= h < NR_CREDIT_ENTRIES -> 0 <= j < NR_CREDIT_ENTRIES ->
  ring h (j + 1) = h <-> j = NR_CREDIT_ENTRIES - 1.
Proof. intros Hh Hj. rewrite ring_eq by lia. case_cmp; lia. Qed.

(** ** The invariant: credits never exceed a slot's budget, and the slots from
    [valid_len] on are untouched *)

Record inv (ch : channel_model) : Prop := {
  inv_head : 0 <= ch.(head) < NR_CREDIT_ENTRIES;
  inv_len : 0 <= ch.(valid_len) <= NR_CREDIT_ENTRIES;
  inv_bounds : forall j, 0 <= j < NR_CREDIT_ENTRIES -> 0 <= slot ch j <= u8 ch.(max_credits);
  inv_fresh : forall j, ch.(valid_len) <= j < NR_CREDIT_ENTRIES ->
    slot ch j = u8 ch.(max_credits)
}.

Lemma MEMSET_ok a i v n :
  0 <= i -> 0 <= n -> i + n <= NR_CREDIT_ENTRIES -> MEMSET a i v n = Ok (memset a i n (u8 v)).
Proof.
  intros Hi Hn Hs. unfold MEMSET.
  rewrite (proj2 (Z.leb_le 0 i) Hi), (proj2 (Z.leb_le 0 n) Hn), (proj2 (Z.leb_le _ _) Hs). done.
Qed.

Definition elapsed (ch : channel_model) (now : Z) : Z :=
  Z.min (u32 (now / UNIT_TIME_INTERVAL - ch.(cur_time) / UNIT_TIME_INTERVAL)) ch.(valid_len).

(** Moving the head by [o] slots: the slots that leave come back full. *)
Lemma move_head_spec ch now :
  inv ch -> exists a,
  let o := elapsed ch now in
  let ch' := mk_ch now (ring ch.(head) o) (ch.(valid_len) - o) ch.(max_credits)
               ch.(command_credits) ch.(xfer_lat) a in
  move_head ch now = Ok ch' /\ 0 <= o <= ch.(valid_len) /\
  (forall j, 0 <= j < NR_CREDIT_ENTRIES -> slot ch' j =
     if j + o <? NR_CREDIT_ENTRIES then slot ch (j + o) else u8 ch.(max_credits)).
Proof.
  intros [Hh Hv Hb Hf]. pose proof NR_val as N. unfold move_head.
  replace (if _ <? valid_len ch then _ else _) with (elapsed ch now)
    by (unfold elapsed; case_cmp; lia).
  assert (Ho : 0 <= elapsed ch now <= valid_len ch).
  { unfold elapsed. pose proof (u32_range (now / UNIT_TIME_INTERVAL - cur_time ch / UNIT_TIME_INTERVAL)). lia. }
  set (o := elapsed ch now) in *. clearbody o.
  rewrite (u32_small (head ch + o)), (u32_small (valid_len ch - o)) by lia.
  fold (ring (head ch) o). rewrite Z.geb_leb.
  destruct (Z.leb_spec NR_CREDIT_ENTRIES (head ch + o)) as [W|W];
    [rewrite u32_small, MEMSET_ok by lia; cbn; rewrite MEMSET_ok by lia|rewrite MEMSET_ok by lia];
    cbn; (eexists; split; [reflexivity|]; split; [done|]); intros j Hj; unfold slot; cbn;
    rewrite ring_ring, !memset_case, (Z.add_comm j);
    (destruct (Z.ltb_spec (o + j) NR_CREDIT_ENTRIES) as [L|L];
     [|rewrite ring_past by lia]; rewrite ring_eq by lia; repeat case_cmp; cbn; try lia; reflexivity).
Qed.

(** Taking credits from slot [j] on. *)
Fixpoint window (a : Z -> Z) (h j : Z) (n : nat) : Z :=
  match n with O => 0 | S n => a (ring h j) + window a h (j + 1) n end.

Lemma window_ext a b h j n :
  (forall i, j <= i < j + Z.of_nat n -> a (ring h i) = b (ring h i)) ->
  window a h j n = window b h j n.
Proof.
  revert j. induction n as [|n IH]; intros j E; cbn [window]; [done|].
  rewrite E by lia. f_equal. apply IH. intros i Hi. apply E. lia.
Qed.

(** What [take_credits] leaves: from slot [j] it emptied [d] slots and took from
    the slot after them, until the request was served or the ring exhausted. *)
Record taken (h : Z) (a : Z -> Z) (j rem : Z) (a' : Z -> Z) (d rem' : Z) : Prop := {
  taken_d : 0 <= d /\ j + d < NR_CREDIT_ENTRIES;
  taken_rem : 0 <= rem' <= rem;
  taken_end : rem' = 0 \/ j + d = NR_CREDIT_ENTRIES - 1;
  taken_frame : forall i, 0 <= i < NR_CREDIT_ENTRIES -> i < j \/ j + d < i ->
    a' (ring h i) = a (ring h i);
  taken_low : forall i, j <= i <= j + d -> 0 <= a' (ring h i) <= a (ring h i);
  taken_zero : forall i, j <= i < j + d -> a' (ring h i) = 0;
  taken_last : rem' <> 0 -> a' (ring h (j + d)) = 0;
  taken_sum : window a h j (Z.to_nat (d + 1)) - window a' h j (Z.to_nat (d + 1)) = rem - rem'
}.

Lemma take_credits_spec fuel h a j rem delay :
  0 <= h < NR_CREDIT_ENTRIES -> 0 <= j < NR_CREDIT_ENTRIES ->
  NR_CREDIT_ENTRIES - j <= Z.of_nat fuel ->
  (forall i, 0 <= i < NR_CREDIT_ENTRIES -> 0 <= a (ring h i) < 256) ->
  0 <= rem < 2 ^ 32 -> 0 <= delay <= j ->
  exists a' d rem', take_credits fuel h a (ring h j) rem delay =
      Ok (a', ring h (j + d), delay + d, rem') /\ taken h a j rem a' d rem'.
Proof.
  intros Hh. pose proof NR_val as N. change (2 ^ 32) with 4294967296.
  revert a j rem delay. induction fuel as [|fuel IH]; intros a j rem delay Hj Hf Ha Hr Hd; [lia|].
  pose proof (Ha j Hj) as Haj. cbn [take_credits].
  set (c := if rem <=? a (ring h j) then rem else a (ring h j)).
  assert (Hc : 0 <= c <= a (ring h j) /\ c <= rem /\ (c = rem \/ c = a (ring h j))).
  { unfold c. case_cmp; lia. }
  clearbody c. rewrite (uw_small 8 (_ - c)), (u32_small (rem - c)) by (unfold is_uw; lia).
  set (a1 := upd a (ring h j) (a (ring h j) - c)).
  assert (A1 : a1 (ring h j) = a (ring h j) - c) by apply upd_eq.
  assert (A2 : forall i, 0 <= i < NR_CREDIT_ENTRIES -> i <> j -> a1 (ring h i) = a (ring h i)).
  { intros i Hi Ne. apply upd_ne. intros E. apply Ne. by apply (ring_inj h). }
  clearbody a1. rewrite <- ring_succ.
  assert (Stop : rem - c = 0 \/ j = NR_CREDIT_ENTRIES - 1 -> exists a' d rem',
     Ok (a1, ring h j, delay, rem - c) = Ok (a', ring h (j + d), delay + d, rem') /\
     taken h a j rem a' d rem').
  { intros Hs. exists a1, 0, (rem - c). rewrite !Z.add_0_r. split; [done|]. split; try lia.
    - intros i Hi [?|?]; apply A2; lia.
    - intros i Hi. replace i with j by lia. lia.
    - rewrite Z.add_0_r. lia.
    - change (Z.to_nat (0 + 1)) with 1%nat. cbn [window]. lia. }
  destruct (Z.eqb_spec (rem - c) 0) as [E|E]; cbn [negb]; [apply Stop; by left|].
  destruct (Z.eqb_spec (ring h (j + 1)) h) as [B|B]; cbn [negb];
    rewrite (ring_back h j Hh Hj) in B; [apply Stop; by right|].
  rewrite (u32_small (delay + 1)) by lia.
  destruct (IH a1 (j + 1) (rem - c) (delay + 1)) as (a' & d & rem' & -> & T); try lia.
  { intros i Hi. destruct (Z.eq_dec i j) as [->|Ne]; [lia|]. rewrite A2 by done. by apply Ha. }
  exists a', (d + 1), rem'.
  replace (j + 1 + d) with (j + (d + 1)) by lia. replace (delay + 1 + d) with (delay + (d + 1)) by lia.
  split; [done|]. destruct T as [Td Tr Te Tf Tl Tz TL Ts]. split; try lia.
  - intros i Hi Hc'. rewrite Tf by lia. apply A2; lia.
  - intros i Hi. destruct (Z.eq_dec i j) as [->|Ne].
    + rewrite Tf by lia. lia.
    + rewrite <- A2 by lia. apply Tl. lia.
  - intros i Hi. destruct (Z.eq_dec i j) as [->|Ne].
    + rewrite Tf by lia. lia.
    + apply Tz. lia.
  - intros Hn. replace (j + (d + 1)) with (j + 1 + d) by lia. by apply TL.
  - replace (Z.to_nat (d + 1 + 1)) with (S (Z.to_nat (d + 1))) by lia. cbn [window].
    rewrite (Tf j) by lia. rewrite <- (window_ext a1 a) by (intros i Hi; apply A2; lia). lia.
Qed.

(** ** The operations *)

(** A fresh channel has every slot full. *)
Lemma chmodel_init_inv ch b :
  MB b <> 0 -> exists ch', chmodel_init ch b = Ok ch' /\ inv ch' /\ ch'.(cur_time) = 0 /\
    ch'.(max_credits) = u32 (BANDWIDTH_TO_MAX_CREDITS b) /\ ch'.(command_credits) = 0.
Proof.
  intros Hb. pose proof NR_val as N. unfold chmodel_init. rewrite (proj2 (Z.eqb_neq _ _) Hb).
  rewrite MEMSET_ok by lia. cbn. eexists. split; [reflexivity|]. split; [|done].
  assert (E : forall h j, memset (avail_credits ch) 0 NR_CREDIT_ENTRIES
    (u8 (u32 (BANDWIDTH_TO_MAX_CREDITS b))) (ring h j) = u8 (u32 (BANDWIDTH_TO_MAX_CREDITS b))).
  { intros h j. rewrite memset_case. pose proof (ring_range h j).
    rewrite (proj2 (Z.leb_le _ _)), (proj2 (Z.ltb_lt _ _)) by lia. done. }
  split; cbn; try lia; intros j Hj; unfold slot; cbn; rewrite E; [|done].
  pose proof (u8_range (u32 (BANDWIDTH_TO_MAX_CREDITS b))). lia.
Qed.

(** The state after the head has moved to the present. *)
Definition moved (ch : channel_model) (now : Z) (ch0 : channel_model) : Prop :=
  move_head ch now = Ok ch0 /\ inv ch0 /\ ch0.(cur_time) = now /\
  ch0.(max_credits) = ch.(max_credits) /\ ch0.(command_credits) = ch.(command_credits) /\
  ch0.(xfer_lat) = ch.(xfer_lat).

Lemma move_head_inv ch now : inv ch -> exists ch0, moved ch now ch0.
Proof.
  intros I. destruct (move_head_spec ch now I) as (a & E & Ho & Hs).
  eexists. split; [exact E|]. split; [|done]. destruct I as [Hh Hv Hb Hf].
  cbv zeta in Hs, E. set (o := elapsed ch now) in *. clearbody o. split; cbn -[slot ring].
  - apply ring_range.
  - lia.
  - intros j Hj. rewrite Hs by done. pose proof (u8_range (max_credits ch)).
    case_cmp; [apply Hb; lia|lia].
  - intros j Hj. rewrite Hs by lia. case_cmp; [apply Hf; lia|done].
Qed.

(** The credits a request asks for. *)
Definition units (length : Z) : Z := u32 (u64 (length + UNIT_XFER_SIZE - 1) / UNIT_XFER_SIZE).
Definition wanted (ch : channel_model) (length : Z) : Z :=
  u32 (u32 (units length * UNIT_XFER_CREDITS) + ch.(command_credits)).

(** The request is for the present or a future the ring reaches. *)
Definition in_reach (now rt : Z) : Prop :=
  now <= rt /\ u32 (rt / UNIT_TIME_INTERVAL - now / UNIT_TIME_INTERVAL) < NR_CREDIT_ENTRIES.

Definition slot_of (now rt : Z) : Z := u32 (rt / UNIT_TIME_INTERVAL - now / UNIT_TIME_INTERVAL).

Definition latency (ch : channel_model) (length d : Z) : Z :=
  u64 (u32 (ch.(xfer_lat) * units length) +
       Z.max 0 (d - wanted ch length / ch.(max_credits)) * UNIT_TIME_INTERVAL).

Lemma request_outside ch now rt len ch0 :
  moved ch now ch0 -> ~ in_reach now rt -> chmodel_request ch now rt len = Ok (rt, ch0).
Proof.
  intros (E & I & _) H. unfold chmodel_request. rewrite E.
  cbn [mbind result_mbind result_bind]. rewrite Z.gtb_ltb, Z.geb_leb.
  destruct (inv_len _ I). unfold in_reach in H. repeat case_cmp; first [done|lia].
Qed.

Lemma request_inside ch now rt len ch0 :
  moved ch now ch0 -> 0 < ch.(max_credits) -> in_reach now rt ->
  exists a d rem',
    taken ch0.(head) ch0.(avail_credits) (slot_of now rt) (wanted ch len) a d rem' /\
    chmodel_request ch now rt len = Ok (u64 (rt + latency ch len d),
      set_valid (set_avail ch0 a) (Z.max ch0.(valid_len) (slot_of now rt + d + 1))).
Proof.
  intros (E & I & _ & Em & Ec & Ex) Hm [Hn Hr]. pose proof NR_val as N.
  pose proof (inv_len _ I) as Hl. pose proof (inv_head _ I) as Hh.
  unfold chmodel_request. rewrite E. cbn [mbind result_mbind result_bind].
  fold (slot_of now rt) in Hr |- *. pose proof (u32_range (rt / UNIT_TIME_INTERVAL - now / UNIT_TIME_INTERVAL)) as Hs.
  fold (slot_of now rt) in Hs. set (j := slot_of now rt) in *. clearbody j.
  rewrite !Z.gtb_ltb, !Z.geb_leb, (proj2 (Z.ltb_ge NR_CREDIT_ENTRIES _)), (proj2 (Z.ltb_ge rt now)),
    (proj2 (Z.leb_gt NR_CREDIT_ENTRIES j)) by lia.
  rewrite Ec, Em. fold (units len). fold (wanted ch len).
  rewrite (proj2 (Z.eqb_neq (max_credits ch) 0)), (u32_small (head ch0 + j)) by lia.
  fold (ring (head ch0) j).
  destruct (take_credits_spec take_fuel (head ch0) (avail_credits ch0) j (wanted ch len) 0)
    as (a & d & rem' & Et & T); try lia.
  { unfold take_fuel. lia. }
  { intros i Hi. destruct (inv_bounds _ I i Hi). pose proof (u8_range (max_credits ch0)). unfold slot in *. lia. }
  { apply u32_range. }
  rewrite Et. exists a, d, rem'. split; [done|]. cbn [mbind result_mbind result_bind].
  destruct (taken_d _ _ _ _ _ _ _ T) as [Td1 Td2].
  assert (V : (if head (set_avail ch0 a) <=? ring (head ch0) (j + d)
      then ring (head ch0) (j + d) - head (set_avail ch0 a) + 1
      else NR_CREDIT_ENTRIES - (head (set_avail ch0 a) - ring (head ch0) (j + d) - 1)) = j + d + 1).
  { cbn [head set_avail]. rewrite ring_eq by lia. repeat case_cmp; lia. }
  rewrite !Z.gtb_ltb, !Z.geb_leb, V, Z.add_0_l. f_equal. f_equal.
  - unfold latency. rewrite <- Ex. do 3 f_equal; repeat case_cmp; cbn; lia.
  - cbn [valid_len set_avail]. case_cmp; [rewrite Z.max_r by lia; done|].
    rewrite Z.max_l by lia. by destruct ch0.
Qed.

Lemma taken_inv ch j rem a d rem' :
  inv ch -> 0 <= j -> taken ch.(head) ch.(avail_credits) j rem a d rem' ->
  inv (set_valid (set_avail ch a) (Z.max ch.(valid_len) (j + d + 1))).
Proof.
  intros [Hh Hv Hb Hf] Hj [Td Tr Te Tf Tl Tz TL Ts]. split; cbn; [done|lia| |].
  - intros i Hi. unfold slot. cbn. specialize (Hb i Hi). unfold slot in Hb.
    destruct (decide (i < j \/ j + d < i)); [rewrite Tf by lia; lia|].
    pose proof (Tl i). lia.
  - intros i Hi. unfold slot. cbn. rewrite Tf by lia. apply Hf. lia.
Qed.

(** The configuration of a channel, which requests leave alone. *)
Definition same_config (ch ch' : channel_model) : Prop :=
  ch'.(max_credits) = ch.(max_credits) /\ ch'.(command_credits) = ch.(command_credits) /\
  ch'.(xfer_lat) = ch.(xfer_lat).

(** The most a request of [len] bytes is delayed. *)
Definition worst (ch : channel_model) (len : Z) : Z :=
  ch.(xfer_lat) * units len + NR_CREDIT_ENTRIES * UNIT_TIME_INTERVAL.

(** A request never faults, whatever the clock says, and keeps the credit
    invariant.  When the times fit their 64 bits the answer is at or after the
    requested time and at most the worst delay later. *)
Lemma request_safe ch now rt len :
  inv ch -> 0 < ch.(max_credits) ->
  exists t ch', chmodel_request ch now rt len = Ok (t, ch') /\ inv ch' /\ same_config ch ch' /\
    (0 <= rt -> 0 <= ch.(xfer_lat) * units len < 2 ^ 32 -> rt + worst ch len < 2 ^ 64 ->
     rt <= t <= rt + worst ch len).
Proof.
  intros I Hm. destruct (move_head_inv ch now I) as (ch0 & M). pose proof NR_val as N.
  assert (S : same_config ch ch0) by (destruct M as (_ & _ & _ & M); exact M).
  assert (Hd : in_reach now rt \/ ~ in_reach now rt) by (unfold in_reach; lia).
  unfold worst. destruct Hd as [R|R].
  - destruct (request_inside ch now rt len ch0 M Hm R) as (a & d & rem' & T & ->).
    assert (0 <= slot_of now rt) by apply u32_range.
    eexists _, _. split; [done|].
    split; [by apply (taken_inv _ _ (wanted ch len) _ _ rem'); [apply M| |]|]. split; [done|].
    intros H0 Hx Hs. destruct (taken_d _ _ _ _ _ _ _ T) as [Td1 Td2].
    assert (0 <= wanted ch len / max_credits ch) by (apply Z.div_pos; [apply u32_range|done]).
    unfold latency, UNIT_TIME_INTERVAL in *. rewrite (u32_small (_ * _)) by lia.
    rewrite (u64_small (xfer_lat ch * _ + _)), u64_small by lia. lia.
  - rewrite (request_outside _ _ _ _ _ M R). eexists _, _. split; [done|]. split; [apply M|].
    split; [done|]. unfold UNIT_TIME_INTERVAL. lia.
Qed.

(** C24 (credits): a request for a reachable time takes its credits from the
    slot of that time on: it empties slots one after the other until it is served or the ring is
    exhausted, touches no other slot, its delay is the number of slots emptied beyond what the size
    alone needs, and no slot ever exceeds its budget. *)
Theorem chmodel_request_takes ch now rt len :
  inv ch -> 0 < ch.(max_credits) -> in_reach now rt ->
  exists ch0 ch' d rem', move_head ch now = Ok ch0 /\
    chmodel_request ch now rt len = Ok (u64 (rt + latency ch len d), ch') /\
    inv ch' /\ ch'.(head) = ch0.(head) /\
    taken ch0.(head) ch0.(avail_credits) (slot_of now rt) (wanted ch len)
      ch'.(avail_credits) d rem'.
Proof.
  intros I Hm R. destruct (move_head_inv ch now I) as (ch0 & M).
  destruct (request_inside ch now rt len ch0 M Hm R) as (a & d & rem' & T & E).
  eexists ch0, _, d, rem'. split; [apply M|]. split; [exact E|]. split; [|split; [done|exact T]].
  apply (taken_inv _ _ (wanted ch len) _ _ rem'); [apply M|apply u32_range|exact T].
Qed.

(** ** Witnesses: the PCIe channel, 3360 MB/s *)

#[local] Transparent NR_CREDIT_ENTRIES.

Definition ex_ch : channel_model := mk_ch 0 0 0 110 0 36 (fun _ => 110).

Lemma ex_ch_inv : inv ex_ch.
Proof.
  assert (E : u8 110 = 110) by reflexivity.
  split; cbn -[u8]; rewrite ?NR_val, ?E; try lia; intros; unfold slot; cbn; lia.
Qed.

(** 1 MB, 5 us after the last request: 8192 credits drain 74 slots. *)
Lemma chmodel_request_takes_witness :
  exists ch0 ch' d rem', move_head ex_ch 5000 = Ok ch0 /\
    chmodel_request ex_ch 5000 9000 1048576 = Ok (u64 (9000 + latency ex_ch 1048576 d), ch') /\
    inv ch' /\ ch'.(head) = ch0.(head) /\
    taken ch0.(head) ch0.(avail_credits) (slot_of 5000 9000) (wanted ex_ch 1048576)
      ch'.(avail_credits) d rem'.
Proof.
  apply (chmodel_request_takes ex_ch 5000 9000 1048576);
    [apply ex_ch_inv|reflexivity|split; [lia|reflexivity]].
Defined.
