(* ===== verification/Ssd.v ===== *)
(** * The flash device model ([ssd.c], [ssd.h])

    Device parameters, the channel / LUN / plane / block / page tree, the write
    buffer and the timing of NAND and PCIe operations.  The configuration is
    the [SAMSUNG_970PRO_HASH_DFTL] one of [ssd_config.h].  Arrays allocated by
    [kmalloc] start with arbitrary contents, which are the contents of the state
    the initialisers are applied to.  [adv_spin] is a field of the state, so that
    a path which does not release it is visible; [clock k] is the [k]-th reading
    of the CPU clock. *)

From S2P Require Import Prelude ChModel.

(** ** Configuration *)

Definition KB (x : Z) : Z := Z.shiftl x 10.

Definition PAGESIZE : Z := KB 4.
Definition NAND_CHANNELS : Z := 8.
Definition LUNS_PER_NAND_CH : Z := 8.
Definition PLNS_PER_LUN : Z := 1.
Definition FLASH_PAGE_SIZE : Z := KB 32.
Definition ONESHOT_PAGE_SIZE : Z := FLASH_PAGE_SIZE * 1.
Definition BLKS_PER_PLN : Z := 0.
Definition BLK_SIZE : Z := KB 128.
Definition CELL_MODE_MLC : Z := 2.
Definition CELL_MODE : Z := CELL_MODE_MLC.
Definition MAX_CH_XFER_SIZE : Z := KB 16.
Definition WRITE_UNIT_SIZE : Z := 512.
Definition NAND_CHANNEL_BANDWIDTH : Z := 800.
Definition PCIE_BANDWIDTH : Z := 3360.
Definition NAND_4KB_READ_LATENCY_LSB : Z := 35760 - 6000.
Definition NAND_4KB_READ_LATENCY_MSB : Z := 35760 + 6000.
Definition NAND_4KB_READ_LATENCY_CSB : Z := 0.
Definition NAND_READ_LATENCY_LSB : Z := 36013 - 6000.
Definition NAND_READ_LATENCY_MSB : Z := 36013 + 6000.
Definition NAND_READ_LATENCY_CSB : Z := 0.
Definition NAND_PROG_LATENCY : Z := 185000.
Definition NAND_ERASE_LATENCY : Z := 0.
Definition FW_CH_XFER_LATENCY : Z := 0.
Definition FW_4KB_READ_LATENCY : Z := 21500.
Definition FW_READ_LATENCY : Z := 30490.
Definition FW_WBUF_LATENCY0 : Z := 4000.
Definition FW_WBUF_LATENCY1 : Z := 460.
Definition GLOBAL_WB_SIZE : Z := NAND_CHANNELS * LUNS_PER_NAND_CH * ONESHOT_PAGE_SIZE * 2.

(** ** Data *)

Variant cell_type := CELL_TYPE_LSB | CELL_TYPE_MSB | CELL_TYPE_CSB.

(** The enumeration's values; [MAX_CELL_TYPES] is three. *)
Definition cell_type_of (n : Z) : option cell_type :=
  match n with
  | 0 => Some CELL_TYPE_LSB | 1 => Some CELL_TYPE_MSB | 2 => Some CELL_TYPE_CSB
  | _ => None
  end.

Record ssdparams := mk_params {
  secsz : Z; secs_per_pg : Z; pgsz : Z; pgs_per_flashpg : Z; flashpgs_per_blk : Z;
  pgs_per_oneshotpg : Z; oneshotpgs_per_blk : Z; pgs_per_blk : Z; blks_per_pl : Z;
  pls_per_lun : Z; luns_per_ch : Z; nchs : Z; cell_mode : Z;
  write_unit_size : Z; write_early_completion : bool;
  pg_4kb_rd_lat : cell_type -> Z; pg_rd_lat : cell_type -> Z; pg_wr_lat : Z; blk_er_lat : Z;
  max_ch_xfer_size : Z;
  fw_4kb_rd_lat : Z; fw_rd_lat : Z; fw_wbuf_lat0 : Z; fw_wbuf_lat1 : Z; fw_ch_xfer_lat : Z;
  ch_bandwidth : Z; pcie_bandwidth : Z;
  secs_per_blk : Z; secs_per_pl : Z; secs_per_lun : Z; secs_per_ch : Z; tt_secs : Z;
  pgs_per_pl : Z; pgs_per_lun : Z; pgs_per_ch : Z; tt_pgs : Z;
  blks_per_lun : Z; blks_per_ch : Z; tt_blks : Z;
  secs_per_line : Z; pgs_per_line : Z; flashpgs_per_line : Z; blks_per_line : Z; tt_lines : Z;
  pls_per_ch : Z; tt_pls : Z; tt_luns : Z; write_buffer_size : Z
}.

(** [struct ppa]: bit fields of 16, 16, 8, 8, 8 and 8 bits. *)
Record ppa := mk_ppa { g_pg : Z; g_blk : Z; g_pl : Z; g_lun : Z; g_ch : Z; g_rsv : Z }.

(** The 64-bit view of the union. *)
Definition ppa_val (p : ppa) : Z :=
  p.(g_pg) + Z.shiftl p.(g_blk) 16 + Z.shiftl p.(g_pl) 32 + Z.shiftl p.(g_lun) 40
  + Z.shiftl p.(g_ch) 48 + Z.shiftl p.(g_rsv) 56.

Definition ppa_of (v : Z) : ppa :=
  mk_ppa (u16 v) (u16 (Z.shiftr v 16)) (u8 (Z.shiftr v 32)) (u8 (Z.shiftr v 40))
    (u8 (Z.shiftr v 48)) (u8 (Z.shiftr v 56)).

Definition UNMAPPED_PPA : Z := U64_MAX.

Variant page_status := PG_FREE | PG_INVALID | PG_VALID.
Variant sec_status := SEC_FREE | SEC_INVALID | SEC_VALID.

#[export] Instance page_status_eq_dec : EqDecision page_status.
Proof. solve_decision. Defined.

Record nand_page := mk_page { sec : Z -> sec_status; nsecs : Z; status : page_status }.
Record nand_block := mk_block {
  pg : Z -> nand_page; npgs : Z; ipc : Z; vpc : Z; igc : Z; vgc : Z; erase_cnt : Z; wp : Z
}.
Record nand_plane := mk_plane { blk : Z -> nand_block; nblks : Z }.
Record nand_lun := mk_lun {
  pl : Z -> nand_plane; npls : Z; next_lun_avail_time : Z; busy : bool
}.
Record ssd_channel := mk_channel { lun : Z -> nand_lun; nluns : Z; perf_model : channel_model }.

(** [struct buffer]. *)
Record buffer := mk_buffer { bsize : Z; remaining : Z }.

Record ssd := mk_ssd {
  sp : ssdparams; ch : Z -> ssd_channel; pcie : channel_model; write_buffer : buffer;
  adv_locked : bool; ticks : nat
}.

Variant nand_op := NAND_READ | NAND_WRITE | NAND_ERASE | NAND_NOP | NAND_OTHER (c : Z).

Record nand_cmd := mk_cmd {
  cmd : nand_op; xfer_size : Z; stime : Z; interleave_pci_dma : bool; cppa : ppa
}.

(** ** The write buffer *)

Definition buffer_init (size : Z) : buffer := mk_buffer size size.

(** The size comes back as a [uint32_t]. *)
Definition buffer_allocate (b : buffer) (size : Z) : Z * buffer :=
  let size := if b.(remaining) <? size then 0 else size in
  (u32 size, mk_buffer b.(bsize) (u64 (b.(remaining) - size))).

Definition buffer_release (b : buffer) (size : Z) : bool * buffer :=
  (true, mk_buffer b.(bsize) (u64 (b.(remaining) + size))).

Definition buffer_refill (b : buffer) : buffer := mk_buffer b.(bsize) b.(bsize).

(** ** Parameters *)

Definition ssd_init_params (capacity nparts : Z) : result ssdparams :=
  let secsz := 512 in
  let secs_per_pg := PAGESIZE / 512 in
  let pgsz := secsz * secs_per_pg in
  if nparts =? 0 then Err DIVZERO else
  _ ← assert_ (NAND_CHANNELS mod nparts =? 0);
  let nchs := NAND_CHANNELS / nparts in
  let capacity := capacity / nparts in
  let pls_per_lun := PLNS_PER_LUN in
  let luns_per_ch := LUNS_PER_NAND_CH in
  let round_up n d := u64 (n + d - 1) / d in
  '(blks_per_pl, blk_size) ← (if BLKS_PER_PLN >? 0 then
      Ok (BLKS_PER_PLN, round_up capacity (BLKS_PER_PLN * pls_per_lun * luns_per_ch * nchs))
    else
      _ ← assert_ (BLK_SIZE >? 0);
      Ok (i32 (round_up capacity (u64 (BLK_SIZE * pls_per_lun * luns_per_ch * nchs))), BLK_SIZE));
  _ ← assert_ ((ONESHOT_PAGE_SIZE mod pgsz =? 0) && (FLASH_PAGE_SIZE mod pgsz =? 0));
  _ ← assert_ (ONESHOT_PAGE_SIZE mod FLASH_PAGE_SIZE =? 0);
  let pgs_per_oneshotpg := ONESHOT_PAGE_SIZE / pgsz in
  let oneshotpgs_per_blk := i32 (round_up blk_size ONESHOT_PAGE_SIZE) in
  let pgs_per_flashpg := FLASH_PAGE_SIZE / pgsz in
  let flashpgs_per_blk := i32 (ONESHOT_PAGE_SIZE / FLASH_PAGE_SIZE * oneshotpgs_per_blk) in
  let pgs_per_blk := i32 (pgs_per_oneshotpg * oneshotpgs_per_blk) in
  let secs_per_blk := u64 (i32 (secs_per_pg * pgs_per_blk)) in
  let secs_per_pl := u64 (secs_per_blk * blks_per_pl) in
  let secs_per_lun := u64 (secs_per_pl * pls_per_lun) in
  let secs_per_ch := u64 (secs_per_lun * luns_per_ch) in
  let pgs_per_pl := u64 (i32 (pgs_per_blk * blks_per_pl)) in
  let pgs_per_lun := u64 (pgs_per_pl * pls_per_lun) in
  let pgs_per_ch := u64 (pgs_per_lun * luns_per_ch) in
  let blks_per_lun := u64 (i32 (blks_per_pl * pls_per_lun)) in
  let blks_per_ch := u64 (blks_per_lun * luns_per_ch) in
  let pls_per_ch := u64 (i32 (pls_per_lun * luns_per_ch)) in
  let tt_luns := u64 (i32 (luns_per_ch * nchs)) in
  let blks_per_line := tt_luns in
  let pgs_per_line := u64 (blks_per_line * pgs_per_blk) in
  Ok {|
    secsz := secsz; secs_per_pg := secs_per_pg; pgsz := pgsz;
    pgs_per_flashpg := pgs_per_flashpg; flashpgs_per_blk := flashpgs_per_blk;
    pgs_per_oneshotpg := pgs_per_oneshotpg; oneshotpgs_per_blk := oneshotpgs_per_blk;
    pgs_per_blk := pgs_per_blk; blks_per_pl := blks_per_pl; pls_per_lun := pls_per_lun;
    luns_per_ch := luns_per_ch; nchs := nchs; cell_mode := CELL_MODE;
    write_unit_size := WRITE_UNIT_SIZE; write_early_completion := true;
    pg_4kb_rd_lat := fun c => match c with
      | CELL_TYPE_LSB => NAND_4KB_READ_LATENCY_LSB
      | CELL_TYPE_MSB => NAND_4KB_READ_LATENCY_MSB
      | CELL_TYPE_CSB => NAND_4KB_READ_LATENCY_CSB end;
    pg_rd_lat := fun c => match c with
      | CELL_TYPE_LSB => NAND_READ_LATENCY_LSB
      | CELL_TYPE_MSB => NAND_READ_LATENCY_MSB
      | CELL_TYPE_CSB => NAND_READ_LATENCY_CSB end;
    pg_wr_lat := NAND_PROG_LATENCY; blk_er_lat := NAND_ERASE_LATENCY;
    max_ch_xfer_size := MAX_CH_XFER_SIZE;
    fw_4kb_rd_lat := FW_4KB_READ_LATENCY; fw_rd_lat := FW_READ_LATENCY;
    fw_wbuf_lat0 := FW_WBUF_LATENCY0; fw_wbuf_lat1 := FW_WBUF_LATENCY1;
    fw_ch_xfer_lat := FW_CH_XFER_LATENCY;
    ch_bandwidth := NAND_CHANNEL_BANDWIDTH; pcie_bandwidth := PCIE_BANDWIDTH;
    secs_per_blk := secs_per_blk; secs_per_pl := secs_per_pl; secs_per_lun := secs_per_lun;
    secs_per_ch := secs_per_ch; tt_secs := u64 (secs_per_ch * nchs);
    pgs_per_pl := pgs_per_pl; pgs_per_lun := pgs_per_lun; pgs_per_ch := pgs_per_ch;
    tt_pgs := u64 (pgs_per_ch * nchs);
    blks_per_lun := blks_per_lun; blks_per_ch := blks_per_ch; tt_blks := u64 (blks_per_ch * nchs);
    secs_per_line := u64 (pgs_per_line * secs_per_pg); pgs_per_line := pgs_per_line;
    flashpgs_per_line := pgs_per_line / pgs_per_flashpg;
    blks_per_line := blks_per_line; tt_lines := blks_per_lun;
    pls_per_ch := pls_per_ch; tt_pls := u64 (pls_per_ch * nchs); tt_luns := tt_luns;
    write_buffer_size := GLOBAL_WB_SIZE
  |}.

(** ** Initialisation of the tree *)

Definition ssd_init_nand_page (spp : ssdparams) (p : nand_page) : nand_page :=
  mk_page (fill p.(sec) spp.(secs_per_pg) (fun _ => SEC_FREE)) spp.(secs_per_pg) PG_FREE.

Definition ssd_init_nand_blk (spp : ssdparams) (b : nand_block) : nand_block :=
  mk_block (fill b.(pg) spp.(pgs_per_blk) (ssd_init_nand_page spp)) spp.(pgs_per_blk) 0 0 0 0 0 0.

Definition ssd_init_nand_plane (spp : ssdparams) (p : nand_plane) : nand_plane :=
  mk_plane (fill p.(blk) spp.(blks_per_pl) (ssd_init_nand_blk spp)) spp.(blks_per_pl).

Definition ssd_init_nand_lun (spp : ssdparams) (l : nand_lun) : nand_lun :=
  mk_lun (fill l.(pl) spp.(pls_per_lun) (ssd_init_nand_plane spp)) spp.(pls_per_lun) 0 false.

Definition add_xfer_lat (c : channel_model) (n : Z) : channel_model :=
  mk_ch c.(cur_time) c.(head) c.(valid_len) c.(max_credits) c.(command_credits)
    (u32 (c.(xfer_lat) + n)) c.(avail_credits).

(** The channel model starts from garbage too; [ssd_init_ch] initialises it and adds the
    firmware overhead. *)
Definition ssd_init_ch (spp : ssdparams) (c : ssd_channel) : result ssd_channel :=
  m ← chmodel_init c.(perf_model) spp.(ch_bandwidth);
  Ok (mk_channel (fill c.(lun) spp.(luns_per_ch) (ssd_init_nand_lun spp)) spp.(luns_per_ch)
        (add_xfer_lat m (spp.(fw_ch_xfer_lat) * UNIT_XFER_SIZE / KB 4))).

Definition ssd_init_pcie (spp : ssdparams) (m : channel_model) : result channel_model :=
  chmodel_init m spp.(pcie_bandwidth).

(** The loop over the channels. *)
Fixpoint init_channels (n : nat) (i : Z) (spp : ssdparams) (a : Z -> ssd_channel)
    : result (Z -> ssd_channel) :=
  match n with
  | O => Ok a
  | S n => c ← ssd_init_ch spp (a i); init_channels n (i + 1) spp (upd a i c)
  end.

Definition ssd_init (s : ssd) (spp : ssdparams) : result ssd :=
  a ← init_channels (Z.to_nat spp.(nchs)) 0 spp s.(ch);
  p ← ssd_init_pcie spp s.(pcie);
  Ok (mk_ssd spp a p (buffer_init spp.(write_buffer_size)) s.(adv_locked) s.(ticks)).

(** ** Addressing: [get_ch] and its companions, with their array bounds *)

Definition get_ch (s : ssd) (p : ppa) : result ssd_channel := cell s.(ch) s.(sp).(nchs) p.(g_ch).
Definition get_lun (s : ssd) (p : ppa) : result nand_lun :=
  c ← get_ch s p; cell c.(lun) c.(nluns) p.(g_lun).
Definition get_pl (s : ssd) (p : ppa) : result nand_plane :=
  l ← get_lun s p; cell l.(pl) l.(npls) p.(g_pl).
Definition get_blk (s : ssd) (p : ppa) : result nand_block :=
  q ← get_pl s p; cell q.(blk) q.(nblks) p.(g_blk).
Definition get_pg (s : ssd) (p : ppa) : result nand_page :=
  b ← get_blk s p; cell b.(pg) b.(npgs) p.(g_pg).

(** Assignments through the pointers these return. *)
Definition set_ch (s : ssd) (a : Z -> ssd_channel) : ssd :=
  mk_ssd s.(sp) a s.(pcie) s.(write_buffer) s.(adv_locked) s.(ticks).
Definition set_lun (c : ssd_channel) (a : Z -> nand_lun) : ssd_channel :=
  mk_channel a c.(nluns) c.(perf_model).
Definition mod_ch (s : ssd) (p : ppa) (f : ssd_channel -> result ssd_channel) : result ssd :=
  a ← modify s.(ch) s.(sp).(nchs) p.(g_ch) f; Ok (set_ch s a).
Definition mod_lun (s : ssd) (p : ppa) (f : nand_lun -> result nand_lun) : result ssd :=
  mod_ch s p (fun c => a ← modify c.(lun) c.(nluns) p.(g_lun) f; Ok (set_lun c a)).
Definition mod_blk (s : ssd) (p : ppa) (f : nand_block -> result nand_block) : result ssd :=
  mod_lun s p (fun l =>
    a ← modify l.(pl) l.(npls) p.(g_pl) (fun q =>
          b ← modify q.(blk) q.(nblks) p.(g_blk) f; Ok (mk_plane b q.(nblks)));
    Ok (mk_lun a l.(npls) l.(next_lun_avail_time) l.(busy))).

Definition get_cell (s : ssd) (p : ppa) : result cell_type :=
  if (s.(sp).(pgs_per_flashpg) =? 0) || (s.(sp).(cell_mode) + 1 =? 0) then Err DIVZERO else
  match cell_type_of ((p.(g_pg) / s.(sp).(pgs_per_flashpg)) mod (s.(sp).(cell_mode) + 1)) with
  | Some c => Ok c
  | None => Err OOB
  end.

(** ** Timing *)

Definition set_avail_time (l : nand_lun) (t : Z) : nand_lun :=
  mk_lun l.(pl) l.(npls) t l.(busy).
Definition set_perf (c : ssd_channel) (m : channel_model) : ssd_channel :=
  mk_channel c.(lun) c.(nluns) m.
Definition set_pcie (s : ssd) (m : channel_model) : ssd :=
  mk_ssd s.(sp) s.(ch) m s.(write_buffer) s.(adv_locked) s.(ticks).
Definition set_lock (s : ssd) (b : bool) : ssd :=
  mk_ssd s.(sp) s.(ch) s.(pcie) s.(write_buffer) b s.(ticks).
Definition tick (s : ssd) : ssd :=
  mk_ssd s.(sp) s.(ch) s.(pcie) s.(write_buffer) s.(adv_locked) (S s.(ticks)).

Section timing.
Context (clock : nat -> Z).

(** [__get_ioclock] and [__get_wallclock]: the next reading. *)
Definition __get_ioclock (s : ssd) : Z * ssd := (clock s.(ticks), tick s).

Definition ssd_advance_pcie (s : ssd) (request_time length : Z) : result (Z * ssd) :=
  let '(now, s) := __get_ioclock s in
  '(t, m) ← chmodel_request s.(pcie) now request_time length;
  Ok (t, set_pcie s m).

Definition ssd_advance_write_buffer (s : ssd) (request_time length : Z) : result (Z * ssd) :=
  let nsecs_latest := u64 (request_time + s.(sp).(fw_wbuf_lat0)) in
  let nsecs_latest :=
    u64 (nsecs_latest + u64 (s.(sp).(fw_wbuf_lat1) * (u64 (length + KB 4 - 1) / KB 4))) in
  ssd_advance_pcie s nsecs_latest length.

(** [chmodel_request] on the channel of [p]. *)
Definition channel_request (s : ssd) (p : ppa) (request_time length : Z) : result (Z * ssd) :=
  c ← get_ch s p;
  let '(now, s) := __get_ioclock s in
  '(t, m) ← chmodel_request c.(perf_model) now request_time length;
  s ← mod_ch s p (fun c => Ok (set_perf c m));
  Ok (t, s).

(** The transfer loop of [NAND_READ].  [last] holds [chnl_etime] and
    [completed_time] once they are assigned. *)
Fixpoint read_loop (fuel : nat) (s : ssd) (ncmd : nand_cmd) (remaining chnl_stime : Z)
    (last : option (Z * Z)) : result (option (Z * Z) * ssd) :=
  match fuel with
  | O => Err HANG
  | S fuel =>
      if remaining =? 0 then Ok (last, s) else
      let xfer_size := Z.min remaining s.(sp).(max_ch_xfer_size) in
      '(chnl_etime, s) ← channel_request s ncmd.(cppa) chnl_stime xfer_size;
      '(completed_time, s) ← (if ncmd.(interleave_pci_dma)
        then ssd_advance_pcie s chnl_etime xfer_size else Ok (chnl_etime, s));
      read_loop fuel s ncmd (remaining - xfer_size) chnl_etime (Some (chnl_etime, completed_time))
  end.

(** One iteration per transfer of at most [max_ch_xfer_size] bytes. *)
Definition read_fuel (s : ssd) (n : Z) : nat := Z.to_nat (n / s.(sp).(max_ch_xfer_size) + 2).

Definition ssd_advance_nand (s : ssd) (ncmd : nand_cmd) : result (Z * ssd) :=
  let p := ncmd.(cppa) in
  if s.(adv_locked) then Err HANG else
  let s := set_lock s true in
  let '(cmd_stime, s) :=
    if ncmd.(stime) =? 0 then __get_ioclock s else (ncmd.(stime), s) in
  if ppa_val p =? UNMAPPED_PPA then Ok (cmd_stime, s) else
  let spp := s.(sp) in
  l ← get_lun s p;
  _ ← get_ch s p;
  cell ← get_cell s p;
  match ncmd.(cmd) with
  | NAND_READ =>
      let nand_stime := Z.max l.(next_lun_avail_time) cmd_stime in
      let nand_etime := u64 (nand_stime +
        if ncmd.(xfer_size) =? 4096 then spp.(pg_4kb_rd_lat) cell else spp.(pg_rd_lat) cell) in
      '(last, s) ← read_loop (read_fuel s ncmd.(xfer_size)) s ncmd ncmd.(xfer_size) nand_etime None;
      '(chnl_etime, completed_time) ← (match last with Some x => Ok x | None => Err UNINIT end);
      s ← mod_lun s p (fun l => Ok (set_avail_time l chnl_etime));
      Ok (completed_time, set_lock s false)
  | NAND_WRITE =>
      let chnl_stime := Z.max l.(next_lun_avail_time) cmd_stime in
      '(chnl_etime, s) ← channel_request s p chnl_stime ncmd.(xfer_size);
      let nand_etime := u64 (chnl_etime + spp.(pg_wr_lat)) in
      s ← mod_lun s p (fun l => Ok (set_avail_time l nand_etime));
      Ok (nand_etime, set_lock s false)
  | NAND_ERASE =>
      let nand_stime := Z.max l.(next_lun_avail_time) cmd_stime in
      let nand_etime := u64 (nand_stime + spp.(blk_er_lat)) in
      s ← mod_lun s p (fun l => Ok (set_avail_time l nand_etime));
      Ok (nand_etime, set_lock s false)
  | NAND_NOP =>
      let nand_stime := Z.max l.(next_lun_avail_time) cmd_stime in
      s ← mod_lun s p (fun l => Ok (set_avail_time l nand_stime));
      Ok (nand_stime, set_lock s false)
  | NAND_OTHER _ => Ok (0, s)
  end.

(** The two nested loops over channels and LUNs. *)
Fixpoint idle_luns (n : nat) (j : Z) (c : ssd_channel) (latest : Z) : result Z :=
  match n with
  | O => Ok latest
  | S n => l ← cell c.(lun) c.(nluns) j; idle_luns n (j + 1) c (Z.max latest l.(next_lun_avail_time))
  end.

Fixpoint idle_channels (n : nat) (i : Z) (s : ssd) (latest : Z) : result Z :=
  match n with
  | O => Ok latest
  | S n =>
      c ← cell s.(ch) s.(sp).(nchs) i;
      latest ← idle_luns (Z.to_nat s.(sp).(luns_per_ch)) 0 c latest;
      idle_channels n (i + 1) s latest
  end.

Definition ssd_next_idle_time (s : ssd) : result Z :=
  let '(latest, s) := __get_ioclock s in
  idle_channels (Z.to_nat s.(sp).(nchs)) 0 s latest.

End timing.

(** ** Addresses *)

Definition ppa_fits (p : ppa) : Prop :=
  is_u16 p.(g_pg) /\ is_u16 p.(g_blk) /\ is_u8 p.(g_pl) /\ is_u8 p.(g_lun) /\ is_u8 p.(g_ch) /\
  is_u8 p.(g_rsv).

(** Address layout: the bit fields and the 64-bit view of [struct ppa] determine each
    other. *)
Theorem ppa_round_trip p v :
  (ppa_fits p -> ppa_of (ppa_val p) = p) /\ (is_u64 v -> ppa_val (ppa_of v) = v /\ ppa_fits (ppa_of v)).
Proof.
  unfold ppa_fits, ppa_of, ppa_val, is_uw, u16, u8, uw.
  rewrite ?Z.shiftl_mul_pow2, ?Z.shiftr_div_pow2 by lia. split.
  - destruct p as [a b c d e f]. cbn [g_pg g_blk g_pl g_lun g_ch g_rsv]. intros H.
    rewrite ?Z.shiftl_mul_pow2, ?Z.shiftr_div_pow2 by lia.
    f_equal; zlia.
  - intros H. cbn [g_pg g_blk g_pl g_lun g_ch g_rsv].
    rewrite ?Z.shiftl_mul_pow2, ?Z.shiftr_div_pow2 by lia. zlia.
Qed.

(** ** Geometry *)

(** The relations between the parameters the translation layer relies on. *)
Record geom (spp : ssdparams) : Prop := {
  geom_secs : spp.(secs_per_pg) = 8 /\ spp.(pgsz) = 4096;
  geom_flash : spp.(pgs_per_flashpg) = 8 /\ spp.(pgs_per_oneshotpg) = 8;
  geom_blk : spp.(pgs_per_blk) = 32 /\ spp.(flashpgs_per_blk) = 4 /\ spp.(oneshotpgs_per_blk) = 4;
  geom_tree : spp.(pls_per_lun) = 1 /\ spp.(luns_per_ch) = 8 /\ 1 <= spp.(nchs) <= 8;
  geom_blks : 1 <= spp.(blks_per_pl) <= 65536;
  geom_pgs : spp.(pgs_per_pl) = 32 * spp.(blks_per_pl) /\
    spp.(pgs_per_lun) = spp.(pgs_per_pl) * spp.(pls_per_lun) /\
    spp.(pgs_per_ch) = spp.(pgs_per_lun) * spp.(luns_per_ch) /\
    spp.(tt_pgs) = spp.(pgs_per_ch) * spp.(nchs);
  geom_line : spp.(tt_luns) = spp.(luns_per_ch) * spp.(nchs) /\
    spp.(blks_per_line) = spp.(tt_luns) /\
    spp.(pgs_per_line) = spp.(blks_per_line) * spp.(pgs_per_blk) /\
    spp.(flashpgs_per_line) * spp.(pgs_per_flashpg) = spp.(pgs_per_line) /\
    spp.(tt_lines) = spp.(blks_per_pl) /\
    spp.(tt_pgs) = spp.(tt_lines) * spp.(pgs_per_line);
  geom_secs_total : spp.(tt_secs) = spp.(tt_pgs) * spp.(secs_per_pg) /\
    spp.(secs_per_line) = spp.(pgs_per_line) * spp.(secs_per_pg) /\
    spp.(tt_blks) = spp.(blks_per_line) * spp.(tt_lines);
  geom_lat : spp.(cell_mode) = 2 /\ spp.(max_ch_xfer_size) = 16384 /\
    spp.(pg_wr_lat) = 185000 /\ spp.(blk_er_lat) = 0 /\
    (forall c, 0 <= spp.(pg_rd_lat) c <= 42013 /\ 0 <= spp.(pg_4kb_rd_lat) c <= 41760);
  geom_csb : spp.(pg_rd_lat) CELL_TYPE_CSB = NAND_READ_LATENCY_CSB /\
    spp.(pg_4kb_rd_lat) CELL_TYPE_CSB = NAND_4KB_READ_LATENCY_CSB;
  geom_bw : spp.(ch_bandwidth) = 800 /\ spp.(pcie_bandwidth) = 3360 /\ spp.(fw_ch_xfer_lat) = 0
}.

(** The bytes of one superblock line. *)
Definition line_bytes (spp : ssdparams) : Z := spp.(pgs_per_line) * spp.(pgsz).

(** The numbers of partitions that divide the eight channels. *)
Lemma nparts_cases n : 0 < n -> NAND_CHANNELS mod n = 0 -> n = 1 \/ n = 2 \/ n = 4 \/ n = 8.
Proof.
  unfold NAND_CHANNELS. intros H E.
  assert (n <= 8) by (destruct (Z.le_gt_cases n 8); [done|rewrite Z.mod_small in E by lia; lia]).
  assert (n = 1 \/ n = 2 \/ n = 3 \/ n = 4 \/ n = 5 \/ n = 6 \/ n = 7 \/ n = 8) as C by lia.
  destruct C as [-> | [-> | [-> | [-> | [-> | [-> | [-> | ->]]]]]]]; vm_compute in E; lia.
Qed.

(** The one arithmetic fact of the geometry: the number of blocks per plane. *)
Lemma blks_small cap per :
  0 < per -> per < 2 ^ 32 -> 0 < cap <= 65536 * per ->
  u64 (cap + per - 1) = cap + per - 1 /\
  i32 ((cap + per - 1) / per) = (cap + per - 1) / per /\ 1 <= (cap + per - 1) / per <= 65536 /\
  cap <= (cap + per - 1) / per * per < cap + per.
Proof.
  intros Hp Hq Hc. change (2 ^ 32) with 4294967296 in Hq.
  assert (B : 1 <= (cap + per - 1) / per <= 65536).
  { split; [apply Z.div_le_lower_bound; lia|].
    enough ((cap + per - 1) / per < 65537) by lia. apply Z.div_lt_upper_bound; lia. }
  pose proof (Z.div_mod (cap + per - 1) per ltac:(lia)).
  pose proof (Z.mod_pos_bound (cap + per - 1) per Hp).
  split; [apply u64_small; lia|]. split; [apply i32_small; lia|]. split; [done|nia].
Qed.

Lemma ssd_init_params_ok capacity nparts :
  0 < nparts -> NAND_CHANNELS mod nparts = 0 ->
  0 < capacity / nparts <= 65536 * (BLK_SIZE * LUNS_PER_NAND_CH * (NAND_CHANNELS / nparts)) ->
  exists spp, ssd_init_params capacity nparts = Ok spp /\ geom spp /\
    capacity / nparts <= spp.(tt_pgs) * spp.(pgsz) < capacity / nparts + line_bytes spp.
Proof.
  intros H0 Hm. pose proof (nparts_cases nparts H0 Hm) as C. clear Hm.
  unfold ssd_init_params, line_bytes, BLK_SIZE, ONESHOT_PAGE_SIZE, FLASH_PAGE_SIZE, PAGESIZE,
    BLKS_PER_PLN, NAND_CHANNELS, PLNS_PER_LUN, LUNS_PER_NAND_CH, KB.
  set (cap := capacity / nparts). clearbody cap.
  destruct C as [-> | [-> | [-> | ->]]]; zconst; intros Hc;
  cbn [assert_ mbind result_mbind result_bind andb];
  match goal with |- context [u64 (cap + ?p - 1)] =>
    destruct (blks_small cap p) as (-> & -> & B & S); [lia|lia|lia|] end.
  all: match goal with |- context [(?c + ?p - 1) / ?p] =>
    generalize dependent ((c + p - 1) / p); intros n B S end.
  all: eexists; split; [reflexivity|]; cbn [tt_pgs pgsz pgs_per_line].
  all: zconst; repeat first [rewrite i32_small by lia | rewrite u64_small by lia].
  all: split; [|cbn; lia].
  all: split; cbn; repeat split; try reflexivity; try lia; destruct c; vm_compute; congruence.
Qed.

(** C31 (parameters): for a partition of the channels and a capacity the address format can
    hold, the initialiser succeeds, its parameters are mutually consistent, and the device is
    the smallest whole number of lines that holds the capacity of the partition. *)
Theorem ssd_init_params_correct capacity nparts :
  0 < nparts -> NAND_CHANNELS mod nparts = 0 ->
  0 < capacity / nparts <= 65536 * (BLK_SIZE * LUNS_PER_NAND_CH * (NAND_CHANNELS / nparts)) ->
  exists spp, ssd_init_params capacity nparts = Ok spp /\ geom spp /\
    capacity / nparts <= spp.(tt_pgs) * spp.(pgsz) < capacity / nparts + line_bytes spp.
Proof. exact (ssd_init_params_ok capacity nparts). Qed.

(** ** The device invariant *)

Definition channel_ready (m : channel_model) : Prop :=
  inv m /\ 0 < m.(max_credits) /\ 0 <= m.(xfer_lat) <= 152.

Record lun_ok (spp : ssdparams) (l : nand_lun) : Prop := {
  lun_npls : l.(npls) = spp.(pls_per_lun);
  lun_nblks : forall i, 0 <= i < l.(npls) -> (l.(pl) i).(nblks) = spp.(blks_per_pl);
  lun_npgs : forall i j, 0 <= i < l.(npls) -> 0 <= j < spp.(blks_per_pl) ->
    ((l.(pl) i).(blk) j).(npgs) = spp.(pgs_per_blk)
}.

Record tree_ok (s : ssd) : Prop := {
  ok_geom : geom s.(sp);
  ok_luns : forall i, 0 <= i < s.(sp).(nchs) -> (s.(ch) i).(nluns) = s.(sp).(luns_per_ch) /\
    forall j, 0 <= j < s.(sp).(luns_per_ch) -> lun_ok s.(sp) ((s.(ch) i).(lun) j);
  ok_channels : forall i, 0 <= i < s.(sp).(nchs) -> channel_ready (s.(ch) i).(perf_model);
  ok_pcie : channel_ready s.(pcie)
}.

(** The address names a page of the device. *)
Definition in_ssd (s : ssd) (p : ppa) : Prop :=
  0 <= p.(g_ch) < s.(sp).(nchs) /\ 0 <= p.(g_lun) < s.(sp).(luns_per_ch) /\
  0 <= p.(g_pl) < s.(sp).(pls_per_lun) /\ 0 <= p.(g_blk) < s.(sp).(blks_per_pl) /\
  0 <= p.(g_pg) < s.(sp).(pgs_per_blk).

Definition avail_time (s : ssd) (c j : Z) : Z := ((s.(ch) c).(lun) j).(next_lun_avail_time).

(** What performance-model steps leave alone. *)
Record timing_step (s s' : ssd) : Prop := {
  ts_sp : s'.(sp) = s.(sp);
  ts_lock : s'.(adv_locked) = s.(adv_locked);
  ts_lun : forall i, (s'.(ch) i).(lun) = (s.(ch) i).(lun);
  ts_nluns : forall i, (s'.(ch) i).(nluns) = (s.(ch) i).(nluns)
}.

#[export] Instance timing_step_preorder : PreOrder timing_step.
Proof.
  split; [by split|]. intros s t u [A B C D] [E F G H]. split.
  - by rewrite E.
  - by rewrite F.
  - intros i. by rewrite G.
  - intros i. by rewrite H.
Qed.

Lemma tree_ok_channel s s' :
  tree_ok s -> timing_step s s' -> channel_ready s'.(pcie) ->
  (forall i, 0 <= i < s.(sp).(nchs) -> channel_ready (s'.(ch) i).(perf_model)) -> tree_ok s'.
Proof.
  intros [G L C P] [S K U N] HP HC. split; [by rewrite S| |by rewrite S|done].
  rewrite S. intros i Hi. rewrite N, U. by apply L.
Qed.

(** The delay of one transfer of up to 2 GB. *)
Definition XFER_MAX : Z := 2 ^ 31.
Definition DELAY_MAX : Z := 2 ^ 33.

(** The time a NAND command with [size] bytes takes at most once it starts, and
    a bound for all commands of up to 16 MB, more than a line has. *)
Definition nand_time (size : Z) : Z := (Z.max 0 size / 16384 + 3) * (2 * DELAY_MAX).
Definition LINE_XFER : Z := 2 ^ 24.
Definition NAND_MAX : Z := 2 ^ 45.

Lemma request_ready m now rt len :
  channel_ready m -> 0 <= rt < 2 ^ 63 -> 0 <= len <= XFER_MAX ->
  exists t m', chmodel_request m now rt len = Ok (t, m') /\ channel_ready m' /\
    rt <= t <= rt + DELAY_MAX.
Proof.
  intros (I & Hm & Hx) Hr Hl. destruct (request_safe m now rt len I Hm) as (t & m' & E & I' & S & B).
  exists t, m'. split; [done|]. destruct S as (S1 & S2 & S3). split.
  { split; [done|]. rewrite S1, S3. done. }
  assert (Hu : 0 <= units len <= 16777217).
  { unfold units, XFER_MAX, UNIT_XFER_SIZE in *. change (2 ^ 31) with 2147483648 in Hl.
    rewrite u64_small by lia. rewrite u32_small; zlia. }
  unfold worst, DELAY_MAX in *. rewrite NR_val in B. unfold UNIT_TIME_INTERVAL in B.
  change (2 ^ 32) with 4294967296 in B. change (2 ^ 33) with 8589934592.
  change (2 ^ 64) with 18446744073709551616 in B. change (2 ^ 63) with 9223372036854775808 in Hr.
  assert (0 <= xfer_lat m * units len <= 152 * 16777217) by nia. lia.
Qed.

Section timing_facts.
Context (clock : nat -> Z).

Lemma advance_pcie_ok s rt len :
  tree_ok s -> 0 <= rt < 2 ^ 63 -> 0 <= len <= XFER_MAX ->
  exists t s', ssd_advance_pcie clock s rt len = Ok (t, s') /\ tree_ok s' /\ timing_step s s' /\
    rt <= t <= rt + DELAY_MAX.
Proof.
  intros T Hr Hl. unfold ssd_advance_pcie, __get_ioclock. cbn.
  destruct (request_ready s.(pcie) (clock s.(ticks)) rt len (ok_pcie _ T) Hr Hl)
    as (t & m & -> & R & B).
  cbn. eexists _, _. split; [done|]. split; [|split; [by split|done]].
  apply (tree_ok_channel s); [done|by split|done|apply T].
Qed.

Lemma channel_request_ok s p rt len :
  tree_ok s -> 0 <= p.(g_ch) < s.(sp).(nchs) -> 0 <= rt < 2 ^ 63 -> 0 <= len <= XFER_MAX ->
  exists t s', channel_request clock s p rt len = Ok (t, s') /\ tree_ok s' /\ timing_step s s' /\
    rt <= t <= rt + DELAY_MAX.
Proof.
  intros T Hp Hr Hl. unfold channel_request, get_ch, mod_ch, __get_ioclock.
  rewrite cell_in by done. cbn.
  destruct (request_ready (s.(ch) p.(g_ch)).(perf_model) (clock s.(ticks)) rt len
    (ok_channels _ T _ Hp) Hr Hl) as (t & m & -> & R & B).
  cbn. rewrite modify_in by done. cbn. eexists _, _. split; [done|].
  assert (S : timing_step s (set_ch (tick s) (upd (ch s) (g_ch p) (set_perf (ch s (g_ch p)) m)))).
  { split; try done; intros i; cbn; rewrite upd_case; by case_cmp; subst. }
  split; [|done]. apply (tree_ok_channel s); [done|done|apply T|].
  intros i Hi. cbn. rewrite upd_case. case_cmp; [done|by apply T].
Qed.

Lemma read_loop_ok n s c rem st last :
  tree_ok s -> 0 <= c.(cppa).(g_ch) < s.(sp).(nchs) ->
  0 <= rem <= XFER_MAX -> rem <= (Z.of_nat n - 1) * 16384 ->
  0 <= st -> st + Z.of_nat n * (2 * DELAY_MAX) < 2 ^ 63 ->
  exists last' s', read_loop clock n s c rem st last = Ok (last', s') /\
    tree_ok s' /\ timing_step s s' /\
    if rem =? 0 then last' = last
    else exists e d, last' = Some (e, d) /\ st <= e <= d /\ d <= st + Z.of_nat n * (2 * DELAY_MAX).
Proof.
  revert s rem st last. induction n as [|n IH]; intros s rem st last T Hc Hr Hn Hs Hb.
  { lia. }
  cbn [read_loop]. destruct (Z.eqb_spec rem 0) as [->|Hz].
  { eexists _, _. split; [done|]. done. }
  assert (Hx : max_ch_xfer_size (sp s) = 16384) by apply (geom_lat _ (ok_geom _ T)).
  rewrite Hx. set (x := Z.min rem 16384).
  assert (0 <= x <= XFER_MAX) by (unfold XFER_MAX in *; lia).
  assert (HD : DELAY_MAX = 8589934592) by reflexivity.
  destruct (channel_request_ok s c.(cppa) st x) as (e & s1 & -> & T1 & S1 & B1); [done|done|lia|done|].
  cbn [mbind result_mbind result_bind].
  destruct (advance_pcie_ok s1 e x) as (d & s2 & E2 & T2 & S2 & B2); [done|lia|done|].
  assert (Hstep : exists d s', (if interleave_pci_dma c then ssd_advance_pcie clock s1 e x
      else Ok (e, s1)) = Ok (d, s') /\ tree_ok s' /\ timing_step s s' /\ e <= d <= e + DELAY_MAX).
  { destruct (interleave_pci_dma c).
    - exists d, s2. split; [done|]. split; [done|]. split; [by transitivity s1|lia].
    - exists e, s1. split; [done|]. split; [done|]. split; [done|lia]. }
  destruct Hstep as (d' & s' & -> & T' & S' & B'). cbn [mbind result_mbind result_bind].
  destruct (IH s' (rem - x) e (Some (e, d'))) as (l & s3 & E3 & T3 & S3 & B3);
    [done|by rewrite (ts_sp _ _ S')|lia|lia|lia|lia|].
  rewrite E3. eexists _, _. split; [done|]. split; [done|]. split; [by transitivity s'|].
  destruct (rem - x =? 0).
  - subst l. eexists _, _. split; [done|]. lia.
  - destruct B3 as (e3 & d3 & -> & B3). eexists _, _. split; [done|]. lia.
Qed.


Lemma get_cell_ok s p : tree_ok s -> in_ssd s p -> exists c, get_cell s p = Ok c.
Proof.
  intros T (_ & _ & _ & _ & Hp). unfold get_cell. pose proof (ok_geom _ T) as G.
  rewrite (proj1 (geom_flash _ G)), (proj1 (geom_lat _ G)). zconst. cbn [orb].
  assert (C : (g_pg p / 8) mod 3 = 0 \/ (g_pg p / 8) mod 3 = 1 \/ (g_pg p / 8) mod 3 = 2) by zlia.
  destruct C as [-> | [-> | ->]]; eauto.
Qed.

(** Writing the LUN's time through [mod_lun]. *)
Lemma set_time_ok s p t :
  tree_ok s -> in_ssd s p ->
  exists s', mod_lun s p (fun l => Ok (set_avail_time l t)) = Ok s' /\ tree_ok s' /\
    s'.(sp) = s.(sp) /\ s'.(adv_locked) = s.(adv_locked) /\
    forall c j, avail_time s' c j =
      (if (c =? p.(g_ch)) && (j =? p.(g_lun)) then t else avail_time s c j) /\
      ((s'.(ch) c).(lun) j).(pl) = ((s.(ch) c).(lun) j).(pl).
Proof.
  intros T (Hc & Hl & _). unfold mod_lun, mod_ch. rewrite modify_in by done.
  destruct (ok_luns _ T _ Hc) as [N L]. rewrite modify_in by (rewrite N; done). cbn.
  eexists. split; [reflexivity|]. split; [|split; [done|split; [done|]]].
  - destruct T as [G U C P]. split; try done; intros i Hi; cbn in *; rewrite upd_case; case_cmp;
      try (by apply U); try (by apply C); cbn.
    split; [done|]. intros j Hj. rewrite upd_case. case_cmp; [|by apply L].
    destruct (L _ Hl) as [L1 L2 L3]. by split.
  - intros c j. unfold avail_time. cbn. rewrite upd_case.
    destruct (Z.eqb_spec c (g_ch p)) as [->|]; cbn; [|done]. rewrite upd_case.
    destruct (Z.eqb_spec j (g_lun p)) as [->|]; by cbn.
Qed.

(** When the command may start, and how long the array is busy with it at least. *)
Definition start_time (s : ssd) (c : nand_cmd) : Z :=
  Z.max (avail_time s c.(cppa).(g_ch) c.(cppa).(g_lun))
    (if c.(stime) =? 0 then clock s.(ticks) else c.(stime)).

Definition busy_time (s : ssd) (c : nand_cmd) : Z :=
  match c.(cmd) with
  | NAND_READ => match get_cell s c.(cppa) with
      | Ok cell => if c.(xfer_size) =? 4096 then s.(sp).(pg_4kb_rd_lat) cell
                   else s.(sp).(pg_rd_lat) cell
      | Err _ => 0 end
  | NAND_WRITE => s.(sp).(pg_wr_lat)
  | NAND_ERASE => s.(sp).(blk_er_lat)
  | NAND_NOP | NAND_OTHER _ => 0
  end.

(** A command the device supports: a read moves something. *)
Definition supported (c : nand_cmd) : Prop :=
  match c.(cmd) with
  | NAND_READ => 0 < c.(xfer_size) <= XFER_MAX
  | NAND_WRITE => 0 <= c.(xfer_size) <= XFER_MAX
  | NAND_ERASE | NAND_NOP => True
  | NAND_OTHER _ => False
  end.

Lemma in_ssd_mapped s p : tree_ok s -> in_ssd s p -> is_u8 p.(g_rsv) -> ppa_val p <> UNMAPPED_PPA.
Proof.
  intros T (Hc & Hl & Hp & Hb & Hg) Hr. pose proof (ok_geom _ T) as G.
  destruct (geom_tree _ G) as (E1 & E2 & E3). pose proof (geom_blks _ G).
  destruct (geom_blk _ G) as (E4 & _). rewrite E1, E2, E4 in *.
  unfold ppa_val, UNMAPPED_PPA, U64_MAX, is_uw in *. rewrite !Z.shiftl_mul_pow2 by lia.
  change (2 ^ 8) with 256 in Hr. cbn. lia.
Qed.

Definition nand_post (s : ssd) (c : nand_cmd) (t : Z) (s' : ssd) : Prop :=
  tree_ok s' /\ s'.(adv_locked) = false /\ s'.(sp) = s.(sp) /\
  exists busy, start_time s c + busy_time s c <= busy <= t /\ t <= start_time s c + nand_time c.(xfer_size) /\
    (c.(cmd) <> NAND_READ -> t = busy) /\
    forall i j, avail_time s' i j =
      (if (i =? c.(cppa).(g_ch)) && (j =? c.(cppa).(g_lun)) then busy else avail_time s i j) /\
      ((s'.(ch) i).(lun) j).(pl) = ((s.(ch) i).(lun) j).(pl).

(** The last statements of every branch. *)
Lemma finish_ok s s1 c busy t :
  tree_ok s1 -> in_ssd s c.(cppa) -> timing_step s (set_lock s1 s.(adv_locked)) ->
  start_time s c + busy_time s c <= busy <= t -> t <= start_time s c + nand_time c.(xfer_size) ->
  (c.(cmd) <> NAND_READ -> t = busy) ->
  exists s', (s2 ← mod_lun s1 c.(cppa) (fun l => Ok (set_avail_time l busy));
              Ok (t, set_lock s2 false)) = Ok (t, s') /\ nand_post s c t s'.
Proof.
  intros T Hp S B BM E.
  assert (Hp1 : in_ssd s1 c.(cppa)) by (unfold in_ssd; rewrite (ts_sp _ _ S : sp s1 = _); done).
  destruct (set_time_ok s1 _ busy T Hp1) as (s2 & -> & T2 & S2 & _ & A2). cbn.
  eexists. split; [done|]. split; [|split; [done|split]].
  - by destruct T2.
  - cbn. rewrite S2. apply (ts_sp _ _ S).
  - exists busy. split; [done|]. split; [done|]. split; [done|]. intros i j.
    change (avail_time (set_lock s2 false) i j) with (avail_time s2 i j).
    destruct (A2 i j) as [-> A3]. cbn. rewrite A3.
    unfold avail_time. by rewrite !(ts_lun _ _ S : forall i, lun (ch s1 i) = _).
Qed.

Lemma ssd_advance_nand_ok s c :
  tree_ok s -> s.(adv_locked) = false -> in_ssd s c.(cppa) -> is_u8 c.(cppa).(g_rsv) ->
  supported c -> 0 <= start_time s c < 2 ^ 62 ->
  exists t s', ssd_advance_nand clock s c = Ok (t, s') /\ nand_post s c t s'.
Proof.
  intros T Hk Hp Hr Hs Hst. unfold ssd_advance_nand. rewrite Hk.
  rewrite (proj2 (Z.eqb_neq _ _) (in_ssd_mapped _ _ T Hp Hr)).
  set (s0 := set_lock s true).
  assert (X : exists s1, (if stime c =? 0 then __get_ioclock clock s0 else (stime c, s0)) =
    ((if c.(stime) =? 0 then clock s.(ticks) else c.(stime)), s1) /\ tree_ok s1 /\
    timing_step s (set_lock s1 s.(adv_locked)) /\ s1.(ch) = s.(ch) /\ s1.(sp) = s.(sp)).
  { case_cmp; eexists; (split; [reflexivity|]); (split; [by destruct T|]); by split. }
  destruct X as (s1 & -> & T1 & S1 & Ech & Esp). pose proof Hp as (Hpc & Hpl & _).
  assert (HP1 : in_ssd s1 c.(cppa)) by (unfold in_ssd; rewrite Esp; done).
  unfold get_lun, get_ch. rewrite Esp, cell_in, Ech by done.
  destruct (ok_luns _ T _ Hpc) as [N L].
  cbn [mbind result_mbind result_bind]. rewrite cell_in by (rewrite N; done).
  cbn [mbind result_mbind result_bind]. fold (avail_time s c.(cppa).(g_ch) c.(cppa).(g_lun)).
  fold (start_time s c).
  destruct (get_cell_ok s1 _ T1 HP1) as (cell & Ec). rewrite Ec.
  assert (Ec' : get_cell s c.(cppa) = Ok cell).
  { revert Ec. unfold get_cell. by rewrite Esp. }
  cbn [mbind result_mbind result_bind]. pose proof (ok_geom _ T) as G.
  destruct (geom_lat _ G) as (_ & Hmx & Hw & He & Hrd). unfold supported in Hs.
  assert (HD : DELAY_MAX = 8589934592) by reflexivity.
  assert (HN : 3 * (2 * DELAY_MAX) <= nand_time c.(xfer_size)) by (unfold nand_time; zlia).
  change (2 ^ 62) with 4611686018427387904 in Hst.
  assert (Fin : forall s2 busy t, tree_ok s2 -> timing_step s1 s2 ->
    start_time s c + busy_time s c <= busy <= t -> t <= start_time s c + nand_time c.(xfer_size) ->
    (c.(cmd) <> NAND_READ -> t = busy) ->
    exists t' s', (s3 ← mod_lun s2 c.(cppa) (fun l => Ok (set_avail_time l busy));
       Ok (t, set_lock s3 false)) = Ok (t', s') /\ nand_post s c t' s').
  { intros s2 busy t T2 [A1 A2 A3 A4] B BM E. exists t. apply finish_ok; try done.
    destruct S1 as [B1 B2 B3 B4]. split; [cbn; by rewrite A1| |intros i; cbn; rewrite A3; apply B3|intros i; cbn; rewrite A4; apply B4].
    done. }
  unfold busy_time in Fin. rewrite Ec' in Fin.
  destruct (cmd c) eqn:Ecmd; [| | | |done].
  - set (lat := if xfer_size c =? 4096 then _ else _) in *.
    assert (Hlat : 0 <= lat <= 42013) by (unfold lat; destruct (Hrd cell); case_cmp; lia).
    clearbody lat. rewrite u64_small by lia.
    assert (HF : xfer_size c <= (Z.of_nat (read_fuel s1 (xfer_size c)) - 1) * 16384 /\
      (Z.of_nat (read_fuel s1 (xfer_size c)) + 1) * (2 * DELAY_MAX) <= nand_time c.(xfer_size) /\
      Z.of_nat (read_fuel s1 (xfer_size c)) <= 131074).
    { unfold nand_time. unfold read_fuel, XFER_MAX in *. rewrite Esp, Hmx. change (2 ^ 31) with 2147483648 in Hs.
      rewrite Z2Nat.id by zlia. zlia. }
    destruct (read_loop_ok (read_fuel s1 (xfer_size c)) s1 c (xfer_size c) (start_time s c + lat) None)
      as (last & s2 & -> & T2 & S2 & E2); try done; try lia.
    { by rewrite Esp. }
    rewrite (proj2 (Z.eqb_neq _ _)) in E2 by lia. destruct E2 as (e & d & -> & B).
    cbn [mbind result_mbind result_bind]. apply Fin; try done; lia.
  - destruct (channel_request_ok s1 c.(cppa) (start_time s c) (xfer_size c)) as (e & s2 & -> & T2 & S2 & B);
      [done|by rewrite Esp|change (2 ^ 63) with 9223372036854775808; lia|lia|].
    cbn [mbind result_mbind result_bind]. rewrite Hw in *. rewrite u64_small by lia.
    apply Fin; try done; lia.
  - rewrite He in *. rewrite u64_small by lia. apply Fin; try done; lia.
  - apply Fin; try done; lia.
Qed.

(** C22 (NAND timing): for every page of the device and every supported command, the command
    never faults; the LUN is busy from its start time, at least as long as its latency, the
    answer is neither before that nor later than [nand_time] after the start, no other LUN's time and no page changes, and the lock is
    released. *)
Theorem ssd_advance_nand_correct s c :
  tree_ok s -> s.(adv_locked) = false -> in_ssd s c.(cppa) -> is_u8 c.(cppa).(g_rsv) ->
  supported c -> 0 <= start_time s c < 2 ^ 62 ->
  exists t s', ssd_advance_nand clock s c = Ok (t, s') /\ nand_post s c t s'.
Proof. apply ssd_advance_nand_ok. Qed.

(** Between two commands: the lock is free and no reading of the clock and no
    LUN is later than [B].  A command moves the bound by [NAND_MAX]. *)
Record nand_ready (s : ssd) (B : Z) : Prop := {
  nr_tree : tree_ok s;
  nr_free : s.(adv_locked) = false;
  nr_times : forall i j, 0 <= i < s.(sp).(nchs) -> 0 <= j < s.(sp).(luns_per_ch) ->
    0 <= avail_time s i j <= B;
  nr_clock : forall n, 0 <= clock n <= B
}.

Lemma nand_ready_mono s B B' : nand_ready s B -> B <= B' -> nand_ready s B'.
Proof.
  intros [T F A C] H. split; [done|done| |].
  - intros i j Hi Hj. destruct (A i j Hi Hj). lia.
  - intros n. destruct (C n). lia.
Qed.

Lemma nand_ready_step s c B :
  nand_ready s B -> in_ssd s c.(cppa) -> is_u8 c.(cppa).(g_rsv) -> supported c -> c.(xfer_size) <= LINE_XFER ->
  0 <= c.(stime) <= B -> B < 2 ^ 62 ->
  exists t s', ssd_advance_nand clock s c = Ok (t, s') /\ nand_ready s' (B + NAND_MAX) /\
    0 <= t <= B + NAND_MAX /\ s'.(sp) = s.(sp) /\
    forall i j, ((s'.(ch) i).(lun) j).(pl) = ((s.(ch) i).(lun) j).(pl).
Proof.
  intros [T F A C] Hp Hr Hs Hx Hst HB. pose proof Hp as (Hc & Hl & _).
  pose proof (A _ _ Hc Hl) as Ht. pose proof (C s.(ticks)) as Hk.
  assert (S0 : 0 <= start_time s c <= B) by (unfold start_time; case_cmp; lia).
  destruct (ssd_advance_nand_ok s c T F Hp Hr Hs) as (t & s' & E & T' & F' & Es & busy & B1 & B2 & _ & B3); [lia|].
  assert (0 <= busy_time s c).
  { unfold busy_time. destruct (geom_lat _ (ok_geom _ T)) as (_ & _ & -> & -> & Hrd).
    destruct (cmd c); try lia. destruct (get_cell s (cppa c)) as [x|]; [|lia]. destruct (Hrd x). case_cmp; lia. }
  assert (nand_time c.(xfer_size) <= NAND_MAX).
  { unfold nand_time, NAND_MAX, DELAY_MAX, LINE_XFER in *. change (2 ^ 24) with 16777216 in Hx. zlia. }
  assert (0 < NAND_MAX) by reflexivity.
  exists t, s'. split; [done|]. split; [|split; [lia|]; split; [done|]; intros; apply B3].
  split; [done|done| |].
  - rewrite Es. intros i j Hi Hj. destruct (B3 i j) as [-> _]. destruct (A i j Hi Hj).
    destruct (_ && _); lia.
  - intros n. destruct (C n). lia.
Qed.

(** C30 (lock leak): the two early returns of [ssd_advance_nand], for an unmapped address and
    for an unsupported command, leave [adv_spin] held: whatever command comes next spins
    forever. *)
Theorem ssd_advance_nand_leaks_lock s c :
  tree_ok s -> s.(adv_locked) = false ->
  ppa_val c.(cppa) = UNMAPPED_PPA \/
    (in_ssd s c.(cppa) /\ exists n, c.(cmd) = NAND_OTHER n) ->
  exists t s', ssd_advance_nand clock s c = Ok (t, s') /\
    forall c', ssd_advance_nand clock s' c' = Err HANG.
Proof.
  intros T Hk H. unfold ssd_advance_nand at 1. rewrite Hk.
  assert (X : exists t s1, (if stime c =? 0 then __get_ioclock clock (set_lock s true)
      else (stime c, set_lock s true)) = (t, s1) /\ tree_ok s1 /\ adv_locked s1 = true /\ sp s1 = sp s).
  { case_cmp; eexists _, _; (split; [reflexivity|]); (split; [by destruct T|done]). }
  destruct X as (t & s1 & -> & T1 & Hl & Esp).
  assert (Hang : forall c', ssd_advance_nand clock s1 c' = Err HANG).
  { intros c'. unfold ssd_advance_nand. by rewrite Hl. }
  destruct (Z.eqb_spec (ppa_val (cppa c)) UNMAPPED_PPA) as [E|E]; [by eexists _, _|].
  destruct H as [H|[Hp [n Hn]]]; [done|].
  assert (Hp1 : in_ssd s1 c.(cppa)) by (unfold in_ssd; by rewrite Esp).
  destruct (get_cell_ok s1 _ T1 Hp1) as (cell & ->). destruct Hp1 as (Hc & Hj & _).
  unfold get_lun, get_ch. rewrite cell_in by done. cbn [mbind result_mbind result_bind].
  rewrite cell_in by (by rewrite (proj1 (ok_luns _ T1 _ Hc))).
  cbn [mbind result_mbind result_bind]. rewrite Hn. by eexists _, _.
Qed.

(** ** Idle time *)

Lemma idle_luns_spec n j c latest :
  (forall i, j <= i < j + Z.of_nat n -> 0 <= i < c.(nluns)) ->
  exists r, idle_luns n j c latest = Ok r /\ latest <= r /\
    (forall i, j <= i < j + Z.of_nat n -> (c.(lun) i).(next_lun_avail_time) <= r) /\
    (r = latest \/ exists i, j <= i < j + Z.of_nat n /\ (c.(lun) i).(next_lun_avail_time) = r).
Proof.
  revert j latest. induction n as [|n IH]; intros j latest H; cbn [idle_luns].
  { exists latest. split; [done|]. split; [lia|]. split; [lia|by left]. }
  rewrite cell_in by (apply H; lia). cbn [mbind result_mbind result_bind].
  destruct (IH (j + 1) (Z.max latest (next_lun_avail_time (lun c j)))) as (r & E & B & U & A).
  { intros i Hi. apply H. lia. }
  exists r. split; [exact E|]. split; [lia|]. split.
  - intros i Hi. destruct (Z.eq_dec i j) as [->|]; [lia|apply U; lia].
  - destruct A as [->|(i & Hi & A)].
    + destruct (Z.max_spec latest (next_lun_avail_time (lun c j))) as [[_ ->]|[_ ->]]; [|by left].
      right. exists j. split; [lia|done].
    + right. exists i. split; [lia|done].
Qed.

Lemma idle_channels_spec n k s latest :
  tree_ok s -> 0 <= k -> k + Z.of_nat n <= s.(sp).(nchs) ->
  exists r, idle_channels n k s latest = Ok r /\ latest <= r /\
    (forall i j, k <= i < k + Z.of_nat n -> 0 <= j < s.(sp).(luns_per_ch) -> avail_time s i j <= r) /\
    (r = latest \/ exists i j, k <= i < k + Z.of_nat n /\ 0 <= j < s.(sp).(luns_per_ch) /\
       avail_time s i j = r).
Proof.
  intros T. revert k latest. induction n as [|n IH]; intros k latest Hk Hn; cbn [idle_channels].
  { exists latest. split; [done|]. split; [lia|]. split; [lia|by left]. }
  rewrite cell_in by lia. cbn [mbind result_mbind result_bind].
  destruct (ok_luns _ T k) as [N _]; [lia|].
  destruct (geom_tree _ (ok_geom _ T)) as (_ & G & _).
  destruct (idle_luns_spec (Z.to_nat (luns_per_ch (sp s))) 0 (ch s k) latest) as (r1 & -> & B1 & U1 & A1).
  { rewrite N. lia. }
  cbn [mbind result_mbind result_bind].
  destruct (IH (k + 1) r1) as (r & E & B & U & A); [lia|lia|].
  exists r. split; [exact E|]. split; [lia|]. split.
  - intros i j Hi Hj. destruct (Z.eq_dec i k) as [->|]; [|apply U; lia].
    specialize (U1 j). unfold avail_time. lia.
  - destruct A as [->|(i & j & Hi & Hj & A)].
    + destruct A1 as [->|(j & Hj & A)]; [by left|]. right. exists k, j. split; [lia|].
      split; [lia|exact A].
    + right. exists i, j. split; [lia|done].
Qed.

(** Idle time: the next idle time is the latest of the present and the times of all LUNs. *)
Theorem ssd_next_idle_time_correct s :
  tree_ok s -> exists r, ssd_next_idle_time clock s = Ok r /\ clock s.(ticks) <= r /\
    (forall i j, 0 <= i < s.(sp).(nchs) -> 0 <= j < s.(sp).(luns_per_ch) -> avail_time s i j <= r) /\
    (r = clock s.(ticks) \/ exists i j, 0 <= i < s.(sp).(nchs) /\ 0 <= j < s.(sp).(luns_per_ch) /\
       avail_time s i j = r).
Proof.
  intros T. unfold ssd_next_idle_time, __get_ioclock. change (sp (tick s)) with (sp s).
  assert (T1 : tree_ok (tick s)) by (by destruct T).
  destruct (geom_tree _ (ok_geom _ T)) as (_ & _ & G).
  destruct (idle_channels_spec (Z.to_nat (nchs (sp s))) 0 (tick s) (clock (ticks s)) T1)
    as (r & -> & B & U & A); [lia|cbn; lia|].
  exists r. split; [done|]. split; [done|]. cbn in *. rewrite Z2Nat.id in * by lia. done.
Qed.

End timing_facts.

(** CSB cells: the cell mode is MLC, but the cell of a page is taken modulo three, so the
    third flash page of every block is a CSB cell, whose latencies the configuration sets to zero
    as unused: such a read keeps the array busy for no time. *)
Theorem csb_read_takes_no_time s c :
  tree_ok s -> c.(cmd) = NAND_READ -> 16 <= c.(cppa).(g_pg) < 24 ->
  get_cell s c.(cppa) = Ok CELL_TYPE_CSB /\ busy_time s c = 0.
Proof.
  intros T Ec Hp. destruct (geom_csb _ (ok_geom _ T)) as [E1 E2].
  assert (C : get_cell s c.(cppa) = Ok CELL_TYPE_CSB).
  { unfold get_cell. pose proof (ok_geom _ T) as G.
    rewrite (proj1 (geom_flash _ G)), (proj1 (geom_lat _ G)). zconst. cbn [orb].
    by replace ((g_pg (cppa c) / 8) mod 3) with 2 by zlia. }
  split; [done|]. unfold busy_time. rewrite Ec, C, E1, E2. by case_cmp.
Qed.

(** ** The write buffer as a ledger *)

Variant buffer_op := BAlloc (n : Z) | BRelease (n : Z).

(** Run operations against the buffer, counting what was handed out and not yet given back. *)
Fixpoint buffer_run (b : buffer) (out : Z) (os : list buffer_op) : buffer * Z :=
  match os with
  | [] => (b, out)
  | BAlloc n :: os => let '(r, b) := buffer_allocate b n in buffer_run b (out + r) os
  | BRelease n :: os => let '(_, b) := buffer_release b n in buffer_run b (out - n) os
  end.

(** Callers release no more than they hold. *)
Fixpoint disciplined (b : buffer) (out : Z) (os : list buffer_op) : Prop :=
  match os with
  | [] => True
  | BAlloc n :: os => 0 <= n < 2 ^ 64 /\
      disciplined (snd (buffer_allocate b n)) (out + fst (buffer_allocate b n)) os
  | BRelease n :: os => 0 <= n <= out /\ disciplined (snd (buffer_release b n)) (out - n) os
  end.

(** Write buffer: under any sequence of allocations and of releases of what is held, the
    free space and the space handed out add up to the size of the buffer, which must be below
    4 GB because allocations are reported in 32 bits. *)
Theorem buffer_ledger size os b out :
  0 <= size < 2 ^ 32 -> disciplined (buffer_init size) 0 os ->
  buffer_run (buffer_init size) 0 os = (b, out) ->
  b.(bsize) = size /\ b.(remaining) + out = size /\ 0 <= b.(remaining) <= size.
Proof.
  intros Hs. change (2 ^ 32) with 4294967296 in Hs.
  enough (H : forall b0 out0, b0.(bsize) = size -> b0.(remaining) + out0 = size ->
    0 <= b0.(remaining) <= size -> disciplined b0 out0 os -> buffer_run b0 out0 os = (b, out) ->
    b.(bsize) = size /\ b.(remaining) + out = size /\ 0 <= b.(remaining) <= size)
    by (apply H; cbn; lia).
  induction os as [|o os IH]; intros b0 out0 I1 I2 I3.
  { cbn. intros _ [= <- <-]. done. }
  destruct o as [n|n]; cbn -[u32 u64]; change (2 ^ 64) with 18446744073709551616;
    intros [Hn D] E; (eapply IH; [| | |exact D|exact E]); cbn -[u32 u64]; try done;
    repeat case_cmp; rewrite ?u32_small, ?u64_small by lia; lia.
Qed.

(** ** Initialisation *)

Definition fresh_page (spp : ssdparams) (p : nand_page) : Prop :=
  p.(status) = PG_FREE /\ p.(nsecs) = spp.(secs_per_pg) /\
  forall i, 0 <= i < p.(nsecs) -> p.(sec) i = SEC_FREE.

Definition fresh_block (spp : ssdparams) (b : nand_block) : Prop :=
  b.(npgs) = spp.(pgs_per_blk) /\ b.(ipc) = 0 /\ b.(vpc) = 0 /\ b.(igc) = 0 /\ b.(vgc) = 0 /\
  b.(erase_cnt) = 0 /\ b.(wp) = 0 /\
  forall i, 0 <= i < b.(npgs) -> fresh_page spp (b.(pg) i).

Lemma init_blk_fresh spp b : fresh_block spp (ssd_init_nand_blk spp b).
Proof.
  unfold fresh_block, fresh_page. split_and!; try done. cbn. intros i Hi. rewrite fill_in by done.
  cbn. split_and!; try done. intros j Hj. by rewrite fill_in.
Qed.

Lemma init_lun_ok spp l : lun_ok spp (ssd_init_nand_lun spp l) /\
  forall i j, 0 <= i < spp.(pls_per_lun) -> 0 <= j < spp.(blks_per_pl) ->
    fresh_block spp (((ssd_init_nand_lun spp l).(pl) i).(blk) j).
Proof.
  split.
  - split; cbn; [done| |]; intros i; [|intros j]; intros Hi; [|intros Hj]; rewrite fill_in by done;
      cbn; [done|]. by rewrite fill_in.
  - intros i j Hi Hj. cbn. rewrite fill_in by done. cbn. rewrite fill_in by done. apply init_blk_fresh.
Qed.

Lemma init_channel_ready m b :
  b = NAND_CHANNEL_BANDWIDTH \/ b = PCIE_BANDWIDTH ->
  exists m', chmodel_init m b = Ok m' /\ channel_ready m'.
Proof.
  intros Hb. assert (E : MB b <> 0) by (destruct Hb; subst b; vm_compute; congruence).
  destruct (chmodel_init_inv m b E) as (m' & Em & I & _ & Hc & _). exists m'. split; [done|].
  split; [done|]. rewrite Hc.
  revert Em. unfold chmodel_init. rewrite (proj2 (Z.eqb_neq _ _) E).
  destruct MEMSET; cbn; [|done]. intros [= <-]. cbn.
  destruct Hb; subst b; vm_compute; repeat split; congruence.
Qed.

(** What [ssd_init_ch] leaves in a channel. *)
Definition fresh_channel (spp : ssdparams) (c : ssd_channel) : Prop :=
  c.(nluns) = spp.(luns_per_ch) /\ channel_ready c.(perf_model) /\
  forall j, 0 <= j < c.(nluns) -> lun_ok spp (c.(lun) j) /\
    (c.(lun) j).(next_lun_avail_time) = 0 /\
    forall i k, 0 <= i < spp.(pls_per_lun) -> 0 <= k < spp.(blks_per_pl) ->
      fresh_block spp (((c.(lun) j).(pl) i).(blk) k).

Lemma init_ch_fresh spp c : geom spp ->
  exists c', ssd_init_ch spp c = Ok c' /\ fresh_channel spp c'.
Proof.
  intros G. destruct (geom_bw _ G) as (E1 & _ & E2). unfold ssd_init_ch. rewrite E1, E2.
  destruct (init_channel_ready c.(perf_model) NAND_CHANNEL_BANDWIDTH) as (m & E & I & Hm & Hx); [by left|].
  change 800 with NAND_CHANNEL_BANDWIDTH. rewrite E. cbn [mbind result_mbind result_bind].
  eexists. split; [done|]. split; [done|]. cbn. split.
  - change (0 * UNIT_XFER_SIZE / KB 4) with 0.
    assert (Ex : u32 (xfer_lat m + 0) = xfer_lat m) by (rewrite Z.add_0_r; apply u32_small; lia).
    unfold add_xfer_lat. rewrite Ex. destruct m. exact (conj I (conj Hm Hx)).
  - intros j Hj. rewrite fill_in by done. destruct (init_lun_ok spp (lun c j)) as [L F]. done.
Qed.

Lemma init_channels_spec spp n i a : geom spp ->
  exists a', init_channels n i spp a = Ok a' /\
    forall j, if decide (i <= j < i + Z.of_nat n) then fresh_channel spp (a' j) else a' j = a j.
Proof.
  intros G. revert i a. induction n as [|n IH]; intros i a; cbn [init_channels].
  { exists a. split; [done|]. intros j. rewrite decide_False by lia. done. }
  destruct (init_ch_fresh spp (a i) G) as (c & -> & F). cbn [mbind result_mbind result_bind].
  destruct (IH (i + 1) (upd a i c)) as (a' & E & H). exists a'. split; [done|].
  intros j. specialize (H j). destruct (decide (j = i)) as [->|Hj].
  - rewrite decide_True by lia. rewrite decide_False in H by lia. rewrite upd_eq in H. by rewrite H.
  - destruct (decide (i + 1 <= j < i + 1 + Z.of_nat n)) as [D|D].
    + rewrite decide_True by lia. done.
    + rewrite decide_False by lia. by rewrite upd_ne in H.
Qed.

(** Initialisation: on consistent parameters the initialiser never faults, and the device
    it builds satisfies the invariant: every channel is fresh, every LUN idle, every block
    erased, the write buffer empty. *)
Theorem ssd_init_correct s spp :
  geom spp -> exists s', ssd_init s spp = Ok s' /\ s'.(sp) = spp /\ tree_ok s' /\
    (forall i, 0 <= i < spp.(nchs) -> fresh_channel spp (s'.(ch) i)) /\
    s'.(write_buffer) = buffer_init spp.(write_buffer_size).
Proof.
  intros G. unfold ssd_init, ssd_init_pcie. destruct (geom_bw _ G) as (_ & -> & _).
  destruct (geom_tree _ G) as (_ & _ & Hn).
  destruct (init_channels_spec spp (Z.to_nat (nchs spp)) 0 (ch s) G) as (a & -> & F).
  destruct (init_channel_ready s.(pcie) PCIE_BANDWIDTH) as (m & E & R); [by right|].
  change 3360 with PCIE_BANDWIDTH. cbn [mbind result_mbind result_bind]. rewrite E.
  cbn [mbind result_mbind result_bind].
  assert (F' : forall i, 0 <= i < nchs spp -> fresh_channel spp (a i)).
  { intros i Hi. specialize (F i). rewrite decide_True in F by lia. done. }
  eexists. split; [done|]. split; [done|]. split; [|done]. split; cbn; [done| |by apply F'|done].
  intros i Hi. destruct (F' i Hi) as (N & _ & L). split; [done|]. intros j Hj. by apply L; rewrite N.
Qed.

(** ** Blocks and pages by address *)

(** The block an address names, and the same block of two addresses. *)
Definition blk_at (s : ssd) (p : ppa) : nand_block :=
  ((((s.(ch) p.(g_ch)).(lun) p.(g_lun)).(pl) p.(g_pl)).(blk) p.(g_blk)).

Definition same_blk (p q : ppa) : Prop :=
  q.(g_ch) = p.(g_ch) /\ q.(g_lun) = p.(g_lun) /\ q.(g_pl) = p.(g_pl) /\ q.(g_blk) = p.(g_blk).

#[export] Instance same_blk_dec p q : Decision (same_blk p q).
Proof. unfold same_blk. apply _. Defined.

Lemma get_blk_ok s p : tree_ok s -> in_ssd s p -> get_blk s p = Ok (blk_at s p).
Proof.
  intros T (Hc & Hl & Hp & Hb & _). unfold get_blk, get_pl, get_lun, get_ch.
  destruct (ok_luns _ T _ Hc) as [N L]. destruct (L _ Hl) as [L1 L2 _].
  rewrite cell_in by done. cbn [mbind result_mbind result_bind].
  rewrite cell_in by (by rewrite N). cbn [mbind result_mbind result_bind].
  rewrite cell_in by (by rewrite L1). cbn [mbind result_mbind result_bind].
  by rewrite cell_in by (by rewrite L2 by (by rewrite L1)).
Qed.

Lemma blk_npgs s p : tree_ok s -> in_ssd s p -> (blk_at s p).(npgs) = s.(sp).(pgs_per_blk).
Proof.
  intros T (Hc & Hl & Hp & Hb & _). destruct (ok_luns _ T _ Hc) as [_ L].
  destruct (L _ Hl) as [L1 _ L3]. apply L3; [by rewrite L1|done].
Qed.

Lemma get_pg_ok s p : tree_ok s -> in_ssd s p -> get_pg s p = Ok ((blk_at s p).(pg) p.(g_pg)).
Proof.
  intros T Hp. unfold get_pg. rewrite get_blk_ok by done. cbn [mbind result_mbind result_bind].
  apply cell_in. rewrite blk_npgs by done. apply Hp.
Qed.

(** Changing a block changes that block only. *)
Lemma mod_blk_ok s p f b :
  tree_ok s -> in_ssd s p -> f (blk_at s p) = Ok b -> b.(npgs) = (blk_at s p).(npgs) ->
  exists s', mod_blk s p f = Ok s' /\ tree_ok s' /\ s'.(sp) = s.(sp) /\
    forall q, blk_at s' q = if decide (same_blk p q) then b else blk_at s q.
Proof.
  intros T Hin Ef En. pose proof Hin as (Hc & Hl & Hp & Hb & _).
  destruct (ok_luns _ T _ Hc) as [N L]. destruct (L _ Hl) as [L1 L2 L3].
  assert (Hp' : 0 <= g_pl p < npls (lun (ch s (g_ch p)) (g_lun p))) by (by rewrite L1).
  unfold mod_blk, mod_lun, mod_ch. unfold blk_at in Ef.
  rewrite modify_in by done. rewrite modify_in by (by rewrite N). rewrite modify_in by done.
  rewrite modify_in by (by rewrite L2). rewrite Ef. cbn [mbind result_mbind result_bind].
  eexists. split; [reflexivity|]. split; [|split; [done|]].
  - destruct T as [G U C P]. split; try done; intros i Hi; cbn in *; rewrite upd_case; case_cmp;
      try (by apply U); try (by apply C); cbn.
    split; [done|]. intros j Hj. rewrite upd_case. case_cmp; [|by apply L].
    split; cbn; [done| |].
    + intros k Hk. rewrite upd_case. case_cmp; [|by apply L2]. cbn. by apply L2.
    + intros k m Hk Hm. rewrite upd_case. case_cmp; [|by apply L3]. cbn. rewrite upd_case.
      case_cmp; [|by apply L3]. rewrite En. by apply blk_npgs.
  - intros q. unfold blk_at. cbn. rewrite upd_case.
    destruct (Z.eqb_spec (g_ch q) (g_ch p)) as [E1|E1].
    2:{ rewrite decide_False; [done|]. by intros (X & _). }
    cbn. rewrite upd_case, <- E1. destruct (Z.eqb_spec (g_lun q) (g_lun p)) as [E2|E2].
    2:{ rewrite decide_False; [done|]. by intros (_ & X & _). }
    cbn. rewrite upd_case, <- E2. destruct (Z.eqb_spec (g_pl q) (g_pl p)) as [E3|E3].
    2:{ rewrite decide_False; [done|]. by intros (_ & _ & X & _). }
    cbn. rewrite upd_case, <- E3. destruct (Z.eqb_spec (g_blk q) (g_blk p)) as [E4|E4].
    2:{ rewrite decide_False; [done|]. by intros (_ & _ & _ & X). }
    by rewrite decide_True.
Qed.

(** ** Witnesses *)

Definition ex_spp : ssdparams :=
  match ssd_init_params (Z.shiftl 1 30) 1 with
  | Ok p => p
  | Err _ => mk_params 0 0 0 0 0 0 0 0 0 0 0 0 0 0 false (fun _ => 0) (fun _ => 0) 0 0 0 0 0 0 0 0 0 0
     0 0 0 0 0 0 0 0 0 0 0 0 0 0 0 0 0 0 0 0 0
  end.

Definition ex_page : nand_page := mk_page (fun _ => SEC_FREE) 8 PG_FREE.
Definition ex_block : nand_block := mk_block (fun _ => ex_page) 32 0 0 0 0 0 0.
Definition ex_lun : nand_lun := mk_lun (fun _ => mk_plane (fun _ => ex_block) ex_spp.(blks_per_pl)) 1 7000 false.
Definition ex_ssd : ssd :=
  mk_ssd ex_spp (fun _ => mk_channel (fun _ => ex_lun) 8 (mk_ch 0 0 0 26 0 152 (fun _ => 26)))
    ex_ch (buffer_init 4194304) false 0.

Lemma ex_geom : geom ex_spp.
Proof. split; split_and?; try (intros [| |]; split_and!); vm_compute; congruence. Qed.

Lemma ex_ssd_ok : tree_ok ex_ssd.
Proof.
  assert (E26 : u8 26 = 26) by reflexivity.
  split; [apply ex_geom| | |].
  - intros i Hi. split; [done|]. intros j Hj. by split.
  - intros i Hi. split; [|cbn; lia]. split; cbn -[u8]; rewrite ?NR_val, ?E26; try lia;
      intros; unfold slot; cbn; lia.
  - split; [apply ex_ch_inv|cbn; lia].
Qed.

Definition ex_cmd (o : nand_op) (pgi : Z) : nand_cmd :=
  mk_cmd o 4096 5000 true (mk_ppa pgi 3 0 2 1 0).
Definition ex_clock (n : nat) : Z := 4000 + Z.of_nat n.

Lemma ex_in_ssd pgi : 0 <= pgi < 32 -> in_ssd ex_ssd (mk_ppa pgi 3 0 2 1 0).
Proof. intros H. unfold in_ssd. cbn [g_ch g_lun g_pl g_blk g_pg]. vm_compute in H |- *. repeat split; try apply H; congruence. Qed.

Lemma ppa_round_trip_witness :
  ppa_of (ppa_val (mk_ppa 17 9 0 3 5 0)) = mk_ppa 17 9 0 3 5 0.
Proof.
  apply (proj1 (ppa_round_trip (mk_ppa 17 9 0 3 5 0) 0)). repeat split; vm_compute; congruence.
Defined.

Lemma ssd_init_params_correct_witness :
  exists spp, ssd_init_params 1073741824 2 = Ok spp /\ geom spp /\
    1073741824 / 2 <= spp.(tt_pgs) * spp.(pgsz) < 1073741824 / 2 + line_bytes spp.
Proof.
  apply (ssd_init_params_correct 1073741824 2); [lia|reflexivity|vm_compute; split; congruence].
Defined.

Lemma ssd_init_correct_witness :
  exists s', ssd_init ex_ssd ex_spp = Ok s' /\ s'.(sp) = ex_spp /\ tree_ok s' /\
    (forall i, 0 <= i < ex_spp.(nchs) -> fresh_channel ex_spp (s'.(ch) i)) /\
    s'.(write_buffer) = buffer_init ex_spp.(write_buffer_size).
Proof. apply (ssd_init_correct ex_ssd ex_spp), ex_geom. Defined.

Lemma ssd_advance_nand_correct_witness :
  exists t s', ssd_advance_nand ex_clock ex_ssd (ex_cmd NAND_READ 4) = Ok (t, s') /\
    nand_post ex_clock ex_ssd (ex_cmd NAND_READ 4) t s'.
Proof.
  apply (ssd_advance_nand_correct ex_clock ex_ssd (ex_cmd NAND_READ 4));
    [apply ex_ssd_ok|done|apply ex_in_ssd; lia|split; cbn; lia|vm_compute; split; congruence|].
  vm_compute. split; congruence.
Defined.

Lemma ssd_advance_nand_leaks_lock_witness :
  exists t s', ssd_advance_nand ex_clock ex_ssd (ex_cmd (NAND_OTHER 7) 4) = Ok (t, s') /\
    forall c', ssd_advance_nand ex_clock s' c' = Err HANG.
Proof.
  apply (ssd_advance_nand_leaks_lock ex_clock ex_ssd (ex_cmd (NAND_OTHER 7) 4));
    [apply ex_ssd_ok|done|]. right. split; [apply ex_in_ssd; lia|by exists 7].
Defined.

Lemma ssd_next_idle_time_correct_witness :
  exists r, ssd_next_idle_time ex_clock ex_ssd = Ok r /\ 4000 <= r /\
    (forall i j, 0 <= i < ex_ssd.(sp).(nchs) -> 0 <= j < ex_ssd.(sp).(luns_per_ch) ->
       avail_time ex_ssd i j <= r) /\
    (r = 4000 \/ exists i j, 0 <= i < ex_ssd.(sp).(nchs) /\ 0 <= j < ex_ssd.(sp).(luns_per_ch) /\
       avail_time ex_ssd i j = r).
Proof. apply (ssd_next_idle_time_correct ex_clock ex_ssd), ex_ssd_ok. Defined.

Lemma csb_read_takes_no_time_witness :
  get_cell ex_ssd (ex_cmd NAND_READ 17).(cppa) = Ok CELL_TYPE_CSB /\
  busy_time ex_ssd (ex_cmd NAND_READ 17) = 0.
Proof. apply (csb_read_takes_no_time ex_ssd (ex_cmd NAND_READ 17)); [apply ex_ssd_ok|done|cbn; lia]. Defined.

Lemma buffer_ledger_witness :
  (mk_buffer 4096 2048).(bsize) = 4096 /\ (mk_buffer 4096 2048).(remaining) + 2048 = 4096 /\
  0 <= (mk_buffer 4096 2048).(remaining) <= 4096.
Proof.
  apply (buffer_ledger 4096 [BAlloc 1024; BAlloc 8192; BAlloc 2048; BRelease 1024]);
    [lia|vm_compute; repeat split; congruence|reflexivity].
Defined.
