(* ===== verification/Geometry.v ===== *)
(** * Page addresses and their order ([demand_ftl.c])

    The two encodings of a page - the channel/LUN/block/page tuple and the
    page index - and the order in which the write pointer visits the pages of a
    superblock line: within a wordline, then over the channels, then over the
    LUNs, then to the next wordline. *)

From S2P Require Import Prelude ChModel Ssd.

(** ** Configuration ([ssd_config.h], the [ORIGINAL] build) *)

Definition PIECE : Z := 512.
Definition GRAINED_UNIT : Z := PIECE.
Definition GRAIN_PER_PAGE : Z := PAGESIZE / GRAINED_UNIT.

(** ** Field assignments, with the widths of the bit fields *)

Definition with_pg (p : ppa) (v : Z) : ppa := mk_ppa (u16 v) p.(g_blk) p.(g_pl) p.(g_lun) p.(g_ch) p.(g_rsv).
Definition with_blk (p : ppa) (v : Z) : ppa := mk_ppa p.(g_pg) (u16 v) p.(g_pl) p.(g_lun) p.(g_ch) p.(g_rsv).
Definition with_lun (p : ppa) (v : Z) : ppa := mk_ppa p.(g_pg) p.(g_blk) p.(g_pl) (u8 v) p.(g_ch) p.(g_rsv).
Definition with_ch (p : ppa) (v : Z) : ppa := mk_ppa p.(g_pg) p.(g_blk) p.(g_pl) p.(g_lun) (u8 v) p.(g_rsv).

Definition check_addr (a max : Z) : result unit := assert_ ((a >=? 0) && (a <? max)).

Lemma check_addr_ok a n : 0 <= a < n -> check_addr a n = Ok tt.
Proof. intros H. unfold check_addr. by rewrite (proj2 (Z.geb_le a 0)), (proj2 (Z.ltb_lt a n)) by lia. Qed.

Section geometry.
Context (spp : ssdparams).

Definition last_pg_in_wordline (p : ppa) : bool :=
  p.(g_pg) mod spp.(pgs_per_oneshotpg) =? spp.(pgs_per_oneshotpg) - 1.
Definition last_pg_in_ch (p : ppa) : bool := p.(g_ch) =? spp.(nchs) - 1.
Definition last_pg_in_lun (p : ppa) : bool := p.(g_lun) =? spp.(luns_per_ch) - 1.
Definition last_pg_in_blk (p : ppa) : bool := p.(g_pg) =? spp.(pgs_per_blk) - 1.
Definition last_pg_in_line (p : ppa) : bool :=
  last_pg_in_wordline p && last_pg_in_ch p && last_pg_in_lun p && last_pg_in_blk p.

Definition valid_ppa (p : ppa) : bool :=
  if (p.(g_ch) <? 0) || (p.(g_ch) >=? spp.(nchs)) then false else
  if (p.(g_lun) <? 0) || (p.(g_lun) >=? spp.(luns_per_ch)) then false else
  if (p.(g_pl) <? 0) || (p.(g_pl) >=? spp.(pls_per_lun)) then false else
  if (p.(g_blk) <? 0) || (p.(g_blk) >=? spp.(blks_per_pl)) then false else
  if (p.(g_pg) <? 0) || (p.(g_pg) >=? spp.(pgs_per_blk)) then false else true.

(** [ppa_t] is 32 bits wide. *)
Definition ppa2pgidx (p : ppa) : result Z :=
  let pgidx := u32 (p.(g_ch) * spp.(pgs_per_ch) + p.(g_lun) * spp.(pgs_per_lun) +
    p.(g_pl) * spp.(pgs_per_pl) + p.(g_blk) * spp.(pgs_per_blk) + p.(g_pg)) in
  _ ← assert_ (pgidx <? spp.(tt_pgs));
  Ok pgidx.

Definition ppa_to_struct (i : Z) : result ppa :=
  if (spp.(pgs_per_ch) =? 0) || (spp.(pgs_per_lun) =? 0) || (spp.(pgs_per_blk) =? 0)
  then Err DIVZERO else
  let p := {|
    g_ch := u8 ((i / spp.(pgs_per_ch)) mod spp.(pgs_per_ch));
    g_lun := u8 ((i mod spp.(pgs_per_ch)) / spp.(pgs_per_lun));
    g_pl := 0;
    g_blk := u16 ((i mod spp.(pgs_per_lun)) / spp.(pgs_per_blk));
    g_pg := u16 (i mod spp.(pgs_per_blk)); g_rsv := 0 |} in
  _ ← assert_ (i <? spp.(tt_pgs));
  Ok p.

(** The body [peek_next_page] and [__skip_ppas] share, up to the end of a
    block: the flag tells that the address ran off it. *)
Definition bump (p : ppa) : result (ppa * bool) :=
  let p := with_pg p (p.(g_pg) + 1) in
  if negb (p.(g_pg) mod spp.(pgs_per_oneshotpg) =? 0) then Ok (p, false) else
  let p := with_pg p (p.(g_pg) - spp.(pgs_per_oneshotpg)) in
  _ ← check_addr p.(g_ch) spp.(nchs);
  let p := with_ch p (p.(g_ch) + 1) in
  if negb (p.(g_ch) =? spp.(nchs)) then Ok (p, false) else
  let p := with_ch p 0 in
  _ ← check_addr p.(g_lun) spp.(luns_per_ch);
  let p := with_lun p (p.(g_lun) + 1) in
  if negb (p.(g_lun) =? spp.(luns_per_ch)) then Ok (p, false) else
  let p := with_lun p 0 in
  let p := with_pg p (p.(g_pg) + spp.(pgs_per_oneshotpg)) in
  if negb (p.(g_pg) =? spp.(pgs_per_blk)) then Ok (p, false) else Ok (p, true).

Definition peek_next_page (p : ppa) : result ppa :=
  '(p, over) ← bump p;
  if (over : bool) then Ok (with_blk (with_pg p 0) (p.(g_blk) + 1)) else Ok p.

(** The loop of [__skip_ppas]: at the end of a block it goes to the next one
    without resetting the page. *)
Fixpoint skip_loop (n : nat) (p : ppa) : result ppa :=
  match n with
  | O => Ok p
  | S n =>
      '(p, over) ← bump p;
      skip_loop n (if (over : bool) then with_blk p (p.(g_blk) + 1) else p)
  end.

Definition __skip_ppas (p : ppa) (read_offset : Z) : result ppa :=
  skip_loop (Z.to_nat (u32 (read_offset / spp.(pgsz)))) p.

(** [blk_in_ssd] of the union: block, plane, LUN and channel. *)
Definition blk_in_ssd (p : ppa) : Z := Z.shiftr (ppa_val p) 16 mod 2 ^ 40.

Definition is_same_flash_page (p q : ppa) : bool :=
  (blk_in_ssd p =? blk_in_ssd q) &&
  (p.(g_pg) / spp.(pgs_per_flashpg) =? q.(g_pg) / spp.(pgs_per_flashpg)).

(** The loop of [enough_space_in_line]: what it answers and the bytes it had
    room for. *)
Fixpoint space_loop (fuel : nat) (p : ppa) (grain rem had lun : Z) : result (bool * ppa * Z) :=
  match fuel with
  | O => Err HANG
  | S fuel =>
      if rem =? 0 then Ok (true, p, had) else
      let len := Z.min rem (u32 (GRAIN_PER_PAGE - grain mod GRAIN_PER_PAGE)) in
      p ← peek_next_page p;
      if negb (p.(g_lun) =? lun) then Ok (false, p, had) else
      space_loop fuel p 0 (rem - len) (u32 (had + len * GRAINED_UNIT)) lun
  end.

(** Each iteration consumes at least one grain. *)
Definition enough_space_in_line (p : ppa) (grain len : Z) : result (bool * Z) :=
  let line := p.(g_blk) in
  '(fits, p, had) ← space_loop (S (Z.to_nat len)) p grain len 0 p.(g_lun);
  if (fits : bool) then Ok (p.(g_blk) =? line, had) else Ok (false, had).

(** ** The pages of the device *)

(** Page [n] of line [b], in writing order. *)
Definition page_at (b n : Z) : ppa :=
  let r := n mod spp.(pgs_per_oneshotpg) in
  let n := n / spp.(pgs_per_oneshotpg) in
  let c := n mod spp.(nchs) in
  let n := n / spp.(nchs) in
  let l := n mod spp.(luns_per_ch) in
  let w := n / spp.(luns_per_ch) in
  mk_ppa (w * spp.(pgs_per_oneshotpg) + r) b 0 l c 0.

(** The place of a page in the writing order of its line. *)
Definition place (p : ppa) : Z :=
  ((p.(g_pg) / spp.(pgs_per_oneshotpg) * spp.(luns_per_ch) + p.(g_lun)) * spp.(nchs) + p.(g_ch))
  * spp.(pgs_per_oneshotpg) + p.(g_pg) mod spp.(pgs_per_oneshotpg).

(** A page of the device in the tuple encoding. *)
Definition page_ok (p : ppa) : Prop := valid_ppa p = true /\ p.(g_rsv) = 0.

Hypothesis G : geom spp.

(** The geometry with its constants. *)
Lemma geom_consts :
  spp.(pgs_per_oneshotpg) = 8 /\ spp.(pgs_per_flashpg) = 8 /\ spp.(pgs_per_blk) = 32 /\
  spp.(pls_per_lun) = 1 /\ spp.(luns_per_ch) = 8 /\ 1 <= spp.(nchs) <= 8 /\
  1 <= spp.(blks_per_pl) <= 65536 /\ spp.(pgs_per_lun) = 32 * spp.(blks_per_pl) /\
  spp.(pgs_per_ch) = 256 * spp.(blks_per_pl) /\
  spp.(tt_pgs) = 256 * spp.(blks_per_pl) * spp.(nchs) /\
  spp.(pgs_per_line) = 256 * spp.(nchs) /\ spp.(pgsz) = 4096.
Proof.
  destruct G as [? ? ? ? ? ? ? ? ? ? ?].
  repeat match goal with H : _ /\ _ |- _ => destruct H end. nia.
Qed.

Lemma range_test a n : (a <? 0) || (a >=? n) = negb (bool_decide (0 <= a < n)).
Proof. rewrite Z.geb_leb. case_bool_decide; repeat case_cmp; cbn; try done; lia. Qed.

Lemma valid_ppa_iff p : valid_ppa p = true <->
  0 <= p.(g_ch) < spp.(nchs) /\ 0 <= p.(g_lun) < 8 /\ p.(g_pl) = 0 /\
  0 <= p.(g_blk) < spp.(blks_per_pl) /\ 0 <= p.(g_pg) < 32.
Proof.
  destruct geom_consts as (E1 & _ & E2 & E3 & E4 & _). unfold valid_ppa.
  rewrite E2, E3, E4, !range_test. repeat case_bool_decide; cbn; (split; [|lia]); try done; lia.
Qed.

Lemma page_ok_fits p : page_ok p -> ppa_fits p.
Proof.
  destruct geom_consts as (_ & _ & _ & _ & _ & Hn & Hb & _). intros [V R].
  apply valid_ppa_iff in V as (V1 & V2 & V3 & V4 & V5). unfold ppa_fits, is_uw.
  rewrite R, V3. change (2 ^ 8) with 256. change (2 ^ 16) with 65536. lia.
Qed.

(** ** The two encodings *)

Definition pgidx (p : ppa) : Z :=
  p.(g_ch) * (256 * spp.(blks_per_pl)) + p.(g_lun) * (32 * spp.(blks_per_pl)) + p.(g_blk) * 32
  + p.(g_pg).

Lemma pgidx_range p : page_ok p -> 0 <= pgidx p < spp.(tt_pgs).
Proof.
  destruct geom_consts as (_ & _ & _ & _ & _ & Hn & Hb & _ & _ & Ht & _). intros [V _].
  apply valid_ppa_iff in V as (V1 & V2 & V3 & V4 & V5). unfold pgidx. rewrite Ht. nia.
Qed.

Lemma ppa2pgidx_ok p : page_ok p -> ppa2pgidx p = Ok (pgidx p).
Proof.
  intros P. pose proof (pgidx_range p P) as R.
  destruct geom_consts as (_ & _ & E2 & _ & _ & Hn & Hb & E3 & E4 & Ht & _).
  destruct P as [V _]. apply valid_ppa_iff in V as (_ & _ & V3 & _). unfold ppa2pgidx.
  rewrite V3, E2, E3, E4, Z.mul_0_l, Z.add_0_r.
  replace (u32 _) with (pgidx p).
  - by rewrite (proj2 (Z.ltb_lt _ _)) by lia.
  - rewrite u32_small; unfold pgidx in *; nia.
Qed.

Lemma ppa_to_struct_pgidx p : page_ok p -> ppa_to_struct (pgidx p) = Ok p.
Proof.
  intros P. pose proof (pgidx_range p P) as R. destruct P as [V Rs].
  destruct geom_consts as (_ & _ & E2 & _ & _ & Hn & Hb & E3 & E4 & Ht & _).
  apply valid_ppa_iff in V as (V1 & V2 & V3 & V4 & V5). unfold ppa_to_struct.
  rewrite !(proj2 (Z.eqb_neq _ 0)) by lia. cbn [orb].
  rewrite (proj2 (Z.ltb_lt _ _)) by lia. cbn [assert_ mbind result_mbind result_bind].
  rewrite E2, E3, E4. f_equal. set (B := blks_per_pl spp) in *.
  assert (Q1 : pgidx p / (256 * B) = g_ch p).
  { symmetry. apply Z.div_unique with (g_lun p * (32 * B) + g_blk p * 32 + g_pg p);
      unfold pgidx; fold B; nia. }
  assert (Q2 : pgidx p mod (256 * B) = g_lun p * (32 * B) + (g_blk p * 32 + g_pg p)).
  { symmetry. apply Z.mod_unique with (g_ch p); unfold pgidx; fold B; nia. }
  assert (Q3 : pgidx p mod (32 * B) = g_blk p * 32 + g_pg p).
  { symmetry. apply Z.mod_unique with (g_ch p * 8 + g_lun p); unfold pgidx; fold B; nia. }
  assert (Q4 : pgidx p mod 32 = g_pg p).
  { symmetry. apply Z.mod_unique with (g_ch p * (8 * B) + g_lun p * B + g_blk p);
      unfold pgidx; fold B; nia. }
  assert (Q5 : (g_lun p * (32 * B) + (g_blk p * 32 + g_pg p)) / (32 * B) = g_lun p).
  { symmetry. apply Z.div_unique with (g_blk p * 32 + g_pg p); nia. }
  assert (Q6 : (g_blk p * 32 + g_pg p) / 32 = g_blk p)
    by (symmetry; apply Z.div_unique with (g_pg p); lia).
  rewrite Q1, Q2, Q3, Q4, Q5, Q6, (Z.mod_small (g_ch p)), !u8_small, !u16_small by lia.
  destruct p; cbn in *; by subst.
Qed.

Lemma ppa_to_struct_ok i : 0 <= i < spp.(tt_pgs) ->
  exists p, ppa_to_struct i = Ok p /\ page_ok p /\ pgidx p = i.
Proof.
  destruct geom_consts as (_ & _ & E2 & _ & _ & Hn & Hb & E3 & E4 & Ht & _). rewrite Ht.
  set (B := blks_per_pl spp) in *. intros Hi.
  set (p := mk_ppa (i mod 32) (i / 32 mod B) 0 (i / (32 * B) mod 8) (i / (256 * B)) 0).
  assert (Hc : 0 <= i / (256 * B) < nchs spp).
  { split; [apply Z.div_pos; lia|apply Z.div_lt_upper_bound; lia]. }
  assert (P : page_ok p).
  { split; [|done]. apply valid_ppa_iff. cbn. fold B.
    pose proof (Z.mod_pos_bound i 32 ltac:(lia)).
    pose proof (Z.mod_pos_bound (i / 32) B ltac:(lia)).
    pose proof (Z.mod_pos_bound (i / (32 * B)) 8 ltac:(lia)). lia. }
  assert (E : pgidx p = i).
  { unfold pgidx, p. cbn. fold B.
    replace (256 * B) with (32 * B * 8) by lia. rewrite <- !Z.div_div by lia.
    pose proof (Z.div_mod i 32 ltac:(lia)). pose proof (Z.div_mod (i / 32) B ltac:(lia)).
    pose proof (Z.div_mod (i / 32 / B) 8 ltac:(lia)). nia. }
  exists p. split; [|done]. rewrite <- E. by apply ppa_to_struct_pgidx.
Qed.

(** C40 (page index): the tuple of a page and its index determine each other, in both
    directions, over the whole device. *)
Theorem pgidx_round_trip :
  (forall p, page_ok p -> exists i, ppa2pgidx p = Ok i /\ 0 <= i < spp.(tt_pgs) /\
     ppa_to_struct i = Ok p) /\
  (forall i, 0 <= i < spp.(tt_pgs) -> exists p, ppa_to_struct i = Ok p /\ page_ok p /\
     ppa2pgidx p = Ok i).
Proof.
  split.
  - intros p P. exists (pgidx p). split; [by apply ppa2pgidx_ok|].
    split; [by apply pgidx_range|by apply ppa_to_struct_pgidx].
  - intros i Hi. destruct (ppa_to_struct_ok i Hi) as (p & E & P & <-). exists p.
    split; [done|]. split; [done|by apply ppa2pgidx_ok].
Qed.

(** ** The writing order *)

Lemma page_at_ok b n :
  0 <= b < spp.(blks_per_pl) -> 0 <= n < spp.(pgs_per_line) -> page_ok (page_at b n).
Proof.
  destruct geom_consts as (E1 & _ & E2 & E3 & E4 & Hn & Hb & _ & _ & _ & El & _).
  intros Hb' Hi. split; [|done]. apply valid_ppa_iff. unfold page_at. cbn. rewrite E1, E4.
  rewrite El in Hi. set (c := nchs spp) in *.
  pose proof (Z.mod_pos_bound (n / 8) c ltac:(lia)).
  pose proof (Z.mod_pos_bound n 8 ltac:(lia)).
  pose proof (Z.mod_pos_bound (n / 8 / c) 8 ltac:(lia)).
  assert (0 <= n / 8 / c / 8 < 4).
  { rewrite !Z.div_div by lia. split; [apply Z.div_pos; lia|]. apply Z.div_lt_upper_bound; lia. }
  lia.
Qed.

Lemma page_at_place p : page_ok p -> page_at p.(g_blk) (place p) = p.
Proof.
  destruct geom_consts as (E1 & _ & E2 & E3 & E4 & Hn & Hb & _). intros [V R].
  apply valid_ppa_iff in V as (V1 & V2 & V3 & V4 & V5). unfold page_at, place. rewrite E1, E4.
  set (c := nchs spp) in *.
  pose proof (Z.div_mod (g_pg p) 8 ltac:(lia)). pose proof (Z.mod_pos_bound (g_pg p) 8 ltac:(lia)).
  set (w := g_pg p / 8) in *. set (r := g_pg p mod 8) in *.
  assert (Q1 : (((w * 8 + g_lun p) * c + g_ch p) * 8 + r) mod 8 = r) by zlia.
  assert (Q2 : (((w * 8 + g_lun p) * c + g_ch p) * 8 + r) / 8 = (w * 8 + g_lun p) * c + g_ch p) by zlia.
  assert (Q3 : ((w * 8 + g_lun p) * c + g_ch p) mod c = g_ch p)
    by (symmetry; apply Z.mod_unique with (w * 8 + g_lun p); lia).
  assert (Q4 : ((w * 8 + g_lun p) * c + g_ch p) / c = w * 8 + g_lun p)
    by (symmetry; apply Z.div_unique with (g_ch p); lia).
  assert (Q5 : (w * 8 + g_lun p) mod 8 = g_lun p) by zlia.
  assert (Q6 : (w * 8 + g_lun p) / 8 = w) by zlia.
  rewrite Q1, Q2, Q3, Q4, Q5, Q6. clear Q1 Q2 Q3 Q4 Q5 Q6. destruct p; cbn in *. f_equal; lia.
Qed.

Lemma place_page_at b n :
  0 <= n < spp.(pgs_per_line) -> place (page_at b n) = n.
Proof.
  destruct geom_consts as (E1 & _ & E2 & E3 & E4 & Hn & Hb & _ & _ & _ & El & _).
  intros Hi. unfold place, page_at. cbn. rewrite E1, E4. set (c := nchs spp) in *.
  pose proof (Z.div_mod n 8 ltac:(lia)). pose proof (Z.mod_pos_bound n 8 ltac:(lia)).
  pose proof (Z.div_mod (n / 8) c ltac:(lia)).
  pose proof (Z.div_mod (n / 8 / c) 8 ltac:(lia)).
  set (w := n / 8 / c / 8) in *. set (r := n mod 8) in *.
  assert (Q1 : (w * 8 + r) / 8 = w) by zlia. assert (Q2 : (w * 8 + r) mod 8 = r) by zlia.
  rewrite Q1, Q2. lia.
Qed.

Lemma place_range p : page_ok p -> 0 <= place p < spp.(pgs_per_line).
Proof.
  destruct geom_consts as (E1 & _ & E2 & E3 & E4 & Hn & Hb & _ & _ & _ & El & _).
  intros [V _]. apply valid_ppa_iff in V as (V1 & V2 & _ & _ & V5). unfold place.
  rewrite E1, E4, El. set (c := nchs spp) in *.
  pose proof (Z.mod_pos_bound (g_pg p) 8 ltac:(lia)). assert (0 <= g_pg p / 8 < 4) by zlia. nia.
Qed.

(** Compute the fields of known addresses, keeping the chain of assignments. *)
#[local] Ltac fields :=
  cbv beta iota delta [negb andb assert_ mbind result_mbind result_bind g_pg g_blk g_pl g_lun
    g_ch g_rsv].

(** One step of the shared body, on the digits wordline, LUN, channel and page
    in the wordline. *)
Lemma bump_digits b w l k r :
  0 <= w < 4 -> 0 <= l < 8 -> 0 <= k < spp.(nchs) -> 0 <= r < 8 ->
  bump (mk_ppa (w * 8 + r) b 0 l k 0) =
  Ok (if r <? 7 then (mk_ppa (w * 8 + (r + 1)) b 0 l k 0, false) else
      if k <? spp.(nchs) - 1 then (mk_ppa (w * 8) b 0 l (k + 1) 0, false) else
      if l <? 7 then (mk_ppa (w * 8) b 0 (l + 1) 0 0, false) else
      (mk_ppa ((w + 1) * 8) b 0 0 0 0, w =? 3)).
Proof.
  destruct geom_consts as (E1 & _ & E2 & E3 & E4 & Hn & _). intros Hw Hl Hk Hr.
  assert (P1 : (w * 8 + r + 1) mod 8 = if r <? 7 then r + 1 else 0) by (case_cmp; zlia).
  cbv beta delta [bump check_addr]. let_step p1 Q1.
  assert (p1 = mk_ppa (w * 8 + r + 1) b 0 l k 0) as -> by
    (rewrite Q1; unfold with_pg; cbn; by rewrite u16_small by lia).
  fields. rewrite E1, P1.
  destruct (Z.ltb_spec r 7) as [C|C].
  { rewrite (proj2 (Z.eqb_neq (r + 1) 0)) by lia. fields. do 3 f_equal. lia. }
  rewrite Z.eqb_refl. fields. let_step p2 Q2.
  assert (p2 = mk_ppa (w * 8) b 0 l k 0) as -> by
    (rewrite Q2; unfold with_pg; cbn; rewrite u16_small by lia; f_equal; lia).
  fields.
  rewrite (proj2 (Z.geb_le k 0)), (proj2 (Z.ltb_lt k _)) by lia.
  fields. let_step p3 Q3.
  assert (p3 = mk_ppa (w * 8) b 0 l (k + 1) 0) as -> by
    (rewrite Q3; unfold with_ch; cbn; by rewrite u8_small by lia).
  fields.
  destruct (Z.ltb_spec k (nchs spp - 1)) as [D|D].
  { by rewrite (proj2 (Z.eqb_neq (k + 1) _)) by lia. }
  rewrite (proj2 (Z.eqb_eq (k + 1) _)) by lia. fields. let_step p4 Q4.
  change (p4 = mk_ppa (w * 8) b 0 l 0 0) in Q4. subst p4. fields.
  rewrite E4, (proj2 (Z.geb_le l 0)), (proj2 (Z.ltb_lt l 8)) by lia.
  fields. let_step p5 Q5.
  assert (p5 = mk_ppa (w * 8) b 0 (l + 1) 0 0) as -> by
    (rewrite Q5; unfold with_lun; cbn; by rewrite u8_small by lia).
  fields.
  destruct (Z.ltb_spec l 7) as [F|F].
  { by rewrite (proj2 (Z.eqb_neq (l + 1) _)) by lia. }
  rewrite (proj2 (Z.eqb_eq (l + 1) _)) by lia. fields. let_step p6 Q6. let_step p7 Q7.
  assert (p7 = mk_ppa ((w + 1) * 8) b 0 0 0 0) as -> by
    (rewrite Q7, Q6; unfold with_pg, with_lun; cbn; rewrite u16_small by lia; f_equal; lia).
  fields. rewrite E2. destruct (Z.eqb_spec w 3) as [->|W]; [done|].
  by rewrite (proj2 (Z.eqb_neq ((w + 1) * 8) 32)) by lia.
Qed.

Lemma bump_page_at b n :
  0 <= b < spp.(blks_per_pl) -> 0 <= n < spp.(pgs_per_line) ->
  bump (page_at b n) =
  Ok (if n =? spp.(pgs_per_line) - 1 then (mk_ppa 32 b 0 0 0 0, true)
      else (page_at b (n + 1), false)).
Proof.
  destruct geom_consts as (E1 & _ & _ & _ & E4 & Hn & _ & _ & _ & _ & El & _).
  intros Hb' Hi. rewrite El in *. unfold page_at. rewrite E1, E4. remember (nchs spp) as c eqn:Ec.
  assert (Hc : 0 < c) by lia.
  rewrite succ_div, succ_mod by lia. change (8 - 1) with 7.
  pose proof (Z.div_mod n 8 ltac:(lia)) as A1. pose proof (Z.div_mod (n / 8) c ltac:(lia)) as A2.
  pose proof (Z.div_mod (n / 8 / c) 8 ltac:(lia)) as A3.
  pose proof (Z.mod_pos_bound n 8 ltac:(lia)) as R1. pose proof (Z.mod_pos_bound (n / 8) c Hc) as R2.
  pose proof (Z.mod_pos_bound (n / 8 / c) 8 ltac:(lia)) as R3.
  assert (R4 : 0 <= n / 8 / c / 8 < 4).
  { rewrite !Z.div_div by lia. split; [apply Z.div_pos; lia|]. apply Z.div_lt_upper_bound; lia. }
  rewrite bump_digits by (subst c; lia). rewrite <- Ec. f_equal.
  destruct (Z.eqb_spec (n mod 8) 7) as [C|C].
  2:{ rewrite (proj2 (Z.ltb_lt _ 7)), (proj2 (Z.eqb_neq n _)) by nia. done. }
  rewrite (proj2 (Z.ltb_ge _ 7)), Z.add_0_r by lia. rewrite succ_div, succ_mod by lia.
  destruct (Z.eqb_spec (n / 8 mod c) (c - 1)) as [D|D].
  2:{ rewrite (proj2 (Z.ltb_lt _ _)), (proj2 (Z.eqb_neq n _)) by nia. done. }
  rewrite (proj2 (Z.ltb_ge (_ mod c) _)) by lia. rewrite succ_div, succ_mod by lia. change (8 - 1) with 7.
  destruct (Z.eqb_spec ((n / 8 / c) mod 8) 7) as [F|F].
  2:{ rewrite (proj2 (Z.ltb_lt _ _)), (proj2 (Z.eqb_neq n _)) by nia. done. }
  rewrite (proj2 (Z.ltb_ge (_ mod 8) _)) by lia.
  destruct (Z.eqb_spec (n / 8 / c / 8) 3) as [W|W].
  - rewrite (proj2 (Z.eqb_eq n _)) by nia. by rewrite W.
  - by rewrite (proj2 (Z.eqb_neq n _)) by nia.
Qed.

Lemma peek_page_at b n :
  0 <= b < spp.(blks_per_pl) -> 0 <= n < spp.(pgs_per_line) ->
  peek_next_page (page_at b n) =
  Ok (if n =? spp.(pgs_per_line) - 1 then page_at (u16 (b + 1)) 0 else page_at b (n + 1)).
Proof.
  intros Hb Hn. unfold peek_next_page. rewrite bump_page_at by done. case_cmp; [|done].
  cbn [mbind result_mbind result_bind].
  unfold with_blk, with_pg, page_at. cbn. by rewrite ?Zdiv_0_l, ?Zmod_0_l.
Qed.

(** C23 (writing order): numbering the pages of a line from zero is a bijection onto the pages
    of the block row, and [peek_next_page] is the successor: from the last page of a line it
    goes to the first page of the next block. *)
Theorem write_order b :
  0 <= b < spp.(blks_per_pl) ->
  (forall n, 0 <= n < spp.(pgs_per_line) ->
     page_ok (page_at b n) /\ (page_at b n).(g_blk) = b /\ place (page_at b n) = n) /\
  (forall p, page_ok p -> p.(g_blk) = b -> 0 <= place p < spp.(pgs_per_line) /\ page_at b (place p) = p) /\
  (forall n, 0 <= n < spp.(pgs_per_line) ->
     last_pg_in_line (page_at b n) = (n =? spp.(pgs_per_line) - 1) /\
     peek_next_page (page_at b n) =
     Ok (if n =? spp.(pgs_per_line) - 1 then page_at (u16 (b + 1)) 0 else page_at b (n + 1))).
Proof.
  intros Hb. split; [|split].
  - intros n Hn. split; [by apply page_at_ok|]. split; [done|by apply place_page_at].
  - intros p P <-. split; [by apply place_range|by apply page_at_place].
  - intros n Hn. split; [|by apply peek_page_at].
    pose proof (page_at_ok b n Hb Hn) as [V _]. apply valid_ppa_iff in V.
    rewrite <- (place_page_at b n Hn) at 2. revert V. generalize (page_at b n). intros p V.
    destruct geom_consts as (E1 & _ & E2 & _ & E4 & Hc & _ & _ & _ & _ & El & _).
    unfold last_pg_in_line, last_pg_in_wordline, last_pg_in_ch, last_pg_in_lun, last_pg_in_blk, place.
    rewrite E1, E2, E4, El. clear -V Hc. set (c := nchs spp) in *.
    pose proof (Z.div_mod (g_pg p) 8 ltac:(lia)). pose proof (Z.mod_pos_bound (g_pg p) 8 ltac:(lia)).
    assert (0 <= g_pg p / 8 < 4) by zlia.
    repeat case_cmp; cbn; try done; nia.
Qed.

(** ** Skipping pages *)

Lemma skip_loop_page_at b n k :
  0 <= b < spp.(blks_per_pl) -> 0 <= n -> n + Z.of_nat k < spp.(pgs_per_line) ->
  skip_loop k (page_at b n) = Ok (page_at b (n + Z.of_nat k)).
Proof.
  intros Hb. revert n. induction k as [|k IH]; intros n Hn Hk; cbn [skip_loop].
  { by rewrite Z.add_0_r. }
  rewrite bump_page_at, (proj2 (Z.eqb_neq _ _)) by lia. cbn [mbind result_mbind result_bind].
  rewrite IH by lia. do 2 f_equal. lia.
Qed.

(** Skipping pages: inside a line [__skip_ppas] goes [read_offset / pgsz] pages on in the
    writing order; but a skip over the end of the line does not come out at the first page of
    the next block, as [peek_next_page] does: it names a page one past the end of the block. *)
Theorem skip_ppas_correct b n off :
  0 <= b < spp.(blks_per_pl) -> 0 <= n < spp.(pgs_per_line) -> 0 <= off < 2 ^ 32 ->
  (n + off / spp.(pgsz) < spp.(pgs_per_line) ->
     __skip_ppas (page_at b n) off = Ok (page_at b (n + off / spp.(pgsz)))) /\
  (n + off / spp.(pgsz) = spp.(pgs_per_line) ->
     exists p, __skip_ppas (page_at b n) off = Ok p /\ p.(g_pg) = spp.(pgs_per_blk) /\
       p.(g_blk) = u16 (b + 1) /\ valid_ppa p = false).
Proof.
  intros Hb Hn Ho. destruct geom_consts as (_ & _ & E2 & _ & _ & _ & _ & _ & _ & _ & _ & Es).
  unfold __skip_ppas. rewrite Es. change (2 ^ 32) with 4294967296 in Ho.
  rewrite u32_small by zlia. assert (0 <= off / 4096) by zlia. set (k := off / 4096) in *. split.
  - intros Hk. rewrite skip_loop_page_at; rewrite ?Z2Nat.id; done || lia.
  - intros Hk. assert (S : forall i m, m + Z.of_nat i = spp.(pgs_per_line) - 1 -> 0 <= m ->
      skip_loop (S i) (page_at b m) = Ok (with_blk (mk_ppa 32 b 0 0 0 0) (b + 1))).
    { induction i as [|i IH]; intros m Hm H0.
      - cbn [skip_loop]. by rewrite bump_page_at, (proj2 (Z.eqb_eq _ _)) by lia.
      - remember (S i) as i1. cbn [skip_loop]. rewrite bump_page_at, (proj2 (Z.eqb_neq _ _)) by lia.
        cbn [mbind result_mbind result_bind]. apply IH; lia. }
    destruct (Z.to_nat k) as [|i] eqn:Ei; [lia|]. rewrite S by lia. eexists. split; [done|].
    rewrite E2. split; [done|]. split; [done|]. unfold valid_ppa. rewrite E2. cbn.
    by repeat case_match.
Qed.

(** ** Space in the current LUN *)

(** Pages touched by [len] grains starting at grain offset [g]. *)
Definition pages_touched (g len : Z) : Z := (g mod GRAIN_PER_PAGE + len + (GRAIN_PER_PAGE - 1)) / GRAIN_PER_PAGE.

(** The run of [pgs_per_oneshotpg * nchs] pages a page lies in: one wordline of
    one LUN over all channels. *)
Definition stripe (n : Z) : Z := n / (spp.(pgs_per_oneshotpg) * spp.(nchs)).

Lemma same_lun b n :
  0 <= b < spp.(blks_per_pl) -> 0 <= n < spp.(pgs_per_line) ->
  exists q, peek_next_page (page_at b n) = Ok q /\
    (q.(g_lun) =? (page_at b n).(g_lun)) = (stripe (n + 1) =? stripe n).
Proof.
  intros Hb Hn. rewrite peek_page_at by done. eexists. split; [done|].
  destruct geom_consts as (E1 & _ & E2 & E3 & E4 & Hc & _ & _ & _ & _ & El & _).
  unfold stripe. rewrite E1, El in *. set (c := nchs spp) in *.
  assert (L : forall b m, (page_at b m).(g_lun) = (m / (8 * c)) mod 8).
  { intros b' m. unfold page_at. cbn. rewrite E1, E4. fold c. by rewrite <- Z.div_div by lia. }
  assert (Hs : (n + 1) / (8 * c) = n / (8 * c) \/ (n + 1) / (8 * c) = n / (8 * c) + 1).
  { rewrite succ_div by lia. case_cmp; lia. }
  assert (Hr : 0 <= n / (8 * c) < 32).
  { split; [apply Z.div_pos; lia|apply Z.div_lt_upper_bound; lia]. }
  destruct (Z.eqb_spec n (256 * c - 1)) as [->|Ne]; rewrite !L.
  - rewrite Zdiv_0_l. replace (256 * c - 1 + 1) with (32 * (8 * c)) by lia. rewrite Z.div_mul by lia.
    assert (Q : (256 * c - 1) / (8 * c) = 31) by (symmetry; apply Z.div_unique with (8 * c - 1); lia).
    by rewrite Q.
  - destruct Hs as [->| ->]; [by rewrite !Z.eqb_refl|].
    rewrite !(proj2 (Z.eqb_neq _ _)); [done|lia|zlia].
Qed.

Lemma GPP_val : GRAIN_PER_PAGE = 8.
Proof. reflexivity. Qed.

Lemma pages_step g rem : 0 <= g -> 0 < rem ->
  let l := Z.min rem (u32 (GRAIN_PER_PAGE - g mod GRAIN_PER_PAGE)) in
  1 <= l <= rem /\ l <= 8 /\
  pages_touched g rem = 1 + (if rem - l =? 0 then 0 else pages_touched 0 (rem - l)).
Proof.
  intros Hg Hr. unfold pages_touched. rewrite GPP_val. cbv zeta.
  assert (0 <= g mod 8 < 8) by zlia. rewrite u32_small by lia. rewrite Zmod_0_l.
  split; [lia|]. split; [lia|]. case_cmp; zlia.
Qed.

Lemma stripe_mono m n : m <= n -> stripe m <= stripe n.
Proof.
  destruct geom_consts as (E1 & _ & _ & _ & _ & Hc & _). intros H. unfold stripe. rewrite E1.
  apply Z.div_le_mono; lia.
Qed.

Lemma space_loop_spec fuel b n grain rem had :
  0 <= b < spp.(blks_per_pl) -> 0 <= n < spp.(pgs_per_line) -> 0 <= grain ->
  0 <= rem -> rem < Z.of_nat fuel ->
  let k := if rem =? 0 then 0 else pages_touched grain rem in
  exists fits p had', space_loop fuel (page_at b n) grain rem had (page_at b n).(g_lun) =
      Ok (fits, p, had') /\
    fits = (stripe (n + k) =? stripe n) /\ (fits = true -> p.(g_blk) = b).
Proof.
  intros Hb. revert n grain rem had. induction fuel as [|fuel IH]; intros n grain rem had Hn Hg Hr Hf;
    [lia|]. cbn [space_loop]. cbv zeta. destruct (Z.eqb_spec rem 0) as [->|Hz].
  { eexists _, _, _. split; [done|]. rewrite Z.add_0_r, Z.eqb_refl. done. }
  destruct (pages_step grain rem Hg ltac:(lia)) as (Hl & Hl8 & ->).
  set (l := Z.min rem _) in *.
  destruct (same_lun b n Hb Hn) as (q & Eq & Es). rewrite Eq. cbn [mbind result_mbind result_bind].
  rewrite Es. set (k := if rem - l =? 0 then _ else _).
  assert (Hk : 0 <= k).
  { unfold k, pages_touched. rewrite GPP_val. case_cmp; [done|]. zlia. }
  destruct (Z.eqb_spec (stripe (n + 1)) (stripe n)) as [S|S]; cbn [negb].
  - assert (Hn1 : n + 1 < pgs_per_line spp).
    { destruct (Z.eq_dec n (pgs_per_line spp - 1)) as [->|]; [|lia]. revert S. unfold stripe.
      destruct geom_consts as (E1 & _ & _ & _ & _ & Hc & _ & _ & _ & _ & El & _). rewrite E1, El.
      rewrite succ_div by lia.
      replace (256 * nchs spp - 1) with (31 * (8 * nchs spp) + (8 * nchs spp - 1)) by lia.
      rewrite Z.add_comm, Z_mod_plus_full, Z.mod_small, Z.eqb_refl by lia. lia. }
    assert (q = page_at b (n + 1)) as ->.
    { revert Eq. rewrite peek_page_at, (proj2 (Z.eqb_neq _ _)) by lia. by intros [= <-]. }
    apply Z.eqb_eq in Es as El. rewrite <- El.
    destruct (IH (n + 1) 0 (rem - l) (u32 (had + l * GRAINED_UNIT))) as (fits & p & h & -> & F & B);
      [lia|lia|lia|lia|].
    eexists _, _, _. split; [done|]. split; [|done]. rewrite F, S. fold k. f_equal. f_equal. lia.
  - eexists _, _, _. split; [done|]. split; [|done]. symmetry. apply Z.eqb_neq.
    assert (stripe n <= stripe (n + 1)) by (apply stripe_mono; lia).
    assert (stripe (n + 1) <= stripe (n + (1 + k))) by (apply stripe_mono; lia). lia.
Qed.

Lemma enough_space_ok b n grain len :
  0 <= b < spp.(blks_per_pl) -> 0 <= n < spp.(pgs_per_line) -> 0 <= grain -> 0 < len ->
  exists had, enough_space_in_line (page_at b n) grain len =
    Ok (stripe (n + pages_touched grain len) =? stripe n, had).
Proof.
  intros Hb Hn Hg Hl. unfold enough_space_in_line.
  destruct (space_loop_spec (S (Z.to_nat len)) b n grain len 0 Hb Hn Hg) as (fits & p & had & -> & F & B);
    [lia|lia|]. rewrite (proj2 (Z.eqb_neq len 0)) in F by lia.
  exists had. cbn [mbind result_mbind result_bind]. rewrite <- F. destruct fits; [|done].
  by rewrite B, Z.eqb_refl.
Qed.

(** C25 (space): [enough_space_in_line] terminates and accepts exactly the allocations whose
    pages, and the page after them, stay in the wordline stripe of the current page - not, as the
    name says, in its line. *)
Theorem enough_space_correct b n grain len :
  0 <= b < spp.(blks_per_pl) -> 0 <= n < spp.(pgs_per_line) -> 0 <= grain -> 0 < len ->
  exists had, enough_space_in_line (page_at b n) grain len =
    Ok (stripe (n + pages_touched grain len) =? stripe n, had).
Proof. exact (enough_space_ok b n grain len). Qed.

End geometry.

(** ** Witnesses *)

Lemma pgidx_round_trip_witness :
  exists i, ppa2pgidx ex_spp (mk_ppa 17 3 0 2 1 0) = Ok i /\ 0 <= i < ex_spp.(tt_pgs) /\
    ppa_to_struct ex_spp i = Ok (mk_ppa 17 3 0 2 1 0).
Proof. apply (proj1 (pgidx_round_trip ex_spp ex_geom) (mk_ppa 17 3 0 2 1 0)). by split. Defined.

Lemma write_order_witness :
  peek_next_page ex_spp (page_at ex_spp 3 63) = Ok (page_at ex_spp 3 64).
Proof.
  apply (proj2 (proj2 (proj2 (write_order ex_spp ex_geom 3 ltac:(vm_compute; split; congruence))) 63
    ltac:(vm_compute; split; congruence))).
Defined.

Lemma skip_ppas_correct_witness :
  exists p, __skip_ppas ex_spp (page_at ex_spp 3 2047) 4096 = Ok p /\ p.(g_pg) = ex_spp.(pgs_per_blk) /\
    p.(g_blk) = u16 (3 + 1) /\ valid_ppa ex_spp p = false.
Proof.
  apply (proj2 (skip_ppas_correct ex_spp ex_geom 3 2047 4096 ltac:(vm_compute; split; congruence)
    ltac:(vm_compute; split; congruence) ltac:(lia))). reflexivity.
Defined.

(** 24 grains from grain 2 of page 60 on fill pages 60 to 63 of a stripe of 64, and are refused. *)
Lemma enough_space_correct_witness :
  exists had, enough_space_in_line ex_spp (page_at ex_spp 3 60) 2 24 = Ok (false, had).
Proof.
  apply (enough_space_correct ex_spp ex_geom 3 60 2 24 ltac:(vm_compute; split; congruence)
    ltac:(vm_compute; split; congruence)); lia.
Defined.
