(* ===== verification/Lines.v ===== *)
(** * Superblock lines, write pointers and grain accounting ([demand_ftl.c])

    The part of a shard that hands out flash pages and counts the valid grains
    of each block and line: free list, full list and victim queue, the four
    write pointers, the grain bitmap and the out-of-band area.  The spin locks
    [lm_spin], [inv_spin], [v_spin] and [map_spin] bracket the bodies below, so
    each operation is one step.  The build is the [ORIGINAL] one. *)

From S2P Require Import Prelude ChModel Ssd Geometry PQueue Line.

Variant io_type := USER_IO | GC_IO | MAP_IO | GC_MAP_IO.

(** ** State *)

(** [struct write_pointer]; [curline] is the index of the line pointed to. *)
Record write_pointer := mk_wp {
  curline : Z; wp_ch : Z; wp_lun : Z; wp_pg : Z; wp_blk : Z; wp_pl : Z
}.

Record line_mgmt := mk_lm {
  lines : line_table;
  free_line_list : list Z; victim_line_pq : pqueue; full_line_list : list Z;
  lm_tt_lines : Z; free_line_cnt : Z; victim_line_cnt : Z; full_line_cnt : Z
}.

Record write_flow_control := mk_wfc { write_credits : Z; credits_to_refill : Z }.

(** The fields of [struct demand_shard] this component uses, and the global
    counters of pages written since the last collection. *)
Record demand_shard := mk_shard {
  sd : ssd; lm : line_mgmt;
  wp : write_pointer; map_wp : write_pointer; gc_wp : write_pointer; map_gc_wp : write_pointer;
  wfc : write_flow_control; gc_thres_lines : Z; gc_thres_lines_high : Z;
  offset : Z; oob : Z -> Z -> Z; grain_bitmap : Z -> bool;
  map_pgs_this_gc : Z; gc_pgs_this_gc : Z; map_gc_pgs_this_gc : Z
}.

Definition sp_of (s : demand_shard) : ssdparams := s.(sd).(sp).

Definition set_sd (s : demand_shard) (x : ssd) : demand_shard :=
  mk_shard x s.(lm) s.(wp) s.(map_wp) s.(gc_wp) s.(map_gc_wp) s.(wfc) s.(gc_thres_lines)
    s.(gc_thres_lines_high) s.(offset) s.(oob) s.(grain_bitmap) s.(map_pgs_this_gc)
    s.(gc_pgs_this_gc) s.(map_gc_pgs_this_gc).
Definition set_lm (s : demand_shard) (x : line_mgmt) : demand_shard :=
  mk_shard s.(sd) x s.(wp) s.(map_wp) s.(gc_wp) s.(map_gc_wp) s.(wfc) s.(gc_thres_lines)
    s.(gc_thres_lines_high) s.(offset) s.(oob) s.(grain_bitmap) s.(map_pgs_this_gc)
    s.(gc_pgs_this_gc) s.(map_gc_pgs_this_gc).
Definition set_wfc (s : demand_shard) (x : write_flow_control) : demand_shard :=
  mk_shard s.(sd) s.(lm) s.(wp) s.(map_wp) s.(gc_wp) s.(map_gc_wp) x s.(gc_thres_lines)
    s.(gc_thres_lines_high) s.(offset) s.(oob) s.(grain_bitmap) s.(map_pgs_this_gc)
    s.(gc_pgs_this_gc) s.(map_gc_pgs_this_gc).
Definition set_oob (s : demand_shard) (o : Z -> Z -> Z) : demand_shard :=
  mk_shard s.(sd) s.(lm) s.(wp) s.(map_wp) s.(gc_wp) s.(map_gc_wp) s.(wfc) s.(gc_thres_lines)
    s.(gc_thres_lines_high) s.(offset) o s.(grain_bitmap) s.(map_pgs_this_gc)
    s.(gc_pgs_this_gc) s.(map_gc_pgs_this_gc).
Definition set_bitmap (s : demand_shard) (b : Z -> bool) : demand_shard :=
  mk_shard s.(sd) s.(lm) s.(wp) s.(map_wp) s.(gc_wp) s.(map_gc_wp) s.(wfc) s.(gc_thres_lines)
    s.(gc_thres_lines_high) s.(offset) s.(oob) b s.(map_pgs_this_gc)
    s.(gc_pgs_this_gc) s.(map_gc_pgs_this_gc).
Definition set_counters (s : demand_shard) (m g mg : Z) : demand_shard :=
  mk_shard s.(sd) s.(lm) s.(wp) s.(map_wp) s.(gc_wp) s.(map_gc_wp) s.(wfc) s.(gc_thres_lines)
    s.(gc_thres_lines_high) s.(offset) s.(oob) s.(grain_bitmap) m g mg.

(** [__get_wp] and the assignment through the pointer it returns. *)
Definition __get_wp (s : demand_shard) (t : io_type) : write_pointer :=
  match t with
  | USER_IO => s.(wp) | MAP_IO => s.(map_wp) | GC_IO => s.(gc_wp) | GC_MAP_IO => s.(map_gc_wp)
  end.
Definition set_wp (s : demand_shard) (t : io_type) (w : write_pointer) : demand_shard :=
  let pick u old := match t, u with
    | USER_IO, USER_IO | MAP_IO, MAP_IO | GC_IO, GC_IO | GC_MAP_IO, GC_MAP_IO => w
    | _, _ => old end in
  mk_shard s.(sd) s.(lm) (pick USER_IO s.(wp)) (pick MAP_IO s.(map_wp)) (pick GC_IO s.(gc_wp))
    (pick GC_MAP_IO s.(map_gc_wp)) s.(wfc) s.(gc_thres_lines) s.(gc_thres_lines_high)
    s.(offset) s.(oob) s.(grain_bitmap) s.(map_pgs_this_gc) s.(gc_pgs_this_gc)
    s.(map_gc_pgs_this_gc).

Definition set_lines (l : line_mgmt) (t : line_table) : line_mgmt :=
  mk_lm t l.(free_line_list) l.(victim_line_pq) l.(full_line_list) l.(lm_tt_lines)
    l.(free_line_cnt) l.(victim_line_cnt) l.(full_line_cnt).
Definition set_queue (l : line_mgmt) (q : pqueue) (t : line_table) : line_mgmt :=
  mk_lm t l.(free_line_list) q l.(full_line_list) l.(lm_tt_lines)
    l.(free_line_cnt) l.(victim_line_cnt) l.(full_line_cnt).
Definition set_victim_cnt (l : line_mgmt) (n : Z) : line_mgmt :=
  mk_lm l.(lines) l.(free_line_list) l.(victim_line_pq) l.(full_line_list) l.(lm_tt_lines)
    l.(free_line_cnt) (u32 n) l.(full_line_cnt).
Definition set_free (l : line_mgmt) (x : list Z) (n : Z) : line_mgmt :=
  mk_lm l.(lines) x l.(victim_line_pq) l.(full_line_list) l.(lm_tt_lines)
    (u32 n) l.(victim_line_cnt) l.(full_line_cnt).
Definition set_full (l : line_mgmt) (x : list Z) (n : Z) : line_mgmt :=
  mk_lm l.(lines) l.(free_line_list) l.(victim_line_pq) x l.(lm_tt_lines)
    l.(free_line_cnt) l.(victim_line_cnt) (u32 n).

(** [lm->lines[i]] with its bound. *)
Definition line_at (l : line_mgmt) (i : Z) : result line := cell l.(lines) l.(lm_tt_lines) i.
Definition set_line (l : line_mgmt) (i : Z) (x : line) : line_mgmt :=
  set_lines l (upd l.(lines) i x).

(** [list_del_init] takes a line off the list it is on. *)
Definition list_del (x : Z) (l : list Z) : list Z := filter (fun y => y <> x) l.

(** ** Operations *)

Definition should_gc (s : demand_shard) : bool := s.(lm).(free_line_cnt) <=? s.(gc_thres_lines).
Definition should_gc_high (s : demand_shard) : bool :=
  s.(lm).(free_line_cnt) <=? s.(gc_thres_lines_high).

Definition consume_write_credit (s : demand_shard) (len : Z) : demand_shard :=
  set_wfc s (mk_wfc (u32 (s.(wfc).(write_credits) - len)) s.(wfc).(credits_to_refill)).

Definition init_write_flow_control (s : demand_shard) : demand_shard :=
  let n := u32 ((sp_of s).(pgs_per_line) * GRAIN_PER_PAGE) in set_wfc s (mk_wfc n n).

(** The loop of [init_lines]. *)
Fixpoint init_lines_loop (n : nat) (i : Z) (l : line_mgmt) : line_mgmt :=
  match n with
  | O => l
  | S n =>
      let l := set_line l i (mk_line i 0 0 0 0 0 0 0 0 false) in
      let l := set_free l (l.(free_line_list) ++ [i]) (l.(free_line_cnt) + 1) in
      init_lines_loop n (i + 1) l
  end.

(** The contents of fresh memory are those of the line table and the queue the
    state already holds. *)
Definition init_lines (s : demand_shard) : result demand_shard :=
  let spp := sp_of s in
  let tt := u32 spp.(blks_per_pl) in
  _ ← assert_ (tt =? spp.(tt_lines));
  let q := pqueue_init s.(lm).(victim_line_pq).(d) spp.(tt_lines) in
  let l := mk_lm s.(lm).(lines) [] q [] tt 0 s.(lm).(victim_line_cnt) s.(lm).(full_line_cnt) in
  let l := init_lines_loop (Z.to_nat tt) 0 l in
  _ ← assert_ (l.(free_line_cnt) =? l.(lm_tt_lines));
  Ok (set_lm s (mk_lm l.(lines) l.(free_line_list) l.(victim_line_pq) l.(full_line_list)
    l.(lm_tt_lines) l.(free_line_cnt) 0 0)).

Definition get_next_free_line (l : line_mgmt) : result (Z * line_mgmt) :=
  match l.(free_line_list) with
  | [] => Err BUG
  | c :: rest => Ok (c, set_free l rest (l.(free_line_cnt) - 1))
  end.

Definition is_map_io (t : io_type) : bool :=
  match t with MAP_IO | GC_MAP_IO => true | USER_IO | GC_IO => false end.

Definition prepare_write_pointer (s : demand_shard) (t : io_type) : result demand_shard :=
  '(c, l) ← get_next_free_line s.(lm);
  x ← line_at l c;
  let l := set_line l c (set_map x (is_map_io t)) in
  Ok (set_wp (set_lm s l) t (mk_wp c 0 0 0 (u32 x.(id)) 0)).

(** Setters of the write pointer's [uint32_t] fields. *)
Definition wp_set_pg (w : write_pointer) (v : Z) : write_pointer :=
  mk_wp w.(curline) w.(wp_ch) w.(wp_lun) (u32 v) w.(wp_blk) w.(wp_pl).
Definition wp_set_ch (w : write_pointer) (v : Z) : write_pointer :=
  mk_wp w.(curline) (u32 v) w.(wp_lun) w.(wp_pg) w.(wp_blk) w.(wp_pl).
Definition wp_set_lun (w : write_pointer) (v : Z) : write_pointer :=
  mk_wp w.(curline) w.(wp_ch) (u32 v) w.(wp_pg) w.(wp_blk) w.(wp_pl).

(** The first half of [advance_write_pointer]: the same counting as
    [peek_next_page], on the write pointer.  The flag tells that the line is used
    up. *)
Definition wp_bump (spp : ssdparams) (w : write_pointer) : result (write_pointer * bool) :=
  _ ← check_addr w.(wp_pg) spp.(pgs_per_blk);
  let w := wp_set_pg w (w.(wp_pg) + 1) in
  if negb (w.(wp_pg) mod spp.(pgs_per_oneshotpg) =? 0) then Ok (w, false) else
  let w := wp_set_pg w (w.(wp_pg) - spp.(pgs_per_oneshotpg)) in
  _ ← check_addr w.(wp_ch) spp.(nchs);
  let w := wp_set_ch w (w.(wp_ch) + 1) in
  if negb (w.(wp_ch) =? spp.(nchs)) then Ok (w, false) else
  let w := wp_set_ch w 0 in
  _ ← check_addr w.(wp_lun) spp.(luns_per_ch);
  let w := wp_set_lun w (w.(wp_lun) + 1) in
  if negb (w.(wp_lun) =? spp.(luns_per_ch)) then Ok (w, false) else
  let w := wp_set_lun w 0 in
  let w := wp_set_pg w (w.(wp_pg) + spp.(pgs_per_oneshotpg)) in
  if negb (w.(wp_pg) =? spp.(pgs_per_blk)) then Ok (w, false) else
  Ok (wp_set_pg w 0, true).

(** A used-up line goes to the full list, or to the victim queue when some of
    its grains are invalid. *)
Definition retire_line (spp : ssdparams) (l : line_mgmt) (c : Z) : result line_mgmt :=
  x ← line_at l c;
  if x.(igc) =? 0 then
    _ ← assert_ (x.(ipc) =? 0);
    Ok (set_full l (l.(full_line_list) ++ [c]) (l.(full_line_cnt) + 1))
  else
    _ ← assert_ ((x.(vgc) >=? 0) && (x.(vgc) <? spp.(pgs_per_line) * GRAIN_PER_PAGE));
    _ ← assert_ (x.(igc) >? 0);
    '(q, t) ← pqueue_insert l.(victim_line_pq) l.(lines) c;
    let l := set_queue l q t in
    Ok (set_victim_cnt l (l.(victim_line_cnt) + 1)).

Definition count_page (s : demand_shard) (t : io_type) : demand_shard :=
  match t with
  | GC_IO => set_counters s s.(map_pgs_this_gc) (u64 (s.(gc_pgs_this_gc) + 1)) s.(map_gc_pgs_this_gc)
  | GC_MAP_IO => set_counters s s.(map_pgs_this_gc) s.(gc_pgs_this_gc) (u64 (s.(map_gc_pgs_this_gc) + 1))
  | USER_IO | MAP_IO => set_counters s (u64 (s.(map_pgs_this_gc) + 1)) s.(gc_pgs_this_gc) s.(map_gc_pgs_this_gc)
  end.

Definition advance_write_pointer (s : demand_shard) (t : io_type) : result demand_shard :=
  let spp := sp_of s in
  let s := count_page s t in
  '(w, over) ← wp_bump spp (__get_wp s t);
  if negb over then Ok (set_wp s t w) else
  l ← retire_line spp s.(lm) w.(curline);
  _ ← check_addr w.(wp_blk) spp.(blks_per_pl);
  '(c, l) ← get_next_free_line l;
  x ← line_at l c;
  let l := set_line l c (set_map x (is_map_io t)) in
  let w := mk_wp c w.(wp_ch) w.(wp_lun) w.(wp_pg) (u32 x.(id)) w.(wp_pl) in
  _ ← check_addr w.(wp_blk) spp.(blks_per_pl);
  _ ← assert_ (w.(wp_pg) =? 0);
  _ ← assert_ (w.(wp_lun) =? 0);
  _ ← assert_ (w.(wp_ch) =? 0);
  _ ← assert_ (w.(wp_pl) =? 0);
  Ok (set_wp (set_lm s l) t w).

Definition get_new_page (s : demand_shard) (t : io_type) : result ppa :=
  let w := __get_wp s t in
  let p := mk_ppa (u16 w.(wp_pg)) (u16 w.(wp_blk)) (u8 w.(wp_pl)) (u8 w.(wp_lun)) (u8 w.(wp_ch)) 0 in
  _ ← assert_ (p.(g_pl) =? 0);
  Ok p.

Definition get_line (s : demand_shard) (p : ppa) : result line := line_at s.(lm) p.(g_blk).

Definition set_status (p : nand_page) (st : page_status) : nand_page :=
  mk_page p.(sec) p.(nsecs) st.
Definition set_pgs (b : nand_block) (a : Z -> nand_page) : nand_block :=
  mk_block a b.(npgs) b.(Ssd.ipc) b.(Ssd.vpc) b.(Ssd.igc) b.(Ssd.vgc) b.(erase_cnt) b.(Ssd.wp).
Definition blk_set_vgc (b : nand_block) (v : Z) : nand_block :=
  mk_block b.(pg) b.(npgs) b.(Ssd.ipc) b.(Ssd.vpc) b.(Ssd.igc) (i32 v) b.(erase_cnt) b.(Ssd.wp).
Definition blk_set_igc (b : nand_block) (v : Z) : nand_block :=
  mk_block b.(pg) b.(npgs) b.(Ssd.ipc) b.(Ssd.vpc) (i32 v) b.(Ssd.vgc) b.(erase_cnt) b.(Ssd.wp).

Definition page_is (st : page_status) (p : nand_page) : bool := bool_decide (p.(status) = st).

(** One page changes status, which it must have had before. *)
Definition move_page (s : demand_shard) (p : ppa) (from to : page_status) : result demand_shard :=
  d ← mod_blk s.(sd) p (fun b =>
        a ← modify b.(pg) b.(npgs) p.(g_pg) (fun x =>
              _ ← assert_ (page_is from x); Ok (set_status x to));
        Ok (set_pgs b a));
  Ok (set_sd s d).

Definition mark_page_valid (s : demand_shard) (p : ppa) : result demand_shard :=
  move_page s p PG_FREE PG_VALID.
Definition mark_page_invalid (s : demand_shard) (p : ppa) : result demand_shard :=
  move_page s p PG_VALID PG_INVALID.

(** Grains of a block and of a line. *)
Definition blk_grains (spp : ssdparams) : Z := spp.(pgs_per_blk) * GRAIN_PER_PAGE.
Definition line_grains (spp : ssdparams) : Z := spp.(pgs_per_line) * GRAIN_PER_PAGE.

(** [grain_bitmap] has one cell per grain of the device. *)
Definition bitmap_cell (s : demand_shard) (g : Z) : result bool :=
  cell s.(grain_bitmap) ((sp_of s).(tt_pgs) * GRAIN_PER_PAGE) g.

Definition mark_grain_valid (s : demand_shard) (grain len : Z) : result demand_shard :=
  let spp := sp_of s in
  p ← ppa_to_struct spp (grain / GRAIN_PER_PAGE);
  x ← get_pg s.(sd) p;
  _ ← assert_ (page_is PG_VALID x);
  d ← mod_blk s.(sd) p (fun b =>
        _ ← assert_ ((b.(Ssd.vgc) >=? 0) && (b.(Ssd.vgc) <=? blk_grains spp));
        Ok (blk_set_vgc b (b.(Ssd.vgc) + len)));
  let s := set_sd s d in
  y ← get_line s p;
  _ ← assert_ ((y.(vgc) >=? 0) && (y.(vgc) <=? line_grains spp));
  let s := set_lm s (set_line s.(lm) p.(g_blk) (set_vgc y (i32 (y.(vgc) + len)))) in
  v ← bitmap_cell s grain;
  _ ← assert_ (negb v);
  Ok (set_bitmap s (upd s.(grain_bitmap) grain true)).

(** The loop of [page_grains_invalid]. *)
Fixpoint grains_invalid_loop (n : nat) (i : Z) (s : demand_shard) (off : Z) : result bool :=
  match n with
  | O => Ok true
  | S n =>
      v ← bitmap_cell s (off + i);
      if (v : bool) then Ok false else grains_invalid_loop n (i + 1) s off
  end.

Definition page_grains_invalid (s : demand_shard) (page : Z) : result bool :=
  grains_invalid_loop (Z.to_nat GRAIN_PER_PAGE) 0 s (page * GRAIN_PER_PAGE).

(** The line part of [mark_grain_invalid]: fewer valid grains, a new place in
    the victim queue, and the move from the full list to the queue.  The flag
    [was_full_line] is a variable of the whole function: once set, it stays set
    in the rounds for the further pages of the pair. *)
Definition line_lose (spp : ssdparams) (l : line_mgmt) (i len : Z) (was_full_line : bool) : result (line_mgmt * bool) :=
  x ← line_at l i;
  _ ← assert_ ((x.(igc) >=? 0) && (x.(igc) <? line_grains spp));
  was_full_line ← (if u64 x.(vgc) >=? line_grains spp
    then _ ← assert_ (x.(igc) =? 0); Ok true else Ok was_full_line);
  _ ← assert_ (u64 x.(igc) <? line_grains spp);
  let l := set_line l i (set_igc x (i32 (x.(igc) + len))) in
  x ← line_at l i;
  l ← (if negb (x.(pos) =? 0) then
    '(q, t) ← pqueue_change_priority l.(victim_line_pq) l.(lines) (u32 (x.(vgc) - len)) i;
    Ok (set_queue l q t)
  else Ok (set_line l i (set_vgc x (i32 (x.(vgc) - len)))));
  l ← (if (was_full_line : bool) then
    let l := set_free l (list_del i l.(free_line_list)) l.(free_line_cnt) in
    let l := set_full l (list_del i l.(full_line_list)) (l.(full_line_cnt) - 1) in
    '(q, t) ← pqueue_insert l.(victim_line_pq) l.(lines) i;
    let l := set_queue l q t in
    Ok (set_victim_cnt l (l.(victim_line_cnt) + 1))
  else Ok l);
  x ← line_at l i;
  _ ← assert_ ((x.(vgc) >=? 0) && (x.(vgc) <=? line_grains spp));
  Ok (l, was_full_line).

(** One round of the [again] loop: [len] grains of the page [p]. *)
Definition invalidate_page (s : demand_shard) (p : ppa) (grain len : Z) (was_full_line : bool) : result (demand_shard * bool) :=
  let spp := sp_of s in
  _ ← assert_ (len >? 0);
  x ← get_pg s.(sd) p;
  _ ← assert_ (page_is PG_VALID x);
  d ← mod_blk s.(sd) p (fun b =>
        _ ← assert_ (b.(Ssd.igc) <? blk_grains spp);
        _ ← assert_ ((b.(Ssd.vgc) >? 0) && (b.(Ssd.vgc) <=? blk_grains spp));
        Ok (blk_set_igc b (b.(Ssd.igc) + len)));
  let s := set_sd s d in
  '(l, was_full_line) ← line_lose spp s.(lm) p.(g_blk) len was_full_line;
  let s := set_lm s l in
  v ← bitmap_cell s grain;
  _ ← assert_ v;
  Ok (set_bitmap s (upd s.(grain_bitmap) grain false), was_full_line).

Fixpoint invalidate_loop (fuel : nat) (s : demand_shard) (p : ppa) (grain rem : Z) (was_full_line : bool)
    : result demand_shard :=
  match fuel with
  | O => Err HANG
  | S fuel =>
      let len := Z.min rem (u32 (GRAIN_PER_PAGE - grain mod GRAIN_PER_PAGE)) in
      '(s, was_full_line) ← invalidate_page s p grain len was_full_line;
      let rem := rem - len in
      if rem =? 0 then Ok s else
      x ← get_line s p;
      p ← peek_next_page (sp_of s) p;
      _ ← assert_ (p.(g_blk) =? x.(id));
      page ← ppa2pgidx (sp_of s) p;
      invalidate_loop fuel s p (u64 (page * GRAIN_PER_PAGE)) rem was_full_line
  end.

(** Each round consumes at least one grain. *)
Definition mark_grain_invalid (s : demand_shard) (grain len : Z) : result demand_shard :=
  p ← ppa_to_struct (sp_of s) (grain / GRAIN_PER_PAGE);
  _ ← (if len >? GRAIN_PER_PAGE then assert_ (negb (last_pg_in_line (sp_of s) p)) else Ok tt);
  invalidate_loop (S (Z.to_nat len)) s p grain len false.

(** [clear_oob]: the eight cells of a page. *)
Definition clear_oob (s : demand_shard) (pgidx : Z) : result demand_shard :=
  if (0 <=? pgidx) && (pgidx <? (sp_of s).(tt_pgs)) then
    Ok (set_oob s (upd s.(oob) pgidx (memset (s.(oob) pgidx) 0 GRAIN_PER_PAGE 2)))
  else Err OOB.

(** The page loop of [mark_block_free]; [base] is the index of the block's first
    page. *)
Fixpoint free_pages_loop (n : nat) (i : Z) (s : demand_shard) (p : ppa) (base : Z)
    : result demand_shard :=
  match n with
  | O => Ok s
  | S n =>
      d ← mod_blk s.(sd) p (fun b =>
            a ← modify b.(pg) b.(npgs) i (fun x =>
                  _ ← assert_ (x.(nsecs) =? (sp_of s).(secs_per_pg)); Ok (set_status x PG_FREE));
            Ok (set_pgs b a));
      let s := set_sd s d in
      let s := set_bitmap s (memset s.(grain_bitmap) ((base + i) * GRAIN_PER_PAGE) GRAIN_PER_PAGE false) in
      s ← clear_oob s (base + i);
      free_pages_loop n (i + 1) s p base
  end.

Definition mark_block_free (s : demand_shard) (p : ppa) : result demand_shard :=
  let spp := sp_of s in
  base ← ppa2pgidx spp (with_pg p 0);
  s ← free_pages_loop (Z.to_nat spp.(pgs_per_blk)) 0 s p base;
  d ← mod_blk s.(sd) p (fun b =>
        _ ← assert_ (b.(npgs) =? spp.(pgs_per_blk));
        Ok (mk_block b.(pg) b.(npgs) 0 0 0 0 (i32 (b.(erase_cnt) + 1)) b.(Ssd.wp)));
  Ok (set_sd s d).

Definition mark_line_free (s : demand_shard) (p : ppa) : result demand_shard :=
  let l := s.(lm) in
  x ← get_line s p;
  let l := set_line l p.(g_blk) (mk_line x.(id) 0 0 0 0 x.(vbc) x.(ibc) x.(pos) x.(pos_b) x.(map)) in
  Ok (set_lm s (set_free l (l.(free_line_list) ++ [p.(g_blk)]) (l.(free_line_cnt) + 1))).

Definition __grain2lineid (s : demand_shard) (grain : Z) : result Z :=
  p ← ppa_to_struct (sp_of s) (grain / GRAIN_PER_PAGE);
  x ← get_line s p;
  Ok x.(id).

Definition requeue (l : line_mgmt) (dummy : option Z) : result line_mgmt :=
  match dummy with
  | None => Ok l
  | Some x => '(q, t) ← pqueue_insert l.(victim_line_pq) l.(lines) x; Ok (set_queue l q t)
  end.

(** The [again] loop: [cur] is the id of the line stores go to. *)
Fixpoint select_loop (fuel : nat) (l : line_mgmt) (cur : Z) (dummy : option Z)
    : result (option Z * line_mgmt) :=
  match fuel with
  | O => Err HANG
  | S fuel =>
      match pqueue_peek l.(victim_line_pq) with
      | None => l ← requeue l dummy; Ok (None, l)
      | Some v =>
          x ← line_at l v;
          if x.(id) =? cur then
            '(_, q, t) ← pqueue_pop l.(victim_line_pq) l.(lines);
            select_loop fuel (set_queue l q t) cur (Some v)
          else
            '(_, q, t) ← pqueue_pop l.(victim_line_pq) l.(lines);
            let l := set_queue l q t in
            x ← line_at l v;
            let l := set_line l v (set_pos x 0) in
            let l := set_victim_cnt l (l.(victim_line_cnt) - 1) in
            l ← requeue l dummy;
            Ok (Some v, l)
      end
  end.

(** A line's id is met at most once: two rounds that pop, one that answers. *)
Definition select_victim_line (s : demand_shard) : result (option Z * demand_shard) :=
  cur ← __grain2lineid s (s.(offset) / GRAINED_UNIT);
  '(v, l) ← select_loop 3 s.(lm) cur None;
  Ok (v, set_lm s l).

(** [clear_rest_of_line]: mark the rest of the wordline stripe written and
    dead at once.  [credits] is the counter the caller passed, if any. *)
Fixpoint clear_loop (fuel : nat) (s : demand_shard) (p : ppa) (pgidx grain g_off rem : Z)
    (lun : Z) (t : io_type) (credits : Z) : result (demand_shard * Z) :=
  match fuel with
  | O => Err HANG
  | S fuel =>
      if negb (p.(g_lun) =? lun) then Ok (s, credits) else
      let len := u32 (Z.min rem (u64 (GRAIN_PER_PAGE - g_off mod GRAIN_PER_PAGE))) in
      s ← mark_grain_valid s grain len;
      s ← mark_grain_invalid s grain len;
      let s := set_oob s (upd s.(oob) pgidx
                 (memset (s.(oob) pgidx) g_off (GRAIN_PER_PAGE - g_off) UINT_MAX)) in
      let credits := u64 (credits + len) in
      let rem := u64 (rem - len) in
      p ← peek_next_page (sp_of s) p;
      pgidx ← ppa2pgidx (sp_of s) p;
      s ← (if p.(g_lun) =? lun then
        s ← advance_write_pointer s t; mark_page_valid s p
      else Ok s);
      clear_loop fuel s p pgidx (pgidx * GRAIN_PER_PAGE) 0 rem lun t credits
  end.

(** A stripe has at most [pgs_per_oneshotpg * nchs] pages. *)
Definition clear_rest_of_line (s : demand_shard) (p : ppa) (g_off : Z) (credits : Z) (gc : bool)
    : result (demand_shard * Z) :=
  let spp := sp_of s in
  pgidx ← ppa2pgidx spp p;
  clear_loop (S (Z.to_nat (spp.(pgs_per_oneshotpg) * spp.(nchs)))) s p pgidx
    (pgidx * GRAIN_PER_PAGE + g_off) g_off (spp.(pgs_per_lun) * GRAIN_PER_PAGE)
    p.(g_lun) (if gc then GC_IO else USER_IO) credits.

(** ** The invariant of line management *)

(** A line's counters, against [g] grains per line. *)
Definition counts_ok (g : Z) (x : line) : Prop :=
  0 <= x.(vgc) /\ 0 <= x.(igc) /\ x.(vgc) + x.(igc) <= g /\ x.(ipc) = 0.

Definition table_ok (tt g : Z) (t : line_table) : Prop :=
  forall i, 0 <= i < tt -> (t i).(id) = i /\ counts_ok g (t i).

(** The lines in a list. *)
Definition listed (l : line_mgmt) (i : Z) : Prop := i ∈ l.(free_line_list) ++ l.(full_line_list).
Definition queued (l : line_mgmt) (i : Z) : Prop := mem l.(victim_line_pq) i.

(** Every line is free, full, queued or open (being written or collected), in
    exactly one way; the counters count; only queued lines have a position. *)
Record lists_inv (spp : ssdparams) (l : line_mgmt) : Prop := {
  li_tt : l.(lm_tt_lines) = spp.(blks_per_pl);
  li_table : table_ok spp.(blks_per_pl) (line_grains spp) l.(lines);
  li_nodup : NoDup (l.(free_line_list) ++ l.(full_line_list));
  li_range : forall i, listed l i -> 0 <= i < spp.(blks_per_pl);
  li_avail : l.(victim_line_pq).(avail) = spp.(blks_per_pl) + 1;
  li_queued : forall i, queued l i -> 0 <= i < spp.(blks_per_pl) /\ ~ listed l i;
  li_dead : forall i, queued l i -> 0 < (l.(lines) i).(igc);
  li_pos : forall i, 0 <= i < spp.(blks_per_pl) -> ~ queued l i -> (l.(lines) i).(pos) = 0;
  li_free : forall i, i ∈ l.(free_line_list) -> (l.(lines) i).(vgc) = 0 /\ (l.(lines) i).(igc) = 0;
  li_free_cnt : l.(free_line_cnt) = Z.of_nat (length l.(free_line_list));
  li_full_cnt : l.(full_line_cnt) = Z.of_nat (length l.(full_line_list));
  li_size : 1 <= l.(victim_line_pq).(PQueue.size);
  li_victim_cnt : l.(victim_line_cnt) = l.(victim_line_pq).(PQueue.size) - 1
}.

(** Together with the heap order of the victim queue. *)
Record lines_inv (spp : ssdparams) (l : line_mgmt) : Prop := {
  li_lists :> lists_inv spp l;
  li_wf : PQueue.wf l.(victim_line_pq) l.(lines)
}.

Definition is_open (l : line_mgmt) (spp : ssdparams) (i : Z) : Prop :=
  0 <= i < spp.(blks_per_pl) /\ ~ listed l i /\ ~ queued l i.

(** The integers below a bound, as a list. *)
Lemma range_length (l : list Z) n :
  0 <= n -> NoDup l -> (forall i, i ∈ l -> 0 <= i < n) -> Z.of_nat (length l) <= n.
Proof.
  intros Hn N R. assert (S : l ⊆+ seqZ 0 n).
  { apply NoDup_submseteq; [done|]. intros i Hi. apply elem_of_seqZ. pose proof (R i Hi). lia. }
  apply submseteq_length in S. rewrite length_seqZ in S. lia.
Qed.

(** The objects of a queue, as a list. *)
Definition contents (q : pqueue) : list Z := q.(d) <$> seqZ 1 (q.(PQueue.size) - 1).

Lemma contents_mem q i : i ∈ contents q <-> mem q i.
Proof.
  unfold contents. rewrite list_elem_of_fmap. setoid_rewrite elem_of_seqZ. split.
  - intros (j & -> & Hj). exists j. split; [lia|done].
  - intros (j & Hj & <-). exists j. split; [done|lia].
Qed.

Lemma contents_nodup q t : PQueue.wf q t -> NoDup (contents q).
Proof.
  intros W. unfold contents. apply NoDup_fmap_2_strong; [|apply NoDup_seqZ].
  intros i j Hi Hj E. apply elem_of_seqZ in Hi, Hj.
  apply (positions_inj _ _ _ _ _ (wf_pos _ _ W)); [lia|lia|done].
Qed.

(** A queue of lines has room for one that is not in it. *)
Lemma queue_room spp l x :
  lines_inv spp l -> 0 <= x < spp.(blks_per_pl) -> ~ queued l x ->
  l.(victim_line_pq).(PQueue.size) < l.(victim_line_pq).(avail).
Proof.
  intros I Hx Hq. pose proof (wf_size _ _ (li_wf _ _ I)) as Sz.
  assert (L : Z.of_nat (length (x :: contents (victim_line_pq l))) <= spp.(blks_per_pl)).
  { apply range_length; [lia| |].
    - apply NoDup_cons. rewrite contents_mem. split; [done|]. eapply contents_nodup, I.
    - intros i Hi. apply elem_of_cons in Hi as [->|Hi]; [done|].
      apply contents_mem in Hi. by apply (li_queued _ _ I). }
  rewrite (li_avail _ _ I). cbn [length] in L. unfold contents in L.
  rewrite length_fmap, length_seqZ in L. lia.
Qed.

(** Counts never overflow 32 bits. *)
Lemma counts_small spp l : geom spp -> lists_inv spp l ->
  l.(victim_line_pq).(PQueue.size) <= l.(victim_line_pq).(avail) ->
  Z.of_nat (length (l.(free_line_list) ++ l.(full_line_list))) <= 65536 /\
  l.(victim_line_pq).(PQueue.size) - 1 <= 65536 /\ 0 <= l.(victim_line_pq).(PQueue.size) - 1.
Proof.
  intros G I Hq. pose proof (geom_blks _ G). pose proof (li_size _ _ I).
  pose proof (li_avail _ _ I). split; [|lia].
  pose proof (range_length _ (blks_per_pl spp) ltac:(lia) (li_nodup _ _ I) (li_range _ _ I)). lia.
Qed.

Lemma table_ok_pos tt g t t' : same_but_pos t t' -> table_ok tt g t -> table_ok tt g t'.
Proof. intros S T i Hi. rewrite S. by apply T. Qed.

(** Replacing the queue by an updated one. *)
Lemma inv_queue spp l m q t n :
  geom spp -> lists_inv spp l -> updated l.(victim_line_pq) l.(lines) m q t ->
  (forall i, m i -> 0 <= i < spp.(blks_per_pl) /\ ~ listed l i /\ 0 < (l.(lines) i).(igc)) ->
  (forall i, 0 <= i < spp.(blks_per_pl) -> ~ m i -> (l.(lines) i).(pos) = 0) ->
  n = q.(PQueue.size) - 1 ->
  lines_inv spp (set_victim_cnt (set_queue l q t) n) /\
  (forall i, queued (set_victim_cnt (set_queue l q t) n) i <-> m i).
Proof.
  intros G I (W & A & _ & M & F & _ & O) Hm Hp ->. split; [|exact M].
  pose proof (geom_blks _ G). pose proof (wf_size _ _ W). pose proof (li_avail _ _ I).
  split; [|done]. split; cbn; try apply I.
  - by eapply table_ok_pos, I.
  - by rewrite A.
  - intros i Hi. apply M in Hi. by destruct (Hm i Hi) as (? & ? & ?).
  - intros i Hi. apply M in Hi. rewrite F. by apply Hm.
  - intros i Hi Hn. rewrite <- (Hp i Hi) by (intros X; apply Hn; by apply M).
    apply O. intros X. apply Hn. by apply M.
  - intros i Hi. rewrite F. cbn. by apply (li_free _ _ I).
  - apply W.
  - apply u32_small. lia.
Qed.

(** A line whose new contents keep its identity, place and bounds. *)
Lemma inv_line spp l i x :
  lines_inv spp l -> 0 <= i < spp.(blks_per_pl) -> x.(id) = i -> counts_ok (line_grains spp) x ->
  x.(pos) = (l.(lines) i).(pos) ->
  (queued l i -> x.(vgc) = (l.(lines) i).(vgc) /\ 0 < x.(igc)) ->
  (i ∈ l.(free_line_list) -> x.(vgc) = 0 /\ x.(igc) = 0) ->
  lines_inv spp (set_line l i x).
Proof.
  intros I Hi Hid Hc Hp Hv Hf.
  assert (P : forall y, getpos (upd (lines l) i x) y = getpos (lines l) y).
  { intros y. cbn. unfold victim_line_get_pos. rewrite upd_case. by case_cmp; [subst|]. }
  split.
  - split; cbn; try apply I.
    + intros j Hj. rewrite upd_case. case_cmp; [by subst|]. by apply (li_table _ _ I).
    + intros j Hj. rewrite upd_case. case_cmp; [subst; by apply Hv|]. by apply (li_dead _ _ I).
    + intros j Hj Hn. rewrite upd_case. case_cmp; [|by apply (li_pos _ _ I)]. subst j. rewrite Hp.
      by apply (li_pos _ _ I).
    + intros j Hj. rewrite upd_case. case_cmp; [subst; auto|]. by apply (li_free _ _ I).
  - pose proof (li_wf _ _ I) as [W1 W2 W3 W4]. split; try done; cbn.
    + intros j Hj. rewrite P. by apply W3.
    + assert (Q : forall j, 1 <= j < PQueue.size (victim_line_pq l) ->
        victim_line_get_pri (upd (lines l) i x) (d (victim_line_pq l) j) =
        victim_line_get_pri (lines l) (d (victim_line_pq l) j)).
      { intros j Hj. unfold victim_line_get_pri. rewrite upd_case. case_cmp; [|done].
        destruct Hv as [Hv _]; [|by rewrite Hv, e]. exists j. split; [lia|done]. }
      intros j Hj. pose proof (W4 j Hj) as Ab. unfold above in *. cbn in *.
      rewrite !Q by zlia. exact Ab.
Qed.

(** ** Initialisation *)

Lemma init_lines_loop_spec n i l :
  0 <= l.(free_line_cnt) -> l.(free_line_cnt) + Z.of_nat n < 2 ^ 32 ->
  let l' := init_lines_loop n i l in
  l'.(free_line_list) = l.(free_line_list) ++ seqZ i (Z.of_nat n) /\
  l'.(free_line_cnt) = l.(free_line_cnt) + Z.of_nat n /\
  l'.(victim_line_pq) = l.(victim_line_pq) /\ l'.(full_line_list) = l.(full_line_list) /\
  l'.(lm_tt_lines) = l.(lm_tt_lines) /\
  forall j, l'.(lines) j = if (i <=? j) && (j <? i + Z.of_nat n)
    then mk_line j 0 0 0 0 0 0 0 0 false else l.(lines) j.
Proof.
  change (2 ^ 32) with 4294967296. revert i l. induction n as [|n IH]; intros i l H0 Hb.
  { cbn. rewrite app_nil_r, Z.add_0_r. split_and!; try done. intros j. repeat case_cmp; cbn; done || lia. }
  cbn [init_lines_loop]. cbv zeta in *. set (l1 := set_free _ _ _).
  assert (C : l1.(free_line_cnt) = l.(free_line_cnt) + 1) by (cbn; apply u32_small; lia).
  destruct (IH (i + 1) l1) as (F & Cn & Q & U & T & L); [lia|lia|].
  rewrite F, Cn, Q, U, T, C. split_and!; try done; try lia.
  - unfold l1. cbn [free_line_list set_free]. rewrite <- app_assoc. f_equal.
    rewrite (seqZ_cons i) by lia. cbn. f_equal. f_equal; lia.
  - intros j. rewrite L. unfold l1. cbn [lines set_free set_line set_lines]. rewrite upd_case.
    repeat case_cmp; cbn; try done; try lia. by subst.
Qed.

(** Line initialisation: every line starts free, with no valid and no invalid grain, the
    queue and the full list start empty, and the counters agree. *)
Theorem init_lines_correct s :
  geom (sp_of s) -> exists s', init_lines s = Ok s' /\ lines_inv (sp_of s') s'.(lm) /\
    s'.(sd) = s.(sd) /\ s'.(lm).(full_line_list) = [] /\
    s'.(lm).(free_line_list) = seqZ 0 (sp_of s).(blks_per_pl) /\
    (forall i, ~ queued s'.(lm) i).
Proof.
  intros G. pose proof (geom_blks _ G) as Hb. destruct (geom_line _ G) as (_ & _ & El & _ & Et & _).
  destruct (geom_pgs _ G) as (_ & _ & _ & Etp).
  unfold init_lines. rewrite Et, u32_small, Z.eqb_refl by lia. cbn [assert_ mbind result_mbind result_bind].
  set (b := blks_per_pl (sp_of s)) in *. set (l0 := mk_lm s.(lm).(lines) [] _ [] b 0 _ _).
  destruct (init_lines_loop_spec (Z.to_nat b) 0 l0) as (F & C & Q & U & T & L);
    [unfold l0; cbn; lia|unfold l0; cbn; change (2 ^ 32) with 4294967296; lia|].
  rewrite Z2Nat.id in * by lia. change (free_line_cnt l0) with 0 in C. rewrite Z.add_0_l in C.
  rewrite C, T, Z.eqb_refl.
  cbn [mbind result_mbind result_bind]. eexists. split; [done|].
  assert (Lt : forall j, 0 <= j < b -> (init_lines_loop (Z.to_nat b) 0 l0).(lines) j = mk_line j 0 0 0 0 0 0 0 0 false).
  { intros j Hj. by rewrite L, (proj2 (Z.leb_le _ _)), (proj2 (Z.ltb_lt _ _)) by (cbn; lia). }
  assert (NQ : forall i, ~ holds 1 (d (victim_line_pq (lm s))) i) by (intros i (j & Hj & _); lia).
  split; [|split_and!; [done|exact U|exact F|intros i; unfold queued, mem; cbn; rewrite Q; apply NQ]].
  change (sp_of _) with (sp_of s).
  split; [|split; cbn; rewrite ?Q; cbn; try lia; intros j Hj; lia].
  split; unfold listed, queued, mem; cbn; rewrite ?F, ?U, ?Q, ?app_nil_r; fold b; cbn; try done.
  - intros j Hj. rewrite Lt by done. split; [done|]. unfold counts_ok, line_grains. cbn.
    assert (0 <= pgs_per_line (sp_of s)) by (destruct (geom_consts _ G); lia).
    rewrite GPP_val. lia.
  - apply NoDup_seqZ.
  - intros i Hi. apply elem_of_seqZ in Hi. lia.
  - intros i Hi. by destruct (NQ i).
  - intros i Hi. by destruct (NQ i).
  - intros i Hi _. by rewrite Lt.
  - intros i Hi. apply elem_of_seqZ in Hi. rewrite Lt by lia. done.
  - rewrite length_seqZ. lia.
Qed.

(** ** The write pointer *)

(** The pointer [w] stands at page [n] of line [b]. *)
Definition wp_of (spp : ssdparams) (b n : Z) : write_pointer :=
  let p := page_at spp b n in mk_wp b p.(g_ch) p.(g_lun) p.(g_pg) b 0.

#[local] Ltac wfields :=
  cbv beta iota delta [negb andb assert_ mbind result_mbind result_bind curline wp_ch wp_lun wp_pg
    wp_blk wp_pl].

(** One step on the digits, as [bump_digits]. *)
Lemma wp_bump_digits spp b w l k r :
  geom spp -> 0 <= w < 4 -> 0 <= l < 8 -> 0 <= k < spp.(nchs) -> 0 <= r < 8 ->
  wp_bump spp (mk_wp b k l (w * 8 + r) b 0) =
  Ok (if r <? 7 then (mk_wp b k l (w * 8 + (r + 1)) b 0, false) else
      if k <? spp.(nchs) - 1 then (mk_wp b (k + 1) l (w * 8) b 0, false) else
      if l <? 7 then (mk_wp b 0 (l + 1) (w * 8) b 0, false) else
      if w =? 3 then (mk_wp b 0 0 0 b 0, true) else (mk_wp b 0 0 ((w + 1) * 8) b 0, false)).
Proof.
  intros G. destruct (geom_consts _ G) as (E1 & _ & E2 & E3 & E4 & Hn & _). intros Hw Hl Hk Hr.
  assert (P1 : (w * 8 + r + 1) mod 8 = if r <? 7 then r + 1 else 0) by (case_cmp; zlia).
  cbv beta delta [wp_bump check_addr]. wfields.
  rewrite E2, (proj2 (Z.geb_le _ 0)), (proj2 (Z.ltb_lt _ 32)) by lia. wfields. let_step p1 Q1.
  assert (p1 = mk_wp b k l (w * 8 + r + 1) b 0) as -> by
    (rewrite Q1; unfold wp_set_pg; cbn; by rewrite u32_small by lia).
  wfields. rewrite E1, P1.
  destruct (Z.ltb_spec r 7) as [C|C].
  { rewrite (proj2 (Z.eqb_neq (r + 1) 0)) by lia. wfields. do 3 f_equal. lia. }
  rewrite Z.eqb_refl. wfields. let_step p2 Q2.
  assert (p2 = mk_wp b k l (w * 8) b 0) as -> by
    (rewrite Q2; unfold wp_set_pg; cbn; rewrite u32_small by lia; f_equal; lia).
  wfields. rewrite (proj2 (Z.geb_le k 0)), (proj2 (Z.ltb_lt k _)) by lia. wfields. let_step p3 Q3.
  assert (p3 = mk_wp b (k + 1) l (w * 8) b 0) as -> by
    (rewrite Q3; unfold wp_set_ch; cbn; by rewrite u32_small by lia).
  wfields. destruct (Z.ltb_spec k (nchs spp - 1)) as [D|D].
  { by rewrite (proj2 (Z.eqb_neq (k + 1) _)) by lia. }
  rewrite (proj2 (Z.eqb_eq (k + 1) _)) by lia. wfields. let_step p4 Q4.
  change (p4 = mk_wp b 0 l (w * 8) b 0) in Q4. subst p4. wfields.
  rewrite E4, (proj2 (Z.geb_le l 0)), (proj2 (Z.ltb_lt l 8)) by lia. wfields. let_step p5 Q5.
  assert (p5 = mk_wp b 0 (l + 1) (w * 8) b 0) as -> by
    (rewrite Q5; unfold wp_set_lun; cbn; by rewrite u32_small by lia).
  wfields. destruct (Z.ltb_spec l 7) as [F|F].
  { by rewrite (proj2 (Z.eqb_neq (l + 1) _)) by lia. }
  rewrite (proj2 (Z.eqb_eq (l + 1) _)) by lia. wfields. let_step p6 Q6. let_step p7 Q7.
  assert (p7 = mk_wp b 0 0 ((w + 1) * 8) b 0) as -> by
    (rewrite Q7, Q6; unfold wp_set_pg, wp_set_lun; cbn; change (u32 0) with 0; rewrite u32_small by lia; f_equal; lia).
  wfields. destruct (Z.eqb_spec w 3) as [->|W]; [done|].
  by rewrite (proj2 (Z.eqb_neq ((w + 1) * 8) 32)) by lia.
Qed.

(** On the line's pages the write pointer steps as [peek_next_page] does. *)
Lemma wp_bump_spec spp b n :
  geom spp -> 0 <= b < spp.(blks_per_pl) -> 0 <= n < spp.(pgs_per_line) ->
  wp_bump spp (wp_of spp b n) =
  Ok (if n =? spp.(pgs_per_line) - 1 then (wp_of spp b 0, true) else (wp_of spp b (n + 1), false)).
Proof.
  intros G Hb Hn. pose proof (bump_page_at spp G b n Hb Hn) as B. revert B.
  pose proof (page_at_ok spp G b n Hb Hn) as [V _]. apply (valid_ppa_iff spp G) in V.
  unfold wp_of. destruct (geom_consts _ G) as (E1 & _).
  set (p := page_at spp b n) in *.
  assert (Ep : p = mk_ppa (p.(g_pg) / 8 * 8 + p.(g_pg) mod 8) b 0 p.(g_lun) p.(g_ch) 0).
  { pose proof (Z.div_mod (g_pg p) 8 ltac:(lia)). destruct p as [x1 x2 x3 x4 x5 x6] eqn:Ed. cbn in *.
    assert (x2 = b /\ x6 = 0) as [-> ->] by (unfold p, page_at in Ed; by injection Ed as <- <- <- <- <- <-).
    f_equal; lia. }
  pose proof (Z.mod_pos_bound (g_pg p) 8 ltac:(lia)).
  assert (0 <= g_pg p / 8 < 4) by zlia.
  rewrite Ep at 1. rewrite bump_digits by (done || lia).
  assert (Ew : mk_wp b (g_ch p) (g_lun p) (g_pg p) b 0 =
    mk_wp b (g_ch p) (g_lun p) (g_pg p / 8 * 8 + g_pg p mod 8) b 0)
    by (f_equal; pose proof (Z.div_mod (g_pg p) 8); lia).
  assert (P0 : page_at spp b 0 = mk_ppa 0 b 0 0 0 0)
    by (unfold page_at; by rewrite !Zdiv_0_l, !Zmod_0_l).
  cbv zeta. rewrite Ew, wp_bump_digits, P0 by (done || lia). clear Ew Ep.
  generalize (page_at spp b (n + 1)). clearbody p. intros q. cbn [g_ch g_lun g_pg].
  destruct (n =? _); repeat case_cmp; intros E; first [reflexivity|discriminate E|injection E as <-; reflexivity].
Qed.

Lemma line_at_ok spp l i : lines_inv spp l -> 0 <= i < spp.(blks_per_pl) ->
  line_at l i = Ok (l.(lines) i).
Proof. intros I Hi. unfold line_at. rewrite (li_tt _ _ I). by apply cell_in. Qed.

(** Queueing an open line. *)
Lemma queue_line spp l c :
  geom spp -> lines_inv spp l -> is_open l spp c -> 0 < (l.(lines) c).(igc) ->
  exists q t, pqueue_insert l.(victim_line_pq) l.(lines) c = Ok (q, t) /\
    same_but_pos l.(lines) t /\
    lines_inv spp (set_victim_cnt (set_queue l q t) (l.(victim_line_cnt) + 1)) /\
    forall i, queued (set_victim_cnt (set_queue l q t) (l.(victim_line_cnt) + 1)) i <->
      queued l i \/ i = c.
Proof.
  intros G I (Hc & Hl & Hq) Hg.
  destruct (insert_ok _ _ c (li_wf _ _ I) Hq (queue_room _ _ _ I Hc Hq)) as (q & t & E & S & U).
  exists q, t. split; [done|]. split; [apply U|].
  apply (inv_queue spp l (fun i => mem (victim_line_pq l) i \/ i = c)); try done.
  - apply I.
  - intros i [Hi| ->]; [|done]. destruct (li_queued _ _ I i Hi). by pose proof (li_dead _ _ I i Hi).
  - intros i Hi Hn. apply (li_pos _ _ I); [done|]. intros X. apply Hn. by left.
  - rewrite S, (li_victim_cnt _ _ I). lia.
Qed.

(** What [retire_line] does with the open line [c]. *)
Lemma retire_line_ok spp l c :
  geom spp -> lines_inv spp l -> is_open l spp c ->
  exists l', retire_line spp l c = Ok l' /\ lines_inv spp l' /\
    same_but_pos l.(lines) l'.(lines) /\ l'.(free_line_list) = l.(free_line_list) /\
    if (l.(lines) c).(igc) =? 0
    then l'.(full_line_list) = l.(full_line_list) ++ [c] /\ (forall i, queued l' i <-> queued l i)
    else l'.(full_line_list) = l.(full_line_list) /\ (forall i, queued l' i <-> queued l i \/ i = c).
Proof.
  intros G I O. pose proof O as (Hc & Hl & Hq). unfold retire_line.
  rewrite (line_at_ok _ _ _ I Hc). cbn [mbind result_mbind result_bind].
  destruct (li_table _ _ I c Hc) as (_ & V & Ig & Le & Ip).
  pose proof (counts_small _ _ G I ltac:(apply (wf_size _ _ (li_wf _ _ I)))) as (Cl & Cq & _). rewrite length_app in Cl.
  destruct (Z.eqb_spec (igc (lines l c)) 0) as [E|E].
  - rewrite Ip. cbn. eexists. split; [done|]. split; [|done].
    unfold listed in Hl. rewrite elem_of_app in Hl. split; [|apply I]. split; cbn; try apply I.
    + rewrite app_assoc. apply NoDup_app. split; [apply I|]. split; [|apply NoDup_singleton].
      intros i Hi Hx. rewrite list_elem_of_singleton in Hx. subst. apply Hl. by apply elem_of_app.
    + unfold listed. cbn. intros i. rewrite !elem_of_app, list_elem_of_singleton.
      intros [Hi|[Hi| ->]]; [| |done]; apply (li_range _ _ I); unfold listed; rewrite elem_of_app; auto.
    + intros i Hi. destruct (li_queued _ _ I i Hi) as [R N]. split; [done|].
      unfold listed in *. cbn. rewrite !elem_of_app, list_elem_of_singleton in *.
      intros [X|[X| ->]]; [tauto|tauto|done].
    + rewrite (li_full_cnt _ _ I), length_app. cbn. rewrite u32_small by lia. lia.
  - rewrite (proj2 (Z.geb_le _ 0)), (proj2 (Z.ltb_lt _ _)), (proj2 (Z.gtb_lt _ 0))
      by (unfold line_grains in Le; lia).
    cbn [andb assert_ mbind result_mbind result_bind].
    destruct (queue_line _ _ _ G I O ltac:(lia)) as (q & t & -> & S & I' & Q).
    cbn [mbind result_mbind result_bind]. eexists. split; [done|]. split; [done|].
    split; [done|]. split; [done|]. split; done.
Qed.

(** Taking the first free line. *)
Lemma get_next_free_line_ok spp l c rest :
  geom spp -> lines_inv spp l -> l.(free_line_list) = c :: rest ->
  exists l', get_next_free_line l = Ok (c, l') /\ lines_inv spp l' /\ is_open l' spp c /\
    l'.(lines) = l.(lines) /\ l'.(free_line_list) = rest /\
    l'.(full_line_list) = l.(full_line_list) /\ l'.(victim_line_pq) = l.(victim_line_pq) /\
    (l.(lines) c).(vgc) = 0 /\ (l.(lines) c).(igc) = 0.
Proof.
  intros G I E. unfold get_next_free_line. rewrite E. eexists. split; [done|].
  pose proof (li_nodup _ _ I) as N. rewrite E in N. cbn in N. apply NoDup_cons in N as [Nc N].
  pose proof (counts_small _ _ G I ltac:(apply (wf_size _ _ (li_wf _ _ I)))) as (Cl & _ & _). rewrite E, length_app in Cl. cbn in Cl.
  assert (Lc : listed l c) by (unfold listed; rewrite E; constructor).
  assert (Sub : forall i, i ∈ rest ++ full_line_list l -> listed l i).
  { intros i Hi. unfold listed. rewrite E. cbn. by constructor. }
  assert (I' : lines_inv spp (set_free l rest (free_line_cnt l - 1))).
  { split; [|apply I]. split; cbn; try apply I; try done.
    - intros i Hi. by apply (li_range _ _ I), Sub.
    - intros i Hi. destruct (li_queued _ _ I i Hi) as [R X]. split; [done|]. intros Y. by apply X, Sub.
    - intros i Hi. apply (li_free _ _ I). rewrite E. by constructor.
    - rewrite (li_free_cnt _ _ I), E. cbn [length]. rewrite u32_small; lia. }
  destruct (li_free _ _ I c) as [V Ig]; [rewrite E; constructor|].
  split; [done|]. split; [|done]. split; [by apply (li_range _ _ I)|]. split; [done|].
  intros Hq. by apply (li_queued _ _ I) in Hq as [_ Hq].
Qed.

Lemma listed_ext l l' :
  l'.(free_line_list) = l.(free_line_list) -> l'.(full_line_list) = l.(full_line_list) ->
  forall i, listed l' i <-> listed l i.
Proof. intros A B i. unfold listed. by rewrite A, B. Qed.

(** Marking a fresh line as data or map. *)
Lemma set_map_ok spp l c b :
  lines_inv spp l -> 0 <= c < spp.(blks_per_pl) ->
  lines_inv spp (set_line l c (set_map (l.(lines) c) b)).
Proof.
  intros I Hc. destruct (li_table _ _ I c Hc) as (Hid & Hcs). apply inv_line; try done.
  - intros Hq. split; [done|]. by apply (li_dead _ _ I).
  - by apply (li_free _ _ I).
Qed.

(** What a shard's open line needs of the write pointer. *)
Definition wp_ok (s : demand_shard) (t : io_type) (b n : Z) : Prop :=
  __get_wp s t = wp_of (sp_of s) b n /\ is_open s.(lm) (sp_of s) b /\
  0 <= n < (sp_of s).(pgs_per_line).

(** The line list changes of one step: the used-up line [b] is retired, the
    first free line [c] is opened. *)
Record line_switch (s s' : demand_shard) (b c : Z) : Prop := {
  sw_free : s.(lm).(free_line_list) = c :: s'.(lm).(free_line_list);
  sw_full : s'.(lm).(full_line_list) = s.(lm).(full_line_list) ++
    (if (s.(lm).(lines) b).(igc) =? 0 then [b] else []);
  sw_queue : forall i, queued s'.(lm) i <->
    queued s.(lm) i \/ (i = b /\ (s.(lm).(lines) b).(igc) <> 0);
  sw_vgc : forall i, (s'.(lm).(lines) i).(vgc) = (s.(lm).(lines) i).(vgc) /\
    (s'.(lm).(lines) i).(igc) = (s.(lm).(lines) i).(igc)
}.

Lemma set_wp_get s t w : __get_wp (set_wp s t w) t = w.
Proof. by destruct t. Qed.

Lemma count_page_same s t :
  (count_page s t).(sd) = s.(sd) /\ (count_page s t).(lm) = s.(lm) /\
  __get_wp (count_page s t) t = __get_wp s t.
Proof. by destruct t. Qed.

(** C21 (write pointer): advancing the write pointer from page [n] of its line goes to page
    [n + 1]; from the last page it retires the line - to the full list if no grain is invalid,
    else to the victim queue - and opens the first free line at its first page. The line lists
    stay a partition. Without a free line it stops the machine. *)
Theorem advance_write_pointer_correct s t b n :
  geom (sp_of s) -> lines_inv (sp_of s) s.(lm) -> wp_ok s t b n ->
  if n =? (sp_of s).(pgs_per_line) - 1 then
    match s.(lm).(free_line_list) with
    | [] => advance_write_pointer s t = Err BUG
    | c :: _ => exists s', advance_write_pointer s t = Ok s' /\ lines_inv (sp_of s) s'.(lm) /\
        s'.(sd) = s.(sd) /\ wp_ok s' t c 0 /\ line_switch s s' b c
    end
  else exists s', advance_write_pointer s t = Ok s' /\ s'.(lm) = s.(lm) /\ s'.(sd) = s.(sd) /\
    wp_ok s' t b (n + 1).
Proof.
  intros G I (Hw & O & Hn). pose proof O as (Hb & _). unfold advance_write_pointer.
  destruct (count_page_same s t) as (Es & El & Ew). rewrite Ew, Hw, wp_bump_spec by done.
  set (s0 := count_page s t) in *. set (spp := sp_of s) in *.
  destruct (Z.eqb_spec n (pgs_per_line spp - 1)) as [E|E]; cbn [mbind result_mbind result_bind negb].
  2:{ eexists. split; [done|]. split; [done|]. split; [done|]. unfold wp_ok, sp_of. rewrite set_wp_get.
      cbn [set_wp lm sd]. rewrite Es, El. split; [done|]. split; [done|]. fold (sp_of s). fold spp. lia. }
  rewrite El. change (curline (wp_of spp b 0)) with b.
  destruct (retire_line_ok spp s.(lm) b G I O) as (l1 & -> & I1 & S1 & F1 & R).
  cbn [mbind result_mbind result_bind]. change (wp_blk (wp_of spp b 0)) with b.
  rewrite check_addr_ok by done. cbn [mbind result_mbind result_bind]. rewrite <- F1.
  destruct (free_line_list l1) as [|c rest] eqn:Ef.
  { unfold get_next_free_line. by rewrite Ef. }
  destruct (get_next_free_line_ok spp l1 c rest G I1 Ef) as (l2 & -> & I2 & O2 & L2 & F2 & U2 & Q2 & V2 & G2).
  pose proof O2 as (Hc & _). pose proof (geom_blks _ G) as Hbk. fold spp in Hbk.
  cbn [mbind result_mbind result_bind]. rewrite (line_at_ok _ _ _ I2 Hc).
  cbn [mbind result_mbind result_bind]. destruct (li_table _ _ I2 c Hc) as (Hid & _).
  assert (P0 : wp_of spp b 0 = mk_wp b 0 0 0 b 0)
    by (unfold wp_of, page_at; by rewrite !Zdiv_0_l, !Zmod_0_l).
  rewrite P0. cbn [curline wp_ch wp_lun wp_pg wp_blk wp_pl]. rewrite Hid, u32_small by lia.
  rewrite check_addr_ok by done. cbn [assert_ mbind result_mbind result_bind Z.eqb].
  eexists. split; [done|]. split; [by apply set_map_ok|]. split; [done|]. split.
  - split; [|split].
    + rewrite set_wp_get. unfold wp_of, page_at. cbn. by rewrite !Zdiv_0_l, !Zmod_0_l.
    + unfold sp_of. cbn [set_wp set_lm sd lm]. rewrite Es. exact O2.
    + unfold sp_of. cbn [set_wp set_lm sd]. rewrite Es. fold (sp_of s). fold spp. lia.
  - assert (EL : forall i, (upd (lines l2) c (set_map (lines l2 c) (is_map_io t)) i).(vgc) = (s.(lm).(lines) i).(vgc) /\
      (upd (lines l2) c (set_map (lines l2 c) (is_map_io t)) i).(igc) = (s.(lm).(lines) i).(igc)).
    { intros i. rewrite upd_case, L2. case_cmp; [subst|]; cbn; by rewrite S1. }
    split; cbn [set_wp set_lm lm free_line_list full_line_list set_line set_lines lines].
    + by rewrite <- F1, F2.
    + rewrite U2. revert R. case_cmp; intros [-> _]; [done|by rewrite app_nil_r].
    + intros i. unfold queued. cbn. rewrite Q2. fold (queued l1 i). revert R.
      case_cmp; intros [_ R]; rewrite R; intuition congruence.
    + exact EL.
Qed.

(** ** Invalidation *)

Lemma list_del_other x l : x ∉ l -> list_del x l = l.
Proof.
  induction l as [|y l IH]; [done|]. rewrite elem_of_cons. intros H. unfold list_del.
  rewrite filter_cons_True by (intros ->; tauto). f_equal. apply IH. tauto.
Qed.

Lemma elem_of_list_del x y l : y ∈ list_del x l <-> y ∈ l /\ y <> x.
Proof. unfold list_del. rewrite list_elem_of_filter. tauto. Qed.

Lemma length_list_del x l : NoDup l -> x ∈ l -> S (length (list_del x l)) = length l.
Proof.
  intros N Hx. apply list_elem_of_split in Hx as (l1 & l2 & ->).
  apply NoDup_app in N as (_ & N1 & N2). apply NoDup_cons in N2 as [N2 _].
  assert (x ∉ l1) by (intros X; apply (N1 x X); constructor).
  unfold list_del. rewrite filter_app, filter_cons_False by tauto.
  fold (list_del x l1) (list_del x l2). rewrite !list_del_other by done. rewrite !length_app. cbn. lia.
Qed.

(** The bookkeeping of [len] grains of line [i] lost. *)
Record line_lost (spp : ssdparams) (l l' : line_mgmt) (i len : Z) : Prop := {
  lost_line : (l'.(lines) i).(vgc) = (l.(lines) i).(vgc) - len /\
    (l'.(lines) i).(igc) = (l.(lines) i).(igc) + len;
  lost_other : forall j, j <> i -> (l'.(lines) j).(vgc) = (l.(lines) j).(vgc) /\
    (l'.(lines) j).(igc) = (l.(lines) j).(igc);
  lost_free : l'.(free_line_list) = l.(free_line_list);
  lost_full : l'.(full_line_list) =
    if (l.(lines) i).(vgc) =? line_grains spp then list_del i l.(full_line_list)
    else l.(full_line_list);
  lost_queue : forall j, queued l' j <->
    queued l j \/ (j = i /\ (l.(lines) i).(vgc) = line_grains spp)
}.

Lemma line_grains_small spp : geom spp -> 256 <= line_grains spp <= 16384.
Proof. intros G. unfold line_grains. rewrite GPP_val. destruct (geom_consts _ G). lia. Qed.

(** A queued line sinks to its new priority. *)
Lemma lose_queued spp l i len :
  geom spp -> lines_inv spp l -> queued l i -> 0 <= i < spp.(blks_per_pl) ->
  0 < len <= (l.(lines) i).(vgc) ->
  let x := set_igc (l.(lines) i) ((l.(lines) i).(igc) + len) in
  exists q t, pqueue_change_priority (St := line_table) l.(victim_line_pq) (upd l.(lines) i x) ((l.(lines) i).(vgc) - len) i
      = Ok (q, t) /\
    lines_inv spp (set_queue l q t) /\ line_lost spp l (set_queue l q t) i len.
Proof.
  intros G I Q Hi Hl x. destruct (li_table _ _ I i Hi) as (Hid & V & Ig & Le & Ip).
  pose proof (line_grains_small _ G) as Gs. pose proof (li_dead _ _ I i Q) as Hd.
  assert (P : forall y, getpos (upd (lines l) i x) y = getpos (lines l) y).
  { intros y. cbn. unfold victim_line_get_pos. rewrite upd_case. by case_cmp; [subst|]. }
  assert (R : forall y, getpri (upd (lines l) i x) y = getpri (lines l) y).
  { intros y. cbn. unfold victim_line_get_pri. rewrite upd_case. by case_cmp; [subst|]. }
  assert (W : PQueue.wf (victim_line_pq l) (upd (lines l) i x)).
  { destruct (li_wf _ _ I) as [W1 W2 W3 W4]. split; try done; intros j Hj.
    - rewrite P. by apply W3.
    - unfold above. rewrite !R. by apply W4. }
  set (v := vgc (lines l i) - len).
  destruct (change_ok (St := line_table) _ _ v i W Q) as (q & t & E & Sz & U & _ & _); [cbn; unfold v; lia|].
  exists q, t. split; [exact E|].
  set (l1 := set_lines l (setpri (upd (lines l) i x) i v)).
  assert (L1 : forall j, lines l1 j = if j =? i then set_vgc x v else lines l j).
  { intros j. cbn. unfold victim_line_set_pri. rewrite upd_eq, i32_small by (unfold v; lia).
    rewrite !upd_case. by case_cmp. }
  assert (I1 : lists_inv spp l1).
  { destruct I as [I _]. split; try apply I.
    - intros j Hj. rewrite L1. case_cmp; [|by apply (li_table _ _ I)]. subst j. split; [done|].
      unfold counts_ok, x, v. cbn. lia.
    - intros j Hj. rewrite L1. case_cmp; [cbn; lia|]. by apply (li_dead _ _ I).
    - intros j Hj Hn. rewrite L1. case_cmp; [by subst|]. by apply (li_pos _ _ I).
    - intros j Hj. rewrite L1. case_cmp; [|by apply (li_free _ _ I)]. subst j.
      destruct (li_queued _ _ I i Q) as [_ X]. destruct X. apply elem_of_app. by left. }
  destruct (inv_queue spp l1 _ q t (PQueue.size q - 1) G I1 U) as [I2 M2].
  - intros j Hj. pose proof (li_queued _ _ I1 j Hj) as [A B]. pose proof (li_dead _ _ I1 j Hj). done.
  - intros j Hj Hn. by apply (li_pos _ _ I1).
  - done.
  - assert (El : set_victim_cnt (set_queue l1 q t) (PQueue.size q - 1) = set_queue l q t).
    { unfold set_victim_cnt, set_queue. cbn. rewrite Sz, <- (li_victim_cnt _ _ I), u32_small; [done|].
      pose proof (wf_size _ _ W). pose proof (li_avail _ _ I). pose proof (geom_blks _ G).
      rewrite (li_victim_cnt _ _ I). lia. }
    rewrite El in *. split; [done|].
    assert (F : same_but_pos (lines l1) t) by apply U.
    split; cbn; try done.
    + rewrite F, L1, Z.eqb_refl. unfold x, v. cbn. lia.
    + intros j Hj. rewrite F, L1. by rewrite (proj2 (Z.eqb_neq j i) Hj).
    + rewrite (proj2 (Z.eqb_neq _ _)) by lia. done.
    + intros j. rewrite M2. fold (queued l j). split; [by left|intros [?|[-> ?]]; [done|lia]].
Qed.

Lemma inv_table_ext spp l t :
  lines_inv spp l -> (forall a, t a = l.(lines) a) -> lines_inv spp (set_lines l t).
Proof.
  intros [I [W1 W2 W3 W4]] E. split.
  - split; cbn; try apply I; intros i; rewrite ?E; apply I.
  - split; cbn; try done.
    + intros j Hj. cbn. unfold victim_line_get_pos. rewrite E. by apply W3.
    + intros j Hj. unfold above, victim_line_get_pri in *. cbn. unfold victim_line_get_pri.
      rewrite !E. by apply W4.
Qed.

Lemma line_at_set spp l i x : lists_inv spp l -> 0 <= i < spp.(blks_per_pl) ->
  line_at (set_line l i x) i = Ok x.
Proof.
  intros I Hi. unfold line_at. cbn. rewrite (li_tt _ _ I), cell_in by done. by rewrite upd_eq.
Qed.

(** A fully valid line leaves the full list for the queue. *)
Lemma full_to_victim spp l i :
  geom spp -> lines_inv spp l -> i ∈ l.(full_line_list) -> 0 < (l.(lines) i).(igc) ->
  let l1 := set_free l (list_del i l.(free_line_list)) l.(free_line_cnt) in
  let l1 := set_full l1 (list_del i l1.(full_line_list)) (l1.(full_line_cnt) - 1) in
  exists q t, pqueue_insert l1.(victim_line_pq) l1.(lines) i = Ok (q, t) /\
    same_but_pos l.(lines) t /\
    let l' := set_victim_cnt (set_queue l1 q t) (l1.(victim_line_cnt) + 1) in
    lines_inv spp l' /\ l'.(free_line_list) = l.(free_line_list) /\
    l'.(full_line_list) = list_del i l.(full_line_list) /\
    forall j, queued l' j <-> queued l j \/ j = i.
Proof.
  intros G I Hf Hg l0 l1.
  pose proof (counts_small _ _ G I ltac:(apply (wf_size _ _ (li_wf _ _ I)))) as (Cl & _ & _).
  rewrite length_app in Cl. pose proof (li_nodup _ _ I) as N. apply NoDup_app in N as (N1 & N2 & N3).
  assert (Ef : list_del i l.(free_line_list) = l.(free_line_list)).
  { apply list_del_other. intros X. by apply (N2 i X). }
  pose proof (length_list_del i _ N3 Hf) as Ln.
  assert (Sub : forall j, listed l1 j -> listed l j /\ j <> i).
  { intros j. unfold listed. cbn -[list_del]. rewrite Ef, !elem_of_app, elem_of_list_del.
    intros [X|[X Y]]; [|tauto]. split; [tauto|]. intros ->. by apply (N2 i X). }
  assert (I1 : lines_inv spp l1).
  { split; [|apply I]. split; cbn -[list_del]; rewrite ?Ef; try apply I.
    - apply NoDup_app. split; [done|]. split; [|by apply NoDup_filter].
      intros j Hj X. apply elem_of_list_del in X as [X _]. by apply (N2 j Hj).
    - intros j Hj. by apply (li_range _ _ I), Sub.
    - intros j Hj. destruct (li_queued _ _ I j Hj) as [A B]. split; [done|]. intros X. by apply B, Sub.
    - rewrite (li_free_cnt _ _ I), u32_small; lia.
    - rewrite (li_full_cnt _ _ I), u32_small; lia. }
  assert (O : is_open l1 spp i).
  { assert (Li : listed l i) by (unfold listed; rewrite elem_of_app; by right).
    split; [by apply (li_range _ _ I)|]. split; [intros X; by apply Sub in X as [_ X]|].
    intros X. by destruct (li_queued _ _ I i X). }
  destruct (queue_line spp l1 i G I1 O Hg) as (q & t & E & S & I2 & Q).
  exists q, t. split; [exact E|]. split; [exact S|]. split; [exact I2|].
  split; [exact Ef|]. split; [done|exact Q].
Qed.

Lemma line_lose_ok spp l i len :
  geom spp -> lines_inv spp l -> 0 <= i < spp.(blks_per_pl) ->
  0 < len <= (l.(lines) i).(vgc) ->
  ((l.(lines) i).(vgc) = line_grains spp -> i ∈ l.(full_line_list)) ->
  exists l', line_lose spp l i len false = Ok (l', (l.(lines) i).(vgc) =? line_grains spp) /\
    lines_inv spp l' /\ line_lost spp l l' i len.
Proof.
  intros G I Hi Hl Hf. destruct (li_table _ _ I i Hi) as (Hid & V & Ig & Le & Ip).
  pose proof (line_grains_small _ G) as Gs. unfold line_lose.
  rewrite (line_at_ok _ _ _ I Hi). cbn [mbind result_mbind result_bind].
  set (x := lines l i) in *.
  rewrite (proj2 (Z.geb_le (igc x) 0)), (proj2 (Z.ltb_lt (igc x) _)) by lia.
  cbn [andb assert_ mbind result_mbind result_bind].
  rewrite !u64_small by lia.
  assert (Ew : (if vgc x >=? line_grains spp then _ ← assert_ (igc x =? 0); Ok true else Ok false) =
    Ok (vgc x =? line_grains spp)).
  { rewrite Z.geb_leb. repeat case_cmp; cbn; try done; lia. }
  rewrite Ew. cbn [mbind result_mbind result_bind]. rewrite (proj2 (Z.ltb_lt (igc x) _)) by lia.
  cbn [assert_ mbind result_mbind result_bind]. rewrite i32_small by lia.
  rewrite (line_at_set spp) by first [exact (li_lists _ _ I)|done]. cbn [mbind result_mbind result_bind set_igc pos vgc].
  rewrite u32_small, i32_small by lia.
  assert (Post : forall l', lines_inv spp l' -> line_lost spp l l' i len ->
    forall w : bool, exists l'', (x' ← line_at l' i; _ ← assert_ ((vgc x' >=? 0) && (vgc x' <=? line_grains spp)); Ok (l', w)) = Ok (l'', w) /\
      lines_inv spp l'' /\ line_lost spp l l'' i len).
  { intros l' I' L' w. exists l'. split; [|done]. rewrite (line_at_ok _ _ _ I' Hi).
    cbn [mbind result_mbind result_bind]. destruct (lost_line _ _ _ _ _ L') as [-> _].
    rewrite (proj2 (Z.geb_le _ 0)), (proj2 (Z.leb_le _ _)) by (fold x; lia). done. }
  assert (Eq : queued l i \/ ~ queued l i).
  { destruct (decide (i ∈ contents (victim_line_pq l))) as [D|D]; rewrite contents_mem in D; auto. }
  destruct Eq as [Q|Q].
  - destruct (mem_pos _ _ _ (li_wf _ _ I) Q) as [Hp _]. cbn in Hp. unfold victim_line_get_pos in Hp.
    rewrite (proj2 (Z.eqb_neq (pos x) 0)) by (fold x in Hp; lia). cbn [negb].
    destruct (lose_queued spp l i len G I Q Hi Hl) as (q & t & E & I' & L'). cbn [victim_line_pq set_line set_lines lines].
    fold x in E. rewrite E. cbn [mbind result_mbind result_bind].
    pose proof (li_dead _ _ I i Q) as Hd. fold x in Hd.
    rewrite (proj2 (Z.eqb_neq (vgc x) _)) by lia. cbn [mbind result_mbind result_bind].
    apply (Post _ I' L').
  - pose proof (li_pos _ _ I i Hi Q) as P0. fold x in P0. rewrite P0. cbn [negb Z.eqb].
    set (y := set_vgc (set_igc x (igc x + len)) (vgc x - len)).
    set (l1 := set_line (set_line _ i _) i _). cbn [mbind result_mbind result_bind].
    assert (L1 : forall j, lines l1 j = if j =? i then y else lines l j).
    { intros j. cbn. rewrite !upd_case. by case_cmp. }
    assert (I1 : lines_inv spp l1).
    { apply (inv_table_ext spp (set_line l i y)).
      - apply inv_line; try done; unfold y, counts_ok; cbn; try lia.
        intros X. pose proof (li_free _ _ I i X). unfold x in *. lia.
      - intros j. etransitivity; [exact (L1 j)|]. cbn. by rewrite upd_case. }
    destruct (Z.eqb_spec (vgc x) (line_grains spp)) as [F|F].
    + cbn [mbind result_mbind result_bind].
      destruct (full_to_victim spp l1 i G I1 (Hf F)) as (q & t & -> & S & I2 & E1 & E2 & Q2).
      { rewrite L1, Z.eqb_refl. unfold y. cbn. lia. }
      cbn [mbind result_mbind result_bind]. apply (Post _ I2). split; try done.
      * cbn. rewrite S, L1, Z.eqb_refl. done.
      * intros j Hj. cbn. rewrite S, L1. by rewrite (proj2 (Z.eqb_neq j i) Hj).
      * rewrite E2. fold x. by rewrite F, Z.eqb_refl.
      * intros j. rewrite Q2. fold x. tauto.
    + cbn [mbind result_mbind result_bind]. apply (Post _ I1). split; try done.
      * rewrite L1, Z.eqb_refl. done.
      * intros j Hj. by rewrite L1, (proj2 (Z.eqb_neq j i) Hj).
      * fold x. by rewrite (proj2 (Z.eqb_neq _ _) F).
      * intros j. fold x. tauto.
Qed.

(** ** Pages and grains of a shard *)

(** The state of a shard between operations. *)
Record shard_inv (s : demand_shard) : Prop := {
  sh_tree : tree_ok s.(sd);
  sh_lines : lines_inv (sp_of s) s.(lm)
}.

Lemma sh_geom s : shard_inv s -> geom (sp_of s).
Proof. intros I. apply (ok_geom _ (sh_tree _ I)). Qed.

Lemma page_ok_in_ssd s p : geom (sp_of s) -> page_ok (sp_of s) p -> in_ssd s.(sd) p.
Proof.
  intros G [V _]. apply (valid_ppa_iff _ G) in V. destruct (geom_consts _ G) as (_ & _ & E2 & E3 & E4 & _).
  unfold in_ssd. fold (sp_of s). rewrite E2, E3, E4. lia.
Qed.

(** The page of a grain. *)
Lemma grain_page s g : shard_inv s -> 0 <= g < (sp_of s).(tt_pgs) * GRAIN_PER_PAGE ->
  exists p, ppa_to_struct (sp_of s) (g / GRAIN_PER_PAGE) = Ok p /\ page_ok (sp_of s) p /\
    in_ssd s.(sd) p /\ pgidx (sp_of s) p = g / GRAIN_PER_PAGE /\ 0 <= p.(g_blk) < (sp_of s).(blks_per_pl).
Proof.
  intros I Hg. pose proof (sh_geom _ I) as G. rewrite GPP_val in *.
  destruct (ppa_to_struct_ok _ G (g / 8)) as (p & E & P & X).
  { split; [apply Z.div_pos; lia|]. apply Z.div_lt_upper_bound; lia. }
  exists p. split; [done|]. split; [done|]. split; [by apply page_ok_in_ssd|]. split; [done|].
  apply (valid_ppa_iff _ G) in P as [V _] || (destruct P as [P _]; apply (valid_ppa_iff _ G) in P; lia).
Qed.

Definition page_at_ppa (s : demand_shard) (p : ppa) : nand_page := (blk_at s.(sd) p).(pg) p.(g_pg).

(** Everything of the shard but the device. *)
Definition same_but_device (s s' : demand_shard) : Prop := s' = set_sd s s'.(sd).

Lemma move_page_ok s p from to :
  shard_inv s -> in_ssd s.(sd) p -> (page_at_ppa s p).(status) = from ->
  exists s', move_page s p from to = Ok s' /\ shard_inv s' /\ same_but_device s s' /\
    sp_of s' = sp_of s /\
    (forall q, (page_at_ppa s' q).(status) =
      if decide (same_blk p q /\ q.(g_pg) = p.(g_pg)) then to else (page_at_ppa s q).(status)) /\
    (forall q, (blk_at s'.(sd) q).(Ssd.igc) = (blk_at s.(sd) q).(Ssd.igc) /\
               (blk_at s'.(sd) q).(Ssd.vgc) = (blk_at s.(sd) q).(Ssd.vgc)).
Proof.
  intros [T L] Hp Hst. unfold move_page.
  set (f := fun b : nand_block => _).
  set (x := page_at_ppa s p) in *.
  assert (Ef : f (blk_at s.(sd) p) =
    Ok (set_pgs (blk_at s.(sd) p) (upd (blk_at s.(sd) p).(pg) p.(g_pg) (set_status x to)))).
  { unfold f. rewrite modify_in by (rewrite blk_npgs by done; apply Hp).
    unfold page_is. fold (page_at_ppa s p). fold x.
    rewrite bool_decide_true by done. done. }
  destruct (mod_blk_ok _ _ f _ T Hp Ef eq_refl) as (d & -> & Td & Ed & Bd).
  cbn [mbind result_mbind result_bind]. eexists. split; [done|].
  split; [split; [done|unfold sp_of; cbn; by rewrite Ed]|]. split; [done|]. split; [unfold sp_of; cbn; by rewrite Ed|]. split.
  - intros q. unfold page_at_ppa. cbn [set_sd sd]. rewrite Bd.
    destruct (decide (same_blk p q)) as [S|S].
    + cbn [set_pgs pg]. rewrite upd_case. destruct S as (S1 & S2 & S3 & S4).
      destruct (Z.eqb_spec (g_pg q) (g_pg p)) as [E|E].
      * rewrite decide_True by done. done.
      * rewrite decide_False by tauto. unfold blk_at. by rewrite S1, S2, S3, S4.
    + by rewrite decide_False by tauto.
  - intros q. cbn [set_sd sd]. rewrite Bd. destruct (decide (same_blk p q)) as [S|S]; [|done].
    destruct S as (S1 & S2 & S3 & S4). unfold blk_at. by rewrite S1, S2, S3, S4.
Qed.

(** Grain counters of a block, within its capacity. *)
Definition blk_counts (s : demand_shard) (p : ppa) (v i : Z) : Prop :=
  (blk_at s.(sd) p).(Ssd.vgc) = v /\ (blk_at s.(sd) p).(Ssd.igc) = i.

Lemma blk_grains_val spp : geom spp -> blk_grains spp = 256.
Proof. intros G. unfold blk_grains. rewrite (proj1 (geom_blk _ G)), GPP_val. reflexivity. Qed.

(** What invalidating grains of the page [p] changes: the line's books, the
    block's count of invalid grains and the bit of the first grain. *)
Record grains_lost (s s' : demand_shard) (p : ppa) (grain len : Z) : Prop := {
  gl_line : line_lost (sp_of s) s.(lm) s'.(lm) p.(g_blk) len;
  gl_bitmap : forall g, s'.(grain_bitmap) g = if g =? grain then false else s.(grain_bitmap) g;
  gl_blk : forall q, (blk_at s'.(sd) q).(Ssd.vgc) = (blk_at s.(sd) q).(Ssd.vgc) /\
    (blk_at s'.(sd) q).(Ssd.igc) =
      (blk_at s.(sd) q).(Ssd.igc) + (if decide (same_blk p q) then len else 0);
  gl_status : forall q, (page_at_ppa s' q).(status) = (page_at_ppa s q).(status);
  gl_rest : s'.(oob) = s.(oob) /\ (forall t, __get_wp s' t = __get_wp s t) /\ s'.(offset) = s.(offset)
}.

Lemma invalidate_page_ok s p grain len v i :
  shard_inv s -> page_ok (sp_of s) p -> 0 <= grain < (sp_of s).(tt_pgs) * GRAIN_PER_PAGE ->
  (page_at_ppa s p).(status) = PG_VALID ->
  blk_counts s p v i -> 0 < v <= blk_grains (sp_of s) -> 0 <= i < blk_grains (sp_of s) ->
  0 < len <= (s.(lm).(lines) p.(g_blk)).(vgc) ->
  ((s.(lm).(lines) p.(g_blk)).(vgc) = line_grains (sp_of s) -> p.(g_blk) ∈ s.(lm).(full_line_list)) ->
  s.(grain_bitmap) grain = true ->
  exists s' w, invalidate_page s p grain len false = Ok (s', w) /\ shard_inv s' /\ sp_of s' = sp_of s /\
    grains_lost s s' p grain len.
Proof.
  intros I P Hg Hst [Ev Ei] Hv Hi Hl Hf Hb. pose proof I as [T L]. pose proof (sh_geom _ I) as G.
  pose proof (page_ok_in_ssd _ _ G P) as Hp.
  assert (Hpb : 0 <= p.(g_blk) < (sp_of s).(blks_per_pl)).
  { destruct P as [V _]. apply (valid_ppa_iff _ G) in V. lia. }
  rewrite (blk_grains_val _ G) in *.
  unfold invalidate_page. rewrite (proj2 (Z.gtb_lt len 0)) by lia.
  cbn [assert_ mbind result_mbind result_bind]. rewrite get_pg_ok by done.
  cbn [mbind result_mbind result_bind]. unfold page_is. fold (page_at_ppa s p).
  rewrite bool_decide_true by done. cbn [assert_ mbind result_mbind result_bind].
  set (f := fun b : nand_block => _).
  assert (Ef : f (blk_at s.(sd) p) = Ok (blk_set_igc (blk_at s.(sd) p) (i + len))).
  { unfold f. rewrite (blk_grains_val _ G), Ei, Ev, (proj2 (Z.ltb_lt i 256)), (proj2 (Z.gtb_lt v 0)),
      (proj2 (Z.leb_le v 256)) by lia. done. }
  destruct (mod_blk_ok _ _ f _ T Hp Ef eq_refl) as (d & -> & Td & Ed & Bd).
  cbn [mbind result_mbind result_bind set_sd lm].
  destruct (line_lose_ok (sp_of s) s.(lm) p.(g_blk) len G L Hpb Hl Hf) as (l & -> & L' & Q).
  cbn [mbind result_mbind result_bind]. unfold bitmap_cell, sp_of. cbn [set_lm set_sd sd grain_bitmap].
  rewrite Ed, cell_in by done. cbn [mbind result_mbind result_bind]. rewrite Hb.
  cbn [assert_ mbind result_mbind result_bind]. eexists _, _. split; [done|]. cbn [set_bitmap sd].
  split; [split; [done|unfold sp_of; cbn; by rewrite Ed]|]. split; [done|].
  pose proof (line_grains_small _ G) as Gs.
  destruct (li_table _ _ L _ Hpb) as (_ & V & Ig & Le & _). fold (sp_of s) in *.
  split; cbn; try done.
  - intros q. rewrite Bd. destruct (decide (same_blk p q)) as [S|S]; [|split; [done|lia]].
    assert (Eb : blk_at (sd s) q = blk_at (sd s) p).
    { destruct S as (S1 & S2 & S3 & S4). unfold blk_at. by rewrite S1, S2, S3, S4. }
    rewrite Eb. cbn. rewrite Ei, i32_small by lia. done.
  - intros q. unfold page_at_ppa. cbn. rewrite Bd. destruct (decide (same_blk p q)) as [S|S]; [|done].
    destruct S as (S1 & S2 & S3 & S4). unfold blk_at. by rewrite S1, S2, S3, S4.
Qed.

Lemma mark_grain_invalid_ok s p grain len v i :
  shard_inv s -> 0 <= grain < (sp_of s).(tt_pgs) * GRAIN_PER_PAGE ->
  ppa_to_struct (sp_of s) (grain / GRAIN_PER_PAGE) = Ok p ->
  grain mod GRAIN_PER_PAGE + len <= GRAIN_PER_PAGE ->
  (page_at_ppa s p).(status) = PG_VALID ->
  blk_counts s p v i -> 0 < v <= blk_grains (sp_of s) -> 0 <= i < blk_grains (sp_of s) ->
  0 < len <= (s.(lm).(lines) p.(g_blk)).(vgc) ->
  ((s.(lm).(lines) p.(g_blk)).(vgc) = line_grains (sp_of s) -> p.(g_blk) ∈ s.(lm).(full_line_list)) ->
  s.(grain_bitmap) grain = true ->
  exists s', mark_grain_invalid s grain len = Ok s' /\ shard_inv s' /\ sp_of s' = sp_of s /\
    grains_lost s s' p grain len.
Proof.
  intros I Hg Ep Hm Hst Hc Hv Hi Hl Hf Hb. destruct (grain_page s grain I Hg) as (p' & Ep' & P & _).
  rewrite Ep in Ep'. injection Ep' as <-.
  destruct (invalidate_page_ok s p grain len v i I P Hg Hst Hc Hv Hi Hl Hf Hb) as (s' & w & E & I' & Es & Q).
  exists s'. split; [|done]. unfold mark_grain_invalid. rewrite Ep. cbn [mbind result_mbind result_bind].
  rewrite GPP_val in *. assert (0 <= grain mod 8 < 8) by zlia.
  rewrite Z.gtb_ltb, (proj2 (Z.ltb_ge 8 len)) by lia. cbn [mbind result_mbind result_bind invalidate_loop].
  rewrite GPP_val, u32_small, Z.min_l, E by lia. cbn [mbind result_mbind result_bind]. by rewrite Z.sub_diag.
Qed.

(** C19 (invalidation): invalidating a pair that lies in one page never faults and keeps the
    shard's invariant: exactly that many grains of the line become dead, no longer valid; the
    block's count of dead grains grows by as many, while its count of valid grains stays; the bit of
    the pair's first grain is cleared, the line's priority in the victim queue follows, and a line
    that was fully valid moves from the full list to the queue. *)
Theorem mark_grain_invalid_correct s p grain len v i :
  shard_inv s -> 0 <= grain < (sp_of s).(tt_pgs) * GRAIN_PER_PAGE ->
  ppa_to_struct (sp_of s) (grain / GRAIN_PER_PAGE) = Ok p ->
  grain mod GRAIN_PER_PAGE + len <= GRAIN_PER_PAGE ->
  (page_at_ppa s p).(status) = PG_VALID ->
  blk_counts s p v i -> 0 < v <= blk_grains (sp_of s) -> 0 <= i < blk_grains (sp_of s) ->
  0 < len <= (s.(lm).(lines) p.(g_blk)).(vgc) ->
  ((s.(lm).(lines) p.(g_blk)).(vgc) = line_grains (sp_of s) -> p.(g_blk) ∈ s.(lm).(full_line_list)) ->
  s.(grain_bitmap) grain = true ->
  exists s', mark_grain_invalid s grain len = Ok s' /\ shard_inv s' /\ sp_of s' = sp_of s /\
    grains_lost s s' p grain len.
Proof. apply mark_grain_invalid_ok. Qed.

(** ** Victim selection *)

(** The victim queue in the middle of a selection: relative to the line
    management [l] it started from, it holds the lines of [m], and only those of
    [stale] may have a left-over position. *)
Record selecting (spp : ssdparams) (l : line_mgmt) (q : pqueue) (t : line_table)
    (m stale : Z -> Prop) : Prop := {
  se_wf : PQueue.wf q t;
  se_avail : q.(avail) = l.(victim_line_pq).(avail);
  se_mem : forall i, mem q i <-> m i;
  se_table : same_but_pos l.(lines) t;
  se_pos : forall i, 0 <= i < spp.(blks_per_pl) -> ~ m i -> ~ stale i -> (t i).(pos) = 0
}.

Lemma pop_head q (t : line_table) o q' t' :
  q.(PQueue.size) <> 1 -> pqueue_pop q t = Ok (o, q', t') -> o = Some (q.(d) 1).
Proof.
  intros Hs. unfold pqueue_pop. rewrite (proj2 (Z.eqb_neq _ _) Hs).
  destruct (percolate_down _ _ _) as [[q1 t1]|]; cbn; [|done]. by intros [= <- _ _].
Qed.

(** The priority of a line of the device is its number of valid grains. *)
Lemma line_pri spp l t i : geom spp -> lines_inv spp l -> same_but_pos l.(lines) t ->
  0 <= i < spp.(blks_per_pl) -> victim_line_get_pri t i = (l.(lines) i).(vgc).
Proof.
  intros G I S Hi. unfold victim_line_get_pri. rewrite S. cbn.
  destruct (li_table _ _ I i Hi) as (_ & V & Ig & Le & _). pose proof (line_grains_small _ G).
  apply u64_small. lia.
Qed.

Lemma selecting_pop spp l q t m stale :
  geom spp -> lines_inv spp l -> (forall i, m i -> 0 <= i < spp.(blks_per_pl)) ->
  selecting spp l q t m stale -> 1 < q.(PQueue.size) ->
  exists x q' t', pqueue_peek q = Some x /\ pqueue_pop q t = Ok (Some x, q', t') /\ m x /\
    (forall y, m y -> (l.(lines) x).(vgc) <= (l.(lines) y).(vgc)) /\
    q'.(PQueue.size) = q.(PQueue.size) - 1 /\
    selecting spp l q' t' (fun i => m i /\ i <> x) (fun i => stale i \/ i = x).
Proof.
  intros G I R S Hs. destruct (pop_ok q t (se_wf _ _ _ _ _ _ S) Hs) as (x & q' & t' & E & Sz & Hx & Top & U).
  assert (Hne : q.(PQueue.size) <> 1) by lia. pose proof (pop_head _ _ _ _ _ Hne E) as [= Ex].
  exists x, q', t'. split; [unfold pqueue_peek; by rewrite (proj2 (Z.eqb_neq _ _) Hne), Ex|].
  split; [done|]. apply (se_mem _ _ _ _ _ _ S) in Hx as Mx. split; [done|]. split; [|split; [done|]].
  - intros y Hy. pose proof Hy as Hm. apply (se_mem _ _ _ _ _ _ S) in Hm. specialize (Top y Hm).
    unfold above in Top. cbn in Top. unfold victim_line_cmp_pri in Top. apply Z.ltb_ge in Top.
    rewrite !(line_pri spp l t) in Top by (try apply S; auto). exact Top.
  - destruct U as (W & A & _ & M & F & _ & O). split.
    + done.
    + rewrite A. apply S.
    + intros i. rewrite M. by rewrite (se_mem _ _ _ _ _ _ S).
    + etransitivity; [apply S|exact F].
    + intros i Hi Hn Hst.
      assert (Nm : ~ mem q i) by (rewrite (se_mem _ _ _ _ _ _ S); intros X; apply Hn; tauto).
      change (getpos t' i = 0). rewrite O by tauto.
      apply S; [done| |tauto]. by rewrite <- (se_mem _ _ _ _ _ _ S).
Qed.

Lemma selecting_reset spp l q t m stale x :
  selecting spp l q t m stale -> ~ m x ->
  selecting spp l q (upd t x (set_pos (t x) 0)) m (fun i => stale i /\ i <> x).
Proof.
  intros [[W1 W2 W3 W4] A M F P] Hx. split; try done.
  - assert (N : forall j, 1 <= j < PQueue.size q -> q.(d) j <> x).
    { intros j Hj E. apply Hx, M. by exists j. }
    split; try done; intros j Hj.
    + cbn. unfold victim_line_get_pos. rewrite upd_ne by (by apply N). by apply W3.
    + pose proof (W4 j Hj) as X. unfold above in *. cbn in *. unfold victim_line_get_pri in *.
      rewrite !upd_ne by (apply N; zlia). exact X.
  - intros i. rewrite upd_case. case_cmp; [subst; rewrite (F x)|apply F]. done.
  - intros i Hi Hn Hs. rewrite upd_case. case_cmp; [done|]. apply P; tauto.
Qed.

Lemma selecting_insert spp l q t m stale x :
  selecting spp l q t m stale -> ~ m x -> q.(PQueue.size) < q.(avail) ->
  exists q' t', pqueue_insert q t x = Ok (q', t') /\ q'.(PQueue.size) = q.(PQueue.size) + 1 /\
    selecting spp l q' t' (fun i => m i \/ i = x) stale.
Proof.
  intros S Hx Hr. rewrite <- (se_mem _ _ _ _ _ _ S) in Hx.
  destruct (insert_ok q t x (se_wf _ _ _ _ _ _ S) Hx Hr) as (q' & t' & E & Sz & U).
  exists q', t'. split; [done|]. split; [done|]. destruct U as (W & A & _ & M & F & _ & O). split.
  - done.
  - rewrite A. apply S.
  - intros i. rewrite M. by rewrite (se_mem _ _ _ _ _ _ S).
  - etransitivity; [apply S|exact F].
  - intros i Hi Hn Hst. change (getpos t' i = 0).
    rewrite O by (rewrite (se_mem _ _ _ _ _ _ S); tauto).
    apply S; tauto.
Qed.

Lemma selecting_start spp l : lines_inv spp l ->
  selecting spp l l.(victim_line_pq) l.(lines) (queued l) (fun _ => False).
Proof. intros I. split; try done; [apply I|]. intros i Hi Hn _. by apply (li_pos _ _ I). Qed.

(** A finished selection is a line management again. *)
Lemma selecting_end spp l q t (m : Z -> Prop) n :
  geom spp -> lines_inv spp l -> (forall i, m i -> queued l i) ->
  selecting spp l q t m (fun _ => False) -> n = q.(PQueue.size) - 1 ->
  lines_inv spp (set_victim_cnt (set_queue l q t) n) /\
  forall i, queued (set_victim_cnt (set_queue l q t) n) i <-> m i.
Proof.
  intros G I Hm [W A M F P] ->. split; [|exact M].
  pose proof (geom_blks _ G). pose proof (wf_size _ _ W). pose proof (li_avail _ _ I).
  split; [|done]. split; cbn; try apply I.
  - by eapply table_ok_pos, I.
  - by rewrite A.
  - intros i Hi. apply M, Hm in Hi. by apply (li_queued _ _ I).
  - intros i Hi. apply M, Hm in Hi. rewrite F. by apply (li_dead _ _ I).
  - intros i Hi Hn. apply P; [done| |tauto]. intros X. by apply Hn, M.
  - intros i Hi. rewrite F. by apply (li_free _ _ I).
  - apply W.
  - apply u32_small. lia.
Qed.

Lemma selecting_weaken spp l q t (m m' stale stale' : Z -> Prop) :
  selecting spp l q t m stale -> (forall i, m i <-> m' i) -> (forall i, stale i -> stale' i) ->
  selecting spp l q t m' stale'.
Proof.
  intros [W A M F P] Em Es. split; try done.
  - intros i. by rewrite M.
  - intros i Hi Hn Hs. apply P; [done|by rewrite Em|auto].
Qed.

Lemma line_at_queue spp l q t i : lists_inv spp l -> 0 <= i < spp.(blks_per_pl) ->
  line_at (set_queue l q t) i = Ok (t i).
Proof. intros I Hi. unfold line_at. cbn. rewrite (li_tt _ _ I). by apply cell_in. Qed.

(** What a selection answers, [cur] being the line stores go to. *)
Definition selected (spp : ssdparams) (l : line_mgmt) (cur : Z) (v : option Z) (l' : line_mgmt) : Prop :=
  match v with
  | None => (forall i, queued l i -> i = cur) /\ (forall i, queued l' i <-> queued l i)
  | Some x => queued l x /\ x <> cur /\
      (forall y, queued l y -> y <> cur -> (l.(lines) x).(vgc) <= (l.(lines) y).(vgc)) /\
      (forall i, queued l' i <-> queued l i /\ i <> x) /\ is_open l' spp x
  end.

Definition select_post (spp : ssdparams) (l : line_mgmt) (cur : Z) (v : option Z) (l' : line_mgmt) : Prop :=
  lines_inv spp l' /\ selected spp l cur v l' /\
  l'.(free_line_list) = l.(free_line_list) /\ l'.(full_line_list) = l.(full_line_list) /\
  same_but_pos l.(lines) l'.(lines).

(** The ways a selection ends. *)
Lemma finish_some spp l cur q t x (m : Z -> Prop) :
  geom spp -> lines_inv spp l -> queued l x -> x <> cur ->
  (forall y, queued l y -> y <> cur -> (l.(lines) x).(vgc) <= (l.(lines) y).(vgc)) ->
  selecting spp l q t m (fun _ => False) -> (forall i, m i <-> queued l i /\ i <> x) ->
  q.(PQueue.size) = l.(victim_line_pq).(PQueue.size) - 1 ->
  select_post spp l cur (Some x) (set_victim_cnt (set_queue l q t) (l.(victim_line_cnt) - 1)).
Proof.
  intros G I Hx Hc Hm S Em Sz.
  destruct (selecting_end spp l q t m (l.(victim_line_cnt) - 1) G I) as [I' M]; [|done| |].
  - intros i Hi. by apply Em in Hi as [Hi _].
  - rewrite (li_victim_cnt _ _ I), Sz. lia.
  - split; [done|]. split; [|split; [done|split; [done|apply S]]].
    split; [done|]. split; [done|]. split; [done|]. split.
    + intros i. by rewrite M, Em.
    + destruct (li_queued _ _ I x Hx) as [R N]. split; [done|]. split; [done|].
      rewrite M, Em. tauto.
Qed.

Lemma finish_none spp l cur q t (m : Z -> Prop) :
  geom spp -> lines_inv spp l -> (forall i, queued l i -> i = cur) ->
  selecting spp l q t m (fun _ => False) -> (forall i, m i <-> queued l i) ->
  q.(PQueue.size) = l.(victim_line_pq).(PQueue.size) ->
  select_post spp l cur None (set_queue l q t).
Proof.
  intros G I Hc S Em Sz.
  assert (E : set_queue l q t = set_victim_cnt (set_queue l q t) (q.(PQueue.size) - 1)).
  { unfold set_victim_cnt, set_queue. cbn. rewrite u32_small, Sz, <- (li_victim_cnt _ _ I); [done|].
    pose proof (wf_size _ _ (li_wf _ _ I)). pose proof (li_avail _ _ I). pose proof (geom_blks _ G). lia. }
  destruct (selecting_end spp l q t m (q.(PQueue.size) - 1) G I) as [I' M]; [|done|done|].
  - intros i Hi. by apply Em.
  - rewrite E. split; [done|]. split; [|split; [done|split; [done|apply S]]].
    split; [done|]. intros i. by rewrite M, Em.
Qed.

(** The line stores go to was popped and is put back at the end. *)
Lemma select_again spp l cur q t :
  geom spp -> lines_inv spp l -> queued l cur ->
  selecting spp l q t (fun i => queued l i /\ i <> cur) (fun i => i = cur) ->
  q.(PQueue.size) = l.(victim_line_pq).(PQueue.size) - 1 ->
  exists v l', select_loop 2 (set_queue l q t) cur (Some cur) = Ok (v, l') /\
    select_post spp l cur v l'.
Proof.
  intros G I Hq S Sz. destruct (li_queued _ _ I cur Hq) as [Hcur _].
  assert (R : forall i, queued l i /\ i <> cur -> 0 <= i < blks_per_pl spp).
  { intros i [Hi _]. by apply (li_queued _ _ I). }
  pose proof (wf_size _ _ (li_wf _ _ I)) as Wl.
  assert (Last : forall q' t' (m : Z -> Prop), selecting spp l q' t' m (fun i => i = cur) -> ~ m cur ->
    q'.(PQueue.size) < l.(victim_line_pq).(PQueue.size) ->
    exists q2 t2, pqueue_insert q' t' cur = Ok (q2, t2) /\ q2.(PQueue.size) = q'.(PQueue.size) + 1 /\
      selecting spp l q2 t2 (fun i => m i \/ i = cur) (fun _ => False)).
  { intros q' t' m S' Hm Hs. destruct (selecting_insert spp l q' t' m _ cur S' Hm) as (q2 & t2 & E & Sz2 & S2).
    { rewrite (se_avail _ _ _ _ _ _ S'). lia. }
    exists q2, t2. split; [done|]. split; [done|]. destruct S2 as [A1 A2 A3 A4 A5].
    split; try done. intros i Hi Hn _. apply A5; [done|done|]. intros ->. apply Hn. by right. }
  cbn [select_loop]. change (victim_line_pq (set_queue l q t)) with q.
  destruct (Z.eq_dec q.(PQueue.size) 1) as [E1|E1].
  - unfold pqueue_peek. rewrite (proj2 (Z.eqb_eq _ _) E1). cbn [requeue].
    destruct (Last _ _ _ S) as (q2 & t2 & E & Sz2 & S2); [tauto|lia|].
    cbn [victim_line_pq set_queue lines]. rewrite E. cbn [mbind result_mbind result_bind].
    eexists _, _. split; [done|]. apply (finish_none spp l cur q2 t2 (fun i => (queued l i /\ i <> cur) \/ i = cur) G I); [|exact S2| |lia].
    + intros i Hi. destruct (decide (i = cur)) as [|Hne]; [done|].
      assert (X : mem q i) by (apply (se_mem _ _ _ _ _ _ S); done). destruct X as (j & Hj & _). lia.
    + intros i. destruct (decide (i = cur)) as [->|]; tauto.
  - pose proof (wf_size _ _ (se_wf _ _ _ _ _ _ S)) as Wq.
    destruct (selecting_pop spp l q t _ _ G I R S ltac:(lia)) as (x & q1 & t1 & Ep & Eq & [Hx Hxc] & Min & Sz1 & S1).
    rewrite Ep. destruct (li_queued _ _ I x Hx) as [Hxr _].
    rewrite (line_at_queue spp) by first [exact (li_lists _ _ I)|done].
    cbn [mbind result_mbind result_bind].
    assert (Hid : (t x).(id) = x).
    { rewrite (se_table _ _ _ _ _ _ S). cbn. by apply (li_table _ _ I). }
    rewrite Hid, (proj2 (Z.eqb_neq _ _) Hxc). cbn [lines set_queue]. rewrite Eq.
    cbn [mbind result_mbind result_bind].
    change (set_queue (set_queue l q t) q1 t1) with (set_queue l q1 t1).
    rewrite (line_at_queue spp) by first [exact (li_lists _ _ I)|done].
    cbn [mbind result_mbind result_bind requeue set_victim_cnt set_line set_lines set_queue
         victim_line_pq lines].
    assert (S2 : selecting spp l q1 (upd t1 x (set_pos (t1 x) 0))
      (fun i => (queued l i /\ i <> cur) /\ i <> x) (fun i => i = cur)).
    { eapply selecting_weaken; [apply (selecting_reset _ _ _ _ _ _ x S1); tauto|done|].
      intros i [[?|?] ?]; done. }
    destruct (Last _ _ _ S2) as (q2 & t2 & E & Sz2 & S3); [tauto|lia|].
    rewrite E. cbn [mbind result_mbind result_bind]. eexists _, _. split; [done|].
    apply (finish_some spp l cur q2 t2 x (fun i => ((queued l i /\ i <> cur) /\ i <> x) \/ i = cur) G I Hx Hxc); [|exact S3| |lia].
    + intros y Hy Hyc. by apply Min.
    + intros i. destruct (decide (i = cur)) as [->|]; [|tauto].
      split; [intros _|by right]. split; [done|]. intros X. by apply Hxc.
Qed.

Lemma select_loop_spec spp l cur :
  geom spp -> lines_inv spp l ->
  exists v l', select_loop 3 l cur None = Ok (v, l') /\ select_post spp l cur v l'.
Proof.
  intros G I. pose proof (wf_size _ _ (li_wf _ _ I)) as Wl. pose proof (selecting_start _ _ I) as S.
  set (k := 2%nat). cbn [select_loop].
  destruct (Z.eq_dec l.(victim_line_pq).(PQueue.size) 1) as [E1|E1].
  - unfold pqueue_peek. rewrite (proj2 (Z.eqb_eq _ _) E1). cbn. eexists _, _. split; [done|].
    assert (N : forall i, ~ queued l i) by (intros i (j & Hj & _); lia).
    split; [done|]. split; [|done]. split; [|done]. intros i Hi. by destruct (N i).
  - destruct (selecting_pop spp l _ _ _ _ G I (fun i Hi => proj1 (li_queued _ _ I i Hi)) S ltac:(lia))
      as (x & q1 & t1 & Ep & Eq & Hx & Min & Sz1 & S1).
    rewrite Ep. destruct (li_queued _ _ I x Hx) as [Hxr _]. rewrite (line_at_ok _ _ _ I Hxr).
    cbn [mbind result_mbind result_bind]. destruct (li_table _ _ I x Hxr) as [-> _].
    rewrite Eq. cbn [mbind result_mbind result_bind].
    destruct (Z.eqb_spec x cur) as [->|Hc].
    + apply select_again; try done. eapply selecting_weaken; [exact S1|done|]. by intros i [[]|].
    + rewrite (line_at_queue spp) by first [exact (li_lists _ _ I)|done].
      cbn [mbind result_mbind result_bind requeue]. eexists _, _. split; [done|].
      apply (finish_some spp l cur q1 (upd t1 x (set_pos (t1 x) 0)) x (fun i => queued l i /\ i <> x) G I Hx Hc);
        [|  |done|done].
      * intros y Hy _. by apply Min.
      * eapply selecting_weaken; [apply (selecting_reset _ _ _ _ _ _ x S1); tauto|done|].
        intros i [[[]|?] ?]; done.
Qed.

Lemma select_victim_line_ok s :
  shard_inv s -> 0 <= s.(offset) / GRAINED_UNIT < (sp_of s).(tt_pgs) * GRAIN_PER_PAGE ->
  exists p v s', ppa_to_struct (sp_of s) (s.(offset) / GRAINED_UNIT / GRAIN_PER_PAGE) = Ok p /\
    select_victim_line s = Ok (v, s') /\ shard_inv s' /\ s'.(sd) = s.(sd) /\
    select_post (sp_of s) s.(lm) p.(g_blk) v s'.(lm).
Proof.
  intros I Ho. destruct (grain_page s _ I Ho) as (p & Ep & P & Hin & _ & Hb).
  pose proof (sh_geom _ I) as G. pose proof (sh_lines _ I) as L.
  destruct (select_loop_spec (sp_of s) s.(lm) p.(g_blk) G L) as (v & l & E & Post).
  exists p, v, (set_lm s l). split; [done|]. unfold select_victim_line, __grain2lineid. rewrite Ep.
  cbn [mbind result_mbind result_bind]. unfold get_line. rewrite (line_at_ok _ _ _ L Hb).
  cbn [mbind result_mbind result_bind]. destruct (li_table _ _ L _ Hb) as [-> _]. rewrite E.
  split; [done|]. split; [|done]. split; [apply I|apply Post].
Qed.

(** C20 (victim selection): selection always answers; its victim is a queued line other than
    the one stores go to with the fewest valid grains among those, it leaves the queue, and the
    queue, the lists and every counter stay consistent - also when the store line has to be popped
    and put back. It answers none only if no other line is queued. *)
Theorem select_victim_line_correct s :
  shard_inv s -> 0 <= s.(offset) / GRAINED_UNIT < (sp_of s).(tt_pgs) * GRAIN_PER_PAGE ->
  exists p v s', ppa_to_struct (sp_of s) (s.(offset) / GRAINED_UNIT / GRAIN_PER_PAGE) = Ok p /\
    select_victim_line s = Ok (v, s') /\ shard_inv s' /\ s'.(sd) = s.(sd) /\
    select_post (sp_of s) s.(lm) p.(g_blk) v s'.(lm).
Proof. apply select_victim_line_ok. Qed.


(** ** Marking grains valid *)

(** What marking [len] grains of the page [p] valid changes: the line's and the
    block's counters go up and the bit of the first grain is set. *)
Record grains_gained (s s' : demand_shard) (p : ppa) (grain len : Z) : Prop := {
  gg_lm : s'.(lm) = set_line s.(lm) p.(g_blk) (set_vgc (s.(lm).(lines) p.(g_blk))
    ((s.(lm).(lines) p.(g_blk)).(vgc) + len));
  gg_bitmap : forall g, s'.(grain_bitmap) g = if g =? grain then true else s.(grain_bitmap) g;
  gg_blk : forall q, (blk_at s'.(sd) q).(Ssd.igc) = (blk_at s.(sd) q).(Ssd.igc) /\
    (blk_at s'.(sd) q).(Ssd.vgc) =
      (blk_at s.(sd) q).(Ssd.vgc) + (if decide (same_blk p q) then len else 0);
  gg_status : forall q, (page_at_ppa s' q).(status) = (page_at_ppa s q).(status);
  gg_rest : s'.(oob) = s.(oob) /\ (forall t, __get_wp s' t = __get_wp s t) /\ s'.(offset) = s.(offset)
}.

Lemma same_blk_at s p q : same_blk p q -> blk_at s q = blk_at s p.
Proof. intros (S1 & S2 & S3 & S4). unfold blk_at. by rewrite S1, S2, S3, S4. Qed.

Lemma mark_grain_valid_ok s p grain len :
  shard_inv s -> 0 <= grain < (sp_of s).(tt_pgs) * GRAIN_PER_PAGE ->
  ppa_to_struct (sp_of s) (grain / GRAIN_PER_PAGE) = Ok p ->
  (page_at_ppa s p).(status) = PG_VALID ->
  0 <= (blk_at s.(sd) p).(Ssd.vgc) <= blk_grains (sp_of s) -> 0 < len ->
  (s.(lm).(lines) p.(g_blk)).(vgc) + len <= line_grains (sp_of s) ->
  s.(grain_bitmap) grain = false ->
  exists s', mark_grain_valid s grain len = Ok s' /\ tree_ok s'.(sd) /\ sp_of s' = sp_of s /\
    grains_gained s s' p grain len.
Proof.
  intros I Hg Ep Hst Hv Hl Hc Hb. pose proof I as [T L]. pose proof (sh_geom _ I) as G.
  destruct (grain_page s grain I Hg) as (p' & Ep' & P & Hp & _ & Hpb).
  rewrite Ep in Ep'. injection Ep' as <-. pose proof (line_grains_small _ G) as Gs.
  rewrite (blk_grains_val _ G) in *. destruct (li_table _ _ L _ Hpb) as (_ & V & Ig & Le & _).
  unfold mark_grain_valid. rewrite Ep. cbn [mbind result_mbind result_bind].
  rewrite get_pg_ok by done. cbn [mbind result_mbind result_bind].
  unfold page_is. fold (page_at_ppa s p). rewrite bool_decide_true by done.
  cbn [assert_ mbind result_mbind result_bind]. set (f := fun b : nand_block => _).
  set (b := blk_at s.(sd) p) in *.
  assert (Ef : f b = Ok (blk_set_vgc b (b.(Ssd.vgc) + len))).
  { unfold f. rewrite (blk_grains_val _ G), (proj2 (Z.geb_le (Ssd.vgc b) 0)), (proj2 (Z.leb_le (Ssd.vgc b) 256)) by lia. done. }
  destruct (mod_blk_ok _ _ f _ T Hp Ef eq_refl) as (d & -> & Td & Ed & Bd).
  cbn [mbind result_mbind result_bind]. unfold get_line. cbn [set_sd lm].
  rewrite (line_at_ok _ _ _ L Hpb). cbn [mbind result_mbind result_bind].
  rewrite (proj2 (Z.geb_le _ 0)), (proj2 (Z.leb_le _ (line_grains _))) by lia.
  cbn [andb assert_ mbind result_mbind result_bind].
  unfold bitmap_cell, sp_of. cbn [set_lm set_sd sd lm grain_bitmap set_line set_lines].
  rewrite Ed, cell_in by done. cbn [mbind result_mbind result_bind]. rewrite Hb.
  cbn [negb assert_ mbind result_mbind result_bind]. eexists. split; [done|].
  split; [done|]. split; [unfold sp_of; cbn; by rewrite Ed|].
  split; cbn; try done; fold (sp_of s) in *.
  - by rewrite i32_small by lia.
  - intros q. rewrite Bd. destruct (decide (same_blk p q)) as [S|S]; [|split; [done|lia]].
    rewrite (same_blk_at _ _ _ S). fold b. cbn. rewrite i32_small by lia. done.
  - intros q. unfold page_at_ppa. cbn. rewrite Bd. destruct (decide (same_blk p q)) as [S|S]; [|done].
    by rewrite (same_blk_at _ _ _ S).
Qed.

Lemma mark_grain_valid_open s p grain len :
  shard_inv s -> 0 <= grain < (sp_of s).(tt_pgs) * GRAIN_PER_PAGE ->
  ppa_to_struct (sp_of s) (grain / GRAIN_PER_PAGE) = Ok p ->
  (page_at_ppa s p).(status) = PG_VALID ->
  0 <= (blk_at s.(sd) p).(Ssd.vgc) <= blk_grains (sp_of s) -> 0 < len ->
  (s.(lm).(lines) p.(g_blk)).(vgc) + (s.(lm).(lines) p.(g_blk)).(igc) + len <= line_grains (sp_of s) ->
  is_open s.(lm) (sp_of s) p.(g_blk) -> s.(grain_bitmap) grain = false ->
  exists s', mark_grain_valid s grain len = Ok s' /\ shard_inv s' /\ sp_of s' = sp_of s /\
    grains_gained s s' p grain len /\ is_open s'.(lm) (sp_of s) p.(g_blk).
Proof.
  intros I Hg Ep Hst Hv Hl Hc O Hb. pose proof I as [T L]. pose proof O as (Hpb & Nl & Nq).
  destruct (li_table _ _ L _ Hpb) as (Hid & V & Ig & Le & Ip).
  destruct (mark_grain_valid_ok s p grain len I Hg Ep Hst Hv Hl) as (s' & E & T' & Es & Q); [lia|done|].
  exists s'. split; [done|]. split; [|split; [done|split; [done|]]].
  - split; [done|]. rewrite Es, (gg_lm _ _ _ _ _ Q). apply inv_line; try done.
    + unfold counts_ok. cbn. lia.
    + intros X. destruct Nl. unfold listed. rewrite elem_of_app. by left.
  - rewrite (gg_lm _ _ _ _ _ Q). done.
Qed.

(** C27 (marking valid): storing a pair of [len] grains in a valid page of an open line succeeds,
    keeps the shard's invariant, adds exactly [len] to the valid counts of the page's line and
    block and sets the bit of the pair's first grain only - which is how the pair's length can be
    read back from the bitmap. *)
Theorem mark_grain_valid_correct s p grain len :
  shard_inv s -> 0 <= grain < (sp_of s).(tt_pgs) * GRAIN_PER_PAGE ->
  ppa_to_struct (sp_of s) (grain / GRAIN_PER_PAGE) = Ok p ->
  (page_at_ppa s p).(status) = PG_VALID ->
  0 <= (blk_at s.(sd) p).(Ssd.vgc) <= blk_grains (sp_of s) -> 0 < len ->
  (s.(lm).(lines) p.(g_blk)).(vgc) + (s.(lm).(lines) p.(g_blk)).(igc) + len <= line_grains (sp_of s) ->
  is_open s.(lm) (sp_of s) p.(g_blk) -> s.(grain_bitmap) grain = false ->
  exists s', mark_grain_valid s grain len = Ok s' /\ shard_inv s' /\ sp_of s' = sp_of s /\
    grains_gained s s' p grain len /\ is_open s'.(lm) (sp_of s) p.(g_blk).
Proof. apply mark_grain_valid_open. Qed.

(** Finding, stale victim priority: marking grains of a line that is already in the victim
    queue raises its priority in place, without moving it: if a line below it in the heap now has
    fewer valid grains, the heap order of the queue is broken. *)
Theorem mark_grain_valid_stale_priority s p grain len j k :
  shard_inv s -> 0 <= grain < (sp_of s).(tt_pgs) * GRAIN_PER_PAGE ->
  ppa_to_struct (sp_of s) (grain / GRAIN_PER_PAGE) = Ok p ->
  (page_at_ppa s p).(status) = PG_VALID ->
  0 <= (blk_at s.(sd) p).(Ssd.vgc) <= blk_grains (sp_of s) -> 0 < len ->
  (s.(lm).(lines) p.(g_blk)).(vgc) + len <= line_grains (sp_of s) ->
  s.(grain_bitmap) grain = false ->
  let q := s.(lm).(victim_line_pq) in
  2 <= k < q.(PQueue.size) -> j = k / 2 -> q.(d) j = p.(g_blk) ->
  (s.(lm).(lines) (q.(d) k)).(vgc) < (s.(lm).(lines) p.(g_blk)).(vgc) + len ->
  exists s', mark_grain_valid s grain len = Ok s' /\
    s'.(lm).(victim_line_pq) = q /\ ~ PQueue.wf q s'.(lm).(lines) /\ ~ shard_inv s'.
Proof.
  intros I Hg Ep Hst Hv Hl Hc Hb q Hk -> Hj Hlt. pose proof I as [T L].
  destruct (grain_page s grain I Hg) as (p' & Ep' & _ & _ & _ & Hpb).
  rewrite Ep in Ep'. injection Ep' as <-. pose proof (line_grains_small _ (sh_geom _ I)) as Gs.
  destruct (mark_grain_valid_ok s p grain len I Hg Ep Hst Hv Hl Hc Hb) as (s' & E & T' & Es & Q).
  exists s'. split; [done|]. rewrite (gg_lm _ _ _ _ _ Q) in *. split; [done|].
  assert (N : ~ PQueue.wf q (lines (set_line s.(lm) p.(g_blk) (set_vgc (s.(lm).(lines) p.(g_blk))
    ((s.(lm).(lines) p.(g_blk)).(vgc) + len))))).
  { intros W. pose proof (wf_heap _ _ W k Hk) as A. unfold above in A. cbn in A.
    rewrite Hj in A. unfold victim_line_cmp_pri in A. apply Z.ltb_ge in A.
    unfold victim_line_get_pri in A. rewrite upd_eq in A.
    assert (Hm : queued s.(lm) (q.(d) k)) by (change (mem q (d q k)); exists k; split; [lia|done]).
    destruct (li_queued _ _ L _ Hm) as [Hr _]. destruct (li_table _ _ L _ Hr) as (_ & V' & _ & Le' & _).
    destruct (li_table _ _ L _ Hpb) as (_ & V & _ & Le & _).
    rewrite upd_case in A. destruct (Z.eqb_spec (q.(d) k) p.(g_blk)) as [X|X]; [rewrite X in Hlt|]; cbn in A.
    - assert (P : d q k = d q (k / 2)) by congruence.
      pose proof (li_wf _ _ L : PQueue.wf q _) as W0. apply (positions_inj _ _ _ _ _ (wf_pos _ _ W0)) in P; zlia.
    - rewrite !u64_small in A by lia. lia. }
  split; [exact N|]. intros [_ L']. rewrite (gg_lm _ _ _ _ _ Q) in L'. apply N, L'.
Qed.

(** Finding, lost line: a line is filed on the full list when its last page is handed out,
    so an invalidation that comes before that page's grains are counted finds fewer valid grains
    than a full line has, and leaves the line - now with dead grains - on the full list, out of
    the victim queue, where no collection finds it. *)
Theorem full_line_stuck spp l i len :
  geom spp -> lines_inv spp l -> i ∈ l.(full_line_list) ->
  0 < len <= (l.(lines) i).(vgc) -> (l.(lines) i).(vgc) < line_grains spp ->
  exists l', line_lose spp l i len false = Ok (l', false) /\ lines_inv spp l' /\
    i ∈ l'.(full_line_list) /\ 0 < (l'.(lines) i).(igc) /\ ~ queued l' i.
Proof.
  intros G I Hf Hl Hlt.
  assert (Li : listed l i) by (unfold listed; rewrite elem_of_app; by right).
  assert (Hi := li_range _ _ I i Li). destruct (li_table _ _ I i Hi) as (_ & V & Ig & Le & _).
  destruct (line_lose_ok spp l i len G I Hi Hl) as (l' & E & I' & Q); [lia|].
  rewrite (proj2 (Z.eqb_neq _ _)) in E by lia.
  exists l'. split; [done|]. split; [done|]. destruct Q as [[_ Q1] _ _ Q3 Q4].
  rewrite (proj2 (Z.eqb_neq _ _)) in Q3 by lia. rewrite Q3, Q1. split; [done|]. split; [lia|].
  rewrite Q4. intros [X|[_ X]]; [|lia]. by apply (li_queued _ _ I) in X as [_ X].
Qed.

(** ** Freeing blocks and lines *)

Lemma mark_line_free_ok s p :
  shard_inv s -> is_open s.(lm) (sp_of s) p.(g_blk) ->
  exists s', mark_line_free s p = Ok s' /\ shard_inv s' /\ s'.(sd) = s.(sd) /\
    s'.(lm).(free_line_list) = s.(lm).(free_line_list) ++ [p.(g_blk)] /\
    s'.(lm).(free_line_cnt) = s.(lm).(free_line_cnt) + 1 /\
    s'.(lm).(full_line_list) = s.(lm).(full_line_list) /\
    (forall i, queued s'.(lm) i <-> queued s.(lm) i) /\
    (forall i, ((s'.(lm).(lines) i).(vgc), (s'.(lm).(lines) i).(igc)) =
      if i =? p.(g_blk) then (0, 0) else ((s.(lm).(lines) i).(vgc), (s.(lm).(lines) i).(igc))).
Proof.
  intros I O. pose proof I as [T L]. pose proof (sh_geom _ I) as G. pose proof O as (Hb & Nl & Nq).
  destruct (li_table _ _ L _ Hb) as (Hid & V & Ig & Le & Ip).
  unfold mark_line_free, get_line. rewrite (line_at_ok _ _ _ L Hb). cbn [mbind result_mbind result_bind].
  set (x := mk_line _ 0 0 0 0 _ _ _ _ _). eexists. split; [done|].
  assert (Nf : p.(g_blk) ∉ s.(lm).(free_line_list)) by (intros X; apply Nl, elem_of_app; by left).
  assert (I1 : lines_inv (sp_of s) (set_line s.(lm) p.(g_blk) x)).
  { apply inv_line; try done. unfold counts_ok. cbn. pose proof (line_grains_small _ G). lia. }
  pose proof (counts_small _ _ G L ltac:(apply (wf_size _ _ (li_wf _ _ L)))) as (Cl & _).
  rewrite length_app in Cl.
  assert (Ec : u32 (free_line_cnt (lm s) + 1) = free_line_cnt (lm s) + 1).
  { apply u32_small. rewrite (li_free_cnt _ _ L). lia. }
  split; [split; [done|]|].
  2:{ cbn. rewrite Ec. split_and!; try done. intros i. rewrite upd_case. by case_cmp. }
  split; [|apply I1]. split; cbn; try apply I1.
  - rewrite <- app_assoc. pose proof (li_nodup _ _ L) as N. rewrite NoDup_app in N.
    rewrite NoDup_app. destruct N as (N1 & N2 & N3). split; [done|]. split.
    + intros i Hi. cbn. rewrite elem_of_cons. intros [->|X]; [done|]. by apply (N2 i).
    + constructor; [|done]. intros X. apply Nl, elem_of_app. by right.
  - unfold listed. cbn. intros i. rewrite !elem_of_app, list_elem_of_singleton.
    intros [[Hi| ->]|Hi]; [|done|]; apply (li_range _ _ L), elem_of_app; auto.
  - intros i Hi. destruct (li_queued _ _ L i Hi) as [R X]. split; [done|]. unfold listed. cbn.
    rewrite !elem_of_app, list_elem_of_singleton. intros [[Y| ->]|Y]; [|done|]; apply X, elem_of_app; auto.
  - intros i. rewrite elem_of_app, list_elem_of_singleton, upd_case. case_cmp; [done|].
    intros [Hi| ->]; [by apply (li_free _ _ L)|done].
  - rewrite Ec, (li_free_cnt _ _ L), length_app. cbn. lia.
Qed.

(** Freeing a line: a collected line goes to the end of the free list with empty counters,
    and the lists, the queue and the counters stay consistent. *)
Theorem mark_line_free_correct s p :
  shard_inv s -> is_open s.(lm) (sp_of s) p.(g_blk) ->
  exists s', mark_line_free s p = Ok s' /\ shard_inv s' /\ s'.(sd) = s.(sd) /\
    s'.(lm).(free_line_list) = s.(lm).(free_line_list) ++ [p.(g_blk)] /\
    s'.(lm).(free_line_cnt) = s.(lm).(free_line_cnt) + 1 /\
    s'.(lm).(full_line_list) = s.(lm).(full_line_list) /\
    (forall i, queued s'.(lm) i <-> queued s.(lm) i) /\
    (forall i, ((s'.(lm).(lines) i).(vgc), (s'.(lm).(lines) i).(igc)) =
      if i =? p.(g_blk) then (0, 0) else ((s.(lm).(lines) i).(vgc), (s.(lm).(lines) i).(igc))).
Proof. apply mark_line_free_ok. Qed.

(** The pages, bits and cells of the block of [p] that the first [n] rounds have
    cleared. *)
Record pages_freed (s s' : demand_shard) (p : ppa) (base n : Z) : Prop := {
  pf_status : forall q, (page_at_ppa s' q).(status) =
    if decide (same_blk p q /\ 0 <= q.(g_pg) < n) then PG_FREE else (page_at_ppa s q).(status);
  pf_nsecs : forall q, (page_at_ppa s' q).(nsecs) = (page_at_ppa s q).(nsecs);
  pf_bitmap : forall g, s'.(grain_bitmap) g =
    if (base * 8 <=? g) && (g <? (base + n) * 8) then false else s.(grain_bitmap) g;
  pf_oob : forall i k, s'.(oob) i k =
    if (base <=? i) && (i <? base + n) && ((0 <=? k) && (k <? 8)) then 2 else s.(oob) i k;
  pf_blk : forall q, (blk_at s'.(sd) q).(npgs) = (blk_at s.(sd) q).(npgs) /\
    (blk_at s'.(sd) q).(erase_cnt) = (blk_at s.(sd) q).(erase_cnt);
  pf_lm : s'.(lm) = s.(lm);
  pf_sp : sp_of s' = sp_of s
}.

Lemma memset_step {A} (a : Z -> A) (v : A) b n g : 0 <= n ->
  memset (memset a b n v) (b + n) 8 v g = memset a b (n + 8) v g.
Proof. intros Hn. unfold memset. repeat case_cmp; cbn; done || lia. Qed.

Lemma free_pages_loop_ok s s0 p base n i :
  tree_ok s.(sd) -> in_ssd s.(sd) p -> 0 <= i -> i + Z.of_nat n <= 32 ->
  geom (sp_of s) -> 0 <= base -> base + 32 <= (sp_of s).(tt_pgs) ->
  (forall q, same_blk p q -> 0 <= q.(g_pg) < 32 -> (page_at_ppa s q).(nsecs) = (sp_of s).(secs_per_pg)) ->
  pages_freed s0 s p base i ->
  exists s', free_pages_loop n i s p base = Ok s' /\ tree_ok s'.(sd) /\
    pages_freed s0 s' p base (i + Z.of_nat n).
Proof.
  revert s i. induction n as [|n IH]; intros s i T Hp Hi Hn G Hb Ht Hs F.
  { rewrite Z.add_0_r. by exists s. }
  destruct (geom_consts _ G) as (_ & _ & E2 & _). cbn [free_pages_loop].
  set (f := fun b : nand_block => _). set (b := blk_at s.(sd) p).
  assert (Nb : b.(npgs) = 32) by (unfold b; rewrite blk_npgs by done; exact E2).
  assert (Ef : f b = Ok (set_pgs b (upd b.(pg) i (set_status (b.(pg) i) PG_FREE)))).
  { unfold f. rewrite modify_in by lia.
    pose proof (Hs (mk_ppa i p.(g_blk) p.(g_pl) p.(g_lun) p.(g_ch) 0)) as H0.
    unfold page_at_ppa in H0. cbn [g_pg] in H0. rewrite same_blk_at with (p := p) in H0 by done.
    fold b in H0. rewrite H0 by (done || lia). by rewrite Z.eqb_refl. }
  destruct (mod_blk_ok _ _ f _ T Hp Ef eq_refl) as (d & -> & Td & Ed & Bd).
  cbn [mbind result_mbind result_bind]. unfold clear_oob, sp_of at 1. cbn [set_bitmap set_sd sd].
  rewrite Ed. fold (sp_of s). rewrite (proj2 (Z.leb_le 0 _)), (proj2 (Z.ltb_lt _ (tt_pgs _))) by lia.
  cbn [andb mbind result_mbind result_bind]. set (s1 := set_oob _ _).
  assert (Es : sp_of s1 = sp_of s) by (unfold s1, sp_of; cbn; by rewrite Ed).
  assert (Pg : forall q, page_at_ppa s1 q = if decide (same_blk p q /\ q.(g_pg) = i)
      then set_status (page_at_ppa s q) PG_FREE else page_at_ppa s q).
  { intros q. unfold page_at_ppa, s1. cbn. rewrite Bd. destruct (decide (same_blk p q)) as [S|S].
    - rewrite (same_blk_at _ _ _ S). fold b. cbn. rewrite upd_case. case_cmp.
      + rewrite decide_True by done. by subst.
      + by rewrite decide_False by tauto.
    - by rewrite decide_False by tauto. }
  destruct (IH s1 (i + 1)) as (s' & E & T' & F'); [done| |lia|lia|by rewrite Es|done|by rewrite Es| | |].
  - unfold in_ssd, s1. cbn. rewrite Ed. exact Hp.
  - intros q S Hq. rewrite Es, Pg. destruct (decide _); cbn; by apply Hs.
  - destruct F as [A1 A2 A3 A4 A5 A6 A7]. split; try done.
    + intros q. rewrite Pg. destruct (decide (same_blk p q /\ g_pg q = i)) as [[S Q]|N]; cbn.
      * by rewrite decide_True by (split; [done|lia]).
      * rewrite A1. destruct (decide (same_blk p q /\ 0 <= g_pg q < i)) as [[S Q]|N2].
        -- by rewrite decide_True by (split; [done|lia]).
        -- rewrite decide_False; [done|]. intros [S Q]. apply N. split; [done|].
           assert (~ 0 <= g_pg q < i) by tauto. lia.
    + intros q. rewrite Pg. destruct (decide _); cbn; apply A2.
    + intros g. unfold s1. cbn [set_oob set_bitmap set_sd grain_bitmap]. unfold memset.
      rewrite A3, GPP_val. repeat case_cmp; cbn; done || lia.
    + intros j k. unfold s1. cbn [set_oob set_bitmap set_sd oob]. rewrite upd_case. unfold memset.
      destruct (Z.eqb_spec j (base + i)) as [->|]; rewrite A4, ?GPP_val; repeat case_cmp; cbn; done || lia.
    + intros q. unfold s1. cbn. rewrite Bd. destruct (decide (same_blk p q)) as [S|S]; [|apply A5].
      cbn. unfold b. rewrite <- (same_blk_at _ _ _ S). apply A5.
    + by rewrite Es.
  - exists s'. split; [exact E|]. split; [done|]. replace (i + Z.of_nat (S n)) with (i + 1 + Z.of_nat n) by lia. done.
Qed.

(** The pages of a block are the 32 page numbers from its first one. *)
Lemma block_pages spp p :
  geom spp -> page_ok spp p ->
  let base := pgidx spp (with_pg p 0) in
  page_ok spp (with_pg p 0) /\ 0 <= base /\ base + 32 <= spp.(tt_pgs) /\
  (forall q, same_blk p q -> pgidx spp q = base + q.(g_pg)) /\
  (forall q, page_ok spp q -> base <= pgidx spp q < base + 32 -> same_blk p q).
Proof.
  intros G P base.
  assert (Pk : forall k, 0 <= k < 32 -> page_ok spp (with_pg p k)).
  { intros k Hk. destruct P as [V R]. split; [|done]. rewrite valid_ppa_iff in V |- * by done.
    cbn. rewrite u16_small by lia. lia. }
  assert (Rel : forall q, same_blk p q -> pgidx spp q = base + q.(g_pg)).
  { intros q (S1 & S2 & S3 & S4). unfold base, pgidx. cbn. rewrite S1, S2, S4. change (u16 0) with 0. lia. }
  pose proof (pgidx_range _ G _ (Pk 0 ltac:(lia))) as R0. fold base in R0.
  pose proof (pgidx_range _ G _ (Pk 31 ltac:(lia))) as R31. rewrite Rel in R31 by done.
  cbn in R31. change (u16 31) with 31 in R31.
  split; [by apply Pk|]. split; [lia|]. split; [lia|]. split; [exact Rel|].
  intros q Q X. pose proof (Pk (pgidx spp q - base) ltac:(lia)) as Q'.
  assert (Eq : pgidx spp (with_pg p (pgidx spp q - base)) = pgidx spp q).
  { rewrite Rel by done. cbn. rewrite u16_small by lia. lia. }
  pose proof (ppa_to_struct_pgidx _ G _ Q) as X1. pose proof (ppa_to_struct_pgidx _ G _ Q') as X2.
  rewrite Eq, X1 in X2. injection X2 as X2. by rewrite X2.
Qed.

Lemma mark_block_free_ok s p :
  shard_inv s -> page_ok (sp_of s) p ->
  (forall q, same_blk p q -> 0 <= q.(g_pg) < 32 -> (page_at_ppa s q).(nsecs) = (sp_of s).(secs_per_pg)) ->
  exists s', mark_block_free s p = Ok s' /\ shard_inv s' /\ s'.(lm) = s.(lm) /\
    (forall q, page_ok (sp_of s) q -> (page_at_ppa s' q).(status) =
       if decide (same_blk p q) then PG_FREE else (page_at_ppa s q).(status)) /\
    (forall q, page_ok (sp_of s) q -> same_blk p q -> forall k, 0 <= k < GRAIN_PER_PAGE ->
       s'.(grain_bitmap) (pgidx (sp_of s) q * GRAIN_PER_PAGE + k) = false /\
       s'.(oob) (pgidx (sp_of s) q) k = 2) /\
    (forall q, page_ok (sp_of s) q -> ~ same_blk p q -> forall k, 0 <= k < GRAIN_PER_PAGE ->
       s'.(grain_bitmap) (pgidx (sp_of s) q * GRAIN_PER_PAGE + k) =
         s.(grain_bitmap) (pgidx (sp_of s) q * GRAIN_PER_PAGE + k) /\
       s'.(oob) (pgidx (sp_of s) q) k = s.(oob) (pgidx (sp_of s) q) k) /\
    blk_counts s' p 0 0 /\ (blk_at s'.(sd) p).(erase_cnt) = i32 ((blk_at s.(sd) p).(erase_cnt) + 1).
Proof.
  intros I P Hs. pose proof I as [T L]. pose proof (sh_geom _ I) as G.
  pose proof (page_ok_in_ssd _ _ G P) as Hp. destruct (geom_consts _ G) as (_ & _ & E2 & _ & _ & _ & Hbk & _ & _ & Ht & _).
  destruct (block_pages _ p G P) as (P0 & R0 & Rb & Rel & Inj).
  set (base := pgidx (sp_of s) (with_pg p 0)) in *.
  unfold mark_block_free. rewrite ppa2pgidx_ok by done. cbn [mbind result_mbind result_bind]. fold base.
  rewrite E2. change (Z.to_nat 32) with 32%nat. destruct (free_pages_loop_ok s s p base 32 0 T Hp) as (s1 & -> & T1 & F); try done; try lia.
  { split; try done; intros; repeat case_cmp; cbn; try done; try lia. rewrite decide_False; [done|lia]. }
  change (0 + Z.of_nat 32) with 32 in F. cbn [mbind result_mbind result_bind].
  set (f := fun b : nand_block => _). destruct F as [A1 A2 A3 A4 A5 A6 A7].
  assert (Hp1 : in_ssd s1.(sd) p) by (unfold in_ssd; fold (sp_of s1); rewrite A7; exact Hp).
  assert (Ef : f (blk_at s1.(sd) p) = Ok (let b := blk_at s1.(sd) p in
     mk_block b.(pg) b.(npgs) 0 0 0 0 (i32 (b.(erase_cnt) + 1)) b.(Ssd.wp))).
  { unfold f. rewrite blk_npgs by done. fold (sp_of s1). by rewrite A7, E2. }
  destruct (mod_blk_ok _ _ f _ T1 Hp1 Ef eq_refl) as (d & -> & Td & Ed & Bd).
  cbn [mbind result_mbind result_bind]. eexists. split; [done|].
  assert (Es : sp_of (set_sd s1 d) = sp_of s) by (unfold sp_of; cbn; rewrite Ed; exact A7).
  assert (Pg : forall q, page_at_ppa (set_sd s1 d) q = page_at_ppa s1 q).
  { intros q. unfold page_at_ppa. cbn. rewrite Bd. destruct (decide _) as [S|S]; [|done].
    by rewrite (same_blk_at _ _ _ S). }
  split; [split; [done|cbn; rewrite Es, A6; done]|]. split; [done|].
  split; [|split; [|split]].
  - intros q Q. rewrite Pg, A1. destruct (decide (same_blk p q)) as [S|S].
    + rewrite decide_True; [done|]. split; [done|]. destruct Q as [V _].
      apply (valid_ppa_iff _ G) in V. lia.
    + by rewrite decide_False by tauto.
  - intros q [Q _] S k Hk. apply (valid_ppa_iff _ G) in Q. rewrite GPP_val in *. cbn.
    rewrite A3, A4, (Rel q S). repeat case_cmp; cbn; done || lia.
  - intros q Q S k Hk. rewrite GPP_val in *. cbn. rewrite A3, A4.
    assert (X : ~ (base <= pgidx (sp_of s) q < base + 32)) by (intros X; by apply S, Inj).
    repeat case_cmp; cbn; done || lia.
  - split; [split|]; cbn; rewrite Bd, decide_True by done; cbn; try done.
    by rewrite (proj2 (A5 p)).
Qed.

(** C26 (freeing a block): freeing a block makes every page of it free, clears the bits of all its
    grains and the out-of-band cells of all its pages - and no other page's, bit or cell - and
    resets the block's counters and counts one erasure. *)
Theorem mark_block_free_correct s p :
  shard_inv s -> page_ok (sp_of s) p ->
  (forall q, same_blk p q -> 0 <= q.(g_pg) < 32 -> (page_at_ppa s q).(nsecs) = (sp_of s).(secs_per_pg)) ->
  exists s', mark_block_free s p = Ok s' /\ shard_inv s' /\ s'.(lm) = s.(lm) /\
    (forall q, page_ok (sp_of s) q -> (page_at_ppa s' q).(status) =
       if decide (same_blk p q) then PG_FREE else (page_at_ppa s q).(status)) /\
    (forall q, page_ok (sp_of s) q -> same_blk p q -> forall k, 0 <= k < GRAIN_PER_PAGE ->
       s'.(grain_bitmap) (pgidx (sp_of s) q * GRAIN_PER_PAGE + k) = false /\
       s'.(oob) (pgidx (sp_of s) q) k = 2) /\
    (forall q, page_ok (sp_of s) q -> ~ same_blk p q -> forall k, 0 <= k < GRAIN_PER_PAGE ->
       s'.(grain_bitmap) (pgidx (sp_of s) q * GRAIN_PER_PAGE + k) =
         s.(grain_bitmap) (pgidx (sp_of s) q * GRAIN_PER_PAGE + k) /\
       s'.(oob) (pgidx (sp_of s) q) k = s.(oob) (pgidx (sp_of s) q) k) /\
    blk_counts s' p 0 0 /\ (blk_at s'.(sd) p).(erase_cnt) = i32 ((blk_at s.(sd) p).(erase_cnt) + 1).
Proof. apply mark_block_free_ok. Qed.

(** ** Witnesses

    A device of 128 lines: line 0 is open, its write pointer at its last page;
    lines 1 and 2 are queued, 3 and 4 are full - the last page of 4 is not
    counted yet - and the others are free.  Every page is valid.  Stores go to
    line 1. *)

Definition ex_valid_block : nand_block :=
  mk_block (fun _ => mk_page (fun _ => SEC_VALID) 8 PG_VALID) 32 0 0 0 16 0 0.
Definition ex_valid_ssd : ssd :=
  mk_ssd ex_spp
    (fun _ => mk_channel (fun _ => mk_lun (fun _ => mk_plane (fun _ => ex_valid_block) 128) 1 7000 false)
       8 (mk_ch 0 0 0 26 0 152 (fun _ => 26)))
    ex_ch (buffer_init 4194304) false 0.

Definition ex_table : line_table := fun i =>
  if i =? 0 then mk_line 0 0 0 16 0 0 0 0 0 false else
  if i =? 1 then ex_line 1 5 1 else if i =? 2 then ex_line 2 7 2 else
  if i =? 3 then mk_line 3 0 0 16384 0 0 0 0 0 false else
  if i =? 4 then mk_line 4 0 0 16376 0 0 0 0 0 false else mk_line i 0 0 0 0 0 0 0 0 false.

Definition ex_lm : line_mgmt :=
  mk_lm ex_table (seqZ 5 123) (mk_pqueue 3 129 129 (fun j => j)) [3; 4] 128 123 2 2.

Definition ex_shard : demand_shard :=
  mk_shard ex_valid_ssd ex_lm (wp_of ex_spp 0 2047) (wp_of ex_spp 0 0) (wp_of ex_spp 0 0)
    (wp_of ex_spp 0 0) (mk_wfc 0 0) 2 2 (256 * GRAINED_UNIT) (fun _ _ => 0) (fun g => g mod 2 =? 0) 0 0 0.

Lemma ex_consts : ex_spp.(blks_per_pl) = 128 /\ line_grains ex_spp = 16384 /\
  ex_spp.(tt_pgs) * GRAIN_PER_PAGE = 2097152 /\ ex_spp.(pgs_per_line) = 2048 /\ blk_grains ex_spp = 256.
Proof. vm_compute. done. Qed.

Lemma ex_valid_ssd_ok : tree_ok ex_valid_ssd.
Proof.
  assert (E26 : u8 26 = 26) by reflexivity. destruct ex_consts as (B & _).
  split; [apply ex_geom| | |].
  - intros i Hi. split; [done|]. intros j Hj. split; [done|intros; symmetry; exact B|done].
  - intros i Hi. split; [|cbn; lia]. split; cbn -[u8]; rewrite ?NR_val, ?E26; try lia;
      intros; unfold slot; cbn; lia.
  - split; [apply ex_ch_inv|cbn; lia].
Qed.

Lemma ex_queued i : queued ex_lm i <-> i = 1 \/ i = 2.
Proof.
  split.
  - intros (j & Hj & E). cbn in *. lia.
  - intros [->| ->]; [exists 1|exists 2]; done.
Qed.

Lemma ex_listed i : listed ex_lm i <-> 3 <= i < 128.
Proof.
  unfold listed. cbn [free_line_list full_line_list ex_lm].
  rewrite elem_of_app, elem_of_seqZ, !elem_of_cons. split; [|lia]. intros [?|[->|[->|X]]]; try lia.
  by apply elem_of_nil in X.
Qed.

Lemma ex_table_cases i : 0 <= i -> i = 0 \/ i = 1 \/ i = 2 \/ i = 3 \/ i = 4 \/
  (5 <= i /\ ex_table i = mk_line i 0 0 0 0 0 0 0 0 false).
Proof.
  intros Hi. assert (i = 0 \/ i = 1 \/ i = 2 \/ i = 3 \/ i = 4 \/ 5 <= i) as C by lia.
  repeat destruct C as [->|C]; auto 6. do 5 right. split; [done|]. unfold ex_table.
  by rewrite !(proj2 (Z.eqb_neq i _)) by lia.
Qed.

Lemma ex_lm_ok : lines_inv ex_spp ex_lm.
Proof.
  destruct ex_consts as (B & Gr & _). split.
  - split; rewrite ?B, ?Gr; try reflexivity.
    + intros i Hi. change (lines ex_lm) with ex_table. unfold counts_ok.
      destruct (ex_table_cases i) as [->|[->|[->|[->|[->|[_ ->]]]]]]; [lia|..];
        (split; [reflexivity|]); cbn; lia.
    + apply NoDup_app. split; [apply NoDup_seqZ|]. split.
      * intros i Hi X. apply elem_of_seqZ in Hi. cbn in X. rewrite !elem_of_cons, elem_of_nil in X. lia.
      * apply NoDup_cons. split; [|apply NoDup_singleton]. cbn. by intros X%list_elem_of_singleton.
    + intros i Hi. apply ex_listed in Hi. lia.
    + intros i Hi. rewrite ex_listed. apply ex_queued in Hi. lia.
    + intros i Hi. apply ex_queued in Hi as [->| ->]; reflexivity.
    + intros i Hi Hn. rewrite ex_queued in Hn. change (lines ex_lm) with ex_table.
      destruct (ex_table_cases i) as [->|[->|[->|[->|[->|[_ ->]]]]]]; [lia|..]; try reflexivity; lia.
    + intros i Hi. change (lines ex_lm) with ex_table. cbn in Hi. apply elem_of_seqZ in Hi.
      destruct (ex_table_cases i) as [->|[->|[->|[->|[->|[_ ->]]]]]]; try lia. done.
    + cbn. lia.
  - assert (C : forall j, 1 <= j < 3 -> j = 1 \/ j = 2) by (intros; lia).
    split; cbn; try lia.
    + intros j Hj. by destruct (C j Hj) as [->| ->].
    + intros j Hj. assert (j = 2) as -> by lia. reflexivity.
Qed.

Lemma ex_shard_ok : shard_inv ex_shard.
Proof. split; [apply ex_valid_ssd_ok|apply ex_lm_ok]. Qed.

Lemma ex_open : is_open ex_lm ex_spp 0.
Proof. destruct ex_consts as (B & _). split; [lia|]. rewrite ex_listed, ex_queued. lia. Qed.

#[local] Ltac ex_solve := vm_compute; repeat split; congruence.

Lemma init_lines_correct_witness :
  exists s', init_lines ex_shard = Ok s' /\ s'.(lm).(free_line_list) = seqZ 0 128.
Proof.
  destruct (init_lines_correct ex_shard ex_geom) as (s' & E & _ & _ & _ & F & _). exists s'. by split.
Defined.

(** Line 0 is used up: it goes to the full list and line 5 is opened. *)
Lemma advance_write_pointer_correct_witness :
  exists s', advance_write_pointer ex_shard USER_IO = Ok s' /\ lines_inv ex_spp s'.(lm) /\
    s'.(sd) = ex_valid_ssd /\ wp_ok s' USER_IO 5 0 /\ line_switch ex_shard s' 0 5.
Proof.
  apply (advance_write_pointer_correct ex_shard USER_IO 0 2047 ex_geom ex_lm_ok).
  split; [reflexivity|]. split; [apply ex_open|ex_solve].
Defined.

(** Three grains of a pair on line 3, which is fully valid. *)
Lemma mark_grain_invalid_correct_witness :
  exists s', mark_grain_invalid ex_shard 770 3 = Ok s' /\ shard_inv s' /\ sp_of s' = ex_spp /\
    grains_lost ex_shard s' (mk_ppa 0 3 0 0 0 0) 770 3.
Proof.
  apply (mark_grain_invalid_correct ex_shard (mk_ppa 0 3 0 0 0 0) 770 3 16 0); try reflexivity;
    try (vm_compute; repeat split; congruence).
  - apply ex_shard_ok.
  - intros _. by repeat constructor.
Defined.

Lemma select_victim_line_correct_witness :
  exists p v s', ppa_to_struct ex_spp 32 = Ok p /\
    select_victim_line ex_shard = Ok (v, s') /\ shard_inv s' /\ s'.(sd) = ex_valid_ssd /\
    select_post ex_spp ex_lm p.(g_blk) v s'.(lm).
Proof. apply (select_victim_line_correct ex_shard ex_shard_ok). vm_compute. split; congruence. Defined.

Lemma mark_grain_valid_correct_witness :
  exists s', mark_grain_valid ex_shard 1 4 = Ok s' /\ shard_inv s' /\ sp_of s' = ex_spp /\
    grains_gained ex_shard s' (mk_ppa 0 0 0 0 0 0) 1 4 /\ is_open s'.(lm) ex_spp 0.
Proof.
  apply (mark_grain_valid_correct ex_shard (mk_ppa 0 0 0 0 0 0) 1 4); try reflexivity;
    try (vm_compute; repeat split; congruence); [apply ex_shard_ok|apply ex_open].
Defined.

Lemma mark_grain_valid_stale_priority_witness :
  exists s', mark_grain_valid ex_shard 257 4 = Ok s' /\
    s'.(lm).(victim_line_pq) = ex_lm.(victim_line_pq) /\
    ~ PQueue.wf ex_lm.(victim_line_pq) s'.(lm).(lines) /\ ~ shard_inv s'.
Proof.
  apply (mark_grain_valid_stale_priority ex_shard (mk_ppa 0 1 0 0 0 0) 257 4 1 2); try reflexivity;
    try (vm_compute; repeat split; congruence). apply ex_shard_ok.
Defined.

(** Finding, line queued twice: a pair of eleven grains on the fully valid line 3 spills over to a
    second page, and the flag that is still set from the first round makes the second round move
    the line once more: the books then count four victims for three, no full line for one, and the
    heap has the line twice. *)
Lemma full_line_queued_twice : exists s', mark_grain_invalid ex_shard (8 * pgidx ex_spp (page_at ex_spp 3 0)) 11 = Ok s' /\
  s'.(lm).(full_line_list) = [4] /\ s'.(lm).(full_line_cnt) = 0 /\ s'.(lm).(victim_line_cnt) = 4 /\
  (ex_lm.(victim_line_cnt), ex_lm.(victim_line_pq).(size)) = (2, 3) /\ s'.(lm).(victim_line_pq).(size) = 5.
Proof. eexists. split; [vm_compute; reflexivity|]. by vm_compute. Qed.

Lemma full_line_stuck_witness :
  exists l', line_lose ex_spp ex_lm 4 3 false = Ok (l', false) /\ lines_inv ex_spp l' /\
    4 ∈ l'.(full_line_list) /\ 0 < (l'.(lines) 4).(igc) /\ ~ queued l' 4.
Proof.
  apply (full_line_stuck ex_spp ex_lm 4 3 ex_geom ex_lm_ok); [by repeat constructor|ex_solve|reflexivity].
Defined.

Lemma mark_line_free_correct_witness :
  exists s', mark_line_free ex_shard (mk_ppa 0 0 0 0 0 0) = Ok s' /\ shard_inv s' /\
    s'.(lm).(free_line_list) = seqZ 5 123 ++ [0].
Proof.
  destruct (mark_line_free_correct ex_shard (mk_ppa 0 0 0 0 0 0) ex_shard_ok ex_open)
    as (s' & E & I & _ & F & _). exists s'. by split_and!.
Defined.

Lemma mark_block_free_correct_witness :
  exists s', mark_block_free ex_shard (mk_ppa 7 2 0 1 0 0) = Ok s' /\ shard_inv s' /\
    blk_counts s' (mk_ppa 7 2 0 1 0 0) 0 0 /\ (blk_at s'.(sd) (mk_ppa 7 2 0 1 0 0)).(erase_cnt) = 1.
Proof.
  destruct (mark_block_free_correct ex_shard (mk_ppa 7 2 0 1 0 0) ex_shard_ok)
    as (s' & E & I & _ & _ & _ & _ & C & Er); [by split|done|]. exists s'. by split_and!.
Defined.

(** The victim is line 2, and line 1 is back in the queue. *)
Example ex_select : (fun r => match r with
    Ok (v, s) => Some (v, contents s.(lm).(victim_line_pq), s.(lm).(victim_line_cnt))
  | Err _ => None end) (select_victim_line ex_shard) = Some (Some 2, [1], 1).
Proof. vm_compute. reflexivity. Qed.
