(* ===== verification/Pages.v ===== *)
(** * Taking and filling the next page of a write pointer

    Lemmas on the sequences of line operations that the mapping cache and the
    key-value commands share: the next page of a write pointer becomes valid,
    and grains of it are stored. *)

From S2P Require Import Prelude ChModel Ssd Geometry PQueue Line Lines.

(** Inside a line the write pointer only counts. *)
Lemma advance_next s t b n :
  geom (sp_of s) -> wp_ok s t b n -> n + 1 < (sp_of s).(pgs_per_line) ->
  advance_write_pointer s t = Ok (set_wp (count_page s t) t (wp_of (sp_of s) b (n + 1))).
Proof.
  intros G (Hw & (Hb & _) & Hn) Hl. unfold advance_write_pointer.
  destruct (count_page_same s t) as (_ & _ & ->). rewrite Hw, wp_bump_spec by done.
  by rewrite (proj2 (Z.eqb_neq n _)) by lia.
Qed.

(** The next page of the write pointer [t]: page [n] of line [b], still free. *)
Record page_free (s : demand_shard) (t : io_type) (b n : Z) : Prop := {
  pf_wp : wp_ok s t b n;
  pf_next : n + 1 < (sp_of s).(pgs_per_line);
  pf_status : (page_at_ppa s (page_at (sp_of s) b n)).(status) = PG_FREE
}.

Record page_taken (s s' : demand_shard) (t : io_type) (b n : Z) : Prop := {
  pt_inv : shard_inv s';
  pt_sp : sp_of s' = sp_of s;
  pt_lm : s'.(lm) = s.(lm);
  pt_wp : wp_ok s' t b (n + 1);
  pt_wps : forall u, u <> t -> __get_wp s' u = __get_wp s u;
  pt_status : forall q, (page_at_ppa s' q).(status) =
    if decide (same_blk (page_at (sp_of s) b n) q /\ q.(g_pg) = (page_at (sp_of s) b n).(g_pg))
    then PG_VALID else (page_at_ppa s q).(status);
  pt_blk : forall q, (blk_at s'.(sd) q).(Ssd.igc) = (blk_at s.(sd) q).(Ssd.igc) /\
    (blk_at s'.(sd) q).(Ssd.vgc) = (blk_at s.(sd) q).(Ssd.vgc);
  pt_rest : s'.(grain_bitmap) = s.(grain_bitmap) /\ s'.(oob) = s.(oob) /\ s'.(offset) = s.(offset) /\
    s'.(wfc) = s.(wfc)
}.

Lemma get_new_page_ok s t b n : geom (sp_of s) -> wp_ok s t b n ->
  get_new_page s t = Ok (page_at (sp_of s) b n) /\ page_ok (sp_of s) (page_at (sp_of s) b n) /\
  ppa2pgidx (sp_of s) (page_at (sp_of s) b n) = Ok (pgidx (sp_of s) (page_at (sp_of s) b n)).
Proof.
  intros G (Hw & (Hb & _) & Hn). pose proof (page_at_ok _ G b n Hb Hn) as P.
  pose proof (page_ok_fits _ G _ P) as (F1 & F2 & F3 & F4 & F5 & F6).
  split; [|split; [exact P|by apply ppa2pgidx_ok]]. unfold get_new_page. rewrite Hw.
  destruct P as [V Rz]. apply (valid_ppa_iff _ G) in V.
  set (p := page_at (sp_of s) b n) in *. unfold wp_of. fold p.
  cbn [wp_ch wp_lun wp_pg wp_blk wp_pl g_pl].
  assert (Eb : u16 b = b) by exact (uw_small 16 b F2).
  unfold u16, u8 in *. rewrite Eb, !uw_small by done. reflexivity.
Qed.

Lemma take_page_ok s t b n : shard_inv s -> page_free s t b n ->
  let p := page_at (sp_of s) b n in
  exists s1 s', advance_write_pointer s t = Ok s1 /\ mark_page_valid s1 p = Ok s' /\
    sp_of s1 = sp_of s /\ page_taken s s' t b n.
Proof.
  intros I [W N St] p. pose proof (sh_geom _ I) as G.
  destruct (get_new_page_ok s t b n G W) as (_ & P & _).
  rewrite (advance_next s t b n G W N). set (s1 := set_wp _ _ _).
  assert (Es : sd s1 = sd s /\ lm s1 = lm s) by (unfold s1; by destruct t).
  destruct Es as [Es El].
  assert (Esp : sp_of s1 = sp_of s) by (unfold sp_of; by rewrite Es).
  assert (I1 : shard_inv s1) by (destruct I; split; by rewrite ?Esp, ?Es, ?El).
  destruct (move_page_ok s1 p PG_FREE PG_VALID I1) as (s' & E & I' & D & Es' & A & B).
  { apply page_ok_in_ssd; by rewrite Esp. }
  { unfold page_at_ppa. by rewrite Es. }
  exists s1, s'. split; [done|]. split; [exact E|]. split; [done|].
  assert (W' : forall u, __get_wp s' u = __get_wp s1 u) by (intros u; rewrite D; by destruct u).
  unfold same_but_device in D. split; try done.
  - by rewrite Es'.
  - rewrite D. exact El.
  - destruct W as (W1 & W2 & W3). unfold wp_ok. rewrite W', Es', Esp. split; [|split].
    + unfold s1. apply set_wp_get.
    + rewrite D. change (is_open (lm s1) (sp_of s) b). by rewrite El.
    + lia.
  - intros u Hu. rewrite W'. unfold s1. clear -Hu. by destruct t, u.
  - intros q. rewrite A. fold p. case_decide; [done|]. unfold page_at_ppa. by rewrite Es.
  - intros q. destruct (B q) as [-> ->]. by rewrite Es.
  - rewrite D. cbn. unfold s1. by destruct t.
Qed.

(** ** Timing is not touched

    The page operations change no parameter, no lock and no time of a LUN. *)

Definition same_timing (d d' : ssd) : Prop :=
  d'.(sp) = d.(sp) /\ d'.(adv_locked) = d.(adv_locked) /\
  forall i j, avail_time d' i j = avail_time d i j.

#[export] Instance same_timing_preorder : PreOrder same_timing.
Proof.
  split; [done|]. intros a b c (A1 & A2 & A3) (B1 & B2 & B3). split; [by rewrite B1|].
  split; [by rewrite B2|]. intros i j. by rewrite B3.
Qed.

(** Take a successful run apart. *)
Ltac ok_steps :=
  repeat match goal with
  | H : (_ ≫= _) = Ok _ |- _ => apply result_bind_ok in H as (? & ? & H)
  | H : (match ?x with (_, _) => _ end) = Ok _ |- _ => destruct x
  | H : (if ?b then _ else _) = Ok _ |- _ => destruct b eqn:?; try discriminate
  | H : Ok _ = Ok _ |- _ => injection H as <-
  end.

Lemma mod_blk_timing s p f d : mod_blk s p f = Ok d -> same_timing s d.
Proof.
  unfold mod_blk, mod_lun, mod_ch. intros H. apply result_bind_ok in H as (a & Ha & [= <-]).
  unfold modify in Ha. ok_steps. split; [done|]. split; [done|]. intros i j. unfold avail_time. cbn.
  rewrite upd_case. destruct (Z.eqb_spec i (g_ch p)) as [->|]; [|done]. cbn.
  rewrite upd_case. by destruct (Z.eqb_spec j (g_lun p)) as [->|].
Qed.

Abbreviation timing_kept s s' := (same_timing s.(sd) s'.(sd)).

Lemma move_page_timing s p a b s' : move_page s p a b = Ok s' -> timing_kept s s'.
Proof. unfold move_page. intros H. apply result_bind_ok in H as (d & Hd & [= <-]). by eapply mod_blk_timing. Qed.

Lemma mark_grain_valid_timing s g n s' : mark_grain_valid s g n = Ok s' -> timing_kept s s'.
Proof.
  unfold mark_grain_valid. intros H. ok_steps. cbn [set_bitmap set_lm set_sd sd].
  by eapply mod_blk_timing.
Qed.

Lemma invalidate_page_timing s p g n w s' w' : invalidate_page s p g n w = Ok (s', w') -> timing_kept s s'.
Proof.
  unfold invalidate_page. intros H. ok_steps. cbn [set_bitmap set_lm set_sd sd].
  by eapply mod_blk_timing.
Qed.

Lemma mark_grain_invalid_timing s g n s' : mark_grain_invalid s g n = Ok s' -> timing_kept s s'.
Proof.
  unfold mark_grain_invalid. intros H.
  apply result_bind_ok in H as (p & _ & H). apply result_bind_ok in H as (u & _ & H).
  enough (L : forall k s p g n w s', invalidate_loop k s p g n w = Ok s' -> timing_kept s s') by eauto.
  clear. induction k as [|k IH]; intros s p g n w s' H; [discriminate|]. cbn [invalidate_loop] in H.
  apply result_bind_ok in H as ([s1 w1] & E & H). apply invalidate_page_timing in E.
  ok_steps; [done|]. etransitivity; [exact E|]. by eapply IH.
Qed.

Lemma advance_write_pointer_sd s t s' : advance_write_pointer s t = Ok s' -> s'.(sd) = s.(sd).
Proof.
  destruct (count_page_same s t) as (E & _). unfold advance_write_pointer. intros H.
  ok_steps; cbn; exact E.
Qed.

(** A device whose timing was not touched is ready as before. *)
Lemma nand_ready_kept clock d d' B : nand_ready clock d B -> tree_ok d' ->
  same_timing d d' -> nand_ready clock d' B.
Proof.
  intros [T F A C] T' (Es & L & E). split; [done|by rewrite L| |done].
  intros i j. rewrite Es, E. apply A.
Qed.

(** ** What the page operations never touch *)

Definition same_rest (s s' : demand_shard) : Prop :=
  s'.(wfc) = s.(wfc) /\ s'.(offset) = s.(offset) /\ s'.(gc_thres_lines) = s.(gc_thres_lines) /\
  s'.(gc_thres_lines_high) = s.(gc_thres_lines_high) /\
  forall q, (page_at_ppa s' q).(nsecs) = (page_at_ppa s q).(nsecs).

#[export] Instance same_rest_preorder : PreOrder same_rest.
Proof.
  split; [done|]. intros a b c (A1 & A2 & A3 & A4 & A5) (B1 & B2 & B3 & B4 & B5). split_and!; congruence.
Qed.

Lemma mod_blk_nsecs s p f d :
  (forall b b' j, f b = Ok b' -> (b'.(pg) j).(nsecs) = (b.(pg) j).(nsecs)) -> mod_blk s p f = Ok d ->
  forall q, ((blk_at d q).(pg) q.(g_pg)).(nsecs) = ((blk_at s q).(pg) q.(g_pg)).(nsecs).
Proof.
  unfold mod_blk, mod_lun, mod_ch, modify. intros Hf H q. ok_steps. unfold blk_at. cbn.
  rewrite upd_case; destruct (Z.eqb_spec (g_ch q) (g_ch p)) as [->|]; [|done]; cbn.
  rewrite upd_case; destruct (Z.eqb_spec (g_lun q) (g_lun p)) as [->|]; [|done]; cbn.
  rewrite upd_case; destruct (Z.eqb_spec (g_pl q) (g_pl p)) as [->|]; [|done]; cbn.
  rewrite upd_case; destruct (Z.eqb_spec (g_blk q) (g_blk p)) as [->|]; [|done]. eauto.
Qed.

Lemma move_page_rest s p a b s' : move_page s p a b = Ok s' -> same_rest s s'.
Proof.
  unfold move_page. intros H. apply result_bind_ok in H as (d & Hd & [= <-]). split_and!; try done.
  unfold page_at_ppa. cbn [set_sd sd]. eapply mod_blk_nsecs; [|done]. intros x y j E. unfold modify in E. ok_steps. cbn.
  rewrite upd_case. by case_cmp; subst.
Qed.

Lemma mark_grain_valid_rest s g n s' : mark_grain_valid s g n = Ok s' -> same_rest s s'.
Proof.
  unfold mark_grain_valid. intros H. ok_steps. split_and!; try done. unfold page_at_ppa. cbn [set_bitmap set_lm set_sd sd].
  eapply mod_blk_nsecs; [|done]. intros u v j E. cbv beta in E. by ok_steps.
Qed.

Lemma invalidate_page_rest s p g n w s' w' : invalidate_page s p g n w = Ok (s', w') -> same_rest s s'.
Proof.
  unfold invalidate_page. intros H. ok_steps. split_and!; try done. unfold page_at_ppa. cbn [set_bitmap set_lm set_sd sd].
  eapply mod_blk_nsecs; [|done]. intros u v j E. cbv beta in E. by ok_steps.
Qed.

Lemma mark_grain_invalid_rest s g n s' : mark_grain_invalid s g n = Ok s' -> same_rest s s'.
Proof.
  unfold mark_grain_invalid. intros H.
  apply result_bind_ok in H as (p & _ & H). apply result_bind_ok in H as (u & _ & H).
  enough (L : forall k s p g n w s', invalidate_loop k s p g n w = Ok s' -> same_rest s s') by eauto.
  clear. induction k as [|k IH]; intros s p g n w s' H; [discriminate|]. cbn [invalidate_loop] in H.
  apply result_bind_ok in H as ([s1 w1] & E & H). apply invalidate_page_rest in E.
  ok_steps; [done|]. etransitivity; [exact E|]. by eapply IH.
Qed.

Lemma advance_write_pointer_rest s t s' : advance_write_pointer s t = Ok s' -> same_rest s s'.
Proof.
  assert (C : same_rest s (count_page s t)) by (by destruct t).
  unfold advance_write_pointer. intros H. ok_steps; exact C.
Qed.
