(* ===== verification/Place.v ===== *)
(** * The position of a write pointer in its line

    The pages of an open line in the writing order: those before the position
    are used, those after it are free.  What taking the next page, storing
    grains behind the position and giving up the rest of a stripe change; the
    store commands and the garbage collector both write this way. *)

From S2P Require Import Prelude ChModel Ssd Geometry PQueue Line Lines Pages.

Abbreviation bit s q := (s.(grain_bitmap) q).
Abbreviation page_of s b n := (page_at (sp_of s) b n).
Abbreviation index_of s b n := (pgidx (sp_of s) (page_at (sp_of s) b n)).

(** Pages of a line are told apart by their number. *)
Lemma page_at_inj spp b m n : geom spp -> 0 <= b < spp.(blks_per_pl) ->
  0 <= m < spp.(pgs_per_line) -> 0 <= n < spp.(pgs_per_line) ->
  page_at spp b m = page_at spp b n -> m = n.
Proof.
  intros G Hb Hm Hn E. rewrite <- (place_page_at spp G b m Hm), <- (place_page_at spp G b n Hn). by rewrite E.
Qed.

Lemma index_inj spp b m n : geom spp -> 0 <= b < spp.(blks_per_pl) ->
  0 <= m < spp.(pgs_per_line) -> 0 <= n < spp.(pgs_per_line) ->
  pgidx spp (page_at spp b m) = pgidx spp (page_at spp b n) -> m = n.
Proof.
  intros G Hb Hm Hn E. apply (page_at_inj spp b); try done.
  pose proof (ppa_to_struct_pgidx _ G _ (page_at_ok _ G b m Hb Hm)) as Em.
  pose proof (ppa_to_struct_pgidx _ G _ (page_at_ok _ G b n Hb Hn)) as En.
  rewrite E in Em. congruence.
Qed.

Lemma same_page spp b m n : geom spp -> 0 <= b < spp.(blks_per_pl) ->
  0 <= m < spp.(pgs_per_line) -> 0 <= n < spp.(pgs_per_line) ->
  same_blk (page_at spp b m) (page_at spp b n) -> (page_at spp b n).(g_pg) = (page_at spp b m).(g_pg) -> n = m.
Proof.
  intros G Hb Hm Hn (S1 & S2 & S3 & S4) Ep. apply (page_at_inj spp b); try done.
  destruct (page_at_ok _ G b m Hb Hm) as [_ R1], (page_at_ok _ G b n Hb Hn) as [_ R2].
  destruct (page_at spp b m), (page_at spp b n). cbn in *. by subst.
Qed.

(** In a block, later in the writing order is a higher page. *)
Lemma same_blk_pg spp b m n : geom spp -> 0 <= b < spp.(blks_per_pl) ->
  0 <= n < m -> m < spp.(pgs_per_line) ->
  same_blk (page_at spp b n) (page_at spp b m) -> (page_at spp b n).(g_pg) < (page_at spp b m).(g_pg).
Proof.
  intros G Hb Hn Hm (S1 & S2 & _ & _).
  pose proof (place_page_at spp G b m ltac:(lia)) as Em. pose proof (place_page_at spp G b n ltac:(lia)) as En.
  destruct (page_at_ok _ G b m Hb ltac:(lia)) as [V _]. apply (valid_ppa_iff _ G) in V.
  revert Em En V S1 S2. unfold place. generalize (page_at spp b m) (page_at spp b n). intros p q.
  destruct (geom_consts _ G) as (E1 & _ & _ & _ & E4 & Hc & _). rewrite E1, E4. intros Em En V S1 S2.
  rewrite S1, S2 in *. destruct (Z.lt_ge_cases (g_pg q) (g_pg p)) as [|H]; [done|exfalso].
  assert (g_pg p / 8 < g_pg q / 8 \/ (g_pg p / 8 = g_pg q / 8 /\ g_pg p mod 8 <= g_pg q mod 8)) by zlia.
  pose proof (Z.mod_pos_bound (g_pg p) 8). pose proof (Z.mod_pos_bound (g_pg q) 8). nia.
Qed.

(** Only the first page of line 0 has index 0. *)
Lemma index_nonzero spp b m : geom spp -> 0 <= b < spp.(blks_per_pl) -> 0 < m < spp.(pgs_per_line) ->
  pgidx spp (page_at spp b m) <> 0.
Proof.
  intros G Hb Hm E. destruct (page_at_ok _ G b m Hb ltac:(lia)) as [V _]. apply (valid_ppa_iff _ G) in V.
  pose proof (place_page_at spp G b m ltac:(lia)) as Em. destruct (geom_consts _ G) as (E1 & _ & _ & _ & _ & _ & HB & _).
  revert E V Em. unfold pgidx, place. generalize (page_at spp b m). intros p E V Em. rewrite E1 in Em.
  assert (Z0 : g_ch p = 0 /\ g_lun p = 0 /\ g_pg p = 0) by nia. destruct Z0 as (Z1 & Z2 & Z3).
  rewrite Z1, Z2, Z3, Zdiv_0_l, Zmod_0_l in Em. lia.
Qed.

(** Page [n] of line [b] is being filled, its first [g] grains are used. *)
Record place_at (s : demand_shard) (t : io_type) (b n g : Z) : Prop := {
  pa_inv : shard_inv s;
  pa_wp : wp_ok s t b (n + 1);
  pa_range : 0 <= n /\ 0 <= g <= GRAIN_PER_PAGE;
  pa_status : (page_at_ppa s (page_of s b n)).(status) = PG_VALID;
  pa_free : forall m, n < m < (sp_of s).(pgs_per_line) -> (page_at_ppa s (page_of s b m)).(status) = PG_FREE;
  pa_bits : forall m i, n <= m < (sp_of s).(pgs_per_line) -> 0 <= i < GRAIN_PER_PAGE -> (m = n -> g <= i) ->
    bit s (index_of s b m * GRAIN_PER_PAGE + i) = false;
  pa_blk : forall m, n <= m < (sp_of s).(pgs_per_line) ->
    0 <= (blk_at s.(sd) (page_of s b m)).(Ssd.vgc) <= GRAIN_PER_PAGE * (page_of s b m).(g_pg) + (if m =? n then g else 0);
  pa_line : (s.(lm).(lines) b).(vgc) + (s.(lm).(lines) b).(igc) <= GRAIN_PER_PAGE * n + g
}.

(** Page [n] is the next one to be taken. *)
Record next_free (s : demand_shard) (t : io_type) (b n : Z) : Prop := {
  nf_inv : shard_inv s;
  nf_wp : wp_ok s t b n;
  nf_free : forall m, n <= m < (sp_of s).(pgs_per_line) -> (page_at_ppa s (page_of s b m)).(status) = PG_FREE;
  nf_bits : forall m i, n <= m < (sp_of s).(pgs_per_line) -> 0 <= i < GRAIN_PER_PAGE ->
    bit s (index_of s b m * GRAIN_PER_PAGE + i) = false;
  nf_blk : forall m, n <= m < (sp_of s).(pgs_per_line) ->
    0 <= (blk_at s.(sd) (page_of s b m)).(Ssd.vgc) <= GRAIN_PER_PAGE * (page_of s b m).(g_pg);
  nf_line : (s.(lm).(lines) b).(vgc) + (s.(lm).(lines) b).(igc) <= GRAIN_PER_PAGE * n
}.

(** The dead grains of the blocks that pages are still taken from. *)
Definition dead_ok (s : demand_shard) (b n g : Z) : Prop :=
  forall m, n <= m < (sp_of s).(pgs_per_line) ->
    0 <= (blk_at s.(sd) (page_of s b m)).(Ssd.igc) <= GRAIN_PER_PAGE * (page_of s b m).(g_pg) + (if m =? n then g else 0).

(** Only line [b] from its grain [x] on and the position of [t] have changed. *)
Record moves (s s' : demand_shard) (t : io_type) (b x : Z) : Prop := {
  mv_sp : sp_of s' = sp_of s;
  mv_status : forall q, q.(g_blk) <> b -> (page_at_ppa s' q).(status) = (page_at_ppa s q).(status);
  mv_blk : forall q, q.(g_blk) <> b -> (blk_at s'.(sd) q).(Ssd.igc) = (blk_at s.(sd) q).(Ssd.igc) /\
    (blk_at s'.(sd) q).(Ssd.vgc) = (blk_at s.(sd) q).(Ssd.vgc);
  mv_lines : forall i, i <> b -> s'.(lm).(lines) i = s.(lm).(lines) i;
  mv_lists : set_lines s'.(lm) s.(lm).(lines) = s.(lm);
  mv_wps : forall u, u <> t -> __get_wp s' u = __get_wp s u;
  mv_rest : same_rest s s';
  mv_grain : forall y i, 0 <= i < GRAIN_PER_PAGE ->
    (forall m, 0 <= m < (sp_of s).(pgs_per_line) -> y = index_of s b m -> 8 * m + i < x) ->
    bit s' (y * GRAIN_PER_PAGE + i) = bit s (y * GRAIN_PER_PAGE + i) /\ s'.(oob) y i = s.(oob) y i
}.

Lemma moves_refl s t b x : moves s s t b x.
Proof. split; try done. by destruct s.(lm). Qed.

Lemma moves_trans s1 s2 s3 t b x x' : x <= x' -> moves s1 s2 t b x -> moves s2 s3 t b x' -> moves s1 s3 t b x.
Proof.
  intros Hx [A1 A2 A3 A4 A5 A6 A7 A8] [B1 B2 B3 B4 B5 B6 B7 B8]. rewrite A1 in *. split.
  - congruence.
  - intros q Hq. by rewrite B2, A2.
  - intros q Hq. destruct (B3 q Hq) as [-> ->]. by apply A3.
  - intros i Hi. by rewrite B4, A4.
  - destruct (lm s1), (lm s2), (lm s3). cbn in *. unfold set_lines in *. cbn in *. congruence.
  - intros u Hu. by rewrite B6, A6.
  - by etransitivity.
  - intros y i Hi Hm. destruct (A8 y i Hi Hm) as [<- <-]. apply B8; [done|]. intros m Hm' E. specialize (Hm m Hm' E). lia.
Qed.

(** What storing [len] grains behind the first [g] of the current page changes. *)
Record stored (s s' : demand_shard) (b n g len : Z) : Prop := {
  st_sp : sp_of s' = sp_of s;
  st_bit : forall q, bit s' q = if q =? index_of s b n * GRAIN_PER_PAGE + g then true else bit s q;
  st_line : forall i, (s'.(lm).(lines) i).(vgc) = (s.(lm).(lines) i).(vgc) + (if i =? b then len else 0) /\
    (s'.(lm).(lines) i).(igc) = (s.(lm).(lines) i).(igc);
  st_oob : s'.(oob) = s.(oob)
}.

Lemma pa_geom s t b n g : place_at s t b n g ->
  geom (sp_of s) /\ 0 <= b < (sp_of s).(blks_per_pl) /\ n + 1 < (sp_of s).(pgs_per_line).
Proof.
  intros U. pose proof (sh_geom _ (pa_inv _ _ _ _ _ U)). destruct (pa_wp _ _ _ _ _ U) as (_ & (Hb & _) & Hn).
  split; [done|]. split; [done|]. lia.
Qed.

(** A page of the line as the operations see it. *)
Lemma line_page s b m : geom (sp_of s) -> 0 <= b < (sp_of s).(blks_per_pl) -> 0 <= m < (sp_of s).(pgs_per_line) ->
  page_ok (sp_of s) (page_of s b m) /\ 0 <= index_of s b m < (sp_of s).(tt_pgs) /\
  ppa_to_struct (sp_of s) (index_of s b m) = Ok (page_of s b m) /\
  ppa2pgidx (sp_of s) (page_of s b m) = Ok (index_of s b m).
Proof.
  intros G Hb Hm. pose proof (page_at_ok _ G b m Hb Hm) as P. split; [done|]. split; [by apply pgidx_range|].
  split; [by apply ppa_to_struct_pgidx|by apply ppa2pgidx_ok].
Qed.

(** Blocks of other lines are other blocks. *)
Lemma same_blk_line p q : same_blk p q -> q.(g_blk) = p.(g_blk).
Proof. by intros (_ & _ & _ & ->). Qed.

(** [len] grains behind the first [g] of the current page. *)
Lemma place_store_ok s t b n g len :
  place_at s t b n g -> 0 < len -> g + len <= GRAIN_PER_PAGE ->
  exists s', mark_grain_valid s (index_of s b n * GRAIN_PER_PAGE + g) len = Ok s' /\ place_at s' t b n (g + len) /\
    stored s s' b n g len /\ timing_kept s s' /\ moves s s' t b (8 * n + g) /\
    (forall q, (blk_at s'.(sd) q).(Ssd.igc) = (blk_at s.(sd) q).(Ssd.igc)) /\ 
    (forall u, __get_wp s' u = __get_wp s u) /\ s'.(offset) = s.(offset) /\
    (blk_at s'.(sd) (page_of s b n)).(Ssd.vgc) = (blk_at s.(sd) (page_of s b n)).(Ssd.vgc) + len.
Proof.
  intros U Hl Hg. destruct (pa_geom _ _ _ _ _ U) as (G & Hb & Hn1). pose proof (pa_range _ _ _ _ _ U) as [Hn Hg0].
  destruct (line_page s b n G Hb ltac:(lia)) as (P & Hi & Ep & _).
  set (x := index_of s b n) in *. set (p := page_of s b n) in *.
  pose proof (line_grains_small _ G) as Hlg.
  destruct (geom_consts _ G) as (_ & _ & _ & _ & _ & Hc & _ & _ & _ & _ & Epl & _).
  assert (Elg : line_grains (sp_of s) = 8 * (sp_of s).(pgs_per_line)) by (unfold line_grains; rewrite GPP_val; lia).
  pose proof (pa_blk _ _ _ _ _ U n ltac:(lia)) as Hv. rewrite Z.eqb_refl in Hv. fold p in Hv.
  destruct P as [V Rz]. pose proof V as V'. apply (valid_ppa_iff _ G) in V'. rewrite GPP_val in *.
  pose proof (pa_line _ _ _ _ _ U) as Hln. rewrite GPP_val in Hln.
  destruct (mark_grain_valid_open s p (x * 8 + g) len) as (s' & E & I' & Es & Q & O).
  - apply U.
  - rewrite GPP_val. lia.
  - rewrite GPP_val, Z.div_add_l, Z.div_small, Z.add_0_r by lia. exact Ep.
  - apply (pa_status _ _ _ _ _ U).
  - rewrite (blk_grains_val _ G). lia.
  - done.
  - change (g_blk p) with b. rewrite Elg. lia.
  - change (g_blk p) with b. apply (pa_wp _ _ _ _ _ U).
  - apply (pa_bits _ _ _ _ _ U); rewrite ?GPP_val; lia.
  - destruct (gg_rest _ _ _ _ _ Q) as (R1 & R2 & R3). change (g_blk p) with b in *.
    assert (Ln : forall i, (s'.(lm).(lines) i).(vgc) = (s.(lm).(lines) i).(vgc) + (if i =? b then len else 0) /\
      (s'.(lm).(lines) i).(igc) = (s.(lm).(lines) i).(igc)).
    { intros i. rewrite (gg_lm _ _ _ _ _ Q). cbn. rewrite upd_case. change (g_blk p) with b.
      destruct (Z.eqb_spec i b) as [->|]; cbn; split; lia. }
    exists s'. split; [done|]. split; [|split; [|split; [by eapply mark_grain_valid_timing|split; [|split_and!]]]].
    + destruct (pa_wp _ _ _ _ _ U) as (W1 & W2 & W3). split; rewrite ?Es, ?GPP_val; fold p x.
      * done.
      * unfold wp_ok. rewrite R2, Es. split; [done|]. split; [done|lia].
      * lia.
      * rewrite (gg_status _ _ _ _ _ Q). apply (pa_status _ _ _ _ _ U).
      * intros m Hm. rewrite (gg_status _ _ _ _ _ Q). by apply (pa_free _ _ _ _ _ U).
      * intros m i Hm Hi2 Hx. rewrite (gg_bitmap _ _ _ _ _ Q). destruct (Z.eqb_spec (index_of s b m * 8 + i) (x * 8 + g)) as [C|C].
        -- assert (index_of s b m = x) as Ex by lia.
           apply index_inj in Ex; [|done|done|lia|lia]. specialize (Hx Ex). lia.
        -- pose proof (pa_bits _ _ _ _ _ U m i) as Bt. rewrite GPP_val in Bt. apply Bt; lia.
      * intros m Hm. destruct (gg_blk _ _ _ _ _ Q (page_of s b m)) as [_ ->].
        pose proof (pa_blk _ _ _ _ _ U m Hm) as Hm2. rewrite GPP_val in Hm2.
        destruct (Z.eqb_spec m n) as [->|Ne]; [rewrite decide_True by done; lia|].
        case_decide as Sb; [|lia]. pose proof (same_blk_pg _ b m n G Hb ltac:(lia) ltac:(lia) Sb) as Hpg.
        fold p in Hpg. rewrite (same_blk_at _ _ _ Sb) in *. lia.
      * destruct (Ln b) as [-> ->]. rewrite Z.eqb_refl. lia.
    + split; [done| | |done].
      * intros q. rewrite GPP_val. apply (gg_bitmap _ _ _ _ _ Q).
      * exact Ln.
    + apply mark_grain_valid_rest in E. split; try done.
      * intros q _. apply (gg_status _ _ _ _ _ Q).
      * intros q Hq. destruct (gg_blk _ _ _ _ _ Q q) as [E1 E2]. split; [done|]. rewrite E2, decide_False; [lia|].
        intros S. apply same_blk_line in S. by rewrite S in Hq.
      * intros i Hi'. rewrite (gg_lm _ _ _ _ _ Q). cbn. rewrite upd_case. change (g_blk p) with b. by case_cmp.
      * rewrite (gg_lm _ _ _ _ _ Q). unfold set_line, set_lines. cbn. by destruct s.(lm).
      * intros y i Hy Hm. rewrite GPP_val in *. split; [|by rewrite R1]. rewrite (gg_bitmap _ _ _ _ _ Q).
        case_cmp; [|done]. assert (E1 : y = x) by lia. pose proof (Hm n ltac:(lia) E1). lia.
    + intros q. apply (gg_blk _ _ _ _ _ Q q).
    + done.
    + done.
    + destruct (gg_blk _ _ _ _ _ Q p) as [_ ->]. by rewrite decide_True.
Qed.

(** A page that is full gives way to the next one. *)
Lemma place_next s t b n : place_at s t b n GRAIN_PER_PAGE -> next_free s t b (n + 1).
Proof.
  intros U. destruct (pa_geom _ _ _ _ _ U) as (G & Hb & Hn1). pose proof (pa_range _ _ _ _ _ U) as [Hn _].
  split.
  - apply U.
  - apply U.
  - intros m Hm. apply (pa_free _ _ _ _ _ U). lia.
  - intros m i Hm Hi. apply (pa_bits _ _ _ _ _ U); lia.
  - intros m Hm. pose proof (pa_blk _ _ _ _ _ U m ltac:(lia)) as Hv. by rewrite (proj2 (Z.eqb_neq m n)), Z.add_0_r in Hv by lia.
  - pose proof (pa_line _ _ _ _ _ U). lia.
Qed.

Lemma dead_next s b n g : dead_ok s b n g -> dead_ok s b (n + 1) 0.
Proof.
  intros D m Hm. pose proof (D m ltac:(lia)) as Hv. rewrite (proj2 (Z.eqb_neq m n)) in Hv by lia. by destruct (m =? n + 1).
Qed.

Lemma dead_more s b n g g' : g <= g' -> dead_ok s b n g -> dead_ok s b n g'.
Proof. intros Hg D m Hm. pose proof (D m Hm). case_cmp; lia. Qed.

(** The next page is taken. *)
Lemma place_take s t b n : next_free s t b n -> n + 1 < (sp_of s).(pgs_per_line) ->
  let p := page_of s b n in
  exists s1 s', get_new_page s t = Ok p /\ advance_write_pointer s t = Ok s1 /\ mark_page_valid s1 p = Ok s' /\
    sp_of s1 = sp_of s /\ place_at s' t b n 0 /\ timing_kept s s' /\ moves s s' t b (8 * n) /\
    s'.(grain_bitmap) = s.(grain_bitmap) /\ s'.(oob) = s.(oob) /\ s'.(lm) = s.(lm) /\
    (forall q, (blk_at s'.(sd) q).(Ssd.igc) = (blk_at s.(sd) q).(Ssd.igc)).
Proof.
  intros U Hn1 p. pose proof (nf_inv _ _ _ _ U) as I. pose proof (sh_geom _ I) as G. pose proof (nf_wp _ _ _ _ U) as W.
  destruct W as (W1 & (Hb & W2) & Hn). 
  assert (F : page_free s t b n) by (split; [apply U|done|]; apply (nf_free _ _ _ _ U); lia).
  destruct (get_new_page_ok s t b n G (nf_wp _ _ _ _ U)) as (E & P & _). fold p in E, P.
  destruct (take_page_ok s t b n I F) as (s1 & s' & E1 & E2 & Es & T). fold p in E2.
  destruct (pt_rest _ _ _ _ _ T) as (R1 & R2 & R3 & R4). pose proof (pt_sp _ _ _ _ _ T) as Es'.
  exists s1, s'. split; [done|]. split; [done|]. split; [done|]. split; [done|].
  pose proof (advance_write_pointer_sd _ _ _ E1) as Ed.
  split; [|split; [|split; [|split_and!; try done]]].
  - split; rewrite ?Es'; fold p.
    + apply T.
    + apply T.
    + rewrite GPP_val. lia.
    + rewrite (pt_status _ _ _ _ _ T). by rewrite decide_True.
    + intros m Hm. rewrite (pt_status _ _ _ _ _ T).
      rewrite decide_False; [apply (nf_free _ _ _ _ U); lia|]. intros [S S'].
      apply (same_page _ b) in S'; try done; lia.
    + intros m i Hm Hi _. rewrite R1. by apply (nf_bits _ _ _ _ U).
    + intros m Hm. destruct (pt_blk _ _ _ _ _ T (page_of s b m)) as [_ ->].
      pose proof (nf_blk _ _ _ _ U m ltac:(lia)). by destruct (m =? n); rewrite ?Z.add_0_r.
    + rewrite (pt_lm _ _ _ _ _ T), Z.add_0_r. apply (nf_line _ _ _ _ U).
  - apply move_page_timing in E2. by rewrite Ed in E2.
  - split; try done.
    + intros q Hq. rewrite (pt_status _ _ _ _ _ T), decide_False; [done|]. intros [S _]. apply same_blk_line in S. by rewrite S in Hq.
    + intros q _. apply (pt_blk _ _ _ _ _ T).
    + intros i _. by rewrite (pt_lm _ _ _ _ _ T).
    + rewrite (pt_lm _ _ _ _ _ T). by destruct s.(lm).
    + apply (pt_wps _ _ _ _ _ T).
    + apply advance_write_pointer_rest in E1. apply move_page_rest in E2. by etransitivity.
    + intros y i _ _. by rewrite R1, R2.
  - apply (pt_lm _ _ _ _ _ T).
  - intros q. apply (pt_blk _ _ _ _ _ T q).
Qed.

(** ** Giving up the rest of a stripe *)

(** The books of an open line. *)
Lemma line_lose_open spp l i len :
  geom spp -> lines_inv spp l -> is_open l spp i -> 0 < len <= (l.(lines) i).(vgc) -> (l.(lines) i).(vgc) < line_grains spp ->
  let x := set_vgc (set_igc (l.(lines) i) ((l.(lines) i).(igc) + len)) ((l.(lines) i).(vgc) - len) in
  exists t, line_lose spp l i len false = Ok (set_lines l t, false) /\ forall j, t j = if j =? i then x else l.(lines) j.
Proof.
  intros G L (Hi & _ & Nq) Hl Hv x. destruct (li_table _ _ L i Hi) as (Hid & V & Ig & Le & Ip).
  pose proof (line_grains_small _ G) as Gs. unfold line_lose.
  rewrite (line_at_ok _ _ _ L Hi). cbn [mbind result_mbind result_bind].
  rewrite (proj2 (Z.geb_le (igc (lines l i)) 0)), (proj2 (Z.ltb_lt (igc (lines l i)) (line_grains spp))) by lia.
  cbn [andb assert_ mbind result_mbind result_bind]. rewrite !u64_small by lia.
  rewrite Z.geb_leb, (proj2 (Z.leb_gt (line_grains spp) _)) by lia. cbn [mbind result_mbind result_bind].
  rewrite (proj2 (Z.ltb_lt (igc _) _)) by lia. cbn [assert_ mbind result_mbind result_bind].
  assert (At : forall t, line_at (set_lines l t) i = Ok (t i)).
  { intros t. unfold line_at. cbn. by rewrite (li_tt _ _ L), cell_in. }
  unfold set_line. rewrite At, upd_eq. cbn [mbind result_mbind result_bind].
  cbn [set_igc pos vgc]. rewrite (li_pos _ _ L i Hi Nq). cbn [Z.eqb negb mbind result_mbind result_bind].
  rewrite !i32_small by lia. change (set_lines (set_lines l ?t) ?u) with (set_lines l u).
  rewrite At, upd_eq. cbn [mbind result_mbind result_bind set_vgc vgc].
  rewrite (proj2 (Z.geb_le _ 0)), (proj2 (Z.leb_le _ (line_grains spp))) by lia. cbn [andb assert_ mbind result_mbind result_bind].
  eexists. split; [done|]. intros j. cbn. rewrite !upd_case. by case_cmp.
Qed.

Lemma invalid_lines s grain len s' p : mark_grain_invalid s grain len = Ok s' ->
  ppa_to_struct (sp_of s) (grain / GRAIN_PER_PAGE) = Ok p -> 0 <= grain -> 0 < len -> grain mod GRAIN_PER_PAGE + len <= GRAIN_PER_PAGE ->
  exists w, line_lose (sp_of s) s.(lm) p.(g_blk) len false = Ok (s'.(lm), w).
Proof.
  unfold mark_grain_invalid. intros H Ep Hg Hl Hm. rewrite Ep in H. cbn [mbind result_mbind result_bind] in H.
  rewrite GPP_val in *. pose proof (Z.mod_pos_bound grain 8 ltac:(lia)).
  rewrite Z.gtb_ltb, (proj2 (Z.ltb_ge 8 len)) in H by lia. cbn [mbind result_mbind result_bind invalidate_loop] in H.
  rewrite GPP_val, u32_small, Z.min_l in H by lia. apply result_bind_ok in H as ([s1 w] & E & H).
  rewrite Z.sub_diag in H. injection H as <-. unfold invalidate_page in E. ok_steps. cbn. by eexists.
Qed.

(** Grains that have just been stored are given up. *)
Lemma place_drop_ok s t b n g len :
  place_at s t b n (g + len) -> dead_ok s b n g -> 0 <= g -> 0 < len -> g + len <= GRAIN_PER_PAGE ->
  bit s (index_of s b n * GRAIN_PER_PAGE + g) = true -> len <= (s.(lm).(lines) b).(vgc) ->
  0 < (blk_at s.(sd) (page_of s b n)).(Ssd.vgc) ->
  exists s', mark_grain_invalid s (index_of s b n * GRAIN_PER_PAGE + g) len = Ok s' /\ place_at s' t b n (g + len) /\
    dead_ok s' b n (g + len) /\ timing_kept s s' /\ moves s s' t b (8 * n + g) /\ s'.(oob) = s.(oob) /\
    forall q, bit s' q = if q =? index_of s b n * GRAIN_PER_PAGE + g then false else bit s q.
Proof.
  intros U D Hg0 Hl Hg Hbit Hln Hbv. destruct (pa_geom _ _ _ _ _ U) as (G & Hb & Hn1). pose proof (pa_range _ _ _ _ _ U) as [Hn _].
  destruct (line_page s b n G Hb ltac:(lia)) as (P & Hi & Ep & _). pose proof (pa_inv _ _ _ _ _ U) as I.
  set (x := index_of s b n) in *. set (p := page_of s b n) in *. pose proof (line_grains_small _ G) as Hlg.
  destruct (geom_consts _ G) as (_ & _ & _ & _ & _ & Hc & _ & _ & _ & _ & Epl & _).
  assert (Elg : line_grains (sp_of s) = 8 * (sp_of s).(pgs_per_line)) by (unfold line_grains; rewrite GPP_val; lia).
  pose proof (pa_blk _ _ _ _ _ U n ltac:(lia)) as Hv. pose proof (D n ltac:(lia)) as Hd. rewrite Z.eqb_refl in Hv, Hd. fold p in Hv, Hd.
  pose proof P as [V _]. apply (valid_ppa_iff _ G) in V. pose proof (pa_line _ _ _ _ _ U) as Hll. rewrite GPP_val in *.
  destruct (li_table _ _ (sh_lines _ I) b Hb) as (_ & _ & Ig & _).
  assert (Hx : (x * 8 + g) / 8 = x /\ (x * 8 + g) mod 8 = g) by zlia. destruct Hx as [Hx1 Hx2].
  destruct (mark_grain_invalid_ok s p (x * 8 + g) len (blk_at s.(sd) p).(Ssd.vgc) (blk_at s.(sd) p).(Ssd.igc) I)
    as (s' & E & I' & Es & Q); rewrite ?GPP_val, ?Hx1, ?Hx2, ?(blk_grains_val _ G); try done; try lia.
  { apply (pa_status _ _ _ _ _ U). }
  { change (g_blk p) with b. lia. }
  pose proof (pa_wp _ _ _ _ _ U) as (W1 & W2 & W3). destruct (gl_rest _ _ _ _ _ Q) as (R1 & R2 & R3).
  destruct (line_lose_open (sp_of s) s.(lm) b len G (sh_lines _ I) W2 ltac:(lia) ltac:(lia)) as (lt & El & Elt).
  pose proof (invalid_lines s _ len s' p E) as Elm. rewrite GPP_val, Hx1, Hx2 in Elm. change (g_blk p) with b in Elm.
  destruct (Elm Ep ltac:(lia) ltac:(lia) ltac:(lia)) as (w & Elw). clear Elm.
  rewrite El in Elw. injection Elw as Elm _.
  assert (Blk : forall m, n <= m < pgs_per_line (sp_of s) ->
    0 <= (blk_at s'.(sd) (page_of s b m)).(Ssd.igc) <= 8 * (page_of s b m).(g_pg) + (if m =? n then g + len else 0)).
  { intros m Hm. destruct (gl_blk _ _ _ _ _ Q (page_of s b m)) as [_ ->]. pose proof (D m Hm) as Hm2. rewrite GPP_val in Hm2.
    destruct (Z.eqb_spec m n) as [->|Ne]; [rewrite decide_True by done; lia|].
    case_decide as Sb; [|lia]. pose proof (same_blk_pg _ b m n G Hb ltac:(lia) ltac:(lia) Sb) as Hpg.
    fold p in Hpg. rewrite (same_blk_at _ _ _ Sb) in *. lia. }
  exists s'. split; [done|]. split; [|split; [|split; [by eapply mark_grain_invalid_timing|split; [|split; [done|apply Q]]]]].
  - destruct U as [U1 U2 U3 U4 U5 U6 U7 U8]. split; rewrite ?Es, ?GPP_val; fold p x; try done.
    + unfold wp_ok. rewrite R2, Es, <- Elm. done.
    + by rewrite (gl_status _ _ _ _ _ Q).
    + intros m Hm. rewrite (gl_status _ _ _ _ _ Q). by apply U5.
    + intros m i Hm Hi2 Hm2. rewrite (gl_bitmap _ _ _ _ _ Q). case_cmp; [done|]. rewrite <- GPP_val. apply U6; rewrite ?GPP_val; done.
    + intros m Hm. destruct (gl_blk _ _ _ _ _ Q (page_of s b m)) as [-> _]. pose proof (U7 m Hm) as Hm2. by rewrite GPP_val in Hm2.
    + rewrite <- Elm. cbn [set_lines lines]. rewrite Elt, Z.eqb_refl. cbn. lia.
  - intros m. rewrite Es, GPP_val. apply Blk.
  - split; try done.
    + intros q _. apply (gl_status _ _ _ _ _ Q).
    + intros q Hq. destruct (gl_blk _ _ _ _ _ Q q) as [E1 E2]. split; [|done]. rewrite E2, decide_False; [lia|].
      intros S. apply same_blk_line in S. by rewrite S in Hq.
    + intros i Hi2. rewrite <- Elm. cbn [set_lines lines]. by rewrite Elt, (proj2 (Z.eqb_neq i b)).
    + rewrite <- Elm. by destruct s.(lm).
    + by eapply mark_grain_invalid_rest.
    + intros y i Hy Hm. rewrite GPP_val in *. split; [|by rewrite R1]. rewrite (gl_bitmap _ _ _ _ _ Q).
      case_cmp; [|done]. assert (E1 : y = x) by lia. pose proof (Hm n ltac:(lia) E1). lia.
Qed.

(** The first page of the next stripe. *)
Definition stripe_end (spp : ssdparams) (n : Z) : Z := spp.(pgs_per_oneshotpg) * spp.(nchs) * (stripe spp n + 1).

Lemma stripe_end_next spp n : geom spp -> 0 <= n ->
  n < stripe_end spp n <= n + spp.(pgs_per_oneshotpg) * spp.(nchs) /\
  (stripe spp (n + 1) = stripe spp n -> stripe_end spp (n + 1) = stripe_end spp n) /\
  (stripe spp (n + 1) <> stripe spp n -> stripe_end spp n = n + 1).
Proof.
  intros G Hn. destruct (geom_consts _ G) as (E1 & _ & _ & _ & _ & Hc & _). unfold stripe_end, stripe. rewrite E1.
  set (w := 8 * nchs spp). assert (0 < w) by (unfold w; lia).
  assert (Hs : (n + 1) / w = n / w \/ ((n + 1) / w = n / w + 1 /\ n + 1 = w * (n / w + 1))).
  { destruct (Z.eq_dec (n mod w) (w - 1)) as [E|E].
    - right. pose proof (Z.div_mod n w ltac:(lia)). assert (n + 1 = w * (n / w + 1)) as E2 by lia. split; [|done].
      rewrite E2 at 1. rewrite Z.mul_comm, Z.div_mul by lia. done.
    - left. pose proof (Z.div_mod n w ltac:(lia)). pose proof (Z.mod_pos_bound n w ltac:(lia)).
      symmetry. apply Z.div_unique with (n mod w + 1); lia. }
  pose proof (Z.div_mod n w ltac:(lia)). pose proof (Z.mod_pos_bound n w ltac:(lia)).
  split; [nia|]. split; [by intros ->|]. intros Ne. destruct Hs as [Hs|[_ Hs]]; [done|]. by rewrite <- Hs.
Qed.

Lemma place_oob s t b n g o : place_at s t b n g -> place_at (set_oob s o) t b n g.
Proof. intros [[I1 I2] U2 U3 U4 U5 U6 U7 U8]. split; try done. Qed.

(** The cells of the rest of a page are overwritten. *)
Lemma moves_oob s t b n g (o : Z -> Z -> Z) : 0 <= n -> 0 <= b < (sp_of s).(blks_per_pl) -> geom (sp_of s) -> n < (sp_of s).(pgs_per_line) ->
  (forall y i, 0 <= i < GRAIN_PER_PAGE -> (y = index_of s b n -> i < g) -> o y i = s.(oob) y i) ->
  moves s (set_oob s o) t b (8 * n + g).
Proof.
  intros Hn Hb G Hl Ho. split; try done; [cbn; by destruct s.(lm)|]. intros y i Hi Hm. split; [done|]. apply Ho; [done|].
  intros E. specialize (Hm n ltac:(lia) E). lia.
Qed.

(** What is left of a page is written and given up at once. *)
Lemma place_waste_ok s t b n g : place_at s t b n g -> dead_ok s b n g -> g < GRAIN_PER_PAGE ->
  let len := GRAIN_PER_PAGE - g in let grain := index_of s b n * GRAIN_PER_PAGE + g in
  exists s1 s2, mark_grain_valid s grain len = Ok s1 /\ mark_grain_invalid s1 grain len = Ok s2 /\
    place_at s2 t b n GRAIN_PER_PAGE /\ dead_ok s2 b n GRAIN_PER_PAGE /\ timing_kept s s2 /\
    moves s s2 t b (8 * n + g) /\ s2.(oob) = s.(oob) /\ forall q, bit s2 q = bit s q.
Proof.
  intros U D Hg len grain. destruct (pa_geom _ _ _ _ _ U) as (G & Hb & Hn1). pose proof (pa_range _ _ _ _ _ U) as [Hn Hg0].
  destruct (place_store_ok s t b n g len U) as (s1 & E1 & U1 & [S1 S2 S3 S4] & T1 & M1 & I1 & _ & _ & V1); [unfold len; lia..|].
  replace (g + len) with GRAIN_PER_PAGE in U1 by (unfold len; lia).
  assert (D1 : dead_ok s1 b n g) by (intros m; rewrite S1, I1; apply D).
  pose proof (pa_blk _ _ _ _ _ U n ltac:(lia)) as Hv.
  destruct (li_table _ _ (sh_lines _ (pa_inv _ _ _ _ _ U)) b Hb) as (_ & Vg & _).
  destruct (place_drop_ok s1 t b n g len) as (s2 & E2 & U2 & D2 & T2 & M2 & O2 & B2); rewrite ?S1; try done;
    try (unfold len; lia).
  { by replace (g + len) with GRAIN_PER_PAGE by (unfold len; lia). }
  { by rewrite S2, Z.eqb_refl. }
  { rewrite (proj1 (S3 b)), Z.eqb_refl. lia. }
  replace (g + len) with GRAIN_PER_PAGE in * by (unfold len; lia). rewrite S1 in *.
  exists s1, s2. split; [done|]. split; [done|]. split; [done|]. split; [done|].
  split; [etransitivity; [exact T1|exact T2]|]. split; [eapply moves_trans; [done|exact M1|exact M2]|].
  split; [congruence|]. intros q. rewrite B2. case_cmp; [|rewrite S2; by case_cmp].
  symmetry. subst q. apply (pa_bits _ _ _ _ _ U); lia.
Qed.

(** One page of [clear_rest_of_line]. *)
Lemma clear_page_ok s t b n g : place_at s t b n g -> dead_ok s b n g -> g < GRAIN_PER_PAGE ->
  let len := GRAIN_PER_PAGE - g in let grain := index_of s b n * GRAIN_PER_PAGE + g in
  exists s1 s2, mark_grain_valid s grain len = Ok s1 /\ mark_grain_invalid s1 grain len = Ok s2 /\
    let s' := set_oob s2 (upd s2.(oob) (index_of s b n) (memset (s2.(oob) (index_of s b n)) g len UINT_MAX)) in
    place_at s' t b n GRAIN_PER_PAGE /\ dead_ok s' b n GRAIN_PER_PAGE /\ timing_kept s s' /\
    moves s s' t b (8 * n + g) /\ forall q, bit s' q = bit s q.
Proof.
  intros U D Hg len grain. destruct (pa_geom _ _ _ _ _ U) as (G & Hb & Hn1). pose proof (pa_range _ _ _ _ _ U) as [Hn Hg0].
  destruct (place_waste_ok s t b n g U D Hg) as (s1 & s2 & E1 & E2 & U2 & D2 & T2 & M2 & O2 & B2).
  exists s1, s2. split; [done|]. split; [done|]. intros s'. split; [by apply place_oob|]. split; [done|]. split; [done|]. split; [|done].
  eapply moves_trans; [done|exact M2|]. pose proof (mv_sp _ _ _ _ _ M2) as Es. apply moves_oob; rewrite ?Es; try done; try lia.
  intros y i Hi Hy. rewrite upd_case. case_cmp; [|done]. specialize (Hy e). unfold memset. rewrite (proj2 (Z.leb_gt g i)) by lia. by subst.
Qed.

Lemma clear_loop_ok fuel s t b n g rem credits :
  let e := stripe_end (sp_of s) n in
  place_at s t b n g -> dead_ok s b n g -> g < GRAIN_PER_PAGE -> e < (sp_of s).(pgs_per_line) ->
  e - n < Z.of_nat fuel -> 8 * (e - n) <= rem < 2 ^ 31 ->
  exists s' credits', clear_loop fuel s (page_of s b n) (index_of s b n) (index_of s b n * GRAIN_PER_PAGE + g) g rem
      (page_of s b n).(g_lun) t credits = Ok (s', credits') /\
    next_free s' t b e /\ dead_ok s' b e 0 /\ timing_kept s s' /\ moves s s' t b (8 * n + g) /\
    forall q, bit s' q = bit s q.
Proof.
  revert s n g rem credits. induction fuel as [|fuel IH]; intros s n g rem credits e U D Hg He Hf Hr; [|].
  { pose proof (pa_range _ _ _ _ _ U) as [Hn _]. destruct (pa_geom _ _ _ _ _ U) as (G & _).
    destruct (stripe_end_next (sp_of s) n G Hn) as (Hx & _). fold e in Hx. lia. }
  destruct (pa_geom _ _ _ _ _ U) as (G & Hb & Hn1). pose proof (pa_range _ _ _ _ _ U) as [Hn Hg0].
  destruct (stripe_end_next (sp_of s) n G Hn) as (Hx & X1 & X2). fold e in Hx, X1, X2.
  cbn [clear_loop]. rewrite Z.eqb_refl. cbn [negb]. rewrite GPP_val in Hg, Hg0 |- *.
  rewrite (Z.mod_small g 8), (u64_small (8 - g)), (Z.min_r rem), (u32_small (8 - g)) by lia.
  destruct (clear_page_ok s t b n g U D) as (s1 & s2 & E1 & E2 & U' & D' & T' & M' & B'); [rewrite GPP_val; lia|].
  rewrite GPP_val in *. rewrite E1. cbn [mbind result_mbind result_bind]. rewrite E2. cbn [mbind result_mbind result_bind].
  set (s3 := set_oob s2 _) in *. pose proof (mv_sp _ _ _ _ _ M') as Es. change (sp_of s2) with (sp_of s3). rewrite Es.
  destruct (same_lun _ G b n Hb ltac:(lia)) as (q & Eq & Lun). rewrite Eq. rewrite peek_page_at in Eq by (done || lia).
  rewrite (proj2 (Z.eqb_neq n _)) in Eq by lia. injection Eq as <-. cbn [mbind result_mbind result_bind].
  destruct (line_page s b (n + 1) G Hb ltac:(lia)) as (_ & _ & _ & Ei). rewrite Ei. cbn [mbind result_mbind result_bind]. rewrite Lun.
  assert (F : next_free s3 t b (n + 1)) by (apply place_next; by rewrite GPP_val).
  apply dead_next in D'. rewrite (u64_small (rem - (8 - g))) by lia.
  destruct (Z.eqb_spec (stripe (sp_of s) (n + 1)) (stripe (sp_of s) n)) as [Sm|Sm].
  - specialize (X1 Sm). destruct (stripe_end_next (sp_of s) (n + 1) G ltac:(lia)) as (Hx1 & _).
    destruct (place_take s3 t b (n + 1) F) as (s4 & s5 & _ & E4 & E5 & _ & U5 & T5 & M5 & R5 & _ & _ & I5); [rewrite Es; lia|].
    rewrite E4. cbn [mbind result_mbind result_bind]. rewrite Es in E5. rewrite E5. cbn [mbind result_mbind result_bind].
    pose proof (mv_sp _ _ _ _ _ M5) as Es5. rewrite Es in Es5.
    apply Z.eqb_eq in Lun.
    destruct (IH s5 (n + 1) 0 (rem - (8 - g)) (u64 (credits + (8 - g)))) as (s' & c' & E6 & F6 & D6 & T6 & M6 & B6);
      rewrite ?Es5, ?X1; try done; try lia.
    { intros m. rewrite Es5, I5, <- Es. apply D'. }
    rewrite Es5, Z.add_0_r, Lun in E6. rewrite E6. rewrite Es5, X1 in F6, D6.
    exists s', c'. split; [done|]. split; [done|]. split; [done|]. split; [by etransitivity; [exact T'|etransitivity]|].
    split; [|intros q; by rewrite B6, R5, B'].
    eapply moves_trans; [|exact M'|eapply moves_trans; [|exact M5|exact M6]]; lia.
  - specialize (X2 Sm). destruct fuel as [|fuel]; [lia|]. cbn [mbind result_mbind result_bind clear_loop]. rewrite Lun. cbn [negb].
    eexists _, _. split; [done|]. rewrite X2. by split_and!.
Qed.

(** ** What is written to another line *)

(** The line of a page is told by its index. *)
Lemma line_inj spp b m c n : geom spp -> 0 <= b < spp.(blks_per_pl) -> 0 <= c < spp.(blks_per_pl) ->
  0 <= m < spp.(pgs_per_line) -> 0 <= n < spp.(pgs_per_line) ->
  pgidx spp (page_at spp b m) = pgidx spp (page_at spp c n) -> b = c /\ m = n.
Proof.
  intros G Hb Hc Hm Hn E.
  pose proof (ppa_to_struct_pgidx _ G _ (page_at_ok _ G b m Hb Hm)) as Em.
  pose proof (ppa_to_struct_pgidx _ G _ (page_at_ok _ G c n Hc Hn)) as En.
  rewrite E, En in Em. assert (Ep : page_at spp c n = page_at spp b m) by congruence.
  assert (b = c) as -> by exact (eq_sym (f_equal g_blk Ep)). split; [done|]. by apply (page_at_inj spp c).
Qed.

(** What is written to line [v] leaves the pages of another line as they are. *)
Lemma moves_page s s' t v x b m j : moves s s' t v x -> geom (sp_of s) -> 0 <= b < (sp_of s).(blks_per_pl) -> 0 <= v < (sp_of s).(blks_per_pl) ->
  b <> v -> 0 <= m < (sp_of s).(pgs_per_line) -> 0 <= j < GRAIN_PER_PAGE ->
  bit s' (index_of s b m * GRAIN_PER_PAGE + j) = bit s (index_of s b m * GRAIN_PER_PAGE + j) /\ s'.(oob) (index_of s b m) j = s.(oob) (index_of s b m) j.
Proof.
  intros M G Hb Hv N Hm Hj. apply (mv_grain _ _ _ _ _ M); [done|]. intros n Hn E. destruct N.
  by destruct (line_inj (sp_of s) b m v n G Hb Hv Hm Hn E).
Qed.

Lemma moves_open s s' t v x i : moves s s' t v x -> is_open s.(lm) (sp_of s) i -> is_open s'.(lm) (sp_of s') i.
Proof.
  intros M (A & B & C). rewrite (mv_sp _ _ _ _ _ M). pose proof (mv_lists _ _ _ _ _ M) as E.
  split; [done|]. unfold listed, queued in *. destruct s.(lm), s'.(lm). cbn in *. injection E as -> -> -> -> -> -> ->. done.
Qed.

(** The next page of a line that another pointer does not write to. *)
Lemma next_free_moves s s' u v x t b n : moves s s' u v x -> t <> u -> shard_inv s' -> 0 <= v < (sp_of s).(blks_per_pl) -> b <> v ->
  next_free s t b n -> next_free s' t b n.
Proof.
  intros M Nt I Hv N [F1 (W1 & W2 & W3) F3 F4 F5 F6]. pose proof (sh_geom _ F1) as G.
  pose proof (mv_sp _ _ _ _ _ M) as Es. pose proof (proj1 W2) as Hb. split; rewrite ?Es.
  - done.
  - split; [rewrite Es; by rewrite (mv_wps _ _ _ _ _ M)|]. split; [by apply (moves_open s s' u v x)|by rewrite Es].
  - intros m Hm. rewrite (mv_status _ _ _ _ _ M) by done. by apply F3.
  - intros m i Hm Hi. rewrite (proj1 (moves_page s s' u v x b m i M G Hb Hv N ltac:(lia) Hi)). by apply F4.
  - intros m Hm. destruct (mv_blk _ _ _ _ _ M (page_of s b m)) as [_ ->]; [done|]. by apply F5.
  - by rewrite (mv_lines _ _ _ _ _ M b N).
Qed.

Lemma dead_moves s s' u v x b n g : moves s s' u v x -> b <> v -> dead_ok s b n g -> dead_ok s' b n g.
Proof.
  intros M N D m. rewrite (mv_sp _ _ _ _ _ M). destruct (mv_blk _ _ _ _ _ M (page_of s b m)) as [-> _]; [done|]. apply D.
Qed.

Lemma place_moves s s' u v x t b n g : moves s s' u v x -> t <> u -> shard_inv s' -> 0 <= v < (sp_of s).(blks_per_pl) -> b <> v ->
  place_at s t b n g -> place_at s' t b n g.
Proof.
  intros M Nt I Hv N U. destruct (pa_geom _ _ _ _ _ U) as (G & Hb & _). destruct U as [U1 (W1 & W2 & W3) U3 U4 U5 U6 U7 U8].
  pose proof (mv_sp _ _ _ _ _ M) as Es. split; rewrite ?Es.
  - done.
  - split; [rewrite Es; by rewrite (mv_wps _ _ _ _ _ M)|]. split; [by apply (moves_open s s' u v x)|by rewrite Es].
  - done.
  - by rewrite (mv_status _ _ _ _ _ M).
  - intros m Hm. rewrite (mv_status _ _ _ _ _ M) by done. by apply U5.
  - intros m i Hm Hi. rewrite (proj1 (moves_page s s' u v x b m i M G Hb Hv N ltac:(lia) Hi)). by apply U6.
  - intros m Hm. destruct (mv_blk _ _ _ _ _ M (page_of s b m)) as [_ ->]; [done|]. by apply U7.
  - by rewrite (mv_lines _ _ _ _ _ M b N).
Qed.

(** A grain that is in use stays, as nothing from [x] on is. *)
Lemma moves_kept s s' t b x q : moves s s' t b x -> bit s q = true ->
  (forall m i, 0 <= m < (sp_of s).(pgs_per_line) -> 0 <= i < 8 -> x <= 8 * m + i -> bit s (index_of s b m * 8 + i) = false) ->
  bit s' q = true /\ s'.(oob) (q / 8) (q mod 8) = s.(oob) (q / 8) (q mod 8).
Proof.
  intros M Hq F. assert (Hm : 0 <= q mod 8 < 8) by zlia. assert (Eq : q / 8 * 8 + q mod 8 = q) by zlia.
  destruct (mv_grain _ _ _ _ _ M (q / 8) (q mod 8)) as [K ->]; [done| |by rewrite GPP_val, Eq, Hq in K].
  intros m Hm' E. destruct (Z.lt_ge_cases (8 * m + q mod 8) x) as [|Ge]; [done|exfalso].
  pose proof (F m _ Hm' Hm Ge) as Fb. rewrite <- E, Eq in Fb. congruence.
Qed.
