(* ===== verification/Cache.v ===== *)
(** * The cached mapping table ([cache.c], [cache.h], [demand_ftl.c])

    The hash table that leads from a key to its grain is cut into sections of
    [EPP] entries.  A section is in DRAM ([mappings] is not [NULL]) or only on
    flash; sections in DRAM wait in the FIFO, or, once the eviction thread has
    chosen them, in the ring of victims.  The C pointer [mappings] is [NULL] or
    equal to [mem]: it is the flag [cached] here.  The cell [outgoing] of a
    section is the lock its users spin on; [HANG] is the fault of an operation
    that would spin on a lock someone else holds. *)

From S2P Require Import Prelude Fifo ChModel Ssd Geometry PQueue Line Lines Pages.

(** ** Configuration ([cache.h], the [ORIGINAL] build) *)

Definition ENTRY_SIZE : Z := 4.
Definition EPP : Z := PAGESIZE / ENTRY_SIZE.
Definition OFFSET (x : Z) : Z := Z.land x (EPP - 1).
Definition IDX (x : Z) : Z := x / EPP.
Definition VICTIM_RB_SZ : Z := 131072.
Definition MAX_SEARCH : Z := 131072.
Definition PPA_TO_PGA (ppa off : Z) : Z := u32 (ppa * GRAIN_PER_PAGE + off).
Definition G_IDX (x : Z) : Z := x / GRAIN_PER_PAGE.
Definition G_OFFSET (x : Z) : Z := Z.land x (GRAIN_PER_PAGE - 1).

(** ** State *)

Variant mapping_state := CLEAN | DIRTY | C_CANDIDATE | D_CANDIDATE.

#[export] Instance mapping_state_eq_dec : EqDecision mapping_state.
Proof. solve_decision. Defined.

(** [struct ht_section].  [pair_mem] holds addresses, 0 is [NULL]; the [keys]
    are never set in this build. *)
Record ht_section := mk_ht {
  idx : Z; t_ppa : Z; state : mapping_state; cached : bool; mem : option (Z -> Z);
  g_off : Z; len_on_disk : Z; outgoing : Z; pair_mem : Z -> Z
}.

Record cache := mk_cache {
  nr_valid_tpages : Z; nr_valid_tentries : Z; nr_cached_tentries : Z; max_cached_tentries : Z;
  ht : Z -> ht_section; fifo : ring_buffer
}.

Record victim_buffer := mk_vb { hts : Z -> option Z; vb_head : Z; vb_tail : Z }.

(** [struct demand_shard] with its cache, and the global ring of victims. *)
Record ftl := mk_ftl {
  sh : demand_shard; ca : cache; vb : victim_buffer; candidates : Z; have_victims : Z
}.

Definition set_t_ppa (h : ht_section) (v : Z) : ht_section :=
  mk_ht h.(idx) v h.(state) h.(cached) h.(mem) h.(g_off) h.(len_on_disk) h.(outgoing) h.(pair_mem).
Definition set_state (h : ht_section) (v : mapping_state) : ht_section :=
  mk_ht h.(idx) h.(t_ppa) v h.(cached) h.(mem) h.(g_off) h.(len_on_disk) h.(outgoing) h.(pair_mem).
Definition set_cached (h : ht_section) (v : bool) : ht_section :=
  mk_ht h.(idx) h.(t_ppa) h.(state) v h.(mem) h.(g_off) h.(len_on_disk) h.(outgoing) h.(pair_mem).
Definition set_len (h : ht_section) (v : Z) : ht_section :=
  mk_ht h.(idx) h.(t_ppa) h.(state) h.(cached) h.(mem) h.(g_off) v h.(outgoing) h.(pair_mem).
Definition set_outgoing (h : ht_section) (v : Z) : ht_section :=
  mk_ht h.(idx) h.(t_ppa) h.(state) h.(cached) h.(mem) h.(g_off) h.(len_on_disk) v h.(pair_mem).

Definition set_ht (c : cache) (a : Z -> ht_section) : cache :=
  mk_cache c.(nr_valid_tpages) c.(nr_valid_tentries) c.(nr_cached_tentries)
    c.(max_cached_tentries) a c.(fifo).
Definition set_fifo (c : cache) (f : ring_buffer) : cache :=
  mk_cache c.(nr_valid_tpages) c.(nr_valid_tentries) c.(nr_cached_tentries)
    c.(max_cached_tentries) c.(ht) f.
Definition set_cached_cnt (c : cache) (n : Z) : cache :=
  mk_cache c.(nr_valid_tpages) c.(nr_valid_tentries) (i32 n)
    c.(max_cached_tentries) c.(ht) c.(fifo).

Definition set_sh (f : ftl) (s : demand_shard) : ftl :=
  mk_ftl s f.(ca) f.(vb) f.(candidates) f.(have_victims).
Definition set_ca (f : ftl) (c : cache) : ftl :=
  mk_ftl f.(sh) c f.(vb) f.(candidates) f.(have_victims).
Definition set_vb (f : ftl) (v : victim_buffer) : ftl :=
  mk_ftl f.(sh) f.(ca) v f.(candidates) f.(have_victims).
Definition set_victims (f : ftl) (n h : Z) : ftl :=
  mk_ftl f.(sh) f.(ca) f.(vb) n h.

(** The section [i] of the table [c->ht]. *)
Definition section (c : cache) (i : Z) : result ht_section := cell c.(ht) c.(nr_valid_tpages) i.
Definition put (c : cache) (i : Z) (h : ht_section) : cache := set_ht c (upd c.(ht) i h).

(** ** [cache.c] *)

Definition fresh_section (i : Z) (h : ht_section) : ht_section :=
  mk_ht i UINT_MAX CLEAN false None h.(g_off) 0 0 (fun j => if (0 <=? j) && (j <? EPP) then 0 else h.(pair_mem) j).

(** The contents of the fresh arrays are those the state already holds; the
    result is the number of bytes allocated. *)
Definition init_cache (c : cache) (tt_pgs dram_bytes : Z) : Z * cache :=
  let tpages := i32 (u64 (tt_pgs * GRAIN_PER_PAGE) / EPP) in
  let tentries := i32 (tt_pgs * GRAIN_PER_PAGE) in
  let max := i32 (dram_bytes / GRAINED_UNIT) in
  (u64 (tpages * 8 + tpages * 16432),
   mk_cache tpages tentries 0 max
     (fun i => if (0 <=? i) && (i <? tpages) then fresh_section i (c.(ht) i) else c.(ht) i)
     (fifo_init c.(fifo))).

Definition cache_full (c : cache) : bool := c.(nr_cached_tentries) >=? c.(max_cached_tentries).

Definition cache_hit (h : ht_section) : bool := h.(cached).

(** [ht->mappings[OFFSET(hidx)]], and the position. *)
Definition cache_hidx_to_grain (h : ht_section) (hidx : Z) : result (Z * Z) :=
  match h.(mem) with
  | Some m => if h.(cached) then Ok (m (OFFSET hidx), OFFSET hidx) else Err NULLPTR
  | None => Err NULLPTR
  end.

(** [while (atomic_cmpxchg(&ht->outgoing, 0, 1) != 0) cpu_relax();] *)
Definition lock_section (c : cache) (i : Z) : result cache :=
  h ← section c i;
  if h.(outgoing) =? 0 then Ok (put c i (set_outgoing h 1)) else Err HANG.

(** [atomic_set(&ht->outgoing, 0)]. *)
Definition unlock_section (c : cache) (i : Z) : result cache :=
  h ← section c i; Ok (put c i (set_outgoing h 0)).

Definition cache_get_ht (c : cache) (hidx : Z) : result (Z * cache) :=
  c ← lock_section c (IDX hidx); Ok (IDX hidx, c).

(** ** Probing ([demand_ftl.c]) *)

Record hash_params := mk_hash { hash : Z; cnt : Z; lpa : Z }.

(** [hash] is a [uint32_t], [cnt] an [int]: the sum is computed on 32 bits. *)
Definition PROBING_FUNC (h c : Z) : Z := u32 (h + c + c * c).

Definition probe (c : cache) (h n : Z) : Z :=
  u32 (PROBING_FUNC h n mod u32 (c.(nr_valid_tentries) - 1) + 1).

(** The [again] loop. *)
Fixpoint get_hash_loop (fuel : nat) (c : cache) (p : hash_params) : result hash_params :=
  match fuel with
  | O => Err HANG
  | S fuel =>
      if u32 (c.(nr_valid_tentries) - 1) =? 0 then Err DIVZERO else
      let p := mk_hash p.(hash) p.(cnt) (probe c p.(hash) p.(cnt)) in
      if p.(lpa) <=? EPP then get_hash_loop fuel c (mk_hash p.(hash) (i32 (p.(cnt) + 1)) p.(lpa))
      else Ok p
  end.

(** Each probe in the range below [EPP] is at least two entries after the last,
    so 513 are enough to leave it, and twice that if the sum wraps on the way. *)
Definition probe_fuel : nat := 1030.

Definition get_hash_idx (c : cache) (p : hash_params) : result hash_params :=
  get_hash_loop probe_fuel c p.

(** [__release_map]: the callback an I/O worker runs on [&ht->outgoing]. *)
Definition __release_map (c : cache) (i : Z) : result cache :=
  h ← section c i; Ok (put c i (set_outgoing h (i32 (h.(outgoing) - 1)))).

(** ** Loading and updating a section *)

Definition __entries_to_grains (h : ht_section) : Z := GRAIN_PER_PAGE.

Definition __mark_dirty (h : ht_section) : ht_section :=
  match h.(state) with
  | C_CANDIDATE => set_state h D_CANDIDATE
  | D_CANDIDATE => h
  | CLEAN | DIRTY => set_state h DIRTY
  end.

(** [addr] is the address of the pair, [pte] its grain. *)
Definition __update_map (h : ht_section) (lpa addr pte : Z) : result ht_section :=
  match h.(mem) with
  | Some m =>
      _ ← assert_ h.(cached);
      let h := __mark_dirty h in
      Ok (mk_ht h.(idx) h.(t_ppa) h.(state) true (Some (upd m (OFFSET lpa) pte)) h.(g_off)
            h.(len_on_disk) h.(outgoing) (upd h.(pair_mem) (OFFSET lpa) addr))
  | None => Err BUG
  end.

(** Kernel memory for a section: [kzalloc], then every entry unmapped. *)
Definition fresh_mappings (spp : ssdparams) : Z -> Z :=
  fun i => if (0 <=? i) && (i <? spp.(pgsz) / ENTRY_SIZE) then UINT_MAX else 0.

Section timing.
Context (clock : nat -> Z).

Definition __stime_or_clock (d : ssd) (stime : Z) : Z * ssd :=
  let '(clk, d) := __get_ioclock clock d in (if clk >? stime then clk else stime, d).

(** A NAND command on page [pgi] of the shard. *)
Definition advance (s : demand_shard) (o : nand_op) (p : ppa) (stime size : Z)
    : result (Z * demand_shard) :=
  '(t, d) ← ssd_advance_nand clock s.(sd) (mk_cmd o size stime false p);
  Ok (t, set_sd s d).

(** The branch of [__get_one] for a section that is on flash, and the one for a
    section used for the first time. *)
Definition load_section (s : demand_shard) (h : ht_section) (stime : Z)
    : result (Z * demand_shard * ht_section) :=
  let h := set_cached h (bool_decide (is_Some h.(mem))) in
  _ ← assert_ (negb (h.(t_ppa) =? UINT_MAX));
  p ← ppa_to_struct (sp_of s) h.(t_ppa);
  let '(t, d) := __stime_or_clock s.(sd) stime in
  '(n, s) ← advance (set_sd s d) NAND_READ p t (sp_of s).(pgsz);
  Ok (n, s, h).

Definition create_section (spp : ssdparams) (h : ht_section) : ht_section :=
  mk_ht h.(idx) h.(t_ppa) h.(state) true (Some (fresh_mappings spp)) 0 GRAIN_PER_PAGE h.(outgoing)
    (fun i => if (0 <=? i) && (i <? spp.(pgsz) / ENTRY_SIZE) then 0 else h.(pair_mem) i).

(** The section [i]; the caller holds its lock.  The result is the time the
    mapping page has been read. *)
Definition __get_one (f : ftl) (i : Z) (first : bool) (stime : Z) : result (Z * ftl) :=
  h ← section f.(ca) i;
  '(n, s, h) ← (if first then Ok (0, f.(sh), create_section (sp_of f.(sh)) h)
                else load_section f.(sh) h stime);
  let c := put f.(ca) i h in
  let c := set_fifo c (snd (fifo_enqueue c.(fifo) h.(idx))) in
  let c := set_cached_cnt c (c.(nr_cached_tentries) + h.(len_on_disk)) in
  Ok (n, set_ca (set_sh f s) c).

(** ** Choosing victims: the background thread *)

Definition candidate_state (st : mapping_state) : mapping_state :=
  if bool_decide (st = DIRTY) then D_CANDIDATE else C_CANDIDATE.

(** One victim goes from the FIFO to the ring. *)
Definition collect_one (f : ftl) (v : Z) : result ftl :=
  c ← lock_section f.(ca) v;
  h ← section c v;
  _ ← assert_ (negb (bool_decide (h.(state) = C_CANDIDATE)) && negb (bool_decide (h.(state) = D_CANDIDATE)));
  let h := set_state h (candidate_state h.(state)) in
  let g_len := __entries_to_grains h in
  _ ← assert_ (g_len =? GRAIN_PER_PAGE);
  let ring := mk_vb (upd f.(vb).(hts) f.(vb).(vb_head) (Some v))
    ((f.(vb).(vb_head) + 1) mod VICTIM_RB_SZ) f.(vb).(vb_tail) in
  let c := put c v (set_outgoing h 0) in
  Ok (set_victims (set_vb (set_ca f c) ring) (i32 (f.(candidates) + g_len)) f.(have_victims)).

Definition fifo_take (f : ftl) : option Z * ftl :=
  let '(v, q) := fifo_dequeue f.(ca).(fifo) in (v, set_ca f (set_fifo f.(ca) q)).

(** The search loop; [victim] is the section last dequeued. *)
Fixpoint collect_loop (n : nat) (f : ftl) (victim : option Z) (target_g : Z) : result ftl :=
  match n, victim with
  | O, _ | _, None => Ok f
  | S n, Some v =>
      f ← collect_one f v;
      if u32 f.(candidates) >=? target_g then Ok f else
      let '(victim, f) := fifo_take f in
      collect_loop n f victim target_g
  end.

(** A pass that ends with too few victims has emptied the FIFO; the thread then
    tries again until another thread has filled it. *)
Definition __collect_victims (f : ftl) (target_g : Z) : result ftl :=
  let dist := f.(vb).(vb_head) - f.(vb).(vb_tail) in
  let dist := if dist <? 0 then dist + VICTIM_RB_SZ else dist in
  if dist >? GRAIN_PER_PAGE * 10 then Ok (set_victims f f.(candidates) 1) else
  let '(victim, f) := fifo_take f in
  f ← collect_loop (Z.to_nat MAX_SEARCH) f victim target_g;
  if u32 f.(candidates) <? target_g then Err HANG else Ok (set_victims f f.(candidates) 1).

(** One turn of [bg_ev_t]. *)
Definition bg_ev_turn (f : ftl) : result ftl :=
  if f.(have_victims) =? 0 then __collect_victims (set_victims f 0 f.(have_victims)) GRAIN_PER_PAGE
  else Ok f.

(** ** Eviction: the dispatcher *)

(** The local variables of [__evict_one]. *)
Record evict := mk_ev {
  grain : Z; ppa_ : Z; got_ppa : bool; got_lock : bool; all_clean : bool; evicted : Z;
  nsecs_completed : Z; ev_credits : Z
}.

Definition ev_start (credits : Z) : evict := mk_ev 0 UINT_MAX false false true 0 0 credits.

(** Writing a mapping page: it goes out with the last page of its wordline. *)
Definition write_map_page (s : demand_shard) (ppa stime n : Z) : result (Z * demand_shard) :=
  p ← ppa_to_struct (sp_of s) ppa;
  if last_pg_in_wordline (sp_of s) p then
    let '(t, d) := __stime_or_clock s.(sd) stime in
    advance (set_sd s d) NAND_WRITE p t ((sp_of s).(pgsz) * (sp_of s).(pgs_per_oneshotpg))
  else Ok (n, s).

(** The end of a page that is not filled: its grains are dead. *)
Definition waste (s : demand_shard) (ppa grain : Z) : result demand_shard :=
  s ← mark_grain_valid s (PPA_TO_PGA ppa grain) (GRAIN_PER_PAGE - grain);
  s ← mark_grain_invalid s (PPA_TO_PGA ppa grain) (GRAIN_PER_PAGE - grain);
  Ok (set_oob s (upd s.(oob) ppa (memset (s.(oob) ppa) grain (GRAIN_PER_PAGE - grain) UINT_MAX))).

(** The block labelled [new_page]. *)
Definition new_page (s : demand_shard) (e : evict) (stime : Z) : result (demand_shard * evict) :=
  '(n, s) ← write_map_page s e.(ppa_) stime e.(nsecs_completed);
  Ok (s, mk_ev 0 e.(ppa_) false e.(got_lock) e.(all_clean) e.(evicted) n e.(ev_credits)).

(** The block labelled [skip]: a page for mapping entries.  Page 0 is never
    used: it is taken and marked dead, once. *)
Fixpoint take_map_page (fuel : nat) (s : demand_shard) : result (Z * demand_shard) :=
  match fuel with
  | O => Err HANG
  | S fuel =>
      p ← get_new_page s MAP_IO;
      ppa ← ppa2pgidx (sp_of s) p;
      s ← advance_write_pointer s MAP_IO;
      s ← mark_page_valid s p;
      if ppa =? 0 then
        s ← mark_grain_valid s (PPA_TO_PGA ppa 0) GRAIN_PER_PAGE;
        s ← mark_grain_invalid s (PPA_TO_PGA ppa 0) GRAIN_PER_PAGE;
        take_map_page fuel s
      else Ok (ppa, s)
  end.

(** A dirty victim: its old page is dead, its new one is the next of the map
    line. *)
Definition write_victim (s : demand_shard) (e : evict) (v : ht_section) (g_len : Z)
    : result (demand_shard * evict * ht_section * Z) :=
  _ ← assert_ (g_len =? v.(len_on_disk));
  s ← mark_grain_invalid s (u64 (u32 (v.(t_ppa) * GRAIN_PER_PAGE) + v.(g_off))) v.(len_on_disk);
  _ ← assert_ (negb e.(got_ppa));
  _ ← assert_ (v.(len_on_disk) =? GRAIN_PER_PAGE);
  '(ppa, s) ← take_map_page 2 s;
  let credits := u64 (e.(ev_credits) + GRAIN_PER_PAGE) in
  _ ← assert_ (v.(g_off) =? 0);
  let g_len := (sp_of s).(pgsz) / GRAINED_UNIT in
  let s := set_oob s (upd s.(oob) ppa (upd (s.(oob) ppa) 0 (Z.lor (Z.shiftl g_len 32) (u64 (v.(idx) * EPP))))) in
  s ← mark_grain_valid s (PPA_TO_PGA ppa 0) g_len;
  Ok (s, mk_ev g_len ppa true e.(got_lock) false e.(evicted) e.(nsecs_completed) credits,
      set_t_ppa v ppa, g_len).

Definition room (c : cache) : bool :=
  c.(nr_cached_tentries) <=? i32 (c.(max_cached_tentries) - GRAIN_PER_PAGE).

(** The loop of [__evict_one]. *)
Fixpoint evict_loop (fuel : nat) (f : ftl) (e : evict) (stime : Z) : result (ftl * evict) :=
  match fuel with
  | O => Err HANG
  | S fuel =>
      if room f.(ca) then Ok (f, e) else
      '(s, e) ← (if e.(grain) =? GRAIN_PER_PAGE then new_page f.(sh) e stime else Ok (f.(sh), e));
      i ← (match f.(vb).(hts) f.(vb).(vb_tail) with Some i => Ok i | None => Err BUG end);
      v ← section f.(ca) i;
      _ ← assert_ (bool_decide (is_Some v.(mem)));
      _ ← assert_ (bool_decide (v.(state) = C_CANDIDATE) || bool_decide (v.(state) = D_CANDIDATE));
      c ← (if e.(got_lock) then Ok f.(ca)
           else '(_, c) ← cache_get_ht f.(ca) (u32 (v.(idx) * EPP)); Ok c);
      v ← section c i;
      let g_len := __entries_to_grains v in
      _ ← assert_ (g_len <=? GRAIN_PER_PAGE);
      let dirty := bool_decide (v.(state) = D_CANDIDATE) in
      '(s, e) ← (if dirty && (e.(grain) + g_len >? GRAIN_PER_PAGE) then
          _ ← assert_ e.(got_ppa);
          s ← waste s e.(ppa_) e.(grain);
          new_page s e stime
        else Ok (s, e));
      let ring := mk_vb f.(vb).(hts) f.(vb).(vb_head) ((f.(vb).(vb_tail) + 1) mod VICTIM_RB_SZ) in
      '(s, e, v, g_len) ← (if dirty then write_victim s e v g_len else Ok (s, e, v, g_len));
      let c := set_cached_cnt c (c.(nr_cached_tentries) - g_len) in
      let c := put c i (set_outgoing (set_state (set_cached v false) CLEAN) 0) in
      let f := set_vb (set_ca (set_sh f s) c) ring in
      let e := mk_ev e.(grain) e.(ppa_) e.(got_ppa) false e.(all_clean) (u32 (e.(evicted) + g_len))
                 e.(nsecs_completed) e.(ev_credits) in
      if e.(evicted) >=? GRAIN_PER_PAGE then Ok (f, e) else evict_loop fuel f e stime
  end.

(** The results are the time the last page written is on flash and the credits
    consumed.  Each round evicts [GRAIN_PER_PAGE] grains, so one is enough. *)
Definition __evict_one (f : ftl) (stime credits : Z) : result (Z * Z * ftl) :=
  if negb (f.(have_victims) =? 1) then Err HANG else
  let f := set_victims f f.(candidates) 2 in
  '(f, e) ← evict_loop 2 f (ev_start credits) stime;
  s ← (if negb e.(all_clean) && (e.(grain) <? GRAIN_PER_PAGE) then waste f.(sh) e.(ppa_) e.(grain)
       else Ok f.(sh));
  '(n, s) ← (if e.(got_ppa) then write_map_page s e.(ppa_) stime e.(nsecs_completed)
             else Ok (e.(nsecs_completed), s));
  Ok (n, e.(ev_credits), set_victims (set_sh f s) f.(candidates) 0).

End timing.

(** ** The table behind the cache

    What the cached table means, wherever its sections are: the grain of an
    entry and the address of its pair. *)

Definition table (c : cache) (x : Z) : Z :=
  match (c.(ht) (IDX x)).(mem) with Some m => m (OFFSET x) | None => UINT_MAX end.
Definition pair_at (c : cache) (x : Z) : Z :=
  match (c.(ht) (IDX x)).(mem) with Some _ => (c.(ht) (IDX x)).(pair_mem) (OFFSET x) | None => 0 end.

Definition same_table (c c' : cache) : Prop :=
  forall x, 0 <= IDX x < c.(nr_valid_tpages) -> table c' x = table c x /\ pair_at c' x = pair_at c x.

(** The ring of victims holds [l], oldest first. *)
Definition in_vring (i : Z) : Prop := 0 <= i < VICTIM_RB_SZ.
Definition vb_represents (v : victim_buffer) (l : list Z) : Prop :=
  in_vring v.(vb_head) /\ in_vring v.(vb_tail) /\
  Z.of_nat (length l) = (v.(vb_head) - v.(vb_tail)) mod VICTIM_RB_SZ /\
  forall k x, l !! k = Some x -> v.(hts) ((v.(vb_tail) + Z.of_nat k) mod VICTIM_RB_SZ) = Some x.

(** Every section in DRAM waits in the FIFO, [F], or in the ring of victims,
    [V], exactly once, with the state that goes with the place; the counter
    counts them. *)
Definition in_fifo (h : ht_section) : Prop := h.(state) = CLEAN \/ h.(state) = DIRTY.
Definition in_ring_state (h : ht_section) : Prop := h.(state) = C_CANDIDATE \/ h.(state) = D_CANDIDATE.

Record cache_inv (c : cache) (v : victim_buffer) (F V : list Z) : Prop := {
  ci_pages : 0 <= c.(nr_valid_tpages) <= 1048576;
  ci_max : 0 <= c.(max_cached_tentries) < 2147483648;
  ci_fifo : Fifo.represents c.(fifo) F;
  ci_vb : vb_represents v V;
  ci_nodup : NoDup (F ++ V);
  ci_range : forall i, i ∈ F ++ V -> 0 <= i < c.(nr_valid_tpages);
  ci_idx : forall i, 0 <= i < c.(nr_valid_tpages) -> (c.(ht) i).(idx) = i;
  ci_cached : forall i, 0 <= i < c.(nr_valid_tpages) -> (c.(ht) i).(cached) = true <-> i ∈ F ++ V;
  ci_mem : forall i, i ∈ F ++ V -> is_Some (c.(ht) i).(mem);
  ci_len : forall i, 0 <= i < c.(nr_valid_tpages) -> is_Some (c.(ht) i).(mem) ->
    (c.(ht) i).(g_off) = 0 /\ (c.(ht) i).(len_on_disk) = GRAIN_PER_PAGE;
  ci_F : forall i, i ∈ F -> in_fifo (c.(ht) i);
  ci_V : forall i, i ∈ V -> in_ring_state (c.(ht) i);
  ci_out : forall i, 0 <= i < c.(nr_valid_tpages) -> i ∉ F ++ V -> (c.(ht) i).(state) = CLEAN;
  ci_count : c.(nr_cached_tentries) = GRAIN_PER_PAGE * Z.of_nat (length (F ++ V))
}.

#[export] Instance same_table_refl : Reflexive same_table.
Proof. intros c x _. done. Qed.

Lemma same_table_trans a b c : b.(nr_valid_tpages) = a.(nr_valid_tpages) ->
  same_table a b -> same_table b c -> same_table a c.
Proof.
  intros E H1 H2 x Hx. destruct (H1 x Hx) as [<- <-]. apply H2. by rewrite E.
Qed.

(** A section whose contents stay is the same part of the table. *)
Lemma same_table_put c i h :
  h.(mem) = (c.(ht) i).(mem) -> h.(pair_mem) = (c.(ht) i).(pair_mem) -> same_table c (put c i h).
Proof.
  intros M P x _. unfold table, pair_at. cbn. rewrite upd_case.
  destruct (Z.eqb_spec (IDX x) i) as [->|_]; [by rewrite M, P|done].
Qed.

Lemma section_ok c i : 0 <= i < c.(nr_valid_tpages) -> section c i = Ok (c.(ht) i).
Proof. intros H. by apply cell_in. Qed.

Lemma EPP_val : EPP = 1024.
Proof. reflexivity. Qed.

Lemma OFFSET_mod x : OFFSET x = x mod 1024.
Proof. unfold OFFSET. rewrite EPP_val. apply (Z.land_ones x 10). lia. Qed.

(** ** The ring of victims *)

Lemma vring_pos : VICTIM_RB_SZ = 131072.
Proof. reflexivity. Qed.

Lemma vring_diff h t : in_vring h -> in_vring t ->
  (h - t) mod VICTIM_RB_SZ = if t <=? h then h - t else h - t + VICTIM_RB_SZ.
Proof. unfold in_vring. rewrite vring_pos. intros Hh Ht. case_cmp; zlia. Qed.

Lemma vb_push v l x :
  vb_represents v l -> Z.of_nat (length l) < VICTIM_RB_SZ - 1 ->
  vb_represents (mk_vb (upd v.(hts) v.(vb_head) (Some x)) ((v.(vb_head) + 1) mod VICTIM_RB_SZ) v.(vb_tail))
    (l ++ [x]).
Proof.
  unfold vb_represents, in_vring. rewrite vring_pos. intros (Hh & Ht & Hl & H) Hs.
  cbn [hts vb_head vb_tail]. split; [zlia|]. split; [done|]. split.
  { rewrite length_app. cbn. zlia. }
  intros k y Hk. rewrite upd_case. apply lookup_app_Some in Hk as [Hk|[Hn Hk]].
  - pose proof (lookup_lt_Some _ _ _ Hk). rewrite (proj2 (Z.eqb_neq _ _)) by zlia. by apply H.
  - apply list_lookup_singleton_Some in Hk as [Hk <-].
    replace (_ =? _) with true; [done|]. symmetry. apply Z.eqb_eq. zlia.
Qed.

Lemma vb_pop v x l : vb_represents v (x :: l) ->
  v.(hts) v.(vb_tail) = Some x /\
  vb_represents (mk_vb v.(hts) v.(vb_head) ((v.(vb_tail) + 1) mod VICTIM_RB_SZ)) l.
Proof.
  unfold vb_represents, in_vring. rewrite vring_pos. intros (Hh & Ht & Hl & H).
  cbn [hts vb_head vb_tail length] in *. split.
  { specialize (H O x eq_refl). by rewrite Z.add_0_r, Z.mod_small in H by lia. }
  split; [done|]. split; [zlia|]. split; [zlia|].
  intros k y Hk. rewrite <- (H (S k) y Hk). f_equal. zlia.
Qed.

Lemma vb_empty v : vb_represents v [] -> v.(vb_head) = v.(vb_tail).
Proof. unfold vb_represents, in_vring. rewrite vring_pos. intros (Hh & Ht & Hl & _). cbn in Hl. zlia. Qed.

(** ** One section changes

    What the invariant asks of one section. *)
Record section_inv (F V : list Z) (i : Z) (h : ht_section) : Prop := {
  si_idx : h.(idx) = i;
  si_cached : h.(cached) = true <-> i ∈ F ++ V;
  si_mem : i ∈ F ++ V -> is_Some h.(mem);
  si_len : is_Some h.(mem) -> h.(g_off) = 0 /\ h.(len_on_disk) = GRAIN_PER_PAGE;
  si_F : i ∈ F -> in_fifo h;
  si_V : i ∈ V -> in_ring_state h;
  si_out : i ∉ F ++ V -> h.(state) = CLEAN
}.

Lemma ci_section c v F V i : cache_inv c v F V -> 0 <= i < c.(nr_valid_tpages) ->
  section_inv F V i (c.(ht) i).
Proof. intros I Hi. destruct I. split; auto. Qed.

(** The lists of places agree except for section [i]. *)
Definition moved (i : Z) (F V F' V' : list Z) : Prop :=
  forall j, j <> i -> (j ∈ F' <-> j ∈ F) /\ (j ∈ V' <-> j ∈ V).

Lemma section_inv_move i F V F' V' j h :
  moved i F V F' V' -> j <> i -> section_inv F V j h -> section_inv F' V' j h.
Proof.
  intros M N [A B C D E G H]. destruct (M j N) as [MF MV].
  assert (M' : j ∈ F' ++ V' <-> j ∈ F ++ V) by (rewrite !elem_of_app; tauto).
  split; rewrite ?M'; auto; [by intros X%MF; auto|by intros X%MV; auto].
Qed.

(** Of the table, only section [i] changed. *)
Record changed (c c' : cache) (i : Z) (h : ht_section) : Prop := {
  ch_ht : forall x, c'.(ht) x = if x =? i then h else c.(ht) x;
  ch_pages : c'.(nr_valid_tpages) = c.(nr_valid_tpages);
  ch_entries : c'.(nr_valid_tentries) = c.(nr_valid_tentries);
  ch_max : c'.(max_cached_tentries) = c.(max_cached_tentries)
}.

Lemma put_changed c i h : changed c (put c i h) i h.
Proof. by split. Qed.

Lemma put_put_changed c i h h' : changed c (put (put c i h) i h') i h'.
Proof. split; try done. intros x. cbn. rewrite !upd_case. by case_cmp. Qed.

Lemma changed_same_table c c' i h : changed c c' i h ->
  h.(mem) = (c.(ht) i).(mem) -> h.(pair_mem) = (c.(ht) i).(pair_mem) -> same_table c c'.
Proof.
  intros [E _ _ _] M P x _. unfold table, pair_at. rewrite E.
  destruct (Z.eqb_spec (IDX x) i) as [->|_]; [by rewrite M, P|done].
Qed.

Lemma inv_move c v F V c' v' F' V' i h :
  cache_inv c v F V -> 0 <= i < c.(nr_valid_tpages) -> changed c c' i h ->
  Fifo.represents c'.(fifo) F' -> vb_represents v' V' ->
  moved i F V F' V' -> NoDup (F' ++ V') -> section_inv F' V' i h ->
  c'.(nr_cached_tentries) = GRAIN_PER_PAGE * Z.of_nat (length (F' ++ V')) ->
  cache_inv c' v' F' V'.
Proof.
  intros I Hi [Eh Ep _ Em] RF RV M N S C.
  assert (All : forall j, 0 <= j < c.(nr_valid_tpages) -> section_inv F' V' j (c'.(ht) j)).
  { intros j Hj. rewrite Eh. destruct (Z.eqb_spec j i) as [->|Nj]; [done|].
    eapply section_inv_move; eauto. by apply (ci_section _ _ _ _ _ I). }
  assert (R : forall j, j ∈ F' ++ V' -> 0 <= j < c.(nr_valid_tpages)).
  { intros j Hj. destruct (Z.eq_dec j i) as [->|Nj]; [done|]. apply (ci_range _ _ _ _ I).
    destruct (M j Nj). rewrite elem_of_app in *. tauto. }
  assert (RF' : forall j, j ∈ F' -> 0 <= j < c.(nr_valid_tpages)) by (intros; apply R, elem_of_app; auto).
  assert (RV' : forall j, j ∈ V' -> 0 <= j < c.(nr_valid_tpages)) by (intros; apply R, elem_of_app; auto).
  split; rewrite ?Ep, ?Em; try done.
  - apply I.
  - apply I.
  - intros j Hj. by apply (si_idx _ _ _ _ (All j Hj)).
  - intros j Hj. by apply (si_cached _ _ _ _ (All j Hj)).
  - intros j Hj. by apply (si_mem _ _ _ _ (All j (R j Hj))).
  - intros j Hj. by apply (si_len _ _ _ _ (All j Hj)).
  - intros j Hj. by apply (si_F _ _ _ _ (All j (RF' j Hj))).
  - intros j Hj. by apply (si_V _ _ _ _ (All j (RV' j Hj))).
  - intros j Hj. by apply (si_out _ _ _ _ (All j Hj)).
Qed.

(** A section changes where it is. *)
Lemma inv_put c v F V i h :
  cache_inv c v F V -> 0 <= i < c.(nr_valid_tpages) -> section_inv F V i h ->
  cache_inv (put c i h) v F V.
Proof.
  intros I Hi S. apply (inv_move c v F V (put c i h) v F V i h); try done; by apply I || apply put_changed.
Qed.

Lemma inv_outgoing c v F V i n :
  cache_inv c v F V -> 0 <= i < c.(nr_valid_tpages) ->
  cache_inv (put c i (set_outgoing (c.(ht) i) n)) v F V.
Proof.
  intros I Hi. apply inv_put; [done..|]. destruct (ci_section _ _ _ _ _ I Hi). by split.
Qed.

(** The number of cached sections is small. *)
Lemma cached_bound c v F V : cache_inv c v F V ->
  Z.of_nat (length (F ++ V)) <= c.(nr_valid_tpages).
Proof.
  intros I. apply range_length; [by apply (ci_pages _ _ _ _ I)|apply I|apply (ci_range _ _ _ _ I)].
Qed.

Lemma cached_cnt_small c v F V : cache_inv c v F V ->
  0 <= c.(nr_cached_tentries) <= 8388608.
Proof.
  intros I. pose proof (cached_bound _ _ _ _ I). rewrite (ci_count _ _ _ _ I), GPP_val.
  destruct (ci_pages _ _ _ _ I). lia.
Qed.

(** The three moves: into the FIFO, from the FIFO to the ring, out of the ring. *)
Lemma cache_enqueue_ok q F i : Fifo.represents q F -> (length F < FIFO_CAPACITY)%nat ->
  Fifo.represents (snd (fifo_enqueue q i)) (F ++ [i]).
Proof.
  intros R L. pose proof (enqueue_represents q F i R) as R'. cbn [queue_step snd] in R'.
  by rewrite (proj2 (Nat.ltb_lt _ _) L) in R'.
Qed.

Lemma dequeue_ok q F : Fifo.represents q F ->
  fst (fifo_dequeue q) = hd_error F /\ Fifo.represents (snd (fifo_dequeue q)) (drop 1 F).
Proof. intros R. destruct (dequeue_represents q F R) as [E R']. destruct F; cbn in *; by rewrite ?drop_0 in *. Qed.

Lemma inv_load c v F V i h c' :
  cache_inv c v F V -> 0 <= i < c.(nr_valid_tpages) -> i ∉ F ++ V ->
  (length F < FIFO_CAPACITY)%nat -> section_inv (F ++ [i]) V i h ->
  changed c c' i h -> c'.(fifo) = snd (fifo_enqueue c.(fifo) i) ->
  c'.(nr_cached_tentries) = i32 (c.(nr_cached_tentries) + GRAIN_PER_PAGE) ->
  cache_inv c' v (F ++ [i]) V.
Proof.
  intros I Hi N L S Ch Ef Ec. pose proof (cached_cnt_small _ _ _ _ I).
  apply (inv_move c v F V c' v (F ++ [i]) V i h); try done.
  - rewrite Ef. apply cache_enqueue_ok; [apply I|done].
  - apply I.
  - intros j Nj. rewrite elem_of_app, list_elem_of_singleton. tauto.
  - rewrite <- app_assoc. cbn.
    pose proof (ci_nodup _ _ _ _ I) as ND. apply NoDup_app in ND as (N1 & N2 & N3).
    rewrite elem_of_app in N. apply NoDup_app. split; [done|]. split.
    + intros j Hj. rewrite elem_of_cons. intros [->|X]; [tauto|by apply (N2 j)].
    + apply NoDup_cons. tauto.
  - rewrite Ec, GPP_val, i32_small by lia. rewrite (ci_count _ _ _ _ I), GPP_val, !length_app. cbn. lia.
Qed.

Lemma inv_collect c v F V i h c' :
  cache_inv c v (i :: F) V -> Z.of_nat (length V) < VICTIM_RB_SZ - 1 -> section_inv F (V ++ [i]) i h ->
  changed c c' i h -> c'.(fifo) = snd (fifo_dequeue c.(fifo)) ->
  c'.(nr_cached_tentries) = c.(nr_cached_tentries) ->
  cache_inv c'
    (mk_vb (upd v.(hts) v.(vb_head) (Some i)) ((v.(vb_head) + 1) mod VICTIM_RB_SZ) v.(vb_tail))
    F (V ++ [i]).
Proof.
  intros I L S Ch Ef Ec.
  assert (Hi : 0 <= i < nr_valid_tpages c) by (apply (ci_range _ _ _ _ I); constructor).
  assert (P : F ++ V ++ [i] ≡ₚ (i :: F) ++ V).
  { rewrite app_assoc. cbn. by rewrite <- Permutation_cons_append. }
  apply (inv_move c v (i :: F) V _ _ F (V ++ [i]) i h); try done.
  - rewrite Ef. destruct (dequeue_ok _ _ (ci_fifo _ _ _ _ I)) as [_ R]. exact R.
  - apply vb_push; [apply I|done].
  - intros j Nj. rewrite elem_of_app, elem_of_cons, list_elem_of_singleton. tauto.
  - rewrite P. apply I.
  - rewrite Ec, P. apply I.
Qed.

Lemma inv_evict c v F V i h c' :
  cache_inv c v F (i :: V) -> section_inv F V i h -> changed c c' i h -> c'.(fifo) = c.(fifo) ->
  c'.(nr_cached_tentries) = i32 (c.(nr_cached_tentries) - GRAIN_PER_PAGE) ->
  cache_inv c' (mk_vb v.(hts) v.(vb_head) ((v.(vb_tail) + 1) mod VICTIM_RB_SZ)) F V.
Proof.
  intros I S Ch Ef Ec. pose proof (cached_cnt_small _ _ _ _ I).
  assert (P : F ++ i :: V ≡ₚ i :: F ++ V) by (symmetry; apply Permutation_middle).
  assert (Hi : 0 <= i < nr_valid_tpages c).
  { apply (ci_range _ _ _ _ I). rewrite P. constructor. }
  pose proof (ci_nodup _ _ _ _ I) as ND. rewrite P in ND. apply NoDup_cons in ND as [_ ND].
  apply (inv_move c v F (i :: V) _ _ F V i h); try done.
  - rewrite Ef. apply I.
  - by apply (vb_pop v i V (ci_vb _ _ _ _ I)).
  - intros j Nj. rewrite elem_of_cons. tauto.
  - rewrite Ec. pose proof (ci_count _ _ _ _ I) as C. rewrite P in C. cbn [length] in C.
    rewrite GPP_val in *. rewrite i32_small by lia. lia.
Qed.

(** ** Probing *)

Section probing.
Context (c : cache) (h : Z).
Let m := c.(nr_valid_tentries) - 1.
Hypothesis Hm : 0 < m < 2147483648.
Hypothesis Hh : 0 <= h < 4294967296.

(** The place in the table before the shift by one. *)
Let spot (n : Z) : Z := PROBING_FUNC h n mod m.

Lemma m_u32 : u32 (c.(nr_valid_tentries) - 1) = m.
Proof. apply u32_small. unfold m in *. lia. Qed.

Lemma probe_spot n : probe c h n = spot n + 1.
Proof.
  unfold probe. rewrite m_u32. fold (spot n). apply u32_small.
  assert (0 <= spot n < m) by (apply Z.mod_pos_bound; lia). lia.
Qed.

Lemma probing_succ n : PROBING_FUNC h (n + 1) = u32 (PROBING_FUNC h n + (2 * n + 2)).
Proof.
  unfold PROBING_FUNC, u32, uw. rewrite Zplus_mod_idemp_l. f_equal. lia.
Qed.

(** Without a wrap of the sum, the next spot is [2 n + 2] further. *)
Lemma spot_succ n : 0 <= n -> spot n < 1024 -> 1024 + 2 * n + 2 <= m ->
  PROBING_FUNC h n + (2 * n + 2) < 4294967296 ->
  PROBING_FUNC h (n + 1) = PROBING_FUNC h n + (2 * n + 2) /\ spot (n + 1) = spot n + 2 * n + 2.
Proof.
  intros Hn Hs Hb Hw. pose proof (u32_range (h + n + n * n)) as R. fold (PROBING_FUNC h n) in R.
  assert (E : PROBING_FUNC h (n + 1) = PROBING_FUNC h n + (2 * n + 2)).
  { rewrite probing_succ. apply u32_small. lia. }
  split; [exact E|]. unfold spot in *. rewrite E, <- Zplus_mod_idemp_l.
  pose proof (Z.mod_pos_bound (PROBING_FUNC h n) m ltac:(lia)). rewrite Z.mod_small; lia.
Qed.

(** What the search from probe [n] finds within [k] steps: the first entry
    above the first section and its neighbour. *)
Definition found (n k : Z) (p : hash_params) : Prop :=
  p.(hash) = h /\ n <= p.(cnt) <= n + k /\ p.(lpa) = probe c h p.(cnt) /\
  EPP < p.(lpa) < c.(nr_valid_tentries) /\ forall j, n <= j < p.(cnt) -> probe c h j <= EPP.

Lemma found_here n k l : 0 <= k -> 1024 <= spot n -> found n k (mk_hash h n (probe c h n)) /\
  forall fuel, get_hash_loop (S fuel) c (mk_hash h n l) = Ok (mk_hash h n (probe c h n)).
Proof.
  intros Hk Hs. pose proof (probe_spot n) as E. assert (spot n < m) by (apply Z.mod_pos_bound; lia).
  split.
  - split; [done|]. cbn [cnt lpa]. rewrite EPP_val, E. unfold m in *. split; [lia|]. split; [done|]. split; [lia|]. intros; lia.
  - intros fuel. cbn [get_hash_loop hash cnt lpa]. rewrite m_u32, (proj2 (Z.eqb_neq m 0)) by lia.
    by rewrite EPP_val, E, (proj2 (Z.leb_gt _ _)) by lia.
Qed.

Lemma search_next n l fuel : spot n < 1024 -> 0 <= n < 1000000 ->
  get_hash_loop (S fuel) c (mk_hash h n l) = get_hash_loop fuel c (mk_hash h (n + 1) (probe c h n)).
Proof.
  intros Hs Hn. cbn [get_hash_loop hash cnt lpa]. rewrite m_u32, (proj2 (Z.eqb_neq m 0)) by lia.
  by rewrite EPP_val, probe_spot, (proj2 (Z.leb_le _ _)), i32_small by lia.
Qed.

Lemma found_later n k p : probe c h n <= EPP -> found (n + 1) k p -> found n (k + 1) p.
Proof.
  intros Hp (A & B & C & D & E). split; [done|]. split; [lia|]. split; [done|]. split; [done|].
  intros j Hj. destruct (Z.eq_dec j n) as [->|]; [done|]. apply E. lia.
Qed.

(** The search while the sum does not wrap, and in general. *)
Lemma search_straight k n l fuel :
  (k < fuel)%nat -> 0 <= n -> n + Z.of_nat k <= 150000 -> 1024 + 2 * (n + Z.of_nat k) + 2 <= m ->
  1024 <= spot n + 2 * Z.of_nat k -> PROBING_FUNC h n + Z.of_nat k * (2 * (n + Z.of_nat k) + 2) < 4294967296 ->
  exists p, get_hash_loop fuel c (mk_hash h n l) = Ok p /\ found n (Z.of_nat k) p.
Proof.
  revert n l fuel. induction k as [|k IH]; intros n l [|fuel] Hf Hn Hb Hs Hy Hw; try lia.
  - destruct (found_here n 0 l) as [F E]; [lia|lia|]. rewrite E. by eexists.
  - destruct (Z.leb_spec 1024 (spot n)) as [X|X].
    { destruct (found_here n (Z.of_nat (S k)) l) as [F E]; [lia|lia|]. rewrite E. by eexists. }
    rewrite search_next by lia. destruct (spot_succ n) as [E1 E2]; [lia|lia|lia|nia|].
    destruct (IH (n + 1) (probe c h n) fuel) as (p & E & F); [lia|lia|lia|lia|lia|rewrite E1; nia|].
    exists p. split; [exact E|]. replace (Z.of_nat (S k)) with (Z.of_nat k + 1) by lia.
    apply found_later; [rewrite EPP_val, probe_spot; lia|exact F].
Qed.

Lemma search_wrap k n l fuel :
  (k + 514 < fuel)%nat -> 0 <= n -> n + Z.of_nat k + 514 <= 150000 ->
  1024 + 2 * (n + Z.of_nat k + 514) + 2 <= m -> 1024 <= spot n + 2 * Z.of_nat k ->
  exists p, get_hash_loop fuel c (mk_hash h n l) = Ok p /\ found n (Z.of_nat k + 514) p.
Proof.
  revert n l fuel. induction k as [|k IH]; intros n l [|fuel] Hf Hn Hb Hs Hy; try lia.
  - destruct (found_here n (Z.of_nat 0 + 514) l) as [F E]; [lia|lia|]. rewrite E. by eexists.
  - destruct (Z.leb_spec 1024 (spot n)) as [X|X].
    { destruct (found_here n (Z.of_nat (S k) + 514) l) as [F E]; [lia|lia|]. rewrite E. by eexists. }
    rewrite search_next by lia.
    assert (Hr : exists p, get_hash_loop fuel c (mk_hash h (n + 1) (probe c h n)) = Ok p /\
      found (n + 1) (Z.of_nat k + 514) p).
    { destruct (Z.ltb_spec (PROBING_FUNC h n + (2 * n + 2)) 4294967296) as [W|W].
      - destruct (spot_succ n) as [E1 E2]; [lia|lia|lia|lia|]. apply IH; lia.
      - pose proof (u32_range (h + n + n * n)) as R. fold (PROBING_FUNC h n) in R.
        assert (E : PROBING_FUNC h (n + 1) < 2 * n + 2).
        { rewrite probing_succ. unfold u32, uw. change (2 ^ 32) with 4294967296.
          rewrite <- (Z.mod_unique (PROBING_FUNC h n + (2 * n + 2)) 4294967296 1
            (PROBING_FUNC h n + (2 * n + 2) - 4294967296)); lia. }
        assert (0 <= spot (n + 1)) by (apply Z.mod_pos_bound; lia).
        destruct (search_straight 512 (n + 1) (probe c h n) fuel) as (p & Ep & F); try lia.
        exists p. split; [exact Ep|]. destruct F as (A & B & C). split; [done|]. split; [lia|exact C]. }
    destruct Hr as (p & E & F). exists p. split; [exact E|].
    replace (Z.of_nat (S k) + 514) with (Z.of_nat k + 514 + 1) by lia.
    apply found_later; [rewrite EPP_val, probe_spot; lia|exact F].
Qed.

End probing.

Lemma get_hash_idx_ok c h n l :
  0 <= h < 4294967296 -> 0 <= n <= 100000 -> 2 * n + 4000 <= c.(nr_valid_tentries) < 2147483648 ->
  exists p, get_hash_idx c (mk_hash h n l) = Ok p /\ found c h n 1026 p.
Proof.
  intros Hh Hn Ht. unfold get_hash_idx, probe_fuel.
  assert (0 <= PROBING_FUNC h n mod (nr_valid_tentries c - 1)) by (apply Z.mod_pos_bound; lia).
  apply (search_wrap c h ltac:(lia) Hh 512 n l 1030); lia.
Qed.

(** C29 (probing): from any hash and any probe number [n] up to 100 000, in a table of at least
    [2 * n + 4000] entries, the search for the next entry ends within 1026 further probes, at the first probe that lies in the table above entry [EPP]:
    the first section and the first entry of the second are never used. *)
Theorem get_hash_idx_correct c h n l :
  0 <= h < 4294967296 -> 0 <= n <= 100000 -> 2 * n + 4000 <= c.(nr_valid_tentries) < 2147483648 ->
  exists p, get_hash_idx c (mk_hash h n l) = Ok p /\
    p.(hash) = h /\ n <= p.(cnt) <= n + 1026 /\ p.(lpa) = probe c h p.(cnt) /\
    EPP < p.(lpa) < c.(nr_valid_tentries) /\ forall j, n <= j < p.(cnt) -> probe c h j <= EPP.
Proof. intros Hh Hn Ht. exact (get_hash_idx_ok c h n l Hh Hn Ht). Qed.

(** ** Loading a section *)

(** Only the timing of the device changed. *)
Definition same_flash (s s' : demand_shard) : Prop :=
  same_but_device s s' /\ sp_of s' = sp_of s /\
  forall i j, ((s'.(sd).(ch) i).(lun) j).(pl) = ((s.(sd).(ch) i).(lun) j).(pl).

#[export] Instance same_flash_preorder : PreOrder same_flash.
Proof.
  split.
  - intros s. split; [by destruct s|done].
  - intros a b c (A1 & A2 & A3) (B1 & B2 & B3). unfold same_but_device in *. split.
    + rewrite B1, A1. done.
    + split; [by rewrite B2|]. intros i j. by rewrite B3.
Qed.

Lemma same_flash_blk s s' p : same_flash s s' -> blk_at s'.(sd) p = blk_at s.(sd) p.
Proof. intros (_ & _ & E). unfold blk_at. by rewrite E. Qed.

Lemma tt_pgs_small spp : geom spp -> 256 <= spp.(tt_pgs) <= 134217728.
Proof.
  intros G. destruct (geom_consts _ G) as (_ & _ & _ & _ & _ & N & B & _ & _ & -> & _). nia.
Qed.

Section operations.
Context (clock : nat -> Z).
#[local] Abbreviation ready s B := (nand_ready clock s.(sd) B).

Lemma stime_or_clock_ok d stime B t d' :
  __stime_or_clock clock d stime = (t, d') -> nand_ready clock d B -> 0 <= stime <= B ->
  d' = tick d /\ nand_ready clock d' B /\ 0 <= t <= B.
Proof.
  unfold __stime_or_clock, __get_ioclock. intros [= <- <-] R Hs. split; [done|].
  pose proof (nr_clock _ _ _ R d.(ticks)). split.
  - destruct R as [[] ? ? ?]. by split.
  - rewrite Z.gtb_ltb. case_cmp; lia.
Qed.

Lemma advance_ok s o p stime size B :
  ready s B -> page_ok (sp_of s) p -> supported (mk_cmd o size stime false p) -> size <= LINE_XFER ->
  0 <= stime <= B -> B < 2 ^ 62 ->
  exists t s', advance clock s o p stime size = Ok (t, s') /\ ready s' (B + NAND_MAX) /\
    0 <= t <= B + NAND_MAX /\ same_flash s s'.
Proof.
  intros R P Hs Hx Ht HB. pose proof (ok_geom _ (nr_tree _ _ _ R)) as G.
  destruct (nand_ready_step clock s.(sd) (mk_cmd o size stime false p) B R) as (t & d & E & R' & B' & Es & Ep);
    try done.
  - by apply page_ok_in_ssd.
  - destruct P as [_ P]. cbn. rewrite P. done.
  - exists t, (set_sd s d). unfold advance. rewrite E. cbn. split; [done|]. split; [done|]. split; [done|].
    by split.
Qed.

(** [supported] for the sizes the layer uses. *)
Lemma read_supported spp stime p : geom spp -> supported (mk_cmd NAND_READ spp.(pgsz) stime false p).
Proof. intros G. cbn. rewrite (proj2 (geom_secs _ G)). done. Qed.

Lemma write_supported spp stime p : geom spp ->
  supported (mk_cmd NAND_WRITE (spp.(pgsz) * spp.(pgs_per_oneshotpg)) stime false p).
Proof. intros G. cbn. rewrite (proj2 (geom_secs _ G)), (proj2 (geom_flash _ G)). done. Qed.

Lemma page_xfer spp : geom spp -> spp.(pgsz) <= LINE_XFER /\ spp.(pgsz) * spp.(pgs_per_oneshotpg) <= LINE_XFER.
Proof. intros G. by rewrite (proj2 (geom_secs _ G)), (proj2 (geom_flash _ G)). Qed.

Lemma load_section_ok s h stime B :
  ready s B -> is_Some h.(mem) -> 0 <= h.(t_ppa) < (sp_of s).(tt_pgs) -> 0 <= stime <= B -> B < 2 ^ 62 ->
  exists n s', load_section clock s h stime = Ok (n, s', set_cached h true) /\
    ready s' (B + NAND_MAX) /\ 0 <= n <= B + NAND_MAX /\ same_flash s s'.
Proof.
  intros R M Hp Hs HB. pose proof (ok_geom _ (nr_tree _ _ _ R)) as G. fold (sp_of s) in G.
  unfold load_section. rewrite bool_decide_true by done. cbn [set_cached t_ppa].
  pose proof (tt_pgs_small _ G). rewrite (proj2 (Z.eqb_neq _ _)) by (unfold UINT_MAX; lia).
  cbn [negb assert_ mbind result_mbind result_bind].
  destruct (ppa_to_struct_ok _ G _ Hp) as (p & -> & P & _). cbn [mbind result_mbind result_bind].
  destruct (__stime_or_clock clock (sd s) stime) as [t d] eqn:E.
  destruct (stime_or_clock_ok _ _ _ _ _ E R Hs) as (-> & R' & Ht).
  destruct (advance_ok (set_sd s (tick s.(sd))) NAND_READ p t (sp_of s).(pgsz) B R' P) as (n & s' & -> & Q);
    [by apply read_supported|by apply page_xfer|done|done|].
  cbn. exists n, s'. split; [done|]. split; [apply Q|]. split; [apply Q|].
  destruct Q as (_ & _ & Q). by etransitivity; [|exact Q].
Qed.

(** What loading section [i] gives. *)
Record loaded (f f' : ftl) (F V : list Z) (i : Z) : Prop := {
  ld_inv : cache_inv f'.(ca) f'.(vb) (F ++ [i]) V;
  ld_same : same_table f.(ca) f'.(ca);
  ld_hit : cache_hit (f'.(ca).(ht) i) = true;
  ld_lock : forall j, (f'.(ca).(ht) j).(outgoing) = (f.(ca).(ht) j).(outgoing) /\
    (f'.(ca).(ht) j).(t_ppa) = (f.(ca).(ht) j).(t_ppa);
  ld_rest : f'.(vb) = f.(vb) /\ f'.(candidates) = f.(candidates) /\ f'.(have_victims) = f.(have_victims) /\
    f'.(ca).(nr_valid_tpages) = f.(ca).(nr_valid_tpages) /\
    f'.(ca).(nr_valid_tentries) = f.(ca).(nr_valid_tentries) /\
    f'.(ca).(max_cached_tentries) = f.(ca).(max_cached_tentries);
  ld_other : forall j, j <> i -> f'.(ca).(ht) j = f.(ca).(ht) j
}.

(** The part of [__get_one] after the section has been read or created. *)
Lemma enqueue_section_ok f s F V i h :
  cache_inv f.(ca) f.(vb) F V -> 0 <= i < f.(ca).(nr_valid_tpages) -> i ∉ F ++ V ->
  (length F < FIFO_CAPACITY)%nat ->
  let h0 := f.(ca).(ht) i in
  h.(idx) = i -> h.(t_ppa) = h0.(t_ppa) -> h.(state) = h0.(state) -> h.(outgoing) = h0.(outgoing) ->
  h.(cached) = true -> is_Some h.(mem) -> h.(g_off) = 0 -> h.(len_on_disk) = GRAIN_PER_PAGE ->
  same_table f.(ca) (put f.(ca) i h) ->
  let c := put f.(ca) i h in
  loaded f (set_ca (set_sh f s)
    (set_cached_cnt (set_fifo c (snd (fifo_enqueue c.(fifo) h.(idx)))) (c.(nr_cached_tentries) + h.(len_on_disk))))
    F V i.
Proof.
  intros I Hi N L h0 E1 E2 E3 E4 E5 E6 E7 E8 S c. rewrite E8, E1. unfold c. split.
  - apply (inv_load (ca f) (vb f) F V i h); try done. destruct (ci_section _ _ _ _ _ I Hi) as [C1 C2 C3 C4 C5 C6 C7].
    assert (Cl : state h = CLEAN) by (rewrite E3; by apply C7).
    split; rewrite ?E1, ?E5, ?E7, ?E8; try done.
    + rewrite !elem_of_app, list_elem_of_singleton. split; [tauto|done].
    + intros _. by left.
    + intros X. destruct N. apply elem_of_app. by right.
  - intros x Hx. exact (S x Hx).
  - cbn. by rewrite upd_eq.
  - intros j. cbn. rewrite upd_case. destruct (Z.eqb_spec j i) as [->|]; [|done]. by rewrite E2, E4.
  - by split_and!.  - intros j Hj. cbn. by rewrite upd_case, (proj2 (Z.eqb_neq j i)).
Qed.

Lemma create_same_table spp c i : geom spp -> (c.(ht) i).(mem) = None ->
  same_table c (put c i (create_section spp (c.(ht) i))).
Proof.
  intros G M x Hx. unfold table, pair_at. cbn. rewrite upd_case.
  destruct (Z.eqb_spec (IDX x) i) as [->|_]; [|done]. rewrite M. cbn.
  unfold fresh_mappings. rewrite (proj2 (geom_secs _ G)).
  assert (0 <= OFFSET x < 1024) by (rewrite OFFSET_mod; apply Z.mod_pos_bound; lia).
  change (4096 / ENTRY_SIZE) with 1024.
  by rewrite (proj2 (Z.leb_le 0 _)), (proj2 (Z.ltb_lt _ 1024)) by lia.
Qed.

Lemma get_one_ok f F V i (first : bool) stime B :
  cache_inv f.(ca) f.(vb) F V -> 0 <= i < f.(ca).(nr_valid_tpages) -> i ∉ F ++ V ->
  (length F < FIFO_CAPACITY)%nat -> geom (sp_of f.(sh)) ->
  (let h := f.(ca).(ht) i in
   if first then h.(mem) = None
   else is_Some h.(mem) /\ 0 <= h.(t_ppa) < (sp_of f.(sh)).(tt_pgs) /\ ready f.(sh) B /\
     0 <= stime <= B /\ B < 2 ^ 62) ->
  exists n f', __get_one clock f i first stime = Ok (n, f') /\ loaded f f' F V i /\
    same_flash f.(sh) f'.(sh) /\
    if first then n = 0 /\ f'.(sh) = f.(sh)
    else (0 <= n <= B + NAND_MAX) /\ ready f'.(sh) (B + NAND_MAX).
Proof.
  intros I Hi N L G H. unfold __get_one. rewrite section_ok by done.
  cbn [mbind result_mbind result_bind]. destruct (ci_section _ _ _ _ _ I Hi) as [E _ _ Ln _ _ _].
  destruct first.
  - cbn [mbind result_mbind result_bind]. eexists _, _. split; [reflexivity|].
    split; [|split; [done|done]]. apply enqueue_section_ok; try done. by apply create_same_table.
  - destruct H as (M & Hp & R & Hs & HB).
    destruct (load_section_ok f.(sh) (ht (ca f) i) stime B R M Hp Hs HB) as (n & s' & -> & R' & Hn & S).
    cbn [mbind result_mbind result_bind]. eexists _, _. split; [reflexivity|].
    split; [|split; [done|done]]. apply enqueue_section_ok; try done; try (by apply Ln).
    by apply same_table_put.
Qed.

(** Loading a section: a section that is not in DRAM is loaded without a fault, from its
    page on flash or, the first time, as an empty one. It joins the FIFO, the counter of cached
    entries grows by its size, the invariant of the cache is kept, no lock changes, and neither
    the table nor any address of a pair changes: where a section is cannot be seen in the
    table. *)
Theorem get_one_correct f F V i (first : bool) stime B :
  cache_inv f.(ca) f.(vb) F V -> 0 <= i < f.(ca).(nr_valid_tpages) -> i ∉ F ++ V ->
  (length F < FIFO_CAPACITY)%nat -> geom (sp_of f.(sh)) ->
  (let h := f.(ca).(ht) i in
   if first then h.(mem) = None
   else is_Some h.(mem) /\ 0 <= h.(t_ppa) < (sp_of f.(sh)).(tt_pgs) /\ ready f.(sh) B /\
     0 <= stime <= B /\ B < 2 ^ 62) ->
  exists n f', __get_one clock f i first stime = Ok (n, f') /\ loaded f f' F V i /\
    same_flash f.(sh) f'.(sh) /\
    if first then n = 0 /\ f'.(sh) = f.(sh)
    else (0 <= n <= B + NAND_MAX) /\ ready f'.(sh) (B + NAND_MAX).
Proof. apply get_one_ok. Qed.

(** ** Choosing victims *)

Lemma max_search_S : exists n, Z.to_nat MAX_SEARCH = S n.
Proof. exists (Z.to_nat 131071). unfold MAX_SEARCH. lia. Qed.

Lemma ring_dist v l : vb_represents v l ->
  (let dist := v.(vb_head) - v.(vb_tail) in if dist <? 0 then dist + VICTIM_RB_SZ else dist)
  = Z.of_nat (length l).
Proof.
  intros (Hh & Ht & Hl & _). cbv zeta. rewrite Hl, vring_diff by done. repeat case_cmp; lia.
Qed.

Lemma candidate_in_ring h : in_ring_state (set_state h (candidate_state h.(state))).
Proof. unfold in_ring_state, candidate_state. cbn. case_bool_decide; auto. Qed.

(** The section [i] after it was chosen. *)
Definition chosen (h : ht_section) : ht_section := set_outgoing (set_state h (candidate_state h.(state))) 0.

Lemma collect_one_ok f i F V :
  cache_inv f.(ca) f.(vb) (i :: F) V -> Z.of_nat (length V) < VICTIM_RB_SZ - 1 ->
  (f.(ca).(ht) i).(outgoing) = 0 -> 0 <= f.(candidates) <= 2147483639 ->
  exists f', collect_one (set_ca f (set_fifo f.(ca) (snd (fifo_dequeue f.(ca).(fifo))))) i = Ok f' /\
    cache_inv f'.(ca) f'.(vb) F (V ++ [i]) /\ same_table f.(ca) f'.(ca) /\
    f'.(sh) = f.(sh) /\ f'.(candidates) = f.(candidates) + GRAIN_PER_PAGE /\
    f'.(have_victims) = f.(have_victims) /\
    changed f.(ca) f'.(ca) i (chosen (f.(ca).(ht) i)).
Proof.
  intros I L O C. assert (Hi : 0 <= i < nr_valid_tpages (ca f)) by (apply (ci_range _ _ _ _ I); constructor).
  unfold collect_one, lock_section. cbn [ca set_ca]. set (c := set_fifo _ _).
  assert (Ec : forall x, ht c x = ht (ca f) x) by done.
  rewrite section_ok by done. cbn [mbind result_mbind result_bind]. rewrite Ec, O.
  cbn [Z.eqb mbind result_mbind result_bind]. rewrite section_ok by done. cbn [put set_ht ht].
  rewrite upd_eq. cbn [mbind result_mbind result_bind set_outgoing state].
  destruct (ci_section _ _ _ _ _ I Hi) as [E1 E2 E3 E4 E5 E6 E7].
  assert (St : in_fifo (ht (ca f) i)) by (apply E5; constructor).
  replace (_ && _) with true by (destruct St as [-> | ->]; reflexivity).
  cbn [assert_ mbind result_mbind result_bind].
  eexists. split; [reflexivity|]. cbn [set_victims set_vb set_ca ca vb sh candidates have_victims].
  assert (Eh : forall x, ht (put (put c i (set_outgoing (ht c i) 1)) i
     (set_outgoing (set_state (set_outgoing (ht c i) 1) (candidate_state (state (ht c i)))) 0)) x =
     (if x =? i then chosen (ht (ca f) i) else ht (ca f) x)).
  { intros x. cbn. rewrite !upd_case. by destruct (Z.eqb_spec x i) as [->|]. }
  split; [|split; [|split; [done|split; [|split; [done|by split]]]]].
  - apply (inv_collect (ca f) (vb f) F V i (chosen (ht (ca f) i))); try done.
    pose proof (ci_nodup _ _ _ _ I) as ND. apply NoDup_cons in ND as [ND _].
    assert (In : i ∈ F ++ V ++ [i]) by (rewrite !elem_of_app, list_elem_of_singleton; tauto).
    assert (In' : i ∈ (i :: F) ++ V) by constructor.
    split; try tauto.
    + intros X. destruct ND. apply (proj2 (elem_of_app F V i)). by left.
    + intros _. apply candidate_in_ring.
  - intros x Hx. unfold table, pair_at. rewrite Eh. by destruct (Z.eqb_spec (IDX x) i) as [->|].
  - cbn. unfold __entries_to_grains. rewrite GPP_val, i32_small by lia. lia.
Qed.

(** What a turn of the eviction thread did: nothing but setting the flag when
    the ring is well filled, else the move of the section [i]. *)
Record collected (f f' : ftl) (i : Z) (F V : list Z) : Prop := {
  co_inv : cache_inv f'.(ca) f'.(vb) F (V ++ [i]);
  co_same : same_table f.(ca) f'.(ca);
  co_changed : changed f.(ca) f'.(ca) i (chosen (f.(ca).(ht) i));
  co_rest : f'.(sh) = f.(sh) /\ f'.(candidates) = GRAIN_PER_PAGE /\ f'.(have_victims) = 1
}.

Lemma bg_ev_turn_ok f F V :
  cache_inv f.(ca) f.(vb) F V -> f.(have_victims) = 0 ->
  if Z.of_nat (length V) >? GRAIN_PER_PAGE * 10 then bg_ev_turn f = Ok (set_victims f 0 1)
  else match F with
  | [] => bg_ev_turn f = Err HANG
  | i :: F =>
      if (f.(ca).(ht) i).(outgoing) =? 0
      then exists f', bg_ev_turn f = Ok f' /\ collected f f' i F V
      else bg_ev_turn f = Err HANG
  end.
Proof.
  intros I H. unfold bg_ev_turn, __collect_victims. rewrite H. cbn [Z.eqb].
  pose proof (ring_dist _ _ (ci_vb _ _ _ _ I)) as D. cbv zeta in D.
  cbn [set_victims vb]. cbv zeta. rewrite D. clear D. rewrite GPP_val.
  destruct (Z.gtb_spec (Z.of_nat (length V)) (8 * 10)); [done|].
  destruct max_search_S as (n & En). rewrite En. unfold fifo_take. cbn [set_victims ca].
  pose proof (dequeue_ok _ _ (ci_fifo _ _ _ _ I)) as [E1 _].
  destruct (fifo_dequeue (fifo (ca f))) as [v q] eqn:Eq. cbn [fst] in E1. subst v.
  destruct F as [|i F]; [reflexivity|].
  cbn [hd_error collect_loop]. destruct (Z.eqb_spec (outgoing (ht (ca f) i)) 0) as [O|O].
  - destruct (collect_one_ok (set_victims f 0 (have_victims f)) i F V I) as (f' & E & I' & S & E2 & E3 & E4 & E5);
      [rewrite vring_pos; lia|done|cbn; lia|].
    cbn [set_victims ca] in E. rewrite Eq in E. cbn [snd] in E. rewrite H in E. rewrite E.
    cbn [candidates set_victims] in E3. rewrite GPP_val in E3. change (0 + 8) with 8 in E3.
    cbn [mbind result_mbind result_bind]. rewrite E3. change (u32 8 >=? 8) with true.
    cbn [mbind result_mbind result_bind]. rewrite E3. change (u32 8 <? 8) with false.
    eexists. split; [reflexivity|]. by split.
  - unfold collect_one, lock_section. cbn [ca set_ca].
    rewrite section_ok by (apply (ci_range _ _ _ _ I); constructor).
    cbn [mbind result_mbind result_bind set_fifo ht]. by rewrite (proj2 (Z.eqb_neq _ _) O).
Qed.

(** Choosing victims: when no victims are on offer, a turn of the eviction thread takes the
    oldest section of the FIFO, marks it as a candidate - dirty or clean - and appends it to the
    ring of victims, leaving the table as it was; with more than 80 in the ring it takes none. In
    both cases victims are then on offer. With an empty FIFO, or a section the dispatcher is
    using, it waits. *)
Theorem bg_ev_turn_correct f F V :
  cache_inv f.(ca) f.(vb) F V -> f.(have_victims) = 0 ->
  if Z.of_nat (length V) >? GRAIN_PER_PAGE * 10 then bg_ev_turn f = Ok (set_victims f 0 1)
  else match F with
  | [] => bg_ev_turn f = Err HANG
  | i :: F =>
      if (f.(ca).(ht) i).(outgoing) =? 0
      then exists f', bg_ev_turn f = Ok f' /\ collected f f' i F V
      else bg_ev_turn f = Err HANG
  end.
Proof. apply bg_ev_turn_ok. Qed.

(** ** Evicting a victim *)

Lemma write_map_page_ok s ppa stime n B :
  ready s B -> 0 <= ppa < (sp_of s).(tt_pgs) -> 0 <= stime <= B -> 0 <= n <= B -> B < 2 ^ 62 ->
  exists n' s', write_map_page clock s ppa stime n = Ok (n', s') /\ ready s' (B + NAND_MAX) /\
    0 <= n' <= B + NAND_MAX /\ same_flash s s'.
Proof.
  intros R Hp Hs Hn HB. pose proof (ok_geom _ (nr_tree _ _ _ R)) as G. fold (sp_of s) in G.
  unfold write_map_page. destruct (ppa_to_struct_ok _ G _ Hp) as (p & -> & P & _).
  cbn [mbind result_mbind result_bind]. destruct (last_pg_in_wordline (sp_of s) p).
  2:{ exists n, s. split; [done|]. split; [apply (nand_ready_mono _ _ B); [done|]|split; [|done]];
      unfold NAND_MAX; lia. }
  destruct (__stime_or_clock clock (sd s) stime) as [t d] eqn:E.
  destruct (stime_or_clock_ok _ _ _ _ _ E R Hs) as (-> & R' & Ht).
  destruct (advance_ok (set_sd s (tick s.(sd))) NAND_WRITE p t
    ((sp_of s).(pgsz) * (sp_of s).(pgs_per_oneshotpg)) B R' P) as (n' & s' & -> & Q);
    [by apply write_supported|by apply page_xfer|done|done|].
  exists n', s'. split; [done|]. split; [apply Q|]. split; [apply Q|].
  destruct Q as (_ & _ & Q). by etransitivity; [|exact Q].
Qed.

Lemma take_map_page_ok s b n :
  shard_inv s -> page_free s MAP_IO b n -> pgidx (sp_of s) (page_at (sp_of s) b n) <> 0 ->
  exists s', take_map_page 2 s = Ok (pgidx (sp_of s) (page_at (sp_of s) b n), s') /\
    page_taken s s' MAP_IO b n /\ timing_kept s s'.
Proof.
  intros I P Hz. pose proof (sh_geom _ I) as G.
  destruct (get_new_page_ok s MAP_IO b n G (pf_wp _ _ _ _ P)) as (E & _ & E').
  destruct (take_page_ok s MAP_IO b n I P) as (s1 & s' & E1 & E2 & Es & T). cbn [take_map_page].
  rewrite E. cbn [mbind result_mbind result_bind]. rewrite E'. cbn [mbind result_mbind result_bind].
  rewrite E1. cbn [mbind result_mbind result_bind]. rewrite E2. cbn [mbind result_mbind result_bind].
  rewrite (proj2 (Z.eqb_neq _ 0) Hz). exists s'. split; [done|]. split; [done|].
  apply advance_write_pointer_sd in E1. apply move_page_timing in E2. by rewrite E1 in E2.
Qed.

(** The page [x] holds a section: its grains are counted. *)
Record map_page_live (s : demand_shard) (x : Z) (p : ppa) : Prop := {
  ml_range : 0 <= x < (sp_of s).(tt_pgs);
  ml_page : ppa_to_struct (sp_of s) x = Ok p;
  ml_status : (page_at_ppa s p).(status) = PG_VALID;
  ml_vgc : 0 < (blk_at s.(sd) p).(Ssd.vgc) <= blk_grains (sp_of s);
  ml_igc : 0 <= (blk_at s.(sd) p).(Ssd.igc) < blk_grains (sp_of s);
  ml_line : GRAIN_PER_PAGE <= (s.(lm).(lines) p.(g_blk)).(vgc);
  ml_full : (s.(lm).(lines) p.(g_blk)).(vgc) = line_grains (sp_of s) -> p.(g_blk) ∈ s.(lm).(full_line_list);
  ml_bit : s.(grain_bitmap) (x * GRAIN_PER_PAGE) = true
}.

(** The next page of the map line can hold one. *)
Record map_page_next (s : demand_shard) (b n : Z) : Prop := {
  mn_free : page_free s MAP_IO b n;
  mn_zero : pgidx (sp_of s) (page_at (sp_of s) b n) <> 0;
  mn_vgc : 0 <= (blk_at s.(sd) (page_at (sp_of s) b n)).(Ssd.vgc) <= blk_grains (sp_of s);
  mn_line : (s.(lm).(lines) b).(vgc) + (s.(lm).(lines) b).(igc) + GRAIN_PER_PAGE <= line_grains (sp_of s);
  mn_bit : s.(grain_bitmap) (pgidx (sp_of s) (page_at (sp_of s) b n) * GRAIN_PER_PAGE) = false
}.

Lemma lost_page_free s s' p g len t b n :
  shard_inv s -> sp_of s' = sp_of s -> grains_lost s s' p g len -> page_free s t b n ->
  ((s.(lm).(lines) p.(g_blk)).(vgc) = line_grains (sp_of s) -> p.(g_blk) ∈ s.(lm).(full_line_list)) ->
  page_free s' t b n.
Proof.
  intros I Es L [(W1 & (O1 & O2 & O3) & W3) N St] Hf. destruct (gl_rest _ _ _ _ _ L) as (_ & Ew & _).
  destruct (gl_line _ _ _ _ _ L) as [_ _ Lf Lu Lq]. split; rewrite ?Es.
  - split; [by rewrite Ew, Es|]. rewrite Es. split; [|done]. split; [done|]. split.
    + intros X. apply O2. unfold listed in *. rewrite Lf, Lu in X. rewrite elem_of_app in *.
      destruct X as [X|X]; [by left|right]. revert X. case_cmp; [|done].
      by rewrite elem_of_list_del; intros [].
    + rewrite Lq. intros [X|[-> X]]; [done|]. apply O2, elem_of_app. right. by apply Hf.
  - done.
  - by rewrite (gl_status _ _ _ _ _ L).
Qed.

Lemma lost_map_page_next s s' p ppa b n :
  shard_inv s -> sp_of s' = sp_of s -> grains_lost s s' p (ppa * GRAIN_PER_PAGE) GRAIN_PER_PAGE ->
  map_page_live s ppa p -> map_page_next s b n -> map_page_next s' b n.
Proof.
  intros I Es L Lv [F Z0 V Ln Bt]. split; rewrite ?Es; try done.
  - eapply lost_page_free; eauto. apply (ml_full _ _ _ Lv).
  - by destruct (gl_blk _ _ _ _ _ L (page_at (sp_of s) b n)) as [-> _].
  - destruct (gl_line _ _ _ _ _ L) as [[L1 L2] Lo _ _ _].
    destruct (Z.eq_dec b p.(g_blk)) as [->|Nb]; [rewrite L1, L2; lia|].
    by destruct (Lo b Nb) as [-> ->].
  - rewrite (gl_bitmap _ _ _ _ _ L). case_cmp; done.
Qed.

(** What writing a victim changes: the page [old] of the section is dead, page
    [n] of the map line [b] holds it, and names it out of band. *)
Record victim_written (s s' : demand_shard) (old entry : Z) (p : ppa) (b n : Z) : Prop := {
  vw_inv : shard_inv s';
  vw_sp : sp_of s' = sp_of s;
  vw_wp : wp_ok s' MAP_IO b (n + 1) /\ forall u, u <> MAP_IO -> __get_wp s' u = __get_wp s u;
  vw_status : (page_at_ppa s' (page_at (sp_of s) b n)).(status) = PG_VALID;
  vw_oob : let x := pgidx (sp_of s) (page_at (sp_of s) b n) in
    s'.(oob) = upd s.(oob) x (upd (s.(oob) x) 0 entry);
  vw_bitmap : forall g, s'.(grain_bitmap) g =
    if g =? pgidx (sp_of s) (page_at (sp_of s) b n) * GRAIN_PER_PAGE then true
    else if g =? old * GRAIN_PER_PAGE then false else s.(grain_bitmap) g;
  vw_line : forall i,
    (s'.(lm).(lines) i).(vgc) = (s.(lm).(lines) i).(vgc) - (if i =? p.(g_blk) then GRAIN_PER_PAGE else 0)
      + (if i =? b then GRAIN_PER_PAGE else 0) /\
    (s'.(lm).(lines) i).(igc) = (s.(lm).(lines) i).(igc) + (if i =? p.(g_blk) then GRAIN_PER_PAGE else 0);
  vw_offset : s'.(offset) = s.(offset);
  vw_timing : timing_kept s s'
}.

(** The word that names a section of the table out of band. *)
Definition map_entry (i : Z) : Z := Z.lor (Z.shiftl GRAIN_PER_PAGE 32) (u64 (i * EPP)).

Lemma lose_map_page s v p b n :
  shard_inv s -> v.(g_off) = 0 -> v.(len_on_disk) = GRAIN_PER_PAGE ->
  map_page_live s v.(t_ppa) p -> map_page_next s b n ->
  exists s', mark_grain_invalid s (u64 (u32 (v.(t_ppa) * GRAIN_PER_PAGE) + v.(g_off))) v.(len_on_disk) = Ok s' /\
    shard_inv s' /\ sp_of s' = sp_of s /\
    grains_lost s s' p (v.(t_ppa) * GRAIN_PER_PAGE) GRAIN_PER_PAGE /\ map_page_next s' b n /\ timing_kept s s'.
Proof.
  intros I Hg Hl Lv Nx. pose proof (sh_geom _ I) as G. pose proof (tt_pgs_small _ G).
  pose proof Lv as [M1 M2 M3 M4 M5 M6 M7 M8]. rewrite Hg, Hl.
  rewrite GPP_val in *. rewrite Z.add_0_r, u32_small, u64_small by lia.
  destruct (mark_grain_invalid_ok s p (v.(t_ppa) * 8) 8 (blk_at s.(sd) p).(Ssd.vgc) (blk_at s.(sd) p).(Ssd.igc) I)
    as (s' & E & I' & Es & L); rewrite ?GPP_val; try done; try lia.
  { by rewrite Z.div_mul. }
  { by rewrite Z.mod_mul. }
  exists s'. split; [done|]. split; [done|]. split; [done|]. split; [done|].
  split; [|by eapply mark_grain_invalid_timing].
  apply (lost_map_page_next s s' p v.(t_ppa) b n); rewrite ?GPP_val; done.
Qed.

Lemma write_victim_ok s e v p b n :
  shard_inv s -> 0 <= v.(idx) <= 1048576 -> v.(g_off) = 0 -> v.(len_on_disk) = GRAIN_PER_PAGE ->
  e.(got_ppa) = false -> map_page_live s v.(t_ppa) p -> map_page_next s b n ->
  let x := pgidx (sp_of s) (page_at (sp_of s) b n) in
  exists s', write_victim s e v GRAIN_PER_PAGE =
    Ok (s', mk_ev GRAIN_PER_PAGE x true e.(got_lock) false e.(evicted) e.(nsecs_completed)
              (u64 (e.(ev_credits) + GRAIN_PER_PAGE)), set_t_ppa v x, GRAIN_PER_PAGE) /\
    victim_written s s' v.(t_ppa) (map_entry v.(idx)) p b n.
Proof.
  intros I Hi Hg Hl He Lv Nx x. pose proof (sh_geom _ I) as G. pose proof (tt_pgs_small _ G) as Hs.
  unfold write_victim. replace (_ =? len_on_disk v) with true by (by rewrite Hl).
  cbn [assert_ mbind result_mbind result_bind].
  destruct (lose_map_page s v p b n I Hg Hl Lv Nx) as (s1 & -> & I1 & Es1 & L1 & N1 & T1).
  cbn [mbind result_mbind result_bind]. rewrite He, Hl, Z.eqb_refl.
  cbn [negb assert_ mbind result_mbind result_bind].
  destruct (take_map_page_ok s1 b n I1 (mn_free _ _ _ N1) (mn_zero _ _ _ N1)) as (s2 & -> & P2 & T2).
  rewrite Es1. fold x. cbn [mbind result_mbind result_bind]. rewrite Hg. cbn [Z.eqb assert_ mbind result_mbind result_bind].
  assert (Ep : sp_of s2 = sp_of s) by (by rewrite (pt_sp _ _ _ _ _ P2)).
  rewrite Ep, (proj2 (geom_secs _ G)). change (4096 / GRAINED_UNIT) with GRAIN_PER_PAGE.
  set (s3 := set_oob s2 _).
  assert (E3 : sp_of s3 = sp_of s) by done.
  pose proof (pf_wp _ _ _ _ (mn_free _ _ _ Nx)) as W0. destruct W0 as (_ & (Hb & _) & Hn).
  pose proof (page_at_ok _ G b n Hb Hn) as PO. pose proof (pgidx_range _ G _ PO) as Hx. fold x in Hx.
  pose proof (ppa_to_struct_pgidx _ G _ PO) as EP. fold x in EP.
  unfold PPA_TO_PGA. rewrite Z.add_0_r. rewrite (u32_small (x * _)) by (rewrite GPP_val; lia).
  destruct N1 as [_ _ N3 N4 N5]. rewrite Es1 in *. fold x in N5.
  destruct (pt_rest _ _ _ _ _ P2) as (R1 & R2 & R3 & _).
  assert (St : (page_at_ppa s2 (page_at (sp_of s) b n)).(status) = PG_VALID).
  { rewrite (pt_status _ _ _ _ _ P2), Es1. rewrite decide_True by done. done. }
  destruct (mark_grain_valid_open s3 (page_at (sp_of s) b n) (x * GRAIN_PER_PAGE) GRAIN_PER_PAGE)
    as (s4 & E4 & I4 & Es4 & Q4 & O4); rewrite ?E3.
  { destruct (pt_inv _ _ _ _ _ P2) as [T L]. by split. }
  { rewrite GPP_val. lia. }
  { by rewrite Z.div_mul by done. }
  { exact St. }
  { change (sd s3) with (sd s2). destruct (pt_blk _ _ _ _ _ P2 (page_at (sp_of s) b n)) as [_ ->]. exact N3. }
  { done. }
  { change (lm s3) with (lm s2). rewrite (pt_lm _ _ _ _ _ P2). exact N4. }
  { change (lm s3) with (lm s2). pose proof (pt_wp _ _ _ _ _ P2) as (_ & O & _). by rewrite Ep in O. }
  { change (grain_bitmap s3) with (grain_bitmap s2). by rewrite R1. }
  rewrite E4. cbn [mbind result_mbind result_bind]. eexists. split; [done|].
  destruct (gl_rest _ _ _ _ _ L1) as (G1 & G2 & G3). destruct (gg_rest _ _ _ _ _ Q4) as (H1 & H2 & H3).
  split; try done.
  - by rewrite Es4.
  - split.
    + pose proof (pt_wp _ _ _ _ _ P2) as (W1 & _ & W3). split; [|split].
      * rewrite H2, Es4, E3. change (__get_wp s3 MAP_IO) with (__get_wp s2 MAP_IO). by rewrite W1, Ep.
      * by rewrite Es4.
      * by rewrite Es4, E3, <- Ep.
    + intros u Hu. rewrite H2. change (__get_wp s3 u) with (__get_wp s2 u).
      by rewrite (pt_wps _ _ _ _ _ P2), G2.
  - by rewrite (gg_status _ _ _ _ _ Q4).
  - cbv zeta. rewrite H1. unfold s3. cbn [set_oob oob]. by rewrite R2, G1.
  - intros g. fold x. rewrite (gg_bitmap _ _ _ _ _ Q4). case_cmp; [done|].
    change (grain_bitmap s3) with (grain_bitmap s2). by rewrite R1, (gl_bitmap _ _ _ _ _ L1).
  - intros i. rewrite (gg_lm _ _ _ _ _ Q4). cbn [set_line set_lines lines].
    change (lm s3) with (lm s2). rewrite (pt_lm _ _ _ _ _ P2). rewrite upd_case.
    change (g_blk (page_at (sp_of s) b n)) with b.
    destruct (gl_line _ _ _ _ _ L1) as [[X1 X2] X3 _ _ _].
    assert (X : (s1.(lm).(lines) i).(vgc) = (s.(lm).(lines) i).(vgc) - (if i =? p.(g_blk) then GRAIN_PER_PAGE else 0) /\
      (s1.(lm).(lines) i).(igc) = (s.(lm).(lines) i).(igc) + (if i =? p.(g_blk) then GRAIN_PER_PAGE else 0)).
    { destruct (Z.eqb_spec i p.(g_blk)) as [->|Ni]; [by split|]. destruct (X3 i Ni) as [-> ->]. lia. }
    destruct (Z.eqb_spec i b) as [->|]; cbn [set_vgc vgc igc]; lia.
  - rewrite H3. change (offset s3) with (offset s2). by rewrite R3, G3.
  - etransitivity; [exact T1|]. etransitivity; [exact T2|]. by eapply mark_grain_valid_timing in E4.
Qed.

(** The section after it was evicted to page [x]. *)
Definition evicted_section (h : ht_section) (x : Z) : ht_section :=
  mk_ht h.(idx) x CLEAN false h.(mem) h.(g_off) h.(len_on_disk) 0 h.(pair_mem).

Definition is_dirty (h : ht_section) : bool := bool_decide (h.(state) = D_CANDIDATE).

(** What an eviction of section [i] does to the cache; [x] is its page now. *)
Record evicted_one (f f' : ftl) (F V : list Z) (i x : Z) : Prop := {
  eo_inv : cache_inv f'.(ca) f'.(vb) F V;
  eo_changed : changed f.(ca) f'.(ca) i (evicted_section (f.(ca).(ht) i) x);
  eo_room : f'.(ca).(nr_cached_tentries) = f.(ca).(nr_cached_tentries) - GRAIN_PER_PAGE;
  eo_same : same_table f.(ca) f'.(ca);
  eo_flag : f'.(have_victims) = 0 /\ f'.(candidates) = f.(candidates)
}.

Lemma room_ok c v F V : cache_inv c v F V ->
  room c = (c.(nr_cached_tentries) <=? c.(max_cached_tentries) - GRAIN_PER_PAGE).
Proof.
  intros I. destruct (ci_max _ _ _ _ I). unfold room. rewrite GPP_val, i32_small by lia. done.
Qed.

(** The cache after one round of the loop. *)
Lemma evict_cache f F V i x h' :
  cache_inv f.(ca) f.(vb) F (i :: V) -> (f.(ca).(ht) i).(outgoing) = 0 ->
  let h := f.(ca).(ht) i in
  h' = set_t_ppa (set_outgoing h 1) x ->
  let c := put f.(ca) i (set_outgoing h 1) in
  let c := set_cached_cnt c (c.(nr_cached_tentries) - GRAIN_PER_PAGE) in
  let c := put c i (set_outgoing (set_state (set_cached h' false) CLEAN) 0) in
  let ring := mk_vb f.(vb).(hts) f.(vb).(vb_head) ((f.(vb).(vb_tail) + 1) mod VICTIM_RB_SZ) in
  cache_inv c ring F V /\ changed f.(ca) c i (evicted_section h x) /\ same_table f.(ca) c /\
  c.(nr_cached_tentries) = f.(ca).(nr_cached_tentries) - GRAIN_PER_PAGE.
Proof.
  intros I O h -> c1 c2 c3 ring. pose proof (cached_cnt_small _ _ _ _ I).
  assert (Hi : 0 <= i < nr_valid_tpages (ca f)).
  { apply (ci_range _ _ _ _ I), elem_of_app. right. constructor. }
  assert (Ch : changed f.(ca) c3 i (evicted_section h x)).
  { split; try done. intros y. cbn. rewrite !upd_case. by case_cmp. }
  destruct (ci_section _ _ _ _ _ I Hi) as [S1 _ S3 S4 _ _ _].
  pose proof (ci_nodup _ _ _ _ I) as ND. rewrite <- Permutation_middle in ND.
  apply NoDup_cons in ND as [NI _].
  split; [|split; [exact Ch|split]].
  - apply (inv_evict (ca f) (vb f) F V i (evicted_section h x)); try done.
    split; try done.
    + intros X. destruct NI. by apply elem_of_app; left.
    + intros X. destruct NI. by apply elem_of_app; right.
  - by apply (changed_same_table _ _ _ _ Ch).
  - cbn. rewrite GPP_val, i32_small by lia. done.
Qed.

Definition map_place (s : demand_shard) (b n : Z) : Z := pgidx (sp_of s) (page_at (sp_of s) b n).

(** What an eviction does to the flash: nothing for a clean section; a dirty one
    is written, and the time is that of the wordline it completes, if it does. *)
Definition evict_flash (s s' : demand_shard) (h : ht_section) (p : ppa) (b n : Z) (t credits credits' B : Z) : Prop :=
  if is_dirty h then
    exists s1, victim_written s s1 h.(t_ppa) (map_entry h.(idx)) p b n /\ same_flash s1 s' /\
      ready s' (B + NAND_MAX) /\ 0 <= t <= B + NAND_MAX /\ credits' = u64 (credits + GRAIN_PER_PAGE)
  else s' = s /\ t = 0 /\ credits' = credits.

(** One round of the loop, up to what happens to the victim. *)
Lemma evict_round k f F V i stime e :
  cache_inv f.(ca) f.(vb) F (i :: V) ->
  f.(ca).(max_cached_tentries) < f.(ca).(nr_cached_tentries) + GRAIN_PER_PAGE ->
  (f.(ca).(ht) i).(outgoing) = 0 -> e.(grain) = 0 -> e.(got_lock) = false -> e.(evicted) = 0 ->
  let h := set_outgoing (f.(ca).(ht) i) 1 in
  evict_loop clock (S k) f e stime =
  ('(s, e, v, g_len) ← (if is_dirty h then write_victim f.(sh) e h GRAIN_PER_PAGE
                        else Ok (f.(sh), e, h, GRAIN_PER_PAGE));
   let c := put f.(ca) i h in
   let c := set_cached_cnt c (c.(nr_cached_tentries) - g_len) in
   let c := put c i (set_outgoing (set_state (set_cached v false) CLEAN) 0) in
   let ring := mk_vb f.(vb).(hts) f.(vb).(vb_head) ((f.(vb).(vb_tail) + 1) mod VICTIM_RB_SZ) in
   let f := set_vb (set_ca (set_sh f s) c) ring in
   let e := mk_ev e.(grain) e.(ppa_) e.(got_ppa) false e.(all_clean) (u32 (e.(evicted) + g_len))
              e.(nsecs_completed) e.(ev_credits) in
   if e.(evicted) >=? GRAIN_PER_PAGE then Ok (f, e) else evict_loop clock k f e stime).
Proof.
  intros I Hr O Eg El Ee h.
  assert (Hin : i ∈ F ++ i :: V) by (apply elem_of_app; right; constructor).
  pose proof (ci_range _ _ _ _ I _ Hin) as Hi.
  destruct (ci_section _ _ _ _ _ I Hi) as [S1 _ S3 _ _ S6 _]. specialize (S3 Hin).
  assert (Sv : in_ring_state (ht (ca f) i)) by (apply S6; constructor).
  destruct (vb_pop _ _ _ (ci_vb _ _ _ _ I)) as [Ht _]. destruct (ci_pages _ _ _ _ I) as [_ Hp].
  cbn [evict_loop]. rewrite (room_ok _ _ _ _ I), (proj2 (Z.leb_gt _ _)) by lia.
  rewrite Eg. change (0 =? GRAIN_PER_PAGE) with false. cbn [mbind result_mbind result_bind].
  rewrite Ht. cbn [mbind result_mbind result_bind]. rewrite section_ok by done.
  cbn [mbind result_mbind result_bind]. rewrite (bool_decide_true (is_Some _)) by done.
  cbn [assert_ mbind result_mbind result_bind].
  replace (_ || _) with true by (destruct Sv as [-> | ->]; reflexivity).
  cbn [assert_ mbind result_mbind result_bind]. rewrite El. unfold cache_get_ht, lock_section.
  rewrite S1. replace (IDX (u32 (i * EPP))) with i.
  2:{ unfold IDX. rewrite EPP_val, u32_small by lia. by rewrite Z.div_mul. }
  rewrite section_ok by done. cbn [mbind result_mbind result_bind]. rewrite O.
  cbn [Z.eqb mbind result_mbind result_bind]. rewrite section_ok by done.
  replace (ht (put (ca f) i (set_outgoing (ht (ca f) i) 1)) i) with h by (cbn; by rewrite upd_eq).
  cbn [mbind result_mbind result_bind]. unfold __entries_to_grains.
  change (GRAIN_PER_PAGE <=? GRAIN_PER_PAGE) with true. cbn [assert_ mbind result_mbind result_bind].
  rewrite Eg. change (0 + GRAIN_PER_PAGE >? GRAIN_PER_PAGE) with false. rewrite andb_false_r.
  cbn [mbind result_mbind result_bind]. unfold is_dirty. reflexivity.
Qed.

Lemma evict_one_ok f F V i stime credits B p b n :
  cache_inv f.(ca) f.(vb) F (i :: V) -> f.(have_victims) = 1 ->
  f.(ca).(max_cached_tentries) < f.(ca).(nr_cached_tentries) + GRAIN_PER_PAGE ->
  (f.(ca).(ht) i).(outgoing) = 0 ->
  ready f.(sh) B -> 0 <= stime <= B -> B < 2 ^ 62 ->
  (is_dirty (f.(ca).(ht) i) = true -> shard_inv f.(sh) /\
     map_page_live f.(sh) (f.(ca).(ht) i).(t_ppa) p /\ map_page_next f.(sh) b n) ->
  exists t credits' f', __evict_one clock f stime credits = Ok (t, credits', f') /\
    evicted_one f f' F V i (if is_dirty (f.(ca).(ht) i) then map_place f.(sh) b n else (f.(ca).(ht) i).(t_ppa)) /\
    evict_flash f.(sh) f'.(sh) (f.(ca).(ht) i) p b n t credits credits' B.
Proof.
  intros I Hv Hr O R Hs HB D. pose proof (cached_cnt_small _ _ _ _ I) as Hc.
  assert (Hin : i ∈ F ++ i :: V) by (apply elem_of_app; right; constructor).
  pose proof (ci_range _ _ _ _ I _ Hin) as Hi.
  destruct (ci_section _ _ _ _ _ I Hi) as [S1 _ S3 S4 _ _ _]. destruct (S4 (S3 Hin)) as [Sg Sl].
  destruct (ci_pages _ _ _ _ I) as [_ Hp].
  unfold __evict_one. rewrite Hv. cbn [Z.eqb negb].
  rewrite (evict_round 1 (set_victims f (candidates f) 2) F V i stime (ev_start credits)) by done.
  cbn [set_victims ca sh vb]. set (h := ht (ca f) i) in *.
  change (is_dirty (set_outgoing h 1)) with (is_dirty h). unfold evict_flash. destruct (is_dirty h) eqn:Ed.
  - destruct (D eq_refl) as (Sh & Lv & Nx).
    destruct (write_victim_ok f.(sh) (ev_start credits) (set_outgoing h 1) p b n Sh) as (s' & -> & W); try done.
    { cbn. lia. }
    cbn [mbind result_mbind result_bind evicted grain got_ppa all_clean nsecs_completed ev_credits ppa_ ev_start].
    change (u32 (0 + GRAIN_PER_PAGE) >=? GRAIN_PER_PAGE) with true. cbv zeta.
    cbn [mbind result_mbind result_bind evicted grain got_ppa all_clean nsecs_completed ev_credits ppa_ ev_start negb andb].
    assert (R1 : ready s' B).
    { apply (nand_ready_kept clock f.(sh).(sd)); [done|apply W|apply W]. }
    assert (Hx : 0 <= map_place f.(sh) b n < (sp_of s').(tt_pgs)).
    { rewrite (vw_sp _ _ _ _ _ _ _ W). apply pgidx_range; [apply (sh_geom _ Sh)|].
      destruct (pf_wp _ _ _ _ (mn_free _ _ _ Nx)) as (_ & (Hb & _) & Hn).
      by apply (page_at_ok _ (sh_geom _ Sh)). }
    destruct (write_map_page_ok s' (map_place f.(sh) b n) stime 0 B R1 Hx) as (t & s2 & E & R2 & T2 & F2); try lia.
    unfold map_place in E. change (GRAIN_PER_PAGE <? GRAIN_PER_PAGE) with false.
    cbn [mbind result_mbind result_bind set_vb set_ca set_sh sh Z.eqb Pos.eqb negb]. rewrite E.
    cbn [mbind result_mbind result_bind]. eexists _, _, _. split; [reflexivity|].
    destruct (evict_cache f F V i (map_place f.(sh) b n) _ I O eq_refl) as (C1 & C2 & C3 & C4).
    split; [split; [exact C1|exact C2|exact C4|exact C3|done]|].
    exists s'. split; [exact W|]. split; [exact F2|]. split; [exact R2|]. split; [exact T2|]. reflexivity.
  - cbn [mbind result_mbind result_bind evicted grain got_ppa all_clean nsecs_completed ev_credits ppa_ ev_start].
    change (u32 (0 + GRAIN_PER_PAGE) >=? GRAIN_PER_PAGE) with true. cbv zeta.
    cbn [mbind result_mbind result_bind evicted grain got_ppa all_clean nsecs_completed ev_credits ppa_ ev_start negb andb].
    eexists _, _, _. split; [reflexivity|].
    destruct (evict_cache f F V i (t_ppa h) (set_outgoing h 1) I O) as (C1 & C2 & C3 & C4); [done|].
    split; [split; [exact C1|exact C2|exact C4|exact C3|done]|]. by split_and!.
Qed.

(** C16 (eviction): when victims are on offer and the cache has no room for a section, an eviction
    takes the oldest victim out of DRAM without a fault. The counter shrinks by its size, the
    table stays as it was, and the flag is reset. A clean victim costs nothing; a dirty one is
    written to the next page of the map line, its old page is dead, its out-of-band word names
    it, and the books of both lines are right. *)
Theorem evict_one_correct f F V i stime credits B p b n :
  cache_inv f.(ca) f.(vb) F (i :: V) -> f.(have_victims) = 1 ->
  f.(ca).(max_cached_tentries) < f.(ca).(nr_cached_tentries) + GRAIN_PER_PAGE ->
  (f.(ca).(ht) i).(outgoing) = 0 ->
  ready f.(sh) B -> 0 <= stime <= B -> B < 2 ^ 62 ->
  (is_dirty (f.(ca).(ht) i) = true -> shard_inv f.(sh) /\
     map_page_live f.(sh) (f.(ca).(ht) i).(t_ppa) p /\ map_page_next f.(sh) b n) ->
  exists t credits' f', __evict_one clock f stime credits = Ok (t, credits', f') /\
    evicted_one f f' F V i (if is_dirty (f.(ca).(ht) i) then map_place f.(sh) b n else (f.(ca).(ht) i).(t_ppa)) /\
    evict_flash f.(sh) f'.(sh) (f.(ca).(ht) i) p b n t credits credits' B.
Proof. apply evict_one_ok. Qed.

End operations.

(** ** Initialisation and updates *)

(** A device of whole lines has whole sections. *)
Lemma sections_whole spp : geom spp ->
  let n := spp.(tt_pgs) * GRAIN_PER_PAGE in
  i32 (u64 n / EPP) = n / 1024 /\ i32 n = n /\ n / 1024 * 1024 = n /\ 2 <= n / 1024 <= 1048576.
Proof.
  intros G n. destruct (geom_consts _ G) as (_ & _ & _ & _ & _ & N & B & _ & _ & E & _).
  pose proof (tt_pgs_small _ G). unfold n. rewrite GPP_val, EPP_val, u64_small by lia.
  assert (exists k, tt_pgs spp * 8 = k * 1024 /\ 2 <= k) as (k & X & Hk).
  { exists (2 * (blks_per_pl spp * nchs spp)). split; [rewrite E; ring|nia]. }
  rewrite X in *. rewrite Z.div_mul by lia. rewrite !i32_small by lia. lia.
Qed.

Lemma init_cache_ok spp c dram h : geom spp -> 0 <= dram < 2 ^ 40 ->
  let c' := snd (init_cache c spp.(tt_pgs) dram) in
  cache_inv c' (mk_vb h 0 0) [] [] /\
  c'.(nr_valid_tentries) = spp.(tt_pgs) * GRAIN_PER_PAGE /\
  c'.(nr_valid_tpages) * EPP = c'.(nr_valid_tentries) /\
  c'.(max_cached_tentries) = dram / GRAINED_UNIT /\
  (forall x, 0 <= IDX x < c'.(nr_valid_tpages) -> table c' x = UINT_MAX /\ pair_at c' x = 0) /\
  (forall i, 0 <= i < c'.(nr_valid_tpages) -> (c'.(ht) i).(outgoing) = 0 /\ (c'.(ht) i).(t_ppa) = UINT_MAX).
Proof.
  intros G Hd c'. pose proof (sections_whole spp G) as (E1 & E2 & E3 & E4). cbv zeta in *.
  assert (Hx : i32 (dram / GRAINED_UNIT) = dram / GRAINED_UNIT /\ 0 <= dram / GRAINED_UNIT < 2147483648).
  { change GRAINED_UNIT with 512. change (2 ^ 40) with 1099511627776 in Hd.
    assert (0 <= dram / 512 < 2147483648) by zlia. split; [apply i32_small; lia|lia]. }
  destruct Hx as [Em Hm].
  assert (Hp : c'.(nr_valid_tpages) = spp.(tt_pgs) * GRAIN_PER_PAGE / 1024) by exact E1.
  assert (Hh : forall i, 0 <= i < c'.(nr_valid_tpages) -> c'.(ht) i = fresh_section i (c.(ht) i)).
  { intros i Hi. unfold c' in *. cbn [init_cache snd ht nr_valid_tpages] in *.
    by rewrite (proj2 (Z.leb_le 0 i)), (proj2 (Z.ltb_lt i _)) by lia. }
  split; [|split; [exact E2|split; [|split; [exact Em|split]]]].
  - split; rewrite ?Hp; try done; try lia.
    + unfold c'. cbn [init_cache snd max_cached_tentries]. lia.
    + by constructor.
    + intros i Hi. by apply elem_of_nil in Hi.
    + intros i Hi. rewrite Hh by lia. done.
    + intros i Hi. rewrite Hh by lia. cbn. split; [done|]. by intros X%elem_of_nil.
    + intros i Hi. by apply elem_of_nil in Hi.
    + intros i Hi. rewrite Hh by lia. cbn. by intros [].
    + intros i Hi. by apply elem_of_nil in Hi.
    + intros i Hi. by apply elem_of_nil in Hi.
    + intros i Hi _. by rewrite Hh by lia.
  - rewrite Hp, EPP_val. cbn [c' init_cache snd nr_valid_tentries]. by rewrite E2.
  - intros x Hx. unfold table, pair_at. by rewrite Hh by done.
  - intros i Hi. by rewrite Hh by done.
Qed.

(** ** The cache is transparent

    What the dispatcher, the eviction thread and the workers do to the cache, in
    any order, is invisible in the table: only updates change it.  An operation
    that does not return - because it waits for a lock, or because of a fault of
    the flash layer - is no step. *)

Lemma IDX_bound c x : 0 <= x < c.(nr_valid_tpages) * EPP -> 0 <= IDX x < c.(nr_valid_tpages).
Proof. rewrite EPP_val. unfold IDX. rewrite EPP_val. intros H. zlia. Qed.

Lemma mark_dirty_inv F V i h : section_inv F V i h -> i ∈ F ++ V -> section_inv F V i (__mark_dirty h).
Proof.
  intros [A B C D E G H] In. unfold __mark_dirty.
  assert (X : forall st, (i ∈ F -> st = CLEAN \/ st = DIRTY) -> (i ∈ V -> st = C_CANDIDATE \/ st = D_CANDIDATE) ->
    section_inv F V i (set_state h st)) by (intros; split; auto; tauto).
  destruct (state h) eqn:Es; try (apply X); try (by split); intros Y; auto;
    try (specialize (E Y); unfold in_fifo in E; rewrite Es in E; destruct E; discriminate);
    try (specialize (G Y); unfold in_ring_state in G; rewrite Es in G; destruct G; discriminate).
Qed.

Lemma IDX_OFFSET x y : IDX x = IDX y -> OFFSET x = OFFSET y -> x = y.
Proof. unfold IDX. rewrite !OFFSET_mod, EPP_val. intros. zlia. Qed.

Lemma update_map_ok c v F V x addr pte :
  cache_inv c v F V -> IDX x ∈ F ++ V ->
  exists h', __update_map (c.(ht) (IDX x)) x addr pte = Ok h' /\
    cache_inv (put c (IDX x) h') v F V /\
    h'.(outgoing) = (c.(ht) (IDX x)).(outgoing) /\ h'.(t_ppa) = (c.(ht) (IDX x)).(t_ppa) /\
    forall y, table (put c (IDX x) h') y = upd (table c) x pte y /\
              pair_at (put c (IDX x) h') y = upd (pair_at c) x addr y.
Proof.
  intros I Hin. pose proof (ci_range _ _ _ _ I _ Hin) as Hi. set (i := IDX x) in *.
  pose proof (ci_section _ _ _ _ _ I Hi) as S. destruct (ci_mem _ _ _ _ I i Hin) as [m Em].
  unfold __update_map. rewrite Em, (proj2 (ci_cached _ _ _ _ I i Hi) Hin).
  cbn [assert_ mbind result_mbind result_bind]. eexists. split; [reflexivity|].
  pose proof (mark_dirty_inv _ _ _ _ S Hin) as S'.
  assert (Ed : forall h, outgoing (__mark_dirty h) = outgoing h /\ t_ppa (__mark_dirty h) = t_ppa h /\
    pair_mem (__mark_dirty h) = pair_mem h /\ mem (__mark_dirty h) = mem h).
  { intros h. unfold __mark_dirty. by destruct (state h). }
  destruct (Ed (ht c i)) as (E1 & E2 & E3 & E4).
  split; [|split; [exact E1|split; [exact E2|]]].
  - apply inv_put; [done..|]. destruct S' as [A B C D E G H]. split; try done; cbn.
    intros _. apply D. rewrite E4, Em. done.
  - intros y. rewrite !(upd_case _ x y). unfold table, pair_at. cbn [put set_ht ht].
    rewrite !(upd_case _ i (IDX y)), E3. destruct (Z.eqb_spec (IDX y) i) as [Ei|Ni].
    + cbn. rewrite !upd_case. rewrite Ei, Em.
      destruct (Z.eqb_spec y x) as [->|Nx]; [by rewrite Z.eqb_refl|].
      rewrite (proj2 (Z.eqb_neq (OFFSET y) _)); [done|]. intros Eo. by apply Nx, IDX_OFFSET.
    + destruct (Z.eqb_spec y x) as [->|]; done.
Qed.

Section transparency.
Context (clock : nat -> Z).

Lemma take_map_page_sp fuel s x s' : take_map_page fuel s = Ok (x, s') -> sp_of s' = sp_of s.
Proof.
  revert s. induction fuel as [|fuel IH]; intros s H; [discriminate|]. cbn [take_map_page] in H.
  apply result_bind_ok in H as (p & _ & H). apply result_bind_ok in H as (a & _ & H).
  apply result_bind_ok in H as (s1 & E1 & H). apply result_bind_ok in H as (s2 & E2 & H).
  apply advance_write_pointer_sd in E1. apply move_page_timing in E2 as (E2 & _).
  assert (X : sp_of s2 = sp_of s) by (unfold sp_of; by rewrite E2, E1).
  destruct (a =? 0).
  - apply result_bind_ok in H as (s3 & E3 & H). apply result_bind_ok in H as (s4 & E4 & H).
    apply mark_grain_valid_timing in E3 as (E3 & _). apply mark_grain_invalid_timing in E4 as (E4 & _).
    rewrite (IH _ H). unfold sp_of in *. by rewrite E4, E3.
  - by injection H as _ <-.
Qed.

Lemma write_victim_inv s e v g s' e' v' g' : write_victim s e v g = Ok (s', e', v', g') ->
  (exists x, v' = set_t_ppa v x) /\ g' = (sp_of s).(pgsz) / GRAINED_UNIT /\ e'.(evicted) = e.(evicted).
Proof.
  unfold write_victim. intros H. apply result_bind_ok in H as (u0 & _ & H).
  apply result_bind_ok in H as (s1 & E1 & H). apply mark_grain_invalid_timing in E1 as (E1 & _).
  apply result_bind_ok in H as (u1 & _ & H). apply result_bind_ok in H as (u2 & _ & H).
  apply result_bind_ok in H as ([x s2] & E2 & H). apply take_map_page_sp in E2.
  apply result_bind_ok in H as (u3 & _ & H). apply result_bind_ok in H as (s3 & _ & H).
  injection H as <- <- <- <-. split; [by eexists|]. cbn. split; [|done].
  unfold sp_of in *. by rewrite E2, E1.
Qed.

(** The oldest entry of the ring is a candidate only if the ring is not empty. *)
Lemma ring_head c v F V i : cache_inv c v F V -> v.(hts) v.(vb_tail) = Some i ->
  0 <= i < c.(nr_valid_tpages) -> in_ring_state (c.(ht) i) -> exists V', V = i :: V'.
Proof.
  intros I Ht Hi S. destruct V as [|j V].
  - exfalso. destruct (decide (i ∈ F ++ [])) as [In|Out].
    + rewrite app_nil_r in In. destruct (ci_F _ _ _ _ I i In) as [E|E], S as [E'|E']; congruence.
    + pose proof (ci_out _ _ _ _ I i Hi Out) as E. destruct S as [E'|E']; congruence.
  - destruct (vb_pop _ _ _ (ci_vb _ _ _ _ I)) as [Ht' _]. exists V. congruence.
Qed.

Definition kept (f f' : ftl) : Prop :=
  exists F V, cache_inv f'.(ca) f'.(vb) F V /\ f'.(ca).(nr_valid_tpages) = f.(ca).(nr_valid_tpages) /\
    same_table f.(ca) f'.(ca).

Lemma evict_loop_inv f F V stime e f' e' :
  geom (sp_of f.(sh)) -> cache_inv f.(ca) f.(vb) F V -> e.(grain) = 0 -> e.(got_lock) = false -> e.(evicted) = 0 ->
  evict_loop clock 2 f e stime = Ok (f', e') -> kept f f'.
Proof.
  intros G I Eg El Ee H. pose proof (cached_cnt_small _ _ _ _ I).
  destruct (Z.leb_spec (nr_cached_tentries (ca f)) (max_cached_tentries (ca f) - GRAIN_PER_PAGE)) as [R|R].
  { cbn [evict_loop] in H. rewrite (room_ok _ _ _ _ I), (proj2 (Z.leb_le _ _)) in H by lia.
    injection H as <- <-. by exists F, V. }
  assert (X : exists i V', V = i :: V' /\ (f.(ca).(ht) i).(outgoing) = 0).
  { revert H. generalize 1%nat. intros k. cbn [evict_loop].
    rewrite (room_ok _ _ _ _ I), (proj2 (Z.leb_gt _ _)) by lia.
    rewrite Eg. change (0 =? GRAIN_PER_PAGE) with false. cbn [mbind result_mbind result_bind].
    destruct (hts (vb f) (vb_tail (vb f))) as [i|] eqn:Ht; [|discriminate]. cbn [mbind result_mbind result_bind].
    unfold section, cell. destruct (_ && _) eqn:Hi; [|discriminate]. cbn [mbind result_mbind result_bind].
    assert (Hi' : 0 <= i < nr_valid_tpages (ca f)) by (bool_to_prop; lia).
    intros H. apply result_bind_ok in H as (? & _ & H). apply result_bind_ok in H as (? & Hs & H).
    apply assert_ok in Hs.
    assert (Sv : in_ring_state (ht (ca f) i)).
    { apply orb_true_iff in Hs as [Hs|Hs]; apply bool_decide_eq_true in Hs; [by left|by right]. }
    destruct (ring_head _ _ _ _ _ I Ht Hi' Sv) as [V' ->]. exists i, V'. split; [done|].
    rewrite El in H. apply result_bind_ok in H as (c & Hc & _).
    apply result_bind_ok in Hc as ([j c'] & Hc & _). unfold cache_get_ht, lock_section in Hc.
    rewrite (ci_idx _ _ _ _ I i Hi') in Hc. destruct (ci_pages _ _ _ _ I).
    replace (IDX (u32 (i * EPP))) with i in Hc.
    2:{ unfold IDX. rewrite EPP_val, u32_small by lia. by rewrite Z.div_mul. }
    rewrite section_ok in Hc by done. cbn [mbind result_mbind result_bind] in Hc.
    destruct (Z.eqb_spec (outgoing (ht (ca f) i)) 0); [done|discriminate]. }
  destruct X as (i & V' & -> & O).
  rewrite (evict_round clock 1 f F V' i stime e I) in H by (done || lia).
  apply result_bind_ok in H as ([[[s1 e1] v1] g1] & E1 & H).
  assert (Y : exists x, v1 = set_t_ppa (set_outgoing (ht (ca f) i) 1) x /\ g1 = GRAIN_PER_PAGE /\ e1.(evicted) = 0).
  { destruct (is_dirty _).
    - apply write_victim_inv in E1 as ([x ->] & -> & ->). exists x. rewrite (proj2 (geom_secs _ G)). done.
    - injection E1 as <- <- <- <-. by exists (t_ppa (ht (ca f) i)). }
  destruct Y as (x & -> & -> & Y). cbv zeta in H. cbn [evicted] in H. rewrite Y in H.
  change (u32 (0 + GRAIN_PER_PAGE) >=? GRAIN_PER_PAGE) with true in H. injection H as <- _.
  destruct (evict_cache f F V' i x _ I O eq_refl) as (C1 & C2 & C3 & C4).
  exists F, V'. split; [exact C1|]. split; [exact (ch_pages _ _ _ _ C2)|exact C3].
Qed.

Lemma evict_one_inv f F V stime credits t credits' f' :
  geom (sp_of f.(sh)) -> cache_inv f.(ca) f.(vb) F V ->
  __evict_one clock f stime credits = Ok (t, credits', f') -> kept f f'.
Proof.
  intros G I H. unfold __evict_one in H. destruct (have_victims f =? 1); [|discriminate].
  cbn [negb] in H. apply result_bind_ok in H as ([f1 e] & E & H).
  apply (evict_loop_inv (set_victims f (candidates f) 2) F V) in E; [|done..].
  apply result_bind_ok in H as (s1 & _ & H). apply result_bind_ok in H as ([n s2] & _ & [= _ _ <-]).
  exact E.
Qed.

Definition is_first (h : ht_section) : bool := match h.(mem) with None => true | Some _ => false end.

Lemma get_one_inv f F V i stime n f' :
  geom (sp_of f.(sh)) -> cache_inv f.(ca) f.(vb) F V -> 0 <= i < f.(ca).(nr_valid_tpages) ->
  cache_hit (f.(ca).(ht) i) = false -> (length F < FIFO_CAPACITY)%nat ->
  __get_one clock f i (is_first (f.(ca).(ht) i)) stime = Ok (n, f') -> kept f f'.
Proof.
  intros G I Hi Hc L H. unfold __get_one in H. rewrite section_ok in H by done.
  cbn [mbind result_mbind result_bind] in H. apply result_bind_ok in H as ([[n0 s0] h] & E & [= <- <-]).
  assert (N : i ∉ F ++ V).
  { intros X. apply (ci_cached _ _ _ _ I i Hi) in X. unfold cache_hit in Hc. congruence. }
  destruct (ci_section _ _ _ _ _ I Hi) as [S1 _ _ S4 _ _ _].
  unfold is_first in E. destruct (mem (ht (ca f) i)) as [m|] eqn:Em.
  - unfold load_section in E. rewrite bool_decide_true in E by (rewrite Em; by eexists).
    apply result_bind_ok in E as (u & _ & E). apply result_bind_ok in E as (p & _ & E).
    destruct (__stime_or_clock clock (sd (sh f)) stime) as [t d].
    apply result_bind_ok in E as ([n1 s1] & _ & [= -> -> <-]). destruct (S4 ltac:(by eexists)) as [S5 S6].
    assert (X := enqueue_section_ok f s0 F V i (set_cached (ht (ca f) i) true) I Hi N L).
    cbv zeta in X. destruct X as [X1 X2 _ _ X3 _]; try done; [by apply same_table_put|].
    exists (F ++ [i]), V. split; [exact X1|]. split; [apply X3|exact X2].
  - injection E as <- <- <-.
    assert (X := enqueue_section_ok f f.(sh) F V i (create_section (sp_of (sh f)) (ht (ca f) i)) I Hi N L).
    cbv zeta in X. destruct X as [X1 X2 _ _ X3 _]; try done; [by apply create_same_table|].
    exists (F ++ [i]), V. split; [exact X1|]. split; [apply X3|exact X2].
Qed.

(** One step, with the update it makes to the table, if it makes one. *)
Inductive cache_step : ftl -> option (Z * Z * Z) -> ftl -> Prop :=
  | step_lock f x i c : 0 <= IDX x < f.(ca).(nr_valid_tpages) ->
      cache_get_ht f.(ca) x = Ok (i, c) -> cache_step f None (set_ca f c)
  | step_unlock f i c : unlock_section f.(ca) i = Ok c -> cache_step f None (set_ca f c)
  | step_release f i c : __release_map f.(ca) i = Ok c -> cache_step f None (set_ca f c)
  | step_load f i stime n f' : 0 <= i < f.(ca).(nr_valid_tpages) ->
      cache_hit (f.(ca).(ht) i) = false ->
      __get_one clock f i (is_first (f.(ca).(ht) i)) stime = Ok (n, f') -> cache_step f None f'
  | step_collect f f' : bg_ev_turn f = Ok f' -> cache_step f None f'
  | step_evict f stime credits t credits' f' :
      __evict_one clock f stime credits = Ok (t, credits', f') -> cache_step f None f'
  | step_update f x addr pte h' : 0 <= IDX x < f.(ca).(nr_valid_tpages) ->
      cache_hit (f.(ca).(ht) (IDX x)) = true ->
      __update_map (f.(ca).(ht) (IDX x)) x addr pte = Ok h' ->
      cache_step f (Some (x, addr, pte)) (set_ca f (put f.(ca) (IDX x) h'))
  | step_flash f s : cache_step f None (set_sh f s).

(** Runs in which the parameters of the device do not change, with the updates
    they make in order. *)
Inductive cache_run (f0 : ftl) : ftl -> list (Z * Z * Z) -> Prop :=
  | run_start : cache_run f0 f0 []
  | run_step f l u f' : cache_run f0 f l -> cache_step f u f' ->
      sp_of f.(sh) = sp_of f0.(sh) -> cache_run f0 f' (l ++ option_list u).

(** The table as the updates alone make it. *)
Definition plain_table (l : list (Z * Z * Z)) : (Z -> Z) * (Z -> Z) :=
  foldl (fun s '(x, addr, pte) => (upd (fst s) x pte, upd (snd s) x addr)) (fun _ => UINT_MAX, fun _ => 0) l.

Lemma kept_outgoing f F V i n : cache_inv f.(ca) f.(vb) F V -> 0 <= i < f.(ca).(nr_valid_tpages) ->
  kept f (set_ca f (put f.(ca) i (set_outgoing (f.(ca).(ht) i) n))).
Proof.
  intros I Hi. exists F, V. split; [by apply inv_outgoing|]. split; [done|]. by apply same_table_put.
Qed.

Lemma section_inv_ok c i h : section c i = Ok h -> 0 <= i < c.(nr_valid_tpages) /\ h = c.(ht) i.
Proof.
  unfold section, cell. destruct (_ && _) eqn:E; [|discriminate]. intros [= <-]. bool_to_prop. split; [lia|done].
Qed.

(** A step keeps the invariant; the table changes as its update says. *)
Lemma cache_step_ok f u f' F V :
  cache_step f u f' -> geom (sp_of f.(sh)) -> f.(ca).(nr_valid_tpages) < 599999 ->
  cache_inv f.(ca) f.(vb) F V ->
  (exists F' V', cache_inv f'.(ca) f'.(vb) F' V') /\
  f'.(ca).(nr_valid_tpages) = f.(ca).(nr_valid_tpages) /\
  forall x, 0 <= IDX x < f.(ca).(nr_valid_tpages) ->
    match u with
    | None => table f'.(ca) x = table f.(ca) x /\ pair_at f'.(ca) x = pair_at f.(ca) x
    | Some (y, addr, pte) => table f'.(ca) x = upd (table f.(ca)) y pte x /\
        pair_at f'.(ca) x = upd (pair_at f.(ca)) y addr x
    end.
Proof.
  intros H G Hp I.
  assert (K : forall f', kept f f' -> (exists F' V', cache_inv f'.(ca) f'.(vb) F' V') /\
    f'.(ca).(nr_valid_tpages) = f.(ca).(nr_valid_tpages) /\ same_table f.(ca) f'.(ca)).
  { intros f2 (F' & V' & A & B & C). split; [by exists F', V'|done]. }
  destruct H as [f x i c Hx H|f i c H|f i c H|f i stime n f' Hi Hc H|f f' H|f stime credits t credits' f' H
    |f x addr pte h' Hx Hc H|f s].
  - apply K. unfold cache_get_ht, lock_section in H. rewrite section_ok in H by done.
    cbn [mbind result_mbind result_bind] in H. destruct (_ =? 0); [|discriminate].
    injection H as <- <-. by apply (kept_outgoing f F V).
  - apply K. apply result_bind_ok in H as (h & E & [= <-]). apply section_inv_ok in E as [Hi ->].
    by apply (kept_outgoing f F V).
  - apply K. apply result_bind_ok in H as (h & E & [= <-]). apply section_inv_ok in E as [Hi ->].
    by apply (kept_outgoing f F V).
  - apply K. apply (get_one_inv f F V i stime n f' G I Hi Hc); [|done].
    pose proof (cached_bound _ _ _ _ I) as L. rewrite length_app in L.
    unfold FIFO_CAPACITY, RING_BUFFER_SIZE. lia.
  - apply K. destruct (Z.eq_dec (have_victims f) 0) as [E|E].
    2:{ unfold bg_ev_turn in H. rewrite (proj2 (Z.eqb_neq _ _) E) in H. injection H as <-. by exists F, V. }
    pose proof (bg_ev_turn_ok f F V I E) as X. rewrite H in X. destruct (_ >? _); [injection X as ->; by exists F, V|].
    destruct F as [|i F]; [done|]. destruct (outgoing (ht (ca f) i) =? 0); [|done].
    destruct X as (f2 & [= <-] & [C1 C2 C3 _]). exists F, (V ++ [i]). split; [exact C1|].
    split; [exact (ch_pages _ _ _ _ C3)|exact C2].
  - apply K. by apply (evict_one_inv f F V stime credits t credits').
  - apply (ci_cached _ _ _ _ I) in Hc; [|done].
    destruct (update_map_ok _ _ _ _ x addr pte I Hc) as (h2 & E & I' & _ & _ & T).
    rewrite H in E. injection E as <-. split; [by exists F, V|]. split; [done|]. intros y _. apply T.
  - apply K. by exists F, V.
Qed.

(** C15 (the cache is transparent): start from an initialised cache, on a device of less than
    599 999 sections, and let the dispatcher, the eviction thread and the workers lock, load,
    choose, evict, update and release sections in any order, with anything else happening on
    the flash. At every moment each section in DRAM waits for its eviction in exactly one place
    with the right state and is counted once; and the table is the one the updates alone make:
    no eviction and no load can be seen in it. *)
Theorem cache_transparent spp c dram h s f l :
  geom spp -> 0 <= dram < 2 ^ 40 -> spp.(tt_pgs) * GRAIN_PER_PAGE < 599999 * EPP -> sp_of s = spp ->
  cache_run (mk_ftl s (snd (init_cache c spp.(tt_pgs) dram)) (mk_vb h 0 0) 0 0) f l ->
  (exists F V, cache_inv f.(ca) f.(vb) F V) /\
  forall x, 0 <= x < spp.(tt_pgs) * GRAIN_PER_PAGE ->
    table f.(ca) x = fst (plain_table l) x /\ pair_at f.(ca) x = snd (plain_table l) x.
Proof.
  intros G Hd Hp Es R. destruct (init_cache_ok spp c dram h G Hd) as (I0 & E1 & E2 & _ & T0 & _).
  set (c0 := snd (init_cache c (tt_pgs spp) dram)) in *.
  assert (P : c0.(nr_valid_tpages) < 599999) by (rewrite EPP_val in *; lia).
  enough (X : (exists F V, cache_inv f.(ca) f.(vb) F V) /\ f.(ca).(nr_valid_tpages) = c0.(nr_valid_tpages) /\
    forall x, 0 <= IDX x < c0.(nr_valid_tpages) ->
      table f.(ca) x = fst (plain_table l) x /\ pair_at f.(ca) x = snd (plain_table l) x).
  { destruct X as (X1 & _ & X3). split; [done|]. intros x Hx. apply X3, IDX_bound. by rewrite E2, E1. }
  induction R as [|f l u f' R IH S Sp]; [by split; [exists [], []|]|].
  destruct IH as ((F & V & I) & Ep & T).
  destruct (cache_step_ok f u f' F V S) as (I' & Ep' & T'); [|by rewrite Ep|done|].
  { rewrite Sp. cbn. by rewrite Es. }
  split; [done|]. split; [by rewrite Ep'|]. intros x Hx. specialize (T' x ltac:(by rewrite Ep)).
  destruct (T x Hx) as [T1 T2]. unfold plain_table in *. rewrite foldl_app.
  destruct u as [[[y addr] pte]|].
  - change (option_list (Some (y, addr, pte))) with [(y, addr, pte)]. cbn [foldl fst snd]. destruct T' as [-> ->]. rewrite !upd_case, T1, T2. by case_cmp.
  - destruct T' as [-> ->]. by split.
Qed.

End transparency.

(** ** Witnesses

    A device of 128 lines; the map line is line 0, its next page is page 1.  Of
    2048 sections, section 3 waits in the FIFO, section 7 is a dirty victim,
    section 5 is on flash; the others were never used.  There is room for two
    sections. *)

Definition cx_block : nand_block := mk_block (fun _ => mk_page (fun _ => SEC_FREE) 8 PG_FREE) 32 0 0 0 16 0 0.
Definition cx_ssd : ssd :=
  mk_ssd ex_spp
    (fun _ => mk_channel (fun _ => mk_lun (fun _ => mk_plane
         (fun i => if i =? 0 then cx_block else ex_valid_block) 128) 1 7000 false)
       8 (mk_ch 0 0 0 26 0 152 (fun _ => 26)))
    ex_ch (buffer_init 4194304) false 0.
Definition cx_shard : demand_shard :=
  mk_shard cx_ssd ex_lm (wp_of ex_spp 0 2047) (wp_of ex_spp 0 1) (wp_of ex_spp 0 0)
    (wp_of ex_spp 0 0) (mk_wfc 0 0) 2 2 0 (fun _ _ => 2) (fun g => g =? 768) 0 0 0.

Definition cx_section (i t : Z) (st : mapping_state) (c : bool) : ht_section :=
  mk_ht i t st c (Some (fun _ => UINT_MAX)) 0 8 0 (fun _ => 0).
Definition cx_ht (i : Z) : ht_section :=
  if i =? 3 then cx_section 3 97 DIRTY true else if i =? 5 then cx_section 5 98 CLEAN false
  else if i =? 7 then cx_section 7 96 D_CANDIDATE true
  else mk_ht i UINT_MAX CLEAN false None 0 0 0 (fun _ => 0).
Definition cx_cache : cache := mk_cache 2048 2097152 16 16 cx_ht (mk_rb (fun _ => 3) 1 0).
Definition cx_vb : victim_buffer := mk_vb (fun _ => Some 7) 1 0.
Definition cx_ftl (v : Z) : ftl := mk_ftl cx_shard cx_cache cx_vb 8 v.
Definition cx_clock (n : nat) : Z := 4000.

Lemma cx_ssd_ok : tree_ok cx_ssd.
Proof.
  assert (E26 : u8 26 = 26) by reflexivity. destruct ex_consts as (B & _).
  split; [apply ex_geom| | |].
  - intros i Hi. split; [done|]. intros j Hj. split; [done|intros; symmetry; exact B|].
    intros k m Hk Hm. cbn. by destruct (m =? 0).
  - intros i Hi. split; [|cbn; lia]. split; cbn -[u8]; rewrite ?NR_val, ?E26; try lia;
      intros; unfold slot; cbn; lia.
  - split; [apply ex_ch_inv|cbn; lia].
Qed.

Lemma cx_shard_ok : shard_inv cx_shard.
Proof. split; [apply cx_ssd_ok|apply ex_lm_ok]. Qed.

Lemma cx_ready : nand_ready cx_clock cx_shard.(sd) 7000.
Proof. split; [apply cx_ssd_ok|done| |]; intros; cbn; unfold cx_clock; lia. Qed.

Lemma cx_inv : cache_inv cx_cache cx_vb [3] [7].
Proof.
  assert (C : forall i, i = 3 \/ i = 5 \/ i = 7 \/
    (cx_ht i = mk_ht i UINT_MAX CLEAN false None 0 0 0 (fun _ => 0) /\ i <> 3 /\ i <> 7)).
  { intros i. unfold cx_ht. repeat case_cmp; auto 6. }
  split; try done; try (cbn; lia).
  - split; [done|]. split; [done|]. split; [done|]. intros [|k] x; cbn; [by intros [= <-]|done].
  - repeat constructor; set_solver.
  - intros i. cbn. rewrite !elem_of_cons, elem_of_nil. intros [->|[->|[]]]; lia.
  - intros i _. change (ht cx_cache) with cx_ht. by destruct (C i) as [->|[->|[->|[-> _]]]].
  - intros i _. change (ht cx_cache) with cx_ht. cbn [app]. rewrite !elem_of_cons, elem_of_nil.
    destruct (C i) as [->|[->|[->|[-> N]]]]; cbn; split; auto; try discriminate; lia.
  - intros i. cbn [app]. rewrite !elem_of_cons, elem_of_nil. intros [->|[->|[]]]; by eexists.
  - intros i _. change (ht cx_cache) with cx_ht. destruct (C i) as [->|[->|[->|[-> _]]]]; [done..|].
    by intros [].
  - intros i ->%list_elem_of_singleton. by right.
  - intros i ->%list_elem_of_singleton. by right.
  - intros i _. change (ht cx_cache) with cx_ht. cbn [app]. rewrite !elem_of_cons, elem_of_nil. intros N.
    destruct (C i) as [->|[->|[->|[-> _]]]]; try done; tauto.
Qed.

Lemma get_hash_idx_correct_witness :
  exists p, get_hash_idx cx_cache (mk_hash 1000 0 0) = Ok p /\
    p.(hash) = 1000 /\ 0 <= p.(cnt) <= 0 + 1026 /\ p.(lpa) = probe cx_cache 1000 p.(cnt) /\
    EPP < p.(lpa) < 2097152 /\ forall j, 0 <= j < p.(cnt) -> probe cx_cache 1000 j <= EPP.
Proof. apply (get_hash_idx_correct cx_cache 1000 0 0); cbn; lia. Defined.

(** The probes 1001, 1003, 1007 and 1013 and 1021 are skipped. *)
Example ex_get_hash_idx : get_hash_idx cx_cache (mk_hash 1000 0 0) = Ok (mk_hash 1000 5 1031).
Proof. vm_compute. reflexivity. Qed.

Lemma get_one_correct_witness :
  exists n f', __get_one cx_clock (cx_ftl 0) 5 false 0 = Ok (n, f') /\
    loaded (cx_ftl 0) f' [3] [7] 5 /\ same_flash cx_shard f'.(sh) /\
    (0 <= n <= 7000 + NAND_MAX) /\ nand_ready cx_clock f'.(sh).(sd) (7000 + NAND_MAX).
Proof.
  apply (get_one_correct cx_clock (cx_ftl 0) [3] [7] 5 false 0 7000).
  - apply cx_inv.
  - cbn. lia.
  - set_solver.
  - unfold FIFO_CAPACITY, RING_BUFFER_SIZE. cbn [length]. lia.
  - apply ex_geom.
  - split; [by eexists|]. split; [by vm_compute|]. split; [apply cx_ready|]. lia.
Defined.

Lemma bg_ev_turn_correct_witness :
  exists f', bg_ev_turn (cx_ftl 0) = Ok f' /\ collected (cx_ftl 0) f' 3 [] [7].
Proof. apply (bg_ev_turn_correct (cx_ftl 0) [3] [7]); [apply cx_inv|reflexivity]. Defined.

Lemma evict_one_correct_witness :
  exists t credits' f', __evict_one cx_clock (cx_ftl 1) 0 3 = Ok (t, credits', f') /\
    evicted_one (cx_ftl 1) f' [3] [] 7 (map_place cx_shard 0 1) /\
    evict_flash cx_clock cx_shard f'.(sh) (cx_ht 7) (mk_ppa 0 3 0 0 0 0) 0 1 t 3 credits' 7000.
Proof.
  apply (evict_one_correct cx_clock (cx_ftl 1) [3] [] 7 0 3 7000 (mk_ppa 0 3 0 0 0 0) 0 1).
  - apply cx_inv.
  - reflexivity.
  - reflexivity.
  - reflexivity.
  - apply cx_ready.
  - lia.
  - lia.
  - intros _. split; [apply cx_shard_ok|]. split.
    + split; try (vm_compute; repeat split; congruence). intros _. by repeat constructor.
    + split; try (vm_compute; repeat split; congruence).
      split; try (vm_compute; repeat split; congruence).
      split; [reflexivity|]. split; [apply ex_open|vm_compute; split; congruence].
Defined.

(** The dispatcher uses section 1 for the first time, and maps entry 1025. *)
Definition cx_fresh : ftl :=
  mk_ftl cx_shard (snd (init_cache cx_cache ex_spp.(tt_pgs) (2 ^ 24))) (mk_vb (fun _ => None) 0 0) 0 0.

Definition cx_loaded : ftl :=
  match __get_one cx_clock cx_fresh 1 true 0 with Ok (_, f) => f | Err _ => cx_fresh end.
Definition cx_mapped : ht_section :=
  match __update_map (cx_loaded.(ca).(ht) 1) 1025 4096 88 with Ok h => h | Err _ => cx_ht 0 end.

Lemma cache_transparent_witness :
  (exists F V, cache_inv (put cx_loaded.(ca) 1 cx_mapped) cx_loaded.(vb) F V) /\
  forall x, 0 <= x < ex_spp.(tt_pgs) * GRAIN_PER_PAGE ->
    table (put cx_loaded.(ca) 1 cx_mapped) x = upd (fun _ => UINT_MAX) 1025 88 x /\
    pair_at (put cx_loaded.(ca) 1 cx_mapped) x = upd (fun _ => 0) 1025 4096 x.
Proof.
  apply (cache_transparent cx_clock ex_spp cx_cache (2 ^ 24) (fun _ => None) cx_shard
    (set_ca cx_loaded (put cx_loaded.(ca) 1 cx_mapped)) [(1025, 4096, 88)]).
  - apply ex_geom.
  - split; reflexivity || (intros; discriminate).
  - vm_compute. reflexivity.
  - reflexivity.
  - apply (run_step cx_clock cx_fresh cx_loaded [] (Some (1025, 4096, 88))).
    + apply (run_step cx_clock cx_fresh cx_fresh [] None); [apply run_start| |reflexivity].
      apply (step_load cx_clock cx_fresh 1 0 0); [split; vm_compute; congruence|reflexivity|].
      vm_compute. reflexivity.
    + apply (step_update cx_clock cx_loaded 1025 4096 88); [split; vm_compute; congruence|reflexivity|reflexivity].
    + reflexivity.
Defined.
