(* ===== verification/WorkQueue.v ===== *)
(** * The I/O work queue ([io.c])

    Each I/O worker owns an array of [NR_MAX_PARALLEL_IO] entries chained by
    index into two lists: the requests in flight, in the order of their target
    times, and the free entries.  The dispatcher takes free entries, fills them
    and sorts them in, and gives finished ones back; the worker thread walks the
    requests, performs them and completes those that are due.  Each operation
    of the dispatcher, and each visit of the worker to an entry, is one step. *)

From Stdlib Require Import Sorting.Sorted.
From S2P Require Import Prelude.

Definition NR_MAX_PARALLEL_IO : Z := 16384.

(** The index [-1] as an [unsigned int]. *)
Definition NIL : Z := UINT_MAX.

(** ** State *)

(** [struct nvmev_io_work] without its time stamps.  [write_buffer] is the
    number of bytes to release, [has_cb] tells that [cb] is set and [cb_w] is
    the entry the callback reports to. *)
Record io_work := mk_work {
  sqid : Z; cqid : Z; sq_entry : Z; command_id : Z;
  nsecs_target : Z; is_copied : bool; is_completed : bool;
  status : Z; result0 : Z; result1 : Z;
  is_internal : bool; write_buffer : option Z; has_cb : bool; cb_w : option Z;
  next : Z; prev : Z
}.

Record io_worker := mk_worker {
  work_queue : Z -> io_work;
  free_seq : Z; free_seq_end : Z; io_seq : Z; io_seq_end : Z;
  latest_nsecs : Z
}.

Definition set_next (x : io_work) (n : Z) : io_work :=
  mk_work x.(sqid) x.(cqid) x.(sq_entry) x.(command_id) x.(nsecs_target) x.(is_copied)
    x.(is_completed) x.(status) x.(result0) x.(result1) x.(is_internal) x.(write_buffer)
    x.(has_cb) x.(cb_w) n x.(prev).
Definition set_prev (x : io_work) (p : Z) : io_work :=
  mk_work x.(sqid) x.(cqid) x.(sq_entry) x.(command_id) x.(nsecs_target) x.(is_copied)
    x.(is_completed) x.(status) x.(result0) x.(result1) x.(is_internal) x.(write_buffer)
    x.(has_cb) x.(cb_w) x.(next) p.
Definition set_outcome (x : io_work) (target r0 r1 st : Z) : io_work :=
  mk_work x.(sqid) x.(cqid) x.(sq_entry) x.(command_id) target x.(is_copied)
    x.(is_completed) st r0 r1 x.(is_internal) x.(write_buffer) x.(has_cb) x.(cb_w)
    x.(next) x.(prev).
Definition set_flags (x : io_work) (copied completed : bool) : io_work :=
  mk_work x.(sqid) x.(cqid) x.(sq_entry) x.(command_id) x.(nsecs_target) copied
    completed x.(status) x.(result0) x.(result1) x.(is_internal) x.(write_buffer)
    x.(has_cb) x.(cb_w) x.(next) x.(prev).

Definition set_queue (w : io_worker) (q : Z -> io_work) : io_worker :=
  mk_worker q w.(free_seq) w.(free_seq_end) w.(io_seq) w.(io_seq_end) w.(latest_nsecs).
Definition set_free (w : io_worker) (a b : Z) : io_worker :=
  mk_worker w.(work_queue) a b w.(io_seq) w.(io_seq_end) w.(latest_nsecs).
Definition set_io (w : io_worker) (a b : Z) : io_worker :=
  mk_worker w.(work_queue) w.(free_seq) w.(free_seq_end) a b w.(latest_nsecs).
Definition set_latest (w : io_worker) (t : Z) : io_worker :=
  mk_worker w.(work_queue) w.(free_seq) w.(free_seq_end) w.(io_seq) w.(io_seq_end) t.

(** [worker->work_queue[e]], read and changed, within the allocation. *)
Definition entry_at (w : io_worker) (e : Z) : result io_work :=
  cell w.(work_queue) NR_MAX_PARALLEL_IO e.
Definition mod_entry (w : io_worker) (e : Z) (f : io_work -> io_work) : result io_worker :=
  q ← modify w.(work_queue) NR_MAX_PARALLEL_IO e (fun x => Ok (f x));
  Ok (set_queue w q).

(** ** Operations *)

(** The queue part of [NVMEV_IO_WORKER_INIT]; the entries are zeroed. *)
Definition worker_init : io_worker :=
  mk_worker (fun i => mk_work 0 0 0 0 0 false false 0 0 0 false None false None
      (if i =? NR_MAX_PARALLEL_IO - 1 then NIL else u32 (i + 1)) (u32 (i - 1)))
    0 (NR_MAX_PARALLEL_IO - 1) NIL NIL 0.

(** [__allocate_work_queue_entry] on the worker chosen: [None] is the refusal,
    the [NULL] of the source. *)
Definition __allocate_work_queue_entry (w : io_worker) : result (option Z * io_worker) :=
  let e := w.(free_seq) in
  x ← entry_at w e;
  if x.(next) >=? NR_MAX_PARALLEL_IO then Ok (None, w) else
  _ ← assert_ (negb (x.(next) >=? NR_MAX_PARALLEL_IO));
  Ok (Some e, set_free w x.(next) w.(free_seq_end)).

(** The search of [__insert_req_sorted], from the tail. *)
Fixpoint find_slot (fuel : nat) (w : io_worker) (target curr : Z) : result Z :=
  match fuel with
  | O => Err HANG
  | S fuel =>
      if curr =? NIL then Ok NIL else
      x ← entry_at w curr;
      if x.(nsecs_target) <=? w.(latest_nsecs) then Ok curr else
      if x.(nsecs_target) <=? target then Ok curr else
      find_slot fuel w target x.(prev)
  end.

(** Every entry is looked at most once. *)
Definition queue_fuel : nat := Z.to_nat (NR_MAX_PARALLEL_IO + 1).

Definition __insert_req_sorted (entry : Z) (w : io_worker) (target : Z) : result io_worker :=
  if w.(io_seq) =? NIL then Ok (set_io w entry entry) else
  curr ← find_slot queue_fuel w target w.(io_seq_end);
  if curr =? NIL then
    w ← mod_entry w w.(io_seq) (fun x => set_prev x entry);
    w ← mod_entry w entry (fun x => set_next x w.(io_seq));
    Ok (set_io w entry w.(io_seq_end))
  else
    c ← entry_at w curr;
    if c.(next) =? NIL then
      w ← mod_entry w entry (fun x => set_prev x curr);
      let w := set_io w w.(io_seq) entry in
      mod_entry w curr (fun x => set_next x entry)
    else
      w ← mod_entry w entry (fun x => set_prev x curr);
      c ← entry_at w curr;
      w ← mod_entry w entry (fun x => set_next x c.(next));
      x ← entry_at w entry;
      w ← mod_entry w x.(next) (fun x => set_prev x entry);
      mod_entry w curr (fun x => set_next x entry).

(** The three kinds of requests: a command of the host, the release of write
    buffer space, and an internal operation with a callback. *)
Definition host_request (old : io_work) (sq cq entry cid target st : Z) (cb : bool) : io_work :=
  mk_work sq cq entry cid target false false st old.(result0) old.(result1) false
    old.(write_buffer) cb old.(cb_w) NIL NIL.
Definition release_request (old : io_work) (sq target : Z) (buf : option Z) : io_work :=
  mk_work sq old.(cqid) old.(sq_entry) old.(command_id) target true false old.(status)
    old.(result0) old.(result1) true buf old.(has_cb) old.(cb_w) NIL NIL.
Definition callback_request (old : io_work) (sq target : Z) (cb : bool) (w : option Z) : io_work :=
  mk_work sq old.(cqid) old.(sq_entry) old.(command_id) target false false old.(status)
    old.(result0) old.(result1) true None cb w NIL NIL.

(** The shared body of [__enqueue_io_req] and [schedule_internal_operation]:
    [fill] writes the entry. *)
Definition enqueue (w : io_worker) (fill : io_work -> io_work) : result (option Z * io_worker) :=
  '(o, w) ← __allocate_work_queue_entry w;
  match o with
  | None => Ok (None, w)
  | Some e =>
      w ← mod_entry w e fill;
      x ← entry_at w e;
      w ← __insert_req_sorted e w x.(nsecs_target);
      Ok (Some e, w)
  end.

Definition __enqueue_io_req (w : io_worker) (sq cq entry cid target st : Z) (cb : bool) :=
  enqueue w (fun x => host_request x sq cq entry cid target st cb).
Definition schedule_internal_operation (w : io_worker) (sq target : Z) (buf : option Z) :=
  enqueue w (fun x => release_request x sq target buf).
(** The target time is the argument [ppa]; a full queue stops the machine. *)
Definition schedule_internal_operation_cb (w : io_worker) (sq ppa : Z) (cb : bool) (cbw : option Z) :=
  '(o, w) ← enqueue w (fun x => callback_request x sq ppa cb cbw);
  match o with None => Err BUG | Some e => Ok (Some e, w) end.

(** The finished and due prefix of the requests, [__reclaim_completed_reqs]'s
    loop: the last such entry. *)
Definition reclaimable (w : io_worker) (x : io_work) : bool :=
  x.(is_completed) && x.(is_copied) && (x.(nsecs_target) <=? w.(latest_nsecs)).

Fixpoint reclaim_loop (fuel : nat) (w : io_worker) (curr last_entry : Z) : result Z :=
  match fuel with
  | O => Err HANG
  | S fuel =>
      if curr =? NIL then Ok last_entry else
      x ← entry_at w curr;
      if reclaimable w x then reclaim_loop fuel w x.(next) curr else Ok last_entry
  end.

(** [__reclaim_completed_reqs] for one worker. *)
Definition reclaim (w : io_worker) : result io_worker :=
  let first_entry := w.(io_seq) in
  last_entry ← reclaim_loop queue_fuel w first_entry NIL;
  if last_entry =? NIL then Ok w else
  x ← entry_at w last_entry;
  let w := set_io w x.(next) w.(io_seq_end) in
  w ← (if x.(next) =? NIL then Ok w else mod_entry w x.(next) (fun y => set_prev y NIL));
  w ← mod_entry w last_entry (fun y => set_next y NIL);
  w ← mod_entry w first_entry (fun y => set_prev y w.(free_seq_end));
  w ← mod_entry w w.(free_seq_end) (fun y => set_next y first_entry);
  Ok (set_free w w.(free_seq) last_entry).

(** What completing an entry does: a completion for the host is written, or
    write buffer space released. *)
Variant event := Completion (e : Z) (x : io_work) | Release (size : Z).

Section worker.

(** The readings of the clock, the outcome of the callback of an entry (target
    time, result and status) and of performing a command ([None] when it is not
    a key-value command). *)
Context (clock : nat -> Z) (callback : Z -> Z * Z * Z) (perform : io_work -> option Z).

(** What the worker does with an entry it has not performed yet. *)
Definition perform_entry (w : io_worker) (e : Z) (x : io_work) : result io_worker :=
  w ← (if x.(is_internal) then
         if x.(has_cb) then
           let '(t, r, st) := callback e in
           match x.(cb_w) with
           | Some c => mod_entry w c (fun y => set_outcome y t (u32 r) (u32 r) (u32 st))
           | None => Ok w
           end
         else Ok w
       else match perform x with
         | Some r => mod_entry w e (fun y => set_outcome y y.(nsecs_target) (u32 r) (u32 r) y.(status))
         | None => Ok w
         end);
  mod_entry w e (fun y => set_flags y true y.(is_completed)).

Definition completion (e : Z) (x : io_work) : list event :=
  if x.(is_internal) then match x.(write_buffer) with Some n => [Release n] | None => [] end
  else [Completion e x].

(** The body of [nvmev_io_worker]'s loop for entry [curr]. *)
Definition visit (w : io_worker) (curr now : Z) : result (io_worker * list event) :=
  x ← entry_at w curr;
  let w := set_latest w now in
  if x.(is_completed) then Ok (w, []) else
  w ← (if x.(is_copied) then Ok w else perform_entry w curr x);
  x ← entry_at w curr;
  if x.(nsecs_target) <=? now then
    w ← mod_entry w curr (fun y => set_flags y y.(is_copied) true);
    Ok (w, completion curr x)
  else Ok (w, []).

(** One pass over the requests in flight; [k] counts the readings. *)
Fixpoint pass_loop (fuel : nat) (w : io_worker) (curr : Z) (k : nat) : result (io_worker * list event) :=
  match fuel with
  | O => Err HANG
  | S fuel =>
      if curr =? NIL then Ok (w, []) else
      '(w, ev) ← visit w curr (clock k);
      x ← entry_at w curr;
      '(w, evs) ← pass_loop fuel w x.(next) (S k);
      Ok (w, ev ++ evs)
  end.

Definition worker_pass (w : io_worker) : result (io_worker * list event) :=
  pass_loop queue_fuel w w.(io_seq) 0.

End worker.

(** ** Chains of entries *)

Definition in_queue (e : Z) : Prop := 0 <= e < NR_MAX_PARALLEL_IO.

(** Following [next] from the head of [l] visits [l] and ends in [z]. *)
Fixpoint next_chain (q : Z -> io_work) (l : list Z) (z : Z) : Prop :=
  match l with
  | [] => True
  | x :: l => (q x).(next) = hd z l /\ next_chain q l z
  end.

(** Following [prev] back from the entries of [l] ends in [p]. *)
Fixpoint prev_chain (q : Z -> io_work) (p : Z) (l : list Z) : Prop :=
  match l with
  | [] => True
  | x :: l => (q x).(prev) = p /\ prev_chain q x l
  end.

Definition last_of (p : Z) (l : list Z) : Z := List.last l p.

Lemma last_of_cons p x l : last_of p (x :: l) = last_of x l.
Proof.
  unfold last_of. revert p x. induction l as [|y l IH]; intros p x; [done|].
  change (List.last (x :: y :: l) p) with (List.last (y :: l) p).
  rewrite (IH p y). symmetry. apply IH.
Qed.

Lemma last_of_app p l l' : last_of p (l ++ l') = last_of (last_of p l) l'.
Proof.
  revert p. induction l as [|x l IH]; intros p; [done|].
  cbn [app]. by rewrite !last_of_cons.
Qed.

Lemma last_of_snoc p l x : last_of p (l ++ [x]) = x.
Proof. by rewrite last_of_app. Qed.

#[local] Arguments last_of : simpl never.

Lemma last_of_in p l : l <> [] -> last_of p l ∈ l.
Proof.
  revert p. induction l as [|x l IH]; intros p H; [done|]. rewrite last_of_cons.
  destruct l as [|y l]; [by left|]. right. by apply IH.
Qed.

Lemma next_chain_app q l l' z :
  next_chain q (l ++ l') z <-> next_chain q l (hd z l') /\ next_chain q l' z.
Proof.
  induction l as [|x l IH]; cbn; [tauto|]. rewrite IH. destruct l; cbn; tauto.
Qed.

Lemma prev_chain_app q p l l' :
  prev_chain q p (l ++ l') <-> prev_chain q p l /\ prev_chain q (last_of p l) l'.
Proof.
  revert p. induction l as [|x l IH]; intros p; cbn [app prev_chain]; [cbn; tauto|].
  rewrite IH, last_of_cons. tauto.
Qed.

Lemma next_chain_ext q q' l z :
  (forall x, x ∈ l -> (q' x).(next) = (q x).(next)) -> next_chain q l z -> next_chain q' l z.
Proof.
  induction l as [|x l IH]; cbn; [done|]. intros H [E C]. split.
  - rewrite H; [done|by left].
  - apply IH; [|done]. intros y Hy. apply H. by right.
Qed.

Lemma prev_chain_ext q q' p l :
  (forall x, x ∈ l -> (q' x).(prev) = (q x).(prev)) -> prev_chain q p l -> prev_chain q' p l.
Proof.
  revert p. induction l as [|x l IH]; intros p H; cbn; [done|]. intros [E C]. split.
  - rewrite H; [done|by left].
  - apply IH; [|done]. intros y Hy. apply H. by right.
Qed.

(** ** What a work queue stands for *)

(** The requests in flight, in order, and the free entries, in the order they
    will be used: together every entry exactly once. *)
Record represents (w : io_worker) (io free : list Z) : Prop := {
  rp_part : io ++ free ≡ₚ seqZ 0 NR_MAX_PARALLEL_IO;
  rp_next : next_chain w.(work_queue) io NIL;
  rp_prev : prev_chain w.(work_queue) NIL io;
  rp_free : next_chain w.(work_queue) free NIL;
  rp_io_seq : w.(io_seq) = hd NIL io;
  rp_io_end : io <> [] -> w.(io_seq_end) = last_of NIL io;
  rp_free_seq : free <> [] /\ w.(free_seq) = hd NIL free;
  rp_free_end : w.(free_seq_end) = last_of NIL free;
  rp_no_cb : forall e, in_queue e -> (w.(work_queue) e).(cb_w) = None
}.

Lemma NR_io : NR_MAX_PARALLEL_IO = 16384.
Proof. reflexivity. Qed.
Lemma NIL_val : NIL = 4294967295.
Proof. reflexivity. Qed.

#[local] Opaque NR_MAX_PARALLEL_IO NIL queue_fuel.

Lemma queue_fuel_val : Z.of_nat queue_fuel = 16385.
Proof. #[local] Transparent queue_fuel NR_MAX_PARALLEL_IO. reflexivity. Qed.
#[local] Opaque NR_MAX_PARALLEL_IO queue_fuel.

Lemma rp_in w io free e : represents w io free -> e ∈ io ++ free <-> in_queue e.
Proof.
  intros R. rewrite (rp_part _ _ _ R), elem_of_seqZ. unfold in_queue. lia.
Qed.

Lemma rp_in_io w io free e : represents w io free -> e ∈ io -> in_queue e.
Proof. intros R H. apply (rp_in _ _ _ _ R), elem_of_app. by left. Qed.

Lemma rp_in_free w io free e : represents w io free -> e ∈ free -> in_queue e.
Proof. intros R H. apply (rp_in _ _ _ _ R), elem_of_app. by right. Qed.

Lemma rp_nodup w io free : represents w io free -> NoDup (io ++ free).
Proof. intros R. rewrite (rp_part _ _ _ R). apply NoDup_seqZ. Qed.

Lemma rp_length w io free : represents w io free ->
  Z.of_nat (length io) + Z.of_nat (length free) = NR_MAX_PARALLEL_IO.
Proof.
  intros R. pose proof (rp_part _ _ _ R) as P. apply Permutation_length in P.
  rewrite length_app, length_seqZ in P. pose proof NR_io. lia.
Qed.

Lemma not_nil e : in_queue e -> e <> NIL.
Proof. unfold in_queue. pose proof NR_io. pose proof NIL_val. lia. Qed.

Lemma entry_ok w e : in_queue e -> entry_at w e = Ok (w.(work_queue) e).
Proof. intros H. by apply cell_in. Qed.

Lemma mod_entry_ok w e f : in_queue e ->
  mod_entry w e f = Ok (set_queue w (upd w.(work_queue) e (f (w.(work_queue) e)))).
Proof. intros H. unfold mod_entry. by rewrite modify_in. Qed.

(** Inserting [e] between two parts of a chain. *)
Lemma next_chain_insert q q' l1 l2 e z :
  NoDup (l1 ++ l2) -> next_chain q (l1 ++ l2) z ->
  (forall y, y ∈ l1 ++ l2 -> l1 = [] \/ y <> last_of NIL l1 -> (q' y).(next) = (q y).(next)) ->
  (l1 <> [] -> (q' (last_of NIL l1)).(next) = e) -> (q' e).(next) = hd z l2 ->
  next_chain q' (l1 ++ e :: l2) z.
Proof.
  intros N C S L E. apply next_chain_app in C as [C1 C2]. apply NoDup_app in N as (N1 & N2 & _).
  apply next_chain_app. cbn. split; [|split; [done|]].
  - destruct l1 as [|x l1 _] using rev_ind; [done|]. rewrite last_of_snoc in *.
    apply next_chain_app in C1 as [C1 _]. apply next_chain_app. split; [|split; [|done]].
    + eapply next_chain_ext; [|exact C1]. intros y Hy. apply S; [set_solver|]. right. intros ->.
      apply NoDup_app in N1 as (_ & N1 & _). apply (N1 x Hy). by left.
    + apply L. by destruct l1.
  - eapply next_chain_ext; [|exact C2]. intros y Hy. apply S; [set_solver|].
    destruct l1 as [|x l1 _] using rev_ind; [by left|right].
    rewrite last_of_snoc. intros ->. apply (N2 x); [set_solver|done].
Qed.

Lemma prev_chain_insert q q' p l1 l2 e :
  NoDup (l1 ++ l2) -> prev_chain q p (l1 ++ l2) ->
  (forall y, y ∈ l1 ++ l2 -> l2 = [] \/ y <> hd NIL l2 -> (q' y).(prev) = (q y).(prev)) ->
  (l2 <> [] -> (q' (hd NIL l2)).(prev) = e) -> (q' e).(prev) = last_of p l1 ->
  prev_chain q' p (l1 ++ e :: l2).
Proof.
  intros N C S L E. apply prev_chain_app in C as [C1 C2]. apply NoDup_app in N as (N1 & N2 & N3).
  apply prev_chain_app. cbn. split; [|split; [done|]].
  - eapply prev_chain_ext; [|exact C1]. intros y Hy. apply S; [set_solver|].
    destruct l2 as [|x l2]; [by left|right]. cbn. intros ->. apply (N2 x Hy). by left.
  - destruct l2 as [|x l2]; [done|]. cbn in *. destruct C2 as [_ C2]. split; [by apply L|].
    eapply prev_chain_ext; [|exact C2]. intros y Hy. apply S; [set_solver|]. right. intros ->.
    by apply NoDup_cons in N3 as [N3 _].
Qed.

(** The fields of an entry that are not links. *)
Definition body (x : io_work) : io_work := set_prev (set_next x 0) 0.

Lemma body_target x y : body x = body y -> x.(nsecs_target) = y.(nsecs_target).
Proof. intros H. by apply (f_equal nsecs_target) in H. Qed.

(** What the search from the tail finds: the last entry that is due, or whose
    target is not later than the new one. *)
Definition slot (w : io_worker) (t : Z) (l1 l2 : list Z) : Prop :=
  Forall (fun y => Z.max w.(latest_nsecs) t < (w.(work_queue) y).(nsecs_target)) l2 /\
  (l1 <> [] -> (w.(work_queue) (last_of NIL l1)).(nsecs_target) <= Z.max w.(latest_nsecs) t).

Lemma find_slot_ok fuel w t l1 l2 :
  (length l1 < fuel)%nat -> prev_chain w.(work_queue) NIL l1 -> (forall x, x ∈ l1 -> in_queue x) ->
  Forall (fun y => Z.max w.(latest_nsecs) t < (w.(work_queue) y).(nsecs_target)) l2 ->
  exists l1' l2', l1 ++ l2 = l1' ++ l2' /\ find_slot fuel w t (last_of NIL l1) = Ok (last_of NIL l1') /\
    slot w t l1' l2'.
Proof.
  revert l1 l2. induction fuel as [|fuel IH]; intros l1 l2 Hf P R F; [lia|].
  destruct l1 as [|x l1 _] using rev_ind.
  { exists [], l2. split; [done|]. split; [|done]. cbn. by rewrite Z.eqb_refl. }
  rewrite length_app in Hf. cbn in Hf. rewrite last_of_snoc. cbn [find_slot].
  assert (Hx : in_queue x) by (apply R; set_solver).
  rewrite (proj2 (Z.eqb_neq _ _) (not_nil _ Hx)), entry_ok by done. cbn [mbind result_mbind result_bind].
  assert (Found : (w.(work_queue) x).(nsecs_target) <= Z.max w.(latest_nsecs) t ->
    exists l1' l2', (l1 ++ [x]) ++ l2 = l1' ++ l2' /\ Ok x = Ok (last_of NIL l1') /\ slot w t l1' l2').
  { intros H. exists (l1 ++ [x]), l2. split; [done|]. rewrite last_of_snoc. split; [done|]. split; [done|].
    by rewrite last_of_snoc. }
  destruct (Z.leb_spec (nsecs_target (work_queue w x)) (latest_nsecs w)); [apply Found; lia|].
  destruct (Z.leb_spec (nsecs_target (work_queue w x)) t); [apply Found; lia|].
  apply prev_chain_app in P as [P1 [P2 _]]. rewrite P2.
  destruct (IH l1 (x :: l2)) as (l1' & l2' & E & Q & Sl); [lia|done|set_solver| |].
  - constructor; [lia|done].
  - exists l1', l2'. rewrite <- app_assoc. done.
Qed.

(** The requests of a queue, apart from its free list. *)
Record requests (w : io_worker) (io : list Z) : Prop := {
  rq_nodup : NoDup io;
  rq_in : forall e, e ∈ io -> in_queue e;
  rq_next : next_chain w.(work_queue) io NIL;
  rq_prev : prev_chain w.(work_queue) NIL io;
  rq_seq : w.(io_seq) = hd NIL io;
  rq_end : io <> [] -> w.(io_seq_end) = last_of NIL io
}.

Lemma rp_requests w io free : represents w io free -> requests w io.
Proof.
  intros R. split; try apply R.
  - pose proof (rp_nodup _ _ _ R) as N. by apply NoDup_app in N as (N & _).
  - intros e He. exact (rp_in_io _ _ _ _ R He).
Qed.

(** A change of the links of [e] and of requests. *)
Record relinked (w w' : io_worker) (io : list Z) (e : Z) : Prop := {
  rl_body : forall y, body (w'.(work_queue) y) = body (w.(work_queue) y);
  rl_other : forall y, y <> e -> y ∉ io -> w'.(work_queue) y = w.(work_queue) y;
  rl_free : w'.(free_seq) = w.(free_seq) /\ w'.(free_seq_end) = w.(free_seq_end);
  rl_latest : w'.(latest_nsecs) = w.(latest_nsecs)
}.

Lemma length_range (l : list Z) n :
  0 <= n -> NoDup l -> (forall i, i ∈ l -> 0 <= i < n) -> Z.of_nat (length l) <= n.
Proof.
  intros Hn N R. assert (S : l ⊆+ seqZ 0 n).
  { apply NoDup_submseteq; [done|]. intros i Hi. apply elem_of_seqZ. pose proof (R i Hi). lia. }
  apply submseteq_length in S. rewrite length_seqZ in S. lia.
Qed.

(** The chains with [e] put in are a request list again. *)
Lemma requests_insert w w' l1 l2 e :
  requests w (l1 ++ l2) -> in_queue e -> e ∉ l1 ++ l2 ->
  next_chain w'.(work_queue) (l1 ++ e :: l2) NIL -> prev_chain w'.(work_queue) NIL (l1 ++ e :: l2) ->
  w'.(io_seq) = hd e l1 -> w'.(io_seq_end) = last_of e l2 -> requests w' (l1 ++ e :: l2).
Proof.
  intros R He Hn C1 C2 S1 S2. pose proof (rq_nodup _ _ R) as N.
  assert (Pm : l1 ++ e :: l2 ≡ₚ e :: (l1 ++ l2)) by (symmetry; apply Permutation_middle).
  split; try done.
  - rewrite Pm. by constructor.
  - intros y. rewrite Pm, elem_of_cons. intros [->|Hy]; [done|by apply (rq_in _ _ R)].
  - rewrite S1. by destruct l1.
  - intros _. by rewrite S2, last_of_app, last_of_cons.
Qed.

#[local] Ltac steps :=
  repeat (rewrite ?mod_entry_ok, ?entry_ok by done;
          cbn [mbind result_mbind result_bind set_queue set_io work_queue io_seq io_seq_end]).

(** Before the head. *)
Lemma insert_head w x io e :
  requests w (x :: io) -> in_queue e -> e ∉ x :: io ->
  (w.(work_queue) e).(next) = NIL -> (w.(work_queue) e).(prev) = NIL ->
  exists w',
    (w ← mod_entry w w.(io_seq) (fun x => set_prev x e);
     w ← mod_entry w e (fun x => set_next x w.(io_seq));
     Ok (set_io w e w.(io_seq_end))) = Ok w' /\
    requests w' (e :: x :: io) /\ relinked w w' (x :: io) e.
Proof.
  intros R He Hn En Ep. rewrite (rq_seq _ _ R). cbn [hd].
  assert (Hx : in_queue x) by (apply (rq_in _ _ R); by left).
  assert (Nx : x <> e) by (intros ->; apply Hn; by left).
  pose proof (rq_nodup _ _ R) as N. apply NoDup_cons in N as [Nxi N].
  destruct (rq_next _ _ R) as [C1 C2]. destruct (rq_prev _ _ R) as [D1 D2].
  assert (Ni : forall y, y ∈ io -> y <> e /\ y <> x).
  { intros y Hy. split; intros ->; [by apply Hn; right|done]. }
  steps. eexists. split; [done|]. rewrite (rq_seq _ _ R). cbn [hd]. split.
  - apply (requests_insert w _ [] (x :: io)); try done; cbn.
    + rewrite upd_eq. split; [done|]. rewrite upd_ne, upd_eq by done. split; [done|].
      eapply next_chain_ext; [|exact C2]. intros y Hy. destruct (Ni y Hy). by rewrite !upd_ne.
    + rewrite upd_eq, upd_ne by done. split; [done|]. rewrite upd_ne, upd_eq by done. split; [done|].
      eapply prev_chain_ext; [|exact D2]. intros y Hy. destruct (Ni y Hy). by rewrite !upd_ne.
    + rewrite (rq_end _ _ R) by done. by rewrite !last_of_cons.
  - split; try done; cbn; intros y; [|intros Hy Hy2]; rewrite !upd_case; repeat case_cmp; subst; try done.
    by destruct Hy2; left.
Qed.

(** After the tail. *)
Lemma insert_tail w l c e :
  requests w (l ++ [c]) -> in_queue e -> e ∉ l ++ [c] ->
  (w.(work_queue) e).(next) = NIL -> (w.(work_queue) e).(prev) = NIL ->
  exists w',
    (w ← mod_entry w e (fun x => set_prev x c);
     let w := set_io w w.(io_seq) e in
     mod_entry w c (fun x => set_next x e)) = Ok w' /\
    requests w' ((l ++ [c]) ++ [e]) /\ relinked w w' (l ++ [c]) e.
Proof.
  intros R He Hn En Ep. assert (Hc : in_queue c) by (apply (rq_in _ _ R); set_solver).
  assert (Ni : forall y, y ∈ l ++ [c] -> y <> e) by (by intros y Hy ->).
  assert (Nc : c <> e) by (apply Ni; set_solver).
  steps. eexists. split; [done|]. split.
  - apply requests_insert with (w := w); rewrite ?app_nil_r; try done.
    + apply next_chain_insert with (q := w.(work_queue)); rewrite ?app_nil_r; try apply R; cbn.
      * intros y Hy [Hy2|Hy2]; [by destruct l|]. rewrite last_of_snoc in Hy2.
        by rewrite !upd_ne by auto.
      * intros _. rewrite last_of_snoc. by rewrite upd_eq.
      * by rewrite upd_ne, upd_eq by done.
    + apply prev_chain_insert with (q := w.(work_queue)); rewrite ?app_nil_r; try apply R; try done; cbn.
      * intros y Hy _. rewrite upd_case. case_cmp; [subst; cbn; by rewrite upd_ne|].
        by rewrite upd_ne by auto.
      * rewrite upd_ne, upd_eq by done. cbn. by rewrite last_of_snoc.
    + cbn. rewrite (rq_seq _ _ R). by destruct l.
  - split; try done; cbn; intros y; [|intros Hy Hy2]; rewrite !upd_case; repeat case_cmp; subst;
      cbn; rewrite ?upd_ne by done; try done. by destruct Hy2; set_solver.
Qed.

(** Between two requests. *)
Lemma insert_between w l c d l2 e :
  requests w ((l ++ [c]) ++ d :: l2) -> in_queue e -> e ∉ (l ++ [c]) ++ d :: l2 ->
  exists w',
    (w ← mod_entry w e (fun x => set_prev x c);
     c' ← entry_at w c;
     w ← mod_entry w e (fun x => set_next x c'.(next));
     x ← entry_at w e;
     w ← mod_entry w x.(next) (fun x => set_prev x e);
     mod_entry w c (fun x => set_next x e)) = Ok w' /\
    requests w' ((l ++ [c]) ++ e :: d :: l2) /\ relinked w w' ((l ++ [c]) ++ d :: l2) e.
Proof.
  intros R He Hn. assert (Hc : in_queue c) by (apply (rq_in _ _ R); set_solver).
  assert (Hd : in_queue d) by (apply (rq_in _ _ R); set_solver).
  assert (Ni : forall y, y ∈ (l ++ [c]) ++ d :: l2 -> y <> e) by (by intros y Hy ->).
  assert (Nc : c <> e) by (apply Ni; set_solver). assert (Nd : d <> e) by (apply Ni; set_solver).
  assert (Ncd : c <> d).
  { intros ->. pose proof (rq_nodup _ _ R) as N. apply NoDup_app in N as (_ & N & _). apply (N d); set_solver. }
  pose proof (rq_next _ _ R) as C. apply next_chain_app in C as [C _]. apply next_chain_app in C as [_ [C _]].
  cbn [hd] in C. steps. rewrite !(upd_ne _ e c) by done. rewrite C. cbn [hd]. steps.
  rewrite !upd_eq. cbn [set_next next]. steps. eexists. split; [done|]. split.
  - apply requests_insert with (w := w); try done.
    + apply next_chain_insert with (q := w.(work_queue)); try apply R; cbn.
      * intros y Hy [Hy2|Hy2]; [by destruct l|]. rewrite last_of_snoc in Hy2.
        rewrite upd_ne by done. rewrite upd_case. case_cmp; subst; cbn; rewrite !upd_ne; auto.
      * intros _. rewrite last_of_snoc. by rewrite upd_eq.
      * rewrite !upd_ne by done. by rewrite upd_eq.
    + apply prev_chain_insert with (q := w.(work_queue)); try apply R; try done; cbn.
      * intros y Hy [?|Hy2]; [done|]. rewrite upd_case. case_cmp; subst; cbn; by rewrite !upd_ne by auto.
      * intros _. by rewrite upd_ne, upd_eq by done.
      * rewrite !upd_ne by done. rewrite upd_eq. cbn. by rewrite last_of_snoc.
    + cbn. rewrite (rq_seq _ _ R). by destruct l.
    + cbn. rewrite (rq_end _ _ R) by (by destruct l). by rewrite last_of_app, !last_of_cons.
  - split; try done; cbn; intros y; [|intros Hy Hy2]; rewrite !upd_case; repeat case_cmp; subst;
      cbn; rewrite ?upd_ne, ?upd_eq by done; try done; by destruct Hy2; set_solver.
Qed.

Lemma insert_sorted_ok w io e t :
  requests w io -> in_queue e -> e ∉ io ->
  (w.(work_queue) e).(next) = NIL -> (w.(work_queue) e).(prev) = NIL ->
  exists l1 l2 w', io = l1 ++ l2 /\ slot w t l1 l2 /\ __insert_req_sorted e w t = Ok w' /\
    requests w' (l1 ++ e :: l2) /\ relinked w w' io e.
Proof.
  intros R He Hn En Ep. unfold __insert_req_sorted.
  destruct (decide (io = [])) as [->|Hio].
  { rewrite (rq_seq _ _ R). cbn. rewrite Z.eqb_refl. exists [], [], (set_io w e e).
    repeat (split; [done|]). split; [|done]. by apply requests_insert with (w := w). }
  assert (H0 : in_queue (hd NIL io)) by (apply (rq_in _ _ R); destruct io; [done|by left]).
  rewrite (rq_seq _ _ R), (rq_end _ _ R), (proj2 (Z.eqb_neq _ _) (not_nil _ H0)) by done.
  destruct (find_slot_ok queue_fuel w t io []) as (l1 & l2 & E & -> & Sl); try apply R; try done.
  { pose proof queue_fuel_val. pose proof NR_io. assert (Z.of_nat (length io) <= NR_MAX_PARALLEL_IO); [|lia].
    apply length_range; [lia|apply R|apply R]. }
  rewrite app_nil_r in E. cbn [mbind result_mbind result_bind]. exists l1, l2. subst io.
  destruct l1 as [|c l1 _] using rev_ind.
  - cbn in *. rewrite Z.eqb_refl. destruct l2 as [|x l2]; [done|].
    destruct (insert_head w x l2 e R He Hn En Ep) as (w' & E & R' & L').
    rewrite (rq_seq _ _ R) in E. exists w'. done.
  - assert (Hc : in_queue c) by (apply (rq_in _ _ R); set_solver).
    pose proof (rq_next _ _ R) as C. apply next_chain_app in C as [C _]. apply next_chain_app in C as [_ [C _]].
    rewrite last_of_snoc.
    rewrite (proj2 (Z.eqb_neq _ _) (not_nil _ Hc)), entry_ok by done.
    cbn [mbind result_mbind result_bind]. cbn [hd] in C. rewrite C. destruct l2 as [|d l2].
    + cbn [hd]. rewrite Z.eqb_refl, app_nil_r in *.
      destruct (insert_tail w l1 c e R He Hn En Ep) as (w' & E & R' & L'). exists w'. done.
    + assert (Hd : in_queue d) by (apply (rq_in _ _ R); set_solver).
      cbn [hd]. rewrite (proj2 (Z.eqb_neq _ _) (not_nil _ Hd)).
      destruct (insert_between w l1 c d l2 e R He Hn) as (w' & E & R' & L'). exists w'. done.
Qed.

(** ** Enqueueing *)

Lemma requests_ext w w' io :
  (forall y, y ∈ io -> w'.(work_queue) y = w.(work_queue) y) ->
  w'.(io_seq) = w.(io_seq) -> w'.(io_seq_end) = w.(io_seq_end) -> requests w io -> requests w' io.
Proof.
  intros S E1 E2 R. split; try apply R.
  - eapply next_chain_ext; [|apply R]. intros y Hy. by rewrite S.
  - eapply prev_chain_ext; [|apply R]. intros y Hy. by rewrite S.
  - by rewrite E1, (rq_seq _ _ R).
  - intros H. by rewrite E2, (rq_end _ _ R).
Qed.

Lemma slot_ext w w' t l1 l2 :
  (forall y, y ∈ l1 ++ l2 -> (w'.(work_queue) y).(nsecs_target) = (w.(work_queue) y).(nsecs_target)) ->
  w'.(latest_nsecs) = w.(latest_nsecs) -> slot w' t l1 l2 -> slot w t l1 l2.
Proof.
  intros S E [F L]. unfold slot. rewrite <- E. split.
  - rewrite Forall_forall in F |- *. intros y Hy. rewrite <- S by set_solver. by apply F.
  - intros H. rewrite <- S; [by apply L|]. apply elem_of_app. left. by apply last_of_in.
Qed.

(** What filling an entry must do with its links and callback. *)
Definition fills (fill : io_work -> io_work) : Prop :=
  forall x, (fill x).(next) = NIL /\ (fill x).(prev) = NIL /\ (x.(cb_w) = None -> (fill x).(cb_w) = None).

(** A new request [e] takes its place among the requests. *)
Record enqueued (w w' : io_worker) (fill : io_work -> io_work) (io free : list Z) (e : Z) (l1 l2 : list Z) : Prop := {
  eq_io : io = l1 ++ l2;
  eq_slot : slot w (fill (w.(work_queue) e)).(nsecs_target) l1 l2;
  eq_rep : represents w' (l1 ++ e :: l2) free;
  eq_entry : body (w'.(work_queue) e) = body (fill (w.(work_queue) e));
  eq_others : forall y, y <> e -> body (w'.(work_queue) y) = body (w.(work_queue) y);
  eq_latest : w'.(latest_nsecs) = w.(latest_nsecs)
}.

Lemma enqueue_ok w io e free fill :
  represents w io (e :: free) -> fills fill ->
  match free with
  | [] => enqueue w fill = Ok (None, w)
  | _ :: _ => exists l1 l2 w', enqueue w fill = Ok (Some e, w') /\ enqueued w w' fill io free e l1 l2
  end.
Proof.
  intros R Fl. unfold enqueue, __allocate_work_queue_entry.
  destruct (rp_free_seq _ _ _ R) as [_ Fs]. rewrite Fs. cbn [hd].
  assert (He : in_queue e) by (apply (rp_in_free _ _ _ _ R); by left).
  rewrite entry_ok by done. cbn [mbind result_mbind result_bind].
  destruct (rp_free _ _ _ R) as [C1 C2]. rewrite C1. pose proof NR_io. pose proof NIL_val.
  pose proof (rp_nodup _ _ _ R) as N. apply NoDup_app in N as (_ & N1 & N2).
  apply NoDup_cons in N2 as [N2 N3]. destruct free as [|e2 free].
  { cbn [hd]. by rewrite (proj2 (Z.geb_le _ _)) by lia. }
  assert (He2 : in_queue e2) by (apply (rp_in_free _ _ _ _ R); right; by left).
  cbn [hd]. rewrite Z.geb_leb, (proj2 (Z.leb_gt _ _)) by (unfold in_queue in He2; lia).
  cbn [negb assert_ mbind result_mbind result_bind].
  rewrite mod_entry_ok by done. cbn [mbind result_mbind result_bind].
  rewrite entry_ok by done. cbn [mbind result_mbind result_bind work_queue set_queue set_free].
  rewrite upd_eq. set (x := fill _). set (w1 := set_queue _ _).
  assert (Hio : e ∉ io) by (intros X; apply (N1 e X); by left).
  assert (S1 : forall y, y <> e -> w1.(work_queue) y = w.(work_queue) y) by (intros y Hy; cbn; by rewrite upd_ne).
  assert (R1 : requests w1 io).
  { apply requests_ext with (w := w); [|done|done|by apply rp_requests with (e :: e2 :: free)].
    intros y Hy. apply S1. by intros ->. }
  destruct (Fl (w.(work_queue) e)) as (F1 & F2 & F3). fold x in F1, F2, F3.
  assert (E1 : w1.(work_queue) e = x) by (cbn; by rewrite upd_eq).
  destruct (insert_sorted_ok w1 io e x.(nsecs_target) R1 He Hio) as (l1 & l2 & w' & Eio & Sl & -> & R' & L);
    [by rewrite E1|by rewrite E1|].
  cbn [mbind result_mbind result_bind]. exists l1, l2, w'. split; [done|].
  destruct L as [Lb Lo [Lf1 Lf2] Ll].
  assert (Pm : l1 ++ e :: l2 ≡ₚ e :: io) by (rewrite Eio; symmetry; apply Permutation_middle).
  split; try done.
  - apply slot_ext with (w' := w1); try done. rewrite <- Eio.
    intros y Hy. rewrite S1; [done|]. by intros ->.
  - split; try apply R'.
    + rewrite Pm, <- (rp_part _ _ _ R). apply (Permutation_middle io).
    + eapply next_chain_ext; [|exact C2]. intros y Hy. rewrite Lo, S1; [done| | |].
      * by intros ->.
      * by intros ->.
      * intros X. apply (N1 y X). by right.
    + split; [done|]. by rewrite Lf1.
    + rewrite Lf2. cbn. rewrite (rp_free_end _ _ _ R). by rewrite !last_of_cons.
    + intros y Hy. pose proof (f_equal cb_w (Lb y)) as X. cbn in X. rewrite X. clear X.
      change (cb_w (work_queue w1 y) = None). destruct (decide (y = e)) as [->|Hne].
      * rewrite E1. apply F3. by apply (rp_no_cb _ _ _ R).
      * rewrite S1 by done. by apply (rp_no_cb _ _ _ R).
  - by rewrite Lb, E1.
  - intros y Hy. by rewrite Lb, S1.
Qed.

(** ** Reclaiming *)

Lemma reclaim_loop_ok fuel w io last :
  (length io < fuel)%nat -> next_chain w.(work_queue) io NIL -> (forall e, e ∈ io -> in_queue e) ->
  exists l1 l2, io = l1 ++ l2 /\ Forall (fun e => reclaimable w (w.(work_queue) e) = true) l1 /\
    (forall e l, l2 = e :: l -> reclaimable w (w.(work_queue) e) = false) /\
    reclaim_loop fuel w (hd NIL io) last = Ok (last_of last l1).
Proof.
  revert io last. induction fuel as [|fuel IH]; intros io last Hf C R; [lia|].
  destruct io as [|e io]; cbn [reclaim_loop hd].
  { rewrite Z.eqb_refl. by exists [], []. }
  assert (He : in_queue e) by (apply R; by left).
  rewrite (proj2 (Z.eqb_neq _ _) (not_nil _ He)), entry_ok by done.
  cbn [mbind result_mbind result_bind]. destruct C as [C1 C2].
  destruct (reclaimable w (work_queue w e)) eqn:Er.
  - rewrite C1. destruct (IH io e) as (l1 & l2 & -> & F & H & Q); [cbn in Hf; lia|done| |].
    + intros y Hy. apply R. by right.
    + exists (e :: l1), l2. split; [done|]. split; [by constructor|]. split; [done|].
      by rewrite last_of_cons.
  - exists [], (e :: io). split; [done|]. split; [done|]. split; [|done]. by intros ? ? [= <- <-].
Qed.

(** The links after a reclaim that gives back [f ... c]. *)
Record relinks (w w' : io_worker) (f c fe : Z) (l2 : list Z) : Prop := {
  rk_next : forall y, (w'.(work_queue) y).(next) =
    if y =? fe then f else if y =? c then NIL else (w.(work_queue) y).(next);
  rk_prev : forall y, (w'.(work_queue) y).(prev) =
    if y =? f then fe else if bool_decide (l2 <> [] /\ y = hd NIL l2) then NIL
    else (w.(work_queue) y).(prev);
  rk_body : forall y, body (w'.(work_queue) y) = body (w.(work_queue) y);
  rk_io : w'.(io_seq) = hd NIL l2 /\ w'.(io_seq_end) = w.(io_seq_end);
  rk_free : w'.(free_seq) = w.(free_seq) /\ w'.(free_seq_end) = c;
  rk_latest : w'.(latest_nsecs) = w.(latest_nsecs)
}.

#[local] Ltac steps2 :=
  repeat (rewrite ?mod_entry_ok, ?entry_ok by done;
          cbn [mbind result_mbind result_bind set_queue set_io set_free work_queue io_seq io_seq_end
               free_seq free_seq_end]).

Lemma reclaim_links w f c l2 :
  in_queue f -> in_queue c -> in_queue w.(free_seq_end) ->
  (forall y, y ∈ l2 -> in_queue y /\ y <> c /\ y <> w.(free_seq_end)) ->
  f <> w.(free_seq_end) -> c <> w.(free_seq_end) ->
  w.(io_seq) = f -> (w.(work_queue) c).(next) = hd NIL l2 ->
  reclaim_loop queue_fuel w f NIL = Ok c ->
  exists w', reclaim w = Ok w' /\ relinks w w' f c w.(free_seq_end) l2.
Proof.
  intros Hf Hc Hfe Hl Nf Ncf Es Ec E. unfold reclaim. rewrite Es, E. cbn [mbind result_mbind result_bind].
  rewrite (proj2 (Z.eqb_neq _ _) (not_nil _ Hc)), entry_ok by done. cbn [mbind result_mbind result_bind].
  rewrite Ec. destruct l2 as [|d l2].
  - cbn [hd]. rewrite Z.eqb_refl. steps2. eexists. split; [done|].
    split; try done; cbn; intros y; rewrite !upd_case; repeat case_cmp; subst; cbn;
      rewrite ?upd_eq, ?upd_ne by done; try done; repeat case_cmp; done.
  - destruct (Hl d) as (Hd & Ndc & Ndf); [by left|]. cbn [hd].
    rewrite (proj2 (Z.eqb_neq _ _) (not_nil _ Hd)). steps2. eexists. split; [done|].
    split; try done; cbn; intros y; rewrite !upd_case; repeat case_cmp; subst; cbn;
      rewrite ?upd_eq, ?upd_ne by done; try done;
      rewrite ?bool_decide_true, ?bool_decide_false by (intuition congruence); done.
Qed.

(** The longest prefix of finished and due requests is given back. *)
Record reclaimed (w w' : io_worker) (io free l1 l2 : list Z) : Prop := {
  rc_io : io = l1 ++ l2;
  rc_done : Forall (fun e => reclaimable w (w.(work_queue) e) = true) l1;
  rc_stop : forall e l, l2 = e :: l -> reclaimable w (w.(work_queue) e) = false;
  rc_rep : represents w' l2 (free ++ l1);
  rc_body : forall y, body (w'.(work_queue) y) = body (w.(work_queue) y);
  rc_latest : w'.(latest_nsecs) = w.(latest_nsecs)
}.

(** The chains after the links changed. *)
Lemma relinks_represents w w' free l1 l2 :
  represents w (l1 ++ l2) free -> l1 <> [] ->
  relinks w w' (hd NIL l1) (last_of NIL l1) w.(free_seq_end) l2 -> represents w' l2 (free ++ l1).
Proof.
  intros R H1 [Kn Kp Kb [Ki1 Ki2] [Kf1 Kf2] _]. pose proof (rp_nodup _ _ _ R) as N.
  apply NoDup_app in N as (Nio & N2 & Nf). apply NoDup_app in Nio as (N1 & N12 & Nl2).
  assert (D1 : forall y, y ∈ l1 -> y ∉ free) by (intros y Hy; apply N2, elem_of_app; by left).
  assert (D2 : forall y, y ∈ l2 -> y ∉ free) by (intros y Hy; apply N2, elem_of_app; by right).
  clear N2. pose proof (rp_free_end _ _ _ R) as Fe. destruct (rp_free_seq _ _ _ R) as [Hf Fs]. rewrite Fe in *.
  assert (Ife : last_of NIL free ∈ free) by by apply last_of_in.
  assert (Il1 : last_of NIL l1 ∈ l1) by by apply last_of_in.
  assert (Il2 : hd NIL l1 ∈ l1) by (destruct l1; [done|by left]).
  pose proof (rp_next _ _ _ R) as C. apply next_chain_app in C as [C1 C2].
  pose proof (rp_prev _ _ _ R) as P. apply prev_chain_app in P as [_ P2]. split.
  - rewrite <- (rp_part _ _ _ R), (Permutation_app_comm free l1), app_assoc.
    by rewrite (Permutation_app_comm l2 l1).
  - eapply next_chain_ext; [|exact C2]. intros y Hy. rewrite Kn.
    repeat case_cmp; [subst; exfalso|subst; exfalso|done].
    + by apply (D2 (last_of NIL free)).
    + by apply (N12 (last_of NIL l1)).
  - destruct l2 as [|d l2]; [done|]. cbn in *. destruct P2 as [_ P2]. split.
    + rewrite Kp, bool_decide_true by (split; done). destruct (Z.eqb_spec d (hd NIL l1)) as [E|]; [|done]. exfalso.
      apply (N12 (hd NIL l1)); [done|]. rewrite <- E. by left.
    + eapply prev_chain_ext; [|exact P2]. intros y Hy. apply NoDup_cons in Nl2 as [Nl2 _].
      rewrite Kp, bool_decide_false by (intros [_ ->]; done). destruct (Z.eqb_spec y (hd NIL l1)) as [E|]; [|done]. exfalso.
      apply (N12 (hd NIL l1)); [done|]. rewrite <- E. by right.
  - apply next_chain_app. split.
    + pose proof (rp_free _ _ _ R) as F. destruct free as [|fe free _] using rev_ind; [done|].
      rewrite last_of_snoc in *. apply next_chain_app in F as [F _]. apply next_chain_app.
      split; [|split; [|done]].
      * eapply next_chain_ext; [|exact F]. intros y Hy. rewrite Kn. apply NoDup_app in Nf as (_ & Nf & _).
        repeat case_cmp; [subst; exfalso|subst; exfalso|done].
        -- apply (Nf _ Hy). by left.
        -- apply (D1 (last_of NIL l1) Il1), elem_of_app. by left.
      * rewrite Kn, Z.eqb_refl. by destruct l1.
    + destruct l1 as [|c l1 _] using rev_ind; [done|]. rewrite last_of_snoc in *.
      apply next_chain_app in C1 as [C1 _]. apply next_chain_app.
      split; [|split; [|done]].
      * eapply next_chain_ext; [|exact C1]. intros y Hy. rewrite Kn. apply NoDup_app in N1 as (_ & N1 & _).
        repeat case_cmp; [subst; exfalso|subst; exfalso|done].
        -- apply (D1 (last_of NIL free)); [|done]. apply elem_of_app. by left.
        -- apply (N1 _ Hy). by left.
      * rewrite Kn, Z.eqb_refl. destruct (Z.eqb_spec c (last_of NIL free)) as [X|]; [|done].
        exfalso. apply (D1 c Il1). by rewrite X.
  - done.
  - intros H2. rewrite Ki2, (rp_io_end _ _ _ R) by (by destruct l1). rewrite last_of_app.
    destruct l2; [done|]. by rewrite !last_of_cons.
  - split; [by destruct free|]. rewrite Kf1, Fs. by destruct free.
  - rewrite Kf2, last_of_app. destruct l1; [done|]. by rewrite !last_of_cons.
  - intros e He. pose proof (f_equal cb_w (Kb e)) as X. cbn in X. rewrite X. by apply (rp_no_cb _ _ _ R).
Qed.

Lemma reclaim_ok w io free :
  represents w io free ->
  exists l1 l2 w', reclaim w = Ok w' /\ reclaimed w w' io free l1 l2.
Proof.
  intros R. pose proof (rp_requests _ _ _ R) as Q.
  destruct (reclaim_loop_ok queue_fuel w io NIL) as (l1 & l2 & E & F & St & L); try apply Q.
  { pose proof queue_fuel_val. pose proof NR_io. assert (Z.of_nat (length io) <= NR_MAX_PARALLEL_IO); [|lia].
    apply length_range; [lia|apply Q|apply Q]. }
  exists l1, l2. destruct (decide (l1 = [])) as [->|H1].
  { exists w. unfold reclaim. rewrite (rp_io_seq _ _ _ R), L. cbn. rewrite Z.eqb_refl. split; [done|].
    cbn in E. subst. split; try done. by rewrite app_nil_r. }
  subst io. pose proof (rp_nodup _ _ _ R) as N. apply NoDup_app in N as (Nio & N2 & _).
  apply NoDup_app in Nio as (_ & N12 & _).
  assert (Il : last_of NIL l1 ∈ l1) by by apply last_of_in.
  assert (Ih : hd NIL l1 ∈ l1) by (destruct l1; [done|by left]).
  destruct (rp_free_seq _ _ _ R) as [Hf _].
  assert (If : last_of NIL free ∈ free) by by apply last_of_in.
  assert (In : forall e, e ∈ (l1 ++ l2) ++ free -> in_queue e) by (intros e; apply (rp_in _ _ _ e R)).
  assert (Hh : hd NIL (l1 ++ l2) = hd NIL l1) by by destruct l1.
  destruct (reclaim_links w (hd NIL l1) (last_of NIL l1) l2) as (w' & Ew & K).
  all: try (rewrite (rp_free_end _ _ _ R)).
  - apply In. set_solver.
  - apply In. set_solver.
  - apply In. set_solver.
  - intros y Hy. split; [apply In; set_solver|]. split; intros ->.
    + by apply (N12 (last_of NIL l1)).
    + apply (N2 (last_of NIL free)); set_solver.
  - intros X. apply (N2 (hd NIL l1)); [set_solver|by rewrite X].
  - intros X. apply (N2 (last_of NIL l1)); [set_solver|by rewrite X].
  - by rewrite (rp_io_seq _ _ _ R).
  - pose proof (rq_next _ _ Q) as C. apply next_chain_app in C as [C _].
    destruct l1 as [|c l1 _] using rev_ind; [done|]. rewrite last_of_snoc.
    apply next_chain_app in C as [_ [C _]]. exact C.
  - by rewrite <- Hh.
  - exists w'. split; [done|]. split; try done; try apply K.
    by apply relinks_represents with (w := w).
Qed.

(** ** The worker's pass *)

Lemma represents_ext w w' io free :
  (forall y, (w'.(work_queue) y).(next) = (w.(work_queue) y).(next) /\
     (w'.(work_queue) y).(prev) = (w.(work_queue) y).(prev) /\
     (w'.(work_queue) y).(cb_w) = (w.(work_queue) y).(cb_w)) ->
  (w'.(free_seq), w'.(free_seq_end), w'.(io_seq), w'.(io_seq_end)) =
    (w.(free_seq), w.(free_seq_end), w.(io_seq), w.(io_seq_end)) ->
  represents w io free -> represents w' io free.
Proof.
  intros S [= E1 E2 E3 E4] R. split; rewrite ?E1, ?E2, ?E3, ?E4; try apply R.
  - eapply next_chain_ext; [|apply R]. intros y _. apply S.
  - eapply prev_chain_ext; [|apply R]. intros y _. apply S.
  - eapply next_chain_ext; [|apply R]. intros y _. apply S.
  - intros e He. destruct (S e) as (_ & _ & ->). by apply (rp_no_cb _ _ _ R).
Qed.

Section pass.
Context (clock : nat -> Z) (callback : Z -> Z * Z * Z) (perform : io_work -> option Z).

(** An entry once it was performed, and once it was visited at time [now]. *)
Definition performed (x : io_work) : io_work :=
  if x.(is_copied) then x else
  set_flags (if x.(is_internal) then x else
    match perform x with
    | Some r => set_outcome x x.(nsecs_target) (u32 r) (u32 r) x.(status)
    | None => x
    end) true x.(is_completed).

Definition visited (now : Z) (x : io_work) : io_work :=
  if x.(is_completed) then x else
  if x.(nsecs_target) <=? now then set_flags (performed x) true true else performed x.

Definition events (now e : Z) (x : io_work) : list event :=
  if x.(is_completed) then [] else
  if x.(nsecs_target) <=? now then completion e (performed x) else [].

Lemma performed_links x :
  (performed x).(next) = x.(next) /\ (performed x).(prev) = x.(prev) /\
  (performed x).(cb_w) = x.(cb_w) /\ (performed x).(nsecs_target) = x.(nsecs_target) /\
  (performed x).(is_copied) = true.
Proof. unfold performed. destruct (is_copied x) eqn:E; [done|]. destruct (is_internal x), (perform x); done. Qed.

Lemma visited_links now x :
  (visited now x).(next) = x.(next) /\ (visited now x).(prev) = x.(prev) /\
  (visited now x).(cb_w) = x.(cb_w) /\ (visited now x).(nsecs_target) = x.(nsecs_target).
Proof.
  destruct (performed_links x) as (A & B & C & D & _). unfold visited.
  destruct (is_completed x); [done|]. destruct (_ <=? _); done.
Qed.

Lemma perform_entry_ok w e : in_queue e -> (w.(work_queue) e).(cb_w) = None ->
  (w.(work_queue) e).(is_copied) = false ->
  exists w', perform_entry callback perform w e (w.(work_queue) e) = Ok w' /\
    w'.(work_queue) e = performed (w.(work_queue) e) /\
    (forall y, y <> e -> w'.(work_queue) y = w.(work_queue) y) /\ w' = set_queue w w'.(work_queue).
Proof.
  intros He Hc Hn. unfold perform_entry, performed. rewrite Hc, Hn. set (x := work_queue w e).
  assert (Fin : forall w1, w1 = set_queue w w1.(work_queue) ->
    (forall y, y <> e -> w1.(work_queue) y = w.(work_queue) y) ->
    exists w', mod_entry w1 e (fun y => set_flags y true y.(is_completed)) = Ok w' /\
      w'.(work_queue) e = set_flags (w1.(work_queue) e) true (w1.(work_queue) e).(is_completed) /\
      (forall y, y <> e -> w'.(work_queue) y = w.(work_queue) y) /\ w' = set_queue w w'.(work_queue)).
  { intros w1 E1 O1. rewrite mod_entry_ok by done. eexists. split; [done|]. cbn. rewrite upd_eq.
    split; [done|]. split; [|by rewrite E1]. intros y Hy. rewrite upd_ne by done. by apply O1. }
  assert (Same : exists w', (w0 ← Ok w; mod_entry w0 e (fun y => set_flags y true y.(is_completed))) = Ok w' /\
      w'.(work_queue) e = set_flags x true x.(is_completed) /\
      (forall y, y <> e -> w'.(work_queue) y = w.(work_queue) y) /\ w' = set_queue w w'.(work_queue)).
  { cbn [mbind result_mbind result_bind]. apply (Fin w); [by destruct w|done]. }
  destruct (is_internal x); [destruct (has_cb x); [destruct (callback e) as [[? ?] ?]|]; exact Same|].
  destruct (perform x) as [r|]; [|exact Same].
  rewrite mod_entry_ok by done. cbn [mbind result_mbind result_bind].
  destruct (Fin (set_queue w (upd w.(work_queue) e (set_outcome x x.(nsecs_target) (u32 r) (u32 r) x.(status)))))
    as (w' & E & Q & O); [done|intros y Hy; by apply upd_ne|].
  exists w'. split; [exact E|]. split; [|done]. rewrite Q. cbn. by rewrite upd_eq.
Qed.

(** A visit changes only the entry visited, and the time last seen. *)
Record visit_result (w w' : io_worker) (e now : Z) : Prop := {
  vr_entry : w'.(work_queue) e = visited now (w.(work_queue) e);
  vr_others : forall y, y <> e -> w'.(work_queue) y = w.(work_queue) y;
  vr_rest : w' = set_latest (set_queue w w'.(work_queue)) now
}.

Lemma visit_ok w e now : in_queue e -> (w.(work_queue) e).(cb_w) = None ->
  exists w', visit callback perform w e now = Ok (w', events now e (w.(work_queue) e)) /\
    visit_result w w' e now.
Proof.
  intros He Hc. unfold visit. rewrite entry_ok by done. cbn [mbind result_mbind result_bind].
  set (x := work_queue w e) in *. unfold events. set (w0 := set_latest w now).
  destruct (is_completed x) eqn:Ec.
  { exists w0. split; [done|]. split; try done. unfold visited. fold x. by rewrite Ec. }
  assert (P : exists w1, (if is_copied x then Ok w0 else perform_entry callback perform w0 e x) = Ok w1 /\
    w1.(work_queue) e = performed x /\ (forall y, y <> e -> w1.(work_queue) y = w.(work_queue) y) /\
    w1 = set_queue w0 w1.(work_queue)).
  { destruct (is_copied x) eqn:Ep.
    - exists w0. unfold performed. rewrite Ep. done.
    - by apply (perform_entry_ok w0 e). }
  destruct P as (w1 & -> & E1 & O1 & S1). cbn [mbind result_mbind result_bind].
  rewrite entry_ok by done. cbn [mbind result_mbind result_bind]. rewrite E1.
  destruct (performed_links x) as (_ & _ & _ & -> & Cp).
  destruct (Z.leb_spec (nsecs_target x) now) as [L|L].
  - rewrite mod_entry_ok by done. eexists. split; [done|]. split.
    + cbn. rewrite upd_eq, E1. unfold visited. fold x. rewrite Ec, (proj2 (Z.leb_le _ _) L). by rewrite Cp.
    + intros y Hy. cbn. rewrite upd_ne by done. by apply O1.
    + by rewrite S1.
  - exists w1. split; [done|]. split; [|done|by rewrite S1 at 1].
    rewrite E1. unfold visited. fold x. by rewrite Ec, (proj2 (Z.leb_gt _ _) L).
Qed.

Lemma visit_represents w w' io free e now :
  represents w io free -> in_queue e -> visit_result w w' e now -> represents w' io free.
Proof.
  intros R He [E O S]. eapply represents_ext; [| |exact R].
  - intros y. destruct (decide (y = e)) as [->|Hy]; [|by rewrite O].
    rewrite E. by destruct (visited_links now (w.(work_queue) e)) as (? & ? & ? & _).
  - by rewrite S.
Qed.

(** The events of a pass over [l] whose [i]-th visit is at reading [k + i]. *)
Fixpoint pass_events (q : Z -> io_work) (k : nat) (l : list Z) : list event :=
  match l with [] => [] | e :: l => events (clock k) e (q e) ++ pass_events q (S k) l end.

Lemma pass_events_ext q q' k l : (forall e, e ∈ l -> q' e = q e) -> pass_events q' k l = pass_events q k l.
Proof.
  revert k. induction l as [|e l IH]; intros k H; [done|]. cbn. rewrite (H e) by (by left).
  rewrite IH; [done|]. intros y Hy. apply H. by right.
Qed.

Record passed (w w' : io_worker) (k : nat) (l : list Z) : Prop := {
  ps_visited : forall i e, l !! i = Some e -> w'.(work_queue) e = visited (clock (k + i)) (w.(work_queue) e);
  ps_others : forall e, e ∉ l -> w'.(work_queue) e = w.(work_queue) e;
  ps_latest : w'.(latest_nsecs) = match l with [] => w.(latest_nsecs) | _ => clock (k + length l - 1) end
}.

Lemma pass_loop_ok fuel w io free l k :
  (length l < fuel)%nat -> represents w io free -> NoDup l -> (forall e, e ∈ l -> e ∈ io) ->
  next_chain w.(work_queue) l NIL ->
  exists w', pass_loop clock callback perform fuel w (hd NIL l) k = Ok (w', pass_events w.(work_queue) k l) /\
    represents w' io free /\ passed w w' k l.
Proof.
  revert w l k. induction fuel as [|fuel IH]; intros w l k Hf R N In C; [lia|]. cbn [pass_loop].
  destruct l as [|e l]; cbn [hd].
  { rewrite Z.eqb_refl. exists w. split; [done|]. split; [done|]. by split. }
  assert (He : in_queue e) by (apply (rp_in_io _ _ _ e R), In; by left).
  rewrite (proj2 (Z.eqb_neq _ _) (not_nil _ He)). destruct C as [C1 C2]. apply NoDup_cons in N as [Ne N].
  destruct (visit_ok w e (clock k) He) as (w1 & -> & V); [by apply (rp_no_cb _ _ _ R)|].
  cbn [mbind result_mbind result_bind]. rewrite entry_ok by done. cbn [mbind result_mbind result_bind].
  pose proof (visit_represents _ _ _ _ _ _ R He V) as R1. destruct V as [V1 V2 V3].
  destruct (visited_links (clock k) (work_queue w e)) as (L1 & _). rewrite V1, L1, C1.
  assert (S1 : forall y, y ∈ l -> w1.(work_queue) y = w.(work_queue) y) by (intros y Hy; apply V2; by intros ->).
  destruct (IH w1 l (S k)) as (w' & -> & R' & P); [cbn in Hf; lia|done|done| | |].
  - intros y Hy. apply In. by right.
  - eapply next_chain_ext; [|exact C2]. intros y Hy. by rewrite S1.
  - cbn [mbind result_mbind result_bind]. exists w'. cbn [pass_events].
    rewrite (pass_events_ext _ _ _ _ S1). split; [done|]. split; [done|]. destruct P as [P1 P2 P3]. split.
    + intros [|i] y Hy; cbn in Hy.
      * injection Hy as <-. rewrite P2, V1, Nat.add_0_r by done. done.
      * rewrite (P1 i y Hy), S1 by (by eapply list_elem_of_lookup_2). do 2 f_equal. lia.
    + intros y Hy. rewrite not_elem_of_cons in Hy. rewrite P2, V2 by tauto. done.
    + rewrite P3. destruct l; cbn.
      * rewrite V3. cbn. f_equal. lia.
      * f_equal. lia.
Qed.

End pass.

(** ** Order *)

(** The time from which a request is out of order with another one: all that is
    due counts as equal. *)
Definition due_time (w : io_worker) (e : Z) : Z :=
  Z.max w.(latest_nsecs) (w.(work_queue) e).(nsecs_target).

Definition in_order (w : io_worker) (io : list Z) : Prop :=
  StronglySorted (fun a b => due_time w a <= due_time w b) io.

Lemma in_order_ext w w' io :
  (forall e, e ∈ io -> (w'.(work_queue) e).(nsecs_target) = (w.(work_queue) e).(nsecs_target)) ->
  w.(latest_nsecs) <= w'.(latest_nsecs) -> in_order w io -> in_order w' io.
Proof.
  intros S L. unfold in_order. induction 1 as [|a l H IH F]; constructor.
  - apply IH. intros e He. apply S. by right.
  - rewrite Forall_forall in F |- *. intros b Hb. specialize (F b Hb).
    unfold due_time in *. rewrite (S a) by (by left). rewrite (S b) by (by right). lia.
Qed.

Lemma in_order_app w l1 l2 :
  in_order w (l1 ++ l2) <-> in_order w l1 /\ in_order w l2 /\
    forall a b, a ∈ l1 -> b ∈ l2 -> due_time w a <= due_time w b.
Proof.
  unfold in_order. induction l1 as [|x l1 IH]; cbn [app].
  { split; [|tauto]. intros H. split; [constructor|]. split; [done|]. intros a b Ha. by apply elem_of_nil in Ha. }
  split.
  - intros H. apply StronglySorted_inv in H as [H F]. apply IH in H as (H1 & H2 & H3).
    rewrite Forall_forall in F. split; [|split; [done|]].
    + constructor; [done|]. apply Forall_forall. intros y Hy. apply F, elem_of_app. by left.
    + intros a b Ha Hb. apply elem_of_cons in Ha as [->|Ha]; [|by apply H3].
      apply F, elem_of_app. by right.
  - intros (H1 & H2 & H3). apply StronglySorted_inv in H1 as [H1 F]. constructor.
    + apply IH. split; [done|]. split; [done|]. intros a b Ha. apply H3. by right.
    + rewrite Forall_forall in F |- *. intros y Hy. apply elem_of_app in Hy as [Hy|Hy]; [by apply F|].
      apply H3; [by left|done].
Qed.

Lemma in_order_last w l a : in_order w l -> a ∈ l -> due_time w a <= due_time w (last_of NIL l).
Proof.
  intros H Ha. destruct l as [|c l _] using rev_ind; [by apply elem_of_nil in Ha|].
  rewrite last_of_snoc. apply in_order_app in H as (_ & _ & H). apply elem_of_app in Ha as [Ha|Ha].
  - apply H; [done|by left].
  - apply list_elem_of_singleton in Ha. by subst.
Qed.

Lemma enqueued_in_order w w' fill io free e l1 l2 :
  e ∉ io -> in_order w io -> enqueued w w' fill io free e l1 l2 -> in_order w' (l1 ++ e :: l2).
Proof.
  intros Hn H [-> [F L] _ Te To Tl].
  assert (S : forall y, y ∈ l1 ++ l2 -> due_time w' y = due_time w y).
  { intros y Hy. unfold due_time. rewrite Tl. f_equal. apply body_target, To. by intros ->. }
  assert (Ee : due_time w' e = Z.max w.(latest_nsecs) (fill (w.(work_queue) e)).(nsecs_target)).
  { unfold due_time. rewrite Tl. f_equal. by apply body_target. }
  apply in_order_ext with (w' := w') in H; [|intros y Hy; apply body_target, To; by intros ->|lia].
  apply in_order_app in H as (H1 & H2 & H3). apply in_order_app. split; [done|]. split.
  - constructor; [done|]. rewrite Forall_forall in F |- *. intros y Hy. rewrite Ee, S by set_solver.
    specialize (F y Hy). unfold due_time. lia.
  - intros a b Ha Hb. apply elem_of_cons in Hb as [->|Hb]; [|by apply H3].
    etransitivity; [by apply (in_order_last w' l1)|]. rewrite Ee, S.
    + assert (l1 <> []) by (by destruct l1; [apply elem_of_nil in Ha|]). specialize (L ltac:(done)).
      unfold due_time. lia.
    + apply elem_of_app. left. apply last_of_in. by intros ->; apply elem_of_nil in Ha.
Qed.

(** ** The dispatcher and the worker, interleaved *)

(** What may happen to a work queue.  The callback requests of the program
    report to no other entry, and the clock does not go back. *)
Inductive step : io_worker -> io_worker -> Prop :=
| step_host w sq cq entry cid target st cb o w' :
    __enqueue_io_req w sq cq entry cid target st cb = Ok (o, w') -> step w w'
| step_release w sq target buf o w' :
    schedule_internal_operation w sq target buf = Ok (o, w') -> step w w'
| step_callback w sq ppa cb o w' :
    schedule_internal_operation_cb w sq ppa cb None = Ok (o, w') -> step w w'
| step_reclaim w w' : reclaim w = Ok w' -> step w w'
| step_visit w callback perform e now evs w' :
    in_queue e -> w.(latest_nsecs) <= now ->
    visit callback perform w e now = Ok (w', evs) -> step w w'.

Definition queue_inv (w : io_worker) : Prop :=
  exists io free, represents w io free /\ in_order w io.

Lemma next_chain_seq q i n z :
  (forall j, i <= j < i + Z.of_nat n -> (q j).(next) = if j =? i + Z.of_nat n - 1 then z else j + 1) ->
  next_chain q (seqZ i (Z.of_nat n)) z.
Proof.
  revert i. induction n as [|n IH]; intros i H; [done|].
  rewrite seqZ_cons by lia. replace (Z.pred (Z.of_nat (S n))) with (Z.of_nat n) by lia. cbn [next_chain].
  split.
  - rewrite H by lia. destruct n as [|n].
    + by rewrite (proj2 (Z.eqb_eq _ _)) by lia.
    + rewrite (proj2 (Z.eqb_neq _ _)) by lia. rewrite seqZ_cons by lia. cbn. lia.
  - apply IH. intros j Hj. rewrite H by lia. repeat case_cmp; done || lia.
Qed.

Lemma seqZ_last i n p : 0 < n -> last_of p (seqZ i n) = i + n - 1.
Proof.
  intros Hn. replace n with ((n - 1) + 1) at 1 by lia. rewrite seqZ_app by lia.
  replace (seqZ (i + (n - 1)) 1) with [i + (n - 1)] by done. rewrite last_of_snoc. lia.
Qed.

Lemma init_represents : represents worker_init [] (seqZ 0 NR_MAX_PARALLEL_IO).
Proof.
  pose proof NR_io as Hn. split.
  - reflexivity.
  - exact I.
  - exact I.
  - cbn [work_queue worker_init]. rewrite Hn. change 16384 with (Z.of_nat (Z.to_nat 16384)).
    apply next_chain_seq. intros j Hj. cbn [next]. rewrite Z2Nat.id in * by lia.
    change (0 + 16384 - 1) with (16384 - 1). case_cmp; [done|]. apply u32_small. lia.
  - reflexivity.
  - intros H. by destruct H.
  - cbn [free_seq worker_init]. rewrite Hn, seqZ_cons by lia. split; discriminate || reflexivity.
  - cbn [free_seq_end worker_init]. rewrite seqZ_last by lia. lia.
  - reflexivity.
Qed.

Lemma fills_host sq cq entry cid target st cb : fills (fun x => host_request x sq cq entry cid target st cb).
Proof. by intros x. Qed.
Lemma fills_release sq target buf : fills (fun x => release_request x sq target buf).
Proof. by intros x. Qed.
Lemma fills_callback sq target cb : fills (fun x => callback_request x sq target cb None).
Proof. by intros x. Qed.

Lemma enqueue_inv w fill o w' : fills fill -> queue_inv w -> enqueue w fill = Ok (o, w') -> queue_inv w'.
Proof.
  intros Fl (io & free & R & S) E. destruct free as [|e free].
  { by destruct (rp_free_seq _ _ _ R). }
  pose proof (enqueue_ok w io e free fill R Fl) as H. destruct free as [|e2 free].
  - rewrite H in E. injection E as <- <-. by exists io, [e].
  - destruct H as (l1 & l2 & w1 & E1 & Q). rewrite E1 in E. injection E as <- <-.
    exists (l1 ++ e :: l2), (e2 :: free). split; [apply Q|].
    apply (enqueued_in_order w w1 fill io (e2 :: free)); try done.
    pose proof (rp_nodup _ _ _ R) as N. apply NoDup_app in N as (_ & N & _).
    intros X. apply (N e X). by left.
Qed.

Lemma step_inv w w' : step w w' -> queue_inv w -> queue_inv w'.
Proof.
  destruct 1 as [w sq cq en cid t st cb o w' E|w sq t buf o w' E|w sq ppa cb o w' E|w w' E|w cbk pf e now evs w' He Hl E];
    intros I.
  - by apply (enqueue_inv w _ o w' (fills_host sq cq en cid t st cb)).
  - by apply (enqueue_inv w _ o w' (fills_release sq t buf)).
  - unfold schedule_internal_operation_cb in E. apply result_bind_ok in E as ([o' w1] & E1 & E2).
    destruct o' as [e|]; [|done]. injection E2 as <- <-.
    by apply (enqueue_inv w _ (Some e) w1 (fills_callback sq ppa cb)).
  - destruct I as (io & free & R & S). destruct (reclaim_ok _ _ _ R) as (l1 & l2 & w1 & E1 & Q).
    rewrite E1 in E. injection E as <-. exists l2, (free ++ l1). split; [apply Q|].
    destruct Q as [-> _ _ _ B L]. apply in_order_app in S as (_ & S & _).
    apply in_order_ext with (w := w); [intros y _; apply body_target, B|lia|done].
  - destruct I as (io & free & R & S).
    destruct (visit_ok cbk pf w e now He) as (w1 & E1 & V); [by apply (rp_no_cb _ _ _ R)|].
    rewrite E1 in E. injection E as <- _. exists io, free.
    split; [by apply (visit_represents pf w w1 io free e now)|]. destruct V as [V1 V2 V3].
    apply in_order_ext with (w := w); [|by rewrite V3|done].
    intros y _. destruct (decide (y = e)) as [->|Hy]; [|by rewrite V2].
    rewrite V1. apply visited_links.
Qed.

(** [schedule_internal_operation_cb] cannot refuse. *)
Lemma schedule_cb_cases w io free sq ppa cb : represents w io free ->
  match free with
  | [_] => schedule_internal_operation_cb w sq ppa cb None = Err BUG
  | _ => exists e w', schedule_internal_operation_cb w sq ppa cb None = Ok (Some e, w')
  end.
Proof.
  intros R. destruct free as [|e free]; [by destruct (rp_free_seq _ _ _ R)|].
  pose proof (enqueue_ok w io e free _ R (fills_callback sq ppa cb)) as H. unfold schedule_internal_operation_cb. destruct free as [|e2 free].
  - by rewrite H.
  - destruct H as (l1 & l2 & w' & E & _). rewrite E. by eexists _, _.
Qed.

(** C10 (work queue): whatever requests are enqueued, finished and reclaimed in whatever order,
    every entry stays in exactly one of the two lists, the requests in flight stay in the order of
    their target times as far as these are still to come, and enqueueing, reclaiming and a pass of
    the worker never fault. [schedule_internal_operation_cb] alone does: it stops the machine in the
    states with a single free entry, where the others refuse the request, and in no other. *)
Theorem work_queue_reachable w :
  rtc step worker_init w ->
  queue_inv w /\ (forall fill, fills fill -> exists r, enqueue w fill = Ok r) /\
  (exists w', reclaim w = Ok w') /\
  (forall clock callback perform, exists r, worker_pass clock callback perform w = Ok r) /\
  (forall sq ppa cb io free, represents w io free ->
    match free with
    | [_] => schedule_internal_operation_cb w sq ppa cb None = Err BUG
    | _ => exists e w', schedule_internal_operation_cb w sq ppa cb None = Ok (Some e, w')
    end).
Proof.
  intros S. assert (I : queue_inv w).
  { assert (I0 : queue_inv worker_init).
    { exists [], (seqZ 0 NR_MAX_PARALLEL_IO). split; [apply init_represents|constructor]. }
    revert I0. induction S as [|w w1 w' H _ IH]; [done|]. intros I0. apply IH. by apply (step_inv w). }
  split; [done|]. destruct I as (io & free & R & _). pose proof (rp_requests _ _ _ R) as Q. split; [|split; [|split]].
  - intros fill Fl. destruct free as [|e free]; [by destruct (rp_free_seq _ _ _ R)|].
    pose proof (enqueue_ok w io e free fill R Fl) as H. destruct free; [by eexists|].
    destruct H as (l1 & l2 & w' & E & _). by eexists.
  - destruct (reclaim_ok _ _ _ R) as (l1 & l2 & w' & E & _). by eexists.
  - intros clock callback perform. unfold worker_pass. rewrite (rp_io_seq _ _ _ R).
    destruct (pass_loop_ok clock callback perform queue_fuel w io free io 0) as (w' & E & _); try apply Q; try done.
    + pose proof queue_fuel_val. pose proof NR_io. assert (Z.of_nat (length io) <= NR_MAX_PARALLEL_IO); [|lia].
      apply length_range; [lia|apply Q|apply Q].
    + by eexists.
  - intros sq ppa cb io' free' R'. by apply (schedule_cb_cases w io').
Qed.

(** Enqueueing: a request gets the first free entry and its place in the order: every request
    before it is due no later, every request after it strictly later. With one free entry left it
    is refused and nothing changes. *)
Theorem enqueue_correct w io e free fill :
  represents w io (e :: free) -> in_order w io -> fills fill ->
  match free with
  | [] => enqueue w fill = Ok (None, w)
  | _ :: _ => exists l1 l2 w', enqueue w fill = Ok (Some e, w') /\ io = l1 ++ l2 /\
      represents w' (l1 ++ e :: l2) free /\ in_order w' (l1 ++ e :: l2) /\
      body (w'.(work_queue) e) = body (fill (w.(work_queue) e)) /\
      (forall y, y <> e -> body (w'.(work_queue) y) = body (w.(work_queue) y)) /\
      (forall a, a ∈ l1 -> due_time w' a <= due_time w' e) /\
      (forall b, b ∈ l2 -> due_time w' e < due_time w' b)
  end.
Proof.
  intros R S Fl. pose proof (enqueue_ok w io e free fill R Fl) as H. destruct free as [|e2 free]; [done|].
  destruct H as (l1 & l2 & w' & E & Q). exists l1, l2, w'. split; [done|]. split; [apply Q|].
  pose proof (rp_nodup _ _ _ R) as N. apply NoDup_app in N as (_ & N & _).
  assert (Hn : e ∉ io) by (intros X; apply (N e X); by left).
  pose proof (enqueued_in_order _ _ _ _ _ _ _ _ Hn S Q) as S'. destruct Q as [-> [F L] R' Te To Tl].
  split; [done|]. split; [done|]. split; [done|]. split; [done|].
  apply in_order_app in S' as (_ & _ & S'). split; [intros a Ha; apply S'; [done|by left]|].
  intros b Hb. rewrite Forall_forall in F. specialize (F b Hb).
  assert (Nb : b <> e) by (intros ->; apply Hn, elem_of_app; by right).
  unfold due_time. rewrite Tl, (body_target _ _ Te), (body_target _ _ (To b Nb)). lia.
Qed.

(** Reclaiming: the entries given back are the longest prefix of requests that are performed,
    completed and due; they become free, in order, behind all other free entries; every other
    request stays in flight. *)
Theorem reclaim_correct w io free :
  represents w io free ->
  exists l1 l2 w', reclaim w = Ok w' /\ io = l1 ++ l2 /\ represents w' l2 (free ++ l1) /\
    Forall (fun e => reclaimable w (w.(work_queue) e) = true) l1 /\
    (forall e l, l2 = e :: l -> reclaimable w (w.(work_queue) e) = false) /\
    (forall y, body (w'.(work_queue) y) = body (w.(work_queue) y)).
Proof. intros R. destruct (reclaim_ok w io free R) as (l1 & l2 & w' & E & []). by exists l1, l2, w'. Qed.

(** C11 (worker pass): a pass over the queue visits each request in flight once, in order: it
    performs it if that was not done, and completes it - writing its completion or releasing its
    buffer exactly once - if and only if its target time has come by then. *)
Theorem worker_pass_correct clock callback perform w io free :
  represents w io free ->
  exists w', worker_pass clock callback perform w = Ok (w', pass_events clock perform w.(work_queue) 0 io) /\
    represents w' io free /\
    (forall i e, io !! i = Some e -> w'.(work_queue) e = visited perform (clock i) (w.(work_queue) e)) /\
    (forall e, e ∉ io -> w'.(work_queue) e = w.(work_queue) e).
Proof.
  intros R. pose proof (rp_requests _ _ _ R) as Q. unfold worker_pass. rewrite (rp_io_seq _ _ _ R).
  destruct (pass_loop_ok clock callback perform queue_fuel w io free io 0) as (w' & E & R' & P); try apply Q; try done.
  - pose proof queue_fuel_val. pose proof NR_io. assert (Z.of_nat (length io) <= NR_MAX_PARALLEL_IO); [|lia].
    apply length_range; [lia|apply Q|apply Q].
  - exists w'. split; [done|]. split; [done|]. split; apply P.
Qed.

(** ** Witnesses

    Entry 0 is in flight, performed, completed and due. *)

Definition ex_request (copied completed : bool) : io_work :=
  mk_work 1 1 5 9 100 copied completed 0 0 0 false None false None NIL NIL.
Definition ex_worker : io_worker :=
  mk_worker (upd worker_init.(work_queue) 0 (ex_request true true)) 1 16383 0 0 100.

Lemma ex_worker_represents : represents ex_worker [0] (seqZ 1 16383).
Proof.
  pose proof NR_io as Hn. split.
  - rewrite Hn. rewrite (seqZ_cons 0 16384) by lia. reflexivity.
  - by split.
  - by split.
  - cbn [work_queue ex_worker]. change 16383 with (Z.of_nat (Z.to_nat 16383)).
    apply next_chain_seq. intros j Hj. rewrite Z2Nat.id in * by lia. rewrite upd_ne by lia.
    cbn [work_queue worker_init next]. rewrite Hn. change (1 + 16383 - 1) with (16384 - 1).
    case_cmp; [done|]. apply u32_small. lia.
  - reflexivity.
  - reflexivity.
  - rewrite seqZ_cons by lia. split; discriminate || reflexivity.
  - rewrite seqZ_last by lia. reflexivity.
  - intros e _. cbn. rewrite upd_case. by case_cmp.
Qed.

Lemma work_queue_reachable_witness :
  exists w, rtc step worker_init w /\ queue_inv w /\ (exists w', reclaim w = Ok w').
Proof.
  assert (E : exists o w, __enqueue_io_req worker_init 1 1 5 9 100 0 false = Ok (o, w)).
  { pose proof init_represents as R. rewrite NR_io, (seqZ_cons 0), (seqZ_cons (Z.succ 0)) in R by lia.
    destruct (enqueue_ok _ _ _ _ _ R (fills_host 1 1 5 9 100 0 false)) as (l1 & l2 & w & E & _).
    by exists (Some 0), w. }
  destruct E as (o & w & E). exists w. assert (S : rtc step worker_init w) by (eapply rtc_once, step_host, E).
  split; [exact S|]. destruct (work_queue_reachable w S) as (I & _ & R & _). by split.
Defined.

(** A request with target 50 is already due, so it goes behind the one in flight. *)
Lemma enqueue_correct_witness :
  exists l1 l2 w', __enqueue_io_req ex_worker 1 1 6 10 50 0 false = Ok (Some 1, w') /\ [0] = l1 ++ l2 /\
    represents w' (l1 ++ 1 :: l2) (seqZ 2 16382).
Proof.
  pose proof ex_worker_represents as R. rewrite (seqZ_cons 1), (seqZ_cons (Z.succ 1)) in R by lia.
  destruct (enqueue_correct ex_worker [0] 1 _ (fun x => host_request x 1 1 6 10 50 0 false) R)
    as (l1 & l2 & w' & E & Eio & R' & _); [by repeat constructor|apply fills_host|].
  exists l1, l2, w'. split; [exact E|]. split; [done|]. rewrite (seqZ_cons 2) by lia. exact R'.
Defined.

Lemma reclaim_correct_witness :
  exists l1 l2 w', reclaim ex_worker = Ok w' /\ [0] = l1 ++ l2 /\ represents w' l2 (seqZ 1 16383 ++ l1).
Proof.
  destruct (reclaim_correct ex_worker [0] (seqZ 1 16383) ex_worker_represents)
    as (l1 & l2 & w' & E & Eio & R & _). by exists l1, l2, w'.
Defined.

Lemma worker_pass_correct_witness :
  exists w', worker_pass (fun k => 200 + Z.of_nat k) (fun _ => (0, 0, 0)) (fun _ => Some 7) ex_worker =
    Ok (w', []) /\ represents w' [0] (seqZ 1 16383).
Proof.
  destruct (worker_pass_correct (fun k => 200 + Z.of_nat k) (fun _ => (0, 0, 0)) (fun _ => Some 7)
    ex_worker [0] (seqZ 1 16383) ex_worker_represents) as (w' & E & R & _). exists w'. by split.
Defined.
