(* ===== verification/Queues.v ===== *)
(** * The NVMe queue pairs ([io.c], [nvmev.h], [nvme.h])

    Submission and completion queues of the host, the commands and completions
    in them, the dispatcher's handling of their doorbells, and the posting of
    completions by the I/O workers.  The queue memory is an array of entries of
    which the pages that hold the queue are mapped: [room] is their number. *)

From S2P Require Import Prelude WorkQueue.

Definition NR_MAX_IO_QUEUE : Z := 72.
Definition PAGE_SIZE : Z := 4096.
(** A command has 64 bytes, a completion 16. *)
Definition NR_SQE_PER_PAGE : Z := PAGE_SIZE / 64.
Definition NR_CQE_PER_PAGE : Z := PAGE_SIZE / 16.

(** ** Commands and completions *)

(** The command block, by double words: the C union names parts of them.
    [key] is the 16 bytes of dwords 12 to 15. *)
Record nvme_command := mk_nvme {
  opcode : Z; command_id : Z; nsid : Z; rsvd : Z; offset : Z; prp1 : Z; prp2 : Z;
  cdw10 : Z; cdw11 : Z; cdw12 : Z; key : list Z
}.

Definition lo16 (x : Z) : Z := x mod 65536.
Definition hi16 (x : Z) : Z := (x / 65536) mod 65536.

(** [rw.length]. *)
Definition rw_length (c : nvme_command) : Z := lo16 c.(cdw12).

Record nvme_completion := mk_cqe {
  c_result0 : Z; c_result1 : Z; c_sq_head : Z; c_sq_id : Z; c_command_id : Z; c_status : Z
}.

(** ** The ring of completions

    Shared by the I/O and the admin completion queues: the entry at the head is
    written with the current phase tag in bit 0 of its status; on every lap the
    tag flips, so that the host can tell new entries from old ones. *)

Record ring := mk_ring {
  queue_size : Z; cq_head : Z; phase : Z; room : Z; entries : Z -> nvme_completion
}.

(** [!phase]. *)
Definition flip (p : Z) : Z := if p =? 0 then 1 else 0.

(** Write the entry at [head], then advance from it. *)
Definition ring_post (r : ring) (head : Z) (cqe : Z -> nvme_completion) : result ring :=
  q ← modify r.(entries) r.(room) head (fun _ => Ok (cqe r.(phase)));
  let head := head + 1 in
  let '(head, ph) := if head =? r.(queue_size) then (0, flip r.(phase)) else (head, r.(phase)) in
  Ok (mk_ring r.(queue_size) head ph r.(room) q).

Record completion_queue := mk_cq {
  cq_qid : Z; irq_vector : Z; irq_enabled : bool; interrupt_ready : bool;
  cq_ring : ring; cq_tail : Z
}.

Record nvmev_sq_stat := mk_stat {
  nr_dispatched : Z; nr_dispatch : Z; nr_in_flight : Z; max_nr_in_flight : Z; total_io : Z
}.

Record submission_queue := mk_sq {
  sq_qid : Z; sq_cqid : Z; sq_size : Z; sq_room : Z; stat : nvmev_sq_stat;
  sq : Z -> nvme_command
}.

Definition set_stat (q : submission_queue) (st : nvmev_sq_stat) : submission_queue :=
  mk_sq q.(sq_qid) q.(sq_cqid) q.(sq_size) q.(sq_room) st q.(sq).
Definition set_commands (q : submission_queue) (m : Z -> nvme_command) : submission_queue :=
  mk_sq q.(sq_qid) q.(sq_cqid) q.(sq_size) q.(sq_room) q.(stat) m.
Definition set_ring (q : completion_queue) (r : ring) (ready : bool) : completion_queue :=
  mk_cq q.(cq_qid) q.(irq_vector) q.(irq_enabled) ready r q.(cq_tail).

(** ** Posting a completion *)

Definition cqe_of (x : io_work) (ph : Z) : nvme_completion :=
  mk_cqe x.(result0) x.(result1) (u16 x.(sq_entry)) (u16 x.(sqid)) (u16 x.(WorkQueue.command_id))
    (u16 (Z.lor ph (u32 (Z.shiftl x.(status) 1)))).

(** [__fill_cq_result] reads the head before it takes the queue's lock: the
    read and the part under the lock are two steps. *)
Definition fill_begin (q : completion_queue) : Z := q.(cq_ring).(cq_head).
Definition fill_end (q : completion_queue) (head : Z) (x : io_work) : result completion_queue :=
  r ← ring_post q.(cq_ring) head (cqe_of x);
  Ok (set_ring q r true).
Definition __fill_cq_result (q : completion_queue) (x : io_work) : result completion_queue :=
  fill_end q (fill_begin q) x.

Fixpoint fill_all (q : completion_queue) (xs : list io_work) : result completion_queue :=
  match xs with [] => Ok q | x :: xs => q ← __fill_cq_result q x; fill_all q xs end.

(** ** The device's queues *)

Record nvmev_dev := mk_dev {
  io_workers : Z -> io_worker; nr_io_workers : Z;
  sqes : Z -> option submission_queue; cqes : Z -> option completion_queue;
  nr_sq : Z; nr_cq : Z; dbs : Z -> Z; old_dbs : Z -> Z; readings : nat
}.

Definition set_workers (d : nvmev_dev) (w : Z -> io_worker) : nvmev_dev :=
  mk_dev w d.(nr_io_workers) d.(sqes) d.(cqes) d.(nr_sq) d.(nr_cq) d.(dbs) d.(old_dbs) d.(readings).
Definition set_sqes (d : nvmev_dev) (q : Z -> option submission_queue) : nvmev_dev :=
  mk_dev d.(io_workers) d.(nr_io_workers) q d.(cqes) d.(nr_sq) d.(nr_cq) d.(dbs) d.(old_dbs) d.(readings).
Definition set_cqes (d : nvmev_dev) (q : Z -> option completion_queue) : nvmev_dev :=
  mk_dev d.(io_workers) d.(nr_io_workers) d.(sqes) q d.(nr_sq) d.(nr_cq) d.(dbs) d.(old_dbs) d.(readings).
Definition set_nr_queues (d : nvmev_dev) (s c : Z) : nvmev_dev :=
  mk_dev d.(io_workers) d.(nr_io_workers) d.(sqes) d.(cqes) s c d.(dbs) d.(old_dbs) d.(readings).
Definition set_dbs (d : nvmev_dev) (new old : Z -> Z) : nvmev_dev :=
  mk_dev d.(io_workers) d.(nr_io_workers) d.(sqes) d.(cqes) d.(nr_sq) d.(nr_cq) new old d.(readings).
Definition tick (d : nvmev_dev) : nvmev_dev :=
  mk_dev d.(io_workers) d.(nr_io_workers) d.(sqes) d.(cqes) d.(nr_sq) d.(nr_cq) d.(dbs) d.(old_dbs)
    (S d.(readings)).

(** [sqes] and [cqes] have [NR_MAX_IO_QUEUE + 1] pointers. *)
Definition sq_at (d : nvmev_dev) (i : Z) : result (option submission_queue) :=
  cell d.(sqes) (NR_MAX_IO_QUEUE + 1) i.
Definition cq_at (d : nvmev_dev) (i : Z) : result (option completion_queue) :=
  cell d.(cqes) (NR_MAX_IO_QUEUE + 1) i.
Definition put_sq (d : nvmev_dev) (i : Z) (q : submission_queue) : nvmev_dev :=
  set_sqes d (upd d.(sqes) i (Some q)).
Definition put_cq (d : nvmev_dev) (i : Z) (q : completion_queue) : nvmev_dev :=
  set_cqes d (upd d.(cqes) i (Some q)).

Definition deref {A} (p : option A) : result A :=
  match p with Some a => Ok a | None => Err NULLPTR end.

(** [__get_io_worker], one worker per submission queue. *)
Definition __get_io_worker (d : nvmev_dev) (sqid : Z) : result Z :=
  if d.(nr_io_workers) =? 0 then Err DIVZERO else Ok (u32 (sqid - 1) mod d.(nr_io_workers)).

(** [__reclaim_completed_reqs]: all workers in turn. *)
Fixpoint reclaim_all (n : nat) (turn : Z) (w : Z -> io_worker) : result (Z -> io_worker) :=
  match n with
  | O => Ok w
  | S n => x ← reclaim (w turn); reclaim_all n (turn + 1) (upd w turn x)
  end.
Definition __reclaim_completed_reqs (d : nvmev_dev) : result nvmev_dev :=
  w ← reclaim_all (Z.to_nat d.(nr_io_workers)) 0 d.(io_workers);
  Ok (set_workers d w).

(** What [proc_io_cmd] leaves in [struct nvmev_result]. *)
Record nvmev_result := mk_result { r_status : Z; r_target : Z; r_cb : bool }.

Section dispatcher.

(** The flash translation layer: the state behind [ns->ftls] and its handler
    [ns->proc_io_cmd], which may write to the command and refuses with [None];
    and the readings of the clock. *)
Context {F : Type} (proc_io_cmd : F -> Z -> nvme_command -> Z -> option (F * nvme_command * nvmev_result))
  (clock : nat -> Z).

(** [None] is the answer [false]; otherwise the size of the I/O.  A full work
    queue is not reported. *)
Definition __nvmev_proc_io (d : nvmev_dev) (f : F) (sqid e : Z)
    : result (option Z * nvmev_dev * F) :=
  q ← sq_at d sqid; q ← deref q;
  let nsecs_start := clock d.(readings) in
  let d := tick d in
  cmd ← cell q.(sq) q.(sq_room) e;
  match proc_io_cmd f sqid cmd nsecs_start with
  | None => Ok (None, d, f)
  | Some (f, cmd, ret) =>
      let q := set_commands q (upd q.(sq) e cmd) in
      let d := put_sq d sqid q in
      let io_size := Z.shiftl (rw_length cmd + 1) 9 in
      i ← __get_io_worker d sqid;
      '(_, w) ← __enqueue_io_req (d.(io_workers) i) sqid q.(sq_cqid) e cmd.(command_id)
                  ret.(r_target) ret.(r_status) ret.(r_cb);
      let d := set_workers d (upd d.(io_workers) i w) in
      d ← __reclaim_completed_reqs d;
      Ok (Some io_size, d, f)
  end.

Definition count_dispatched (st : nvmev_sq_stat) (io_size : Z) : nvmev_sq_stat :=
  mk_stat (u32 (st.(nr_dispatched) + 1)) st.(nr_dispatch) (u32 (st.(nr_in_flight) + 1))
    st.(max_nr_in_flight) (u64 (st.(total_io) + io_size)).

(** The loop of [nvmev_proc_io_sq]: how many commands were taken. *)
Fixpoint sq_loop (n : nat) (d : nvmev_dev) (f : F) (sqid e seq : Z) : result (Z * nvmev_dev * F) :=
  match n with
  | O => Ok (seq, d, f)
  | S n =>
      '(o, d, f) ← __nvmev_proc_io d f sqid e;
      match o with
      | None => Ok (seq, d, f)
      | Some io_size =>
          q ← sq_at d sqid; q ← deref q;
          let e := if e + 1 =? q.(sq_size) then 0 else e + 1 in
          let d := put_sq d sqid (set_stat q (count_dispatched q.(stat) io_size)) in
          sq_loop n d f sqid e (seq + 1)
      end
  end.

(** [max_t(int, ...)] compares as signed integers. *)
Definition nvmev_proc_io_sq (d : nvmev_dev) (f : F) (sqid new_db old_db : Z)
    : result (Z * nvmev_dev * F) :=
  q ← sq_at d sqid;
  match q with
  | None => Ok (old_db, d, f)
  | Some q =>
      let num_proc := i32 (new_db - old_db) in
      let num_proc := if num_proc <? 0 then i32 (num_proc + q.(sq_size)) else num_proc in
      '(seq, d, f) ← sq_loop (Z.to_nat num_proc) d f sqid old_db 0;
      q ← sq_at d sqid; q ← deref q;
      let st := q.(stat) in
      let st := mk_stat st.(nr_dispatched) (u32 (st.(nr_dispatch) + 1)) st.(nr_in_flight)
        (u32 (Z.max (i32 st.(max_nr_in_flight)) (i32 st.(nr_in_flight)))) st.(total_io) in
      let d := put_sq d sqid (set_stat q st) in
      if q.(sq_size) =? 0 then Err DIVZERO else
      Ok (Z.rem (i32 (old_db + seq)) q.(sq_size), d, f)
  end.

End dispatcher.

(** ** Completions taken by the host *)

(** [stat.nr_in_flight--] of the queue a completion names, if it exists. *)
Definition one_less (d : nvmev_dev) (sqid : Z) : result nvmev_dev :=
  q ← sq_at d sqid;
  match q with
  | None => Ok d
  | Some q =>
      let st := q.(stat) in
      Ok (put_sq d sqid (set_stat q (mk_stat st.(nr_dispatched) st.(nr_dispatch)
        (u32 (st.(nr_in_flight) - 1)) st.(max_nr_in_flight) st.(total_io))))
  end.

(** The loop of [nvmev_proc_io_cq]: the entry is read before the index is
    checked. *)
Fixpoint cq_loop (fuel : nat) (d : nvmev_dev) (r : ring) (i new_db : Z) : result nvmev_dev :=
  match fuel with
  | O => Err HANG
  | S fuel =>
      if i =? new_db then Ok d else
      c ← cell r.(entries) r.(room) i;
      if i >=? r.(queue_size) then cq_loop fuel d r 0 new_db else
      d ← one_less d c.(c_sq_id);
      cq_loop fuel d r (i + 1) new_db
  end.

(** The loop goes round the ring at most once, with one step more for the wrap. *)
Definition cq_fuel (r : ring) : nat := Z.to_nat (2 * r.(queue_size) + 1).

Definition nvmev_proc_io_cq (fuel : nat) (d : nvmev_dev) (cqid new_db old_db : Z) : result nvmev_dev :=
  q ← cq_at d cqid; q ← deref q;
  d ← cq_loop fuel d q.(cq_ring) old_db new_db;
  let tail := if new_db =? -1 then q.(cq_ring).(queue_size) - 1 else new_db - 1 in
  Ok (put_cq d cqid (mk_cq q.(cq_qid) q.(irq_vector) q.(irq_enabled) q.(interrupt_ready)
    q.(cq_ring) tail)).

(** ** Interrupts *)

(** The loop of [nvmev_io_worker] over the completion queues, [n] of them from
    [qidx] on: the vectors signalled.  [trylock] tells which [irq_lock]s are
    free. *)
Fixpoint irq_loop (n : nat) (qidx id : Z) (trylock : Z -> bool) (d : nvmev_dev) : result (nvmev_dev * list Z) :=
  match n with
  | O => Ok (d, [])
  | S n =>
      q ← cq_at d qidx;
      w ← __get_io_worker d qidx;
      let '(d, ev) :=
        match q with
        | Some q =>
            if (w =? id) && q.(irq_enabled) && trylock qidx && q.(interrupt_ready)
            then (put_cq d qidx (set_ring q q.(cq_ring) false), [q.(irq_vector)]) else (d, [])
        | None => (d, [])
        end in
      '(d, evs) ← irq_loop n (qidx + 1) id trylock d;
      Ok (d, ev ++ evs)
  end.

Definition signal_irqs (id : Z) (trylock : Z -> bool) (d : nvmev_dev) : result (nvmev_dev * list Z) :=
  irq_loop (Z.to_nat d.(nr_cq)) 1 id trylock d.

(** ** The ring of completions *)

(** The phase tag of lap [k]. *)
Definition tag (k : Z) : Z := if Z.even k then 1 else 0.

Lemma flip_tag k : flip (tag k) = tag (k + 1).
Proof. unfold tag, flip. rewrite Z.add_1_r, Z.even_succ, <- Z.negb_even. by destruct (Z.even k). Qed.

Definition ring_ok (r : ring) : Prop := 0 < r.(queue_size) <= r.(room).

(** [n] completions were posted. *)
Definition ring_at (r : ring) (n : Z) : Prop :=
  r.(cq_head) = n mod r.(queue_size) /\ r.(phase) = tag (n / r.(queue_size)).

Lemma ring_post_ok r n cqe :
  ring_ok r -> 0 <= n -> ring_at r n ->
  exists r', ring_post r r.(cq_head) cqe = Ok r' /\ ring_at r' (n + 1) /\
    r'.(queue_size) = r.(queue_size) /\ r'.(room) = r.(room) /\
    r'.(entries) = upd r.(entries) (n mod r.(queue_size)) (cqe (tag (n / r.(queue_size)))).
Proof.
  intros [R1 R2] Hn [Eh Ep]. pose proof (Z.mod_pos_bound n _ R1) as B. unfold ring_post.
  rewrite Eh, modify_in by lia. cbn [mbind result_mbind result_bind]. rewrite Ep.
  destruct (Z.eqb_spec (n mod queue_size r + 1) (queue_size r)) as [E|E].
  - eexists. split; [done|]. unfold ring_at. cbn. rewrite succ_mod, succ_div by done.
    rewrite (proj2 (Z.eqb_eq _ _)) by lia. by rewrite flip_tag.
  - eexists. split; [done|]. unfold ring_at. cbn. rewrite succ_mod, succ_div by done.
    by rewrite (proj2 (Z.eqb_neq _ _)) by lia.
Qed.

(** What the queue holds after [xs] was posted to a fresh one. *)
Record holds_completions (q0 q : completion_queue) (xs : list io_work) : Prop := {
  hc_at : ring_at q.(cq_ring) (Z.of_nat (length xs));
  hc_same : q.(cq_ring).(queue_size) = q0.(cq_ring).(queue_size) /\ q.(cq_ring).(room) = q0.(cq_ring).(room);
  hc_entries : forall k x, xs !! k = Some x ->
    Z.of_nat (length xs) - q0.(cq_ring).(queue_size) <= Z.of_nat k ->
    q.(cq_ring).(entries) (Z.of_nat k mod q0.(cq_ring).(queue_size)) =
      cqe_of x (tag (Z.of_nat k / q0.(cq_ring).(queue_size)));
  hc_outside : forall i, q0.(cq_ring).(queue_size) <= i -> q.(cq_ring).(entries) i = q0.(cq_ring).(entries) i
}.

(** Less than a lap apart, two entries differ. *)
Lemma mod_ne a b s : 0 < s -> a < b < a + s -> a mod s <> b mod s.
Proof.
  intros Hs H E. pose proof (Z.div_mod a s ltac:(lia)). pose proof (Z.div_mod b s ltac:(lia)).
  assert (b - a = s * (b / s - a / s)) by lia. destruct (Z.le_gt_cases (b / s - a / s) 0); nia.
Qed.

Lemma fill_ok q0 q xs x :
  ring_ok q0.(cq_ring) -> holds_completions q0 q xs ->
  exists q', __fill_cq_result q x = Ok q' /\ holds_completions q0 q' (xs ++ [x]) /\ q'.(interrupt_ready) = true.
Proof.
  intros R [A [S1 S2] E O]. unfold __fill_cq_result, fill_begin, fill_end.
  assert (R' : ring_ok q.(cq_ring)) by (unfold ring_ok in *; by rewrite S1, S2).
  destruct (ring_post_ok q.(cq_ring) (Z.of_nat (length xs)) (cqe_of x) R' ltac:(lia) A) as (r & -> & A' & S1' & S2' & E').
  cbn [mbind result_mbind result_bind]. eexists. split; [done|]. split; [|done].
  destruct R as [R1 R2]. split; cbn [set_ring cq_ring]; rewrite ?length_app; cbn [length].
  - by replace (Z.of_nat (length xs + 1)) with (Z.of_nat (length xs) + 1) by lia.
  - by rewrite S1', S2'.
  - intros k y Hy Hk. rewrite E', S1. apply lookup_app_Some in Hy as [Hy|[Hl Hy]].
    + pose proof (lookup_lt_Some _ _ _ Hy). rewrite upd_ne; [apply E; [done|lia]|].
      apply mod_ne; lia.
    + assert (k = length xs) as ->.
      { apply list_lookup_singleton_Some in Hy as [? _]. lia. }
      rewrite Nat.sub_diag in Hy. injection Hy as <-. by rewrite upd_eq.
  - intros i Hi. rewrite E', S1. pose proof (Z.mod_pos_bound (Z.of_nat (length xs)) _ R1).
    rewrite upd_ne by lia. by apply O.
Qed.

(** C17 (completions): posting any number of completions to a fresh queue never faults; each of the
    last [queue_size] of them stands in its entry with the phase tag of its lap, which is how the
    host tells new entries from old, and nothing is written outside the queue. *)
Theorem fill_cq_correct q xs :
  ring_ok q.(cq_ring) -> ring_at q.(cq_ring) 0 ->
  exists q', fill_all q xs = Ok q' /\ holds_completions q q' xs /\
    (xs <> [] -> q'.(interrupt_ready) = true).
Proof.
  intros R A.
  assert (G : forall xs done q1, holds_completions q q1 done -> exists q', fill_all q1 xs = Ok q' /\
    holds_completions q q' (done ++ xs) /\ (xs <> [] -> q'.(interrupt_ready) = true)).
  { clear xs. induction xs as [|x xs IH]; intros dn q1 H; cbn [fill_all].
    { exists q1. by rewrite app_nil_r. }
    destruct (fill_ok q q1 dn x R H) as (q2 & -> & H2 & I2). cbn [mbind result_mbind result_bind].
    destruct (IH (dn ++ [x]) q2 H2) as (q' & E & H' & I'). exists q'. split; [done|].
    split; [by rewrite <- app_assoc in H'|]. intros _. destruct xs as [|y xs]; [|by apply I'].
    cbn in E. by injection E as <-. }
  destruct (G xs [] q) as (q' & E & H & I); [|by exists q'].
  split; try done.
Qed.

(** C32 (finding, lost completion): the head is read before the lock is taken; when two workers
    post to one queue at the same time both use the same entry: the first completion is
    overwritten, whatever the queue, and the head moves by one entry only. *)
Theorem completion_race q x y :
  ring_ok q.(cq_ring) -> 0 <= q.(cq_ring).(cq_head) < q.(cq_ring).(queue_size) ->
  exists q1 q2, fill_end q (fill_begin q) x = Ok q1 /\ fill_end q1 (fill_begin q) y = Ok q2 /\
    (forall i, q2.(cq_ring).(entries) i =
       if i =? q.(cq_ring).(cq_head) then cqe_of y q1.(cq_ring).(phase) else q.(cq_ring).(entries) i) /\
    q2.(cq_ring).(cq_head) = q1.(cq_ring).(cq_head).
Proof.
  intros [R1 R2] H. unfold fill_end, fill_begin, ring_post. rewrite modify_in by lia.
  cbn [mbind result_mbind result_bind]. set (h := cq_head (cq_ring q)) in *.
  destruct (Z.eqb_spec (h + 1) (queue_size (cq_ring q))) as [E|E]; cbn [mbind result_mbind result_bind];
    eexists _, _; (split; [done|]); cbn [set_ring cq_ring entries room phase queue_size cq_head];
    rewrite modify_in by lia; cbn [mbind result_mbind result_bind].
  - rewrite (proj2 (Z.eqb_eq _ _) E). cbn [mbind result_mbind result_bind]. split; [done|]. cbn.
    split; [|done]. intros i. rewrite !upd_case. by case_cmp.
  - rewrite (proj2 (Z.eqb_neq _ _) E). cbn [mbind result_mbind result_bind]. split; [done|]. cbn.
    split; [|done]. intros i. rewrite !upd_case. by case_cmp.
Qed.

(** ** Dispatching commands *)

Definition workers_inv (d : nvmev_dev) : Prop :=
  0 < d.(nr_io_workers) /\ forall i, 0 <= i < d.(nr_io_workers) -> queue_inv (d.(io_workers) i).

Lemma reclaim_all_ok n turn w :
  (forall i, turn <= i < turn + Z.of_nat n -> queue_inv (w i)) ->
  exists w', reclaim_all n turn w = Ok w' /\
    (forall i, turn <= i < turn + Z.of_nat n -> reclaim (w i) = Ok (w' i) /\ queue_inv (w' i)) /\
    (forall i, ~ (turn <= i < turn + Z.of_nat n) -> w' i = w i).
Proof.
  revert turn w. induction n as [|n IH]; intros turn w I; cbn [reclaim_all].
  { exists w. split; [done|]. split; [lia|done]. }
  destruct (I turn ltac:(lia)) as (io & free & R & S).
  destruct (reclaim_ok _ _ _ R) as (l1 & l2 & x & E & Q). rewrite E. cbn [mbind result_mbind result_bind].
  assert (Ix : queue_inv x) by (apply (step_inv (w turn)); [by apply step_reclaim|by exists io, free]).
  destruct (IH (turn + 1) (upd w turn x)) as (w' & -> & A & B).
  { intros i Hi. rewrite upd_ne by lia. apply I. lia. }
  exists w'. split; [done|]. split; intros i Hi.
  - destruct (decide (i = turn)) as [->|Hne].
    + rewrite B, upd_eq by lia. done.
    + destruct (A i ltac:(lia)) as [A1 A2]. by rewrite upd_ne in A1.
  - by rewrite B, upd_ne by lia.
Qed.

Lemma sq_at_ok d i q : 0 <= i <= NR_MAX_IO_QUEUE -> d.(sqes) i = q -> sq_at d i = Ok q.
Proof. intros H E. unfold sq_at. rewrite cell_in by lia. by rewrite E. Qed.

Section dispatching.
Context {F : Type} (proc_io_cmd : F -> Z -> nvme_command -> Z -> option (F * nvme_command * nvmev_result))
  (clock : nat -> Z).

(** The workers after one command was accepted by the translation layer. *)
Lemma workers_after d sqid q e c r :
  workers_inv d ->
  exists i o w d', __get_io_worker d sqid = Ok i /\
    __enqueue_io_req (d.(io_workers) i) sqid q e c r.(r_target) r.(r_status) r.(r_cb) = Ok (o, w) /\
    __reclaim_completed_reqs (set_workers d (upd d.(io_workers) i w)) = Ok d' /\
    workers_inv d' /\ d' = set_workers d d'.(io_workers) /\ reclaim w = Ok (d'.(io_workers) i).
Proof.
  intros [Hn I]. unfold __get_io_worker. rewrite (proj2 (Z.eqb_neq _ 0)) by lia.
  set (i := u32 (sqid - 1) mod nr_io_workers d).
  assert (Hi : 0 <= i < nr_io_workers d) by (apply Z.mod_pos_bound; lia).
  destruct (I i Hi) as (io & free & R & S). destruct free as [|fe free]; [by destruct (rp_free_seq _ _ _ R)|].
  set (fill := fun x => host_request x sqid q e c r.(r_target) r.(r_status) r.(r_cb)).
  assert (E : exists o w, enqueue (io_workers d i) fill = Ok (o, w)).
  { pose proof (enqueue_ok _ io fe free fill R (fills_host _ _ _ _ _ _ _)) as H.
    destruct free; [by eexists _, _|]. destruct H as (l1 & l2 & w & H & _). by eexists _, _. }
  destruct E as (o & w & E). exists i, o, w.
  assert (Iw : queue_inv w) by (apply (step_inv (io_workers d i)); [by eapply step_host|by eexists _, _]).
  unfold __reclaim_completed_reqs. cbn [set_workers io_workers nr_io_workers].
  destruct (reclaim_all_ok (Z.to_nat (nr_io_workers d)) 0 (upd d.(io_workers) i w)) as (w' & -> & A & B).
  { intros j Hj. rewrite upd_case. case_cmp; [done|]. apply I. lia. }
  cbn [mbind result_mbind result_bind]. eexists. split; [done|]. split; [exact E|]. split; [done|].
  split; [|split; [done|]].
  - split; [done|]. intros j Hj. cbn in Hj |- *. by destruct (A j ltac:(lia)).
  - destruct (A i ltac:(lia)) as [A1 _]. by rewrite upd_eq in A1.
Qed.

(** One command. *)
Lemma proc_io_ok d f sqid e q :
  workers_inv d -> 0 <= sqid <= NR_MAX_IO_QUEUE -> d.(sqes) sqid = Some q -> 0 <= e < q.(sq_room) ->
  match proc_io_cmd f sqid (q.(sq) e) (clock d.(readings)) with
  | None => __nvmev_proc_io proc_io_cmd clock d f sqid e = Ok (None, tick d, f)
  | Some (f', c, r) => exists d',
      __nvmev_proc_io proc_io_cmd clock d f sqid e = Ok (Some (Z.shiftl (rw_length c + 1) 9), d', f') /\
      workers_inv d' /\ d'.(readings) = S d.(readings) /\
      d'.(sqes) sqid = Some (set_commands q (upd q.(sq) e c)) /\
      (forall i, i <> sqid -> d'.(sqes) i = d.(sqes) i)
  end.
Proof.
  intros I Hs Hq He. unfold __nvmev_proc_io. rewrite (sq_at_ok _ _ _ Hs Hq).
  cbn [mbind result_mbind result_bind deref]. rewrite cell_in by done. cbn [mbind result_mbind result_bind].
  destruct (proc_io_cmd f sqid (sq q e) (clock (readings d))) as [[[f' c] r]|]; [|done].
  set (d1 := put_sq (tick d) sqid _).
  destruct (workers_after d1 sqid q.(sq_cqid) e c.(command_id) r I) as (i & o & w & d' & -> & E & R & I' & S & _).
  cbn [mbind result_mbind result_bind]. change (sq_cqid (set_commands q (upd (sq q) e c))) with (sq_cqid q).
  rewrite E. cbn [mbind result_mbind result_bind]. rewrite R. cbn [mbind result_mbind result_bind].
  exists d'. split; [done|]. split; [done|]. rewrite S. unfold d1. cbn.
  split; [done|]. split; [by rewrite upd_eq|]. intros j Hj. by rewrite upd_ne.
Qed.

Definition advance (size e : Z) : Z := if e + 1 =? size then 0 else e + 1.

(** The commands taken from entry [e] on: how many of the [n], what became of
    the translation layer and of the queue memory. *)
Fixpoint handled (n : nat) (size sqid : Z) (f : F) (m : Z -> nvme_command) (e : Z) (k : nat)
    : nat * F * (Z -> nvme_command) :=
  match n with
  | O => (O, f, m)
  | S n => match proc_io_cmd f sqid (m e) (clock k) with
      | None => (O, f, m)
      | Some (f, c, _) =>
          let '(j, f, m) := handled n size sqid f (upd m e c) (advance size e) (S k) in (S j, f, m)
      end
  end.

Lemma advance_mod size e : 0 <= e < size -> advance size e = (e + 1) mod size.
Proof.
  intros H. unfold advance. case_cmp.
  - subst size. symmetry. apply Z.mod_same. lia.
  - symmetry. apply Z.mod_small. lia.
Qed.

Definition sq_ok (q : submission_queue) : Prop := 0 < q.(sq_size) <= q.(sq_room) /\ q.(sq_size) <= 65536.

Lemma sq_loop_ok n d f sqid e seq q :
  workers_inv d -> 0 <= sqid <= NR_MAX_IO_QUEUE -> d.(sqes) sqid = Some q -> sq_ok q -> 0 <= e < q.(sq_size) ->
  let '(j, f', m') := handled n q.(sq_size) sqid f q.(sq) e d.(readings) in
  exists d' q', sq_loop proc_io_cmd clock n d f sqid e seq = Ok (seq + Z.of_nat j, d', f') /\
    workers_inv d' /\ d'.(sqes) sqid = Some q' /\ q'.(sq) = m' /\ (j <= n)%nat /\
    q'.(sq_size) = q.(sq_size) /\ q'.(sq_room) = q.(sq_room) /\
    u32 q'.(stat).(nr_dispatched) = u32 (q.(stat).(nr_dispatched) + Z.of_nat j) /\
    u32 q'.(stat).(nr_in_flight) = u32 (q.(stat).(nr_in_flight) + Z.of_nat j).
Proof.
  revert d f e seq q. induction n as [|n IH]; intros d f e seq q I Hs Hq Ok He; cbn [handled sq_loop].
  { exists d, q. rewrite !Z.add_0_r. done. }
  pose proof Ok as [Sz _]. pose proof (proc_io_ok d f sqid e q I Hs Hq ltac:(lia)) as P.
  destruct (proc_io_cmd f sqid (sq q e) (clock (readings d))) as [[[f1 c] r]|].
  2:{ rewrite P. cbn [mbind result_mbind result_bind]. exists (tick d), q. rewrite !Z.add_0_r.
      repeat (split; [done|]). split; [lia|]. done. }
  destruct P as (d1 & -> & I1 & R1 & S1 & _). cbn [mbind result_mbind result_bind].
  rewrite (sq_at_ok _ _ _ Hs S1). cbn [mbind result_mbind result_bind deref].
  set (q1 := set_stat _ _). set (d2 := put_sq d1 sqid q1).
  assert (S2 : d2.(sqes) sqid = Some q1) by (unfold d2; cbn; by rewrite upd_eq).
  change (sq_size (set_commands q (upd (sq q) e c))) with (sq_size q). fold (advance (sq_size q) e).
  specialize (IH d2 f1 (advance (sq_size q) e) (seq + 1) q1 I1 Hs S2 Ok).
  rewrite <- R1. change (readings d2) with (readings d1) in IH.
  change (sq_size q1) with (sq_size q) in IH. change (sq q1) with (upd (sq q) e c) in IH.
  destruct (handled n (sq_size q) sqid f1 (upd (sq q) e c) (advance (sq_size q) e) (readings d1)) as [[j f2] m2].
  destruct IH as (d' & q' & -> & I' & S' & M & J & Z1 & Z2 & D1 & D2).
  { rewrite advance_mod by lia. apply Z.mod_pos_bound. lia. }
  exists d', q'. split; [do 3 f_equal; lia|]. repeat (split; [done|]). split; [lia|].
  split; [done|]. split; [done|]. rewrite D1, D2. unfold q1. cbn [set_stat stat set_commands count_dispatched nr_dispatched nr_in_flight].
  unfold u32, uw. rewrite !Zplus_mod_idemp_l. split; f_equal; lia.
Qed.

(** C13 (submission doorbell): when the doorbell moves from [old] to [new] the commands in between
    are handed to the translation layer in ring order, each once, until it refuses one; the answer
    is the entry of the first command not taken - the doorbell itself if all were - and the queue
    counts the commands dispatched and in flight. *)
Theorem proc_io_sq_correct d f sqid new old q :
  workers_inv d -> 0 <= sqid <= NR_MAX_IO_QUEUE -> d.(sqes) sqid = Some q -> sq_ok q ->
  0 <= old < q.(sq_size) -> 0 <= new < q.(sq_size) ->
  let n := (new - old) mod q.(sq_size) in
  let '(j, f', m') := handled (Z.to_nat n) q.(sq_size) sqid f q.(sq) old d.(readings) in
  exists d' q', nvmev_proc_io_sq proc_io_cmd clock d f sqid new old =
      Ok ((old + Z.of_nat j) mod q.(sq_size), d', f') /\
    workers_inv d' /\ d'.(sqes) sqid = Some q' /\ q'.(sq) = m' /\ Z.of_nat j <= n /\
    (Z.of_nat j = n -> (old + Z.of_nat j) mod q.(sq_size) = new) /\
    u32 q'.(stat).(nr_dispatched) = u32 (q.(stat).(nr_dispatched) + Z.of_nat j) /\
    u32 q'.(stat).(nr_in_flight) = u32 (q.(stat).(nr_in_flight) + Z.of_nat j).
Proof.
  intros I Hs Hq Ok Ho Hn n. pose proof Ok as [[Sz Sr] Sb].
  assert (En : n = if new - old <? 0 then new - old + q.(sq_size) else new - old).
  { unfold n. case_cmp; symmetry; [apply Z.mod_unique with (-1); lia|apply Z.mod_unique with 0; lia]. }
  unfold nvmev_proc_io_sq. rewrite (sq_at_ok _ _ _ Hs Hq). cbn [mbind result_mbind result_bind].
  rewrite (i32_small (new - old)), (i32_small (new - old + _)), <- En by lia.
  pose proof (sq_loop_ok (Z.to_nat n) d f sqid old 0 q I Hs Hq Ok Ho) as L.
  destruct (handled (Z.to_nat n) (sq_size q) sqid f (sq q) old (readings d)) as [[j f'] m'].
  destruct L as (d1 & q1 & -> & I1 & S1 & M & J & Z1 & Z2 & D1 & D2).
  assert (Jn : Z.of_nat j <= n) by (revert En; case_cmp; lia).
  cbn [mbind result_mbind result_bind]. rewrite (sq_at_ok _ _ _ Hs S1). cbn [mbind result_mbind result_bind deref].
  rewrite Z1, (proj2 (Z.eqb_neq _ 0)) by lia. rewrite Z.add_0_l, i32_small by (revert En; case_cmp; lia).
  rewrite Z.rem_mod_nonneg by lia. eexists _, _. split; [done|]. split; [done|].
  cbn [put_sq set_sqes sqes]. split; [by rewrite upd_eq|]. split; [done|]. split; [done|]. split; [|done].
  intros Ej. rewrite Ej, En. case_cmp; symmetry; [apply Z.mod_unique with 1; lia|apply Z.mod_unique with 0; lia].
Qed.

(** C33 (finding, dropped command): when the worker of a queue has one free entry left, a command
    the translation layer has carried out is counted as dispatched although no request was
    enqueued for it: the worker is as it was, up to reclaiming, and no completion will be posted. *)
Theorem full_queue_drops_command d f sqid e q f' c r io fe :
  workers_inv d -> 0 <= sqid <= NR_MAX_IO_QUEUE -> d.(sqes) sqid = Some q -> 0 <= e < q.(sq_room) ->
  proc_io_cmd f sqid (q.(sq) e) (clock d.(readings)) = Some (f', c, r) ->
  let i := u32 (sqid - 1) mod d.(nr_io_workers) in
  represents (d.(io_workers) i) io [fe] ->
  exists d' io_size, __nvmev_proc_io proc_io_cmd clock d f sqid e = Ok (Some io_size, d', f') /\
    reclaim (d.(io_workers) i) = Ok (d'.(io_workers) i).
Proof.
  intros I Hs Hq He Hp i R. unfold __nvmev_proc_io. rewrite (sq_at_ok _ _ _ Hs Hq).
  cbn [mbind result_mbind result_bind deref]. rewrite cell_in by done. cbn [mbind result_mbind result_bind].
  rewrite Hp. set (d1 := put_sq (tick d) sqid _).
  destruct (workers_after d1 sqid q.(sq_cqid) e c.(command_id) r I) as (j & o & w & d' & Ej & E & Rc & I' & S & W).
  assert (j = i) as ->.
  { destruct I as [Hn _]. unfold __get_io_worker in Ej. change (nr_io_workers d1) with (nr_io_workers d) in Ej.
    rewrite (proj2 (Z.eqb_neq _ 0)) in Ej by lia. by injection Ej as <-. }
  rewrite Ej. cbn [mbind result_mbind result_bind].
  change (sq_cqid (set_commands q (upd (sq q) e c))) with (sq_cqid q).
  rewrite E. cbn [mbind result_mbind result_bind]. rewrite Rc. cbn [mbind result_mbind result_bind].
  eexists d', _. split; [done|].
  pose proof (enqueue_ok _ io fe [] _ R (fills_host sqid q.(sq_cqid) e c.(command_id) r.(r_target) r.(r_status) r.(r_cb))) as X.
  change (io_workers d1 i) with (io_workers d i) in E. unfold __enqueue_io_req in E. rewrite E in X.
  injection X as -> ->. exact W.
Qed.

End dispatching.

(** ** Completions taken by the host *)

(** [n] entries of the ring from [i] on. *)
Fixpoint slice (n : nat) (size i : Z) : list Z :=
  match n with O => [] | S n => i :: slice n size (advance size i) end.

(** One request less in flight for every entry of [l]. *)
Fixpoint all_less (d : nvmev_dev) (r : ring) (l : list Z) : result nvmev_dev :=
  match l with
  | [] => Ok d
  | i :: l => d ← one_less d (r.(entries) i).(c_sq_id); all_less d r l
  end.

Definition names (r : ring) (s i : Z) : Prop := (r.(entries) i).(c_sq_id) = s.
#[export] Instance names_dec r s i : Decision (names r s i).
Proof. unfold names. apply _. Defined.

Definition ids_ok (r : ring) : Prop :=
  forall i, 0 <= i < r.(queue_size) -> 0 <= (r.(entries) i).(c_sq_id) <= NR_MAX_IO_QUEUE.

(** The queue [s] after [n] of its requests were taken. *)
Definition fewer (q q' : option submission_queue) (n : Z) : Prop :=
  match q, q' with
  | None, None => True
  | Some q, Some q' => u32 q'.(stat).(nr_in_flight) = u32 (q.(stat).(nr_in_flight) - n) /\
      q'.(sq_size) = q.(sq_size) /\ q'.(sq) = q.(sq)
  | _, _ => False
  end.

Lemma fewer_refl q : fewer q q 0.
Proof. destruct q; [|done]. cbn. by rewrite Z.sub_0_r. Qed.

Lemma fewer_trans q1 q2 q3 a b : fewer q1 q2 a -> fewer q2 q3 b -> fewer q1 q3 (a + b).
Proof.
  destruct q1, q2, q3; cbn; try done. intros (A1 & A2 & A3) (B1 & B2 & B3).
  split; [|by rewrite B2, B3]. rewrite B1. unfold u32, uw in *.
  rewrite <- Zminus_mod_idemp_l, A1, Zminus_mod_idemp_l. f_equal. lia.
Qed.

Lemma one_less_ok d s : 0 <= s <= NR_MAX_IO_QUEUE ->
  exists d', one_less d s = Ok d' /\ (forall t, fewer (d.(sqes) t) (d'.(sqes) t) (if decide (t = s) then 1 else 0)) /\
    d'.(cqes) = d.(cqes).
Proof.
  intros Hs. unfold one_less. rewrite (sq_at_ok d s _ Hs eq_refl). cbn [mbind result_mbind result_bind].
  destruct (sqes d s) as [q|] eqn:E.
  - eexists. split; [done|]. split; [|done]. intros t. cbn [put_sq set_sqes sqes]. rewrite upd_case.
    destruct (Z.eqb_spec t s) as [->|Hne]; [|rewrite decide_False by done; apply fewer_refl].
    rewrite decide_True, E by done. cbn. unfold u32, uw. by rewrite Zmod_mod.
  - exists d. split; [done|]. split; [|done]. intros t. destruct (decide (t = s)) as [->|].
    + by rewrite E.
    + apply fewer_refl.
Qed.

Lemma all_less_ok d r l :
  (forall i, i ∈ l -> 0 <= (r.(entries) i).(c_sq_id) <= NR_MAX_IO_QUEUE) ->
  exists d', all_less d r l = Ok d' /\
    (forall s, fewer (d.(sqes) s) (d'.(sqes) s) (Z.of_nat (length (filter (names r s) l)))) /\
    d'.(cqes) = d.(cqes).
Proof.
  revert d. induction l as [|i l IH]; intros d H; cbn [all_less].
  { exists d. split; [done|]. split; [|done]. intros s. apply fewer_refl. }
  destruct (one_less_ok d _ (H i ltac:(by left))) as (d1 & -> & F1 & C1). cbn [mbind result_mbind result_bind].
  destruct (IH d1) as (d' & -> & F & C). { intros j Hj. apply H. by right. }
  exists d'. split; [done|]. split; [|by rewrite C]. intros s. specialize (F1 s). rewrite filter_cons.
  destruct (decide (names r s i)) as [N|N]; unfold names in N.
  - rewrite decide_True in F1 by done. cbn [length]. rewrite Nat2Z.inj_succ, <- Z.add_1_l.
    by eapply fewer_trans.
  - rewrite decide_False in F1 by congruence. rewrite <- (Z.add_0_l (Z.of_nat _)). by eapply fewer_trans.
Qed.

Lemma slice_range n size i x : 0 <= i < size -> x ∈ slice n size i -> 0 <= x < size.
Proof.
  revert i. induction n as [|n IH]; intros i Hi Hx; cbn in Hx; [by apply elem_of_nil in Hx|].
  apply elem_of_cons in Hx as [->|Hx]; [done|]. apply (IH (advance size i)); [|done].
  rewrite advance_mod by done. apply Z.mod_pos_bound. lia.
Qed.

Lemma diff_mod i new s :
  0 <= i < s -> 0 <= new < s -> (new - i) mod s = if new - i <? 0 then new - i + s else new - i.
Proof. intros H1 H2. case_cmp; symmetry; [apply Z.mod_unique with (-1); lia|apply Z.mod_unique with 0; lia]. Qed.

(** The loop visits the entries of the slice; a wrap needs a cell after the last
    entry. *)
Lemma cq_loop_ok n fuel d r i new :
  ring_ok r -> ids_ok r -> 0 <= i < r.(queue_size) -> 0 <= new < r.(queue_size) ->
  Z.of_nat n = (new - i) mod r.(queue_size) -> (2 * n < fuel)%nat ->
  i <= new \/ r.(queue_size) < r.(room) ->
  cq_loop fuel d r i new = all_less d r (slice n r.(queue_size) i).
Proof.
  intros [R1 R2] Ids. revert fuel d i. induction n as [|n IH]; intros fuel d i Hi Hn En Hf Hw.
  - rewrite diff_mod in En by done. destruct fuel as [|fuel]; [lia|]. cbn.
    assert (i = new) as -> by (revert En; case_cmp; lia). by rewrite Z.eqb_refl.
  - destruct fuel as [|fuel]; [lia|]. cbn [cq_loop slice all_less].
    assert (Ne : i <> new) by (intros ->; rewrite Z.sub_diag, Z.mod_0_l in En by lia; lia).
    rewrite (proj2 (Z.eqb_neq _ _) Ne), cell_in by lia. cbn [mbind result_mbind result_bind].
    rewrite Z.geb_leb, (proj2 (Z.leb_gt _ _)) by lia.
    destruct (one_less_ok d _ (Ids i Hi)) as (d1 & -> & _). cbn [mbind result_mbind result_bind].
    rewrite diff_mod in En by done. unfold advance in *.
    destruct (Z.eqb_spec (i + 1) (queue_size r)) as [E|E].
    + assert (En' : Z.of_nat n = new) by (revert En; case_cmp; lia).
      destruct fuel as [|fuel]; [lia|]. cbn [cq_loop]. rewrite (proj2 (Z.eqb_neq (i + 1) new)) by lia.
      rewrite cell_in by lia. cbn [mbind result_mbind result_bind].
      rewrite Z.geb_leb, (proj2 (Z.leb_le _ _)) by lia.
      apply IH; try lia. by rewrite Z.sub_0_r, Z.mod_small by lia.
    + apply IH; try lia. rewrite diff_mod by lia. revert En. do 2 case_cmp; lia.
Qed.

Definition cq_ok (q : completion_queue) : Prop := ring_ok q.(cq_ring) /\ ids_ok q.(cq_ring).

(** Completion doorbell: when the host moves the doorbell of a completion queue from [old] to
    [new], every completion in between is accounted exactly once: the in-flight count of each
    submission queue drops by the number of them that name it, completions of deleted queues are
    ignored, and the tail of the queue stands just before the doorbell. *)
Theorem proc_io_cq_correct d cqid new old q :
  0 <= cqid <= NR_MAX_IO_QUEUE -> d.(cqes) cqid = Some q -> cq_ok q ->
  0 <= old < q.(cq_ring).(queue_size) -> 0 <= new < q.(cq_ring).(queue_size) ->
  old <= new \/ q.(cq_ring).(queue_size) < q.(cq_ring).(room) ->
  let taken := slice (Z.to_nat ((new - old) mod q.(cq_ring).(queue_size))) q.(cq_ring).(queue_size) old in
  exists d' q', nvmev_proc_io_cq (cq_fuel q.(cq_ring)) d cqid new old = Ok d' /\
    (forall s, fewer (d.(sqes) s) (d'.(sqes) s)
       (Z.of_nat (length (filter (names q.(cq_ring) s) taken)))) /\
    d'.(cqes) cqid = Some q' /\ q'.(cq_ring) = q.(cq_ring) /\ q'.(cq_tail) = new - 1.
Proof.
  intros Hc Hq [R Ids] Ho Hn Hw taken. pose proof R as [R1 R2].
  pose proof (Z.mod_pos_bound (new - old) _ R1) as B.
  unfold nvmev_proc_io_cq, cq_at. rewrite cell_in by lia. cbn [mbind result_mbind result_bind deref].
  rewrite Hq. cbn [mbind result_mbind result_bind deref].
  rewrite (cq_loop_ok (Z.to_nat ((new - old) mod q.(cq_ring).(queue_size)))) by (done || unfold cq_fuel; lia).
  fold taken. destruct (all_less_ok d q.(cq_ring) taken) as (d1 & -> & F & C).
  { intros i Hi. apply Ids. by apply (slice_range _ _ old i Ho Hi). }
  cbn [mbind result_mbind result_bind]. rewrite (proj2 (Z.eqb_neq new (-1))) by lia.
  eexists _, _. split; [done|]. cbn [put_cq set_cqes sqes cqes]. split; [exact F|].
  by rewrite upd_eq.
Qed.

Lemma one_less_cases d s : (exists d', one_less d s = Ok d') \/ exists e, one_less d s = Err e.
Proof. destruct (one_less d s); eauto. Qed.

Lemma cq_loop_past fuel d r i new :
  0 <= i <= r.(queue_size) -> r.(queue_size) < new -> forall d', cq_loop fuel d r i new <> Ok d'.
Proof.
  revert d i. induction fuel as [|fuel IH]; intros d i Hi Hn d'; [done|]. cbn [cq_loop].
  rewrite (proj2 (Z.eqb_neq i new)) by lia. destruct (cell (entries r) (room r) i) as [c|e]; [|done].
  cbn [mbind result_mbind result_bind]. rewrite Z.geb_leb. case_cmp; [by apply IH; lia|].
  destruct (one_less_cases d c.(c_sq_id)) as [[d1 ->]|[e ->]]; [|done].
  cbn [mbind result_mbind result_bind]. apply IH; lia.
Qed.

Lemma cq_loop_last fuel d r i new :
  0 <= new < i -> i <= r.(queue_size) -> r.(room) = r.(queue_size) ->
  forall d', cq_loop fuel d r i new <> Ok d'.
Proof.
  revert d i. induction fuel as [|fuel IH]; intros d i Hi Hs Hr d'; [done|]. cbn [cq_loop].
  rewrite (proj2 (Z.eqb_neq i new)) by lia.
  destruct (Z.eq_dec i r.(queue_size)) as [->|Hne].
  { unfold cell. rewrite Hr, Z.ltb_irrefl, andb_false_r. done. }
  rewrite cell_in by lia. cbn [mbind result_mbind result_bind]. rewrite Z.geb_leb, (proj2 (Z.leb_gt _ _)) by lia.
  destruct (one_less_cases d (r.(entries) i).(c_sq_id)) as [[d1 ->]|[e ->]]; [|done].
  cbn [mbind result_mbind result_bind]. apply IH; lia.
Qed.

(** Finding, completion doorbell: the loop has no answer for two doorbells a host can ring. A
    doorbell past the queue size never ends the walk, whatever the bound on its steps; and when the
    queue fills its pages exactly, a doorbell behind the old one makes it read the entry after the
    last before the wrap is noticed. *)
Theorem proc_io_cq_faults d cqid new old q fuel :
  0 <= cqid <= NR_MAX_IO_QUEUE -> d.(cqes) cqid = Some q -> 0 <= old < q.(cq_ring).(queue_size) ->
  q.(cq_ring).(queue_size) < new \/ (0 <= new < old /\ q.(cq_ring).(room) = q.(cq_ring).(queue_size)) ->
  forall d', nvmev_proc_io_cq fuel d cqid new old <> Ok d'.
Proof.
  intros Hc Hq Ho H d'. unfold nvmev_proc_io_cq, cq_at. rewrite cell_in by lia.
  cbn [mbind result_mbind result_bind]. rewrite Hq. cbn [mbind result_mbind result_bind deref].
  assert (X : forall d1, cq_loop fuel d q.(cq_ring) old new <> Ok d1).
  { destruct H as [H|[H1 H2]]; [apply cq_loop_past; lia|apply cq_loop_last; lia]. }
  destruct (cq_loop fuel d (cq_ring q) old new) as [d1|e]; [by destruct (X d1)|done].
Qed.

(** ** Interrupts *)

Section interrupts.
Context (id : Z) (trylock : Z -> bool).

(** The queues worker [id] signals. *)
Definition due (d : nvmev_dev) (i : Z) : bool :=
  match d.(cqes) i with
  | Some q => (u32 (i - 1) mod d.(nr_io_workers) =? id) && q.(irq_enabled) && trylock i && q.(interrupt_ready)
  | None => false
  end.

Definition acknowledged (p : option completion_queue) : option completion_queue :=
  match p with Some q => Some (set_ring q q.(cq_ring) false) | None => None end.

Definition vector_of (d : nvmev_dev) (i : Z) : Z :=
  match d.(cqes) i with Some q => q.(irq_vector) | None => 0 end.

Lemma irq_loop_ok n d qidx :
  0 < d.(nr_io_workers) -> 0 <= qidx -> qidx + Z.of_nat n <= NR_MAX_IO_QUEUE + 1 ->
  let mine := List.filter (due d) (seqZ qidx (Z.of_nat n)) in
  exists d', irq_loop n qidx id trylock d = Ok (d', map (vector_of d) mine) /\
    d' = set_cqes d d'.(cqes) /\
    forall i, d'.(cqes) i = if (qidx <=? i) && (i <? qidx + Z.of_nat n) && due d i
      then acknowledged (d.(cqes) i) else d.(cqes) i.
Proof.
  intros Hw. revert d qidx Hw. induction n as [|n IH]; intros d qidx Hw Hq Hn; cbn [irq_loop].
  { exists d. split; [done|]. split; [by destruct d|]. intros i.
    destruct (qidx <=? i) eqn:A, (i <? qidx + Z.of_nat 0) eqn:B; bool_to_prop; try done. lia. }
  unfold cq_at. rewrite cell_in by lia. unfold __get_io_worker. rewrite (proj2 (Z.eqb_neq _ 0)) by lia.
  cbn [mbind result_mbind result_bind].
  set (b := due d qidx).
  set (d1 := if b then set_cqes d (upd d.(cqes) qidx (acknowledged (d.(cqes) qidx))) else d).
  set (ev := if b then [vector_of d qidx] else []).
  replace (match cqes d qidx with Some q => _ | None => _ end) with (d1, ev).
  2:{ unfold d1, ev, b, due, vector_of, acknowledged. destruct (cqes d qidx) as [q|]; [|done].
      by destruct (_ && interrupt_ready q). }
  assert (N1 : d1 = set_cqes d d1.(cqes)) by (unfold d1; destruct b; by destruct d).
  assert (S1 : forall i, i <> qidx -> d1.(cqes) i = d.(cqes) i).
  { intros i Hi. unfold d1. destruct b; [|done]. cbn. by rewrite upd_ne. }
  assert (D1 : forall i, i <> qidx -> due d1 i = due d i /\ vector_of d1 i = vector_of d i).
  { intros i Hi. unfold due, vector_of. rewrite (S1 i Hi), N1. done. }
  destruct (IH d1 (qidx + 1)) as (d' & -> & N & C); [rewrite N1; cbn; lia|lia|lia|].
  cbn [mbind result_mbind result_bind]. exists d'.
  rewrite (seqZ_cons qidx) by lia. replace (Z.pred (Z.of_nat (S n))) with (Z.of_nat n) by lia.
  replace (Z.succ qidx) with (qidx + 1) by lia. cbn [List.filter]. fold b.
  assert (X : forall i, i ∈ seqZ (qidx + 1) (Z.of_nat n) -> i <> qidx) by (intros i Hi; apply elem_of_seqZ in Hi; lia).
  split; [|split].
  - do 2 f_equal. unfold ev. rewrite (filter_ext_in (due d) (due d1)).
    2:{ intros i Hi. symmetry. apply D1, X. by apply list_elem_of_In. }
    assert (map (vector_of d1) (List.filter (due d1) (seqZ (qidx + 1) (Z.of_nat n))) =
      map (vector_of d) (List.filter (due d1) (seqZ (qidx + 1) (Z.of_nat n)))) as ->; [|by destruct b].
    apply map_ext_in. intros i Hi. apply filter_In in Hi as [Hi _]. apply D1, X. by apply list_elem_of_In.
  - rewrite N, N1. done.
  - intros i. rewrite C. destruct (Z.eq_dec i qidx) as [->|Hi].
    + rewrite (proj2 (Z.leb_gt (qidx + 1) qidx)) by lia. cbn [andb].
      rewrite Z.leb_refl, (proj2 (Z.ltb_lt _ _)) by lia. cbn [andb]. fold b. unfold d1.
      destruct b; [|done]. cbn. by rewrite upd_eq.
    + rewrite (S1 i Hi), (proj1 (D1 i Hi)). replace (qidx + 1 <=? i) with (qidx <=? i) by lia.
      by replace (qidx + 1 + Z.of_nat n) with (qidx + Z.of_nat (S n)) by lia.
Qed.

(** Interrupts: a pass of a worker over the completion queues signals, once each and in order
    of their ids, the queues of its own that have new completions, interrupts enabled and a free
    lock, and marks exactly these as quiet.  The pass goes over the ids up to the number of queues
    agreed with the host: a queue with a larger id is never signalled. *)
Theorem signal_irqs_correct d :
  0 < d.(nr_io_workers) -> 0 <= d.(nr_cq) <= NR_MAX_IO_QUEUE ->
  exists d', signal_irqs id trylock d =
      Ok (d', map (vector_of d) (List.filter (due d) (seqZ 1 d.(nr_cq)))) /\
    d' = set_cqes d d'.(cqes) /\
    (forall i, 1 <= i <= d.(nr_cq) ->
       d'.(cqes) i = if due d i then acknowledged (d.(cqes) i) else d.(cqes) i) /\
    (forall i, d.(nr_cq) < i -> d'.(cqes) i = d.(cqes) i).
Proof.
  intros Hw Hn. unfold signal_irqs.
  destruct (irq_loop_ok (Z.to_nat d.(nr_cq)) d 1) as (d' & E & N & C); try lia.
  rewrite Z2Nat.id in * by lia. exists d'. split; [exact E|]. split; [exact N|].
  split; intros i Hi; rewrite C.
  - by rewrite (proj2 (Z.leb_le _ _)), (proj2 (Z.ltb_lt _ _)) by lia.
  - rewrite (proj2 (Z.ltb_ge _ _)), andb_false_r by lia. done.
Qed.

End interrupts.

(** ** Witnesses *)

Definition ex_cmd (c : Z) : nvme_command := mk_nvme 2 c 1 0 0 4096 0 0 0 7 [].
Definition ex_work (c : Z) : io_work :=
  mk_work 1 1 0 c 100 true true 0 0 0 false None false None NIL NIL.
Definition ex_ring : ring := mk_ring 4 0 1 256 (fun i => mk_cqe 0 0 0 (if i =? 2 then 2 else 1) 0 0).
Definition ex_cq : completion_queue := mk_cq 1 1 true false ex_ring (-1).
Definition ex_sq : submission_queue := mk_sq 1 1 4 64 (mk_stat 9 2 2 2 0) (fun i => ex_cmd (10 + i)).
Definition ex_dev (w : io_worker) : nvmev_dev :=
  mk_dev (fun _ => w) 1 (fun i => if i =? 1 then Some ex_sq else None)
    (fun i => if i =? 1 then Some ex_cq else None) 1 1 (fun _ => 0) (fun _ => 0) 0.

(** A translation layer that counts the commands and takes all of them. *)
Definition ex_ftl (f : nat) (_ : Z) (c : nvme_command) (t : Z) : option (nat * nvme_command * nvmev_result) :=
  Some (S f, c, mk_result 0 (t + 50) false).

Lemma init_inv : queue_inv worker_init.
Proof. exists [], (seqZ 0 NR_MAX_PARALLEL_IO). split; [apply init_represents|constructor]. Qed.

Lemma ex_dev_inv w : queue_inv w -> workers_inv (ex_dev w).
Proof. by split. Qed.

(** Six completions in a queue of four: entry 1 holds the sixth, with the tag of
    the second lap. *)
Lemma fill_cq_correct_witness :
  exists q, fill_all ex_cq (map ex_work [10; 11; 12; 13; 14; 15]) = Ok q /\
    q.(cq_ring).(entries) 1 = cqe_of (ex_work 15) 0 /\ q.(cq_ring).(entries) 3 = cqe_of (ex_work 13) 1.
Proof.
  destruct (fill_cq_correct ex_cq (map ex_work [10; 11; 12; 13; 14; 15])) as (q & E & H & _); [by split|done|].
  exists q. split; [exact E|]. split.
  - by apply (hc_entries _ _ _ H 5).
  - by apply (hc_entries _ _ _ H 3).
Defined.

Lemma completion_race_witness :
  exists q1 q2, fill_end ex_cq (fill_begin ex_cq) (ex_work 10) = Ok q1 /\
    fill_end q1 (fill_begin ex_cq) (ex_work 11) = Ok q2 /\
    q2.(cq_ring).(entries) 0 = cqe_of (ex_work 11) q1.(cq_ring).(phase) /\ q2.(cq_ring).(cq_head) = 1.
Proof.
  destruct (completion_race ex_cq (ex_work 10) (ex_work 11)) as (q1 & q2 & E1 & E2 & H & Hh); [by split|by split|].
  exists q1, q2. split; [exact E1|]. split; [exact E2|]. split; [apply H|].
  rewrite Hh. cbn in E1. by injection E1 as <-.
Defined.

(** From entry 3 round the end of the queue to entry 1: two commands. *)
Lemma proc_io_sq_correct_witness :
  exists d' q', nvmev_proc_io_sq ex_ftl (fun k => 100 + Z.of_nat k) (ex_dev worker_init) 0%nat 1 1 3 =
      Ok (1, d', 2%nat) /\ d'.(sqes) 1 = Some q' /\ u32 q'.(stat).(nr_in_flight) = 4.
Proof.
  assert (I : queue_inv worker_init) by apply init_inv.
  pose proof (proc_io_sq_correct ex_ftl (fun k => 100 + Z.of_nat k) (ex_dev worker_init) 0%nat 1 1 3 ex_sq
    (ex_dev_inv _ I) ltac:(done) eq_refl ltac:(done) ltac:(done) ltac:(done)) as P.
  change (Z.to_nat _) with 2%nat in P. lazy beta iota zeta delta [handled ex_ftl] in P.
  destruct P as (d' & q' & E & _ & S & _ & _ & _ & _ & F).
  exists d', q'. split; [exact E|]. split; [exact S|exact F].
Defined.

(** All entries but the last in flight. *)
Definition ex_full : io_worker :=
  mk_worker (fun e => set_prev (set_next (ex_work e) (if e =? 16382 then NIL else if e =? 16383 then NIL else e + 1))
      (if e =? 0 then NIL else e - 1)) 16383 16383 0 16382 0.

Lemma prev_chain_seq q i n p :
  (forall j, i <= j < i + Z.of_nat n -> (q j).(prev) = if j =? i then p else j - 1) ->
  prev_chain q p (seqZ i (Z.of_nat n)).
Proof.
  revert i p. induction n as [|n IH]; intros i p H; [done|].
  rewrite seqZ_cons by lia. replace (Z.pred (Z.of_nat (S n))) with (Z.of_nat n) by lia. cbn [prev_chain].
  split; [rewrite H by lia; by rewrite Z.eqb_refl|]. apply IH. intros j Hj. rewrite H by lia.
  rewrite (proj2 (Z.eqb_neq j i)) by lia. destruct (Z.eqb_spec j (Z.succ i)); lia.
Qed.

Lemma ex_full_represents : represents ex_full (seqZ 0 16383) [16383].
Proof.
  split.
  - rewrite NR_io. replace 16384 with (16383 + 1) by lia. rewrite seqZ_app by lia. done.
  - change 16383 with (Z.of_nat (Z.to_nat 16383)). apply next_chain_seq. intros j Hj.
    rewrite Z2Nat.id in * by lia. cbn [work_queue ex_full next set_next set_prev].
    change (0 + 16383 - 1) with 16382. destruct (Z.eqb_spec j 16382); [done|]. destruct (Z.eqb_spec j 16383); [lia|done].
  - change 16383 with (Z.of_nat (Z.to_nat 16383)). by apply prev_chain_seq.
  - by split.
  - rewrite seqZ_cons by lia. reflexivity.
  - intros _. rewrite seqZ_last by lia. reflexivity.
  - by split.
  - reflexivity.
  - reflexivity.
Qed.

Lemma ex_full_inv : queue_inv ex_full.
Proof.
  exists (seqZ 0 16383), [16383]. split; [apply ex_full_represents|].
  unfold in_order. generalize (seqZ 0 16383). induction l as [|x l IH]; constructor; [exact IH|].
  apply Forall_forall. intros y _. reflexivity.
Qed.

Lemma full_queue_drops_command_witness :
  exists d' io_size, __nvmev_proc_io ex_ftl (fun k => 100 + Z.of_nat k) (ex_dev ex_full) 0%nat 1 2 =
      Ok (Some io_size, d', 1%nat) /\ reclaim ex_full = Ok (d'.(io_workers) 0).
Proof.
  assert (I : queue_inv ex_full) by apply ex_full_inv.
  destruct (full_queue_drops_command ex_ftl (fun k => 100 + Z.of_nat k) (ex_dev ex_full) 0%nat 1 2 ex_sq
    1%nat (ex_cmd 12) (mk_result 0 150 false) (seqZ 0 16383) 16383) as (d' & n & E & R).
  1: by apply ex_dev_inv.
  1-4: by repeat split.
  1: apply ex_full_represents.
  exists d', n. split; [exact E|exact R].
Defined.

(** From entry 1 round to entry 0: entries 1, 2 and 3, of which 2 belongs to a
    queue that is gone. *)
Lemma proc_io_cq_correct_witness :
  exists d' q', nvmev_proc_io_cq (cq_fuel ex_ring) (ex_dev worker_init) 1 0 1 = Ok d' /\
    d'.(sqes) 1 = Some q' /\ u32 q'.(stat).(nr_in_flight) = 0.
Proof.
  destruct (proc_io_cq_correct (ex_dev worker_init) 1 0 1 ex_cq) as (d' & q0 & E & F & _).
  1, 2: by repeat split.
  1: split; [by split|intros i _; cbn; destruct (i =? 2); unfold NR_MAX_IO_QUEUE; lia].
  1, 2: by repeat split.
  1: by right.
  specialize (F 1). change (d'.(sqes) 1) with (sqes d' 1) in F.
  destruct (sqes d' 1) as [q'|] eqn:S; [|done]. exists d', q'. split; [exact E|]. split; [exact S|apply F].
Defined.

(** A doorbell past the end of the queue, and one behind the old one in a queue
    of whole pages. *)
Lemma proc_io_cq_faults_witness :
  nvmev_proc_io_cq 1000 (ex_dev worker_init) 1 5 0 <> Ok (ex_dev worker_init) /\
  nvmev_proc_io_cq 1000 (put_cq (ex_dev worker_init) 1
      (set_ring ex_cq (mk_ring 256 0 1 256 ex_ring.(entries)) false)) 1 3 250 <> Ok (ex_dev worker_init).
Proof.
  split.
  - apply (proc_io_cq_faults _ 1 5 0 ex_cq); try done. by left.
  - eapply proc_io_cq_faults; [done|reflexivity|done|]. right. done.
Defined.

(** Queue 2 is ready: it is signalled when two queues were agreed on, not when one
    was. *)
Definition ex_irq_dev (n : Z) : nvmev_dev :=
  set_nr_queues (set_cqes (ex_dev worker_init) (fun i =>
    if i =? 2 then Some (set_ring ex_cq ex_ring true) else None)) 1 n.

Lemma signal_irqs_correct_witness :
  (exists d', signal_irqs 0 (fun _ => true) (ex_irq_dev 1) = Ok (d', [])) /\
  (exists d', signal_irqs 0 (fun _ => true) (ex_irq_dev 2) = Ok (d', [1])).
Proof.
  split.
  - destruct (signal_irqs_correct 0 (fun _ => true) (ex_irq_dev 1)) as (d' & E & _); [done|done|]. by exists d'.
  - destruct (signal_irqs_correct 0 (fun _ => true) (ex_irq_dev 2)) as (d' & E & _); [done|done|]. by exists d'.
Defined.
