(* ===== verification/Prp.v ===== *)
(** * Moving the data of a command ([io.c])

    The host describes the buffer of a command by physical region pages: [prp1]
    may start anywhere in a page; if at most one page is left after it, [prp2]
    is that page, otherwise [prp2] is the address of a list of the remaining
    pages.  This file models the copy loop of key-value commands and the
    scatter list of the DMA engine, and shows that both move exactly the bytes
    of the buffer in order. *)

From S2P Require Import Prelude WorkQueue Queues.

Definition PAGE_OFFSET_MASK : Z := PAGE_SIZE - 1.
Definition PAGE_SHIFT : Z := 12.
Definition PRP_PFN (x : Z) : Z := Z.shiftr x PAGE_SHIFT.

Definition nvme_cmd_write : Z := 1.
Definition nvme_cmd_read : Z := 2.
Definition nvme_cmd_zone_append : Z := 125.
Definition nvme_cmd_kv_store : Z := 129.
Definition nvme_cmd_kv_append : Z := 131.
Definition nvme_cmd_kv_batch : Z := 133.
Definition nvme_cmd_kv_retrieve : Z := 144.
Definition nvme_cmd_kv_delete : Z := 161.

(** ** Memory

    Bytes of host memory by physical address, and bytes of the kernel's memory
    by virtual address, of which [map_lo] to [map_hi] is mapped: the storage
    and the buffers that command offsets point into. *)

Record memory := mk_memory { host : Z -> Z; kern : Z -> Z; map_lo : Z; map_hi : Z }.

Definition memcpy (dst src : Z -> Z) (d s n : Z) : Z -> Z :=
  fun a => if (d <=? a) && (a <? d + n) then src (s + (a - d)) else dst a.

Definition mapped (m : memory) (a n : Z) : bool := (m.(map_lo) <=? a) && (a + n <=? m.(map_hi)).

Variant transfer := ToDevice | ToHost.

(** Copy [n] bytes between the host address [pa] and the kernel address [va]. *)
Definition copy (t : transfer) (m : memory) (pa va n : Z) : result memory :=
  if negb (mapped m va n) then Err OOB else
  Ok match t with
     | ToDevice => mk_memory m.(host) (memcpy m.(kern) m.(host) va pa n) m.(map_lo) m.(map_hi)
     | ToHost => mk_memory (memcpy m.(host) m.(kern) pa va n) m.(kern) m.(map_lo) m.(map_hi)
     end.

(** The little-endian number in [n] bytes from [a] on. *)
Fixpoint le_bytes (n : nat) (h : Z -> Z) (a : Z) : Z :=
  match n with O => 0 | S n => h a + 256 * le_bytes n h (a + 1) end.
Definition rd64 (h : Z -> Z) (a : Z) : Z := le_bytes 8 h a.

(** [__do_perform_internal_copy]. *)
Definition __do_perform_internal_copy (m : memory) (base ppa dst len : Z) (read : bool) : result (Z * memory) :=
  if negb (mapped m (base + ppa) len && mapped m dst len) then Err OOB else
  let k := if read then memcpy m.(kern) m.(kern) dst (base + ppa) len
           else memcpy m.(kern) m.(kern) (base + ppa) dst len in
  Ok (0, mk_memory m.(host) k m.(map_lo) m.(map_hi)).

(** ** The fields of a key-value command *)

Definition value_len (c : nvme_command) : Z := c.(cdw10).
Definition key_len (c : nvme_command) : Z := c.(cdw11) mod 256.
Definition invalid_byte (c : nvme_command) : Z := (c.(cdw11) / 65536) mod 4.
Definition set_offset (c : nvme_command) (o : Z) : nvme_command :=
  mk_nvme c.(opcode) c.(Queues.command_id) c.(nsid) c.(rsvd) o c.(prp1) c.(prp2)
    c.(cdw10) c.(cdw11) c.(cdw12) c.(key).

Definition cmd_key_length (c : nvme_command) : Z :=
  if c.(opcode) =? nvme_cmd_kv_store then key_len c + 1
  else if c.(opcode) =? nvme_cmd_kv_retrieve then key_len c + 1
  else if c.(opcode) =? nvme_cmd_kv_delete then key_len c + 1
  else key_len c + 1.

(** ** Walking the region pages *)

(** [paddr_list[j]]: one page of the list is mapped. *)
Definition read_list (h : Z -> Z) (lst : option Z) (j : Z) : result Z :=
  match lst with
  | None => Err NULLPTR
  | Some a => if a mod PAGE_SIZE + 8 * j + 8 <=? PAGE_SIZE then Ok (rd64 h (a + 8 * j)) else Err OOB
  end.

(** The address for round [prp_offs] of the loops, the list and the index of
    its next entry. *)
Definition next_prp (h : Z -> Z) (c : nvme_command) (remaining prp_offs prp2_offs : Z) (lst : option Z)
    : result (Z * option Z * Z) :=
  if prp_offs =? 1 then Ok (c.(prp1), lst, prp2_offs)
  else if prp_offs =? 2 then
    if PAGE_SIZE <? remaining then
      let lst := Some c.(prp2) in
      paddr ← read_list h lst prp2_offs; Ok (paddr, lst, prp2_offs + 1)
    else Ok (c.(prp2), lst, prp2_offs)
  else paddr ← read_list h lst prp2_offs; Ok (paddr, lst, prp2_offs + 1).

(** The offset into the page and the number of bytes for it. *)
Definition segment (paddr remaining : Z) : Z * Z :=
  let io_size := Z.min remaining PAGE_SIZE in
  let mem_offs := Z.land paddr PAGE_OFFSET_MASK in
  if mem_offs =? 0 then (0, io_size)
  else (mem_offs, if io_size + mem_offs >? PAGE_SIZE then PAGE_SIZE - mem_offs else io_size).

(** The copy loop of [__do_perform_io_kv]. *)
Fixpoint kv_loop (fuel : nat) (t : transfer) (c : nvme_command) (m : memory)
    (prp_offs prp2_offs : Z) (lst : option Z) (offset remaining : Z) : result memory :=
  match fuel with
  | O => Err HANG
  | S fuel =>
      if remaining =? 0 then Ok m else
      let prp_offs := prp_offs + 1 in
      '(paddr, lst, prp2_offs) ← next_prp m.(host) c remaining prp_offs prp2_offs lst;
      let vaddr := Z.shiftl (PRP_PFN paddr) PAGE_SHIFT in
      let '(mem_offs, io_size) := segment paddr remaining in
      m ← copy t m (vaddr + mem_offs) offset io_size;
      kv_loop fuel t c m prp_offs prp2_offs lst (u64 (offset + io_size)) (remaining - io_size)
  end.

(** Every round moves at least one byte. *)
Definition kv_fuel (length : Z) : nat := S (Z.to_nat length).

(** [__do_perform_io_kv]: the result for the completion, the command as it is
    left in the queue, and the memory.  The offset of the command is a kernel
    address, or a mark for a command that failed before. *)
Definition __do_perform_io_kv (c : nvme_command) (m : memory) : result (Z * nvme_command * memory) :=
  let op := c.(opcode) in
  if (op =? nvme_cmd_kv_delete) || (op =? nvme_cmd_kv_batch) then Ok (0, c, m) else
  let klen := u8 (cmd_key_length c) in
  '(t, length) ←
    (if op =? nvme_cmd_kv_retrieve then Ok (ToHost, value_len c)
     else if (op =? nvme_cmd_kv_store) || (op =? nvme_cmd_kv_append) then
       Ok (ToDevice, u32 (u32 (Z.shiftl (value_len c) 2) - invalid_byte c))
     else Err BUG);
  let offset := c.(rsvd) in
  if offset =? UINT_MAX - 1 then Ok (length, c, m)
  else if offset =? U64_MAX then Ok (0, c, m) else
  m ← kv_loop (kv_fuel length) t c m 0 0 None offset length;
  let c' := set_offset c (u32 (c.(Queues.offset) - (1 + klen + 4))) in
  if op =? nvme_cmd_kv_retrieve then Ok (length, c', m)
  else if op =? nvme_cmd_kv_store then Ok (0, c, m)
  else Ok (c'.(Queues.offset), c', m).

(** [__do_perform_io] answers with the length before its copy loop. *)
Definition __do_perform_io (c : nvme_command) : Z := u32 (Z.shiftl (rw_length c + 1) 9).

(** ** The scatter list of the DMA engine *)

Definition PRP_LIST_LEN : Z := 513.

(** The first loop of [__do_perform_io_using_dma]: the number of pages and
    their addresses, from index 1 on. *)
Fixpoint dma_scan (fuel : nat) (h : Z -> Z) (c : nvme_command) (paddr_list : Z -> Z)
    (prp_offs prp2_offs : Z) (lst : option Z) (remaining : Z) : result (Z * (Z -> Z)) :=
  match fuel with
  | O => Err HANG
  | S fuel =>
      if remaining =? 0 then Ok (prp_offs, paddr_list) else
      let prp_offs := prp_offs + 1 in
      '(paddr, lst, prp2_offs) ← next_prp h c remaining prp_offs prp2_offs lst;
      paddr_list ← modify paddr_list PRP_LIST_LEN prp_offs (fun _ => Ok paddr);
      let '(_, io_size) := segment paddr remaining in
      dma_scan fuel h c paddr_list prp_offs prp2_offs lst (remaining - io_size)
  end.

(** Pages that follow each other in memory are moved in one transfer: [n] are
    left to look at. *)
Fixpoint dma_run (n : nat) (paddr_list : Z -> Z) (prp_offs page_size : Z) : Z * Z :=
  match n with
  | O => (prp_offs, page_size)
  | S n =>
      if paddr_list prp_offs =? u64 (paddr_list (prp_offs - 1) + PAGE_SIZE)
      then dma_run n paddr_list (prp_offs + 1) (page_size + PAGE_SIZE) else (prp_offs, page_size)
  end.

(** The second loop: the transfers submitted, as source, target and size. *)
Fixpoint dma_loop (fuel : nat) (op : Z) (paddr_list : Z -> Z) (num_prps prp_offs storage_start offset remaining : Z)
    : result (list (Z * Z * Z)) :=
  match fuel with
  | O => Err HANG
  | S fuel =>
      if remaining =? 0 then Ok [] else
      paddr ← cell paddr_list PRP_LIST_LEN prp_offs;
      let '(_, page_size) := segment paddr remaining in
      let '(prp_offs, page_size) :=
        dma_run (Z.to_nat (num_prps - prp_offs)) paddr_list (prp_offs + 1) page_size in
      let io_size := Z.min remaining page_size in
      let dev := storage_start + offset in
      let submit := if (op =? nvme_cmd_write) || (op =? nvme_cmd_zone_append) then [(paddr, dev, io_size)]
                    else if op =? nvme_cmd_read then [(dev, paddr, io_size)] else [] in
      rest ← dma_loop fuel op paddr_list num_prps prp_offs storage_start (offset + io_size) (remaining - io_size);
      Ok (submit ++ rest)
  end.

(** [slba] is dwords 10 and 11. *)
Definition slba (c : nvme_command) : Z := c.(cdw10) + 4294967296 * c.(cdw11).

Definition __do_perform_io_using_dma (c : nvme_command) (h : Z -> Z) (storage_start : Z)
    : result (Z * list (Z * Z * Z)) :=
  let offset := u64 (Z.shiftl (slba c) 9) in
  let length := Z.shiftl (rw_length c + 1) 9 in
  '(num_prps, paddr_list) ← dma_scan (kv_fuel length) h c (fun _ => 0) 0 0 None length;
  ts ← dma_loop (kv_fuel length) c.(opcode) paddr_list num_prps 1 storage_start offset length;
  Ok (length, ts).

(** ** Segments *)

Lemma PAGE_val : PAGE_SIZE = 4096.
Proof. reflexivity. Qed.

Lemma land_page x : Z.land x PAGE_OFFSET_MASK = x mod PAGE_SIZE.
Proof. change PAGE_OFFSET_MASK with (Z.ones 12). rewrite Z.land_ones by lia. reflexivity. Qed.

Lemma page_base x : Z.shiftl (PRP_PFN x) PAGE_SHIFT + x mod PAGE_SIZE = x.
Proof.
  unfold PRP_PFN, PAGE_SHIFT. rewrite Z.shiftl_mul_pow2, Z.shiftr_div_pow2 by lia.
  change (2 ^ 12) with PAGE_SIZE. pose proof (Z.div_mod x PAGE_SIZE ltac:(done)). lia.
Qed.

Lemma segment_ok x r :
  0 < r -> segment x r = (x mod PAGE_SIZE, Z.min r (PAGE_SIZE - x mod PAGE_SIZE)).
Proof.
  intros Hr. unfold segment. rewrite land_page. rewrite PAGE_val.
  pose proof (Z.mod_pos_bound x 4096 ltac:(lia)). rewrite Z.gtb_ltb. case_cmp.
  - by replace (x mod 4096) with 0; f_equal; lia.
  - f_equal. case_cmp; lia.
Qed.

Lemma segment_pos x r : 0 < r -> 0 < (segment x r).2 <= r.
Proof.
  intros Hr. rewrite segment_ok by done. cbn. pose proof (Z.mod_pos_bound x PAGE_SIZE ltac:(done)). lia.
Qed.

(** The loop always comes to an end: whatever the host wrote into the command
    and the list. *)
Lemma kv_loop_ends fuel t c m p1 p2 lst offset remaining :
  0 <= remaining < Z.of_nat fuel -> kv_loop fuel t c m p1 p2 lst offset remaining <> Err HANG.
Proof.
  revert m p1 p2 lst offset remaining. induction fuel as [|fuel IH]; intros m p1 p2 lst offset remaining H; [lia|].
  cbn [kv_loop]. destruct (Z.eqb_spec remaining 0); [done|].
  assert (L : forall h l j, read_list h l j <> Err HANG).
  { intros h l j. unfold read_list. destruct l; [by destruct (_ <=? _)|done]. }
  destruct (next_prp (host m) c remaining (p1 + 1) p2 lst) as [[[x l] q]|e] eqn:E; cbn [mbind result_mbind result_bind].
  - pose proof (segment_pos x remaining ltac:(lia)). destruct (segment x remaining) as [mo io]. cbn in H0.
    unfold copy. destruct (negb (mapped m offset io)); [done|]. cbn [mbind result_mbind result_bind].
    apply IH. lia.
  - intros [= ->]. unfold next_prp in E. destruct (p1 + 1 =? 1); [done|].
    destruct (p1 + 1 =? 2); [destruct (PAGE_SIZE <? remaining); [|done]|].
    + destruct (read_list (host m) (Some (prp2 c)) p2) eqn:R; cbn in E; [done|]. injection E as ->. by apply L in R.
    + destruct (read_list (host m) lst p2) eqn:R; cbn in E; [done|]. injection E as ->. by apply L in R.
Qed.

(** ** The buffer a command describes *)

Section buffer.
Context (c : nvme_command) (h : Z -> Z) (len : Z).

(** The bytes in the first page, and the pages after it. *)
Definition first_part : Z := PAGE_SIZE - c.(prp1) mod PAGE_SIZE.
Definition listed : bool := PAGE_SIZE <? len - first_part.
Definition page_addr (p : Z) : Z := if listed then rd64 h (c.(prp2) + 8 * p) else c.(prp2).

(** The host address of byte [k] of the buffer. *)
Definition buf_addr (k : Z) : Z :=
  if k <? first_part then c.(prp1) + k
  else page_addr ((k - first_part) / PAGE_SIZE) + (k - first_part) mod PAGE_SIZE.

(** Page [p] after the first one is needed. *)
Definition needed (p : Z) : Prop := 0 <= p /\ first_part + PAGE_SIZE * p < len.

(** What the standard asks of the host: pages after the first start at a page
    boundary, and the list of a transfer lies in one page. *)
Record prp_ok : Prop := {
  po_aligned : forall p, needed p -> page_addr p mod PAGE_SIZE = 0;
  po_list : listed = true -> forall p, needed p -> c.(prp2) mod PAGE_SIZE + 8 * p + 8 <= PAGE_SIZE
}.

(** Memory in which the list is as in [h]. *)
Definition same_list (h' : Z -> Z) : Prop :=
  listed = true -> forall p, needed p -> rd64 h' (c.(prp2) + 8 * p) = rd64 h (c.(prp2) + 8 * p).

(** The loop variables before the round that moves byte [pos]. *)
Definition at_byte (pos p1 p2 : Z) (lst : option Z) : Prop :=
  (pos = 0 /\ p1 = 0 /\ p2 = 0 /\ lst = None) \/
  (exists p, 0 <= p /\ pos = first_part + PAGE_SIZE * p /\ p1 = p + 1 /\
     (p = 0 -> p2 = 0 /\ lst = None) /\ (0 < p -> p2 = p /\ lst = Some c.(prp2))) \/
  pos = len.

Lemma first_part_range : 0 < first_part <= PAGE_SIZE.
Proof. unfold first_part. pose proof (Z.mod_pos_bound c.(prp1) PAGE_SIZE ltac:(done)). lia. Qed.

(** One round: the address is that of byte [pos], and the bytes moved lie side
    by side. *)
Lemma round_ok h' pos p1 p2 lst :
  prp_ok -> same_list h' -> 0 <= pos < len -> at_byte pos p1 p2 lst ->
  exists lst' p2', let n := Z.min (len - pos) (PAGE_SIZE - buf_addr pos mod PAGE_SIZE) in
    next_prp h' c (len - pos) (p1 + 1) p2 lst = Ok (buf_addr pos, lst', p2') /\
    (forall j, 0 <= j < n -> buf_addr (pos + j) = buf_addr pos + j) /\
    at_byte (pos + n) (p1 + 1) p2' lst'.
Proof.
  intros [A L] S Hp Hat. pose proof first_part_range as F. pose proof PAGE_val as PV.
  destruct Hat as [(-> & -> & -> & ->)|[(p & Hp0 & Ep & -> & P0 & P1)|]]; [| |lia].
  - exists None, 0. cbv zeta. assert (E0 : buf_addr 0 = c.(prp1)).
    { unfold buf_addr. rewrite (proj2 (Z.ltb_lt _ _)) by lia. lia. }
    rewrite E0. fold first_part. split; [done|]. split.
    + intros j Hj. unfold buf_addr. rewrite (proj2 (Z.ltb_lt _ _)) by lia. lia.
    + destruct (Z.le_gt_cases (len - 0) first_part); [right; right; lia|].
      right; left. exists 0. repeat split; lia.
  - assert (Hn : needed p) by (unfold needed; lia).
    assert (Eb : forall j, 0 <= j < PAGE_SIZE -> buf_addr (pos + j) = page_addr p + j).
    { intros j Hj. unfold buf_addr. rewrite (proj2 (Z.ltb_ge _ _)) by lia.
      replace (pos + j - first_part) with (p * PAGE_SIZE + j) by lia.
      rewrite Z.div_add_l, Z.div_small, Z.add_0_r by lia.
      by rewrite (Z.add_comm (p * PAGE_SIZE) j), Z.mod_add, Z.mod_small by lia. }
    assert (E0 : buf_addr pos = page_addr p) by (rewrite <- (Z.add_0_r pos), Eb by lia; lia).
    rewrite E0, (A p Hn), Z.sub_0_r.
    assert (Nx : exists lst' p2', next_prp h' c (len - pos) (p + 1 + 1) p2 lst = Ok (page_addr p, lst', p2') /\
      (PAGE_SIZE < len - pos -> p2' = p + 1 /\ lst' = Some c.(prp2))).
    { unfold next_prp. rewrite (proj2 (Z.eqb_neq _ 1)) by lia. unfold page_addr, listed in *.
      destruct (Z.eqb_spec (p + 1 + 1) 2).
      - assert (p = 0) as -> by lia. destruct (P0 eq_refl) as [-> ->].
        replace (len - pos) with (len - first_part) by lia. destruct (Z.ltb_spec PAGE_SIZE (len - first_part)).
        + unfold read_list. rewrite (proj2 (Z.leb_le _ _)) by (apply (L ltac:(done) 0 Hn)).
          cbn [mbind result_mbind result_bind]. rewrite (S ltac:(by apply Z.ltb_lt) 0 Hn).
          by eexists _, _.
        + eexists _, _. split; [done|lia].
      - destruct (P1 ltac:(lia)) as [-> ->]. assert (Hl : (PAGE_SIZE <? len - first_part) = true).
        { apply Z.ltb_lt. lia. }
        rewrite Hl in *. unfold read_list. rewrite (proj2 (Z.leb_le _ _)) by (apply (L eq_refl p Hn)).
        cbn [mbind result_mbind result_bind]. rewrite (S Hl p Hn). by eexists _, _. }
    destruct Nx as (lst' & p2' & Nx & Nl). exists lst', p2'. cbv zeta. split; [exact Nx|]. split.
    + intros j Hj. apply Eb. lia.
    + destruct (Z.le_gt_cases (len - pos) PAGE_SIZE); [right; right; lia|].
      right; left. exists (p + 1). destruct (Nl ltac:(lia)). repeat split; try done; lia.
Qed.

End buffer.

(** ** The copy loop *)

Section moving.
Context (c : nvme_command) (m0 : memory) (len base : Z).

#[local] Abbreviation addr := (buf_addr c m0.(host) len).

(** The first [pos] bytes were moved, nothing else was written. *)
Definition moved (t : transfer) (m : memory) (pos : Z) : Prop :=
  m.(map_lo) = m0.(map_lo) /\ m.(map_hi) = m0.(map_hi) /\
  match t with
  | ToDevice => m.(host) = m0.(host) /\
      forall a, m.(kern) a = if (base <=? a) && (a <? base + pos) then m0.(host) (addr (a - base)) else m0.(kern) a
  | ToHost => m.(kern) = m0.(kern) /\
      (forall k, 0 <= k < pos -> m.(host) (addr k) = m0.(kern) (base + k)) /\
      (forall a, (forall k, 0 <= k < pos -> addr k <> a) -> m.(host) a = m0.(host) a)
  end.

(** For a transfer to the host: no byte of the buffer is named twice, and the
    buffer does not hold the page list. *)
Record disjoint_buffer : Prop := {
  db_once : forall k k', 0 <= k < len -> 0 <= k' < len -> addr k = addr k' -> k = k';
  db_list : listed c len = true -> forall p k i, needed c len p -> 0 <= k < len -> 0 <= i < 8 ->
    addr k <> c.(prp2) + 8 * p + i
}.

Definition buffer_fine (t : transfer) : Prop := match t with ToDevice => True | ToHost => disjoint_buffer end.

Lemma le_bytes_ext n h h' a : (forall i, a <= i < a + Z.of_nat n -> h i = h' i) -> le_bytes n h a = le_bytes n h' a.
Proof.
  revert a. induction n as [|n IH]; intros a H; cbn [le_bytes]; [done|].
  rewrite (H a), (IH (a + 1)) by (intros; apply H || lia; lia). done.
Qed.

Lemma moved_list t m pos : buffer_fine t -> pos <= len -> moved t m pos -> same_list c m0.(host) len m.(host).
Proof.
  intros B Hp (_ & _ & M) Hl p Hn. destruct t; [by destruct M as [-> _]|].
  destruct M as (_ & _ & M), B as [_ D]. apply le_bytes_ext. intros i Hi. apply M. intros k Hk.
  replace i with (c.(prp2) + 8 * p + (i - (c.(prp2) + 8 * p))) by lia. apply D; [done..|lia|lia].
Qed.

Lemma memcpy_case dst src d s n a :
  memcpy dst src d s n a = if (d <=? a) && (a <? d + n) then src (s + (a - d)) else dst a.
Proof. reflexivity. Qed.

(** A segment more. *)
Lemma copy_ok t m pos n :
  buffer_fine t -> moved t m pos -> 0 <= pos -> 0 < n -> pos + n <= len ->
  m0.(map_lo) <= base -> base + len <= m0.(map_hi) ->
  (forall j, 0 <= j < n -> addr (pos + j) = addr pos + j) ->
  exists m', copy t m (addr pos) (base + pos) n = Ok m' /\ moved t m' (pos + n).
Proof.
  intros B (L & H & M) Hp Hn Hl Hlo Hhi Side. unfold copy, mapped. rewrite L, H.
  rewrite (proj2 (Z.leb_le _ _)), (proj2 (Z.leb_le _ _)) by lia. cbn [andb negb].
  eexists. split; [done|]. destruct t; (split; [done|split; [done|]]); cbn [host kern].
  - destruct M as [Eh M]. split; [done|]. intros a. rewrite memcpy_case, M, Eh.
    destruct (Z.leb_spec (base + pos) a), (Z.ltb_spec a (base + pos + n)), (Z.leb_spec base a),
      (Z.ltb_spec a (base + (pos + n))), (Z.ltb_spec a (base + pos)); cbn [andb]; try lia; try done.
    f_equal. rewrite <- Side by lia. f_equal. lia.
  - destruct M as (Ek & M1 & M2), B as [D _]. split; [done|]. split.
    + intros k Hk. rewrite memcpy_case. destruct (Z.lt_ge_cases k pos).
      * destruct (Z.leb_spec (addr pos) (addr k)), (Z.ltb_spec (addr k) (addr pos + n)); cbn [andb];
          try (apply M1; lia).
        exfalso. assert (k = pos + (addr k - addr pos)); [|lia].
        apply D; [lia|lia|]. rewrite Side by lia. lia.
      * assert (E : addr k = addr pos + (k - pos)) by (rewrite <- Side by lia; f_equal; lia).
        rewrite (proj2 (Z.leb_le _ _)), (proj2 (Z.ltb_lt _ _)) by lia. cbn [andb]. rewrite Ek. f_equal. lia.
    + intros a Ha. rewrite memcpy_case.
      destruct (Z.leb_spec (addr pos) a), (Z.ltb_spec a (addr pos + n)); cbn [andb];
        try (apply M2; intros k Hk; apply Ha; lia).
      exfalso. apply (Ha (pos + (a - addr pos))); [lia|]. rewrite Side by lia. lia.
Qed.

Lemma kv_loop_ok fuel t m pos p1 p2 lst :
  prp_ok c m0.(host) len -> buffer_fine t -> moved t m pos ->
  0 <= m0.(map_lo) <= base -> base + len <= m0.(map_hi) < 2 ^ 64 ->
  0 <= pos <= len -> (pos < len -> at_byte c len pos p1 p2 lst) -> (Z.to_nat (len - pos) < fuel)%nat ->
  exists m', kv_loop fuel t c m p1 p2 lst (base + pos) (len - pos) = Ok m' /\ moved t m' len.
Proof.
  intros P B M Hlo Hhi. revert m pos p1 p2 lst M.
  induction fuel as [|fuel IH]; intros m pos p1 p2 lst M Hp Hat Hf; [lia|]. cbn [kv_loop].
  destruct (Z.eqb_spec (len - pos) 0) as [E|E].
  { exists m. split; [done|]. by replace len with pos by lia. }
  destruct (round_ok c m0.(host) len m.(host) pos p1 p2 lst P (moved_list t m pos B ltac:(lia) M) ltac:(lia) (Hat ltac:(lia)))
    as (lst' & p2' & N & Side & At). rewrite N. cbn [mbind result_mbind result_bind].
  rewrite segment_ok, page_base by lia. set (n := Z.min _ _) in *.
  assert (Hn : 0 < n <= len - pos).
  { unfold n. pose proof (Z.mod_pos_bound (addr pos) PAGE_SIZE ltac:(done)). lia. }
  destruct (copy_ok t m pos n B M) as (m' & -> & M'); try done; try lia.
  cbn [mbind result_mbind result_bind]. rewrite u64_small by lia.
  replace (base + pos + n) with (base + (pos + n)) by lia. replace (len - pos - n) with (len - (pos + n)) by lia.
  apply IH; [done|lia|done|lia].
Qed.

End moving.

(** ** Key-value commands *)

(** The direction and length of a command that moves data, and what it
    answers. *)
Definition direction (c : nvme_command) : option (transfer * Z) :=
  if c.(opcode) =? nvme_cmd_kv_retrieve then Some (ToHost, value_len c)
  else if (c.(opcode) =? nvme_cmd_kv_store) || (c.(opcode) =? nvme_cmd_kv_append)
    then Some (ToDevice, u32 (4 * value_len c - invalid_byte c))
  else None.

Definition end_offset (c : nvme_command) : Z := u32 (c.(Queues.offset) - (u8 (key_len c + 1) + 5)).

Definition answer (c : nvme_command) : Z * nvme_command :=
  if c.(opcode) =? nvme_cmd_kv_retrieve then (value_len c, set_offset c (end_offset c))
  else if c.(opcode) =? nvme_cmd_kv_store then (0, c)
  else (end_offset c, set_offset c (end_offset c)).

(** The command names a mapped range, and its pages are in order. *)
Record command_ok (c : nvme_command) (m : memory) (t : transfer) (len : Z) : Prop := {
  co_len : 0 <= len;
  co_mark : c.(rsvd) <> UINT_MAX - 1 /\ c.(rsvd) <> U64_MAX;
  co_lo : 0 <= m.(map_lo) <= c.(rsvd);
  co_hi : c.(rsvd) + len <= m.(map_hi) < 2 ^ 64;
  co_prp : prp_ok c m.(host) len;
  co_buf : buffer_fine c m len t
}.

Lemma stored_length v b : u32 (u32 (Z.shiftl v 2) - b) = u32 (4 * v - b).
Proof.
  rewrite Z.shiftl_mul_pow2 by lia. change (2 ^ 2) with 4. unfold u32, uw. rewrite Zminus_mod_idemp_l. f_equal. lia.
Qed.

Lemma key_length_val c : cmd_key_length c = key_len c + 1.
Proof. unfold cmd_key_length. by repeat destruct (_ =? _). Qed.

Lemma moved_start c m len base t : moved c m len base t m 0.
Proof.
  split; [done|]. split; [done|]. destruct t; (split; [done|]).
  - intros a. destruct (Z.leb_spec base a), (Z.ltb_spec a (base + 0)); cbn [andb]; done || lia.
  - split; [lia|done].
Qed.

Lemma perform_ok c m t len :
  direction c = Some (t, len) -> command_ok c m t len ->
  exists m', __do_perform_io_kv c m = Ok (answer c, m') /\ moved c m len c.(rsvd) t m' len.
Proof.
  intros D [L [K1 K2] Lo Hi P B].
  destruct (kv_loop_ok c m len c.(rsvd) (kv_fuel len) t m 0 0 0 None) as (m' & E & M); try done.
  { apply moved_start. } { by left. } { unfold kv_fuel. lia. }
  rewrite Z.add_0_r, Z.sub_0_r in E. exists m'. split; [|exact M].
  unfold __do_perform_io_kv. unfold direction in D. unfold answer, end_offset.
  rewrite key_length_val, stored_length. rewrite (proj2 (Z.eqb_neq _ _) K1), (proj2 (Z.eqb_neq _ _) K2).
  assert (Eo : 1 + u8 (key_len c + 1) + 4 = u8 (key_len c + 1) + 5) by lia. rewrite Eo.
  destruct (Z.eqb_spec c.(opcode) nvme_cmd_kv_retrieve) as [O|O].
  - injection D as <- <-. rewrite O. cbn [mbind result_mbind result_bind orb andb Z.eqb Pos.eqb nvme_cmd_kv_delete nvme_cmd_kv_batch nvme_cmd_kv_retrieve].
    rewrite E. done.
  - destruct ((opcode c =? nvme_cmd_kv_store) || (opcode c =? nvme_cmd_kv_append)) eqn:O'; [|done].
    injection D as <- <-.
    assert (X : (opcode c =? nvme_cmd_kv_delete) || (opcode c =? nvme_cmd_kv_batch) = false).
    { apply orb_true_iff in O' as [O'|O']; apply Z.eqb_eq in O' as ->; done. }
    rewrite X. cbn [mbind result_mbind result_bind]. rewrite E. cbn [mbind result_mbind result_bind].
    by destruct (opcode c =? nvme_cmd_kv_store).
Qed.

(** C12 (data transfer): a store, append or retrieve command whose pages are in order never faults;
    it moves exactly the bytes of the buffer its pages describe, in order, between the host and the
    address in the command, changes no other byte of either memory, and answers with the length of
    a retrieve, the end of an append and nothing for a store. *)
Theorem kv_transfer_correct c m t len :
  direction c = Some (t, len) -> command_ok c m t len ->
  exists m', __do_perform_io_kv c m = Ok (answer c, m') /\
    let addr := buf_addr c m.(host) len in
    match t with
    | ToDevice => m'.(host) = m.(host) /\
        (forall k, 0 <= k < len -> m'.(kern) (c.(rsvd) + k) = m.(host) (addr k)) /\
        (forall a, ~ c.(rsvd) <= a < c.(rsvd) + len -> m'.(kern) a = m.(kern) a)
    | ToHost => m'.(kern) = m.(kern) /\
        (forall k, 0 <= k < len -> m'.(host) (addr k) = m.(kern) (c.(rsvd) + k)) /\
        (forall a, (forall k, 0 <= k < len -> addr k <> a) -> m'.(host) a = m.(host) a)
    end.
Proof.
  intros D C. destruct (perform_ok c m t len D C) as (m' & E & _ & _ & M). exists m'. split; [exact E|].
  destruct t; [|exact M]. destruct M as [Mh Mk]. split; [exact Mh|]. split.
  - intros k Hk. rewrite Mk, (proj2 (Z.leb_le _ _)), (proj2 (Z.ltb_lt _ _)) by lia. cbn [andb]. f_equal. f_equal. lia.
  - intros a Ha. rewrite Mk. destruct (Z.leb_spec c.(rsvd) a), (Z.ltb_spec a (c.(rsvd) + len)); cbn [andb]; done || lia.
Qed.

(** Store, then retrieve: a retrieve from the address a store or append wrote to gives the
    host, through whatever pages it names, the bytes it stored. *)
Theorem kv_round_trip c1 c2 m len1 len2 :
  direction c1 = Some (ToDevice, len1) -> direction c2 = Some (ToHost, len2) ->
  command_ok c1 m ToDevice len1 -> command_ok c2 m ToHost len2 ->
  c2.(rsvd) = c1.(rsvd) -> len2 <= len1 ->
  exists m1 m2, __do_perform_io_kv c1 m = Ok (answer c1, m1) /\ __do_perform_io_kv c2 m1 = Ok (answer c2, m2) /\
    forall k, 0 <= k < len2 ->
      m2.(host) (buf_addr c2 m.(host) len2 k) = m.(host) (buf_addr c1 m.(host) len1 k).
Proof.
  intros D1 D2 C1 C2 R Hl. destruct (perform_ok c1 m _ _ D1 C1) as (m1 & E1 & L1 & H1 & Mh & Mk).
  assert (C2' : command_ok c2 m1 ToHost len2).
  { destruct C2 as [X1 X2 X3 X4 X5 [X6 X7]]. split; try done; rewrite ?L1, ?H1, ?Mh; try done.
    split; intros *; rewrite ?Mh; [apply X6|apply X7]. }
  destruct (perform_ok c2 m1 _ _ D2 C2') as (m2 & E2 & _ & _ & _ & M2 & _).
  exists m1, m2. split; [exact E1|]. split; [exact E2|]. intros k Hk. rewrite <- Mh at 1. rewrite M2 by done.
  rewrite R, Mk, (proj2 (Z.leb_le _ _)), (proj2 (Z.ltb_lt _ _)) by lia. cbn [andb]. do 2 f_equal. lia.
Qed.

(** Commands without data, and those that failed before, leave everything as it is. *)
Lemma kv_no_data c m :
  c.(opcode) = nvme_cmd_kv_delete \/ c.(opcode) = nvme_cmd_kv_batch \/
    (direction c <> None /\ c.(rsvd) = U64_MAX) ->
  __do_perform_io_kv c m = Ok (0, c, m).
Proof.
  unfold __do_perform_io_kv, direction. intros [-> | [-> |[D ->]]]; [done|done|].
  destruct ((opcode c =? nvme_cmd_kv_delete) || _); [done|].
  destruct (opcode c =? nvme_cmd_kv_retrieve); [done|]. by destruct ((opcode c =? nvme_cmd_kv_store) || _).
Qed.

(** ** The scatter list *)

(** The bytes one transfer moves, as pairs of source and target. *)
Definition moves (t : Z * Z * Z) : list (Z * Z) :=
  let '(s, d, n) := t in map (fun j => (s + j, d + j)) (seqZ 0 n).

(** Source and target of a byte for the operation. *)
Definition orient (op host dev : Z) : Z * Z := if op =? nvme_cmd_read then (dev, host) else (host, dev).

Section scatter.
Context (c : nvme_command) (h : Z -> Z) (len : Z).
#[local] Abbreviation addr := (buf_addr c h len).
#[local] Abbreviation first := (first_part c).

(** Where the transfer into page [i] of the buffer begins. *)
Definition page_start (i : Z) : Z := if i =? 1 then 0 else first + PAGE_SIZE * (i - 2).

(** [num] pages hold the buffer, and the array has their addresses. *)
Definition scanned (num : Z) (a : Z -> Z) : Prop :=
  forall i, 1 <= i <= num -> page_start i < len /\ a i = addr (page_start i).

Lemma page_start_succ i : 1 <= i -> page_start i < page_start (i + 1) <= page_start i + PAGE_SIZE.
Proof.
  intros Hi. pose proof (first_part_range c). pose proof PAGE_val. unfold page_start.
  rewrite (proj2 (Z.eqb_neq (i + 1) 1)) by lia. destruct (Z.eqb_spec i 1); lia.
Qed.

(** The end of the segment at byte [pos]. *)
Lemma segment_end i : prp_ok c h len -> 1 <= i -> page_start i < len ->
  page_start i + (PAGE_SIZE - addr (page_start i) mod PAGE_SIZE) = page_start (i + 1) /\
  (forall j, 0 <= j < Z.min (len - page_start i) (page_start (i + 1) - page_start i) ->
     addr (page_start i + j) = addr (page_start i) + j).
Proof.
  intros P Hi Hl. pose proof (first_part_range c) as F. pose proof PAGE_val as PV.
  assert (Hat : exists p2 lst, at_byte c len (page_start i) (i - 1) p2 lst).
  { unfold page_start. destruct (Z.eqb_spec i 1) as [->|]; [eexists _, _; by left|].
    destruct (Z.eq_dec i 2) as [->|].
    - exists 0, None. right; left. exists 0. repeat split; lia.
    - exists (i - 2), (Some c.(prp2)). right; left. exists (i - 2). repeat split; lia. }
  destruct Hat as (p2 & lst & Hat).
  assert (Hp : 0 <= page_start i) by (unfold page_start; case_cmp; lia).
  destruct (round_ok c h len h (page_start i) (i - 1) p2 lst P) as (lst' & p2' & _ & S & _); [by intros ??|lia|done|].
  assert (E : page_start i + (PAGE_SIZE - addr (page_start i) mod PAGE_SIZE) = page_start (i + 1)).
  { unfold page_start at 3. rewrite (proj2 (Z.eqb_neq (i + 1) 1)) by lia. unfold buf_addr, page_start in *.
    destruct (Z.eqb_spec i 1) as [->|].
    - rewrite (proj2 (Z.ltb_lt _ _)) by lia. rewrite !Z.add_0_r. fold first. lia.
    - rewrite (proj2 (Z.ltb_ge _ _)) by lia. replace (first + PAGE_SIZE * (i - 2) - first) with ((i - 2) * PAGE_SIZE) by lia.
      rewrite Z.div_mul, Z.mod_mul, Z.add_0_r, (po_aligned _ _ _ P) by (done || unfold needed; lia). lia. }
  split; [exact E|]. intros j Hj. apply S. lia.
Qed.

Lemma page_start_range i : 1 <= i -> 0 <= page_start i.
Proof. intros Hi. pose proof (first_part_range c). pose proof PAGE_val. unfold page_start. case_cmp; lia. Qed.

Lemma page_start_mono i j : 1 <= i <= j -> page_start i <= page_start j.
Proof.
  intros H. pose proof (first_part_range c). pose proof PAGE_val. unfold page_start. repeat case_cmp; lia.
Qed.

Lemma dma_scan_ok fuel a i p2 lst :
  prp_ok c h len -> 1 <= i -> scanned (i - 1) a -> len <= page_start PRP_LIST_LEN ->
  let pos := Z.min len (page_start i) in
  (1 < i -> page_start (i - 1) < len) ->
  (pos < len -> at_byte c len pos (i - 1) p2 lst) -> (Z.to_nat (len - pos) < fuel)%nat ->
  exists num a', dma_scan fuel h c a (i - 1) p2 lst (len - pos) = Ok (num, a') /\ scanned num a' /\
    i - 1 <= num < PRP_LIST_LEN /\ len <= page_start (num + 1).
Proof.
  intros P. revert a i p2 lst. induction fuel as [|fuel IH]; intros a i p2 lst Hi Sc Hmax pos Hprev Hat Hf; [lia|].
  cbn [dma_scan]. pose proof (page_start_range i Hi) as Pi. destruct (Z.eqb_spec (len - pos) 0) as [E|E].
  { exists (i - 1), a. split; [done|]. split; [done|]. replace (i - 1 + 1) with i by lia. split; [|lia].
    destruct (Z.lt_ge_cases (i - 1) PRP_LIST_LEN); [lia|]. unfold PRP_LIST_LEN in *.
    pose proof (page_start_mono 513 (i - 1) ltac:(lia)). lia. }
  assert (Ep : pos = page_start i) by lia.
  destruct (round_ok c h len h pos (i - 1) p2 lst P) as (lst' & p2' & N & _ & At); [by intros ??|lia|apply Hat; lia|].
  rewrite N. cbn [mbind result_mbind result_bind]. replace (i - 1 + 1) with i in * by lia.
  assert (Hb : i < PRP_LIST_LEN).
  { destruct (Z.lt_ge_cases i PRP_LIST_LEN); [done|exfalso]. unfold PRP_LIST_LEN in *.
    pose proof (page_start_mono 513 i ltac:(lia)). lia. }
  rewrite modify_in by lia. cbn [mbind result_mbind result_bind]. rewrite segment_ok by lia.
  set (n := Z.min (len - pos) _) in *.
  destruct (segment_end i P Hi ltac:(lia)) as [Se _]. rewrite <- Ep in Se.
  assert (En : pos + n = Z.min len (page_start (i + 1))) by lia.
  specialize (IH (upd a i (addr pos)) (i + 1) p2' lst' ltac:(lia)).
  rewrite Z.add_simpl_r in IH. rewrite <- En in IH. replace (len - pos - n) with (len - (pos + n)) by lia.
  assert (Hn : 0 < n) by (unfold n; pose proof (Z.mod_pos_bound (addr pos) PAGE_SIZE ltac:(done)); lia).
  destruct IH as (num & a' & E' & Sc' & Hnum & Hend); try done; try lia.
  - intros j Hj. rewrite upd_case. case_cmp; [subst j; rewrite Ep; split; [lia|done]|]. apply Sc. lia.
  - exists num, a'. split; [exact E'|]. split; [done|]. split; [lia|done].
Qed.

Lemma dma_run_ok n a q ps :
  let '(q', ps') := dma_run n a q ps in
  q <= q' <= q + Z.of_nat n /\ ps' = ps + PAGE_SIZE * (q' - q) /\
  (forall j, q <= j < q' -> a j = u64 (a (j - 1) + PAGE_SIZE)).
Proof.
  revert q ps. induction n as [|n IH]; intros q ps; cbn [dma_run]; [repeat split; lia|].
  destruct (Z.eqb_spec (a q) (u64 (a (q - 1) + PAGE_SIZE))) as [E|E]; [|repeat split; lia].
  specialize (IH (q + 1) (ps + PAGE_SIZE)). destruct (dma_run n a (q + 1) (ps + PAGE_SIZE)) as [q' ps'].
  destruct IH as (B & -> & C). repeat split; try lia. intros j Hj.
  destruct (Z.eq_dec j q) as [->|]; [exact E|apply C; lia].
Qed.

(** Pages [i] to [q - 1] lie side by side. *)
Lemma run_side_by_side num a i q :
  prp_ok c h len -> (forall k, 0 <= k < len -> 0 <= addr k /\ addr k + PAGE_SIZE < 2 ^ 64) ->
  scanned num a -> 1 <= i -> i < q <= num + 1 ->
  (forall j, i + 1 <= j < q -> a j = u64 (a (j - 1) + PAGE_SIZE)) ->
  (forall j, 0 <= j < Z.min (len - page_start i) (page_start q - page_start i) ->
     addr (page_start i + j) = addr (page_start i) + j) /\
  (i + 1 < q -> forall k, i <= k <= q -> page_start k = page_start i + PAGE_SIZE * (k - i)).
Proof.
  intros P Hb Sc Hi Hq C. pose proof (first_part_range c) as F. pose proof PAGE_val as PV.
  assert (A : forall k, i <= k < q -> addr (page_start k) = addr (page_start i) + PAGE_SIZE * (k - i)).
  { enough (A : forall d, 0 <= d -> i + d < q -> addr (page_start (i + d)) = addr (page_start i) + PAGE_SIZE * d).
    { intros k Hk. specialize (A (k - i) ltac:(lia)). replace (i + (k - i)) with k in A by lia. apply A. lia. }
    apply (natlike_ind (fun d => i + d < q -> _)).
    - intros _. rewrite Z.add_0_r. lia.
    - intros x Hx IHx Hd. rewrite Z.add_succ_r, <- Z.add_1_r.
      destruct (Sc (i + x) ltac:(lia)) as [L1 E1], (Sc (i + x + 1) ltac:(lia)) as [L2 E2].
      rewrite <- E2, C by lia. rewrite Z.add_simpl_r, E1. pose proof (page_start_range (i + x) ltac:(lia)).
      rewrite u64_small by (pose proof (Hb (page_start (i + x)) ltac:(lia)); lia). rewrite IHx by lia. lia. }
  assert (S : i + 1 < q -> forall k, i <= k <= q -> page_start k = page_start i + PAGE_SIZE * (k - i)).
  { intros Hq1. assert (E1 : page_start (i + 1) = page_start i + PAGE_SIZE).
    { destruct (Sc i ltac:(lia)) as [L1 _]. destruct (segment_end i P Hi L1) as [<- _].
      destruct (Sc (i + 1) ltac:(lia)) as [L2 _]. destruct (segment_end (i + 1) P ltac:(lia) L2) as [E2 _].
      rewrite (A (i + 1)) in E2 by lia. revert E2. unfold page_start at 3. rewrite (proj2 (Z.eqb_neq _ 1)) by lia.
      unfold page_start at 1. rewrite (proj2 (Z.eqb_neq _ 1)) by lia.
      replace (i + 1 - i) with 1 by lia. rewrite Z.mul_1_r.
      replace (addr (page_start i) + PAGE_SIZE) with (addr (page_start i) + 1 * PAGE_SIZE) by lia.
      rewrite Z.mod_add by lia. lia. }
    intros k Hk. unfold page_start in *. rewrite (proj2 (Z.eqb_neq (i + 1) 1)) in E1 by lia.
    destruct (Z.eqb_spec i 1), (Z.eqb_spec k 1); lia. }
  split; [|exact S]. intros j Hj. destruct (Z.eq_dec q (i + 1)) as [->|Hne].
  { destruct (Sc i ltac:(lia)) as [L1 _]. destruct (segment_end i P Hi L1) as [_ Side]. by apply Side. }
  specialize (S ltac:(lia)). pose proof (Z.div_mod j PAGE_SIZE ltac:(lia)) as Dj.
  pose proof (Z.mod_pos_bound j PAGE_SIZE ltac:(lia)) as Mj. rewrite (S q ltac:(lia)) in Hj.
  set (k := i + j / PAGE_SIZE). assert (Hk : i <= k < q) by (unfold k; nia).
  destruct (Sc k ltac:(lia)) as [L1 _]. destruct (segment_end k P ltac:(lia) L1) as [_ Side].
  replace (page_start i + j) with (page_start k + j mod PAGE_SIZE) by (rewrite (S k) by lia; unfold k; lia).
  rewrite Side, (A k) by (rewrite ?(S (k + 1)), ?(S k) by lia; unfold k in *; lia). unfold k. lia.
Qed.

Lemma map_seqZ_shift {A} (f g : Z -> A) x y n :
  (forall j, 0 <= j < n -> f (x + j) = g (y + j)) -> map f (seqZ x n) = map g (seqZ y n).
Proof.
  intros H. apply list_eq. intros k. rewrite !list_lookup_fmap.
  destruct (decide (Z.of_nat k < n)).
  - rewrite !lookup_seqZ_lt by lia. cbn. f_equal. apply H. lia.
  - by rewrite !lookup_seqZ_ge by lia.
Qed.

Lemma dma_loop_ok fuel op num a i start off :
  prp_ok c h len -> (forall k, 0 <= k < len -> 0 <= addr k /\ addr k + PAGE_SIZE < 2 ^ 64) ->
  scanned num a -> 0 <= num < PRP_LIST_LEN -> len <= page_start (num + 1) -> 0 <= len ->
  op = nvme_cmd_write \/ op = nvme_cmd_zone_append \/ op = nvme_cmd_read ->
  1 <= i <= num + 1 -> let pos := Z.min len (page_start i) in (Z.to_nat (len - pos) < fuel)%nat ->
  exists ts, dma_loop fuel op a num i start (off + pos) (len - pos) = Ok ts /\
    flat_map moves ts = map (fun k => orient op (addr k) (start + (off + k))) (seqZ pos (len - pos)).
Proof.
  intros P Hb Sc Hn Hend Hl0 Hop. revert i. induction fuel as [|fuel IH]; intros i Hi pos Hf; [lia|].
  cbn [dma_loop]. pose proof (page_start_range i ltac:(lia)) as Pi. destruct (Z.eqb_spec (len - pos) 0) as [E|E].
  { exists []. split; [done|]. by rewrite E. }
  assert (Ep : pos = page_start i) by lia.
  assert (Hin : i <= num) by (destruct (Z.eq_dec i (num + 1)) as [->|]; lia).
  destruct (Sc i ltac:(lia)) as [L1 Ea]. destruct (segment_end i P ltac:(lia) L1) as [Se _].
  rewrite cell_in by lia. cbn [mbind result_mbind result_bind]. rewrite segment_ok, Ea by lia.
  set (ps := Z.min (len - pos) _).
  assert (Eps : ps = Z.min (len - pos) (page_start (i + 1) - page_start i)) by (unfold ps; lia).
  pose proof (dma_run_ok (Z.to_nat (num - i)) a (i + 1) ps) as R.
  destruct (dma_run (Z.to_nat (num - i)) a (i + 1) ps) as [q ps']. destruct R as (Bq & -> & C).
  destruct (run_side_by_side num a i q P Hb Sc) as [Side Run]; [lia|lia|done|].
  set (n := Z.min (len - pos) _). pose proof (page_start_succ i ltac:(lia)) as Su.
  assert (En : n = Z.min (len - pos) (page_start q - page_start i)).
  { unfold n. destruct (Z.eq_dec q (i + 1)) as [->|Hne]; [rewrite Z.sub_diag; lia|].
    specialize (Run ltac:(lia)). rewrite (Run q) by lia. rewrite (Run (i + 1)) in Eps by lia.
    destruct (Sc (i + 1) ltac:(lia)) as [L2 _]. rewrite (Run (i + 1)) in L2 by lia. lia. }
  pose proof (page_start_mono (i + 1) q ltac:(lia)) as Mo.
  specialize (IH q ltac:(lia)). replace (Z.min len (page_start q)) with (pos + n) in IH by lia.
  destruct IH as (ts & Et & Em); [lia|]. rewrite Z.add_assoc in Et.
  replace (len - pos - n) with (len - (pos + n)) by lia. rewrite Et. cbn [mbind result_mbind result_bind].
  eexists. split; [done|]. rewrite flat_map_app, Em.
  replace (len - pos) with (n + (len - (pos + n))) by lia. rewrite seqZ_app by lia. rewrite map_app. f_equal.
  assert (X : forall f g : Z -> Z, (forall j, 0 <= j < n -> f j = addr (pos + j) /\ g j = start + (off + (pos + j))) ->
    map (fun j => orient op (f j) (g j)) (seqZ 0 n) = map (fun k => orient op (addr k) (start + (off + k))) (seqZ pos n)).
  { intros f g H. apply map_seqZ_shift. intros j Hj. rewrite Z.add_0_l. by destruct (H j Hj) as [-> ->]. }
  rewrite <- (X (fun j => addr (page_start i) + j) (fun j => start + (off + pos) + j)).
  - destruct Hop as [-> | [-> | ->]]; cbn [orb Z.eqb Pos.eqb nvme_cmd_write nvme_cmd_read nvme_cmd_zone_append flat_map];
      by rewrite app_nil_r.
  - intros j Hj. split; [|lia]. rewrite Ep. symmetry. apply Side. lia.
Qed.
End scatter.

(** C18 (DMA transfers): for a block read or write whose pages are in order the engine is given
    transfers that together move every byte of the buffer, each once and in order, to or from its
    place in the storage; runs of neighbouring pages are merged into one transfer. *)
Theorem dma_transfers_correct c h storage_start :
  let len := 512 * (rw_length c + 1) in
  prp_ok c h len -> 0 <= slba c < 2 ^ 55 -> len <= page_start c PRP_LIST_LEN ->
  (forall k, 0 <= k < len -> 0 <= buf_addr c h len k /\ buf_addr c h len k + PAGE_SIZE < 2 ^ 64) ->
  c.(opcode) = nvme_cmd_write \/ c.(opcode) = nvme_cmd_zone_append \/ c.(opcode) = nvme_cmd_read ->
  exists ts, __do_perform_io_using_dma c h storage_start = Ok (len, ts) /\
    flat_map moves ts = map (fun k => orient c.(opcode) (buf_addr c h len k)
                                        (storage_start + (512 * slba c + k))) (seqZ 0 len).
Proof.
  intros len P Hs Hl Hb Hop. unfold __do_perform_io_using_dma.
  assert (E1 : Z.shiftl (rw_length c + 1) 9 = len) by (rewrite Z.shiftl_mul_pow2 by lia; unfold len; lia).
  assert (E2 : u64 (Z.shiftl (slba c) 9) = 512 * slba c).
  { rewrite Z.shiftl_mul_pow2 by lia. rewrite u64_small; lia. }
  assert (L0 : 0 < len) by (unfold len, rw_length, lo16; pose proof (Z.mod_pos_bound c.(cdw12) 65536 ltac:(lia)); lia).
  assert (P1 : page_start c 1 = 0) by done.
  rewrite E1, E2. destruct (dma_scan_ok c h len (kv_fuel len) (fun _ => 0) 1 0 None P) as (num & a & S & Sc & Hn & He);
    try done; try lia.
  { intros i Hi. lia. } { intros _. left. split; [lia|done]. } { unfold kv_fuel. lia. }
  rewrite P1, Z.min_r, Z.sub_0_r in S by lia. change (1 - 1) with 0 in S.
  rewrite S. cbn [mbind result_mbind result_bind].
  destruct (dma_loop_ok c h len (kv_fuel len) c.(opcode) num a 1 storage_start (512 * slba c) P Hb Sc) as (ts & E & M);
    try done; try lia.
  { unfold kv_fuel. lia. }
  rewrite P1, Z.min_r, Z.sub_0_r, Z.add_0_r in E by lia.
  rewrite P1, Z.min_r, Z.sub_0_r in M by lia. rewrite E. by exists ts.
Qed.

(** ** Witnesses *)

(** A page list at 20480 whose entry [p] is the page [28672 + 256 * stride * p]. *)
Definition ex_host (stride : Z) : Z -> Z := fun a =>
  if (20480 <=? a) && (a <? 20504) then
    if (a - 20480) mod 8 =? 1 then 112 + stride * ((a - 20480) / 8) else 0
  else a mod 251.
Definition ex_memory : memory := mk_memory (ex_host 32) (fun _ => 0) 900000 2000000.

Definition ex_store : nvme_command := mk_nvme nvme_cmd_kv_store 7 1 1000000 0 12192 20480 2500 7 0 [].
Definition ex_retrieve : nvme_command := mk_nvme nvme_cmd_kv_retrieve 8 1 1000000 0 65536 73728 5000 7 0 [].
Definition ex_write : nvme_command := mk_nvme nvme_cmd_write 9 1 0 0 12192 20480 3 0 19 [].

Lemma ex_needed c len p : c.(prp1) = 12192 -> len <= 10240 -> needed c len p -> p = 0 \/ p = 1 \/ p = 2.
Proof.
  intros E Hl [H0 H]. unfold first_part in H. rewrite E in H. change (12192 mod PAGE_SIZE) with 4000 in H.
  rewrite PAGE_val in H. lia.
Qed.

Lemma ex_pages c s len p : c.(prp1) = 12192 -> c.(prp2) = 20480 -> s = 16 \/ s = 32 -> 8192 < len <= 10240 ->
  p = 0 \/ p = 1 \/ p = 2 -> page_addr c (ex_host s) len p = 28672 + 256 * s * p.
Proof.
  intros E1 E2 Hs Hl Hp. unfold page_addr, listed, first_part. rewrite E1, E2.
  change (12192 mod PAGE_SIZE) with 4000. rewrite (proj2 (Z.ltb_lt _ _)) by (rewrite PAGE_val; lia).
  by destruct Hs as [-> | ->], Hp as [-> | [-> | ->]].
Qed.

Lemma ex_prp_ok c s len : c.(prp1) = 12192 -> c.(prp2) = 20480 -> s = 16 \/ s = 32 -> 8192 < len <= 10240 ->
  prp_ok c (ex_host s) len.
Proof.
  intros E1 E2 Hs Hl. split.
  - intros p Hp. apply ex_needed in Hp; [|done|lia]. rewrite (ex_pages c s) by done.
    by destruct Hs as [-> | ->], Hp as [-> | [-> | ->]].
  - intros _ p Hp. apply ex_needed in Hp; [|done|lia]. rewrite E2. by destruct Hp as [-> | [-> | ->]].
Qed.

Lemma ex_store_ok : command_ok ex_store ex_memory ToDevice 10000.
Proof. split; try done. by apply ex_prp_ok; [..|right|]. Qed.

Lemma ex_retrieve_addr k : 0 <= k < 5000 ->
  buf_addr ex_retrieve (ex_host 32) 5000 k = if k <? 4096 then 65536 + k else 73728 + (k - 4096).
Proof.
  intros Hk. unfold buf_addr. change (first_part ex_retrieve) with 4096. cbn [prp1 ex_retrieve].
  destruct (Z.ltb_spec k 4096); [done|]. rewrite PAGE_val, Z.div_small, Z.mod_small by lia. reflexivity.
Qed.

Lemma ex_retrieve_ok : command_ok ex_retrieve ex_memory ToHost 5000.
Proof.
  split; try done.
  - split; [|done]. intros k k' Hk Hk' E. cbn [ex_memory host] in E. rewrite !ex_retrieve_addr in E by done.
    revert E. do 2 case_cmp; lia.
Qed.

Lemma kv_transfer_correct_witness :
  exists m', __do_perform_io_kv ex_store ex_memory = Ok (0, ex_store, m') /\
    m'.(kern) 1000100 = ex_memory.(host) 28676.
Proof.
  destruct (kv_transfer_correct ex_store ex_memory ToDevice 10000 eq_refl ex_store_ok) as (m' & E & _ & M & _).
  exists m'. split; [exact E|]. apply (M 100). done.
Defined.

Lemma kv_round_trip_witness :
  exists m1 m2, __do_perform_io_kv ex_store ex_memory = Ok (0, ex_store, m1) /\
    __do_perform_io_kv ex_retrieve m1 = Ok (answer ex_retrieve, m2) /\
    m2.(host) (65536 + 100) = ex_memory.(host) 28676.
Proof.
  destruct (kv_round_trip ex_store ex_retrieve ex_memory 10000 5000 eq_refl eq_refl ex_store_ok ex_retrieve_ok
    eq_refl ltac:(done)) as (m1 & m2 & E1 & E2 & M).
  exists m1, m2. split; [exact E1|]. split; [exact E2|]. apply (M 100). done.
Defined.

(** Three neighbouring pages after the first. *)
Lemma dma_transfers_correct_witness :
  exists ts, __do_perform_io_using_dma ex_write (ex_host 16) 4294967296 = Ok (10240, ts) /\
    Z.of_nat (length (flat_map moves ts)) = 10240.
Proof.
  destruct (dma_transfers_correct ex_write (ex_host 16) 4294967296) as (ts & E & M).
  - apply (ex_prp_ok ex_write 16); by try left.
  - done.
  - done.
  - intros k Hk. unfold buf_addr. change (first_part ex_write) with 96. cbn [prp1 ex_write].
    change (512 * (rw_length ex_write + 1)) with 10240 in *. destruct (Z.ltb_spec k 96); [rewrite PAGE_val; lia|].
    rewrite PAGE_val. rewrite (ex_pages ex_write 16); [|done..|by left|done|]; [|Z.to_euclidean_division_equations; lia].
    Z.to_euclidean_division_equations. lia.
  - by left.
  - exists ts. split; [exact E|]. rewrite M, length_map, length_seqZ. reflexivity.
Defined.
