(* ===== verification/Heap.v ===== *)
(** * Kernel memory and the layout of a pair ([demand_ftl.c])

    A pair lives in a block of kernel memory: one byte with the length of the
    key, the key, four bytes with the length of the value, the value.  The
    allocator is the kernel's: the class [Allocator] is the address it chooses,
    [AllocatorLaws] what its documentation promises.  An access is checked
    against the block it is made to, so that a use after [kfree] or an access
    past the end of a block is the fault [OOB]. *)

From stdpp Require Import gmap.
From S2P Require Import Prelude WorkQueue Queues Prp.

Definition KLEN_MARKER_SZ : Z := 1.
Definition VLEN_MARKER_SZ : Z := 4.

(** Kernel addresses are in the upper half, below the error pointers. *)
Definition KERNEL_BASE : Z := 18446603336221196288.
Definition KERNEL_END : Z := 18446744073709547520.

(** [blocks] maps the address of each live block to its size. *)
Record heap := mk_heap { bytes : Z -> Z; blocks : gmap Z Z }.

(** The address the kernel chooses for a new block, 0 when there is none. *)
Class Allocator := kmalloc_at : gmap Z Z -> Z -> Z.

(** Memory is disjoint from every live block. *)
Definition apart (bs : gmap Z Z) (a n : Z) : Prop :=
  forall b m, bs !! b = Some m -> a + n <= b \/ b + m <= a.

Class AllocatorLaws `{Allocator} := {
  kmalloc_range bs n : 0 < n -> kmalloc_at bs n <> 0 ->
    KERNEL_BASE <= kmalloc_at bs n /\ kmalloc_at bs n + n <= KERNEL_END;
  kmalloc_apart bs n : 0 < n -> kmalloc_at bs n <> 0 -> apart bs (kmalloc_at bs n) n
}.

Section operations.
Context `{Allocator}.

Definition kmalloc (h : heap) (n : Z) : Z * heap :=
  let a := kmalloc_at h.(blocks) n in
  (a, if a =? 0 then h else mk_heap h.(bytes) (<[a := n]> h.(blocks))).

Definition kzalloc (h : heap) (n : Z) : Z * heap :=
  let '(a, h) := kmalloc h n in
  (a, if a =? 0 then h else mk_heap (memset h.(bytes) a n 0) h.(blocks)).

End operations.

Definition kfree (h : heap) (a : Z) : result heap :=
  if a =? 0 then Ok h else
  match h.(blocks) !! a with
  | Some _ => Ok (mk_heap h.(bytes) (delete a h.(blocks)))
  | None => Err BUG
  end.

(** [n] bytes from [o] on in the block [a]. *)
Definition access (h : heap) (a o n : Z) : result unit :=
  if a =? 0 then Err NULLPTR else
  match h.(blocks) !! a with
  | Some sz => if (0 <=? o) && (o + n <=? sz) then Ok tt else Err OOB
  | None => Err OOB
  end.

Definition of_list (l : list Z) : Z -> Z := fun i => nth (Z.to_nat i) l 0.
Definition bytes_at (m : Z -> Z) (a n : Z) : list Z := (fun i => m (a + i)) <$> seqZ 0 n.

(** Read and write lists of bytes. *)
Definition hread (h : heap) (a o n : Z) : result (list Z) :=
  _ ← access h a o n; Ok (bytes_at h.(bytes) (a + o) n).
Definition hwrite (h : heap) (a o : Z) (l : list Z) : result heap :=
  _ ← access h a o (Z.of_nat (length l));
  Ok (mk_heap (memcpy h.(bytes) (of_list l) (a + o) 0 (Z.of_nat (length l))) h.(blocks)).
Definition hmemset (h : heap) (a n v : Z) : result heap :=
  _ ← access h a 0 n; Ok (mk_heap (memset h.(bytes) a n v) h.(blocks)).
(** [memcpy] between two blocks. *)
Definition hcopy (h : heap) (a b n : Z) : result heap :=
  _ ← access h a 0 n; _ ← access h b 0 n;
  Ok (mk_heap (memcpy h.(bytes) h.(bytes) a b n) h.(blocks)).

(** A [uint32_t] in memory. *)
Definition le4 (v : Z) : list Z :=
  [v mod 256; v / 256 mod 256; v / 65536 mod 256; v / 16777216 mod 256].
Definition of_le4 (l : list Z) : Z := le_bytes 4 (of_list l) 0.

(** ** The parts of a pair *)

Definition __klen_from_value (h : heap) (a : Z) : result Z :=
  l ← hread h a 0 1; Ok (of_list l 0).
Definition __vlen_from_value (h : heap) (a : Z) : result Z :=
  klen ← __klen_from_value h a;
  l ← hread h a (KLEN_MARKER_SZ + klen) 4;
  _ ← assert_ (of_le4 l >? 0);
  Ok (of_le4 l).
(** The [klen] bytes at [__key_from_value]. *)
Definition key_from_value (h : heap) (a klen : Z) : result (list Z) := hread h a 1 klen.

(** The three copies that start a pair. *)
Definition write_header (h : heap) (a : Z) (k : list Z) (vlen : Z) : result heap :=
  h ← hwrite h a 0 [Z.of_nat (length k)];
  h ← hwrite h a 1 k;
  hwrite h a (1 + Z.of_nat (length k)) (le4 vlen).

(** ** Lemmas *)

Definition heap_ok (h : heap) : Prop :=
  (forall a n, h.(blocks) !! a = Some n -> KERNEL_BASE <= a /\ 0 < n /\ a + n <= KERNEL_END) /\
  (forall a n, h.(blocks) !! a = Some n -> apart (delete a h.(blocks)) a n).

Lemma heap_apart h a n b m : heap_ok h -> h.(blocks) !! a = Some n -> h.(blocks) !! b = Some m -> a <> b ->
  a + n <= b \/ b + m <= a.
Proof. intros [_ D] Ha Hb N. apply (D a n Ha b m). by rewrite lookup_delete_ne. Qed.

Lemma access_in h a o n sz : h.(blocks) !! a = Some sz -> a <> 0 -> 0 <= o -> o + n <= sz ->
  access h a o n = Ok tt.
Proof.
  intros E Ha Ho Hn. unfold access. rewrite (proj2 (Z.eqb_neq a 0)) by done. rewrite E.
  by rewrite (proj2 (Z.leb_le 0 o)), (proj2 (Z.leb_le _ sz)).
Qed.

Lemma access_inv h a o n u : access h a o n = Ok u ->
  a <> 0 /\ exists sz, h.(blocks) !! a = Some sz /\ 0 <= o /\ o + n <= sz.
Proof.
  unfold access. destruct (Z.eqb_spec a 0); [done|]. destruct (blocks h !! a) as [sz|]; [|done].
  destruct (_ && _) eqn:E; [|done]. bool_to_prop. intros _. split; [done|]. by exists sz.
Qed.

Lemma block_nonzero h a n : heap_ok h -> h.(blocks) !! a = Some n -> a <> 0.
Proof. intros [R _] E. apply R in E. unfold KERNEL_BASE in E. lia. Qed.

Lemma length_bytes_at m a n : length (bytes_at m a n) = Z.to_nat n.
Proof. unfold bytes_at. by rewrite length_fmap, length_seqZ. Qed.

Lemma bytes_at_ext m m' a n : (forall i, 0 <= i < n -> m (a + i) = m' (a + i)) ->
  bytes_at m a n = bytes_at m' a n.
Proof.
  intros E. unfold bytes_at. apply list_fmap_ext. intros k x Hk.
  apply lookup_seqZ in Hk as [-> Hk]. apply E. lia.
Qed.

Lemma of_list_lookup l i x : 0 <= i -> l !! Z.to_nat i = Some x -> of_list l i = x.
Proof. intros Hi E. unfold of_list. by apply nth_lookup_Some. Qed.

Lemma bytes_at_eq m a l : (forall i, 0 <= i < Z.of_nat (length l) -> m (a + i) = of_list l i) ->
  bytes_at m a (Z.of_nat (length l)) = l.
Proof.
  intros E. apply list_eq. intros k. unfold bytes_at. rewrite list_lookup_fmap.
  destruct (decide (k < length l)%nat) as [Hk|Hk].
  - rewrite lookup_seqZ_lt by lia. cbn. rewrite E by lia.
    destruct (lookup_lt_is_Some_2 l k Hk) as [x Hx]. rewrite Hx.
    f_equal. apply of_list_lookup; [lia|]. by replace (Z.to_nat (0 + Z.of_nat k)) with k by lia.
  - rewrite lookup_seqZ_ge by lia. cbn. symmetry. apply lookup_ge_None. lia.
Qed.

Lemma of_list_bytes_at m a n i : 0 <= i < n -> of_list (bytes_at m a n) i = m (a + i).
Proof.
  intros Hi. apply of_list_lookup; [lia|]. unfold bytes_at. rewrite list_lookup_fmap, lookup_seqZ_lt by lia.
  cbn. do 2 f_equal. lia.
Qed.

Lemma hcopy_case dst src d s n x :
  memcpy dst src d s n x = if (d <=? x) && (x <? d + n) then src (s + (x - d)) else dst x.
Proof. reflexivity. Qed.

Lemma memcpy_out dst src d s n x : x < d \/ d + n <= x -> memcpy dst src d s n x = dst x.
Proof.
  intros Hx. rewrite hcopy_case. destruct (Z.leb_spec d x), (Z.ltb_spec x (d + n)); cbn; (done || lia).
Qed.

Lemma memcpy_in dst src d s n i : 0 <= i < n -> memcpy dst src d s n (d + i) = src (s + i).
Proof.
  intros Hi. rewrite hcopy_case, (proj2 (Z.leb_le _ _)), (proj2 (Z.ltb_lt _ _)) by lia. cbn.
  f_equal. lia.
Qed.

Lemma of_le4_le4 v : 0 <= v < 4294967296 -> of_le4 (le4 v) = v.
Proof.
  intros Hv. change (of_le4 (le4 v)) with (v mod 256 + 256 * (v / 256 mod 256 +
    256 * (v / 65536 mod 256 + 256 * (v / 16777216 mod 256 + 256 * 0)))). zlia.
Qed.

(** What a pair with key [k] and a value of [vlen] bytes looks like. *)
Definition has_header (m : Z -> Z) (a : Z) (k : list Z) (vlen : Z) : Prop :=
  m a = Z.of_nat (length k) /\ bytes_at m (a + 1) (Z.of_nat (length k)) = k /\
  of_le4 (bytes_at m (a + 1 + Z.of_nat (length k)) 4) = vlen.

Definition header_size (k : list Z) : Z := 1 + Z.of_nat (length k) + 4.

(** Bytes outside the block [a] and inside block [b], up to [n]. *)
Definition same_bytes (m m' : Z -> Z) (a n : Z) : Prop := forall i, 0 <= i < n -> m' (a + i) = m (a + i).

Lemma has_header_ext m m' a k vlen : same_bytes m m' a (header_size k) ->
  has_header m a k vlen -> has_header m' a k vlen.
Proof.
  intros E (H1 & H2 & H3). unfold header_size in E. split_and!.
  - rewrite <- H1. specialize (E 0 ltac:(lia)). by rewrite Z.add_0_r in E.
  - rewrite <- H2 at 2. apply bytes_at_ext. intros i Hi. rewrite <- Z.add_assoc. apply E. lia.
  - rewrite <- H3. f_equal. apply bytes_at_ext. intros i Hi. rewrite <- !Z.add_assoc. apply E. lia.
Qed.

(** Two headers at one address are the same. *)
Lemma header_key m a k n k' n' : has_header m a k n -> has_header m a k' n' -> k = k' /\ n = n'.
Proof.
  intros (A1 & A2 & A3) (B1 & B2 & B3). assert (L : length k = length k') by lia.
  assert (k = k') as <- by (rewrite <- A2, <- B2; by rewrite L). split; [done|congruence].
Qed.

Lemma hwrite_ok h a o l sz : h.(blocks) !! a = Some sz -> a <> 0 -> 0 <= o ->
  o + Z.of_nat (length l) <= sz ->
  exists h', hwrite h a o l = Ok h' /\ h'.(blocks) = h.(blocks) /\
    (forall x, x < a + o \/ a + o + Z.of_nat (length l) <= x -> h'.(bytes) x = h.(bytes) x) /\
    (forall i, 0 <= i < Z.of_nat (length l) -> h'.(bytes) (a + o + i) = of_list l i).
Proof.
  intros E Ha Ho Hn. unfold hwrite. rewrite (access_in h a o _ sz) by done. cbn.
  eexists. split; [done|]. split; [done|]. split; intros; [by apply memcpy_out|by apply memcpy_in].
Qed.

Lemma write_header_ok h a k vlen sz :
  h.(blocks) !! a = Some sz -> a <> 0 -> header_size k <= sz -> 0 <= vlen < 4294967296 ->
  exists h', write_header h a k vlen = Ok h' /\ h'.(blocks) = h.(blocks) /\
    (forall x, x < a \/ a + header_size k <= x -> h'.(bytes) x = h.(bytes) x) /\
    has_header h'.(bytes) a k vlen.
Proof.
  intros E Ha Hn Hv. unfold header_size in *. unfold write_header.
  destruct (hwrite_ok h a 0 [Z.of_nat (length k)] sz) as (h1 & -> & B1 & O1 & I1); [done..|cbn; lia|].
  destruct (hwrite_ok h1 a 1 k sz) as (h2 & E2 & B2 & O2 & I2); [by rewrite B1|done|done|cbn; lia|].
  cbn [mbind result_mbind result_bind]. rewrite E2. cbn [mbind result_mbind result_bind].
  destruct (hwrite_ok h2 a (1 + Z.of_nat (length k)) (le4 vlen) sz) as (h3 & E3 & B3 & O3 & I3);
    [by rewrite B2, B1|done|lia|cbn [length le4]; lia|].
  cbn [length le4] in *. exists h3. split; [exact E3|]. split; [by rewrite B3, B2, B1|]. split.
  - intros x Hx. rewrite O3, O2, O1 by lia. done.
  - split_and!.
    + rewrite O3, O2 by lia. specialize (I1 0 ltac:(lia)). by rewrite !Z.add_0_r in I1.
    + apply bytes_at_eq. intros i Hi. rewrite O3 by lia. by apply I2.
    + rewrite <- (of_le4_le4 vlen) by done. f_equal. apply (bytes_at_eq _ _ (le4 vlen)).
      intros i Hi. replace (a + 1 + Z.of_nat (length k) + i) with (a + (1 + Z.of_nat (length k)) + i) by lia. by apply I3.
Qed.

(** Reading a header back. *)
Lemma klen_ok h a k vlen sz : has_header h.(bytes) a k vlen -> h.(blocks) !! a = Some sz -> a <> 0 ->
  header_size k <= sz -> __klen_from_value h a = Ok (Z.of_nat (length k)).
Proof.
  unfold header_size. intros (H1 & _) E Ha Hn. unfold __klen_from_value, hread.
  rewrite (access_in h a 0 1 sz) by (done || lia).
  cbn [mbind result_mbind result_bind]. by rewrite (of_list_bytes_at _ _ 1 0), !Z.add_0_r, H1 by lia.
Qed.

Lemma key_ok h a k vlen sz : has_header h.(bytes) a k vlen -> h.(blocks) !! a = Some sz -> a <> 0 ->
  header_size k <= sz -> key_from_value h a (Z.of_nat (length k)) = Ok k.
Proof.
  unfold header_size. intros (_ & H2 & _) E Ha Hn. unfold key_from_value, hread.
  rewrite (access_in h a 1 _ sz) by (done || lia). cbn. by rewrite H2.
Qed.

Lemma vlen_ok h a k vlen sz : has_header h.(bytes) a k vlen -> h.(blocks) !! a = Some sz -> a <> 0 ->
  header_size k <= sz -> __vlen_from_value h a = if vlen >? 0 then Ok vlen else Err BUG.
Proof.
  intros Hh E Ha Hn. unfold __vlen_from_value. rewrite (klen_ok h a k vlen sz) by done.
  cbn [mbind result_mbind result_bind]. unfold hread, KLEN_MARKER_SZ. unfold header_size in Hn.
  rewrite (access_in h a _ 4 sz) by (done || lia). cbn [mbind result_mbind result_bind].
  replace (a + (1 + Z.of_nat (length k))) with (a + 1 + Z.of_nat (length k)) by lia.
  destruct Hh as (_ & _ & ->). by destruct (vlen >? 0).
Qed.

(** Allocation and release. *)
Lemma heap_ok_bytes h m : heap_ok h -> heap_ok (mk_heap m h.(blocks)).
Proof. done. Qed.

Lemma heap_ok_free h a : heap_ok h -> heap_ok (mk_heap h.(bytes) (delete a h.(blocks))).
Proof.
  intros [R D]. split; cbn; intros b n Hb; apply lookup_delete_Some in Hb as [N Hb]; [by apply R|].
  intros b' m Hb'. apply (D b n Hb). apply lookup_delete_Some in Hb' as [N' Hb'].
  apply lookup_delete_Some in Hb' as [_ Hb']. by apply lookup_delete_Some.
Qed.

Section laws.
Context `{AllocatorLaws}.

Lemma heap_ok_alloc h n : heap_ok h -> 0 < n -> kmalloc_at h.(blocks) n <> 0 ->
  let a := kmalloc_at h.(blocks) n in
  h.(blocks) !! a = None /\ heap_ok (mk_heap h.(bytes) (<[a := n]> h.(blocks))).
Proof.
  intros [R D] Hn Ha a. pose proof (kmalloc_range h.(blocks) n Hn Ha) as Ra.
  pose proof (kmalloc_apart h.(blocks) n Hn Ha) as Pa. fold a in Ra, Pa.
  assert (Na : h.(blocks) !! a = None).
  { destruct (blocks h !! a) as [m|] eqn:E; [|done]. destruct (Pa a m E); [lia|].
    apply R in E. lia. }
  split; [done|]. split; cbn; intros b m Hb.
  - apply lookup_insert_Some in Hb as [[<- <-]|[_ Hb]]; [lia|by apply R].
  - intros b' m' Hb'. apply lookup_delete_Some in Hb' as [N' Hb'].
    apply lookup_insert_Some in Hb as [[<- <-]|[N Hb]]; apply lookup_insert_Some in Hb' as [[<- <-]|[N2 Hb']].
    + done.
    + by apply (Pa b' m').
    + destruct (Pa b m Hb); [right|left]; lia.
    + apply (D b m Hb). by rewrite lookup_delete_ne.
Qed.

End laws.

(** ** An allocator: the first address behind every block *)

Definition bump_address (bs : gmap Z Z) (n : Z) : Z :=
  let a := map_fold (fun b m x => Z.max x (b + m)) KERNEL_BASE bs in
  if (0 <? n) && (a + n <=? KERNEL_END) then a else 0.

#[export] Instance bump_allocator : Allocator := bump_address.

Lemma bump_above bs : let a := map_fold (fun b m x => Z.max x (b + m)) KERNEL_BASE bs in
  KERNEL_BASE <= a /\ forall b m, bs !! b = Some m -> b + m <= a.
Proof.
  cbv zeta. apply (map_fold_weak_ind (fun a bs => KERNEL_BASE <= a /\ forall b m, bs !! b = Some m -> b + m <= a)).
  - split; [done|]. intros b m. by rewrite lookup_empty.
  - intros b m bs' a N [Ha IH]. split; [lia|]. intros b' m' Hb.
    apply lookup_insert_Some in Hb as [[<- <-]|[_ Hb]]; [lia|]. specialize (IH b' m' Hb). lia.
Qed.

#[export] Instance bump_laws : @AllocatorLaws bump_allocator.
Proof.
  split; intros bs n Hn; unfold kmalloc_at, bump_allocator, bump_address; destruct (bump_above bs) as [A B];
    destruct (_ && _) eqn:E; try done; bool_to_prop; intros _; [done|].
  intros b m Hb. right. by apply B.
Qed.
