(* ===== verification/Pairs.v ===== *)
(** * The pages of a pair ([demand_ftl.c])

    Where a pair goes on flash and what is read of it: taking user pages,
    writing the grains of a pair over them with the marks of the out-of-band
    area, and reading a pair to compare its key.  The contents of a pair are in
    kernel memory ([Heap.v]); here are the pages, their accounting and the
    time. *)

From S2P Require Import Prelude WorkQueue Queues Prp.
From S2P Require Import ChModel Ssd Geometry PQueue Line Lines Pages Place Cache Heap.

Definition set_shard_offset (s : demand_shard) (v : Z) : demand_shard :=
  mk_shard s.(sd) s.(lm) s.(Lines.wp) s.(map_wp) s.(gc_wp) s.(map_gc_wp) s.(wfc) s.(gc_thres_lines)
    s.(gc_thres_lines_high) (u64 v) s.(oob) s.(grain_bitmap) s.(map_pgs_this_gc)
    s.(gc_pgs_this_gc) s.(map_gc_pgs_this_gc).

(** [oob[page][g]], an array of [tt_pgs] pages of [GRAIN_PER_PAGE] cells. *)
Definition oob_cell (s : demand_shard) (page g : Z) : result Z :=
  row ← cell s.(oob) (sp_of s).(tt_pgs) page; cell row GRAIN_PER_PAGE g.
Definition oob_put (s : demand_shard) (page g v : Z) : result demand_shard :=
  a ← modify s.(oob) (sp_of s).(tt_pgs) page (fun row => modify row GRAIN_PER_PAGE g (fun _ => Ok v));
  Ok (set_oob s a).

Definition __lpa_from_oob (o : Z) : Z := Z.land o 4294967295.
Definition __glen_from_oob (o : Z) : Z := u32 (Z.shiftr o 32).

(** [check_and_refill_write_credit]: with no credit left and too few free lines
    the dispatcher spins until the collector has freed some. *)
Definition check_and_refill_write_credit (s : demand_shard) : result unit :=
  if i32 s.(wfc).(write_credits) <=? 0 then if should_gc_high s then Err HANG else Ok tt
  else Ok tt.

(** ** Writing *)

(** The [again] loop of [__new_page]: page 0 is taken and marked dead, once. *)
Fixpoint new_page_loop (fuel : nat) (s : demand_shard) : result (ppa * demand_shard) :=
  match fuel with
  | O => Err HANG
  | S fuel =>
      p ← get_new_page s USER_IO;
      s ← advance_write_pointer s USER_IO;
      s ← mark_page_valid s p;
      pgidx ← ppa2pgidx (sp_of s) p;
      if pgidx =? 0 then
        s ← mark_grain_valid s (pgidx * GRAIN_PER_PAGE) GRAIN_PER_PAGE;
        s ← mark_grain_invalid s (pgidx * GRAIN_PER_PAGE) GRAIN_PER_PAGE;
        new_page_loop fuel s
      else Ok (p, set_shard_offset s (pgidx * (sp_of s).(pgsz)))
  end.
Definition __new_page (s : demand_shard) : result (ppa * demand_shard) := new_page_loop 2 s.

(** The variables of the write loop.  [w_works] are the releases of the write
    buffer given to a worker: when, and how many bytes. *)
Record writing := mk_writing {
  w_shard : demand_shard; w_cur : ppa; w_latest : Z; w_works : list (Z * Z)
}.

Section timing.
Context (clock : nat -> Z).

(** The wordline of [cur_page] is complete and goes to flash. *)
Definition write_wordline (w : writing) : result writing :=
  let spp := sp_of w.(w_shard) in
  if last_pg_in_wordline spp w.(w_cur) then
    let size := spp.(pgsz) * spp.(pgs_per_oneshotpg) in
    let '(t, d) := __stime_or_clock clock w.(w_shard).(sd) w.(w_latest) in
    '(n, s) ← advance clock (set_sd w.(w_shard) d) NAND_WRITE w.(w_cur) t size;
    Ok (mk_writing s w.(w_cur) (Z.max w.(w_latest) n) (w.(w_works) ++ [(n, size)]))
  else Ok w.

Fixpoint write_loop (fuel : nat) (w : writing) (page g_off rem rem_in_page : Z) : result writing :=
  match fuel with
  | O => Err HANG
  | S fuel =>
      if rem =? 0 then Ok w else
      let spp := sp_of w.(w_shard) in
      let sz := Z.min rem rem_in_page in
      let gsz := if Z.land sz (GRAINED_UNIT - 1) =? 0 then sz / GRAINED_UNIT else sz / GRAINED_UNIT + 1 in
      s ← mark_grain_valid w.(w_shard) (page * GRAIN_PER_PAGE + g_off) gsz;
      let s := set_shard_offset s (s.(Lines.offset) + gsz * GRAINED_UNIT) in
      let w := mk_writing s w.(w_cur) w.(w_latest) w.(w_works) in
      let rem := rem - sz in
      if (rem =? 0) && negb (s.(Lines.offset) mod spp.(pgsz) =? 0) then Ok w else
      _ ← assert_ (s.(Lines.offset) mod spp.(pgsz) =? 0);
      w ← write_wordline w;
      '(p, s) ← __new_page w.(w_shard);
      page ← ppa2pgidx (sp_of s) p;
      write_loop fuel (mk_writing s p w.(w_latest) w.(w_works)) page 0 rem spp.(pgsz)
  end.

(** The marks on the pages a pair spills over to. *)
Fixpoint spill_loop (fuel : nat) (s : demand_shard) (next : ppa) (before pgidx rem : Z) : result demand_shard :=
  match fuel with
  | O => Err HANG
  | S fuel =>
      if rem =? 0 then Ok s else
      let sz := Z.min rem GRAIN_PER_PAGE in
      s ← (if sz =? 1 then oob_put s pgidx 0 (UINT_MAX - 11)
           else s ← oob_put s pgidx 0 (UINT_MAX - 10); oob_put s pgidx 1 sz);
      let rem := rem - sz in
      if rem =? 0 then Ok s else
      next ← peek_next_page (sp_of s) next;
      _ ← assert_ (next.(g_blk) =? before);
      pgidx ← ppa2pgidx (sp_of s) next;
      spill_loop fuel s next before pgidx rem
  end.

Definition mark_oob (s : demand_shard) (start_page start_g_off glen lpa : Z) : result demand_shard :=
  s ← oob_put s start_page start_g_off (Z.lor (Z.shiftl glen 32) lpa);
  if start_g_off + glen >? GRAIN_PER_PAGE then
    let rem := u32 (glen - (GRAIN_PER_PAGE - start_g_off)) in
    next ← ppa_to_struct (sp_of s) start_page;
    let before := next.(g_blk) in
    next ← peek_next_page (sp_of s) next;
    _ ← assert_ (next.(g_blk) =? before);
    pgidx ← ppa2pgidx (sp_of s) next;
    spill_loop (S (Z.to_nat rem)) s next before pgidx rem
  else Ok s.

(** [__store] from the label [fm_two] to the out-of-band marks: [rem] bytes,
    [glen] grains.  The results are the grain of the pair and the credits for
    the grains skipped. *)
Definition place_pair (w : writing) (glen rem lpa : Z) : result (Z * Z * writing) :=
  let spp := sp_of w.(w_shard) in
  let rem_in_page := spp.(pgsz) - w.(w_shard).(Lines.offset) mod spp.(pgsz) in
  let g_off := G_OFFSET (w.(w_shard).(Lines.offset) / GRAINED_UNIT) in
  '(fits, _) ← enough_space_in_line spp w.(w_cur) g_off glen;
  '(w, g_off, rem_in_page, credits) ←
    (if (fits : bool) then Ok (w, g_off, rem_in_page, 0) else
      _ ← assert_ (rem_in_page mod GRAINED_UNIT =? 0);
      '(s, credits) ← clear_rest_of_line w.(w_shard) w.(w_cur) g_off 0 false;
      '(p, s) ← __new_page s;
      Ok (mk_writing s p w.(w_latest) w.(w_works), 0, spp.(pgsz), credits));
  '(w, g_off, rem_in_page) ←
    (if w.(w_shard).(Lines.offset) =? 0 then
      '(p, s) ← __new_page w.(w_shard);
      Ok (mk_writing s p w.(w_latest) w.(w_works), 0, spp.(pgsz))
    else Ok (w, g_off, rem_in_page));
  _ ← assert_ (rem_in_page >? 0);
  let grain := w.(w_shard).(Lines.offset) / GRAINED_UNIT in
  let page := G_IDX grain in
  w ← write_loop (S (Z.to_nat rem)) w page g_off rem rem_in_page;
  s ← mark_oob w.(w_shard) page g_off glen lpa;
  Ok (u32 grain, credits, mk_writing s w.(w_cur) w.(w_latest) w.(w_works)).

(** ** Reading *)

(** The page loop: [xfer] bytes starting with page [to_read] have not been
    read yet.  A pair never leaves its line. *)
Fixpoint read_pages (fuel : nat) (s : demand_shard) (line : Z) (to_read next : ppa)
    (offset rem xfer latest : Z) : result (Z * demand_shard) :=
  match fuel with
  | O => Err HANG
  | S fuel =>
      let spp := sp_of s in
      let finish s to_read xfer latest :=
        if xfer >? 0 then
          '(n, s) ← advance clock s NAND_READ to_read 0 xfer; Ok (Z.max n latest, s)
        else Ok (latest, s) in
      if rem =? 0 then finish s to_read xfer latest else
      let sz := Z.min (u32 rem) (u32 (GRAIN_PER_PAGE - offset mod GRAIN_PER_PAGE)) in
      _ ← assert_ (to_read.(g_blk) =? line);
      let rem := i32 (rem - sz) in
      if rem =? 0 then finish s to_read xfer latest else
      next ← peek_next_page spp next;
      if is_same_flash_page spp to_read next then
        read_pages fuel s line to_read next 0 rem (u32 (xfer + spp.(pgsz))) latest
      else
        '(n, s) ← (if xfer >? 0 then advance clock s NAND_READ to_read 0 xfer else Ok (latest, s));
        read_pages fuel s line next next 0 rem spp.(pgsz) (Z.max latest n)
  end.

(** One round more than a line has pages. *)
Definition pages_fuel (spp : ssdparams) : nat := S (S (Z.to_nat spp.(pgs_per_line))).

(** [__retrieve_and_compare]: whether the keys differ, the time, the probe
    count.  The pair is at [mem], its first page at [grain]. *)
Definition __retrieve_and_compare (s : demand_shard) (hp : heap) (grain mem cnt : Z) (ukey : list Z)
    (u_klen stime read_len read_offset : Z) (key_match for_del : bool)
    : result (bool * Z * Z * demand_shard) :=
  let spp := sp_of s in
  let ppa := G_IDX grain in
  _ ← assert_ (negb (mem =? 0));
  _ ← assert_ (ppa <? spp.(tt_pgs));
  to_read ← ppa_to_struct spp ppa;
  let line := to_read.(g_blk) in
  let got_first := negb key_match || (read_offset <=? spp.(pgsz)) in
  '(latest, s) ← (if (got_first : bool) then
      '(n, s) ← advance clock s NAND_READ to_read stime spp.(pgsz); Ok (Z.max n stime, s)
    else Ok (stime, s));
  klen ← __klen_from_value hp mem;
  if negb (klen =? u_klen) then Ok (true, latest, i32 (cnt + 1), s) else
  k ← key_from_value hp mem klen;
  if negb (bool_decide (take (Z.to_nat klen) ukey = k)) then Ok (true, latest, i32 (cnt + 1), s) else
  if spp.(pgsz) >=? u32 (read_offset + read_len) then Ok (false, latest, cnt, s) else
  let '(read_len, read_offset) :=
    if got_first && (read_offset <=? spp.(pgsz))
    then (i32 (read_len - (spp.(pgsz) - read_offset mod spp.(pgsz))), spp.(pgsz))
    else (read_len, read_offset) in
  next ← __skip_ppas spp to_read
    (if negb got_first && (read_offset <=? spp.(pgsz)) then read_offset else spp.(pgsz));
  if for_del then _ ← ppa2pgidx spp next; Ok (false, latest, cnt, s) else
  let read_len := Z.quot read_len GRAINED_UNIT in
  let read_len := if Z.rem read_len GRAINED_UNIT =? 0 then read_len else read_len + 1 in
  '(latest, s) ← read_pages (pages_fuel spp) s line next next
    ((read_offset mod spp.(pgsz)) / GRAINED_UNIT) read_len spp.(pgsz) latest;
  Ok (false, latest, cnt, s).

End timing.

(** ** The place where stores go

    Page [n] of line [b] is the current page and its first [g] grains are
    used; the pages after it are free. *)

Record user_pos (s : demand_shard) (cur : ppa) (b n g : Z) : Prop := {
  up_inv : shard_inv s;
  up_wp : wp_ok s USER_IO b (n + 1);
  up_cur : cur = page_of s b n;
  up_range : 0 <= n /\ 0 <= g <= GRAIN_PER_PAGE;
  up_off : s.(offset) = index_of s b n * 4096 + g * GRAINED_UNIT;
  up_zero : index_of s b n <> 0;
  up_status : (page_at_ppa s (page_of s b n)).(status) = PG_VALID;
  up_free : forall m, n < m < (sp_of s).(pgs_per_line) -> (page_at_ppa s (page_of s b m)).(status) = PG_FREE;
  up_bits : forall m i, n <= m < (sp_of s).(pgs_per_line) -> 0 <= i < GRAIN_PER_PAGE -> (m = n -> g <= i) ->
    bit s (index_of s b m * GRAIN_PER_PAGE + i) = false;
  up_blk : forall m, n <= m < (sp_of s).(pgs_per_line) ->
    0 <= (blk_at s.(sd) (page_of s b m)).(Ssd.vgc) <= GRAIN_PER_PAGE * (page_of s b m).(g_pg) + (if m =? n then g else 0);
  up_line : (s.(lm).(lines) b).(vgc) + (s.(lm).(lines) b).(igc) <= GRAIN_PER_PAGE * n + g
}.

Lemma GRAINED_val : GRAINED_UNIT = 512.
Proof. reflexivity. Qed.

Lemma up_geom s cur b n g : user_pos s cur b n g ->
  geom (sp_of s) /\ 0 <= b < (sp_of s).(blks_per_pl) /\ n + 1 < (sp_of s).(pgs_per_line).
Proof.
  intros U. pose proof (sh_geom _ (up_inv _ _ _ _ _ U)). destruct (up_wp _ _ _ _ _ U) as (_ & (Hb & _) & Hn).
  split; [done|]. split; [done|]. lia.
Qed.

(** The current page as the operations see it. *)
Lemma up_page s cur b n g m : user_pos s cur b n g -> n <= m < (sp_of s).(pgs_per_line) ->
  page_ok (sp_of s) (page_of s b m) /\ 0 <= index_of s b m < (sp_of s).(tt_pgs) /\
  ppa_to_struct (sp_of s) (index_of s b m) = Ok (page_of s b m) /\
  ppa2pgidx (sp_of s) (page_of s b m) = Ok (index_of s b m).
Proof.
  intros U Hm. destruct (up_geom _ _ _ _ _ U) as (G & Hb & _). pose proof (up_range _ _ _ _ _ U) as [Hn _].
  pose proof (page_at_ok _ G b m Hb ltac:(lia)) as P. split; [done|]. split; [by apply pgidx_range|].
  split; [by apply ppa_to_struct_pgidx|by apply ppa2pgidx_ok].
Qed.

(** It is a position of the write pointer of the store commands. *)
Lemma up_place s cur b n g : user_pos s cur b n g -> place_at s USER_IO b n g.
Proof. by intros []. Qed.

Lemma place_offset s t b n g v : place_at s t b n g -> place_at (set_shard_offset s v) t b n g.
Proof.
  intros [[I1 I2] U2 U3 U4 U5 U6 U7 U8]. by split.
Qed.

Lemma place_up s cur b n g v : place_at s USER_IO b n g -> cur = page_of s b n ->
  v = index_of s b n * 4096 + g * GRAINED_UNIT -> index_of s b n <> 0 -> user_pos (set_shard_offset s v) cur b n g.
Proof.
  intros U Ec Ev Hz. destruct (pa_geom _ _ _ _ _ U) as (G & Hb & Hn1). pose proof (pa_range _ _ _ _ _ U) as [Hn Hg].
  destruct (line_page s b n G Hb ltac:(lia)) as (_ & Hi & _). pose proof (tt_pgs_small _ G). rewrite GPP_val in Hg.
  destruct (place_offset _ _ _ _ _ v U). split; try done. cbn. rewrite GRAINED_val in *.
  change (sp_of (set_shard_offset s v)) with (sp_of s). rewrite u64_small; lia.
Qed.

Lemma store_grains_ok s cur b n g len :
  user_pos s cur b n g -> 0 < len -> g + len <= GRAIN_PER_PAGE ->
  exists s', mark_grain_valid s (index_of s b n * GRAIN_PER_PAGE + g) len = Ok s' /\
    user_pos (set_shard_offset s' (s'.(offset) + len * GRAINED_UNIT)) cur b n (g + len) /\
    stored s s' b n g len /\ timing_kept s s'.
Proof.
  intros U Hl Hg. destruct (place_store_ok s USER_IO b n g len (up_place _ _ _ _ _ U) Hl Hg)
    as (s' & E & U' & S & T & _ & _ & _ & Eo & _). exists s'. split; [done|]. split; [|done].
  apply place_up; rewrite ?(st_sp _ _ _ _ _ _ S); [done|apply U| |apply U].
  rewrite Eo, (up_off _ _ _ _ _ U). lia.
Qed.

(** The line has another page after the next one. *)
Lemma new_page_free s b n : next_free s USER_IO b n -> n + 1 < (sp_of s).(pgs_per_line) -> index_of s b n <> 0 ->
  exists s', __new_page s = Ok (page_of s b n, s') /\ user_pos s' (page_of s b n) b n 0 /\
    sp_of s' = sp_of s /\ s'.(lm) = s.(lm) /\ s'.(grain_bitmap) = s.(grain_bitmap) /\ s'.(oob) = s.(oob) /\
    timing_kept s s'.
Proof.
  intros F Hn1 Hz. pose proof (sh_geom _ (nf_inv _ _ _ _ F)) as G. destruct (nf_wp _ _ _ _ F) as (_ & (Hb & _) & Hn).
  destruct (place_take s USER_IO b n F Hn1) as (s1 & s2 & E & E1 & E2 & Es & U' & T & M & R1 & R2 & R3 & _).
  destruct (line_page s b n G Hb Hn) as (P & Hx & _ & E'). pose proof (mv_sp _ _ _ _ _ M) as Es2.
  unfold __new_page. cbn [new_page_loop]. rewrite E. cbn [mbind result_mbind result_bind].
  rewrite E1. cbn [mbind result_mbind result_bind]. rewrite E2. cbn [mbind result_mbind result_bind].
  rewrite Es2, E'. cbn [mbind result_mbind result_bind]. rewrite (proj2 (Z.eqb_neq _ 0) Hz), (proj2 (geom_secs _ G)).
  eexists. split; [done|]. split; [|by split_and!].
  apply place_up; rewrite ?Es2; [done|done|lia|done].
Qed.

Lemma new_page_ok s cur b n g :
  user_pos s cur b n g -> n + 2 < (sp_of s).(pgs_per_line) ->
  exists s', __new_page s = Ok (page_of s b (n + 1), s') /\ user_pos s' (page_of s b (n + 1)) b (n + 1) 0 /\
    sp_of s' = sp_of s /\ s'.(lm) = s.(lm) /\ s'.(grain_bitmap) = s.(grain_bitmap) /\ s'.(oob) = s.(oob) /\
    timing_kept s s'.
Proof.
  intros U Hn2. destruct (up_geom _ _ _ _ _ U) as (G & Hb & Hn1). pose proof (up_range _ _ _ _ _ U) as [Hn Hg].
  apply new_page_free; [|lia|by apply (index_nonzero _ b (n + 1) G Hb); lia].
  apply place_next. destruct (up_place _ _ _ _ _ U) as [A1 A2 A3 A4 A5 A6 A7 A8]. split; try done; try lia.
  - intros m i Hm Hi Hx. apply A6; lia.
  - intros m Hm. pose proof (A7 m Hm). case_cmp; lia.
Qed.

(** Timing alone moves nothing. *)
Lemma place_flash s s' t b n g : same_flash s s' -> tree_ok s'.(sd) -> place_at s t b n g -> place_at s' t b n g.
Proof.
  intros F T U. pose proof F as (D & Es & _). pose proof (same_flash_blk s s') as Bk.
  unfold same_but_device in D.
  assert (St : forall p, (page_at_ppa s' p).(status) = (page_at_ppa s p).(status)).
  { intros p. unfold page_at_ppa. by rewrite Bk. }
  destruct U as [[I1 I2] U2 U3 U4 U5 U6 U7 U8]. split; rewrite ?Es; try done.
  - split; [done|]. rewrite Es, D. done.
  - destruct U2 as (W1 & W2 & W3). unfold wp_ok. rewrite Es, D. split; [|by split]. by destruct t.
  - by rewrite St.
  - intros m Hm. rewrite St. by apply U5.
  - intros m i. rewrite D. apply U6.
  - intros m Hm. rewrite (Bk _ F). by apply U7.
  - by rewrite D.
Qed.

Lemma dead_flash s s' b n g : same_flash s s' -> dead_ok s b n g -> dead_ok s' b n g.
Proof. intros F D m. pose proof F as (_ & Es & _). rewrite Es, (same_flash_blk _ _ _ F). apply D. Qed.

Lemma next_free_flash s s' t b n : same_flash s s' -> tree_ok s'.(sd) -> next_free s t b n -> next_free s' t b n.
Proof.
  intros F T U. pose proof F as (D & Es & _). pose proof (same_flash_blk s s') as Bk. unfold same_but_device in D.
  assert (St : forall p, (page_at_ppa s' p).(status) = (page_at_ppa s p).(status)).
  { intros p. unfold page_at_ppa. by rewrite Bk. }
  destruct U as [[I1 I2] U2 U3 U4 U5 U6]. split; rewrite ?Es.
  - split; [done|]. by rewrite Es, D.
  - destruct U2 as (W1 & W2 & W3). unfold wp_ok. rewrite Es, D. split; [by destruct t|by split].
  - intros m Hm. rewrite St. by apply U3.
  - intros m i. rewrite D. apply U4.
  - intros m Hm. rewrite (Bk _ F). by apply U5.
  - by rewrite D.
Qed.

Lemma user_pos_flash s s' cur b n g : same_flash s s' -> tree_ok s'.(sd) -> user_pos s cur b n g -> user_pos s' cur b n g.
Proof.
  intros F T U. pose proof (place_flash _ _ _ _ _ _ F T (up_place _ _ _ _ _ U)) as [U1 U2 U3 U4 U5 U6 U7 U8].
  destruct F as (D & Es & _). unfold same_but_device in D.
  split; try done; rewrite ?Es; [apply (up_cur _ _ _ _ _ U)|rewrite D; apply (up_off _ _ _ _ _ U)|apply (up_zero _ _ _ _ _ U)].
Qed.

(** ** Writing a pair *)

(** Grains from a number of bytes. *)
Definition grains (n : Z) : Z := (n + 511) / 512.

(** The first grain of every piece of a pair that starts at grain [x] of its
    line and has [len] grains: the pieces are its parts in different pages. *)
Definition piece (spp : ssdparams) (b x len q : Z) : Prop :=
  q = pgidx spp (page_at spp b (x / 8)) * 8 + x mod 8 \/
  exists m, x / 8 < m /\ 8 * m < x + len /\ q = pgidx spp (page_at spp b m) * 8.

Record written (s s' : demand_shard) (b x len : Z) : Prop := {
  wr_sp : sp_of s' = sp_of s;
  wr_bit : forall q, bit s' q = true <-> bit s q = true \/ piece (sp_of s) b x len q;
  wr_line : forall i, (s'.(lm).(lines) i).(vgc) = (s.(lm).(lines) i).(vgc) + (if i =? b then len else 0) /\
    (s'.(lm).(lines) i).(igc) = (s.(lm).(lines) i).(igc);
  wr_oob : s'.(oob) = s.(oob)
}.

(** Releases of the write buffer, one for each wordline completed. *)
Definition releases (l : list (Z * Z)) (k : Z) : Prop :=
  Z.of_nat (length l) = k /\ Forall (fun r => r.2 = 32768) l.

Lemma written_stored s s' b x len : x mod 8 + len <= 8 -> 0 < len ->
  stored s s' b (x / 8) (x mod 8) len -> written s s' b x len.
Proof.
  intros Hl H0 [S1 S2 S3 S4]. split; try done. intros q. rewrite S2, GPP_val. unfold piece.
  case_cmp; [split; [by right; left|done]|]. split; [by left|]. intros [|[|(m & M1 & M2 & _)]]; [done..|].
  pose proof (Z.div_mod x 8 ltac:(lia)). lia.
Qed.

Lemma written_trans s s1 s2 b x l1 l2 : 0 < l1 -> 0 < l2 -> (x + l1) mod 8 = 0 -> x mod 8 + l1 <= 8 ->
  written s s1 b x l1 -> written s1 s2 b (x + l1) l2 -> written s s2 b x (l1 + l2).
Proof.
  intros H1 H2 H3 H4 [A1 A2 A3 A4] [B1 B2 B3 B4].
  assert (E : (x + l1) / 8 = x / 8 + 1) by zlia.
  split; [by rewrite B1| | |by rewrite B4].
  - intros q. rewrite B2, A2, A1. unfold piece. rewrite E, H3. split.
    + intros [[Q|[Q|(m & M1 & M2 & Q)]]|[Q|(m & M1 & M2 & Q)]]; [by left|by right; left|zlia| |].
      * right; right. exists (x / 8 + 1). split; [lia|]. split; [zlia|lia].
      * right; right. exists m. split; [lia|]. split; [lia|done].
    + intros [Q|[Q|(m & M1 & M2 & Q)]]; [by left; left|by left; right; left|].
      right. destruct (Z.eq_dec m (x / 8 + 1)) as [->|]; [left; lia|].
      right. exists m. split; [lia|]. split; [lia|done].
  - intros i. destruct (B3 i) as [-> ->], (A3 i) as [-> ->]. case_cmp; lia.
Qed.

Section writing.
Context (clock : nat -> Z).
#[local] Abbreviation ready s B := (nand_ready clock s.(sd) B).

Lemma last_in_wordline spp b n : geom spp -> last_pg_in_wordline spp (page_at spp b n) = (n mod 8 =? 7).
Proof.
  intros G. destruct (geom_consts _ G) as (E1 & _). unfold last_pg_in_wordline, page_at. cbn [g_pg].
  rewrite E1. f_equal. rewrite Z.add_comm, Z_mod_plus_full, Z.mod_mod; lia.
Qed.

(** The current page is full: its wordline may go to flash. *)
Lemma write_wordline_ok w b n g B :
  user_pos w.(w_shard) w.(w_cur) b n g -> ready w.(w_shard) B -> 0 <= w.(w_latest) <= B -> B < 2 ^ 62 ->
  exists w' l, write_wordline clock w = Ok w' /\ user_pos w'.(w_shard) w'.(w_cur) b n g /\
    ready w'.(w_shard) (B + NAND_MAX) /\ 0 <= w'.(w_latest) <= B + NAND_MAX /\
    same_flash w.(w_shard) w'.(w_shard) /\ w'.(w_works) = w.(w_works) ++ l /\
    releases l (if n mod 8 =? 7 then 1 else 0).
Proof.
  intros U R Hl HB. destruct (up_geom _ _ _ _ _ U) as (G & Hb & Hn1). pose proof (up_range _ _ _ _ _ U) as [Hn _].
  unfold write_wordline. rewrite (up_cur _ _ _ _ _ U), last_in_wordline by done.
  destruct (n mod 8 =? 7).
  2:{ exists w, []. rewrite app_nil_r. split; [done|]. split; [done|]. split.
      { apply (nand_ready_mono _ _ B); [done|]. unfold NAND_MAX. lia. }
      split; [unfold NAND_MAX; lia|]. by split_and!. }
  destruct (__stime_or_clock clock (sd (w_shard w)) (w_latest w)) as [t d] eqn:E.
  destruct (stime_or_clock_ok _ _ _ _ _ _ E R Hl) as (-> & R' & Ht).
  destruct (up_page _ _ _ _ _ n U ltac:(lia)) as (P & _).
  destruct (advance_ok clock (set_sd w.(w_shard) (tick w.(w_shard).(sd))) NAND_WRITE (page_of (w_shard w) b n) t
    ((sp_of w.(w_shard)).(pgsz) * (sp_of w.(w_shard)).(pgs_per_oneshotpg)) B R' P) as (n' & s' & -> & Q1 & Q2 & Q3);
    [by apply write_supported|by apply page_xfer|done|done|].
  cbn [mbind result_mbind result_bind].
  assert (F : same_flash (w_shard w) s').
  { etransitivity; [|exact Q3]. done. }
  eexists _, [_]. split; [done|]. cbn [w_shard w_cur w_latest w_works].
  split; [rewrite <- (up_cur _ _ _ _ _ U); apply (user_pos_flash (w_shard w)); [done|apply (nr_tree _ _ _ Q1)|done]|].
  split; [done|]. split; [unfold NAND_MAX in *; lia|]. split; [done|]. split; [done|].
  split; [done|]. constructor; [|done]. cbn. by rewrite (proj2 (geom_secs _ G)), (proj2 (geom_flash _ G)).
Qed.

Lemma written_flash s0 s s' b x len : same_flash s s' -> written s0 s b x len -> written s0 s' b x len.
Proof.
  intros (D & Es & _) [A1 A2 A3 A4]. unfold same_but_device in D. split.
  - by rewrite Es.
  - intros q. rewrite D. apply A2.
  - intros i. rewrite D. apply A3.
  - rewrite D. done.
Qed.

Lemma write_loop_ok fuel w b n g rem B :
  user_pos w.(w_shard) w.(w_cur) b n g -> g < 8 -> ready w.(w_shard) B -> 0 <= w.(w_latest) <= B ->
  0 < rem < Z.of_nat fuel ->
  let n' := (8 * n + g + grains rem) / 8 in
  n' + 1 < (sp_of w.(w_shard)).(pgs_per_line) -> B + NAND_MAX * (n' - n) < 2 ^ 62 ->
  exists w' l, write_loop clock fuel w (index_of w.(w_shard) b n) g rem (4096 - g * 512) = Ok w' /\
    user_pos w'.(w_shard) w'.(w_cur) b n' ((8 * n + g + grains rem) mod 8) /\
    written w.(w_shard) w'.(w_shard) b (8 * n + g) (grains rem) /\
    ready w'.(w_shard) (B + NAND_MAX * (n' - n)) /\ 0 <= w'.(w_latest) <= B + NAND_MAX * (n' - n) /\
    w'.(w_works) = w.(w_works) ++ l /\ releases l (n' / 8 - n / 8).
Proof.
  revert w n g rem B. induction fuel as [|fuel IH]; intros w n g rem B U Hg R Hl Hr n' Hn' HB; [lia|].
  cbn [write_loop]. rewrite (proj2 (Z.eqb_neq rem 0)) by lia.
  destruct (up_geom _ _ _ _ _ U) as (G & Hb & Hn1). pose proof (up_range _ _ _ _ _ U) as [Hn Hg0].
  set (sz := Z.min rem (4096 - g * 512)).
  assert (Hsz : 0 < sz <= rem) by lia.
  set (gsz := if Z.land sz (GRAINED_UNIT - 1) =? 0 then sz / GRAINED_UNIT else sz / GRAINED_UNIT + 1).
  assert (Egs : gsz = grains sz).
  { unfold gsz, grains. rewrite GRAINED_val.
    change (Z.land sz (512 - 1)) with (Z.land sz (Z.ones 9)). rewrite Z.land_ones by lia. change (2 ^ 9) with 512.
    case_cmp; zlia. }
  assert (Hgs : 0 < gsz /\ g + gsz <= 8) by (rewrite Egs; unfold grains, sz; zlia).
  destruct (store_grains_ok _ _ _ _ _ gsz U) as (s1 & E1 & U1 & S1 & T1); [lia|rewrite GPP_val; lia|].
  rewrite GPP_val in E1 |- *. rewrite E1. cbn [mbind result_mbind result_bind].
  rewrite GRAINED_val in *. set (s2 := set_shard_offset s1 _) in *.
  assert (Es : sp_of s2 = sp_of (w_shard w)) by apply (st_sp _ _ _ _ _ _ S1).
  assert (W2 : written (w_shard w) s2 b (8 * n + g) gsz).
  { apply (written_stored _ s2); [zlia|lia|]. replace ((8 * n + g) / 8) with n by zlia.
    replace ((8 * n + g) mod 8) with g by zlia. destruct S1. by split. }
  assert (R2 : ready s2 B).
  { apply (nand_ready_kept _ (sd (w_shard w))); [done| |exact T1]. apply (sh_tree _ (up_inv _ _ _ _ _ U1)). }
  set (w1 := mk_writing s2 _ _ _).
  assert (Off : s2.(offset) mod pgsz (sp_of (w_shard w)) = if g + gsz =? 8 then 0 else (g + gsz) * 512).
  { rewrite (up_off _ _ _ _ _ U1), (proj2 (geom_secs _ G)), GRAINED_val, Z.add_comm, Z_mod_plus_full. case_cmp; zlia. }
  change (offset (w_shard w1)) with (offset s2). rewrite Off.
  assert (Egr : rem - sz = 0 -> grains rem = gsz) by (intros; rewrite Egs; f_equal; lia).
  destruct (decide (rem - sz = 0 /\ g + gsz <> 8)) as [[D1 D2]|D].
  { rewrite D1, (proj2 (Z.eqb_neq _ 8)) by lia. rewrite (proj2 (Z.eqb_neq (_ * 512) 0)) by lia.
    cbn [andb negb Z.eqb]. specialize (Egr D1). unfold n' in *. rewrite Egr in *.
    replace ((8 * n + g + gsz) / 8) with n in * by zlia. replace ((8 * n + g + gsz) mod 8) with (g + gsz) by zlia.
    rewrite Z.sub_diag in *. exists w1, []. rewrite app_nil_r, Z.mul_0_r, Z.add_0_r.
    split; [done|]. split; [exact U1|]. split; [exact W2|]. split; [exact R2|]. split; [exact Hl|]. split; [done|].
    by rewrite Z.sub_diag. }
  assert (Hg8 : g + gsz = 8).
  { destruct (Z.eq_dec (rem - sz) 0) as [Z0|Z0]; [by destruct (decide (g + gsz = 8)); tauto|].
    rewrite Egs. unfold sz, grains in *. zlia. }
  rewrite Hg8. cbn [Z.eqb negb]. rewrite andb_false_r. cbn [assert_ mbind result_mbind result_bind].
  assert (Hx : grains rem = gsz + grains (rem - sz)).
  { destruct (Z.eq_dec (rem - sz) 0) as [Z0|Z0]; [rewrite Egr, Z0 by done; change (grains 0) with 0; lia|].
    assert (sz = 4096 - g * 512) by lia. rewrite Egs. unfold grains. zlia. }
  assert (Hr0 : 0 <= grains (rem - sz)) by (unfold grains; zlia).
  assert (En' : n' = (8 * (n + 1) + 0 + grains (rem - sz)) / 8) by (unfold n'; rewrite Hx; f_equal; lia).
  assert (Hnn : n + 1 <= n') by (rewrite En'; zlia).
  destruct (write_wordline_ok w1 b n 8 B) as (w2 & l1 & E2 & U2 & R3 & H2 & F2 & Ew & L1).
  { by rewrite Hg8 in U1. }
  { done. } { done. } { unfold NAND_MAX in *. nia. }
  rewrite E2. cbn [mbind result_mbind result_bind]. pose proof F2 as (_ & Es2 & _).
  destruct (new_page_ok _ _ _ _ _ U2) as (s3 & E3 & U3 & Es3 & Lm3 & Bm3 & Ob3 & T3).
  { rewrite Es2. change (w_shard w1) with s2. rewrite Es. lia. }
  rewrite E3. cbn [mbind result_mbind result_bind].
  assert (Es0 : sp_of s3 = sp_of (w_shard w)) by (rewrite Es3, Es2; exact Es).
  rewrite Es3. destruct (up_page _ _ _ _ _ (n + 1) U2) as (_ & _ & _ & ->).
  { rewrite Es2. change (w_shard w1) with s2. rewrite Es. lia. }
  cbn [mbind result_mbind result_bind].
  assert (W3 : written (w_shard w) s3 b (8 * n + g) gsz).
  { apply (written_flash _ _ (w_shard w2)) in W2; [|exact F2]. destruct W2 as [A1 A2 A3 A4]. split.
    - done.
    - intros q. rewrite Bm3. apply A2.
    - intros i. rewrite Lm3. apply A3.
    - by rewrite Ob3. }
  assert (R4 : ready s3 (B + NAND_MAX)).
  { apply (nand_ready_kept _ (sd (w_shard w2))); [done| |exact T3]. apply (sh_tree _ (up_inv _ _ _ _ _ U3)). }
  rewrite <- Es3. set (w3 := mk_writing s3 _ _ _). rewrite <- Es3 in U3.
  rewrite (proj2 (geom_secs _ G)).
  assert (L8 : n' / 8 - n / 8 = (if n mod 8 =? 7 then 1 else 0) + (n' / 8 - (n + 1) / 8)).
  { rewrite (succ_div n 8) by lia. change (8 - 1) with 7. case_cmp; lia. }
  destruct (Z.eq_dec (rem - sz) 0) as [Z0|Z0].
  - rewrite Z0 in *. change (grains 0) with 0 in *. rewrite !Z.add_0_r in *.
    replace (8 * (n + 1) / 8) with (n + 1) in En' by zlia. rewrite En' in *.
    destruct fuel as [|fuel']; [lia|]. cbn [write_loop Z.eqb].
    exists w3, l1. split; [done|]. rewrite Hx. replace ((8 * n + g + gsz) mod 8) with 0 by zlia.
    replace (n + 1 - n) with 1 by lia. rewrite Z.mul_1_r. split; [exact U3|]. split; [exact W3|].
    split; [exact R4|]. split; [exact H2|]. split; [exact Ew|]. rewrite L8, Z.sub_diag, Z.add_0_r. exact L1.
  - destruct (IH w3 (n + 1) 0 (rem - sz) (B + NAND_MAX)) as (w' & l2 & E5 & U5 & W5 & R5 & H5 & Ew5 & L5).
    + exact U3. + lia. + exact R4. + exact H2. + lia.
    + change (w_shard w3) with s3. rewrite Es0, <- En'. lia.
    + rewrite <- En'. unfold NAND_MAX in *. nia.
    + rewrite <- En' in *. change (w_shard w3) with s3 in *. rewrite Z.mul_0_l, Z.sub_0_r in E5.
      replace (B + NAND_MAX + NAND_MAX * (n' - (n + 1))) with (B + NAND_MAX * (n' - n)) in * by lia.
      exists w', (l1 ++ l2). split; [exact E5|]. split.
      { replace (8 * n + g + grains rem) with (8 * (n + 1) + 0 + grains (rem - sz)) by lia. exact U5. }
      split; [|split; [exact R5|split; [exact H5|split]]].
      * rewrite Hx. apply (written_trans _ s3); try done; try lia; try zlia.
        { unfold grains. zlia. }
        replace (8 * n + g + gsz) with (8 * (n + 1) + 0) by lia. exact W5.
      * rewrite Ew5, app_assoc. f_equal. exact Ew.
      * destruct L1 as [L1 F1], L5 as [L5 F5]. split; [rewrite length_app; lia|by apply Forall_app].
Qed.

(** ** The marks of the out-of-band area *)

(** The first cell of a page that [len] grains of a pair spill over to. *)
Definition spill_mark (len : Z) : Z := if len =? 1 then UINT_MAX - 11 else UINT_MAX - 10.

(** Pages [m], [m + 1], ... hold [rem] more grains of a pair. *)
Record spilled (spp : ssdparams) (o o' : Z -> Z -> Z) (b m rem : Z) : Prop := {
  sp_mark : forall k, m <= k -> 8 * (k - m) < rem ->
    o' (pgidx spp (page_at spp b k)) 0 = spill_mark (Z.min (rem - 8 * (k - m)) 8) /\
    (Z.min (rem - 8 * (k - m)) 8 <> 1 -> o' (pgidx spp (page_at spp b k)) 1 = Z.min (rem - 8 * (k - m)) 8);
  sp_other : forall x i, (forall k, m <= k -> 8 * (k - m) < rem -> x = pgidx spp (page_at spp b k) -> i <> 0 /\ i <> 1) ->
    o' x i = o x i
}.

Lemma oob_put_ok s x i v : 0 <= x < (sp_of s).(tt_pgs) -> 0 <= i < 8 ->
  oob_put s x i v = Ok (set_oob s (upd s.(oob) x (upd (s.(oob) x) i v))).
Proof.
  intros Hx Hi. unfold oob_put. rewrite modify_in by done. rewrite modify_in by (rewrite GPP_val; done). done.
Qed.

Lemma upd2_case (o : Z -> Z -> Z) x i v y j :
  upd o x (upd (o x) i v) y j = if (y =? x) && (j =? i) then v else o y j.
Proof. rewrite upd_case. destruct (Z.eqb_spec y x) as [->|]; [|done]. cbn. by rewrite upd_case. Qed.

(** The marks of one page. *)
Lemma spill_page_ok s x sz : 0 <= x < (sp_of s).(tt_pgs) -> 0 < sz ->
  exists o', (if sz =? 1 then oob_put s x 0 (UINT_MAX - 11)
              else s ← oob_put s x 0 (UINT_MAX - 10); oob_put s x 1 sz) = Ok (set_oob s o') /\
    o' x 0 = spill_mark sz /\ (sz <> 1 -> o' x 1 = sz) /\
    forall y i, (y = x -> i <> 0 /\ i <> 1) -> o' y i = s.(oob) y i.
Proof.
  intros Hx Hs. unfold spill_mark. destruct (Z.eqb_spec sz 1) as [->|Ne].
  - rewrite oob_put_ok by done. eexists. split; [done|]. split; [by rewrite upd2_case, !Z.eqb_refl|].
    split; [done|]. intros y i H. rewrite upd2_case. destruct (Z.eqb_spec y x), (Z.eqb_spec i 0); cbn; try done. tauto.
  - rewrite oob_put_ok by done. cbn [mbind result_mbind result_bind]. rewrite oob_put_ok by done.
    eexists. split; [done|]. cbn [set_oob oob]. split; [|split].
    + by rewrite !upd2_case, !Z.eqb_refl.
    + intros _. by rewrite upd2_case, !Z.eqb_refl.
    + intros y i H. rewrite !upd2_case. destruct (Z.eqb_spec y x), (Z.eqb_spec i 0), (Z.eqb_spec i 1); cbn; try done; tauto.
Qed.

Lemma spill_loop_ok fuel s b m rem :
  geom (sp_of s) -> 0 <= b < (sp_of s).(blks_per_pl) -> 0 <= m -> 0 < rem < Z.of_nat fuel ->
  (8 * m + rem - 1) / 8 < (sp_of s).(pgs_per_line) ->
  exists o', spill_loop fuel s (page_of s b m) b (index_of s b m) rem = Ok (set_oob s o') /\
    spilled (sp_of s) s.(oob) o' b m rem.
Proof.
  intros G Hb. revert s G Hb m rem. induction fuel as [|fuel IH]; intros s G Hb m rem Hm Hr Hl; [lia|].
  cbn [spill_loop]. rewrite (proj2 (Z.eqb_neq rem 0)) by lia. rewrite GPP_val.
  assert (Hml : m < (sp_of s).(pgs_per_line)) by zlia.
  pose proof (pgidx_range _ G _ (page_at_ok _ G b m Hb ltac:(lia))) as Hx.
  destruct (spill_page_ok s (index_of s b m) (Z.min rem 8) Hx ltac:(lia)) as (o1 & -> & M0 & M1 & Mo).
  cbn [mbind result_mbind result_bind]. set (s1 := set_oob s o1).
  change (sp_of s1) with (sp_of s) in *.
  destruct (Z.eqb_spec (rem - Z.min rem 8) 0) as [Z0|Z0].
  - exists o1. split; [done|]. split.
    + intros k Hk Hk'. assert (k = m) as -> by lia. rewrite Z.sub_diag, Z.mul_0_r, Z.sub_0_r. by split.
    + intros x i H. apply Mo. intros ->. apply (H m); lia || done.
  - rewrite peek_page_at, (proj2 (Z.eqb_neq m _)) by (done || zlia). cbn [mbind result_mbind result_bind].
    change (g_blk (page_at (sp_of s) b (m + 1))) with b. rewrite Z.eqb_refl. cbn [assert_ mbind result_mbind result_bind].
    rewrite ppa2pgidx_ok by (done || apply page_at_ok; done || zlia). cbn [mbind result_mbind result_bind].
    assert (Hr8 : 8 < rem) by lia. rewrite (Z.min_r rem 8) in * by lia.
    destruct (IH s1 G Hb (m + 1) (rem - 8)) as (o2 & E2 & [P2 O2]); [lia|lia|change (sp_of s1) with (sp_of s); zlia|].
    change (sp_of s1) with (sp_of s) in *. rewrite E2. exists o2. split; [done|]. change (oob s1) with o1 in O2. split.
    + intros k Hk Hk'. destruct (Z.eq_dec k m) as [->|Ne].
      * rewrite Z.sub_diag, Z.mul_0_r, Z.sub_0_r, Z.min_r by lia.
        assert (Hd : forall k, m + 1 <= k -> 8 * (k - (m + 1)) < rem - 8 -> index_of s b m = index_of s b k -> False).
        { intros k' H1 H2 E. apply index_inj in E; try done; try lia. zlia. }
        rewrite !O2 by (intros k' H1 H2 H3; by destruct (Hd k' H1 H2)). by split.
      * replace (rem - 8 * (k - m)) with (rem - 8 - 8 * (k - (m + 1))) by lia. apply P2; lia.
    + intros x i H. rewrite O2, Mo; [done| |].
      * intros ->. apply (H m); lia || done.
      * intros k H1 H2 H3. apply (H k); lia || done.
Qed.

(** The word that names a pair out of band. *)
Definition pair_entry (glen lpa : Z) : Z := Z.lor (Z.shiftl glen 32) lpa.

Record pair_marked (s s' : demand_shard) (b x glen lpa : Z) : Prop := {
  pm_entry : s'.(oob) (index_of s b (x / 8)) (x mod 8) = pair_entry glen lpa;
  pm_spill : forall m, x / 8 < m -> 8 * m < x + glen ->
    let len := Z.min (x + glen - 8 * m) 8 in
    s'.(oob) (index_of s b m) 0 = spill_mark len /\ (len <> 1 -> s'.(oob) (index_of s b m) 1 = len);
  pm_other : forall y i, (y = index_of s b (x / 8) -> i <> x mod 8) ->
    (forall m, x / 8 < m -> 8 * m < x + glen -> y = index_of s b m -> i <> 0 /\ i <> 1) ->
    s'.(oob) y i = s.(oob) y i
}.

Lemma mark_oob_ok s b x glen lpa :
  geom (sp_of s) -> 0 <= b < (sp_of s).(blks_per_pl) -> 0 <= x -> 0 < glen < 2 ^ 32 ->
  (x + glen - 1) / 8 < (sp_of s).(pgs_per_line) ->
  exists o', mark_oob s (index_of s b (x / 8)) (x mod 8) glen lpa = Ok (set_oob s o') /\
    pair_marked s (set_oob s o') b x glen lpa.
Proof.
  intros G Hb Hx Hg Hl. change (2 ^ 32) with 4294967296 in Hg.
  assert (Hn : 0 <= x / 8 < (sp_of s).(pgs_per_line)) by zlia.
  pose proof (page_at_ok _ G b (x / 8) Hb Hn) as P. pose proof (pgidx_range _ G _ P) as Hi.
  unfold mark_oob. rewrite oob_put_ok by (done || zlia). cbn [mbind result_mbind result_bind].
  set (o1 := upd _ _ _). set (s1 := set_oob s o1). change (sp_of s1) with (sp_of s).
  rewrite GPP_val, Z.gtb_ltb. destruct (Z.ltb_spec 8 (x mod 8 + glen)) as [C|C].
  - rewrite ppa_to_struct_pgidx by done. cbn [mbind result_mbind result_bind].
    rewrite peek_page_at, (proj2 (Z.eqb_neq (x / 8) _)) by (done || zlia). cbn [mbind result_mbind result_bind].
    change (g_blk (page_at (sp_of s) b (x / 8 + 1))) with b. change (g_blk (page_of s b (x / 8))) with b.
    rewrite Z.eqb_refl. cbn [assert_ mbind result_mbind result_bind].
    rewrite ppa2pgidx_ok by (done || apply page_at_ok; done || zlia). cbn [mbind result_mbind result_bind].
    rewrite u32_small by zlia. set (rem := glen - (8 - x mod 8)).
    destruct (spill_loop_ok (S (Z.to_nat rem)) s1 b (x / 8 + 1) rem) as (o2 & E2 & [P2 O2]);
      change (sp_of s1) with (sp_of s) in *; [done|done|lia|unfold rem; lia| |].
    { unfold rem. zlia. }
    rewrite E2. exists o2. split; [done|]. change (oob s1) with o1 in O2. change (oob (set_oob s o2)) with o2.
    assert (K : forall k, rem - 8 * (k - (x / 8 + 1)) = x + glen - 8 * k) by (intros; unfold rem; zlia).
    split; change (oob (set_oob s o2)) with o2.
    + rewrite O2; [unfold o1; by rewrite upd2_case, !Z.eqb_refl|]. intros k H1 H2 E.
      specialize (K k). apply index_inj in E; try done; [lia|zlia].
    + intros m H1 H2. cbv zeta. rewrite <- K. apply P2; [lia|]. specialize (K m). lia.
    + intros y i H1 H2. rewrite O2.
      * unfold o1. rewrite upd2_case. destruct (Z.eqb_spec y (index_of s b (x / 8))) as [Ey|]; [|done].
        specialize (H1 Ey). cbn. by rewrite (proj2 (Z.eqb_neq _ _)).
      * intros k H3 H4 E. specialize (K k). apply (H2 k); lia || done.
  - exists o1. split; [done|]. split; change (oob (set_oob s o1)) with o1.
    + unfold o1. by rewrite upd2_case, !Z.eqb_refl.
    + intros m H1 H2. zlia.
    + intros y i H1 _. unfold o1. rewrite upd2_case. destruct (Z.eqb_spec y (index_of s b (x / 8))) as [Ey|]; [|done].
      specialize (H1 Ey). cbn. by rewrite (proj2 (Z.eqb_neq _ _)).
Qed.


Lemma G_OFFSET_mod x : G_OFFSET x = x mod 8.
Proof. unfold G_OFFSET. rewrite GPP_val. exact (Z.land_ones x 3 ltac:(lia)). Qed.

(** What placing a pair of [glen] grains behind grain [x] of line [b] does. *)
Record pair_placed (s s' : demand_shard) (b x glen lpa : Z) : Prop := {
  pp_sp : sp_of s' = sp_of s;
  pp_bit : forall q, bit s' q = true <-> bit s q = true \/ piece (sp_of s) b x glen q;
  pp_line : forall i, (s'.(lm).(lines) i).(vgc) = (s.(lm).(lines) i).(vgc) + (if i =? b then glen else 0) /\
    (s'.(lm).(lines) i).(igc) = (s.(lm).(lines) i).(igc);
  pp_oob : pair_marked s s' b x glen lpa
}.

Lemma user_pos_oob s o cur b n g : user_pos s cur b n g -> user_pos (set_oob s o) cur b n g.
Proof. intros [[I1 I2] U2 U3 U4 U5 U6 U7 U8 U9 U10 U11]. split; try done. Qed.

Lemma place_pair_ok w b n g rem lpa B :
  let s := w.(w_shard) in let glen := grains rem in let n' := (8 * n + g + glen) / 8 in
  user_pos s w.(w_cur) b n g -> g < 8 -> 0 < rem < 2 ^ 32 ->
  stripe (sp_of s) (n + pages_touched g glen) = stripe (sp_of s) n -> n' + 1 < (sp_of s).(pgs_per_line) ->
  ready s B -> 0 <= w.(w_latest) <= B -> B + NAND_MAX * (n' - n) < 2 ^ 62 ->
  exists w' l, place_pair clock w glen rem lpa = Ok (index_of s b n * 8 + g, 0, w') /\
    user_pos w'.(w_shard) w'.(w_cur) b n' ((8 * n + g + glen) mod 8) /\
    pair_placed s w'.(w_shard) b (8 * n + g) glen lpa /\
    ready w'.(w_shard) (B + NAND_MAX * (n' - n)) /\ 0 <= w'.(w_latest) <= B + NAND_MAX * (n' - n) /\
    w'.(w_works) = w.(w_works) ++ l /\ releases l (n' / 8 - n / 8).
Proof.
  intros s glen n' U Hg Hr St Hn' R Hl HB. destruct (up_geom _ _ _ _ _ U) as (G & Hb & Hn1).
  pose proof (up_range _ _ _ _ _ U) as [Hn Hg0]. pose proof (tt_pgs_small _ G) as Ht.
  destruct (up_page _ _ _ _ _ n U ltac:(lia)) as (P & Hi & _). set (x := index_of s b n) in *.
  pose proof (up_zero _ _ _ _ _ U) as Hz. fold x in Hz.
  assert (Hgl : 0 < glen) by (unfold glen, grains; zlia).
  assert (Off : s.(offset) = x * 4096 + g * 512) by (rewrite (up_off _ _ _ _ _ U); done).
  unfold place_pair. fold s. rewrite (proj2 (geom_secs _ G)), GRAINED_val, Off.
  replace ((x * 4096 + g * 512) mod 4096) with (g * 512) by zlia.
  replace ((x * 4096 + g * 512) / 512) with (x * 8 + g) by zlia.
  rewrite G_OFFSET_mod. replace ((x * 8 + g) mod 8) with g by zlia.
  destruct (enough_space_ok _ G b n g glen Hb ltac:(lia) ltac:(lia) Hgl) as (had & E).
  rewrite (up_cur _ _ _ _ _ U), E, St, Z.eqb_refl. cbn [mbind result_mbind result_bind]. fold s.
  rewrite Off, (proj2 (Z.eqb_neq (x * 4096 + g * 512) 0)) by lia. cbn [mbind result_mbind result_bind]. fold s. rewrite Off.
  replace ((x * 4096 + g * 512) / 512) with (x * 8 + g) by zlia.
  rewrite (proj2 (Z.gtb_lt _ 0)) by lia. cbn [assert_ mbind result_mbind result_bind].
  unfold G_IDX. rewrite GPP_val. replace ((x * 8 + g) / 8) with x by zlia.
  destruct (write_loop_ok (S (Z.to_nat rem)) w b n g rem B U Hg R Hl ltac:(lia)) as
    (w' & l & E' & U' & W & R' & Hl' & Ew & L); [done|done|]. fold s x glen n' in E', U', W, R', Hl', L.
  rewrite E'. cbn [mbind result_mbind result_bind].
  assert (Es : sp_of (w_shard w') = sp_of s) by apply (wr_sp _ _ _ _ _ W).
  assert (Ex : (8 * n + g) / 8 = n /\ (8 * n + g) mod 8 = g) by zlia. destruct Ex as [Ex1 Ex2].
  destruct (mark_oob_ok (w_shard w') b (8 * n + g) glen lpa) as (o' & E2 & M); rewrite ?Es; try done; try lia.
  { unfold glen, grains. change (2 ^ 32) with 4294967296 in *. zlia. }
  { unfold n' in *. zlia. }
  rewrite Es, Ex1, Ex2 in E2. fold x in E2. rewrite E2. cbn [mbind result_mbind result_bind].
  rewrite u32_small by lia. eexists _, l. split; [done|]. cbn [w_shard w_cur w_latest w_works].
  split; [by apply user_pos_oob|]. split; [|split; [exact R'|split; [exact Hl'|by split]]].
  destruct W as [W1 W2 W3 W4]. split; try done. destruct M as [M1 M2 M3]. rewrite Es in *.
  split; [exact M1|exact M2|]. intros y i H1 H2. rewrite M3 by done. by rewrite W4.
Qed.

(** Placing a pair: when its pages and the one after them stay in the wordline stripe of
    the current page and the line does not end, a pair of [rem] bytes is written right behind
    the last one without a fault. Its grains are counted once for its line, the bitmap marks the
    first grain of its part in every page, its entry stands out of band at its first grain and
    every page it spills over to says how much of it is there; nothing else changes in either.
    Every wordline completed on the way goes to flash and gives back its part of the write
    buffer, and the next pair starts right behind this one. *)
Theorem place_pair_correct w b n g rem lpa B :
  let s := w.(w_shard) in let glen := grains rem in let n' := (8 * n + g + glen) / 8 in
  user_pos s w.(w_cur) b n g -> g < 8 -> 0 < rem < 2 ^ 32 ->
  stripe (sp_of s) (n + pages_touched g glen) = stripe (sp_of s) n -> n' + 1 < (sp_of s).(pgs_per_line) ->
  ready s B -> 0 <= w.(w_latest) <= B -> B + NAND_MAX * (n' - n) < 2 ^ 62 ->
  exists w' l, place_pair clock w glen rem lpa = Ok (index_of s b n * 8 + g, 0, w') /\
    user_pos w'.(w_shard) w'.(w_cur) b n' ((8 * n + g + glen) mod 8) /\
    pair_placed s w'.(w_shard) b (8 * n + g) glen lpa /\
    ready w'.(w_shard) (B + NAND_MAX * (n' - n)) /\ 0 <= w'.(w_latest) <= B + NAND_MAX * (n' - n) /\
    w'.(w_works) = w.(w_works) ++ l /\ releases l (n' / 8 - n / 8).
Proof. apply place_pair_ok. Qed.

(** The length and the entry come back from the word out of band. *)
Lemma pair_entry_ok glen lpa : 0 <= glen < 2 ^ 32 -> 0 <= lpa < 2 ^ 32 ->
  __glen_from_oob (pair_entry glen lpa) = glen /\ __lpa_from_oob (pair_entry glen lpa) = lpa.
Proof.
  intros Hg Hl. unfold pair_entry, __glen_from_oob, __lpa_from_oob. change (2 ^ 32) with 4294967296 in *.
  assert (Hs : Z.shiftr lpa 32 = 0) by (rewrite Z.shiftr_div_pow2 by lia; apply Z.div_small; lia).
  split.
  - rewrite Z.shiftr_lor, Hs, Z.lor_0_r, Z.shiftr_shiftl_l, Z.sub_diag, Z.shiftl_0_r by lia. by apply u32_small.
  - change 4294967295 with (Z.ones 32). rewrite Z.land_lor_distr_l, !Z.land_ones by lia.
    rewrite Z.shiftl_mul_pow2, Z.mod_mul, Z.lor_0_l by lia. by apply Z.mod_small.
Qed.


(** ** Reading a pair *)

Lemma blk_in_ssd_val spp p : geom spp -> page_ok spp p ->
  blk_in_ssd p = p.(g_blk) + 16777216 * p.(g_lun) + 4294967296 * p.(g_ch).
Proof.
  intros G [V R]. destruct (geom_consts _ G) as (_ & _ & _ & _ & _ & Hc & HB & _).
  apply (valid_ppa_iff _ G) in V as (V1 & V2 & V3 & V4 & V5). unfold blk_in_ssd, ppa_val. rewrite V3, R.
  rewrite !Z.shiftl_mul_pow2, Z.shiftr_div_pow2 by lia.
  replace (_ / 2 ^ 16) with (p.(g_blk) + 16777216 * p.(g_lun) + 4294967296 * p.(g_ch)).
  - change (2 ^ 40) with 1099511627776. apply Z.mod_small. lia.
  - apply Z.div_unique with p.(g_pg); lia.
Qed.

(** The first page of another line is in another flash page. *)
Lemma other_line_page spp b n c : geom spp -> 0 <= b < spp.(blks_per_pl) -> 0 <= n < spp.(pgs_per_line) ->
  c <> b -> is_u16 c -> is_same_flash_page spp (page_at spp b n) (page_at spp c 0) = false.
Proof.
  intros G Hb Hn Hc Hcu. pose proof (page_at_ok _ G b n Hb Hn) as P. unfold is_same_flash_page.
  rewrite (blk_in_ssd_val spp _ G P). assert (E0 : page_at spp c 0 = mk_ppa 0 c 0 0 0 0).
  { unfold page_at. by rewrite !Zdiv_0_l, !Zmod_0_l. }
  destruct (geom_consts _ G) as (_ & _ & _ & _ & _ & Hch & HB & _).
  assert (Ec : blk_in_ssd (page_at spp c 0) = c).
  { rewrite E0. unfold blk_in_ssd, ppa_val. cbn [g_pg g_blk g_pl g_lun g_ch g_rsv].
    rewrite !Z.shiftl_0_l, !Z.add_0_r, Z.add_0_l, Z.shiftr_shiftl_l, Z.sub_diag, Z.shiftl_0_r by lia.
    unfold is_uw in Hcu. apply Z.mod_small. change (2 ^ 16) with 65536 in Hcu. change (2 ^ 40) with 1099511627776. lia. }
  rewrite Ec. destruct P as [V _]. apply (valid_ppa_iff _ G) in V. change (g_blk (page_at spp b n)) with b in *.
  unfold is_uw in Hcu. change (2 ^ 16) with 65536 in Hcu. rewrite (proj2 (Z.eqb_neq _ c)); [done|lia].
Qed.

(** Pages a read of [rem] grains from grain [o] of a page on looks at.  A
    negative number is a huge one. *)
Definition pages_read (o rem : Z) : Z := if rem =? 0 then 1 else (o + rem + 7) / 8.

Lemma u32_i32 r : 0 <= r < 2 ^ 32 -> u32 (i32 r) = r.
Proof.
  intros Hr. unfold u32, uw, i32, sw. change (2 ^ (32 - 1)) with 2147483648. change (2 ^ 32) with 4294967296 in *. zlia.
Qed.

Lemma i32_sub r k : 0 <= k <= r -> r < 2 ^ 32 -> i32 (i32 r - k) = i32 (r - k).
Proof.
  intros Hk Hr. unfold i32, sw. change (2 ^ (32 - 1)) with 2147483648. change (2 ^ 32) with 4294967296 in *. zlia.
Qed.

Lemma i32_zero r : 0 <= r < 2 ^ 32 -> (i32 r =? 0) = (r =? 0).
Proof.
  intros Hr. pose proof (u32_i32 r Hr) as E. case_cmp; symmetry; [apply Z.eqb_eq|apply Z.eqb_neq].
  - rewrite <- E. by rewrite e.
  - intros ->. done.
Qed.

Lemma read_page_ok s p stime size B :
  ready s B -> page_ok (sp_of s) p -> 0 < size <= LINE_XFER -> 0 <= stime <= B -> B < 2 ^ 62 ->
  exists t s', advance clock s NAND_READ p stime size = Ok (t, s') /\ ready s' (B + NAND_MAX) /\
    0 <= t <= B + NAND_MAX /\ same_flash s s'.
Proof.
  intros R P [H1 H2]. apply advance_ok; try done. split; [done|]. by apply (Z.le_trans _ _ _ H2).
Qed.

Lemma read_pages_ok fuel s b m0 m o rem xfer latest B :
  ready s B -> 0 <= b < (sp_of s).(blks_per_pl) -> 0 <= m0 <= m -> m < (sp_of s).(pgs_per_line) -> 0 <= o < 8 ->
  0 <= rem < 2 ^ 32 -> 0 < xfer <= 4096 * (m + 1) -> 0 <= latest <= B ->
  B + NAND_MAX * ((sp_of s).(pgs_per_line) - m) < 2 ^ 62 ->
  (sp_of s).(pgs_per_line) - m < Z.of_nat fuel ->
  let k := pages_read o rem in
  if m + k <=? (sp_of s).(pgs_per_line) then
    exists t s', read_pages clock fuel s b (page_of s b m0) (page_of s b m) o (i32 rem) xfer latest = Ok (t, s') /\
      same_flash s s' /\ ready s' (B + NAND_MAX * k) /\ latest <= t <= B + NAND_MAX * k
  else read_pages clock fuel s b (page_of s b m0) (page_of s b m) o (i32 rem) xfer latest = Err BUG.
Proof.
  revert s m0 m o rem xfer latest B.
  induction fuel as [|fuel IH]; intros s m0 m o rem xfer latest B R Hb Hm0 Hm Ho Hr Hx Hl HB Hf k; [lia|].
  pose proof (ok_geom _ (nr_tree _ _ _ R)) as G. fold (sp_of s) in G.
  destruct (geom_consts _ G) as (_ & _ & _ & _ & _ & Hc & HBk & _ & _ & _ & Epl & Eps).
  pose proof (page_at_ok _ G b m0 Hb ltac:(lia)) as P0. change (2 ^ 32) with 4294967296 in Hr.
  assert (Hxm : 0 < xfer <= LINE_XFER) by (unfold LINE_XFER; change (2 ^ 24) with 16777216; lia).
  assert (H62 : B < 2 ^ 62) by (unfold NAND_MAX in *; lia).
  assert (Fin : forall o rem, pages_read o rem = 1 -> exists t s',
    (if xfer >? 0 then '(n, s') ← advance clock s NAND_READ (page_of s b m0) 0 xfer; Ok (Z.max n latest, s')
     else Ok (latest, s)) = Ok (t, s') /\
    same_flash s s' /\ ready s' (B + NAND_MAX * pages_read o rem) /\ latest <= t <= B + NAND_MAX * pages_read o rem).
  { intros o' rem' ->. rewrite (proj2 (Z.gtb_lt xfer 0)) by lia.
    destruct (read_page_ok s (page_of s b m0) 0 xfer B R P0 Hxm ltac:(lia) H62) as (t & s' & -> & R' & Ht & F).
    cbn [mbind result_mbind result_bind]. eexists _, s'. split; [done|]. split; [done|]. rewrite Z.mul_1_r.
    split; [done|]. unfold NAND_MAX in *. lia. }
  unfold k. cbn [read_pages]. rewrite i32_zero by done. destruct (Z.eqb_spec rem 0) as [->|Hr0].
  { rewrite (proj2 (Z.leb_le _ _)) by (unfold pages_read; cbn; lia). by apply Fin. }
  rewrite GPP_val, u32_i32, !u32_small by (done || zlia). change (g_blk (page_of s b m0)) with b.
  rewrite Z.eqb_refl. cbn [assert_ mbind result_mbind result_bind]. rewrite (Z.mod_small o) by lia.
  set (sz := Z.min rem (8 - o)). rewrite i32_sub, i32_zero by (change (2 ^ 32) with 4294967296; lia).
  destruct (Z.eqb_spec (rem - sz) 0) as [Z0|Z0].
  { assert (E1 : pages_read o rem = 1) by (unfold pages_read; rewrite (proj2 (Z.eqb_neq rem 0)) by done; zlia).
    rewrite E1, (proj2 (Z.leb_le _ _)), <- E1 by lia. by apply Fin. }
  assert (Ek : pages_read o rem = 1 + pages_read 0 (rem - sz)).
  { unfold pages_read. rewrite !(proj2 (Z.eqb_neq _ 0)) by done. zlia. }
  assert (Hk1 : 1 <= pages_read 0 (rem - sz)).
  { unfold pages_read. rewrite !(proj2 (Z.eqb_neq _ 0)) by done. zlia. }
  rewrite peek_page_at by (done || lia). destruct (Z.eqb_spec m ((sp_of s).(pgs_per_line) - 1)) as [->|Hne].
  - (* the next page is in another line *)
    rewrite (proj2 (Z.leb_gt _ _)) by lia. cbn [mbind result_mbind result_bind].
    assert (Hu : u16 (b + 1) <> b /\ is_u16 (u16 (b + 1))).
    { split; [|apply (uw_range 16); lia]. unfold u16, uw. change (2 ^ 16) with 65536. zlia. }
    destruct Hu as [Hu1 Hu2]. rewrite other_line_page by (done || lia).
    rewrite (proj2 (Z.gtb_lt xfer 0)) by lia.
    destruct (read_page_ok s (page_of s b m0) 0 xfer B R P0 Hxm ltac:(lia) H62) as (t & s' & -> & R' & Ht & F).
    cbn [mbind result_mbind result_bind]. destruct fuel as [|fuel']; [lia|]. cbn [read_pages].
    rewrite i32_zero, (proj2 (Z.eqb_neq _ 0)) by (done || change (2 ^ 32) with 4294967296; lia). change (g_blk (page_of s (u16 (b + 1)) 0)) with (u16 (b + 1)).
    by rewrite (proj2 (Z.eqb_neq _ b)).
  - cbn [mbind result_mbind result_bind].
    destruct (is_same_flash_page (sp_of s) (page_of s b m0) (page_of s b (m + 1))).
    + rewrite Eps.
      specialize (IH s m0 (m + 1) 0 (rem - sz) (xfer + 4096) latest B R Hb ltac:(lia) ltac:(lia) ltac:(lia)
        ltac:(change (2 ^ 32) with 4294967296; lia) ltac:(lia) Hl ltac:(unfold NAND_MAX in *; lia) ltac:(lia)).
      cbv zeta in IH. rewrite Ek. replace (m + (1 + pages_read 0 (rem - sz))) with (m + 1 + pages_read 0 (rem - sz)) by lia.
      destruct (_ <=? _); [|exact IH]. destruct IH as (t & s' & E & F & R' & Ht).
      exists t, s'. split; [exact E|]. split; [done|]. split; [|unfold NAND_MAX in *; lia].
      apply (nand_ready_mono _ _ _ _ R'). unfold NAND_MAX. lia.
    + rewrite (proj2 (Z.gtb_lt xfer 0)) by lia.
      destruct (read_page_ok s (page_of s b m0) 0 xfer B R P0 Hxm ltac:(lia) H62) as (t1 & s1 & -> & R1 & Ht1 & F1).
      cbn [mbind result_mbind result_bind]. pose proof F1 as (_ & Es1 & _). rewrite Eps.
      specialize (IH s1 (m + 1) (m + 1) 0 (rem - sz) 4096 (Z.max latest t1) (B + NAND_MAX) R1).
      rewrite Es1 in IH. specialize (IH Hb ltac:(lia) ltac:(lia) ltac:(lia)
        ltac:(change (2 ^ 32) with 4294967296; lia) ltac:(lia) ltac:(unfold NAND_MAX in *; lia)
        ltac:(unfold NAND_MAX in *; lia) ltac:(lia)).
      cbv zeta in IH. rewrite Ek.
      replace (m + (1 + pages_read 0 (rem - sz))) with (m + 1 + pages_read 0 (rem - sz)) by lia.
      destruct (_ <=? _); [|exact IH]. destruct IH as (t & s' & E & F & R' & Ht).
      exists t, s'. split; [exact E|]. split; [by etransitivity|].
      replace (B + NAND_MAX * (1 + pages_read 0 (rem - sz))) with (B + NAND_MAX + NAND_MAX * pages_read 0 (rem - sz)) by lia.
      split; [done|lia].
Qed.


(** ** Comparing and reading a pair *)

(** What the read after the first page starts with, and its grains. *)
Definition more_grains (read_len read_offset : Z) : Z :=
  let l := if read_offset <=? 4096 then read_len - (4096 - read_offset mod 4096) else read_len in
  let q := Z.quot l 512 in if Z.rem q 512 =? 0 then q else q + 1.
Definition more_offset (read_offset : Z) : Z := if read_offset <=? 4096 then 0 else read_offset mod 4096 / 512.
Definition more_pages (read_len read_offset : Z) : Z :=
  pages_read (more_offset read_offset) (u32 (more_grains read_len read_offset)).

(** The pair at [mem] has the key [k] and its block has room for the header. *)
Definition pair_in (hp : heap) (mem : Z) (k : list Z) (vlen : Z) : Prop :=
  mem <> 0 /\ has_header hp.(bytes) mem k vlen /\ exists sz, hp.(blocks) !! mem = Some sz /\ header_size k <= sz.

Definition same_key (ukey : list Z) (u_klen : Z) (k : list Z) : Prop :=
  u_klen = Z.of_nat (length k) /\ take (length k) ukey = k.

#[export] Instance same_key_dec ukey u_klen k : Decision (same_key ukey u_klen k) := _.

(** The commands a comparison takes at most: one page when the keys differ. *)
Definition compare_cost (ukey : list Z) (u_klen : Z) (k : list Z) : Z :=
  if decide (same_key ukey u_klen k) then 2050 else 1.

Lemma retrieve_and_compare_ok s hp b n g mem k vlen cnt ukey u_klen stime rl ro (for_del : bool) B :
  ready s B -> 0 <= b < (sp_of s).(blks_per_pl) -> 0 <= n -> n + 1 < (sp_of s).(pgs_per_line) -> 0 <= g < 8 ->
  pair_in hp mem k vlen -> 0 <= stime <= B -> 0 <= rl -> 0 <= ro -> ro + rl < 2 ^ 31 ->
  B + NAND_MAX * 2050 < 2 ^ 62 ->
  let c := compare_cost ukey u_klen k in
  exists t s', same_flash s s' /\ ready s' (B + NAND_MAX * c) /\ stime <= t <= B + NAND_MAX * c /\
    __retrieve_and_compare clock s hp (index_of s b n * 8 + g) mem cnt ukey u_klen stime rl ro false for_del =
      if decide (same_key ukey u_klen k) then
        if (ro + rl <=? 4096) || for_del then Ok (false, t, cnt, s')
        else if n + 1 + more_pages rl ro <=? (sp_of s).(pgs_per_line) then Ok (false, t, cnt, s')
        else Err BUG
      else Ok (true, t, i32 (cnt + 1), s').
Proof.
  intros R Hb Hn Hn1 Hg (Hm & Hh & sz & Hs & Hsz) Hst Hrl Hro Hsum HB c.
  assert (Hc1 : 1 <= c <= 2050) by (unfold c, compare_cost; case_decide; lia).
  assert (Hc2 : same_key ukey u_klen k -> c = 2050) by (intros; unfold c, compare_cost; by rewrite decide_True).
  pose proof (ok_geom _ (nr_tree _ _ _ R)) as G. fold (sp_of s) in G. pose proof (tt_pgs_small _ G) as Ht.
  destruct (geom_consts _ G) as (_ & _ & _ & _ & _ & Hc & HBk & _ & _ & _ & Epl & Eps).
  pose proof (page_at_ok _ G b n Hb ltac:(lia)) as P. pose proof (pgidx_range _ G _ P) as Hx.
  change (2 ^ 31) with 2147483648 in *.
  assert (Hp2 : (sp_of s).(pgs_per_line) <= 2048) by lia.
  unfold __retrieve_and_compare, G_IDX. rewrite GPP_val. replace ((_ * 8 + g) / 8) with (index_of s b n) by zlia.
  rewrite (proj2 (Z.eqb_neq mem 0)) by done. rewrite (proj2 (Z.ltb_lt _ _)) by lia.
  cbn [negb assert_ mbind result_mbind result_bind orb]. rewrite ppa_to_struct_pgidx by done.
  cbn [mbind result_mbind result_bind orb]. rewrite Eps.
  destruct (read_page_ok s (page_of s b n) stime 4096 B R P) as (t & s1 & -> & R1 & Ht1 & F1);
    [done|done|unfold NAND_MAX in *; lia|]. pose proof F1 as (_ & Es1 & _).
  cbn [mbind result_mbind result_bind]. rewrite (klen_ok hp mem k vlen sz) by done.
  cbn [mbind result_mbind result_bind].
  assert (One : forall r : result (bool * Z * Z * demand_shard), (exists c d, r = Ok (d, Z.max t stime, c, s1)) ->
    same_flash s s1 /\ ready s1 (B + NAND_MAX * c) /\ stime <= Z.max t stime <= B + NAND_MAX * c).
  { intros _ _. split; [done|]. split; [|unfold NAND_MAX in *; lia]. apply (nand_ready_mono _ _ _ _ R1). unfold NAND_MAX. lia. }
  specialize (One (Ok (true, Z.max t stime, 0, s1)) ltac:(by exists 0, true)).
  destruct (Z.eqb_spec (Z.of_nat (length k)) u_klen) as [El|El]; cbn [negb].
  2:{ exists (Z.max t stime), s1. split_and!; try apply One. rewrite decide_False; [done|]. intros [? _]. lia. }
  rewrite (key_ok hp mem k vlen sz) by done. cbn [mbind result_mbind result_bind]. rewrite Nat2Z.id.
  case_bool_decide as Ek; cbn [negb].
  2:{ exists (Z.max t stime), s1. split_and!; try apply One. rewrite decide_False; [done|]. by intros [_ ?]. }
  rewrite Z.geb_leb, u32_small by lia. destruct (Z.leb_spec (ro + rl) 4096) as [C|C].
  { exists (Z.max t stime), s1. split_and!; try apply One. by rewrite decide_True. }
  specialize (Hc2 (conj (eq_sym El) Ek)).
  assert (Esk : __skip_ppas (sp_of s) (page_of s b n) 4096 = Ok (page_of s b (n + 1))).
  { unfold __skip_ppas. rewrite Eps. change (Z.to_nat (u32 (4096 / 4096))) with 1%nat.
    rewrite skip_loop_page_at by (done || lia). done. }
  cbn [orb andb]. set (lo := if ro <=? 4096 then _ else _).
  assert (Elo : lo = (i32 (if ro <=? 4096 then rl - (4096 - ro mod 4096) else rl), if ro <=? 4096 then 4096 else ro)).
  { unfold lo. case_cmp; [done|]. by rewrite i32_small by lia. }
  rewrite Elo. clear lo Elo. rewrite Esk. cbn [mbind result_mbind result_bind].
  destruct for_del; cbn [orb].
  { rewrite ppa2pgidx_ok by (done || apply page_at_ok; done || lia). cbn [mbind result_mbind result_bind].
    exists (Z.max t stime), s1. split_and!; try apply One. by rewrite decide_True. }
  set (l := if ro <=? 4096 then rl - _ else rl).
  assert (Hl : -4096 <= l < 2147483648) by (unfold l; case_cmp; zlia).
  rewrite i32_small by lia. rewrite GRAINED_val.
  assert (Eo : (if ro <=? 4096 then 4096 else ro) mod 4096 / 512 = more_offset ro).
  { unfold more_offset. by case_cmp. }
  rewrite Eo. fold (more_grains rl ro). change (if Z.rem (Z.quot l 512) 512 =? 0 then Z.quot l 512 else Z.quot l 512 + 1)
    with (more_grains rl ro).
  assert (Hmg : -2147483648 <= more_grains rl ro < 2147483648).
  { unfold more_grains. fold l. pose proof (Z.quot_le_mono l 2147483647 512 ltac:(lia) ltac:(lia)) as Q1.
    pose proof (Z.quot_le_mono (-4096) l 512 ltac:(lia) ltac:(lia)) as Q2.
    change (Z.quot 2147483647 512) with 4194303 in Q1. change (Z.quot (-4096) 512) with (-8) in Q2. case_cmp; lia. }
  assert (Ei : more_grains rl ro = i32 (u32 (more_grains rl ro))).
  { unfold i32, sw, u32, uw. change (2 ^ (32 - 1)) with 2147483648. change (2 ^ 32) with 4294967296. zlia. }
  rewrite Ei. rewrite <- Es1.
  pose proof (read_pages_ok (pages_fuel (sp_of s1)) s1 b (n + 1) (n + 1) (more_offset ro) (u32 (more_grains rl ro)) 4096
    (Z.max t stime) (B + NAND_MAX) R1) as X. rewrite Es1 in *.
  specialize (X Hb ltac:(lia) Hn1).
  assert (Hmo : 0 <= more_offset ro < 8) by (unfold more_offset; case_cmp; zlia).
  specialize (X Hmo ltac:(apply u32_range) ltac:(lia) ltac:(unfold NAND_MAX in *; lia) ltac:(unfold NAND_MAX in *; lia)
    ltac:(unfold pages_fuel; lia)). cbv zeta in X. fold (more_pages rl ro) in X.
  change (g_blk (page_of s b n)) with b. revert X. case_cmp; intros X.
  - destruct X as (t' & s' & -> & F & R' & Ht'). cbn [mbind result_mbind result_bind].
    assert (Hk : more_pages rl ro <= 2048) by lia.
    rewrite Hc2. exists t', s'. split; [by etransitivity|]. split; [|split; [unfold NAND_MAX in *; lia|by rewrite decide_True]].
    apply (nand_ready_mono _ _ _ _ R'). unfold NAND_MAX. lia.
  - rewrite X. exists (Z.max t stime), s1. split_and!; try apply One. by rewrite decide_True.
Qed.

End writing.
