(* ===== verification/Append.v ===== *)
(** * The append buffers ([demand_ftl.c])

    Pairs that are being appended to are kept in [NUM_APPEND_BUFS] buffers of
    kernel memory; a buffer is named by its number, is free when the length of
    its key is 0, and the assigned ones are on the LRU list of [lru.c].  The
    item of buffer [i] is the item at address [i]. *)

From S2P Require Import Prelude Lru.

Definition NUM_APPEND_BUFS : Z := 4.
Definition MAX_KLEN : Z := 16.
Definition WB_SIZE : Z := 8192.
(** The size of a buffer: value, length of the key, key, length of the value. *)
Definition APPEND_BUF_SIZE : Z := WB_SIZE + 1 + MAX_KLEN + 4.

(** The global arrays; [append_keys[i]] is the 16 bytes it points to,
    [append_bufs[i]] the address of the buffer. *)
Record append_bufs := mk_ab {
  append_klens : Z -> Z; append_keys : Z -> list Z; append_addr : Z -> Z;
  wb_idxs : Z -> Z; inv_cnts : Z -> Z; buf_lock : Z -> Z; buf_lru : lru_cache; append_lrus : item_mem
}.

Definition set_klens (b : append_bufs) (f : Z -> Z) : append_bufs :=
  mk_ab f b.(append_keys) b.(append_addr) b.(wb_idxs) b.(inv_cnts) b.(buf_lock) b.(buf_lru) b.(append_lrus).
Definition set_keys (b : append_bufs) (f : Z -> list Z) : append_bufs :=
  mk_ab b.(append_klens) f b.(append_addr) b.(wb_idxs) b.(inv_cnts) b.(buf_lock) b.(buf_lru) b.(append_lrus).
Definition set_wb_idxs (b : append_bufs) (f : Z -> Z) : append_bufs :=
  mk_ab b.(append_klens) b.(append_keys) b.(append_addr) f b.(inv_cnts) b.(buf_lock) b.(buf_lru) b.(append_lrus).
Definition set_inv_cnts (b : append_bufs) (f : Z -> Z) : append_bufs :=
  mk_ab b.(append_klens) b.(append_keys) b.(append_addr) b.(wb_idxs) f b.(buf_lock) b.(buf_lru) b.(append_lrus).
Definition set_buf_lock (b : append_bufs) (f : Z -> Z) : append_bufs :=
  mk_ab b.(append_klens) b.(append_keys) b.(append_addr) b.(wb_idxs) b.(inv_cnts) f b.(buf_lru) b.(append_lrus).
Definition set_lru (b : append_bufs) (c : lru_cache) (m : item_mem) : append_bufs :=
  mk_ab b.(append_klens) b.(append_keys) b.(append_addr) b.(wb_idxs) b.(inv_cnts) b.(buf_lock) c m.

(** [append_lrus[i].id = v]. *)
Definition set_item_id (m : item_mem) (i v : Z) : item_mem := upd m i (mk_item v (m i).(prev) (m i).(next)).

(** [memcmp] of [n] bytes. *)
Definition key_eq (n : Z) (x y : list Z) : bool := bool_decide (take (Z.to_nat n) x = take (Z.to_nat n) y).

(** [memcpy(append_keys[i], key, klen)]. *)
Definition copy_key (old key : list Z) (klen : Z) : list Z :=
  take (Z.to_nat klen) key ++ drop (Z.to_nat klen) old.

(** The loop of [__get_append_buf] from buffer [i] on; the second result is
    [*need_new]. *)
Fixpoint get_buf_loop (n : nat) (i : Z) (b : append_bufs) (key : list Z) (klen : Z) (need_new : bool) : Z * bool :=
  match n with
  | O => (UINT_MAX, need_new)
  | S n =>
      if (b.(append_klens) i =? klen) && key_eq klen key (b.(append_keys) i) then (i, need_new)
      else get_buf_loop n (i + 1) b key klen (if b.(append_klens) i =? 0 then false else need_new)
  end.

Definition __get_append_buf (b : append_bufs) (key : list Z) (klen : Z) (need_new : bool) : Z * bool :=
  get_buf_loop (Z.to_nat NUM_APPEND_BUFS) 0 b key klen need_new.

(** The first free buffer. *)
Fixpoint assign_loop (n : nat) (i : Z) (b : append_bufs) (key : list Z) (klen : Z) : result (Z * append_bufs) :=
  match n with
  | O => Err BUG
  | S n =>
      if b.(append_klens) i =? 0 then
        _ ← assert_ (b.(wb_idxs) i =? 0);
        let b := set_keys b (upd b.(append_keys) i (copy_key (b.(append_keys) i) key klen)) in
        let b := set_klens b (upd b.(append_klens) i klen) in
        '(c, m) ← lru_cache_set b.(buf_lru) (set_item_id b.(append_lrus) i i) i;
        Ok (i, set_lru b c m)
      else assign_loop n (i + 1) b key klen
  end.

Definition __assign_buf (b : append_bufs) (key : list Z) (klen : Z) : result (Z * append_bufs) :=
  assign_loop (Z.to_nat NUM_APPEND_BUFS) 0 b key klen.

(** The buffer leaves nothing behind but its contents. *)
Definition __clear_buf (b : append_bufs) (i : Z) : result append_bufs :=
  if (0 <=? i) && (i <? NUM_APPEND_BUFS) then
    let b := set_klens b (upd b.(append_klens) i 0) in
    let b := set_wb_idxs b (upd b.(wb_idxs) i 0) in
    let b := set_inv_cnts b (upd b.(inv_cnts) i 0) in
    Ok (set_lru b b.(buf_lru) (set_item_id b.(append_lrus) i UINT_MAX))
  else Err OOB.

(** [oldest->id], of the buffer used longest ago. *)
Definition __smallest_buf (b : append_bufs) : result (Z * append_bufs) :=
  '(o, c, m) ← lru_cache_get_oldest b.(buf_lru) b.(append_lrus);
  o ← deref o;
  Ok ((m o).(id), set_lru b c m).

Fixpoint need_loop (n : nat) (i : Z) (b : append_bufs) : bool :=
  match n with
  | O => true
  | S n => if b.(append_klens) i =? 0 then false else need_loop n (i + 1) b
  end.
Definition __need_buf (b : append_bufs) : bool := need_loop (Z.to_nat NUM_APPEND_BUFS) 0 b.

(** [__wait_buf] spins while a worker copies into the buffer. *)
Definition __wait_buf (b : append_bufs) (i : Z) : result unit :=
  if b.(buf_lock) i >? 0 then Err HANG else Ok tt.

(** [lru_cache_get(&buf_lru, buf)], for its effect on the order. *)
Definition touch_buf (b : append_bufs) (i : Z) : result append_bufs :=
  '(_, c, m) ← lru_cache_get b.(buf_lru) b.(append_lrus) i; Ok (set_lru b c m).
Definition drop_buf (b : append_bufs) (i : Z) : result append_bufs :=
  '(c, m) ← lru_cache_remove b.(buf_lru) b.(append_lrus) i; __clear_buf (set_lru b c m) i.

(** [__release_buf]: the callback of a worker that has copied. *)
Definition __release_buf (b : append_bufs) (i : Z) : append_bufs :=
  set_buf_lock b (upd b.(buf_lock) i (i32 (b.(buf_lock) i - 1))).

(** The part of [demand_init] for the buffers; the allocated buffers are those
    of [append_addr]. *)
Definition init_append_bufs (b : append_bufs) : append_bufs :=
  let clear {A} (a : Z -> A) (v : A) := memset a 0 NUM_APPEND_BUFS v in
  mk_ab (clear b.(append_klens) 0) (clear b.(append_keys) (repeat 0 16)) b.(append_addr)
    (clear b.(wb_idxs) 0) (clear b.(inv_cnts) 0) b.(buf_lock) (lru_cache_init b.(buf_lru) 32) b.(append_lrus).
