(* ===== verification/Kv.v ===== *)
(** * The key-value commands ([demand_ftl.c])

    Retrieve, delete, store, append and batch.  The table of the mapping cache
    leads from the probes of a key to a grain and the address of the pair; the
    key there decides whether the probe is the right one.  The handler leaves
    in the command where the worker has to copy the value to or from, and in
    its result the callback that gives the section of the table, or the append
    buffer, free again.  A [goto] of the source is a call here. *)

From stdpp Require Import gmap.
From S2P Require Import Prelude Lru Append WorkQueue Queues Prp.
From S2P Require Import ChModel Ssd Geometry PQueue Line Lines Pages Cache Heap Pairs.

(** [kvs_result] of [demand_ftl.h]. *)
Definition KV_SUCCESS : Z := 0.
Definition KV_ERR_KEY_NOT_EXIST : Z := 784.
Definition KV_ERR_BUFFER_SMALL : Z := 769.
Definition NVME_SC_SUCCESS : Z := 0.

(** ** State

    The shard with its cache and victims, the globals of the handlers, kernel
    memory, and the releases of the write buffer given to the workers. *)
Record kv := mk_kv {
  fl : ftl; max_try : Z; cur_page : ppa; leftover_credits : Z; hp : heap; ab : append_bufs; works : list (Z * Z)
}.

Definition shard_of (k : kv) : demand_shard := k.(fl).(sh).
Definition cache_of (k : kv) : cache := k.(fl).(ca).

Definition set_fl (k : kv) (f : ftl) : kv :=
  mk_kv f k.(max_try) k.(cur_page) k.(leftover_credits) k.(hp) k.(ab) k.(works).
Definition set_shard (k : kv) (s : demand_shard) : kv := set_fl k (set_sh k.(fl) s).
Definition set_cache (k : kv) (c : cache) : kv := set_fl k (set_ca k.(fl) c).
Definition set_max_try (k : kv) (n : Z) : kv :=
  mk_kv k.(fl) n k.(cur_page) k.(leftover_credits) k.(hp) k.(ab) k.(works).
Definition set_leftover (k : kv) (n : Z) : kv :=
  mk_kv k.(fl) k.(max_try) k.(cur_page) (u32 n) k.(hp) k.(ab) k.(works).
Definition set_hp (k : kv) (h : heap) : kv :=
  mk_kv k.(fl) k.(max_try) k.(cur_page) k.(leftover_credits) h k.(ab) k.(works).
Definition set_ab (k : kv) (b : append_bufs) : kv :=
  mk_kv k.(fl) k.(max_try) k.(cur_page) k.(leftover_credits) k.(hp) b k.(works).
Definition set_writing (k : kv) (w : writing) : kv :=
  mk_kv (set_sh k.(fl) w.(w_shard)) k.(max_try) w.(w_cur) k.(leftover_credits) k.(hp) k.(ab) w.(w_works).

(** The callback of [struct nvmev_result] with its argument: nothing,
    [__release_map] on a section, [__release_buf] on a buffer. *)
Variant callback := NO_CB | RELEASE_MAP (i : Z) | RELEASE_BUF (b : Z).

Record kv_result := mk_ret { ret_status : Z; ret_target : Z; ret_cb : callback }.

(** ** Fields of the command *)

Definition set_rsvd (c : nvme_command) (v : Z) : nvme_command :=
  mk_nvme c.(opcode) c.(Queues.command_id) c.(nsid) (u64 v) c.(Queues.offset) c.(prp1) c.(prp2)
    c.(cdw10) c.(cdw11) c.(cdw12) c.(Queues.key).
Definition set_value_len (c : nvme_command) (v : Z) : nvme_command :=
  mk_nvme c.(opcode) c.(Queues.command_id) c.(nsid) c.(rsvd) c.(Queues.offset) c.(prp1) c.(prp2)
    (u32 v) c.(cdw11) c.(cdw12) c.(Queues.key).

Definition cmd_value_length (c : nvme_command) : result Z :=
  let op := c.(opcode) in
  if (op =? nvme_cmd_kv_store) || (op =? nvme_cmd_kv_batch) || (op =? nvme_cmd_kv_append)
  then Ok (u32 (u32 (Z.shiftl (value_len c) 2) - invalid_byte c))
  else if (op =? nvme_cmd_kv_retrieve) || (op =? nvme_cmd_kv_delete) then Ok (u32 (Z.shiftl (value_len c) 2))
  else Err BUG.

(** A command that finds nothing. *)
Definition not_found (c : nvme_command) : nvme_command := set_rsvd (set_value_len c 0) U64_MAX.

(** [__key_match] begins with [return false]. *)
Definition __key_match : bool := false.

(** ** What both directions do first *)

Section commands.
Context `{Allocator} (CityHash64 : list Z -> Z) (clock : nat -> Z).

(** [__get_wallclock], and the latest of the two times. *)
Definition wallclock (k : kv) (latest : Z) : Z * kv :=
  let '(now, d) := __get_ioclock clock (shard_of k).(sd) in
  (Z.max latest now, set_shard k (set_sd (shard_of k) d)).

(** [while(cache_full(cache))].  An eviction leaves [have_victims] at 0: a
    second one waits for the eviction thread. *)
Fixpoint make_room (fuel : nat) (k : kv) (latest credits : Z) : result (Z * Z * kv) :=
  if cache_full (cache_of k) then
    match fuel with
    | O => Err HANG
    | S fuel =>
        '(n, credits, f) ← __evict_one clock k.(fl) latest credits;
        make_room fuel (set_fl k f) (Z.max latest n) credits
    end
  else Ok (latest, credits, k).

(** The eviction and the write credits, up to the reading of the clock. *)
Definition settle (k : kv) (latest credits : Z) : result (Z * kv) :=
  '(latest, credits, k) ← make_room 2 k latest credits;
  let k := set_shard k (consume_write_credit (shard_of k) credits) in
  _ ← check_and_refill_write_credit (shard_of k);
  Ok (wallclock k latest).

Definition unlock (k : kv) (i : Z) : result kv := c ← unlock_section (cache_of k) i; Ok (set_cache k c).

(** The key of a command as its length says. *)
Definition cmd_key (c : nvme_command) (klen : Z) : list Z := take (Z.to_nat klen) c.(Queues.key).

(** ** Retrieve and delete *)

Definition read_latency (spp : ssdparams) (vlen : Z) : Z :=
  if vlen <=? KB 4 then spp.(fw_4kb_rd_lat) else spp.(fw_rd_lat).

(** A command for a key that is being appended to. *)
Definition retrieve_buffered (k : kv) (c : nvme_command) (buf vlen r_offset : Z) (for_del : bool)
    : result (kv * nvme_command * Z) :=
  b ← touch_buf k.(ab) buf;
  let k := set_ab k b in
  let meta := 1 + b.(append_klens) buf + 4 in
  let wb_idx := b.(wb_idxs) buf in
  let addr := b.(append_addr) buf in
  let r_offset := u32 (r_offset + meta) in
  if (r_offset <? meta) || (r_offset >=? wb_idx) then Ok (k, not_found c, KV_ERR_KEY_NOT_EXIST)
  else if u32 (r_offset + vlen) >? wb_idx then
    let c := set_rsvd (set_value_len c (wb_idx - r_offset)) (addr + r_offset) in
    _ ← __wait_buf b buf; Ok (k, c, 0)
  else if negb for_del then
    let c := set_rsvd (set_value_len (set_offset c r_offset) vlen) (addr + r_offset) in
    _ ← __wait_buf b buf; Ok (k, c, 0)
  else
    _ ← __wait_buf b buf;
    _ ← access k.(hp) addr r_offset vlen;
    _ ← access k.(hp) addr (r_offset + vlen) vlen;
    let h := mk_heap (memcpy k.(hp).(bytes) k.(hp).(bytes) (addr + r_offset) (addr + r_offset + vlen) vlen) k.(hp).(blocks) in
    let inv := u32 (b.(inv_cnts) buf + vlen) in
    _ ← assert_ (inv <=? WB_SIZE);
    Ok (set_ab (set_hp k h) (set_inv_cnts b (upd b.(inv_cnts) buf inv)), set_rsvd c U64_MAX, 0).

(** The loop of a partial delete that moves on by pages: the first grain to
    mark, before the offset is added. *)
Fixpoint partial_loop (fuel : nat) (spp : ssdparams) (p : ppa) (g_to_del rem rem_in_page : Z) : result Z :=
  match fuel with
  | O => Err HANG
  | S fuel =>
      if rem =? 0 then Ok g_to_del else
      let rem := rem - Z.min rem rem_in_page in
      if rem =? 0 then Ok g_to_del else
      p ← peek_next_page spp p;
      pgidx ← ppa2pgidx spp p;
      partial_loop fuel spp p (pgidx * GRAINED_UNIT) rem GRAIN_PER_PAGE
  end.

(** Delete part of a pair; [r_offset] counts from the start of the pair. *)
Definition delete_part (s : demand_shard) (g r_offset vlen : Z) : result demand_shard :=
  let spp := sp_of s in
  let rem := vlen / GRAINED_UNIT in
  p ← ppa_to_struct spp (g / GRAIN_PER_PAGE);
  g_to_del ← partial_loop (S (Z.to_nat rem)) spp p g rem (GRAIN_PER_PAGE - g mod GRAIN_PER_PAGE);
  let g_to_del := u64 (g_to_del + r_offset / GRAINED_UNIT) in
  mark_grain_invalid s g_to_del (if vlen mod GRAINED_UNIT =? 0 then rem else rem + 1).

(** The key of the pair at [old_mem], grain [g], is the one asked for. *)
Definition retrieve_found (k : kv) (c : nvme_command) (i lpa g glen old_mem real_vlen vlen r_offset : Z)
    (for_del : bool) : result (kv * nvme_command * Z) :=
  klen ← __klen_from_value k.(hp) old_mem;
  let meta_sz := 1 + klen + 4 in
  let off := u32 (r_offset + meta_sz) in
  if for_del then
    let c := set_rsvd c U64_MAX in
    if (u32 (off - meta_sz) =? 0) && (vlen =? 0) then
      h ← kfree k.(hp) old_mem;
      s ← mark_grain_invalid (shard_of k) g glen;
      let k := set_hp (set_shard k s) h in
      x ← section (cache_of k) i;
      x ← __update_map x lpa 0 UINT_MAX;
      Ok (set_cache k (put (cache_of k) i x), c, NVME_SC_SUCCESS)
    else
      s ← delete_part (shard_of k) g off vlen;
      Ok (set_shard k s, c, NVME_SC_SUCCESS)
  else
    let c := set_rsvd (set_value_len c real_vlen) (old_mem + off) in
    let pos := u32 (off - meta_sz) in
    if negb (pos =? 0) then
      if u32 (pos + vlen) <=? real_vlen then Ok (k, set_value_len c vlen, NVME_SC_SUCCESS)
      else Ok (k, set_value_len c (real_vlen - pos), NVME_SC_SUCCESS)
    else if vlen <? real_vlen then Ok (k, set_rsvd c U64_MAX, KV_ERR_BUFFER_SMALL)
    else Ok (k, c, NVME_SC_SUCCESS).

(** The label [cache] of a retrieve: load the section when it is on flash. *)
Definition ensure_cached (k : kv) (i : Z) (first : bool) (latest : Z) : result (Z * kv) :=
  x ← section (cache_of k) i;
  if cache_hit x then Ok (latest, k) else
  '(n, f) ← __get_one clock k.(fl) i first latest;
  x ← section f.(ca) i;
  if cache_hit x then Ok (Z.max latest n, set_fl k f) else Err HANG.

(** The grain and the address in the table for [lpa], in section [i]. *)
Definition entry_of (k : kv) (i lpa : Z) : result (Z * Z) :=
  x ← section (cache_of k) i;
  '(g, _) ← cache_hidx_to_grain x lpa;
  Ok (g, x.(pair_mem) (OFFSET lpa)).

(** The length of the pair at grain [g], from the out-of-band area. *)
Definition glen_of (k : kv) (g : Z) : result Z :=
  o ← oob_cell (shard_of k) (G_IDX g) (G_OFFSET g); Ok (__glen_from_oob o).

(** The [lpa] loop of [__retrieve]; the results are the command, the status,
    the time and the callback. *)
Fixpoint retrieve_loop (fuel : nat) (k : kv) (c : nvme_command) (h : hash_params) (klen vlen r_offset start latest : Z)
    (for_del : bool) : result (kv * nvme_command * Z * Z * callback) :=
  match fuel with
  | O => Err HANG
  | S fuel =>
      let spp := sp_of (shard_of k) in
      h ← get_hash_idx (cache_of k) h;
      '(i, ca) ← cache_get_ht (cache_of k) h.(lpa);
      let k := set_cache k ca in
      x ← section (cache_of k) i;
      if h.(cnt) >? k.(max_try) then
        let '(latest, k) := if latest =? start then wallclock k 0 else (latest, k) in
        Ok (k, not_found c, KV_ERR_KEY_NOT_EXIST, latest, RELEASE_MAP i)
      else if x.(t_ppa) =? UINT_MAX then
        k ← unlock k i;
        retrieve_loop fuel k c (mk_hash h.(hash) (i32 (h.(cnt) + 1)) h.(lpa)) klen vlen r_offset start latest for_del
      else
        '(latest, k) ← ensure_cached k i false latest;
        '(g, old_mem) ← entry_of k i h.(lpa);
        if g =? UINT_MAX then
          k ← unlock k i;
          Ok (k, not_found c, KV_ERR_KEY_NOT_EXIST, latest, NO_CB)
        else
          glen ← glen_of k g;
          real_vlen ← __vlen_from_value k.(hp) old_mem;
          '(differ, n, cnt, s) ← __retrieve_and_compare clock (shard_of k) k.(hp) g old_mem h.(cnt)
            c.(Queues.key) klen latest vlen r_offset __key_match for_del;
          let k := set_shard k s in
          if (differ : bool) then
            k ← unlock k i;
            retrieve_loop fuel k c (mk_hash h.(hash) cnt h.(lpa)) klen vlen r_offset start
              (u64 (Z.max latest n + read_latency spp vlen)) for_del
          else
            '(k, c, status) ← retrieve_found k c i h.(lpa) g glen old_mem real_vlen vlen r_offset for_del;
            Ok (k, c, status, Z.max latest n, RELEASE_MAP i)
  end.

(** A key is looked for at most [max_try + 1] times. *)
Definition retrieve_fuel (k : kv) : nat := S (S (Z.to_nat k.(max_try))).

(** [__retrieve].  There is one partition. *)
Definition __retrieve (k : kv) (c : nvme_command) (nsecs_start : Z) (for_del : bool)
    : result (kv * nvme_command * kv_result) :=
  let klen := u8 (cmd_key_length c) in
  vlen ← cmd_value_length c;
  let r_offset := c.(Queues.offset) in
  _ ← assert_ (r_offset mod 4 =? 0);
  let hash := u32 (CityHash64 (cmd_key c klen)) in
  let start := u64 (nsecs_start + read_latency (sp_of (shard_of k)) vlen) in
  _ ← assert_ (klen <=? 16);
  let '(buf, _) := __get_append_buf k.(ab) c.(Queues.key) klen false in
  '(k, c, status, latest, cb) ←
    (if negb (buf =? UINT_MAX) then
      '(k, c, status) ← retrieve_buffered k c buf vlen r_offset for_del;
      Ok (k, c, status, start, NO_CB)
    else
      let credits := k.(leftover_credits) in
      '(latest, k) ← settle (set_leftover k 0) start credits;
      retrieve_loop (retrieve_fuel k) k c (mk_hash hash 0 0) klen vlen r_offset start latest for_del);
  let '(latest, k) := wallclock k latest in
  Ok (k, c, mk_ret status latest cb).

Definition conv_read (k : kv) (c : nvme_command) (nsecs_start : Z) := __retrieve k c nsecs_start false.
Definition conv_delete (k : kv) (c : nvme_command) (nsecs_start : Z) := __retrieve k c nsecs_start true.

(** ** Store and append *)

(** The local variables of [__store] that a [goto append] keeps, and the
    globals that describe the buffer in hand. *)
Record store_vars := mk_sv {
  sv_buf : Z; need_new : bool; checking_len : bool; flushing_prev : bool;
  cur_append_key : list Z; cur_append_klen : Z; cur_append_buf : Z; wb_idx : Z;
  sv_latest : Z; sv_credits : Z
}.

(** What a part of [__store] ends with: an answer, or [goto append]. *)
Variant store_step := Done (k : kv) (c : nvme_command) (r : kv_result) | Again (k : kv) (v : store_vars).

(** The variables after a buffer was taken in hand. *)
Definition use_buf (b : append_bufs) (buf : Z) (v : store_vars) : store_vars :=
  mk_sv buf v.(need_new) v.(checking_len) v.(flushing_prev) (b.(append_keys) buf) (b.(append_klens) buf)
    (b.(append_addr) buf) (b.(wb_idxs) buf) v.(sv_latest) v.(sv_credits).
Definition set_flags (v : store_vars) (new checking flushing : bool) : store_vars :=
  mk_sv v.(sv_buf) new checking flushing v.(cur_append_key) v.(cur_append_klen) v.(cur_append_buf) v.(wb_idx)
    v.(sv_latest) v.(sv_credits).
Definition set_wb (v : store_vars) (buf wb : Z) : store_vars :=
  mk_sv buf v.(need_new) v.(checking_len) v.(flushing_prev) v.(cur_append_key) v.(cur_append_klen)
    v.(cur_append_buf) wb v.(sv_latest) v.(sv_credits).
Definition no_buf (v : store_vars) : store_vars :=
  mk_sv UINT_MAX v.(need_new) v.(checking_len) v.(flushing_prev) [] 0 0 0 v.(sv_latest) v.(sv_credits).
Definition set_time (v : store_vars) (latest credits : Z) : store_vars :=
  mk_sv v.(sv_buf) v.(need_new) v.(checking_len) v.(flushing_prev) v.(cur_append_key) v.(cur_append_klen)
    v.(cur_append_buf) v.(wb_idx) latest credits.

(** Look for the buffer of the key; a store drops what was appended. *)
Definition find_buf (append : bool) (k : kv) (c : nvme_command) (klen : Z) (v : store_vars) : result (kv * store_vars) :=
  if append then
    if negb v.(checking_len) && (v.(sv_buf) =? UINT_MAX) then
      let '(buf, new) := __get_append_buf k.(ab) c.(Queues.key) klen true in
      if buf =? UINT_MAX then Ok (k, set_flags (no_buf v) new v.(checking_len) v.(flushing_prev))
      else
        b ← touch_buf k.(ab) buf;
        Ok (set_ab k b, set_flags (use_buf b buf v) false false v.(flushing_prev))
    else Ok (k, v)
  else
    let '(buf, new) := __get_append_buf k.(ab) c.(Queues.key) klen v.(need_new) in
    if buf =? UINT_MAX then Ok (k, set_flags (set_wb v buf v.(wb_idx)) new v.(checking_len) v.(flushing_prev))
    else
      b ← drop_buf k.(ab) buf;
      Ok (set_ab k b, set_flags (no_buf v) new v.(checking_len) v.(flushing_prev)).

(** Append to the buffer in hand: its header when it is empty, then room for
    [vlen] bytes that the worker copies. *)
Definition append_to_buf (k : kv) (c : nvme_command) (vlen : Z) (v : store_vars) : result store_step :=
  let buf := v.(sv_buf) in
  _ ← assert_ (negb v.(need_new));
  _ ← __wait_buf k.(ab) buf;
  let meta_sz := 1 + v.(cur_append_klen) + 4 in
  '(h, wb) ← (if v.(wb_idx) =? 0 then
      h ← hwrite k.(hp) v.(cur_append_buf) 0 [v.(cur_append_klen)];
      h ← hwrite h v.(cur_append_buf) 1 (take (Z.to_nat v.(cur_append_klen)) v.(cur_append_key));
      h ← hwrite h v.(cur_append_buf) (1 + v.(cur_append_klen)) (le4 v.(wb_idx));
      Ok (h, meta_sz)
    else Ok (k.(hp), v.(wb_idx)));
  let c := set_rsvd (set_offset c wb) (v.(cur_append_buf) + wb) in
  let b := set_buf_lock k.(ab) (upd k.(ab).(buf_lock) buf (i32 (k.(ab).(buf_lock) buf + 1))) in
  let b := set_wb_idxs b (upd b.(wb_idxs) buf (u32 (wb + vlen))) in
  Ok (Done (set_ab (set_hp k h) b) c (mk_ret 0 v.(sv_latest) (RELEASE_BUF buf))).

(** [__store] from the label [append] to the hash. *)
Definition store_head (append : bool) (k : kv) (c : nvme_command) (r : kv_result) (klen vlen : Z) (v : store_vars)
    : result store_step :=
  '(k, v) ← find_buf append k c klen v;
  if append && negb v.(checking_len) then
    if v.(sv_buf) =? UINT_MAX then
      if negb v.(need_new) then Ok (Again k (set_flags v v.(need_new) true false))
      else
        '(buf, b) ← __smallest_buf k.(ab);
        let v := use_buf b buf v in
        let meta_sz := 1 + v.(cur_append_klen) + 4 in
        _ ← assert_ (b.(inv_cnts) buf <=? u32 (v.(wb_idx) - meta_sz));
        if b.(inv_cnts) buf =? u32 (v.(wb_idx) - meta_sz) then
          b ← __clear_buf b buf;
          Ok (Again (set_ab k b) (set_flags (set_wb v UINT_MAX 0) false true false))
        else Ok (Again (set_ab k b) (set_flags v v.(need_new) v.(checking_len) true))
    else if u32 (v.(wb_idx) + vlen) >=? WB_SIZE then
      Ok (Done k (set_rsvd c U64_MAX) (mk_ret KV_ERR_BUFFER_SMALL r.(ret_target) r.(ret_cb)))
    else append_to_buf k c vlen v
  else Ok (Again k v).

(** [n] bytes in grains. *)
Definition to_grains (n : Z) : Z :=
  if Z.land n (GRAINED_UNIT - 1) =? 0 then n / GRAINED_UNIT else n / GRAINED_UNIT + 1.

(** The first page of a section that was never used. *)
Fixpoint first_page (fuel : nat) (s : demand_shard) : result (Z * demand_shard) :=
  match fuel with
  | O => Err HANG
  | S fuel =>
      p ← get_new_page s MAP_IO;
      ppa ← ppa2pgidx (sp_of s) p;
      s ← advance_write_pointer s MAP_IO;
      s ← mark_page_valid s p;
      s ← mark_grain_valid s (PPA_TO_PGA ppa 0) GRAIN_PER_PAGE;
      if ppa =? 0 then
        s ← mark_grain_invalid s (PPA_TO_PGA ppa 0) GRAIN_PER_PAGE; first_page fuel s
      else Ok (ppa, s)
  end.

(** The section [i] is used for the first time: it gets a page on flash. *)
Definition open_section (k : kv) (i : Z) : result kv :=
  x ← section (cache_of k) i;
  '(ppa, s) ← first_page 2 (shard_of k);
  let x := set_cached (set_t_ppa x ppa) false in
  let entry := Z.lor (Z.shiftl GRAIN_PER_PAGE 32) (u64 (x.(idx) * EPP)) in
  let s := set_oob s (upd s.(oob) ppa
             (memset (upd (s.(oob) ppa) 0 entry) 1 (GRAIN_PER_PAGE - 1) UINT_MAX)) in
  let x := set_state (set_len x GRAIN_PER_PAGE) CLEAN in
  Ok (set_cache (set_shard k s) (put (cache_of k) i x)).

(** A fresh block for a pair of [glen] grains. *)
Definition new_block (zero : bool) (h : heap) (glen : Z) : result (Z * heap) :=
  let '(a, h) := if zero then kzalloc h (glen * GRAINED_UNIT) else kmalloc h (glen * GRAINED_UNIT) in
  _ ← assert_ (negb (a =? 0)); Ok (a, h).

(** The header of a pair that is stored: [sans_mark] is the length of its
    value, which the worker copies behind it. *)
Definition put_header (h : heap) (a : Z) (c : nvme_command) (klen sans_mark : Z) : result heap :=
  h ← hwrite h a 0 [klen];
  h ← hwrite h a 1 (cmd_key c klen);
  hwrite h a (1 + klen) (le4 sans_mark).

(** The contents of the buffer in hand become a pair. *)
Definition flush_copy (h : heap) (b : append_bufs) (a : Z) (v : store_vars) : result heap :=
  _ ← __wait_buf b v.(sv_buf);
  hcopy h a v.(cur_append_buf) v.(wb_idx).

(** Where the pair goes when its key has none yet. *)
Definition insert_pair (k : kv) (c : nvme_command) (klen vlen glen : Z) (v : store_vars)
    : result (Z * kv * nvme_command) :=
  '(a, h) ← new_block false k.(hp) glen;
  if v.(flushing_prev) then
    h ← flush_copy h k.(ab) a v;
    n ← __klen_from_value h a;
    _ ← assert_ (n >? 0);
    Ok (a, set_hp k h, c)
  else
    h ← put_header h a c klen (u32 (vlen - 4 - 1 - klen));
    Ok (a, set_hp k h, set_rsvd c (a + 1 + klen + 4)).

(** Where it goes when there is a pair of [len] grains at [old_mem]. *)
Definition replace_pair (k : kv) (c : nvme_command) (append : bool) (old_mem klen vlen len glen : Z) (v : store_vars)
    : result (Z * kv * nvme_command) :=
  let meta_sz := 1 + klen + 4 in
  let sans_mark := u32 (vlen - 4 - klen - 1) in
  if append then
    _ ← assert_ v.(flushing_prev);
    h ← kfree k.(hp) old_mem;
    '(a, h) ← new_block true h glen;
    h ← flush_copy h k.(ab) a v;
    Ok (a, set_hp k h, c)
  else if len =? glen then
    h ← hwrite k.(hp) old_mem (1 + klen) (le4 sans_mark);
    Ok (old_mem, set_hp k h, set_rsvd c (old_mem + meta_sz))
  else
    '(a, h) ← (if len >? glen then
        h ← hmemset k.(hp) old_mem (len * GRAINED_UNIT) 0; Ok (old_mem, h)
      else h ← kfree k.(hp) old_mem; new_block true h glen);
    h ← put_header h a c klen sans_mark;
    Ok (a, set_hp k h, set_rsvd c (a + meta_sz)).

(** Copy the pair that is appended to into a buffer of its own. *)
Definition load_buf (k : kv) (c : nvme_command) (klen i old_mem : Z) (v : store_vars) : result store_step :=
  real_vlen ← __vlen_from_value k.(hp) old_mem;
  prev_klen ← __klen_from_value k.(hp) old_mem;
  '(buf, b) ← __assign_buf k.(ab) c.(Queues.key) klen;
  _ ← assert_ (b.(wb_idxs) buf =? 0);
  _ ← __wait_buf b buf;
  let wb := u32 (real_vlen + 1 + prev_klen + 4) in
  let b := set_wb_idxs b (upd b.(wb_idxs) buf wb) in
  h ← hcopy k.(hp) (b.(append_addr) buf) old_mem wb;
  x ← section (cache_of k) i;
  let k := set_cache k (put (cache_of k) i (set_outgoing x (i32 (x.(outgoing) - 1)))) in
  Ok (Again (set_ab (set_hp k h) b) (set_flags (use_buf b buf v) v.(need_new) false v.(flushing_prev))).

(** The place on flash and the table: [__store] from [fm_two] to [__update_map]. *)
Definition commit_pair (k : kv) (i a glen rem : Z) (h : hash_params) (latest : Z) : result (kv * Z * Z) :=
  '(grain, credits, w) ← place_pair clock (mk_writing (shard_of k) k.(cur_page) latest k.(works)) glen rem h.(lpa);
  let k := set_leftover (set_writing k w) (k.(leftover_credits) + credits) in
  let k := set_max_try k (Z.max h.(cnt) k.(max_try)) in
  x ← section (cache_of k) i;
  x ← __update_map x h.(lpa) a grain;
  Ok (set_leftover (set_cache k (put (cache_of k) i x)) (k.(leftover_credits) + credits), w.(w_latest), credits).

(** The end of a flush: the header of the pair, and the buffer is free. *)
Definition finish_flush (k : kv) (i a : Z) (v : store_vars) : result store_step :=
  h ← hwrite k.(hp) a 0 [v.(cur_append_klen)];
  h ← hwrite h a 1 (take (Z.to_nat v.(cur_append_klen)) v.(cur_append_key));
  h ← hwrite h a (1 + v.(cur_append_klen)) (le4 (u32 (v.(wb_idx) - (1 + v.(cur_append_klen) + 4))));
  b ← __clear_buf k.(ab) v.(sv_buf);
  k ← unlock (set_ab (set_hp k h) b) i;
  Ok (Again k (set_flags (set_wb v UINT_MAX 0) false true false)).

(** What comes after the place of the pair in memory is known. *)
Definition store_tail (k : kv) (c : nvme_command) (i a glen rem : Z) (h : hash_params) (v : store_vars)
    : result store_step :=
  '(k, latest, credits) ← commit_pair k i a glen rem h v.(sv_latest);
  let v := set_time v latest credits in
  if v.(flushing_prev) then finish_flush k i a v
  else if v.(checking_len) then
    k ← unlock k i; Ok (Again k (set_flags (set_wb v UINT_MAX v.(wb_idx)) v.(need_new) false v.(flushing_prev)))
  else Ok (Done k c (mk_ret 0 latest (RELEASE_MAP i))).

(** The [lpa] loop of [__store].  [first] says that a section was used for the
    first time. *)
Fixpoint store_loop (fuel : nat) (append : bool) (k : kv) (c : nvme_command) (r : kv_result) (h : hash_params)
    (klen vlen glen rem : Z) (first : bool) (v : store_vars) : result store_step :=
  match fuel with
  | O => Err HANG
  | S fuel =>
      h ← get_hash_idx (cache_of k) h;
      '(latest, k) ← settle k v.(sv_latest) v.(sv_credits);
      '(i, ca) ← cache_get_ht (cache_of k) h.(lpa);
      let k := set_cache k ca in
      x ← section (cache_of k) i;
      '(k, first) ← (if x.(t_ppa) =? UINT_MAX then k ← open_section k i; Ok (k, true) else Ok (k, first));
      '(latest, k) ← ensure_cached k i first latest;
      let v := set_time v latest 0 in
      '(g, old_mem) ← entry_of k i h.(lpa);
      if g =? UINT_MAX then
        if v.(checking_len) then
          '(buf, b) ← __assign_buf k.(ab) c.(Queues.key) klen;
          _ ← assert_ (b.(wb_idxs) buf =? 0);
          k ← unlock (set_ab k b) i;
          Ok (Again k (set_flags (use_buf b buf v) v.(need_new) false v.(flushing_prev)))
        else
          '(a, k, c) ← insert_pair k c klen vlen glen v;
          store_tail k c i a glen rem h v
      else
        len ← glen_of k g;
        let '(ukey, u_klen) := if v.(flushing_prev) then (v.(cur_append_key), v.(cur_append_klen))
                               else (c.(Queues.key), klen) in
        '(differ, n, cnt, s) ← __retrieve_and_compare clock (shard_of k) k.(hp) g old_mem h.(cnt)
          ukey u_klen latest vlen 0 false false;
        let k := set_shard k s in
        if (differ : bool) then
          k ← unlock k i;
          store_loop fuel append k c r (mk_hash h.(hash) cnt h.(lpa)) klen vlen glen rem first
            (set_time v (Z.max latest n) 0)
        else if append && v.(checking_len) && (u32 (u32 (len * GRAINED_UNIT) + vlen) >? WB_SIZE) then
          k ← unlock k i;
          Ok (Done k (set_rsvd c U64_MAX) (mk_ret KV_ERR_BUFFER_SMALL r.(ret_target) r.(ret_cb)))
        else if append && v.(checking_len) then load_buf k c klen i old_mem v
        else
          '(a, k, c) ← replace_pair k c append old_mem klen vlen len glen v;
          s ← mark_grain_invalid (shard_of k) g len;
          store_tail (set_shard k s) c i a glen rem h (set_time v (Z.max latest n) 0)
  end.

(** Every probe is of another entry of the table until they repeat. *)
Definition store_fuel (k : kv) : nat := Z.to_nat (cache_of k).(nr_valid_tentries).

(** [__store] from the hash to its end or to [goto append]. *)
Definition store_body (append : bool) (k : kv) (c : nvme_command) (r : kv_result) (klen vlen : Z) (v : store_vars)
    : result store_step :=
  let hash := u32 (CityHash64 (if v.(flushing_prev) then take (Z.to_nat v.(cur_append_klen)) v.(cur_append_key)
                               else cmd_key c klen)) in
  _ ← assert_ (klen <=? 16);
  let v := if v.(flushing_prev) then set_wb v v.(sv_buf) (u32 (v.(wb_idx) - k.(ab).(inv_cnts) v.(sv_buf))) else v in
  let rem := if v.(flushing_prev) then v.(wb_idx) else vlen in
  let glen := to_grains rem in
  let v := set_time v v.(sv_latest) (u64 (v.(sv_credits) + glen + k.(leftover_credits))) in
  store_loop (store_fuel k) append (set_leftover k 0) c r (mk_hash hash 0 0) klen vlen glen rem false v.

(** The passes over the label [append]. *)
Fixpoint store_passes (fuel : nat) (append : bool) (k : kv) (c : nvme_command) (r : kv_result) (klen vlen : Z)
    (v : store_vars) : result (kv * nvme_command * kv_result) :=
  match fuel with
  | O => Err HANG
  | S fuel =>
      step ← store_head append k c r klen vlen v;
      match step with
      | Done k c r => Ok (k, c, r)
      | Again k v =>
          step ← store_body append k c r klen vlen v;
          match step with
          | Done k c r => Ok (k, c, r)
          | Again k v => store_passes fuel append k c r klen vlen v
          end
      end
  end.

(** At most three: a buffer is flushed, the key looked up, the bytes appended. *)
Definition __store (k : kv) (c : nvme_command) (nsecs_start : Z) (r : kv_result) (append : bool)
    : result (kv * nvme_command * kv_result) :=
  let klen := u8 (cmd_key_length c) in
  vlen ← cmd_value_length c;
  let vlen := if append then vlen else u32 (vlen + 1 + klen + 4) in
  '(latest, d) ← ssd_advance_write_buffer clock (shard_of k).(sd) nsecs_start vlen;
  let k := set_shard k (set_sd (shard_of k) d) in
  store_passes 3 append k c r klen vlen (mk_sv UINT_MAX true false false [] 0 0 0 latest 0).

Definition conv_write (k : kv) (c : nvme_command) (nsecs_start : Z) (r : kv_result) := __store k c nsecs_start r false.
Definition conv_append (k : kv) (c : nvme_command) (nsecs_start : Z) (r : kv_result) := __store k c nsecs_start r true.

(** ** Batches *)

(** What the loop of [conv_batch] carries: the place in the buffer, the command
    that is built for each pair, the latest target time, the result of the last
    store, and the callbacks given to the workers. *)
Record batch := mk_batch {
  bt_offset : Z; bt_rem : Z; bt_store : nvme_command; bt_slowest : Z; bt_ret : kv_result; bt_cbs : list callback
}.

(** [memset(&store, 0, sizeof(store))]. *)
Definition empty_store : nvme_command := mk_nvme nvme_cmd_kv_store 0 0 0 0 0 0 0 0 0 (repeat 0 16).

(** The command for a pair of the batch: [copy_key] stays in the 16 bytes at the
    end of the structure, or writes past it. *)
Definition batch_command (store : nvme_command) (key : list Z) (klen vlen prp1 : Z) : result nvme_command :=
  if klen >? MAX_KLEN then Err OOB else
  Ok (mk_nvme store.(opcode) store.(Queues.command_id) store.(nsid) store.(rsvd) store.(Queues.offset) prp1 store.(prp2)
        (Z.shiftr vlen 2) (Z.lor (Z.shiftl (Z.shiftr store.(cdw11) 8) 8) (u8 (klen - 1))) store.(cdw12)
        (copy_key store.(Queues.key) key klen)).

(** One round: a pair of the buffer is stored. *)
Definition batch_round (k : kv) (buf nsecs_start : Z) (t : batch) : result (kv * batch) :=
  l ← hread k.(hp) buf t.(bt_offset) 1;
  let klen := of_list l 0 in
  let offset := u32 (t.(bt_offset) + 1) in
  let rem := u32 (t.(bt_rem) - 1) in
  let key_at := offset in
  let offset := u32 (offset + klen) in
  let rem := u32 (rem - klen) in
  l ← hread k.(hp) buf offset 4;
  let vlen := of_le4 l in
  let offset := u32 (offset + 4) in
  let rem := u32 (rem - 4) in
  key ← hread k.(hp) buf key_at klen;
  store ← batch_command t.(bt_store) key klen vlen (u64 (buf + offset));
  '(k, store, r) ← __store k store nsecs_start t.(bt_ret) false;
  Ok (k, mk_batch (u32 (offset + vlen)) (u32 (rem - vlen)) store
           (if r.(ret_target) >? t.(bt_slowest) then r.(ret_target) else t.(bt_slowest)) r
           (t.(bt_cbs) ++ [r.(ret_cb)])).

Fixpoint batch_loop (fuel : nat) (k : kv) (buf nsecs_start : Z) (t : batch) : result (kv * batch) :=
  if t.(bt_rem) >? 0 then
    match fuel with
    | O => Err HANG
    | S fuel => '(k, t) ← batch_round k buf nsecs_start t; batch_loop fuel k buf nsecs_start t
    end
  else Ok (k, t).

(** The offset determines the rest of the loop: past this many rounds one
    comes a second time. *)
Definition batch_fuel : nat := Z.to_nat (PAGESIZE + 1).

(** [host] is the memory of the host by physical address.  The last result is
    the list of callbacks given to the workers. *)
Definition conv_batch (host : Z -> Z) (k : kv) (c : nvme_command) (nsecs_start : Z) (r : kv_result)
    : result (kv * nvme_command * kv_result * list callback) :=
  rem ← cmd_value_length c;
  if rem >? PAGESIZE then Ok (k, not_found c, mk_ret KV_ERR_KEY_NOT_EXIST r.(ret_target) r.(ret_cb), []) else
  let '(buf, h) := kmalloc k.(hp) PAGESIZE in
  h ← hwrite h buf 0 (bytes_at host c.(prp1) (Z.min rem PAGE_SIZE));
  '(k, t) ← batch_loop batch_fuel (set_hp k h) buf nsecs_start (mk_batch 0 rem empty_store 0 r []);
  Ok (k, not_found c, mk_ret KV_SUCCESS t.(bt_slowest) NO_CB, t.(bt_cbs)).

(** The worker runs the callback of a request that is done. *)
Definition run_callback (k : kv) (cb : callback) : result kv :=
  match cb with
  | NO_CB => Ok k
  | RELEASE_MAP i => c ← __release_map (cache_of k) i; Ok (set_cache k c)
  | RELEASE_BUF b => Ok (set_ab k (__release_buf k.(ab) b))
  end.

(** ** The handlers of the two namespaces *)

Definition conv_flush (k : kv) (start : Z) (r : kv_result) : result kv_result :=
  latest ← ssd_next_idle_time clock (shard_of k).(sd);
  Ok (mk_ret NVME_SC_SUCCESS (Z.max start latest) r.(ret_cb)).

(** A command that is not of the key-value set completes shortly. *)
Definition other_command (k : kv) (c : nvme_command) (r : kv_result) : kv * nvme_command * kv_result * list callback :=
  let '(now, d) := __get_ioclock clock (shard_of k).(sd) in
  (set_shard k (set_sd (shard_of k) d), c, mk_ret r.(ret_status) (u64 (now + 10)) r.(ret_cb), []).

Definition kv_proc_nvme_io_cmd (host : Z -> Z) (k : kv) (c : nvme_command) (nsecs_start : Z) (r : kv_result)
    : result (kv * nvme_command * kv_result * list callback) :=
  let plain x := '(k, c, r) ← x; Ok (k, c, r, []) in
  let op := c.(opcode) in
  if op =? nvme_cmd_kv_batch then conv_batch host k c nsecs_start r
  else if op =? nvme_cmd_kv_store then plain (conv_write k c nsecs_start r)
  else if op =? nvme_cmd_kv_retrieve then plain (conv_read k c nsecs_start)
  else if op =? nvme_cmd_kv_delete then plain (conv_delete k c nsecs_start)
  else if op =? nvme_cmd_kv_append then plain (conv_append k c nsecs_start r)
  else Ok (other_command k c r).

End commands.
