(* ===== verification/Directory.v ===== *)
(** * The device as a map from keys to values ([demand_ftl.c])

    What the commands of [Kv.v] promise together: the table, the hash and the
    pairs in memory represent a finite map from keys to the place and the length
    of their values, a retrieve looks its key up in it and a store changes it
    at its key only.  The table is read whatever sections are in DRAM. *)

From stdpp Require Import gmap.
From S2P Require Import Prelude Fifo Lru Append WorkQueue Queues Prp.
From S2P Require Import ChModel Ssd Geometry PQueue Line Lines Pages Place Cache Heap Pairs Kv.

(** ** Shards that differ in timing and credits *)

Definition calm (s s' : demand_shard) : Prop := same_flash (set_wfc s s'.(wfc)) s'.

Lemma same_flash_wfc s s' w : same_flash s s' -> same_flash (set_wfc s w) (set_wfc s' w).
Proof. intros (A & B & C). split; [|done]. unfold same_but_device in *. by rewrite A. Qed.

#[export] Instance calm_preorder : PreOrder calm.
Proof.
  split.
  - intros s. unfold calm. by destruct s.
  - intros a b c A B. unfold calm in *. etransitivity; [|exact B].
    apply (same_flash_wfc _ _ c.(wfc)) in A. exact A.
Qed.

Lemma same_flash_calm s s' : same_flash s s' -> calm s s'.
Proof.
  intros A. unfold calm. replace (wfc s') with (wfc s); [by destruct s|].
  destruct A as (-> & _). done.
Qed.

Lemma calm_consume s n : calm s (consume_write_credit s n).
Proof. by apply same_flash_wfc. Qed.

Lemma calm_sp s s' : calm s s' -> sp_of s' = sp_of s.
Proof. by intros (_ & E & _). Qed.
Lemma calm_oob s s' : calm s s' -> s'.(oob) = s.(oob).
Proof. by intros (-> & _). Qed.
Lemma calm_bitmap s s' : calm s s' -> s'.(grain_bitmap) = s.(grain_bitmap).
Proof. by intros (-> & _). Qed.

Lemma user_pos_wfc s w cur b n g : user_pos s cur b n g -> user_pos (set_wfc s w) cur b n g.
Proof. intros [[I1 I2] U2 U3 U4 U5 U6 U7 U8 U9 U10 U11]. split; try done. Qed.

Lemma user_pos_calm s s' cur b n g :
  calm s s' -> tree_ok s'.(sd) -> user_pos s cur b n g -> user_pos s' cur b n g.
Proof. intros C T U. apply (user_pos_flash _ _ _ _ _ _ C T). by apply user_pos_wfc. Qed.

(** ** The abstraction *)

(** The latencies of the firmware are below a millisecond. *)
Record firmware_ok (spp : ssdparams) : Prop := {
  fw_read : 0 <= spp.(fw_4kb_rd_lat) <= 2 ^ 20 /\ 0 <= spp.(fw_rd_lat) <= 2 ^ 20;
  fw_write : 0 <= spp.(fw_wbuf_lat0) <= 2 ^ 20 /\ 0 <= spp.(fw_wbuf_lat1) <= 2 ^ 20
}.

(** The grains of a pair with key [key] and a value of [n] bytes. *)
Definition pair_grains (key : list Z) (n : Z) : Z := grains (header_size key + n).

(** Grain [q] is the first of a pair of [len] grains, all in one line. *)
Record placed (s : demand_shard) (q len : Z) (b p g : Z) : Prop := {
  pl_at : q = index_of s b p * 8 + g;
  pl_line : 0 <= b < (sp_of s).(blks_per_pl);
  pl_page : 0 <= p /\ 0 <= g < 8 /\ (8 * p + g + len) / 8 + 1 < (sp_of s).(pgs_per_line);
  pl_bit : bit s q = true;
  pl_len : __glen_from_oob (s.(oob) (q / 8) (q mod 8)) = len
}.

(** The entry [x] of the table holds a pair. *)
Record slot_holds (k : kv) (x : Z) (key : list Z) (n : Z) : Prop := {
  sl_grain : exists b p g, placed (shard_of k) (table (cache_of k) x) (pair_grains key n) b p g;
  sl_owner : __lpa_from_oob ((shard_of k).(oob) (table (cache_of k) x / 8) (table (cache_of k) x mod 8)) = x;
  sl_mapped : table (cache_of k) x <> UINT_MAX;
  sl_key : 0 < Z.of_nat (length key) <= 16;
  sl_len : 0 < n /\ header_size key + n < 2 ^ 31;
  sl_header : has_header k.(hp).(bytes) (pair_at (cache_of k) x) key n;
  sl_block : exists sz, k.(hp).(blocks) !! pair_at (cache_of k) x = Some sz /\ 512 * pair_grains key n <= sz
}.

(** The value of the pair of entry [x]. *)
Definition value_at (k : kv) (x : Z) (key : list Z) : Z := pair_at (cache_of k) x + header_size key.

Section directory.
Context `{AllocatorLaws} (CityHash64 : list Z -> Z) (clock : nat -> Z).

Definition key_hash (key : list Z) : Z := u32 (CityHash64 key).

(** From count [n] on, the probes of [key] lead past entries of other keys to
    the one with count [m], entry [x]. *)
Inductive leads (k : kv) (key : list Z) : Z -> Z -> Z -> Prop :=
  | leads_here n m x : get_hash_idx (cache_of k) (mk_hash (key_hash key) n 0) = Ok (mk_hash (key_hash key) m x) ->
      leads k key n m x
  | leads_on n m x key' l m' x' : get_hash_idx (cache_of k) (mk_hash (key_hash key) n 0) = Ok (mk_hash (key_hash key) m x) ->
      0 <= x < (cache_of k).(nr_valid_tentries) -> slot_holds k x key' l -> key' <> key ->
      m < m' -> leads k key (m + 1) m' x' -> leads k key n m' x'.

(** The device represents the map [D] from keys to the place and the length of
    the value. *)
Record represents (k : kv) (D : gmap (list Z) (Z * Z)) : Prop := {
  rp_heap : heap_ok k.(hp);
  rp_tries : 0 <= k.(max_try) <= 90000 /\ 2 * k.(max_try) + 8000 <= (cache_of k).(nr_valid_tentries) < 2 ^ 31;
  rp_slots : forall x, 0 <= x < (cache_of k).(nr_valid_tentries) -> table (cache_of k) x <> UINT_MAX ->
    exists key n m, slot_holds k x key n /\ D !! key = Some (value_at k x key, n) /\ leads k key 0 m x /\ m <= k.(max_try);
  rp_keys : forall key a n, D !! key = Some (a, n) ->
    exists x m, 0 <= x < (cache_of k).(nr_valid_tentries) /\ slot_holds k x key n /\ a = value_at k x key /\
      leads k key 0 m x /\ m <= k.(max_try)
}.

(** Between two commands, up to the time [B]. *)
Record sound (k : kv) (B : Z) : Prop := {
  so_cache : exists F V, cache_inv (cache_of k) k.(fl).(vb) F V;
  so_fifo : (cache_of k).(nr_valid_tpages) <= Z.of_nat FIFO_CAPACITY;
  so_entries : (cache_of k).(nr_valid_tentries) <= 1024 * (cache_of k).(nr_valid_tpages);
  so_open : forall i, 0 <= i < (cache_of k).(nr_valid_tpages) -> ((cache_of k).(ht) i).(t_ppa) <> UINT_MAX ->
    is_Some ((cache_of k).(ht) i).(mem) /\ 0 <= ((cache_of k).(ht) i).(t_ppa) < (sp_of (shard_of k)).(tt_pgs);
  so_mapped : forall x, 0 <= x < (cache_of k).(nr_valid_tentries) -> table (cache_of k) x <> UINT_MAX ->
    ((cache_of k).(ht) (IDX x)).(t_ppa) <> UINT_MAX;
  so_fw : firmware_ok (sp_of (shard_of k));
  so_dev : nand_ready clock (shard_of k).(sd) B
}.

(** Who holds the lock of a section. *)
Definition quiet (k : kv) : Prop := forall i, 0 <= i < (cache_of k).(nr_valid_tpages) -> ((cache_of k).(ht) i).(outgoing) = 0.
Definition busy (k : kv) (j : Z) : Prop := forall i, 0 <= i < (cache_of k).(nr_valid_tpages) ->
  ((cache_of k).(ht) i).(outgoing) = if i =? j then 1 else 0.

(** Nothing that a lookup can see has changed. *)
Record still (k k' : kv) : Prop := {
  sk_table : same_table (cache_of k) (cache_of k');
  sk_pages : (cache_of k').(nr_valid_tpages) = (cache_of k).(nr_valid_tpages);
  sk_entries : (cache_of k').(nr_valid_tentries) = (cache_of k).(nr_valid_tentries);
  sk_max : (cache_of k').(max_cached_tentries) = (cache_of k).(max_cached_tentries);
  sk_open : forall i, ((cache_of k').(ht) i).(t_ppa) = ((cache_of k).(ht) i).(t_ppa);
  sk_fresh : forall i, ((cache_of k).(ht) i).(t_ppa) = UINT_MAX -> ((cache_of k').(ht) i).(mem) = ((cache_of k).(ht) i).(mem);
  sk_flash : calm (shard_of k) (shard_of k');
  sk_tries : k'.(max_try) = k.(max_try);
  sk_heap : k'.(hp) = k.(hp);
  sk_bufs : k'.(ab) = k.(ab);
  sk_cur : k'.(cur_page) = k.(cur_page);
  sk_works : k'.(works) = k.(works)
}.

#[export] Instance still_preorder : PreOrder still.
Proof.
  split.
  - intros k. by split.
  - intros a b c [A1 A2 A3 A4 A5 A12 A6 A7 A8 A9 A10 A11] [B1 B2 B3 B4 B5 B12 B6 B7 B8 B9 B10 B11].
    split; try congruence; [by apply (same_table_trans _ _ _ A2)| |by etransitivity].
    intros i Hi. by rewrite B12, A12 by (by rewrite ?A5).
Qed.

Lemma IDX_range k x B : sound k B -> 0 <= x < (cache_of k).(nr_valid_tentries) ->
  0 <= IDX x < (cache_of k).(nr_valid_tpages).
Proof. intros S Hx. pose proof (so_entries _ _ S). apply IDX_bound. rewrite EPP_val. lia. Qed.

Lemma still_slot k k' x key n : still k k' -> 0 <= IDX x < (cache_of k).(nr_valid_tpages) ->
  slot_holds k x key n -> slot_holds k' x key n.
Proof.
  intros S Hx [(b & p & g & P) O M K L Hh Bk]. destruct (sk_table _ _ S x Hx) as [E1 E2].
  split; rewrite ?E1, ?E2, ?(sk_heap _ _ S), ?(calm_oob _ _ (sk_flash _ _ S)); try done.
  exists b, p, g. destruct P as [P1 P2 P3 P4 P5].
  split; rewrite ?(calm_sp _ _ (sk_flash _ _ S)), ?(calm_oob _ _ (sk_flash _ _ S)), ?(calm_bitmap _ _ (sk_flash _ _ S)); done.
Qed.

Lemma still_probe k k' p : still k k' -> get_hash_idx (cache_of k') p = get_hash_idx (cache_of k) p.
Proof.
  intros S. unfold get_hash_idx. generalize probe_fuel p. clear p. intros fuel.
  induction fuel as [|fuel IH]; intros p; [done|]. cbn [get_hash_loop].
  unfold probe. rewrite (sk_entries _ _ S). by rewrite IH.
Qed.

Lemma still_leads k k' key n m x B : sound k B -> still k k' -> leads k key n m x -> leads k' key n m x.
Proof.
  intros So S. induction 1 as [n m x E|n m x key' l m' x' E Hx Hs Ne Hm _ IH].
  - eapply leads_here. by rewrite (still_probe _ _ _ S).
  - eapply leads_on; try done; rewrite ?(still_probe _ _ _ S), ?(sk_entries _ _ S); try done.
    apply (still_slot _ _ _ _ _ S); [|done]. by apply (IDX_range _ _ B).
Qed.

Lemma still_represents k k' D B : sound k B -> still k k' -> represents k D -> represents k' D.
Proof.
  intros So S [R1 R2 R3 R4]. pose proof (fun x => IDX_range k x B So) as Hi.
  assert (V : forall x key, 0 <= x < (cache_of k).(nr_valid_tentries) -> value_at k' x key = value_at k x key).
  { intros x key Hx. unfold value_at. by destruct (sk_table _ _ S x (Hi x Hx)) as [_ ->]. }
  split; rewrite ?(sk_entries _ _ S), ?(sk_heap _ _ S), ?(sk_tries _ _ S); try done.
  - intros x Hx Hm. destruct (sk_table _ _ S x (Hi x Hx)) as [E _]. rewrite E in Hm.
    destruct (R3 x Hx Hm) as (key & n & m & A1 & A2 & A3 & A4). exists key, n, m.
    rewrite V by done. split_and!; try done; [by apply (still_slot _ _ _ _ _ S); [apply Hi|]|by eapply still_leads].
  - intros key a n Hk. destruct (R4 key a n Hk) as (x & m & A1 & A2 & A3 & A4 & A5). exists x, m.
    rewrite V by done. split; [done|]. split_and!; try done; [by apply (still_slot _ _ _ _ _ S); [apply Hi|]|by eapply still_leads].
Qed.

(** ** The steps both loops share *)

Lemma clock_ok k B : sound k B -> forall n, 0 <= clock n <= B.
Proof. intros S. apply (nr_clock _ _ _ (so_dev _ _ S)). Qed.

Lemma sound_mono k B B' : sound k B -> B <= B' -> sound k B'.
Proof. intros [] HB. split; try assumption. by eapply nand_ready_mono. Qed.

Lemma sound_geom k B : sound k B -> geom (sp_of (shard_of k)).
Proof. intros S. apply (ok_geom _ (nr_tree _ _ _ (so_dev _ _ S))). Qed.

(** Another shard with the same flash. *)
Lemma still_shard k s : calm (shard_of k) s -> still k (set_shard k s).
Proof. by split. Qed.

(** What a step that keeps the table still has to show. *)
Lemma sound_still k k' B B' : sound k B -> still k k' ->
  (exists F V, cache_inv (cache_of k') k'.(fl).(vb) F V) ->
  (forall i, 0 <= i < (cache_of k).(nr_valid_tpages) -> is_Some ((cache_of k).(ht) i).(mem) ->
    is_Some ((cache_of k').(ht) i).(mem)) ->
  nand_ready clock (shard_of k').(sd) B' -> sound k' B'.
Proof.
  intros So S C M R. pose proof So as [S1 S2 S3 S5 S6 S7 S8].
  split; rewrite ?(sk_pages _ _ S), ?(sk_entries _ _ S), ?(sk_max _ _ S); try assumption.
  - intros i Hi. rewrite (sk_open _ _ S), (calm_sp _ _ (sk_flash _ _ S)). intros Ht.
    destruct (S5 i Hi Ht) as [S5a S5b]. split; [by apply M|done].
  - intros x Hx. rewrite (sk_open _ _ S). destruct (sk_table _ _ S x) as [-> _]; [by apply (IDX_range _ _ B)|by apply S6].
  - by rewrite (calm_sp _ _ (sk_flash _ _ S)).
Qed.

Lemma sound_shard k s B : sound k B -> calm (shard_of k) s -> nand_ready clock s.(sd) B -> sound (set_shard k s) B.
Proof. intros S C R. apply (sound_still k _ B); try done. apply S. Qed.

Lemma quiet_shard k s : quiet k -> quiet (set_shard k s).
Proof. done. Qed.

(** The grains of the sections in DRAM. *)
Definition cached_now (k : kv) : Z := (cache_of k).(nr_cached_tentries).

Lemma get_ht_count k x c i : cache_get_ht (cache_of k) x = Ok (i, c) -> cached_now (set_cache k c) = cached_now k.
Proof.
  clear CityHash64 clock. unfold cache_get_ht, lock_section. intros E.
  apply result_bind_ok in E as (c' & (h & _ & E1)%result_bind_ok & E). injection E as _ <-. case_match; [|done]. by injection E1 as <-.
Qed.

(** The lock of section [i] changes. *)
Lemma still_lock k i n : still k (set_cache k (put (cache_of k) i (set_outgoing ((cache_of k).(ht) i) n))).
Proof.
  split; try done; [by apply same_table_put|..]; intros j; cbn; rewrite upd_case; by destruct (Z.eqb_spec j i) as [->|].
Qed.

Lemma sound_lock k i n B : sound k B -> 0 <= i < (cache_of k).(nr_valid_tpages) ->
  sound (set_cache k (put (cache_of k) i (set_outgoing ((cache_of k).(ht) i) n))) B.
Proof.
  intros S Hi. apply (sound_still k _ B); [done|apply still_lock| | |apply S].
  - destruct (so_cache _ _ S) as (F & V & I). exists F, V. by apply inv_outgoing.
  - intros j Hj. cbn. rewrite upd_case. by destruct (Z.eqb_spec j i) as [->|].
Qed.

(** [cache_get_ht] on a free section. *)
Lemma get_ht_ok k x B : sound k B -> 0 <= x < (cache_of k).(nr_valid_tentries) -> quiet k ->
  exists c, cache_get_ht (cache_of k) x = Ok (IDX x, c) /\ still k (set_cache k c) /\ sound (set_cache k c) B /\
    busy (set_cache k c) (IDX x).
Proof.
  intros S Hx Q. pose proof (IDX_range k x B S Hx) as Hi. unfold cache_get_ht, lock_section.
  rewrite section_ok by done. cbn [mbind result_mbind result_bind]. rewrite (Q _ Hi), Z.eqb_refl.
  cbn [mbind result_mbind result_bind]. eexists. split; [done|]. split; [apply still_lock|].
  split; [by apply sound_lock|]. intros j Hj. cbn. rewrite upd_case. destruct (Z.eqb_spec j (IDX x)) as [->|]; [done|]. by apply Q.
Qed.

Lemma unlock_ok k i B : sound k B -> 0 <= i < (cache_of k).(nr_valid_tpages) -> busy k i ->
  exists k', unlock k i = Ok k' /\ still k k' /\ sound k' B /\ quiet k' /\ cached_now k' = cached_now k.
Proof.
  intros S Hi Q. unfold unlock, unlock_section. rewrite section_ok by done. cbn [mbind result_mbind result_bind].
  eexists. split; [done|]. split; [apply still_lock|]. split; [by apply sound_lock|]. split; [|done].
  intros j Hj. cbn. rewrite upd_case. destruct (Z.eqb_spec j i) as [->|]; [done|].
  rewrite (Q j Hj). by rewrite (proj2 (Z.eqb_neq j i)).
Qed.

(** A section on flash is brought into DRAM. *)
Lemma ensure_cached_ok k i latest B : sound k B -> 0 <= i < (cache_of k).(nr_valid_tpages) ->
  ((cache_of k).(ht) i).(t_ppa) <> UINT_MAX -> 0 <= latest <= B -> B < 2 ^ 62 ->
  exists t k', ensure_cached clock k i false latest = Ok (t, k') /\ still k k' /\ sound k' (B + NAND_MAX) /\
    latest <= t <= B + NAND_MAX /\ cache_hit ((cache_of k').(ht) i) = true /\
    (forall j, ((cache_of k').(ht) j).(outgoing) = ((cache_of k).(ht) j).(outgoing)) /\
    cached_now k' <= cached_now k + GRAIN_PER_PAGE.
Proof.
  intros S Hi Ht Hl HB. pose proof S as [(F & V & S1) S2 S3 S5 S6 S7 _].
  unfold ensure_cached. rewrite section_ok by done. cbn [mbind result_mbind result_bind].
  destruct (cache_hit _) eqn:Eh.
  { exists latest, k. split; [done|]. split; [done|]. split; [apply (sound_mono _ _ _ S); unfold NAND_MAX; lia|].
    split; [unfold NAND_MAX; lia|]. split; [done|]. split; [done|]. rewrite GPP_val. lia. }
  assert (N : i ∉ F ++ V). { intros X. apply (ci_cached _ _ _ _ S1 i Hi) in X. unfold cache_hit in Eh. congruence. }
  assert (L : (length F < FIFO_CAPACITY)%nat).
  { pose proof (ci_nodup _ _ _ _ S1) as ND. assert (Hr : forall j, j ∈ i :: F -> 0 <= j < (cache_of k).(nr_valid_tpages)).
    { intros j [->|Hj]%elem_of_cons; [done|]. apply (ci_range _ _ _ _ S1), elem_of_app. by left. }
    apply NoDup_app in ND as (ND & _). apply range_length in Hr; [cbn in Hr; lia|lia|].
    apply NoDup_cons. split; [|done]. intros X. apply N, elem_of_app. by left. }
  destruct (S5 i Hi Ht) as [M P].
  destruct (get_one_ok clock k.(fl) F V i false latest B S1 Hi N L (sound_geom _ _ S)) as (n & f & E & Ld & Fl & Hn & R);
    [exact (conj M (conj P (conj (so_dev _ _ S) (conj Hl HB))))|].
  rewrite E. cbn [mbind result_mbind result_bind]. destruct Ld as [L1 L2 L3 L4 (L5 & L6 & L7 & L8 & L9 & L10) L11].
  rewrite section_ok by (by rewrite L8). cbn [mbind result_mbind result_bind]. rewrite L3.
  assert (St : still k (set_fl k f)).
  { split; try done; [intros j; apply L4| |by apply same_flash_calm].
    intros j Hj. change (mem (ht (ca f) j) = mem (ht (cache_of k) j)). by rewrite L11 by congruence. }
  eexists _, _. split; [done|]. split; [done|]. split; [|split; [unfold NAND_MAX in *; lia|split; [done|split; [intros j; apply L4|]]]].
  2:{ unfold cached_now. change (cache_of (set_fl k f)) with (ca f). rewrite (ci_count _ _ _ _ L1), (ci_count _ _ _ _ S1).
      rewrite !length_app. cbn [length]. rewrite GPP_val. lia. }
  apply (sound_still k _ B); try done; [by eexists _, _|]. intros j Hj Hm.
  destruct (Z.eq_dec j i) as [->|Nj]; [|by cbn; rewrite L11].
  apply (ci_mem _ _ _ _ L1). apply elem_of_app. left. apply elem_of_app. right. by constructor.
Qed.

(** What the table says about an entry whose section is in DRAM. *)
Lemma table_entry_ok k x B : sound k B -> 0 <= x < (cache_of k).(nr_valid_tentries) ->
  cache_hit ((cache_of k).(ht) (IDX x)) = true ->
  entry_of k (IDX x) x = Ok (table (cache_of k) x, pair_at (cache_of k) x).
Proof.
  intros S Hx Hh. pose proof (IDX_range _ _ _ S Hx) as Hi. destruct (so_cache _ _ S) as (F & V & I).
  assert (Hm : is_Some ((cache_of k).(ht) (IDX x)).(mem)).
  { apply (ci_mem _ _ _ _ I). by apply (ci_cached _ _ _ _ I _ Hi). }
  unfold entry_of. rewrite section_ok by done. cbn [mbind result_mbind result_bind].
  unfold cache_hidx_to_grain, table, pair_at. destruct Hm as [m ->]. unfold cache_hit in Hh. by rewrite Hh.
Qed.

Lemma entry_hit k i x r : entry_of k i x = Ok r -> cache_hit ((cache_of k).(ht) i) = true.
Proof.
  clear CityHash64 clock. unfold entry_of. intros E. apply result_bind_ok in E as (h & E1 & E).
  assert (h = (cache_of k).(ht) i) as -> by (unfold section, cell in E1; by destruct (_ && _); [injection E1|]).
  unfold cache_hidx_to_grain in E. destruct (mem _); [|done]. unfold cache_hit. by destruct (cached _).
Qed.

(** The probes of a key come from its hash and get further. *)
Lemma probe_next k key n p D : represents k D -> 0 <= n <= k.(max_try) + 1 ->
  get_hash_idx (cache_of k) (mk_hash (key_hash key) n 0) = Ok p ->
  p.(hash) = key_hash key /\ n <= p.(cnt) <= n + 1026 /\ EPP < p.(lpa) < (cache_of k).(nr_valid_tentries).
Proof.
  intros R Hn E. destruct (rp_tries _ _ R) as [T1 T2]. change (2 ^ 31) with 2147483648 in T2.
  destruct (get_hash_idx_ok (cache_of k) (key_hash key) n 0) as (q & E' & F); [apply u32_range|lia|lia|].
  rewrite E in E'. injection E' as ->. destruct F as (F1 & F2 & _ & F3 & _). done.
Qed.

Lemma probe_any k key n l : get_hash_idx (cache_of k) (mk_hash (key_hash key) n l) =
  get_hash_idx (cache_of k) (mk_hash (key_hash key) n 0).
Proof. unfold get_hash_idx. generalize probe_fuel. by intros [|fuel]. Qed.

(** The command [c] names [key]. *)
Definition names_key (c : nvme_command) (klen : Z) (key : list Z) : Prop :=
  klen = Z.of_nat (length key) /\ take (length key) c.(Queues.key) = key.

Lemma same_key_names c klen key key' : names_key c klen key ->
  same_key c.(Queues.key) klen key' <-> key' = key.
Proof.
  intros [-> E]. unfold same_key. split.
  - intros [L E']. assert (L' : length key = length key') by lia. rewrite L' in E. congruence.
  - by intros ->.
Qed.

(** A read that stays where it is safe: in the first page, or in the value but
    not a short one that starts at its second page. *)
Definition readable (n vlen ro : Z) : Prop :=
  ro + vlen <= 4096 \/ (ro + vlen <= n /\ (ro = 4096 -> 3072 < vlen)).

Lemma readable_fits s q b p g key n vlen ro : placed s q (pair_grains key n) b p g -> 0 <= ro -> 0 <= vlen ->
  readable n vlen ro -> ro + vlen < 2 ^ 31 ->
  (ro + vlen <=? 4096) = false -> p + 1 + more_pages vlen ro <= (sp_of s).(pgs_per_line).
Proof.
  clear CityHash64.
  intros [_ _ (Hp & Hg & Hl) _ _] Hr Hv C Hs Hf. apply Z.leb_gt in Hf. destruct C as [C|[C C2]]; [lia|].
  change (2 ^ 31) with 2147483648 in Hs. unfold pair_grains, grains, header_size in Hl.
  assert (A : p + n / 4096 + 1 < (sp_of s).(pgs_per_line)) by zlia. assert (A1 : 1 <= n / 4096) by zlia.
  assert (Q : forall l, -1024 < l -> let q := Z.quot l 512 in 0 <= (if Z.rem q 512 =? 0 then q else q + 1) <= Z.max 0 l / 512 + 1).
  { intros l Hl'. cbv zeta. destruct (Z.ltb_spec l 0).
    - assert (E : Z.quot l 512 = 0 \/ Z.quot l 512 = -1) by zlia.
      rewrite (Z.max_l 0 l) by lia. destruct E as [-> | ->]; split; by vm_compute.
    - rewrite Z.max_r, Z.quot_div_nonneg by lia. case_cmp; zlia. }
  unfold more_pages, more_offset, more_grains. destruct (Z.leb_spec ro 4096) as [L|L].
  - set (l := vlen - (4096 - ro mod 4096)).
    assert (Hl1 : -1024 < l <= n - 4096 /\ l < 2147483648).
    { unfold l. destruct (Z.eq_dec ro 4096) as [E|E]; [specialize (C2 E); rewrite E in *; change (4096 mod 4096) with 0; lia|].
      rewrite Z.mod_small by lia. lia. }
    specialize (Q l ltac:(lia)). cbv zeta in Q. revert Q.
    generalize (if Z.rem (Z.quot l 512) 512 =? 0 then Z.quot l 512 else Z.quot l 512 + 1). intros r Q.
    assert (Q1 : Z.max 0 l / 512 <= (n - 4096) / 512) by (apply Z.div_le_mono; lia).
    rewrite u32_small by zlia. clearbody l. unfold pages_read. case_cmp; zlia.
  - specialize (Q vlen ltac:(lia)). cbv zeta in Q. revert Q.
    generalize (if Z.rem (Z.quot vlen 512) 512 =? 0 then Z.quot vlen 512 else Z.quot vlen 512 + 1). intros r Q.
    rewrite u32_small by zlia. unfold pages_read. case_cmp; zlia.
Qed.

(** A slot's length out of band, its value's length, and the comparison with
    the key of a command. *)
Lemma slot_glen k x key n B : sound k B -> slot_holds k x key n ->
  glen_of k (table (cache_of k) x) = Ok (pair_grains key n).
Proof.
  clear CityHash64.
  intros S [(b & p & g & P) _ _ _ _ _ _]. pose proof (sound_geom _ _ S) as G.
  destruct P as [P1 P2 (P3 & P4 & P5) _ P6]. set (q := table _ _) in *.
  assert (Hg : 0 <= pair_grains key n) by (rewrite <- P6; apply u32_range).
  pose proof (pgidx_range _ G _ (page_at_ok _ G b p P2 ltac:(zlia))) as Hi.
  unfold glen_of, oob_cell, G_IDX. rewrite GPP_val, G_OFFSET_mod.
  rewrite cell_in by zlia. cbn [mbind result_mbind result_bind]. rewrite cell_in by zlia.
  cbn [mbind result_mbind result_bind]. by rewrite P6.
Qed.

Lemma slot_room key n : 0 < n -> header_size key + n <= 512 * pair_grains key n.
Proof.
  clear CityHash64. intros Hn. unfold pair_grains, grains, header_size. zlia. Qed.

Lemma slot_pair k x key n : heap_ok k.(hp) -> slot_holds k x key n ->
  pair_in k.(hp) (pair_at (cache_of k) x) key n.
Proof.
  intros Ho [_ _ _ K [L _] Hh (sz & Hb & Hs)]. pose proof (slot_room key n L). split; [by apply (block_nonzero _ _ _ Ho Hb)|].
  split; [done|]. exists sz. split; [done|lia].
Qed.

Lemma slot_vlen k x key n : heap_ok k.(hp) -> slot_holds k x key n ->
  __vlen_from_value k.(hp) (pair_at (cache_of k) x) = Ok n.
Proof.
  intros Ho Sl. pose proof (sl_len _ _ _ _ Sl) as [L _]. destruct (slot_pair _ _ _ _ Ho Sl) as (Hm & Hh & sz & Hb & Hs).
  rewrite (vlen_ok _ _ _ _ _ Hh Hb Hm Hs). by rewrite (proj2 (Z.gtb_lt n 0)).
Qed.

Lemma compare_slot k x key n c klen ukey latest vlen ro (for_del : bool) cnt B :
  sound k B -> heap_ok k.(hp) -> slot_holds k x key n -> names_key c klen ukey ->
  0 <= latest <= B -> 0 <= vlen -> 0 <= ro -> ro + vlen < 2 ^ 31 -> B + NAND_MAX * 2050 < 2 ^ 62 ->
  (key = ukey -> for_del = true \/ readable n vlen ro) ->
  let m := if decide (key = ukey) then 2050 else 1 in
  exists t s', calm (shard_of k) s' /\ sound (set_shard k s') (B + NAND_MAX * m) /\ latest <= t <= B + NAND_MAX * m /\
    __retrieve_and_compare clock (shard_of k) k.(hp) (table (cache_of k) x) (pair_at (cache_of k) x) cnt
      c.(Queues.key) klen latest vlen ro false for_del =
    Ok (if decide (key = ukey) then (false, t, cnt, s') else (true, t, i32 (cnt + 1), s')).
Proof.
  clear CityHash64.
  intros S Ho Sl N Hl Hv Hr Hs HB Rd m. destruct (sl_grain _ _ _ _ Sl) as (b & p & g & P).
  pose proof P as [P1 P2 (P3 & P4 & P5) _ P6].
  assert (Hg : 0 <= pair_grains key n) by (rewrite <- P6; apply u32_range).
  destruct (retrieve_and_compare_ok clock (shard_of k) k.(hp) b p g (pair_at (cache_of k) x) key n cnt
    c.(Queues.key) klen latest vlen ro for_del B (so_dev _ _ S) P2 P3 ltac:(zlia) P4 (slot_pair _ _ _ _ Ho Sl) Hl Hv Hr Hs HB)
    as (t & s' & F & R & Ht & E).
  pose proof (same_key_names c klen ukey key N) as K.
  assert (Em : compare_cost (Queues.key c) klen key = m).
  { unfold compare_cost, m. destruct (decide (same_key _ _ _)), (decide (key = ukey)); tauto. }
  rewrite Em in *. apply same_flash_calm in F. exists t, s'. split; [done|]. split.
  { apply sound_shard; [|done|done]. apply (sound_mono _ _ _ S). assert (1 <= m) by (unfold m; destruct (decide _); lia). unfold NAND_MAX. lia. }
  split; [done|]. rewrite P1, E. clear E Em.
  destruct (decide (same_key _ _ _)) as [D|D], (decide (key = ukey)) as [D'|D']; try tauto.
  destruct (Rd D') as [-> |Rd']; [by rewrite orb_true_r|]. destruct (_ <=? 4096) eqn:E4; [done|].
  cbn [orb]. destruct for_del; [done|]. rewrite (proj2 (Z.leb_le _ _)); [done|].
  by apply (readable_fits _ _ _ _ _ _ _ _ _ P).
Qed.

(** Room in DRAM for [r] sections more than there are, or for the whole table. *)
Definition roomy (k : kv) (r : Z) : Prop :=
  GRAIN_PER_PAGE * (cache_of k).(nr_valid_tpages) < (cache_of k).(max_cached_tentries) \/
  cached_now k + GRAIN_PER_PAGE * r < (cache_of k).(max_cached_tentries).

(** A round of a loop brings a section into DRAM. *)
Lemma roomy_next k k' r r' : roomy k r -> still k k' -> cached_now k' <= cached_now k + GRAIN_PER_PAGE * (r - r') -> roomy k' r'.
Proof.
  clear CityHash64. unfold roomy. intros R S C. rewrite (sk_pages _ _ S), (sk_max _ _ S), GPP_val in *. destruct R; [by left|right; lia].
Qed.

Lemma roomy_free k r B : sound k B -> roomy k r -> 0 <= r -> cache_full (cache_of k) = false.
Proof.
  clear CityHash64. intros S R Hr. destruct (so_cache _ _ S) as (F & V & I). pose proof (cached_bound _ _ _ _ I).
  unfold roomy, cached_now in R. unfold cache_full.
  rewrite (ci_count _ _ _ _ I), GPP_val in *. rewrite Z.geb_leb. apply Z.leb_gt. lia.
Qed.

(** Making room, credits and the clock: no section has to be evicted, and the
    credits do not run out or the device is far from full. *)
Definition credits_left (k : kv) (credits : Z) : Prop :=
  0 < i32 (u32 ((shard_of k).(wfc).(write_credits) - credits)) \/ should_gc_high (shard_of k) = false.

Definition unhindered (k : kv) (credits : Z) : Prop := roomy k 0 /\ credits_left k credits.

Lemma settle_ok k latest credits B : sound k B -> 0 <= latest <= B -> unhindered k credits ->
  exists t k', settle clock k latest credits = Ok (t, k') /\ still k k' /\ sound k' B /\ latest <= t <= B /\
    (quiet k -> quiet k') /\ k'.(leftover_credits) = k.(leftover_credits) /\ cached_now k' = cached_now k.
Proof.
  intros S Hl [Rm C]. pose proof (roomy_free k 0 B S Rm ltac:(lia)) as Nf.
  unfold settle. cbn [make_room]. rewrite Nf. cbn [mbind result_mbind result_bind].
  set (s1 := consume_write_credit (shard_of k) credits).
  assert (Ck : check_and_refill_write_credit s1 = Ok tt).
  { unfold check_and_refill_write_credit, s1. cbn [consume_write_credit set_wfc wfc write_credits].
    destruct C as [C|C]; [by rewrite (proj2 (Z.leb_gt _ _))|].
    change (should_gc_high (consume_write_credit (shard_of k) credits)) with (should_gc_high (shard_of k)). rewrite C. by case_cmp. }
  change (shard_of (set_shard k s1)) with s1. rewrite Ck.
  cbn [mbind result_mbind result_bind]. unfold wallclock, __get_ioclock.
  eexists _, _. split; [reflexivity|].
  assert (Cm : calm (shard_of k) (set_sd s1 (tick s1.(sd)))).
  { transitivity s1; [apply calm_consume|]. by apply same_flash_calm. }
  split; [by split|]. split.
  - apply (sound_shard k _ _ S Cm). cbn. destruct (so_dev _ _ S) as [[] ? ? ?]. by split.
  - split; [|done]. pose proof (clock_ok _ _ S (ticks (sd s1))). change (shard_of (set_shard k s1)) with s1. lia.
Qed.

(** From the lock of a section to the entry, for an entry that holds a pair. *)
Lemma compare_visit_ok k x key n latest B : sound k B -> quiet k -> 0 <= x < (cache_of k).(nr_valid_tentries) ->
  slot_holds k x key n -> 0 <= latest <= B -> B < 2 ^ 62 ->
  exists c t k', cache_get_ht (cache_of k) x = Ok (IDX x, c) /\ section c (IDX x) = Ok (c.(ht) (IDX x)) /\
    (c.(ht) (IDX x)).(t_ppa) <> UINT_MAX /\
    ensure_cached clock (set_cache k c) (IDX x) false latest = Ok (t, k') /\
    still k k' /\ sound k' (B + NAND_MAX) /\ busy k' (IDX x) /\ latest <= t <= B + NAND_MAX /\
    entry_of k' (IDX x) x = Ok (table (cache_of k') x, pair_at (cache_of k') x) /\ slot_holds k' x key n /\
    cached_now k' <= cached_now k + GRAIN_PER_PAGE.
Proof.
  intros S Q Hx Sl Hl HB. pose proof (IDX_range _ _ _ S Hx) as Hi.
  destruct (get_ht_ok k x B S Hx Q) as (c & E & St & S1 & Bz). pose proof (so_mapped _ _ S x Hx (sl_mapped _ _ _ _ Sl)) as Ht.
  assert (Hi1 : 0 <= IDX x < (cache_of (set_cache k c)).(nr_valid_tpages)) by (by rewrite (sk_pages _ _ St)).
  assert (Ht1 : (c.(ht) (IDX x)).(t_ppa) <> UINT_MAX).
  { pose proof (sk_open _ _ St (IDX x)) as X. cbn in X. by rewrite X. }
  destruct (ensure_cached_ok (set_cache k c) (IDX x) latest B S1 Hi1 Ht1 Hl HB) as (t & k' & E' & St' & S' & Ht' & Hh & O & Gr).
  assert (Ec : cached_now (set_cache k c) = cached_now k) by (by apply (get_ht_count k x c (IDX x))).
  rewrite Ec in Gr. assert (St2 : still k k') by (by etransitivity).
  exists c, t, k'. split; [done|]. split; [by apply section_ok|]. do 2 (split; [done|]). do 2 (split; [done|]).
  split.
  { intros j Hj. rewrite O. apply Bz. by rewrite <- (sk_pages _ _ St'). }
  split; [done|]. split; [|split; [by apply (still_slot _ _ _ _ _ St2)|done]].
  apply (table_entry_ok _ _ _ S'); [by rewrite (sk_entries _ _ St2)|done].
Qed.

(** ** Retrieve *)

(** What a retrieve of [vlen] bytes from [ro] on answers for a value of [n]
    bytes at [a]. *)
Definition retrieve_answer (c : nvme_command) (a n vlen ro : Z) : nvme_command * Z :=
  let c := set_rsvd (set_value_len c n) (a + ro) in
  if negb (ro =? 0) then (set_value_len c (if ro + vlen <=? n then vlen else n - ro), NVME_SC_SUCCESS)
  else if vlen <? n then (set_rsvd c U64_MAX, KV_ERR_BUFFER_SMALL)
  else (c, NVME_SC_SUCCESS).

Lemma retrieve_found_ok k c i x glen key n vlen ro : heap_ok k.(hp) -> slot_holds k x key n ->
  0 <= vlen -> 0 <= ro -> ro + vlen < 2 ^ 31 ->
  retrieve_found k c i x (table (cache_of k) x) glen (pair_at (cache_of k) x) n vlen ro false =
  Ok (k, (retrieve_answer c (value_at k x key) n vlen ro).1, (retrieve_answer c (value_at k x key) n vlen ro).2).
Proof.
  intros Ho Sl Hv Hr Hs. destruct (slot_pair _ _ _ _ Ho Sl) as (Hm & Hh & sz & Hb & Hsz).
  pose proof (sl_key _ _ _ _ Sl) as K. change (2 ^ 31) with 2147483648 in Hs.
  unfold retrieve_found. rewrite (klen_ok _ _ _ _ _ Hh Hb Hm Hsz). cbn [mbind result_mbind result_bind].
  unfold header_size in *. rewrite (u32_small (ro + _)) by lia.
  replace (ro + (1 + Z.of_nat (length key) + 4) - (1 + Z.of_nat (length key) + 4)) with ro by lia.
  rewrite !(u32_small ro), (u32_small (ro + vlen)) by lia. unfold retrieve_answer, value_at, header_size.
  replace (pair_at (cache_of k) x + (ro + (1 + Z.of_nat (length key) + 4))) with
    (pair_at (cache_of k) x + (1 + Z.of_nat (length key) + 4) + ro) by lia.
  destruct (ro =? 0); cbn [negb]; [by destruct (vlen <? n)|by destruct (_ <=? n)].
Qed.

Lemma read_latency_ok k vlen B : sound k B -> 0 <= read_latency (sp_of (shard_of k)) vlen <= NAND_MAX.
Proof.
  intros S. destruct (so_fw _ _ S) as [[F1 F2] _]. change (2 ^ 20) with 1048576 in *. unfold read_latency, NAND_MAX.
  case_cmp; lia.
Qed.

(** One round of the loop, at an entry that holds a pair. *)
Lemma retrieve_step fuel k key key' n m x len c klen vlen ro start latest l (for_del : bool) B :
  sound k B -> quiet k -> heap_ok k.(hp) -> 0 <= x < (cache_of k).(nr_valid_tentries) -> slot_holds k x key' len ->
  get_hash_idx (cache_of k) (mk_hash (key_hash key) n l) = Ok (mk_hash (key_hash key) m x) ->
  0 <= m <= k.(max_try) -> k.(max_try) <= 90000 -> names_key c klen key ->
  0 <= vlen -> 0 <= ro -> ro + vlen < 2 ^ 31 -> (key' = key -> for_del = true \/ readable len vlen ro) ->
  0 <= latest <= B -> B + NAND_MAX * 2100 < 2 ^ 62 ->
  let cost := if decide (key' = key) then 2100 else 3 in
  exists t k', retrieve_loop clock (S fuel) k c (mk_hash (key_hash key) n l) klen vlen ro start latest for_del =
      (if decide (key' = key) then
         '(k, c, status) ← retrieve_found k' c (IDX x) x (table (cache_of k') x) (pair_grains key' len)
                             (pair_at (cache_of k') x) len vlen ro for_del;
         Ok (k, c, status, t, RELEASE_MAP (IDX x))
       else retrieve_loop clock fuel k' c (mk_hash (key_hash key) (m + 1) x) klen vlen ro start t for_del) /\
    still k k' /\ sound k' (B + NAND_MAX * cost) /\
    (if decide (key' = key) then busy k' (IDX x) /\ cache_hit ((cache_of k').(ht) (IDX x)) = true else quiet k') /\
    latest <= t <= B + NAND_MAX * cost.
Proof.
  intros S Q Ho Hx Sl E Hm Hmt Nk Hv Hr Hs Rd Hl HB cost. pose proof (IDX_range _ _ _ S Hx) as Hi.
  change (2 ^ 62) with 4611686018427387904 in HB. assert (HN : NAND_MAX = 35184372088832) by reflexivity.
  destruct (compare_visit_ok k x key' len latest B S Q Hx Sl Hl) as (cc & t1 & k1 & E1 & E2 & Ht & E3 & St & S1 & Bz & Ht1 & E4 & Sl1 & _);
    [change (2 ^ 62) with 4611686018427387904; lia|].
  cbn [retrieve_loop]. rewrite E. cbn [mbind result_mbind result_bind hash cnt lpa]. rewrite E1.
  cbn [mbind result_mbind result_bind]. change (cache_of (set_cache k cc)) with cc. rewrite E2.
  cbn [mbind result_mbind result_bind]. change (max_try (set_cache k cc)) with (max_try k).
  rewrite Z.gtb_ltb, (proj2 (Z.ltb_ge _ _)), (proj2 (Z.eqb_neq _ _) Ht) by lia. rewrite E3.
  cbn [mbind result_mbind result_bind]. rewrite E4. cbn [mbind result_mbind result_bind].
  rewrite (proj2 (Z.eqb_neq _ _) (sl_mapped _ _ _ _ Sl1)). rewrite (slot_glen _ _ _ _ _ S1 Sl1).
  cbn [mbind result_mbind result_bind]. rewrite <- (sk_heap _ _ St) in Ho.
  rewrite (slot_vlen _ _ _ _ Ho Sl1). cbn [mbind result_mbind result_bind].
  destruct (compare_slot k1 x key' len c klen key t1 vlen ro for_del m (B + NAND_MAX) S1 Ho Sl1 Nk) as (t2 & s2 & C2 & S2 & Ht2 & E5);
    [lia|done|done|done|change (2 ^ 62) with 4611686018427387904; lia|by auto|].
  change __key_match with false. rewrite E5. clear E5.
  assert (St2 : still k (set_shard k1 s2)) by (etransitivity; [exact St|by apply still_shard]).
  assert (Bz2 : busy (set_shard k1 s2) (IDX x)) by exact Bz.
  destruct (decide (key' = key)) as [->|Nkey]; cbn [mbind result_mbind result_bind] in *.
  - exists (Z.max t1 t2), (set_shard k1 s2). split; [done|]. split; [done|].
    split; [apply (sound_mono _ _ _ S2); unfold cost; lia|]. split; [|unfold cost; lia].
    split; [done|by apply (entry_hit k1 _ x _ E4)].
  - destruct (unlock_ok (set_shard k1 s2) (IDX x) _ S2) as (k3 & -> & St3 & S3 & Q3 & _);
      [by rewrite (sk_pages _ _ St2)|done|]. cbn [mbind result_mbind result_bind hash lpa].
    rewrite (i32_small (m + 1)) by lia. pose proof (read_latency_ok k vlen B S) as RL.
    set (rl := read_latency _ _) in *. rewrite (u64_small (Z.max t1 t2 + rl)) by lia.
    exists (Z.max t1 t2 + rl), k3. split; [done|]. split; [by etransitivity|].
    split; [apply (sound_mono _ _ _ S3); unfold cost; lia|]. split; [done|unfold cost; lia].
Qed.

(** The loop gets to the entry of the key. *)
Lemma retrieve_reach k0 D B0 key n m x len c klen vlen ro start (for_del : bool) :
  represents k0 D -> sound k0 B0 -> leads k0 key n m x -> 0 <= n <= k0.(max_try) + 1 -> m <= k0.(max_try) ->
  0 <= x < (cache_of k0).(nr_valid_tentries) -> slot_holds k0 x key len -> names_key c klen key ->
  0 <= vlen -> 0 <= ro -> ro + vlen < 2 ^ 31 -> for_del = true \/ readable len vlen ro ->
  forall fuel k l latest B, still k0 k -> sound k B -> quiet k -> 0 <= latest <= B ->
  B + NAND_MAX * (3 * (m - n) + 2100) < 2 ^ 62 -> m - n < Z.of_nat fuel ->
  exists t k', retrieve_loop clock fuel k c (mk_hash (key_hash key) n l) klen vlen ro start latest for_del =
      ('(k, c, status) ← retrieve_found k' c (IDX x) x (table (cache_of k') x) (pair_grains key len)
                           (pair_at (cache_of k') x) len vlen ro for_del;
       Ok (k, c, status, t, RELEASE_MAP (IDX x))) /\
    still k0 k' /\ sound k' (B + NAND_MAX * (3 * (m - n) + 2100)) /\ busy k' (IDX x) /\
    cache_hit ((cache_of k').(ht) (IDX x)) = true /\ latest <= t <= B + NAND_MAX * (3 * (m - n) + 2100).
Proof.
  intros R S0 L. revert S0. induction L as [n m x E|n m x key' l m' x' E Hx Hs Ne Hm _ IH];
    intros S0 Hn Hmt Hx' Sl Nk Hv Hr Hsum Rd [|fuel] k l0 latest B St S Q Hl HB Hf.
  all: assert (Hnm : n <= m) by (destruct (probe_next _ _ _ _ _ R Hn E) as (_ & P & _); cbn in P; lia).
  all: cbn in Hf; try lia.
  all: destruct (rp_tries _ _ R) as [T _]; rewrite <- (sk_tries _ _ St) in Hmt, T.
  all: rewrite <- (still_probe _ _ _ St), <- (probe_any k key n l0) in E.
  all: pose proof (rp_heap _ _ R) as Ho; rewrite <- (sk_heap _ _ St) in Ho.
  - rewrite <- (sk_entries _ _ St) in Hx'. pose proof (IDX_range _ _ _ S Hx') as Hi.
    assert (Hi0 : 0 <= IDX x < (cache_of k0).(nr_valid_tpages)) by (by rewrite <- (sk_pages _ _ St)).
    apply (still_slot _ _ _ _ _ St Hi0) in Sl.
    destruct (retrieve_step fuel k key key n m x len c klen vlen ro start latest l0 for_del B S Q Ho Hx' Sl E)
      as (t & k' & E' & St' & S' & Bz & Ht); try (unfold NAND_MAX in *; lia); auto.
    destruct (decide (key = key)) as [_|X]; [|done]. exists t, k'. split; [exact E'|]. split; [by etransitivity|].
    split; [apply (sound_mono _ _ _ S'); unfold NAND_MAX; lia|]. split; [apply Bz|]. split; [apply Bz|]. unfold NAND_MAX in *; lia.
  - pose proof (IDX_range _ _ _ S0 Hx) as Hi0. assert (Hx2 := Hx). rewrite <- (sk_entries _ _ St) in Hx2.
    apply (still_slot _ _ _ _ _ St Hi0) in Hs.
    destruct (retrieve_step fuel k key key' n m x l c klen vlen ro start latest l0 for_del B S Q Ho Hx2 Hs E)
      as (t & k' & E' & St' & S' & Q' & Ht); try done; try (unfold NAND_MAX in *; lia).
    destruct (decide (key' = key)) as [X|_]; [done|]. rewrite E'. assert (St2 : still k0 k') by (by etransitivity).
    rewrite (sk_tries _ _ St) in *.
    destruct (IH S0 ltac:(lia) Hmt Hx' Sl Nk Hv Hr Hsum Rd fuel k' x t (B + NAND_MAX * 3)) as (t2 & k2 & E2 & St3 & S3 & Bz & Hh & Ht2);
      try done; try (unfold NAND_MAX in *; lia).
    exists t2, k2. split; [exact E2|]. split; [done|].
    split; [apply (sound_mono _ _ _ S3); unfold NAND_MAX; lia|]. split; [done|]. split; [done|]. unfold NAND_MAX in *; lia.
Qed.

Lemma retrieve_loop_ok k0 D B0 key n m x len c klen vlen ro start :
  represents k0 D -> sound k0 B0 -> leads k0 key n m x -> 0 <= n <= k0.(max_try) + 1 -> m <= k0.(max_try) ->
  0 <= x < (cache_of k0).(nr_valid_tentries) -> slot_holds k0 x key len -> names_key c klen key ->
  0 <= vlen -> 0 <= ro -> ro + vlen < 2 ^ 31 -> readable len vlen ro ->
  forall fuel k l latest B, still k0 k -> sound k B -> quiet k -> 0 <= latest <= B ->
  B + NAND_MAX * (3 * (m - n) + 2100) < 2 ^ 62 -> m - n < Z.of_nat fuel ->
  exists t k', retrieve_loop clock fuel k c (mk_hash (key_hash key) n l) klen vlen ro start latest false =
      Ok (k', (retrieve_answer c (value_at k0 x key) len vlen ro).1, (retrieve_answer c (value_at k0 x key) len vlen ro).2,
          t, RELEASE_MAP (IDX x)) /\
    still k0 k' /\ sound k' (B + NAND_MAX * (3 * (m - n) + 2100)) /\ busy k' (IDX x) /\
    latest <= t <= B + NAND_MAX * (3 * (m - n) + 2100).
Proof.
  intros R S0 L Hn Hmt Hx Sl Nk Hv Hr Hs Rd fuel k l latest B St S Q Hl HB Hf.
  destruct (retrieve_reach k0 D B0 key n m x len c klen vlen ro start false R S0 L Hn Hmt Hx Sl Nk Hv Hr Hs (or_intror Rd)
    fuel k l latest B St S Q Hl HB Hf) as (t & k' & -> & St' & S' & Bz & _ & Ht).
  pose proof (IDX_range _ _ _ S0 Hx) as Hi. exists t, k'. split; [|done].
  rewrite (retrieve_found_ok k' c (IDX x) x _ key); [|rewrite (sk_heap _ _ St'); apply R|by apply (still_slot _ _ _ _ _ St')|done..].
  cbn [mbind result_mbind result_bind]. unfold value_at. by rewrite (proj2 (sk_table _ _ St' x Hi)).
Qed.

(** A callback gives a locked section free. *)
Lemma release_ok k i B : sound k B -> 0 <= i < (cache_of k).(nr_valid_tpages) -> busy k i ->
  exists k', run_callback k (RELEASE_MAP i) = Ok k' /\ still k k' /\ sound k' B /\ quiet k'.
Proof.
  intros S Hi Q. cbn [run_callback]. unfold __release_map. rewrite section_ok by done. cbn [mbind result_mbind result_bind].
  eexists. split; [done|]. split; [apply still_lock|]. split; [by apply sound_lock|].
  intros j Hj. cbn. rewrite upd_case. pose proof (Q i Hi) as Qi. rewrite Z.eqb_refl in Qi.
  destruct (Z.eqb_spec j i) as [->|]; [by cbn; rewrite Qi|]. rewrite (Q j Hj). by rewrite (proj2 (Z.eqb_neq j i)).
Qed.

(** No append buffer has the key. *)
Definition not_buffered (k : kv) (c : nvme_command) (klen : Z) : Prop :=
  forall need, (__get_append_buf k.(ab) c.(Queues.key) klen need).1 = UINT_MAX.

(** A command of the key-value set that names [key]. *)
Record kv_command (c : nvme_command) (key : list Z) : Prop := {
  kc_names : names_key c (u8 (cmd_key_length c)) key;
  kc_length : 0 < Z.of_nat (length key) <= 16
}.

Definition retrieve_cost (k : kv) : Z := NAND_MAX * (3 * k.(max_try) + 2101).

Lemma wallclock_ok k t B : sound k B -> 0 <= t <= B ->
  exists t' k', wallclock clock k t = (t', k') /\ still k k' /\ sound k' B /\ t <= t' <= B /\
    cache_of k' = cache_of k.
Proof.
  intros S Ht. unfold wallclock, __get_ioclock. eexists _, _. split; [done|].
  assert (C : calm (shard_of k) (set_sd (shard_of k) (tick (sd (shard_of k))))) by (by apply same_flash_calm).
  split; [by apply still_shard|]. split; [apply (sound_shard _ _ _ S C); cbn; by destruct (so_dev _ _ S) as [[] ? ? ?]|].
  pose proof (clock_ok _ _ S (ticks (sd (shard_of k)))). split; [lia|done].
Qed.

End directory.
