(* ===== verification/Lookup.v ===== *)
(** * Retrieving and deleting ([demand_ftl.c])

    The commands of [Kv.v] that look a key up, on a device that represents a
    map ([Directory.v]). *)

From stdpp Require Import gmap.
From S2P Require Import Prelude Fifo Lru Append WorkQueue Queues Prp.
From S2P Require Import ChModel Ssd Geometry PQueue Line Lines Pages Place Cache Heap Pairs Kv Directory.

Section lookup.
Context `{AllocatorLaws} (CityHash64 : list Z -> Z) (clock : nat -> Z).

(** What every retrieve does before it looks into the table. *)
Lemma retrieve_begin k c key start vlen (for_del : bool) B :
  sound clock k B -> kv_command c key -> cmd_value_length c = Ok vlen -> c.(Queues.offset) mod 4 = 0 ->
  not_buffered k c (u8 (cmd_key_length c)) -> unhindered k k.(leftover_credits) ->
  0 <= start <= B -> B + NAND_MAX < 2 ^ 62 ->
  let st := start + read_latency (sp_of (shard_of k)) vlen in
  exists t k', still k k' /\ sound clock k' (B + NAND_MAX) /\ st <= t <= B + NAND_MAX /\ (quiet k -> quiet k') /\
    __retrieve CityHash64 clock k c start for_del =
      ('(k, c, status, latest, cb) ←
         retrieve_loop clock (retrieve_fuel k') k' c (mk_hash (key_hash CityHash64 key) 0 0) (u8 (cmd_key_length c)) vlen
           c.(Queues.offset) st t for_del;
       let '(latest, k) := wallclock clock k latest in Ok (k, c, mk_ret status latest cb)).
Proof.
  intros S [[Nl Nk] Lk] Ev Ho Nb Cr Hs HB st. pose proof (read_latency_ok clock k vlen B S) as RL. fold st in RL.
  change (2 ^ 62) with 4611686018427387904 in HB. assert (HN : NAND_MAX = 35184372088832) by reflexivity.
  assert (S1 : sound clock (set_leftover k 0) (B + NAND_MAX)) by (apply (sound_mono clock _ B); [by destruct S|lia]).
  destruct (settle_ok clock (set_leftover k 0) st k.(leftover_credits) (B + NAND_MAX) S1) as (t & k' & E & St & S' & Ht & Q & _);
    [unfold st in *; lia|exact Cr|].
  exists t, k'. assert (St' : still k k') by (etransitivity; [|exact St]; by split).
  split; [done|]. split; [done|]. split; [done|]. split; [exact Q|].
  unfold __retrieve. rewrite Ev. cbn [mbind result_mbind result_bind]. rewrite Ho, Z.eqb_refl.
  cbn [assert_ mbind result_mbind result_bind]. rewrite Nl, (proj2 (Z.leb_le _ 16)) by lia.
  cbn [assert_ mbind result_mbind result_bind]. rewrite <- Nl.
  destruct (__get_append_buf _ _ _ _) as [buf new] eqn:Eb.
  assert (buf = UINT_MAX) as -> by (change buf with (buf, new).1; rewrite <- Eb; apply Nb).
  rewrite Z.eqb_refl. cbn [negb]. fold st. rewrite (u64_small st) by (unfold st in *; lia). rewrite E.
  cbn [mbind result_mbind result_bind]. unfold cmd_key. rewrite Nl, Nat2Z.id, Nk. done.
Qed.

Lemma conv_read_ok k D c key start vlen a n B :
  represents CityHash64 k D -> sound clock k B -> quiet k -> kv_command c key -> cmd_value_length c = Ok vlen ->
  c.(Queues.offset) mod 4 = 0 -> 0 <= c.(Queues.offset) -> not_buffered k c (u8 (cmd_key_length c)) ->
  unhindered k k.(leftover_credits) -> D !! key = Some (a, n) -> 0 <= vlen -> c.(Queues.offset) + vlen < 2 ^ 31 ->
  readable n vlen c.(Queues.offset) -> 0 <= start <= B -> B + retrieve_cost k < 2 ^ 62 ->
  let ans := retrieve_answer c a n vlen c.(Queues.offset) in
  exists t i k1 k2, conv_read CityHash64 clock k c start = Ok (k1, ans.1, mk_ret ans.2 t (RELEASE_MAP i)) /\
    run_callback k1 (RELEASE_MAP i) = Ok k2 /\ still k k2 /\ represents CityHash64 k2 D /\
    sound clock k2 (B + retrieve_cost k) /\ quiet k2 /\
    start + read_latency (sp_of (shard_of k)) vlen <= t <= B + retrieve_cost k.
Proof.
  intros R S Q Kc Ev Ho Hr Nb Cr Hd Hv Hs Rd Hst HB ans. unfold retrieve_cost in *.
  destruct (rp_keys _ _ _ R key a n Hd) as (x & m & Hx & Sl & -> & L & Hm).
  destruct (rp_tries _ _ _ R) as [T _].
  change (2 ^ 62) with 4611686018427387904 in *. assert (HN : NAND_MAX = 35184372088832) by reflexivity.
  destruct (retrieve_begin k c key start vlen false B S Kc Ev Ho Nb Cr Hst) as (t0 & k0 & St0 & S0 & Ht0 & Q0 & E0);
    [change (2 ^ 62) with 4611686018427387904; lia|].
  unfold conv_read. rewrite E0. clear E0.
  destruct (retrieve_loop_ok CityHash64 clock k D B key 0 m x n c _ vlen c.(Queues.offset)
    (start + read_latency (sp_of (shard_of k)) vlen) R S L ltac:(lia) Hm Hx Sl (kc_names _ _ Kc) Hv Hr Hs Rd
    (retrieve_fuel k0) k0 0 t0 (B + NAND_MAX) St0 S0 (Q0 Q)) as (t1 & k1 & E1 & St1 & S1 & Bz & Ht1).
  { pose proof (read_latency_ok clock k vlen B S). lia. }
  { change (2 ^ 62) with 4611686018427387904; lia. }
  { unfold retrieve_fuel. rewrite (sk_tries _ _ St0). lia. }
  rewrite E1. cbn [mbind result_mbind result_bind]. fold ans.
  assert (M : forall k, sound clock k (B + NAND_MAX + NAND_MAX * (3 * (m - 0) + 2100)) ->
    sound clock k (B + NAND_MAX * (3 * max_try k0 + 2101))).
  { intros k' S'. apply (sound_mono clock _ _ _ S'). rewrite (sk_tries _ _ St0). lia. }
  rewrite (sk_tries _ _ St0) in M. apply M in S1.
  pose proof (read_latency_ok clock k vlen B S) as RL.
  destruct (wallclock_ok clock k1 t1 _ S1) as (t2 & k2 & -> & St2 & S2 & Ht2 & Ec); [lia|].
  assert (Hi : 0 <= IDX x < (cache_of k2).(nr_valid_tpages)).
  { rewrite Ec, (sk_pages _ _ St1). by apply (IDX_range clock _ _ B). }
  destruct (release_ok clock k2 (IDX x) _ S2 Hi) as (k3 & E3 & St3 & S3 & Q3).
  { intros j. rewrite Ec. apply Bz. }
  exists t2, (IDX x), k2, k3. split; [done|]. split; [done|].
  assert (St : still k k3) by (do 2 (etransitivity; [eassumption|]); done).
  split; [done|]. split; [by apply (still_represents CityHash64 clock k k3 D B)|]. split; [done|]. split; [done|]. lia.
Qed.

(** ** A key that is not there *)

(** How a command leaves the locks: all free, or one for the callback. *)
Definition held (k : kv) (cb : callback) : Prop :=
  (cb = NO_CB /\ quiet k) \/ exists i, cb = RELEASE_MAP i /\ 0 <= i < (cache_of k).(nr_valid_tpages) /\ busy k i.

Lemma held_released k cb B : sound clock k B -> held k cb ->
  exists k', run_callback k cb = Ok k' /\ still k k' /\ sound clock k' B /\ quiet k'.
Proof.
  intros S [[-> Q]|(i & -> & Hi & Bz)]; [by exists k|]. by apply (release_ok clock k i B).
Qed.

(** An entry that is not mapped ends the search. *)
Lemma retrieve_hole fuel k key n m x c klen vlen ro start latest l (for_del : bool) B :
  sound clock k B -> quiet k -> 0 <= x < (cache_of k).(nr_valid_tentries) -> table (cache_of k) x = UINT_MAX ->
  ((cache_of k).(ht) (IDX x)).(t_ppa) <> UINT_MAX ->
  get_hash_idx (cache_of k) (mk_hash (key_hash CityHash64 key) n l) = Ok (mk_hash (key_hash CityHash64 key) m x) ->
  m <= k.(max_try) -> 0 <= latest <= B -> B < 2 ^ 62 ->
  exists t k', retrieve_loop clock (S fuel) k c (mk_hash (key_hash CityHash64 key) n l) klen vlen ro start latest for_del =
      Ok (k', not_found c, KV_ERR_KEY_NOT_EXIST, t, NO_CB) /\
    still k k' /\ sound clock k' (B + NAND_MAX) /\ quiet k' /\ latest <= t <= B + NAND_MAX.
Proof.
  intros S Q Hx Hu Ht E Hm Hl HB. pose proof (IDX_range clock _ _ _ S Hx) as Hi.
  destruct (get_ht_ok clock k x B S Hx Q) as (cc & E1 & St1 & S1 & Bz). cbn [retrieve_loop]. rewrite E.
  cbn [mbind result_mbind result_bind lpa cnt hash]. rewrite E1. cbn [mbind result_mbind result_bind].
  set (k1 := set_cache k cc) in *.
  assert (Hi1 : 0 <= IDX x < (cache_of k1).(nr_valid_tpages)) by (by rewrite (sk_pages _ _ St1)).
  rewrite section_ok by done. cbn [mbind result_mbind result_bind].
  change (max_try k1) with (max_try k). rewrite Z.gtb_ltb, (proj2 (Z.ltb_ge _ _)) by lia.
  rewrite <- (sk_open _ _ St1) in Ht. rewrite (proj2 (Z.eqb_neq _ _) Ht).
  destruct (ensure_cached_ok clock k1 (IDX x) latest B S1 Hi1 Ht Hl) as (t & k2 & -> & St2 & S2 & Ht2 & Hh & O & _); [lia|].
  cbn [mbind result_mbind result_bind]. assert (St12 : still k k2) by (by etransitivity).
  rewrite (table_entry_ok clock k2 x _ S2); [|by rewrite (sk_entries _ _ St12)|done]. cbn [mbind result_mbind result_bind].
  rewrite (proj1 (sk_table _ _ St12 x Hi)), Hu, Z.eqb_refl.
  destruct (unlock_ok clock k2 (IDX x) _ S2) as (k3 & -> & St3 & S3 & Q3 & _).
  { by rewrite (sk_pages _ _ St12). }
  { intros j Hj. rewrite O. apply Bz. by rewrite <- (sk_pages _ _ St2). }
  cbn [mbind result_mbind result_bind]. exists t, k3. split; [done|]. split; [by etransitivity|]. by split.
Qed.

Lemma retrieve_absent_loop k0 D B0 key c klen vlen ro start (for_del : bool) :
  represents CityHash64 k0 D -> sound clock k0 B0 -> D !! key = None -> names_key c klen key ->
  0 <= vlen -> 0 <= ro -> ro + vlen < 2 ^ 31 ->
  forall fuel k n l latest B, still k0 k -> sound clock k B -> quiet k -> 0 <= n <= k0.(max_try) + 1 ->
  0 <= latest <= B -> B + NAND_MAX * (3 * (k0.(max_try) + 1 - n) + 2100) < 2 ^ 62 ->
  k0.(max_try) + 1 - n < Z.of_nat fuel ->
  exists t cb k', retrieve_loop clock fuel k c (mk_hash (key_hash CityHash64 key) n l) klen vlen ro start latest for_del =
      Ok (k', not_found c, KV_ERR_KEY_NOT_EXIST, t, cb) /\
    still k k' /\ sound clock k' (B + NAND_MAX * (3 * (k0.(max_try) + 1 - n) + 2100)) /\ held k' cb /\
    0 <= t <= B + NAND_MAX * (3 * (k0.(max_try) + 1 - n) + 2100).
Proof.
  intros R S0 Hd Nk Hv Hr Hs fuel. change (2 ^ 62) with 4611686018427387904. assert (HN : NAND_MAX = 35184372088832) by reflexivity.
  destruct (rp_tries _ _ _ R) as [T [T1 T2]]. change (2 ^ 31) with 2147483648 in T2.
  induction fuel as [|fuel IH]; intros k n l latest B St S Q Hn Hl HB Hf; [lia|].
  destruct (get_hash_idx_ok (cache_of k) (key_hash CityHash64 key) n l) as ([h m x] & E & F);
    [apply u32_range|lia|rewrite (sk_entries _ _ St); lia|].
  destruct F as (Eh & Hm & _ & Hx & _). cbn [hash cnt lpa] in *. subst h.
  assert (Hx0 : 0 <= x < (cache_of k).(nr_valid_tentries)) by (change EPP with 1024 in Hx; lia).
  pose proof (IDX_range clock _ _ _ S Hx0) as Hi.
  destruct (Z.ltb_spec k0.(max_try) m) as [Hmt|Hmt].
  { (* past the last collision *)
    destruct (get_ht_ok clock k x B S Hx0 Q) as (cc & E1 & St1 & S1 & Bz). cbn [retrieve_loop]. rewrite E.
    cbn [mbind result_mbind result_bind lpa cnt]. rewrite E1. cbn [mbind result_mbind result_bind].
    assert (Hi1 : 0 <= IDX x < (cache_of (set_cache k cc)).(nr_valid_tpages)) by (by rewrite (sk_pages _ _ St1)).
    rewrite section_ok by done. cbn [mbind result_mbind result_bind].
    change (max_try (set_cache k cc)) with (max_try k). rewrite (sk_tries _ _ St), (proj2 (Z.gtb_lt m _)) by done.
    assert (X : exists t k', (if latest =? start then wallclock clock (set_cache k cc) 0 else (latest, set_cache k cc)) = (t, k') /\
      still (set_cache k cc) k' /\ sound clock k' B /\ busy k' (IDX x) /\ 0 <= t <= B).
    { destruct (latest =? start); [|by exists latest, (set_cache k cc)].
      destruct (wallclock_ok clock (set_cache k cc) 0 B S1) as (t & k' & E2 & St2 & S2 & Ht2 & Ec); [lia|].
      exists t, k'. split; [done|]. split; [done|]. split; [done|]. split; [|done]. intros j. rewrite Ec. apply Bz. }
    destruct X as (t & k' & -> & St2 & S2 & Bz2 & Ht). exists t, (RELEASE_MAP (IDX x)), k'. split; [done|].
    split; [by etransitivity|]. split; [apply (sound_mono clock _ _ _ S2); lia|]. split; [|lia].
    right. exists (IDX x). split; [done|]. split; [by rewrite (sk_pages _ _ St2)|done]. }
  assert (Hi0 : 0 <= IDX x < (cache_of k0).(nr_valid_tpages)) by (by rewrite <- (sk_pages _ _ St)).
  destruct (Z.eq_dec (table (cache_of k) x) UINT_MAX) as [Hu|Hu].
  2:{ (* a pair with another key *)
    assert (Hu0 : table (cache_of k0) x <> UINT_MAX) by (by rewrite <- (proj1 (sk_table _ _ St x Hi0))).
    destruct (rp_slots _ _ _ R x) as (key' & len & m' & Sl & Hd' & _); [by rewrite <- (sk_entries _ _ St)|done|].
    assert (Ne : key' <> key) by (intros ->; congruence). apply (still_slot _ _ _ _ _ St Hi0) in Sl.
    destruct (retrieve_step CityHash64 clock fuel k key key' n m x len c klen vlen ro start latest l for_del B S Q) as (t & k' & E1 & St1 & S1 & Q1 & Ht);
      try done; [by rewrite (sk_heap _ _ St); apply R|rewrite (sk_tries _ _ St); lia|rewrite (sk_tries _ _ St); lia|change (2 ^ 62) with 4611686018427387904; lia|].
    destruct (decide (key' = key)) as [X|_]; [done|]. rewrite E1.
    destruct (IH k' (m + 1) x t (B + NAND_MAX * 3)) as (t2 & cb & k2 & -> & St2 & S2 & Hh & Ht2); try done; try lia.
    { by etransitivity. }
    exists t2, cb, k2. split; [done|]. split; [by etransitivity|]. split; [apply (sound_mono clock _ _ _ S2); lia|]. split; [done|lia]. }
  destruct (Z.eq_dec ((cache_of k).(ht) (IDX x)).(t_ppa) UINT_MAX) as [Ht|Ht].
  2:{ (* an entry that is not mapped *)
    destruct (retrieve_hole fuel k key n m x c klen vlen ro start latest l for_del B S Q Hx0 Hu Ht E)
      as (t & k' & -> & St' & S' & Q' & Ht'); [by rewrite (sk_tries _ _ St)|done|lia|].
    exists t, NO_CB, k'. split; [done|]. split; [done|]. split; [apply (sound_mono clock _ _ _ S'); lia|]. split; [by left|lia]. }
  (* a section that was never used *)
  destruct (get_ht_ok clock k x B S Hx0 Q) as (cc & E1 & St1 & S1 & Bz). cbn [retrieve_loop]. rewrite E.
  cbn [mbind result_mbind result_bind lpa cnt hash]. rewrite E1. cbn [mbind result_mbind result_bind].
  set (k1 := set_cache k cc) in *.
  assert (Hi1 : 0 <= IDX x < (cache_of k1).(nr_valid_tpages)) by (by rewrite (sk_pages _ _ St1)).
  rewrite section_ok by done. cbn [mbind result_mbind result_bind].
  change (max_try k1) with (max_try k). rewrite (sk_tries _ _ St), Z.gtb_ltb, (proj2 (Z.ltb_ge _ _)) by lia.
  rewrite (sk_open _ _ St1), Ht, Z.eqb_refl.
  destruct (unlock_ok clock k1 (IDX x) B S1 Hi1 Bz) as (k2 & -> & St2 & S2 & Q2 & _). cbn [mbind result_mbind result_bind].
  rewrite (i32_small (m + 1)) by lia.
  destruct (IH k2 (m + 1) x latest B) as (t2 & cb & k3 & -> & St3 & S3 & Hh & Ht2); try done; try lia.
  { do 2 (etransitivity; [eassumption|]). done. }
  exists t2, cb, k3. split; [done|]. split; [do 2 (etransitivity; [eassumption|]); done|].
  split; [apply (sound_mono clock _ _ _ S3); lia|]. split; [done|lia].
Qed.

(** A retrieve or delete of a key that is not in the map changes nothing. *)
Lemma retrieve_absent_ok k D c key start vlen (for_del : bool) B :
  represents CityHash64 k D -> sound clock k B -> quiet k -> kv_command c key -> cmd_value_length c = Ok vlen ->
  c.(Queues.offset) mod 4 = 0 -> 0 <= c.(Queues.offset) -> not_buffered k c (u8 (cmd_key_length c)) ->
  unhindered k k.(leftover_credits) -> D !! key = None -> 0 <= vlen -> c.(Queues.offset) + vlen < 2 ^ 31 ->
  0 <= start <= B -> B + NAND_MAX * (3 * k.(max_try) + 2104) < 2 ^ 62 ->
  exists t cb k1 k2, __retrieve CityHash64 clock k c start for_del =
      Ok (k1, not_found c, mk_ret KV_ERR_KEY_NOT_EXIST t cb) /\
    still k k1 /\ run_callback k1 cb = Ok k2 /\ still k k2 /\ represents CityHash64 k2 D /\
    sound clock k2 (B + NAND_MAX * (3 * k.(max_try) + 2104)) /\ quiet k2 /\
    0 <= t <= B + NAND_MAX * (3 * k.(max_try) + 2104).
Proof.
  intros R S Q Kc Ev Ho Hr Nb Cr Hd Hv Hs Hst HB. destruct (rp_tries _ _ _ R) as [T _].
  change (2 ^ 62) with 4611686018427387904 in *. assert (HN : NAND_MAX = 35184372088832) by reflexivity.
  destruct (retrieve_begin k c key start vlen for_del B S Kc Ev Ho Nb Cr Hst) as (t0 & k0 & St0 & S0 & Ht0 & Q0 & ->);
    [change (2 ^ 62) with 4611686018427387904; lia|].
  pose proof (read_latency_ok clock k vlen B S) as RL.
  destruct (retrieve_absent_loop k D B key c (u8 (cmd_key_length c)) vlen c.(Queues.offset)
    (start + read_latency (sp_of (shard_of k)) vlen) for_del R S Hd (kc_names _ _ Kc) Hv Hr Hs
    (retrieve_fuel k0) k0 0 0 t0 (B + NAND_MAX) St0 S0 (Q0 Q)) as (t1 & cb & k1 & -> & St1 & S1 & Hh & Ht1);
    [lia|lia|change (2 ^ 62) with 4611686018427387904; lia|unfold retrieve_fuel; rewrite (sk_tries _ _ St0); lia|].
  cbn [mbind result_mbind result_bind].
  destruct (wallclock_ok clock k1 t1 _ S1 ltac:(lia)) as (t2 & k2 & -> & St2 & S2 & Ht2 & Ec).
  assert (Hh2 : held k2 cb).
  { destruct Hh as [[-> Qh]|(i & -> & Hi & Bz)]; [left|right]; unfold quiet, busy in *; rewrite ?Ec; [done|]. by exists i; rewrite ?Ec. }
  destruct (held_released k2 cb _ S2 Hh2) as (k3 & E3 & St3 & S3 & Q3).
  assert (St : still k k2) by (do 2 (etransitivity; [eassumption|]); done).
  assert (Stk : still k k3) by (by etransitivity).
  exists t2, cb, k2, k3. split; [done|]. split; [done|]. split; [done|]. split; [done|].
  split; [by apply (still_represents CityHash64 clock k k3 D B)|].
  split; [apply (sound_mono clock _ _ _ S3); lia|]. split; [done|lia].
Qed.

End lookup.
