(* ===== verification/Opening.v ===== *)
(** * First uses ([demand_ftl.c])

    A store is the first to use a section of the table when the section has no
    page on flash yet: [open_section] takes one for it.  It is the first to use
    the line of the stores after set-up, when no page of it is open.  Neither
    changes what the device represents. *)

From stdpp Require Import gmap.
From S2P Require Import Prelude Fifo Lru Append WorkQueue Queues Prp.
From S2P Require Import ChModel Ssd Geometry PQueue Line Lines Pages Place Cache Heap Pairs Kv Directory.

Section opening.
Context `{AllocatorLaws} (CityHash64 : list Z -> Z) (clock : nat -> Z).

(** ** The same map elsewhere *)

(** The same entries are in use for the same pairs; their grains may differ. *)
Record relocated (k k' : kv) : Prop := {
  re_mapped : forall y, 0 <= y < (cache_of k).(nr_valid_tentries) ->
    table (cache_of k') y <> UINT_MAX -> table (cache_of k) y <> UINT_MAX;
  re_pairs : forall y, 0 <= y < (cache_of k).(nr_valid_tentries) -> pair_at (cache_of k') y = pair_at (cache_of k) y;
  re_entries : (cache_of k').(nr_valid_tentries) = (cache_of k).(nr_valid_tentries);
  re_heap : k'.(hp) = k.(hp);
  re_tries : k'.(max_try) = k.(max_try);
  re_slots : forall y key n, 0 <= y < (cache_of k).(nr_valid_tentries) -> slot_holds k y key n -> slot_holds k' y key n
}.

Lemma relocated_leads k k' key n m x : relocated k k' -> leads CityHash64 k key n m x -> leads CityHash64 k' key n m x.
Proof.
  intros R. assert (P : forall p, get_hash_idx (cache_of k') p = get_hash_idx (cache_of k) p).
  { intros p. unfold get_hash_idx. generalize probe_fuel p. clear p. intros fuel.
    induction fuel as [|fuel IH]; intros p; [done|]. cbn [get_hash_loop]. unfold probe. rewrite (re_entries _ _ R). by rewrite IH. }
  induction 1 as [n m x E|n m x key' l m' x' E Hx Hs Ne Hm _ IH].
  - apply leads_here. by rewrite P.
  - eapply leads_on; rewrite ?P, ?(re_entries _ _ R); try done. by apply (re_slots _ _ R).
Qed.

Lemma relocated_represents k k' D : relocated k k' -> represents CityHash64 k D -> represents CityHash64 k' D.
Proof.
  intros R [R1 R2 R3 R4].
  assert (V : forall x key, 0 <= x < (cache_of k).(nr_valid_tentries) -> value_at k' x key = value_at k x key).
  { intros x key Hx. unfold value_at. by rewrite (re_pairs _ _ R). }
  split; rewrite ?(re_entries _ _ R), ?(re_heap _ _ R), ?(re_tries _ _ R); try done.
  - intros x Hx Hm. apply (re_mapped _ _ R x Hx) in Hm.
    destruct (R3 x Hx Hm) as (key & n & m & A1 & A2 & A3 & A4). exists key, n, m. rewrite V by done.
    split; [by apply (re_slots _ _ R)|]. split; [done|]. split; [by apply (relocated_leads k)|done].
  - intros key a n Hk. destruct (R4 key a n Hk) as (x & m & A1 & A2 & A3 & A4 & A5). exists x, m. rewrite V by done.
    split; [done|]. split; [by apply (re_slots _ _ R)|]. split; [done|]. split; [by apply (relocated_leads k)|done].
Qed.

(** ** The first page of a section *)

Lemma first_page_ok s b n : next_free s MAP_IO b n -> n + 1 < (sp_of s).(pgs_per_line) -> index_of s b n <> 0 ->
  exists s', first_page 2 s = Ok (index_of s b n, s') /\ place_at s' MAP_IO b n GRAIN_PER_PAGE /\
    moves s s' MAP_IO b (8 * n) /\ timing_kept s s' /\ sp_of s' = sp_of s.
Proof.
  intros F Hn1 Hz. pose proof (sh_geom _ (nf_inv _ _ _ _ F)) as G. destruct (nf_wp _ _ _ _ F) as (_ & (Hb & _) & Hn).
  destruct (place_take s MAP_IO b n F Hn1) as (s1 & s2 & E & E1 & E2 & Es & U & T & M & _).
  destruct (line_page s b n G Hb Hn) as (_ & Hi & _ & E'). pose proof (mv_sp _ _ _ _ _ M) as Es2. pose proof (tt_pgs_small _ G).
  destruct (place_store_ok s2 MAP_IO b n 0 GRAIN_PER_PAGE U) as (s3 & E3 & U3 & S3 & T3 & M3 & _); [done|done|].
  pose proof (mv_sp _ _ _ _ _ M3) as Es3. exists s3. split; [|split; [exact U3|split; [|split; [by etransitivity|congruence]]]].
  - cbn [first_page]. rewrite E. cbn [mbind result_mbind result_bind]. rewrite E'. cbn [mbind result_mbind result_bind].
    rewrite E1. cbn [mbind result_mbind result_bind]. rewrite E2. cbn [mbind result_mbind result_bind].
    unfold PPA_TO_PGA. rewrite GPP_val in E3 |- *. rewrite u32_small by lia. rewrite Es2 in E3. rewrite E3.
    cbn [mbind result_mbind result_bind]. by rewrite (proj2 (Z.eqb_neq _ 0) Hz).
  - eapply moves_trans; [|exact M|exact M3]. lia.
Qed.

(** Section [i] has not been used, page [n] of the map line [b] is next. *)
Record fresh_section (k : kv) (i b n : Z) : Prop := {
  fh_ppa : ((cache_of k).(ht) i).(t_ppa) = UINT_MAX;
  fh_mem : ((cache_of k).(ht) i).(mem) = None;
  fh_next : next_free (shard_of k) MAP_IO b n;
  fh_room : n + 1 < (sp_of (shard_of k)).(pgs_per_line);
  fh_zero : index_of (shard_of k) b n <> 0
}.

(** Section [i] has got page [n] of line [b]; nothing else can be seen. *)
Record opened (k k' : kv) (i b n : Z) : Prop := {
  od_table : same_table (cache_of k) (cache_of k');
  od_pages : (cache_of k').(nr_valid_tpages) = (cache_of k).(nr_valid_tpages);
  od_entries : (cache_of k').(nr_valid_tentries) = (cache_of k).(nr_valid_tentries);
  od_max : (cache_of k').(max_cached_tentries) = (cache_of k).(max_cached_tentries);
  od_first : ((cache_of k').(ht) i).(t_ppa) = index_of (shard_of k) b n;
  od_other : forall j, j <> i -> ((cache_of k').(ht) j).(t_ppa) = ((cache_of k).(ht) j).(t_ppa);
  od_flash : moves (shard_of k) (shard_of k') MAP_IO b (8 * n);
  od_inv : shard_inv (shard_of k');
  od_tries : k'.(max_try) = k.(max_try);
  od_heap : k'.(hp) = k.(hp);
  od_bufs : k'.(ab) = k.(ab);
  od_cur : k'.(cur_page) = k.(cur_page);
  od_works : k'.(works) = k.(works)
}.

Lemma open_section_ok k i b n B : sound clock k B -> 0 <= i < (cache_of k).(nr_valid_tpages) -> fresh_section k i b n ->
  exists s x, open_section k i = Ok (set_cache (set_shard k s) (put (cache_of k) i x)) /\
    next_free s MAP_IO b (n + 1) /\ moves (shard_of k) s MAP_IO b (8 * n) /\ timing_kept (shard_of k) s /\
    x.(mem) = None /\ x.(t_ppa) = index_of (shard_of k) b n /\ x.(outgoing) = ((cache_of k).(ht) i).(outgoing) /\
    (exists F V, cache_inv (put (cache_of k) i x) k.(fl).(vb) F V) /\ same_table (cache_of k) (put (cache_of k) i x).
Proof.
  intros S Hi [Hp Hm Nx Hn Hz]. destruct (so_cache _ _ _ S) as (F & V & I). pose proof (sound_geom clock _ _ S) as G.
  destruct (nf_wp _ _ _ _ Nx) as (_ & (Hb & _) & Hn0). destruct (first_page_ok _ b n Nx Hn Hz) as (s & E & U & M & T & Es).
  unfold open_section. rewrite section_ok by done. cbn [mbind result_mbind result_bind]. rewrite E. cbn [mbind result_mbind result_bind].
  match goal with |- context [set_oob s ?o'] => set (o := o') end.
  match goal with |- context [put _ i ?x'] => set (x := x') end. exists (set_oob s o), x. split; [done|].
  split; [by apply place_next, place_oob|]. split.
  { eapply moves_trans; [reflexivity|exact M|]. rewrite <- (Z.add_0_r (8 * n)). apply moves_oob; rewrite ?Es; try done; [lia|lia|].
    intros y j Hj Hy. unfold o. rewrite upd_case. case_cmp; [|done]. specialize (Hy e). lia. }
  split; [exact T|]. split; [exact Hm|]. split; [done|]. split; [done|].
  assert (N : i ∉ F ++ V) by (intros X; apply (ci_mem _ _ _ _ I) in X as [m X]; congruence).
  pose proof (ci_section _ _ _ _ _ I Hi) as [C1 C2 C3 C4 C5 C6 C7].
  split; [|by apply same_table_put]. exists F, V. apply inv_put; [done|done|]. split; try done.
  - intros X. change (is_Some (mem (ht (cache_of k) i))) in X. rewrite Hm in X. by destruct X.
  - intros X. destruct N. apply elem_of_app. by left.
  - intros X. destruct N. apply elem_of_app. by right.
Qed.

(** The section is opened and brought into DRAM. *)
Lemma open_ok k i b n latest B : sound clock k B -> 0 <= i < (cache_of k).(nr_valid_tpages) -> fresh_section k i b n -> 0 <= latest ->
  exists k1 k2, open_section k i = Ok k1 /\ ensure_cached clock k1 i true latest = Ok (latest, k2) /\ opened k k2 i b n /\
    sound clock k2 B /\ cache_hit ((cache_of k2).(ht) i) = true /\
    (forall j, ((cache_of k2).(ht) j).(outgoing) = ((cache_of k).(ht) j).(outgoing)) /\ next_free (shard_of k2) MAP_IO b (n + 1).
Proof.
  intros S Hi Fr Hl. destruct (open_section_ok k i b n B S Hi Fr) as (s & x & E & Nx & M & T & Xm & Xp & Xo & (F & V & I) & Tb).
  destruct Fr as [Hp Hm Nx0 Hn Hz]. set (k1 := set_cache _ _) in E. pose proof (sound_geom clock _ _ S) as G.
  destruct (nf_wp _ _ _ _ Nx0) as (_ & (Hb & _) & Hn0). destruct (line_page _ b n G Hb Hn0) as (_ & Hx & _). pose proof (tt_pgs_small _ G).
  pose proof (mv_sp _ _ _ _ _ M) as Es. assert (Ei : ht (cache_of k1) i = x) by (cbn; by rewrite upd_eq).
  assert (N : i ∉ F ++ V) by (intros X; apply (ci_mem _ _ _ _ I) in X as [m X]; cbn in X; rewrite upd_eq in X; congruence).
  assert (L : (length F < FIFO_CAPACITY)%nat).
  { pose proof (ci_nodup _ _ _ _ I) as ND. pose proof (so_fifo _ _ _ S).
    assert (Hr : forall j, j ∈ i :: F -> 0 <= j < (cache_of k).(nr_valid_tpages)).
    { intros j [->|Hj]%elem_of_cons; [done|]. apply (ci_range _ _ _ _ I), elem_of_app. by left. }
    apply NoDup_app in ND as (ND & _). apply range_length in Hr; [cbn in Hr; lia|lia|].
    apply NoDup_cons. split; [|done]. intros X. apply N, elem_of_app. by left. }
  destruct (get_one_ok clock k1.(fl) F V i true latest B I Hi N L) as (t & f & E2 & Ld & _ & -> & Ef);
    [change (geom (sp_of s)); by rewrite Es|change (mem (ht (cache_of k1) i) = None); by rewrite Ei|].
  destruct Ld as [L1 L2 L3 L4 (L5 & L6 & L7 & L8 & L9 & L10) L11].
  exists k1, (set_fl k1 f). split; [done|]. split.
  { unfold ensure_cached. rewrite section_ok by done. cbn [mbind result_mbind result_bind]. rewrite Ei.
    assert (Ec : cache_hit x = false).
    { destruct (cache_hit x) eqn:Ec; [|done]. destruct N. apply (ci_cached _ _ _ _ I i Hi). cbn. by rewrite upd_eq. }
    rewrite Ec, E2. cbn [mbind result_mbind result_bind]. rewrite section_ok by (by rewrite L8). cbn [mbind result_mbind result_bind].
    rewrite L3. by rewrite Z.max_l by lia. }
  change (cache_of (set_fl k1 f)) with (ca f). change (shard_of (set_fl k1 f)) with (sh f). rewrite Ef.
  change (sh (fl k1)) with s. assert (Tp : forall j, ((ca f).(ht) j).(t_ppa) = if j =? i then index_of (shard_of k) b n else ((cache_of k).(ht) j).(t_ppa)).
  { intros j. rewrite (proj2 (L4 j)). cbn. rewrite upd_case. by case_cmp. }
  assert (Tbl : same_table (cache_of k) (ca f)) by (apply (same_table_trans _ (cache_of k1)); [done|exact Tb|exact L2]).
  split; [|split; [|split; [exact L3|split; [|exact Nx]]]].
  - split; try done.
    + by rewrite Tp, Z.eqb_refl.
    + intros j Hj. by rewrite Tp, (proj2 (Z.eqb_neq j i)).
    + change (shard_of (set_fl k1 f)) with (sh f). by rewrite Ef.
    + change (shard_of (set_fl k1 f)) with (sh f). rewrite Ef. apply Nx.
  - pose proof S as [S1 S2 S3 S5 S6 S7 S8]. assert (E3 : shard_of (set_fl k1 f) = s) by exact Ef.
    split; rewrite ?E3; change (cache_of (set_fl k1 f)) with (ca f); rewrite ?L8, ?L9, ?L10, ?Es; try done.
    + by eexists _, _.
    + intros j Hj. rewrite Tp. destruct (Z.eqb_spec j i) as [->|Nj].
      { intros _. split; [|done]. apply (ci_mem _ _ _ _ L1), elem_of_app. left. apply elem_of_app. right. by constructor. }
      intros Hj'. destruct (S5 j Hj Hj') as [Y Z]. split; [|done]. rewrite L11 by done. cbn. by rewrite upd_ne.
    + intros y Hy. rewrite (proj1 (Tbl y (IDX_range clock k y B S Hy))), Tp.
      case_cmp; [unfold UINT_MAX; lia|by apply S6].
    + apply (nand_ready_kept clock (shard_of k).(sd)); [done|apply Nx|exact T].
  - intros j. rewrite (proj1 (L4 j)). cbn. rewrite upd_case. by destruct (Z.eqb_spec j i) as [->|].
Qed.

(** ** What is the same *)

Lemma next_free_bits s t b n m i : next_free s t b n -> 0 <= m < (sp_of s).(pgs_per_line) -> 0 <= i < 8 -> 8 * n <= 8 * m + i ->
  bit s (index_of s b m * 8 + i) = false.
Proof. intros F Hm Hi Hx. rewrite <- GPP_val. apply (nf_bits _ _ _ _ F); rewrite ?GPP_val; lia. Qed.

Lemma opened_relocated k k' i b n B : sound clock k B -> next_free (shard_of k) MAP_IO b n -> opened k k' i b n -> relocated k k'.
Proof.
  intros S F O. assert (Hi := fun x => IDX_range clock k x B S). pose proof (od_flash _ _ _ _ _ O) as M.
  assert (K : forall q, bit (shard_of k) q = true -> bit (shard_of k') q = true /\
    (shard_of k').(oob) (q / 8) (q mod 8) = (shard_of k).(oob) (q / 8) (q mod 8)).
  { intros q Hq. apply (moves_kept _ _ _ _ _ _ M Hq). intros m j. by apply (next_free_bits _ MAP_IO b n). }
  split; try apply O.
  - intros y Hy. by rewrite (proj1 (od_table _ _ _ _ _ O y (Hi y Hy))).
  - intros y Hy. apply (od_table _ _ _ _ _ O y (Hi y Hy)).
  - intros y key l Hy [(b' & p & g & P) Ow Mp Kl Len Hd Bk]. destruct (od_table _ _ _ _ _ O y (Hi y Hy)) as [E1 E2].
    destruct P as [P1 P2 P3 P4 P5]. destruct (K _ P4) as [K1 K2].
    split; rewrite ?E1, ?E2, ?K2, ?(od_heap _ _ _ _ _ O); try done. exists b', p, g.
    split; rewrite ?(mv_sp _ _ _ _ _ M), ?K2; done.
Qed.

(** ** The place of the next pair *)

(** No page of the line of the stores is open; the last one, or the initial
    value of [cur_page], has room for the pair as [enough_space_in_line] sees it. *)
Record first_place (s : demand_shard) (cur : ppa) (glen b n : Z) : Prop := {
  fp_next : next_free s USER_IO b n;
  fp_off : s.(Lines.offset) = 0;
  fp_zero : index_of s b n <> 0;
  fp_cur : exists c m, cur = page_of s c m /\ 0 <= c < (sp_of s).(blks_per_pl) /\ 0 <= m < (sp_of s).(pgs_per_line) /\
    stripe (sp_of s) (m + pages_touched 0 glen) = stripe (sp_of s) m
}.

(** A pair of [glen] grains goes to grain [g] of page [n] of line [b]. *)
Variant at_place (s : demand_shard) (cur : ppa) (glen b n g : Z) : Prop :=
  | ap_open : user_pos s cur b n g -> at_place s cur glen b n g
  | ap_first : g = 0 -> first_place s cur glen b n -> at_place s cur glen b n g.

Lemma at_place_geom s cur glen b n g : at_place s cur glen b n g ->
  geom (sp_of s) /\ 0 <= b < (sp_of s).(blks_per_pl) /\ 0 <= n < (sp_of s).(pgs_per_line) /\ 0 <= g.
Proof.
  intros [U| -> [F _ _ _]].
  - destruct (up_geom _ _ _ _ _ U) as (G & Hb & Hn). pose proof (up_range _ _ _ _ _ U). split; [done|]. split; [done|]. lia.
  - pose proof (sh_geom _ (nf_inv _ _ _ _ F)). destruct (nf_wp _ _ _ _ F) as (_ & (Hb & _) & Hn). done.
Qed.

Lemma at_place_bits s cur glen b n g m i : at_place s cur glen b n g -> n <= m < (sp_of s).(pgs_per_line) -> 0 <= i < 8 ->
  (m = n -> g <= i) -> bit s (index_of s b m * 8 + i) = false.
Proof.
  intros [U| -> [F _ _ _]] Hm Hi Hg; rewrite <- GPP_val.
  - apply (up_bits _ _ _ _ _ U); rewrite ?GPP_val; done.
  - apply (nf_bits _ _ _ _ F); rewrite ?GPP_val; done.
Qed.

Lemma next_free_calm s s' t b n : calm s s' -> tree_ok s'.(sd) -> next_free s t b n -> next_free s' t b n.
Proof. intros C T F. apply (next_free_flash _ _ _ _ _ C T). destruct F as [[I1 I2] F2 F3 F4 F5 F6]. by split. Qed.

Lemma at_place_calm s s' cur glen b n g : calm s s' -> tree_ok s'.(sd) -> at_place s cur glen b n g -> at_place s' cur glen b n g.
Proof.
  intros C T [U|Eg [F O Z0 Cu]]; [apply ap_open; by apply (user_pos_calm s)|apply ap_first; [done|]]. pose proof (calm_sp _ _ C) as Es. split; rewrite ?Es; try done.
  - by apply (next_free_calm s).
  - destruct C as (-> & _). exact O.
Qed.

Lemma at_place_moves s s' u v x cur glen b n g : moves s s' u v x -> USER_IO <> u -> shard_inv s' -> 0 <= v < (sp_of s).(blks_per_pl) ->
  b <> v -> at_place s cur glen b n g -> at_place s' cur glen b n g.
Proof.
  intros M Nu I Hv N [U|Eg [F O Z0 Cu]]; pose proof (mv_sp _ _ _ _ _ M) as Es; destruct (mv_rest _ _ _ _ _ M) as (_ & Eo & _).
  - apply ap_open. destruct (place_moves s s' u v x USER_IO b n g M Nu I Hv N (up_place _ _ _ _ _ U)) as [U1 U2 U3 U4 U5 U6 U7 U8].
    destruct U as [_ _ V3 _ V5 V6 _ _ _ _ _]. split; try done; rewrite ?Es; [done|by rewrite Eo|done].
  - apply ap_first; [done|]. split; rewrite ?Es; try done; [by apply (next_free_moves s s' u v x)|by rewrite Eo].
Qed.

(** The first page is taken as soon as the pair is written. *)
Lemma place_first w glen rem lpa b n : 0 < glen -> first_place w.(w_shard) w.(w_cur) glen b n ->
  stripe (sp_of w.(w_shard)) (n + pages_touched 0 glen) = stripe (sp_of w.(w_shard)) n -> n + 1 < (sp_of w.(w_shard)).(pgs_per_line) ->
  exists s, place_pair clock w glen rem lpa = place_pair clock (mk_writing s (page_of s b n) w.(w_latest) w.(w_works)) glen rem lpa /\
    user_pos s (page_of s b n) b n 0 /\ sp_of s = sp_of w.(w_shard) /\ s.(lm) = w.(w_shard).(lm) /\
    s.(grain_bitmap) = w.(w_shard).(grain_bitmap) /\ s.(oob) = w.(w_shard).(oob) /\ timing_kept w.(w_shard) s.
Proof.
  intros Hgl [F O Z0 (c & m & Ec & Hc & Hm & St)] Sn Hn1. pose proof (sh_geom _ (nf_inv _ _ _ _ F)) as G.
  destruct (nf_wp _ _ _ _ F) as (_ & (Hb & _) & Hn). destruct (new_page_free _ b n F Hn1 Z0) as (s & E & U & Es & R).
  exists s. rewrite Es. split; [|by split]. destruct (line_page _ b n G Hb Hn) as (_ & Hi & _). pose proof (tt_pgs_small _ G).
  pose proof (up_off _ _ _ _ _ U) as Eo. rewrite Es, Z.add_0_r in Eo. set (x := index_of (w_shard w) b n) in *.
  unfold place_pair. cbn [w_shard w_cur w_latest w_works]. rewrite Es, O, Eo, (proj2 (geom_secs _ G)), Ec.
  destruct (enough_space_ok _ G c m 0 glen Hc Hm ltac:(lia) Hgl) as (had & E1). rewrite St, Z.eqb_refl in E1.
  destruct (enough_space_ok _ G b n 0 glen Hb ltac:(lia) ltac:(lia) Hgl) as (had' & E2). rewrite Sn, Z.eqb_refl in E2.
  rewrite GRAINED_val. replace ((x * 4096) mod 4096) with 0 by zlia. replace (x * 4096 / 512) with (x * 8) by zlia.
  rewrite !G_OFFSET_mod. change (0 / 512) with 0. change (0 mod 8) with 0. change (0 mod 4096) with 0. replace ((x * 8) mod 8) with 0 by zlia.
  rewrite E1, E2. cbn [mbind result_mbind result_bind w_shard]. rewrite O, Eo, E, Z.eqb_refl, (proj2 (Z.eqb_neq (x * 4096) 0)) by lia.
  cbn [mbind result_mbind result_bind w_shard w_latest w_works w_cur]. by rewrite Eo.
Qed.

Lemma pair_placed_from s0 s s' b x glen lpa : sp_of s = sp_of s0 -> s.(lm) = s0.(lm) -> s.(grain_bitmap) = s0.(grain_bitmap) ->
  s.(oob) = s0.(oob) -> pair_placed s s' b x glen lpa -> pair_placed s0 s' b x glen lpa.
Proof.
  intros E1 E2 E3 E4 [P1 P2 P3 [P4 P5 P6]]. rewrite E1, ?E2, ?E3, ?E4 in *. by split.
Qed.

(** [place_pair] from either position. *)
Lemma place_here_ok w b n g rem lpa B :
  let s := w.(w_shard) in let glen := grains rem in let n' := (8 * n + g + glen) / 8 in
  at_place s w.(w_cur) glen b n g -> g < 8 -> 0 < rem < 2 ^ 32 ->
  stripe (sp_of s) (n + pages_touched g glen) = stripe (sp_of s) n -> n' + 1 < (sp_of s).(pgs_per_line) ->
  nand_ready clock s.(sd) B -> 0 <= w.(w_latest) <= B -> B + NAND_MAX * (n' - n) < 2 ^ 62 ->
  exists w', place_pair clock w glen rem lpa = Ok (index_of s b n * 8 + g, 0, w') /\
    user_pos w'.(w_shard) w'.(w_cur) b n' ((8 * n + g + glen) mod 8) /\
    pair_placed s w'.(w_shard) b (8 * n + g) glen lpa /\
    nand_ready clock w'.(w_shard).(sd) (B + NAND_MAX * (n' - n)) /\ 0 <= w'.(w_latest) <= B + NAND_MAX * (n' - n).
Proof.
  intros s glen n' P Hg Hr St Hn R Hl HB. assert (Hgl : 0 < glen) by (unfold glen, grains; zlia).
  destruct P as [U| -> F].
  - destruct (place_pair_ok clock w b n g rem lpa B U Hg Hr St Hn R Hl HB) as (w' & l & E & U' & Pl & R' & Hl' & _). by exists w'.
  - destruct (place_first w glen rem lpa b n Hgl F St) as (s1 & E & U & E1 & E2 & E3 & E4 & T); [assert (n <= n') by (unfold n'; apply Z.div_le_lower_bound; lia); change (n + 1 < (sp_of s).(pgs_per_line)); lia|].
    set (w1 := mk_writing s1 _ _ _) in E.
    destruct (place_pair_ok clock w1 b n 0 rem lpa B U Hg Hr) as (w' & l & E' & U' & Pl & R' & Hl' & _);
      try done; change (w_shard w1) with s1; rewrite ?E1; try done.
    { apply (nand_ready_kept clock s.(sd)); [done|apply (sh_tree _ (up_inv _ _ _ _ _ U))|exact T]. }
    change (w_shard w1) with s1 in *. rewrite E1 in E'. exists w'. rewrite E. split; [exact E'|]. split; [exact U'|]. split; [|by split].
    by apply (pair_placed_from s s1).
Qed.

(** ** The state in which a pair is inserted *)

(** Section [i] has a page, or gets one on a line that is not line [b]. *)
Definition section_ready (k : kv) (i b : Z) : Prop :=
  ((cache_of k).(ht) i).(t_ppa) <> UINT_MAX \/ exists c n, fresh_section k i c n /\ b <> c.

(** The section is used for the first time or not at all. *)
Variant reached (k k' : kv) (i b : Z) : Prop :=
  | rc_still : still k k' -> ((cache_of k').(ht) i).(t_ppa) <> UINT_MAX -> reached k k' i b
  | rc_opened k1 c n : still k k1 -> (exists B, sound clock k1 B) -> fresh_section k1 i c n -> b <> c -> opened k1 k' i c n -> reached k k' i b.

Lemma still_ready k k' i b B : still k k' -> sound clock k' B -> section_ready k i b -> section_ready k' i b.
Proof.
  intros St S [Ht|(c & n & [F1 F2 F3 F4 F5] & N)]; [left; by rewrite (sk_open _ _ St)|right]. exists c, n. split; [|done].
  pose proof (calm_sp _ _ (sk_flash _ _ St)) as Es. split; rewrite ?Es, ?(sk_open _ _ St), ?(sk_fresh _ _ St) by done; try done.
  apply (next_free_calm (shard_of k)); [apply St|apply (so_dev _ _ _ S)|done].
Qed.

Lemma reached_still k k1 k' i b : still k k1 -> reached k1 k' i b -> reached k k' i b.
Proof.
  intros St [St' Ht|k2 c n St' S F N O]; [apply rc_still; [by etransitivity|done]|]. by apply (rc_opened _ _ _ _ k2 c n); [etransitivity|..].
Qed.

(** What inserting a pair on line [b] relies on. *)
Record kept_for (k k' : kv) (i b : Z) : Prop := {
  kf_rel : forall D, represents CityHash64 k D -> represents CityHash64 k' D;
  kf_leads : forall key n m x, leads CityHash64 k key n m x -> leads CityHash64 k' key n m x;
  kf_slots : forall y key n, 0 <= y < (cache_of k).(nr_valid_tentries) -> slot_holds k y key n -> slot_holds k' y key n;
  kf_table : same_table (cache_of k) (cache_of k');
  kf_entries : (cache_of k').(nr_valid_tentries) = (cache_of k).(nr_valid_tentries);
  kf_open : ((cache_of k').(ht) i).(t_ppa) <> UINT_MAX;
  kf_place : forall glen n g, at_place (shard_of k) k.(cur_page) glen b n g -> at_place (shard_of k') k'.(cur_page) glen b n g;
  kf_sp : sp_of (shard_of k') = sp_of (shard_of k);
  kf_heap : k'.(hp) = k.(hp);
  kf_bufs : k'.(ab) = k.(ab);
  kf_tries : k'.(max_try) = k.(max_try)
}.

Lemma kept_for_trans k1 k2 k3 i b : (cache_of k2).(nr_valid_tpages) = (cache_of k1).(nr_valid_tpages) ->
  (forall D, represents CityHash64 k1 D -> represents CityHash64 k2 D) ->
  (forall key n m x, leads CityHash64 k1 key n m x -> leads CityHash64 k2 key n m x) ->
  (forall y key n, 0 <= y < (cache_of k1).(nr_valid_tentries) -> slot_holds k1 y key n -> slot_holds k2 y key n) ->
  still k1 k2 -> (forall glen n g, at_place (shard_of k1) k1.(cur_page) glen b n g -> at_place (shard_of k2) k2.(cur_page) glen b n g) ->
  kept_for k2 k3 i b -> kept_for k1 k3 i b.
Proof.
  intros Ep R1 R2 R3 St P [A1 A2 A3 A4 A5 A6 A7 A8 A9 A10 A11]. pose proof (sk_entries _ _ St) as En. split; auto.
  - intros y key n Hy Sl. apply A3; [by rewrite En|by apply R3].
  - apply (same_table_trans _ (cache_of k2)); [done|apply St|done].
  - by rewrite A5.
  - by rewrite A8, (calm_sp _ _ (sk_flash _ _ St)).
  - by rewrite A9, (sk_heap _ _ St).
  - by rewrite A10, (sk_bufs _ _ St).
  - by rewrite A11, (sk_tries _ _ St).
Qed.

Lemma still_kept k k' i b B B' : sound clock k B -> sound clock k' B' -> still k k' ->
  ((cache_of k').(ht) i).(t_ppa) <> UINT_MAX -> kept_for k k' i b.
Proof.
  intros S S' St Ht. split; try apply St; try done.
  - intros D. by apply (still_represents CityHash64 clock k k' D B).
  - intros key n m x. by apply (still_leads CityHash64 clock k k' key n m x B).
  - intros y key n Hy. apply (still_slot _ _ _ _ _ St). by apply (IDX_range clock _ _ B).
  - intros glen n g P. rewrite (sk_cur _ _ St). apply (at_place_calm (shard_of k)); [apply St|apply (so_dev _ _ _ S')|done].
Qed.

Lemma opened_kept k k' i b c n B B' : sound clock k B -> sound clock k' B' -> fresh_section k i c n -> b <> c ->
  opened k k' i c n -> kept_for k k' i b.
Proof.
  intros S S' [F1 F2 F3 F4 F5] N O. pose proof (opened_relocated k k' i c n B S F3 O) as R. pose proof (od_flash _ _ _ _ _ O) as M.
  pose proof (sound_geom clock _ _ S) as G. destruct (nf_wp _ _ _ _ F3) as (_ & (Hc & _) & Hn). pose proof (tt_pgs_small _ G).
  destruct (line_page _ c n G Hc Hn) as (_ & Hi & _). split; try apply O; try apply R.
  - intros D. by apply relocated_represents.
  - intros key l m x. by apply relocated_leads.
  - rewrite (od_first _ _ _ _ _ O). unfold UINT_MAX. lia.
  - intros glen m g P. rewrite (od_cur _ _ _ _ _ O). by apply (at_place_moves (shard_of k) _ MAP_IO c (8 * n)); try done; apply O.
Qed.

Lemma reached_kept k k' i b B B' : sound clock k B -> sound clock k' B' -> reached k k' i b -> kept_for k k' i b.
Proof.
  intros S S' [St Ht|k1 c n St (B1 & S1) F N O]; [by apply (still_kept k k' i b B B')|].
  apply (kept_for_trans k k1); try done; [apply St|..|by apply (opened_kept k1 k' i b c n B1 B')].
  - intros D. by apply (still_represents CityHash64 clock k k1 D B).
  - intros key l m x. by apply (still_leads CityHash64 clock k k1 key l m x B).
  - intros y key l Hy. apply (still_slot _ _ _ _ _ St). by apply (IDX_range clock _ _ B).
  - intros glen m g P. rewrite (sk_cur _ _ St). apply (at_place_calm (shard_of k)); [apply St|apply (so_dev _ _ _ S1)|done].
Qed.

End opening.
