(* ===== verification/Storing.v ===== *)
(** * Storing a pair ([demand_ftl.c])

    A store of a key that is not in the device, on a device that represents a
    map ([Directory.v]): the place the probes lead to, the block and the header
    in kernel memory, the place on flash and the new entry of the table. *)

From stdpp Require Import gmap.
From S2P Require Import Prelude Fifo Lru Append WorkQueue Queues Prp.
From S2P Require Import ChModel Ssd Geometry PQueue Line Lines Pages Place Cache Heap Pairs Kv Directory Lookup Opening.

Lemma calm_roomy s s' : calm s s' -> should_gc_high s' = should_gc_high s.
Proof. by intros (-> & _). Qed.

Lemma to_grains_ok n : 0 <= n -> to_grains n = grains n.
Proof.
  intros Hn. unfold to_grains, grains. rewrite GRAINED_val. change (512 - 1) with (Z.ones 9).
  rewrite Z.land_ones by lia. change (2 ^ 9) with 512. case_cmp; zlia.
Qed.

(** Neither an append nor a flush. *)
Definition plain (v : store_vars) : Prop := v.(flushing_prev) = false /\ v.(checking_len) = false.

Section storing.
Context `{AllocatorLaws} (CityHash64 : list Z -> Z) (clock : nat -> Z).

(** ** The probes *)

(** The loop gets past an entry of another key. *)
Lemma store_step fuel k key key' n m x len c r klen vlen glen rem v l B :
  sound clock k B -> quiet k -> heap_ok k.(hp) -> should_gc_high (shard_of k) = false -> roomy k 0 ->
  0 <= x < (cache_of k).(nr_valid_tentries) -> slot_holds k x key' len -> key' <> key ->
  get_hash_idx (cache_of k) (mk_hash (key_hash CityHash64 key) n l) = Ok (mk_hash (key_hash CityHash64 key) m x) ->
  0 <= m <= 90000 -> names_key c klen key -> plain v -> 0 <= vlen < 2 ^ 31 ->
  0 <= v.(sv_latest) <= B -> B + NAND_MAX * 2100 < 2 ^ 62 ->
  exists t k', store_loop clock (S fuel) false k c r (mk_hash (key_hash CityHash64 key) n l) klen vlen glen rem false v =
      store_loop clock fuel false k' c r (mk_hash (key_hash CityHash64 key) (m + 1) x) klen vlen glen rem false (set_time v t 0) /\
    still k k' /\ sound clock k' (B + NAND_MAX * 2) /\ quiet k' /\ v.(sv_latest) <= t <= B + NAND_MAX * 2 /\
    cached_now k' <= cached_now k + GRAIN_PER_PAGE.
Proof.
  intros S Q Ho Rm Ry Hx Sl Ne E Hm Nk [P1 P2] Hv Hl HB.
  change (2 ^ 62) with 4611686018427387904 in HB. assert (HN : NAND_MAX = 35184372088832) by reflexivity.
  cbn [store_loop]. rewrite E. cbn [mbind result_mbind result_bind hash cnt lpa].
  destruct (settle_ok clock k v.(sv_latest) v.(sv_credits) B S Hl (conj Ry (or_intror Rm))) as (t0 & k0 & -> & St0 & S0 & Ht0 & Q0 & _ & Ec0).
  cbn [mbind result_mbind result_bind].
  assert (Hx0 : 0 <= x < (cache_of k0).(nr_valid_tentries)) by (by rewrite (sk_entries _ _ St0)).
  pose proof (still_slot _ _ _ _ _ St0 (IDX_range clock _ _ _ S Hx) Sl) as Sl0.
  destruct (compare_visit_ok clock k0 x key' len t0 B S0 (Q0 Q) Hx0 Sl0)
    as (cc & t1 & k1 & E1 & E2 & Ht & E3 & St & S1 & Bz & Ht1 & E4 & Sl1 & Gr);
    [lia|change (2 ^ 62) with 4611686018427387904; lia|].
  rewrite E1. cbn [mbind result_mbind result_bind]. change (cache_of (set_cache k0 cc)) with cc. rewrite E2.
  cbn [mbind result_mbind result_bind]. rewrite (proj2 (Z.eqb_neq _ _) Ht). cbn [mbind result_mbind result_bind].
  rewrite E3. cbn [mbind result_mbind result_bind]. rewrite E4. cbn [mbind result_mbind result_bind].
  rewrite (proj2 (Z.eqb_neq _ _) (sl_mapped _ _ _ _ Sl1)), (slot_glen clock _ _ _ _ _ S1 Sl1).
  cbn [mbind result_mbind result_bind set_time flushing_prev sv_latest checking_len]. rewrite P1, P2.
  rewrite <- (sk_heap _ _ St0), <- (sk_heap _ _ St) in Ho.
  destruct (compare_slot clock k1 x key' len c klen key t1 vlen 0 false m (B + NAND_MAX) S1 Ho Sl1 Nk)
    as (t2 & s2 & C2 & S2 & Ht2 & E5); [lia|lia|lia|lia|change (2 ^ 62) with 4611686018427387904; lia|done|].
  rewrite E5. destruct (decide (key' = key)) as [|_]; [done|]. cbn [mbind result_mbind result_bind].
  assert (St2 : still k (set_shard k1 s2)) by (do 2 (etransitivity; [eassumption|]); by apply still_shard).
  destruct (unlock_ok clock (set_shard k1 s2) (IDX x) _ S2) as (k3 & -> & St3 & S3 & Q3 & Ec3).
  { rewrite (sk_pages _ _ St2). by apply (IDX_range clock _ _ _ S). }
  { exact Bz. }
  cbn [mbind result_mbind result_bind hash lpa]. rewrite (i32_small (m + 1)) by lia.
  exists (Z.max t1 t2), k3. split; [done|]. split; [by etransitivity|].
  split; [apply (sound_mono clock _ _ _ S3); lia|]. split; [done|]. split; [lia|].
  rewrite Ec3, <- Ec0. exact Gr.
Qed.

(** The entry the probes of a new key end at: it is free. *)
Record free_slot (k : kv) (key : list Z) (m x : Z) : Prop := {
  fs_leads : leads CityHash64 k key 0 m x;
  fs_range : 0 <= x < (cache_of k).(nr_valid_tentries);
  fs_free : table (cache_of k) x = UINT_MAX;
  fs_count : m <= 90000 /\ 2 * m + 8000 <= (cache_of k).(nr_valid_tentries)
}.

(** The section of the entry gets a page, if it has none, and is in DRAM. *)
Lemma bring_ok k i latest b B : sound clock k B -> 0 <= i < (cache_of k).(nr_valid_tpages) -> section_ready k i b ->
  0 <= latest <= B -> B < 2 ^ 62 ->
  exists k1 first t k2, (if ((cache_of k).(ht) i).(t_ppa) =? UINT_MAX then k ← open_section k i; Ok (k, true) else Ok (k, false)) = Ok (k1, first) /\
    ensure_cached clock k1 i first latest = Ok (t, k2) /\ reached clock k k2 i b /\ sound clock k2 (B + NAND_MAX) /\
    latest <= t <= B + NAND_MAX /\ cache_hit ((cache_of k2).(ht) i) = true /\
    (cache_of k2).(nr_valid_tpages) = (cache_of k).(nr_valid_tpages) /\
    (forall j, ((cache_of k2).(ht) j).(outgoing) = ((cache_of k).(ht) j).(outgoing)).
Proof.
  intros S Hi Rd Hl HB. assert (HN : NAND_MAX = 35184372088832) by reflexivity.
  destruct (Z.eqb_spec (t_ppa (ht (cache_of k) i)) UINT_MAX) as [Ht|Ht].
  - destruct Rd as [|(c & n & F & N)]; [done|].
    destruct (open_ok clock k i c n latest B S Hi F ltac:(lia)) as (k1 & k2 & E1 & E2 & O & S2 & Hh & Ou & _).
    rewrite E1. exists k1, true, latest, k2. split; [done|]. split; [exact E2|].
    split; [apply (rc_opened _ _ _ _ _ k c n); [done|by exists B|done..]|]. split; [apply (sound_mono clock _ _ _ S2); lia|]. split; [lia|].
    split; [done|]. split; [apply (od_pages _ _ _ _ _ O)|done].
  - destruct (ensure_cached_ok clock k i latest B S Hi Ht Hl HB) as (t & k2 & E2 & St2 & S2 & Ht2 & Hh & O & _).
    exists k, false, t, k2. split; [done|]. split; [exact E2|].
    split; [apply rc_still; [done|by rewrite (sk_open _ _ St2)]|]. split; [done|]. split; [done|]. split; [done|]. split; [apply St2|done].
Qed.

(** The loop at a free entry. *)
Lemma store_free fuel k key n m x c r klen vlen glen rem v l b B :
  sound clock k B -> quiet k -> should_gc_high (shard_of k) = false -> roomy k 0 ->
  0 <= x < (cache_of k).(nr_valid_tentries) -> table (cache_of k) x = UINT_MAX -> section_ready k (IDX x) b ->
  get_hash_idx (cache_of k) (mk_hash (key_hash CityHash64 key) n l) = Ok (mk_hash (key_hash CityHash64 key) m x) ->
  plain v -> 0 <= v.(sv_latest) <= B -> B + NAND_MAX * 2100 < 2 ^ 62 ->
  exists k' v', store_loop clock (S fuel) false k c r (mk_hash (key_hash CityHash64 key) n l) klen vlen glen rem false v =
      ('(a, k, c) ← insert_pair k' c klen vlen glen v';
       store_tail clock k c (IDX x) a glen rem (mk_hash (key_hash CityHash64 key) m x) v') /\
    reached clock k k' (IDX x) b /\ sound clock k' (B + NAND_MAX) /\ busy k' (IDX x) /\ cache_hit ((cache_of k').(ht) (IDX x)) = true /\
    plain v' /\ v.(sv_latest) <= v'.(sv_latest) <= B + NAND_MAX.
Proof.
  intros S Q Rm Ry Hx Hf Rd E [P1 P2] Hl HB.
  change (2 ^ 62) with 4611686018427387904 in HB. assert (HN : NAND_MAX = 35184372088832) by reflexivity.
  pose proof (IDX_range clock _ _ _ S Hx) as Hi.
  cbn [store_loop]. rewrite E. cbn [mbind result_mbind result_bind hash cnt lpa].
  destruct (settle_ok clock k v.(sv_latest) v.(sv_credits) B S Hl (conj Ry (or_intror Rm))) as (t0 & k0 & -> & St0 & S0 & Ht0 & Q0 & _).
  cbn [mbind result_mbind result_bind].
  assert (Hx0 : 0 <= x < (cache_of k0).(nr_valid_tentries)) by (by rewrite (sk_entries _ _ St0)).
  destruct (get_ht_ok clock k0 x B S0 Hx0 (Q0 Q)) as (cc & -> & St1 & S1 & Bz1). cbn [mbind result_mbind result_bind].
  set (k1 := set_cache k0 cc) in *. assert (St01 : still k k1) by (by etransitivity).
  assert (Hi1 : 0 <= IDX x < (cache_of k1).(nr_valid_tpages)) by (by rewrite (sk_pages _ _ St01)).
  rewrite section_ok by done. cbn [mbind result_mbind result_bind].
  destruct (bring_ok k1 (IDX x) t0 b B S1 Hi1 (still_ready clock _ _ _ _ _ St01 S1 Rd))
    as (k1' & first & t2 & k2 & E1 & E2 & Re & S2 & Ht2 & Hh & Ep & O); [lia|change (2 ^ 62) with 4611686018427387904; lia|].
  rewrite E1. cbn [mbind result_mbind result_bind]. rewrite E2. cbn [mbind result_mbind result_bind].
  apply (reached_still _ k) in Re; [|done].
  destruct (reached_kept CityHash64 clock k k2 (IDX x) b B _ S S2 Re) as [_ _ _ Kt Ke _ _ _ _ _ _].
  rewrite (table_entry_ok clock k2 x _ S2); [|by rewrite Ke|done]. cbn [mbind result_mbind result_bind].
  rewrite (proj1 (Kt x Hi)), Hf, Z.eqb_refl. cbn [set_time checking_len]. rewrite P2.
  exists k2, (set_time v t2 0). split; [done|]. split; [done|]. split; [done|]. split.
  { intros j Hj. rewrite O. apply Bz1. by rewrite <- Ep. }
  split; [done|]. split; [done|]. cbn [set_time sv_latest]. lia.
Qed.

(** The loop gets to the entry the probes end at. *)
Lemma store_walk k0 D B0 key n m x c r klen vlen glen rem :
  represents CityHash64 k0 D -> sound clock k0 B0 -> leads CityHash64 k0 key n m x -> 0 <= n -> m <= 90000 ->
  2 * m + 8000 <= (cache_of k0).(nr_valid_tentries) -> should_gc_high (shard_of k0) = false ->
  names_key c klen key -> 0 <= vlen < 2 ^ 31 ->
  forall fuel k l v B, still k0 k -> sound clock k B -> quiet k -> roomy k (m - n) -> plain v -> 0 <= v.(sv_latest) <= B ->
  B + NAND_MAX * (2 * (m - n) + 2100) < 2 ^ 62 -> m - n < Z.of_nat fuel -> n <= m ->
  exists fuel' k' n' l' v', store_loop clock fuel false k c r (mk_hash (key_hash CityHash64 key) n l) klen vlen glen rem false v =
      store_loop clock (S fuel') false k' c r (mk_hash (key_hash CityHash64 key) n' l') klen vlen glen rem false v' /\
    get_hash_idx (cache_of k') (mk_hash (key_hash CityHash64 key) n' l') = Ok (mk_hash (key_hash CityHash64 key) m x) /\
    still k0 k' /\ sound clock k' (B + NAND_MAX * (2 * (m - n))) /\ quiet k' /\ plain v' /\
    v.(sv_latest) <= v'.(sv_latest) <= B + NAND_MAX * (2 * (m - n)) /\ roomy k' 0.
Proof.
  intros R S0 L. revert S0. induction L as [n m x E|n m x key' l m' x' E Hx Hs Ne Hm _ IH];
    intros S0 Hn Hmb He Rm Nk Hv [|fuel] k l0 v B St S Q Ry Pv Hl HB Hfu Hnm; cbn in Hfu; try lia.
  all: rewrite <- (still_probe _ _ _ St), <- (probe_any CityHash64 k key n l0) in E.
  all: change (2 ^ 62) with 4611686018427387904 in *; assert (HN : NAND_MAX = 35184372088832) by reflexivity.
  - exists fuel, k, n, l0, v. split; [done|]. split; [done|]. split; [done|]. split; [apply (sound_mono clock _ _ _ S); lia|].
    split; [done|]. split; [done|]. split; [lia|].
    apply (roomy_next k _ (m - n)); [exact Ry|done|rewrite GPP_val; lia].
  - assert (Hx2 := Hx). rewrite <- (sk_entries _ _ St) in Hx2.
    apply (still_slot _ _ _ _ _ St (IDX_range clock _ _ _ S0 Hx)) in Hs.
    assert (Hm0 : n <= m).
    { destruct (get_hash_idx_ok (cache_of k) (key_hash CityHash64 key) n l0) as (q & E2 & F2); [apply u32_range|lia| |].
      { rewrite (sk_entries _ _ St). destruct (rp_tries _ _ _ R) as [_ [_ T]]. change (2 ^ 31) with 2147483648 in T. lia. }
      rewrite E in E2. injection E2 as <-. destruct F2 as (_ & F2 & _). cbn in F2. lia. }
    destruct (store_step fuel k key key' n m x l c r klen vlen glen rem v l0 B S Q) as (t & k' & E' & St' & S' & Q' & Ht & Gr);
      try done; [by rewrite (sk_heap _ _ St); apply R|by rewrite (calm_roomy _ _ (sk_flash _ _ St))|apply (roomy_next k _ (m' - n)); [exact Ry|done|rewrite GPP_val; lia]|lia|
        change (2 ^ 62) with 4611686018427387904; lia|].
    rewrite E'.
    destruct (IH S0 ltac:(lia) Hmb He Rm Nk Hv fuel k' x (set_time v t 0) (B + NAND_MAX * 2))
      as (f2 & k2 & n2 & l2 & v2 & E2 & P2 & St2 & S2 & Q2 & Pv2 & Hl2 & Ry2); try done; cbn [set_time sv_latest] in *; try lia.
    { by etransitivity. }
    { apply (roomy_next k _ (m' - n)); [exact Ry|done|]. rewrite GPP_val in *. lia. }
    exists f2, k2, n2, l2, v2. split; [exact E2|]. split; [done|]. split; [done|]. split; [apply (sound_mono clock _ _ _ S2); lia|].
    split; [done|]. split; [done|]. split; [lia|done].
Qed.

Lemma store_loop_ok k0 D B0 key n m x c r klen vlen glen rem b :
  represents CityHash64 k0 D -> sound clock k0 B0 -> leads CityHash64 k0 key n m x -> 0 <= n -> m <= 90000 ->
  2 * m + 8000 <= (cache_of k0).(nr_valid_tentries) ->
  0 <= x < (cache_of k0).(nr_valid_tentries) -> table (cache_of k0) x = UINT_MAX ->
  section_ready k0 (IDX x) b -> should_gc_high (shard_of k0) = false ->
  names_key c klen key -> 0 <= vlen < 2 ^ 31 ->
  forall fuel k l v B, still k0 k -> sound clock k B -> quiet k -> roomy k (m - n) -> plain v -> 0 <= v.(sv_latest) <= B ->
  B + NAND_MAX * (2 * (m - n) + 2100) < 2 ^ 62 -> m - n < Z.of_nat fuel -> n <= m ->
  exists k' v', store_loop clock fuel false k c r (mk_hash (key_hash CityHash64 key) n l) klen vlen glen rem false v =
      ('(a, k, c) ← insert_pair k' c klen vlen glen v';
       store_tail clock k c (IDX x) a glen rem (mk_hash (key_hash CityHash64 key) m x) v') /\
    reached clock k0 k' (IDX x) b /\ sound clock k' (B + NAND_MAX * (2 * (m - n) + 1)) /\ busy k' (IDX x) /\
    cache_hit ((cache_of k').(ht) (IDX x)) = true /\ plain v' /\
    v.(sv_latest) <= v'.(sv_latest) <= B + NAND_MAX * (2 * (m - n) + 1).
Proof.
  intros R S0 L Hn Hm He Hx Hf Ho Rm Nk Hv fuel k l v B St S Q Ry Pv Hl HB Hfu Hnm.
  change (2 ^ 62) with 4611686018427387904 in *; assert (HN : NAND_MAX = 35184372088832) by reflexivity.
  destruct (store_walk k0 D B0 key n m x c r klen vlen glen rem R S0 L Hn Hm He Rm Nk Hv fuel k l v B St S Q Ry Pv Hl)
    as (f2 & k2 & n2 & l2 & v2 & E2 & P2 & St2 & S2 & Q2 & Pv2 & Hl2 & Ry2); [change (2 ^ 62) with 4611686018427387904; lia|done|done|].
  pose proof (IDX_range clock _ _ _ S0 Hx) as Hi. rewrite <- (sk_entries _ _ St2) in Hx.
  rewrite <- (proj1 (sk_table _ _ St2 x Hi)) in Hf. apply (still_ready clock _ _ _ _ _ St2 S2) in Ho.
  rewrite <- (calm_roomy _ _ (sk_flash _ _ St2)) in Rm.
  destruct (store_free f2 k2 key n2 m x c r klen vlen glen rem v2 l2 b _ S2 Q2 Rm Ry2 Hx Hf Ho P2 Pv2)
    as (k' & v' & E' & Re & S' & Bz & Hh & Pv' & Hl'); [lia|change (2 ^ 62) with 4611686018427387904; lia|].
  exists k', v'. split; [by rewrite E2|]. split; [by apply (reached_still _ _ k2)|]. split; [apply (sound_mono clock _ _ _ S'); lia|].
  split; [done|]. split; [done|]. split; [done|lia].
Qed.

(** ** A new pair *)

(** Entry [x] holds a pair with [key], every other entry what it held. *)
Record pair_put (k k' : kv) (x : Z) (key : list Z) (n m : Z) : Prop := {
  pu_table : forall y, y <> x -> table (cache_of k') y = table (cache_of k) y;
  pu_mem : forall y, y <> x -> pair_at (cache_of k') y = pair_at (cache_of k) y;
  pu_entries : (cache_of k').(nr_valid_tentries) = (cache_of k).(nr_valid_tentries);
  pu_heap : heap_ok k'.(hp);
  pu_slots : forall y key' l, 0 <= y < (cache_of k).(nr_valid_tentries) -> y <> x ->
    slot_holds k y key' l -> slot_holds k' y key' l;
  pu_new : slot_holds k' x key n;
  pu_tries : k'.(max_try) = Z.max m k.(max_try)
}.

(** No key but [key] is at entry [x], and [key] is at no other. *)
Definition own_entry (k : kv) (x : Z) (key : list Z) : Prop :=
  (forall key' l, slot_holds k x key' l -> key' = key) /\
  (forall y l, 0 <= y < (cache_of k).(nr_valid_tentries) -> y <> x -> slot_holds k y key l -> False).

Lemma put_leads k k' x key n m key' i j y : pair_put k k' x key n m -> own_entry k x key ->
  leads CityHash64 k key' i j y -> leads CityHash64 k' key' i j y.
Proof.
  intros P [Ow _]. assert (Pr : forall q, get_hash_idx (cache_of k') q = get_hash_idx (cache_of k) q).
  { unfold get_hash_idx. generalize probe_fuel. intros fuel. induction fuel as [|fuel IH]; intros q; [done|].
    cbn [get_hash_loop]. unfold probe. rewrite (pu_entries _ _ _ _ _ _ P). by rewrite IH. }
  induction 1 as [i j y E|i j y key'' l j' y' E Hy Hs Ne Hm _ IH].
  - apply leads_here. by rewrite Pr.
  - destruct (Z.eq_dec y x) as [->|Ny].
    + rewrite (Ow _ _ Hs) in Ne. eapply leads_on; try done; rewrite ?Pr, ?(pu_entries _ _ _ _ _ _ P); try done. apply (pu_new _ _ _ _ _ _ P).
    + eapply leads_on; try done; rewrite ?Pr, ?(pu_entries _ _ _ _ _ _ P); try done. by apply (pu_slots _ _ _ _ _ _ P).
Qed.

(** The map with the key. *)
Lemma put_represents k k' x key n m D : pair_put k k' x key n m -> represents CityHash64 k D -> own_entry k x key ->
  leads CityHash64 k key 0 m x -> 0 <= x < (cache_of k).(nr_valid_tentries) ->
  0 <= m <= 90000 -> 2 * m + 8000 <= (cache_of k).(nr_valid_tentries) ->
  represents CityHash64 k' (<[key := (value_at k' x key, n)]> D).
Proof.
  intros P R Ow L Hx Hm0 Hc. pose proof R as [R1 [R2 R2'] R3 R4].
  assert (V : forall y key', y <> x -> value_at k' y key' = value_at k y key').
  { intros y key' Ny. unfold value_at. by rewrite (pu_mem _ _ _ _ _ _ P). }
  assert (New : leads CityHash64 k' key 0 m x) by (by apply (put_leads k k' x key n m)).
  split; rewrite ?(pu_entries _ _ _ _ _ _ P), ?(pu_tries _ _ _ _ _ _ P).
  - apply P.
  - lia.
  - intros y Hy Hm. destruct (Z.eq_dec y x) as [->|Ny].
    { exists key, n, m. split; [apply (pu_new _ _ _ _ _ _ P)|]. split; [by rewrite lookup_insert_eq|]. split; [done|lia]. }
    rewrite (pu_table _ _ _ _ _ _ P) in Hm by done.
    destruct (R3 y Hy Hm) as (key' & n' & m' & A1 & A2 & A3 & A4). exists key', n', m'. rewrite (V y) by done.
    split; [by apply (pu_slots _ _ _ _ _ _ P)|].
    split; [rewrite lookup_insert_ne; [done|intros <-; by apply (proj2 Ow y n')]|].
    split; [by apply (put_leads k k' x key n m)|lia].
  - intros key' a n' Hk. destruct (decide (key' = key)) as [->|Nk].
    { rewrite lookup_insert_eq in Hk. injection Hk as <- <-. exists x, m. split; [done|]. split; [apply (pu_new _ _ _ _ _ _ P)|].
      split; [done|]. split; [done|lia]. }
    rewrite lookup_insert_ne in Hk by congruence. destruct (R4 key' a n' Hk) as (y & m' & A1 & A2 & A3 & A4 & A5).
    assert (Ny : y <> x) by (intros ->; by apply Nk, (proj1 Ow key' n')).
    exists y, m'. rewrite (V y) by done. split; [done|]. split; [by apply (pu_slots _ _ _ _ _ _ P)|].
    split; [done|]. split; [by apply (put_leads k k' x key n m)|lia].
Qed.

(** A free entry is the key's own when the map does not have the key. *)
Lemma free_own k D key x : represents CityHash64 k D -> D !! key = None -> table (cache_of k) x = UINT_MAX -> own_entry k x key.
Proof.
  intros R Hd Hf. split; [intros key' l Sl; by destruct (sl_mapped _ _ _ _ Sl)|]. intros y l Hy Ny Sl.
  destruct (rp_slots _ _ _ R y Hy (sl_mapped _ _ _ _ Sl)) as (key' & l' & m' & A1 & A2 & _).
  destruct (header_key _ _ _ _ _ _ (sl_header _ _ _ _ Sl) (sl_header _ _ _ _ A1)) as [<- _]. congruence.
Qed.

(** A change of the heap that keeps the block of an entry keeps the entry. *)
Lemma slot_heap k h x key n : slot_holds k x key n ->
  (forall sz, k.(hp).(blocks) !! pair_at (cache_of k) x = Some sz -> h.(blocks) !! pair_at (cache_of k) x = Some sz /\
    same_bytes k.(hp).(bytes) h.(bytes) (pair_at (cache_of k) x) sz) ->
  slot_holds (set_hp k h) x key n.
Proof.
  clear CityHash64 clock. intros [G O M K L Hh (sz & Bk & Bs)] Hb. destruct (Hb sz Bk) as [Bk' Sb]. split; try done.
  - apply (has_header_ext k.(hp).(bytes)); [|done]. intros i Hi. apply Sb. pose proof (slot_room key n (proj1 L)). lia.
  - by exists sz.
Qed.

(** Where the next pair goes: the current page has a free grain, or is still to
    be taken, and the pair ends in the line and does not leave the stripe that is
    being filled. *)
Record can_place (k : kv) (glen b p g : Z) : Prop := {
  cp_pos : at_place (shard_of k) k.(cur_page) glen b p g;
  cp_grain : g < 8;
  cp_stripe : stripe (sp_of (shard_of k)) (p + pages_touched g glen) = stripe (sp_of (shard_of k)) p;
  cp_line : (8 * p + g + glen) / 8 + 1 < (sp_of (shard_of k)).(pgs_per_line)
}.

(** The header of the new pair in its block. *)
Lemma new_pair_ok h key n c klen : heap_ok h -> names_key c klen key -> 0 < n -> header_size key + n < 2 ^ 31 ->
  let a := kmalloc_at h.(blocks) (pair_grains key n * GRAINED_UNIT) in
  a <> 0 -> exists h1 h2, new_block false h (pair_grains key n) = Ok (a, h1) /\ put_header h1 a c klen n = Ok h2 /\
    heap_ok h2 /\ h2.(blocks) !! a = Some (pair_grains key n * GRAINED_UNIT) /\ has_header h2.(bytes) a key n /\
    forall a' sz, h.(blocks) !! a' = Some sz -> h2.(blocks) !! a' = Some sz /\ same_bytes h.(bytes) h2.(bytes) a' sz.
Proof.
  intros Ho [Ek Nk] Hn Hs a Ha. change (2 ^ 31) with 2147483648 in Hs. clear CityHash64.
  assert (Hg : 0 < pair_grains key n * GRAINED_UNIT) by (rewrite GRAINED_val; pose proof (slot_room key n Hn); unfold header_size in *; lia).
  destruct (heap_ok_alloc h _ Ho Hg Ha) as [Nf Ho1]. fold a in Nf, Ho1.
  set (sz := pair_grains key n * GRAINED_UNIT) in *. set (h1 := mk_heap h.(bytes) (<[a := sz]> h.(blocks))).
  assert (Ap : apart h.(blocks) a sz) by exact (kmalloc_apart h.(blocks) sz Hg Ha).
  assert (E1 : new_block false h (pair_grains key n) = Ok (a, h1)).
  { unfold new_block, kmalloc. fold sz a. rewrite (proj2 (Z.eqb_neq a 0) Ha). done. }
  assert (B1 : h1.(blocks) !! a = Some sz) by apply lookup_insert_eq.
  destruct (write_header_ok h1 a key n sz B1 Ha) as (h2 & E2 & Bl & Out & Hh).
  { unfold sz. rewrite GRAINED_val. pose proof (slot_room key n Hn). lia. }
  { unfold header_size in Hs. lia. }
  exists h1, h2. split; [done|]. split.
  { rewrite <- E2. unfold put_header, write_header, cmd_key. by rewrite Ek, Nat2Z.id, Nk. }
  split; [destruct Ho1; split; by rewrite Bl|]. split; [by rewrite Bl|]. split; [done|].
  intros a' sz' Hb. assert (Na : a' <> a) by (intros E; assert (X : Some sz' = None) by (rewrite <- Hb, E; exact Nf); done). split; [rewrite Bl; cbn; by rewrite lookup_insert_ne|].
  intros i Hi. change (bytes h) with (bytes h1). apply Out. destruct (Ap a' sz' Hb); [|left; lia].
  right. assert (header_size key <= sz) by (unfold sz; rewrite GRAINED_val; pose proof (slot_room key n Hn); lia). lia.
Qed.

(** The cells out of band of stored pairs stay, and the new pair's is written. *)
Lemma placed_others s s' cur b p g glen x q : at_place s cur glen b p g -> g < 8 -> 0 < glen ->
  (8 * p + g + glen) / 8 + 1 < (sp_of s).(pgs_per_line) ->
  pair_placed s s' b (8 * p + g) glen x -> bit s q = true ->
  bit s' q = true /\ s'.(oob) (q / 8) (q mod 8) = s.(oob) (q / 8) (q mod 8).
Proof.
  intros U Hg Hl Hn [P1 P2 _ P4] Hq. clear CityHash64 clock. split; [apply P2; by left|].
  destruct (at_place_geom _ _ _ _ _ _ U) as (_ & _ & Hp & Hg0).
  replace ((8 * p + g) / 8) with p in * by zlia. replace ((8 * p + g) mod 8) with g in * by zlia.
  destruct P4 as [_ _ O]. replace ((8 * p + g) / 8) with p in * by zlia. replace ((8 * p + g) mod 8) with g in * by zlia.
  assert (Free : forall y i, p <= y < (sp_of s).(pgs_per_line) -> 0 <= i < 8 -> (y = p -> g <= i) ->
    q / 8 = index_of s b y -> q mod 8 <> i).
  { intros y i Hy Hi Hyi E1 E2. pose proof (at_place_bits _ _ _ _ _ _ y i U Hy Hi Hyi) as X. replace (index_of s b y * 8 + i) with q in X by zlia. congruence. }
  apply O.
  - intros E. apply (Free p g); try done; zlia.
  - intros y Hy Hy' E. split; apply (Free y); try done; zlia.
Qed.

(** What the end of a store does: entry [x] leads to the pair at [a], which
    is on flash behind the last one. *)
Record committed (k k' : kv) (x : Z) (key : list Z) (n m a : Z) : Prop := {
  cm_table : forall y, y <> x -> table (cache_of k') y = table (cache_of k) y;
  cm_mem : forall y, y <> x -> pair_at (cache_of k') y = pair_at (cache_of k) y;
  cm_entries : (cache_of k').(nr_valid_tentries) = (cache_of k).(nr_valid_tentries);
  cm_heap : k'.(hp) = k.(hp);
  cm_sp : sp_of (shard_of k') = sp_of (shard_of k);
  cm_flash : forall q, bit (shard_of k) q = true -> bit (shard_of k') q = true /\
    (shard_of k').(oob) (q / 8) (q mod 8) = (shard_of k).(oob) (q / 8) (q mod 8);
  cm_new : slot_holds k' x key n;
  cm_at : pair_at (cache_of k') x = a;
  cm_tries : k'.(max_try) = Z.max m k.(max_try);
  cm_bufs : k'.(ab) = k.(ab)
}.

Lemma committed_put k k' x key n m a : committed k k' x key n m a -> heap_ok k.(hp) -> pair_put k k' x key n m.
Proof.
  intros [C1 C2 C3 C4 C5 C6 C7 C8 C9 C10] Ho. split; try done; [by rewrite C4|].
  intros y key' l Hy Ny [(b & p & g & [P1 P2 P3 P4 P5]) O M K L Hh Bk]. destruct (C6 _ P4) as [F1 F2].
  split; rewrite ?C1, ?C2, ?C4, ?F2 by done; try done. exists b, p, g. split; rewrite ?C5; try done. by rewrite F2.
Qed.

(** From the block, which has its header, to the table. *)
Lemma tail_ok k key n m x c a v B b p g :
  sound clock k B -> busy k (IDX x) -> cache_hit ((cache_of k).(ht) (IDX x)) = true ->
  0 <= x < (cache_of k).(nr_valid_tentries) -> (cache_of k).(nr_valid_tentries) < 2 ^ 31 ->
  ((cache_of k).(ht) (IDX x)).(t_ppa) <> UINT_MAX ->
  0 < Z.of_nat (length key) <= 16 -> 0 < n -> header_size key + n < 2 ^ 31 -> plain v ->
  let glen := pair_grains key n in
  has_header k.(hp).(bytes) a key n -> (exists sz, k.(hp).(blocks) !! a = Some sz /\ 512 * glen <= sz) ->
  can_place k glen b p g -> 0 <= v.(sv_latest) <= B -> B + NAND_MAX * 2050 < 2 ^ 62 ->
  exists k' t, store_tail clock k c (IDX x) a glen (header_size key + n) (mk_hash (key_hash CityHash64 key) m x) v =
      Ok (Done k' c (mk_ret 0 t (RELEASE_MAP (IDX x)))) /\
    committed k k' x key n m a /\ sound clock k' (B + NAND_MAX * 2050) /\ busy k' (IDX x) /\ 0 <= t <= B + NAND_MAX * 2050 /\
    user_pos (shard_of k') k'.(cur_page) b ((8 * p + g + glen) / 8) ((8 * p + g + glen) mod 8) /\
    pair_placed (shard_of k) (shard_of k') b (8 * p + g) glen x.
Proof.
  intros S Bz Hh Hx He Ht Lk Hn Hs [P1 P2] glen Hd2 Bl [U Hg Sp Hl] Hv HB.
  pose proof (sound_geom clock _ _ S) as G. pose proof (tt_pgs_small _ G) as Tt.
  destruct (geom_consts _ G) as (_ & _ & _ & _ & _ & Hc & HBk & _ & _ & _ & Epl & Eps).
  change (2 ^ 31) with 2147483648 in *.
  assert (Hgl : 0 < glen < 2 ^ 32) by (unfold glen, pair_grains, grains, header_size in *; change (2 ^ 32) with 4294967296; zlia).
  unfold store_tail, commit_pair. cbn [lpa cnt].
  set (w := mk_writing (shard_of k) (cur_page k) v.(sv_latest) (works k)).
  destruct (at_place_geom _ _ _ _ _ _ U) as (_ & Hbl & Hp & Hg0).
  assert (Hpp : 0 <= (8 * p + g + glen) / 8 - p <= 2048) by zlia.
  destruct (place_here_ok clock w b p g (header_size key + n) x B U Hg) as (w' & E3 & U' & Pl & R' & Hl');
    try done; [unfold header_size in *; change (2 ^ 32) with 4294967296; lia|exact (so_dev _ _ _ S)|
      change (grains _) with glen; change (2 ^ 62) with 4611686018427387904 in *; unfold NAND_MAX in *; lia|].
  change (grains (header_size key + n)) with glen in *. rewrite E3. cbn [mbind result_mbind result_bind].
  set (q := index_of (w_shard w) b p * 8 + g) in *. change (w_shard w) with (shard_of k) in *.
  destruct (so_cache _ _ _ S) as (F & V & I). pose proof (IDX_range clock _ _ _ S Hx) as Hi.
  assert (Hin : IDX x ∈ F ++ V) by (by apply (ci_cached _ _ _ _ I _ Hi)).
  destruct (update_map_ok (cache_of k) k.(fl).(vb) F V x a q I Hin) as (h' & E4 & I' & O' & T' & Tb).
  match goal with |- context [section ?c _] => change c with (cache_of k) end.
  rewrite section_ok by done. cbn [mbind result_mbind result_bind]. rewrite E4. cbn [mbind result_mbind result_bind].
  unfold set_time. cbn [flushing_prev checking_len]. rewrite P1, P2.
  match goal with |- exists k' t, Ok (Done ?k1 _ _) = _ /\ _ => set (k' := k1) end.
  assert (Es : sp_of (shard_of k') = sp_of (shard_of k)) by apply (pp_sp _ _ _ _ _ _ Pl).
  assert (Et : forall y, table (cache_of k') y = upd (table (cache_of k)) x q y /\
    pair_at (cache_of k') y = upd (pair_at (cache_of k)) x a y) by exact Tb.
  assert (Eq : table (cache_of k') x = q) by (rewrite (proj1 (Et x)); apply upd_eq).
  assert (Ea : pair_at (cache_of k') x = a) by (rewrite (proj2 (Et x)); apply upd_eq).
  assert (Hq : 0 <= q < UINT_MAX /\ q / 8 = index_of (shard_of k) b p /\ q mod 8 = g).
  { destruct (line_page _ b p G Hbl Hp) as (_ & Hi' & _). unfold q, UINT_MAX. zlia. }
  assert (New : slot_holds k' x key n).
  { destruct Pl as [L1 L2 L3 [L4 _ _]]. replace ((8 * p + g) / 8) with p in L4 by zlia.
    replace ((8 * p + g) mod 8) with g in L4 by zlia. assert (OE : (shard_of k').(oob) (q / 8) (q mod 8) = pair_entry glen x).
    { destruct Hq as (_ & -> & ->). exact L4. }
    split; rewrite ?Eq, ?Ea, ?OE; try done; [|apply pair_entry_ok; [lia|change (2 ^ 32) with 4294967296; lia]|lia].
    exists b, p, g. split; rewrite ?Es; try done.
    - split; [lia|]. split; [lia|exact Hl].
    - apply L2. right. left. unfold q. f_equal; [f_equal; f_equal; f_equal; zlia|zlia].
    - rewrite OE. apply pair_entry_ok; [change (pair_grains key n) with glen; split; [lia|exact (proj2 Hgl)]|change (2 ^ 32) with 4294967296; lia]. }
  exists k', (w_latest w'). split; [done|]. split; [|split; [|split; [|split; [|split; [exact U'|exact Pl]]]]].
  - split; try done; [| |intros q'; eapply (placed_others _ _ _ _ _ _ _ _ _ U Hg); [exact (proj1 Hgl)|exact Hl|exact Pl]].
    + intros y Ny. rewrite (proj1 (Et y)), upd_case. by rewrite (proj2 (Z.eqb_neq y x)).
    + intros y Ny. rewrite (proj2 (Et y)), upd_case. by rewrite (proj2 (Z.eqb_neq y x)).
  - destruct S as [S1 S2 S3 S5 S6 S7 S8]. split; rewrite ?Es; [|exact S2|exact S3| | |exact S7|].
    + by exists F, V.
    + intros j Hj. cbn. rewrite upd_case. destruct (Z.eqb_spec j (IDX x)) as [->|]; [|by apply S5].
      rewrite T'. intros Hj'. destruct (S5 _ Hj Hj') as [_ X]. split; [|done].
      destruct (ci_mem _ _ _ _ I' (IDX x) Hin) as [mm Em]. cbn in Em. rewrite upd_eq in Em. by exists mm.
    + intros y Hy. rewrite (proj1 (Et y)), upd_case. cbn. rewrite upd_case.
      destruct (Z.eqb_spec y x) as [->|Ny]; [rewrite Z.eqb_refl, T'; done|]. intros Hm'.
      destruct (Z.eqb_spec (IDX y) (IDX x)) as [E|]; [rewrite T'; done|by apply S6].
    + apply (nand_ready_mono _ _ _ _ R'). unfold NAND_MAX. lia.
  - intros j Hj. cbn. rewrite upd_case. destruct (Z.eqb_spec j (IDX x)) as [->|Nj]; [rewrite O', (Bz _ Hi); by rewrite Z.eqb_refl|].
    rewrite (Bz j Hj). by rewrite (proj2 (Z.eqb_neq j _)).
  - unfold NAND_MAX in *. lia.
Qed.

(** ** The command *)

(** The write buffer takes the pair: only the timing of the PCIe link changes. *)
Lemma write_buffer_ok k start len B : sound clock k B -> 0 <= start <= B -> 0 <= len < 2 ^ 31 -> B + NAND_MAX < 2 ^ 62 ->
  exists t d, ssd_advance_write_buffer clock (shard_of k).(sd) start len = Ok (t, d) /\
    still k (set_shard k (set_sd (shard_of k) d)) /\ sound clock (set_shard k (set_sd (shard_of k) d)) B /\
    start <= t <= B + NAND_MAX.
Proof.
  intros S Hs Hl HB. change (2 ^ 62) with 4611686018427387904 in HB. change (2 ^ 31) with 2147483648 in Hl.
  assert (HN : NAND_MAX = 35184372088832) by reflexivity. destruct (so_fw _ _ _ S) as [_ [W0 W1]].
  change (2 ^ 20) with 1048576 in *. unfold sp_of in W0, W1.
  unfold ssd_advance_write_buffer. change (KB 4) with 4096. rewrite (u64_small (len + 4096 - 1)) by lia.
  assert (U : 0 <= (len + 4096 - 1) / 4096 <= 524288) by zlia.
  set (w0 := fw_wbuf_lat0 _) in *. set (w1 := fw_wbuf_lat1 _) in *. set (u := (len + 4096 - 1) / 4096) in *.
  assert (M : 0 <= w1 * u <= 549755813888) by nia.
  rewrite (u64_small (start + w0)), (u64_small (w1 * u)), u64_small by lia.
  destruct (advance_pcie_ok clock (sd (shard_of k)) (start + w0 + w1 * u) len (nr_tree _ _ _ (so_dev _ _ _ S)))
    as (t & d & -> & T & Ts & Ht); [change (2 ^ 63) with 9223372036854775808; lia|unfold XFER_MAX; lia|].
  destruct Ts as [T1 T2 T3 T4].
  assert (C : calm (shard_of k) (set_sd (shard_of k) d)).
  { apply same_flash_calm. split; [done|]. split; [exact T1|]. intros i j. cbn. by rewrite T3. }
  exists t, d. split; [done|]. split; [by apply still_shard|]. split; [|unfold DELAY_MAX in Ht; lia].
  apply (sound_shard _ _ _ _ S C). destruct (so_dev _ _ _ S) as [R1 R2 R3 R4]. split; [done|cbn; by rewrite T2| |done].
  intros i j. cbn [set_sd sd]. unfold avail_time. rewrite T1, T3. apply R3.
Qed.

Lemma kept_free_slot k k' key m x b B : sound clock k B -> kept_for CityHash64 k k' (IDX x) b -> free_slot k key m x -> free_slot k' key m x.
Proof.
  intros S K [L Hx Hf Hc]. split; rewrite ?(kf_entries _ _ _ _ _ K); try done.
  - by apply (kf_leads _ _ _ _ _ K).
  - by rewrite (proj1 (kf_table _ _ _ _ _ K x (IDX_range clock _ _ _ S Hx))).
Qed.

Lemma kept_can_place k k' glen b p g i : kept_for CityHash64 k k' i b -> can_place k glen b p g -> can_place k' glen b p g.
Proof.
  intros K [U G Sp L]. split; rewrite ?(kf_sp _ _ _ _ _ K); try done. by apply (kf_place _ _ _ _ _ K).
Qed.

(** What a store leaves for the worker and the next command. *)
Record pair_stored (k k' : kv) (D : gmap (list Z) (Z * Z)) (key : list Z) (n m x B b p g : Z) : Prop := {
  ps_map : represents CityHash64 k' (<[key := (value_at k' x key, n)]> D);
  ps_sound : sound clock k' B;
  ps_busy : busy k' (IDX x);
  ps_values : forall key' a l, key' <> key -> D !! key' = Some (a, l) -> bytes_at k'.(hp).(bytes) a l = bytes_at k.(hp).(bytes) a l;
  ps_next : let e := 8 * p + g + pair_grains key n in user_pos (shard_of k') k'.(cur_page) b (e / 8) (e mod 8);
  ps_bufs : k'.(ab) = k.(ab);
  ps_tries : k'.(max_try) = Z.max m k.(max_try);
  ps_kept : forall y key' l, 0 <= y < (cache_of k).(nr_valid_tentries) -> y <> x ->
    slot_holds k y key' l -> slot_holds k' y key' l;
  ps_entries : (cache_of k').(nr_valid_tentries) = (cache_of k).(nr_valid_tentries);
  ps_slot : slot_holds k' x key n /\ 0 <= x < (cache_of k').(nr_valid_tentries)
}.

(** The value of a key whose block is left alone. *)
Lemma kept_value k D m key a l : represents CityHash64 k D -> D !! key = Some (a, l) ->
  (forall x sz, 0 <= x < (cache_of k).(nr_valid_tentries) -> slot_holds k x key l ->
    k.(hp).(blocks) !! pair_at (cache_of k) x = Some sz -> same_bytes k.(hp).(bytes) m (pair_at (cache_of k) x) sz) ->
  bytes_at m a l = bytes_at k.(hp).(bytes) a l.
Proof.
  intros R Hd Sb. destruct (rp_keys _ _ _ R key a l Hd) as (x & j & Hx & Sl & -> & _).
  destruct (sl_block _ _ _ _ Sl) as (sz & Bl & Hs). pose proof (slot_room key l (proj1 (sl_len _ _ _ _ Sl))).
  apply bytes_at_ext. intros i Hi. unfold value_at. rewrite <- !Z.add_assoc. apply (Sb x sz Hx Sl Bl).
  unfold header_size in *. lia.
Qed.

(** From the start of the handler to the loop. *)
Lemma store_begin k c key n start r B :
  sound clock k B -> quiet k -> kv_command c key -> cmd_value_length c = Ok n ->
  not_buffered k c (u8 (cmd_key_length c)) -> 0 < n -> header_size key + n < 2 ^ 31 ->
  0 <= start <= B -> B + NAND_MAX < 2 ^ 62 ->
  let v := header_size key + n in
  exists kk vv, still k kk /\ sound clock kk (B + NAND_MAX) /\ quiet kk /\ plain vv /\ 0 <= vv.(sv_latest) <= B + NAND_MAX /\
    cached_now kk = cached_now k /\ forall k3 c3 r3, store_loop clock (store_fuel k) false kk c r (mk_hash (key_hash CityHash64 key) 0 0)
        (Z.of_nat (length key)) v (pair_grains key n) v false vv = Ok (Done k3 c3 r3) ->
      conv_write CityHash64 clock k c start r = Ok (k3, c3, r3).
Proof.
  intros S Q [[Ek Nk] Lk] Ev Nb Hn Hs Hst HB v. change (2 ^ 62) with 4611686018427387904 in HB. change (2 ^ 31) with 2147483648 in Hs.
  assert (HN : NAND_MAX = 35184372088832) by reflexivity.
  unfold conv_write, __store. rewrite Ev. cbn [mbind result_mbind result_bind].
  assert (Ev' : u32 (n + 1 + u8 (cmd_key_length c) + 4) = v).
  { rewrite Ek. unfold v, header_size in *. rewrite u32_small by lia. lia. }
  rewrite Ev'. assert (Hv : 0 <= v < 2147483648) by (unfold v, header_size in *; lia).
  destruct (write_buffer_ok k start v B S Hst Hv) as (t0 & d & -> & St0 & S0 & Ht0); [change (2 ^ 62) with 4611686018427387904; lia|].
  cbn [mbind result_mbind result_bind store_passes]. set (k0 := set_shard k (set_sd (shard_of k) d)) in *.
  unfold store_head, find_buf. destruct (__get_append_buf (ab k0) _ _ _) as [buf new] eqn:Eb.
  assert (buf = UINT_MAX) as -> by (change buf with (buf, new).1; rewrite <- Eb; apply Nb). rewrite Z.eqb_refl.
  cbn [mbind result_mbind result_bind andb]. unfold store_body. cbn [set_flags set_wb flushing_prev sv_latest sv_credits set_time sv_buf].
  rewrite (proj2 (Z.leb_le _ 16)) by (rewrite Ek; lia). cbn [assert_ mbind result_mbind result_bind].
  rewrite to_grains_ok by lia. change (grains v) with (pair_grains key n). unfold cmd_key. rewrite Ek, Nat2Z.id, Nk.
  match goal with |- context [store_loop _ _ _ ?k' _ _ _ _ _ _ _ _ ?v'] => exists k', v'; set (kk := k'); set (vv := v') end.
  split; [etransitivity; [exact St0|by split]|].
  split; [apply (sound_mono clock kk B); [by destruct S0|lia]|].
  split; [done|]. split; [done|]. split; [unfold vv; cbn; lia|]. split; [done|].
  intros k3 c3 r3 E. change (store_fuel k0) with (store_fuel k). change (u32 (CityHash64 key)) with (key_hash CityHash64 key).
  by rewrite E.
Qed.

(** What a store of a new key needs: a free entry, in a section that has a page
    or can get one, memory, and room in the line that is being written. *)
Record storable (k : kv) (key : list Z) (n m x b p g : Z) : Prop := {
  st_value : 0 < n /\ header_size key + n < 2 ^ 31;
  st_slot : 0 <= m /\ free_slot k key m x;
  st_section : section_ready k (IDX x) b;
  st_memory : kmalloc_at k.(hp).(blocks) (pair_grains key n * GRAINED_UNIT) <> 0;
  st_place : can_place k (pair_grains key n) b p g;
  st_room : should_gc_high (shard_of k) = false;
  st_cache : roomy k m
}.

Definition store_cost (m : Z) : Z := NAND_MAX * (2 * m + 4200).

(** A new pair at a free entry. *)
Lemma insert_tail_ok k D key n m x c v B b p g :
  represents CityHash64 k D -> sound clock k B -> busy k (IDX x) -> cache_hit ((cache_of k).(ht) (IDX x)) = true ->
  ((cache_of k).(ht) (IDX x)).(t_ppa) <> UINT_MAX -> free_slot k key m x -> D !! key = None -> 0 <= m ->
  kv_command c key -> 0 < n -> header_size key + n < 2 ^ 31 -> plain v ->
  let glen := pair_grains key n in
  kmalloc_at k.(hp).(blocks) (glen * GRAINED_UNIT) <> 0 -> can_place k glen b p g ->
  0 <= v.(sv_latest) <= B -> B + NAND_MAX * 2050 < 2 ^ 62 ->
  exists k' t, ('(a, k, c) ← insert_pair k c (Z.of_nat (length key)) (header_size key + n) glen v;
                store_tail clock k c (IDX x) a glen (header_size key + n) (mk_hash (key_hash CityHash64 key) m x) v) =
      Ok (Done k' (set_rsvd c (value_at k' x key)) (mk_ret 0 t (RELEASE_MAP (IDX x)))) /\
    pair_stored k k' D key n m x (B + NAND_MAX * 2050) b p g /\ 0 <= t <= B + NAND_MAX * 2050.
Proof.
  intros R S Bz Hh Ht [Fl Fx Ff [F1 F2]] Hd Hm Kc Hn Hs P glen Ha Cp Hv HB. pose proof Kc as [[Ek Nk] Lk].
  pose proof (rp_heap _ _ _ R) as Ho. change (2 ^ 31) with 2147483648 in Hs.
  assert (Hdd : u32 (header_size key + n - 4 - 1 - Z.of_nat (length key)) = n) by (unfold header_size in *; rewrite u32_small by lia; lia).
  destruct (new_pair_ok k.(hp) key n c (Z.of_nat (length key)) Ho (conj eq_refl Nk) Hn Hs Ha) as (h1 & h2 & E1 & E2 & Ho2 & Bl & Hd2 & Old).
  fold glen in E1, E2, Bl, Hd2. set (a := kmalloc_at _ _) in *. unfold insert_pair. rewrite E1.
  cbn [mbind result_mbind result_bind]. rewrite (proj1 P), Hdd, E2. cbn [mbind result_mbind result_bind].
  destruct (tail_ok (set_hp k h2) key n m x (set_rsvd c (a + 1 + Z.of_nat (length key) + 4)) a v B b p g)
    as (k' & t & E & C & S' & Bz' & Ht' & U & _); try done.
  { by destruct S. } { apply R. } { exists (glen * GRAINED_UNIT). split; [exact Bl|rewrite GRAINED_val; unfold glen; lia]. } { by destruct Cp. }
  exists k', t. assert (Ea : value_at k' x key = a + 1 + Z.of_nat (length key) + 4).
  { unfold value_at, header_size. rewrite (cm_at _ _ _ _ _ _ _ C). lia. }
  assert (Sk : forall y key' l, slot_holds k y key' l -> slot_holds (set_hp k h2) y key' l).
  { intros y key' l Sl. apply slot_heap; [done|]. intros sz Hb. apply (Old _ _ Hb). }
  assert (Pu : pair_put k k' x key n m).
  { destruct (committed_put _ _ _ _ _ _ _ C Ho2) as [C1 C2 C3 C4 C5 C6 C7]. split; try done.
    intros y key' l Hy Ny Sl. apply C5; [done|done|by apply Sk]. }
  split; [rewrite Ea; exact E|]. split; [|done]. split; try done; try apply C; try apply Pu.
  - apply (put_represents k k' x key n m D Pu R); try done. by apply (free_own k D).
  - intros key' a' l Nk' Hd'. rewrite (cm_heap _ _ _ _ _ _ _ C). apply (kept_value k D _ key' a' l R Hd').
    intros y sz Hy _ Hb. apply (Old _ _ Hb).
  - split; [apply C|]. by rewrite (pu_entries _ _ _ _ _ _ Pu).
Qed.

Lemma conv_write_ok k D c key n m x b p g start r B :
  represents CityHash64 k D -> sound clock k B -> quiet k -> kv_command c key -> cmd_value_length c = Ok n ->
  not_buffered k c (u8 (cmd_key_length c)) -> D !! key = None -> storable k key n m x b p g ->
  0 <= start <= B -> B + store_cost m < 2 ^ 62 ->
  exists t k1, conv_write CityHash64 clock k c start r =
      Ok (k1, set_rsvd c (value_at k1 x key), mk_ret 0 t (RELEASE_MAP (IDX x))) /\
    pair_stored k k1 D key n m x (B + store_cost m) b p g /\ 0 <= t <= B + store_cost m.
Proof.
  intros R S Q Kc Ev Nb Hd [[Hn Hs] [Hm F] Sr Ha P Rm Ry] Hst HB. unfold store_cost in *. pose proof Kc as [[Ek Nk] Lk].
  change (2 ^ 62) with 4611686018427387904 in *. assert (HN : NAND_MAX = 35184372088832) by reflexivity.
  destruct (store_begin k c key n start r B S Q Kc Ev Nb Hn Hs Hst) as (kk & vv & St1 & S1 & Q1 & Pv & Hl & Ek1 & Run);
    [change (2 ^ 62) with 4611686018427387904; lia|].
  pose proof (fs_range _ _ _ _ F) as Hx. destruct (fs_count _ _ _ _ F) as [C1 C2].
  assert (Ry1 : roomy kk (m - 0)) by (apply (roomy_next k _ m); [exact Ry|done|rewrite GPP_val; lia]).
  destruct (store_loop_ok k D B key 0 m x c r (Z.of_nat (length key)) (header_size key + n) (pair_grains key n) (header_size key + n) b
    R S (fs_leads _ _ _ _ F) ltac:(lia) C1 C2 Hx (fs_free _ _ _ _ F) Sr Rm (conj eq_refl Nk) ltac:(unfold header_size in *; lia)
    (store_fuel k) kk 0 vv (B + NAND_MAX) St1 S1 Q1 Ry1 Pv Hl)
    as (k2 & v2 & E2 & Re & S2 & Bz & Hh & Pv2 & Hl2); [change (2 ^ 62) with 4611686018427387904; lia|unfold store_fuel; lia|done|].
  assert (K := reached_kept CityHash64 clock k k2 (IDX x) b _ _ S S2 Re). replace (m - 0) with m in * by lia.
  set (B2 := B + NAND_MAX + NAND_MAX * (2 * m + 1)) in *.
  destruct (insert_tail_ok k2 D key n m x c v2 B2 b p g) as (k3 & t & E3 & [P1 P2 P3 P4 P5 P6 P7 P8 P9 P10] & Ht3); try done.
  { by apply (kf_rel _ _ _ _ _ K). } { apply (kf_open _ _ _ _ _ K). } { by apply (kept_free_slot _ _ _ _ _ _ _ S K). }
  { by rewrite (kf_heap _ _ _ _ _ K). } { by apply (kept_can_place _ _ _ _ _ _ _ K). } { unfold B2. lia. }
  { change (2 ^ 62) with 4611686018427387904. unfold B2. lia. }
  exists t, k3. split; [apply Run; by rewrite E2|]. split; [|unfold B2 in *; lia].
  rewrite (kf_heap _ _ _ _ _ K) in *. rewrite (kf_bufs _ _ _ _ _ K) in *. rewrite (kf_tries _ _ _ _ _ K) in *.
  rewrite (kf_entries _ _ _ _ _ K) in *. split; try done.
  - apply (sound_mono clock _ _ _ P2). unfold B2. lia.
  - intros y key' l Hy Ny Sl. apply P8; [done|done|]. by apply (kf_slots _ _ _ _ _ K).
Qed.

End storing.
