(* ===== verification/Device.v ===== *)
(** * A command from its dispatch to its callback ([io.c], [demand_ftl.c])

    The handler of [Kv.v] says where the value of a command is, the worker of
    [io.c] copies it between there and the pages of the host, and the callback
    gives the table free.  Put together they make the device a map from keys to
    strings of bytes. *)

From stdpp Require Import gmap.
From S2P Require Import Prelude Fifo Lru Append WorkQueue Queues Prp.
From S2P Require Import ChModel Ssd Geometry PQueue Line Lines Pages Place Cache Heap Pairs Kv Directory Lookup Opening Storing.

(** What the worker does for a key-value command. *)
Definition perform_kv (k : kv) (host : Z -> Z) (c : nvme_command) : result (Z * kv * (Z -> Z)) :=
  '(res, _, m) ← __do_perform_io_kv c (mk_memory host k.(hp).(bytes) KERNEL_BASE KERNEL_END);
  Ok (res, set_hp k (mk_heap m.(kern) k.(hp).(blocks)), m.(Prp.host)).

Fixpoint run_callbacks (k : kv) (cbs : list callback) : result kv :=
  match cbs with
  | [] => Ok k
  | cb :: cbs => k ← run_callback k cb; run_callbacks k cbs
  end.

(** One command on an idle device: the dispatcher's handler, then the worker. *)
Definition kv_round `{Allocator} (CityHash64 : list Z -> Z) (clock : nat -> Z) (k : kv) (host : Z -> Z)
    (c : nvme_command) (nsecs_start : Z) (r : kv_result) : result (kv * (Z -> Z) * Z * kv_result) :=
  '(k, c, r, cbs) ← kv_proc_nvme_io_cmd CityHash64 clock host k c nsecs_start r;
  '(res, k, host) ← perform_kv k host c;
  k ← run_callbacks k (cbs ++ [r.(ret_cb)]);
  Ok (k, host, res, r).

(** ** The bytes of the values *)

(** The values of a map of places. *)
Definition values (k : kv) (D : gmap (list Z) (Z * Z)) : gmap (list Z) (list Z) :=
  (fun an => bytes_at k.(hp).(bytes) an.1 an.2) <$> D.

Section device.
Context `{AllocatorLaws} (CityHash64 : list Z -> Z) (clock : nat -> Z).

(** The bytes of a value that is written are no part of another pair, nor of
    its own header. *)
Lemma value_apart k x key n y key' l : heap_ok k.(hp) -> slot_holds k x key n -> slot_holds k y key' l ->
  forall i, 0 <= i < header_size key' + l ->
  (key' = key /\ pair_at (cache_of k) y = pair_at (cache_of k) x /\ i < header_size key + n) \/
  ~ value_at k x key <= pair_at (cache_of k) y + i < value_at k x key + n.
Proof.
  clear CityHash64 clock. intros Ho X Y i Hi.
  destruct (sl_block _ _ _ _ X) as (sx & Bx & Sx). destruct (sl_block _ _ _ _ Y) as (sy & By & Sy).
  pose proof (slot_room key n (proj1 (sl_len _ _ _ _ X))). pose proof (slot_room key' l (proj1 (sl_len _ _ _ _ Y))).
  assert (0 < header_size key) by (unfold header_size; lia). unfold value_at.
  destruct (Z.eq_dec (pair_at (cache_of k) y) (pair_at (cache_of k) x)) as [E|N].
  - left. pose proof (sl_header _ _ _ _ X) as HX. pose proof (sl_header _ _ _ _ Y) as HY. rewrite E in HY.
    destruct (header_key _ _ _ _ _ _ HX HY) as [-> ->]. split_and!; [done|done|lia].
  - right. destruct (heap_apart _ _ _ _ _ Ho Bx By); [done| |]; lia.
Qed.

(** A worker writes the value of [key]. *)
Lemma value_written k D key a n (b : Z -> Z) : represents CityHash64 k D -> D !! key = Some (a, n) ->
  (forall z, ~ a <= z < a + n -> b z = k.(hp).(bytes) z) ->
  let k' := set_hp k (mk_heap b k.(hp).(blocks)) in
  represents CityHash64 k' D /\ values k' D = <[key := bytes_at b a n]> (values k D) /\
  forall y key' l, slot_holds k y key' l -> slot_holds k' y key' l.
Proof.
  intros R Hd Hb k'. destruct (rp_keys _ _ _ R key a n Hd) as (x & mx & Hx & Sx & -> & Lx & Hmx).
  pose proof (rp_heap _ _ _ R) as Ho.
  assert (Sl : forall y key' l, slot_holds k y key' l -> slot_holds k' y key' l).
  { intros y key' l Sy. pose proof (sl_len _ _ _ _ Sy) as [Hl _]. pose proof (sl_header _ _ _ _ Sy) as Hh. split; try apply Sy.
    apply (has_header_ext k.(hp).(bytes)); [|done]. intros i Hi. change (cache_of k') with (cache_of k). apply Hb.
    destruct (value_apart k x key n y key' l Ho Sx Sy i ltac:(lia)) as [(-> & E & _)|A]; [|done].
    unfold value_at. rewrite E. lia. }
  assert (Ld : forall key' i j y, leads CityHash64 k key' i j y -> leads CityHash64 k' key' i j y).
  { intros key' i j y. induction 1; [by apply leads_here|eapply leads_on; try done; by apply Sl]. }
  split; [|split; [|exact Sl]].
  - destruct R as [R1 R2 R3 R4]. split; [destruct R1; split; done|done| |].
    + intros y Hy Hm. destruct (R3 y Hy Hm) as (key' & l & j & A & B & C & E). exists key', l, j.
      split; [by apply Sl|]. split; [done|]. split; [by apply Ld|done].
    + intros key' a' l Hk. destruct (R4 key' a' l Hk) as (y & j & A & B & C & E & F). exists y, j.
      split; [done|]. split; [by apply Sl|]. split; [done|]. split; [by apply Ld|done].
  - apply map_eq. intros key'. unfold values. rewrite lookup_fmap. destruct (decide (key' = key)) as [->|Nk].
    { by rewrite lookup_insert_eq, Hd. }
    rewrite lookup_insert_ne, lookup_fmap by congruence. destruct (D !! key') as [[a' l]|] eqn:Ed; [|done].
    cbn. f_equal. apply bytes_at_ext. intros i Hi. apply Hb.
    destruct (rp_keys _ _ _ R key' a' l Ed) as (y & j & Hy & Sy & -> & _). unfold value_at at 2.
    pose proof (sl_len _ _ _ _ Sy) as [Hl _]. assert (0 < header_size key') by (unfold header_size; lia).
    destruct (value_apart k x key n y key' l Ho Sx Sy (header_size key' + i) ltac:(lia)) as [(E & _)|A]; [done|].
    unfold value_at in *. replace (pair_at (cache_of k) y + header_size key' + i) with (pair_at (cache_of k) y + (header_size key' + i)) by lia. done.
Qed.

(** A stored value lies in the kernel's memory. *)
Lemma value_range k D key a n : represents CityHash64 k D -> D !! key = Some (a, n) ->
  KERNEL_BASE <= a /\ a + n <= KERNEL_END /\ 0 < n < 2 ^ 31.
Proof.
  intros R Hd. destruct (rp_keys _ _ _ R key a n Hd) as (x & m & Hx & Sl & -> & _).
  destruct (sl_block _ _ _ _ Sl) as (sz & Bl & Hs). destruct (rp_heap _ _ _ R) as [Rg _]. destruct (Rg _ _ Bl) as (A1 & A2 & A3).
  destruct (sl_len _ _ _ _ Sl) as [L1 L2]. pose proof (slot_room key n L1). unfold value_at, header_size in *. lia.
Qed.

(** The device holds the map [M] and is idle. *)
Record holds (k : kv) (M : gmap (list Z) (list Z)) (B : Z) : Prop := {
  ho_map : exists D, represents CityHash64 k D /\ M = values k D;
  ho_sound : sound clock k B;
  ho_quiet : quiet k
}.

(** The bytes of the host's buffer. *)
Definition host_bytes (c : nvme_command) (host : Z -> Z) (n : Z) : list Z :=
  (fun i => host (buf_addr c host n i)) <$> seqZ 0 n.

Lemma prp_same c c' h len : c'.(prp1) = c.(prp1) -> c'.(prp2) = c.(prp2) ->
  (prp_ok c h len -> prp_ok c' h len) /\ (forall i, buf_addr c' h len i = buf_addr c h len i) /\
  host_bytes c' h len = host_bytes c h len.
Proof.
  clear CityHash64 clock. intros E1 E2.
  assert (A : forall i, buf_addr c' h len i = buf_addr c h len i).
  { intros i. unfold buf_addr, page_addr, Prp.listed, first_part. by rewrite E1, E2. }
  split; [|split; [done|]].
  - intros [P1 P2]. unfold needed, page_addr, Prp.listed, first_part in *.
    split; unfold needed, page_addr, Prp.listed, first_part; rewrite E1, E2; done.
  - apply list_fmap_ext. intros i y _. by rewrite A.
Qed.

(** The worker of a store. *)
Lemma perform_store_ok k host c n : c.(opcode) = nvme_cmd_kv_store -> cmd_value_length c = Ok n -> 0 <= n ->
  KERNEL_BASE <= c.(rsvd) -> c.(rsvd) + n <= KERNEL_END -> prp_ok c host n ->
  exists b, perform_kv k host c = Ok (0, set_hp k (mk_heap b k.(hp).(blocks)), host) /\
    bytes_at b c.(rsvd) n = host_bytes c host n /\
    forall z, ~ c.(rsvd) <= z < c.(rsvd) + n -> b z = k.(hp).(bytes) z.
Proof.
  clear CityHash64 clock. intros Eo Ev Hn Hlo Hhi P. unfold KERNEL_BASE, KERNEL_END in *.
  unfold cmd_value_length in Ev. rewrite Eo in Ev. cbn [orb Z.eqb Pos.eqb nvme_cmd_kv_store nvme_cmd_kv_batch nvme_cmd_kv_append] in Ev.
  injection Ev as Ev. rewrite stored_length in Ev.
  assert (Dr : direction c = Some (ToDevice, n)).
  { unfold direction. rewrite Eo. cbn [orb Z.eqb Pos.eqb nvme_cmd_kv_store nvme_cmd_kv_retrieve nvme_cmd_kv_append]. by rewrite Ev. }
  set (m0 := mk_memory host k.(hp).(bytes) KERNEL_BASE KERNEL_END).
  destruct (perform_ok c m0 ToDevice n Dr) as (m1 & E & _ & _ & Mh & Mk).
  { split; try done; cbn; unfold UINT_MAX, U64_MAX, KERNEL_BASE, KERNEL_END; lia. }
  assert (Ea : answer c = (0, c)) by (unfold answer; by rewrite Eo).
  exists m1.(kern). unfold perform_kv. fold m0. rewrite E, Ea. cbn [mbind result_mbind result_bind fst snd]. rewrite Mh.
  split; [done|]. split.
  - unfold bytes_at, host_bytes. apply list_fmap_ext. intros i y Hy. apply lookup_seqZ in Hy as [-> Hy].
    rewrite Mk, (proj2 (Z.leb_le _ _)), (proj2 (Z.ltb_lt _ _)) by lia. cbn [andb]. f_equal. f_equal. lia.
  - intros z Hz. rewrite Mk. destruct (Z.leb_spec c.(rsvd) z), (Z.ltb_spec z (c.(rsvd) + n)); cbn [andb]; (done || lia).
Qed.

(** Where the new pair is, where the next one goes, and what stayed. *)
Record key_stored (k k' : kv) (x : Z) (key : list Z) (n m b p g : Z) : Prop := {
  ks_slot : slot_holds k' x key n /\ 0 <= x < (cache_of k').(nr_valid_tentries);
  ks_next : let e := 8 * p + g + pair_grains key n in user_pos (shard_of k') k'.(cur_page) b (e / 8) (e mod 8);
  ks_kept : forall y key' l, 0 <= y < (cache_of k).(nr_valid_tentries) -> y <> x ->
    slot_holds k y key' l -> slot_holds k' y key' l;
  ks_bufs : k'.(ab) = k.(ab);
  ks_tries : k'.(max_try) = Z.max m k.(max_try)
}.

(** The worker and the callback, when the handler has stored the pair. *)
Lemma store_round_ok k D c key n m x b p g host start r t k1 B' :
  kv_command c key -> c.(opcode) = nvme_cmd_kv_store -> cmd_value_length c = Ok n -> prp_ok c host n ->
  conv_write CityHash64 clock k c start r = Ok (k1, set_rsvd c (value_at k1 x key), mk_ret 0 t (RELEASE_MAP (IDX x))) ->
  pair_stored CityHash64 clock k k1 D key n m x B' b p g ->
  exists k', kv_round CityHash64 clock k host c start r = Ok (k', host, 0, mk_ret 0 t (RELEASE_MAP (IDX x))) /\
    holds k' (<[key := host_bytes c host n]> (values k D)) B' /\ key_stored k k' x key n m b p g /\ calm (shard_of k1) (shard_of k').
Proof.
  intros Kc Eo Ev P E [P1 P2 P4 P6 P7 P8 P11 P12 P13 [P9 P10]].
  set (a := value_at k1 x key) in *. set (c1 := set_rsvd c a) in *.
  destruct (value_range k1 _ key a n P1 (lookup_insert_eq _ _ _)) as (Ra & Rb & Rn). unfold KERNEL_BASE, KERNEL_END in *.
  assert (Ea : c1.(rsvd) = a) by (unfold c1; cbn; apply u64_small; lia).
  destruct (prp_same c c1 host n eq_refl eq_refl) as (Pr & _ & Hbs).
  destruct (perform_store_ok k1 host c1 n) as (bs & E2 & Ev2 & Out); rewrite ?Ea; auto; unfold KERNEL_BASE, KERNEL_END; try lia.
  rewrite Ea in Ev2, Out. set (k2 := set_hp k1 _) in *.
  destruct (value_written k1 _ key a n bs P1 (lookup_insert_eq _ _ _) Out) as (R2 & V2 & Sl2). fold k2 in R2, V2, Sl2.
  assert (S2 : sound clock k2 B') by (by destruct P2).
  destruct (release_ok clock k2 (IDX x) _ S2 (IDX_range clock _ _ _ P2 P10) P4) as (k3 & E3 & St3 & S3 & Q3).
  exists k3. split.
  { unfold kv_round, kv_proc_nvme_io_cmd. rewrite Eo.
    cbn [Z.eqb Pos.eqb nvme_cmd_kv_store nvme_cmd_kv_batch nvme_cmd_kv_append]. rewrite E.
    cbn [mbind result_mbind result_bind]. rewrite E2. cbn [mbind result_mbind result_bind app run_callbacks ret_cb].
    rewrite E3. done. }
  split.
  - split; [|done|done]. exists (<[key := (a, n)]> D). split; [by apply (still_represents CityHash64 clock k2 k3 _ B')|].
    transitivity (values k2 (<[key := (a, n)]> D)); [|unfold values; by rewrite (sk_heap _ _ St3)].
    rewrite V2, Ev2, Hbs. unfold values at 2. rewrite fmap_insert. rewrite insert_insert_eq.
    apply map_eq. intros key'. destruct (decide (key' = key)) as [->|Nk]; [by rewrite !lookup_insert_eq|].
    rewrite !lookup_insert_ne by congruence. unfold values. rewrite !lookup_fmap.
    destruct (D !! key') as [[a' l]|] eqn:Ed; [|done]. cbn. by rewrite (P6 key' a' l Nk Ed).
  - assert (Sl3 : forall y key' l, 0 <= y < (cache_of k2).(nr_valid_tentries) -> slot_holds k1 y key' l -> slot_holds k3 y key' l).
    { intros y key' l Hy Sl. apply (still_slot k2 k3 y key' l St3); [by apply (IDX_range clock _ _ _ S2)|by apply Sl2]. }
    split; [|exact (sk_flash _ _ St3)]. split.
    + rewrite (sk_entries _ _ St3). split; [|exact P10]. by apply Sl3.
    + cbv zeta. apply (user_pos_calm (shard_of k2)); [apply St3|apply (so_dev _ _ _ S3)|]. rewrite (sk_cur _ _ St3). exact P7.
    + intros y key' l Hy Ny Sl. apply Sl3; [|by apply P12]. change (cache_of k2) with (cache_of k1). by rewrite P13.
    + by rewrite (sk_bufs _ _ St3).
    + by rewrite (sk_tries _ _ St3).
Qed.

Lemma device_store_ok k M c key n m x b p g host start r B :
  holds k M B -> kv_command c key -> c.(opcode) = nvme_cmd_kv_store -> cmd_value_length c = Ok n ->
  not_buffered k c (u8 (cmd_key_length c)) -> M !! key = None -> storable CityHash64 k key n m x b p g ->
  prp_ok c host n -> 0 <= start <= B -> B + store_cost m < 2 ^ 62 ->
  exists t k', kv_round CityHash64 clock k host c start r = Ok (k', host, 0, mk_ret 0 t (RELEASE_MAP (IDX x))) /\
    holds k' (<[key := host_bytes c host n]> M) (B + store_cost m) /\ 0 <= t <= B + store_cost m /\ key_stored k k' x key n m b p g.
Proof.
  intros [(D & R & ->) S Q] Kc Eo Ev Nb Hm St P Hst HB.
  assert (Hd : D !! key = None) by (unfold values in Hm; by rewrite lookup_fmap, fmap_None in Hm).
  destruct (conv_write_ok CityHash64 clock k D c key n m x b p g start r B R S Q Kc Ev Nb Hd St Hst HB) as (t & k1 & E & Ps & Ht).
  destruct (store_round_ok k D c key n m x b p g host start r t k1 _ Kc Eo Ev P E Ps) as (k' & E' & Hh & Ks & _).
  by exists t, k'.
Qed.

(** ** Retrieve *)

(** What a retrieve with a buffer of [vlen] bytes answers for the value [v]
    from [ro] on: a buffer too small for a whole value is refused. *)
Definition retrieved (v : list Z) (vlen ro : Z) : option (list Z) :=
  if ro =? 0 then if vlen <? Z.of_nat (length v) then None else Some v
  else Some (take (Z.to_nat vlen) (drop (Z.to_nat ro) v)).

(** The pages of the buffer are in order, and none is named twice. *)
Definition host_ready (c : nvme_command) (host : Z -> Z) (n : Z) : Prop :=
  prp_ok c host n /\ forall kern, disjoint_buffer c (mk_memory host kern KERNEL_BASE KERNEL_END) n.

(** The host's memory with [w] in the buffer of [c]. *)
Definition received (c : nvme_command) (host host' : Z -> Z) (w : list Z) : Prop :=
  let n := Z.of_nat (length w) in
  (forall i, 0 <= i < n -> host' (buf_addr c host n i) = of_list w i) /\
  (forall z, (forall i, 0 <= i < n -> buf_addr c host n i <> z) -> host' z = host z).

Lemma ready_same c c' host n : c'.(prp1) = c.(prp1) -> c'.(prp2) = c.(prp2) -> host_ready c host n -> host_ready c' host n.
Proof.
  clear CityHash64 clock. intros E1 E2 [P D]. destruct (prp_same c c' host n E1 E2) as (P' & A & _). split; [by apply P'|].
  intros kern. destruct (D kern) as [D1 D2]. cbn [Prp.host] in *. split; cbn [Prp.host]; setoid_rewrite A; [done|].
  intros Hl p. unfold needed, Prp.listed, first_part in *. rewrite E1 in *. rewrite E2. by apply D2.
Qed.

Lemma perform_retrieve_ok k host c w : c.(opcode) = nvme_cmd_kv_retrieve -> value_len c = Z.of_nat (length w) ->
  KERNEL_BASE <= c.(rsvd) -> c.(rsvd) + Z.of_nat (length w) <= KERNEL_END -> host_ready c host (Z.of_nat (length w)) ->
  bytes_at k.(hp).(bytes) c.(rsvd) (Z.of_nat (length w)) = w ->
  exists host', perform_kv k host c = Ok (Z.of_nat (length w), k, host') /\ received c host host' w.
Proof.
  clear CityHash64 clock. intros Eo Ev Hlo Hhi [P D] Hw. unfold KERNEL_BASE, KERNEL_END in *.
  set (m0 := mk_memory host k.(hp).(bytes) KERNEL_BASE KERNEL_END).
  destruct (perform_ok c m0 ToHost (Z.of_nat (length w))) as (m1 & E & _ & _ & Mk & M1 & M2).
  { unfold direction. by rewrite Eo, Ev. }
  { split; try done; cbn; unfold UINT_MAX, U64_MAX, KERNEL_BASE, KERNEL_END; try lia. apply D. }
  exists m1.(Prp.host). unfold perform_kv. fold m0. rewrite E. unfold answer. rewrite Eo, Z.eqb_refl.
  cbn [mbind result_mbind result_bind fst snd]. rewrite Ev, Mk. split.
  - do 2 f_equal. by destruct k as [? ? ? ? [] ? ?].
  - split; [|exact M2]. intros i Hi. rewrite <- Hw at 2. rewrite of_list_bytes_at by done. by apply M1.
Qed.

Lemma perform_nothing k host c : (c.(opcode) = nvme_cmd_kv_retrieve \/ c.(opcode) = nvme_cmd_kv_delete) ->
  c.(rsvd) = U64_MAX -> perform_kv k host c = Ok (0, k, host).
Proof.
  clear CityHash64 clock. intros Eo Er. assert (E : set_hp k (mk_heap (bytes (hp k)) (blocks (hp k))) = k) by (by destruct k as [? ? ? ? [] ? ?]).
  unfold perform_kv. rewrite kv_no_data; [by rewrite <- E at 2|]. destruct Eo as [Eo|Eo]; [|by left].
  right. right. split; [|done]. unfold direction. by rewrite Eo.
Qed.

(** The bytes a retrieve that succeeds names are those of the value. *)
Lemma retrieve_answer_ok c a v vlen ro m : bytes_at m a (Z.of_nat (length v)) = v ->
  0 <= vlen -> 0 <= ro <= Z.of_nat (length v) -> Z.of_nat (length v) < 2 ^ 31 -> ro + vlen < 2 ^ 31 ->
  KERNEL_BASE <= a -> a + Z.of_nat (length v) <= KERNEL_END ->
  let ans := retrieve_answer c a (Z.of_nat (length v)) vlen ro in
  match retrieved v vlen ro with
  | None => ans.1.(rsvd) = U64_MAX /\ ans.2 = KV_ERR_BUFFER_SMALL
  | Some w => ans.1.(rsvd) = a + ro /\ value_len ans.1 = Z.of_nat (length w) /\ ans.2 = 0 /\
      bytes_at m (a + ro) (Z.of_nat (length w)) = w /\ ro + Z.of_nat (length w) <= Z.of_nat (length v)
  end /\ ans.1.(opcode) = c.(opcode) /\ ans.1.(prp1) = c.(prp1) /\ ans.1.(prp2) = c.(prp2).
Proof.
  clear CityHash64 clock. intros Hv Hl Hr Hn Hs Hlo Hhi. unfold KERNEL_BASE, KERNEL_END in *.
  change (2 ^ 31) with 2147483648 in *. unfold retrieve_answer, retrieved.
  destruct (Z.eqb_spec ro 0) as [->|Nr]; cbn [negb].
  - destruct (Z.ltb_spec vlen (Z.of_nat (length v))); cbn; [done|]. rewrite u32_small, u64_small, Z.add_0_r by lia.
    split; [|done]. split_and!; (done || lia).
  - cbn [fst snd set_value_len set_rsvd rsvd opcode prp1 prp2 value_len cdw10]. rewrite u64_small by lia. split; [|done].
    rewrite length_take, length_drop. split; [done|]. split; [unfold value_len; cbn; rewrite u32_small; case_cmp; lia|].
    split; [done|]. split; [|lia]. set (w := take _ _). 
    replace (Z.of_nat (Z.to_nat vlen `min` (length v - Z.to_nat ro))) with (Z.of_nat (length w))
      by (unfold w; by rewrite length_take, length_drop).
    apply bytes_at_eq. intros i Hi. unfold w in *. rewrite length_take, length_drop in Hi.
    symmetry. apply of_list_lookup; [lia|].
    rewrite lookup_take_lt, lookup_drop by lia. rewrite <- Hv. unfold bytes_at. rewrite list_lookup_fmap, lookup_seqZ_lt by lia.
    cbn. do 2 f_equal. lia.
Qed.

Lemma device_retrieve_ok k M c key v vlen host start r B :
  holds k M B -> kv_command c key -> c.(opcode) = nvme_cmd_kv_retrieve -> cmd_value_length c = Ok vlen ->
  not_buffered k c (u8 (cmd_key_length c)) -> unhindered k k.(leftover_credits) -> M !! key = Some v ->
  let ro := c.(Queues.offset) in
  0 <= vlen -> 0 <= ro <= Z.of_nat (length v) -> ro mod 4 = 0 -> ro + vlen < 2 ^ 31 ->
  readable (Z.of_nat (length v)) vlen ro ->
  (forall w, retrieved v vlen ro = Some w -> host_ready c host (Z.of_nat (length w))) ->
  0 <= start <= B -> B + retrieve_cost k < 2 ^ 62 ->
  exists t i k' host',
    kv_round CityHash64 clock k host c start r =
      Ok (k', host', match retrieved v vlen ro with Some w => Z.of_nat (length w) | None => 0 end,
          mk_ret (match retrieved v vlen ro with Some _ => 0 | None => KV_ERR_BUFFER_SMALL end) t (RELEASE_MAP i)) /\
    still k k' /\ holds k' M (B + retrieve_cost k) /\ 0 <= t <= B + retrieve_cost k /\
    match retrieved v vlen ro with Some w => received c host host' w | None => host' = host end.
Proof.
  intros [(D & R & ->) S Q] Kc Eo Ev Nb Cr Hm ro Hv Hr Hr4 Hs Rd Hrdy Hst HB.
  unfold values in Hm. rewrite lookup_fmap in Hm. destruct (D !! key) as [[a n]|] eqn:Hd; [|done].
  cbn in Hm. injection Hm as Hm. destruct (value_range k D key a n R Hd) as (Ra & Rb & Rn).
  assert (En : n = Z.of_nat (length v)) by (rewrite <- Hm, length_bytes_at; lia). rewrite En in *.
  destruct (conv_read_ok CityHash64 clock k D c key start vlen a (Z.of_nat (length v)) B R S Q Kc Ev Hr4 (proj1 Hr) Nb Cr Hd
    Hv Hs Rd Hst HB) as (t & i & k1 & k2 & E1 & E2 & St & R2 & S2 & Q2 & Ht).
  fold ro in E1, E2. pose proof (retrieve_answer_ok c a v vlen ro k.(hp).(bytes) Hm Hv Hr (proj2 Rn) Hs Ra Rb) as An.
  set (ans := retrieve_answer _ _ _ _ _) in *. destruct An as (An & Ao & A1 & A2).
  assert (Sk1 : hp k1 = hp k).
  { rewrite <- (sk_heap _ _ St). cbn [run_callback] in E2. destruct (__release_map _ _) as [cc|]; [|done]. cbn in E2. by injection E2 as <-. }
  assert (Hh : holds k2 (values k D) (B + retrieve_cost k)).
  { split; [|done|done]. exists D. split; [done|]. unfold values. by rewrite (sk_heap _ _ St). }
  pose proof (read_latency_ok clock k vlen B S) as RL.
  assert (Run : forall k1' host' res, perform_kv k1 host ans.1 = Ok (res, k1', host') -> k1' = k1 ->
    kv_round CityHash64 clock k host c start r = Ok (k2, host', res, mk_ret ans.2 t (RELEASE_MAP i))).
  { intros k1' host' res E ->. unfold kv_round, kv_proc_nvme_io_cmd. rewrite Eo.
    cbn [Z.eqb Pos.eqb nvme_cmd_kv_store nvme_cmd_kv_batch nvme_cmd_kv_append nvme_cmd_kv_retrieve]. rewrite E1.
    cbn [mbind result_mbind result_bind]. rewrite E. cbn [mbind result_mbind result_bind app run_callbacks ret_cb]. by rewrite E2. }
  destruct (retrieved v vlen ro) as [w|].
  - destruct An as (B1 & B2 & B3 & B4 & B5).
    destruct (perform_retrieve_ok k1 host ans.1 w) as (host' & E & Rc); rewrite ?Ao, ?B1, ?Sk1; auto; try lia.
    { by apply (ready_same c); [done..|apply Hrdy]. }
    exists t, i, k2, host'. split; [rewrite <- B3; by apply (Run k1)|]. split; [done|]. split; [done|]. split; [lia|].
    destruct (prp_same c ans.1 host (Z.of_nat (length w)) A1 A2) as (_ & Ad & _).
    destruct Rc as [Rc1 Rc2]. split; [intros j Hj; rewrite <- Ad; by apply Rc1|].
    intros z Hz. apply Rc2. intros j Hj. rewrite Ad. by apply Hz.
  - destruct An as (B1 & B2). exists t, i, k2, host. split; [rewrite <- B2; apply (Run k1); [|done]|].
    { apply perform_nothing; [left; by rewrite Ao|done]. }
    split; [done|]. split; [done|]. split; [lia|done].
Qed.

(** A key that is not in the map. *)
Lemma device_absent_ok k M c key vlen host start r B :
  holds k M B -> kv_command c key -> c.(opcode) = nvme_cmd_kv_retrieve \/ c.(opcode) = nvme_cmd_kv_delete ->
  cmd_value_length c = Ok vlen -> not_buffered k c (u8 (cmd_key_length c)) -> unhindered k k.(leftover_credits) ->
  M !! key = None -> c.(Queues.offset) mod 4 = 0 -> 0 <= c.(Queues.offset) -> 0 <= vlen -> c.(Queues.offset) + vlen < 2 ^ 31 ->
  0 <= start <= B -> B + NAND_MAX * (3 * k.(max_try) + 2104) < 2 ^ 62 ->
  exists t cb k', kv_round CityHash64 clock k host c start r = Ok (k', host, 0, mk_ret KV_ERR_KEY_NOT_EXIST t cb) /\
    still k k' /\ holds k' M (B + NAND_MAX * (3 * k.(max_try) + 2104)).
Proof.
  intros [(D & R & ->) S Q] Kc Eo Ev Nb Cr Hm Hr4 Hr Hv Hs Hst HB.
  assert (Hd : D !! key = None) by (unfold values in Hm; by rewrite lookup_fmap, fmap_None in Hm).
  destruct (retrieve_absent_ok CityHash64 clock k D c key start vlen (bool_decide (c.(opcode) = nvme_cmd_kv_delete)) B R S Q Kc Ev
    Hr4 Hr Nb Cr Hd Hv Hs Hst HB) as (t & cb & k1 & k2 & E1 & _ & E2 & St & R2 & S2 & Q2 & Ht).
  exists t, cb, k2. split.
  - unfold kv_round, kv_proc_nvme_io_cmd, conv_read, conv_delete.
    assert (P : perform_kv k1 host (not_found c) = Ok (0, k1, host)) by (by apply perform_nothing).
    destruct Eo as [Eo|Eo]; rewrite Eo in *; cbn [Z.eqb Pos.eqb nvme_cmd_kv_store nvme_cmd_kv_batch nvme_cmd_kv_append nvme_cmd_kv_retrieve nvme_cmd_kv_delete].
    + rewrite bool_decide_eq_false_2 in E1 by done. rewrite E1. cbn [mbind result_mbind result_bind]. rewrite P.
      cbn [mbind result_mbind result_bind app run_callbacks ret_cb]. by rewrite E2.
    + rewrite bool_decide_eq_true_2 in E1 by done. rewrite E1. cbn [mbind result_mbind result_bind]. rewrite P.
      cbn [mbind result_mbind result_bind app run_callbacks ret_cb]. by rewrite E2.
  - split; [done|]. split; [|done|done]. exists D. split; [done|]. unfold values. by rewrite (sk_heap _ _ St).
Qed.

(** ** The contract *)

(** C2 (store): on an idle device that holds the map [M], a store of a key [M] does not have, for
    which the table has an entry, the kernel a block, the open line room and the mapping cache room for
    the sections on the way, never faults, answers with success, and once the worker has copied the value the device holds [M] with the key bound
    to the bytes of the host's buffer; the next pair goes behind the new one, which is at the entry
    its probes lead to. *)
Theorem device_store_correct k M c key n m x b p g host start r B :
  holds k M B -> kv_command c key -> c.(opcode) = nvme_cmd_kv_store -> cmd_value_length c = Ok n ->
  not_buffered k c (u8 (cmd_key_length c)) -> M !! key = None -> storable CityHash64 k key n m x b p g ->
  prp_ok c host n -> 0 <= start <= B -> B + store_cost m < 2 ^ 62 ->
  exists t k', kv_round CityHash64 clock k host c start r = Ok (k', host, 0, mk_ret 0 t (RELEASE_MAP (IDX x))) /\
    holds k' (<[key := host_bytes c host n]> M) (B + store_cost m) /\ 0 <= t <= B + store_cost m /\ key_stored k k' x key n m b p g.
Proof. apply device_store_ok. Qed.

(** C3 (retrieve): on an idle device that holds [M], a retrieve of a key of [M] never faults and
    leaves [M] as it is, provided that its offset is a multiple of four within the value, that it is
    [readable] - it ends within the first 4096 bytes, or within the value and is not one of at most 3072
    bytes that starts at offset 4096; a longer read stops the kernel -, that the mapping cache is not full,
    credits are left and no append buffer has the key.  With offset 0 a buffer too small for the whole
    value is refused and nothing is copied; otherwise the host's buffer receives exactly the bytes of the
    value from the offset on, to its end or to that of the buffer, and no other byte of the host changes. *)
Theorem device_retrieve_correct k M c key v vlen host start r B :
  holds k M B -> kv_command c key -> c.(opcode) = nvme_cmd_kv_retrieve -> cmd_value_length c = Ok vlen ->
  not_buffered k c (u8 (cmd_key_length c)) -> unhindered k k.(leftover_credits) -> M !! key = Some v ->
  let ro := c.(Queues.offset) in
  0 <= vlen -> 0 <= ro <= Z.of_nat (length v) -> ro mod 4 = 0 -> ro + vlen < 2 ^ 31 ->
  readable (Z.of_nat (length v)) vlen ro ->
  (forall w, retrieved v vlen ro = Some w -> host_ready c host (Z.of_nat (length w))) ->
  0 <= start <= B -> B + retrieve_cost k < 2 ^ 62 ->
  exists t i k' host',
    kv_round CityHash64 clock k host c start r =
      Ok (k', host', match retrieved v vlen ro with Some w => Z.of_nat (length w) | None => 0 end,
          mk_ret (match retrieved v vlen ro with Some _ => 0 | None => KV_ERR_BUFFER_SMALL end) t (RELEASE_MAP i)) /\
    still k k' /\ holds k' M (B + retrieve_cost k) /\ 0 <= t <= B + retrieve_cost k /\
    match retrieved v vlen ro with Some w => received c host host' w | None => host' = host end.
Proof. apply device_retrieve_ok. Qed.

(** C36 (missing keys): on an idle device that holds [M], whose mapping cache is not full and which has
    credits left, a retrieve or a delete of a key [M] does not have, with an offset that is a multiple of
    four, probes at most [max_try + 1] entries, answers that the key does not exist, moves no
    byte and changes nothing. *)
Theorem device_absent_correct k M c key vlen host start r B :
  holds k M B -> kv_command c key -> c.(opcode) = nvme_cmd_kv_retrieve \/ c.(opcode) = nvme_cmd_kv_delete ->
  cmd_value_length c = Ok vlen -> not_buffered k c (u8 (cmd_key_length c)) -> unhindered k k.(leftover_credits) ->
  M !! key = None -> c.(Queues.offset) mod 4 = 0 -> 0 <= c.(Queues.offset) -> 0 <= vlen -> c.(Queues.offset) + vlen < 2 ^ 31 ->
  0 <= start <= B -> B + NAND_MAX * (3 * k.(max_try) + 2104) < 2 ^ 62 ->
  exists t cb k', kv_round CityHash64 clock k host c start r = Ok (k', host, 0, mk_ret KV_ERR_KEY_NOT_EXIST t cb) /\
    still k k' /\ holds k' M (B + NAND_MAX * (3 * k.(max_try) + 2104)).
Proof. apply device_absent_ok. Qed.

(** C4 (store and retrieve): the bytes of the host's buffer at a store of a new key are the bytes
    that the retrieve of that key that comes next, with a buffer of at most a page or of the very size,
    puts into its own buffer. *)
Theorem store_retrieve_round_trip k M c c' key n vlen m x b p g host start start' r r' B :
  holds k M B -> kv_command c key -> c.(opcode) = nvme_cmd_kv_store -> cmd_value_length c = Ok n ->
  not_buffered k c (u8 (cmd_key_length c)) -> M !! key = None -> storable CityHash64 k key n m x b p g ->
  prp_ok c host n -> 0 <= start <= B ->
  kv_command c' key -> c'.(opcode) = nvme_cmd_kv_retrieve -> cmd_value_length c' = Ok vlen ->
  not_buffered k c' (u8 (cmd_key_length c')) -> c'.(Queues.offset) = 0 -> n <= vlen < 2 ^ 31 -> vlen <= 4096 \/ vlen = n ->
  host_ready c' host n -> 0 <= start' <= B -> B + NAND_MAX * (2 * m + 3 * Z.max m k.(max_try) + 7000) < 2 ^ 62 ->
  exists t k1, kv_round CityHash64 clock k host c start r = Ok (k1, host, 0, mk_ret 0 t (RELEASE_MAP (IDX x))) /\
    (unhindered k1 k1.(leftover_credits) ->
     exists t' i k2 host', kv_round CityHash64 clock k1 host c' start' r' = Ok (k2, host', n, mk_ret 0 t' (RELEASE_MAP i)) /\
       received c' host host' (host_bytes c host n)).
Proof.
  intros Hh Kc Eo Ev Nb Hm St P Hst Kc' Eo' Ev' Nb' Er Hn Hv Rdy Hst' HB.
  assert (HN : NAND_MAX = 35184372088832) by reflexivity. change (2 ^ 62) with 4611686018427387904 in *.
  assert (Hm0 : 0 <= m) by apply (st_slot _ _ _ _ _ _ _ _ _ St).
  destruct (device_store_ok k M c key n m x b p g host start r B Hh Kc Eo Ev Nb Hm St P Hst) as (t & k1 & E & Hh1 & _ & [_ _ _ Eab Et]);
    [change (2 ^ 62) with 4611686018427387904; unfold store_cost; destruct Hh as [(D0 & R0 & _) _ _]; pose proof (rp_tries _ _ _ R0); lia|].
  exists t, k1. split; [exact E|]. intros Cr. set (v := host_bytes c host n) in *.
  destruct (st_value _ _ _ _ _ _ _ _ _ St) as [Hn0 _].
  assert (Lv : Z.of_nat (length v) = n) by (unfold v, host_bytes; rewrite length_fmap, length_seqZ; lia).
  assert (Rv : retrieved v vlen 0 = Some v).
  { unfold retrieved. rewrite Z.eqb_refl, Lv. by rewrite (proj2 (Z.ltb_ge vlen n)) by lia. }
  assert (T : 0 <= k1.(max_try) <= 90000).
  { destruct Hh1 as [(D1 & R1 & _) _ _]. apply (rp_tries _ _ _ R1). }
  destruct (device_retrieve_ok k1 _ c' key v vlen host start' r' _ Hh1 Kc' Eo' Ev') as (t' & i & k2 & host' & E2 & _ & _ & _ & Rc);
    rewrite ?Er; rewrite ?Lv; unfold store_cost, retrieve_cost, readable; change (2 ^ 62) with 4611686018427387904; rewrite ?Et; try done; try lia.
  - intros need. rewrite Eab. apply Nb'.
  - apply lookup_insert_eq.
  - intros w. rewrite Rv. intros [= <-]. by rewrite Lv.
  - rewrite Er in *. rewrite Rv in *. rewrite Lv in E2. exists t', i, k2, host'. by split.
Qed.

End device.
