(* ===== verification/Deleting.v ===== *)
(** * Deleting a pair ([demand_ftl.c])

    A delete gives the block and the grains of a pair back and unmaps its
    entry.  It leaves no mark: a key whose probes led past that entry can no
    longer be found, so that the map is the one without the key only when no
    other stored key probes the entry. *)

From stdpp Require Import gmap.
From S2P Require Import Prelude Fifo Lru Append WorkQueue Queues Prp.
From S2P Require Import ChModel Ssd Geometry PQueue Line Lines Pages Place Cache Heap Pairs Kv Directory Lookup Opening Storing Device.

Section deleting.
Context `{AllocatorLaws} (CityHash64 : list Z -> Z) (clock : nat -> Z).

(** ** Probes *)

(** The probes of a key lead to one entry that holds it. *)
Lemma leads_unique k key n m x m' x' l l' : leads CityHash64 k key n m x -> leads CityHash64 k key n m' x' ->
  slot_holds k x key l -> slot_holds k x' key l' -> x = x' /\ m = m'.
Proof.
  assert (One : forall y key1 l1 key2 l2, slot_holds k y key1 l1 -> slot_holds k y key2 l2 -> key1 = key2).
  { intros y key1 l1 key2 l2 A B. by destruct (header_key _ _ _ _ _ _ (sl_header _ _ _ _ A) (sl_header _ _ _ _ B)). }
  induction 1 as [n m x E|n m x key1 l1 m1 x1 E Hx Hs Ne Hm _ IH]; intros L' S S'; inversion L'; subst.
  all: match goal with A : get_hash_idx _ _ = Ok _, A' : get_hash_idx _ _ = Ok _ |- _ => rewrite A in A'; injection A' as ??; subst end.
  - done.
  - by destruct (One _ _ _ _ _ S ltac:(eassumption)).
  - by destruct (One _ _ _ _ _ S' Hs).
  - by apply IH.
Qed.

(** An entry that holds a pair is its key's own. *)
Lemma slot_own k D x key n : represents CityHash64 k D -> 0 <= x < (cache_of k).(nr_valid_tentries) -> slot_holds k x key n ->
  own_entry k x key.
Proof.
  intros R Hx X. split.
  - intros key' l Y. by destruct (header_key _ _ _ _ _ _ (sl_header _ _ _ _ Y) (sl_header _ _ _ _ X)).
  - intros z l Hz Nz Z1. pose proof (rp_slots _ _ _ R) as R3.
    destruct (R3 z Hz (sl_mapped _ _ _ _ Z1)) as (key1 & l1 & m1 & A1 & A2 & A3 & _).
    destruct (R3 x Hx (sl_mapped _ _ _ _ X)) as (key2 & l2 & m2 & B1 & B2 & B3 & _).
    destruct (header_key _ _ _ _ _ _ (sl_header _ _ _ _ Z1) (sl_header _ _ _ _ A1)) as [<- _].
    destruct (header_key _ _ _ _ _ _ (sl_header _ _ _ _ X) (sl_header _ _ _ _ B1)) as [<- _].
    by destruct (leads_unique _ _ _ _ _ _ _ _ _ A3 B3 A1 B1).
Qed.

(** No other stored key has [x] among its probes. *)
Definition lonely {A} (k : kv) (D : gmap (list Z) A) (key : list Z) (x : Z) : Prop :=
  forall key' j, is_Some (D !! key') -> key' <> key -> probe (cache_of k) (key_hash CityHash64 key') j <> x.

(** ** The map without the key *)

Record pair_removed (k k' : kv) (x : Z) : Prop := {
  pr_table : forall y, table (cache_of k') y = if y =? x then UINT_MAX else table (cache_of k) y;
  pr_mem : forall y, pair_at (cache_of k') y = if y =? x then 0 else pair_at (cache_of k) y;
  pr_pages : (cache_of k').(nr_valid_tpages) = (cache_of k).(nr_valid_tpages);
  pr_entries : (cache_of k').(nr_valid_tentries) = (cache_of k).(nr_valid_tentries);
  pr_heap : k'.(hp) = mk_heap k.(hp).(bytes) (delete (pair_at (cache_of k) x) k.(hp).(blocks));
  pr_tries : k'.(max_try) = k.(max_try);
  pr_open : forall i, ((cache_of k').(ht) i).(t_ppa) = ((cache_of k).(ht) i).(t_ppa);
  pr_bufs : k'.(ab) = k.(ab);
  pr_sp : sp_of (shard_of k') = sp_of (shard_of k);
  pr_oob : (shard_of k').(oob) = (shard_of k).(oob);
  pr_bits : forall q, bit (shard_of k') q = if q =? table (cache_of k) x then false else bit (shard_of k) q
}.

Lemma removed_slot k k' x key n y key' l : heap_ok k.(hp) -> pair_removed k k' x -> slot_holds k x key n ->
  y <> x -> key' <> key -> slot_holds k y key' l -> slot_holds k' y key' l.
Proof.
  intros Ho P X Ny Nk [(b & p & g & Pl) O M K L Hh (sz & Bk & Bs)].
  assert (Ey : table (cache_of k') y = table (cache_of k) y) by (rewrite (pr_table _ _ _ P); by rewrite (proj2 (Z.eqb_neq y x))).
  assert (Em : pair_at (cache_of k') y = pair_at (cache_of k) y) by (rewrite (pr_mem _ _ _ P); by rewrite (proj2 (Z.eqb_neq y x))).
  assert (Nt : table (cache_of k) y <> table (cache_of k) x) by (intros E; rewrite E, (sl_owner _ _ _ _ X) in O; congruence).
  assert (Na : pair_at (cache_of k) y <> pair_at (cache_of k) x).
  { intros E. rewrite E in Hh. by destruct (header_key _ _ _ _ _ _ Hh (sl_header _ _ _ _ X)). }
  split; rewrite ?Ey, ?Em, ?(pr_oob _ _ _ P), ?(pr_heap _ _ _ P); try done.
  - exists b, p, g. destruct Pl as [P1 P2 P3 P4 P5]. split; rewrite ?(pr_sp _ _ _ P), ?(pr_oob _ _ _ P); try done.
    rewrite (pr_bits _ _ _ P). by rewrite (proj2 (Z.eqb_neq _ _) Nt).
  - exists sz. cbn. by rewrite lookup_delete_ne.
Qed.

Lemma removed_leads k k' D x key n key' i j y : represents CityHash64 k D -> pair_removed k k' x ->
  slot_holds k x key n -> (forall i, probe (cache_of k) (key_hash CityHash64 key') i <> x) ->
  0 <= i <= k.(max_try) + 1 -> j <= k.(max_try) ->
  (forall z l, 0 <= z < (cache_of k).(nr_valid_tentries) -> z <> x -> slot_holds k z key l -> False) ->
  leads CityHash64 k key' i j y -> leads CityHash64 k' key' i j y.
Proof.
  intros R P X Lo Hi Hj Only L. destruct (rp_tries _ _ _ R) as [T1 [T2 T3]]. change (2 ^ 31) with 2147483648 in T3.
  assert (Pr : forall q, get_hash_idx (cache_of k') q = get_hash_idx (cache_of k) q).
  { unfold get_hash_idx. generalize probe_fuel. intros fuel. induction fuel as [|fuel IH]; intros q; [done|].
    cbn [get_hash_loop]. unfold probe. rewrite (pr_entries _ _ _ P). by rewrite IH. }
  revert Hi Hj. induction L as [i j y E|i j y key'' l j' y' E Hy Hs Ne Hm _ IH]; intros Hi Hj.
  - apply leads_here. by rewrite Pr.
  - destruct (get_hash_idx_ok (cache_of k) (key_hash CityHash64 key') i 0) as (q & E' & _ & F2 & F3 & _);
      [apply u32_range|lia|lia|]. rewrite E in E'. injection E' as <-. cbn in F2, F3.
    assert (Nx : y <> x) by (rewrite F3; apply Lo).
    eapply leads_on; try done; rewrite ?Pr, ?(pr_entries _ _ _ P); try done; [|apply IH; try done; lia].
    apply (removed_slot k k' x key n); try done; [apply R|]. intros ->. by apply (Only y l).
Qed.

Lemma removed_represents k k' D x key n a : represents CityHash64 k D -> pair_removed k k' x ->
  0 <= x < (cache_of k).(nr_valid_tentries) -> slot_holds k x key n -> D !! key = Some (a, n) -> lonely k D key x ->
  represents CityHash64 k' (delete key D).
Proof.
  intros R P Hx X Hd Lo. pose proof R as [R1 R2 R3 R4].
  destruct (slot_own k D x key n R Hx X) as [_ Only].
  split; rewrite ?(pr_entries _ _ _ P), ?(pr_tries _ _ _ P); try done.
  - rewrite (pr_heap _ _ _ P). by apply heap_ok_free.
  - intros y Hy. rewrite (pr_table _ _ _ P). destruct (Z.eqb_spec y x) as [->|Ny]; [done|]. intros Hm.
    destruct (R3 y Hy Hm) as (key' & l & j & A1 & A2 & A3 & A4).
    assert (Nk : key' <> key) by (intros ->; by apply (Only y l)).
    exists key', l, j. split; [by apply (removed_slot k k' x key n)|].
    split; [|split; [|done]].
    + rewrite lookup_delete_ne by congruence. unfold value_at. rewrite (pr_mem _ _ _ P). by rewrite (proj2 (Z.eqb_neq y x)).
    + apply (removed_leads k k' D x key n key' 0 j y R P X); try done; [intros i; apply Lo; [by eexists|done]|lia].
  - intros key' a' l Hk. apply lookup_delete_Some in Hk as [Nk Hk].
    destruct (R4 key' a' l Hk) as (y & j & A1 & A2 & A3 & A4 & A5).
    assert (Ny : y <> x).
    { intros ->. destruct (header_key _ _ _ _ _ _ (sl_header _ _ _ _ A2) (sl_header _ _ _ _ X)). congruence. }
    exists y, j. split; [done|]. split; [apply (removed_slot k k' x key n); try done; congruence|]. split; [|split; [|done]].
    + rewrite A3. unfold value_at. rewrite (pr_mem _ _ _ P). by rewrite (proj2 (Z.eqb_neq y x)).
    + apply (removed_leads k k' D x key n key' 0 j y R P X); try done; [intros i; apply Lo; [by eexists|congruence]|lia].
Qed.

(** ** The command *)

(** The pair of entry [x] lies in one page whose counters are in order. *)
Record removable (k : kv) (x : Z) (key : list Z) (n : Z) (p : ppa) : Prop := {
  rm_inv : shard_inv (shard_of k);
  rm_page : ppa_to_struct (sp_of (shard_of k)) (table (cache_of k) x / 8) = Ok p;
  rm_one : table (cache_of k) x mod 8 + pair_grains key n <= 8;
  rm_status : (page_at_ppa (shard_of k) p).(status) = PG_VALID;
  rm_blk : let b := blk_at (shard_of k).(sd) p in 0 < b.(Ssd.vgc) <= 256 /\ 0 <= b.(Ssd.igc) < 256;
  rm_line : let l := (shard_of k).(lm).(lines) p.(g_blk) in pair_grains key n <= l.(vgc) /\
    (l.(vgc) = line_grains (sp_of (shard_of k)) -> p.(g_blk) ∈ (shard_of k).(lm).(full_line_list))
}.

Lemma still_removable k k' x key n p B : sound clock k B -> still k k' -> 0 <= x < (cache_of k).(nr_valid_tentries) ->
  tree_ok (shard_of k').(sd) -> removable k x key n p -> removable k' x key n p.
Proof.
  intros S St Hx T [[I1 I2] R2 R3 R4 R5 R6]. destruct (sk_flash _ _ St) as (E & Es & Ep).
  pose proof (proj1 (sk_table _ _ St x (IDX_range clock _ _ _ S Hx))) as Et.
  assert (El : lm (shard_of k') = lm (shard_of k)) by (by rewrite E).
  assert (Esp : sp_of (shard_of k') = sp_of (shard_of k)) by exact Es.
  assert (Pl : forall q, blk_at (shard_of k').(sd) q = blk_at (shard_of k).(sd) q).
  { intros q. unfold blk_at. by rewrite Ep. }
  split; rewrite ?Et, ?Esp, ?Pl, ?El; try done; [split; [done|by rewrite ?El, ?Esp]|]. unfold page_at_ppa. by rewrite Pl.
Qed.

(** What the handler does when it stands at the entry. *)
Lemma delete_found_ok k c x key n p B : heap_ok k.(hp) -> sound clock k B -> busy k (IDX x) ->
  cache_hit ((cache_of k).(ht) (IDX x)) = true -> 0 <= x < (cache_of k).(nr_valid_tentries) ->
  slot_holds k x key n -> removable k x key n p ->
  exists k', retrieve_found k c (IDX x) x (table (cache_of k) x) (pair_grains key n) (pair_at (cache_of k) x) n 0 0 true =
      Ok (k', set_rsvd c U64_MAX, 0) /\ pair_removed k k' x /\ sound clock k' B /\ busy k' (IDX x) /\
    shard_inv (shard_of k') /\ grains_lost (shard_of k) (shard_of k') p (table (cache_of k) x) (pair_grains key n).
Proof.
  intros Ho S Bz Hh Hx X [I R2 R3 R4 R5 [R6 R7]]. pose proof (sound_geom clock _ _ S) as G.
  destruct (slot_pair _ _ _ _ Ho X) as (Hm & Hd & sz & Hb & Hsz). pose proof (sl_key _ _ _ _ X) as K.
  pose proof (IDX_range clock _ _ _ S Hx) as Hi.
  destruct (so_cache _ _ _ S) as (F & V & Ic).
  assert (Hin : IDX x ∈ F ++ V) by (by apply (ci_cached _ _ _ _ Ic _ Hi)).
  destruct (sl_grain _ _ _ _ X) as (b & p0 & g & [L1 L2 (L3 & L4 & L5) L6 L7]).
  assert (Hg : 0 < pair_grains key n) by (destruct (sl_len _ _ _ _ X) as [Hn _]; pose proof (slot_room key n Hn); unfold header_size in *; lia).
  pose proof (pgidx_range _ G _ (page_at_ok _ G b p0 L2 ltac:(zlia))) as Hpg.
  destruct (mark_grain_invalid_ok (shard_of k) p (table (cache_of k) x) (pair_grains key n)
    (blk_at (shard_of k).(sd) p).(Ssd.vgc) (blk_at (shard_of k).(sd) p).(Ssd.igc) I) as (s' & E & I' & Es & Lo);
    rewrite ?GPP_val, ?(blk_grains_val _ G); try done; try lia; try apply R5.
  unfold retrieve_found. rewrite (klen_ok _ _ _ _ _ Hd Hb Hm Hsz). cbn [mbind result_mbind result_bind].
  rewrite Z.add_0_l, (u32_small (1 + _ + 4)), Z.sub_diag by lia. change (u32 0) with 0. cbn [Z.eqb andb].
  unfold kfree. rewrite (proj2 (Z.eqb_neq _ 0) Hm), Hb. cbn [mbind result_mbind result_bind]. rewrite E.
  cbn [mbind result_mbind result_bind].
  match goal with |- context [set_hp (set_shard k s') ?h] => set (k1 := set_hp (set_shard k s') h) end.
  change (cache_of k1) with (cache_of k). rewrite section_ok by done. cbn [mbind result_mbind result_bind].
  destruct (update_map_ok (cache_of k) k.(fl).(vb) F V x 0 UINT_MAX Ic Hin) as (h' & E4 & I4 & O4 & T4 & Tb).
  rewrite E4. cbn [mbind result_mbind result_bind].
  match goal with |- exists k', Ok (?k2, _, _) = _ /\ _ => set (k' := k2) end. exists k'. split; [done|].
  assert (Et : forall y, table (cache_of k') y = upd (table (cache_of k)) x UINT_MAX y /\
    pair_at (cache_of k') y = upd (pair_at (cache_of k)) x 0 y) by exact Tb.
  assert (Esp : sp_of (shard_of k') = sp_of (shard_of k)) by exact Es.
  split; [|split; [|split; [|split; [exact I'|exact Lo]]]].
  - split; try done.
    + intros y. etransitivity; [apply Et|]. by rewrite upd_case.
    + intros y. etransitivity; [apply Et|]. by rewrite upd_case.
    + intros j. cbn. rewrite upd_case. by destruct (Z.eqb_spec j (IDX x)) as [->|].
    + apply (gl_rest _ _ _ _ _ Lo).
    + intros q. apply (gl_bitmap _ _ _ _ _ Lo).
  - destruct S as [S1 S2 S3 S5 S6 S7 S8]. split; rewrite ?Esp; try assumption.
    + by exists F, V.
    + intros j Hj. cbn. rewrite upd_case. destruct (Z.eqb_spec j (IDX x)) as [->|]; [|by apply S5].
      rewrite T4. intros Hj'. destruct (S5 _ Hj Hj') as [_ Y]. split; [|done].
      destruct (ci_mem _ _ _ _ I4 (IDX x) Hin) as [mm Em]. cbn in Em. rewrite upd_eq in Em. by exists mm.
    + intros y Hy. rewrite (proj1 (Et y)), upd_case. cbn. rewrite upd_case. destruct (Z.eqb_spec y x) as [->|Ny]; [done|]. intros Hm'.
      destruct (Z.eqb_spec (IDX y) (IDX x)) as [E'|]; [rewrite T4, <- E'; by apply S6|by apply S6].
    + apply (nand_ready_kept clock (shard_of k).(sd)); [done|apply I'|]. by eapply mark_grain_invalid_timing.
  - intros j Hj. cbn. rewrite upd_case. destruct (Z.eqb_spec j (IDX x)) as [->|Nj]; [rewrite O4, (Bz _ Hi); by rewrite Z.eqb_refl|].
    rewrite (Bz j Hj). by rewrite (proj2 (Z.eqb_neq j _)).
Qed.

(** What a delete of the pair of entry [x] leaves when its callback has run. *)
Record pair_deleted (k k' : kv) (x : Z) (p : ppa) (len B : Z) : Prop := {
  pd_sound : sound clock k' B;
  pd_quiet : quiet k';
  pd_entries : (cache_of k').(nr_valid_tentries) = (cache_of k).(nr_valid_tentries);
  pd_tries : k'.(max_try) = k.(max_try);
  pd_free : table (cache_of k') x = UINT_MAX;
  pd_open : ((cache_of k').(ht) (IDX x)).(t_ppa) <> UINT_MAX;
  pd_bufs : k'.(ab) = k.(ab);
  pd_bytes : k'.(hp).(bytes) = k.(hp).(bytes);
  pd_freed : k'.(hp).(blocks) = delete (pair_at (cache_of k) x) k.(hp).(blocks);
  pd_grains : grains_lost (shard_of k) (shard_of k') p (table (cache_of k) x) len
}.

(** The timing of the device and the credits do not matter to the grains. *)
Lemma grains_lost_calm s0 s s' s1 p g len : calm s0 s -> calm s' s1 -> grains_lost s s' p g len -> grains_lost s0 s1 p g len.
Proof.
  clear CityHash64. intros (E & Es & Ep) (E' & Es' & Ep') [L Bm Bk St (O & W & Of)].
  assert (Bl : forall q, blk_at s.(sd) q = blk_at s0.(sd) q) by (intros q; unfold blk_at; by rewrite Ep).
  assert (Bl' : forall q, blk_at s1.(sd) q = blk_at s'.(sd) q) by (intros q; unfold blk_at; by rewrite Ep').
  assert (Es0 : sp_of s = sp_of s0) by exact Es.
  split.
  - rewrite <- Es0. replace (lm s0) with (lm s) by (by rewrite E). replace (lm s1) with (lm s') by (by rewrite E'). exact L.
  - intros q. replace (grain_bitmap s1) with (grain_bitmap s') by (by rewrite E'). replace (grain_bitmap s0) with (grain_bitmap s) by (by rewrite E). apply Bm.
  - intros q. rewrite Bl', <- Bl. apply Bk.
  - intros q. unfold page_at_ppa. rewrite Bl', <- Bl. apply St.
  - rewrite E', E in *. split; [exact O|]. split; [exact W|exact Of].
Qed.

Lemma conv_delete_ok k D c key n x p start B :
  represents CityHash64 k D -> sound clock k B -> quiet k -> kv_command c key -> cmd_value_length c = Ok 0 ->
  c.(Queues.offset) = 0 -> not_buffered k c (u8 (cmd_key_length c)) -> unhindered k k.(leftover_credits) ->
  0 <= x < (cache_of k).(nr_valid_tentries) -> slot_holds k x key n -> removable k x key n p ->
  0 <= start <= B -> B + retrieve_cost k < 2 ^ 62 ->
  exists t k1 k2, conv_delete CityHash64 clock k c start = Ok (k1, set_rsvd c U64_MAX, mk_ret 0 t (RELEASE_MAP (IDX x))) /\
    run_callback k1 (RELEASE_MAP (IDX x)) = Ok k2 /\ hp k1 = hp k2 /\ pair_deleted k k2 x p (pair_grains key n) (B + retrieve_cost k) /\
    (lonely k D key x -> represents CityHash64 k2 (delete key D)).
Proof.
  intros R S Q Kc Ev Eo Nb Cr Hx X Rm Hst HB. unfold retrieve_cost in *.
  change (2 ^ 62) with 4611686018427387904 in *. assert (HN : NAND_MAX = 35184372088832) by reflexivity.
  destruct (rp_slots _ _ _ R x Hx (sl_mapped _ _ _ _ X)) as (key' & n' & m & X' & Hd & L & Hm).
  destruct (header_key _ _ _ _ _ _ (sl_header _ _ _ _ X) (sl_header _ _ _ _ X')) as [<- <-]. clear X'.
  destruct (rp_tries _ _ _ R) as [T _].
  destruct (retrieve_begin CityHash64 clock k c key start 0 true B S Kc Ev) as (t0 & k0 & St0 & S0 & Ht0 & Q0 & E0);
    rewrite ?Eo; try done; [change (2 ^ 62) with 4611686018427387904; lia|].
  rewrite Eo in E0. unfold conv_delete. rewrite E0. clear E0. pose proof (read_latency_ok clock k 0 B S) as RL.
  destruct (retrieve_reach CityHash64 clock k D B key 0 m x n c (u8 (cmd_key_length c)) 0 0
    (start + read_latency (sp_of (shard_of k)) 0) true R S L ltac:(lia) Hm Hx X (kc_names _ _ Kc) ltac:(done) ltac:(done) ltac:(done)
    (or_introl eq_refl) (retrieve_fuel k0) k0 0 t0 (B + NAND_MAX) St0 S0 (Q0 Q)) as (t1 & k1 & -> & St1 & S1 & Bz & Hh & Ht1);
    [lia|change (2 ^ 62) with 4611686018427387904; lia|unfold retrieve_fuel; rewrite (sk_tries _ _ St0); lia|].
  set (B1 := B + NAND_MAX + NAND_MAX * (3 * (m - 0) + 2100)) in *.
  assert (Hx1 : 0 <= x < (cache_of k1).(nr_valid_tentries)) by (by rewrite (sk_entries _ _ St1)).
  pose proof (still_slot _ _ _ _ _ St1 (IDX_range clock _ _ _ S Hx) X) as X1.
  assert (R1 : represents CityHash64 k1 D) by (by apply (still_represents CityHash64 clock k k1 D B)).
  assert (Rm1 : removable k1 x key n p) by (apply (still_removable k k1 x key n p B); try done; apply (so_dev _ _ _ S1)).
  destruct (delete_found_ok k1 c x key n p B1 (rp_heap _ _ _ R1) S1 Bz Hh Hx1 X1 Rm1) as (k2 & -> & P & S2 & Bz2 & _ & Lo2).
  cbn [mbind result_mbind result_bind].
  destruct (wallclock_ok clock k2 t1 _ S2) as (t2 & k3 & -> & St3 & S3 & Ht3 & Ec); [unfold B1 in *; lia|].
  assert (Hi3 : 0 <= IDX x < (cache_of k3).(nr_valid_tpages)).
  { rewrite Ec, (pr_pages _ _ _ P). by apply (IDX_range clock _ _ _ S1). }
  destruct (release_ok clock k3 (IDX x) _ S3 Hi3) as (k4 & E4 & St4 & S4 & Q4).
  { intros j. rewrite Ec. apply Bz2. }
  assert (St24 : still k2 k4) by (by etransitivity).
  assert (Ea : pair_at (cache_of k1) x = pair_at (cache_of k) x) by (apply (sk_table _ _ St1 x (IDX_range clock _ _ _ S Hx))).
  exists t2, k3, k4. split; [done|]. split; [done|]. split; [symmetry; apply St4|]. split.
  - split; rewrite ?(sk_entries _ _ St24), ?(sk_tries _ _ St24), ?(sk_open _ _ St24), ?(sk_bufs _ _ St24), ?(sk_heap _ _ St24).
    + apply (sound_mono clock _ _ _ S4). unfold B1. lia.
    + done.
    + by rewrite (pr_entries _ _ _ P), (sk_entries _ _ St1).
    + by rewrite (pr_tries _ _ _ P), (sk_tries _ _ St1).
    + rewrite (proj1 (sk_table _ _ St24 x ltac:(rewrite <- Ec; done))), (pr_table _ _ _ P), Z.eqb_refl. done.
    + rewrite (pr_open _ _ _ P), (sk_open _ _ St1). by apply (so_mapped _ _ _ S x Hx), (sl_mapped _ _ _ _ X).
    + by rewrite (pr_bufs _ _ _ P), (sk_bufs _ _ St1).
    + by rewrite (pr_heap _ _ _ P), (sk_heap _ _ St1).
    + by rewrite (pr_heap _ _ _ P), Ea, (sk_heap _ _ St1).
    + rewrite <- (proj1 (sk_table _ _ St1 x (IDX_range clock _ _ _ S Hx))).
      by apply (grains_lost_calm _ _ _ _ _ _ _ (sk_flash _ _ St1) (sk_flash _ _ St24)).
  - intros Lo. apply (still_represents CityHash64 clock k2 k4 _ B1 S2 St24).
    apply (removed_represents k1 k2 D x key n (value_at k x key)); try done.
    intros key' j Hk Nk. unfold probe. rewrite (sk_entries _ _ St1). by apply Lo.
Qed.

(** ** The device *)

Lemma values_delete k k' D key : k'.(hp).(bytes) = k.(hp).(bytes) -> values k' (delete key D) = delete key (values k D).
Proof. intros E. unfold values. by rewrite E, fmap_delete. Qed.

(** A whole delete: the round of the command. *)
Lemma delete_round k host c start r t k1 k2 i : c.(opcode) = nvme_cmd_kv_delete ->
  conv_delete CityHash64 clock k c start = Ok (k1, set_rsvd c U64_MAX, mk_ret 0 t (RELEASE_MAP i)) ->
  run_callback k1 (RELEASE_MAP i) = Ok k2 ->
  kv_round CityHash64 clock k host c start r = Ok (k2, host, 0, mk_ret 0 t (RELEASE_MAP i)).
Proof.
  intros Eo E1 E2. unfold kv_round, kv_proc_nvme_io_cmd. rewrite Eo.
  cbn [Z.eqb Pos.eqb nvme_cmd_kv_store nvme_cmd_kv_batch nvme_cmd_kv_append nvme_cmd_kv_retrieve nvme_cmd_kv_delete].
  rewrite E1. cbn [mbind result_mbind result_bind]. rewrite perform_nothing; [|by right|done].
  cbn [mbind result_mbind result_bind app run_callbacks ret_cb]. by rewrite E2.
Qed.

Lemma device_delete_ok k M c key n x p host start r B :
  holds CityHash64 clock k M B -> kv_command c key ->
  c.(opcode) = nvme_cmd_kv_delete -> cmd_value_length c = Ok 0 ->
  c.(Queues.offset) = 0 -> not_buffered k c (u8 (cmd_key_length c)) -> unhindered k k.(leftover_credits) ->
  0 <= x < (cache_of k).(nr_valid_tentries) -> slot_holds k x key n -> removable k x key n p -> lonely k M key x ->
  0 <= start <= B -> B + retrieve_cost k < 2 ^ 62 ->
  exists t k', kv_round CityHash64 clock k host c start r = Ok (k', host, 0, mk_ret 0 t (RELEASE_MAP (IDX x))) /\
    holds CityHash64 clock k' (delete key M) (B + retrieve_cost k) /\ pair_deleted k k' x p (pair_grains key n) (B + retrieve_cost k).
Proof.
  intros [(D & R & ->) S Q] Kc Eo Ev Er Nb Cr Hx X Rm Lo Hst HB.
  destruct (conv_delete_ok k D c key n x p start B R S Q Kc Ev Er Nb Cr Hx X Rm Hst HB)
    as (t & k1 & k2 & E1 & E2 & _ & Pd & R2).
  exists t, k2. split; [by apply (delete_round _ _ _ _ _ _ k1)|]. split; [|done]. destruct Pd. split; [|done|done].
  exists (delete key D). split; [|symmetry; by apply values_delete]. apply R2. intros key' j Hk. apply Lo.
  unfold values. rewrite lookup_fmap. by apply fmap_is_Some.
Qed.

(** ** The keys behind a deleted one *)

(** The first probe of [key'] is the entry that was given free: a retrieve of
    [key'] ends there. *)
Lemma hidden_ok k x key' c start vlen m B : sound clock k B -> quiet k ->
  0 <= x < (cache_of k).(nr_valid_tentries) -> table (cache_of k) x = UINT_MAX ->
  ((cache_of k).(ht) (IDX x)).(t_ppa) <> UINT_MAX -> 0 <= k.(max_try) ->
  get_hash_idx (cache_of k) (mk_hash (key_hash CityHash64 key') 0 0) = Ok (mk_hash (key_hash CityHash64 key') m x) ->
  m <= k.(max_try) -> kv_command c key' -> cmd_value_length c = Ok vlen -> c.(Queues.offset) mod 4 = 0 ->
  not_buffered k c (u8 (cmd_key_length c)) -> unhindered k k.(leftover_credits) ->
  0 <= start <= B -> B + NAND_MAX * 2 < 2 ^ 62 ->
  exists t k', conv_read CityHash64 clock k c start = Ok (k', not_found c, mk_ret KV_ERR_KEY_NOT_EXIST t NO_CB).
Proof.
  intros S Q Hx Hu Ht Hmt E Hm Kc Ev Ho Nb Cr Hst HB.
  change (2 ^ 62) with 4611686018427387904 in *. assert (HN : NAND_MAX = 35184372088832) by reflexivity.
  destruct (retrieve_begin CityHash64 clock k c key' start vlen false B S Kc Ev Ho Nb Cr Hst) as (t0 & k0 & St0 & S0 & Ht0 & Q0 & E0);
    [change (2 ^ 62) with 4611686018427387904; lia|].
  pose proof (read_latency_ok clock k vlen B S) as RL.
  pose proof (IDX_range clock _ _ _ S Hx) as Hi. unfold conv_read. rewrite E0. clear E0. unfold retrieve_fuel.
  destruct (retrieve_hole CityHash64 clock (Datatypes.S (Z.to_nat (max_try k0))) k0 key' 0 m x c (u8 (cmd_key_length c)) vlen c.(Queues.offset)
    (start + read_latency (sp_of (shard_of k)) vlen) t0 0 false (B + NAND_MAX) S0 (Q0 Q)) as (t & k1 & -> & St1 & S1 & Q1 & Ht1);
    rewrite ?(sk_entries _ _ St0), ?(sk_open _ _ St0), ?(sk_tries _ _ St0), ?(still_probe _ _ _ St0); try done.
  - by rewrite (proj1 (sk_table _ _ St0 x Hi)).
  - lia.
  - change (2 ^ 62) with 4611686018427387904. lia.
  - cbn [mbind result_mbind result_bind]. unfold wallclock, __get_ioclock. by eexists _, _.
Qed.

(** C5 (delete): on an idle device that holds [M], a delete of a key whose pair lies in one page
    and whose entry no other stored key probes, while the mapping cache is not full and credits are left,
    never faults and leaves the device with [M] without
    the key.  The block of the pair is freed, its entry unmapped, the bit of its first grain
    cleared and no other, and its grains are counted as dead in its line and its flash block, every
    other line and block keeping its counters; no cell out of band and no write pointer moves. *)
Theorem device_delete_correct k M c key n x p host start r B :
  holds CityHash64 clock k M B -> kv_command c key ->
  c.(opcode) = nvme_cmd_kv_delete -> cmd_value_length c = Ok 0 ->
  c.(Queues.offset) = 0 -> not_buffered k c (u8 (cmd_key_length c)) -> unhindered k k.(leftover_credits) ->
  0 <= x < (cache_of k).(nr_valid_tentries) -> slot_holds k x key n -> removable k x key n p -> lonely k M key x ->
  0 <= start <= B -> B + retrieve_cost k < 2 ^ 62 ->
  exists t k', kv_round CityHash64 clock k host c start r = Ok (k', host, 0, mk_ret 0 t (RELEASE_MAP (IDX x))) /\
    holds CityHash64 clock k' (delete key M) (B + retrieve_cost k) /\ pair_deleted k k' x p (pair_grains key n) (B + retrieve_cost k).
Proof. apply device_delete_ok. Qed.

(** C37 (keys behind a deleted one): a delete of a pair in one page leaves no mark in the table.  When the
    first probe of another stored key is the entry of the deleted pair, every retrieve of that key that comes
    next answers that it does not exist, although it was never deleted. *)
Theorem delete_hides_keys k M c key n x p key' v m host start r B :
  holds CityHash64 clock k M B -> kv_command c key ->
  c.(opcode) = nvme_cmd_kv_delete -> cmd_value_length c = Ok 0 ->
  c.(Queues.offset) = 0 -> not_buffered k c (u8 (cmd_key_length c)) -> unhindered k k.(leftover_credits) ->
  0 <= x < (cache_of k).(nr_valid_tentries) -> slot_holds k x key n -> removable k x key n p ->
  0 <= start <= B -> B + retrieve_cost k + NAND_MAX * 2 < 2 ^ 62 ->
  key' <> key -> M !! key' = Some v -> m <= k.(max_try) ->
  get_hash_idx (cache_of k) (mk_hash (key_hash CityHash64 key') 0 0) = Ok (mk_hash (key_hash CityHash64 key') m x) ->
  exists t k', kv_round CityHash64 clock k host c start r = Ok (k', host, 0, mk_ret 0 t (RELEASE_MAP (IDX x))) /\
    forall c' vlen start' r', kv_command c' key' -> c'.(opcode) = nvme_cmd_kv_retrieve -> cmd_value_length c' = Ok vlen ->
      c'.(Queues.offset) mod 4 = 0 -> not_buffered k c' (u8 (cmd_key_length c')) ->
      unhindered k' k'.(leftover_credits) -> 0 <= start' <= B ->
      exists t' k2, kv_round CityHash64 clock k' host c' start' r' = Ok (k2, host, 0, mk_ret KV_ERR_KEY_NOT_EXIST t' NO_CB).
Proof.
  intros [(D & R & ->) S Q] Kc Eo Ev Er Nb Cr Hx X Rm Hst HB Nk Hk Hm Pr.
  assert (HN : NAND_MAX = 35184372088832) by reflexivity. change (2 ^ 62) with 4611686018427387904 in *.
  pose proof (rp_tries _ _ _ R) as [T _].
  destruct (conv_delete_ok k D c key n x p start B R S Q Kc Ev Er Nb Cr Hx X Rm Hst) as (t & k1 & k2 & E1 & E2 & _ & Pd & _);
    [change (2 ^ 62) with 4611686018427387904; lia|].
  exists t, k2. split; [by apply (delete_round _ _ _ _ _ _ k1)|]. destruct Pd as [P1 P2 P3 P4 P5 P6 P7 P8 P9 _].
  intros c' vlen start' r' Kc' Eo' Ev' Er' Nb' Cr' Hst'.
  destruct (hidden_ok k2 x key' c' start' vlen m (B + retrieve_cost k) P1 P2) as (t' & k3 & E3); rewrite ?P3, ?P4; try done; try lia.
  - rewrite <- Pr. unfold get_hash_idx. generalize probe_fuel (mk_hash (key_hash CityHash64 key') 0 0). intros fuel.
    induction fuel as [|fuel IH]; intros q; [done|]. cbn [get_hash_loop]. unfold probe. rewrite P3. by rewrite IH.
  - intros need. rewrite P7. apply Nb'.
  - unfold retrieve_cost. lia.
  - exists t', k3. unfold kv_round, kv_proc_nvme_io_cmd. rewrite Eo'.
    cbn [Z.eqb Pos.eqb nvme_cmd_kv_store nvme_cmd_kv_batch nvme_cmd_kv_append nvme_cmd_kv_retrieve]. rewrite E3.
    cbn [mbind result_mbind result_bind]. rewrite perform_nothing; [|by left|done]. done.
Qed.

End deleting.
