(* ===== verification/Overwriting.v ===== *)
(** * Storing a key that is there already ([demand_ftl.c])

    The probes lead to the entry of the old pair.  The new one keeps its block
    when it takes no more grains, and gets a new one otherwise; the grains of the
    old pair are given up, and the new pair goes to flash behind the last one.
    The entry stays where it is, so that every other key is found as before. *)

From stdpp Require Import gmap.
From S2P Require Import Prelude Fifo Lru Append WorkQueue Queues Prp.
From S2P Require Import ChModel Ssd Geometry PQueue Line Lines Pages Place Cache Heap Pairs Kv Directory Lookup Opening Storing Device Deleting.

(** ** The grains that are given up *)

Lemma lost_open spp l l' i len b : line_lost spp l l' i len ->
  ((l.(lines) i).(vgc) = line_grains spp -> i ∈ l.(full_line_list)) -> is_open l spp b -> is_open l' spp b.
Proof.
  intros [_ _ Lf Lu Lq] Hf (Hb & Nl & Nq). unfold is_open, listed in *. split; [done|]. rewrite Lf, Lu. split.
  - intros [X|X]%elem_of_app; apply Nl, elem_of_app; [by left|]. right. destruct (_ =? _); [|done]. by apply elem_of_list_del in X as [X _].
  - intros [X|[-> E]]%Lq; [done|]. apply Nl, elem_of_app. right. by apply Hf.
Qed.

(** The place of the next pair is not touched when grains of an older one are
    given up. *)
Lemma lost_wp s s' p q len t b n : sp_of s' = sp_of s -> grains_lost s s' p q len ->
  ((s.(lm).(lines) p.(g_blk)).(vgc) = line_grains (sp_of s) -> p.(g_blk) ∈ s.(lm).(full_line_list)) ->
  wp_ok s t b n -> wp_ok s' t b n.
Proof.
  intros Es [L _ _ _ (_ & Rw & _)] Hf (W1 & W2 & W3). split; [by rewrite Rw, Es|]. rewrite Es. split; [by eapply lost_open|done].
Qed.

Lemma lost_counts s s' p q len b n : grains_lost s s' p q len ->
  (s.(lm).(lines) b).(vgc) + (s.(lm).(lines) b).(igc) <= n -> (s'.(lm).(lines) b).(vgc) + (s'.(lm).(lines) b).(igc) <= n.
Proof.
  intros [[[L1 L2] Lo _ _ _] _ _ _ _] Hn. destruct (Z.eq_dec b p.(g_blk)) as [->|N]; [lia|]. destruct (Lo b N) as [-> ->]. done.
Qed.

Lemma lost_at_place s s' p q len cur glen b n g : shard_inv s' -> sp_of s' = sp_of s -> grains_lost s s' p q len ->
  ((s.(lm).(lines) p.(g_blk)).(vgc) = line_grains (sp_of s) -> p.(g_blk) ∈ s.(lm).(full_line_list)) ->
  at_place s cur glen b n g -> at_place s' cur glen b n g.
Proof.
  intros I Es Lo Hf P. pose proof Lo as [_ Bt Bk Ss (_ & _ & Ro)].
  assert (Bits : forall y, bit s y = false -> bit s' y = false) by (intros y Hy; rewrite Bt; by case_cmp).
  destruct P as [[U1 U2 U3 U4 U5 U6 U7 U8 U9 U10 U11]|Eg [[F1 F2 F3 F4 F5 F6] Fo Fz Fc]].
  - apply ap_open. split; rewrite ?Es, ?Ro; try done.
    + by apply (lost_wp s s' p q len).
    + by rewrite Ss.
    + intros m Hm. rewrite Ss. by apply U8.
    + intros m i Hm Hi Hg. apply Bits. by apply U9.
    + intros m Hm. destruct (Bk (page_of s b m)) as [-> _]. by apply U10.
    + by apply (lost_counts s s' p q len).
  - apply ap_first; [done|]. split; rewrite ?Es, ?Ro; try done. split; rewrite ?Es; try done.
    + by apply (lost_wp s s' p q len).
    + intros m Hm. rewrite Ss. by apply F3.
    + intros m i Hm Hi. apply Bits. by apply F4.
    + intros m Hm. destruct (Bk (page_of s b m)) as [-> _]. by apply F5.
    + by apply (lost_counts s s' p q len).
Qed.

(** ** The block *)

(** Every block but that at [a] is as before. *)
Definition others_kept (h h' : heap) (a : Z) : Prop := forall a' sz, a' <> a -> h.(blocks) !! a' = Some sz ->
  h'.(blocks) !! a' = Some sz /\ same_bytes h.(bytes) h'.(bytes) a' sz.

Lemma others_trans h1 h2 h3 a : others_kept h1 h2 a -> others_kept h2 h3 a -> others_kept h1 h3 a.
Proof.
  intros A B a' sz N E. destruct (A a' sz N E) as [E1 S1]. destruct (B a' sz N E1) as [E2 S2]. split; [done|].
  intros i Hi. by rewrite S2, S1.
Qed.

(** A write into the block [a] keeps the others. *)
Lemma others_write h m a sz : heap_ok h -> h.(blocks) !! a = Some sz ->
  (forall x, x < a \/ a + sz <= x -> m x = h.(bytes) x) -> others_kept h (mk_heap m h.(blocks)) a.
Proof.
  intros Ho Ea O a' sz' N E. split; [done|]. intros i Hi. apply O. destruct (heap_apart h a' sz' a sz Ho E Ea N); lia.
Qed.

Lemma heap_eta h : mk_heap h.(bytes) h.(blocks) = h.
Proof. by destruct h. Qed.

Lemma memset_out {A} (m : Z -> A) a n v x : x < a \/ a + n <= x -> memset m a n v x = m x.
Proof. intros Hx. rewrite memset_case. destruct (Z.leb_spec a x), (Z.ltb_spec x (a + n)); cbn; (done || lia). Qed.

Lemma put_header_ok h a sz key n c klen : heap_ok h -> h.(blocks) !! a = Some sz -> header_size key <= sz -> 0 <= n < 2 ^ 31 ->
  names_key c klen key ->
  exists h', put_header h a c klen n = Ok h' /\ h'.(blocks) = h.(blocks) /\ has_header h'.(bytes) a key n /\ others_kept h h' a.
Proof.
  intros Ho Ea Hs Hn [-> Nk]. change (2 ^ 31) with 2147483648 in Hn.
  destruct (write_header_ok h a key n sz Ea (block_nonzero _ _ _ Ho Ea) Hs ltac:(lia)) as (h' & E & Bl & Out & Hh).
  exists h'. split; [|split; [done|split; [done|]]].
  - rewrite <- E. unfold put_header, write_header, cmd_key. by rewrite Nat2Z.id, Nk.
  - rewrite <- (heap_eta h'), Bl. apply (others_write h _ a sz); [done|done|]. intros x Hx. apply Out. lia.
Qed.

(** Only the length in the header is written. *)
Lemma put_length_ok h a sz key l n : heap_ok h -> h.(blocks) !! a = Some sz -> header_size key <= sz -> 0 <= n < 2 ^ 31 ->
  has_header h.(bytes) a key l ->
  exists h', hwrite h a (1 + Z.of_nat (length key)) (le4 n) = Ok h' /\ h'.(blocks) = h.(blocks) /\
    has_header h'.(bytes) a key n /\ others_kept h h' a.
Proof.
  intros Ho Ea Hs Hn (H1 & H2 & _). change (2 ^ 31) with 2147483648 in Hn. unfold header_size in Hs.
  destruct (hwrite_ok h a (1 + Z.of_nat (length key)) (le4 n) sz Ea (block_nonzero _ _ _ Ho Ea)) as (h' & E & Bl & Out & In);
    [lia|cbn [length le4]; lia|]. cbn [length le4] in Out, In.
  exists h'. split; [done|]. split; [done|]. split; [split; [|split]|].
  - rewrite Out; [done|lia].
  - rewrite <- H2 at 2. apply bytes_at_ext. intros i Hi. apply Out. lia.
  - rewrite <- (of_le4_le4 n) by lia. f_equal. apply (bytes_at_eq _ _ (le4 n)). intros i Hi.
    replace (a + 1 + Z.of_nat (length key) + i) with (a + (1 + Z.of_nat (length key)) + i) by lia. by apply In.
  - rewrite <- (heap_eta h'), Bl. apply (others_write h _ a sz); [done|done|]. intros x Hx. apply Out. lia.
Qed.

Section overwriting.
Context `{AllocatorLaws} (CityHash64 : list Z -> Z) (clock : nat -> Z).

(** A block of zeros. *)
Lemma zero_block_ok h g : heap_ok h -> 0 < g -> kmalloc_at h.(blocks) (g * GRAINED_UNIT) <> 0 ->
  let a := kmalloc_at h.(blocks) (g * GRAINED_UNIT) in
  exists h', new_block true h g = Ok (a, h') /\ heap_ok h' /\ h'.(blocks) !! a = Some (512 * g) /\
    forall a' sz, h.(blocks) !! a' = Some sz -> h'.(blocks) !! a' = Some sz /\ same_bytes h.(bytes) h'.(bytes) a' sz.
Proof.
  intros Ho Hg Ha a. assert (Hs : 0 < g * GRAINED_UNIT) by (rewrite GRAINED_val; lia).
  destruct (heap_ok_alloc h _ Ho Hs Ha) as [Nf Ho1]. fold a in Nf, Ho1. pose proof (kmalloc_apart h.(blocks) _ Hs Ha) as Ap. fold a in Ap.
  exists (mk_heap (memset h.(bytes) a (g * GRAINED_UNIT) 0) (<[a := g * GRAINED_UNIT]> h.(blocks))).
  split.
  { unfold new_block, kzalloc, kmalloc. fold a. rewrite (proj2 (Z.eqb_neq a 0) Ha). done. }
  split; [done|]. split; [cbn; by rewrite lookup_insert_eq, GRAINED_val, Z.mul_comm|].
  intros a' sz E. assert (Na : a' <> a) by (intros ->; congruence). cbn. rewrite lookup_insert_ne by done. split; [done|].
  intros i Hi. apply memset_out. destruct (Ap a' sz E); lia.
Qed.

(** The block of the new pair: the old one, or a new one when it is too small. *)
Lemma replace_ok k x key l n c v : heap_ok k.(hp) -> slot_holds k x key l -> names_key c (Z.of_nat (length key)) key ->
  0 < n -> header_size key + n < 2 ^ 31 -> let old := pair_at (cache_of k) x in
  (pair_grains key l < pair_grains key n ->
    kmalloc_at (delete old k.(hp).(blocks)) (pair_grains key n * GRAINED_UNIT) <> 0) ->
  exists a h, replace_pair k c false old (Z.of_nat (length key)) (header_size key + n) (pair_grains key l) (pair_grains key n) v =
      Ok (a, set_hp k h, set_rsvd c (a + header_size key)) /\
    heap_ok h /\ has_header h.(bytes) a key n /\ (exists sz, h.(blocks) !! a = Some sz /\ 512 * pair_grains key n <= sz) /\
    others_kept k.(hp) h old.
Proof.
  intros Ho Sl Nk Hn Hs old Ha. change (2 ^ 31) with 2147483648 in Hs.
  destruct (slot_pair _ _ _ _ Ho Sl) as (Hm & Hh & _). destruct (sl_block _ _ _ _ Sl) as (sz & Bk & Bs). fold old in Hm, Hh, Bk.
  pose proof (slot_room key n Hn) as Rn. pose proof (slot_room key l (proj1 (sl_len _ _ _ _ Sl))) as Rl. pose proof (sl_len _ _ _ _ Sl) as [Hl _].
  assert (Hn' : 0 <= n < 2 ^ 31) by (change (2 ^ 31) with 2147483648; unfold header_size in Hs; lia).
  assert (Hd : u32 (header_size key + n - 4 - Z.of_nat (length key) - 1) = n) by (unfold header_size in *; rewrite u32_small; lia).
  assert (Em : forall a, a + (1 + Z.of_nat (length key) + 4) = a + header_size key) by (intros; unfold header_size; lia).
  unfold replace_pair. rewrite Hd. destruct (Z.eqb_spec (pair_grains key l) (pair_grains key n)) as [E|N].
  - destruct (put_length_ok k.(hp) old sz key l n Ho Bk ltac:(lia) Hn' Hh) as (h & -> & Bl & Hh' & Ot).
    exists old, h. cbn [mbind result_mbind result_bind]. rewrite Em. split; [done|]. split; [by rewrite <- (heap_eta h), Bl|]. split; [done|].
    split; [exists sz; rewrite Bl; split; [done|lia]|done].
  - rewrite Z.gtb_ltb. destruct (Z.ltb_spec (pair_grains key n) (pair_grains key l)) as [Lt|Ge].
    + unfold hmemset. rewrite (access_in _ _ _ _ sz) by (done || (rewrite GRAINED_val; lia)). cbn [mbind result_mbind result_bind].
      set (h1 := mk_heap (memset _ _ _ _) _). assert (Ho1 : heap_ok h1) by (by apply heap_ok_bytes).
      destruct (put_header_ok h1 old sz key n c _ Ho1 Bk ltac:(lia) Hn' Nk) as (h & -> & Bl & Hh' & Ot).
      exists old, h. cbn [mbind result_mbind result_bind]. rewrite Em. split; [done|]. split; [by rewrite <- (heap_eta h), Bl|]. split; [done|].
      split; [exists sz; rewrite Bl; split; [exact Bk|lia]|]. apply (others_trans _ h1); [|done].
      apply (others_write k.(hp) _ old sz); [done|done|]. intros y Hy. apply memset_out. rewrite GRAINED_val. lia.
    + unfold kfree. rewrite (proj2 (Z.eqb_neq old 0) Hm), Bk. cbn [mbind result_mbind result_bind].
      pose proof (heap_ok_free k.(hp) old Ho) as Ho0. set (h0 := mk_heap _ _) in *.
      destruct (zero_block_ok h0 (pair_grains key n) Ho0 ltac:(unfold header_size in *; lia) (Ha ltac:(lia))) as (h1 & -> & Ho1 & B1 & O1).
      cbn [mbind result_mbind result_bind]. set (a := kmalloc_at _ _) in *.
      destruct (put_header_ok h1 a _ key n c _ Ho1 B1 ltac:(lia) Hn' Nk) as (h & -> & Bl & Hh' & Ot).
      exists a, h. cbn [mbind result_mbind result_bind]. rewrite Em. split; [done|]. split; [by rewrite <- (heap_eta h), Bl|]. split; [done|].
      split; [exists (512 * pair_grains key n); rewrite Bl; split; [exact B1|lia]|]. intros a' sz' Na Ea.
      assert (E0 : h0.(blocks) !! a' = Some sz') by (cbn; by rewrite lookup_delete_ne).
      destruct (O1 a' sz' E0) as [E1 S1]. assert (Na2 : a' <> a).
      { intros E'. rewrite E' in E0. destruct (heap_ok_alloc h0 (pair_grains key n * GRAINED_UNIT) Ho0) as [Nf _]; [rewrite GRAINED_val; unfold header_size in *; lia|by apply Ha; lia|].
        assert (X : Some sz' = None) by (rewrite <- E0; exact Nf). done. }
      destruct (Ot a' sz' Na2 E1) as [E2 S2]. split; [done|]. intros i Hi. by rewrite S2, S1.
Qed.

(** ** The entry of the old pair *)

(** The loop at the entry that has the key. *)
Lemma store_match fuel k key n m x len c r klen vlen glen rem v l B :
  sound clock k B -> quiet k -> heap_ok k.(hp) -> should_gc_high (shard_of k) = false -> roomy k 0 ->
  0 <= x < (cache_of k).(nr_valid_tentries) -> slot_holds k x key len ->
  get_hash_idx (cache_of k) (mk_hash (key_hash CityHash64 key) n l) = Ok (mk_hash (key_hash CityHash64 key) m x) ->
  names_key c klen key -> plain v -> 0 <= vlen < 2 ^ 31 -> readable len vlen 0 ->
  0 <= v.(sv_latest) <= B -> B + NAND_MAX * 2100 < 2 ^ 62 ->
  exists k' v1 v2, store_loop clock (S fuel) false k c r (mk_hash (key_hash CityHash64 key) n l) klen vlen glen rem false v =
      ('(a, k, c) ← replace_pair k' c false (pair_at (cache_of k') x) klen vlen (pair_grains key len) glen v1;
       s ← mark_grain_invalid (shard_of k) (table (cache_of k') x) (pair_grains key len);
       store_tail clock (set_shard k s) c (IDX x) a glen rem (mk_hash (key_hash CityHash64 key) m x) v2) /\
    still k k' /\ sound clock k' (B + NAND_MAX * 2051) /\ busy k' (IDX x) /\ cache_hit ((cache_of k').(ht) (IDX x)) = true /\
    slot_holds k' x key len /\ plain v2 /\ v.(sv_latest) <= v2.(sv_latest) <= B + NAND_MAX * 2051.
Proof.
  intros S Q Ho Rm Ry Hx Sl E Nk [P1 P2] Hv Rd Hl HB.
  change (2 ^ 62) with 4611686018427387904 in HB. assert (HN : NAND_MAX = 35184372088832) by reflexivity.
  cbn [store_loop]. rewrite E. cbn [mbind result_mbind result_bind hash cnt lpa].
  destruct (settle_ok clock k v.(sv_latest) v.(sv_credits) B S Hl (conj Ry (or_intror Rm))) as (t0 & k0 & -> & St0 & S0 & Ht0 & Q0 & _).
  cbn [mbind result_mbind result_bind].
  assert (Hx0 : 0 <= x < (cache_of k0).(nr_valid_tentries)) by (by rewrite (sk_entries _ _ St0)).
  pose proof (still_slot _ _ _ _ _ St0 (IDX_range clock _ _ _ S Hx) Sl) as Sl0.
  destruct (compare_visit_ok clock k0 x key len t0 B S0 (Q0 Q) Hx0 Sl0)
    as (cc & t1 & k1 & E1 & E2 & Ht & E3 & St & S1 & Bz & Ht1 & E4 & Sl1 & _);
    [lia|change (2 ^ 62) with 4611686018427387904; lia|].
  rewrite E1. cbn [mbind result_mbind result_bind]. change (cache_of (set_cache k0 cc)) with cc. rewrite E2.
  cbn [mbind result_mbind result_bind]. rewrite (proj2 (Z.eqb_neq _ _) Ht). cbn [mbind result_mbind result_bind].
  rewrite E3. cbn [mbind result_mbind result_bind]. rewrite E4. cbn [mbind result_mbind result_bind].
  rewrite (proj2 (Z.eqb_neq _ _) (sl_mapped _ _ _ _ Sl1)), (slot_glen clock _ _ _ _ _ S1 Sl1).
  cbn [mbind result_mbind result_bind set_time flushing_prev sv_latest checking_len]. rewrite P1, P2.
  rewrite <- (sk_heap _ _ St0), <- (sk_heap _ _ St) in Ho.
  destruct (compare_slot clock k1 x key len c klen key t1 vlen 0 false m (B + NAND_MAX) S1 Ho Sl1 Nk)
    as (t2 & s2 & C2 & S2 & Ht2 & E5); [lia|lia|lia|lia|change (2 ^ 62) with 4611686018427387904; lia|by right|].
  rewrite E5. destruct (decide (key = key)) as [_|X]; [|done]. cbn [mbind result_mbind result_bind andb].
  assert (St2 : still k0 (set_shard k1 s2)) by (etransitivity; [eassumption|]; by apply still_shard).
  eexists (set_shard k1 s2), _, _. split; [reflexivity|]. split; [by etransitivity|].
  split; [apply (sound_mono clock _ _ _ S2); lia|]. split; [exact Bz|]. split; [by apply (entry_hit k1 _ x _ E4)|].
  split; [by apply (still_slot _ _ _ _ _ St2 (IDX_range clock _ _ _ S0 Hx0))|]. split; [done|]. cbn [set_time sv_latest]. lia.
Qed.

(** The grains of the old pair are given up: its entry is the only one to notice. *)
Lemma give_up_ok k h x key l p B : sound clock k B -> 0 <= x < (cache_of k).(nr_valid_tentries) -> slot_holds k x key l ->
  removable k x key l p ->
  exists s, mark_grain_invalid (shard_of k) (table (cache_of k) x) (pair_grains key l) = Ok s /\
    sound clock (set_shard (set_hp k h) s) B /\
    (forall cur glen b n g, at_place (shard_of k) cur glen b n g -> at_place s cur glen b n g) /\
    sp_of s = sp_of (shard_of k) /\ s.(oob) = (shard_of k).(oob) /\
    (forall q, bit s q = if q =? table (cache_of k) x then false else bit (shard_of k) q) /\
    grains_lost (shard_of k) s p (table (cache_of k) x) (pair_grains key l).
Proof.
  intros S Hx X [I R2 R3 R4 R5 [R6 R7]]. pose proof (sound_geom clock _ _ S) as G.
  destruct (sl_grain _ _ _ _ X) as (b & p0 & g & [L1 L2 (L3 & L4 & L5) L6 L7]).
  assert (Hg : 0 < pair_grains key l) by (destruct (sl_len _ _ _ _ X) as [Hn _]; pose proof (slot_room key l Hn); unfold header_size in *; lia).
  pose proof (pgidx_range _ G _ (page_at_ok _ G b p0 L2 ltac:(zlia))) as Hpg.
  destruct (mark_grain_invalid_ok (shard_of k) p (table (cache_of k) x) (pair_grains key l)
    (blk_at (shard_of k).(sd) p).(Ssd.vgc) (blk_at (shard_of k).(sd) p).(Ssd.igc) I) as (s' & E & I' & Es & Lo);
    rewrite ?GPP_val, ?(blk_grains_val _ G); try done; try lia; try apply R5.
  exists s'. split; [done|]. split; [|split; [|split; [done|split; [apply (gl_rest _ _ _ _ _ Lo)|split; [intros q; apply (gl_bitmap _ _ _ _ _ Lo)|exact Lo]]]]].
  - destruct S as [S1 S2 S3 S5 S6 S7 S8]. change (sp_of s' = sp_of (shard_of k)) in Es.
    split; [exact S1|exact S2|exact S3| |exact S6| |].
    + intros j Hj Ht. destruct (S5 j Hj Ht) as [A C]. split; [exact A|]. change (0 <= t_ppa (ht (cache_of k) j) < tt_pgs (sp_of s')). by rewrite Es.
    + change (firmware_ok (sp_of s')). by rewrite Es.
    + apply (nand_ready_kept clock (shard_of k).(sd)); [done|apply I'|]. by eapply mark_grain_invalid_timing.
  - intros cur glen b' n g' P. by apply (lost_at_place (shard_of k) s' p (table (cache_of k) x) (pair_grains key l)).
Qed.

(** A pair of another key does not notice that the old one has gone. *)
Lemma slot_spared k h s x key l y key' l' : slot_holds k x key l -> slot_holds k y key' l' -> key' <> key ->
  others_kept k.(hp) h (pair_at (cache_of k) x) -> sp_of s = sp_of (shard_of k) -> s.(oob) = (shard_of k).(oob) ->
  (forall q, bit s q = if q =? table (cache_of k) x then false else bit (shard_of k) q) ->
  slot_holds (set_shard (set_hp k h) s) y key' l'.
Proof.
  clear CityHash64 clock. intros X Y Nk Ot Es Eo Bt.
  assert (Nt : table (cache_of k) y <> table (cache_of k) x).
  { intros E. pose proof (sl_owner _ _ _ _ Y) as O. rewrite E, (sl_owner _ _ _ _ X) in O. subst y.
    by destruct (header_key _ _ _ _ _ _ (sl_header _ _ _ _ Y) (sl_header _ _ _ _ X)). }
  assert (Na : pair_at (cache_of k) y <> pair_at (cache_of k) x).
  { intros E. pose proof (sl_header _ _ _ _ Y) as Hh. rewrite E in Hh. by destruct (header_key _ _ _ _ _ _ Hh (sl_header _ _ _ _ X)). }
  assert (Y1 : slot_holds (set_hp k h) y key' l') by (apply slot_heap; [done|]; intros sz Bk; by apply Ot).
  destruct Y1 as [(b & p & g & [P1 P2 P3 P4 P5]) O M K L Hh Bk]. split; try assumption;
    [|change (__lpa_from_oob (s.(oob) (table (cache_of k) y / 8) (table (cache_of k) y mod 8)) = y); by rewrite Eo].
  exists b, p, g. change (shard_of (set_hp k h)) with (shard_of k) in *. change (cache_of (set_hp k h)) with (cache_of k) in *.
  split; change (shard_of (set_shard (set_hp k h) s)) with s; change (cache_of (set_shard (set_hp k h) s)) with (cache_of k);
    rewrite ?Es, ?Eo; try done.
  change (bit s (table (cache_of k) y) = true). by rewrite Bt, (proj2 (Z.eqb_neq _ _) Nt).
Qed.

(** What a store over an old pair needs: the old pair and the new one fit into
    a page each, and there is room for the new one. *)
Record overwritable (k : kv) (key : list Z) (l n x : Z) (q : ppa) (b p g : Z) : Prop := {
  ow_value : 0 < n /\ header_size key + n < 2 ^ 31;
  ow_slot : 0 <= x < (cache_of k).(nr_valid_tentries) /\ slot_holds k x key l;
  ow_old : removable k x key l q;
  ow_read : readable l (header_size key + n) 0;
  ow_memory : pair_grains key l < pair_grains key n ->
    kmalloc_at (delete (pair_at (cache_of k) x) k.(hp).(blocks)) (pair_grains key n * GRAINED_UNIT) <> 0;
  ow_place : can_place k (pair_grains key n) b p g;
  ow_room : should_gc_high (shard_of k) = false
}.

Lemma still_overwritable k k' key l n x q b p g B B' : sound clock k B -> sound clock k' B' -> still k k' ->
  overwritable k key l n x q b p g -> overwritable k' key l n x q b p g.
Proof.
  clear CityHash64. intros S S' St [O1 [Hx X] O3 O4 O5 [C1 C2 C3 C4] O7]. pose proof (IDX_range clock _ _ _ S Hx) as Hi.
  pose proof (calm_sp _ _ (sk_flash _ _ St)) as Es. split.
  - done.
  - rewrite (sk_entries _ _ St). split; [done|]. by apply (still_slot _ _ _ _ _ St).
  - apply (still_removable clock k k' x key l q B S St Hx); [apply (so_dev _ _ _ S')|done].
  - done.
  - by rewrite (sk_heap _ _ St), (proj2 (sk_table _ _ St x Hi)).
  - split; rewrite ?Es; try done. rewrite (sk_cur _ _ St).
    apply (at_place_calm (shard_of k)); [apply St|apply (so_dev _ _ _ S')|done].
  - by rewrite (calm_roomy _ _ (sk_flash _ _ St)).
Qed.

(** The grains of the old pair are given up, then the new one gets its own. *)
Definition regrained (s s2 : demand_shard) (q : ppa) (grain len b x glen lpa : Z) : Prop :=
  exists s1, grains_lost s s1 q grain len /\ pair_placed s1 s2 b x glen lpa.

Lemma regrained_calm s0 s s2 s3 q grain len b x glen lpa : calm s0 s -> calm s2 s3 ->
  regrained s s2 q grain len b x glen lpa -> regrained s0 s3 q grain len b x glen lpa.
Proof.
  clear CityHash64 clock. intros C (E & Es & _) (s1 & L & [P1 P2 P3 P4]). exists s1.
  split; [by apply (grains_lost_calm s0 s s1 s1)|]. change (sp_of s3 = sp_of s2) in Es.
  assert (Eb : s3.(grain_bitmap) = s2.(grain_bitmap)) by (by rewrite E). assert (El : s3.(lm) = s2.(lm)) by (by rewrite E).
  assert (Eo : s3.(oob) = s2.(oob)) by (by rewrite E). split; rewrite ?Es, ?El; try assumption.
  - intros i. rewrite Eb. apply P2.
  - destruct P4 as [Q1 Q2 Q3]. split; rewrite ?Eo; assumption.
Qed.

(** From the entry to the table. *)
Lemma replace_tail_ok k D key l n m x q c v1 v2 B b p g :
  represents CityHash64 k D -> sound clock k B -> busy k (IDX x) -> cache_hit ((cache_of k).(ht) (IDX x)) = true ->
  overwritable k key l n x q b p g -> leads CityHash64 k key 0 m x -> 0 <= m <= k.(max_try) -> kv_command c key -> plain v2 ->
  0 <= v2.(sv_latest) <= B -> B + NAND_MAX * 2050 < 2 ^ 62 ->
  exists k' t, ('(a, k1, c) ← replace_pair k c false (pair_at (cache_of k) x) (Z.of_nat (length key)) (header_size key + n)
                  (pair_grains key l) (pair_grains key n) v1;
                s ← mark_grain_invalid (shard_of k1) (table (cache_of k) x) (pair_grains key l);
                store_tail clock (set_shard k1 s) c (IDX x) a (pair_grains key n) (header_size key + n)
                  (mk_hash (key_hash CityHash64 key) m x) v2) =
      Ok (Done k' (set_rsvd c (value_at k' x key)) (mk_ret 0 t (RELEASE_MAP (IDX x)))) /\
    pair_stored CityHash64 clock k k' D key n m x (B + NAND_MAX * 2050) b p g /\ 0 <= t <= B + NAND_MAX * 2050 /\
    regrained (shard_of k) (shard_of k') q (table (cache_of k) x) (pair_grains key l) b (8 * p + g) (pair_grains key n) x.
Proof.
  intros R S Bz Hh [[Hn Hs] [Hx X] Rm Rd Mm [C1 C2 C3 C4] Ro] L Hm [[Ek Nk] Lk] P Hv HB.
  pose proof (rp_heap _ _ _ R) as Ho. destruct (rp_tries _ _ _ R) as (T1 & T2 & T3).
  destruct (replace_ok k x key l n c v1 Ho X (conj eq_refl Nk) Hn Hs Mm) as (a & h & -> & Ho' & Hd & Bk & Ot).
  cbn [mbind result_mbind result_bind]. change (shard_of (set_hp k h)) with (shard_of k).
  destruct (give_up_ok k h x key l q B S Hx X Rm) as (s & -> & S1 & Pl & Es & Eo & Bt & Gl). cbn [mbind result_mbind result_bind].
  set (k1 := set_shard (set_hp k h) s) in *.
  destruct (tail_ok CityHash64 clock k1 key n m x (set_rsvd c (a + header_size key)) a v2 B b p g S1) as (k' & t & E & C & S' & Bz' & Ht & U & Pp);
    try assumption; [apply (so_mapped _ _ _ S x Hx), X| |].
  { split; change (shard_of k1) with s; rewrite ?Es; [by apply Pl|done..]. }
  assert (Ow := slot_own CityHash64 k D x key l R Hx X).
  assert (Sk : forall y key' l', 0 <= y < (cache_of k).(nr_valid_tentries) -> y <> x -> slot_holds k y key' l' -> slot_holds k1 y key' l').
  { intros y key' l' Hy Ny Sl. apply (slot_spared k h s x key l); try done. intros ->. by apply (proj2 Ow y l'). }
  assert (Pu : pair_put k k' x key n m).
  { destruct (committed_put _ _ _ _ _ _ _ C Ho') as [Q1 Q2 Q3 Q4 Q5 Q6 Q7]. split; try assumption.
    intros y key' l' Hy Ny Sl. apply Q5; [done|done|by apply Sk]. }
  assert (Ea : value_at k' x key = a + header_size key) by (unfold value_at; by rewrite (cm_at _ _ _ _ _ _ _ C)).
  exists k', t. rewrite Ea. split; [exact E|]. split; [|split; [done|exists s; split; [exact Gl|exact Pp]]]. split; try assumption.
  - apply (put_represents CityHash64 k k' x key n m D Pu R); try assumption; lia.
  - intros key' a' l' Nk' Hd'. rewrite (cm_heap _ _ _ _ _ _ _ C). change (hp k1) with h.
    apply (kept_value CityHash64 k D _ key' a' l' R Hd'). intros y sz Hy Y Hb. apply Ot; [|done].
    intros Eq. pose proof (sl_header _ _ _ _ Y) as Hy'. rewrite Eq in Hy'. by destruct (header_key _ _ _ _ _ _ Hy' (sl_header _ _ _ _ X)).
  - by rewrite (cm_bufs _ _ _ _ _ _ _ C).
  - apply Pu.
  - apply Pu.
  - apply Pu.
  - split; [apply C|]. by rewrite (pu_entries _ _ _ _ _ _ Pu).
Qed.

(** ** The command *)

Lemma leads_count k D key n m x : represents CityHash64 k D -> leads CityHash64 k key n m x -> 0 <= n <= k.(max_try) + 1 -> n <= m.
Proof.
  intros R L Hn. destruct L as [n m x E|n m x key' l m' x' E _ _ _ Hm _]; destruct (probe_next _ _ _ _ _ _ R Hn E) as (_ & P & _);
    cbn in P; lia.
Qed.

Lemma conv_overwrite_ok k D c key l n x q b p g start r B :
  represents CityHash64 k D -> sound clock k B -> quiet k -> kv_command c key -> cmd_value_length c = Ok n ->
  not_buffered k c (u8 (cmd_key_length c)) -> overwritable k key l n x q b p g -> roomy k k.(max_try) ->
  0 <= start <= B -> B + store_cost k.(max_try) < 2 ^ 62 ->
  exists t m k1, conv_write CityHash64 clock k c start r =
      Ok (k1, set_rsvd c (value_at k1 x key), mk_ret 0 t (RELEASE_MAP (IDX x))) /\ 0 <= m <= k.(max_try) /\ is_Some (D !! key) /\
    pair_stored CityHash64 clock k k1 D key n m x (B + store_cost k.(max_try)) b p g /\ 0 <= t <= B + store_cost k.(max_try) /\
    regrained (shard_of k) (shard_of k1) q (table (cache_of k) x) (pair_grains key l) b (8 * p + g) (pair_grains key n) x.
Proof.
  intros R S Q Kc Ev Nb Ow Ry Hst HB. unfold store_cost in *. pose proof Kc as [[Ek Nk] Lk]. pose proof Ow as [[Hn Hs] [Hx X] _ Rd _ _ Ro].
  destruct (rp_slots _ _ _ R x Hx (sl_mapped _ _ _ _ X)) as (key1 & l1 & m & X1 & Hd & L & Hm).
  destruct (header_key _ _ _ _ _ _ (sl_header _ _ _ _ X) (sl_header _ _ _ _ X1)) as [<- <-]. clear X1.
  destruct (rp_tries _ _ _ R) as (T1 & T2 & T3).
  pose proof (leads_count k D key 0 m x R L ltac:(lia)) as Hm0.
  change (2 ^ 62) with 4611686018427387904 in *. assert (HN : NAND_MAX = 35184372088832) by reflexivity.
  destruct (store_begin CityHash64 clock k c key n start r B S Q Kc Ev Nb Hn Hs Hst) as (kk & vv & St1 & S1 & Q1 & Pv & Hl & Ek1 & Run);
    [change (2 ^ 62) with 4611686018427387904; lia|].
  assert (Ry1 : roomy kk (m - 0)) by (apply (roomy_next k _ k.(max_try)); [exact Ry|done|rewrite GPP_val; lia]).
  destruct (store_walk CityHash64 clock k D B key 0 m x c r (Z.of_nat (length key)) (header_size key + n) (pair_grains key n) (header_size key + n)
    R S L ltac:(lia) ltac:(lia) ltac:(lia) Ro (conj eq_refl Nk) ltac:(unfold header_size in *; lia)
    (store_fuel k) kk 0 vv (B + NAND_MAX) St1 S1 Q1 Ry1 Pv Hl) as (f2 & k2 & n2 & l2 & v2 & E2 & Pr & St2 & S2 & Q2 & Pv2 & Hl2 & Ry2);
    [change (2 ^ 62) with 4611686018427387904; lia|unfold store_fuel; lia|done|]. replace (m - 0) with m in * by lia.
  pose proof (still_overwritable k k2 key l n x q b p g B _ S S2 St2 Ow) as [_ [Hx2 X2] _ _ _ _ Ro2].
  assert (Ho2 : heap_ok (hp k2)) by (rewrite (sk_heap _ _ St2); apply R).
  destruct (store_match f2 k2 key n2 m x l c r (Z.of_nat (length key)) (header_size key + n) (pair_grains key n) (header_size key + n) v2 l2 _
    S2 Q2 Ho2 Ro2 Ry2 Hx2 X2 Pr (conj eq_refl Nk) Pv2 ltac:(unfold header_size in *; lia) Rd)
    as (k3 & v3 & v4 & E3 & St3 & S3 & Bz & Hh & X3 & Pv4 & Hl4); [lia|change (2 ^ 62) with 4611686018427387904; lia|].
  assert (St : still k k3) by (by etransitivity). pose proof (still_overwritable k k3 key l n x q b p g B _ S S3 St Ow) as Ow3.
  assert (R3 : represents CityHash64 k3 D) by (by apply (still_represents CityHash64 clock k k3 D B)).
  assert (L3 : leads CityHash64 k3 key 0 m x) by (by apply (still_leads CityHash64 clock k k3 key 0 m x B)).
  destruct (replace_tail_ok k3 D key l n m x q c v3 v4 _ b p g R3 S3 Bz Hh Ow3 L3 ltac:(rewrite (sk_tries _ _ St); lia) Kc Pv4)
    as (k4 & t & E4 & [P1 P2 P3 P4 P5 P6 P7 P8 P9 P10] & Ht & Rg); [lia|change (2 ^ 62) with 4611686018427387904; lia|].
  exists t, m, k4. split; [apply Run; by rewrite E2, E3|]. split; [done|]. split; [by eexists|]. split; [|split; [lia|]].
  2:{ rewrite <- (proj1 (sk_table _ _ St x (IDX_range clock _ _ _ S Hx))). by apply (regrained_calm _ (shard_of k3) (shard_of k4)); [apply St| |]. }
  rewrite (sk_heap _ _ St) in *. rewrite (sk_bufs _ _ St) in *. rewrite (sk_tries _ _ St) in *. rewrite (sk_entries _ _ St) in *.
  split; try assumption.
  - apply (sound_mono clock _ _ _ P2). lia.
  - intros y key' l' Hy Ny Sl. apply P8; [done|done|]. by apply (still_slot _ _ _ _ _ St (IDX_range clock _ _ _ S Hy)).
Qed.

Lemma device_overwrite_ok k M c key l n x q b p g host start r B :
  holds CityHash64 clock k M B -> kv_command c key -> c.(opcode) = nvme_cmd_kv_store -> cmd_value_length c = Ok n ->
  not_buffered k c (u8 (cmd_key_length c)) -> overwritable k key l n x q b p g -> roomy k k.(max_try) ->
  prp_ok c host n -> 0 <= start <= B -> B + store_cost k.(max_try) < 2 ^ 62 ->
  exists t k', kv_round CityHash64 clock k host c start r = Ok (k', host, 0, mk_ret 0 t (RELEASE_MAP (IDX x))) /\
    is_Some (M !! key) /\ holds CityHash64 clock k' (<[key := host_bytes c host n]> M) (B + store_cost k.(max_try)) /\
    0 <= t <= B + store_cost k.(max_try) /\ key_stored k k' x key n k.(max_try) b p g /\
    regrained (shard_of k) (shard_of k') q (table (cache_of k) x) (pair_grains key l) b (8 * p + g) (pair_grains key n) x.
Proof.
  intros [(D & R & ->) S Q] Kc Eo Ev Nb Ow Ry P Hst HB.
  destruct (conv_overwrite_ok k D c key l n x q b p g start r B R S Q Kc Ev Nb Ow Ry Hst HB) as (t & m & k1 & E & Hm & Hd & Ps & Ht & Rg).
  destruct (store_round_ok CityHash64 clock k D c key n m x b p g host start r t k1 _ Kc Eo Ev P E Ps) as (k' & E' & Hh & [K1 K2 K3 K4 K5] & Cm).
  exists t, k'. split; [done|]. split; [unfold values; rewrite lookup_fmap; by apply fmap_is_Some|]. split; [done|]. split; [done|].
  split; [split; try assumption; rewrite K5; lia|]. by apply (regrained_calm _ (shard_of k) (shard_of k1)).
Qed.


End overwriting.
