(* ===== verification/Sample.v ===== *)
(** * A small device

    A device of 128 lines whose table has one used section, with no pair yet,
    and commands for it: the theorems on the device applied to a state on which
    everything can be computed. *)

From stdpp Require Import gmap.
From S2P Require Import Prelude Fifo Lru Append WorkQueue Queues Prp.
From S2P Require Import ChModel Ssd Geometry PQueue Line Lines Pages Place Cache Heap Pairs Kv Directory Lookup Opening Storing Device Deleting Overwriting.

(** Page 2 of line 0 is being filled, the pages after it are free. *)
Definition kx_ssd : ssd :=
  mk_ssd ex_spp
    (fun c => mk_channel (fun l => mk_lun (fun _ => mk_plane
         (fun i => mk_block (fun pg => mk_page (fun _ => SEC_FREE) 8
            (if (c =? 0) && (l =? 0) && (i =? 0) && (pg =? 2) then PG_VALID else PG_FREE)) 32 0 0 0 0 0 0) 128) 1 7000 false)
       8 (mk_ch 0 0 0 26 0 152 (fun _ => 26)))
    ex_ch (buffer_init 4194304) false 0.
Definition kx_shard : demand_shard :=
  mk_shard kx_ssd ex_lm (wp_of ex_spp 0 3) (wp_of ex_spp 0 1) (wp_of ex_spp 0 0)
    (wp_of ex_spp 0 0) (mk_wfc 0 0) 2 2 8192 (fun _ _ => 2) (fun _ => false) 0 0 0.
Definition kx_ht (i : Z) : ht_section :=
  if i =? 1 then mk_ht 1 97 CLEAN true (Some (fun _ => UINT_MAX)) 0 8 0 (fun _ => 0)
  else mk_ht i UINT_MAX CLEAN false None 0 0 0 (fun _ => 0).
Definition kx_cache : cache := mk_cache 2048 2097152 8 1000 kx_ht (mk_rb (fun _ => 1) 1 0).
Definition kx_bufs : append_bufs :=
  init_append_bufs (mk_ab (fun _ => 0) (fun _ => []) (fun _ => 0) (fun _ => 0) (fun _ => 0) (fun _ => 0)
    (mk_lru None None 0 0 (fun _ => None)) (fun _ => mk_item 0 None None)).
Definition kx_device : kv :=
  mk_kv (mk_ftl kx_shard kx_cache (mk_vb (fun _ => None) 0 0) 0 0) 0 (page_at ex_spp 0 2) 0
    (mk_heap (fun _ => 0) ∅) kx_bufs [].

(** Every key has the hash 1000. *)
Definition kx_hash (_ : list Z) : Z := 1000.
Definition kx_host (a : Z) : Z := a mod 251.

Definition kx_key : list Z := [65; 66].
Definition kx_store : nvme_command :=
  mk_nvme nvme_cmd_kv_store 1 1 0 0 8192 0 250 1 0 (kx_key ++ repeat 0 14).
Definition kx_retrieve : nvme_command :=
  mk_nvme nvme_cmd_kv_retrieve 2 1 0 0 20480 0 1024 1 0 (kx_key ++ repeat 0 14).
Definition kx_ret : kv_result := mk_ret 0 0 NO_CB.

#[local] Ltac run := vm_compute; repeat split; congruence.

Lemma kx_ssd_ok : tree_ok kx_ssd.
Proof.
  assert (E26 : u8 26 = 26) by reflexivity. destruct ex_consts as (B & _).
  split; [apply ex_geom| | |].
  - intros i Hi. split; [done|]. intros j Hj. split; [done|intros; symmetry; exact B|done].
  - intros i Hi. split; [|cbn; lia]. split; cbn -[u8]; rewrite ?NR_val, ?E26; try lia;
      intros; unfold slot; cbn; lia.
  - split; [apply ex_ch_inv|cbn; lia].
Qed.

Lemma kx_shard_ok : shard_inv kx_shard.
Proof. split; [apply kx_ssd_ok|apply ex_lm_ok]. Qed.

Lemma kx_inv : cache_inv kx_cache (mk_vb (fun _ => None) 0 0) [1] [].
Proof.
  assert (C : forall i, i = 1 \/ (kx_ht i = mk_ht i UINT_MAX CLEAN false None 0 0 0 (fun _ => 0) /\ i <> 1)).
  { intros i. unfold kx_ht. case_cmp; auto. }
  split; try done; try (cbn; lia).
  - repeat constructor; set_solver.
  - intros i. cbn. rewrite elem_of_cons, elem_of_nil. intros [->|[]]; lia.
  - intros i _. change (ht kx_cache) with kx_ht. by destruct (C i) as [->|[-> _]].
  - intros i _. change (ht kx_cache) with kx_ht. cbn [app]. rewrite elem_of_cons, elem_of_nil.
    destruct (C i) as [->|[-> N]]; cbn; split; auto; try discriminate; lia.
  - intros i. cbn [app]. rewrite elem_of_cons, elem_of_nil. intros [->|[]]; by eexists.
  - intros i _. change (ht kx_cache) with kx_ht. destruct (C i) as [->|[-> _]]; [done|]. by intros [].
  - intros i ->%list_elem_of_singleton. by left.
  - intros i X. by apply elem_of_nil in X.
  - intros i _. change (ht kx_cache) with kx_ht. by destruct (C i) as [->|[-> _]].
Qed.

Lemma kx_unmapped x : table kx_cache x = UINT_MAX.
Proof. unfold table. cbn [ht kx_cache]. unfold kx_ht. by case_cmp. Qed.

Lemma kx_holds : holds kx_hash cx_clock kx_device ∅ 7000.
Proof.
  split.
  - exists ∅. split; [|done]. split; try done.
    intros x _. change (cache_of kx_device) with kx_cache. by rewrite kx_unmapped.
  - split; try (cbn; lia).
    + exists [1], []. apply kx_inv.
    + unfold FIFO_CAPACITY, RING_BUFFER_SIZE. cbn. lia.
    + intros i _. change (ht (cache_of kx_device)) with kx_ht. unfold kx_ht. case_cmp; [|done]. intros _. split; [by eexists|by vm_compute].
    + intros x _. change (cache_of kx_device) with kx_cache. by rewrite kx_unmapped.
    + split; vm_compute; repeat split; congruence.
    + split; [apply kx_ssd_ok|done| |]; intros; cbn; unfold cx_clock; lia.
  - intros i _. change (ht (cache_of kx_device)) with kx_ht. unfold kx_ht. by case_cmp.
Qed.

(** ** A first pair *)

Lemma kx_pos : user_pos kx_shard (page_at ex_spp 0 2) 0 2 0.
Proof.
  split; try (vm_compute; repeat split; congruence).
  - apply kx_shard_ok.
  - split; [reflexivity|]. split; [apply ex_open|vm_compute; split; congruence].
  - intros m Hm. change (sp_of kx_shard) with ex_spp in *.
    set (p := page_at ex_spp 0 m). assert (Np : p <> page_at ex_spp 0 2).
    { intros E. apply (page_at_inj ex_spp 0) in E; [lia|apply ex_geom|run|lia|run]. }
    assert (Ep : p = mk_ppa p.(g_pg) 0 0 p.(g_lun) p.(g_ch) 0) by done.
    change ((if (p.(g_ch) =? 0) && (p.(g_lun) =? 0) && (0 =? 0) && (p.(g_pg) =? 2) then PG_VALID else PG_FREE) = PG_FREE).
    destruct (Z.eqb_spec p.(g_ch) 0), (Z.eqb_spec p.(g_lun) 0), (Z.eqb_spec p.(g_pg) 2); try done.
    exfalso. apply Np. rewrite Ep, e, e0, e1. reflexivity.
  - intros m Hm. change (sp_of kx_shard) with ex_spp in *.
    change (0 <= 0 <= GRAIN_PER_PAGE * g_pg (page_at ex_spp 0 m) + (if m =? 2 then 0 else 0)).
    destruct (page_at_ok ex_spp ex_geom 0 m) as [V _]; [run|lia|]. apply (valid_ppa_iff _ ex_geom) in V.
    rewrite GPP_val. case_cmp; lia.
Qed.

Lemma kx_free : free_slot kx_hash kx_device kx_key 5 1031.
Proof.
  split; try (vm_compute; repeat split; congruence). apply leads_here. vm_compute. reflexivity.
Qed.

Lemma kx_storable : storable kx_hash kx_device kx_key 1000 5 1031 0 2 0.
Proof.
  split.
  - by vm_compute.
  - split; [done|apply kx_free].
  - left. by vm_compute.
  - by vm_compute.
  - split; [apply ap_open, kx_pos|run..].
  - by vm_compute.
  - right. by vm_compute.
Qed.

Lemma kx_one_page c n : c.(prp1) mod 4096 = 0 -> 0 < n <= 4096 -> forall host, prp_ok c host n.
Proof.
  intros Hp Hn host. assert (N : forall p, needed c n p -> False).
  { intros p [H1 H2]. unfold first_part in H2. rewrite PAGE_val, Hp in H2. lia. }
  split; [intros p Hq|intros _ p Hq]; by destruct (N p).
Qed.

Lemma kx_one_ready c n : c.(prp1) mod 4096 = 0 -> 0 < n <= 4096 -> forall host, host_ready c host n.
Proof.
  intros Hp Hn host. split; [by apply kx_one_page|]. intros kern. split.
  - intros i j Hi Hj. unfold buf_addr, first_part. rewrite PAGE_val, Hp.
    rewrite !(proj2 (Z.ltb_lt _ _)) by lia. lia.
  - unfold Prp.listed, first_part. rewrite PAGE_val, Hp, (proj2 (Z.ltb_ge _ _)) by lia. done.
Qed.

Definition kx_value : list Z := host_bytes kx_store kx_host 1000.

Lemma device_store_correct_witness :
  exists t k', kv_round kx_hash cx_clock kx_device kx_host kx_store 0 kx_ret =
      Ok (k', kx_host, 0, mk_ret 0 t (RELEASE_MAP 1)) /\
    holds kx_hash cx_clock k' {[kx_key := kx_value]} (7000 + store_cost 5) /\ (0 <= t <= 7000 + store_cost 5) /\
    key_stored kx_device k' 1031 kx_key 1000 5 0 2 0.
Proof.
  apply (device_store_correct kx_hash cx_clock kx_device ∅ kx_store kx_key 1000 5 1031 0 2 0 kx_host 0 kx_ret 7000).
  - apply kx_holds.
  - split; [by split|by vm_compute].
  - reflexivity.
  - reflexivity.
  - intros []; reflexivity.
  - reflexivity.
  - apply kx_storable.
  - by apply kx_one_page.
  - lia.
  - unfold store_cost. by vm_compute.
Defined.

(** ** What the commands leave *)

Definition kx_after (k : kv) (c : nvme_command) : kv :=
  match kv_round kx_hash cx_clock k kx_host c 0 kx_ret with Ok (k, _, _, _) => k | Err _ => k end.
Definition kx_stored : kv := kx_after kx_device kx_store.

Lemma kx_after_ok k c k' h n r : kv_round kx_hash cx_clock k kx_host c 0 kx_ret = Ok (k', h, n, r) -> kx_after k c = k'.
Proof. unfold kx_after. by intros ->. Qed.

Lemma kx_named : kv_command kx_store kx_key /\ kv_command kx_retrieve kx_key.
Proof. split; (split; [by split|by vm_compute]). Qed.

Lemma kx_stored_ok : holds kx_hash cx_clock kx_stored {[kx_key := kx_value]} (7000 + store_cost 5) /\
  key_stored kx_device kx_stored 1031 kx_key 1000 5 0 2 0.
Proof.
  destruct (device_store_ok kx_hash cx_clock kx_device ∅ kx_store kx_key 1000 5 1031 0 2 0 kx_host 0 kx_ret 7000)
    as (t & k' & E & Hh & _ & Ks).
  - apply kx_holds.
  - apply kx_named.
  - reflexivity.
  - reflexivity.
  - intros []; reflexivity.
  - reflexivity.
  - apply kx_storable.
  - by apply kx_one_page.
  - lia.
  - by vm_compute.
  - unfold kx_stored. rewrite (kx_after_ok _ _ _ _ _ _ E). by split.
Qed.


Lemma device_retrieve_correct_witness :
  exists t i k' host', kv_round kx_hash cx_clock kx_stored kx_host kx_retrieve 0 kx_ret =
      Ok (k', host', 1000, mk_ret 0 t (RELEASE_MAP i)) /\
    still kx_stored k' /\ holds kx_hash cx_clock k' {[kx_key := kx_value]} (7000 + store_cost 5 + retrieve_cost kx_stored) /\
    (0 <= t <= 7000 + store_cost 5 + retrieve_cost kx_stored) /\ received kx_retrieve kx_host host' kx_value.
Proof.
  apply (device_retrieve_correct kx_hash cx_clock kx_stored {[kx_key := kx_value]} kx_retrieve kx_key kx_value 4096 kx_host 0 kx_ret
    (7000 + store_cost 5)).
  - apply kx_stored_ok.
  - apply kx_named.
  - reflexivity.
  - reflexivity.
  - intros []; reflexivity.
  - split; [right; by vm_compute|right; by vm_compute].
  - reflexivity.
  - lia.
  - cbn. lia.
  - reflexivity.
  - by vm_compute.
  - left. by vm_compute.
  - intros w [= <-]. by apply kx_one_ready.
  - by vm_compute.
  - by vm_compute.
Defined.

Lemma device_absent_correct_witness :
  exists t cb k', kv_round kx_hash cx_clock kx_device kx_host kx_retrieve 0 kx_ret =
      Ok (k', kx_host, 0, mk_ret KV_ERR_KEY_NOT_EXIST t cb) /\
    still kx_device k' /\ holds kx_hash cx_clock k' ∅ (7000 + NAND_MAX * 2104).
Proof.
  apply (device_absent_correct kx_hash cx_clock kx_device ∅ kx_retrieve kx_key 4096 kx_host 0 kx_ret 7000).
  - apply kx_holds.
  - apply kx_named.
  - by left.
  - reflexivity.
  - intros []; reflexivity.
  - split; [right; by vm_compute|right; by vm_compute].
  - reflexivity.
  - reflexivity.
  - done.
  - lia.
  - reflexivity.
  - lia.
  - by vm_compute.
Defined.

Lemma store_retrieve_round_trip_witness :
  exists t' i k2 host', kv_round kx_hash cx_clock kx_stored kx_host kx_retrieve 0 kx_ret =
      Ok (k2, host', 1000, mk_ret 0 t' (RELEASE_MAP i)) /\ host' (20480 + 999) = kx_host (8192 + 999).
Proof.
  destruct (store_retrieve_round_trip kx_hash cx_clock kx_device ∅ kx_store kx_retrieve kx_key 1000 4096 5 1031 0 2 0 kx_host 0 0
    kx_ret kx_ret 7000) as (t & k1 & E & Rt).
  - apply kx_holds.
  - apply kx_named.
  - reflexivity.
  - reflexivity.
  - intros []; reflexivity.
  - reflexivity.
  - apply kx_storable.
  - by apply kx_one_page.
  - lia.
  - apply kx_named.
  - reflexivity.
  - reflexivity.
  - intros []; reflexivity.
  - reflexivity.
  - done.
  - left. lia.
  - by apply kx_one_ready.
  - lia.
  - by vm_compute.
  - rewrite <- (kx_after_ok _ _ _ _ _ _ E) in Rt.
    destruct Rt as (t' & i & k2 & host' & E2 & Rc & _); [split; [right; by vm_compute|right; by vm_compute]|].
    exists t', i, k2, host'. split; [exact E2|]. apply (Rc 999). clear. split; [discriminate|reflexivity].
Defined.

(** ** Deleting it *)

Definition kx_delete : nvme_command :=
  mk_nvme nvme_cmd_kv_delete 3 1 0 0 0 0 0 1 0 (kx_key ++ repeat 0 14).

Lemma kx_delete_named : kv_command kx_delete kx_key.
Proof. split; [by split|by vm_compute]. Qed.

Lemma device_delete_correct_witness :
  exists t k', kv_round kx_hash cx_clock kx_stored kx_host kx_delete 0 kx_ret = Ok (k', kx_host, 0, mk_ret 0 t (RELEASE_MAP 1)) /\
    holds kx_hash cx_clock k' (delete kx_key {[kx_key := kx_value]}) (7000 + store_cost 5 + retrieve_cost kx_stored) /\
    pair_deleted cx_clock kx_stored k' 1031 (mk_ppa 2 0 0 0 0 0) 2 (7000 + store_cost 5 + retrieve_cost kx_stored).
Proof.
  apply (device_delete_correct kx_hash cx_clock kx_stored {[kx_key := kx_value]} kx_delete kx_key 1000 1031 (mk_ppa 2 0 0 0 0 0)
    kx_host 0 kx_ret (7000 + store_cost 5)).
  - apply kx_stored_ok.
  - apply kx_delete_named.
  - reflexivity.
  - reflexivity.
  - reflexivity.
  - intros []; reflexivity.
  - split; [right; by vm_compute|right; by vm_compute].
  - apply (ks_slot _ _ _ _ _ _ _ _ _ (proj2 kx_stored_ok)).
  - apply (ks_slot _ _ _ _ _ _ _ _ _ (proj2 kx_stored_ok)).
  - split; [apply (up_inv _ _ _ _ _ (ks_next _ _ _ _ _ _ _ _ _ (proj2 kx_stored_ok)))|run..].
  - intros key' j [y Hk] Nk. by apply lookup_singleton_Some in Hk as [<- _].
  - by vm_compute.
  - by vm_compute.
Defined.

(** ** Writing over it *)

(** A value of 2000 bytes takes four grains, the old one had two. *)
Definition kx_store3 : nvme_command :=
  mk_nvme nvme_cmd_kv_store 6 1 0 0 12288 0 500 1 0 (kx_key ++ repeat 0 14).


(** A second key that probes the entry of the first. *)
Definition kx_key2 : list Z := [67].
Definition kx_store2 : nvme_command :=
  mk_nvme nvme_cmd_kv_store 4 1 0 0 8192 0 150 0 0 (kx_key2 ++ repeat 0 15).
Definition kx_retrieve2 : nvme_command :=
  mk_nvme nvme_cmd_kv_retrieve 5 1 0 0 20480 0 1024 0 0 (kx_key2 ++ repeat 0 15).
Definition kx_both : kv := kx_after kx_stored kx_store2.
Definition kx_value2 : list Z := host_bytes kx_store2 kx_host 600.

Lemma kx_named2 : kv_command kx_store2 kx_key2 /\ kv_command kx_retrieve2 kx_key2.
Proof. split; (split; [by split|by vm_compute]). Qed.

Lemma kx_free2 : free_slot kx_hash kx_stored kx_key2 6 1043.
Proof.
  split; [|run..].
  apply (leads_on kx_hash kx_stored kx_key2 0 5 1031 kx_key 1000).
  - vm_compute. reflexivity.
  - run.
  - apply (ks_slot _ _ _ _ _ _ _ _ _ (proj2 kx_stored_ok)).
  - done.
  - lia.
  - apply leads_here. vm_compute. reflexivity.
Qed.

Lemma kx_both_ok : holds kx_hash cx_clock kx_both {[kx_key2 := kx_value2; kx_key := kx_value]} (7000 + store_cost 5 + store_cost 6) /\
  key_stored kx_stored kx_both 1043 kx_key2 600 6 0 2 2.
Proof.
  destruct kx_stored_ok as [Hh Ks].
  destruct (device_store_ok kx_hash cx_clock kx_stored {[kx_key := kx_value]} kx_store2 kx_key2 600 6 1043 0 2 2 kx_host 0 kx_ret
    (7000 + store_cost 5)) as (t & k' & E & Hh2 & _ & Ks2).
  - exact Hh.
  - apply kx_named2.
  - reflexivity.
  - reflexivity.
  - intros []; reflexivity.
  - reflexivity.
  - split; [by vm_compute|split; [done|apply kx_free2]|by left; vm_compute|by vm_compute| |by vm_compute|right; by vm_compute].
    split; [exact (ap_open _ _ _ _ _ _ (ks_next _ _ _ _ _ _ _ _ _ Ks))|run..].
  - by apply kx_one_page.
  - by vm_compute.
  - by vm_compute.
  - unfold kx_both. rewrite (kx_after_ok _ _ _ _ _ _ E). by split.
Qed.

(** The second key is gone with the first. *)
Lemma delete_hides_keys_witness :
  exists t k', kv_round kx_hash cx_clock kx_both kx_host kx_delete 0 kx_ret = Ok (k', kx_host, 0, mk_ret 0 t (RELEASE_MAP 1)) /\
    exists t' k2, kv_round kx_hash cx_clock k' kx_host kx_retrieve2 0 kx_ret =
      Ok (k2, kx_host, 0, mk_ret KV_ERR_KEY_NOT_EXIST t' NO_CB).
Proof.
  destruct (delete_hides_keys kx_hash cx_clock kx_both {[kx_key2 := kx_value2; kx_key := kx_value]} kx_delete kx_key 1000 1031
    (mk_ppa 2 0 0 0 0 0) kx_key2 kx_value2 5 kx_host 0 kx_ret (7000 + store_cost 5 + store_cost 6)) as (t & k' & E & G).
  - apply kx_both_ok.
  - apply kx_delete_named.
  - reflexivity.
  - reflexivity.
  - reflexivity.
  - intros []; reflexivity.
  - split; [right; by vm_compute|right; by vm_compute].
  - by vm_compute.
  - apply (ks_kept _ _ _ _ _ _ _ _ _ (proj2 kx_both_ok)); [by vm_compute|done|].
    apply (ks_slot _ _ _ _ _ _ _ _ _ (proj2 kx_stored_ok)).
  - split; [apply (up_inv _ _ _ _ _ (ks_next _ _ _ _ _ _ _ _ _ (proj2 kx_both_ok)))|run..].
  - by vm_compute.
  - by vm_compute.
  - done.
  - reflexivity.
  - by vm_compute.
  - vm_compute. reflexivity.
  - exists t, k'. split; [exact E|]. rewrite <- (kx_after_ok _ _ _ _ _ _ E) in G |- *. clear E.
    apply (G kx_retrieve2 4096 0 kx_ret).
    + apply kx_named2.
    + reflexivity.
    + reflexivity.
    + reflexivity.
    + intros []; reflexivity.
    + clear. split; [right; vm_compute; reflexivity|right; vm_compute; reflexivity].
    + clear. by vm_compute.
Defined.

(** Ten grains: the pair spills over to the next page. *)
Lemma place_pair_correct_witness :
  let w := mk_writing kx_shard (page_at ex_spp 0 2) 0 [] in
  exists w' l, place_pair cx_clock w 10 5000 1031 = Ok (16, 0, w') /\
    user_pos w'.(w_shard) w'.(w_cur) 0 3 2 /\ pair_placed kx_shard w'.(w_shard) 0 16 10 1031 /\
    nand_ready cx_clock w'.(w_shard).(sd) (7000 + NAND_MAX * 1) /\ (0 <= w'.(w_latest) <= 7000 + NAND_MAX * 1) /\
    w'.(w_works) = [] ++ l /\ releases l 0.
Proof.
  intros w. apply (place_pair_correct cx_clock w 0 2 0 5000 1031 7000).
  - apply kx_pos.
  - lia.
  - lia.
  - reflexivity.
  - reflexivity.
  - apply (so_dev _ _ _ (ho_sound _ _ _ _ _ kx_holds)).
  - cbn. lia.
  - by vm_compute.
Defined.
