(* ===== verification/Gc.v ===== *)
(** * The garbage collector ([demand_ftl.c])

    A victim line is read page by page, what is still alive is copied to the
    line the collector writes to, and the victim is erased.  The source keeps
    the position of the collector in [struct gc_data]; sections of the table
    that it brings into DRAM wait in a list of their own, the shadow list, until
    a flash page is done.  The thread runs beside the dispatcher and the workers;
    here a collection is one step between two commands.  Of the partial deletes
    only those a pair already carries are looked at in this build. *)

From stdpp Require Import gmap.
From S2P Require Import Prelude Fifo Lru Append WorkQueue Queues Prp.
From S2P Require Import ChModel Ssd Geometry PQueue Line Lines Pages Cache Heap Pairs Kv.

(** ** State *)

(** The fields of [struct gc_data] this build uses. *)
Record gc_data := mk_gcd { gc_ppa : ppa; gc_pgidx : Z; gc_offset : Z; gc_map : bool }.

Definition set_gc_offset (g : gc_data) (v : Z) : gc_data :=
  mk_gcd g.(gc_ppa) g.(gc_pgidx) (u32 v) g.(gc_map).
Definition set_gc_map (g : gc_data) (b : bool) : gc_data :=
  mk_gcd g.(gc_ppa) g.(gc_pgidx) g.(gc_offset) b.

(** What [alloc_gc_mem] and [free_gc_mem] leave. *)
Definition alloc_gc_mem (g : gc_data) : gc_data := mk_gcd g.(gc_ppa) g.(gc_pgidx) GRAIN_PER_PAGE g.(gc_map).

(** [shadow] is [shadow_idx] up to [shadow_idx_idx]. *)
Record collector := mk_col { dev : kv; gcd : gc_data; shadow : list Z }.

Definition set_dev (c : collector) (k : kv) : collector := mk_col k c.(gcd) c.(shadow).
Definition set_gcd (c : collector) (g : gc_data) : collector := mk_col c.(dev) g c.(shadow).
Definition set_shadow (c : collector) (l : list Z) : collector := mk_col c.(dev) c.(gcd) l.
Definition shard_in (c : collector) : demand_shard := shard_of c.(dev).
Definition cache_in (c : collector) : cache := cache_of c.(dev).
Definition put_shard (c : collector) (s : demand_shard) : collector := set_dev c (set_shard c.(dev) s).
Definition put_cache (c : collector) (x : cache) : collector := set_dev c (set_cache c.(dev) x).

(** ** Where copies go *)

(** [__maybe_write] builds a command, does not issue it and answers 0. *)
Definition __maybe_write (s : demand_shard) (p : ppa) (map : bool) : Z := 0.

Definition gc_type (map : bool) : io_type := if map then GC_MAP_IO else GC_IO.

(** The [again] loop of [__new_gc_ppa]: page 0 is taken and marked dead, once. *)
Fixpoint new_gc_loop (fuel : nat) (s : demand_shard) (g : gc_data) (map : bool) : result (demand_shard * gc_data) :=
  match fuel with
  | O => Err HANG
  | S fuel =>
      p ← get_new_page s (gc_type map);
      pgidx ← ppa2pgidx (sp_of s) p;
      let g := mk_gcd p pgidx 0 g.(gc_map) in
      s ← advance_write_pointer s (gc_type map);
      s ← mark_page_valid s p;
      if pgidx =? 0 then
        s ← mark_grain_valid s (PPA_TO_PGA pgidx 0) GRAIN_PER_PAGE;
        s ← mark_grain_invalid s (PPA_TO_PGA pgidx 0) GRAIN_PER_PAGE;
        new_gc_loop fuel s g map
      else Ok (s, g)
  end.
Definition __new_gc_ppa (s : demand_shard) (g : gc_data) (map : bool) : result (demand_shard * gc_data) :=
  new_gc_loop 2 s g map.

(** A new page when the current one is used up. *)
Definition fresh_page (s : demand_shard) (g : gc_data) (map : bool) : result (demand_shard * gc_data) :=
  if g.(gc_offset) >=? GRAIN_PER_PAGE then __new_gc_ppa s g map else Ok (s, g).

(** The rest of a page is given up: [oob] from [o] on. *)
Definition drop_oob (s : demand_shard) (pgidx o : Z) : result demand_shard :=
  if (0 <=? pgidx) && (pgidx <? (sp_of s).(tt_pgs)) then
    Ok (set_oob s (upd s.(oob) pgidx (memset (s.(oob) pgidx) o (GRAIN_PER_PAGE - o) UINT_MAX)))
  else Err OOB.

(** ** Mapping pages *)

(** From the label [again] of [__copy_map] on. *)
Fixpoint copy_map_loop (fuel : nat) (s : demand_shard) (c : cache) (g : gc_data) (idx len : Z)
    : result (demand_shard * cache * gc_data) :=
  match fuel with
  | O => Err HANG
  | S fuel =>
      let offset := g.(gc_offset) in
      let pgidx := g.(gc_pgidx) in
      if len >? u32 (GRAIN_PER_PAGE - offset) then
        _ ← assert_ (offset >? 0);
        s ← mark_grain_valid s (PPA_TO_PGA pgidx offset) (GRAIN_PER_PAGE - offset);
        s ← mark_grain_invalid s (PPA_TO_PGA pgidx offset) (GRAIN_PER_PAGE - offset);
        s ← drop_oob s pgidx offset;
        '(s, g) ← __new_gc_ppa s g true;
        copy_map_loop fuel s c g idx len
      else
        s ← mark_grain_valid s (PPA_TO_PGA pgidx offset) len;
        h ← section c idx;
        let h := set_t_ppa h (u32 pgidx) in
        let h := mk_ht h.(Cache.idx) h.(t_ppa) h.(state) h.(cached) h.(mem) offset h.(len_on_disk) h.(outgoing) h.(pair_mem) in
        s ← oob_put s pgidx offset (Z.lor (Z.shiftl len 32) (u32 (idx * EPP)));
        Ok (s, put c idx h, set_gc_offset g (offset + len))
  end.

Definition __copy_map (s : demand_shard) (c : cache) (g : gc_data) (idx len : Z)
    : result (demand_shard * cache * gc_data) :=
  '(s, g) ← fresh_page s g true;
  copy_map_loop 2 s c g idx len.

(** ** Pairs *)

(** [ht->mappings[pos].ppa]. *)
Definition mapping_at (h : ht_section) (pos : Z) : result Z :=
  match h.(mem) with
  | Some m => if h.(cached) then Ok (m pos) else Err NULLPTR
  | None => Err NULLPTR
  end.
Definition set_mapping (h : ht_section) (pos v : Z) : ht_section :=
  mk_ht h.(idx) h.(t_ppa) h.(state) h.(cached) ((fun m => upd m pos v) <$> h.(mem)) h.(g_off) h.(len_on_disk)
    h.(outgoing) h.(pair_mem).

(** The marker of a pair that lost a part: the last four bytes of its grains. *)
Definition end_marker : Z := 2880154539.
Definition read4 (h : heap) (a o : Z) : result Z := l ← hread h a o 4; Ok (of_le4 l).
Definition read8 (h : heap) (a o : Z) : result Z := l ← hread h a o 8; Ok (le_bytes 8 (of_list l) 0).

Definition __has_marker (h : heap) (a glen : Z) : result bool :=
  v ← read4 h a (glen * GRAINED_UNIT - 4); Ok (v =? end_marker).

(** The first loop of [__get_existing_shifts]: back to the start marker. *)
Fixpoint find_start (fuel : nat) (h : heap) (a idx empty : Z) : result (Z * Z) :=
  match fuel with
  | O => Err HANG
  | S fuel =>
      check ← read4 h a idx;
      if check =? UINT_MAX then Ok (idx, empty) else
      _ ← assert_ (idx >? 0);
      find_start fuel h a (idx - 4) (if check =? 0 then empty + 1 else empty)
  end.

(** The second loop; [existing_shifts] has 1024 cells. *)
Fixpoint read_shifts (n : nat) (h : heap) (a idx glen : Z) (shifts : list Z) : result (list Z) :=
  match n with
  | O => Ok shifts
  | S n =>
      if Z.of_nat (length shifts) >=? 1024 then Err OOB else
      v ← read8 h a idx;
      let shifts := shifts ++ [v] in
      e ← read4 h a (idx + 4);
      if e =? end_marker then Ok shifts else
      _ ← assert_ (idx + 8 <=? glen * GRAINED_UNIT);
      read_shifts n h a (idx + 8) glen shifts
  end.

(** Each round of the search goes four bytes back. *)
Definition __get_existing_shifts (h : heap) (a glen : Z) : result (list Z) :=
  let fin := glen * GRAINED_UNIT - 4 in
  '(idx, empty) ← find_start (S (Z.to_nat (fin / 4))) h a fin 0;
  let total := u32 ((fin - idx - 4) / 8 - empty / 2) in
  read_shifts (Z.to_nat total) h a (idx + 4) glen [].

(** [__valid_mapping] and [__off_del] of this build. *)
Definition __valid_mapping (lpa grain : Z) : bool := true.
Definition __off_del (lpa grain : Z) : Z := U64_MAX.

(** The sections the collector brought in and that have not been queued yet. *)
Fixpoint __shadow_read (c : cache) (l : list Z) (ppa : Z) : result bool :=
  match l with
  | [] => Ok false
  | i :: l => h ← section c i; if h.(t_ppa) =? ppa then Ok true else __shadow_read c l ppa
  end.

Section timing.
Context (clock : nat -> Z).

(** The wordline of [p] is complete and goes to flash. *)
Definition gc_wordline (s : demand_shard) (p : ppa) : result demand_shard :=
  if last_pg_in_wordline (sp_of s) p then
    '(_, s) ← advance clock s NAND_WRITE p 0 ((sp_of s).(pgsz) * (sp_of s).(pgs_per_oneshotpg)); Ok s
  else Ok s.

Fixpoint copy_loop (fuel : nat) (s : demand_shard) (g : gc_data) (page off rem rem_in_page : Z)
    : result (demand_shard * gc_data) :=
  match fuel with
  | O => Err HANG
  | S fuel =>
      if rem =? 0 then Ok (s, g) else
      let sz := Z.min rem rem_in_page in
      s ← mark_grain_valid s (PPA_TO_PGA page off) sz;
      let g := set_gc_offset g (g.(gc_offset) + sz) in
      let rem := rem - sz in
      if (rem =? 0) && negb (g.(gc_offset) mod GRAIN_PER_PAGE =? 0) then Ok (s, g) else
      s ← gc_wordline s g.(gc_ppa);
      '(s, g) ← __new_gc_ppa s g false;
      page ← ppa2pgidx (sp_of s) g.(gc_ppa);
      copy_loop fuel s g page g.(gc_offset) rem GRAIN_PER_PAGE
  end.

(** Enough room up to the end of the wordline stripe, or a page of the next. *)
Definition gc_room (s : demand_shard) (g : gc_data) (len : Z) : result (demand_shard * gc_data) :=
  '(fits, _) ← enough_space_in_line (sp_of s) g.(gc_ppa) g.(gc_offset) len;
  if (fits : bool) then Ok (s, g) else
  '(s, _) ← clear_rest_of_line s g.(gc_ppa) g.(gc_offset) 0 true;
  __new_gc_ppa s g false.

(** [__copy_valid_pair] up to the out-of-band marks; the result is the grain of
    the copy. *)
Definition copy_grains (s : demand_shard) (g : gc_data) (lpa len : Z) : result (Z * demand_shard * gc_data) :=
  '(s, g) ← fresh_page s g false;
  '(s, g) ← gc_room s g len;
  let offset := g.(gc_offset) in
  pgidx ← ppa2pgidx (sp_of s) g.(gc_ppa);
  '(s, g) ← copy_loop (S (Z.to_nat len)) s g pgidx offset len (GRAIN_PER_PAGE - offset mod GRAIN_PER_PAGE);
  _ ← assert_ (negb (lpa =? UINT_MAX));
  s ← mark_oob s pgidx offset len lpa;
  Ok (PPA_TO_PGA pgidx offset, s, g).

(** Pair [lpa], position [pos] of section [i], leaves the line [gc_line].  The
    entry is the one it was: no store comes in between. *)
Definition __copy_valid_pair (c : collector) (lpa len i pos gc_line : Z) : result collector :=
  '(grain, s, g) ← copy_grains (shard_in c) c.(gcd) lpa len;
  let c := set_gcd (put_shard c s) g in
  h ← section (cache_in c) i;
  before ← mapping_at h pos;
  line ← __grain2lineid s before;
  if line =? gc_line then Ok (put_cache c (put (cache_in c) i (set_mapping h pos grain)))
  else Err BUG.

(** ** Cleaning a flash page *)

(** A grain that is alive in a mapping line; the result is its length. *)
Definition clean_map_grain (c : collector) (pgidx i grain word : Z) : result (Z * collector) :=
  let lpa := __lpa_from_oob word in
  let idx := IDX lpa in
  _ ← assert_ (idx >? 0);
  '(i', x) ← cache_get_ht (cache_in c) lpa;
  let c := put_cache c x in
  h ← section (cache_in c) i';
  _ ← assert_ ((h.(g_off) =? 0) && (i =? 0));
  c ← (if negb (h.(t_ppa) =? pgidx) || negb (h.(g_off) =? i) then Ok c else
    _ ← assert_ (h.(len_on_disk) =? GRAIN_PER_PAGE);
    s ← mark_grain_invalid (shard_in c) grain GRAIN_PER_PAGE;
    '(s, x, g) ← __copy_map s (cache_in c) c.(gcd) idx GRAIN_PER_PAGE;
    Ok (set_gcd (put_cache (put_shard c s) x) g));
  x ← unlock_section (cache_in c) i';
  Ok (GRAIN_PER_PAGE, put_cache c x).

(** The section of a pair, when it is not in DRAM. *)
Definition shadow_in (c : collector) (i : Z) : result collector :=
  h ← section (cache_in c) i;
  if h.(cached) then Ok c else
  hit ← __shadow_read (cache_in c) c.(shadow) h.(t_ppa);
  s ← (if (hit : bool) then Ok (shard_in c) else
    p ← ppa_to_struct (sp_of (shard_in c)) h.(t_ppa);
    '(_, s) ← advance clock (shard_in c) NAND_READ p 0 (sp_of (shard_in c)).(pgsz);
    Ok s);
  let c := put_shard c s in
  let c := put_cache c (put (cache_in c) i (set_cached h (bool_decide (is_Some h.(mem))))) in
  if Z.of_nat (length c.(shadow)) >=? GRAIN_PER_PAGE * FLASH_PAGE_SIZE then Err OOB else
  Ok (set_shadow c (c.(shadow) ++ [h.(idx)])).

(** The pair is looked at before it is copied: [__off_del] names no part to
    delete, so its length stays.  Its value is not empty, [__vlen_from_value]
    stops otherwise, so the branch for a pair that is gone is dead. *)
Definition examine_pair (h : heap) (mem len : Z) : result unit :=
  _ ← __vlen_from_value h mem;
  marked ← __has_marker h mem len;
  _ ← (if (marked : bool) then _ ← __get_existing_shifts h mem len; Ok tt else Ok tt);
  assert_ (len <=? 100000).

(** A grain that is alive in a line of pairs. *)
Definition clean_pair (c : collector) (gc_line grain word : Z) : result (Z * collector) :=
  let lpa := __lpa_from_oob word in
  let len := i32 (__glen_from_oob word) in
  _ ← assert_ (negb (lpa =? UINT_MAX));
  _ ← assert_ (lpa <=? (cache_in c).(nr_valid_tentries));
  '(i, x) ← cache_get_ht (cache_in c) lpa;
  let c := put_cache c x in
  c ← (if __valid_mapping lpa grain then
    c ← shadow_in c i;
    h ← section (cache_in c) i;
    '(pte, pos) ← cache_hidx_to_grain h lpa;
    if negb (pte =? grain) then Ok c else
    _ ← examine_pair c.(dev).(hp) (h.(pair_mem) (OFFSET lpa)) len;
    __copy_valid_pair c lpa len i pos gc_line
  else Ok c);
  x ← unlock_section (cache_in c) i;
  Ok (len, put_cache c x).

(** The grains of one page from grain [i] on. *)
Fixpoint clean_grains (fuel : nat) (c : collector) (pgidx gc_line i : Z) : result collector :=
  match fuel with
  | O => Err HANG
  | S fuel =>
      if i >=? GRAIN_PER_PAGE then Ok c else
      let grain := PPA_TO_PGA pgidx i in
      valid_g ← bitmap_cell (shard_in c) grain;
      word ← oob_cell (shard_in c) pgidx i;
      if word =? UINT_MAX - 11 then
        _ ← assert_ (i =? 0); clean_grains fuel c pgidx gc_line (i + 1)
      else if word =? UINT_MAX - 10 then
        _ ← assert_ (i =? 0);
        n ← oob_cell (shard_in c) pgidx 1;
        _ ← assert_ (n <=? GRAIN_PER_PAGE);
        clean_grains fuel c pgidx gc_line (i32 (i + n - 1) + 1)
      else if word =? UINT_MAX then Ok c
      else
        let c := if (shard_in c).(Lines.offset) / GRAINED_UNIT =? grain
                 then put_shard c (set_shard_offset (shard_in c) 0) else c in
        if (i =? 0) && c.(gcd).(gc_map) && (word =? UINT_MAX - 5) then Err BUG else
        if negb valid_g then clean_grains fuel c pgidx gc_line (i + 1) else
        '(len, c) ← (if c.(gcd).(gc_map) then clean_map_grain c pgidx i grain word else clean_pair c gc_line grain word);
        clean_grains fuel c pgidx gc_line (i + (len - 1) + 1)
  end.

(** The first page is marked dead when no bit of it is set. *)
Definition look (s : demand_shard) (p : ppa) (pgidx i : Z) : result demand_shard :=
  if i =? 0 then
    dead ← page_grains_invalid s pgidx;
    if (dead : bool) then mark_page_invalid s p else Ok s
  else Ok s.

(** The pages of the flash page, from [p] on; the result also counts the live
    ones. *)
Fixpoint clean_pages (n : nat) (c : collector) (p : ppa) (gc_line i cnt : Z) : result (Z * collector) :=
  match n with
  | O => Ok (cnt, c)
  | S n =>
      pgidx ← ppa2pgidx (sp_of (shard_in c)) p;
      _ ← get_pg (shard_in c).(sd) p;
      s ← look (shard_in c) p pgidx i;
      let c := put_shard c s in
      x ← get_pg s.(sd) p;
      _ ← assert_ (negb (page_is PG_FREE x));
      let next := with_pg p (p.(g_pg) + 1) in
      if page_is PG_INVALID x then clean_pages n c next gc_line (i + 1) cnt else
      c ← clean_grains 9 c pgidx gc_line 0;
      clean_pages n c next gc_line (i + 1) (if page_is PG_VALID x then cnt + 1 else cnt)
  end.

(** The sections of the shadow list go to the FIFO. *)
Fixpoint unshadow (l : list Z) (x : cache) : result cache :=
  match l with
  | [] => Ok x
  | j :: l =>
      '(i, x) ← cache_get_ht x (u32 (j * EPP));
      h ← section x i;
      let x := set_fifo x (snd (fifo_enqueue x.(fifo) h.(idx))) in
      let x := set_cached_cnt x (x.(nr_cached_tentries) + h.(len_on_disk)) in
      x ← unlock_section x i;
      unshadow l x
  end.

Definition clean_one_flashpg (c : collector) (p : ppa) : result collector :=
  line ← get_line (shard_in c) p;
  '(cnt, c) ← clean_pages (Z.to_nat (sp_of (shard_in c)).(pgs_per_flashpg)) c p line.(id) 0 0;
  if cnt <=? 0 then Ok c else
  x ← unshadow c.(shadow) (cache_in c);
  Ok (set_shadow (put_cache c x) []).

(** ** A collection *)

(** The body of the loops over channels and LUNs: [p] is the first page of the
    flash page, [last] tells the last one of the block.  The time is that of the
    latest erase. *)
Definition gc_lun (delay : bool) (victim : Z) (last : bool) (p : ppa) (st : Z * collector) : result (Z * collector) :=
  let '(latest, c) := st in
  _ ← get_lun (shard_in c).(sd) p;
  x ← line_at (shard_in c).(lm) victim;
  c ← (if x.(vgc) >? 0 then clean_one_flashpg c p else Ok c);
  if negb last then Ok (latest, c) else
  s ← mark_block_free (shard_in c) p;
  if delay then
    '(n, s) ← advance clock s NAND_ERASE p 0 0; Ok (Z.max latest n, put_shard c s)
  else Ok (latest, put_shard c s).

(** [for] over the numbers below [n]. *)
Fixpoint count_up {A} (n : nat) (i : Z) (f : Z -> A -> result A) (a : A) : result A :=
  match n with O => Ok a | S n => a ← f i a; count_up n (i + 1) f a end.

(** The blocks of the victim line, flash page by flash page. *)
Definition gc_blocks (delay : bool) (victim blk : Z) (c : collector) : result (Z * collector) :=
  let spp := sp_of (shard_in c) in
  count_up (Z.to_nat spp.(flashpgs_per_blk)) 0 (fun f =>
    count_up (Z.to_nat spp.(nchs)) 0 (fun ch =>
      count_up (Z.to_nat spp.(luns_per_ch)) 0 (fun lun =>
        gc_lun delay victim (f =? spp.(flashpgs_per_blk) - 1)
          (mk_ppa (u16 (f * spp.(pgs_per_flashpg))) (u16 blk) 0 (u8 lun) (u8 ch) 0)))) (0, c).

(** What is left of the page the collector writes to is given up.  The time at
    which its last command is over goes to [nsecs_completed] and no further. *)
Definition close_page (delay : bool) (c : collector) : result collector :=
  let g := c.(gcd) in
  if g.(gc_offset) >=? GRAIN_PER_PAGE then Ok c else
  let s := shard_in c in
  let spp := sp_of s in
  let pgidx := g.(gc_pgidx) in
  let offset := g.(gc_offset) in
  p ← ppa_to_struct spp pgidx;
  s ← drop_oob s pgidx offset;
  let s := set_bitmap s (memset s.(grain_bitmap) (PPA_TO_PGA pgidx offset) (GRAIN_PER_PAGE - offset) false) in
  s ← mark_grain_valid s (PPA_TO_PGA pgidx offset) (GRAIN_PER_PAGE - offset);
  s ← mark_grain_invalid s (PPA_TO_PGA pgidx offset) (GRAIN_PER_PAGE - offset);
  s ← (if delay then
      '(_, s) ← (if last_pg_in_wordline spp p
                 then advance clock s NAND_WRITE p 0 (spp.(pgsz) * spp.(pgs_per_oneshotpg))
                 else advance clock s NAND_NOP p 0 0);
      Ok s
    else Ok s);
  Ok (set_gcd (put_shard c s) (mk_gcd g.(gc_ppa) UINT_MAX GRAIN_PER_PAGE g.(gc_map))).

(** [delay] is [cp.enable_gc_delay].  The result is the time at which the last
    erase is over, [UINT_MAX] when there was no victim. *)
Definition do_gc (delay : bool) (c : collector) : result (Z * collector) :=
  '(v, s) ← select_victim_line (shard_in c);
  let c := put_shard c s in
  match v with
  | None => Ok (UINT_MAX, c)
  | Some v =>
      x ← line_at s.(lm) v;
      let c := set_gcd c (set_gc_map c.(gcd) x.(map)) in
      let s := set_counters s 0 0 0 in
      let c := put_shard c (set_wfc s (mk_wfc s.(wfc).(write_credits) (u32 x.(igc)))) in
      '(latest, c) ← gc_blocks delay v x.(id) c;
      c ← close_page delay c;
      s ← mark_line_free (shard_in c) (mk_ppa 0 (u16 x.(id)) 0 0 0 0);
      Ok (latest, put_shard c s)
  end.

(** A round of the loop of the background thread; [gcing] is the flag that
    keeps collections apart. *)
Definition bg_gc_turn (delay : bool) (gcing : Z) (c : collector) : result (Z * collector) :=
  if negb (should_gc (shard_in c)) then Ok (gcing, c) else
  if negb (gcing =? 0) then Ok (gcing, c) else
  '(t, c) ← do_gc delay c;
  let w := (shard_in c).(wfc) in
  let c := if t =? UINT_MAX then c else
    put_shard c (set_wfc (shard_in c) (mk_wfc (u32 (w.(write_credits) + w.(credits_to_refill))) w.(credits_to_refill))) in
  Ok (0, c).

End timing.
