(* ===== verification/Relocate.v ===== *)
(** * Copying a live pair ([demand_ftl.c])

    Where the collector is on the line it writes to, and what copying the
    grains of one pair there changes.  A pair that does not fit into the wordline
    stripe of the current page starts the next one; what is left of the stripe
    is given up. *)

From stdpp Require Import gmap.
From S2P Require Import Prelude Fifo Lru Append WorkQueue Queues Prp.
From S2P Require Import ChModel Ssd Geometry PQueue Line Lines Pages Place Cache Heap Pairs Kv Gc.

(** ** The position *)

(** The collector's next grain is grain [x] of line [b]: its page is used up, or
    it is in the middle of one. *)
Variant gc_at (s : demand_shard) (g : gc_data) (b x : Z) : Prop :=
  | gc_idle n : x = 8 * n -> g.(gc_offset) = GRAIN_PER_PAGE -> next_free s GC_IO b n -> dead_ok s b n 0 -> gc_at s g b x
  | gc_busy n o : x = 8 * n + o -> 0 <= o < 8 -> g.(gc_offset) = o -> g.(gc_ppa) = page_of s b n ->
      g.(gc_pgidx) = index_of s b n -> place_at s GC_IO b n o -> dead_ok s b n o -> gc_at s g b x.

(** The first grain a pair of [len] grains gets, and the position behind it. *)
Definition copy_start (spp : ssdparams) (x len : Z) : Z :=
  if stripe spp (x / 8 + pages_touched (x mod 8) len) =? stripe spp (x / 8) then x else 8 * stripe_end spp (x / 8).
Definition copy_end (spp : ssdparams) (x len : Z) : Z := copy_start spp x len + len.

Lemma copy_start_ge spp x len : geom spp -> 0 <= x -> x <= copy_start spp x len.
Proof.
  intros G Hx. unfold copy_start. case_cmp; [done|].
  destruct (stripe_end_next spp (x / 8) G ltac:(zlia)) as (H & _). zlia.
Qed.

(** ** Timing moves nothing *)

Lemma moves_flash s s' t b x : same_flash s s' -> moves s s' t b x.
Proof.
  intros F. pose proof (same_flash_blk s s') as Bk. pose proof F as (D & Es & _). unfold same_but_device in D.
  assert (Pg : forall q, page_at_ppa s' q = page_at_ppa s q) by (intros q; unfold page_at_ppa; by rewrite Bk).
  split; try done.
  - intros q _. by rewrite Pg.
  - intros q _. by rewrite Bk.
  - intros i _. by rewrite D.
  - rewrite D. cbn. by destruct s.(lm).
  - intros u _. rewrite D. by destruct u.
  - rewrite D. split_and!; try done. intros q. by rewrite <- D, Pg.
  - intros y i _ _. by rewrite D.
Qed.

(** Only the first page of the device has index 0. *)
Lemma index_positive spp b m : geom spp -> 0 <= b < spp.(blks_per_pl) -> 0 <= m < spp.(pgs_per_line) -> 0 < b \/ 0 < m ->
  pgidx spp (page_at spp b m) <> 0.
Proof.
  intros G Hb Hm H. destruct (Z.eq_dec m 0) as [->|N]; [|by apply index_nonzero; try done; lia].
  destruct H as [H|H]; [|lia]. pose proof (page_at_ok _ G b 0 Hb Hm) as [V _]. apply (valid_ppa_iff _ G) in V.
  destruct (geom_consts _ G) as (_ & _ & E2 & _ & _ & _ & _ & E7 & E8 & _). unfold pgidx. change (g_blk (page_at spp b 0)) with b in *. nia.
Qed.

(** ** A new page *)

Lemma new_gc_ok s g b n : next_free s GC_IO b n -> dead_ok s b n 0 -> n + 1 < (sp_of s).(pgs_per_line) -> 0 < b \/ 0 < n ->
  exists s', let g' := mk_gcd (page_of s b n) (index_of s b n) 0 g.(gc_map) in
    __new_gc_ppa s g false = Ok (s', g') /\ gc_at s' g' b (8 * n) /\ place_at s' GC_IO b n 0 /\ dead_ok s' b n 0 /\
    timing_kept s s' /\ moves s s' GC_IO b (8 * n) /\ s'.(grain_bitmap) = s.(grain_bitmap) /\ s'.(oob) = s.(oob).
Proof.
  intros F D Hn Hz. pose proof (sh_geom _ (nf_inv _ _ _ _ F)) as G.
  destruct (nf_wp _ _ _ _ F) as (_ & (Hb & _) & Hn0).
  destruct (place_take s GC_IO b n F Hn) as (s1 & s' & E & E1 & E2 & _ & U & T & M & R1 & R2 & _ & I).
  destruct (line_page s b n G Hb Hn0) as (_ & Hi & _ & E'). pose proof (mv_sp _ _ _ _ _ M) as Es.
  assert (D' : dead_ok s' b n 0) by (intros m; rewrite Es, I; apply D).
  exists s'. cbv zeta. split; [|split; [|by split_and!]].
  - unfold __new_gc_ppa. cbn [new_gc_loop gc_type]. rewrite E. cbn [mbind result_mbind result_bind].
    rewrite E'. cbn [mbind result_mbind result_bind]. rewrite E1. cbn [mbind result_mbind result_bind]. rewrite E2.
    cbn [mbind result_mbind result_bind]. by rewrite (proj2 (Z.eqb_neq _ 0)) by (by apply index_positive).
  - apply (gc_busy _ _ _ _ n 0); cbn; rewrite ?Es; done || lia.
Qed.

Lemma fresh_page_ok s g b x : gc_at s g b x -> x / 8 + 1 < (sp_of s).(pgs_per_line) -> 0 < b \/ 0 < x ->
  exists s' g', fresh_page s g false = Ok (s', g') /\ gc_at s' g' b x /\ g'.(gc_map) = g.(gc_map) /\
    place_at s' GC_IO b (x / 8) (x mod 8) /\ dead_ok s' b (x / 8) (x mod 8) /\ g'.(gc_offset) = x mod 8 /\
    g'.(gc_ppa) = page_of s b (x / 8) /\ g'.(gc_pgidx) = index_of s b (x / 8) /\
    timing_kept s s' /\ moves s s' GC_IO b x /\ s'.(grain_bitmap) = s.(grain_bitmap) /\ s'.(oob) = s.(oob).
Proof.
  intros C Hx Hz. unfold fresh_page. destruct C as [n -> Eo F D|n o -> Ho Eo Ep Ei U D].
  - rewrite Eo, Z.geb_leb, Z.leb_refl. replace (8 * n / 8) with n in * by zlia. replace ((8 * n) mod 8) with 0 by zlia.
    destruct (new_gc_ok s g b n F D Hx ltac:(lia)) as (s' & E & A & U & D' & T & M & R1 & R2). rewrite E.
    eexists _, _. split; [done|]. by split_and!.
  - rewrite Eo, Z.geb_leb, (proj2 (Z.leb_gt GRAIN_PER_PAGE o)) by (rewrite GPP_val; lia).
    replace ((8 * n + o) / 8) with n by zlia. replace ((8 * n + o) mod 8) with o by zlia.
    exists s, g. split; [done|]. split; [by apply (gc_busy _ _ _ _ n o)|]. split_and!; try done. apply moves_refl.
Qed.

Section copying.
Context (clock : nat -> Z).
#[local] Abbreviation ready s B := (nand_ready clock s.(sd) B).

Lemma ready_kept s s' B : ready s B -> shard_inv s' -> timing_kept s s' -> ready s' B.
Proof. intros R I T. apply (nand_ready_kept _ (sd s)); [done|apply I|done]. Qed.

Lemma ready_more s B B' : ready s B -> B <= B' -> ready s B'.
Proof. apply nand_ready_mono. Qed.

(** The pages of [l] go to flash one after the other, each with its wordline;
    apart from these writes the timing of the device stays. *)
Inductive issued : demand_shard -> list ppa -> demand_shard -> Prop :=
  | issued_none s s' : timing_kept s s' -> issued s [] s'
  | issued_write s s1 t s2 p l s' : timing_kept s s1 ->
      advance clock s1 NAND_WRITE p 0 ((sp_of s1).(pgsz) * (sp_of s1).(pgs_per_oneshotpg)) = Ok (t, s2) ->
      issued s2 l s' -> issued s (p :: l) s'.

Lemma issued_before s s1 l s' : timing_kept s s1 -> issued s1 l s' -> issued s l s'.
Proof.
  intros T I. inversion I as [? ? T'|? s2 t s3 p l' ? T' E I']; subst; [apply issued_none|apply (issued_write _ s2 t s3); try done];
    by etransitivity.
Qed.

Lemma issued_after s l s1 s' : issued s l s1 -> timing_kept s1 s' -> issued s l s'.
Proof. induction 1; intros; [apply issued_none; by etransitivity|eapply issued_write; eauto]. Qed.

Lemma issued_app s l s1 l' s' : issued s l s1 -> issued s1 l' s' -> issued s (l ++ l') s'.
Proof. induction 1; intros; [by eapply issued_before|eapply issued_write; eauto]. Qed.

(** The pages that [len] grains from grain [x] of line [b] on fill up and that
    end a wordline. *)
Definition written (spp : ssdparams) (b x len : Z) : list ppa :=
  filter (fun p => last_pg_in_wordline spp p = true) (page_at spp b <$> seqZ (x / 8) ((x + len) / 8 - x / 8)).

Lemma written_short spp b x len : 0 <= len -> x mod 8 + len < 8 -> written spp b x len = [].
Proof. intros Hl Hx. unfold written. replace ((x + len) / 8 - x / 8) with 0 by zlia. done. Qed.

Lemma written_page spp b n o len : 0 <= o < 8 -> 8 - o <= len ->
  written spp b (8 * n + o) len =
    (if last_pg_in_wordline spp (page_at spp b n) then [page_at spp b n] else []) ++ written spp b (8 * (n + 1)) (len - (8 - o)).
Proof.
  intros Ho Hl. unfold written. replace ((8 * n + o) / 8) with n by zlia. replace (8 * (n + 1) / 8) with (n + 1) by zlia.
  replace ((8 * n + o + len) / 8) with ((8 * (n + 1) + (len - (8 - o))) / 8) by (f_equal; lia).
  set (e := (8 * (n + 1) + (len - (8 - o))) / 8). assert (n + 1 <= e) by (unfold e; zlia).
  rewrite seqZ_cons by lia. rewrite fmap_cons, filter_cons. replace (Z.succ n) with (n + 1) by lia.
  replace (Z.pred (e - n)) with (e - (n + 1)) by lia. by destruct (last_pg_in_wordline _ _); case_decide.
Qed.

(** The clear of the rest of a stripe. *)
Lemma clear_rest_ok s b n g : let e := stripe_end (sp_of s) n in
  place_at s GC_IO b n g -> dead_ok s b n g -> g < GRAIN_PER_PAGE -> e < (sp_of s).(pgs_per_line) -> 1 < (sp_of s).(blks_per_pl) ->
  exists s' c, clear_rest_of_line s (page_of s b n) g 0 true = Ok (s', c) /\ next_free s' GC_IO b e /\ dead_ok s' b e 0 /\
    timing_kept s s' /\ moves s s' GC_IO b (8 * n + g) /\ forall q, bit s' q = bit s q.
Proof.
  intros e U D Hg He Hb1. destruct (pa_geom _ _ _ _ _ U) as (G & Hb & Hn1). pose proof (pa_range _ _ _ _ _ U) as [Hn _].
  destruct (line_page s b n G Hb ltac:(lia)) as (_ & _ & _ & Ei). destruct (stripe_end_next (sp_of s) n G Hn) as (Hx & _).
  destruct (geom_consts _ G) as (E1 & _ & _ & _ & _ & Hc & Hbk & E7 & _). unfold clear_rest_of_line. rewrite Ei.
  cbn [mbind result_mbind result_bind]. apply clear_loop_ok; try done; rewrite ?GPP_val, ?E7, E1 in *; fold e in Hx; lia.
Qed.

Lemma gc_room_ok s g b x len B :
  gc_at s g b x -> place_at s GC_IO b (x / 8) (x mod 8) -> dead_ok s b (x / 8) (x mod 8) -> g.(gc_offset) = x mod 8 ->
  g.(gc_ppa) = page_of s b (x / 8) -> g.(gc_pgidx) = index_of s b (x / 8) -> 0 < len ->
  1 < (sp_of s).(blks_per_pl) -> let x0 := copy_start (sp_of s) x len in x0 / 8 + 1 < (sp_of s).(pgs_per_line) -> ready s B ->
  exists s' g', gc_room s g len = Ok (s', g') /\ place_at s' GC_IO b (x0 / 8) (x0 mod 8) /\ dead_ok s' b (x0 / 8) (x0 mod 8) /\
    g'.(gc_offset) = x0 mod 8 /\ g'.(gc_ppa) = page_of s b (x0 / 8) /\ g'.(gc_pgidx) = index_of s b (x0 / 8) /\
    g'.(gc_map) = g.(gc_map) /\ timing_kept s s' /\ ready s' B /\ moves s s' GC_IO b x /\ forall q, bit s' q = bit s q.
Proof.
  intros C U D Eo Ep Ei Hl Hb1 x0 Hx0 R. destruct (pa_geom _ _ _ _ _ U) as (G & Hb & Hn1). pose proof (pa_range _ _ _ _ _ U) as [Hn Hg].
  assert (Hm : 0 <= x mod 8 < 8) by zlia. unfold gc_room. rewrite Eo, Ep.
  destruct (enough_space_ok _ G b (x / 8) (x mod 8) len Hb ltac:(lia) ltac:(lia) Hl) as (had & ->).
  cbn [mbind result_mbind result_bind]. unfold x0, copy_start in *.
  destruct (Z.eqb_spec (stripe (sp_of s) (x / 8 + pages_touched (x mod 8) len)) (stripe (sp_of s) (x / 8))) as [S|S].
  - exists s, g. split; [done|]. split_and!; try done. apply moves_refl.
  - set (e := stripe_end (sp_of s) (x / 8)) in *. replace (8 * e / 8) with e in * by zlia. replace ((8 * e) mod 8) with 0 by zlia.
    destruct (clear_rest_ok s b (x / 8) (x mod 8) U D) as (s1 & c & E1 & F & D1 & T1 & M1 & B1);
      [rewrite GPP_val; lia|fold e; lia|done|]. rewrite E1. cbn [mbind result_mbind result_bind]. fold e in F, D1.
    pose proof (mv_sp _ _ _ _ _ M1) as Es. destruct (stripe_end_next (sp_of s) (x / 8) G Hn) as (He & _). fold e in He.
    destruct (new_gc_ok s1 g b e F D1) as (s2 & E2 & A & U2 & D2 & T2 & M2 & R2 & _); rewrite ?Es; [lia|lia|].
    rewrite Es in E2. rewrite E2. eexists _, _. split; [done|]. split; [done|]. split; [done|]. split; [done|]. split; [done|].
    assert (T12 : timing_kept s s2) by (by etransitivity; [exact T1|exact T2]).
    split; [done|]. split; [done|]. split; [done|]. split; [by apply (ready_kept s); [|apply U2|]|].
    split; [|intros q; by rewrite R2, B1]. replace x with (8 * (x / 8) + x mod 8) by zlia.
    eapply moves_trans; [|exact M1|exact M2]. zlia.
Qed.

(** The wordline that the page [n] completes. *)
Lemma gc_wordline_ok s b n g B : place_at s GC_IO b n g -> dead_ok s b n g -> ready s B -> 0 <= B -> B < 2 ^ 62 ->
  exists s', gc_wordline clock s (page_of s b n) = Ok s' /\ place_at s' GC_IO b n g /\ dead_ok s' b n g /\
    ready s' (B + NAND_MAX) /\ same_flash s s' /\
    issued s (if last_pg_in_wordline (sp_of s) (page_of s b n) then [page_of s b n] else []) s'.
Proof.
  intros U D R H0 HB. destruct (pa_geom _ _ _ _ _ U) as (G & Hb & Hn1). pose proof (pa_range _ _ _ _ _ U) as [Hn _].
  destruct (line_page s b n G Hb ltac:(lia)) as (P & _). unfold gc_wordline.
  destruct (last_pg_in_wordline _ _) eqn:El.
  - destruct (advance_ok clock s NAND_WRITE (page_of s b n) 0 ((sp_of s).(pgsz) * (sp_of s).(pgs_per_oneshotpg)) B R P)
      as (t & s' & Ea & Q1 & Q2 & Q3); [by apply write_supported|by apply page_xfer|lia|done|].
    rewrite Ea. cbn [mbind result_mbind result_bind]. exists s'. split; [done|].
    split; [by apply (place_flash s); [|apply (nr_tree _ _ _ Q1)|]|]. split; [by apply (dead_flash s)|]. split; [done|]. split; [done|].
    apply (issued_write s s t s'); [done|exact Ea|by apply issued_none].
  - exists s. split; [done|]. split_and!; try done; [|by apply issued_none]. apply (ready_more _ B); [done|]. unfold NAND_MAX. lia.
Qed.

Lemma copy_loop_ok fuel s g b n o rem B :
  place_at s GC_IO b n o -> dead_ok s b n o -> 0 <= o < 8 -> g.(gc_offset) = o -> g.(gc_ppa) = page_of s b n ->
  g.(gc_pgidx) = index_of s b n -> 0 < rem < Z.of_nat fuel -> rem < 2 ^ 31 ->
  let x := 8 * n + o in (x + rem) / 8 + 1 < (sp_of s).(pgs_per_line) -> ready s B -> 0 <= B -> B + NAND_MAX * rem < 2 ^ 62 ->
  exists s' g', copy_loop clock fuel s g (index_of s b n) o rem (8 - o) = Ok (s', g') /\ gc_at s' g' b (x + rem) /\
    g'.(gc_map) = g.(gc_map) /\ ready s' (B + NAND_MAX * rem) /\ moves s s' GC_IO b x /\
    (forall q, bit s' q = true <-> bit s q = true \/ piece (sp_of s) b x rem q) /\ s'.(oob) = s.(oob) /\
    issued s (written (sp_of s) b x rem) s'.
Proof.
  revert s g n o rem B. induction fuel as [|fuel IH]; intros s g n o rem B U D Ho Eo Ep Ei Hr Hr31 x Hx R H0 HB; [lia|].
  cbn [copy_loop]. rewrite (proj2 (Z.eqb_neq rem 0)) by lia.
  destruct (pa_geom _ _ _ _ _ U) as (G & Hb & Hn1). pose proof (pa_range _ _ _ _ _ U) as [Hn Hg0].
  destruct (line_page s b n G Hb ltac:(lia)) as (P & Hi & _). pose proof (tt_pgs_small _ G) as Ht.
  set (sz := Z.min rem (8 - o)).
  assert (Hsz : 0 < sz <= rem /\ o + sz <= 8 /\ (rem = sz \/ o + sz = 8)) by lia. clearbody sz.
  destruct (place_store_ok s GC_IO b n o sz U) as (s1 & E1 & U1 & S1 & T1 & M1 & I1 & _ & _ & _); [lia|rewrite GPP_val; lia|].
  rewrite GPP_val in E1. unfold PPA_TO_PGA. rewrite GPP_val, u32_small by lia. rewrite E1. cbn [mbind result_mbind result_bind].
  assert (D1 : dead_ok s1 b n (o + sz)).
  { apply (dead_more _ _ _ o); [lia|]. intros m. rewrite (st_sp _ _ _ _ _ _ S1), I1. apply D. }
  assert (R1 : ready s1 B) by (apply (ready_kept s); [done|apply U1|done]).
  pose proof (st_sp _ _ _ _ _ _ S1) as Es. set (g1 := set_gc_offset g _).
  assert (Eo1 : gc_offset g1 = o + sz) by (unfold g1; cbn; rewrite Eo, u32_small; lia).
  assert (W1 : forall q, bit s1 q = true <-> bit s q = true \/ piece (sp_of s) b x sz q).
  { intros q. rewrite (st_bit _ _ _ _ _ _ S1), GPP_val. unfold piece, x.
    replace ((8 * n + o) / 8) with n by zlia. replace ((8 * n + o) mod 8) with o by zlia.
    case_cmp; [split; [by right; left|done]|]. split; [by left|]. intros [|[|(m & A1 & A2 & _)]]; [done..|]. lia. }
  rewrite Eo1.
  destruct (decide (rem - sz = 0 /\ o + sz <> 8)) as [[Q1 Q2]|Q].
  { rewrite Q1, (Z.mod_small (o + sz) 8), (proj2 (Z.eqb_neq (o + sz) 0)) by lia. cbn [andb negb Z.eqb].
    assert (rem = sz) as -> by lia. eexists _, _. split; [done|].
    split; [apply (gc_busy _ _ _ _ n (o + sz)); rewrite ?Es; (done || lia)|].
    split; [done|]. split; [by apply (ready_more _ B); [|unfold NAND_MAX; lia]|]. split; [exact M1|]. split; [done|]. split; [apply S1|].
    rewrite written_short; [by apply issued_none|lia|unfold x; zlia]. }
  assert (E8 : o + sz = 8) by lia.
  replace ((rem - sz =? 0) && negb ((o + sz) mod 8 =? 0)) with false by (rewrite E8; cbn; by rewrite andb_false_r).
  rewrite E8 in *. change (gc_ppa g1) with (gc_ppa g). rewrite Ep, <- Es.
  destruct (gc_wordline_ok s1 b n 8 B U1 D1 R1 H0) as (s2 & E2 & U2 & D2 & R2 & F2 & W2); [unfold NAND_MAX in *; lia|].
  rewrite E2. cbn [mbind result_mbind result_bind]. rewrite !Es. pose proof F2 as (Fd & Fs & _). unfold same_but_device in Fd.
  assert (Hn2 : n + 2 < pgs_per_line (sp_of s)) by (unfold x in *; zlia).
  destruct (new_gc_ok s2 g1 b (n + 1)) as (s3 & E3 & A3 & U3 & D3 & T3 & M3 & B3 & O3);
    [by apply place_next|by apply (dead_next _ _ _ 8)|rewrite Fs, Es; lia|lia|]. rewrite Fs, Es in E3. rewrite E3.
  cbn [mbind result_mbind result_bind gc_ppa gc_offset]. pose proof (mv_sp _ _ _ _ _ M3) as Es3. rewrite Fs, Es in Es3.
  destruct (line_page s b (n + 1) G Hb ltac:(lia)) as (_ & _ & _ & Ei3). rewrite Es3, Ei3. cbn [mbind result_mbind result_bind].
  assert (M13 : moves s s3 GC_IO b x).
  { eapply moves_trans; [done|exact M1|]. eapply moves_trans; [|exact (moves_flash _ _ _ _ _ F2)|exact M3]. unfold x. lia. }
  assert (B13 : s3.(grain_bitmap) = s1.(grain_bitmap)) by (rewrite B3, Fd; done).
  assert (O13 : s3.(oob) = s.(oob)) by (rewrite O3, Fd; apply S1).
  assert (R3 : ready s3 (B + NAND_MAX)) by (apply (ready_kept s2); [done|apply U3|done]).
  assert (I3 : issued s (if last_pg_in_wordline (sp_of s) (page_of s b n) then [page_of s b n] else []) s3).
  { apply (issued_before _ s1); [done|]. rewrite Es in W2. by apply (issued_after _ _ s2). }
  assert (Wr : written (sp_of s) b x rem = (if last_pg_in_wordline (sp_of s) (page_of s b n) then [page_of s b n] else []) ++
    written (sp_of s) b (8 * (n + 1)) (rem - sz)).
  { unfold x. rewrite written_page by lia. by replace (rem - (8 - o)) with (rem - sz) by lia. }
  destruct (Z.eq_dec (rem - sz) 0) as [Z0|Nz].
  { rewrite Z0. destruct fuel as [|fuel]; [lia|]. cbn [copy_loop]. rewrite Z.eqb_refl. assert (rem = sz) as -> by lia.
    eexists _, _. split; [done|]. split; [|split; [done|split; [|split; [done|split; [|split; [done|]]]]]].
    - replace (x + sz) with (8 * (n + 1)) by (unfold x; lia). by rewrite Fs, Es in A3.
    - apply (ready_more _ (B + NAND_MAX)); [done|]. unfold NAND_MAX. lia.
    - intros q. by rewrite B13, W1.
    - rewrite Wr, Z0, (written_short _ _ (8 * (n + 1)) 0), app_nil_r by zlia. exact I3. }
  destruct (IH s3 (mk_gcd (page_of s b (n + 1)) (index_of s b (n + 1)) 0 (gc_map g1)) (n + 1) 0 (rem - sz) (B + NAND_MAX))
    as (s' & g' & E4 & A4 & G4 & R4 & M4 & W4 & O4 & I4); rewrite ?Es3; try done; try lia.
  { unfold x in *. replace (8 * (n + 1) + 0 + (rem - sz)) with (8 * n + o + rem) by lia. lia. }
  { unfold NAND_MAX in *. lia. }
  { unfold NAND_MAX in *. lia. }
  rewrite Es3 in *. replace (8 * (n + 1) + 0) with (8 * (n + 1)) in I4 by lia. replace (8 * (n + 1) + 0) with (x + sz) in * by (unfold x; lia).
  replace (x + sz + (rem - sz)) with (x + rem) in A4 by lia. change (8 - 0) with 8 in E4.
  exists s', g'. split; [exact E4|]. split; [done|]. split; [done|]. split; [apply (ready_more _ _ _ R4); unfold NAND_MAX; lia|].
  split; [eapply moves_trans; [|exact M13|exact M4]; lia|]. split; [|split; [congruence|rewrite Wr; by apply (issued_app _ _ s3)]].
  intros q. rewrite W4, B13, W1. unfold piece, x.
  replace ((8 * n + o) / 8) with n by zlia. replace ((8 * n + o) mod 8) with o by zlia.
  replace ((8 * n + o + sz) / 8) with (n + 1) by zlia. replace ((8 * n + o + sz) mod 8) with 0 by zlia. split.
  - intros [[|[|(m & A & A' & _)]]|[Eq|(m & A & A' & Eq)]]; [by left|by right; left|lia| |].
    + right; right. exists (n + 1). split; [lia|]. split; [lia|]. lia.
    + right; right. exists m. split; [lia|]. split; [lia|done].
  - intros [|[|(m & A & A' & Eq)]]; [by left; left|by left; right; left|].
    right. destruct (Z.eq_dec m (n + 1)) as [->|]; [left; lia|]. right. exists m. split; [lia|]. split; [lia|done].
Qed.

Lemma gc_at_oob s g b x o : gc_at s g b x -> gc_at (set_oob s o) g b x.
Proof.
  intros [n Ex Eo [[I1 I2] F2 F3 F4 F5 F6] D|n k Ex Hk Eo Ep Ei U D].
  - by apply (gc_idle _ _ _ _ n).
  - apply (gc_busy _ _ _ _ n k); try done. by apply place_oob.
Qed.

(** The copy of a pair at grain [x] of line [b]. *)
Record copied (s s' : demand_shard) (b x len lpa : Z) : Prop := {
  cp_bit : forall q, bit s' q = true <-> bit s q = true \/ piece (sp_of s) b x len q;
  cp_entry : s'.(oob) (index_of s b (x / 8)) (x mod 8) = pair_entry len lpa;
  cp_spill : forall m, x / 8 < m -> 8 * m < x + len ->
    let k := Z.min (x + len - 8 * m) 8 in
    s'.(oob) (index_of s b m) 0 = spill_mark k /\ (k <> 1 -> s'.(oob) (index_of s b m) 1 = k)
}.

Lemma copy_grains_ok s g b x lpa len B :
  gc_at s g b x -> 0 <= b < (sp_of s).(blks_per_pl) -> 0 <= x -> 0 < b \/ 0 < x -> 1 < (sp_of s).(blks_per_pl) -> 0 < len < 2 ^ 31 -> 0 <= lpa < UINT_MAX ->
  let x0 := copy_start (sp_of s) x len in (x0 + len) / 8 + 1 < (sp_of s).(pgs_per_line) -> geom (sp_of s) ->
  ready s B -> 0 <= B -> B + NAND_MAX * len < 2 ^ 62 ->
  exists s' g', copy_grains clock s g lpa len = Ok (index_of s b (x0 / 8) * 8 + x0 mod 8, s', g') /\
    gc_at s' g' b (x0 + len) /\ g'.(gc_map) = g.(gc_map) /\ copied s s' b x0 len lpa /\
    moves s s' GC_IO b x /\ ready s' (B + NAND_MAX * len) /\ issued s (written (sp_of s) b x0 len) s'.
Proof.
  intros C Hb Hx Hz Hb1 Hl Hlpa x0 Hx0 G R H0 HB. pose proof (copy_start_ge _ x len G Hx) as Hge. fold x0 in Hge.
  destruct (fresh_page_ok s g b x C) as (s1 & g1 & E1 & C1 & G1 & U1 & D1 & Eo1 & Ep1 & Ei1 & T1 & M1 & B1 & O1); [zlia|done|].
  pose proof (mv_sp _ _ _ _ _ M1) as Es1. unfold copy_grains. rewrite E1. cbn [mbind result_mbind result_bind].
  assert (R1 : ready s1 B) by (apply (ready_kept s); [done|apply U1|done]).
  destruct (gc_room_ok s1 g1 b x len B C1 U1 D1 Eo1) as (s2 & g2 & E2 & U2 & D2 & Eo2 & Ep2 & Ei2 & G2 & T2 & R2 & M2 & B2);
    rewrite ?Es1; try done; try lia. { fold x0. zlia. }
  rewrite Es1 in *. fold x0 in U2, D2, Eo2, Ep2, Ei2. pose proof (mv_sp _ _ _ _ _ M2) as Es2. rewrite Es1 in Es2.
  rewrite E2. cbn [mbind result_mbind result_bind]. rewrite Ep2, Es2.
  destruct (line_page s b (x0 / 8) G Hb ltac:(zlia)) as (_ & Hi & _ & Ei). rewrite Ei. cbn [mbind result_mbind result_bind].
  rewrite Eo2, GPP_val, Z.mod_mod by lia. assert (Hm : 0 <= x0 mod 8 < 8) by zlia.
  assert (Ex : 8 * (x0 / 8) + x0 mod 8 = x0) by zlia.
  destruct (copy_loop_ok (S (Z.to_nat len)) s2 g2 b (x0 / 8) (x0 mod 8) len B U2 D2 Hm Eo2)
    as (s3 & g3 & E3 & C3 & G3 & R3 & M3 & W3 & O3 & I3); rewrite ?Es2, ?Ex; try done; try lia.
  rewrite Es2, Ex in *. rewrite E3. cbn [mbind result_mbind result_bind].
  rewrite (proj2 (Z.eqb_neq lpa UINT_MAX)) by lia. cbn [negb assert_ mbind result_mbind result_bind].
  pose proof (mv_sp _ _ _ _ _ M3) as Es3. rewrite Es2 in Es3.
  destruct (mark_oob_ok clock s3 b x0 len lpa) as (o & E4 & [P1 P2 P3]); rewrite ?Es3; try done; try lia.
  { zlia. }
  rewrite Es3 in *. rewrite E4. cbn [mbind result_mbind result_bind]. unfold PPA_TO_PGA. pose proof (tt_pgs_small _ G).
  rewrite GPP_val, u32_small by lia. change (oob (set_oob s3 o)) with o in *.
  assert (M4 : moves s3 (set_oob s3 o) GC_IO b x0).
  { split; try done; [cbn; by destruct s3.(lm)|]. intros y i Hi2 Hm2. split; [done|]. rewrite Es3, GPP_val in *.
    change (oob (set_oob s3 o)) with o. apply P3.
    - intros Ey ->. specialize (Hm2 (x0 / 8) ltac:(zlia) Ey). zlia.
    - intros m A1 A2 Ey. specialize (Hm2 m ltac:(zlia) Ey). zlia. }
  assert (M13 : moves s s3 GC_IO b x).
  { apply (moves_trans s s1 s3 _ _ x x); [lia|done|]. by apply (moves_trans s1 s2 s3 _ _ x x0). }
  exists (set_oob s3 o), g3. split; [done|]. split; [by apply gc_at_oob|]. split; [congruence|].
  split; [|split; [eapply moves_trans; [|exact M13|exact M4]; done|split; [done|]]].
  2:{ apply (issued_before _ s2); [by etransitivity|]. apply (issued_after _ _ s3); [exact I3|]. by split. }
  split; [|exact P1|exact P2]. intros q. change (bit s3 q = true <-> bit s q = true \/ piece (sp_of s) b x0 len q).
  by rewrite W3, B2, B1.
Qed.

(** C38 (copying a live pair): a pair of [len] grains goes to the collector's position, or to the next
    wordline stripe when it does not fit into the current one; the copy gets its bit, the entry in the
    out-of-band area and the marks on the pages it spills over to, the position ends behind it, and nothing else
    on the device changes.  Of the pages the copy fills up, those that end a wordline go to flash, each with
    one write and in their order, and nothing else occupies a LUN.  It never faults while the line has room. *)
Theorem copy_grains_correct s g b x lpa len B :
  gc_at s g b x -> 0 <= b < (sp_of s).(blks_per_pl) -> 0 <= x -> 0 < b \/ 0 < x -> 1 < (sp_of s).(blks_per_pl) -> 0 < len < 2 ^ 31 -> 0 <= lpa < UINT_MAX ->
  let x0 := copy_start (sp_of s) x len in (x0 + len) / 8 + 1 < (sp_of s).(pgs_per_line) -> geom (sp_of s) ->
  ready s B -> 0 <= B -> B + NAND_MAX * len < 2 ^ 62 ->
  exists s' g', copy_grains clock s g lpa len = Ok (index_of s b (x0 / 8) * 8 + x0 mod 8, s', g') /\
    gc_at s' g' b (x0 + len) /\ g'.(gc_map) = g.(gc_map) /\ copied s s' b x0 len lpa /\
    moves s s' GC_IO b x /\ ready s' (B + NAND_MAX * len) /\ issued s (written (sp_of s) b x0 len) s'.
Proof. apply copy_grains_ok. Qed.

End copying.
