(* ===== verification/Collect.v ===== *)
(** * A collection keeps the map ([demand_ftl.c])

    Cleaning a page of the victim line moves every pair that is alive in it to
    the collector's line.  The table names the new grains, the keys and values
    stay what they are. *)

From stdpp Require Import gmap.
From S2P Require Import Prelude Fifo Lru Append WorkQueue Queues Prp.
From S2P Require Import ChModel Ssd Geometry PQueue Line Lines Pages Place Cache Heap Pairs Kv Directory Opening Gc Relocate.

(** ** The place of a pair *)

(** Grain [q] is in line [b]. *)
Definition on_line (spp : ssdparams) (b q : Z) : Prop :=
  exists m i, 0 <= m < spp.(pgs_per_line) /\ 0 <= i < 8 /\ q = pgidx spp (page_at spp b m) * 8 + i.

Lemma on_line_inj spp b c q : geom spp -> 0 <= b < spp.(blks_per_pl) -> 0 <= c < spp.(blks_per_pl) ->
  on_line spp b q -> on_line spp c q -> b = c.
Proof.
  intros G Hb Hc (m & i & Hm & Hi & E) (n & j & Hn & Hj & E').
  apply (line_inj spp b m c n); try done. lia.
Qed.

(** Nothing is stored behind the collector's position. *)
Lemma gc_at_free s g b x m i : gc_at s g b x -> 0 <= m < (sp_of s).(pgs_per_line) -> 0 <= i < 8 -> x <= 8 * m + i ->
  bit s (index_of s b m * 8 + i) = false.
Proof.
  intros C Hm Hi Hx. rewrite <- GPP_val. destruct C as [n -> Eo F D|n o -> Ho Eo Ep Ei U D].
  - apply (nf_bits _ _ _ _ F); rewrite ?GPP_val; lia.
  - apply (pa_bits _ _ _ _ _ U); rewrite ?GPP_val; lia.
Qed.

Lemma gc_at_inv s g b x : gc_at s g b x -> shard_inv s /\ 0 <= x /\ is_open s.(lm) (sp_of s) b.
Proof.
  intros [n -> Eo F D|n o -> Ho Eo Ep Ei U D].
  - pose proof (nf_inv _ _ _ _ F). destruct (nf_wp _ _ _ _ F) as (_ & ? & ?). split; [done|]. split; [lia|done].
  - pose proof (pa_inv _ _ _ _ _ U). pose proof (pa_range _ _ _ _ _ U). destruct (pa_wp _ _ _ _ _ U) as (_ & ? & ?).
    split; [done|]. split; [lia|done].
Qed.

Lemma gc_at_timing s s' g b x : same_flash s s' -> tree_ok s'.(sd) -> gc_at s g b x -> gc_at s' g b x.
Proof.
  intros F T. pose proof F as (_ & Es & _). intros [n Ex Eo N D|n o Ex Ho Eo Ep Ei U D].
  - apply (gc_idle _ _ _ _ n); try done; [by apply (next_free_flash s)|by apply (dead_flash s)].
  - apply (gc_busy _ _ _ _ n o); rewrite ?Es; try done; [by apply (place_flash s)|by apply (dead_flash s)].
Qed.

Lemma placed_range s q len b p g : geom (sp_of s) -> placed s q len b p g ->
  on_line (sp_of s) b q /\ q / 8 = index_of s b p /\ q mod 8 = g /\ 0 <= p < (sp_of s).(pgs_per_line) /\
  0 <= q < 8 * (sp_of s).(tt_pgs) /\ 0 <= len.
Proof.
  intros G [P1 P2 (P3 & P4 & P5) P6 P7]. assert (0 <= len) by (rewrite <- P7; apply u32_range).
  assert (Hp : 0 <= p < pgs_per_line (sp_of s)) by zlia.
  pose proof (pgidx_range _ G _ (page_at_ok _ G b p P2 Hp)).
  split; [by exists p, g|]. split; [zlia|]. split; [zlia|]. split; [done|]. split; [lia|done].
Qed.

Lemma placed_moves s s' gc bb x q len b p g : gc_at s gc bb x -> moves s s' GC_IO bb x -> placed s q len b p g ->
  placed s' q len b p g /\ s'.(oob) (q / 8) (q mod 8) = s.(oob) (q / 8) (q mod 8).
Proof.
  intros C M P. destruct (gc_at_inv _ _ _ _ C) as (I & _ & Hbb & _). pose proof (sh_geom _ I) as G.
  destruct (placed_range _ _ _ _ _ _ G P) as (_ & E1 & E2 & Hp & _). pose proof P as [P1 P2 (P3 & P4 & P5) P6 P7].
  assert (K : bit s' q = true /\ s'.(oob) (q / 8) (q mod 8) = s.(oob) (q / 8) (q mod 8)).
  { apply (moves_kept _ _ _ _ _ _ M P6). intros m i. by apply (gc_at_free s gc). }
  destruct K as [K1 K2]. split; [|done]. split; rewrite ?(mv_sp _ _ _ _ _ M); try done; congruence.
Qed.

Lemma placed_copied s s' b x len lpa : copied s s' b x len lpa -> sp_of s' = sp_of s -> geom (sp_of s) ->
  0 <= b < (sp_of s).(blks_per_pl) -> 0 <= x -> 0 < len < 2 ^ 31 -> 0 <= lpa < 2 ^ 32 -> (x + len) / 8 + 1 < (sp_of s).(pgs_per_line) ->
  let q := index_of s b (x / 8) * 8 + x mod 8 in
  placed s' q len b (x / 8) (x mod 8) /\ __lpa_from_oob (s'.(oob) (q / 8) (q mod 8)) = lpa.
Proof.
  intros [C1 C2 _] Es G Hb Hx Hl Hp Hr q. assert (Hm : 0 <= x mod 8 < 8) by zlia.
  assert (Eq : q / 8 = index_of s b (x / 8) /\ q mod 8 = x mod 8) by (unfold q; zlia). destruct Eq as [E1 E2].
  destruct (pair_entry_ok len lpa) as [X1 X2]; [lia|done|].
  split; [|by rewrite E1, E2, C2]. split; rewrite ?Es; try done.
  - split; [zlia|]. split; [done|]. replace (8 * (x / 8) + x mod 8) with x by zlia. done.
  - apply C1. right. by left.
  - by rewrite E1, E2, C2.
Qed.

Section collect.
Context `{AllocatorLaws} (CityHash64 : list Z -> Z) (clock : nat -> Z).
#[local] Abbreviation ready s B := (nand_ready clock s.(sd) B).

(** ** The state between two commands, with the shadow list put away *)

Fixpoint enqueued (c : cache) (l : list Z) : cache :=
  match l with
  | [] => c
  | i :: l => enqueued (set_cached_cnt (set_fifo c (snd (fifo_enqueue c.(fifo) i))) (c.(nr_cached_tentries) + GRAIN_PER_PAGE)) l
  end.

Lemma enqueued_same c l : let c' := enqueued c l in c'.(ht) = c.(ht) /\ c'.(nr_valid_tpages) = c.(nr_valid_tpages) /\
  c'.(nr_valid_tentries) = c.(nr_valid_tentries) /\ c'.(max_cached_tentries) = c.(max_cached_tentries).
Proof. revert c. induction l as [|i l IH]; intros c c'; [done|]. exact (IH (set_cached_cnt (set_fifo c (snd (fifo_enqueue c.(fifo) i))) (c.(nr_cached_tentries) + GRAIN_PER_PAGE))). Qed.

Lemma enqueued_put c l i h : enqueued (put c i h) l = put (enqueued c l) i h.
Proof.
  revert c. induction l as [|j l IH]; intros c; [done|]. cbn [enqueued]. rewrite <- IH. done.
Qed.

Lemma enqueued_app c l i : enqueued c (l ++ [i]) =
  let c' := enqueued c l in set_cached_cnt (set_fifo c' (snd (fifo_enqueue c'.(fifo) i))) (c'.(nr_cached_tentries) + GRAIN_PER_PAGE).
Proof. revert c. induction l as [|j l IH]; intros c; [done|]. cbn [app enqueued]. apply IH. Qed.

Definition settled (c : collector) : kv := set_cache c.(dev) (enqueued (cache_in c) c.(shadow)).

Lemma settled_table c x : table (cache_of (settled c)) x = table (cache_in c) x /\ pair_at (cache_of (settled c)) x = pair_at (cache_in c) x.
Proof. unfold table, pair_at. change (cache_of (settled c)) with (enqueued (cache_in c) c.(shadow)). by destruct (enqueued_same (cache_in c) c.(shadow)) as (-> & _). Qed.

(** Soundness depends on little. *)
Lemma sound_step k k' B B' : sound clock k B ->
  (cache_of k').(nr_valid_tpages) = (cache_of k).(nr_valid_tpages) -> (cache_of k').(nr_valid_tentries) = (cache_of k).(nr_valid_tentries) ->
  (cache_of k').(max_cached_tentries) = (cache_of k).(max_cached_tentries) -> sp_of (shard_of k') = sp_of (shard_of k) ->
  (forall i, ((cache_of k').(ht) i).(t_ppa) = ((cache_of k).(ht) i).(t_ppa)) ->
  (forall i, is_Some ((cache_of k).(ht) i).(mem) -> is_Some ((cache_of k').(ht) i).(mem)) ->
  (forall y, 0 <= y < (cache_of k).(nr_valid_tentries) -> table (cache_of k') y <> UINT_MAX -> table (cache_of k) y <> UINT_MAX) ->
  (exists F V, cache_inv (cache_of k') k'.(fl).(vb) F V) -> ready (shard_of k') B' -> sound clock k' B'.
Proof.
  intros [S1 S2 S3 S5 S6 S7 S8] E1 E2 E3 Es Et Em Ey C R. split; rewrite ?E1, ?E2, ?E3, ?Es; try done.
  - intros i Hi. rewrite Et. intros Ht. destruct (S5 i Hi Ht) as [A A']. split; [by apply Em|done].
  - intros x Hx Hm. rewrite Et. apply S6; [done|]. by apply Ey.
Qed.

(** ** The invariant of a collection *)

(** The line [v] is being collected into line [b], the collector is at grain [x]
    of it; [D] is what the device represents. *)
Record collecting (D : gmap (list Z) (Z * Z)) (v b x B : Z) (c : collector) : Prop := {
  co_rep : represents CityHash64 c.(dev) D;
  co_sound : sound clock (settled c) B;
  co_quiet : quiet c.(dev);
  co_at : gc_at (shard_in c) c.(gcd) b x;
  co_data : c.(gcd).(gc_map) = false;
  co_lines : b <> v /\ 0 <= v < (sp_of (shard_in c)).(blks_per_pl) /\ (0 < b \/ 0 < x);
  co_shadow : NoDup c.(shadow) /\ (cache_in c).(nr_valid_tpages) <= GRAIN_PER_PAGE * FLASH_PAGE_SIZE /\
    forall i, i ∈ c.(shadow) -> 0 <= i < (cache_in c).(nr_valid_tpages) /\ cache_hit ((cache_in c).(ht) i) = true;
  co_user : ~ on_line (sp_of (shard_in c)) v ((shard_in c).(Lines.offset) / GRAINED_UNIT)
}.

(** ** Locks *)

Lemma settled_put c i h : settled (put_cache c (put (cache_in c) i h)) =
  set_cache (settled c) (put (cache_of (settled c)) i h).
Proof. unfold settled. cbn [put_cache set_dev shadow dev]. change (cache_in (put_cache c (put (cache_in c) i h))) with (put (cache_in c) i h). by rewrite enqueued_put. Qed.

Lemma settled_range c x B : sound clock (settled c) B -> 0 <= x < (cache_in c).(nr_valid_tentries) ->
  0 <= IDX x < (cache_in c).(nr_valid_tpages).
Proof.
  intros S Hx. destruct (enqueued_same (cache_in c) c.(shadow)) as (_ & E1 & E2 & _).
  pose proof (IDX_range clock _ x B S) as R. change (cache_of (settled c)) with (enqueued (cache_in c) c.(shadow)) in R.
  rewrite E1, E2 in R. auto.
Qed.

Lemma settled_lock c i n B : sound clock (settled c) B -> 0 <= i < (cache_in c).(nr_valid_tpages) ->
  sound clock (settled (put_cache c (put (cache_in c) i (set_outgoing ((cache_in c).(ht) i) n)))) B.
Proof.
  intros S Hi. rewrite settled_put. destruct (enqueued_same (cache_in c) c.(shadow)) as (Eh & E1 & _).
  rewrite <- Eh. apply (sound_lock clock (settled c)); [done|]. change (cache_of (settled c)) with (enqueued (cache_in c) c.(shadow)).
  by rewrite E1.
Qed.

(** [cache_get_ht] and the assignment that ends the use of the section. *)
Lemma gc_lock_ok c x : 0 <= IDX x < (cache_in c).(nr_valid_tpages) -> quiet c.(dev) ->
  cache_get_ht (cache_in c) x = Ok (IDX x, put (cache_in c) (IDX x) (set_outgoing ((cache_in c).(ht) (IDX x)) 1)).
Proof.
  intros Hi Q. unfold cache_get_ht, lock_section. rewrite section_ok by done. cbn [mbind result_mbind result_bind].
  pose proof (Q _ Hi) as E. change (cache_of c.(dev)) with (cache_in c) in E. by rewrite E.
Qed.

Lemma gc_unlock_ok c i : 0 <= i < (cache_in c).(nr_valid_tpages) -> busy c.(dev) i ->
  unlock_section (cache_in c) i = Ok (put (cache_in c) i (set_outgoing ((cache_in c).(ht) i) 0)) /\
  quiet (put_cache c (put (cache_in c) i (set_outgoing ((cache_in c).(ht) i) 0))).(dev).
Proof.
  intros Hi Q. unfold unlock_section. rewrite section_ok by done. split; [done|].
  intros j Hj. cbn. rewrite upd_case. destruct (Z.eqb_spec j i) as [->|N]; [done|].
  pose proof (Q j Hj) as E. by rewrite (proj2 (Z.eqb_neq j i)) in E.
Qed.

(** The lock of a section is seen by nobody. *)
Lemma relocated_lock k i n : relocated k (set_cache k (put (cache_of k) i (set_outgoing ((cache_of k).(ht) i) n))).
Proof.
  set (k' := set_cache _ _).
  assert (T : forall y, table (cache_of k') y = table (cache_of k) y /\ pair_at (cache_of k') y = pair_at (cache_of k) y).
  { intros y. unfold table, pair_at. cbn. rewrite upd_case. by destruct (Z.eqb_spec (IDX y) i) as [->|]. }
  split; try done.
  - intros y _. by rewrite (proj1 (T y)).
  - intros y _. apply T.
  - intros y key l _ [A1 A2 A3 A4 A5 A6 A7]. destruct (T y) as [T1 T2]. by split; rewrite ?T1, ?T2.
Qed.

(** ** A section is brought in *)

Lemma shadow_read_ok c l p : (forall i, i ∈ l -> 0 <= i < c.(nr_valid_tpages)) -> exists b, __shadow_read c l p = Ok b.
Proof.
  induction l as [|i l IH]; intros Hl; [by exists false|]. cbn [__shadow_read].
  rewrite section_ok by (apply Hl; constructor). cbn [mbind result_mbind result_bind].
  case_cmp; [by exists true|]. apply IH. intros j Hj. apply Hl. by constructor.
Qed.

(** What bringing a section in leaves alone. *)
Record brought (c c' : collector) (i : Z) : Prop := {
  br_flash : same_flash (shard_in c) (shard_in c');
  br_hit : cache_hit ((cache_in c').(ht) i) = true;
  br_ht : forall j, ((cache_in c').(ht) j) = if j =? i then set_cached ((cache_in c).(ht) j) true else (cache_in c).(ht) j;
  br_nr : (cache_in c').(nr_valid_tentries) = (cache_in c).(nr_valid_tentries) /\ (cache_in c').(nr_valid_tpages) = (cache_in c).(nr_valid_tpages);
  br_dev : c'.(dev) = set_shard (set_cache c.(dev) (cache_in c')) (shard_in c');
  br_gcd : c'.(gcd) = c.(gcd);
  br_shadow : NoDup c'.(shadow) /\ forall j, j ∈ c'.(shadow) -> 0 <= j < (cache_in c').(nr_valid_tpages) /\ cache_hit ((cache_in c').(ht) j) = true
}.

Lemma NoDup_bound (l : list Z) n : NoDup l -> 0 <= n -> (forall i, i ∈ l -> 0 <= i < n) -> Z.of_nat (length l) <= n.
Proof. intros N Hn Hl. by apply (range_length l n). Qed.

Lemma shadow_in_ok c i B : sound clock (settled c) B -> 0 <= i < (cache_in c).(nr_valid_tpages) ->
  ((cache_in c).(ht) i).(t_ppa) <> UINT_MAX -> NoDup c.(shadow) -> (cache_in c).(nr_valid_tpages) <= GRAIN_PER_PAGE * FLASH_PAGE_SIZE ->
  (forall j, j ∈ c.(shadow) -> 0 <= j < (cache_in c).(nr_valid_tpages) /\ cache_hit ((cache_in c).(ht) j) = true) ->
  0 <= B -> B < 2 ^ 62 ->
  exists c', shadow_in clock c i = Ok c' /\ brought c c' i /\ sound clock (settled c') (B + NAND_MAX).
Proof.
  intros S Hi Ht N Hlim Hsh HB0 HB. destruct (enqueued_same (cache_in c) c.(shadow)) as (Eh & E1 & E2 & E3).
  set (cs := enqueued (cache_in c) c.(shadow)) in *. unfold shadow_in. rewrite section_ok by done.
  cbn [mbind result_mbind result_bind]. destruct (cached (ht (cache_in c) i)) eqn:Eh1.
  { exists c. split; [done|]. split; [|apply (sound_mono clock _ _ _ S); unfold NAND_MAX; lia]. split; try done.
    - intros j. destruct (Z.eqb_spec j i) as [->|]; [|done]. destruct (ht (cache_in c) i). cbn in *. by rewrite Eh1.
    - by destruct c as [[[]]]. }
  destruct (so_cache _ _ _ S) as (F & V & I). change (cache_of (settled c)) with cs in I.
  assert (Nf : i ∉ F ++ V). { intros X. apply (ci_cached _ _ _ _ I i) in X; [|by rewrite E1]. rewrite Eh in X. congruence. }
  pose proof (so_open _ _ _ S i) as So. change (cache_of (settled c)) with cs in So. rewrite Eh, E1 in So.
  destruct (So Hi Ht) as [M P]. change (shard_of (settled c)) with (shard_in c) in P.
  destruct (shadow_read_ok (cache_in c) c.(shadow) (ht (cache_in c) i).(t_ppa)) as (hit & ->); [intros j Hj; by apply Hsh|].
  cbn [mbind result_mbind result_bind].
  assert (Rd : exists s, (if hit then Ok (shard_in c) else
      p ← ppa_to_struct (sp_of (shard_in c)) (t_ppa (ht (cache_in c) i));
      '(_, s) ← advance clock (shard_in c) NAND_READ p 0 (sp_of (shard_in c)).(pgsz); Ok s) = Ok s /\
      ready s (B + NAND_MAX) /\ same_flash (shard_in c) s).
  { pose proof (so_dev _ _ _ S) as R. change (shard_of (settled c)) with (shard_in c) in R.
    destruct hit; [exists (shard_in c); split; [done|split; [|done]]; apply (nand_ready_mono _ _ B); [done|unfold NAND_MAX; lia]|].
    pose proof (ok_geom _ (nr_tree _ _ _ R)) as G. fold (sp_of (shard_in c)) in G.
    destruct (ppa_to_struct_ok _ G _ P) as (p & -> & Pp & _). cbn [mbind result_mbind result_bind].
    destruct (advance_ok clock (shard_in c) NAND_READ p 0 (sp_of (shard_in c)).(pgsz) B R Pp) as (t & s & -> & Q1 & Q2 & Q3);
      [by apply read_supported|by apply page_xfer|lia|done|]. cbn [mbind result_mbind result_bind]. by exists s. }
  destruct Rd as (s & -> & R & Fl). cbn [mbind result_mbind result_bind]. rewrite bool_decide_true by done.
  set (h := set_cached (ht (cache_in c) i) true).
  assert (Ls : Z.of_nat (length c.(shadow)) < GRAIN_PER_PAGE * FLASH_PAGE_SIZE).
  { enough (Z.of_nat (length (i :: c.(shadow))) <= (cache_in c).(nr_valid_tpages)) as Hle by (cbn [length] in Hle; lia).
    apply NoDup_bound; [|lia|].
    - apply NoDup_cons. split; [|done]. intros X. destruct (Hsh i X) as [_ Y]. unfold cache_hit in Y. congruence.
    - intros j [->|Hj]%elem_of_cons; [done|]. by apply Hsh. }
  cbn [put_cache put_shard set_dev shadow]. rewrite Z.geb_leb, (proj2 (Z.leb_gt _ _)) by done.
  pose proof (ci_idx _ _ _ _ I i) as Ei. rewrite Eh, E1 in Ei. rewrite (Ei Hi).
  set (c' := set_shadow _ _). exists c'. split; [done|].
  assert (Ec : cache_in c' = put (cache_in c) i h) by done. assert (Es : shard_in c' = s) by done.
  assert (Sh : NoDup c'.(shadow) /\ forall j, j ∈ c'.(shadow) -> 0 <= j < (cache_in c').(nr_valid_tpages) /\ cache_hit ((cache_in c').(ht) j) = true).
  { change (shadow c') with (shadow c ++ [i]). split.
    - apply NoDup_app. split; [done|]. split; [|apply NoDup_singleton]. intros j Hj X%list_elem_of_singleton. subst j.
      destruct (Hsh i Hj) as [_ Y]. unfold cache_hit in Y. congruence.
    - intros j Hj. rewrite Ec. cbn. rewrite upd_case. apply elem_of_app in Hj as [Hj|Hj]; [|apply list_elem_of_singleton in Hj as ->; by rewrite Z.eqb_refl].
      destruct (Hsh j Hj) as [A A']. split; [done|]. by case_cmp. }
  split.
  - split; try done.
    + rewrite Ec. cbn. by rewrite upd_eq.
    + intros j. rewrite Ec. cbn. rewrite upd_case. by destruct (Z.eqb_spec j i) as [->|].
  - assert (Est : cache_of (settled c') = let c1 := put cs i h in
      set_cached_cnt (set_fifo c1 (snd (fifo_enqueue c1.(fifo) i))) (c1.(nr_cached_tentries) + GRAIN_PER_PAGE)).
    { change (cache_of (settled c')) with (enqueued (put (cache_in c) i h) (shadow c ++ [i])). by rewrite enqueued_app, enqueued_put. }
    assert (Hh : forall j, (cache_of (settled c')).(ht) j = if j =? i then h else (cache_in c).(ht) j).
    { intros j. rewrite Est. cbn. by rewrite upd_case, Eh. }
    apply (sound_step (settled c) _ B); try done; try (rewrite Est; done).
    + apply Fl.
    + intros j. rewrite Hh. change (cache_of (settled c)) with cs. rewrite Eh. by destruct (Z.eqb_spec j i) as [->|].
    + intros j. rewrite Hh. change (cache_of (settled c)) with cs. rewrite Eh. by destruct (Z.eqb_spec j i) as [->|].
    + intros y _. unfold table. rewrite Hh. change (cache_of (settled c)) with cs. rewrite Eh. by destruct (Z.eqb_spec (IDX y) i) as [->|].
    + exists (F ++ [i]), V. rewrite Est. cbv zeta.
      assert (Hi' : 0 <= i < cs.(nr_valid_tpages)) by (by rewrite E1).
      assert (LF : (length F < FIFO_CAPACITY)%nat).
      { pose proof (so_fifo _ _ _ S) as Fc. change (cache_of (settled c)) with cs in Fc.
        enough (Z.of_nat (length (i :: F)) <= cs.(nr_valid_tpages)) as Hle by (cbn [length] in Hle; lia).
        pose proof (ci_nodup _ _ _ _ I) as ND. apply NoDup_app in ND as (ND & _). apply NoDup_bound; [|lia|].
        - apply NoDup_cons. split; [|done]. intros X. apply Nf, elem_of_app. by left.
        - intros j [->|Hj]%elem_of_cons; [done|]. apply (ci_range _ _ _ _ I), elem_of_app. by left. }
      destruct (ci_section _ _ _ _ _ I Hi') as [C1 C2 C3 C4 C5 C6 C7]. rewrite Eh in *.
      apply (inv_load cs (vb (fl (dev c))) F V i h); try done.
      assert (InF : i ∈ F ++ [i]) by (apply elem_of_app; right; by apply list_elem_of_singleton).
      assert (In : i ∈ (F ++ [i]) ++ V) by (apply elem_of_app; by left).
      split; try done.
      * intros _. left. by apply C7.
Qed.

(** ** A pair moves *)

(** The grains [R] have been left; every pair that was there is in line [b] now,
    every other is where it was. *)
Record left_for (c c' : collector) (b : Z) (R : Z -> Prop) : Prop := {
  lf_table : forall z, 0 <= z < (cache_in c).(nr_valid_tentries) ->
    (~ R (table (cache_in c) z) /\ table (cache_in c') z = table (cache_in c) z) \/
    (R (table (cache_in c) z) /\ on_line (sp_of (shard_in c)) b (table (cache_in c') z));
  lf_pairs : forall z, 0 <= z < (cache_in c).(nr_valid_tentries) -> pair_at (cache_in c') z = pair_at (cache_in c) z;
  lf_entries : (cache_in c').(nr_valid_tentries) = (cache_in c).(nr_valid_tentries);
  lf_sp : sp_of (shard_in c') = sp_of (shard_in c);
  lf_kv : c'.(dev).(hp) = c.(dev).(hp) /\ c'.(dev).(max_try) = c.(dev).(max_try) /\ c'.(dev).(ab) = c.(dev).(ab) /\
    c'.(dev).(cur_page) = c.(dev).(cur_page) /\ c'.(dev).(works) = c.(dev).(works) /\
    c'.(dev).(leftover_credits) = c.(dev).(leftover_credits)
}.

Lemma left_refl c b : left_for c c b (fun _ => False).
Proof. split; try done. intros z _. left. split; [by intros []|done]. Qed.

Lemma left_trans c1 c2 c3 b R1 R2 : left_for c1 c2 b R1 -> left_for c2 c3 b R2 -> left_for c1 c3 b (fun q => R1 q \/ R2 q).
Proof.
  intros [A1 A2 A3 A4 (A5 & A6 & A7 & A8 & A9 & A10)] [B1 B2 B3 B4 (B5 & B6 & B7 & B8 & B9 & B10)]. rewrite A3, A4 in *. split.
  - intros z Hz. destruct (A1 z Hz) as [[A E]|[A E]], (B1 z Hz) as [[B F]|[B F]].
    + left. rewrite E in B. split; [tauto|congruence].
    + right. rewrite E in B. tauto.
    + right. rewrite F. tauto.
    + right. tauto.
  - intros z Hz. by rewrite B2, A2.
  - done.
  - done.
  - split_and!; congruence.
Qed.

Lemma left_ext c c' b (R R' : Z -> Prop) :
  (forall z, 0 <= z < (cache_in c).(nr_valid_tentries) -> R (table (cache_in c) z) <-> R' (table (cache_in c) z)) ->
  left_for c c' b R -> left_for c c' b R'.
Proof. intros E [A1 A2 A3 A4 A5]. split; try done. intros z Hz. pose proof (E z Hz). pose proof (A1 z Hz). tauto. Qed.

(** The line of a grain. *)
Lemma grain2lineid_ok s v q : shard_inv s -> 0 <= v < (sp_of s).(blks_per_pl) -> on_line (sp_of s) v q -> __grain2lineid s q = Ok v.
Proof.
  intros I Hv (m & i & Hm & Hi & ->). pose proof (sh_geom _ I) as G. unfold __grain2lineid. rewrite GPP_val.
  replace ((pgidx (sp_of s) (page_at (sp_of s) v m) * 8 + i) / 8) with (pgidx (sp_of s) (page_at (sp_of s) v m)) by zlia.
  rewrite (ppa_to_struct_pgidx _ G) by (by apply page_at_ok). cbn [mbind result_mbind result_bind]. unfold get_line.
  change (g_blk (page_at (sp_of s) v m)) with v. rewrite (line_at_ok _ _ _ (sh_lines _ I) Hv). cbn [mbind result_mbind result_bind].
  by destruct (li_table _ _ (sh_lines _ I) v Hv) as [-> _].
Qed.

(** One entry names another grain that holds the same pair. *)
Lemma relocated_move k k' y key n q' b' p' g' :
  (cache_of k').(nr_valid_tentries) = (cache_of k).(nr_valid_tentries) -> k'.(hp) = k.(hp) -> k'.(max_try) = k.(max_try) ->
  (forall z, 0 <= z < (cache_of k).(nr_valid_tentries) ->
    table (cache_of k') z = (if z =? y then q' else table (cache_of k) z) /\ pair_at (cache_of k') z = pair_at (cache_of k) z) ->
  (forall q len b p g, placed (shard_of k) q len b p g ->
    placed (shard_of k') q len b p g /\ (shard_of k').(oob) (q / 8) (q mod 8) = (shard_of k).(oob) (q / 8) (q mod 8)) ->
  slot_holds k y key n -> placed (shard_of k') q' (pair_grains key n) b' p' g' ->
  __lpa_from_oob ((shard_of k').(oob) (q' / 8) (q' mod 8)) = y -> q' <> UINT_MAX -> relocated k k'.
Proof.
  intros E1 E2 E3 T M Sy P' O' N'. split; try done.
  - intros z Hz. rewrite (proj1 (T z Hz)). destruct (Z.eqb_spec z y) as [->|]; [|done]. intros _. apply Sy.
  - intros z Hz. apply (T z Hz).
  - intros z key2 l Hz Sz. destruct (T z Hz) as [T1 T2]. pose proof Sz as [(b & p & g & P) O Nm K L Hh Bk].
    destruct (Z.eqb_spec z y) as [->|Ne].
    + destruct Sy as [(b2 & p2 & g2 & P2) _ _ _ _ _ _].
      assert (El : pair_grains key2 l = pair_grains key n) by (rewrite <- (pl_len _ _ _ _ _ _ P), <- (pl_len _ _ _ _ _ _ P2); done).
      split; rewrite ?T1, ?T2, ?E2, ?El; try done; [by exists b', p', g'|by rewrite El in Bk].
    + destruct (M _ _ _ _ _ P) as [P3 O3]. split; rewrite ?T1, ?T2, ?E2, ?O3; try done. by exists b, p, g.
Qed.

(** What the collector looks at before it copies a pair. *)
Definition copyable (k : kv) (y len : Z) : Prop :=
  __has_marker k.(hp) (pair_at (cache_of k) y) len = Ok false /\ len <= 100000.

Lemma examine_ok k y key n : heap_ok k.(hp) -> slot_holds k y key n -> copyable k y (pair_grains key n) ->
  examine_pair k.(hp) (pair_at (cache_of k) y) (pair_grains key n) = Ok tt.
Proof.
  clear CityHash64. intros Ho Sl [M L]. unfold examine_pair. rewrite (slot_vlen _ _ _ _ Ho Sl).
  cbn [mbind result_mbind result_bind]. rewrite M. cbn [mbind result_mbind result_bind].
  by rewrite (proj2 (Z.leb_le _ _)).
Qed.

(** The section of entry [y] is locked and in DRAM. *)
Record fetched (c c' : collector) (y B : Z) : Prop := {
  ft_flash : same_flash (shard_in c) (shard_in c');
  ft_hit : cache_hit ((cache_in c').(ht) (IDX y)) = true;
  ft_ht : forall j, ((cache_in c').(ht) j).(mem) = ((cache_in c).(ht) j).(mem) /\
    ((cache_in c').(ht) j).(pair_mem) = ((cache_in c).(ht) j).(pair_mem);
  ft_nr : (cache_in c').(nr_valid_tentries) = (cache_in c).(nr_valid_tentries) /\ (cache_in c').(nr_valid_tpages) = (cache_in c).(nr_valid_tpages);
  ft_busy : busy c'.(dev) (IDX y);
  ft_kv : c'.(dev) = set_shard (set_cache c.(dev) (cache_in c')) (shard_in c');
  ft_gcd : c'.(gcd) = c.(gcd);
  ft_shadow : NoDup c'.(shadow) /\ forall j, j ∈ c'.(shadow) -> 0 <= j < (cache_in c').(nr_valid_tpages) /\ cache_hit ((cache_in c').(ht) j) = true;
  ft_sound : sound clock (settled c') (B + NAND_MAX)
}.

Lemma fetch_ok D v b x B c y :
  collecting D v b x B c -> 0 <= y < (cache_in c).(nr_valid_tentries) -> table (cache_in c) y <> UINT_MAX ->
  0 <= B -> B < 2 ^ 62 ->
  exists u c', cache_get_ht (cache_in c) y = Ok (IDX y, u) /\ shadow_in clock (put_cache c u) (IDX y) = Ok c' /\ fetched c c' y B.
Proof.
  intros [R S Q C Gm _ (N & Hlim & Hsh) U] Hy Hm HB0 HB.
  pose proof (settled_range c y B S Hy) as Hi. set (i := IDX y) in *.
  exists (put (cache_in c) i (set_outgoing ((cache_in c).(ht) i) 1)). rewrite (gc_lock_ok c y Hi Q). fold i. set (c1 := put_cache c _).
  pose proof (settled_lock c i 1 B S Hi) as S1. fold c1 in S1.
  destruct (enqueued_same (cache_in c) c.(shadow)) as (Eh & Ep & En & _).
  assert (Ht : ((cache_in c).(ht) i).(t_ppa) <> UINT_MAX).
  { pose proof (so_mapped _ _ _ S y) as X. destruct (settled_table c y) as [E _]. rewrite E in X.
    change (cache_of (settled c)) with (enqueued (cache_in c) (shadow c)) in X. rewrite Eh, En in X. by apply X. }
  assert (Hh1 : forall j, ((cache_in c1).(ht) j) = if j =? i then set_outgoing ((cache_in c).(ht) i) 1 else (cache_in c).(ht) j).
  { intros j. cbn. apply upd_case. }
  destruct (shadow_in_ok c1 i B S1 Hi) as (c2 & E2 & [F2 Hit2 Hh2 [Nr2 Np2] Dv2 Gc2 Sh2] & S2); try done.
  { by rewrite Hh1, Z.eqb_refl. }
  { intros j Hj. rewrite Hh1. destruct (Hsh j Hj) as [A A']. split; [done|]. by destruct (Z.eqb_spec j i) as [->|]. }
  exists c2. split; [done|]. split; [done|]. split; try done.
  - intros j. rewrite Hh2, Hh1. by destruct (Z.eqb_spec j i) as [->|Ne].
  - intros j Hj. change (cache_of (dev c2)) with (cache_in c2) in *. rewrite Np2 in Hj. rewrite Hh2, Hh1.
    fold i. destruct (Z.eqb_spec j i) as [->|Ne]; [done|]. by apply Q.
Qed.

Lemma fetched_table c c' y B z : fetched c c' y B -> table (cache_in c') z = table (cache_in c) z /\ pair_at (cache_in c') z = pair_at (cache_in c) z.
Proof. intros F. unfold table, pair_at. by destruct (ft_ht _ _ _ _ F (IDX z)) as [-> ->]. Qed.

(** The entry [y] of a section in DRAM gets the grain [q']. *)
Definition rebound (c : collector) (s : demand_shard) (g : gc_data) (y q' : Z) : collector :=
  let x := put (cache_in c) (IDX y) (set_mapping ((cache_in c).(ht) (IDX y)) (OFFSET y) q') in
  put_cache (set_gcd (put_shard c s) g) x.

Lemma rebound_table c s g y q' z : is_Some ((cache_in c).(ht) (IDX y)).(mem) ->
  table (cache_in (rebound c s g y q')) z = (if z =? y then q' else table (cache_in c) z) /\
  pair_at (cache_in (rebound c s g y q')) z = pair_at (cache_in c) z.
Proof.
  intros [m Em]. unfold table, pair_at. cbn. rewrite upd_case. destruct (Z.eqb_spec (IDX z) (IDX y)) as [E|Ne].
  - rewrite E. cbn [set_mapping mem pair_mem]. rewrite Em. cbn. split; [|done]. rewrite upd_case.
    destruct (Z.eqb_spec z y) as [->|N]; [by rewrite Z.eqb_refl|]. rewrite (proj2 (Z.eqb_neq (OFFSET z) _)); [done|].
    intros Eo. by apply N, IDX_OFFSET.
  - split; [|done]. destruct (Z.eqb_spec z y) as [->|N]; [done|]. done.
Qed.

Lemma rebound_sound c s g y q' B B' : sound clock (settled c) B -> 0 <= IDX y < (cache_in c).(nr_valid_tpages) ->
  is_Some ((cache_in c).(ht) (IDX y)).(mem) -> 0 <= y < (cache_in c).(nr_valid_tentries) -> table (cache_in c) y <> UINT_MAX ->
  sp_of s = sp_of (shard_in c) -> nand_ready clock s.(sd) B' -> sound clock (settled (rebound c s g y q')) B'.
Proof.
  intros S Hi Hm Hy Ht Es R. set (c' := rebound c s g y q').
  destruct (enqueued_same (cache_in c) c.(shadow)) as (Eh & E1 & E2 & E3).
  set (h' := set_mapping ((cache_in c).(ht) (IDX y)) (OFFSET y) q').
  assert (Ec : cache_of (settled c') = put (cache_of (settled c)) (IDX y) h').
  { change (cache_of (settled c')) with (enqueued (put (cache_in c) (IDX y) h') (shadow c)). by rewrite enqueued_put. }
  assert (Hh : forall j, (cache_of (settled c')).(ht) j = if j =? IDX y then h' else (cache_in c).(ht) j).
  { intros j. rewrite Ec. cbn. by rewrite upd_case, Eh. }
  apply (sound_step (settled c) _ B); try done; try (by rewrite Ec).
  - intros j. rewrite Hh. change (cache_of (settled c)) with (enqueued (cache_in c) (shadow c)). rewrite Eh. by destruct (Z.eqb_spec j (IDX y)) as [->|].
  - intros j. rewrite Hh. change (cache_of (settled c)) with (enqueued (cache_in c) (shadow c)). rewrite Eh.
    destruct (Z.eqb_spec j (IDX y)) as [->|]; [|done]. cbn. by rewrite fmap_is_Some.
  - intros z Hz. rewrite (proj1 (settled_table c' z)), (proj1 (settled_table c z)). unfold c'.
    rewrite (proj1 (rebound_table c s g y q' z Hm)). by destruct (Z.eqb_spec z y) as [->|].
  - destruct (so_cache _ _ _ S) as (F & V & I). exists F, V. rewrite Ec. change (cache_of (settled c)) with (enqueued (cache_in c) (shadow c)) in *.
    apply inv_put; [done|by rewrite E1|]. destruct (ci_section _ _ _ _ (IDX y) I) as [C1 C2 C3 C4 C5 C6 C7]; [by rewrite E1|].
    rewrite Eh in *. split; try done.
    + intros X. cbn. by apply fmap_is_Some, C3.
    + cbn. rewrite fmap_is_Some. exact C4.
Qed.

Lemma gc_at_shard s g b x : gc_at s g b x -> geom (sp_of s) /\ 0 <= x /\ 0 <= b < (sp_of s).(blks_per_pl).
Proof. intros C. destruct (gc_at_inv _ _ _ _ C) as (I & Hx & Hb & _). split; [apply sh_geom, I|]. split; [done|apply Hb]. Qed.

(** The out-of-band area names the entry of a pair. *)
Lemma table_owner k D z : represents CityHash64 k D -> 0 <= z < (cache_of k).(nr_valid_tentries) -> table (cache_of k) z <> UINT_MAX ->
  __lpa_from_oob ((shard_of k).(oob) (table (cache_of k) z / 8) (table (cache_of k) z mod 8)) = z.
Proof. intros R Hz Hm. destruct (rp_slots _ _ _ R z Hz Hm) as (key & n & m & Sl & _). apply Sl. Qed.

(** [clean_pair] from the lock to the copy. *)
Lemma copy_pair_ok v b x B c c2 y key n :
  fetched c c2 y B -> gc_at (shard_in c) c.(gcd) b x -> heap_ok c.(dev).(hp) -> 0 <= y < (cache_in c).(nr_valid_tentries) -> (cache_in c).(nr_valid_tentries) < 2 ^ 31 ->
  0 <= IDX y < (cache_in c).(nr_valid_tpages) -> slot_holds c.(dev) y key n -> b <> v -> 0 <= v < (sp_of (shard_in c)).(blks_per_pl) ->
  0 < b \/ 0 < x -> let q := table (cache_in c) y in let len := pair_grains key n in
  on_line (sp_of (shard_in c)) v q -> len <= 100000 ->
  let x0 := copy_start (sp_of (shard_in c)) x len in (x0 + len) / 8 + 1 < (sp_of (shard_in c)).(pgs_per_line) ->
  0 <= B -> B + NAND_MAX * (len + 1) < 2 ^ 62 ->
  let q' := index_of (shard_in c) b (x0 / 8) * 8 + x0 mod 8 in
  exists s g, __copy_valid_pair clock c2 y len (IDX y) (OFFSET y) v = Ok (rebound c2 s g y q') /\
    gc_at s g b (x0 + len) /\ g.(gc_map) = c.(gcd).(gc_map) /\ copied (shard_in c2) s b x0 len y /\
    moves (shard_in c) s GC_IO b x /\ nand_ready clock s.(sd) (B + NAND_MAX * (len + 1)).
Proof.
  intros F C Ho Hy Hnr Hi Sl Nbv Hv Hz q len Hq Hmax x0 Hx0 HB0 HB q'. change (2 ^ 31) with 2147483648 in *.
  destruct (gc_at_shard _ _ _ _ C) as (G & Hx & Hb). pose proof (ft_flash _ _ _ _ F) as Fl. pose proof Fl as (_ & Es & _).
  destruct (sl_len _ _ _ _ Sl) as [Hn Hn31]. assert (Hl : 0 < len).
  { pose proof (slot_room key n Hn) as X. fold len in X. unfold header_size in X. lia. }
  pose proof (so_dev _ _ _ (ft_sound _ _ _ _ F)) as R2. change (shard_of (settled c2)) with (shard_in c2) in R2.
  assert (C2 : gc_at (shard_in c2) (gcd c2) b x).
  { rewrite (ft_gcd _ _ _ _ F). by apply (gc_at_timing (shard_in c)); [|apply (nr_tree _ _ _ R2)|]. }
  destruct (copy_grains_ok clock (shard_in c2) (gcd c2) b x y len (B + NAND_MAX) C2) as (s & g & E & C3 & Gm & Cp & M & R3 & _);
    rewrite ?Es; try done; try (unfold UINT_MAX, NAND_MAX in *; lia).
  rewrite Es in *. fold x0 in E, C3, Cp. destruct (ft_nr _ _ _ _ F) as [Nr Np].
  assert (Hhit : cache_hit ((cache_in c2).(ht) (IDX y)) = true) by apply F.
  pose proof (fetched_table _ _ _ _ y F) as [Tq _]. fold q in Tq. unfold table in Tq.
  unfold cache_hit in Hhit. destruct ((cache_in c2).(ht) (IDX y)).(mem) as [m|] eqn:Em.
  2:{ exfalso. pose proof (sl_mapped _ _ _ _ Sl) as X. change (q <> UINT_MAX) in X. congruence. }
  assert (I3 : shard_inv s) by apply (gc_at_inv _ _ _ _ C3). assert (Es3 : sp_of s = sp_of (shard_in c)).
  { rewrite (mv_sp _ _ _ _ _ M). done. }
  exists s, g. split; [|split; [done|split; [by rewrite Gm, (ft_gcd _ _ _ _ F)|split; [done|split]]]].
  - unfold __copy_valid_pair. rewrite E. cbn [mbind result_mbind result_bind].
    change (cache_in (set_gcd (put_shard c2 s) g)) with (cache_in c2). rewrite section_ok by (by rewrite Np).
    cbn [mbind result_mbind result_bind]. unfold mapping_at. rewrite Em, Hhit. cbn [mbind result_mbind result_bind].
    rewrite Tq. rewrite (grain2lineid_ok s v q I3) by (by rewrite Es3). cbn [mbind result_mbind result_bind]. rewrite Z.eqb_refl.
    cbn [mbind result_mbind result_bind]. done.
  - eapply moves_trans; [|apply (moves_flash _ _ _ _ _ Fl)|exact M]. done.
  - by replace (B + NAND_MAX * (len + 1)) with (B + NAND_MAX + NAND_MAX * len) by lia.
Qed.

Lemma rebound_hits c s g y q' i : cache_hit ((cache_in c).(ht) i) = true -> cache_hit ((cache_in (rebound c s g y q')).(ht) i) = true.
Proof. unfold cache_hit. cbn. rewrite upd_case. by destruct (Z.eqb_spec i (IDX y)) as [->|]. Qed.

(** The entry has moved, the lock is given back. *)
Lemma rebound_collecting D v b x B B' c c2 y key n s g x' q' b' p' g' :
  collecting D v b x B c -> fetched c c2 y B -> 0 <= y < (cache_in c).(nr_valid_tentries) -> slot_holds c.(dev) y key n ->
  gc_at s g b x' -> g.(gc_map) = false -> x <= x' -> moves (shard_in c) s GC_IO b x -> nand_ready clock s.(sd) B' ->
  placed s q' (pair_grains key n) b' p' g' -> __lpa_from_oob (s.(oob) (q' / 8) (q' mod 8)) = y -> q' <> UINT_MAX ->
  let c3 := rebound c2 s g y q' in
  exists u, unlock_section (cache_in c3) (IDX y) = Ok u /\ collecting D v b x' B' (put_cache c3 u) /\
    forall z, table u z = (if z =? y then q' else table (cache_in c) z) /\ pair_at u z = pair_at (cache_in c) z.
Proof.
  intros [R S Q C Gm (Nbv & Hv & Hz) (N & Hlim & Hsh) U] F Hy Sl C' Gm' Hx' M Rd P' O' N' c3.
  pose proof (settled_range c y B S Hy) as Hi. destruct (ft_nr _ _ _ _ F) as [Nr Np]. pose proof (mv_sp _ _ _ _ _ M) as Es.
  pose proof (sl_mapped _ _ _ _ Sl) as Hm. change (table (cache_of (dev c)) y) with (table (cache_in c) y) in Hm.
  pose proof (proj1 (fetched_table _ _ _ _ y F)) as Tq.
  assert (Hmm : is_Some ((cache_in c2).(ht) (IDX y)).(mem)).
  { unfold table in Tq, Hm. destruct ((cache_in c2).(ht) (IDX y)).(mem); [by eexists|congruence]. }
  assert (T3 : forall z, table (cache_in c3) z = (if z =? y then q' else table (cache_in c) z) /\ pair_at (cache_in c3) z = pair_at (cache_in c) z).
  { intros z. destruct (rebound_table c2 s g y q' z Hmm) as [A1 A2], (fetched_table _ _ _ _ z F) as [A3 A4]. unfold c3. by rewrite A1, A2, A3, A4. }
  assert (Bz : busy c3.(dev) (IDX y)).
  { intros j Hj. cbn. rewrite upd_case. pose proof (ft_busy _ _ _ _ F j Hj) as X. by destruct (Z.eqb_spec j (IDX y)) as [->|]. }
  destruct (gc_unlock_ok c3 (IDX y)) as [Eu Qu]; [cbn; by rewrite Np|done|]. rewrite Eu. eexists. split; [done|].
  set (u := put (cache_in c3) (IDX y) _). set (c4 := put_cache c3 u).
  assert (Tu : forall z, table u z = table (cache_in c3) z /\ pair_at u z = pair_at (cache_in c3) z).
  { intros z. unfold table, pair_at, u. cbn [put set_ht ht]. rewrite upd_case. by destruct (Z.eqb_spec (IDX z) (IDX y)) as [->|]. }
  split; [|intros z; by rewrite (proj1 (Tu z)), (proj2 (Tu z))].
  assert (Dv : c3.(dev).(hp) = c.(dev).(hp) /\ c3.(dev).(max_try) = c.(dev).(max_try)) by (cbn; by rewrite (ft_kv _ _ _ _ F)).
  assert (R3 : represents CityHash64 c3.(dev) D).
  { apply (relocated_represents CityHash64 c.(dev)); [|done]. apply (relocated_move _ _ y key n q' b' p' g'); try done; try apply Dv.
    intros q len b0 p g0 P. by apply (placed_moves _ _ c.(gcd) b x). }
  assert (S3 : sound clock (settled c3) B').
  { apply (rebound_sound c2 s g y q' (B + NAND_MAX)); [apply F|by rewrite Np|exact Hmm|by rewrite Nr|by rewrite Tq| |exact Rd].
    rewrite Es. symmetry. apply (ft_flash _ _ _ _ F). }
  split.
  - apply (relocated_represents CityHash64 c3.(dev)); [apply relocated_lock|exact R3].
  - apply (settled_lock c3); [exact S3|]. cbn. by rewrite Np.
  - exact Qu.
  - exact C'.
  - exact Gm'.
  - split; [done|]. change (shard_in c4) with s. rewrite Es. split; [done|]. destruct Hz; [by left|right; lia].
  - destruct (ft_shadow _ _ _ _ F) as [Sh1 Sh2]. change (shadow c4) with (shadow c2). change (nr_valid_tpages (cache_in c4)) with (nr_valid_tpages (cache_in c2)).
    rewrite Np. split; [done|]. split; [done|]. intros j Hj. destruct (Sh2 j Hj) as [A A']. rewrite Np in A. split; [done|].
    apply (rebound_hits c2 s g y q') in A'. cbn. rewrite upd_case. by destruct (Z.eqb_spec j (IDX y)) as [->|].
  - change (shard_in c4) with s. rewrite Es. destruct (mv_rest _ _ _ _ _ M) as (_ & -> & _). done.
Qed.

Lemma clean_pair_ok D v b x B c y key n :
  collecting D v b x B c -> 0 <= y < (cache_in c).(nr_valid_tentries) -> slot_holds c.(dev) y key n ->
  let q := table (cache_in c) y in let len := pair_grains key n in
  on_line (sp_of (shard_in c)) v q -> copyable c.(dev) y len ->
  let x0 := copy_start (sp_of (shard_in c)) x len in (x0 + len) / 8 + 1 < (sp_of (shard_in c)).(pgs_per_line) ->
  0 <= B -> B + NAND_MAX * (len + 1) < 2 ^ 62 ->
  exists c', clean_pair clock c v q ((shard_in c).(oob) (q / 8) (q mod 8)) = Ok (len, c') /\
    collecting D v b (x0 + len) (B + NAND_MAX * (len + 1)) c' /\ left_for c c' b (fun g => g = q) /\
    moves (shard_in c) (shard_in c') GC_IO b x.
Proof.
  intros Co Hy Sl q len Hq Cb x0 Hx0 HB0 HB. pose proof Co as [R S Q C Gm (Nbv & Hv & Hz) _ _].
  destruct (gc_at_shard _ _ _ _ C) as (G & Hx & Hb). pose proof (settled_range c y B S Hy) as Hi.
  destruct (rp_tries _ _ _ R) as [_ [_ Hnr]]. change (cache_of (dev c)) with (cache_in c) in Hnr.
  pose proof (sl_mapped _ _ _ _ Sl) as Hm. change (table (cache_of (dev c)) y) with q in Hm.
  pose proof (sl_grain _ _ _ _ Sl) as (b0 & p0 & g0 & P0). change (table (cache_of (dev c)) y) with q in P0.
  change (shard_of (dev c)) with (shard_in c) in P0. fold len in P0.
  assert (Hl : 0 < len <= 100000).
  { destruct Cb as [_ Hc]. split; [|done]. pose proof (slot_room key n (proj1 (sl_len _ _ _ _ Sl))) as X.
    pose proof (proj1 (sl_len _ _ _ _ Sl)). fold len in X. unfold header_size in X. lia. }
  pose proof (sl_owner _ _ _ _ Sl) as Ow'.
  destruct (fetch_ok D v b x B c y Co Hy Hm HB0) as (u & c2 & E1 & E2 & F); [unfold NAND_MAX in *; lia|].
  pose proof (copy_start_ge _ x len G Hx) as Hge. fold x0 in Hge.
  destruct (copy_pair_ok v b x B c c2 y key n F C (rp_heap _ _ _ R) Hy Hnr Hi Sl Nbv Hv Hz Hq (proj2 Hl) Hx0 HB0 HB)
    as (s & g & E3 & C3 & Gm3 & Cp & M & Rd). fold q len x0 in E3, C3, Cp, Rd.
  set (q' := index_of (shard_in c) b (x0 / 8) * 8 + x0 mod 8) in *.
  pose proof (ft_flash _ _ _ _ F) as Fl. pose proof Fl as (_ & Es2 & _). pose proof (mv_sp _ _ _ _ _ M) as Es.
  destruct (placed_copied (shard_in c2) s b x0 len y Cp) as [P' O']; rewrite ?Es2; try done; try lia. rewrite Es2 in P', O'. fold q' in P', O'.
  assert (Gs : geom (sp_of s)) by (by rewrite Es).
  destruct (placed_range _ _ _ _ _ _ Gs P') as (Hq' & _ & _ & _ & Rq & _). pose proof (tt_pgs_small _ Gs).
  destruct (rebound_collecting D v b x B (B + NAND_MAX * (len + 1)) c c2 y key n s g (x0 + len) q' b (x0 / 8) (x0 mod 8))
    as (w & E4 & Co' & T4); try done; [by rewrite Gm3|lia|unfold UINT_MAX; lia|].
  exists (put_cache (rebound c2 s g y q') w). split; [|split; [exact Co'|split; [|exact M]]].
  - unfold clean_pair. pose proof (sl_owner _ _ _ _ Sl) as Ow. change (table (cache_of (dev c)) y) with q in Ow.
    change (shard_of (dev c)) with (shard_in c) in Ow. rewrite Ow, (pl_len _ _ _ _ _ _ P0).
    rewrite (i32_small len) by lia. rewrite (proj2 (Z.eqb_neq y UINT_MAX)) by (unfold UINT_MAX; lia).
    cbn [negb assert_ mbind result_mbind result_bind]. rewrite (proj2 (Z.leb_le y _)) by lia. cbn [assert_ mbind result_mbind result_bind].
    rewrite E1. cbn [mbind result_mbind result_bind]. change (__valid_mapping y q) with true. cbn [mbind result_mbind result_bind].
    rewrite E2. cbn [mbind result_mbind result_bind]. rewrite section_ok by (rewrite (proj2 (ft_nr _ _ _ _ F)); done).
    cbn [mbind result_mbind result_bind]. destruct (fetched_table _ _ _ _ y F) as [Tq Tp]. fold q in Tq.
    pose proof (ft_hit _ _ _ _ F) as Hh. unfold cache_hit in Hh. unfold cache_hidx_to_grain. unfold table in Tq. unfold pair_at at 1 in Tp.
    destruct ((cache_in c2).(ht) (IDX y)).(mem) as [m|] eqn:Em; [|exfalso; congruence].
    rewrite Hh, Tq. cbn [mbind result_mbind result_bind]. rewrite Z.eqb_refl, Tp. cbn [negb].
    replace (hp (dev c2)) with (hp (dev c)) by (by rewrite (ft_kv _ _ _ _ F)).
    pose proof (examine_ok _ y key n (rp_heap _ _ _ R) Sl Cb) as X. fold len in X. change (cache_of (dev c)) with (cache_in c) in X.
    rewrite X. cbn [mbind result_mbind result_bind]. rewrite E3.
    cbn [mbind result_mbind result_bind]. by rewrite E4.
  - assert (Kv : forall A (f : kv -> A), (forall a x, f (set_cache a x) = f a) -> (forall a x, f (set_shard a x) = f a) ->
      f (dev (put_cache (rebound c2 s g y q') w)) = f (dev c)).
    { intros A f F1 F2. cbn. rewrite F1, F1, F2, (ft_kv _ _ _ _ F), F2, F1. done. }
    split.
    + intros z Hz0. change (cache_in (put_cache (rebound c2 s g y q') w)) with w. rewrite (proj1 (T4 z)).
      destruct (Z.eqb_spec z y) as [->|Ne]; [right; by rewrite <- Es|left]. split; [|done]. intros Ez. destruct Ne.
      rewrite <- Ow'. change (table (cache_of (dev c)) y) with q. rewrite <- Ez. symmetry.
      apply (table_owner c.(dev) D); [done|done|]. change (table (cache_in c) z <> UINT_MAX). by rewrite Ez.
    + intros z _. apply T4.
    + change (nr_valid_tentries w = nr_valid_tentries (cache_in c)). rewrite <- (proj1 (ft_nr _ _ _ _ F)).
      revert E4. unfold unlock_section. intros X. apply result_bind_ok in X as (h & _ & [= <-]). done.
    + exact Es.
    + split_and!; apply Kv; done.
Qed.

End collect.
