(* ===== verification/Cleaning.v ===== *)
(** * Cleaning a page of the victim ([demand_ftl.c])

    How the out-of-band area describes a page, and what [clean_one_flashpg] does
    with it: the pairs that live there move to the collector's line one behind
    the other, in the order of their grains. *)

From stdpp Require Import gmap.
From S2P Require Import Prelude Fifo Lru Append WorkQueue Queues Prp.
From S2P Require Import ChModel Ssd Geometry PQueue Line Lines Pages Place Cache Heap Pairs Kv Directory Opening Gc Relocate Collect.

(** ** Positions and time *)

(** Where the collector is after the pairs [l] (entry and length). *)
Fixpoint copy_ends (spp : ssdparams) (x : Z) (l : list (Z * Z)) : Z :=
  match l with [] => x | (_, len) :: l => copy_ends spp (copy_end spp x len) l end.
(** The flash operations for them, in units of [NAND_MAX]. *)
Fixpoint copy_time (l : list (Z * Z)) : Z :=
  match l with [] => 0 | (_, len) :: l => len + 1 + copy_time l end.

Lemma copy_ends_app spp x l l' : copy_ends spp x (l ++ l') = copy_ends spp (copy_ends spp x l) l'.
Proof. revert x. induction l as [|[y len] l IH]; intros x; [done|]. apply IH. Qed.
Lemma copy_time_app l l' : copy_time (l ++ l') = copy_time l + copy_time l'.
Proof. induction l as [|[y len] l IH]; [done|]. cbn [app copy_time]. lia. Qed.

Definition sized (l : list (Z * Z)) : Prop := Forall (fun e => 0 < e.2) l.

Lemma copy_ends_ge spp x l : geom spp -> 0 <= x -> sized l -> x <= copy_ends spp x l.
Proof.
  intros G. revert x. induction l as [|[y len] l IH]; intros x Hx F; [done|]. apply Forall_cons in F as [Hl F]. cbn in *.
  pose proof (copy_start_ge spp x len G Hx). unfold copy_end. specialize (IH (copy_start spp x len + len) ltac:(lia) F). lia.
Qed.

Lemma copy_time_pos l : sized l -> 0 <= copy_time l.
Proof. induction 1 as [|[y len] l Hl _ IH]; [done|]. cbn in *. lia. Qed.

(** ** A page as the out-of-band area describes it *)

Definition ordinary (w : Z) : Prop := w <> UINT_MAX /\ w <> UINT_MAX - 10 /\ w <> UINT_MAX - 11.

(** From grain [i] on page [P] holds the pairs [l]: between them dead grains, at
    its start the end of a pair of the page before, at its end maybe waste. *)
Inductive laid (c : collector) (P : Z) : Z -> list (Z * Z) -> Prop :=
  | laid_end i : GRAIN_PER_PAGE <= i -> laid c P i []
  | laid_waste i : 0 <= i < GRAIN_PER_PAGE -> (shard_in c).(oob) P i = UINT_MAX ->
      (forall j, i <= j < GRAIN_PER_PAGE -> bit (shard_in c) (P * GRAIN_PER_PAGE + j) = false) -> laid c P i []
  | laid_single l : (shard_in c).(oob) P 0 = UINT_MAX - 11 -> laid c P 1 l -> laid c P 0 l
  | laid_spill n l : (shard_in c).(oob) P 0 = UINT_MAX - 10 -> (shard_in c).(oob) P 1 = n -> 1 <= n <= GRAIN_PER_PAGE ->
      (forall j, 0 < j < n -> bit (shard_in c) (P * GRAIN_PER_PAGE + j) = false) -> laid c P n l -> laid c P 0 l
  | laid_dead i l : 0 <= i < GRAIN_PER_PAGE -> ordinary ((shard_in c).(oob) P i) ->
      bit (shard_in c) (P * GRAIN_PER_PAGE + i) = false -> laid c P (i + 1) l -> laid c P i l
  | laid_pair i y len l : 0 <= i < GRAIN_PER_PAGE -> 0 <= y < (cache_in c).(nr_valid_tentries) ->
      table (cache_in c) y = P * GRAIN_PER_PAGE + i -> __glen_from_oob ((shard_in c).(oob) P i) = len -> copyable c.(dev) y len ->
      (forall j, i < j < i + len -> j < GRAIN_PER_PAGE -> bit (shard_in c) (P * GRAIN_PER_PAGE + j) = false) ->
      0 < len -> laid c P (i + len) l -> laid c P i ((y, len) :: l).

Lemma laid_sized c P i l : laid c P i l -> sized l.
Proof. induction 1; try done; by constructor. Qed.

(** The description holds as long as the page and its entries stay. *)
Lemma laid_kept c c' P i l : laid c P i l ->
  (forall j, 0 <= j < GRAIN_PER_PAGE -> bit (shard_in c') (P * GRAIN_PER_PAGE + j) = bit (shard_in c) (P * GRAIN_PER_PAGE + j) /\
    (shard_in c').(oob) P j = (shard_in c).(oob) P j) ->
  (forall z j, 0 <= z < (cache_in c).(nr_valid_tentries) -> i <= j < GRAIN_PER_PAGE ->
    table (cache_in c) z = P * GRAIN_PER_PAGE + j -> table (cache_in c') z = table (cache_in c) z) ->
  (forall z, 0 <= z < (cache_in c).(nr_valid_tentries) -> pair_at (cache_in c') z = pair_at (cache_in c) z) ->
  (cache_in c').(nr_valid_tentries) = (cache_in c).(nr_valid_tentries) -> c'.(dev).(hp) = c.(dev).(hp) -> laid c' P i l.
Proof.
  intros L Hg Ht Hp En Eh. rewrite GPP_val in *. induction L as [i Hi|i Hi W F|l W L IH|n l W W1 Hn F L IH|i l Hi W F L IH|i y len l Hi Hy T W Cb F Hl L IH].
  - apply laid_end. by rewrite GPP_val.
  - apply laid_waste; rewrite ?GPP_val in *; [done|by rewrite (proj2 (Hg i Hi))|]. intros j Hj. rewrite (proj1 (Hg j ltac:(lia))). by apply F.
  - apply laid_single; [by rewrite (proj2 (Hg 0 ltac:(lia)))|]. apply IH. intros z j Hz Hj. apply Ht; [done|lia].
  - rewrite GPP_val in *. apply (laid_spill _ _ n); rewrite ?GPP_val; try done; [by rewrite (proj2 (Hg 0 ltac:(lia)))|by rewrite (proj2 (Hg 1 ltac:(lia)))| |].
    + intros j Hj. rewrite (proj1 (Hg j ltac:(lia))). by apply F.
    + apply IH. intros z j Hz Hj. apply Ht; [done|lia].
  - rewrite GPP_val in *. destruct (Hg i Hi) as [B O]. apply laid_dead; rewrite ?GPP_val, ?B, ?O; try done.
    apply IH. intros z j Hz Hj. apply Ht; [done|lia].
  - rewrite GPP_val in *. destruct (Hg i Hi) as [B O]. apply laid_pair; rewrite ?GPP_val, ?En, ?O; try done.
    + rewrite (Ht y i) by (done || lia). done.
    + unfold copyable in *. change (cache_of (dev c')) with (cache_in c'). rewrite Eh, (Hp y Hy). done.
    + intros j Hj Hj8. rewrite (proj1 (Hg j ltac:(lia))). by apply F.
    + apply IH. intros z j Hz Hj. apply Ht; [done|lia].
Qed.

Section cleaning.
Context `{AllocatorLaws} (CityHash64 : list Z -> Z) (clock : nat -> Z).
#[local] Abbreviation collecting := (collecting CityHash64 clock).

Lemma mapped_bit k D z : represents CityHash64 k D -> 0 <= z < (cache_of k).(nr_valid_tentries) -> table (cache_of k) z <> UINT_MAX ->
  bit (shard_of k) (table (cache_of k) z) = true.
Proof. intros R Hz Hm. destruct (rp_slots _ _ _ R z Hz Hm) as (key & n & m & Sl & _). by destruct (sl_grain _ _ _ _ Sl) as (? & ? & ? & [_ _ _ ? _]). Qed.

(** A pair of the page, as the device represents it. *)
Lemma laid_slot D v b x B c P i y len : collecting D v b x B c -> 0 <= y < (cache_in c).(nr_valid_tentries) ->
  table (cache_in c) y = P * GRAIN_PER_PAGE + i -> 0 <= P < (sp_of (shard_in c)).(tt_pgs) -> 0 <= i < GRAIN_PER_PAGE ->
  __glen_from_oob ((shard_in c).(oob) P i) = len ->
  exists key n, slot_holds c.(dev) y key n /\ len = pair_grains key n /\ ordinary ((shard_in c).(oob) P i) /\
    bit (shard_in c) (P * GRAIN_PER_PAGE + i) = true.
Proof.
  intros Co Hy T HP Hi W. pose proof (co_rep _ _ _ _ _ _ _ _ Co) as R. rewrite GPP_val in *.
  destruct (gc_at_shard _ _ _ _ (co_at _ _ _ _ _ _ _ _ Co)) as (G & _). pose proof (tt_pgs_small _ G).
  assert (Hm : table (cache_in c) y <> UINT_MAX) by (rewrite T; unfold UINT_MAX; lia).
  destruct (rp_slots _ _ _ R y Hy Hm) as (key & n & m & Sl & _). exists key, n. split; [done|].
  pose proof (sl_grain _ _ _ _ Sl) as (b0 & p0 & g0 & P0). pose proof (sl_owner _ _ _ _ Sl) as Ow.
  change (table (cache_of (dev c)) y) with (table (cache_in c) y) in *. change (shard_of (dev c)) with (shard_in c) in *.
  pose proof (pl_len _ _ _ _ _ _ P0) as El. rewrite T in El, Ow.
  replace ((P * 8 + i) / 8) with P in El, Ow by zlia. replace ((P * 8 + i) mod 8) with i in El, Ow by zlia.
  split; [congruence|]. split; [|rewrite <- T; by apply (mapped_bit c.(dev) D)].
  destruct (rp_tries _ _ _ R) as [_ [_ Hnr]]. change (cache_of (dev c)) with (cache_in c) in Hnr. change (2 ^ 31) with 2147483648 in Hnr.
  split_and!; intros X; rewrite X in Ow; vm_compute in Ow; lia.
Qed.

(** The grains of a page of the victim. *)
Lemma page_cells D v b x B c m j : collecting D v b x B c -> 0 <= m < (sp_of (shard_in c)).(pgs_per_line) -> 0 <= j < 8 ->
  let P := index_of (shard_in c) v m in
  0 <= P < (sp_of (shard_in c)).(tt_pgs) /\ PPA_TO_PGA P j = P * 8 + j /\ bitmap_cell (shard_in c) (P * 8 + j) = Ok (bit (shard_in c) (P * 8 + j)) /\
  oob_cell (shard_in c) P j = Ok ((shard_in c).(oob) P j) /\ (shard_in c).(Lines.offset) / GRAINED_UNIT <> P * 8 + j.
Proof.
  intros Co Hm Hj P. destruct (gc_at_shard _ _ _ _ (co_at _ _ _ _ _ _ _ _ Co)) as (G & _). pose proof (tt_pgs_small _ G).
  pose proof (co_lines _ _ _ _ _ _ _ _ Co) as (_ & Hv & _). pose proof (pgidx_range _ G _ (page_at_ok _ G v m Hv Hm)) as HP. fold P in HP.
  split; [done|]. unfold PPA_TO_PGA, bitmap_cell, oob_cell. rewrite GPP_val, u32_small by lia. split; [done|]. rewrite !cell_in by lia.
  cbn [mbind result_mbind result_bind]. rewrite cell_in by lia. split; [done|]. split; [done|]. intros E.
  apply (co_user _ _ _ _ _ _ _ _ Co). exists m, j. done.
Qed.

(** Two parts of a cleaning. *)
Lemma cleaned_join c c1 c' b x x1 P i k : x <= x1 -> i < k -> i < 8 ->
  (forall z j, 0 <= z < (cache_in c).(nr_valid_tentries) -> i < j < k -> j < 8 -> table (cache_in c) z <> P * 8 + j) ->
  left_for c c1 b (fun q => q = P * 8 + i) -> moves (shard_in c) (shard_in c1) GC_IO b x ->
  left_for c1 c' b (fun q => P * 8 + k <= q < P * 8 + 8) -> moves (shard_in c1) (shard_in c') GC_IO b x1 ->
  left_for c c' b (fun q => P * 8 + i <= q < P * 8 + 8) /\ moves (shard_in c) (shard_in c') GC_IO b x.
Proof.
  intros Hx Hk Hi8 Ht L1 M1 L2 M2. split; [|by apply (moves_trans _ (shard_in c1) _ _ _ _ x1)].
  eapply left_ext; [|apply (left_trans _ _ _ _ _ _ L1 L2)].
  - intros z Hz. cbv beta. split; [lia|]. intros Y. destruct (Z.eq_dec (table (cache_in c) z) (P * 8 + i)) as [|Ne]; [by left|right].
    destruct (Z.lt_ge_cases (table (cache_in c) z) (P * 8 + k)) as [Lt|]; [|lia]. exfalso.
    apply (Ht z (table (cache_in c) z - P * 8) Hz); lia.
Qed.

(** Grains no entry names. *)
Lemma vacant D v b x B c P j z : collecting D v b x B c -> 0 <= P < (sp_of (shard_in c)).(tt_pgs) -> 0 <= j < 8 ->
  bit (shard_in c) (P * 8 + j) = false \/ ~ ordinary ((shard_in c).(oob) P j) -> 0 <= z < (cache_in c).(nr_valid_tentries) ->
  table (cache_in c) z <> P * 8 + j.
Proof.
  intros Co HP Hj V Hz E. destruct (laid_slot D v b x B c P j z (__glen_from_oob ((shard_in c).(oob) P j)) Co Hz) as (key & n & _ & _ & O & Bt); rewrite ?GPP_val; try done.
  rewrite GPP_val in Bt. destruct V; [congruence|done].
Qed.

Lemma left_skip c c' b P i k : left_for c c' b (fun q => P * 8 + k <= q < P * 8 + 8) -> i <= k ->
  (forall z j, 0 <= z < (cache_in c).(nr_valid_tentries) -> i <= j < k -> j < 8 -> table (cache_in c) z <> P * 8 + j) ->
  left_for c c' b (fun q => P * 8 + i <= q < P * 8 + 8).
Proof.
  intros L Hk Ht. eapply left_ext; [|exact L]. intros z Hz. cbv beta. split; [lia|]. intros Y.
  destruct (Z.lt_ge_cases (table (cache_in c) z) (P * 8 + k)) as [Lt|]; [|lia]. exfalso.
  apply (Ht z (table (cache_in c) z - P * 8) Hz); lia.
Qed.

Lemma clean_grains_ok fuel D v b x B c m P i l :
  collecting D v b x B c -> 0 <= m < (sp_of (shard_in c)).(pgs_per_line) -> P = index_of (shard_in c) v m ->
  0 <= i -> 9 <= Z.of_nat fuel + i -> (0 < fuel)%nat -> laid c P i l ->
  let x' := copy_ends (sp_of (shard_in c)) x l in x' / 8 + 1 < (sp_of (shard_in c)).(pgs_per_line) ->
  0 <= B -> B + NAND_MAX * copy_time l < 2 ^ 62 ->
  exists c', clean_grains clock fuel c P v i = Ok c' /\ collecting D v b x' (B + NAND_MAX * copy_time l) c' /\
    left_for c c' b (fun q => P * 8 + i <= q < P * 8 + 8) /\ moves (shard_in c) (shard_in c') GC_IO b x.
Proof.
  revert c x B i l. induction fuel as [|fuel IH]; intros c x B i l Co Hm EP Hi Hf Hf0 L x' Hx' HB0 HB; [lia|]. clear Hf0.
  pose proof (co_lines _ _ _ _ _ _ _ _ Co) as (Nbv & Hv & _).
  destruct (gc_at_shard _ _ _ _ (co_at _ _ _ _ _ _ _ _ Co)) as (G & Hx & Hb).
  assert (Stay : forall i, (forall z j, 0 <= z < (cache_in c).(nr_valid_tentries) -> i <= j < 8 -> j < 8 -> table (cache_in c) z <> P * 8 + j) ->
    i <= 8 -> left_for c c b (fun q => P * 8 + i <= q < P * 8 + 8)).
  { intros k Hk H8. apply (left_skip _ _ _ _ _ 8); [|done|done]. eapply left_ext; [|apply left_refl]. intros z _. cbv beta. lia. }
  cbn [clean_grains]. rewrite Z.geb_leb. destruct (Z.leb_spec GRAIN_PER_PAGE i) as [H8|H8]; rewrite GPP_val in H8.
  { assert (l = []) as -> by (destruct L; rewrite ?GPP_val in *; try done; lia). exists c. split; [done|]. split.
    - unfold x'. cbn. by rewrite Z.mul_0_r, Z.add_0_r.
    - split; [|apply moves_refl]. eapply left_ext; [|apply left_refl]. intros z _. cbv beta. lia. }
  destruct (page_cells D v b x B c m i Co Hm ltac:(lia)) as (HP & Eg & Ebit & Eoob & Eoff). rewrite <- EP in *.
  rewrite Eg, Ebit. cbn [mbind result_mbind result_bind]. rewrite Eoob. cbn [mbind result_mbind result_bind].
  assert (Nh : fuel <> 0%nat) by lia.
  destruct L as [i Hi8|i Hi8 W F|l W L|n l W W1 Hn F L|i l Hi8 W F L|i y len l Hi8 Hy T W Cb F Hl L]; rewrite ?GPP_val in *; [lia|..].
  - rewrite W. change (UINT_MAX =? UINT_MAX - 11) with false. change (UINT_MAX =? UINT_MAX - 10) with false. rewrite Z.eqb_refl.
    cbv iota. exists c. split; [done|]. split.
    + unfold x'. cbn. by rewrite Z.mul_0_r, Z.add_0_r.
    + split; [|apply moves_refl]. apply Stay; [|lia]. intros z j Hz Hj _. apply (vacant D v b x B c P j z Co HP); [lia| |done]. left. by apply F.
  - rewrite W, Z.eqb_refl. cbn [assert_ mbind result_mbind result_bind Z.eqb]. change (0 + 1) with 1.
    destruct (IH c x B 1 l Co Hm EP) as (c' & -> & Co' & Lf & M); try done; try lia. exists c'. split; [done|]. split; [done|]. split; [|done].
    apply (left_skip _ _ _ _ _ 1); [done|lia|]. intros z j Hz Hj Hj8. assert (j = 0) as -> by lia.
    apply (vacant D v b x B c P 0 z Co HP); [lia| |done]. right. rewrite W. by intros (_ & _ & X).
  - rewrite W. change (UINT_MAX - 10 =? UINT_MAX - 11) with false. rewrite Z.eqb_refl. cbv iota.
    destruct (page_cells D v b x B c m 1 Co Hm ltac:(lia)) as (_ & _ & _ & Eo1 & _). rewrite <- EP in Eo1. 
    cbn [assert_ mbind result_mbind result_bind Z.eqb]. rewrite Eo1. cbn [mbind result_mbind result_bind]. rewrite W1, (proj2 (Z.leb_le n 8)) by lia.
    cbn [assert_ mbind result_mbind result_bind]. rewrite i32_small by lia. replace (0 + n - 1 + 1) with n by lia.
    destruct (IH c x B n l Co Hm EP) as (c' & -> & Co' & Lf & M); try done; try lia. exists c'. split; [done|]. split; [done|]. split; [|done].
    apply (left_skip _ _ _ _ _ n); [done|lia|]. intros z j Hz Hj Hj8. apply (vacant D v b x B c P j z Co HP); [lia| |done].
    destruct (Z.eq_dec j 0) as [->|]; [right; rewrite W; by intros (_ & X & _)|]. left. apply F. lia.
  - destruct W as (W1 & W2 & W3). rewrite (proj2 (Z.eqb_neq _ (UINT_MAX - 11)) W3), (proj2 (Z.eqb_neq _ (UINT_MAX - 10)) W2), (proj2 (Z.eqb_neq _ UINT_MAX) W1).
    rewrite (proj2 (Z.eqb_neq _ _) Eoff), (co_data _ _ _ _ _ _ _ _ Co), andb_false_r, F. cbn [andb negb].
    destruct (IH c x B (i + 1) l Co Hm EP) as (c' & -> & Co' & Lf & M); try done; try lia. exists c'. split; [done|]. split; [done|]. split; [|done].
    apply (left_skip _ _ _ _ _ (i + 1)); [done|lia|]. intros z j Hz Hj Hj8. assert (j = i) as -> by lia.
    apply (vacant D v b x B c P i z Co HP); [lia| |done]. by left.
  - destruct (laid_slot D v b x B c P i y len Co Hy) as (key & n & Sl & El & (W1 & W2 & W3) & Bt); rewrite ?GPP_val; try done.
    rewrite (proj2 (Z.eqb_neq _ (UINT_MAX - 11)) W3), (proj2 (Z.eqb_neq _ (UINT_MAX - 10)) W2), (proj2 (Z.eqb_neq _ UINT_MAX) W1).
    rewrite (proj2 (Z.eqb_neq _ _) Eoff), (co_data _ _ _ _ _ _ _ _ Co), andb_false_r. rewrite GPP_val in Bt. rewrite Bt. cbn [andb negb].
    cbv iota. cbn [copy_ends copy_time] in *. unfold copy_end in *.
    pose proof (copy_start_ge _ x len G Hx) as Hge. pose proof (laid_sized _ _ _ _ L) as Sz.
    pose proof (copy_ends_ge (sp_of (shard_in c)) (copy_start (sp_of (shard_in c)) x len + len) l G ltac:(lia) Sz). pose proof (copy_time_pos l Sz).
    destruct (clean_pair_ok CityHash64 clock D v b x B c y key n Co Hy Sl) as (c1 & E1 & Co1 & Lf1 & M1).
    { change (table (cache_in c) y) with (table (cache_in c) y). rewrite T, EP. by exists m, i. }
    { by rewrite <- El. }
    { rewrite <- El. unfold x' in *. zlia. }
    { done. }
    { rewrite <- El. unfold NAND_MAX in *. lia. }
    rewrite <- El, T in *. replace ((P * 8 + i) / 8) with P in E1 by zlia. replace ((P * 8 + i) mod 8) with i in E1 by zlia.
    rewrite E1. cbn [mbind result_mbind result_bind]. replace (i + (len - 1) + 1) with (i + len) by lia.
    pose proof (mv_sp _ _ _ _ _ M1) as Es1. set (x1 := copy_start _ x len + len) in *. pose proof (lf_entries _ _ _ _ Lf1) as En1.
    assert (L1 : laid c1 P (i + len) l).
    { apply (laid_kept c); try done; try apply Lf1.
      - intros j Hj. rewrite EP. by apply (moves_page _ _ GC_IO b x).
      - intros z j Hz Hj Ez. destruct (lf_table _ _ _ _ Lf1 z Hz) as [[_ E]|[E _]]; [done|]. rewrite Ez, GPP_val in E. lia. }
    destruct (IH c1 x1 (B + NAND_MAX * (len + 1)) (i + len) l Co1) as (c' & E2 & Co2 & Lf2 & M2); rewrite ?Es1; try done; try lia.
    { unfold NAND_MAX in *. lia. }
    exists c'. split; [exact E2|]. rewrite Es1 in Co2. replace (B + NAND_MAX * (len + 1 + copy_time l)) with (B + NAND_MAX * (len + 1) + NAND_MAX * copy_time l) by lia.
    split; [exact Co2|]. apply (cleaned_join c c1 c' b x x1 P i (i + len)); try done; try (unfold x1; lia).
    intros z j Hz Hj Hj8. apply (vacant D v b x B c P j z Co HP); [lia| |done]. left. by apply F.
Qed.

End cleaning.
