(* ===== verification/Victim.v ===== *)
(** * The line that is being collected ([demand_ftl.c])

    What the collector does to the victim itself - a dead page is marked so, a
    block is erased - is seen by nothing but the victim: the pairs elsewhere, the
    table, the position of every write pointer and the collector's own stay. *)

From stdpp Require Import gmap.
From S2P Require Import Prelude Fifo Lru Append WorkQueue Queues Prp.
From S2P Require Import ChModel Ssd Geometry PQueue Line Lines Pages Place Cache Heap Pairs Kv Directory Opening Gc Relocate Collect Cleaning.

(** ** Only line [v] has changed *)

Definition off_line (s s' : demand_shard) (v : Z) : Prop := forall t, moves s s' t v 0.

Lemma off_refl s v : off_line s s v.
Proof. intros t. apply moves_refl. Qed.

Lemma off_trans s1 s2 s3 v : off_line s1 s2 v -> off_line s2 s3 v -> off_line s1 s3 v.
Proof. intros A B t. eapply moves_trans; [|apply A|apply B]. done. Qed.

Lemma off_wp s s' v t : off_line s s' v -> __get_wp s' t = __get_wp s t.
Proof. intros O. destruct t; [apply (mv_wps _ _ _ _ _ (O MAP_IO))|apply (mv_wps _ _ _ _ _ (O USER_IO))..]; done. Qed.

Lemma off_open s s' v i : off_line s s' v -> is_open s.(lm) (sp_of s) i -> is_open s'.(lm) (sp_of s') i.
Proof. intros O. by apply (moves_open s s' USER_IO v 0). Qed.

Lemma off_page s s' v b m j : off_line s s' v -> geom (sp_of s) -> 0 <= b < (sp_of s).(blks_per_pl) -> 0 <= v < (sp_of s).(blks_per_pl) ->
  b <> v -> 0 <= m < (sp_of s).(pgs_per_line) -> 0 <= j < GRAIN_PER_PAGE ->
  bit s' (index_of s b m * GRAIN_PER_PAGE + j) = bit s (index_of s b m * GRAIN_PER_PAGE + j) /\ s'.(oob) (index_of s b m) j = s.(oob) (index_of s b m) j.
Proof. intros O. by apply (moves_page s s' USER_IO v 0). Qed.

Lemma next_free_off s s' v t b n : off_line s s' v -> shard_inv s' -> 0 <= v < (sp_of s).(blks_per_pl) -> b <> v ->
  next_free s t b n -> next_free s' t b n.
Proof.
  intros O. destruct t; [apply (next_free_moves s s' MAP_IO v 0 USER_IO)|apply (next_free_moves s s' USER_IO v 0 _)..]; done.
Qed.

Lemma place_off s s' v t b n g : off_line s s' v -> shard_inv s' -> 0 <= v < (sp_of s).(blks_per_pl) -> b <> v ->
  place_at s t b n g -> place_at s' t b n g.
Proof.
  intros O. destruct t; [apply (place_moves s s' MAP_IO v 0 USER_IO)|apply (place_moves s s' USER_IO v 0 _)..]; done.
Qed.

Lemma dead_off s s' v b n g : off_line s s' v -> b <> v -> dead_ok s b n g -> dead_ok s' b n g.
Proof. intros O. by apply (dead_moves s s' USER_IO v 0). Qed.

Lemma gc_at_off s s' v g b x : off_line s s' v -> shard_inv s' -> 0 <= v < (sp_of s).(blks_per_pl) -> b <> v ->
  gc_at s g b x -> gc_at s' g b x.
Proof.
  intros O I Hv N. pose proof (mv_sp _ _ _ _ _ (O USER_IO)) as Es. intros [n Ex Eo F D|n o Ex Ho Eo Ep Ei U D].
  - apply (gc_idle _ _ _ _ n); try done; [by apply (next_free_off s s' v)|by apply (dead_off s s' v)].
  - apply (gc_busy _ _ _ _ n o); rewrite ?Es; try done; [by apply (place_off s s' v)|by apply (dead_off s s' v)].
Qed.

(** ** What erasing a block leaves *)

Lemma mod_blk_frame d p f d' : mod_blk d p f = Ok d' -> d'.(sp) = d.(sp) /\ forall q, ~ same_blk p q -> blk_at d' q = blk_at d q.
Proof.
  unfold mod_blk, mod_lun, mod_ch, modify. intros H. ok_steps. split; [done|]. intros q N. unfold blk_at. cbn.
  rewrite upd_case. destruct (Z.eqb_spec (g_ch q) (g_ch p)) as [E1|]; [|done]. cbn. rewrite E1.
  rewrite upd_case. destruct (Z.eqb_spec (g_lun q) (g_lun p)) as [E2|]; [|done]. cbn. rewrite E2.
  rewrite upd_case. destruct (Z.eqb_spec (g_pl q) (g_pl p)) as [E3|]; [|done]. cbn. rewrite E3.
  rewrite upd_case. destruct (Z.eqb_spec (g_blk q) (g_blk p)) as [E4|]; [|done]. destruct N. by split_and!.
Qed.

(** All but the block of [p], whose pages [lo] ... [hi - 1] have the bits and cells
    changed. *)
Record apart (s s' : demand_shard) (p : ppa) (lo hi : Z) : Prop := {
  ap_sp : sp_of s' = sp_of s;
  ap_lm : s'.(lm) = s.(lm);
  ap_wps : forall t, __get_wp s' t = __get_wp s t;
  ap_blk : forall q, ~ same_blk p q -> blk_at s'.(sd) q = blk_at s.(sd) q;
  ap_rest : same_rest s s';
  ap_timing : timing_kept s s';
  ap_grain : forall y k, 0 <= k < 8 -> ~ lo <= y < hi -> bit s' (y * 8 + k) = bit s (y * 8 + k) /\ s'.(oob) y k = s.(oob) y k
}.

Lemma apart_trans s1 s2 s3 p lo mid hi : lo <= mid <= hi -> apart s1 s2 p lo mid -> apart s2 s3 p mid hi -> apart s1 s3 p lo hi.
Proof.
  intros Hm [A1 A2 A3 A4 A5 A6 A7] [B1 B2 B3 B4 B5 B6 B7]. split.
  - congruence.
  - congruence.
  - intros t. by rewrite B3.
  - intros q N. by rewrite B4, A4.
  - by etransitivity.
  - by etransitivity.
  - intros y k Hk Hy. destruct (A7 y k Hk ltac:(lia)) as [<- <-]. apply B7; [done|lia].
Qed.

Lemma apart_device s d p f lo : mod_blk s.(sd) p f = Ok d ->
  (forall b b' j, f b = Ok b' -> (b'.(pg) j).(nsecs) = (b.(pg) j).(nsecs)) -> apart s (set_sd s d) p lo lo.
Proof.
  intros E Hf. destruct (mod_blk_frame _ _ _ _ E) as [Es Eb]. split; try done.
  - split_and!; try done. intros q. unfold page_at_ppa. cbn [set_sd sd]. by eapply mod_blk_nsecs.
  - by eapply mod_blk_timing.
Qed.

Lemma free_pages_apart n i s p base s' : free_pages_loop n i s p base = Ok s' -> apart s s' p (base + i) (base + i + Z.of_nat n).
Proof.
  revert i s. induction n as [|n IH]; intros i s H.
  { injection H as <-. by split. }
  cbn [free_pages_loop] in H. apply result_bind_ok in H as (d & Ed & H). apply result_bind_ok in H as (s2 & E2 & H).
  apply IH in H. apply (apart_trans _ s2 _ _ _ (base + (i + 1))); [lia| |by replace (base + i + Z.of_nat (S n)) with (base + (i + 1) + Z.of_nat n) by lia].
  apply (apart_trans _ (set_sd s d) _ _ _ (base + i)); [lia| |].
  - apply (apart_device _ _ _ _ _ Ed). intros b b' j Eb. apply result_bind_ok in Eb as (a & Ea & [= <-]).
    unfold modify in Ea. ok_steps. cbn. rewrite upd_case. by case_cmp; subst.
  - unfold clear_oob in E2. ok_steps. split; try done.
    intros y k Hk Hy. cbn [set_oob set_bitmap set_sd grain_bitmap oob]. unfold memset. rewrite GPP_val, upd_case. repeat case_cmp; cbn; done || lia.
Qed.

Lemma mark_block_free_apart s p s' : 0 <= (sp_of s).(pgs_per_blk) -> mark_block_free s p = Ok s' -> exists base, ppa2pgidx (sp_of s) (with_pg p 0) = Ok base /\
  apart s s' p base (base + (sp_of s).(pgs_per_blk)).
Proof.
  intros H0. unfold mark_block_free. intros H. apply result_bind_ok in H as (base & Eb & H). exists base. split; [done|].
  apply result_bind_ok in H as (s1 & E1 & H). apply result_bind_ok in H as (d & Ed & [= <-]).
  apply free_pages_apart in E1. rewrite Z.add_0_r, Z2Nat.id in E1 by done. apply (apart_trans _ s1 _ _ _ (base + (sp_of s).(pgs_per_blk))); [lia|done|].
  apply (apart_device _ _ _ _ _ Ed). intros b b' j Eb'. by ok_steps.
Qed.

Lemma block_pages_line spp p y : geom spp -> page_ok spp p -> pgidx spp (with_pg p 0) <= y < pgidx spp (with_pg p 0) + 32 ->
  exists m, 0 <= m < spp.(pgs_per_line) /\ y = pgidx spp (page_at spp p.(g_blk) m) /\ same_blk p (page_at spp p.(g_blk) m).
Proof.
  intros G P Hy. destruct (block_pages _ p G P) as (P0 & R0 & Rb & Rel & Inj).
  destruct (ppa_to_struct_ok _ G y ltac:(lia)) as (q & _ & Q & <-). pose proof (Inj q Q Hy) as S. exists (place spp q).
  pose proof (same_blk_line _ _ S) as El. rewrite <- El, page_at_place by done. split; [by apply place_range|]. by split.
Qed.

Lemma erase_off s p s' : shard_inv s -> page_ok (sp_of s) p -> mark_block_free s p = Ok s' -> off_line s s' p.(g_blk) /\ timing_kept s s'.
Proof.
  intros I P E. pose proof (sh_geom _ I) as G. destruct (geom_consts _ G) as (_ & _ & E2 & _).
  destruct (mark_block_free_apart s p s' ltac:(lia) E) as (base & Eb & [A1 A2 A3 A4 A5 A6 A7]). rewrite E2 in *.
  destruct (block_pages _ p G P) as (P0 & _). rewrite (ppa2pgidx_ok _ G) in Eb by done. injection Eb as <-.
  split; [|done]. intros t. split; try done.
  - intros q Hq. unfold page_at_ppa. rewrite A4; [done|]. intros S. by apply same_blk_line in S.
  - intros q Hq. rewrite A4; [done|]. intros S. by apply same_blk_line in S.
  - intros i _. by rewrite A2.
  - rewrite A2. by destruct s.(lm).
  - intros y i Hi Hm. rewrite GPP_val in *. apply A7; [done|]. intros Hy. destruct (block_pages_line _ p y G P Hy) as (m & Hm' & Ey & _).
    specialize (Hm m Hm' Ey). lia.
Qed.

(** ** A part of a collection of line [v] into line [b] *)

Record kept (s s' : demand_shard) (b v : Z) : Prop := {
  kp_sp : sp_of s' = sp_of s;
  kp_status : forall q, q.(g_blk) <> b -> q.(g_blk) <> v -> (page_at_ppa s' q).(status) = (page_at_ppa s q).(status);
  kp_blk : forall q, q.(g_blk) <> b -> q.(g_blk) <> v -> (blk_at s'.(sd) q).(Ssd.igc) = (blk_at s.(sd) q).(Ssd.igc) /\
    (blk_at s'.(sd) q).(Ssd.vgc) = (blk_at s.(sd) q).(Ssd.vgc);
  kp_lines : forall i, i <> b -> i <> v -> s'.(lm).(lines) i = s.(lm).(lines) i;
  kp_lists : set_lines s'.(lm) s.(lm).(lines) = s.(lm);
  kp_wps : forall u, u <> GC_IO -> __get_wp s' u = __get_wp s u;
  kp_rest : same_rest s s';
  kp_grain : forall y i, 0 <= i < GRAIN_PER_PAGE ->
    (forall m, 0 <= m < (sp_of s).(pgs_per_line) -> y <> index_of s b m /\ y <> index_of s v m) ->
    bit s' (y * GRAIN_PER_PAGE + i) = bit s (y * GRAIN_PER_PAGE + i) /\ s'.(oob) y i = s.(oob) y i
}.

Lemma kept_moves s s' b v x : moves s s' GC_IO b x -> kept s s' b v.
Proof.
  intros [A1 A2 A3 A4 A5 A6 A7 A8]. split; try done.
  - intros q Hb _. by apply A2.
  - intros q Hb _. by apply A3.
  - intros i Hb _. by apply A4.
  - intros y i Hi Hy. apply A8; [done|]. intros m Hm E. by destruct (Hy m Hm).
Qed.

Lemma kept_off s s' b v : off_line s s' v -> kept s s' b v.
Proof.
  intros O. pose proof (O USER_IO) as [A1 A2 A3 A4 A5 A6 A7 A8]. split; try done.
  - intros q _. apply A2.
  - intros q _. apply A3.
  - intros i _. apply A4.
  - intros u _. by apply (off_wp s s' v).
  - intros y i Hi Hy. apply A8; [done|]. intros m Hm E. by destruct (Hy m Hm).
Qed.

Lemma kept_refl s b v : kept s s b v.
Proof. apply kept_off, off_refl. Qed.

Lemma kept_trans s1 s2 s3 b v : kept s1 s2 b v -> kept s2 s3 b v -> kept s1 s3 b v.
Proof.
  intros [A1 A2 A3 A4 A5 A6 A7 A8] [B1 B2 B3 B4 B5 B6 B7 B8]. rewrite A1 in *. split.
  - congruence.
  - intros q Hb Hv. by rewrite B2, A2.
  - intros q Hb Hv. destruct (B3 q Hb Hv) as [-> ->]. by apply A3.
  - intros i Hb Hv. by rewrite B4, A4.
  - destruct (lm s1), (lm s2), (lm s3). unfold set_lines in *. cbn in *. congruence.
  - intros u Hu. by rewrite B6, A6.
  - by etransitivity.
  - intros y i Hi Hy. destruct (A8 y i Hi Hy) as [<- <-]. by apply B8.
Qed.

(** The pages [R] of the victim are done with: what lived there is in line [b]
    now; every other page of it is as it was. *)
Record gone (c c' : collector) (b v : Z) (R : Z -> Prop) : Prop := {
  gn_left : left_for c c' b (fun q => exists m, 0 <= m < (sp_of (shard_in c)).(pgs_per_line) /\ R m /\ q / 8 = index_of (shard_in c) v m);
  gn_kept : kept (shard_in c) (shard_in c') b v;
  gn_line : (shard_in c').(lm).(lines) v = (shard_in c).(lm).(lines) v;
  gn_page : forall m, 0 <= m < (sp_of (shard_in c)).(pgs_per_line) -> ~ R m ->
    (page_at_ppa (shard_in c') (page_of (shard_in c) v m)).(status) = (page_at_ppa (shard_in c) (page_of (shard_in c) v m)).(status) /\
    forall j, 0 <= j < GRAIN_PER_PAGE ->
      bit (shard_in c') (index_of (shard_in c) v m * GRAIN_PER_PAGE + j) = bit (shard_in c) (index_of (shard_in c) v m * GRAIN_PER_PAGE + j) /\
      (shard_in c').(oob) (index_of (shard_in c) v m) j = (shard_in c).(oob) (index_of (shard_in c) v m) j
}.

Lemma gone_refl c b v : gone c c b v (fun _ => False).
Proof. split; try done; [|apply kept_refl]. eapply left_ext; [|apply left_refl]. intros z _. cbv beta. split; [done|]. by intros (m & _ & F & _). Qed.

Lemma gone_trans c1 c2 c3 b v R1 R2 : gone c1 c2 b v R1 -> gone c2 c3 b v R2 -> gone c1 c3 b v (fun m => R1 m \/ R2 m).
Proof.
  intros [A1 A2 A3 A4] [B1 B2 B3 B4]. rewrite (kp_sp _ _ _ _ A2) in *. split.
  - eapply left_ext; [|exact (left_trans _ _ _ _ _ _ A1 B1)]. intros z _. cbv beta. split.
    + intros [(m & M1 & M2 & M3)|(m & M1 & M2 & M3)]; exists m; auto.
    + intros (m & M1 & [M2|M2] & M3); [left|right]; by exists m.
  - by eapply kept_trans.
  - congruence.
  - intros m Hm N. destruct (A4 m Hm) as [S1 G1]; [tauto|]. destruct (B4 m Hm) as [S2 G2]; [tauto|]. split; [congruence|].
    intros j Hj. destruct (G1 j Hj) as [<- <-]. by apply G2.
Qed.

Lemma gone_ext c c' b v (R R' : Z -> Prop) : (forall m, 0 <= m < (sp_of (shard_in c)).(pgs_per_line) -> R m <-> R' m) ->
  gone c c' b v R -> gone c c' b v R'.
Proof.
  intros E [A1 A2 A3 A4]. split; try done.
  - eapply left_ext; [|exact A1]. intros z _. cbv beta. split; intros (m & M1 & M2 & M3); exists m; destruct (E m M1); tauto.
  - intros m Hm N. apply A4; [done|]. intros X. by apply N, E.
Qed.

Lemma laid_gone c c' b v R m l : gone c c' b v R -> geom (sp_of (shard_in c)) -> 0 <= v < (sp_of (shard_in c)).(blks_per_pl) ->
  0 <= m < (sp_of (shard_in c)).(pgs_per_line) -> ~ R m -> laid c (index_of (shard_in c) v m) 0 l -> laid c' (index_of (shard_in c) v m) 0 l.
Proof.
  intros [A1 A2 A3 A4] G Hv Hm N L. destruct (A4 m Hm N) as [_ Gr]. apply (laid_kept c); try done; try apply A1.
  intros z j Hz Hj E. destruct (lf_table _ _ _ _ A1 z Hz) as [[_ T]|[(n & Hn & Rn & En) _]]; [done|]. exfalso. apply N.
  rewrite E, GPP_val in En. rewrite GPP_val in Hj.
  replace ((index_of (shard_in c) v m * 8 + j) / 8) with (index_of (shard_in c) v m) in En by zlia.
  by rewrite (index_inj _ v m n G Hv Hm Hn En).
Qed.

(** The next page of a flash page. *)
Lemma page_next spp b n : geom spp -> n mod 8 < 7 -> 0 <= b < spp.(blks_per_pl) -> 0 <= n < spp.(pgs_per_line) ->
  with_pg (page_at spp b n) ((page_at spp b n).(g_pg) + 1) = page_at spp b (n + 1).
Proof.
  intros G Hn Hb Hl. destruct (geom_consts _ G) as (E1 & _ & _ & _ & E4 & Hc & _ & _ & _ & _ & El & _).
  destruct (page_at_ok _ G b n Hb Hl) as [V _]. apply (valid_ppa_iff _ G) in V as (_ & _ & _ & _ & Hp).
  unfold page_at, with_pg in *. cbn [g_pg g_blk g_pl g_lun g_ch g_rsv] in *. rewrite E1, E4 in *.
  assert (Ed : (n + 1) / 8 = n / 8) by zlia. assert (Em : (n + 1) mod 8 = n mod 8 + 1) by zlia.
  rewrite Ed, Em. f_equal. rewrite u16_small by lia. lia.
Qed.

Lemma page_grains_ok s P : shard_inv s -> 0 <= P < (sp_of s).(tt_pgs) ->
  exists d, page_grains_invalid s P = Ok d /\ (d = true -> forall j, 0 <= j < 8 -> bit s (P * 8 + j) = false).
Proof.
  intros I HP. unfold page_grains_invalid. rewrite GPP_val.
  enough (L : forall n i, 0 <= i -> i + Z.of_nat n = 8 -> exists d, grains_invalid_loop n i s (P * 8) = Ok d /\
    (d = true -> forall j, i <= j < 8 -> bit s (P * 8 + j) = false)).
  { destruct (L 8%nat 0) as (d & E & Hd); [lia|lia|]. by exists d. }
  induction n as [|n IH]; intros i Hi Hn; [exists true; split; [done|lia]|]. cbn [grains_invalid_loop]. unfold bitmap_cell.
  rewrite GPP_val, cell_in by lia. cbn [mbind result_mbind result_bind].
  destruct (bit s (P * 8 + i)) eqn:Eb; [by exists false|]. destruct (IH (i + 1)) as (d & E & Hd); [lia|lia|]. exists d. split; [done|].
  intros Ed j Hj. destruct (Z.eq_dec j i) as [->|]; [done|]. apply Hd; [done|lia].
Qed.

Section victim.
Context `{AllocatorLaws} (CityHash64 : list Z -> Z) (clock : nat -> Z).
#[local] Abbreviation collecting := (collecting CityHash64 clock).

Lemma collecting_off D v b x B c s' : collecting D v b x B c -> off_line (shard_in c) s' v -> shard_inv s' ->
  timing_kept (shard_in c) s' ->
  (forall z, 0 <= z < (cache_in c).(nr_valid_tentries) -> table (cache_in c) z <> UINT_MAX -> let q := table (cache_in c) z in
    bit s' q = bit (shard_in c) q /\ s'.(oob) (q / 8) (q mod 8) = (shard_in c).(oob) (q / 8) (q mod 8)) ->
  collecting D v b x B (put_shard c s').
Proof.
  intros [R S Q C Gm (Nbv & Hv & Hz) Sh U] O I T Hg. pose proof (mv_sp _ _ _ _ _ (O USER_IO)) as Es.
  pose proof (mv_rest _ _ _ _ _ (O USER_IO)) as (_ & Eo & _).
  split; try done.
  - apply (relocated_represents CityHash64 c.(dev)); [|done]. split; try done. intros y key n Hy [(b0 & p0 & g0 & [P1 P2 P3 P4 P5]) Ow Hm K L Hh Bk].
    destruct (Hg y Hy Hm) as [Bt Ob]. split; try done.
    + exists b0, p0, g0. change (shard_of (dev (put_shard c s'))) with s'. change (cache_of (dev (put_shard c s'))) with (cache_in c).
      split; rewrite ?Es, ?Bt, ?Ob; done.
    + change (shard_of (dev (put_shard c s'))) with s'. change (cache_of (dev (put_shard c s'))) with (cache_in c). by rewrite Ob.
  - apply (sound_step clock (settled c) _ B); try done.
    + exact (so_cache _ _ _ S).
    + apply (ready_kept clock (shard_in c)); [exact (so_dev _ _ _ S)|done|done].
  - by apply (gc_at_off (shard_in c) s' v).
  - split; [done|]. change (shard_in (put_shard c s')) with s'. by rewrite Es.
  - change (shard_in (put_shard c s')) with s'. by rewrite Es, Eo.
Qed.

(** A page of the victim is marked dead. *)
Lemma page_dead_ok D v b x B c m : let p := page_of (shard_in c) v m in
  collecting D v b x B c -> 0 <= m < (sp_of (shard_in c)).(pgs_per_line) -> (page_at_ppa (shard_in c) p).(status) = PG_VALID ->
  exists s', mark_page_invalid (shard_in c) p = Ok s' /\ collecting D v b x B (put_shard c s') /\ off_line (shard_in c) s' v /\
    s'.(lm) = (shard_in c).(lm) /\ s'.(grain_bitmap) = (shard_in c).(grain_bitmap) /\ s'.(oob) = (shard_in c).(oob) /\
    forall q, (page_at_ppa s' q).(status) = if decide (same_blk p q /\ q.(g_pg) = p.(g_pg)) then PG_INVALID else (page_at_ppa (shard_in c) q).(status).
Proof.
  intros p Co Hm St. pose proof Co as [R S Q C Gm (Nbv & Hv & Hz) Sh U]. destruct (gc_at_inv _ _ _ _ C) as (I & _).
  pose proof (sh_geom _ I) as G. pose proof (page_at_ok _ G v m Hv Hm) as P.
  destruct (move_page_ok (shard_in c) p PG_VALID PG_INVALID I (page_ok_in_ssd _ _ G P) St) as (s' & E & I' & Sd & Es & Eq & Eb).
  exists s'. split; [exact E|]. pose proof Sd as Sd'. unfold same_but_device in Sd'.
  assert (O : off_line (shard_in c) s' v).
  { intros t. split; try done.
    - intros q Hq. rewrite Eq, decide_False; [done|]. intros [B' _]. apply same_blk_line in B'. by rewrite B' in Hq.
    - intros i _. by rewrite Sd'.
    - replace (lm s') with (lm (shard_in c)) by (by rewrite Sd'). by destruct (lm (shard_in c)).
    - intros u _. rewrite Sd'. by destruct u.
    - by apply (move_page_rest _ p PG_VALID PG_INVALID).
    - intros y i _ _. by rewrite Sd'. }
  split; [|split; [done|by rewrite Sd']]. apply collecting_off; try done.
  - by apply (move_page_timing _ p PG_VALID PG_INVALID).
  - intros z _ _. by rewrite Sd'.
Qed.

(** The victim's page [m] is still to be cleaned; the pairs [l] live there. *)
Definition pending (c : collector) (v m : Z) (l : list (Z * Z)) : Prop :=
  (page_at_ppa (shard_in c) (page_of (shard_in c) v m)).(status) = PG_VALID /\ laid c (index_of (shard_in c) v m) 0 l.

Lemma pending_gone c c' b v R m l : gone c c' b v R -> geom (sp_of (shard_in c)) -> 0 <= v < (sp_of (shard_in c)).(blks_per_pl) ->
  0 <= m < (sp_of (shard_in c)).(pgs_per_line) -> ~ R m -> pending c v m l -> pending c' v m l.
Proof.
  clear CityHash64 clock.
  intros Gn G Hv Hm N [St L]. unfold pending. rewrite (kp_sp _ _ _ _ (gn_kept _ _ _ _ _ Gn)).
  destruct (gn_page _ _ _ _ _ Gn m Hm N) as [-> _]. split; [done|]. by apply (laid_gone c c' b v R).
Qed.

(** A page without a live grain holds no pair. *)
Lemma dead_empty D v b x B c P i l : collecting D v b x B c -> 0 <= P < (sp_of (shard_in c)).(tt_pgs) -> laid c P i l ->
  (forall j, 0 <= j < 8 -> bit (shard_in c) (P * 8 + j) = false) -> l = [].
Proof.
  intros Co HP L F. induction L as [i Hi|i Hi W F'|l W L IH|n l W W1 Hn F' L IH|i l Hi W F' L IH|i y len l Hi Hy T W Cb F' Hl L IH]; [done|done|exact IH|exact IH|exact IH|].
  destruct (laid_slot CityHash64 clock D v b x B c P i y len Co Hy T HP Hi W) as (key & n & _ & _ & _ & Bt).
  rewrite GPP_val in *. rewrite F in Bt by done. discriminate.
Qed.

(** One page. *)
Lemma page_gone c c' b v m x : moves (shard_in c) (shard_in c') GC_IO b x -> geom (sp_of (shard_in c)) ->
  0 <= b < (sp_of (shard_in c)).(blks_per_pl) -> 0 <= v < (sp_of (shard_in c)).(blks_per_pl) -> b <> v -> 0 <= m < (sp_of (shard_in c)).(pgs_per_line) ->
  let P := index_of (shard_in c) v m in left_for c c' b (fun q => P * 8 + 0 <= q < P * 8 + 8) -> gone c c' b v (fun n => n = m).
Proof.
  clear CityHash64 clock.
  intros M G Hb Hv N Hm P L. split.
  - eapply left_ext; [|exact L]. intros z _. cbv beta. split.
    + intros Hq. exists m. split; [done|]. split; [done|]. unfold P in Hq. zlia.
    + intros (n & _ & -> & E). unfold P. zlia.
  - by apply (kept_moves _ _ _ _ x).
  - by apply (mv_lines _ _ _ _ _ M).
  - intros n Hn _. split; [by apply (mv_status _ _ _ _ _ M)|]. intros j Hj. by apply (moves_page _ _ GC_IO b x).
Qed.

Lemma dead_page_gone D v b x B c s' m : collecting D v b x B c -> 0 <= m < (sp_of (shard_in c)).(pgs_per_line) ->
  let P := index_of (shard_in c) v m in (forall j, 0 <= j < 8 -> bit (shard_in c) (P * 8 + j) = false) ->
  off_line (shard_in c) s' v -> s'.(lm) = (shard_in c).(lm) -> s'.(grain_bitmap) = (shard_in c).(grain_bitmap) -> s'.(oob) = (shard_in c).(oob) ->
  (forall q, ~ (same_blk (page_of (shard_in c) v m) q /\ q.(g_pg) = (page_of (shard_in c) v m).(g_pg)) ->
    (page_at_ppa s' q).(status) = (page_at_ppa (shard_in c) q).(status)) -> gone c (put_shard c s') b v (fun n => n = m).
Proof.
  intros Co Hm P F O El Eb Eo St. pose proof (co_lines _ _ _ _ _ _ _ _ Co) as (_ & Hv & _).
  destruct (gc_at_shard _ _ _ _ (co_at _ _ _ _ _ _ _ _ Co)) as (G & _). pose proof (pgidx_range _ G _ (page_at_ok _ G v m Hv Hm)) as HP.
  change (shard_in (put_shard c s')) with s' in *. split; change (shard_in (put_shard c s')) with s'.
  - split; try done; [|apply (mv_sp _ _ _ _ _ (O USER_IO))]. intros z Hz. left. split; [|done]. intros (n & _ & -> & E).
    apply (vacant CityHash64 clock D v b x B c P (table (cache_in c) z mod 8) z Co HP); [zlia| |done|unfold P; zlia]. left. apply F. zlia.
  - by apply kept_off.
  - by rewrite El.
  - intros n Hn N. split; [|intros j Hj; by rewrite Eb, Eo]. apply St. intros [S E]. apply N. by apply (same_page (sp_of (shard_in c)) v).
Qed.

(** The part of [clean_pages] behind the look at the bitmap. *)
Lemma clean_live_ok D v b x B c m l : collecting D v b x B c -> 0 <= m < (sp_of (shard_in c)).(pgs_per_line) -> pending c v m l ->
  let x' := copy_ends (sp_of (shard_in c)) x l in x' / 8 + 1 < (sp_of (shard_in c)).(pgs_per_line) ->
  0 <= B -> B + NAND_MAX * copy_time l < 2 ^ 62 ->
  exists c', clean_grains clock 9 c (index_of (shard_in c) v m) v 0 = Ok c' /\
    collecting D v b x' (B + NAND_MAX * copy_time l) c' /\ gone c c' b v (fun n => n = m).
Proof.
  intros Co Hm [St L] x' Hx' HB0 HB. pose proof (co_lines _ _ _ _ _ _ _ _ Co) as (Nbv & Hv & _).
  destruct (gc_at_shard _ _ _ _ (co_at _ _ _ _ _ _ _ _ Co)) as (G & Hx & Hb).
  destruct (clean_grains_ok CityHash64 clock 9 D v b x B c m (index_of (shard_in c) v m) 0 l Co Hm eq_refl) as (c' & E & Co' & Lf & M);
    [lia|lia|lia|exact L|exact Hx'|exact HB0|exact HB|].
  exists c'. split; [exact E|]. split; [exact Co'|]. exact (page_gone c c' b v m x M G Hb Hv Nbv Hm Lf).
Qed.

Lemma put_shard_same c : put_shard c (shard_in c) = c.
Proof. by destruct c as [[[]]]. Qed.

Lemma look_ok D v b x B c m i l : collecting D v b x B c -> 0 <= m < (sp_of (shard_in c)).(pgs_per_line) -> pending c v m l ->
  let p := page_of (shard_in c) v m in
  exists s', look (shard_in c) p (index_of (shard_in c) v m) i = Ok s' /\
    (s' = shard_in c \/ (i = 0 /\ l = [] /\ collecting D v b x B (put_shard c s') /\ gone c (put_shard c s') b v (fun n => n = m) /\
      sp_of s' = sp_of (shard_in c) /\ (page_at_ppa s' p).(status) = PG_INVALID)).
Proof.
  intros Co Hm [St L] p. pose proof (co_lines _ _ _ _ _ _ _ _ Co) as (Nbv & Hv & _).
  destruct (gc_at_inv _ _ _ _ (co_at _ _ _ _ _ _ _ _ Co)) as (I & Hx & (Hb & _)). pose proof (sh_geom _ I) as G.
  destruct (line_page (shard_in c) v m G Hv Hm) as (_ & Pr & _). unfold look.
  destruct (Z.eqb_spec i 0) as [Hi0|Hi0]; [|exists (shard_in c); split; [done|by left]].
  destruct (page_grains_ok _ _ I Pr) as (dead & -> & Hd). cbn [mbind result_mbind result_bind].
  destruct dead; [|exists (shard_in c); split; [done|by left]]. specialize (Hd eq_refl).
  destruct (page_dead_ok D v b x B c m Co Hm St) as (s' & E & Co' & O & El & Eb & Eo & Eq). fold p in E, Eq.
  exists s'. split; [exact E|]. right. split; [done|]. split; [exact (dead_empty D v b x B c _ 0 l Co Pr L Hd)|]. split; [exact Co'|].
  split; [|split; [apply (mv_sp _ _ _ _ _ (O USER_IO))|by rewrite Eq, decide_True]].
  apply (dead_page_gone D v b x B); try done. intros q Nq. by rewrite Eq, decide_False.
Qed.

Lemma clean_pages_S n c p v i cnt P x y s' : let c' := put_shard c s' in
  ppa2pgidx (sp_of (shard_in c)) p = Ok P -> get_pg (shard_in c).(sd) p = Ok y -> look (shard_in c) p P i = Ok s' ->
  get_pg s'.(sd) p = Ok x -> page_is PG_FREE x = false ->
  clean_pages clock (S n) c p v i cnt =
    let next := with_pg p (p.(g_pg) + 1) in
    if page_is PG_INVALID x then clean_pages clock n c' next v (i + 1) cnt else
    c1 ← clean_grains clock 9 c' P v 0; clean_pages clock n c1 next v (i + 1) (if page_is PG_VALID x then cnt + 1 else cnt).
Proof. intros c' E1 E2 E3 E4 E5. cbn [clean_pages]. rewrite E1. cbn [mbind result_mbind result_bind]. rewrite E2. cbn [mbind result_mbind result_bind].
  rewrite E3. cbn [mbind result_mbind result_bind]. rewrite E4. cbn [mbind result_mbind result_bind]. by rewrite E5. Qed.

Lemma clean_page_ok n D v b x B c m i cnt l : collecting D v b x B c -> 0 <= m < (sp_of (shard_in c)).(pgs_per_line) -> pending c v m l ->
  let x' := copy_ends (sp_of (shard_in c)) x l in x' / 8 + 1 < (sp_of (shard_in c)).(pgs_per_line) ->
  0 <= B -> B + NAND_MAX * copy_time l < 2 ^ 62 -> let p := page_of (shard_in c) v m in
  exists c' (live : bool), clean_pages clock (S n) c p v i cnt = clean_pages clock n c' (with_pg p (p.(g_pg) + 1)) v (i + 1) (if live then cnt + 1 else cnt) /\
    (live = false -> i = 0) /\ collecting D v b x' (B + NAND_MAX * copy_time l) c' /\ gone c c' b v (fun n => n = m).
Proof.
  intros Co Hm Pe x' Hx' HB0 HB p. pose proof (co_lines _ _ _ _ _ _ _ _ Co) as (_ & Hv & _).
  destruct (gc_at_inv _ _ _ _ (co_at _ _ _ _ _ _ _ _ Co)) as (I & _). pose proof (sh_geom _ I) as G.
  destruct (line_page (shard_in c) v m G Hv Hm) as (Pp & _ & _ & Ei). pose proof (page_ok_in_ssd _ _ G Pp) as Hin.
  destruct (look_ok D v b x B c m i l Co Hm Pe) as (s' & E & X).
  assert (St : exists st, (page_at_ppa s' p).(status) = st /\ st <> PG_FREE /\ sp_of s' = sp_of (shard_in c) /\ tree_ok s'.(sd) /\
    match st with
    | PG_VALID => s' = shard_in c
    | _ => i = 0 /\ l = [] /\ collecting D v b x B (put_shard c s') /\ gone c (put_shard c s') b v (fun n => n = m)
    end).
  { destruct X as [->|(Hi & El & Co' & Gn & Es & St)]; [exists PG_VALID; split_and!; try done; [apply Pe|apply I]|].
    exists PG_INVALID. destruct (gc_at_inv _ _ _ _ (co_at _ _ _ _ _ _ _ _ Co')) as (I' & _). split_and!; try done. apply I'. }
  destruct St as (st & St & Nf & Es & T & Y). fold p in Ei, Hin, E. unfold page_at_ppa in St.
  assert (Hin' : in_ssd (sd s') p) by (unfold in_ssd; fold (sp_of s'); rewrite Es; exact Hin).
  pose proof (clean_pages_S n c p v i cnt _ _ _ s' Ei (get_pg_ok _ _ (sh_tree _ I) Hin) E (get_pg_ok _ _ T Hin')) as Eq.
  unfold page_is in Eq. rewrite St in Eq. specialize (Eq (bool_decide_false _ Nf)). cbv zeta in Eq. rewrite Eq. clear Eq. destruct st; [done| |].
  - destruct Y as (Hi & El & Co' & Gn). rewrite (bool_decide_true (PG_INVALID = PG_INVALID)) by done.
    exists (put_shard c s'), false. split; [done|]. split; [by intros _|]. unfold x'. rewrite El. cbn [copy_ends copy_time].
    rewrite Z.mul_0_r, Z.add_0_r. by split.
  - subst s'. rewrite put_shard_same, (bool_decide_false (PG_VALID = PG_INVALID)), (bool_decide_true (PG_VALID = PG_VALID)) by done.
    destruct (clean_live_ok D v b x B c m l Co Hm Pe Hx' HB0 HB) as (c' & E' & Co' & Gn). fold p in E'. rewrite E'. cbn [mbind result_mbind result_bind].
    exists c', true. by split.
Qed.

(** The pairs of the pages [ms]. *)
Definition pairs_of (live : Z -> list (Z * Z)) (ms : list Z) : list (Z * Z) := flat_map live ms.

Lemma pairs_sized c v live ms : (forall m, m ∈ ms -> pending c v m (live m)) -> sized (pairs_of live ms).
Proof.
  clear CityHash64 clock. induction ms as [|m ms IH]; intros Hp; [constructor|]. apply Forall_app. split.
  - destruct (Hp m) as [_ L]; [constructor|]. by apply laid_sized in L.
  - apply IH. intros m' Hm'. apply Hp. by constructor.
Qed.

Lemma gone_geom D v b x B c c' R : collecting D v b x B c -> gone c c' b v R ->
  geom (sp_of (shard_in c)) /\ 0 <= x /\ 0 <= v < (sp_of (shard_in c)).(blks_per_pl) /\ sp_of (shard_in c') = sp_of (shard_in c).
Proof.
  intros Co Gn. destruct (gc_at_shard _ _ _ _ (co_at _ _ _ _ _ _ _ _ Co)) as (G & Hx & _).
  split; [done|]. split; [done|]. split; [apply (co_lines _ _ _ _ _ _ _ _ Co)|]. apply (kp_sp _ _ _ _ (gn_kept _ _ _ _ _ Gn)).
Qed.

Lemma clean_pages_ok n D v b x B c K p i cnt live :
  collecting D v b x B c -> 0 <= K -> 8 * K + 8 <= (sp_of (shard_in c)).(pgs_per_line) -> 0 <= i -> i + Z.of_nat n = 8 ->
  ((0 < n)%nat -> p = page_of (shard_in c) v (8 * K + i)) ->
  (forall m, 8 * K + i <= m < 8 * K + 8 -> pending c v m (live m)) ->
  let l := pairs_of live (seqZ (8 * K + i) (Z.of_nat n)) in let x' := copy_ends (sp_of (shard_in c)) x l in
  x' / 8 + 1 < (sp_of (shard_in c)).(pgs_per_line) -> 0 <= B -> B + NAND_MAX * copy_time l < 2 ^ 62 ->
  exists cnt' c', clean_pages clock n c p v i cnt = Ok (cnt', c') /\ cnt + (Z.of_nat n - 1) <= cnt' /\ (0 < i -> cnt + Z.of_nat n <= cnt') /\
    collecting D v b x' (B + NAND_MAX * copy_time l) c' /\ gone c c' b v (fun m => 8 * K + i <= m < 8 * K + 8).
Proof.
  revert c x B p i cnt. induction n as [|n IH]; intros c x B p i cnt Co HK Hl Hi Hn Hp Pe l x' Hx' HB0 HB.
  { exists cnt, c. split; [done|]. split; [lia|]. split; [lia|]. unfold x'. cbn. rewrite Z.mul_0_r, Z.add_0_r. split; [done|].
    eapply gone_ext; [|apply gone_refl]. intros m _. cbv beta. lia. }
  rewrite (Hp ltac:(lia)). set (m := 8 * K + i) in *. assert (Hm : 0 <= m < pgs_per_line (sp_of (shard_in c))) by (unfold m; lia).
  assert (El : l = live m ++ pairs_of live (seqZ (m + 1) (Z.of_nat n))).
  { unfold l. rewrite seqZ_cons by lia. unfold pairs_of. cbn [flat_map]. do 3 f_equal; lia. }
  set (l2 := pairs_of live (seqZ (m + 1) (Z.of_nat n))) in *. unfold x' in *. clear x'. rewrite El, copy_time_app in HB. rewrite El, copy_ends_app in Hx'. rewrite El, copy_ends_app, copy_time_app. clear l El.
  destruct (gc_at_shard _ _ _ _ (co_at _ _ _ _ _ _ _ _ Co)) as (G & Hx & _).
  pose proof (Pe m ltac:(unfold m; lia)) as Pm. pose proof (laid_sized _ _ _ _ (proj2 Pm)) as Sz1.
  assert (Sz2 : sized l2). { apply (pairs_sized c v). intros m' Hm'. apply elem_of_seqZ in Hm'. apply Pe. unfold m in *. lia. }
  pose proof (copy_ends_ge _ x _ G Hx Sz1) as Ge1. set (x1 := copy_ends (sp_of (shard_in c)) x (live m)) in *.
  pose proof (copy_ends_ge _ x1 _ G ltac:(lia) Sz2) as Ge2. pose proof (copy_time_pos _ Sz1). pose proof (copy_time_pos _ Sz2).
  destruct (clean_page_ok n D v b x B c m i cnt (live m) Co Hm Pm) as (c1 & lv & E & Hlv & Co1 & Gn1); [fold x1; zlia|done|unfold NAND_MAX in *; lia|].
  fold x1 in Co1. rewrite E. destruct (gone_geom _ _ _ _ _ _ _ _ Co Gn1) as (_ & _ & Hv & Es1).
  destruct (IH c1 x1 (B + NAND_MAX * copy_time (live m)) (with_pg (page_of (shard_in c) v m) ((page_of (shard_in c) v m).(g_pg) + 1)) (i + 1)
    (if lv then cnt + 1 else cnt) Co1) as (cnt' & c' & E' & C1 & C2 & Co2 & Gn2); rewrite ?Es1; [exact HK|exact Hl|lia|lia| | | |unfold NAND_MAX in *; lia| |].
  { intros Hn0. rewrite page_next; [|done|unfold m; zlia|done|done]. f_equal. unfold m. lia. }
  { intros m' Hm'. apply (pending_gone c c1 b v (fun k => k = m)); try done; [lia|unfold m; lia|]. apply Pe. unfold m. lia. }
  { replace (8 * K + (i + 1)) with (m + 1) by (unfold m; lia). done. }
  { replace (8 * K + (i + 1)) with (m + 1) by (unfold m; lia). fold l2. unfold NAND_MAX in *. lia. }
  replace (8 * K + (i + 1)) with (m + 1) in * by (unfold m; lia). fold l2 in Co2. rewrite Es1 in Co2.
  exists cnt', c'. split; [exact E'|]. split; [destruct lv; [lia|rewrite (Hlv eq_refl) in *; lia]|].
  split; [intros Hi0; destruct lv; [lia|rewrite (Hlv eq_refl) in Hi0; lia]|].
  split; [by replace (B + NAND_MAX * (copy_time (live m) + copy_time l2)) with (B + NAND_MAX * copy_time (live m) + NAND_MAX * copy_time l2) by lia|].
  eapply gone_ext; [|exact (gone_trans _ _ _ _ _ _ _ Gn1 Gn2)]. intros k _. cbv beta. unfold m. lia.
Qed.

End victim.
