(* ===== verification/Sweep.v ===== *)
(** * A collection from the victim to the free list ([demand_ftl.c])

    One flash page after the other is cleaned, a block is erased with its last
    flash page, the page the collector writes to is closed and the victim goes
    to the free list.  The map the device holds stays what it was. *)

From stdpp Require Import gmap.
From S2P Require Import Prelude Fifo Lru Append WorkQueue Queues Prp.
From S2P Require Import ChModel Ssd Geometry PQueue Line Lines Pages Place Cache Heap Pairs Kv Directory Opening Gc Relocate Collect Cleaning Victim.

(** ** The shadow list goes to the FIFO *)

(** Two caches with the same sections, one by one. *)
Record alike (c c' : cache) : Prop := {
  al_ht : forall i, c'.(ht) i = c.(ht) i;
  al_nr : c'.(nr_valid_tpages) = c.(nr_valid_tpages) /\ c'.(nr_valid_tentries) = c.(nr_valid_tentries) /\
    c'.(max_cached_tentries) = c.(max_cached_tentries);
  al_fifo : c'.(fifo) = c.(fifo) /\ c'.(nr_cached_tentries) = c.(nr_cached_tentries)
}.

Lemma cache_inv_alike c c' v F V : alike c c' -> cache_inv c v F V -> cache_inv c' v F V.
Proof.
  intros [E (N1 & N2 & N3) (F1 & F2)] [A1 A2 A3 A4 A5 A6 A7 A8 A9 A10 A11 A12 A13 A14].
  split; rewrite ?N1, ?N3, ?F1, ?F2; try done; intros i; rewrite E; auto.
Qed.

Lemma alike_table c c' x : alike c c' -> table c' x = table c x /\ pair_at c' x = pair_at c x.
Proof. intros A. unfold table, pair_at. by rewrite (al_ht _ _ A). Qed.

Lemma alike_enqueue c c' i : alike c c' -> alike (enqueued c [i]) (enqueued c' [i]).
Proof. intros [E (N1 & N2 & N3) (F1 & F2)]. split; [exact E|done|]. cbn. by rewrite F1, F2. Qed.

Lemma alike_enqueued c c' l : alike c c' -> alike (enqueued c l) (enqueued c' l).
Proof. revert c c'. induction l as [|i l IH]; intros c c' A; [done|]. cbn [enqueued]. apply IH. apply (alike_enqueue c c' i A). Qed.

#[export] Instance alike_preorder : PreOrder alike.
Proof.
  split; [done|]. intros a b c [A1 (A2 & A3 & A4) (A5 & A6)] [B1 (B2 & B3 & B4) (B5 & B6)].
  split; [intros i; by rewrite B1|split_and!; congruence|split; congruence].
Qed.

Definition unlocked (c : cache) : Prop := forall i, 0 <= i < c.(nr_valid_tpages) -> (c.(ht) i).(outgoing) = 0.

Lemma unshadow_ok l c : unlocked c -> c.(nr_valid_tpages) <= 1048576 ->
  (forall j, j ∈ l -> 0 <= j < c.(nr_valid_tpages)) ->
  (forall j, j ∈ l -> (c.(ht) j).(idx) = j /\ (c.(ht) j).(len_on_disk) = GRAIN_PER_PAGE) ->
  exists c', unshadow l c = Ok c' /\ alike (enqueued c l) c' /\ unlocked c'.
Proof.
  revert c. induction l as [|j l IH]; intros c U Hn Hl Hs; [by exists c|]. cbn [unshadow enqueued].
  assert (Hj : 0 <= j < c.(nr_valid_tpages)) by (apply Hl; constructor). destruct (Hs j) as [Ej Lj]; [constructor|].
  assert (Ei : IDX (u32 (j * EPP)) = j) by (unfold IDX; rewrite EPP_val, u32_small by lia; apply Z.div_mul; lia).
  unfold cache_get_ht. rewrite Ei. unfold lock_section. rewrite section_ok by done. cbn [mbind result_mbind result_bind].
  rewrite (U j Hj). cbn [Z.eqb mbind result_mbind result_bind]. set (c1 := put c j _). rewrite section_ok by done.
  cbn [mbind result_mbind result_bind]. unfold unlock_section.
  assert (H1 : ht c1 j = set_outgoing (ht c j) 1) by (cbn; by rewrite upd_eq). rewrite H1. cbn [set_outgoing idx len_on_disk].
  rewrite Ej, Lj, section_ok by done. cbn [mbind result_mbind result_bind]. set (c2 := put _ j _).
  set (e := set_cached_cnt (set_fifo c _) _).
  assert (A : alike e c2).
  { split; try done. intros i. unfold c2. cbn. rewrite !upd_eq, !upd_case. destruct (Z.eqb_spec i j) as [->|]; [|done].
    pose proof (U j Hj) as Uj. destruct (ht c j). cbn in *. by rewrite Uj. }
  destruct (IH c2) as (c' & E & A' & U').
  - intros i Hi. rewrite (al_ht _ _ A). apply U. exact Hi.
  - exact Hn.
  - intros i Hi. apply Hl. by constructor.
  - intros i Hi. rewrite (al_ht _ _ A). apply Hs. by constructor.
  - exists c'. split; [exact E|]. split; [|done]. etransitivity; [|exact A']. by apply alike_enqueued.
Qed.

(** ** The order of a collection

    Flash pages are numbered as the writing order passes them; the collector
    takes the channels outside and the LUNs inside. *)

Section order.
Context (spp : ssdparams) (G : geom spp).
Definition flash_of (t : Z) : Z := ((t / 8) / spp.(nchs) * 8 + t mod 8) * spp.(nchs) + (t / 8) mod spp.(nchs).
Definition turn_of (k : Z) : Z := ((k / spp.(nchs)) / 8 * spp.(nchs) + k mod spp.(nchs)) * 8 + (k / spp.(nchs)) mod 8.
(** The turn in which the block of flash page [k] is erased. *)
Definition last_turn (k : Z) : Z := (3 * spp.(nchs) + k mod spp.(nchs)) * 8 + (k / spp.(nchs)) mod 8.

Lemma digits f ch lun : 0 <= ch < spp.(nchs) -> 0 <= lun < 8 ->
  let t := (f * spp.(nchs) + ch) * 8 + lun in let k := (f * 8 + lun) * spp.(nchs) + ch in
  flash_of t = k /\ turn_of k = t /\ last_turn k = (3 * spp.(nchs) + ch) * 8 + lun.
Proof.
  intros Hc Hl t k. unfold flash_of, turn_of, last_turn. set (n := nchs spp) in *.
  assert (E1 : t / 8 = f * n + ch) by (unfold t; zlia). assert (E2 : t mod 8 = lun) by (unfold t; zlia).
  assert (E3 : (f * n + ch) / n = f) by (symmetry; apply Z.div_unique with ch; lia).
  assert (E4 : (f * n + ch) mod n = ch) by (symmetry; apply Z.mod_unique with f; lia).
  assert (E5 : k / n = f * 8 + lun) by (symmetry; apply Z.div_unique with ch; unfold k; lia).
  assert (E6 : k mod n = ch) by (symmetry; apply Z.mod_unique with (f * 8 + lun); unfold k; lia).
  rewrite E1, E2, E3, E4, E5, E6. assert (E7 : (f * 8 + lun) / 8 = f) by zlia. assert (E8 : (f * 8 + lun) mod 8 = lun) by zlia.
  rewrite E7, E8. split; [unfold k; lia|]. split; unfold t; lia.
Qed.

(** The digits of a flash page. *)
Lemma flash_digits k : 0 <= k < 32 * spp.(nchs) ->
  exists f ch lun, 0 <= f < 4 /\ 0 <= ch < spp.(nchs) /\ 0 <= lun < 8 /\ k = (f * 8 + lun) * spp.(nchs) + ch.
Proof.
  destruct (geom_consts _ G) as (_ & _ & _ & _ & _ & Hn & _). intros Hk. set (n := nchs spp) in *.
  pose proof (Z.div_mod k n ltac:(lia)) as E. pose proof (Z.mod_pos_bound k n ltac:(lia)).
  assert (0 <= k / n < 32) by (split; [apply Z.div_pos; lia|apply Z.div_lt_upper_bound; lia]).
  exists (k / n / 8), (k mod n), (k / n mod 8). split; [zlia|]. split; [done|]. split; [zlia|].
  replace (k / n / 8 * 8 + k / n mod 8) with (k / n) by zlia. lia.
Qed.

Lemma turn_range k : 0 <= k < 32 * spp.(nchs) -> 0 <= turn_of k <= last_turn k /\ last_turn k < 32 * spp.(nchs) /\ flash_of (turn_of k) = k.
Proof.
  intros Hk. destruct (flash_digits k Hk) as (f & ch & lun & Hf & Hc & Hl & ->).
  destruct (digits f ch lun Hc Hl) as (E1 & E2 & E3). rewrite E2, E3, E1. split; [nia|]. split; [nia|done].
Qed.

(** The page the body of the loops starts from. *)
Lemma gc_page v f ch lun : 0 <= v < spp.(blks_per_pl) -> 0 <= f < 4 -> 0 <= ch < spp.(nchs) -> 0 <= lun < 8 ->
  mk_ppa (u16 (f * spp.(pgs_per_flashpg))) (u16 v) 0 (u8 lun) (u8 ch) 0 = page_at spp v (8 * ((f * 8 + lun) * spp.(nchs) + ch)).
Proof.
  destruct (geom_consts _ G) as (E1 & E2 & _ & _ & E4 & Hn & Hb & _). intros Hv Hf Hc Hl.
  unfold page_at. rewrite E1, E2, E4. set (n := nchs spp) in *. set (k := (f * 8 + lun) * n + ch).
  assert (X1 : (8 * k) / 8 = k) by zlia. assert (X2 : (8 * k) mod 8 = 0) by zlia.
  assert (X3 : k / n = f * 8 + lun) by (symmetry; apply Z.div_unique with ch; unfold k; lia).
  assert (X4 : k mod n = ch) by (symmetry; apply Z.mod_unique with (f * 8 + lun); unfold k; lia).
  rewrite X1, X2, X3, X4. assert (E7 : (f * 8 + lun) / 8 = f) by zlia. assert (E8 : (f * 8 + lun) mod 8 = lun) by zlia. rewrite E7, E8.
  rewrite !u16_small, !u8_small by lia. f_equal. lia.
Qed.

(** The block of a page. *)
Lemma block_turn v f ch lun m : 0 <= v < spp.(blks_per_pl) -> 0 <= f < 4 -> 0 <= ch < spp.(nchs) -> 0 <= lun < 8 -> 0 <= m < spp.(pgs_per_line) ->
  same_blk (page_at spp v (8 * ((f * 8 + lun) * spp.(nchs) + ch))) (page_at spp v m) <-> last_turn (m / 8) = (3 * spp.(nchs) + ch) * 8 + lun.
Proof.
  intros Hv Hf Hc Hl Hm. rewrite <- (gc_page v f ch lun Hv Hf Hc Hl). destruct (geom_consts _ G) as (E1 & E2 & _ & _ & E4 & Hn & Hb & _ & _ & _ & El & _).
  destruct (flash_digits (m / 8)) as (f' & ch' & lun' & Hf' & Hc' & Hl' & Em); [rewrite El in Hm; zlia|].
  rewrite Em. destruct (digits f' ch' lun' Hc' Hl') as (_ & _ & ->). unfold same_blk, page_at. cbn [g_ch g_lun g_pl g_blk].
  rewrite E1, E4, Em. set (n := nchs spp) in *. set (k := (f' * 8 + lun') * n + ch').
  assert (X3 : k / n = f' * 8 + lun') by (symmetry; apply Z.div_unique with ch'; unfold k; lia).
  assert (X4 : k mod n = ch') by (symmetry; apply Z.mod_unique with (f' * 8 + lun'); unfold k; lia).
  rewrite X3, X4, !u8_small, u16_small by lia. assert (E8 : (f' * 8 + lun') mod 8 = lun') by zlia. rewrite E8. split; [lia|].
  intros E. assert (ch' = ch /\ lun' = lun) as [-> ->] by lia. done.
Qed.

(** The pairs of the first [t] turns. *)
Definition sweep_pairs (live : Z -> list (Z * Z)) (t : Z) : list (Z * Z) :=
  flat_map (fun j => pairs_of live (seqZ (8 * flash_of j) 8)) (seqZ 0 t).

Lemma sweep_next live t : 0 <= t -> sweep_pairs live (t + 1) = sweep_pairs live t ++ pairs_of live (seqZ (8 * flash_of t) 8).
Proof.
  intros Ht. unfold sweep_pairs. rewrite (seqZ_app 0 t 1) by lia. rewrite flat_map_app. f_equal.
  rewrite Z.add_0_l, seqZ_cons, seqZ_nil by lia. cbn [flat_map]. by rewrite app_nil_r.
Qed.

Lemma sweep_more live t t' : 0 <= t <= t' -> exists l, sweep_pairs live t' = sweep_pairs live t ++ l.
Proof.
  intros Ht. unfold sweep_pairs. replace t' with (t + (t' - t)) by lia. rewrite (seqZ_app 0 t) by lia. rewrite flat_map_app. by eexists.
Qed.
End order.

Section sweep.
Context `{AllocatorLaws} (CityHash64 : list Z -> Z) (clock : nat -> Z).
#[local] Abbreviation collecting := (collecting CityHash64 clock).

(** The sections of the table change only in who waits where. *)
Lemma gone_cache c x b v : (forall z, table x z = table (cache_in c) z /\ pair_at x z = pair_at (cache_in c) z) ->
  x.(nr_valid_tentries) = (cache_in c).(nr_valid_tentries) -> gone c (set_shadow (put_cache c x) []) b v (fun _ => False).
Proof.
  clear CityHash64 clock. intros T En. split; [|apply kept_refl|reflexivity|by split].
  split; [|intros z _; apply T|exact En|reflexivity|by split_and!].
  intros z _. left. split; [|apply T]. by intros (m & _ & F & _).
Qed.

Lemma unshadow_collecting D v b x B c : collecting D v b x B c ->
  exists u, unshadow c.(shadow) (cache_in c) = Ok u /\ let c' := set_shadow (put_cache c u) [] in
    collecting D v b x B c' /\ gone c c' b v (fun _ => False).
Proof.
  intros [R S Q C Gm Ln (N & Hlim & Hsh) U]. destruct (enqueued_same (cache_in c) c.(shadow)) as (Eh & E1 & E2 & E3).
  destruct (so_cache _ _ _ S) as (F & V & I). change (cache_of (settled c)) with (enqueued (cache_in c) (shadow c)) in I.
  destruct (unshadow_ok c.(shadow) (cache_in c) Q) as (u & E & A & Un).
  { pose proof (ci_pages _ _ _ _ I) as X. rewrite E1 in X. lia. }
  { intros j Hj. by apply Hsh. }
  { intros j Hj. destruct (Hsh j Hj) as [Hr Hh]. pose proof (ci_section _ _ _ _ j I) as X. rewrite E1, Eh in X. destruct (X Hr) as [X1 X2 X3 X4 _ _ _].
    split; [done|]. apply X4, X3, X2. exact Hh. }
  assert (T : forall z, table u z = table (cache_in c) z /\ pair_at u z = pair_at (cache_in c) z).
  { intros z. destruct (alike_table _ _ z A) as [-> ->]. apply (settled_table c z). }
  destruct (al_nr _ _ A) as (N1 & N2 & N3). rewrite E1 in N1. rewrite E2 in N2.
  exists u. split; [exact E|]. intros c'. split; [|apply gone_cache; [exact T|exact N2]]. split; [| |exact Un|exact C|exact Gm|exact Ln| |exact U].
  - apply (relocated_represents CityHash64 c.(dev)); [|exact R]. split; change (cache_of (dev c')) with u; change (cache_of (dev c)) with (cache_in c); [| |exact N2|reflexivity|reflexivity|].
    + intros y _. by rewrite (proj1 (T y)).
    + intros y _. apply T.
    + intros y key n _ [A1 A2 A3 A4 A5 A6 A7]. destruct (T y) as [T1 T2]. change (cache_of (dev c)) with (cache_in c) in *.
      by split; change (cache_of (dev c')) with u; rewrite ?T1, ?T2.
  - apply (sound_step clock (settled c) _ B); try done.
    + change (nr_valid_tpages u = nr_valid_tpages (enqueued (cache_in c) (shadow c))). congruence.
    + change (nr_valid_tentries u = nr_valid_tentries (enqueued (cache_in c) (shadow c))). congruence.
    + intros i. change (t_ppa (ht u i) = t_ppa (ht (enqueued (cache_in c) (shadow c)) i)). by rewrite (al_ht _ _ A).
    + intros i. change (is_Some (mem (ht (enqueued (cache_in c) (shadow c)) i)) -> is_Some (mem (ht u i))). by rewrite (al_ht _ _ A).
    + intros z _. change (table u z <> UINT_MAX -> table (enqueued (cache_in c) (shadow c)) z <> UINT_MAX). by rewrite (proj1 (alike_table _ _ z A)).
    + exists F, V. apply (cache_inv_alike _ u _ _ _ A I).
    + exact (so_dev _ _ _ S).
  - split; [constructor|]. split; [change (nr_valid_tpages u <= GRAIN_PER_PAGE * FLASH_PAGE_SIZE); by rewrite N1|].
    intros i X. by apply elem_of_nil in X.
Qed.

Lemma flashpg_ok D v b x B c K live : collecting D v b x B c -> 0 <= K -> 8 * K + 8 <= (sp_of (shard_in c)).(pgs_per_line) ->
  (forall m, 8 * K <= m < 8 * K + 8 -> pending c v m (live m)) ->
  let l := pairs_of live (seqZ (8 * K) 8) in let x' := copy_ends (sp_of (shard_in c)) x l in
  x' / 8 + 1 < (sp_of (shard_in c)).(pgs_per_line) -> 0 <= B -> B + NAND_MAX * copy_time l < 2 ^ 62 ->
  exists c', clean_one_flashpg clock c (page_of (shard_in c) v (8 * K)) = Ok c' /\
    collecting D v b x' (B + NAND_MAX * copy_time l) c' /\ gone c c' b v (fun m => 8 * K <= m < 8 * K + 8) /\ c'.(shadow) = [].
Proof.
  intros Co HK Hl Pe l x' Hx' HB0 HB. pose proof (co_lines _ _ _ _ _ _ _ _ Co) as (_ & Hv & _).
  destruct (gc_at_inv _ _ _ _ (co_at _ _ _ _ _ _ _ _ Co)) as (I & _). pose proof (sh_geom _ I) as G.
  destruct (geom_consts _ G) as (_ & E2 & _). unfold clean_one_flashpg, get_line.
  change (g_blk (page_of (shard_in c) v (8 * K))) with v. rewrite (line_at_ok _ _ _ (sh_lines _ I) Hv).
  cbn [mbind result_mbind result_bind]. destruct (li_table _ _ (sh_lines _ I) v Hv) as [-> _]. rewrite E2. change (Z.to_nat 8) with 8%nat.
  destruct (clean_pages_ok CityHash64 clock 8 D v b x B c K (page_of (shard_in c) v (8 * K)) 0 0 live Co HK Hl) as (cnt & c1 & E & Hc & _ & Co1 & Gn);
    rewrite ?Z.add_0_r; [lia|lia|done|exact Pe|exact Hx'|exact HB0|exact HB|].
  rewrite Z.add_0_r in Co1, Gn. rewrite E. cbn [mbind result_mbind result_bind]. rewrite (proj2 (Z.leb_gt cnt 0)) by lia.
  destruct (unshadow_collecting D v b _ _ c1 Co1) as (u & E' & Co' & Gn'). rewrite E'. cbn [mbind result_mbind result_bind].
  eexists. split; [done|]. split; [exact Co'|]. split; [|done]. eapply gone_ext; [|exact (gone_trans _ _ _ _ _ _ _ Gn Gn')]. intros m _. cbv beta. tauto.
Qed.

(** ** Erasing a block *)

Lemma collecting_flash D v b x B B' c s' : collecting D v b x B c -> same_flash (shard_in c) s' -> nand_ready clock s'.(sd) B' ->
  collecting D v b x B' (put_shard c s').
Proof.
  intros [R S Q C Gm (Nbv & Hv & Hz) Sh U] F Rd. pose proof F as (Fd & Es & _). unfold same_but_device in Fd.
  assert (Eo : s'.(oob) = (shard_in c).(oob) /\ s'.(grain_bitmap) = (shard_in c).(grain_bitmap) /\ s'.(Lines.offset) = (shard_in c).(Lines.offset)) by (by rewrite Fd).
  destruct Eo as (Eo & Eb & Ef). split; [| |exact Q| |exact Gm| |exact Sh|].
  - apply (relocated_represents CityHash64 c.(dev)); [|done]. split; try done. intros y key n _ [(b0 & p0 & g0 & [P1 P2 P3 P4 P5]) Ow Hm K L Hh Bk].
    change (cache_of (dev (put_shard c s'))) with (cache_of (dev c)). split; try done.
    + exists b0, p0, g0. change (shard_of (dev (put_shard c s'))) with s'. change (cache_of (dev (put_shard c s'))) with (cache_in c).
      split; rewrite ?Es, ?Eb, ?Eo; done.
    + change (shard_of (dev (put_shard c s'))) with s'. change (cache_of (dev (put_shard c s'))) with (cache_in c). by rewrite Eo.
  - apply (sound_step clock (settled c) _ B); try done. exact (so_cache _ _ _ S).
  - apply (gc_at_timing (shard_in c)); [done|apply (nr_tree _ _ _ Rd)|done].
  - split; [done|]. change (shard_in (put_shard c s')) with s'. by rewrite Es.
  - change (shard_in (put_shard c s')) with s'. by rewrite Es, Ef.
Qed.

Lemma gone_flash c s' b v : same_flash (shard_in c) s' -> gone c (put_shard c s') b v (fun _ => False).
Proof.
  clear CityHash64 clock.
  intros F. pose proof F as (Fd & Es & _). unfold same_but_device in Fd.
  split; change (shard_in (put_shard c s')) with s'.
  - split; [|done|done|exact Es|by split_and!]. intros z _. left. split; [|done]. by intros (m & _ & X & _).
  - apply (kept_moves _ _ _ _ 0). by apply moves_flash.
  - by rewrite Fd.
  - intros m _ _. unfold page_at_ppa. rewrite (same_flash_blk _ _ _ F), Fd. done.
Qed.

(** The pages of the block of [p] are free and empty. *)
Definition erased (s : demand_shard) (v m : Z) : Prop :=
  (page_at_ppa s (page_of s v m)).(status) = PG_FREE /\
  forall j, 0 <= j < GRAIN_PER_PAGE -> bit s (index_of s v m * GRAIN_PER_PAGE + j) = false /\ s.(oob) (index_of s v m) j = 2.

Lemma erase_ok D v b x B c p : collecting D v b x B c -> page_ok (sp_of (shard_in c)) p -> p.(g_blk) = v ->
  (forall q, same_blk p q -> 0 <= q.(g_pg) < 32 -> (page_at_ppa (shard_in c) q).(nsecs) = (sp_of (shard_in c)).(secs_per_pg)) ->
  (forall m z, 0 <= m < (sp_of (shard_in c)).(pgs_per_line) -> same_blk p (page_of (shard_in c) v m) -> 0 <= z < (cache_in c).(nr_valid_tentries) ->
    table (cache_in c) z / 8 <> index_of (shard_in c) v m) ->
  exists s', mark_block_free (shard_in c) p = Ok s' /\ collecting D v b x B (put_shard c s') /\ sp_of s' = sp_of (shard_in c) /\
    gone c (put_shard c s') b v (fun m => same_blk p (page_of (shard_in c) v m)) /\
    forall m, 0 <= m < (sp_of (shard_in c)).(pgs_per_line) -> same_blk p (page_of (shard_in c) v m) -> erased s' v m.
Proof.
  intros Co P Ep Hs Ht. pose proof (co_lines _ _ _ _ _ _ _ _ Co) as (Nbv & Hv & _). pose proof (co_rep _ _ _ _ _ _ _ _ Co) as R.
  destruct (gc_at_inv _ _ _ _ (co_at _ _ _ _ _ _ _ _ Co)) as (I & _). pose proof (sh_geom _ I) as G.
  destruct (mark_block_free_ok (shard_in c) p I P Hs) as (s' & E & I' & El & Est & Ein & Eout & _).
  destruct (erase_off _ _ _ I P E) as [O T]. rewrite Ep in O. pose proof (mv_sp _ _ _ _ _ (O USER_IO)) as Es.
  assert (Pg : forall m, 0 <= m < pgs_per_line (sp_of (shard_in c)) -> page_ok (sp_of (shard_in c)) (page_of (shard_in c) v m)) by (intros m; by apply page_at_ok).
  exists s'. split; [exact E|]. split; [|split; [exact Es|split]].
  - apply collecting_off; try done. intros z Hz Hm q. destruct (rp_slots _ _ _ R z Hz Hm) as (key & n & k & Sl & _).
    pose proof (sl_grain _ _ _ _ Sl) as (b0 & p0 & g0 & P0). destruct (placed_range _ _ _ _ _ _ G P0) as (_ & E1 & E2 & Hp0 & _).
    change (table (cache_of (dev c)) z) with q in *. change (shard_of (dev c)) with (shard_in c) in *. pose proof (pl_line _ _ _ _ _ _ P0) as Hb0.
    destruct (Eout (page_of (shard_in c) b0 p0) (page_at_ok _ G b0 p0 Hb0 Hp0)) with (k := g0) as [X1 X2].
    + intros S. pose proof (same_blk_line _ _ S) as Eb. change (b0 = g_blk p) in Eb. rewrite Ep in Eb. subst b0.
      exact (Ht p0 z Hp0 S Hz E1).
    + rewrite GPP_val. apply (pl_page _ _ _ _ _ _ P0).
    + rewrite E1, E2, X2. split; [|done]. rewrite (pl_at _ _ _ _ _ _ P0). rewrite GPP_val in X1. exact X1.
  - split; change (shard_in (put_shard c s')) with s'.
    + split; [|done|done|exact Es|by split_and!]. intros z Hz. left. split; [|done]. intros (m & Hm & S & X). exact (Ht m z Hm S Hz X).
    + by apply kept_off.
    + by rewrite El.
    + intros m Hm N. rewrite (Est _ (Pg m Hm)), decide_False by done. split; [done|]. intros j Hj. by apply Eout; [apply Pg| |].
  - intros m Hm S. unfold erased. rewrite Es, (Est _ (Pg m Hm)), decide_True by done. split; [done|]. intros j Hj. by apply Ein; [apply Pg| |].
Qed.

End sweep.
