(* ===== verification/Rounds.v ===== *)
(** * The rounds of a collection ([demand_ftl.c])

    [do_gc] visits the flash pages of the victim block by block.  After the
    first [N] of them their pairs have moved on, and the blocks whose last flash
    page is among them are erased. *)

From stdpp Require Import gmap.
From S2P Require Import Prelude Fifo Lru Append WorkQueue Queues Prp.
From S2P Require Import ChModel Ssd Geometry PQueue Line Lines Pages Place Cache Heap Pairs Kv Directory Opening Gc Relocate Collect Cleaning Victim Sweep.

(** ** Counting loops *)

(** A property of the state that each round carries to the next one holds at
    the end, and no round fails. *)
Lemma count_up_ind {A} (J : Z -> A -> Prop) (f : Z -> A -> result A) lo hi :
  (forall i a, lo <= i < hi -> J i a -> exists a', f i a = Ok a' /\ J (i + 1) a') ->
  lo <= hi -> forall a, J lo a -> exists a', count_up (Z.to_nat (hi - lo)) lo f a = Ok a' /\ J hi a'.
Proof.
  intros St Hle. remember (Z.to_nat (hi - lo)) as n eqn:En. revert lo Hle En St.
  induction n as [|n IH]; intros lo Hle En St a Ja; cbn [count_up].
  - assert (lo = hi) as -> by lia. by exists a.
  - destruct (St lo a) as (a1 & -> & J1); [lia|done|]. cbn [mbind result_mbind result_bind].
    apply IH; [lia|lia| |done]. intros i b Hi. apply St. lia.
Qed.

Lemma count_up_ok {A} (J : Z -> A -> Prop) (f : Z -> A -> result A) n a :
  0 <= n -> J 0 a -> (forall i a, 0 <= i < n -> J i a -> exists a', f i a = Ok a' /\ J (i + 1) a') ->
  exists a', count_up (Z.to_nat n) 0 f a = Ok a' /\ J n a'.
Proof. intros Hn Ja St. pose proof (count_up_ind J f 0 n St Hn a Ja) as E. by rewrite Z.sub_0_r in E. Qed.

Lemma turn_digits spp t : geom spp -> 0 <= t < 32 * spp.(nchs) ->
  exists f ch lun, 0 <= f < 4 /\ 0 <= ch < spp.(nchs) /\ 0 <= lun < 8 /\ t = (f * spp.(nchs) + ch) * 8 + lun.
Proof.
  intros G. destruct (geom_consts _ G) as (_ & _ & _ & _ & _ & Hn & _). intros Ht. set (n := nchs spp) in *.
  pose proof (Z.div_mod (t / 8) n ltac:(lia)) as E. pose proof (Z.mod_pos_bound (t / 8) n ltac:(lia)).
  assert (0 <= t / 8 / n < 4) by (split; [apply Z.div_pos; zlia|apply Z.div_lt_upper_bound; zlia]).
  exists (t / 8 / n), (t / 8 mod n), (t mod 8). split; [done|]. split; [done|]. split; zlia.
Qed.

Lemma flash_range spp t : geom spp -> 0 <= t < 32 * spp.(nchs) ->
  0 <= flash_of spp t /\ 8 * flash_of spp t + 8 <= spp.(pgs_per_line) /\ turn_of spp (flash_of spp t) = t.
Proof.
  intros G Ht. destruct (turn_digits spp t G Ht) as (f & ch & lun & Hf & Hc & Hl & ->).
  destruct (digits spp f ch lun Hc Hl) as (-> & -> & _). destruct (geom_consts _ G) as (_ & _ & _ & _ & _ & Hn & _ & _ & _ & _ & El & _).
  rewrite El. split; [nia|]. split; [nia|done].
Qed.

Section rounds.
Context `{AllocatorLaws} (CityHash64 : list Z -> Z) (clock : nat -> Z).
#[local] Abbreviation collecting := (collecting CityHash64 clock).

(** No entry names a page that holds no pair. *)
Lemma laid_none D v b x B c P i l z j : collecting D v b x B c -> 0 <= P < (sp_of (shard_in c)).(tt_pgs) -> 0 <= i -> laid c P i l -> l = [] ->
  0 <= z < (cache_in c).(nr_valid_tentries) -> i <= j < 8 -> table (cache_in c) z <> P * 8 + j.
Proof.
  intros Co HP Hi0 L El Hz. revert Hi0 El. induction L as [i Hi|i Hi W F|l W L IH|n l W W1 Hn F L IH|i l Hi W F L IH|i y len l Hi Hy T W Cb F Hl L IH];
    intros Hi0 El Hj; rewrite ?GPP_val in *; [lia| | | | |done].
  - apply (vacant CityHash64 clock D v b x B c P j z Co HP); [lia| |done]. left. apply F. lia.
  - destruct (Z.eq_dec j 0) as [->|]; [|apply IH; [lia|done|lia]].
    apply (vacant CityHash64 clock D v b x B c P 0 z Co HP); [lia| |done]. right. rewrite W. by intros (_ & _ & X).
  - destruct (Z.lt_ge_cases j n) as [Lt|Ge]; [|apply IH; [lia|done|lia]].
    apply (vacant CityHash64 clock D v b x B c P j z Co HP); [lia| |done].
    destruct (Z.eq_dec j 0) as [->|]; [right; rewrite W; by intros (_ & X & _)|]. left. apply F. lia.
  - destruct (Z.eq_dec j i) as [->|]; [|apply IH; [lia|done|lia]].
    apply (vacant CityHash64 clock D v b x B c P i z Co HP); [lia| |done]. by left.
Qed.

(** Pages that hold no pair need not be cleaned. *)
Lemma gone_empty D v b x B c (R : Z -> Prop) : collecting D v b x B c -> 
  (forall m, 0 <= m < (sp_of (shard_in c)).(pgs_per_line) -> R m -> pending c v m []) -> gone c c b v R.
Proof.
  intros Co Pe. destruct (gc_at_shard _ _ _ _ (co_at _ _ _ _ _ _ _ _ Co)) as (G & _).
  pose proof (co_lines _ _ _ _ _ _ _ _ Co) as (_ & Hv & _). split; [|apply kept_refl|done|done].
  eapply left_ext; [|apply left_refl]. intros z Hz. cbv beta. split; [done|]. intros (m & Hm & Rm & E).
  destruct (Pe m Hm Rm) as [_ L]. pose proof (pgidx_range _ G _ (page_at_ok _ G v m Hv Hm)) as HP.
  apply (laid_none D v b x B c _ 0 [] z (table (cache_in c) z mod 8) Co HP); [done|done|done|done|zlia|]. rewrite <- E. zlia.
Qed.

(** ** One round *)

Lemma collecting_mono D v b x B B' c : collecting D v b x B c -> B <= B' -> collecting D v b x B' c.
Proof. intros [R S Q C Gm Ln Sh U] HB. split; try done. by apply (sound_mono clock _ B). Qed.

(** [N] flash pages are done: where the collector is, what has moved, what is
    erased. *)
Record swept (D : gmap (list Z) (Z * Z)) (v b x B : Z) (live : Z -> list (Z * Z)) (c0 : collector) (N : Z) (c : collector) : Prop := {
  sw_co : let l := sweep_pairs (sp_of (shard_in c0)) live N in
    collecting D v b (copy_ends (sp_of (shard_in c0)) x l) (B + NAND_MAX * (copy_time l + N)) c;
  sw_gone : gone c0 c b v (fun m => turn_of (sp_of (shard_in c0)) (m / 8) < N);
  sw_erased : forall m, 0 <= m < (sp_of (shard_in c0)).(pgs_per_line) -> last_turn (sp_of (shard_in c0)) (m / 8) < N -> erased (shard_in c) v m;
  sw_shadow : c.(shadow) = []
}.

(** A victim that is ready to be collected: every page is written, and [live]
    tells what is alive where. *)
Record victim_ready (c : collector) (v : Z) (live : Z -> list (Z * Z)) : Prop := {
  vr_pages : forall m, 0 <= m < (sp_of (shard_in c)).(pgs_per_line) -> pending c v m (live m);
  vr_sectors : forall q, q.(g_blk) = v -> 0 <= q.(g_pg) < 32 -> (page_at_ppa (shard_in c) q).(nsecs) = (sp_of (shard_in c)).(secs_per_pg);
  vr_count : 0 < ((shard_in c).(lm).(lines) v).(vgc) \/ forall m, live m = []
}.

Lemma erased_gone c c' b v R m : gone c c' b v R -> 0 <= m < (sp_of (shard_in c)).(pgs_per_line) -> ~ R m ->
  erased (shard_in c) v m -> erased (shard_in c') v m.
Proof.
  clear CityHash64 clock. intros Gn Hm N [St Gr]. destruct (gn_page _ _ _ _ _ Gn m Hm N) as [Es Eg]. unfold erased.
  rewrite (kp_sp _ _ _ _ (gn_kept _ _ _ _ _ Gn)), Es. split; [done|]. intros j Hj. destruct (Eg j Hj) as [-> ->]. by apply Gr.
Qed.

Lemma sweep_sized c v live n : victim_ready c v live -> geom (sp_of (shard_in c)) -> n <= 32 * (sp_of (shard_in c)).(nchs) ->
  sized (sweep_pairs (sp_of (shard_in c)) live n).
Proof.
  clear CityHash64 clock. intros V G Hn. unfold sweep_pairs, sized. apply Forall_forall. intros e He.
  apply list_elem_of_In, in_flat_map in He as (t & Ht & He). apply list_elem_of_In, elem_of_seqZ in Ht.
  apply in_flat_map in He as (m & Hm & He). apply list_elem_of_In, elem_of_seqZ in Hm.
  destruct (flash_range _ t G ltac:(lia)) as (F0 & F1 & _).
  destruct (vr_pages _ _ _ V m ltac:(lia)) as [_ L]. apply laid_sized in L. unfold sized in L. rewrite Forall_forall in L. apply L. by apply list_elem_of_In.
Qed.

(** The flash page of a round, when the victim is not empty. *)
Lemma round_clean D v b x B live c0 N c : victim_ready c0 v live -> geom (sp_of (shard_in c0)) -> swept D v b x B live c0 N c ->
  let spp := sp_of (shard_in c0) in let K := flash_of spp N in let l := sweep_pairs spp live (N + 1) in
  0 <= N < 32 * spp.(nchs) -> copy_ends spp x l / 8 + 1 < spp.(pgs_per_line) -> 0 <= B -> B + NAND_MAX * (copy_time l + N + 1) < 2 ^ 62 ->
  exists c', (if ((shard_in c0).(lm).(lines) v).(vgc) >? 0 then clean_one_flashpg clock c (page_at spp v (8 * K)) else Ok c) = Ok c' /\
    collecting D v b (copy_ends spp x l) (B + NAND_MAX * (copy_time l + N)) c' /\ gone c c' b v (fun m => 8 * K <= m < 8 * K + 8) /\ c'.(shadow) = [].
Proof.
  intros V G [Co Gn Er Sh] spp K l HN Hx' HB0 HB. fold spp in Co, Gn, G. pose proof (kp_sp _ _ _ _ (gn_kept _ _ _ _ _ Gn)) as Es. fold spp in Es.
  destruct (flash_range spp N G HN) as (K0 & K1 & KN). fold K in K0, K1, KN.
  unfold l in *. clear l. rewrite sweep_next in * by lia. fold K in Hx', HB |- *. set (l := sweep_pairs spp live N) in *. set (lk := pairs_of live (seqZ (8 * K) 8)) in *.
  rewrite copy_ends_app in *. rewrite copy_time_app in *. 
  pose proof (copy_time_pos l (sweep_sized c0 v live N V G ltac:(fold spp; lia))).
  assert (Pe : forall m, 8 * K <= m < 8 * K + 8 -> pending c v m (live m)).
  { intros m Hm. apply (pending_gone c0 c b v _ m _ Gn G); fold spp; [|lia| |].
    - pose proof (co_lines _ _ _ _ _ _ _ _ Co) as (_ & Hv & _). by rewrite Es in Hv.
    - replace (m / 8) with K by zlia. lia.
    - apply (vr_pages _ _ _ V). fold spp. lia. }
  replace (B + NAND_MAX * (copy_time l + copy_time lk + N)) with (B + NAND_MAX * (copy_time l + N) + NAND_MAX * copy_time lk) by lia.
  rewrite Z.gtb_ltb. destruct (Z.ltb_spec 0 (vgc (lines (lm (shard_in c0)) v))) as [Hl|Hl].
  - rewrite <- Es in Co, Hx', K1 |- *. apply flashpg_ok; [done|done|done|exact Pe|exact Hx'|unfold NAND_MAX in *; lia|fold lk; unfold NAND_MAX in *; lia].
  - destruct (vr_count _ _ _ V) as [|E0]; [lia|]. assert (lk = []) as ->.
    { unfold lk, pairs_of. generalize (seqZ (8 * K) 8). intros ms. induction ms as [|m ms IH]; [done|]. cbn [flat_map]. by rewrite E0. }
    exists c. split; [done|]. cbn [copy_ends copy_time]. rewrite Z.mul_0_r, Z.add_0_r. split; [done|]. split; [|done].
    apply (gone_empty D v b _ _ c _ Co). intros m Hm Rm. rewrite <- (E0 m). by apply Pe.
Qed.

(** The erase that ends a block, and its time. *)
Lemma round_erase (delay : bool) D v b x B c p t : collecting D v b x B c -> page_ok (sp_of (shard_in c)) p -> p.(g_blk) = v ->
  (forall q, same_blk p q -> 0 <= q.(g_pg) < 32 -> (page_at_ppa (shard_in c) q).(nsecs) = (sp_of (shard_in c)).(secs_per_pg)) ->
  (forall m z, 0 <= m < (sp_of (shard_in c)).(pgs_per_line) -> same_blk p (page_of (shard_in c) v m) -> 0 <= z < (cache_in c).(nr_valid_tentries) ->
    table (cache_in c) z / 8 <> index_of (shard_in c) v m) -> 0 <= B -> B < 2 ^ 62 ->
  exists t' c', (s ← mark_block_free (shard_in c) p;
    if delay then '(n, s) ← advance clock s NAND_ERASE p 0 0; Ok (Z.max t n, put_shard c s) else Ok (t, put_shard c s)) = Ok (t', c') /\
    collecting D v b x (B + NAND_MAX) c' /\ gone c c' b v (fun m => same_blk p (page_of (shard_in c) v m)) /\
    (forall m, 0 <= m < (sp_of (shard_in c)).(pgs_per_line) -> same_blk p (page_of (shard_in c) v m) -> erased (shard_in c') v m) /\ c'.(shadow) = c.(shadow).
Proof.
  intros Co P Ep Hs Ht HB0 HB. destruct (erase_ok CityHash64 clock D v b x B c p Co P Ep Hs Ht) as (s1 & E1 & Co1 & Es & Gn1 & Er).
  rewrite E1. cbn [mbind result_mbind result_bind]. destruct delay.
  - pose proof (so_dev _ _ _ (co_sound _ _ _ _ _ _ _ _ Co1)) as R. change (shard_of (settled (put_shard c s1))) with s1 in R.
    destruct (advance_ok clock s1 NAND_ERASE p 0 0 B R) as (n & s2 & E2 & R2 & _ & F); rewrite ?Es; try done.
    rewrite E2. cbn [mbind result_mbind result_bind]. eexists _, _. split; [done|].
    split; [exact (collecting_flash CityHash64 clock D v b x B _ (put_shard c s1) s2 Co1 F R2)|].
    pose proof (gone_flash (put_shard c s1) s2 b v F) as Gn2. change (put_shard (put_shard c s1) s2) with (put_shard c s2) in Gn2. split; [|split; [|done]].
    + eapply gone_ext; [|exact (gone_trans _ _ _ _ _ _ _ Gn1 Gn2)]. intros m _. cbv beta. tauto.
    + intros m Hm S. apply (erased_gone _ _ _ _ _ m Gn2); [|tauto|by apply Er]. change (shard_in (put_shard c s1)) with s1. by rewrite Es.
  - eexists _, _. split; [done|]. split; [|by split_and!]. apply (collecting_mono D v b x B); [done|]. unfold NAND_MAX. lia.
Qed.

(** The pages of the first [N + 1] rounds. *)
Lemma turns_next spp N m : geom spp -> 0 <= N < 32 * spp.(nchs) -> 0 <= m < spp.(pgs_per_line) ->
  (turn_of spp (m / 8) < N \/ 8 * flash_of spp N <= m < 8 * flash_of spp N + 8) <-> turn_of spp (m / 8) < N + 1.
Proof.
  clear CityHash64 clock. intros G HN Hm. destruct (geom_consts _ G) as (_ & _ & _ & _ & _ & Hn & _ & _ & _ & _ & El & _).
  destruct (flash_range spp N G HN) as (K0 & K1 & KN). destruct (turn_range spp G (m / 8)) as (_ & _ & F); [rewrite El in Hm; zlia|]. split.
  - intros [|Hk]; [lia|]. replace (m / 8) with (flash_of spp N) by zlia. lia.
  - intros Ht. destruct (Z.eq_dec (turn_of spp (m / 8)) N) as [E|]; [right|left; lia]. rewrite E in F. rewrite F. zlia.
Qed.

Lemma lun_round_ok (delay : bool) D v b x B live c0 f ch lun t c : victim_ready c0 v live -> geom (sp_of (shard_in c0)) ->
  let spp := sp_of (shard_in c0) in let N := (f * spp.(nchs) + ch) * 8 + lun in
  0 <= f < 4 -> 0 <= ch < spp.(nchs) -> 0 <= lun < 8 -> swept D v b x B live c0 N c ->
  let l := sweep_pairs spp live (N + 1) in
  copy_ends spp x l / 8 + 1 < spp.(pgs_per_line) -> 0 <= B -> B + NAND_MAX * (copy_time l + N + 1) < 2 ^ 62 ->
  exists t' c', gc_lun clock delay v (f =? spp.(flashpgs_per_blk) - 1)
      (mk_ppa (u16 (f * spp.(pgs_per_flashpg))) (u16 v) 0 (u8 lun) (u8 ch) 0) (t, c) = Ok (t', c') /\ swept D v b x B live c0 (N + 1) c'.
Proof.
  intros V G spp N Hf Hc Hl W l Hx' HB0 HB. pose proof W as [Co Gn Er Sh].
  pose proof (kp_sp _ _ _ _ (gn_kept _ _ _ _ _ Gn)) as Es. fold spp in Co, Gn, G, Es, Er.
  pose proof (co_lines _ _ _ _ _ _ _ _ Co) as (_ & Hv & _). rewrite Es in Hv.
  destruct (geom_consts _ G) as (_ & _ & _ & _ & _ & Hn & _ & _ & _ & _ & El & _).
  assert (HN : 0 <= N < 32 * nchs spp) by (unfold N; nia).
  destruct (digits spp f ch lun Hc Hl) as (EK & ET & EL). fold N in EK, ET.
  destruct (round_clean D v b x B live c0 N c V G W HN Hx' HB0 HB) as (c1 & E1 & Co1 & Gn1 & Sh1). fold spp l in E1, Co1, Gn1.
  set (K := flash_of spp N) in *. destruct (flash_range spp N G HN) as (K0 & K1 & KN). fold K in K0, K1, KN.
  pose proof (copy_time_pos l (sweep_sized c0 v live (N + 1) V G ltac:(fold spp; lia))).
  assert (Gn01 : gone c0 c1 b v (fun m => turn_of spp (m / 8) < N + 1)).
  { eapply gone_ext; [|exact (gone_trans _ _ _ _ _ _ _ Gn Gn1)]. intros m Hm. cbv beta. by apply turns_next. }
  assert (Er1 : forall m, 0 <= m < pgs_per_line spp -> last_turn spp (m / 8) < N -> erased (shard_in c1) v m).
  { intros m Hm Lt. apply (erased_gone c c1 b v _ m Gn1); [by rewrite Es| |by apply Er]. intros Hk.
    destruct (turn_range spp G (m / 8)) as (F & _); [rewrite El in Hm; zlia|]. replace (m / 8) with K in F, Lt by zlia. lia. }
  destruct (gc_at_inv _ _ _ _ (co_at _ _ _ _ _ _ _ _ Co)) as (I & _).
  pose proof (page_at_ok _ G v (8 * K) Hv ltac:(lia)) as Pk.
  destruct (gc_at_inv _ _ _ _ (co_at _ _ _ _ _ _ _ _ Co1)) as (I1 & _).
  pose proof (kp_sp _ _ _ _ (gn_kept _ _ _ _ _ Gn01)) as Es1. fold spp in Es1.
  rewrite (gc_page spp G v f ch lun Hv Hf Hc Hl), <- EK. fold K. unfold gc_lun.
  assert (Eg : exists u, get_lun (shard_in c).(sd) (page_at spp v (8 * K)) = Ok u).
  { rewrite <- Es in Pk |- *. apply page_ok_in_ssd in Pk; [|by rewrite Es]. pose proof (get_pg_ok _ _ (sh_tree _ I) Pk) as E.
    unfold get_pg, get_blk, get_pl in E. apply result_bind_ok in E as (? & E & _). apply result_bind_ok in E as (? & E & _).
    apply result_bind_ok in E as (u & E & _). by exists u. }
  destruct Eg as (u & ->). cbn [mbind result_mbind result_bind]. rewrite (line_at_ok _ _ _ (sh_lines _ I)) by (by rewrite Es).
  cbn [mbind result_mbind result_bind]. rewrite (gn_line _ _ _ _ _ Gn), E1. cbn [mbind result_mbind result_bind].
  replace (flashpgs_per_blk spp) with 4 by (destruct G as [? ? ? ? ? ? ? ? ? ? ?]; lia). change (4 - 1) with 3.
  destruct (Z.eqb_spec f 3) as [F3|F3]; cbn [negb].
  2:{ exists t, c1. split; [done|]. split; cbv zeta; fold spp; fold l.
    - apply (collecting_mono D v b _ (B + NAND_MAX * (copy_time l + N))); [exact Co1|]. unfold NAND_MAX. lia.
    - exact Gn01.
    - intros m Hm Lt. apply Er1; [done|]. destruct (Z.eq_dec (last_turn spp (m / 8)) N) as [E|]; [exfalso|lia].
      unfold last_turn, N in E. pose proof (Z.mod_pos_bound (m / 8) (nchs spp) ltac:(lia)). pose proof (Z.mod_pos_bound (m / 8 / nchs spp) 8 ltac:(lia)). nia.
    - done. }
  subst f. assert (Bt : forall m, 0 <= m < pgs_per_line spp -> same_blk (page_at spp v (8 * K)) (page_at spp v m) <-> last_turn spp (m / 8) = N).
  { intros m Hm. unfold N. rewrite EK. by apply block_turn. }
  assert (Lt : forall m, 0 <= m < pgs_per_line spp -> turn_of spp (m / 8) <= last_turn spp (m / 8)).
  { intros m Hm. apply (turn_range spp G (m / 8)). rewrite El in Hm. zlia. }
  destruct (round_erase delay D v b _ _ c1 (page_at spp v (8 * K)) t Co1) as (t' & c2 & E2 & Co2 & Gn2 & Er2 & Sh2); rewrite ?Es1; try done.
  { intros q S Hq. apply same_blk_line in S. destruct (kp_rest _ _ _ _ (gn_kept _ _ _ _ _ Gn01)) as (_ & _ & _ & _ & ->). by apply (vr_sectors _ _ _ V). }
  { intros m z Hm S Hz. apply Bt in S; [|done]. rewrite (lf_entries _ _ _ _ (gn_left _ _ _ _ _ Gn01)) in Hz. specialize (Lt m Hm).
    destruct (lf_table _ _ _ _ (gn_left _ _ _ _ _ Gn01) z Hz) as [[N1 ->]|[_ (m' & i & Hm' & Hi & ->)]]; fold spp.
    - intros E. apply N1. exists m. split; [done|]. split; [lia|done].
    - intros E. pose proof (co_lines _ _ _ _ _ _ _ _ Co1) as (Nb & _). destruct (gc_at_shard _ _ _ _ (co_at _ _ _ _ _ _ _ _ Co1)) as (_ & _ & Hb).
      rewrite Es1 in Hb. replace ((pgidx spp (page_at spp b m') * 8 + i) / 8) with (pgidx spp (page_at spp b m')) in E by zlia.
      by destruct (line_inj spp b m' v m G Hb Hv Hm' Hm E). }
  { unfold NAND_MAX. lia. }
  { unfold NAND_MAX in *. lia. }
  exists t', c2. split; [exact E2|]. rewrite Es1 in *. split; fold spp; fold l.
  - cbv zeta. by replace (B + NAND_MAX * (copy_time l + (N + 1))) with (B + NAND_MAX * (copy_time l + N) + NAND_MAX) by lia.
  - eapply gone_ext; [|exact (gone_trans _ _ _ _ _ _ _ Gn01 Gn2)]. intros m Hm. cbv beta. fold spp in Hm. specialize (Bt m Hm). specialize (Lt m Hm). split; [|tauto]. intros [|S]; [done|]. apply Bt in S. lia.
  - intros m Hm Hl3. destruct (Z.eq_dec (last_turn spp (m / 8)) N) as [E|Ne].
    + apply Er2; [done|]. by apply Bt.
    + apply (erased_gone c1 c2 b v _ m Gn2); [by rewrite Es1| |apply Er1; [done|lia]]. intros S. apply Ne. by apply Bt.
  - congruence.
Qed.

(** The room and the time of some rounds are within those of all. *)
Lemma sweep_within c v live x N : victim_ready c v live -> geom (sp_of (shard_in c)) -> 0 <= x ->
  let spp := sp_of (shard_in c) in let n := 32 * spp.(nchs) in 0 <= N <= n ->
  copy_ends spp x (sweep_pairs spp live N) <= copy_ends spp x (sweep_pairs spp live n) /\
  copy_time (sweep_pairs spp live N) <= copy_time (sweep_pairs spp live n).
Proof.
  clear CityHash64 clock. intros V G Hx spp n HN. pose proof (sweep_sized c v live n V G ltac:(done)) as Sz. fold spp in Sz, G.
  destruct (sweep_more spp live N n HN) as (l & E). rewrite E in Sz |- *. apply Forall_app in Sz as [Sz1 Sz2].
  rewrite copy_ends_app, copy_time_app. split.
  - apply copy_ends_ge; [done| |done]. pose proof (copy_ends_ge spp x _ G Hx Sz1). lia.
  - pose proof (copy_time_pos _ Sz2). lia.
Qed.

Lemma swept_none D v b x B live c : collecting D v b x B c -> victim_ready c v live -> c.(shadow) = [] -> swept D v b x B live c 0 c.
Proof.
  intros Co V Sh. destruct (gc_at_shard _ _ _ _ (co_at _ _ _ _ _ _ _ _ Co)) as (G & _). destruct (geom_consts _ G) as (_ & _ & _ & _ & _ & Hn & _ & _ & _ & _ & El & _).
  assert (T : forall m, 0 <= m < pgs_per_line (sp_of (shard_in c)) -> 0 <= turn_of (sp_of (shard_in c)) (m / 8) <= last_turn (sp_of (shard_in c)) (m / 8)).
  { intros m Hm. apply (turn_range _ G (m / 8)). rewrite El in Hm. zlia. }
  split.
  - cbn. by rewrite Z.mul_0_r, Z.add_0_r.
  - eapply gone_ext; [|apply gone_refl]. intros m Hm. cbv beta. specialize (T m Hm). lia.
  - intros m Hm Lt. specialize (T m Hm). lia.
  - done.
Qed.

Lemma gc_blocks_ok (delay : bool) D v b x B live c : collecting D v b x B c -> victim_ready c v live -> c.(shadow) = [] ->
  let spp := sp_of (shard_in c) in let n := 32 * spp.(nchs) in let l := sweep_pairs spp live n in
  copy_ends spp x l / 8 + 1 < spp.(pgs_per_line) -> 0 <= B -> B + NAND_MAX * (copy_time l + n) < 2 ^ 62 ->
  exists t c', gc_blocks clock delay v v c = Ok (t, c') /\ swept D v b x B live c n c'.
Proof.
  intros Co V Sh spp n l Hx' HB0 HB. destruct (gc_at_shard _ _ _ _ (co_at _ _ _ _ _ _ _ _ Co)) as (G & Hx & _). fold spp in G.
  destruct (geom_consts _ G) as (_ & _ & _ & _ & E8 & Hn & _). assert (E4 : flashpgs_per_blk spp = 4) by (destruct G as [? ? ? ? ? ? ? ? ? ? ?]; lia).
  assert (Rd : forall f ch lun a, 0 <= f < 4 -> 0 <= ch < nchs spp -> 0 <= lun < 8 -> swept D v b x B live c ((f * nchs spp + ch) * 8 + lun) a.2 ->
    exists a' : Z * collector, gc_lun clock delay v (f =? flashpgs_per_blk spp - 1) (mk_ppa (u16 (f * spp.(pgs_per_flashpg))) (u16 v) 0 (u8 lun) (u8 ch) 0) a = Ok a' /\
      swept D v b x B live c ((f * nchs spp + ch) * 8 + (lun + 1)) a'.2).
  { intros f ch lun [t a] Hf Hc Hl W. destruct (sweep_within c v live x ((f * nchs spp + ch) * 8 + lun + 1) V G Hx) as [X1 X2]; [fold spp; nia|].
    fold spp in X1, X2. fold n in X1, X2. fold l in X1, X2.
    destruct (lun_round_ok delay D v b x B live c f ch lun t a V G) as (t' & a' & E & W'); try done; fold spp; [zlia|unfold NAND_MAX in *; nia|].
    exists (t', a'). split; [exact E|]. by rewrite Z.add_assoc. }
  assert (Rc : forall f ch a, 0 <= f < 4 -> 0 <= ch < nchs spp -> swept D v b x B live c ((f * nchs spp + ch) * 8) a.2 ->
    exists a' : Z * collector, count_up (Z.to_nat (luns_per_ch spp)) 0 (fun lun => gc_lun clock delay v (f =? flashpgs_per_blk spp - 1)
        (mk_ppa (u16 (f * spp.(pgs_per_flashpg))) (u16 v) 0 (u8 lun) (u8 ch) 0)) a = Ok a' /\
      swept D v b x B live c ((f * nchs spp + (ch + 1)) * 8) a'.2).
  { intros f ch a Hf Hc W. rewrite E8. destruct (count_up_ok (fun lun (a : Z * collector) => swept D v b x B live c ((f * nchs spp + ch) * 8 + lun) a.2)
      (fun lun => gc_lun clock delay v (f =? flashpgs_per_blk spp - 1) (mk_ppa (u16 (f * spp.(pgs_per_flashpg))) (u16 v) 0 (u8 lun) (u8 ch) 0)) 8 a)
      as (a' & E & W'); [done|by rewrite Z.add_0_r|intros lun y Hl; by apply Rd|]. exists a'. split; [exact E|].
    by replace ((f * nchs spp + (ch + 1)) * 8) with ((f * nchs spp + ch) * 8 + 8) by lia. }
  destruct (count_up_ok (fun f (a : Z * collector) => swept D v b x B live c (f * nchs spp * 8) a.2)
    (fun f => count_up (Z.to_nat spp.(nchs)) 0 (fun ch => count_up (Z.to_nat spp.(luns_per_ch)) 0 (fun lun =>
        gc_lun clock delay v (f =? spp.(flashpgs_per_blk) - 1) (mk_ppa (u16 (f * spp.(pgs_per_flashpg))) (u16 v) 0 (u8 lun) (u8 ch) 0)))) 4 (0, c))
    as ([t c'] & E & W); [done|by apply swept_none| |].
  - intros f a Hf W. destruct (count_up_ok (fun ch (a : Z * collector) => swept D v b x B live c ((f * nchs spp + ch) * 8) a.2)
      (fun ch => count_up (Z.to_nat spp.(luns_per_ch)) 0 (fun lun =>
        gc_lun clock delay v (f =? spp.(flashpgs_per_blk) - 1) (mk_ppa (u16 (f * spp.(pgs_per_flashpg))) (u16 v) 0 (u8 lun) (u8 ch) 0))) (nchs spp) a)
      as (a' & E & W'); [lia|by rewrite Z.add_0_r|intros ch y Hc; by apply Rc|]. exists a'. split; [exact E|].
    by replace ((f + 1) * nchs spp * 8) with ((f * nchs spp + nchs spp) * 8) by lia.
  - exists t, c'. unfold gc_blocks. fold spp. rewrite E4 at 1. split; [exact E|]. unfold n. by replace (32 * nchs spp) with (4 * nchs spp * 8) by lia.
Qed.

End rounds.
