(* ===== verification/Reclaim.v ===== *)
(** * A whole collection ([do_gc] in [demand_ftl.c])

    A victim is selected, its flash pages are cleaned and its blocks erased, the
    page the collector stopped in is closed, and the victim goes to the free
    list.  What the device holds for its keys is what it held before. *)

From stdpp Require Import gmap.
From S2P Require Import Prelude Fifo Lru Append WorkQueue Queues Prp.
From S2P Require Import ChModel Ssd Geometry PQueue Line Lines Pages Place Cache Heap Pairs Kv Directory Lookup Opening Storing Device Gc Relocate Collect Cleaning Victim Sweep Rounds.

(** ** The page the collector stops in *)

Lemma place_bitmap s t b n g m : place_at s t b n g -> (forall q, m q = bit s q) -> place_at (set_bitmap s m) t b n g.
Proof.
  intros [[I1 I2] U2 U3 U4 U5 U6 U7 U8] E. split; try done.
  intros k i Hk Hi Hn. change (m (index_of s b k * GRAIN_PER_PAGE + i) = false). rewrite E. by apply U6.
Qed.

(** The marks of [close_page]. *)
Lemma close_marks s b n o : place_at s GC_IO b n o -> dead_ok s b n o -> o < GRAIN_PER_PAGE ->
  let P := index_of s b n in let len := GRAIN_PER_PAGE - o in
  exists s1 s2 s3, drop_oob s P o = Ok s1 /\
    mark_grain_valid (set_bitmap s1 (memset s1.(grain_bitmap) (PPA_TO_PGA P o) len false)) (PPA_TO_PGA P o) len = Ok s2 /\
    mark_grain_invalid s2 (PPA_TO_PGA P o) len = Ok s3 /\
    place_at s3 GC_IO b n GRAIN_PER_PAGE /\ dead_ok s3 b n GRAIN_PER_PAGE /\ timing_kept s s3 /\ moves s s3 GC_IO b (8 * n + o).
Proof.
  intros U D Ho P len. destruct (pa_geom _ _ _ _ _ U) as (G & Hb & Hn1). pose proof (pa_range _ _ _ _ _ U) as [Hn Ho0].
  destruct (line_page s b n G Hb ltac:(lia)) as (_ & HP & _). fold P in HP. pose proof (tt_pgs_small _ G).
  unfold drop_oob. rewrite (proj2 (Z.leb_le 0 P)), (proj2 (Z.ltb_lt P _)) by lia. cbn [andb].
  set (s1 := set_oob s _). assert (Eg : PPA_TO_PGA P o = P * GRAIN_PER_PAGE + o).
  { unfold PPA_TO_PGA. rewrite GPP_val in *. rewrite u32_small; lia. }
  assert (Eb : forall q, memset s1.(grain_bitmap) (PPA_TO_PGA P o) len false q = bit s1 q).
  { intros q. unfold memset. rewrite Eg. repeat case_cmp; cbn [andb]; try done. symmetry.
    change (bit s q = false). replace q with (P * GRAIN_PER_PAGE + (q - P * GRAIN_PER_PAGE)) by lia. apply (pa_bits _ _ _ _ _ U); unfold len in *; lia. }
  set (s0 := set_bitmap s1 (memset s1.(grain_bitmap) (PPA_TO_PGA P o) len false)). assert (U0 : place_at s0 GC_IO b n o) by (apply place_bitmap; [by apply place_oob|exact Eb]).
  destruct (place_waste_ok s0 GC_IO b n o U0 D Ho) as (s2 & s3 & E2 & E3 & U3 & D3 & T3 & M3 & _).
  change (sp_of s0) with (sp_of s) in *. fold P len in E2, E3. rewrite <- Eg in E2, E3. exists s1, s2, s3.
  split; [done|]. split; [exact E2|]. split; [exact E3|]. split; [done|]. split; [done|]. split; [exact T3|].
  apply (moves_trans s s1 s3 _ _ _ (8 * n + o)); [done| |].
  - apply moves_oob; try done; [lia|]. intros y i Hi Hy. rewrite upd_case. case_cmp; [|done]. specialize (Hy e).
    unfold memset. rewrite (proj2 (Z.leb_gt o i)) by lia. by subst.
  - apply (moves_trans s1 s0 s3 _ _ _ (8 * n + o)); [done| |exact M3]. split; try done; [cbn; by destruct s.(lm)|].
    intros y i Hi _. split; [|done]. apply Eb.
Qed.

(** ** Only line management changes *)

(** The device, the bits and the cells stay; [b] is still being written. *)
Record same_store (s s' : demand_shard) : Prop := {
  ss_sd : s'.(sd) = s.(sd);
  ss_bits : s'.(grain_bitmap) = s.(grain_bitmap);
  ss_oob : s'.(oob) = s.(oob);
  ss_offset : s'.(Lines.offset) = s.(Lines.offset);
  ss_wps : forall t, __get_wp s' t = __get_wp s t
}.

Lemma same_store_sp s s' : same_store s s' -> sp_of s' = sp_of s.
Proof. intros E. unfold sp_of. by rewrite (ss_sd _ _ E). Qed.

Lemma gc_at_store s s' g g' b x : same_store s s' -> shard_inv s' -> is_open s'.(lm) (sp_of s') b ->
  (s'.(lm).(lines) b).(vgc) = (s.(lm).(lines) b).(vgc) -> (s'.(lm).(lines) b).(igc) = (s.(lm).(lines) b).(igc) ->
  g'.(gc_offset) = g.(gc_offset) -> g'.(gc_ppa) = g.(gc_ppa) -> g'.(gc_pgidx) = g.(gc_pgidx) ->
  gc_at s g b x -> gc_at s' g' b x.
Proof.
  intros E I O Ev Ei G1 G2 G3. pose proof (same_store_sp _ _ E) as Es. rewrite Es in O. destruct E as [Ed Eb Eo _ Ew].
  assert (Dd : forall n o, dead_ok s b n o -> dead_ok s' b n o) by (intros n o D m; rewrite Es, Ed; apply D).
  intros [n Ex Eof F D|n o Ex Ho Eof Ep Eix U D].
  - apply (gc_idle _ _ _ _ n); [done|congruence| |by apply Dd]. destruct F as [F1 (W1 & W2 & W3) F3 F4 F5 F6].
    split; unfold wp_ok, page_at_ppa; rewrite ?Es, ?Ed, ?Eb, ?Ew, ?Ev, ?Ei; try done.
  - apply (gc_busy _ _ _ _ n o); rewrite ?Es; try done; try congruence; [|by apply Dd]. destruct U as [U1 (W1 & W2 & W3) U3 U4 U5 U6 U7 U8].
    split; unfold wp_ok, page_at_ppa; rewrite ?Es, ?Ed, ?Eb, ?Ew, ?Ev, ?Ei; try done.
Qed.

Lemma victim_same_store c c' v live : same_store (shard_in c) (shard_in c') -> cache_in c' = cache_in c -> c'.(dev).(hp) = c.(dev).(hp) ->
  ((shard_in c').(lm).(lines) v).(vgc) = ((shard_in c).(lm).(lines) v).(vgc) -> victim_ready c v live -> victim_ready c' v live.
Proof.
  intros E Ec Eh Ev [V1 V2 V3]. pose proof (same_store_sp _ _ E) as Es. destruct E as [Ed Eb Eo _ _]. split.
  - intros m Hm. rewrite Es in Hm. destruct (V1 m Hm) as [St L]. split; unfold page_at_ppa in *; rewrite Es, ?Ed; [done|].
    apply (laid_kept c); try done; rewrite ?Ec; try done. intros j _. by rewrite Eb, Eo.
  - intros q. unfold page_at_ppa. rewrite Es, Ed. apply V2.
  - by rewrite Ev.
Qed.

Section reclaim.
Context `{AllocatorLaws} (CityHash64 : list Z -> Z) (clock : nat -> Z).
#[local] Abbreviation collecting := (collecting CityHash64 clock).

(** The collector goes on in its line, the table stays. *)
Lemma collecting_moves D v b x B x' B' c s' g' : collecting D v b x B c -> moves (shard_in c) s' GC_IO b x ->
  gc_at s' g' b x' -> x <= x' -> g'.(gc_map) = false -> nand_ready clock s'.(sd) B' ->
  collecting D v b x' B' (set_gcd (put_shard c s') g') /\ gone c (set_gcd (put_shard c s') g') b v (fun _ => False).
Proof.
  intros Co M C' Hx Gm' Rd. destruct Co as [R S Q C Gm (Nbv & Hv & Hz) Sh U]. pose proof (mv_sp _ _ _ _ _ M) as Es.
  destruct (gc_at_shard _ _ _ _ C) as (G & _ & Hb). pose proof (mv_rest _ _ _ _ _ M) as (_ & Eo & _).
  set (c' := set_gcd (put_shard c s') g'). split.
  - split; try done.
    + apply (relocated_represents CityHash64 c.(dev)); [|done]. split; try done. intros y key n Hy [(b0 & p0 & g0 & P0) Ow Hm K L Hh Bk].
      destruct (placed_moves _ _ _ _ _ _ _ _ _ _ C M P0) as [P1 Ob]. split; try done.
      * by exists b0, p0, g0.
      * change (shard_of (dev c')) with s'. change (cache_of (dev c')) with (cache_in c). exact (eq_trans (f_equal __lpa_from_oob Ob) Ow).
    + apply (sound_step clock (settled c) _ B); try done. exact (so_cache _ _ _ S).
    + split; [done|]. change (shard_in c') with s'. rewrite Es. split; [done|lia].
    + change (shard_in c') with s'. by rewrite Es, Eo.
  - split; change (shard_in c') with s'.
    + split; try done. intros z _. left. split; [|done]. by intros (m & _ & F & _).
    + by apply (kept_moves _ _ _ _ x).
    + by apply (mv_lines _ _ _ _ _ M).
    + intros m Hm _. split; [by apply (mv_status _ _ _ _ _ M)|]. intros j Hj. by apply (moves_page _ _ GC_IO b x).
Qed.

Lemma close_page_ok (delay : bool) D v b x B c : collecting D v b x B c -> 0 <= B -> B < 2 ^ 62 ->
  exists x' c', close_page clock delay c = Ok c' /\ x <= x' <= x + 8 /\ c'.(gcd).(gc_offset) = GRAIN_PER_PAGE /\
    collecting D v b x' (B + NAND_MAX) c' /\ gone c c' b v (fun _ => False) /\ c'.(shadow) = c.(shadow).
Proof.
  intros Co HB0 HB. pose proof (co_at _ _ _ _ _ _ _ _ Co) as C. destruct (gc_at_shard _ _ _ _ C) as (G & Hx & Hb). unfold close_page.
  destruct C as [n Ex Eo F D0|n o Ex Ho Eo Ep Ei U D0].
  { rewrite Eo, Z.geb_leb, Z.leb_refl. exists x, c. split; [done|]. split; [lia|]. split; [done|].
    split; [|split; [apply gone_refl|done]]. apply (collecting_mono CityHash64 clock D v b x B); [done|]. unfold NAND_MAX. lia. }
  rewrite Eo, Z.geb_leb, (proj2 (Z.leb_gt GRAIN_PER_PAGE o)), Ei by (rewrite GPP_val; lia). set (s := shard_in c) in *.
  destruct (pa_geom _ _ _ _ _ U) as (_ & _ & Hn1). pose proof (pa_range _ _ _ _ _ U) as [Hn _].
  destruct (line_page s b n G Hb ltac:(lia)) as (P & HP & Es & _). rewrite Es. cbn [mbind result_mbind result_bind].
  destruct (close_marks s b n o U D0) as (s1 & s2 & s3 & E1 & E2 & E3 & U3 & D3 & T3 & M3); [rewrite GPP_val; lia|].
  rewrite E1. cbn [mbind result_mbind result_bind]. rewrite E2. cbn [mbind result_mbind result_bind]. rewrite E3. cbn [mbind result_mbind result_bind].
  rewrite <- Ex in M3. pose proof (mv_sp _ _ _ _ _ M3) as Es3.
  pose proof (so_dev _ _ _ (co_sound _ _ _ _ _ _ _ _ Co)) as R. change (shard_of (settled c)) with s in R.
  assert (R3 : nand_ready clock s3.(sd) B) by (apply (ready_kept clock s); [exact R|apply U3|exact T3]).
  assert (Fin : forall s4, same_flash s3 s4 -> nand_ready clock s4.(sd) (B + NAND_MAX) ->
    let g' := mk_gcd c.(gcd).(gc_ppa) UINT_MAX GRAIN_PER_PAGE c.(gcd).(gc_map) in
    collecting D v b (8 * (n + 1)) (B + NAND_MAX) (set_gcd (put_shard c s4) g') /\ gone c (set_gcd (put_shard c s4) g') b v (fun _ => False)).
  { intros s4 F4 R4 g'. apply (collecting_moves D v b x B); try done.
    - apply (moves_trans s s3 s4 _ _ _ x); [done|exact M3|by apply moves_flash].
    - apply (gc_idle _ _ _ _ (n + 1)); [done|done| |].
      + apply place_next. apply (place_flash s3); [done|apply (nr_tree _ _ _ R4)|exact U3].
      + apply (dead_next _ _ _ GRAIN_PER_PAGE). by apply (dead_flash s3).
    - lia.
    - apply (co_data _ _ _ _ _ _ _ _ Co). }
  destruct delay.
  - assert (A : exists k s4, (if last_pg_in_wordline (sp_of s) (page_of s b n)
        then advance clock s3 NAND_WRITE (page_of s b n) 0 (pgsz (sp_of s) * pgs_per_oneshotpg (sp_of s))
        else advance clock s3 NAND_NOP (page_of s b n) 0 0) = Ok (k, s4) /\ same_flash s3 s4 /\ nand_ready clock s4.(sd) (B + NAND_MAX)).
    { assert (P3 : page_ok (sp_of s3) (page_of s b n)) by (by rewrite Es3). destruct (last_pg_in_wordline _ _).
      - destruct (advance_ok clock s3 NAND_WRITE (page_of s b n) 0 (pgsz (sp_of s) * pgs_per_oneshotpg (sp_of s)) B R3 P3) as (k & s4 & E4 & Q1 & _ & Q3);
          [by apply write_supported|by apply page_xfer|lia|done|]. by exists k, s4.
      - destruct (advance_ok clock s3 NAND_NOP (page_of s b n) 0 0 B R3 P3) as (k & s4 & E4 & Q1 & _ & Q3); [done|done|lia|done|]. by exists k, s4. }
    destruct A as (k & s4 & -> & F4 & R4). cbn [mbind result_mbind result_bind]. destruct (Fin s4 F4 R4) as [Co' Gn].
    exists (8 * (n + 1)). eexists _. split; [done|]. split; [lia|]. split; [done|]. split; [exact Co'|]. split; [exact Gn|done].
  - cbn [mbind result_mbind result_bind]. destruct (Fin s3 ltac:(done)) as [Co' Gn].
    { apply (ready_more clock _ B); [done|]. unfold NAND_MAX. lia. }
    exists (8 * (n + 1)). eexists _. split; [done|]. split; [lia|]. split; [done|]. split; [exact Co'|]. split; [exact Gn|done].
Qed.

(** ** Selection and release *)

Lemma represents_shard k s' D : sp_of s' = sp_of (shard_of k) -> s'.(grain_bitmap) = (shard_of k).(grain_bitmap) ->
  s'.(oob) = (shard_of k).(oob) -> represents CityHash64 k D -> represents CityHash64 (set_shard k s') D.
Proof.
  intros Es Eb Eo. apply relocated_represents. split; try done.
  intros y key n _ [(b0 & p0 & g0 & [P1 P2 P3 P4 P5]) Ow Hm K L Hh Bk].
  split; try done; change (shard_of (set_shard k s')) with s'; change (cache_of (set_shard k s')) with (cache_of k); rewrite ?Eo; try done.
  exists b0, p0, g0. split; rewrite ?Es, ?Eb, ?Eo; done.
Qed.

Lemma sound_at_shard k s' B B' : sp_of s' = sp_of (shard_of k) -> nand_ready clock s'.(sd) B' -> sound clock k B -> sound clock (set_shard k s') B'.
Proof. intros Es Rd S. apply (sound_step clock k _ B); try done. apply (so_cache _ _ _ S). Qed.

Lemma holds_shard k s' M B B' : sp_of s' = sp_of (shard_of k) -> s'.(grain_bitmap) = (shard_of k).(grain_bitmap) ->
  s'.(oob) = (shard_of k).(oob) -> nand_ready clock s'.(sd) B' -> holds CityHash64 clock k M B -> holds CityHash64 clock (set_shard k s') M B'.
Proof.
  intros Es Eb Eo Rd [(D & R & E) S Q]. split; [|by apply (sound_at_shard k s' B)|exact Q].
  exists D. split; [by apply represents_shard|exact E].
Qed.

Lemma represents_store k s' D : same_store (shard_of k) s' -> represents CityHash64 k D -> represents CityHash64 (set_shard k s') D.
Proof. intros E. apply represents_shard; [by apply same_store_sp|apply E|apply E]. Qed.

Lemma sound_store k s' B : same_store (shard_of k) s' -> sound clock k B -> sound clock (set_shard k s') B.
Proof. intros E S. apply (sound_at_shard k s' B); [by apply same_store_sp| |done]. rewrite (ss_sd _ _ E). apply (so_dev _ _ _ S). Qed.

Lemma settled_empty c : c.(shadow) = [] -> settled c = c.(dev).
Proof. unfold settled. intros ->. by destruct c as [[[]]]. Qed.

(** What selecting the victim leaves. *)
Lemma select_gives s v s1 : shard_inv s -> 0 <= s.(Lines.offset) / GRAINED_UNIT < (sp_of s).(tt_pgs) * GRAIN_PER_PAGE ->
  select_victim_line s = Ok (Some v, s1) ->
  same_store s s1 /\ shard_inv s1 /\ is_open s1.(lm) (sp_of s) v /\ s1.(wfc) = s.(wfc) /\ queued s.(lm) v /\
  ~ on_line (sp_of s) v (s.(Lines.offset) / GRAINED_UNIT) /\ same_but_pos s.(lm).(lines) s1.(lm).(lines) /\
  s1.(lm).(free_line_list) = s.(lm).(free_line_list) /\
  forall b, is_open s.(lm) (sp_of s) b -> is_open s1.(lm) (sp_of s) b /\ b <> v.
Proof.
  intros I Ho E. destruct (select_victim_line_ok s I Ho) as (p & v' & s' & Ep & E' & I' & Es & (Li & Sel & Fl & Fu & Sp)).
  rewrite E in E'. injection E' as <- <-. destruct Sel as (Q1 & Q2 & _ & Q4 & Q5).
  assert (X : exists l, s1 = set_lm s l). { unfold select_victim_line in E. apply result_bind_ok in E as (? & _ & E). apply result_bind_ok in E as ([? l] & _ & [= _ <-]). by exists l. }
  destruct X as (l & ->). pose proof (sh_geom _ I) as G. destruct Q5 as (Hv & Q5). split; [by split; try done; intros []|].
  split; [done|]. split; [by split|]. split; [done|]. split; [done|]. split.
  { intros (m & i & Hm & Hi & Eq). apply Q2. rewrite Eq, GPP_val in Ep.
    replace ((pgidx (sp_of s) (page_at (sp_of s) v m) * 8 + i) / 8) with (pgidx (sp_of s) (page_at (sp_of s) v m)) in Ep by zlia.
    rewrite (ppa_to_struct_pgidx _ G _ (page_at_ok _ G v m Hv Hm)) in Ep. injection Ep as <-. done. }
  split; [done|]. split; [done|]. intros b (Hb & Nl & Nq). split; [|by intros ->]. split; [done|]. split.
  - unfold listed in *. cbn in *. by rewrite Fl, Fu.
  - intros X. apply Q4 in X as [X _]. done.
Qed.

(** The state the rounds begin with. *)
Definition begun (k : kv) (g : gc_data) (s1 : demand_shard) (n : Z) : collector :=
  mk_col (set_shard k (set_wfc (set_counters s1 0 0 0) (mk_wfc s1.(wfc).(write_credits) n))) (set_gc_map g false) [].

Lemma begun_ok D k g b x B v s1 n : represents CityHash64 k D -> sound clock k B -> quiet k -> gc_at (shard_of k) g b x -> 0 < b \/ 0 < x ->
  (cache_of k).(nr_valid_tpages) <= GRAIN_PER_PAGE * FLASH_PAGE_SIZE ->
  0 <= (shard_of k).(Lines.offset) / GRAINED_UNIT < (sp_of (shard_of k)).(tt_pgs) * GRAIN_PER_PAGE ->
  select_victim_line (shard_of k) = Ok (Some v, s1) ->
  same_store (shard_of k) (shard_in (begun k g s1 n)) /\ collecting D v b x B (begun k g s1 n).
Proof.
  intros R S Q C Hz Hlim Ho E. destruct (gc_at_inv _ _ _ _ C) as (I & Hx & Op).
  destruct (select_gives _ v s1 I Ho E) as (E1 & I1 & (Hv & _) & _ & _ & Nu & Sp & _ & Nb). destruct (Nb b Op) as [Op1 Nbv].
  set (c := begun k g s1 n). assert (Es : same_store (shard_of k) (shard_in c)) by (destruct E1 as [A1 A2 A3 A4 A5]; split; try done; intros t; rewrite <- A5; by destruct t).
  pose proof (same_store_sp _ _ Es) as Esp. split; [done|].
  assert (S' : settled c = c.(dev)) by (by apply settled_empty). split.
  - by apply represents_store.
  - rewrite S'. by apply sound_store.
  - exact Q.
  - apply (gc_at_store (shard_of k) (shard_in c) g).
    + exact Es.
    + destruct I1 as [J1 J2]. split; [exact J1|exact J2].
    + rewrite Esp. exact Op1.
    + change (vgc (lines (lm s1) b) = vgc (lines (lm (shard_of k)) b)). by rewrite Sp.
    + change (igc (lines (lm s1) b) = igc (lines (lm (shard_of k)) b)). by rewrite Sp.
    + reflexivity.
    + reflexivity.
    + reflexivity.
    + exact C.
  - reflexivity.
  - rewrite Esp. split; [exact Nbv|split; [exact Hv|exact Hz]].
  - split; [constructor|]. split; [exact Hlim|]. intros i X. by apply elem_of_nil in X.
  - by rewrite Esp, (ss_offset _ _ Es).
Qed.

(** The victim's way to the free list. *)
Lemma release_line_ok D v b x B c : collecting D v b x B c -> is_open (shard_in c).(lm) (sp_of (shard_in c)) v ->
  exists s', mark_line_free (shard_in c) (mk_ppa 0 (u16 v) 0 0 0 0) = Ok s' /\ same_store (shard_in c) s' /\ s'.(wfc) = (shard_in c).(wfc) /\
    gc_at s' c.(gcd) b x /\ s'.(lm).(free_line_list) = (shard_in c).(lm).(free_line_list) ++ [v] /\
    forall i, (s'.(lm).(lines) i).(vgc) = (if i =? v then 0 else ((shard_in c).(lm).(lines) i).(vgc)) /\
      (s'.(lm).(lines) i).(igc) = (if i =? v then 0 else ((shard_in c).(lm).(lines) i).(igc)).
Proof.
  intros Co Op. destruct (gc_at_inv _ _ _ _ (co_at _ _ _ _ _ _ _ _ Co)) as (I & _ & Opb). pose proof (co_lines _ _ _ _ _ _ _ _ Co) as (Nbv & Hv & _).
  destruct (geom_consts _ (sh_geom _ I)) as (_ & _ & _ & _ & _ & _ & Hb & _). rewrite u16_small by lia.
  destruct (mark_line_free_ok (shard_in c) (mk_ppa 0 v 0 0 0 0) I Op) as (s' & E & I' & Es & Fr & _ & Fu & Qu & Ln). cbn [g_blk] in *.
  assert (X : exists l, s' = set_lm (shard_in c) l) by (unfold mark_line_free in E; apply result_bind_ok in E as (? & _ & [= <-]); by eexists).
  assert (Cn : forall i, (s'.(lm).(lines) i).(vgc) = (if i =? v then 0 else ((shard_in c).(lm).(lines) i).(vgc)) /\
      (s'.(lm).(lines) i).(igc) = (if i =? v then 0 else ((shard_in c).(lm).(lines) i).(igc))).
  { intros i. specialize (Ln i). destruct (i =? v); by injection Ln. }
  destruct X as (l & X). assert (St : same_store (shard_in c) s') by (subst s'; split; done). exists s'.
  split; [exact E|]. split; [exact St|]. split; [by subst s'|]. split; [|by split].
  destruct (Cn b) as [C1 C2]. rewrite (proj2 (Z.eqb_neq b v)) in C1, C2 by done.
  apply (gc_at_store (shard_in c) s' c.(gcd)); try reflexivity.
  - exact St.
  - exact I'.
  - rewrite (same_store_sp _ _ St). destruct Opb as (O1 & O2 & O3). split; [exact O1|]. split; [|by rewrite Qu].
    unfold listed in *. rewrite Fr, Fu, !elem_of_app, list_elem_of_singleton in *. tauto.
  - exact C1.
  - exact C2.
  - apply (co_at _ _ _ _ _ _ _ _ Co).
Qed.

(** ** [do_gc] *)

(** The collector is at grain [x] of line [b], and the line [v] it is going to
    select is one of pairs. *)
Record gc_ready (k : kv) (g : gc_data) (b x v : Z) (live : Z -> list (Z * Z)) : Prop := {
  gr_at : gc_at (shard_of k) g b x;
  gr_start : 0 < b \/ 0 < x;
  gr_offset : 0 <= (shard_of k).(Lines.offset) / GRAINED_UNIT < (sp_of (shard_of k)).(tt_pgs) * GRAIN_PER_PAGE;
  gr_victim : exists s1, select_victim_line (shard_of k) = Ok (Some v, s1);
  gr_data : ((shard_of k).(lm).(lines) v).(Line.map) = false;
  gr_live : victim_ready (mk_col k g []) v live;
  gr_shadow : (cache_of k).(nr_valid_tpages) <= GRAIN_PER_PAGE * FLASH_PAGE_SIZE
}.

(** Line [v] has been collected into line [b]. *)
Record collected (c c' : collector) (b v : Z) : Prop := {
  cl_left : left_for c c' b (on_line (sp_of (shard_in c)) v);
  cl_erased : forall m, 0 <= m < (sp_of (shard_in c)).(pgs_per_line) -> erased (shard_in c') v m;
  cl_free : (shard_in c').(lm).(free_line_list) = (shard_in c).(lm).(free_line_list) ++ [v];
  cl_empty : ((shard_in c').(lm).(lines) v).(vgc) = 0 /\ ((shard_in c').(lm).(lines) v).(igc) = 0;
  cl_others : forall i, i <> b -> i <> v -> ((shard_in c').(lm).(lines) i).(vgc) = ((shard_in c).(lm).(lines) i).(vgc) /\
    ((shard_in c').(lm).(lines) i).(igc) = ((shard_in c).(lm).(lines) i).(igc);
  cl_credits : (shard_in c').(wfc) = mk_wfc (shard_in c).(wfc).(write_credits) (u32 ((shard_in c).(lm).(lines) v).(igc));
  cl_shadow : c'.(shadow) = [];
  cl_idle : c'.(gcd).(gc_offset) = GRAIN_PER_PAGE
}.

(** The rounds and the closing of the last page, from the selected victim on. *)
Lemma collect_ok (delay : bool) D v b x B live c : collecting D v b x B c -> victim_ready c v live -> c.(shadow) = [] ->
  let spp := sp_of (shard_in c) in let n := 32 * spp.(nchs) in let l := sweep_pairs spp live n in
  copy_ends spp x l / 8 + 1 < spp.(pgs_per_line) -> 0 <= B -> B + NAND_MAX * (copy_time l + n + 1) < 2 ^ 62 ->
  exists t1 c1 c2 x', gc_blocks clock delay v v c = Ok (t1, c1) /\ close_page clock delay c1 = Ok c2 /\
    x' <= copy_ends spp x l + 8 /\ collecting D v b x' (B + NAND_MAX * (copy_time l + n + 1)) c2 /\
    gone c c2 b v (fun _ => True) /\ (forall m, 0 <= m < spp.(pgs_per_line) -> erased (shard_in c2) v m) /\
    c2.(shadow) = [] /\ c2.(gcd).(gc_offset) = GRAIN_PER_PAGE.
Proof.
  intros Co V Sh spp n l Hx' HB0 HB. destruct (gc_at_shard _ _ _ _ (co_at _ _ _ _ _ _ _ _ Co)) as (G & Hx & _). fold spp in G.
  destruct (geom_consts _ G) as (_ & _ & _ & _ & _ & Hn & _ & _ & _ & _ & El & _).
  pose proof (copy_time_pos l (sweep_sized c v live n V G ltac:(done))) as Ct.
  destruct (gc_blocks_ok CityHash64 clock delay D v b x B live c Co V Sh Hx' HB0) as (t1 & c1 & E1 & [Co1 Gn1 Er1 Sh1]).
  { fold spp n l. unfold NAND_MAX in *. lia. }
  fold spp n l in Co1. cbv zeta in Co1. fold n in Gn1, Er1. fold spp in Gn1, Er1.
  destruct (close_page_ok delay D v b _ _ c1 Co1) as (x' & c2 & E2 & Hx2 & Eo & Co2 & Gn2 & Sh2); [unfold NAND_MAX; lia|unfold NAND_MAX in *; lia|].
  assert (T : forall m, 0 <= m < pgs_per_line spp -> turn_of spp (m / 8) <= last_turn spp (m / 8) /\ last_turn spp (m / 8) < n).
  { intros m Hm. destruct (turn_range spp G (m / 8)) as (T1 & T2 & _); [rewrite El in Hm; zlia|]. split; [lia|exact T2]. }
  exists t1, c1, c2, x'. split; [exact E1|]. split; [exact E2|]. split; [lia|].
  split; [by replace (B + NAND_MAX * (copy_time l + n + 1)) with (B + NAND_MAX * (copy_time l + n) + NAND_MAX) by lia|].
  split; [|split; [|split; [congruence|exact Eo]]].
  - eapply gone_ext; [|exact (gone_trans _ _ _ _ _ _ _ Gn1 Gn2)]. intros m Hm. cbv beta. destruct (T m Hm). split; [done|]. intros _. left. lia.
  - intros m Hm. apply (erased_gone c1 c2 b v _ m Gn2); [|tauto|].
    + by rewrite (kp_sp _ _ _ _ (gn_kept _ _ _ _ _ Gn1)).
    + apply Er1; [done|]. by apply T.
Qed.

Lemma do_gc_unfold (delay : bool) k g v s1 t1 c1 c2 s3 : select_victim_line (shard_of k) = Ok (Some v, s1) ->
  line_at s1.(lm) v = Ok (s1.(lm).(lines) v) -> (s1.(lm).(lines) v).(Line.id) = v -> (s1.(lm).(lines) v).(Line.map) = false ->
  gc_blocks clock delay v v (begun k g s1 (u32 (s1.(lm).(lines) v).(igc))) = Ok (t1, c1) ->
  close_page clock delay c1 = Ok c2 -> mark_line_free (shard_in c2) (mk_ppa 0 (u16 v) 0 0 0 0) = Ok s3 ->
  do_gc clock delay (mk_col k g []) = Ok (t1, put_shard c2 s3).
Proof.
  intros E1 E2 Ei Em E3 E4 E5. unfold do_gc. change (shard_in (mk_col k g [])) with (shard_of k). rewrite E1.
  cbn [mbind result_mbind result_bind]. rewrite E2. cbn [mbind result_mbind result_bind]. rewrite Ei, Em.
  unfold begun in E3. unfold put_shard, set_gcd, set_dev. cbn [dev gcd shadow].
  change (set_shard (set_shard k s1) ?s) with (set_shard k s). change (wfc (set_counters s1 0 0 0)) with (wfc s1).
  rewrite E3. cbn [mbind result_mbind result_bind]. rewrite E4. cbn [mbind result_mbind result_bind]. by rewrite E5.
Qed.

Lemma do_gc_ok (delay : bool) k M B g b x v live : holds CityHash64 clock k M B -> gc_ready k g b x v live ->
  let spp := sp_of (shard_of k) in let n := 32 * spp.(nchs) in let l := sweep_pairs spp live n in
  copy_ends spp x l / 8 + 1 < spp.(pgs_per_line) -> 0 <= B -> B + NAND_MAX * (copy_time l + n + 1) < 2 ^ 62 ->
  exists t x' c', do_gc clock delay (mk_col k g []) = Ok (t, c') /\
    holds CityHash64 clock c'.(dev) M (B + NAND_MAX * (copy_time l + n + 1)) /\
    gc_at (shard_in c') c'.(gcd) b x' /\ x' <= copy_ends spp x l + 8 /\ collected (mk_col k g []) c' b v.
Proof.
  intros [(D & R & EM) S Q] [C Hz Ho (s1 & E) Hd V Hlim] spp n l Hx' HB0 HB. destruct (gc_at_inv _ _ _ _ C) as (I & Hx & Op).
  destruct (select_gives _ v s1 I Ho E) as (E1 & I1 & (Hv & Ov) & Ew & _ & _ & Sp & Fl & Nb). destruct (Nb b Op) as [_ Nbv].
  set (c := mk_col k g []) in *. set (m := u32 (igc (lines (lm s1) v))).
  destruct (begun_ok D k g b x B v s1 m R S Q C Hz Hlim Ho E) as [St Co]. set (c0 := begun k g s1 m) in *.
  pose proof (same_store_sp _ _ St) as Es. assert (Ev : vgc (lines (lm s1) v) = vgc (lines (lm (shard_of k)) v)) by (by rewrite Sp).
  assert (V0 : victim_ready c0 v live) by (apply (victim_same_store c c0 v live St); done).
  destruct (collect_ok delay D v b x B live c0 Co V0) as (t1 & c1 & c2 & x' & E3 & E4 & Hx2 & Co2 & Gn & Er & Sh & Eo);
    rewrite ?Es; [done|exact Hx'|exact HB0|exact HB|]. rewrite Es in Hx2, Co2, Er. fold spp n l in Hx2, Co2. fold spp in Er.
  pose proof (gn_kept _ _ _ _ _ Gn) as K. pose proof (kp_sp _ _ _ _ K) as Es2. rewrite Es in Es2.
  assert (Op2 : is_open (lm (shard_in c2)) (sp_of (shard_in c2)) v).
  { rewrite Es2. pose proof (kp_lists _ _ _ _ K) as X. change (lm (shard_in c0)) with (lm s1) in X. split; [exact Hv|].
    unfold listed, queued in *. rewrite <- X in Ov. exact Ov. }
  destruct (release_line_ok D v b x' _ c2 Co2 Op2) as (s3 & E5 & St3 & Ew3 & C3 & Fr3 & Cn3).
  pose proof (same_store_sp _ _ St3) as Es3. rewrite Es2 in Es3. destruct (gn_left _ _ _ _ _ Gn) as [L1 L2 L3 L4 L5]. fold spp in Es2, Es3.
  exists t1, x', (put_shard c2 s3). split.
  { apply (do_gc_unfold delay k g v s1 t1 c1); try done.
    - apply (line_at_ok _ _ _ (sh_lines _ I1)). by rewrite (same_store_sp _ _ E1).
    - rewrite Sp. by apply (li_table _ _ (sh_lines _ I)).
    - by rewrite Sp. }
  split; [|split; [exact C3|split; [exact Hx2|]]].
  - split.
    + exists D. split; [exact (represents_store c2.(dev) s3 D St3 (co_rep _ _ _ _ _ _ _ _ Co2))|].
      rewrite EM. unfold values. change (hp (dev (put_shard c2 s3))) with (hp (dev c2)). by rewrite (proj1 L5).
    + pose proof (co_sound _ _ _ _ _ _ _ _ Co2) as S2. rewrite (settled_empty c2 Sh) in S2. exact (sound_store c2.(dev) s3 _ St3 S2).
    + exact (co_quiet _ _ _ _ _ _ _ _ Co2).
  - split; change (shard_in (put_shard c2 s3)) with s3; change (cache_in (put_shard c2 s3)) with (cache_in c2); change (shard_in c) with (shard_of k) in *.
    + split; [|exact L2|exact L3|exact Es3|exact L5]. intros z Hzr. change (cache_in (put_shard c2 s3)) with (cache_in c2).
      specialize (L1 z Hzr). change (table (cache_in c0) z) with (table (cache_in c) z) in L1. rewrite Es in L1.
      assert (Iff : (exists m, 0 <= m < pgs_per_line spp /\ True /\ table (cache_in c) z / 8 = pgidx spp (page_at spp v m)) <-> on_line spp v (table (cache_in c) z)).
      { split; [intros (j & Hj & _ & Ej); exists j, (table (cache_in c) z mod 8); split; [done|split; zlia]|].
        intros (j & i & Hj & Hi & Ej). exists j. split; [done|split; [done|zlia]]. }
      fold spp in L1. change (shard_in c) with (shard_of k). fold spp. rewrite <- Iff. exact L1.
    + intros j Hj. destruct (Er j Hj) as [Er1 Er2]. destruct St3 as [T1 T2 T3 _ _]. unfold erased, page_at_ppa in *. rewrite Es3, T1, T2, T3.
      rewrite Es2 in Er1, Er2. by split.
    + rewrite Fr3. pose proof (kp_lists _ _ _ _ K) as X. change (lm (shard_in c0)) with (lm s1) in X. f_equal.
      rewrite <- Fl, <- X. done.
    + destruct (Cn3 v) as [-> ->]. by rewrite Z.eqb_refl.
    + intros i Hb Hiv. destruct (Cn3 i) as [-> ->]. rewrite (proj2 (Z.eqb_neq i v) Hiv), (kp_lines _ _ _ _ K i Hb Hiv).
      change (lm (shard_in c0)) with (lm s1). by rewrite Sp.
    + rewrite Ew3. destruct (kp_rest _ _ _ _ K) as (-> & _). change (wfc (shard_in c0)) with (mk_wfc (write_credits (wfc s1)) m). unfold m. by rewrite Ew, Sp.
    + exact Sh.
    + exact Eo.
Qed.

(** C6 (garbage collection keeps the map): on an idle device that holds [M], when the victim that
    selection names is a line of pairs whose pages are described by [live], and the collector's line has room for
    the copies, [do_gc] never faults; the device then holds [M] again, every entry that named a grain of the
    victim names one of the collector's line and every other entry is as it was, the victim's pages are
    erased and it is at the end of the free list with empty counters, no other line's counters have
    moved, and the credits to refill are its dead grains. *)
Theorem do_gc_correct (delay : bool) k M B g b x v live : holds CityHash64 clock k M B -> gc_ready k g b x v live ->
  let spp := sp_of (shard_of k) in let n := 32 * spp.(nchs) in let l := sweep_pairs spp live n in
  copy_ends spp x l / 8 + 1 < spp.(pgs_per_line) -> 0 <= B -> B + NAND_MAX * (copy_time l + n + 1) < 2 ^ 62 ->
  exists t x' c', do_gc clock delay (mk_col k g []) = Ok (t, c') /\
    holds CityHash64 clock c'.(dev) M (B + NAND_MAX * (copy_time l + n + 1)) /\
    gc_at (shard_in c') c'.(gcd) b x' /\ x' <= copy_ends spp x l + 8 /\ collected (mk_col k g []) c' b v.
Proof. apply do_gc_ok. Qed.

(** Background collection: a round of the background thread does nothing while enough lines are
    free or another collection runs; otherwise it collects the victim, so that one more line is free, adds the
    victim's dead grains to the credits of the writers - unless the collection ends at the very time that [do_gc]
    also answers for "no victim" - and clears the flag; the device holds what it held. *)
Theorem bg_gc_turn_correct (delay : bool) k M B g b x v live : holds CityHash64 clock k M B -> gc_ready k g b x v live ->
  should_gc (shard_of k) = true ->
  let spp := sp_of (shard_of k) in let n := 32 * spp.(nchs) in let l := sweep_pairs spp live n in
  copy_ends spp x l / 8 + 1 < spp.(pgs_per_line) -> 0 <= B -> B + NAND_MAX * (copy_time l + n + 1) < 2 ^ 62 ->
  (forall gcing c, should_gc (shard_in c) = false \/ gcing <> 0 -> bg_gc_turn clock delay gcing c = Ok (gcing, c)) /\
  exists t c1 c', do_gc clock delay (mk_col k g []) = Ok (t, c1) /\ bg_gc_turn clock delay 0 (mk_col k g []) = Ok (0, c') /\
    holds CityHash64 clock c'.(dev) M (B + NAND_MAX * (copy_time l + n + 1)) /\
    (shard_in c').(lm).(free_line_list) = (shard_of k).(lm).(free_line_list) ++ [v] /\
    let w := (shard_of k).(wfc).(write_credits) in let r := u32 ((shard_of k).(lm).(lines) v).(igc) in
    (shard_in c').(wfc) = mk_wfc (if t =? UINT_MAX then w else u32 (w + r)) r.
Proof.
  intros Hh Gr Sg spp n l Hx HB0 HB. split.
  { intros gcing c Hc. unfold bg_gc_turn. destruct (should_gc (shard_in c)) eqn:E; [|done]. destruct Hc as [|Hc]; [done|].
    cbn [negb]. by rewrite (proj2 (Z.eqb_neq gcing 0)). }
  destruct (do_gc_ok delay k M B g b x v live Hh Gr Hx HB0 HB) as (t & x' & c1 & E & Hh' & _ & _ & Cl).
  pose proof (cl_credits _ _ _ _ Cl) as Ew. change (shard_in (mk_col k g [])) with (shard_of k) in Ew.
  exists t, c1. unfold bg_gc_turn. change (shard_in (mk_col k g [])) with (shard_of k). rewrite Sg, E. cbn [negb Z.eqb mbind result_mbind result_bind].
  destruct (Z.eqb_spec t UINT_MAX) as [->|Nt].
  - exists c1. split; [done|]. split; [done|]. split; [exact Hh'|]. split; [apply Cl|exact Ew].
  - rewrite Ew. cbn [write_credits credits_to_refill]. eexists. split; [done|]. split; [done|]. split; [|split; [apply Cl|done]].
    set (s' := set_wfc _ _). exact (holds_shard c1.(dev) s' M _ _ eq_refl eq_refl eq_refl (so_dev _ _ _ (ho_sound _ _ _ _ _ Hh')) Hh').
Qed.

End reclaim.
