(* ===== verification/System.v ===== *)
(** * Sequences of commands and collections

    The operations of the device on one state: commands of the host and, between
    two of them, collections.  The specification is a finite map of keys to
    values with the host's memory beside it. *)

From stdpp Require Import gmap.
From S2P Require Import Prelude Fifo Lru Append WorkQueue Queues Prp.
From S2P Require Import ChModel Ssd Geometry PQueue Line Lines Pages Place Cache Heap Pairs Kv Directory Lookup Opening Storing Device Deleting Overwriting.
From S2P Require Import Gc Relocate Collect Cleaning Victim Sweep Rounds Reclaim.

Variant request :=
  | Command (c : nvme_command) (start : Z) (r : kv_result)
  | Collection.

(** ** The specification *)

Abbreviation world := (gmap (list Z) (list Z) * (Z -> Z))%type.

(** What [q] may answer, with the status it answers. *)
Variant answers : request -> world -> Z -> world -> Prop :=
  | an_store c key n M h start r : kv_command c key -> c.(opcode) = nvme_cmd_kv_store -> cmd_value_length c = Ok n ->
      answers (Command c start r) (M, h) 0 (<[key := host_bytes c h n]> M, h)
  | an_retrieve c key v vlen w M h h' start r : kv_command c key -> c.(opcode) = nvme_cmd_kv_retrieve -> cmd_value_length c = Ok vlen ->
      M !! key = Some v -> retrieved v vlen c.(Queues.offset) = Some w -> received c h h' w ->
      answers (Command c start r) (M, h) 0 (M, h')
  | an_small c key v vlen M h start r : kv_command c key -> c.(opcode) = nvme_cmd_kv_retrieve -> cmd_value_length c = Ok vlen ->
      M !! key = Some v -> retrieved v vlen c.(Queues.offset) = None ->
      answers (Command c start r) (M, h) KV_ERR_BUFFER_SMALL (M, h)
  | an_missing c key M h start r : kv_command c key -> c.(opcode) = nvme_cmd_kv_retrieve \/ c.(opcode) = nvme_cmd_kv_delete ->
      M !! key = None -> answers (Command c start r) (M, h) KV_ERR_KEY_NOT_EXIST (M, h)
  | an_delete c key M h start r : kv_command c key -> c.(opcode) = nvme_cmd_kv_delete ->
      answers (Command c start r) (M, h) 0 (delete key M, h)
  | an_collection M h : answers Collection (M, h) 0 (M, h).

Inductive spec_run : list request -> world -> list Z -> world -> Prop :=
  | sr_nil w : spec_run [] w [] w
  | sr_cons q qs w s w1 ss w2 : answers q w s w1 -> spec_run qs w1 ss w2 -> spec_run (q :: qs) w (s :: ss) w2.

Section system.
Context `{AllocatorLaws} (CityHash64 : list Z -> Z) (clock : nat -> Z) (delay : bool).

(** ** The device *)

Definition serve (q : request) (d : collector) (host : Z -> Z) : result (collector * (Z -> Z) * Z) :=
  match q with
  | Command c start r => '(k, host, _, r) ← kv_round CityHash64 clock d.(dev) host c start r; Ok (set_dev d k, host, r.(ret_status))
  | Collection => '(_, d) ← do_gc clock delay d; Ok (d, host, 0)
  end.

Fixpoint serve_all (qs : list request) (d : collector) (host : Z -> Z) : result (collector * (Z -> Z) * list Z) :=
  match qs with
  | [] => Ok (d, host, [])
  | q :: qs => '(d, host, s) ← serve q d host; '(d, host, ss) ← serve_all qs d host; Ok (d, host, s :: ss)
  end.

(** ** Requests the device is ready for, with the time they may take *)

Variant admissible (M : gmap (list Z) (list Z)) (d : collector) (host : Z -> Z) (B : Z) : request -> Z -> Prop :=
  | ad_store c key n m x b p g start r : let k := d.(dev) in
      kv_command c key -> c.(opcode) = nvme_cmd_kv_store -> cmd_value_length c = Ok n ->
      not_buffered k c (u8 (cmd_key_length c)) -> M !! key = None -> storable CityHash64 k key n m x b p g ->
      prp_ok c host n -> 0 <= start <= B -> B + store_cost m < 2 ^ 62 ->
      admissible M d host B (Command c start r) (store_cost m)
  | ad_retrieve c key v vlen start r : let k := d.(dev) in let ro := c.(Queues.offset) in
      kv_command c key -> c.(opcode) = nvme_cmd_kv_retrieve -> cmd_value_length c = Ok vlen ->
      not_buffered k c (u8 (cmd_key_length c)) -> unhindered k k.(leftover_credits) -> M !! key = Some v ->
      0 <= vlen -> 0 <= ro <= Z.of_nat (length v) -> ro mod 4 = 0 -> ro + vlen < 2 ^ 31 -> readable (Z.of_nat (length v)) vlen ro ->
      (forall w, retrieved v vlen ro = Some w -> host_ready c host (Z.of_nat (length w))) ->
      0 <= start <= B -> B + retrieve_cost k < 2 ^ 62 ->
      admissible M d host B (Command c start r) (retrieve_cost k)
  | ad_missing c key vlen start r : let k := d.(dev) in
      kv_command c key -> c.(opcode) = nvme_cmd_kv_retrieve \/ c.(opcode) = nvme_cmd_kv_delete -> cmd_value_length c = Ok vlen ->
      not_buffered k c (u8 (cmd_key_length c)) -> unhindered k k.(leftover_credits) -> M !! key = None ->
      c.(Queues.offset) mod 4 = 0 -> 0 <= c.(Queues.offset) -> 0 <= vlen -> c.(Queues.offset) + vlen < 2 ^ 31 ->
      0 <= start <= B -> B + NAND_MAX * (3 * k.(max_try) + 2104) < 2 ^ 62 ->
      admissible M d host B (Command c start r) (NAND_MAX * (3 * k.(max_try) + 2104))
  | ad_delete c key n x p start r : let k := d.(dev) in
      kv_command c key -> c.(opcode) = nvme_cmd_kv_delete -> cmd_value_length c = Ok 0 -> c.(Queues.offset) = 0 ->
      not_buffered k c (u8 (cmd_key_length c)) -> unhindered k k.(leftover_credits) ->
      0 <= x < (cache_of k).(nr_valid_tentries) -> slot_holds k x key n -> removable k x key n p -> lonely CityHash64 k M key x ->
      0 <= start <= B -> B + retrieve_cost k < 2 ^ 62 ->
      admissible M d host B (Command c start r) (retrieve_cost k)
  | ad_collection b x v live : let spp := sp_of (shard_in d) in let n := 32 * spp.(nchs) in let l := sweep_pairs spp live n in
      gc_ready d.(dev) d.(gcd) b x v live -> copy_ends spp x l / 8 + 1 < spp.(pgs_per_line) -> 0 <= B ->
      B + NAND_MAX * (copy_time l + n + 1) < 2 ^ 62 ->
      admissible M d host B Collection (NAND_MAX * (copy_time l + n + 1))
  | ad_overwrite c key l n x q b p g start r : let k := d.(dev) in
      kv_command c key -> c.(opcode) = nvme_cmd_kv_store -> cmd_value_length c = Ok n ->
      not_buffered k c (u8 (cmd_key_length c)) -> overwritable k key l n x q b p g -> roomy k k.(max_try) ->
      prp_ok c host n -> 0 <= start <= B -> B + store_cost k.(max_try) < 2 ^ 62 ->
      admissible M d host B (Command c start r) (store_cost k.(max_try)).

(** Every request of the sequence is admissible where the ones before it lead. *)
Inductive admissible_run : gmap (list Z) (list Z) -> collector -> (Z -> Z) -> Z -> list request -> Prop :=
  | ar_nil M d host B : admissible_run M d host B []
  | ar_cons M d host B q cost qs : admissible M d host B q cost ->
      (forall d' host' s M', serve q d host = Ok (d', host', s) -> answers q (M, host) s (M', host') ->
        holds CityHash64 clock d'.(dev) M' (B + cost) -> admissible_run M' d' host' (B + cost) qs) ->
      admissible_run M d host B (q :: qs).

(** A collection, then one more request. *)
Lemma collection_then M d d' host B cost q cost' : admissible M d host B Collection cost ->
  (forall t c, do_gc clock delay d = Ok (t, c) -> d' = c) -> admissible M d' host (B + cost) q cost' ->
  admissible_run M d host B [Collection; q].
Proof.
  intros A E A'. apply (ar_cons _ _ _ _ _ cost); [done|]. intros d1 h1 s M1 Es An _. cbn [serve] in Es.
  apply result_bind_ok in Es as ([t c] & Eg & [= <- <- <-]). apply E in Eg as <-. inversion An. subst.
  apply (ar_cons _ _ _ _ _ cost'); [done|]. intros. constructor.
Qed.

(** One request: the device serves it as the map would. *)
Lemma serve_ok M d host B q cost : holds CityHash64 clock d.(dev) M B -> d.(shadow) = [] -> admissible M d host B q cost ->
  exists d' host' s M', serve q d host = Ok (d', host', s) /\ answers q (M, host) s (M', host') /\
    holds CityHash64 clock d'.(dev) M' (B + cost) /\ d'.(shadow) = [].
Proof.
  intros Hh Sh A. destruct A as [c key n m x b p g start r k Kc Eo Ev Nb Hm St Pr Hs HB|c key v vlen start r k ro Kc Eo Ev Nb Cr Hm Hv Hr Hr4 Hrv Rd Hrdy Hs HB|
    c key vlen start r k Kc Eo Ev Nb Cr Hm Hr4 Hr Hv Hrv Hs HB|c key n x p start r k Kc Eo Ev Er Nb Cr Hx Sl Rm Ln Hs HB|b x v live spp n l Gr Hx HB0 HB|
    c key l n x q b p g start r k Kc Eo Ev Nb Ow Ry Pr Hs HB].
  - destruct (device_store_ok CityHash64 clock k M c key n m x b p g host start r B Hh Kc Eo Ev Nb Hm St Pr Hs HB) as (t & k' & E & Hh' & _).
    exists (set_dev d k'), host, 0, (<[key := host_bytes c host n]> M). cbn [serve]. fold k. rewrite E. split; [done|]. split; [by apply an_store|]. by split.
  - destruct (device_retrieve_ok CityHash64 clock k M c key v vlen host start r B Hh Kc Eo Ev Nb Cr Hm Hv Hr Hr4 Hrv Rd Hrdy Hs HB) as (t & i & k' & host' & E & _ & Hh' & _ & Rc).
    cbn [serve]. fold k. rewrite E. fold ro in Rc |- *. destruct (retrieved v vlen ro) as [w|] eqn:Er.
    + exists (set_dev d k'), host', 0, M. split; [done|]. split; [by apply (an_retrieve c key v vlen w)|]. by split.
    + subst host'. exists (set_dev d k'), host, KV_ERR_BUFFER_SMALL, M. split; [done|]. split; [by apply (an_small c key v vlen)|]. by split.
  - destruct (device_absent_ok CityHash64 clock k M c key vlen host start r B Hh Kc Eo Ev Nb Cr Hm Hr4 Hr Hv Hrv Hs HB) as (t & cb & k' & E & _ & Hh').
    exists (set_dev d k'), host, KV_ERR_KEY_NOT_EXIST, M. cbn [serve]. fold k. rewrite E. split; [done|]. split; [by apply (an_missing c key)|]. by split.
  - destruct (device_delete_ok CityHash64 clock k M c key n x p host start r B Hh Kc Eo Ev Er Nb Cr Hx Sl Rm Ln Hs HB) as (t & k' & E & Hh' & _).
    exists (set_dev d k'), host, 0, (delete key M). cbn [serve]. fold k. rewrite E. split; [done|]. split; [by apply an_delete|]. by split.
  - assert (Ed : d = mk_col d.(dev) d.(gcd) []) by (destruct d; cbn in *; by rewrite Sh).
    destruct (do_gc_ok CityHash64 clock delay d.(dev) M B d.(gcd) b x v live Hh Gr Hx HB0 HB) as (t & x' & d' & E & Hh' & _ & _ & Cl).
    exists d', host, 0, M. cbn [serve]. rewrite Ed, E. split; [done|]. split; [apply an_collection|]. split; [exact Hh'|apply Cl].
  - destruct (device_overwrite_ok CityHash64 clock k M c key l n x q b p g host start r B Hh Kc Eo Ev Nb Ow Ry Pr Hs HB) as (t & k' & E & _ & Hh' & _).
    exists (set_dev d k'), host, 0, (<[key := host_bytes c host n]> M). cbn [serve]. fold k. rewrite E. split; [done|]. split; [by apply an_store|]. by split.
Qed.

(** C1 (sequences of requests): a device that holds [M] serves every sequence of stores of new keys,
    stores over stored ones, retrieves, deletes and collections, each admissible where it comes, without a fault; the
    answers, the bytes in the host's memory and the map it holds in the end are those of the finite map.  What
    [admissible] asks of a command: no section has to be evicted from the mapping cache while it runs, no append
    buffer has its key, and no collection in the foreground is due; the pair of a delete and the old
    pair of an overwrite lie in one page, retrieves are [readable], and a collection has a victim, a line of pairs,
    the live ones of which fit into the collector's line. *)
Theorem run_refines qs M d host B : holds CityHash64 clock d.(dev) M B -> d.(shadow) = [] -> admissible_run M d host B qs ->
  exists d' host' ss M' B', serve_all qs d host = Ok (d', host', ss) /\ spec_run qs (M, host) ss (M', host') /\
    holds CityHash64 clock d'.(dev) M' B' /\ d'.(shadow) = [].
Proof.
  intros Hh Sh A. induction A as [M d host B|M d host B q cost qs A _ IH].
  - exists d, host, [], M, B. split; [done|]. split; [constructor|done].
  - destruct (serve_ok M d host B q cost Hh Sh A) as (d1 & h1 & s & M1 & E1 & An & Hh1 & Sh1).
    destruct (IH d1 h1 s M1 E1 An Hh1 Hh1 Sh1) as (d2 & h2 & ss & M2 & B2 & E2 & Sr & Hh2 & Sh2).
    exists d2, h2, (s :: ss), M2, B2. cbn [serve_all]. rewrite E1. cbn [mbind result_mbind result_bind]. rewrite E2.
    split; [done|]. split; [by apply (sr_cons q qs _ s (M1, h1))|done].
Qed.

End system.
