(* ===== verification/SampleGc.v ===== *)
(** * A collection on the small device

    The device of [Sample.v] with its two pairs; the line they are in is written
    up and the only one the collector can choose.  Line 1 is the one it writes
    to. *)

From stdpp Require Import gmap.
From S2P Require Import Prelude Fifo Lru Append WorkQueue Queues Prp.
From S2P Require Import ChModel Ssd Geometry PQueue Line Lines Pages Place Cache Heap Pairs Kv Directory Lookup Opening Storing Device Deleting Sample.
From S2P Require Import Gc Relocate Collect Cleaning Victim Sweep Rounds Reclaim System.

#[local] Ltac run := vm_compute; repeat split; congruence.

Definition vx_ssd : ssd :=
  mk_ssd ex_spp
    (fun _ => mk_channel (fun _ => mk_lun (fun _ => mk_plane (fun i =>
         mk_block (fun _ => mk_page (fun _ => if i =? 0 then SEC_VALID else SEC_FREE) 8 (if i =? 0 then PG_VALID else PG_FREE)) 32 0 0 0 0 0 0) 128) 1 7000 false)
       8 (mk_ch 0 0 0 26 0 152 (fun _ => 26)))
    ex_ch (buffer_init 4194304) false 0.

(** 4 grains of line 0 are counted as alive. *)
Definition vx_table : line_table := fun i =>
  if i =? 0 then mk_line 0 0 0 4 16380 0 0 1 0 false else mk_line i 0 0 0 0 0 0 0 0 false.
Definition vx_lm : line_mgmt :=
  mk_lm vx_table (seqZ 5 123) (mk_pqueue 2 129 129 (fun _ => 0)) [] 128 123 1 0.
Definition vx_shard : demand_shard :=
  mk_shard vx_ssd vx_lm (wp_of ex_spp 2 1) (wp_of ex_spp 3 0) (wp_of ex_spp 1 0) (wp_of ex_spp 4 0) (mk_wfc 0 0) 200 2
    (64 * 4096) (shard_of kx_both).(oob) (shard_of kx_both).(grain_bitmap) 0 0 0.
Definition vx_device : kv := set_shard kx_both vx_shard.
Definition vx_gcd : gc_data := mk_gcd (mk_ppa 0 0 0 0 0 0) UINT_MAX GRAIN_PER_PAGE false.

(** The two pairs are on page 2. *)
Definition vx_live (m : Z) : list (Z * Z) := if m =? 2 then [(1031, 2); (1043, 2)] else [].

Lemma vx_bits q : vx_shard.(grain_bitmap) q = if q =? 18 then true else if q =? 16 then true else false.
Proof. vm_compute. reflexivity. Qed.

Lemma vx_cells : vx_shard.(oob) = (fun y j => (if y =? 2 then (fun x => if x =? 2 then 8589935635 else if x =? 0 then 8589935623 else 2)
  else if y =? 2 then (fun x => if x =? 0 then 8589935623 else 2) else (fun _ => 2)) j).
Proof. vm_compute. reflexivity. Qed.

Lemma vx_oob y j : y <> 2 \/ 4 <= j -> vx_shard.(oob) y j = 2.
Proof. intros N. rewrite vx_cells. repeat case_cmp; try done; lia. Qed.

Lemma vx_table_cases i : i = 0 \/ (i <> 0 /\ vx_table i = mk_line i 0 0 0 0 0 0 0 0 false).
Proof. destruct (Z.eq_dec i 0) as [|N]; [by left|right]. split; [done|]. unfold vx_table. by rewrite (proj2 (Z.eqb_neq i 0)). Qed.

Lemma vx_queued i : queued vx_lm i <-> i = 0.
Proof. split; [by intros (j & _ & <-)|]. intros ->. by exists 1. Qed.

Lemma vx_listed i : listed vx_lm i <-> 5 <= i < 128.
Proof. unfold listed. cbn [free_line_list full_line_list vx_lm]. rewrite app_nil_r, elem_of_seqZ. lia. Qed.

Lemma vx_lm_ok : lines_inv ex_spp vx_lm.
Proof.
  destruct ex_consts as (B & Gr & _). split.
  - split; rewrite ?B, ?Gr; try reflexivity.
    + intros i Hi. change (lines vx_lm) with vx_table. unfold counts_ok.
      destruct (vx_table_cases i) as [->|[_ ->]]; (split; [reflexivity|]); cbn; lia.
    + cbn [free_line_list full_line_list vx_lm]. rewrite app_nil_r. apply NoDup_seqZ.
    + intros i Hi. apply vx_listed in Hi. lia.
    + intros i Hi. rewrite vx_listed. apply vx_queued in Hi. lia.
    + intros i ->%vx_queued. reflexivity.
    + intros i Hi Hn. rewrite vx_queued in Hn. change (lines vx_lm) with vx_table. by destruct (vx_table_cases i) as [->|[_ ->]].
    + intros i Hi. change (lines vx_lm) with vx_table. cbn in Hi. apply elem_of_seqZ in Hi.
      destruct (vx_table_cases i) as [->|[_ ->]]; [lia|done].
    + cbn. lia.
  - split; cbn; try lia.
    + intros j Hj. cbn. unfold vx_table. cbn. assert (j = 1) as -> by lia. reflexivity.
    + intros j Hj. lia.
Qed.

Lemma vx_ssd_ok : tree_ok vx_ssd.
Proof.
  assert (E26 : u8 26 = 26) by reflexivity. destruct ex_consts as (B & _).
  split; [apply ex_geom| | |].
  - intros i Hi. split; [done|]. intros j Hj. split; [done|intros; symmetry; exact B|done].
  - intros i Hi. split; [|cbn; lia]. split; cbn -[u8]; rewrite ?NR_val, ?E26; try lia;
      intros; unfold slot; cbn; lia.
  - split; [apply ex_ch_inv|cbn; lia].
Qed.

Lemma vx_shard_ok : shard_inv vx_shard.
Proof. split; [apply vx_ssd_ok|apply vx_lm_ok]. Qed.

Definition vx_map : gmap (list Z) (list Z) := {[kx_key2 := kx_value2; kx_key := kx_value]}.

Lemma vx_holds : holds kx_hash cx_clock vx_device vx_map (7000 + store_cost 5 + store_cost 6).
Proof.
  apply (holds_shard kx_hash cx_clock kx_both vx_shard _ (7000 + store_cost 5 + store_cost 6)).
  - vm_compute. reflexivity.
  - vm_compute. reflexivity.
  - vm_compute. reflexivity.
  - split; [apply vx_ssd_ok|reflexivity| |]; intros; vm_compute; intuition congruence.
  - apply kx_both_ok.
Qed.

(** Line 1 is free from its first page on. *)
Lemma vx_index m i : 0 <= m < 2048 -> m <> 2 -> 0 <= i < 8 -> vx_shard.(grain_bitmap) (pgidx ex_spp (page_at ex_spp 0 m) * 8 + i) = false.
Proof.
  intros Hm N Hi. rewrite vx_bits. assert (X : pgidx ex_spp (page_at ex_spp 0 m) <> 2).
  { intros E. apply N, (index_inj ex_spp 0 m 2 ex_geom); [run|exact Hm|run|]. by rewrite E. }
  repeat case_cmp; try done; lia.
Qed.

Lemma vx_line1 m i : 0 <= m < 2048 -> 0 <= i < 8 -> vx_shard.(grain_bitmap) (pgidx ex_spp (page_at ex_spp 1 m) * 8 + i) = false.
Proof.
  intros Hm Hi. rewrite vx_bits. assert (X : pgidx ex_spp (page_at ex_spp 1 m) <> 2).
  { intros E. destruct (line_inj ex_spp 1 m 0 2 ex_geom) as [N _]; [run|run|exact Hm|run| |discriminate N]. by rewrite E. }
  repeat case_cmp; try done; lia.
Qed.

Lemma vx_at : gc_at vx_shard vx_gcd 1 0.
Proof.
  assert (Pg : forall m, 0 <= m < 2048 -> 0 <= (page_at ex_spp 1 m).(g_pg)).
  { intros m Hm. destruct (page_at_ok ex_spp ex_geom 1 m) as [V _]; [run|exact Hm|]. apply (valid_ppa_iff _ ex_geom) in V. lia. }
  apply (gc_idle _ _ _ _ 0); [done|done| |].
  - split.
    + apply vx_shard_ok.
    + split; [reflexivity|]. split; [|run]. split; [run|]. change (lm vx_shard) with vx_lm. rewrite vx_listed, vx_queued. lia.
    + intros m Hm. reflexivity.
    + intros m i Hm Hi. apply vx_line1; [exact Hm|exact Hi].
    + intros m Hm. specialize (Pg m Hm). change (0 <= 0 <= GRAIN_PER_PAGE * (page_at ex_spp 1 m).(g_pg)). rewrite GPP_val. lia.
    + run.
  - intros m Hm. specialize (Pg m Hm). change (0 <= 0 <= GRAIN_PER_PAGE * (page_at ex_spp 1 m).(g_pg) + (if m =? 0 then 0 else 0)).
    rewrite GPP_val. case_cmp; lia.
Qed.

Definition vx_start : collector := mk_col vx_device vx_gcd [].

Lemma vx_dead P l n i : P <> 2 \/ 4 <= i -> (forall j, i <= j < 8 -> vx_shard.(grain_bitmap) (P * 8 + j) = false) ->
  0 <= i -> i + Z.of_nat n = 8 -> l = [] -> laid vx_start P i l.
Proof.
  intros HP Hb Hi Hn ->. revert i HP Hb Hi Hn. induction n as [|n IH]; intros i HP Hb Hi Hn.
  - apply laid_end. rewrite GPP_val. lia.
  - apply laid_dead; rewrite ?GPP_val; change (shard_in vx_start) with vx_shard.
    + lia.
    + rewrite vx_oob by lia. done.
    + apply Hb. lia.
    + apply IH; [lia| |lia|lia]. intros j Hj. apply Hb. lia.
Qed.

Lemma vx_page m : 0 <= m < 2048 -> laid vx_start (pgidx ex_spp (page_at ex_spp 0 m)) 0 (vx_live m).
Proof.
  intros Hm. unfold vx_live. destruct (Z.eqb_spec m 2) as [->|N].
  - change (pgidx ex_spp (page_at ex_spp 0 2)) with 2.
    apply (laid_pair vx_start 2 0 1031 2); [done|run|run|run|split; run| |done|].
    { intros j Hj _. change (shard_in vx_start) with vx_shard. assert (j = 1) as -> by lia. by rewrite vx_bits. }
    apply (laid_pair vx_start 2 2 1043 2); [done|run|run|run|split; run| |done|].
    { intros j Hj _. change (shard_in vx_start) with vx_shard. assert (j = 3) as -> by lia. by rewrite vx_bits. }
    apply (vx_dead 2 [] 4); try done; [by right|]. intros j Hj. rewrite vx_bits. repeat case_cmp; try done; lia.
  - apply (vx_dead _ [] 8); try done; [left|intros j Hj; by apply vx_index].
    intros E. apply N, (index_inj ex_spp 0 m 2 ex_geom); [run|exact Hm|run|]. by rewrite E.
Qed.

Lemma vx_ready : gc_ready vx_device vx_gcd 1 0 0 vx_live.
Proof.
  split.
  - exact vx_at.
  - by left.
  - run.
  - eexists. vm_compute. reflexivity.
  - reflexivity.
  - split.
    + intros m Hm. split; [reflexivity|by apply vx_page].
    + intros q E _. unfold page_at_ppa. reflexivity.
    + left. reflexivity.
  - run.
Qed.

Lemma do_gc_correct_witness : exists t x' c', do_gc cx_clock true vx_start = Ok (t, c') /\
  holds kx_hash cx_clock c'.(dev) vx_map (7000 + store_cost 5 + store_cost 6 + NAND_MAX * 263) /\
  gc_at (shard_in c') c'.(gcd) 1 x' /\ x' <= 12 /\ collected vx_start c' 1 0.
Proof.
  apply (do_gc_correct kx_hash cx_clock true vx_device vx_map (7000 + store_cost 5 + store_cost 6) vx_gcd 1 0 0 vx_live).
  - exact vx_holds.
  - exact vx_ready.
  - run.
  - run.
  - run.
Defined.

(** Seventy grains fill eight pages, the last of which ends a wordline. *)
Lemma copy_grains_correct_witness : exists s' g', copy_grains cx_clock vx_shard vx_gcd 1031 70 = Ok (index_of vx_shard 1 0 * 8 + 0, s', g') /\
  gc_at s' g' 1 70 /\ g'.(gc_map) = false /\ copied vx_shard s' 1 0 70 1031 /\ moves vx_shard s' GC_IO 1 0 /\
  nand_ready cx_clock s'.(sd) (7000 + NAND_MAX * 70) /\
  issued cx_clock vx_shard [mk_ppa 7 1 0 0 0 0] s'.
Proof.
  apply (copy_grains_correct cx_clock vx_shard vx_gcd 1 0 1031 70 7000).
  - exact vx_at.
  - run.
  - lia.
  - by left.
  - run.
  - run.
  - run.
  - run.
  - exact ex_geom.
  - split; [apply vx_ssd_ok|reflexivity| |]; intros; vm_compute; intuition congruence.
  - lia.
  - run.
Defined.

(** Fewer lines are free than the threshold: the background thread collects. *)
Lemma bg_gc_turn_correct_witness :
  (forall gcing c, should_gc (shard_in c) = false \/ gcing <> 0 -> bg_gc_turn cx_clock true gcing c = Ok (gcing, c)) /\
  exists t c1 c', do_gc cx_clock true vx_start = Ok (t, c1) /\ bg_gc_turn cx_clock true 0 vx_start = Ok (0, c') /\
    holds kx_hash cx_clock c'.(dev) vx_map (7000 + store_cost 5 + store_cost 6 + NAND_MAX * 263) /\
    (shard_in c').(lm).(free_line_list) = vx_lm.(free_line_list) ++ [0] /\
    (shard_in c').(wfc) = mk_wfc (if t =? UINT_MAX then 0 else u32 (0 + 16380)) 16380.
Proof.
  apply (bg_gc_turn_correct kx_hash cx_clock true vx_device vx_map (7000 + store_cost 5 + store_cost 6) vx_gcd 1 0 0 vx_live).
  - exact vx_holds.
  - exact vx_ready.
  - reflexivity.
  - run.
  - run.
  - run.
Defined.

(** ** The first value is read after the collection *)

Definition gc_after (c : collector) : collector := match do_gc cx_clock true c with Ok (_, c) => c | Err _ => c end.
Definition vx_after : collector := gc_after vx_start.
Definition vx_bound : Z := 7000 + store_cost 5 + store_cost 6.

(** What the retrieve needs of a state. *)
Definition vx_facts (k : kv) : Prop :=
  k.(max_try) = 6 /\ should_gc_high (shard_of k) = false /\ (__get_append_buf k.(ab) kx_retrieve.(Queues.key) 2 true).1 = UINT_MAX /\
  (__get_append_buf k.(ab) kx_retrieve.(Queues.key) 2 false).1 = UINT_MAX /\
  cached_now k + GRAIN_PER_PAGE * 0 < (cache_of k).(max_cached_tentries).

Lemma vx_after_facts : vx_facts vx_after.(dev).
Proof. vm_compute. split; [reflexivity|split; [reflexivity|split; [reflexivity|split; reflexivity]]]. Qed.

Lemma vx_after_ok t c : do_gc cx_clock true vx_start = Ok (t, c) -> vx_after = c.
Proof. unfold vx_after, gc_after. by intros ->. Qed.

Lemma vx_retrieve d host : vx_facts d.(dev) -> admissible kx_hash vx_map d host (vx_bound + NAND_MAX * 263) (Command kx_retrieve 0 kx_ret)
  (retrieve_cost d.(dev)).
Proof.
  intros (F1 & F2 & F3 & F4 & F5).
  apply (ad_retrieve kx_hash vx_map d host (vx_bound + NAND_MAX * 263) kx_retrieve kx_key kx_value 4096 0 kx_ret).
  - apply kx_named.
  - reflexivity.
  - reflexivity.
  - intros []; [exact F3|exact F4].
  - split; [right; exact F5|right; exact F2].
  - reflexivity.
  - lia.
  - cbn. lia.
  - reflexivity.
  - by vm_compute.
  - left. by vm_compute.
  - intros w [= <-]. by apply kx_one_ready.
  - by vm_compute.
  - unfold retrieve_cost. rewrite F1. by vm_compute.
Qed.

Lemma run_refines_witness : exists d' host' ss M' B',
  serve_all kx_hash cx_clock true [Collection; Command kx_retrieve 0 kx_ret] vx_start kx_host = Ok (d', host', ss) /\
  spec_run [Collection; Command kx_retrieve 0 kx_ret] (vx_map, kx_host) ss (M', host') /\ holds kx_hash cx_clock d'.(dev) M' B' /\ d'.(shadow) = [].
Proof.
  apply (run_refines kx_hash cx_clock true [Collection; Command kx_retrieve 0 kx_ret] vx_map vx_start kx_host vx_bound).
  - exact vx_holds.
  - reflexivity.
  - apply (collection_then kx_hash cx_clock true vx_map vx_start vx_after kx_host vx_bound (NAND_MAX * 263) _ (retrieve_cost vx_after.(dev))).
    + apply (ad_collection kx_hash vx_map vx_start kx_host vx_bound 1 0 0 vx_live); [exact vx_ready|run|run|run].
    + exact vx_after_ok.
    + exact (vx_retrieve vx_after _ vx_after_facts).
Defined.
