(* ===== verification/Setup.v ===== *)
(** * Setting the device up ([demand_init], [conv_init_ftl] and
    [conv_init_namespace] in [demand_ftl.c])

    Memory that is allocated holds what the state already holds there, as
    nothing is known of it.  Threads, files under [/proc] and the statistics are
    left out; the build has one shard. *)

From stdpp Require Import gmap.
From S2P Require Import Prelude Fifo Lru Append WorkQueue Queues Prp.
From S2P Require Import ChModel Ssd Geometry PQueue Line Lines Pages Place Cache Heap Pairs Kv Directory Lookup Opening Storing Device Sample.
From S2P Require Import Gc Relocate Collect Cleaning Victim Sweep Rounds Reclaim.

Definition SSD_PARTITIONS : Z := 1.

(** [op_area_pcent] is 0.07, of which only [pba_pcent] is made. *)
Record convparams := mk_cp { cp_thres_lines : Z; cp_thres_lines_high : Z; enable_gc_delay : bool; pba_pcent : Z }.
Definition conv_init_params : convparams := mk_cp 8 2 true 107.

Definition set_params (s : demand_shard) (cpp : convparams) (d : ssd) : demand_shard :=
  mk_shard d s.(lm) s.(wp) s.(map_wp) s.(gc_wp) s.(map_gc_wp) s.(wfc) cpp.(cp_thres_lines) cpp.(cp_thres_lines_high)
    s.(Lines.offset) s.(oob) s.(grain_bitmap) s.(map_pgs_this_gc) s.(gc_pgs_this_gc) s.(map_gc_pgs_this_gc).

(** [dram_mb] is [cache_dram_mb] of the module's configuration. *)
Definition demand_init (k : kv) (dram_mb : Z) : kv :=
  let s := shard_of k in
  let spp := sp_of s in
  let s := set_oob s (fun i j => if (0 <=? i) && (i <? spp.(tt_pgs)) && (0 <=? j) && (j <? GRAIN_PER_PAGE) then 2 else s.(oob) i j) in
  let s := set_bitmap s (memset s.(grain_bitmap) 0 (spp.(tt_pgs) * GRAIN_PER_PAGE) false) in
  let '(_, c) := init_cache (cache_of k) spp.(tt_pgs) (u64 (Z.shiftl dram_mb 20)) in
  let s := set_shard_offset s 0 in
  let k := set_fl k (set_victims (set_ca (set_sh k.(fl) s) c) 0 0) in
  set_ab (set_max_try k 0) (init_append_bufs k.(ab)).

(** Page 0 is taken from the user's line and given up. *)
Definition skip_first_page (s : demand_shard) : result demand_shard :=
  cur_page ← get_new_page s USER_IO;
  pgidx ← ppa2pgidx (sp_of s) cur_page;
  _ ← assert_ (pgidx =? 0);
  s ← advance_write_pointer s USER_IO;
  s ← mark_page_valid s cur_page;
  s ← mark_grain_valid s (PPA_TO_PGA pgidx 0) GRAIN_PER_PAGE;
  mark_grain_invalid s (PPA_TO_PGA pgidx 0) GRAIN_PER_PAGE.

Definition conv_init_ftl (k : kv) (g : gc_data) (cpp : convparams) (d : ssd) (dram_mb : Z) : result (kv * gc_data) :=
  let s := set_params (shard_of k) cpp d in
  s ← init_lines s;
  s ← prepare_write_pointer s USER_IO;
  s ← prepare_write_pointer s MAP_IO;
  s ← prepare_write_pointer s GC_MAP_IO;
  s ← prepare_write_pointer s GC_IO;
  let k := demand_init (set_shard k (init_write_flow_control s)) dram_mb in
  s ← skip_first_page (shard_of k);
  Ok (set_shard k s, alloc_gc_mem g).

(** The last result is the size of the namespace. *)
Definition conv_init_namespace (k : kv) (g : gc_data) (size dram_mb : Z) : result (kv * gc_data * Z) :=
  spp ← ssd_init_params size SSD_PARTITIONS;
  let cpp := conv_init_params in
  d ← ssd_init (shard_of k).(sd) spp;
  '(k, g) ← conv_init_ftl k g cpp d dram_mb;
  let v := k.(fl).(vb) in
  Ok (set_fl k (set_vb k.(fl) (mk_vb v.(hts) 0 0)), g, u64 (size * 100) / cpp.(pba_pcent)).

(** ** Write pointers *)

(** The first free line becomes the line of [t]. *)
Record prepared (s s' : demand_shard) (t : io_type) (c : Z) (rest : list Z) : Prop := {
  pr_lines : lines_inv (sp_of s') s'.(lm);
  pr_wp : __get_wp s' t = wp_of (sp_of s') c 0;
  pr_wps : forall u, u <> t -> __get_wp s' u = __get_wp s u;
  pr_open : is_open s'.(lm) (sp_of s') c;
  pr_free : s'.(lm).(free_line_list) = rest;
  pr_full : s'.(lm).(full_line_list) = s.(lm).(full_line_list);
  pr_others : forall i, is_open s.(lm) (sp_of s) i -> is_open s'.(lm) (sp_of s') i;
  pr_counts : forall i, ((s'.(lm).(lines) i).(vgc), (s'.(lm).(lines) i).(igc)) = ((s.(lm).(lines) i).(vgc), (s.(lm).(lines) i).(igc));
  pr_thres : s'.(gc_thres_lines_high) = s.(gc_thres_lines_high);
  pr_dev : s'.(sd) = s.(sd) /\ s'.(oob) = s.(oob) /\ s'.(grain_bitmap) = s.(grain_bitmap) /\ s'.(Lines.offset) = s.(Lines.offset)
}.

Lemma wp_first spp c : geom spp -> 0 <= c < spp.(blks_per_pl) -> wp_of spp c 0 = mk_wp c 0 0 0 c 0.
Proof.
  intros G Hc. destruct (geom_consts _ G) as (E1 & _ & _ & _ & E4 & Hn & _). unfold wp_of, page_at. rewrite E1. cbn [g_ch g_lun g_pg].
  rewrite Z.div_0_l, Z.mod_0_l, Z.div_0_l, Z.mod_0_l by lia. rewrite E4. reflexivity.
Qed.

Lemma prepare_ok s t c rest : geom (sp_of s) -> lines_inv (sp_of s) s.(lm) -> s.(lm).(free_line_list) = c :: rest ->
  exists s', prepare_write_pointer s t = Ok s' /\ prepared s s' t c rest.
Proof.
  intros G I E. destruct (get_next_free_line_ok (sp_of s) s.(lm) c rest G I E) as (l & El & Il & Oc & Ln & Fr & Fu & Qu & V0 & I0).
  pose proof (proj1 Oc) as Hc. destruct (geom_consts _ G) as (_ & _ & _ & _ & _ & _ & Hb & _).
  unfold prepare_write_pointer. rewrite El. cbn [mbind result_mbind result_bind]. rewrite (line_at_ok _ _ _ Il Hc). cbn [mbind result_mbind result_bind].
  destruct (li_table _ _ Il c Hc) as (Hid & Cn). set (x := set_map (lines l c) (is_map_io t)). eexists. split; [done|].
  assert (I' : lines_inv (sp_of s) (set_line l c x)) by (apply inv_line; try done; [intros Q; by destruct Oc as (_ & _ & Nq)|intros _; unfold x; cbn; by rewrite Ln]).
  split; change (sp_of _) with (sp_of s).
  - exact I'.
  - rewrite Hid, (wp_first _ _ G Hc), u32_small by lia. by destruct t.
  - intros u Hu. by destruct t, u.
  - destruct Oc as (O1 & O2 & O3). split; [exact O1|]. split; [exact O2|exact O3].
  - exact Fr.
  - exact Fu.
  - intros i (O1 & O2 & O3). split; [exact O1|]. unfold listed, queued in *. cbn [lm set_lm set_wp set_line set_lines free_line_list full_line_list victim_line_pq].
    rewrite Fr, Fu, Qu. rewrite E in O2. split; [|exact O3]. intros X. apply O2. cbn. by constructor.
  - intros i. cbn. rewrite upd_case. destruct (Z.eqb_spec i c) as [->|]; by rewrite <- Ln.
  - by destruct t.
  - by destruct t.
Qed.

Lemma init_lines_thres s s' : init_lines s = Ok s' -> s'.(gc_thres_lines_high) = s.(gc_thres_lines_high).
Proof. unfold init_lines. intros E. by ok_steps. Qed.

(** ** A fresh device *)

Definition fresh_ssd (d : ssd) : Prop := forall i, 0 <= i < d.(sp).(nchs) -> fresh_channel d.(sp) (d.(ch) i).

Lemma fresh_at d q : fresh_ssd d -> geom d.(sp) -> page_ok d.(sp) q ->
  (blk_at d q).(Ssd.vgc) = 0 /\ (blk_at d q).(Ssd.igc) = 0 /\ ((blk_at d q).(pg) q.(g_pg)).(status) = PG_FREE.
Proof.
  intros F G [V _]. apply (valid_ppa_iff _ G) in V as (V1 & V2 & V3 & V4 & V5). destruct (geom_consts _ G) as (_ & _ & E2 & E3 & E4 & _).
  destruct (F _ V1) as (N & _ & L). rewrite N, E4 in L. destruct (L q.(g_lun) V2) as (_ & _ & B).
  destruct (B q.(g_pl) q.(g_blk)) as (Np & _ & _ & I0 & V0 & _ & _ & P); [rewrite E3, V3; lia|exact V4|].
  unfold blk_at. split; [done|]. split; [done|]. apply (P q.(g_pg)). rewrite Np, E2. exact V5.
Qed.

(** The first page of a line that has just been opened. *)
Lemma fresh_line s t c : shard_inv s -> fresh_ssd s.(sd) -> wp_ok s t c 0 ->
  (forall q, 0 <= q < (sp_of s).(tt_pgs) * GRAIN_PER_PAGE -> bit s q = false) ->
  (s.(lm).(lines) c).(vgc) = 0 -> (s.(lm).(lines) c).(igc) = 0 -> next_free s t c 0 /\ dead_ok s c 0 0.
Proof.
  intros I F W Hb Hv Hi. pose proof (sh_geom _ I) as G. destruct W as (W1 & (Hc & W2) & W3).
  assert (At : forall m, 0 <= m < (sp_of s).(pgs_per_line) -> (blk_at s.(sd) (page_of s c m)).(Ssd.vgc) = 0 /\
    (blk_at s.(sd) (page_of s c m)).(Ssd.igc) = 0 /\ (page_at_ppa s (page_of s c m)).(status) = PG_FREE /\ 0 <= (page_of s c m).(g_pg)).
  { intros m Hm. pose proof (page_at_ok _ G c m Hc Hm) as P. destruct (fresh_at s.(sd) (page_of s c m) F G P) as (A1 & A2 & A3).
    split; [done|]. split; [done|]. split; [done|]. destruct P as [V _]. apply (valid_ppa_iff _ G) in V. lia. }
  split; [split|].
  - exact I.
  - by split.
  - intros m Hm. apply (At m Hm).
  - intros m i Hm Hi'. apply Hb. pose proof (pgidx_range _ G _ (page_at_ok _ G c m Hc Hm)). rewrite GPP_val in *. lia.
  - intros m Hm. destruct (At m Hm) as (-> & _ & _ & X). rewrite GPP_val. lia.
  - rewrite Hv, Hi. rewrite GPP_val. lia.
  - intros m Hm. destruct (At m Hm) as (_ & -> & _ & X). rewrite GPP_val. case_cmp; lia.
Qed.

Lemma skip_first_ok s : next_free s USER_IO 0 0 -> dead_ok s 0 0 0 ->
  exists s', skip_first_page s = Ok s' /\ next_free s' USER_IO 0 1 /\ dead_ok s' 0 1 0 /\ moves s s' USER_IO 0 0 /\
    timing_kept s s' /\ (forall q, bit s' q = bit s q) /\ s'.(oob) = s.(oob).
Proof.
  intros F D. pose proof (sh_geom _ (nf_inv _ _ _ _ F)) as G. destruct (nf_wp _ _ _ _ F) as (_ & (Hb & _) & Hn).
  destruct (geom_consts _ G) as (E1 & _ & _ & _ & E4 & Hc & _ & _ & _ & _ & El & _).
  destruct (place_take s USER_IO 0 0 F) as (s1 & s2 & E & E5 & E6 & _ & U & T & M & R1 & R2 & _ & I2); [lia|].
  destruct (line_page s 0 0 G Hb Hn) as (_ & _ & _ & Ei). pose proof (mv_sp _ _ _ _ _ M) as Es.
  assert (Z0 : index_of s 0 0 = 0).
  { unfold pgidx, page_at. rewrite E1, E4. cbn [g_ch g_lun g_blk g_pg]. change (0 / 8) with 0. change (0 mod 8) with 0. rewrite Z.div_0_l, Z.mod_0_l by lia. reflexivity. }
  destruct (place_waste_ok s2 USER_IO 0 0 0 U) as (s3 & s4 & E7 & E8 & U4 & D4 & T4 & M4 & R4 & B4);
    [intros m; rewrite Es, I2; apply D|rewrite GPP_val; lia|]. rewrite Es, Z0 in E7, E8. exists s4. split.
  { unfold skip_first_page. rewrite E. cbn [mbind result_mbind result_bind]. rewrite Ei, Z0. cbn [mbind result_mbind result_bind assert_ Z.eqb].
    rewrite E5. cbn [mbind result_mbind result_bind]. rewrite E6. cbn [mbind result_mbind result_bind].
    change (PPA_TO_PGA 0 0) with (0 * GRAIN_PER_PAGE + 0). change (GRAIN_PER_PAGE - 0) with GRAIN_PER_PAGE in E7, E8.
    rewrite E7. cbn [mbind result_mbind result_bind]. exact E8. }
  split; [by apply (place_next s4 USER_IO 0 0)|]. split; [by apply (dead_next _ _ 0 GRAIN_PER_PAGE)|].
  split; [eapply moves_trans; [|exact M|exact M4]; lia|]. split; [by etransitivity|]. split; [|congruence].
  intros q. by rewrite B4, R1.
Qed.

Section setup.
Context `{AllocatorLaws} (CityHash64 : list Z -> Z) (clock : nat -> Z).

(** The device after [conv_init_namespace]. *)
Record set_up (k : kv) (g : gc_data) (B : Z) : Prop := {
  su_holds : holds CityHash64 clock k ∅ B;
  su_user : next_free (shard_of k) USER_IO 0 1 /\ (shard_of k).(Lines.offset) = 0;
  su_map : next_free (shard_of k) MAP_IO 1 0;
  su_gc_map : next_free (shard_of k) GC_MAP_IO 2 0;
  su_gc : gc_at (shard_of k) g 3 0;
  su_free : (shard_of k).(lm).(free_line_list) = seqZ 4 ((sp_of (shard_of k)).(blks_per_pl) - 4) /\ (shard_of k).(lm).(full_line_list) = [];
  su_tries : k.(max_try) = 0;
  su_entries : (cache_of k).(nr_valid_tentries) = 8 * (sp_of (shard_of k)).(tt_pgs);
  su_thres : (shard_of k).(gc_thres_lines_high) = 2;
  su_table : forall i, 0 <= i < (cache_of k).(nr_valid_tpages) -> ((cache_of k).(ht) i).(t_ppa) = UINT_MAX /\ ((cache_of k).(ht) i).(mem) = None;
  su_bufs : forall i, 0 <= i < NUM_APPEND_BUFS -> k.(ab).(append_klens) i = 0;
  su_cached : cached_now k = 0
}.

(** The lines of the four write pointers. *)
Lemma pointers_ok s : geom (sp_of s) -> 4 <= (sp_of s).(blks_per_pl) ->
  exists s1 s2 s3 s4 s5, init_lines s = Ok s1 /\ prepare_write_pointer s1 USER_IO = Ok s2 /\ prepare_write_pointer s2 MAP_IO = Ok s3 /\
    prepare_write_pointer s3 GC_MAP_IO = Ok s4 /\ prepare_write_pointer s4 GC_IO = Ok s5 /\
    s5.(sd) = s.(sd) /\ lines_inv (sp_of s) s5.(lm) /\ s5.(lm).(free_line_list) = seqZ 4 ((sp_of s).(blks_per_pl) - 4) /\
    s5.(lm).(full_line_list) = [] /\ s5.(gc_thres_lines_high) = s.(gc_thres_lines_high) /\ forall t c, (t, c) ∈ [(USER_IO, 0); (MAP_IO, 1); (GC_MAP_IO, 2); (GC_IO, 3)] ->
      wp_ok s5 t c 0 /\ (s5.(lm).(lines) c).(vgc) = 0 /\ (s5.(lm).(lines) c).(igc) = 0.
Proof.
  intros G Hb. destruct (init_lines_correct s G) as (s1 & E1 & I1 & D1 & L1 & F1 & _).
  pose proof (f_equal sp D1) as Q1. change (sp_of s1 = sp_of s) in Q1.
  set (n := blks_per_pl (sp_of s)) in *.
  assert (Fr : seqZ 0 n = 0 :: 1 :: 2 :: 3 :: seqZ 4 (n - 4)).
  { rewrite (seqZ_cons 0), (seqZ_cons (Z.succ 0)), (seqZ_cons (Z.succ (Z.succ 0))), (seqZ_cons (Z.succ (Z.succ (Z.succ 0)))) by lia.
    repeat f_equal; lia. }
  rewrite Fr in F1. pose proof (li_free _ _ I1) as Z0. rewrite F1 in Z0.
  destruct (prepare_ok s1 USER_IO 0 _ ltac:(by rewrite Q1) I1 F1) as (s2 & E2 & P2).
  pose proof (f_equal sp (proj1 (pr_dev _ _ _ _ _ P2))) as Q2. change (sp_of s2 = sp_of s1) in Q2.
  destruct (prepare_ok s2 MAP_IO 1 _ ltac:(by rewrite Q2, Q1) (pr_lines _ _ _ _ _ P2) (pr_free _ _ _ _ _ P2)) as (s3 & E3 & P3).
  pose proof (f_equal sp (proj1 (pr_dev _ _ _ _ _ P3))) as Q3. change (sp_of s3 = sp_of s2) in Q3.
  destruct (prepare_ok s3 GC_MAP_IO 2 _ ltac:(by rewrite Q3, Q2, Q1) (pr_lines _ _ _ _ _ P3) (pr_free _ _ _ _ _ P3)) as (s4 & E4 & P4).
  pose proof (f_equal sp (proj1 (pr_dev _ _ _ _ _ P4))) as Q4. change (sp_of s4 = sp_of s3) in Q4.
  destruct (prepare_ok s4 GC_IO 3 _ ltac:(by rewrite Q4, Q3, Q2, Q1) (pr_lines _ _ _ _ _ P4) (pr_free _ _ _ _ _ P4)) as (s5 & E5 & P5).
  pose proof (f_equal sp (proj1 (pr_dev _ _ _ _ _ P5))) as Q5. change (sp_of s5 = sp_of s4) in Q5.
  assert (Q : sp_of s5 = sp_of s) by congruence. destruct (geom_consts _ G) as (_ & _ & _ & _ & _ & Hc & _ & _ & _ & _ & El & _).
  exists s1, s2, s3, s4, s5. split; [done|]. split; [done|]. split; [done|]. split; [done|]. split; [done|].
  split; [by rewrite (proj1 (pr_dev _ _ _ _ _ P5)), (proj1 (pr_dev _ _ _ _ _ P4)), (proj1 (pr_dev _ _ _ _ _ P3)), (proj1 (pr_dev _ _ _ _ _ P2))|].
  split; [rewrite <- Q; apply P5|]. split; [apply P5|].
  split; [by rewrite (pr_full _ _ _ _ _ P5), (pr_full _ _ _ _ _ P4), (pr_full _ _ _ _ _ P3), (pr_full _ _ _ _ _ P2)|].
  split; [by rewrite (pr_thres _ _ _ _ _ P5), (pr_thres _ _ _ _ _ P4), (pr_thres _ _ _ _ _ P3), (pr_thres _ _ _ _ _ P2), (init_lines_thres _ _ E1)|].
  assert (Cn : forall i, i ∈ 0 :: 1 :: 2 :: 3 :: seqZ 4 (n - 4) -> (s5.(lm).(lines) i).(vgc) = 0 /\ (s5.(lm).(lines) i).(igc) = 0).
  { intros i Hi. destruct (Z0 i Hi) as [Z1 Z2]. pose proof (pr_counts _ _ _ _ _ P2 i) as C2. pose proof (pr_counts _ _ _ _ _ P3 i) as C3.
    pose proof (pr_counts _ _ _ _ _ P4 i) as C4. pose proof (pr_counts _ _ _ _ _ P5 i) as C5. rewrite C4, C3, C2, Z1, Z2 in C5. by injection C5. }
  assert (Wp : forall t c, __get_wp s5 t = wp_of (sp_of s) c 0 -> is_open s5.(lm) (sp_of s5) c -> c ∈ 0 :: 1 :: 2 :: 3 :: seqZ 4 (n - 4) ->
    wp_ok s5 t c 0 /\ (s5.(lm).(lines) c).(vgc) = 0 /\ (s5.(lm).(lines) c).(igc) = 0).
  { intros t c W O Hi. split; [|by apply Cn]. split; [by rewrite Q|]. split; [done|]. rewrite Q. lia. }
  intros t c. rewrite !elem_of_cons, elem_of_nil. intros [[= -> ->]|[[= -> ->]|[[= -> ->]|[[= -> ->]|[]]]]]; apply Wp; try (rewrite !elem_of_cons; tauto).
  - rewrite (pr_wps _ _ _ _ _ P5), (pr_wps _ _ _ _ _ P4), (pr_wps _ _ _ _ _ P3), (pr_wp _ _ _ _ _ P2), Q2, Q1 by done. done.
  - apply (pr_others _ _ _ _ _ P5), (pr_others _ _ _ _ _ P4), (pr_others _ _ _ _ _ P3), P2.
  - rewrite (pr_wps _ _ _ _ _ P5), (pr_wps _ _ _ _ _ P4), (pr_wp _ _ _ _ _ P3), Q3, Q2, Q1 by done. done.
  - apply (pr_others _ _ _ _ _ P5), (pr_others _ _ _ _ _ P4), P3.
  - rewrite (pr_wps _ _ _ _ _ P5), (pr_wp _ _ _ _ _ P4), Q4, Q3, Q2, Q1 by done. done.
  - apply (pr_others _ _ _ _ _ P5), P4.
  - by rewrite (pr_wp _ _ _ _ _ P5), Q.
  - apply P5.
Qed.

(** ** The contents *)

Lemma firmware_params size n spp : ssd_init_params size n = Ok spp -> firmware_ok spp.
Proof.
  unfold ssd_init_params. intros E. destruct (n =? 0); [done|]. ok_steps. split; vm_compute; repeat split; discriminate.
Qed.

Lemma ssd_init_locked s spp d : ssd_init s spp = Ok d -> d.(adv_locked) = s.(adv_locked).
Proof. unfold ssd_init. intros E. by ok_steps. Qed.

Lemma fresh_ready d B : tree_ok d -> fresh_ssd d -> d.(adv_locked) = false -> (forall n, 0 <= clock n <= B) -> nand_ready clock d B.
Proof.
  intros T F L C. split; [done|done| |done]. intros i j Hi Hj. destruct (F i Hi) as (N & _ & X).
  destruct (X j ltac:(by rewrite N)) as (_ & E & _). unfold avail_time. rewrite E. pose proof (C 0%nat). lia.
Qed.

Lemma fresh_table c tt dram i : let c' := snd (init_cache c tt dram) in 0 <= i < c'.(nr_valid_tpages) ->
  (c'.(ht) i).(t_ppa) = UINT_MAX /\ (c'.(ht) i).(mem) = None.
Proof. intros c' Hi. unfold c' in *. cbn in *. by rewrite (proj2 (Z.leb_le 0 i)), (proj2 (Z.ltb_lt i _)) by lia. Qed.

Lemma fresh_bufs b i : 0 <= i < NUM_APPEND_BUFS -> (init_append_bufs b).(append_klens) i = 0.
Proof. intros Hi. cbn. rewrite memset_case. by rewrite (proj2 (Z.leb_le 0 i)), (proj2 (Z.ltb_lt i _)) by lia. Qed.

(** A table without entries holds no pair. *)
Lemma fresh_holds k c dram B : geom (sp_of (shard_of k)) -> 0 <= dram < 2 ^ 40 -> heap_ok k.(hp) ->
  (sp_of (shard_of k)).(tt_pgs) / 128 <= Z.of_nat FIFO_CAPACITY ->
  4 <= (sp_of (shard_of k)).(blks_per_pl) -> firmware_ok (sp_of (shard_of k)) -> nand_ready clock (shard_of k).(sd) B ->
  cache_of k = snd (init_cache c (sp_of (shard_of k)).(tt_pgs) dram) -> k.(fl).(vb) = mk_vb k.(fl).(vb).(hts) 0 0 -> k.(max_try) = 0 ->
  holds CityHash64 clock k ∅ B.
Proof.
  intros G Hd Hh Hf Hb Fw R Ec Ev Et.
  destruct (init_cache_ok _ c dram k.(fl).(vb).(hts) G Hd) as (I & En & Ep & Em & Tb & Op). rewrite <- Ec in *. rewrite <- Ev in I.
  destruct (geom_consts _ G) as (_ & _ & _ & _ & _ & Hc & _ & _ & _ & Eq & _). pose proof (tt_pgs_small _ G) as Ht.
  rewrite EPP_val, GPP_val in *. assert (Ex : nr_valid_tpages (cache_of k) = tt_pgs (sp_of (shard_of k)) / 128) by zlia.
  assert (Ti : forall x, 0 <= x < nr_valid_tentries (cache_of k) -> table (cache_of k) x = UINT_MAX).
  { intros x Hx. apply Tb. unfold IDX. rewrite EPP_val. zlia. }
  split.
  - exists ∅. split; [|by unfold values; rewrite fmap_empty]. split.
    + done.
    + rewrite Et, En. assert (4 <= (sp_of (shard_of k)).(blks_per_pl) * (sp_of (shard_of k)).(nchs)) by nia. change (2 ^ 31) with 2147483648. lia.
    + intros x Hx N. by rewrite Ti in N.
    + intros key a n N. by rewrite lookup_empty in N.
  - split; try done.
    + by exists [], [].
    + by rewrite Ex.
    + lia.
    + intros i Hi N. by rewrite (proj2 (Op i Hi)) in N.
    + intros x Hx N. by rewrite Ti in N.
  - intros i Hi. by apply Op.
Qed.

(** ** The whole *)

(** Page 0 is given up; every pointer is on a line of its own. *)
Record positions (s : demand_shard) : Prop := {
  op_user : next_free s USER_IO 0 1;
  op_map : next_free s MAP_IO 1 0;
  op_gc_map : next_free s GC_MAP_IO 2 0;
  op_gc : next_free s GC_IO 3 0 /\ dead_ok s 3 0 0;
  op_free : s.(lm).(free_line_list) = seqZ 4 ((sp_of s).(blks_per_pl) - 4) /\ s.(lm).(full_line_list) = [];
  op_offset : s.(Lines.offset) = 0
}.

Lemma positions_ok s : shard_inv s -> fresh_ssd s.(sd) -> (forall q, 0 <= q < (sp_of s).(tt_pgs) * GRAIN_PER_PAGE -> bit s q = false) ->
  s.(lm).(free_line_list) = seqZ 4 ((sp_of s).(blks_per_pl) - 4) -> s.(lm).(full_line_list) = [] -> s.(Lines.offset) = 0 ->
  (forall t c, (t, c) ∈ [(USER_IO, 0); (MAP_IO, 1); (GC_MAP_IO, 2); (GC_IO, 3)] ->
    wp_ok s t c 0 /\ (s.(lm).(lines) c).(vgc) = 0 /\ (s.(lm).(lines) c).(igc) = 0) ->
  exists s', skip_first_page s = Ok s' /\ positions s' /\ shard_inv s' /\ timing_kept s s' /\ s'.(gc_thres_lines_high) = s.(gc_thres_lines_high).
Proof.
  intros I F B L1 L2 O P.
  assert (N : forall t c, (t, c) ∈ [(USER_IO, 0); (MAP_IO, 1); (GC_MAP_IO, 2); (GC_IO, 3)] -> next_free s t c 0 /\ dead_ok s c 0 0)
    by (intros t c X; destruct (P t c X) as (W & V & J); by apply fresh_line).
  destruct (N USER_IO 0 ltac:(repeat constructor)) as [N0 D0]. destruct (skip_first_ok s N0 D0) as (s' & E & U & _ & M & T & _).
  pose proof (nf_inv _ _ _ _ U) as I'. pose proof (proj1 (proj1 (proj2 (nf_wp _ _ _ _ N0)))) as H0b.
  assert (K : forall t c, t <> USER_IO -> c <> 0 -> next_free s t c 0 -> next_free s' t c 0)
    by (intros t c Ht Hc; by apply (next_free_moves s s' USER_IO 0 0)).
  pose proof (mv_lists _ _ _ _ _ M) as Ll. exists s'. split; [done|].
  split; [|split; [done|split; [done|by destruct (mv_rest _ _ _ _ _ M) as (_ & _ & _ & -> & _)]]]. split.
  - done.
  - apply K; [done|done|]. apply N. repeat constructor.
  - apply K; [done|done|]. apply N. repeat constructor.
  - destruct (N GC_IO 3 ltac:(repeat constructor)) as [N3 D3]. split; [by apply K|]. by apply (dead_moves s s' USER_IO 0 0).
  - rewrite (mv_sp _ _ _ _ _ M). destruct (lm s'), (lm s). cbn in *. injection Ll as -> -> -> -> -> -> ->. by split.
  - destruct (mv_rest _ _ _ _ _ M) as (_ & -> & _). done.
Qed.

Lemma conv_init_ftl_ok k g d dram_mb : tree_ok d -> fresh_ssd d -> 4 <= d.(sp).(blks_per_pl) ->
  exists k' s, conv_init_ftl k g conv_init_params d dram_mb = Ok (set_shard k' s, alloc_gc_mem g) /\ positions s /\ shard_inv s /\
    same_timing d s.(sd) /\ s.(gc_thres_lines_high) = 2 /\ k'.(hp) = k.(hp) /\ k'.(cur_page) = k.(cur_page) /\ k'.(ab) = init_append_bufs k.(ab) /\ k'.(max_try) = 0 /\ k'.(fl).(vb) = k.(fl).(vb) /\
    cache_of k' = snd (init_cache (cache_of k) d.(sp).(tt_pgs) (u64 (Z.shiftl dram_mb 20))).
Proof.
  intros T F Hb. pose proof (ok_geom _ T) as G. unfold conv_init_ftl. set (s := set_params (shard_of k) conv_init_params d).
  assert (Es : sp_of s = d.(sp)) by done.
  destruct (pointers_ok s) as (s1 & s2 & s3 & s4 & s5 & E1 & E2 & E3 & E4 & E5 & D5 & I5 & L5 & L6 & H5 & P5); [done|done|].
  rewrite E1. cbn [mbind result_mbind result_bind]. rewrite E2. cbn [mbind result_mbind result_bind].
  rewrite E3. cbn [mbind result_mbind result_bind]. rewrite E4. cbn [mbind result_mbind result_bind].
  rewrite E5. cbn [mbind result_mbind result_bind]. set (k6 := demand_init _ dram_mb).
  assert (Q5 : sp_of s5 = d.(sp)) by (unfold sp_of; by rewrite D5).
  destruct (positions_ok (shard_of k6)) as (s' & E' & O' & I' & T' & H').
  - split; [change (tree_ok s5.(sd)); by rewrite D5|]. change (lines_inv (sp_of s5) s5.(lm)). by rewrite Q5.
  - change (fresh_ssd s5.(sd)). by rewrite D5.
  - intros q Hq. change (sp_of (shard_of k6)) with (sp_of s5) in Hq.
    change (memset s5.(grain_bitmap) 0 (tt_pgs (sp_of s5) * GRAIN_PER_PAGE) false q = false). rewrite memset_case.
    by rewrite (proj2 (Z.leb_le 0 q)), (proj2 (Z.ltb_lt q _)) by lia.
  - change (s5.(lm).(free_line_list) = seqZ 4 ((sp_of s5).(blks_per_pl) - 4)). by rewrite Q5.
  - exact L6.
  - done.
  - intros t c X. destruct (P5 t c X) as ((W1 & W2) & C). split; [|exact C]. split; [destruct t; exact W1|exact W2].
  - rewrite E'. cbn [mbind result_mbind result_bind]. exists k6, s'. split; [done|]. split; [done|]. split; [done|].
    split; [change (same_timing s5.(sd) s'.(sd)) in T'; by rewrite D5 in T'|]. split; [by rewrite H'; transitivity (gc_thres_lines_high s5)|].
    split; [done|]. split; [done|]. split; [done|]. split; [done|]. split; [done|].
    change (snd (init_cache (cache_of k) (sp_of s5).(tt_pgs) (u64 (Z.shiftl dram_mb 20))) =
      snd (init_cache (cache_of k) d.(sp).(tt_pgs) (u64 (Z.shiftl dram_mb 20)))). by rewrite Q5.
Qed.

Lemma namespace_size size : 0 < size <= 65536 * (BLK_SIZE * LUNS_PER_NAND_CH * NAND_CHANNELS) ->
  u64 (size * 100) / conv_init_params.(pba_pcent) = size * 100 / 107.
Proof.
  intros Hs. assert (E : 65536 * (BLK_SIZE * LUNS_PER_NAND_CH * NAND_CHANNELS) = 549755813888) by (vm_compute; reflexivity).
  rewrite E in Hs. rewrite u64_small by lia. reflexivity.
Qed.

Lemma conv_init_namespace_ok k g size dram_mb B spp :
  0 < size <= 65536 * (BLK_SIZE * LUNS_PER_NAND_CH * NAND_CHANNELS) -> ssd_init_params size SSD_PARTITIONS = Ok spp ->
  4 <= spp.(blks_per_pl) -> 0 <= dram_mb < 2 ^ 20 ->
  spp.(tt_pgs) / 128 <= Z.of_nat FIFO_CAPACITY ->
  heap_ok k.(hp) -> (shard_of k).(sd).(adv_locked) = false -> (forall n, 0 <= clock n <= B) ->
  exists k' g', conv_init_namespace k g size dram_mb = Ok (k', g', size * 100 / 107) /\ sp_of (shard_of k') = spp /\
    k'.(hp) = k.(hp) /\ k'.(cur_page) = k.(cur_page) /\
    (cache_of k').(max_cached_tentries) = dram_mb * 2048 /\ set_up k' g' B.
Proof.
  intros Hs Ep Hb Hd Hf Hh Hl Hc. pose proof (firmware_params _ _ _ Ep) as Fw.
  destruct (ssd_init_params_ok size SSD_PARTITIONS) as (spp' & Ep' & G & _); [done|done|unfold SSD_PARTITIONS; by rewrite !Z.div_1_r|].
  rewrite Ep in Ep'. injection Ep' as <-. destruct (ssd_init_correct (shard_of k).(sd) spp G) as (d & Ed & Es & T & F & _).
  rewrite <- Es in F, Hb, Fw, Hf. destruct (conv_init_ftl_ok k g d dram_mb T F Hb) as (k1 & s & E1 & O & I & Ti & Eg & Eh & Ecp & Eab & Et & Ev & Ec).
  assert (Q : sp_of s = d.(sp)) by apply Ti. unfold conv_init_namespace. rewrite Ep. cbn [mbind result_mbind result_bind]. rewrite Ed.
  cbn [mbind result_mbind result_bind]. rewrite E1. cbn [mbind result_mbind result_bind].
  set (k2 := set_fl _ _). exists k2, (alloc_gc_mem g). rewrite <- Es.
  assert (Dm : u64 (Z.shiftl dram_mb 20) = dram_mb * 1048576) by (rewrite Z.shiftl_mul_pow2 by done; apply u64_small; zlia).
  split; [by rewrite (namespace_size size Hs)|].
  assert (Ex : (cache_of k2).(max_cached_tentries) = dram_mb * 2048).
  { change (cache_of k2) with (cache_of k1). rewrite Ec, Dm. destruct (init_cache_ok d.(sp) (cache_of k) (dram_mb * 1048576) k.(fl).(vb).(hts)) as (_ & _ & _ & Em & _); [apply T|zlia|].
    rewrite Em, GRAINED_val. replace (dram_mb * 1048576) with (dram_mb * 2048 * 512) by lia. by apply Z.div_mul. }
  split; [exact Q|]. split; [exact Eh|]. split; [exact Ecp|]. split; [exact Ex|]. destruct O as [O1 O2 O3 [O4 O5] O6 O7].
  split; [|exact (conj O1 O7)|exact O2|exact O3| |exact O6|exact Et| |exact Eg| | |].
  - apply (fresh_holds k2 (cache_of k) (dram_mb * 1048576) B); change (shard_of k2) with s; rewrite ?Q.
    + by rewrite <- Q; apply sh_geom.
    + zlia.
    + change (hp k2) with (hp k1). by rewrite Eh.
    + exact Hf.
    + exact Hb.
    + exact Fw.
    + eapply nand_ready_kept; [apply fresh_ready; try done|apply I|exact Ti]. by rewrite (ssd_init_locked _ _ _ Ed).
    + change (cache_of k2) with (cache_of k1). by rewrite Ec, Dm.
    + reflexivity.
    + exact Et.
  - by apply (gc_idle _ _ _ _ 0).
  - change (cache_of k2) with (cache_of k1). change (shard_of k2) with s. rewrite Ec, Q.
    destruct (sections_whole d.(sp) ltac:(by rewrite Es)) as (_ & E2 & _). cbv zeta in E2. cbn [init_cache snd nr_valid_tentries].
    rewrite E2, GPP_val. lia.
  - intros i. change (cache_of k2) with (cache_of k1). rewrite Ec. by apply fresh_table.
  - intros i Hi. change (ab k2) with (ab k1). rewrite Eab. by apply fresh_bufs.
  - unfold cached_now. change (cache_of k2) with (cache_of k1). by rewrite Ec.
Qed.

(** C7 (set-up): for every size of at most 512 GiB whose parameters are accepted and make at least
    four lines, with no more sections of the table than the FIFO of the mapping cache has places (599999,
    that is 128 pages each), a cache of less than 2^20 MiB, an allocator in order, the lock of the timing
    model free and clocks between 0 and [B], the initialiser finishes without a fault.  It leaves a device
    that holds no pair - all that the theorems on stores, retrieves and deletes ask of a state -, with
    nothing in the mapping cache, page 0 given up, the user's, the map's and the two collectors' pointers on
    the lines 0 to 3 and all further lines free; the namespace is smaller than the medium by the
    over-provisioning.  The size of the cache does not matter. *)
Theorem conv_init_namespace_correct k g size dram_mb B spp :
  0 < size <= 65536 * (BLK_SIZE * LUNS_PER_NAND_CH * NAND_CHANNELS) -> ssd_init_params size SSD_PARTITIONS = Ok spp ->
  4 <= spp.(blks_per_pl) -> 0 <= dram_mb < 2 ^ 20 ->
  spp.(tt_pgs) / 128 <= Z.of_nat FIFO_CAPACITY ->
  heap_ok k.(hp) -> (shard_of k).(sd).(adv_locked) = false -> (forall n, 0 <= clock n <= B) ->
  exists k' g', conv_init_namespace k g size dram_mb = Ok (k', g', size * 100 / 107) /\ sp_of (shard_of k') = spp /\
    k'.(hp) = k.(hp) /\ k'.(cur_page) = k.(cur_page) /\
    (cache_of k').(max_cached_tentries) = dram_mb * 2048 /\ set_up k' g' B.
Proof. apply conv_init_namespace_ok. Qed.

(** ** The first command *)

Lemma fresh_not_buffered k c key : (forall i, 0 <= i < NUM_APPEND_BUFS -> k.(ab).(append_klens) i = 0) -> kv_command c key ->
  not_buffered k c (u8 (cmd_key_length c)).
Proof.
  intros F [[Ek _] Lk] need. rewrite Ek. unfold __get_append_buf.
  assert (L : forall n i nn, 0 <= i -> i + Z.of_nat n <= NUM_APPEND_BUFS ->
    (get_buf_loop n i k.(ab) c.(Queues.key) (Z.of_nat (length key)) nn).1 = UINT_MAX).
  { intros n. induction n as [|n IH]; intros i nn Hi Hn; [done|]. cbn [get_buf_loop].
    rewrite F, (proj2 (Z.eqb_neq 0 _)) by lia. apply IH; lia. }
  apply L; [done|]. by vm_compute.
Qed.

(** The first stripe of a line. *)
Lemma stripe_first spp n : geom spp -> 0 <= n < 8 * spp.(nchs) -> stripe spp n = 0.
Proof. intros G Hn. destruct (geom_consts _ G) as (E1 & _). unfold stripe. rewrite E1. by apply Z.div_small. Qed.

Lemma page_zero spp : geom spp -> page_at spp 0 0 = mk_ppa 0 0 0 0 0 0.
Proof.
  intros G. destruct (geom_consts _ G) as (E1 & _ & _ & _ & E4 & Hn & _). unfold page_at. rewrite E1, E4.
  change (0 / 8) with 0. change (0 mod 8) with 0. rewrite Z.div_0_l, Z.mod_0_l by lia. reflexivity.
Qed.

(** A pair that fits into the first stripe can be stored. *)
Lemma fresh_storable k g key n B : set_up k g B -> 8 <= (sp_of (shard_of k)).(blks_per_pl) -> k.(cur_page) = mk_ppa 0 0 0 0 0 0 ->
  0 < Z.of_nat (length key) <= 16 -> 0 < n -> pair_grains key n <= 64 * (sp_of (shard_of k)).(nchs) - 16 ->
  kmalloc_at k.(hp).(blocks) (pair_grains key n * GRAINED_UNIT) <> 0 ->
  roomy k 1026 -> exists m x, storable CityHash64 k key n m x 0 1 0 /\ m <= 1026.
Proof.
  intros [[(D & R & Ed) S Q] [U1 U2] Um _ _ [Fl _] Tr En Th Tb _ _] Hb Hcur Lk Hn Hg Ha Ry.
  pose proof (sound_geom clock _ _ S) as G. destruct (geom_consts _ G) as (_ & _ & _ & _ & _ & Hc & _ & _ & _ & Et & El & _).
  assert (Hgl : 0 < pair_grains key n) by (unfold pair_grains, grains, header_size; zlia).
  assert (Hn2 : n < 1073741824) by (unfold pair_grains, grains, header_size in Hg; zlia).
  assert (Hpt : 0 <= pages_touched 0 (pair_grains key n) <= 8 * (sp_of (shard_of k)).(nchs) - 2).
  { unfold pages_touched. rewrite GPP_val. change (0 mod 8) with 0. zlia. }
  destruct (rp_tries _ _ _ R) as (_ & He1 & He2). change (2 ^ 31) with 2147483648 in He2. 
  assert (Hb8 : 2048 <= (sp_of (shard_of k)).(tt_pgs)) by nia.
  destruct (get_hash_idx_ok (cache_of k) (key_hash CityHash64 key) 0 0) as ([h m x] & E & Fo); [apply u32_range|lia|rewrite En; lia|].
  destruct Fo as (Eh & Fo & _ & Hx & _). cbn [hash cnt lpa] in Eh, Fo, Hx. subst h. rewrite EPP_val in Hx. rewrite En in He1, He2, Hx.
  assert (Hi : 0 <= IDX x < (cache_of k).(nr_valid_tpages)) by (apply (IDX_range clock _ _ B S); rewrite En; lia).
  exists m, x. split; [|lia]. split.
  - unfold header_size. change (2 ^ 31) with 2147483648. lia.
  - split; [lia|]. split.
    + by apply leads_here.
    + rewrite En. lia.
    + unfold table. by rewrite (proj2 (Tb _ Hi)).
    + rewrite En. lia.
  - right. exists 1, 0. split; [|done]. split; try apply (Tb _ Hi); [exact Um|lia|].
    apply index_positive; [done|lia|lia|by left].
  - exact Ha.
  - split; [apply ap_first; [done|split]| |..].
    + exact U1.
    + exact U2.
    + apply index_positive; [done|lia|lia|by right].
    + exists 0, 0. split; [by rewrite Hcur, page_zero|]. split; [lia|]. split; [lia|]. by rewrite !stripe_first by (done || lia).
    + done.
    + by rewrite !stripe_first by (done || lia).
    + zlia.
  - unfold should_gc_high. pose proof (sh_lines _ (nf_inv _ _ _ _ U1)) as L. rewrite (li_free_cnt _ _ L), Fl, length_seqZ, Th. apply Z.leb_gt. lia.
  - apply (roomy_next k k 1026); [exact Ry|done|rewrite GPP_val; lia].
Qed.

(** C8 (first store): the first store after set-up, before anything has been written, of any key
    and of a value that fits into the first stripe of a line, on a device of at least eight lines, with a
    block free in the kernel and a cache for the whole table or for 1026 sections (five MiB), opens
    a section of the table and the first page of the line of the stores and succeeds; the device
    then holds exactly this pair. *)
Theorem first_store_correct k g c key n host start r B :
  set_up k g B -> 8 <= (sp_of (shard_of k)).(blks_per_pl) -> k.(cur_page) = mk_ppa 0 0 0 0 0 0 ->
  kv_command c key -> c.(opcode) = nvme_cmd_kv_store -> cmd_value_length c = Ok n -> 0 < n ->
  pair_grains key n <= 64 * (sp_of (shard_of k)).(nchs) - 16 -> kmalloc_at k.(hp).(blocks) (pair_grains key n * GRAINED_UNIT) <> 0 ->
  roomy k 1026 -> prp_ok c host n -> 0 <= start <= B -> B + store_cost 1026 < 2 ^ 62 ->
  exists t i k', kv_round CityHash64 clock k host c start r = Ok (k', host, 0, mk_ret 0 t (RELEASE_MAP i)) /\
    holds CityHash64 clock k' {[key := host_bytes c host n]} (B + store_cost 1026).
Proof.
  intros S Hb Hcur Kc Eo Ev Hn Hg Ha Ry P Hst HB. pose proof (su_bufs _ _ _ S) as Fb. pose proof (su_holds _ _ _ S) as Hh.
  destruct (fresh_storable k g key n B S Hb Hcur (kc_length _ _ Kc) Hn Hg Ha Ry) as (m & x & St & Hm).
  assert (Hc : store_cost m <= store_cost 1026) by (unfold store_cost, NAND_MAX; lia).
  destruct (device_store_ok CityHash64 clock k ∅ c key n m x 0 1 0 host start r B Hh Kc Eo Ev (fresh_not_buffered k c key Fb Kc) (lookup_empty _) St P Hst)
    as (t & k' & E & [Hm' S' Q'] & _); [lia|]. exists t, (IDX x), k'. split; [exact E|]. split; [|apply (sound_mono clock _ _ _ S'); lia|done].
  by rewrite insert_empty in Hm'.
Qed.

End setup.

(** ** Examples: a megabyte for the mapping cache *)

Definition zx_device : kv := mk_kv kx_device.(fl) 0 (mk_ppa 0 0 0 0 0 0) 0 kx_device.(hp) kx_bufs [].
Definition zx_gcd : gc_data := mk_gcd (mk_ppa 0 0 0 0 0 0) 0 0 false.

(** The device of the README: 128 GiB less the MiB of the configuration, with 128 MiB for the
    mapping cache.  Its whole table would take 1 GiB. *)
Lemma conv_init_namespace_correct_witness :
  exists k' g', conv_init_namespace zx_device zx_gcd 137437904896 128 = Ok (k', g', 128446640089) /\
    (sp_of (shard_of k')).(tt_pgs) = 33554432 /\ (cache_of k').(max_cached_tentries) = 262144 /\ set_up kx_hash cx_clock k' g' 7000.
Proof.
  destruct (conv_init_namespace_correct kx_hash cx_clock zx_device zx_gcd 137437904896 128 7000 _
    ltac:(vm_compute; split; congruence) eq_refl) as (k' & g' & E & Es & _ & _ & Em & S).
  - vm_compute. congruence.
  - vm_compute. split; congruence.
  - vm_compute. congruence.
  - split; done.
  - reflexivity.
  - intros n. unfold cx_clock. lia.
  - exists k', g'. split; [exact E|]. rewrite Es. split; [vm_compute; reflexivity|]. split; [exact Em|exact S].
Defined.

(** Eight lines: the pair of [kx_store] is the first. *)
Lemma first_store_correct_witness : exists k g t i k', conv_init_namespace zx_device zx_gcd 67108864 5 = Ok (k, g, 62718564) /\
  kv_round kx_hash cx_clock k kx_host kx_store 0 kx_ret = Ok (k', kx_host, 0, mk_ret 0 t (RELEASE_MAP i)) /\
  holds kx_hash cx_clock k' {[kx_key := kx_value]} (7000 + store_cost 1026).
Proof.
  destruct (conv_init_namespace_ok kx_hash cx_clock zx_device zx_gcd 67108864 5 7000 _
    ltac:(vm_compute; split; congruence) eq_refl) as (k & g & E & Es & Eh & Ec & Em & S).
  - vm_compute. congruence.
  - vm_compute. split; congruence.
  - vm_compute. congruence.
  - split; done.
  - reflexivity.
  - intros n. unfold cx_clock. lia.
  - destruct (first_store_correct kx_hash cx_clock k g kx_store kx_key 1000 kx_host 0 kx_ret 7000 S) as (t & i & k' & E2 & Hh).
    + rewrite Es. vm_compute. congruence.
    + exact Ec.
    + exact (proj1 kx_named).
    + reflexivity.
    + reflexivity.
    + lia.
    + rewrite Es. vm_compute. congruence.
    + rewrite Eh. vm_compute. congruence.
    + right. rewrite (su_cached _ _ _ _ _ S), Em, GPP_val. lia.
    + apply kx_one_page; [reflexivity|lia].
    + lia.
    + vm_compute. reflexivity.
    + exists k, g, t, i, k'. split; [exact E|]. split; [exact E2|exact Hh].
Defined.
