(* ===== verification/Admin.v ===== *)
(** * The admin queue, the registers and the dispatcher ([admin.c], [pci.c], [main.c])

    The commands of the admin queue create and delete queues, describe the
    device and negotiate the number of queues; the registers set the admin queue
    up and enable the controller; the dispatcher polls registers and doorbells
    and hands over to the queues. *)

From S2P Require Import Prelude WorkQueue Queues Prp.

(** ** State *)

(** [struct nvmev_admin_queue]: the completion ring, whether its pages are set,
    and the pages of the submission queue with the number of entries in them. *)
Record nvmev_admin_queue := mk_aq {
  aq_ring : ring; aq_has_cq : bool; sq_depth : Z; nvme_sq : option (Z * (Z -> nvme_command))
}.

(** The registers the device looks at: the values last seen, and the status. *)
Record registers := mk_regs { aqa : Z; asq : Z; acq : Z; cc : Z }.

Record namespace := mk_ns { ns_size : Z; ns_csi : Z }.

(** The device with its admin queue, the old registers, ready and shutdown
    status, host memory, and its namespaces. *)
Record controller := mk_ctrl {
  dev : nvmev_dev; admin_q : option nvmev_admin_queue; old_bar : registers; rdy : Z; shst : Z;
  hmem : Z -> Z; ns : Z -> namespace; nr_ns : Z; mdts : Z
}.

Definition set_dev (c : controller) (d : nvmev_dev) : controller :=
  mk_ctrl d c.(admin_q) c.(old_bar) c.(rdy) c.(shst) c.(hmem) c.(ns) c.(nr_ns) c.(mdts).
Definition set_admin (c : controller) (q : option nvmev_admin_queue) : controller :=
  mk_ctrl c.(dev) q c.(old_bar) c.(rdy) c.(shst) c.(hmem) c.(ns) c.(nr_ns) c.(mdts).
Definition set_bar (c : controller) (b : registers) (r s : Z) : controller :=
  mk_ctrl c.(dev) c.(admin_q) b r s c.(hmem) c.(ns) c.(nr_ns) c.(mdts).
Definition set_hmem (c : controller) (h : Z -> Z) : controller :=
  mk_ctrl c.(dev) c.(admin_q) c.(old_bar) c.(rdy) c.(shst) h c.(ns) c.(nr_ns) c.(mdts).
Definition set_aq_ring (q : nvmev_admin_queue) (r : ring) : nvmev_admin_queue :=
  mk_aq r q.(aq_has_cq) q.(sq_depth) q.(nvme_sq).

(** [sq_entry(eid)] of the admin queue. *)
Definition admin_sqe (q : nvmev_admin_queue) (eid : Z) : result nvme_command :=
  '(room, m) ← deref q.(nvme_sq); cell m room eid.

(** Set a doorbell and its last value. *)
Definition reset_db (d : nvmev_dev) (i : Z) : nvmev_dev := set_dbs d (upd d.(dbs) i 0) (upd d.(old_dbs) i 0).

(** ** Completions of admin commands *)

Definition NVME_SC_SUCCESS : Z := 0.
Definition NVME_SC_INVALID_OPCODE : Z := 1.

Definition admin_cqe (cid eid ret r0 r1 ph : Z) : nvme_completion :=
  mk_cqe r0 r1 (u16 eid) 0 cid (u16 (Z.lor ph (Z.shiftl ret 1))).

Definition __make_cq_entry_results (c : controller) (eid ret r0 r1 : Z) : result controller :=
  q ← deref c.(admin_q);
  cmd ← admin_sqe q eid;
  if negb q.(aq_has_cq) then Err NULLPTR else
  r ← ring_post q.(aq_ring) q.(aq_ring).(cq_head) (admin_cqe cmd.(Queues.command_id) eid ret r0 r1);
  Ok (set_admin c (Some (set_aq_ring q r))).

Definition __make_cq_entry (c : controller) (eid ret : Z) : result controller :=
  __make_cq_entry_results c eid ret 0 0.

(** ** Queue management *)

Section admin.

(** What the pages of a queue hold when they are handed over, by the address of
    the first. *)
Context (sq_pages : Z -> Z -> nvme_command) (cq_pages : Z -> Z -> nvme_completion).

Definition entries_in_pages (size bytes : Z) : Z := DIV_ROUND_UP (size * bytes) PAGE_SIZE * (PAGE_SIZE / bytes).

(** Store a queue under an id of the host's choice. *)
Definition install_cq (d : nvmev_dev) (i : Z) (q : option completion_queue) : result nvmev_dev :=
  p ← modify d.(cqes) (NR_MAX_IO_QUEUE + 1) i (fun _ => Ok q); Ok (set_cqes d p).
Definition install_sq (d : nvmev_dev) (i : Z) (q : option submission_queue) : result nvmev_dev :=
  p ← modify d.(sqes) (NR_MAX_IO_QUEUE + 1) i (fun _ => Ok q); Ok (set_sqes d p).

Definition new_cq (cmd : nvme_command) : completion_queue :=
  let flags := lo16 cmd.(cdw11) in
  let irq := Z.testbit flags 1 in
  let size := hi16 cmd.(cdw10) + 1 in
  mk_cq (lo16 cmd.(cdw10)) (if irq then hi16 cmd.(cdw11) else 0) irq false
    (mk_ring size 0 1 (entries_in_pages size 16) (cq_pages cmd.(prp1))) (-1).

Definition __nvmev_admin_create_cq (c : controller) (eid : Z) : result controller :=
  q ← deref c.(admin_q); cmd ← admin_sqe q eid;
  let cq := new_cq cmd in
  d ← install_cq c.(dev) cq.(cq_qid) (Some cq);
  __make_cq_entry (set_dev c (reset_db d (cq.(cq_qid) * 2 + 1))) eid NVME_SC_SUCCESS.

Definition __nvmev_admin_delete_cq (c : controller) (eid : Z) : result controller :=
  q ← deref c.(admin_q); cmd ← admin_sqe q eid;
  d ← install_cq c.(dev) (lo16 cmd.(cdw10)) None;
  __make_cq_entry (set_dev c d) eid NVME_SC_SUCCESS.

Definition new_sq (cmd : nvme_command) : submission_queue :=
  let size := hi16 cmd.(cdw10) + 1 in
  mk_sq (lo16 cmd.(cdw10)) (hi16 cmd.(cdw11)) size (entries_in_pages size 64) (mk_stat 0 0 0 0 0)
    (sq_pages cmd.(prp1)).

Definition __nvmev_admin_create_sq (c : controller) (eid : Z) : result controller :=
  q ← deref c.(admin_q); cmd ← admin_sqe q eid;
  let sq := new_sq cmd in
  d ← install_sq c.(dev) sq.(sq_qid) (Some sq);
  __make_cq_entry (set_dev c (reset_db d (sq.(sq_qid) * 2))) eid NVME_SC_SUCCESS.

Definition __nvmev_admin_delete_sq (c : controller) (eid : Z) : result controller :=
  q ← deref c.(admin_q); cmd ← admin_sqe q eid;
  d ← install_sq c.(dev) (lo16 cmd.(cdw10)) None;
  __make_cq_entry (set_dev c d) eid NVME_SC_SUCCESS.

End admin.

(** ** Pages written for the host *)

(** [n] bytes from [a] on, byte [i] being [f i]. *)
Definition put (h : Z -> Z) (a n : Z) (f : Z -> Z) : Z -> Z :=
  fun x => if (a <=? x) && (x <? a + n) then f (x - a) else h x.

(** A little-endian field of [w] bytes at offset [o] of a page. *)
Definition field (f : Z -> Z) (o w v : Z) : Z -> Z :=
  fun i => if (o <=? i) && (i <? o + w) then (v / 256 ^ (i - o)) mod 256 else f i.
Definition fields (l : list (Z * Z * Z)) : Z -> Z :=
  fold_left (fun f '(o, w, v) => field f o w v) l (fun _ => 0).

(** *** Log pages *)

Definition NVME_LOG_SMART : Z := 2.
Definition NVME_LOG_CMD_EFFECTS : Z := 5.
Definition NVME_CMD_EFFECTS_CSUPP : Z := 1.

Definition smart_log : Z -> Z := fields [(4, 1, 20)].
(** The supported commands by opcode: get log page, identify, set and get
    features, asynchronous event. *)
Definition effects_log : Z -> Z :=
  fields (map (fun op => (4 * op, 4, NVME_CMD_EFFECTS_CSUPP)) [2; 6; 9; 10; 12]).
Definition SMART_LOG_SIZE : Z := 512.
Definition EFFECTS_LOG_SIZE : Z := 4096.

Definition log_len (cmd : nvme_command) : Z :=
  u32 (Z.shiftl (u32 (Z.lor (u32 (Z.shiftl (lo16 cmd.(cdw11)) 16)) (hi16 cmd.(cdw10)) + 1)) 2).

(** A copy longer than the page reads past the constant it copies from. *)
Definition __nvmev_admin_get_log_page (c : controller) (eid : Z) : result controller :=
  q ← deref c.(admin_q); cmd ← admin_sqe q eid;
  let len := log_len cmd in
  let page := cmd.(prp1) in
  let lid := cmd.(cdw10) mod 256 in
  h ← (if lid =? NVME_LOG_SMART then
         if SMART_LOG_SIZE <? len then Err OOB else Ok (put c.(hmem) page len smart_log)
       else if lid =? NVME_LOG_CMD_EFFECTS then
         if EFFECTS_LOG_SIZE <? len then Err OOB else Ok (put c.(hmem) page len effects_log)
       else Ok (put c.(hmem) page len (fun _ => 0)));
  __make_cq_entry (set_hmem c h) eid NVME_SC_SUCCESS.

(** *** Identify *)

(** Size and metadata of the formats, from offset 128. *)
Definition lbafs : list (Z * Z * Z) :=
  let entry i ms ds rp := [(128 + 4 * i, 2, ms); (130 + 4 * i, 1, ds); (131 + 4 * i, 1, rp)] in
  entry 0 0 9 2 ++ entry 1 8 9 2 ++ entry 2 16 9 2 ++ entry 3 0 12 0 ++ entry 4 8 12 0 ++
  entry 5 64 12 0 ++ entry 6 128 12 0.

(** The size in blocks of format 0, which [flbas] names. *)
Definition id_ns (size : Z) : Z -> Z :=
  let nsze := Z.shiftr size 9 in
  fields (lbafs ++ [(0, 8, nsze); (8, 8, nsze); (16, 8, nsze); (25, 1, 6); (26, 1, 0); (29, 1, 0)]).

(** [nvmev_vdev->ns[i]]. *)
Definition ns_at (c : controller) (i : Z) : result namespace := cell c.(ns) c.(nr_ns) i.

Definition __nvmev_admin_identify_namespace (c : controller) (eid : Z) : result controller :=
  q ← deref c.(admin_q); cmd ← admin_sqe q eid;
  n ← ns_at c (u32 (cmd.(nsid) - 1));
  __make_cq_entry (set_hmem c (put c.(hmem) cmd.(prp1) PAGE_SIZE (id_ns n.(ns_size)))) eid NVME_SC_SUCCESS.

(** The ids larger than the one given, from 1 to the number of namespaces. *)
Definition listed_ns (c : controller) (nsid : Z) : list Z :=
  List.filter (fun i => i >? nsid) (seqZ 1 c.(nr_ns)).
Definition ns_list (l : list Z) : Z -> Z := fields (imap (fun k i => (4 * Z.of_nat k, 4, i)) l).

Definition __nvmev_admin_identify_namespaces (c : controller) (eid : Z) : result controller :=
  q ← deref c.(admin_q); cmd ← admin_sqe q eid;
  __make_cq_entry (set_hmem c (put c.(hmem) cmd.(prp1) (PAGE_SIZE * 2) (ns_list (listed_ns c cmd.(nsid)))))
    eid NVME_SC_SUCCESS.

Definition NVME_NIDT_CSI : Z := 4.

Definition __nvmev_admin_identify_namespace_desc (c : controller) (eid : Z) : result controller :=
  q ← deref c.(admin_q); cmd ← admin_sqe q eid;
  n ← ns_at c (i32 (cmd.(nsid) - 1));
  __make_cq_entry (set_hmem c (put c.(hmem) cmd.(prp1) 4096
    (fields [(0, 1, NVME_NIDT_CSI); (1, 1, 1); (4, 1, n.(ns_csi))]))) eid NVME_SC_SUCCESS.

(** The codes of the characters of a string, from offset [o] on. *)
Fixpoint chars (o : Z) (l : list Z) : list (Z * Z * Z) :=
  match l with [] => [] | x :: l => (o, 1, x) :: chars (o + 1) l end.

Definition id_ctrl (nr_ns mdts : Z) : Z -> Z :=
  fields ([(516, 4, nr_ns); (520, 2, 0); (258, 1, 3); (525, 1, 0)] ++
    chars 4 [67; 83; 76; 95; 86; 105; 114; 116; 95; 83; 78; 95; 48; 49] ++
    chars 24 [67; 83; 76; 95; 86; 105; 114; 116; 95; 77; 78; 95; 48; 49] ++
    chars 64 [67; 83; 76; 95; 48; 48; 50] ++
    [(77, 1, mdts); (512, 1, 102); (513, 1, 68)]).

Definition __nvmev_admin_identify_ctrl (c : controller) (eid : Z) : result controller :=
  q ← deref c.(admin_q); cmd ← admin_sqe q eid;
  __make_cq_entry (set_hmem c (put c.(hmem) cmd.(prp1) 4096 (id_ctrl c.(nr_ns) c.(mdts)))) eid NVME_SC_SUCCESS.

Definition __nvmev_admin_identify (c : controller) (eid : Z) : result controller :=
  q ← deref c.(admin_q); cmd ← admin_sqe q eid;
  let cns := i32 cmd.(cdw10) in
  if cns =? 0 then __nvmev_admin_identify_namespace c eid
  else if cns =? 1 then __nvmev_admin_identify_ctrl c eid
  else if cns =? 2 then __nvmev_admin_identify_namespaces c eid
  else if cns =? 3 then __nvmev_admin_identify_namespace_desc c eid
  else __make_cq_entry c eid NVME_SC_INVALID_OPCODE.

(** ** Features *)

Definition NVME_FEAT_NUM_QUEUES : Z := 7.

Definition num_queues_result (d : nvmev_dev) : Z :=
  u32 (Z.lor (u32 (Z.shiftl (u32 (d.(nr_cq) - 1)) 16)) (u32 (d.(nr_sq) - 1))).

Definition __nvmev_admin_set_features (c : controller) (eid : Z) : result controller :=
  q ← deref c.(admin_q); cmd ← admin_sqe q eid;
  if cmd.(cdw10) =? NVME_FEAT_NUM_QUEUES then
    let d := set_nr_queues c.(dev) (Z.min (lo16 cmd.(cdw11) + 1) NR_MAX_IO_QUEUE)
      (Z.min (hi16 cmd.(cdw11) + 1) NR_MAX_IO_QUEUE) in
    __make_cq_entry_results (set_dev c d) eid NVME_SC_SUCCESS (num_queues_result d) 0
  else __make_cq_entry_results c eid NVME_SC_SUCCESS 0 0.

Definition __nvmev_admin_get_features (c : controller) (eid : Z) : result controller :=
  q ← deref c.(admin_q); cmd ← admin_sqe q eid;
  let result0 := if cmd.(cdw10) =? NVME_FEAT_NUM_QUEUES then num_queues_result c.(dev) else 0 in
  __make_cq_entry_results c eid NVME_SC_SUCCESS result0 0.

Definition __nvmev_admin_async_event (c : controller) (eid : Z) : result controller :=
  __make_cq_entry c eid NVME_SC_SUCCESS.

(** ** Dispatch of admin commands *)

Definition nvme_admin_delete_sq : Z := 0.
Definition nvme_admin_create_sq : Z := 1.
Definition nvme_admin_get_log_page : Z := 2.
Definition nvme_admin_delete_cq : Z := 4.
Definition nvme_admin_create_cq : Z := 5.
Definition nvme_admin_identify : Z := 6.
Definition nvme_admin_abort_cmd : Z := 8.
Definition nvme_admin_set_features : Z := 9.
Definition nvme_admin_get_features : Z := 10.
Definition nvme_admin_async_event : Z := 12.

Section dispatch.
Context (sq_pages : Z -> Z -> nvme_command) (cq_pages : Z -> Z -> nvme_completion).

Definition __nvmev_proc_admin_req (c : controller) (eid : Z) : result controller :=
  q ← deref c.(admin_q); cmd ← admin_sqe q eid;
  let op := cmd.(opcode) in
  if op =? nvme_admin_delete_sq then __nvmev_admin_delete_sq c eid
  else if op =? nvme_admin_create_sq then __nvmev_admin_create_sq sq_pages c eid
  else if op =? nvme_admin_get_log_page then __nvmev_admin_get_log_page c eid
  else if op =? nvme_admin_delete_cq then __nvmev_admin_delete_cq c eid
  else if op =? nvme_admin_create_cq then __nvmev_admin_create_cq cq_pages c eid
  else if op =? nvme_admin_identify then __nvmev_admin_identify c eid
  else if op =? nvme_admin_abort_cmd then Ok c
  else if op =? nvme_admin_set_features then __nvmev_admin_set_features c eid
  else if op =? nvme_admin_get_features then __nvmev_admin_get_features c eid
  else if op =? nvme_admin_async_event then __nvmev_admin_async_event c eid
  else __make_cq_entry c eid NVME_SC_INVALID_OPCODE.

Fixpoint admin_loop (n : nat) (c : controller) (curr : Z) : result controller :=
  match n with
  | O => Ok c
  | S n =>
      c ← __nvmev_proc_admin_req c curr;
      q ← deref c.(admin_q);
      admin_loop n c (if curr + 1 =? q.(sq_depth) then 0 else curr + 1)
  end.

(** Interrupt vector 0 is signalled at the end. *)
Definition nvmev_proc_admin_sq (c : controller) (new_db old_db : Z) : result controller :=
  q ← deref c.(admin_q);
  let num_proc := i32 (new_db - old_db) in
  let num_proc := if num_proc <? 0 then i32 (num_proc + q.(sq_depth)) else num_proc in
  admin_loop (Z.to_nat num_proc) c old_db.

Definition nvmev_proc_admin_cq (c : controller) (new_db old_db : Z) : result controller := Ok c.

End dispatch.

(** ** The registers *)

(** [aqa.asqs], [aqa.acqs], [cc.en] and [cc.shn]. *)
Definition asqs (a : Z) : Z := a mod 4096.
Definition acqs (a : Z) : Z := (a / 65536) mod 4096.
Definition cc_en (x : Z) : Z := x mod 2.
Definition cc_shn (x : Z) : Z := (x / 16384) mod 4.

Section registers.
Context (sq_pages : Z -> Z -> nvme_command) (cq_pages : Z -> Z -> nvme_completion).

(** [nvmev_proc_bars]: one change of the registers at a time, in a fixed order.
    The queue is fresh memory when it is allocated. *)
Definition nvmev_proc_bars (c : controller) (bar : registers) : result controller :=
  let old := c.(old_bar) in
  if negb (old.(aqa) =? bar.(aqa)) then
    let q := match c.(admin_q) with
             | Some q => q
             | None => mk_aq (mk_ring 0 0 0 0 (fun _ => mk_cqe 0 0 0 0 0 0)) false 0 None
             end in
    let r := q.(aq_ring) in
    let q := mk_aq (mk_ring (acqs bar.(aqa) + 1) 0 1 r.(room) r.(entries)) q.(aq_has_cq)
      (asqs bar.(aqa) + 1) q.(nvme_sq) in
    let c := set_bar c (mk_regs bar.(aqa) old.(asq) old.(acq) old.(cc)) c.(rdy) c.(shst) in
    Ok (set_dev (set_admin c (Some q)) (reset_db (reset_db c.(dev) 0) 1))
  else if negb (old.(asq) =? bar.(asq)) then
    match c.(admin_q) with
    | None => Ok c
    | Some q =>
        let c := set_bar c (mk_regs old.(aqa) bar.(asq) old.(acq) old.(cc)) c.(rdy) c.(shst) in
        let depth := asqs bar.(aqa) + 1 in
        let q := mk_aq q.(aq_ring) q.(aq_has_cq) depth
          (Some (entries_in_pages depth 64, sq_pages (Z.shiftl (PRP_PFN bar.(asq)) PAGE_SHIFT))) in
        Ok (set_dev (set_admin c (Some q)) (reset_db c.(dev) 0))
    end
  else if negb (old.(acq) =? bar.(acq)) then
    match c.(admin_q) with
    | None => Ok c
    | Some q =>
        let c := set_bar c (mk_regs old.(aqa) old.(asq) bar.(acq) old.(cc)) c.(rdy) c.(shst) in
        let depth := acqs bar.(aqa) + 1 in
        let r := mk_ring depth 0 q.(aq_ring).(phase) (entries_in_pages depth 16)
          (cq_pages (Z.shiftl (PRP_PFN bar.(acq)) PAGE_SHIFT)) in
        Ok (set_dev (set_admin c (Some (mk_aq r true q.(sq_depth) q.(nvme_sq)))) (reset_db c.(dev) 1))
    end
  else if negb (old.(cc) =? bar.(cc)) then
    let r := if cc_en bar.(cc) =? 1 then match c.(admin_q) with Some _ => 1 | None => c.(rdy) end else 0 in
    let b := mk_regs old.(aqa) old.(asq) old.(acq) bar.(cc) in
    if cc_shn bar.(cc) =? 1 then
      q ← deref c.(admin_q);
      let x := q.(aq_ring) in
      let q := set_aq_ring q (mk_ring x.(queue_size) 0 x.(phase) x.(room) x.(entries)) in
      Ok (set_dev (set_admin (set_bar c b r 2) (Some q)) (reset_db (reset_db c.(dev) 0) 1))
    else Ok (set_bar c b r c.(shst))
  else Ok c.

End registers.

(** ** The dispatcher *)

Section dispatcher.
Context (sq_pages : Z -> Z -> nvme_command) (cq_pages : Z -> Z -> nvme_completion).
Context {F : Type} (proc_io_cmd : F -> Z -> nvme_command -> Z -> option (F * nvme_command * nvmev_result))
  (clock : nat -> Z).

(** The submission queues from [qid] on. *)
Fixpoint sq_doorbells (n : nat) (qid : Z) (d : nvmev_dev) (f : F) : result (nvmev_dev * F) :=
  match n with
  | O => Ok (d, f)
  | S n =>
      q ← sq_at d qid;
      let i := qid * 2 in
      '(d, f) ← (match q with
        | None => Ok (d, f)
        | Some _ =>
            if i32 (d.(dbs) i) =? i32 (d.(old_dbs) i) then Ok (d, f) else
            '(db, d, f) ← nvmev_proc_io_sq proc_io_cmd clock d f qid (i32 (d.(dbs) i)) (i32 (d.(old_dbs) i));
            Ok (set_dbs d d.(dbs) (upd d.(old_dbs) i (u32 db)), f)
        end);
      sq_doorbells n (qid + 1) d f
  end.

Fixpoint cq_doorbells (n : nat) (qid : Z) (d : nvmev_dev) : result nvmev_dev :=
  match n with
  | O => Ok d
  | S n =>
      q ← cq_at d qid;
      let i := qid * 2 + 1 in
      d ← (match q with
        | None => Ok d
        | Some q =>
            let new_db := i32 (d.(dbs) i) in
            if new_db =? i32 (d.(old_dbs) i) then Ok d else
            d ← nvmev_proc_io_cq (cq_fuel q.(cq_ring)) d qid new_db (i32 (d.(old_dbs) i));
            Ok (set_dbs d d.(dbs) (upd d.(old_dbs) i (u32 new_db)))
        end);
      cq_doorbells n (qid + 1) d
  end.

(** The admin doorbells: compared as [int] with [u32]. *)
Definition admin_doorbells (c : controller) : result controller :=
  let new_db := i32 (c.(dev).(dbs) 0) in
  c ← (if u32 new_db =? c.(dev).(old_dbs) 0 then Ok c else
       c ← nvmev_proc_admin_sq sq_pages cq_pages c new_db (i32 (c.(dev).(old_dbs) 0));
       Ok (set_dev c (set_dbs c.(dev) c.(dev).(dbs) (upd c.(dev).(old_dbs) 0 (u32 new_db)))));
  let new_db := i32 (c.(dev).(dbs) 1) in
  if u32 new_db =? c.(dev).(old_dbs) 1 then Ok c else
  c ← nvmev_proc_admin_cq c new_db (i32 (c.(dev).(old_dbs) 1));
  Ok (set_dev c (set_dbs c.(dev) c.(dev).(dbs) (upd c.(dev).(old_dbs) 1 (u32 new_db)))).

Definition nvmev_proc_dbs (c : controller) (f : F) : result (controller * F) :=
  c ← admin_doorbells c;
  '(d, f) ← sq_doorbells (Z.to_nat c.(dev).(nr_sq)) 1 c.(dev) f;
  d ← cq_doorbells (Z.to_nat d.(nr_cq)) 1 d;
  Ok (set_dev c d, f).

(** One turn of [nvmev_dispatcher]'s loop: [bar] is what the registers hold. *)
Definition nvmev_dispatcher_turn (c : controller) (f : F) (bar : registers) : result (controller * F) :=
  c ← nvmev_proc_bars sq_pages cq_pages c bar;
  nvmev_proc_dbs c f.

End dispatcher.

(** ** What a command is answered *)

(** The status of the completion, if the command gets one. *)
Definition status_of (cmd : nvme_command) : option Z :=
  let op := cmd.(opcode) in
  if op =? nvme_admin_abort_cmd then None
  else if op =? nvme_admin_identify then
    Some (if (0 <=? i32 cmd.(cdw10)) && (i32 cmd.(cdw10) <=? 3) then NVME_SC_SUCCESS else NVME_SC_INVALID_OPCODE)
  else if decide (op ∈ [0; 1; 2; 4; 5; 9; 10; 12]) then Some NVME_SC_SUCCESS
  else Some NVME_SC_INVALID_OPCODE.

(** What the device relies on the host for: queue ids, log lengths and
    namespaces in range. *)
Record acceptable (nr_ns : Z) (cmd : nvme_command) : Prop := {
  ac_queue : cmd.(opcode) ∈ [0; 1; 4; 5] -> lo16 cmd.(cdw10) <= NR_MAX_IO_QUEUE;
  ac_log : cmd.(opcode) = nvme_admin_get_log_page ->
    (cmd.(cdw10) mod 256 = NVME_LOG_SMART -> log_len cmd <= SMART_LOG_SIZE) /\
    (cmd.(cdw10) mod 256 = NVME_LOG_CMD_EFFECTS -> log_len cmd <= EFFECTS_LOG_SIZE);
  ac_ns : cmd.(opcode) = nvme_admin_identify ->
    (i32 cmd.(cdw10) = 0 -> u32 (cmd.(nsid) - 1) < nr_ns) /\
    (i32 cmd.(cdw10) = 3 -> 0 <= i32 (cmd.(nsid) - 1) < nr_ns)
}.

Record admin_ok (q : nvmev_admin_queue) (room : Z) (m : Z -> nvme_command) : Prop := {
  ao_ring : ring_ok q.(aq_ring);
  ao_cq : q.(aq_has_cq) = true;
  ao_sq : q.(nvme_sq) = Some (room, m);
  ao_depth : 0 < q.(sq_depth) <= room /\ q.(sq_depth) <= 4096
}.

(** The parts of the controller admin commands leave alone. *)
Definition same_rest (c c' : controller) : Prop :=
  c'.(ns) = c.(ns) /\ c'.(nr_ns) = c.(nr_ns) /\ c'.(old_bar) = c.(old_bar) /\
  c'.(rdy) = c.(rdy) /\ c'.(shst) = c.(shst) /\ c'.(mdts) = c.(mdts).

Lemma same_rest_refl c : same_rest c c.
Proof. by repeat split. Qed.

(** One completion was posted to the admin queue after [n]. *)
Record answered (c c' : controller) (q : nvmev_admin_queue) (n eid ret : Z) (cmd : nvme_command) : Prop := {
  an_queue : exists r, c'.(admin_q) = Some (set_aq_ring q r) /\ ring_at r (n + 1) /\
    r.(queue_size) = q.(aq_ring).(queue_size) /\ r.(room) = q.(aq_ring).(room) /\
    exists r0, r.(entries) = upd q.(aq_ring).(entries) (n mod q.(aq_ring).(queue_size))
      (admin_cqe cmd.(Queues.command_id) eid ret r0 0 (tag (n / q.(aq_ring).(queue_size))));
  an_rest : same_rest c c'
}.

(** The handlers read the queue and the command first. *)
Ltac fetch handler Hq E :=
  unfold handler; rewrite Hq; cbn [deref mbind result_mbind result_bind]; rewrite E;
  cbn [mbind result_mbind result_bind].

Section sessions.
Context (sq_pages : Z -> Z -> nvme_command) (cq_pages : Z -> Z -> nvme_completion).

Lemma admin_sqe_ok q room m eid : admin_ok q room m -> 0 <= eid < q.(sq_depth) -> admin_sqe q eid = Ok (m eid).
Proof.
  intros [_ _ S D] H. unfold admin_sqe. rewrite S. cbn [deref mbind result_mbind result_bind].
  by rewrite cell_in by lia.
Qed.

(** Posting, whatever was done to the rest before. *)
Lemma post_ok c c1 q room m n eid ret r0 :
  c.(admin_q) = Some q -> admin_ok q room m -> 0 <= eid < q.(sq_depth) -> 0 <= n -> ring_at q.(aq_ring) n ->
  c1.(admin_q) = Some q -> same_rest c c1 ->
  exists c', __make_cq_entry_results c1 eid ret r0 0 = Ok c' /\ answered c c' q n eid ret (m eid) /\
    c'.(dev) = c1.(dev) /\ c'.(hmem) = c1.(hmem).
Proof.
  intros Hq A He Hn Hr H1 S. unfold __make_cq_entry_results. rewrite H1. cbn [deref mbind result_mbind result_bind].
  rewrite (admin_sqe_ok q room m eid A He), (ao_cq _ _ _ A). cbn [mbind result_mbind result_bind negb].
  destruct (ring_post_ok q.(aq_ring) n (admin_cqe (m eid).(Queues.command_id) eid ret r0 0) (ao_ring _ _ _ A) Hn Hr)
    as (r & -> & R1 & R2 & R3 & R4).
  cbn [mbind result_mbind result_bind]. eexists. split; [done|]. split; [|done]. split; [|exact S].
  exists r. split; [done|]. split; [done|]. split; [done|]. split; [done|]. by exists r0.
Qed.

Lemma lo16_range x : 0 <= lo16 x < 65536.
Proof. apply Z.mod_pos_bound. lia. Qed.
Lemma hi16_range x : 0 <= hi16 x < 65536.
Proof. apply Z.mod_pos_bound. lia. Qed.

Lemma install_cq_ok d i q : 0 <= i <= NR_MAX_IO_QUEUE -> install_cq d i q = Ok (set_cqes d (upd d.(cqes) i q)).
Proof. intros H. unfold install_cq. by rewrite modify_in by lia. Qed.
Lemma install_sq_ok d i q : 0 <= i <= NR_MAX_IO_QUEUE -> install_sq d i q = Ok (set_sqes d (upd d.(sqes) i q)).
Proof. intros H. unfold install_sq. by rewrite modify_in by lia. Qed.

Section one.
Context (c : controller) (eid : Z) (q : nvmev_admin_queue) (room : Z) (m : Z -> nvme_command) (n : Z).
Context (Hq : c.(admin_q) = Some q) (A : admin_ok q room m) (He : 0 <= eid < q.(sq_depth))
  (Hn : 0 <= n) (Hr : ring_at q.(aq_ring) n).

#[local] Abbreviation replies x ret := (exists c', x = Ok c' /\ answered c c' q n eid ret (m eid)).

Lemma replied c1 ret r0 : c1.(admin_q) = Some q -> same_rest c c1 ->
  replies (__make_cq_entry_results c1 eid ret r0 0) ret.
Proof.
  intros H1 H2. destruct (post_ok c c1 q room m n eid ret r0 Hq A He Hn Hr H1 H2) as (c' & ? & ? & _). by exists c'.
Qed.

Lemma sqe_at : admin_sqe q eid = Ok (m eid).
Proof. by apply (admin_sqe_ok q room). Qed.

Lemma queue_commands_ok : lo16 (m eid).(cdw10) <= NR_MAX_IO_QUEUE ->
  replies (__nvmev_admin_delete_sq c eid) NVME_SC_SUCCESS /\
  replies (__nvmev_admin_create_sq sq_pages c eid) NVME_SC_SUCCESS /\
  replies (__nvmev_admin_delete_cq c eid) NVME_SC_SUCCESS /\
  replies (__nvmev_admin_create_cq cq_pages c eid) NVME_SC_SUCCESS.
Proof.
  intros Hi. pose proof (lo16_range (cdw10 (m eid))) as Lo. pose proof sqe_at as E.
  repeat split.
  - fetch __nvmev_admin_delete_sq Hq E. rewrite install_sq_ok by lia. by apply replied.
  - fetch __nvmev_admin_create_sq Hq E. rewrite install_sq_ok by (cbn; lia). by apply replied.
  - fetch __nvmev_admin_delete_cq Hq E. rewrite install_cq_ok by lia. by apply replied.
  - fetch __nvmev_admin_create_cq Hq E. rewrite install_cq_ok by (cbn; lia). by apply replied.
Qed.

Lemma log_page_ok :
  ((m eid).(cdw10) mod 256 = NVME_LOG_SMART -> log_len (m eid) <= SMART_LOG_SIZE) ->
  ((m eid).(cdw10) mod 256 = NVME_LOG_CMD_EFFECTS -> log_len (m eid) <= EFFECTS_LOG_SIZE) ->
  replies (__nvmev_admin_get_log_page c eid) NVME_SC_SUCCESS.
Proof.
  intros L1 L2. pose proof sqe_at as E. fetch __nvmev_admin_get_log_page Hq E.
  destruct (Z.eqb_spec (cdw10 (m eid) mod 256) NVME_LOG_SMART) as [X|X].
  { rewrite (proj2 (Z.ltb_ge _ _) (L1 X)). by apply replied. }
  destruct (Z.eqb_spec (cdw10 (m eid) mod 256) NVME_LOG_CMD_EFFECTS) as [Y|Y].
  { rewrite (proj2 (Z.ltb_ge _ _) (L2 Y)). by apply replied. }
  by apply replied.
Qed.

Lemma identify_ok :
  (i32 (m eid).(cdw10) = 0 -> u32 ((m eid).(nsid) - 1) < c.(nr_ns)) ->
  (i32 (m eid).(cdw10) = 3 -> 0 <= i32 ((m eid).(nsid) - 1) < c.(nr_ns)) ->
  replies (__nvmev_admin_identify c eid)
    (if (0 <=? i32 (m eid).(cdw10)) && (i32 (m eid).(cdw10) <=? 3) then NVME_SC_SUCCESS else NVME_SC_INVALID_OPCODE).
Proof.
  intros N1 N2. pose proof sqe_at as E. fetch __nvmev_admin_identify Hq E.
  pose proof (u32_range ((m eid).(nsid) - 1)).
  destruct (Z.eqb_spec (i32 (cdw10 (m eid))) 0) as [X0|X0].
  { rewrite X0. fetch __nvmev_admin_identify_namespace Hq E. unfold ns_at. rewrite cell_in by (specialize (N1 X0); lia). by apply replied. }
  destruct (Z.eqb_spec (i32 (cdw10 (m eid))) 1) as [X1|X1].
  { rewrite X1. fetch __nvmev_admin_identify_ctrl Hq E. by apply replied. }
  destruct (Z.eqb_spec (i32 (cdw10 (m eid))) 2) as [X2|X2].
  { rewrite X2. fetch __nvmev_admin_identify_namespaces Hq E. by apply replied. }
  destruct (Z.eqb_spec (i32 (cdw10 (m eid))) 3) as [X3|X3].
  { rewrite X3. fetch __nvmev_admin_identify_namespace_desc Hq E. unfold ns_at. rewrite cell_in by (specialize (N2 X3); lia). by apply replied. }
  replace (_ && _) with false by (symmetry; apply andb_false_iff; rewrite Z.leb_gt, Z.leb_gt; lia).
  by apply replied.
Qed.

Lemma features_ok :
  replies (__nvmev_admin_set_features c eid) NVME_SC_SUCCESS /\
  replies (__nvmev_admin_get_features c eid) NVME_SC_SUCCESS.
Proof.
  pose proof sqe_at as E. split.
  - fetch __nvmev_admin_set_features Hq E. case_match; by apply replied.
  - fetch __nvmev_admin_get_features Hq E. by apply replied.
Qed.

(** One command. *)
Lemma proc_admin_req_ok :
  acceptable c.(nr_ns) (m eid) ->
  exists c', __nvmev_proc_admin_req sq_pages cq_pages c eid = Ok c' /\
    match status_of (m eid) with
    | None => c' = c
    | Some ret => answered c c' q n eid ret (m eid)
    end.
Proof.
  intros [Aq Al An]. pose proof sqe_at as E. fetch __nvmev_proc_admin_req Hq E.
  unfold status_of. revert Aq Al An. generalize (opcode (m eid)) as op. intros op Aq Al An.
  destruct (Z.eqb_spec op nvme_admin_delete_sq) as [->|O0]; [by apply queue_commands_ok, Aq; repeat constructor|].
  destruct (Z.eqb_spec op nvme_admin_create_sq) as [->|O1]; [by apply queue_commands_ok, Aq; repeat constructor|].
  destruct (Z.eqb_spec op nvme_admin_get_log_page) as [->|O2]; [by apply log_page_ok; apply Al|].
  destruct (Z.eqb_spec op nvme_admin_delete_cq) as [->|O3]; [by apply queue_commands_ok, Aq; repeat constructor|].
  destruct (Z.eqb_spec op nvme_admin_create_cq) as [->|O4]; [by apply queue_commands_ok, Aq; repeat constructor|].
  destruct (Z.eqb_spec op nvme_admin_identify) as [->|O5]; [by apply identify_ok; apply An|].
  destruct (Z.eqb_spec op nvme_admin_abort_cmd) as [->|O6]; [by exists c|].
  destruct (Z.eqb_spec op nvme_admin_set_features) as [->|O7]; [by apply features_ok|].
  destruct (Z.eqb_spec op nvme_admin_get_features) as [->|O8]; [by apply features_ok|].
  destruct (Z.eqb_spec op nvme_admin_async_event) as [->|O9]; [by apply replied|].
  rewrite decide_False; [by apply replied|].
  intros H. repeat (apply elem_of_cons in H as [->|H]; [done|]). by apply elem_of_nil in H.
Qed.
End one.

(** The admin queue after the commands in the entries [l] were answered, [n]
    completions having been posted before. *)
Record session (q0 q : nvmev_admin_queue) (m : Z -> nvme_command) (n : Z) (l : list Z) : Prop := {
  se_queue : exists r, q = set_aq_ring q0 r;
  se_at : ring_at q.(aq_ring) (n + Z.of_nat (length l));
  se_size : q.(aq_ring).(queue_size) = q0.(aq_ring).(queue_size) /\ q.(aq_ring).(room) = q0.(aq_ring).(room);
  se_entries : forall k i, l !! k = Some i ->
    Z.of_nat (length l) - q0.(aq_ring).(queue_size) <= Z.of_nat k ->
    exists r0, q.(aq_ring).(entries) ((n + Z.of_nat k) mod q0.(aq_ring).(queue_size)) =
      admin_cqe (m i).(Queues.command_id) i (default NVME_SC_SUCCESS (status_of (m i))) r0 0
        (tag ((n + Z.of_nat k) / q0.(aq_ring).(queue_size)));
  se_outside : forall i, q0.(aq_ring).(queue_size) <= i -> q.(aq_ring).(entries) i = q0.(aq_ring).(entries) i
}.

Lemma session_snoc q0 q c c' m n l eid ret :
  ring_ok q0.(aq_ring) -> 0 <= n -> session q0 q m n l -> status_of (m eid) = Some ret ->
  answered c c' q (n + Z.of_nat (length l)) eid ret (m eid) ->
  exists q', c'.(admin_q) = Some q' /\ session q0 q' m n (l ++ [eid]).
Proof.
  intros [R1 R2] Hn [[r0 Eq] At [S1 S2] En Out] St [(r & Hc & At' & S1' & S2' & x & E) _].
  exists (set_aq_ring q r). split; [exact Hc|]. split; cbn [set_aq_ring aq_ring].
  - exists r. by rewrite Eq.
  - rewrite length_app. cbn [length]. by replace (n + Z.of_nat (length l + 1)) with (n + Z.of_nat (length l) + 1) by lia.
  - by rewrite S1', S2'.
  - intros k i Hk Hl. rewrite length_app in Hl. cbn [length] in Hl. rewrite E, S1.
    apply lookup_app_Some in Hk as [Hk|[Hge Hk]].
    + pose proof (lookup_lt_Some _ _ _ Hk). rewrite upd_ne by (apply mod_ne; lia). apply En; [done|lia].
    + apply list_lookup_singleton_Some in Hk as [Hk <-]. exists x. rewrite St.
      replace (n + Z.of_nat k) with (n + Z.of_nat (length l)) by lia. by rewrite upd_eq.
  - intros i Hi. rewrite E, S1. pose proof (Z.mod_pos_bound (n + Z.of_nat (length l)) _ R1).
    rewrite upd_ne by lia. by apply Out.
Qed.

(** The entries whose command gets a completion. *)
Definition wanted (m : Z -> nvme_command) (l : list Z) : list Z :=
  List.filter (fun i => match status_of (m i) with Some _ => true | None => false end) l.

Lemma admin_loop_ok k c q0 q room m n l e :
  c.(admin_q) = Some q -> admin_ok q0 room m -> session q0 q m n l -> 0 <= n -> 0 <= e < q0.(sq_depth) ->
  (forall i, i ∈ slice k q0.(sq_depth) e -> acceptable c.(nr_ns) (m i)) ->
  exists c' q', admin_loop sq_pages cq_pages k c e = Ok c' /\ c'.(admin_q) = Some q' /\
    session q0 q' m n (l ++ wanted m (slice k q0.(sq_depth) e)) /\ same_rest c c'.
Proof.
  revert c q l e. induction k as [|k IH]; intros c q l e Hq A S Hn He Acc; cbn [admin_loop slice wanted List.filter].
  { exists c, q. rewrite app_nil_r. pose proof (same_rest_refl c). tauto. }
  pose proof (se_queue _ _ _ _ _ S) as [r Eq].
  assert (Aq : admin_ok q room m).
  { destruct A as [A1 A2 A3 A4], (se_size _ _ _ _ _ S) as [S1 S2]. split.
    - unfold ring_ok in *. by rewrite S1, S2.
    - by rewrite Eq.
    - by rewrite Eq.
    - by rewrite Eq. }
  assert (Dq : q.(sq_depth) = q0.(sq_depth)) by by rewrite Eq.
  assert (Hadv : 0 <= advance q0.(sq_depth) e < q0.(sq_depth)).
  { rewrite advance_mod by done. apply Z.mod_pos_bound. lia. }
  destruct (proc_admin_req_ok c e q room m (n + Z.of_nat (length l)) Hq Aq) as (c1 & E & St).
  { by rewrite Dq. } { lia. } { apply (se_at _ _ _ _ _ S). } { apply Acc. by left. }
  rewrite E. cbn [mbind result_mbind result_bind].
  assert (X : exists q1 l1, c1.(admin_q) = Some q1 /\ session q0 q1 m n l1 /\ same_rest c c1 /\
    l1 = l ++ match status_of (m e) with Some _ => [e] | None => [] end).
  { destruct (status_of (m e)) as [ret|] eqn:Es.
    - pose proof (an_rest _ _ _ _ _ _ _ St) as Sr.
      destruct (session_snoc q0 q c c1 m n l e ret (ao_ring _ _ _ A) Hn S Es St) as (q1 & H1 & S1).
      by exists q1, (l ++ [e]).
    - subst c1. exists q, l. rewrite app_nil_r. pose proof (same_rest_refl c). tauto. }
  destruct X as (q1 & l1 & H1 & S1 & Sr & ->). rewrite H1. cbn [deref mbind result_mbind result_bind].
  assert (Dq1 : q1.(sq_depth) = q0.(sq_depth)) by (destruct (se_queue _ _ _ _ _ S1) as [r1 ->]; done).
  rewrite Dq1. fold (advance (sq_depth q0) e).
  destruct (IH c1 q1 _ (advance (sq_depth q0) e) H1 A S1 Hn Hadv) as (c' & q' & E' & H' & S' & Sr').
  { intros i Hi. replace (nr_ns c1) with (nr_ns c) by (symmetry; apply Sr). apply Acc. by right. }
  exists c', q'. split; [exact E'|]. split; [exact H'|]. split.
  - rewrite <- app_assoc in S'. by destruct (status_of (m e)).
  - destruct Sr as (? & ? & ? & ? & ? & ?), Sr' as (? & ? & ? & ? & ? & ?). repeat split; congruence.
Qed.

(** C14 (admin commands): when the doorbell of the admin queue moves from [old] to [new] every
    command in between is carried out in ring order and answered, except abort, by exactly one
    completion in the same order: with its identifier and entry, success or an invalid opcode, and
    the phase tag of its lap.  Abort commands get no completion at all. *)
Theorem proc_admin_sq_correct c q room m n new old :
  c.(admin_q) = Some q -> admin_ok q room m -> 0 <= n -> ring_at q.(aq_ring) n ->
  0 <= old < q.(sq_depth) -> 0 <= new < q.(sq_depth) ->
  let taken := slice (Z.to_nat ((new - old) mod q.(sq_depth))) q.(sq_depth) old in
  (forall i, i ∈ taken -> acceptable c.(nr_ns) (m i)) ->
  exists c' q', nvmev_proc_admin_sq sq_pages cq_pages c new old = Ok c' /\ c'.(admin_q) = Some q' /\
    session q q' m n (wanted m taken) /\ same_rest c c'.
Proof.
  intros Hq A Hn Hr Ho Hw taken Acc. unfold nvmev_proc_admin_sq. rewrite Hq. cbn [deref mbind result_mbind result_bind].
  pose proof (ao_depth _ _ _ A) as [D1 D2]. rewrite (i32_small (new - old)), (i32_small (new - old + _)) by lia.
  rewrite <- diff_mod by done.
  destruct (admin_loop_ok (Z.to_nat ((new - old) mod q.(sq_depth))) c q q room m n [] old Hq A) as (c' & q' & E & H' & S & Sr);
    try done.
  - split; try done.
    + exists q.(aq_ring). by destruct q.
    + by rewrite Z.add_0_r.
  - by exists c', q'.
Qed.
End sessions.

(** ** Queues *)

Lemma pages_hold size bytes : 0 < bytes -> 4096 mod bytes = 0 -> 0 < size -> size <= entries_in_pages size bytes.
Proof.
  intros Hb Hd Hs. unfold entries_in_pages, DIV_ROUND_UP. rewrite PAGE_val.
  pose proof (Z.div_mod 4096 bytes ltac:(lia)) as D. rewrite Hd in D.
  pose proof (Z.div_mod (size * bytes + 4096 - 1) 4096 ltac:(lia)).
  pose proof (Z.mod_pos_bound (size * bytes + 4096 - 1) 4096 ltac:(lia)).
  assert (size * bytes <= 4096 * ((size * bytes + 4096 - 1) / 4096)) by lia. nia.
Qed.

Lemma new_cq_ok cq_pages cmd : ring_ok (new_cq cq_pages cmd).(cq_ring) /\ ring_at (new_cq cq_pages cmd).(cq_ring) 0.
Proof.
  pose proof (hi16_range cmd.(cdw10)). split; [|by split]. split; cbn [new_cq cq_ring queue_size room]; [lia|].
  apply pages_hold; done || lia.
Qed.

Lemma new_sq_ok sq_pages cmd : sq_ok (new_sq sq_pages cmd).
Proof.
  pose proof (hi16_range cmd.(cdw10)). split; cbn [new_sq sq_size sq_room]; [split; [lia|]|lia].
  apply pages_hold; done || lia.
Qed.

(** Doorbell [i] and its last value are zero, the others are as before. *)
Definition rearmed (d d' : nvmev_dev) (i : Z) : Prop :=
  d'.(dbs) i = 0 /\ d'.(old_dbs) i = 0 /\
  forall j, j <> i -> d'.(dbs) j = d.(dbs) j /\ d'.(old_dbs) j = d.(old_dbs) j.

Lemma rearmed_reset d i : rearmed d (reset_db d i) i.
Proof. unfold rearmed, reset_db. cbn. rewrite !upd_eq. repeat split; by rewrite upd_ne. Qed.

Section creating.
Context (sq_pages : Z -> Z -> nvme_command) (cq_pages : Z -> Z -> nvme_completion).

(** C34 (queue creation): creating a queue under an id up to 72 puts a fresh queue of the size asked
    for there - its pages hold all its entries, its ring is at the start of the first lap, its
    doorbell is zero - leaves all other queues alone and is answered once; any larger id makes the
    commands that create and delete queues write past the table of queues. *)
Theorem create_queues_correct c q room m n eid :
  c.(admin_q) = Some q -> admin_ok q room m -> 0 <= eid < q.(sq_depth) -> 0 <= n -> ring_at q.(aq_ring) n ->
  let id := lo16 (m eid).(cdw10) in
  (id <= NR_MAX_IO_QUEUE ->
    (exists c' cq, __nvmev_admin_create_cq cq_pages c eid = Ok c' /\ answered c c' q n eid NVME_SC_SUCCESS (m eid) /\
       c'.(dev).(cqes) id = Some cq /\ cq.(cq_ring).(queue_size) = hi16 (m eid).(cdw10) + 1 /\
       ring_ok cq.(cq_ring) /\ ring_at cq.(cq_ring) 0 /\ c'.(dev).(sqes) = c.(dev).(sqes) /\
       (forall i, i <> id -> c'.(dev).(cqes) i = c.(dev).(cqes) i) /\ rearmed c.(dev) c'.(dev) (id * 2 + 1)) /\
    (exists c' sq, __nvmev_admin_create_sq sq_pages c eid = Ok c' /\ answered c c' q n eid NVME_SC_SUCCESS (m eid) /\
       c'.(dev).(sqes) id = Some sq /\ sq.(sq_size) = hi16 (m eid).(cdw10) + 1 /\
       sq.(sq_cqid) = hi16 (m eid).(cdw11) /\ sq_ok sq /\ c'.(dev).(cqes) = c.(dev).(cqes) /\
       (forall i, i <> id -> c'.(dev).(sqes) i = c.(dev).(sqes) i) /\ rearmed c.(dev) c'.(dev) (id * 2))) /\
  (NR_MAX_IO_QUEUE < id ->
    __nvmev_admin_create_cq cq_pages c eid = Err OOB /\ __nvmev_admin_create_sq sq_pages c eid = Err OOB /\
    __nvmev_admin_delete_cq c eid = Err OOB /\ __nvmev_admin_delete_sq c eid = Err OOB).
Proof.
  intros Hq A He Hn Hr id. pose proof (admin_sqe_ok q room m eid A He) as E.
  pose proof (lo16_range (cdw10 (m eid))) as Lo. split.
  - intros Hi. split.
    + fetch __nvmev_admin_create_cq Hq E. rewrite install_cq_ok by (cbn; lia). cbn [mbind result_mbind result_bind]. unfold __make_cq_entry.
      set (c1 := set_dev c _). destruct (post_ok c c1 q room m n eid NVME_SC_SUCCESS 0 Hq A He Hn Hr Hq) as (c' & -> & An & Ed & _);
        [by repeat split|].
      exists c', (new_cq cq_pages (m eid)). split; [done|]. split; [exact An|]. rewrite Ed.
      destruct (new_cq_ok cq_pages (m eid)). split; [by unfold c1; cbn; rewrite upd_eq|].
      repeat (split; [done|]). split; [|exact (rearmed_reset (dev c) _)]. intros i Hne. cbn. by rewrite upd_ne.
    + fetch __nvmev_admin_create_sq Hq E. rewrite install_sq_ok by (cbn; lia). cbn [mbind result_mbind result_bind]. unfold __make_cq_entry.
      set (c1 := set_dev c _). destruct (post_ok c c1 q room m n eid NVME_SC_SUCCESS 0 Hq A He Hn Hr Hq) as (c' & -> & An & Ed & _);
        [by repeat split|].
      exists c', (new_sq sq_pages (m eid)). split; [done|]. split; [exact An|]. rewrite Ed.
      split; [by unfold c1; cbn; rewrite upd_eq|]. split; [done|]. split; [done|]. split; [apply new_sq_ok|].
      split; [done|]. split; [|exact (rearmed_reset (dev c) _)]. intros i Hne. cbn. by rewrite upd_ne.
  - intros Hi. assert (X : forall B (a : Z -> B) f, modify a (NR_MAX_IO_QUEUE + 1) id f = Err OOB).
    { intros B a f. unfold modify. rewrite (proj2 (Z.ltb_ge _ _)), andb_false_r by lia. done. }
    repeat split.
    + fetch __nvmev_admin_create_cq Hq E. unfold install_cq. cbn [cq_qid new_cq]. fold id. by rewrite X.
    + fetch __nvmev_admin_create_sq Hq E. unfold install_sq. cbn [sq_qid new_sq]. fold id. by rewrite X.
    + fetch __nvmev_admin_delete_cq Hq E. unfold install_cq. fold id. by rewrite X.
    + fetch __nvmev_admin_delete_sq Hq E. unfold install_sq. fold id. by rewrite X.
Qed.
End creating.

(** ** Bringing the controller up *)

Section bringing_up.
Context (sq_pages : Z -> Z -> nvme_command) (cq_pages : Z -> Z -> nvme_completion).

(** The registers at each of the dispatcher's turns. *)
Fixpoint bars_run (c : controller) (l : list registers) : result controller :=
  match l with [] => Ok c | b :: l => c ← nvmev_proc_bars sq_pages cq_pages c b; bars_run c l end.

(** C35 (registers): within four turns of the dispatcher a device that has no admin queue notices the
    queue attributes, both queue addresses and the enable bit once they are written, one in each turn
    and in this order: the admin queue has the depths and pages asked for and is at its first
    lap, and the controller is ready.  A shutdown and a restart with the same addresses set the
    head of the completion queue back but keep the phase tag, so that after an odd number of laps
    the completions of the new session look old to the host. *)
Theorem proc_bars_correct c bar q n off on :
  (c.(admin_q) = None -> c.(old_bar) = mk_regs 0 0 0 0 ->
   bar.(aqa) <> 0 -> bar.(asq) <> 0 -> bar.(acq) <> 0 -> cc_en bar.(cc) = 1 -> cc_shn bar.(cc) = 0 -> bar.(cc) <> 0 ->
   exists c' q' room, bars_run c [bar; bar; bar; bar] = Ok c' /\ c'.(admin_q) = Some q' /\
     admin_ok q' room (sq_pages (Z.shiftl (PRP_PFN bar.(asq)) PAGE_SHIFT)) /\ ring_at q'.(aq_ring) 0 /\
     q'.(sq_depth) = asqs bar.(aqa) + 1 /\ q'.(aq_ring).(queue_size) = acqs bar.(aqa) + 1 /\
     c'.(old_bar) = bar /\ c'.(rdy) = 1) /\
  (c.(admin_q) = Some q -> ring_at q.(aq_ring) n ->
   let b := c.(old_bar) in
   let off1 := mk_regs b.(aqa) b.(asq) b.(acq) off in
   let on1 := mk_regs b.(aqa) b.(asq) b.(acq) on in
   off <> b.(cc) -> on <> off -> cc_shn off = 1 -> cc_en on = 1 -> cc_shn on = 0 ->
   exists c' q', bars_run c [off1; on1] = Ok c' /\ c'.(admin_q) = Some q' /\ c'.(rdy) = 1 /\
     q'.(aq_ring).(cq_head) = 0 /\ q'.(aq_ring).(phase) = tag (n / q.(aq_ring).(queue_size))).
Proof.
  split.
  - intros Hq Hb H1 H2 H3 H4 H5 H6. pose proof (Z.mod_pos_bound bar.(aqa) 4096 ltac:(lia)) as B1.
    pose proof (Z.mod_pos_bound (bar.(aqa) / 65536) 4096 ltac:(lia)) as B2.
    destruct c as [d a ob r s h na nn md]; cbn in Hq, Hb; subst. unfold bars_run, nvmev_proc_bars.
    cbn [old_bar aqa]. rewrite (proj2 (Z.eqb_neq 0 _)) by done.
    cbn [negb admin_q old_bar aqa asq acq cc set_dev set_admin set_bar mbind result_mbind result_bind].
    rewrite Z.eqb_refl, (proj2 (Z.eqb_neq 0 bar.(asq))) by done.
    cbn [negb admin_q old_bar aqa asq acq cc set_dev set_admin set_bar mbind result_mbind result_bind].
    rewrite !Z.eqb_refl, (proj2 (Z.eqb_neq 0 bar.(acq))) by done.
    cbn [negb admin_q old_bar aqa asq acq cc set_dev set_admin set_bar mbind result_mbind result_bind].
    rewrite !Z.eqb_refl, (proj2 (Z.eqb_neq 0 bar.(cc))), H4, H5 by done.
    cbn [negb admin_q old_bar aqa asq acq cc set_dev set_admin set_bar mbind result_mbind result_bind Z.eqb Pos.eqb].
    eexists _, _, _. split; [done|]. cbn. split; [done|]. split.
    + split; cbn; [|done..|].
      * split; cbn; unfold acqs; [lia|]. apply pages_hold; done || lia.
      * unfold asqs. split; [|lia]. split; [lia|]. apply pages_hold; done || lia.
    + split; [by split|]. split; [done|]. split; [done|]. split; [by destruct bar|done].
  - intros Hq [R1 R2] b off1 on1 H1 H2 H3 H4 H5.
    destruct c as [d a ob r s h na nn md]; cbn in Hq; subst a b off1 on1. unfold bars_run, nvmev_proc_bars.
    cbn [old_bar aqa asq acq cc]. rewrite !Z.eqb_refl, (proj2 (Z.eqb_neq (cc ob) off)), H3 by done.
    cbn [negb deref admin_q old_bar aqa asq acq cc set_dev set_admin set_bar mbind result_mbind result_bind Z.eqb Pos.eqb].
    rewrite !Z.eqb_refl, (proj2 (Z.eqb_neq off on)), H4, H5 by done.
    cbn [negb deref admin_q old_bar aqa asq acq cc set_dev set_admin set_bar mbind result_mbind result_bind Z.eqb Pos.eqb].
    eexists _, _. split; [done|]. cbn. done.
Qed.
End bringing_up.

(** ** Witnesses *)

(** Identify the controller, abort, create completion queue 2 with 64 entries. *)
Definition ex_admin_sq : Z -> nvme_command := fun i =>
  if i =? 3 then mk_nvme 6 30 0 0 0 4096 0 1 0 0 []
  else if i =? 4 then mk_nvme 8 31 0 0 0 0 0 0 0 0 []
  else mk_nvme 5 32 0 0 0 8192 0 (2 + 65536 * 63) 3 0 [].

Definition ex_aq : nvmev_admin_queue :=
  mk_aq (mk_ring 8 0 1 256 (fun _ => mk_cqe 0 0 0 0 0 0)) true 8 (Some (64, ex_admin_sq)).

Definition ex_ctrl : controller :=
  mk_ctrl (ex_dev worker_init) (Some ex_aq) (mk_regs 7 4096 8192 1) 1 0 (fun _ => 0)
    (fun _ => mk_ns 1048576 0) 1 6.

Definition no_sq_pages (_ _ : Z) : nvme_command := ex_cmd 0.
Definition no_cq_pages (_ _ : Z) : nvme_completion := mk_cqe 0 0 0 0 0 0.

Lemma ex_admin_ok : admin_ok ex_aq 64 ex_admin_sq.
Proof. by repeat split. Qed.

(** The abort command is skipped: the second completion is that of entry 5. *)
Lemma proc_admin_sq_correct_witness :
  exists c' q', nvmev_proc_admin_sq no_sq_pages no_cq_pages ex_ctrl 6 3 = Ok c' /\ c'.(admin_q) = Some q' /\
    exists r0, q'.(aq_ring).(entries) 1 = admin_cqe 32 5 0 r0 0 1.
Proof.
  destruct (proc_admin_sq_correct no_sq_pages no_cq_pages ex_ctrl ex_aq 64 ex_admin_sq 0 6 3)
    as (c' & q' & E & H & S & _).
  - done.
  - apply ex_admin_ok.
  - done.
  - by split.
  - done.
  - done.
  - change (slice _ _ 3) with [3; 4; 5]. intros i Hi.
    repeat (apply elem_of_cons in Hi as [->|Hi]); [..|by apply elem_of_nil in Hi]; split; done || by intros _; split.
  - exists c', q'. split; [exact E|]. split; [exact H|]. apply (se_entries _ _ _ _ _ S 1 5); done.
Defined.

Lemma create_queues_correct_witness :
  (exists c' cq, __nvmev_admin_create_cq no_cq_pages ex_ctrl 5 = Ok c' /\ c'.(dev).(cqes) 2 = Some cq /\
     cq.(cq_ring).(queue_size) = 64) /\
  __nvmev_admin_delete_cq (set_admin ex_ctrl (Some (mk_aq ex_aq.(aq_ring) true 8
    (Some (64, fun _ => mk_nvme 4 33 0 0 0 0 0 100 0 0 []))))) 0 = Err OOB.
Proof.
  split.
  - destruct (create_queues_correct no_sq_pages no_cq_pages ex_ctrl ex_aq 64 ex_admin_sq 0 5) as [H _];
      [done|apply ex_admin_ok|done|done|by split|].
    destruct (H ltac:(done)) as [(c' & cq & E & _ & I & S & _) _]. exists c', cq. split; [exact E|]. split; [exact I|exact S].
  - apply (create_queues_correct no_sq_pages no_cq_pages (set_admin ex_ctrl (Some (mk_aq ex_aq.(aq_ring) true 8
      (Some (64, fun _ => mk_nvme 4 33 0 0 0 0 0 100 0 0 []))))) (mk_aq ex_aq.(aq_ring) true 8
      (Some (64, fun _ => mk_nvme 4 33 0 0 0 0 0 100 0 0 []))) 64 (fun _ => mk_nvme 4 33 0 0 0 0 0 100 0 0 []) 0 0);
      [done|by repeat split|done|done|by split|done].
Defined.

(** A restart after one lap: the tag is 0. *)
Lemma proc_bars_correct_witness :
  (exists c' q', bars_run no_sq_pages no_cq_pages
       (mk_ctrl (ex_dev worker_init) None (mk_regs 0 0 0 0) 0 0 (fun _ => 0) (fun _ => mk_ns 0 0) 1 6)
       (let b := mk_regs (31 + 65536 * 15) 40960 45056 1 in [b; b; b; b]) = Ok c' /\
     c'.(admin_q) = Some q' /\ q'.(sq_depth) = 32 /\ c'.(rdy) = 1) /\
  (exists c' q', bars_run no_sq_pages no_cq_pages
       (set_admin ex_ctrl (Some (set_aq_ring ex_aq (mk_ring 8 3 0 256 (fun _ => mk_cqe 0 0 0 0 0 0)))))
       [mk_regs 7 4096 8192 16385; mk_regs 7 4096 8192 1] = Ok c' /\
     c'.(admin_q) = Some q' /\ q'.(aq_ring).(cq_head) = 0 /\ q'.(aq_ring).(phase) = 0).
Proof.
  split.
  - destruct (proc_bars_correct no_sq_pages no_cq_pages
       (mk_ctrl (ex_dev worker_init) None (mk_regs 0 0 0 0) 0 0 (fun _ => 0) (fun _ => mk_ns 0 0) 1 6)
       (mk_regs (31 + 65536 * 15) 40960 45056 1) ex_aq 0 0 0) as [H _].
    destruct (H eq_refl eq_refl ltac:(done) ltac:(done) ltac:(done) eq_refl eq_refl ltac:(done))
      as (c' & q' & r & E & Q & _ & _ & D & _ & _ & R).
    exists c', q'. split; [exact E|]. split; [exact Q|]. split; [exact D|exact R].
  - destruct (proc_bars_correct no_sq_pages no_cq_pages
       (set_admin ex_ctrl (Some (set_aq_ring ex_aq (mk_ring 8 3 0 256 (fun _ => mk_cqe 0 0 0 0 0 0)))))
       (mk_regs 0 0 0 0) (set_aq_ring ex_aq (mk_ring 8 3 0 256 (fun _ => mk_cqe 0 0 0 0 0 0))) 11 16385 1) as [_ H].
    destruct (H eq_refl ltac:(by split) ltac:(done) ltac:(done) eq_refl eq_refl eq_refl)
      as (c' & q' & E & Q & _ & Hh & P).
    exists c', q'. split; [exact E|]. split; [exact Q|]. split; [exact Hh|exact P].
Defined.
